(* ===== verification/_CoqProject ===== *)
-Q . S2P
Prelude.v
Bytes.v
Bitmap.v
Util.v
Bheap.v
Dlist.v
Locks.v
Hashmap.v
Ringbuffer.v
Sampler.v
Common.v
Bootmem.v
Memory.v
PageAlloc.v
Slab.v
Heap.v
Mts.v
Dentry.v
File.v
Vfs.v
Mmu.v
Sched.v
Pipe.v
PipeLive.v
Netutil.v
Kmem.v
Netdev.v
Ipv4.v
Arp.v
Tick.v
Inet.v
Tcp.v
Dhcp.v
Socket.v
Netin.v
Frames.v
Initrd.v
Initramfs.v
Task.v
Syscall.v
Irq.v
Ps2.v
Tty.v
Devfs.v
Console.v
Binfmt.v
Device.v
Pci.v
Kprint.v
Vga.v
Vbe.v
Acpi.v
