(* ===== verification/Prelude.v ===== *)
(** * micael: a verification library for the kernel's core

    micael is a 64-bit monolithic kernel in C: memory management, a
    multi-CPU scheduler, a virtual file system, pipes and a network stack.
    This library models its core as executable definitions, one file per
    component, and proves what the components do: where they keep their
    promises, and, where the C code does not, exactly what happens instead.

    ** Conventions

    All files follow the amd64 build.  An integer of the code is a [Z] with
    its wrap-around written out ([u8] to [u64], [s8] to [s64] below).  A
    computation that may go wrong has type [out]: [Ret] a value; [Fault], a
    null or stray pointer or an access out of bounds; [Halt], a failed
    [kassert] or a [kpanic]; [Spin], a loop or a lock that never ends.
    [Kmem.st] is the same with a state.  A result that is a value or an error
    number is a [res].  Objects live in finite maps under their addresses
    (0 is the null pointer), so that aliasing is as in the code.  Loops whose
    end is not structural carry fuel that is computed from the data (the
    number of nodes of the store, the bytes left); the theorems show that the
    fuel suffices, or that the result is [Spin] because the loop of the code
    does not end.  A call that puts its caller to sleep is split there: the
    first part returns the switch, [..._resume] is what runs after the
    wake-up.

    ** Files

    Shared: Prelude (integers, [out], arithmetic tactics), Bytes (blocks of
    bytes), Common (include/kernel/common.h, include/mm/types.h), Memory
    (the interfaces [PageSource] and [EntrySource] between the allocators and
    their clients, and the direct map), Kmem (the state monad, the memory of
    the network stack).

    Libraries (kernel/lib, kernel/kernel/util.c): Bitmap, Util (memory and
    string routines), Bheap (binary heap), Dlist (intrusive lists), Hashmap,
    Ringbuffer, Sampler.  Locks: kernel/sync/mutex.c and spinlock.h, with
    an interleaving semantics of any number of CPUs.

    Memory management (kernel/mm, kernel/arch/amd64): Bootmem (memory map and
    boot allocator), PageAlloc (page frames), Slab, Heap ([kmalloc]), Mmu
    (page tables, copy-on-write faults).

    Scheduling (kernel/sched, kernel/sync/wait.c, kernel/kernel/tick.c): Mts
    (run queues and priorities), Sched (task switching, wait queues), Tick
    (timers), Task (tasks and their relations), Syscall (fork, exec, exit,
    wait and the calls on files), Irq (the table of interrupt handlers).

    File systems (kernel/fs): Dentry (dentries and inodes), File, Vfs
    (mounts, path lookup, contexts), Pipe and PipeLive (pipes, and any number
    of CPUs using one), Initrd (toolchain/util/mkinitrd.c, the image of the
    initial ramdisk) and Initramfs (the file system that reads it), Devfs
    (device files), Binfmt (the program loader).

    Devices (kernel/drivers, kernel/kernel/acpi): Ps2 (keyboard), Tty
    (reading and writing lines), Console (making and opening the two), Kprint
    (formatted output), Vga and Vbe (the text and the graphics screen), Device
    (the registry of devices and drivers), Pci (the bus), Acpi (the tables of
    the processors).

    Network (kernel/net, kernel/drivers/net): Netutil (addresses, byte
    order), Netdev (packets, address table, the card), Ipv4 (Ethernet, IPv4
    and UDP output), Arp, Inet (sockets' buffers), Tcp, Dhcp, Socket (the
    calls on sockets), Netin (the handlers of incoming frames), Frames (a
    datagram from one machine to another).

    ** How the parts interact

    The allocators stack as in the kernel: PageAlloc is an instance of
    [PageSource], on which Slab, Heap and Mmu are built; Slab is an instance
    of [EntrySource], the source of the objects of Mts, Dentry, Device and
    Pci.  Sched runs on any [SchedOps] and Mts is the instance; pipes,
    sockets and TCP use Sched's wait queues.  Sockets use descriptors through
    [FdOps] and its laws, and the tables of Vfs and File are the instance.
    The network files share one state: packets and bytes in Netdev's [net],
    the upper layers in Inet's.  The keyboard writes its characters to a
    pipe, from which the terminal reads its lines.  Probing the bus (Pci)
    makes the devices of the registry (Device), which starts their drivers;
    both keep their lists in one store of nodes.  The characters Kprint puts
    out are what Vga or Vbe shows.  Hardware a component talks to is a class with
    the laws it relies on ([Pci.PciPorts], [Vbe.Card]).

    ** What the theorems show

    - Libraries: [kmemmove] is correct for every overlap; the heap gives the
      greatest element and keeps its order and multiset; list edits change
      one place of the walk; the hash map refines a finite map as long as
      nothing is removed; the ring buffer is a byte queue; spinlocks exclude
      each other in every interleaving.
    - Memory: no allocator hands out memory that is in use; what is freed is
      exactly what was taken; mapping changes exactly one translation; the
      boot directory maps the first 2 GB; a write fault on a shared page ends
      with a private copy.
    - Scheduling: selection takes a best entry and loses none; blocking and
      its race with preemption; which waiters a wake-up reaches; fork returns
      twice, exit wakes the parent, wait frees the zombies; an interrupt
      calls the handlers in order, also one that was taken off.
    - Files: the recursive path walk equals the walk over the names; a
      directory can never be freed; mounting always fails; what pipe reads
      and writes do, and that a blocked writer sleeps for ever;
      what the ramdisk tool writes is what the kernel reads back; a device
      that is registered opens with its own operations; a program is loaded
      where its header says, when it is laid out in the one way that works.
    - Devices: a typed line is what is read, with its edits; formats print
      their meaning, and the digits of a number read back as the number; a
      line of text is shown in its row, and on the graphics screen a
      character in its cell; one driver for each device; a
      function on the bus is found, with its driver; the processors of the
      firmware's tables are those that are registered.
    - Network: the checksum against RFC 1071; fragments as they leave, and
      that they are never put together; a UDP datagram from the sending call
      to the reader of the other machine; which ports receive; what TCP and
      DHCP do with their input.

    A theorem whose conclusion is a defect of the code is stated with the
    exact effect, and is listed among the findings of the manifest.

    ** Not modelled

    The ACPI component architecture (vendored) and its glue; programming the
    registers of the timer, the local and I/O APICs and the disk, and
    bringing up the screen, the keyboard and the network card, which are sequences of
    port and register accesses without a state of their own; descriptor
    tables, interrupt entry and start-up code of both architectures, in
    assembly or close to it; the i386 port; the user programs; files that
    are older copies of modelled ones or are not built.  The contents of
    registers a switch of context saves are not modelled beyond those the
    system calls use, nor is the order of memory accesses weaker than the
    program's. *)

From stdpp Require Export base list gmap numbers sorting.
From Stdlib Require Export ZArith Lia.

Declare Scope micael_scope.
Delimit Scope micael_scope with micael.
#[global] Open Scope micael_scope.
#[global] Open Scope Z_scope.

(** [simpl] leaves integer comparisons folded, so that [zb] finds them. *)
#[global] Arguments Z.eqb : simpl never.
#[global] Arguments Z.ltb : simpl never.
#[global] Arguments Z.leb : simpl never.

(** ** Machine integers

    The target is amd64: [unsigned long], [size_t] and pointers have 64
    bits, [int] has 32.  An unsigned value of width [w] is the integer in
    [0, 2^w), and every operation that can leave the range is followed by
    the wrap-around below. *)

Definition wrap (w z : Z) : Z := z mod 2 ^ w.
Definition u8 (z : Z) : Z := wrap 8 z.
Definition u16 (z : Z) : Z := wrap 16 z.
Definition u32 (z : Z) : Z := wrap 32 z.
Definition u64 (z : Z) : Z := wrap 64 z.

(** Two's-complement reading of the low [w] bits. *)
Definition swrap (w z : Z) : Z :=
  let u := wrap w z in if u <? 2 ^ (w - 1) then u else u - 2 ^ w.
Definition s8 (z : Z) : Z := swrap 8 z.
Definition s16 (z : Z) : Z := swrap 16 z.
Definition s32 (z : Z) : Z := swrap 32 z.
Definition s64 (z : Z) : Z := swrap 64 z.

Definition INT_MAX : Z := 2147483647.
Definition INT_MIN : Z := -2147483648.
Definition UINT32_MAX : Z := 4294967295.
Definition ULONG_MAX : Z := 18446744073709551615.

Definition in_u (w z : Z) : Prop := 0 <= z < 2 ^ w.

Lemma wrap_small w z : in_u w z -> wrap w z = z.
Proof. intros H. unfold wrap. apply Z.mod_small. exact H. Qed.

Lemma wrap_range w z : 0 <= w -> in_u w (wrap w z).
Proof. intros Hw. apply Z.mod_pos_bound. apply Z.pow_pos_nonneg; lia. Qed.

Lemma swrap_small w z :
  0 < w -> - 2 ^ (w - 1) <= z < 2 ^ (w - 1) -> swrap w z = z.
Proof.
  intros Hw Hz. unfold swrap, wrap.
  assert (E : 2 ^ w = 2 * 2 ^ (w - 1)).
  { rewrite <- (Z.pow_succ_r 2 (w - 1)) by lia. f_equal. lia. }
  destruct (Z.leb_spec 0 z).
  - rewrite Z.mod_small by lia. destruct (Z.ltb_spec z (2 ^ (w - 1))); lia.
  - replace (z mod 2 ^ w) with (z + 2 ^ w).
    2:{ symmetry. rewrite <- (Z.mod_add z 1) by lia.
        rewrite Z.mod_small; lia. }
    destruct (Z.ltb_spec (z + 2 ^ w) (2 ^ (w - 1))); lia.
Qed.

(** The test of one bit. *)
Lemma land_bit x n : 0 <= n -> (Z.land x (2 ^ n) =? 0) = negb (Z.testbit x n).
Proof.
  intros Hn. assert (E : Z.land x (2 ^ n) = if Z.testbit x n then 2 ^ n else 0).
  { apply Z.bits_inj'. intros i Hi. rewrite Z.land_spec, Z.pow2_bits_eqb by lia. destruct (Z.eqb_spec n i) as [<- | Hne].
    - destruct (Z.testbit x n); [by rewrite Z.pow2_bits_true | by rewrite Z.bits_0].
    - rewrite andb_false_r. destruct (Z.testbit x n); [by rewrite Z.pow2_bits_false | by rewrite Z.bits_0]. }
  rewrite E. destruct (Z.testbit x n); [| done]. apply Z.eqb_neq, Z.pow_nonzero; lia.
Qed.

(** ** Error numbers (include/errno.h) *)

Definition ENOSPC : Z := 1.
Definition ENOENT : Z := 2.
Definition EINVAL : Z := 3.
Definition EEXIST : Z := 4.
Definition ENOMEM : Z := 5.
Definition EBUSY : Z := 6.
Definition E2BIG : Z := 7.
Definition ESPIPE : Z := 8.
Definition ENOSYS : Z := 9.
Definition ENOTDIR : Z := 10.
Definition ENOTSUP : Z := 11.
Definition ENXIO : Z := 12.
Definition EAGAIN : Z := 13.
Definition EFAULT : Z := 14.
Definition EINPROGRESS : Z := 115.

(** A function that returns a pointer returns [Ok p], or [Err e] for the
    null pointer with [errno = e]. *)
Inductive res (A : Type) : Type :=
| Ok (a : A)
| Err (e : Z).
Arguments Ok {A} a.
Arguments Err {A} e.

(** ** Outcomes of a call

    [Ret] is a normal return.  [Halt] is [kpanic] or a failed [kassert]:
    both end in an endless loop on the calling CPU.  [Fault] is an access
    outside the object (null pointer, index out of range, division by
    zero).  [Spin] is a loop that does not end without another CPU: a
    spinlock that is already taken, or the fuel of a definition. *)
Inductive out (A : Type) : Type :=
| Ret (a : A)
| Halt
| Fault
| Spin.
Arguments Ret {A} a.
Arguments Halt {A}.
Arguments Fault {A}.
Arguments Spin {A}.

#[global] Instance out_ret : MRet out := fun A a => Ret a.
#[global] Instance out_bind : MBind out := fun A B f m =>
  match m with
  | Ret a => f a
  | Halt => Halt
  | Fault => Fault
  | Spin => Spin
  end.

Lemma bind_Ret {A B} (m : out A) (f : A -> out B) b :
  (x ← m; f x) = Ret b <-> exists a, m = Ret a /\ f a = Ret b.
Proof. destruct m; simpl; naive_solver. Qed.

Lemma bind_assoc {A B C} (m : out A) (f : A -> out B) (g : B -> out C) :
  (y ← (x ← m; f x); g y) = (x ← m; y ← f x; g y).
Proof. by destruct m. Qed.

Lemma ret_bind {A B} (a : A) (f : A -> out B) : (x ← Ret a; f x) = f a.
Proof. reflexivity. Qed.

(** One step of a computation whose first part is known to return, leaving
    the rest folded. *)
Ltac rb := rewrite ret_bind; cbn beta iota.

(** [kassert]: stops the CPU when the condition is false. *)
Definition kassert (c : bool) : out unit := if c then Ret tt else Halt.

Lemma kassert_Ret c u : kassert c = Ret u -> c = true.
Proof. by destruct c. Qed.

(** Break a hypothesis that says a monadic computation returned. *)
Ltac inv_ret :=
  repeat match goal with
  | H : Ret _ = Ret _ |- _ => injection H; clear H; intros; subst
  | H : mret _ = Ret _ |- _ => injection H; clear H; intros; subst
  | H : Halt = Ret _ |- _ => discriminate H
  | H : Fault = Ret _ |- _ => discriminate H
  | H : Spin = Ret _ |- _ => discriminate H
  | H : (_ ≫= _) = Ret _ |- _ =>
      apply bind_Ret in H; destruct H as (? & ? & H); simpl in H
  end.

(** ** Arrays

    An array is a list; reading or writing outside it is a [Fault]. *)
Definition rd {A} (l : list A) (i : Z) : out A :=
  if i <? 0 then Fault
  else match l !! Z.to_nat i with Some x => Ret x | None => Fault end.

Definition wr {A} (l : list A) (i : Z) (x : A) : out (list A) :=
  if (0 <=? i) && (i <? Z.of_nat (length l))
  then Ret (<[Z.to_nat i := x]> l) else Fault.

Definition zlen {A} (l : list A) : Z := Z.of_nat (length l).

Lemma zlen_nonneg {A} (l : list A) : 0 <= zlen l.
Proof. unfold zlen. lia. Qed.

Lemma rd_Ret {A} (l : list A) i x :
  rd l i = Ret x <-> 0 <= i /\ l !! Z.to_nat i = Some x.
Proof.
  unfold rd. destruct (Z.ltb_spec i 0).
  - split; [done | lia].
  - destruct (l !! Z.to_nat i); naive_solver.
Qed.

Lemma rd_in {A} (l : list A) i :
  0 <= i < zlen l -> exists x, rd l i = Ret x /\ l !! Z.to_nat i = Some x.
Proof.
  unfold zlen. intros Hi.
  destruct (lookup_lt_is_Some_2 l (Z.to_nat i)) as [x Hx]; [lia |].
  exists x. split; [apply rd_Ret; split; [lia | done] | done].
Qed.

Lemma rd_out {A} (l : list A) i : ~ 0 <= i < zlen l -> rd l i = Fault.
Proof.
  unfold rd, zlen. intros Hi. destruct (Z.ltb_spec i 0); [done |].
  rewrite lookup_ge_None_2 by lia. done.
Qed.

Lemma wr_in {A} (l : list A) i x :
  0 <= i < zlen l -> wr l i x = Ret (<[Z.to_nat i := x]> l).
Proof.
  unfold wr, zlen. intros Hi.
  destruct (Z.leb_spec 0 i); [| lia].
  destruct (Z.ltb_spec i (Z.of_nat (length l))); [done | lia].
Qed.

Lemma wr_Ret {A} (l : list A) i x l' :
  wr l i x = Ret l' <-> 0 <= i < zlen l /\ l' = <[Z.to_nat i := x]> l.
Proof.
  unfold wr, zlen.
  destruct (Z.leb_spec 0 i), (Z.ltb_spec i (Z.of_nat (length l))); simpl;
    split; intros; simplify_eq; (split; [lia | done]) || naive_solver lia.
Qed.

Lemma zlen_wr {A} (l : list A) i x l' : wr l i x = Ret l' -> zlen l' = zlen l.
Proof. intros [_ ->]%wr_Ret. unfold zlen. by rewrite length_insert. Qed.

Lemma rd_wr_eq {A} (l : list A) i x l' : wr l i x = Ret l' -> rd l' i = Ret x.
Proof.
  intros [Hi ->]%wr_Ret. apply rd_Ret. split; [lia |].
  apply list_lookup_insert_eq. unfold zlen in Hi. lia.
Qed.

Lemma rd_wr_ne {A} (l : list A) i j x l' :
  wr l i x = Ret l' -> i <> j -> rd l' j = rd l j.
Proof.
  intros [Hi ->]%wr_Ret Hij. unfold rd. destruct (Z.ltb_spec j 0); [done |].
  rewrite list_lookup_insert_ne by lia. done.
Qed.

(** ** Pointers

    Objects live in a store under their addresses; a pointer that is null or
    dangling faults. *)
Definition at_ptr {A} (m : gmap Z A) (a : Z) : out A :=
  if a =? 0 then Fault else match m !! a with Some x => Ret x | None => Fault end.

Lemma at_ptr_Ret {A} (m : gmap Z A) a x : at_ptr m a = Ret x <-> a <> 0 /\ m !! a = Some x.
Proof. unfold at_ptr. destruct (Z.eqb_spec a 0); destruct (m !! a); naive_solver. Qed.

Lemma at_ptr_insert {A} (m : gmap Z A) a x : a <> 0 -> at_ptr (<[a := x]> m) a = Ret x.
Proof. intros Ha. apply at_ptr_Ret. by rewrite lookup_insert_eq. Qed.

Lemma at_ptr_insert_ne {A} (m : gmap Z A) a b x : a <> b -> at_ptr (<[a := x]> m) b = at_ptr m b.
Proof. intros Ha. unfold at_ptr. by rewrite lookup_insert_ne. Qed.

(** ** Decision of boolean tests

    [zb] turns every boolean comparison of the context or the goal into the
    proposition it decides, splitting on the ones the goal branches on. *)
Ltac zb_hyps :=
  repeat match goal with
  | H : (_ && _) = true |- _ => apply andb_true_iff in H; destruct H
  | H : (_ && _) = false |- _ => apply andb_false_iff in H; destruct H
  | H : (_ || _) = true |- _ => apply orb_true_iff in H; destruct H
  | H : (_ || _) = false |- _ => apply orb_false_iff in H; destruct H
  | H : negb _ = true |- _ => apply negb_true_iff in H
  | H : negb _ = false |- _ => apply negb_false_iff in H
  | H : (_ =? _) = true |- _ => apply Z.eqb_eq in H
  | H : (_ =? _) = false |- _ => apply Z.eqb_neq in H
  | H : (_ <? _) = true |- _ => apply Z.ltb_lt in H
  | H : (_ <? _) = false |- _ => apply Z.ltb_ge in H
  | H : (_ <=? _) = true |- _ => apply Z.leb_le in H
  | H : (_ <=? _) = false |- _ => apply Z.leb_gt in H
  end.

Ltac zb :=
  repeat (zb_hyps;
  match goal with
  | |- context [if ?b then _ else _] => destruct b eqn:?
  | H : context [if ?b then _ else _] |- _ => destruct b eqn:?
  end); zb_hyps.

Lemma ltb_true a b : a < b -> (a <? b) = true.
Proof. apply Z.ltb_lt. Qed.
Lemma ltb_false a b : b <= a -> (a <? b) = false.
Proof. apply Z.ltb_ge. Qed.
Lemma leb_true a b : a <= b -> (a <=? b) = true.
Proof. apply Z.leb_le. Qed.
Lemma leb_false a b : b < a -> (a <=? b) = false.
Proof. apply Z.leb_gt. Qed.

(** ** Hints shared by the components *)
Create HintDb micael.
#[export] Hint Resolve zlen_nonneg wrap_range : micael.
#[export] Hint Rewrite @length_insert @length_app @length_take @length_drop : micael.
