(* ===== verification/Bytes.v ===== *)
(** * Blocks of bytes

    A block of memory as the list of its bytes: reading and writing a range
    of it ([kmemcpy]) and a little-endian field of a packed struct.  An
    access outside the block is a [Fault]. *)

From S2P Require Import Prelude.

Module Bytes.

Definition is_byte (b : Z) : Prop := 0 <= b < 256.
#[global] Instance is_byte_dec b : Decision (is_byte b) := ltac:(unfold is_byte; apply _).

Lemma zlen_app {A} (l k : list A) : zlen (l ++ k) = zlen l + zlen k.
Proof. unfold zlen. rewrite length_app. lia. Qed.

Definition rd_bytes (m : list Z) (off n : Z) : out (list Z) :=
  if (0 <=? off) && (0 <=? n) && (off + n <=? zlen m) then Ret (take (Z.to_nat n) (drop (Z.to_nat off) m)) else Fault.
Definition wr_bytes (m : list Z) (off : Z) (l : list Z) : out (list Z) :=
  if (0 <=? off) && (off + zlen l <=? zlen m)
  then Ret (take (Z.to_nat off) m ++ l ++ drop (Z.to_nat off + length l) m) else Fault.

(** ** Little-endian numbers *)

Fixpoint le_val (l : list Z) : Z := match l with [] => 0 | b :: l => b + 256 * le_val l end.
Fixpoint le_bytes (n : nat) (v : Z) : list Z :=
  match n with O => [] | S n => v mod 256 :: le_bytes n (v / 256) end.

Definition rd_le (m : list Z) (off n : Z) : out Z := b ← rd_bytes m off n; mret (le_val b).
Definition wr_le (m : list Z) (off n v : Z) : out (list Z) := wr_bytes m off (le_bytes (Z.to_nat n) v).

Lemma length_le_bytes n v : length (le_bytes n v) = n.
Proof. revert v. induction n; intros v; cbn; [done |]. by rewrite IHn. Qed.

Lemma zlen_le_bytes n v : zlen (le_bytes n v) = Z.of_nat n.
Proof. unfold zlen. by rewrite length_le_bytes. Qed.

Lemma le_bytes_byte n v : Forall is_byte (le_bytes n v).
Proof. revert v. induction n; intros v; cbn; constructor; [apply Z.mod_pos_bound; lia | done]. Qed.

Lemma le_val_bytes n v : le_val (le_bytes n v) = v mod 256 ^ Z.of_nat n.
Proof.
  revert v. induction n as [| n IH]; intros v; cbn [le_bytes le_val]; [by rewrite Z.mod_1_r |].
  rewrite IH, Nat2Z.inj_succ, Z.pow_succ_r, Z.rem_mul_r by lia. lia.
Qed.

Lemma le_val_range l : Forall is_byte l -> 0 <= le_val l < 256 ^ zlen l.
Proof.
  induction 1 as [| b l Hb _ IH]; cbn [le_val]; unfold zlen in *; [cbn; lia |].
  cbn [length]. rewrite Nat2Z.inj_succ, Z.pow_succ_r by lia. unfold is_byte in Hb. lia.
Qed.

Lemma le_bytes_val l : Forall is_byte l -> le_bytes (length l) (le_val l) = l.
Proof.
  induction 1 as [| b l Hb _ IH]; cbn [length le_bytes le_val]; [done |]. unfold is_byte in Hb. f_equal.
  - rewrite Z.mul_comm, Z.mod_add by lia. by apply Z.mod_small.
  - rewrite Z.mul_comm, Z.div_add, Z.div_small by lia. done.
Qed.

Lemma le_val_inj l k : Forall is_byte l -> Forall is_byte k -> length l = length k -> le_val l = le_val k -> l = k.
Proof. intros Hl Hk E Ev. by rewrite <- (le_bytes_val l), <- (le_bytes_val k), E, Ev. Qed.

(** ** Reading what was written *)

Lemma rd_bytes_in m off n : 0 <= off -> 0 <= n -> off + n <= zlen m ->
  rd_bytes m off n = Ret (take (Z.to_nat n) (drop (Z.to_nat off) m)).
Proof. intros. unfold rd_bytes. by rewrite !leb_true. Qed.

Lemma wr_bytes_in m off l : 0 <= off -> off + zlen l <= zlen m ->
  wr_bytes m off l = Ret (take (Z.to_nat off) m ++ l ++ drop (Z.to_nat off + length l) m).
Proof. intros. unfold wr_bytes. by rewrite !leb_true. Qed.

Lemma wr_bytes_Ret m off l m' : wr_bytes m off l = Ret m' ->
  0 <= off /\ off + zlen l <= zlen m /\ m' = take (Z.to_nat off) m ++ l ++ drop (Z.to_nat off + length l) m.
Proof. unfold wr_bytes. intros E. zb; try discriminate. injection E as <-. done. Qed.

Lemma rd_bytes_Ret m off n l : rd_bytes m off n = Ret l ->
  0 <= off /\ 0 <= n /\ off + n <= zlen m /\ l = take (Z.to_nat n) (drop (Z.to_nat off) m).
Proof. unfold rd_bytes. intros E. zb; try discriminate. injection E as <-. done. Qed.

Lemma zlen_wr_bytes m off l m' : wr_bytes m off l = Ret m' -> zlen m' = zlen m.
Proof.
  intros (H1 & H2 & ->)%wr_bytes_Ret. unfold zlen in *.
  rewrite !length_app, length_take, length_drop. lia.
Qed.

Lemma zlen_rd_bytes m off n l : rd_bytes m off n = Ret l -> zlen l = n.
Proof. intros (H1 & H2 & H3 & ->)%rd_bytes_Ret. unfold zlen in *. rewrite length_take, length_drop. lia. Qed.

Lemma wr_bytes_ok m off l : 0 <= off -> off + zlen l <= zlen m -> exists m', wr_bytes m off l = Ret m'.
Proof. intros. rewrite wr_bytes_in by done. eauto. Qed.

Lemma rd_wr_bytes_eq m off l m' : wr_bytes m off l = Ret m' -> rd_bytes m' off (zlen l) = Ret l.
Proof.
  intros E. pose proof (zlen_wr_bytes _ _ _ _ E) as Hz. apply wr_bytes_Ret in E as (H1 & H2 & ->).
  rewrite rd_bytes_in by (rewrite ?Hz; unfold zlen in *; lia). f_equal. unfold zlen in *.
  rewrite drop_app_length' by (rewrite length_take; lia). rewrite take_app_length'; [done | lia].
Qed.

Lemma rd_wr_bytes_len m off l m' n : wr_bytes m off l = Ret m' -> zlen l = n -> rd_bytes m' off n = Ret l.
Proof. intros E <-. by apply rd_wr_bytes_eq in E. Qed.

Lemma rd_wr_bytes_ne m off l m' a n : wr_bytes m off l = Ret m' -> a + n <= off \/ off + zlen l <= a ->
  rd_bytes m' a n = rd_bytes m a n.
Proof.
  intros E Hd. pose proof (zlen_wr_bytes _ _ _ _ E) as Hz. apply wr_bytes_Ret in E as (H1 & H2 & ->).
  unfold rd_bytes. rewrite Hz. destruct ((0 <=? a) && (0 <=? n) && (a + n <=? zlen m)) eqn:Eb; [| done]. zb. f_equal.
  apply list_eq. intros i. destruct (decide (i < Z.to_nat n)%nat); [| by rewrite !lookup_take_ge by lia].
  rewrite !lookup_take_lt, !lookup_drop by done. unfold zlen in *. destruct Hd.
  - rewrite lookup_app_l by (rewrite length_take; lia). by rewrite lookup_take_lt by lia.
  - rewrite !lookup_app_r by (rewrite ?length_take; lia). rewrite lookup_drop, length_take. f_equal. lia.
Qed.

Lemma rd_bytes_app m off n k l1 l2 : rd_bytes m off n = Ret l1 -> rd_bytes m (off + n) k = Ret l2 ->
  rd_bytes m off (n + k) = Ret (l1 ++ l2).
Proof.
  intros (H1 & H2 & H3 & ->)%rd_bytes_Ret (H4 & H5 & H6 & ->)%rd_bytes_Ret. rewrite rd_bytes_in by lia. f_equal.
  rewrite !Z2Nat.inj_add, <- drop_drop by done. by rewrite take_take_drop.
Qed.

Lemma rd_wr_le_eq m off n v m' : 0 <= n -> wr_le m off n v = Ret m' -> rd_le m' off n = Ret (v mod 256 ^ n).
Proof.
  intros Hn E. unfold rd_le, wr_le in *. apply rd_wr_bytes_eq in E. rewrite zlen_le_bytes, Z2Nat.id in E by done.
  rewrite E. rb. unfold mret, out_ret. by rewrite le_val_bytes, Z2Nat.id by done.
Qed.

Lemma rd_wr_le_ne m off n v m' a k : 0 <= n -> wr_le m off n v = Ret m' -> a + k <= off \/ off + n <= a ->
  rd_le m' a k = rd_le m a k.
Proof.
  intros Hn E Hd. unfold rd_le, wr_le in *. by rewrite (rd_wr_bytes_ne _ _ _ _ a k E) by (rewrite zlen_le_bytes; lia).
Qed.

Lemma wr_le_ok m off n v : 0 <= n -> 0 <= off -> off + n <= zlen m -> exists m', wr_le m off n v = Ret m' /\ zlen m' = zlen m.
Proof.
  intros Hn H1 H2. unfold wr_le. destruct (wr_bytes_ok m off (le_bytes (Z.to_nat n) v)) as [m' E]; [done | rewrite zlen_le_bytes; lia |].
  exists m'. split; [done |]. by apply zlen_wr_bytes in E.
Qed.

Lemma rd_le_ok m off n : 0 <= n -> 0 <= off -> off + n <= zlen m -> exists v, rd_le m off n = Ret v.
Proof. intros. unfold rd_le. rewrite rd_bytes_in by done. rb. eauto. Qed.

(** ** Blocks divided into fields *)

(** [fs] are fields of the lengths [lens], [pl] what follows them. *)
Definition shaped (lens : list nat) (fs : list (list Z)) : Prop := @length Z <$> fs = lens.
Definition offset (lens : list nat) (i : nat) : Z := Z.of_nat (sum_list (take i lens)).

Lemma zlen_concat fs : zlen (concat fs) = Z.of_nat (sum_list (@length Z <$> fs)).
Proof.
  unfold zlen. induction fs as [| f fs IH]; [done |]. change (concat (f :: fs)) with (f ++ concat fs). rewrite fmap_cons, length_app, Nat2Z.inj_add, IH.
  change (sum_list (length f :: (@length Z <$> fs))) with (length f + sum_list (@length Z <$> fs))%nat. lia.
Qed.

Lemma shaped_insert lens fs i l : shaped lens fs -> lens !! i = Some (length l) -> shaped lens (<[i := l]> fs).
Proof. unfold shaped. intros <- Hi. rewrite list_fmap_insert. by apply list_insert_id. Qed.

Lemma split_at (fs : list (list Z)) i o : fs !! i = Some o -> fs = take i fs ++ o :: drop (S i) fs.
Proof. intros Hi. by rewrite take_drop_middle. Qed.

Lemma offset_take lens fs i : shaped lens fs -> zlen (concat (take i fs)) = offset lens i.
Proof. unfold shaped, offset. intros <-. by rewrite zlen_concat, fmap_take. Qed.

Lemma wr_field lens fs pl i l : shaped lens fs -> lens !! i = Some (length l) ->
  wr_bytes (concat fs ++ pl) (offset lens i) l = Ret (concat (<[i := l]> fs) ++ pl).
Proof.
  intros Hs Hi. assert (Ho : exists o, fs !! i = Some o /\ length o = length l).
  { unfold shaped in Hs. rewrite <- Hs, list_lookup_fmap in Hi. destruct (fs !! i) as [o |]; [| done]. exists o. split; [done |]. by injection Hi. }
  destruct Ho as (o & Ho & Hlen). pose proof (offset_take lens fs i Hs) as Hoff. pose proof (split_at fs i o Ho) as Ef.
  rewrite (insert_take_drop fs i l) by (by apply lookup_lt_Some in Ho). rewrite <- Hoff. set (a := take i fs) in *. set (c := drop (S i) fs) in *.
  assert (E1 : concat fs = concat a ++ o ++ concat c) by (rewrite Ef, concat_app; done).
  rewrite E1, concat_app. cbn [concat]. unfold wr_bytes. rewrite !zlen_app.
  assert (Hzl : zlen l = zlen o) by (unfold zlen; lia). pose proof (zlen_nonneg (concat a)). pose proof (zlen_nonneg (concat c)). pose proof (zlen_nonneg pl).
  rewrite !leb_true by lia. cbn [andb]. f_equal. rewrite <- !app_assoc.
  assert (En : Z.to_nat (zlen (concat a)) = length (concat a)) by (unfold zlen; lia). rewrite En.
  rewrite take_app_length. f_equal. f_equal. rewrite <- Hlen, drop_app_ge by lia.
  replace (length (concat a) + length o - length (concat a))%nat with (length o) by lia. by rewrite drop_app_length.
Qed.

Lemma rd_fields lens fs pl i m : shaped lens fs -> 
  rd_bytes (concat fs ++ pl) (offset lens i) (Z.of_nat (sum_list (take m (drop i lens)))) = Ret (concat (take m (drop i fs))).
Proof.
  intros Hs. pose proof (offset_take lens fs i Hs) as Hoff.
  assert (Hn : zlen (concat (take m (drop i fs))) = Z.of_nat (sum_list (take m (drop i lens)))) by (unfold shaped in Hs; rewrite zlen_concat, <- Hs, <- fmap_drop, <- fmap_take; done).
  rewrite <- Hoff, <- Hn.
  assert (E : concat fs ++ pl = concat (take i fs) ++ concat (take m (drop i fs)) ++ (concat (drop m (drop i fs)) ++ pl)).
  { rewrite !app_assoc. f_equal. rewrite <- !concat_app. by rewrite <- app_assoc, !take_drop. }
  rewrite E. pose proof (zlen_nonneg (concat (take i fs))). rewrite rd_bytes_in; [| lia | apply zlen_nonneg | rewrite !zlen_app; pose proof (zlen_nonneg (concat (drop m (drop i fs)))); pose proof (zlen_nonneg pl); lia].
  f_equal. unfold zlen. rewrite !Nat2Z.id. by rewrite drop_app_length, take_app_length.
Qed.

(** What follows the fields. *)
Lemma rd_payload lens fs pl x : shaped lens fs -> rd_bytes (concat fs ++ pl ++ x) (Z.of_nat (sum_list lens)) (zlen pl) = Ret pl.
Proof.
  unfold shaped. intros <-. rewrite <- zlen_concat. pose proof (zlen_nonneg (concat fs)). pose proof (zlen_nonneg pl). pose proof (zlen_nonneg x).
  rewrite rd_bytes_in; [| lia | lia | rewrite !zlen_app; lia]. unfold zlen. by rewrite !Nat2Z.id, drop_app_length, take_app_length.
Qed.

(** What is before the block, and a number that is a field of it. *)
Lemma rd_bytes_skip pre m off n : 0 <= off -> rd_bytes (pre ++ m) (zlen pre + off) n = rd_bytes m off n.
Proof.
  intros Ho. pose proof (zlen_nonneg pre). unfold rd_bytes. rewrite zlen_app, !(leb_true 0) by lia.
  replace (zlen pre + off + n <=? zlen pre + zlen m) with (off + n <=? zlen m) by (destruct (Z.leb_spec (off + n) (zlen m)), (Z.leb_spec (zlen pre + off + n) (zlen pre + zlen m)); lia).
  rewrite drop_app_ge by (unfold zlen in *; lia). replace (Z.to_nat (zlen pre + off) - length pre)%nat with (Z.to_nat off) by (unfold zlen; lia). by rewrite (leb_true 0 off) by done.
Qed.

Lemma rd_le_skip pre m off n : 0 <= off -> rd_le (pre ++ m) (zlen pre + off) n = rd_le m off n.
Proof. intros Ho. unfold rd_le. by rewrite rd_bytes_skip. Qed.

Lemma rd_le_field lens fs pl i n v : shaped lens fs -> fs !! i = Some (le_bytes n v) -> in_u (8 * Z.of_nat n) v ->
  rd_le (concat fs ++ pl) (offset lens i) (Z.of_nat n) = Ret v.
Proof.
  intros Hs Hi Hv. pose proof (rd_fields lens fs pl i 1 Hs) as W. assert (Hl : lens !! i = Some n).
  { unfold shaped in Hs. by rewrite <- Hs, list_lookup_fmap, Hi; cbn; rewrite length_le_bytes. }
  rewrite (drop_S _ _ _ Hl), (drop_S _ _ _ Hi) in W. cbn [take sum_list concat foldr] in W. rewrite app_nil_r in W. cbn in W. rewrite Nat.add_0_r in W.
  unfold rd_le. rewrite W. rb. unfold mret, out_ret. rewrite le_val_bytes. f_equal. apply Z.mod_small. unfold in_u in Hv.
  replace (256 ^ Z.of_nat n) with (2 ^ (8 * Z.of_nat n)); [done |]. rewrite Z.pow_mul_r by lia. done.
Qed.

End Bytes.
