(* ===== verification/Bitmap.v ===== *)
(** * Bitmap: kernel/lib/bitmap.c

    A bitmap is an array of 32-bit words with a length in bits.  The boot
    memory allocator (Bootmem) and the character-device numbers are kept in
    one.  The file gives the operations as they index the words, and their
    meaning on bits: [bit b i] is the i-th bit. *)

From S2P Require Import Prelude.

Module Bitmap.

Definition BM_NOT_FOUND_ERROR : Z := -2.
Definition BM_RANGE_ERROR : Z := -3.

(** [struct bitmap]: [len] is the number of bits. *)
Record bitmap := mk_bitmap { len : Z; bits : list Z }.

(** [BM_GET_MULTIPLE_OF_32] *)
Definition BM_GET_MULTIPLE_OF_32 (n : Z) : Z :=
  if negb (n mod 32 =? 0) then n / 32 + 1 else n / 32.

(** The two booleans say whether [kmalloc] and [kcalloc] gave memory. *)
Definition bm_alloc_bitmap (kmalloc_ok kcalloc_ok : bool) (nmemb : Z) : option bitmap :=
  if negb kmalloc_ok then None
  else if nmemb =? 0 then Some (mk_bitmap 0 [])
  else
    let num_bits := BM_GET_MULTIPLE_OF_32 nmemb in
    if negb kcalloc_ok then None
    else Some (mk_bitmap (num_bits * 32) (replicate (Z.to_nat num_bits) 0)).

(** The three expressions on a word: [|= 1 << (n % 32)],
    [&= ~(1 << (n % 32))] and [(w & (1 << (n % 32))) >> (n % 32)]. *)
Definition word_set (w n : Z) : Z := Z.lor w (u32 (Z.shiftl 1 (n mod 32))).
Definition word_clr (w n : Z) : Z := Z.land w (u32 (Z.lnot (Z.shiftl 1 (n mod 32)))).
Definition word_tst (w n : Z) : Z :=
  Z.shiftr (Z.land w (u32 (Z.shiftl 1 (n mod 32)))) (n mod 32).

Definition upd_word (f : Z -> Z -> Z) (ws : list Z) (n : Z) : out (list Z) :=
  w ← rd ws (n / 32); wr ws (n / 32) (f w n).

Definition bm_set_bit (bm : bitmap) (n : Z) : out (Z * bitmap) :=
  if len bm <? n / 32 then Ret (BM_RANGE_ERROR, bm)
  else ws ← upd_word word_set (bits bm) n; Ret (0, mk_bitmap (len bm) ws).

(** [while (n <= k) { update; n++; }] with a 32-bit counter. *)
Fixpoint range_loop (f : Z -> Z -> Z) (fuel : nat) (ws : list Z) (n k : Z) : out (list Z) :=
  if n <=? k then
    match fuel with
    | O => Spin
    | S fuel' => ws' ← upd_word f ws n; range_loop f fuel' ws' (u32 (n + 1)) k
    end
  else Ret ws.

Definition loop_fuel (n k : Z) : nat := Z.to_nat (k + 1 - n).

Definition bm_set_range (bm : bitmap) (n k : Z) : out (Z * bitmap) :=
  if (len bm <=? n) || (len bm <=? k) then Ret (BM_RANGE_ERROR, bm)
  else ws ← range_loop word_set (loop_fuel n k) (bits bm) n k;
       Ret (0, mk_bitmap (len bm) ws).

Definition bm_unset_bit (bm : bitmap) (n : Z) : out (Z * bitmap) :=
  if len bm <=? n then Ret (BM_RANGE_ERROR, bm)
  else ws ← upd_word word_clr (bits bm) n; Ret (0, mk_bitmap (len bm) ws).

Definition bm_unset_range (bm : bitmap) (n k : Z) : out (Z * bitmap) :=
  if (len bm <=? n) || (len bm <=? k) then Ret (BM_RANGE_ERROR, bm)
  else ws ← range_loop word_clr (loop_fuel n k) (bits bm) n k;
       Ret (0, mk_bitmap (len bm) ws).

Definition bm_test_bit (bm : bitmap) (n : Z) : out Z :=
  if len bm <=? n then Ret BM_RANGE_ERROR
  else w ← rd (bits bm) (n / 32); Ret (word_tst w n).

Fixpoint find_loop (fuel : nat) (ws : list Z) (n k bit_status : Z) : out Z :=
  if n <=? k then
    match fuel with
    | O => Spin
    | S fuel' =>
        w ← rd ws (n / 32);
        if word_tst w n =? bit_status then Ret (s32 n)
        else find_loop fuel' ws (u32 (n + 1)) k bit_status
    end
  else Ret BM_NOT_FOUND_ERROR.

Definition bm_find_first (bm : bitmap) (n k bit_status : Z) : out Z :=
  if (len bm <=? n) || (len bm <=? k) then Ret BM_RANGE_ERROR
  else find_loop (loop_fuel n k) (bits bm) n k bit_status.

Definition bm_find_first_unset (bm : bitmap) (n k : Z) : out Z := bm_find_first bm n k 0.
Definition bm_find_first_set (bm : bitmap) (n k : Z) : out Z := bm_find_first bm n k 1.

Fixpoint find_range_loop (fuel : nat) (ws : list Z) (n k rlen bit_status start cur_len : Z)
  : out Z :=
  if n <=? k then
    match fuel with
    | O => Spin
    | S fuel' =>
        w ← rd ws (n / 32);
        if word_tst w n =? bit_status then
          let start' := if start =? BM_NOT_FOUND_ERROR then s32 n else start in
          let cur' := u64 (cur_len + 1) in
          if cur' =? rlen then Ret start'
          else find_range_loop fuel' ws (u32 (n + 1)) k rlen bit_status start' cur'
        else find_range_loop fuel' ws (u32 (n + 1)) k rlen bit_status BM_NOT_FOUND_ERROR 0
    end
  else Ret BM_NOT_FOUND_ERROR.

Definition bm_find_first_range (bm : bitmap) (n k rlen bit_status : Z) : out Z :=
  if (len bm <=? n) || (len bm <=? k) then Ret BM_RANGE_ERROR
  else find_range_loop (loop_fuel n k) (bits bm) n k rlen bit_status BM_NOT_FOUND_ERROR 0.

Definition bm_find_first_set_range (bm : bitmap) (n k rlen : Z) : out Z :=
  bm_find_first_range bm n k rlen 1.
Definition bm_find_first_unset_range (bm : bitmap) (n k rlen : Z) : out Z :=
  bm_find_first_range bm n k rlen 0.

(** ** Meaning on bits *)

Definition wbit (ws : list Z) (i : Z) : bool :=
  Z.testbit (default 0 (ws !! Z.to_nat (i / 32))) (i mod 32).
Definition bit (bm : bitmap) (i : Z) : bool := wbit (bits bm) i.

(** A well-formed bitmap: whole words, indexable by a non-negative [int]. *)
Definition wf (bm : bitmap) : Prop :=
  len bm = 32 * zlen (bits bm) /\ len bm <= 2 ^ 31.

Definition run (bm : bitmap) (b : bool) (s n : Z) : Prop :=
  forall i, s <= i < s + n -> bit bm i = b.

Lemma bm_alloc_bitmap_wf nmemb bm :
  0 <= nmemb <= 2 ^ 31 ->
  bm_alloc_bitmap true true nmemb = Some bm ->
  wf bm /\ nmemb <= len bm < nmemb + 32 /\ run bm false 0 (len bm).
Proof.
  unfold bm_alloc_bitmap, BM_GET_MULTIPLE_OF_32, wf, run, bit, wbit, zlen. simpl.
  intros Hn H. zb; simplify_eq; simpl; rewrite ?length_replicate;
    Z.to_euclidean_division_equations.
  - split; [lia |]. split; [lia |]. intros i Hi. lia.
  - split; [lia |]. split; [lia |]. intros i _.
    destruct (replicate _ 0 !! _) eqn:E; [| apply Z.bits_0].
    apply lookup_replicate in E as [-> _]. apply Z.bits_0.
  - split; [lia |]. split; [lia |]. intros i _.
    destruct (replicate _ 0 !! _) eqn:E; [| apply Z.bits_0].
    apply lookup_replicate in E as [-> _]. apply Z.bits_0.
Qed.

(** *** Words *)

Lemma testbit_u32 z i : 0 <= i < 32 -> Z.testbit (u32 z) i = Z.testbit z i.
Proof. intros Hi. unfold u32, wrap. by rewrite Z.mod_pow2_bits_low by lia. Qed.

Lemma testbit_one_shift m i :
  0 <= m < 32 -> 0 <= i < 32 -> Z.testbit (Z.shiftl 1 m) i = (i =? m).
Proof.
  intros Hm Hi. rewrite Z.shiftl_1_l, Z.pow2_bits_eqb by lia. apply Z.eqb_sym.
Qed.

Lemma word_set_bits w n i :
  0 <= i < 32 -> Z.testbit (word_set w n) i = (Z.testbit w i || (i =? n mod 32))%bool.
Proof.
  intros Hi. pose proof (Z.mod_pos_bound n 32 ltac:(lia)) as Hm.
  unfold word_set. by rewrite Z.lor_spec, testbit_u32, testbit_one_shift.
Qed.

Lemma word_clr_bits w n i :
  0 <= i < 32 -> Z.testbit (word_clr w n) i = (Z.testbit w i && negb (i =? n mod 32))%bool.
Proof.
  intros Hi. pose proof (Z.mod_pos_bound n 32 ltac:(lia)) as Hm.
  unfold word_clr.
  rewrite Z.land_spec, testbit_u32, Z.lnot_spec, testbit_one_shift by lia. done.
Qed.

Lemma word_tst_bit w n : word_tst w n = Z.b2z (Z.testbit w (n mod 32)).
Proof.
  pose proof (Z.mod_pos_bound n 32 ltac:(lia)) as Hm. unfold word_tst.
  apply Z.bits_inj'. intros i Hi. rewrite Z.shiftr_spec, Z.land_spec by lia.
  destruct (Z.eq_dec i 0) as [-> | Hne].
  - rewrite Z.add_0_l, testbit_u32, testbit_one_shift, Z.eqb_refl by lia.
    rewrite andb_true_r. by destruct (Z.testbit w (n mod 32)).
  - replace (Z.testbit (Z.b2z _) i) with false.
    2:{ destruct (Z.testbit w _); simpl; [| by rewrite Z.bits_0].
        symmetry. apply (Z.pow2_bits_false 0). lia. }
    destruct (Z.ltb_spec (i + n mod 32) 32).
    + rewrite testbit_u32, testbit_one_shift by lia.
      destruct (Z.eqb_spec (i + n mod 32) (n mod 32)); [lia |]. apply andb_false_r.
    + unfold u32, wrap. rewrite Z.mod_pow2_bits_high by lia. apply andb_false_r.
Qed.

(** *** Updating bits: [f] writes the value [b] at the index *)

Definition writes (f : Z -> Z -> Z) (b : bool) : Prop :=
  forall w n i, 0 <= i < 32 ->
    Z.testbit (f w n) i = if i =? n mod 32 then b else Z.testbit w i.

Lemma word_set_writes : writes word_set true.
Proof. intros w n i Hi. rewrite word_set_bits by done. by destruct (i =? _), (Z.testbit w i). Qed.

Lemma word_clr_writes : writes word_clr false.
Proof. intros w n i Hi. rewrite word_clr_bits by done. by destruct (i =? _), (Z.testbit w i). Qed.

Hint Resolve word_set_writes word_clr_writes : micael.

Lemma upd_word_bit f b ws n :
  writes f b -> 0 <= n < 32 * zlen ws ->
  exists ws', upd_word f ws n = Ret ws' /\ zlen ws' = zlen ws /\
    forall i, 0 <= i -> wbit ws' i = if i =? n then b else wbit ws i.
Proof.
  intros Hf Hn.
  assert (Hd : 0 <= n / 32 < zlen ws) by (Z.to_euclidean_division_equations; lia).
  unfold upd_word. destruct (rd_in ws (n / 32) Hd) as (w & -> & Hw). simpl.
  rewrite wr_in by done. eexists; split; [done |].
  split; [unfold zlen; by rewrite length_insert |].
  intros i Hi. unfold wbit. rewrite list_lookup_insert.
  assert (Hm : 0 <= i mod 32 < 32) by (apply Z.mod_pos_bound; lia).
  case_decide as Hc; simpl.
  - rewrite Hf by done. destruct Hc as [Hc _].
    assert (i / 32 = n / 32) as Hq by (Z.to_euclidean_division_equations; lia).
    rewrite Hq, Hw. simpl.
    destruct (Z.eqb_spec i n) as [-> | Hne]; [by rewrite Z.eqb_refl |].
    destruct (Z.eqb_spec (i mod 32) (n mod 32)); [| done].
    exfalso. Z.to_euclidean_division_equations; lia.
  - destruct (Z.eqb_spec i n) as [-> | _]; [| done].
    exfalso. apply Hc. unfold zlen in *. lia.
Qed.

Lemma u32_succ n : 0 <= n < 2 ^ 31 -> u32 (n + 1) = n + 1.
Proof. intros H. apply wrap_small. unfold in_u. lia. Qed.

Lemma range_loop_bit f b k : writes f b -> k < 2 ^ 31 ->
  forall fuel ws n, 0 <= n -> k < 32 * zlen ws -> loop_fuel n k = fuel ->
  exists ws', range_loop f fuel ws n k = Ret ws' /\ zlen ws' = zlen ws /\
    forall i, 0 <= i ->
      wbit ws' i = if (n <=? i) && (i <=? k) then b else wbit ws i.
Proof.
  intros Hf Hk fuel. induction fuel as [| fuel IH]; intros ws n Hn Hlen Hfuel;
    unfold loop_fuel in Hfuel; simpl; destruct (Z.leb_spec n k) as [Hnk | Hnk]; try lia.
  - exists ws. repeat split. intros i Hi. by zb; try lia.
  - destruct (upd_word_bit f b ws n Hf) as (ws1 & -> & Hl1 & Hb1); [lia |]. simpl.
    rewrite u32_succ by lia.
    destruct (IH ws1 (n + 1)) as (ws2 & E & Hl2 & Hb2);
      [lia | lia | unfold loop_fuel; lia |].
    exists ws2. rewrite E. split; [done |]. split; [lia |]. intros i Hi.
    rewrite Hb2, Hb1 by done. zb; zb_hyps; try done; lia.
Qed.

Lemma bm_update_range f b bm n k :
  writes f b -> wf bm -> 0 <= n -> n < len bm -> k < len bm ->
  exists ws', range_loop f (loop_fuel n k) (bits bm) n k = Ret ws' /\
    wf (mk_bitmap (len bm) ws') /\
    forall i, 0 <= i ->
      bit (mk_bitmap (len bm) ws') i = if (n <=? i) && (i <=? k) then b else bit bm i.
Proof.
  intros Hf [Hlen Hmax] Hn Hnl Hkl.
  destruct (range_loop_bit f b k Hf ltac:(lia) _ (bits bm) n Hn ltac:(lia) eq_refl)
    as (ws & E & Hl & Hb).
  exists ws. split; [done |]. split; [split; simpl; lia |]. exact Hb.
Qed.

(** *** Searching *)

Lemma word_tst_eqb w n (b : bool) :
  (word_tst w n =? Z.b2z b) = Bool.eqb (Z.testbit w (n mod 32)) b.
Proof. rewrite word_tst_bit. by destruct (Z.testbit w _), b. Qed.

Lemma rd_wbit ws n : 0 <= n < 32 * zlen ws ->
  exists w, rd ws (n / 32) = Ret w /\ Z.testbit w (n mod 32) = wbit ws n.
Proof.
  intros Hn.
  destruct (rd_in ws (n / 32)) as (w & E & Hw); [Z.to_euclidean_division_equations; lia |].
  exists w. split; [done |]. unfold wbit. by rewrite Hw.
Qed.

Lemma s32_small n : 0 <= n < 2 ^ 31 -> s32 n = n.
Proof. intros H. apply swrap_small; lia. Qed.

Lemma find_loop_spec ws k (b : bool) : k < 32 * zlen ws -> k < 2 ^ 31 ->
  forall fuel n, 0 <= n -> loop_fuel n k = fuel ->
  exists r, find_loop fuel ws n k (Z.b2z b) = Ret r /\
    ((r = BM_NOT_FOUND_ERROR /\ forall i, n <= i <= k -> wbit ws i = negb b) \/
     (n <= r <= k /\ wbit ws r = b /\ forall i, n <= i < r -> wbit ws i = negb b)).
Proof.
  intros Hlen Hk fuel. induction fuel as [| fuel IH]; intros n Hn Hfuel;
    unfold loop_fuel in Hfuel; simpl; destruct (Z.leb_spec n k) as [Hnk | Hnk]; try lia.
  - eexists; split; [done |]. left. split; [done | lia].
  - destruct (rd_wbit ws n ltac:(lia)) as (w & -> & Hw). simpl.
    rewrite word_tst_eqb, Hw. destruct (Bool.eqb (wbit ws n) b) eqn:Hb.
    + apply eqb_prop in Hb. rewrite s32_small by lia.
      eexists; split; [done |]. right. repeat split; try lia. done.
    + assert (Hnb : wbit ws n = negb b) by (destruct (wbit ws n), b; done).
      rewrite u32_succ by lia.
      destruct (IH (n + 1) ltac:(lia) ltac:(unfold loop_fuel; lia)) as (r & E & Hr).
      exists r. split; [done |].
      destruct Hr as [[-> Hr] | (Hr & Hbr & Hlt)].
      * left. split; [done |]. intros i Hi. destruct (Z.eq_dec i n) as [-> |]; [done |].
        apply Hr. lia.
      * right. split; [lia |]. split; [done |]. intros i Hi.
        destruct (Z.eq_dec i n) as [-> |]; [done |]. apply Hlt. lia.
Qed.

(** The state of the run search before index [n]: [cur] consecutive hits
    end at [n], and no run of [rlen] starts earlier. *)
Definition run_inv (ws : list Z) (b : bool) (rlen n0 n start cur : Z) : Prop :=
  0 <= cur < rlen /\ n0 <= n - cur /\
  (start = if cur =? 0 then BM_NOT_FOUND_ERROR else n - cur) /\
  (forall i, n - cur <= i < n -> wbit ws i = b) /\
  (forall s, n0 <= s < n - cur -> exists i, s <= i < s + rlen /\ i < n /\ wbit ws i = negb b).

Lemma find_range_loop_spec ws k (b : bool) rlen n0 :
  k < 32 * zlen ws -> k < 2 ^ 31 -> 0 <= n0 -> 1 <= rlen < 2 ^ 64 ->
  forall fuel n start cur, n0 <= n -> loop_fuel n k = fuel ->
  run_inv ws b rlen n0 n start cur ->
  exists r, find_range_loop fuel ws n k rlen (Z.b2z b) start cur = Ret r /\
    ((r = BM_NOT_FOUND_ERROR /\
      forall s, n0 <= s -> s + rlen <= Z.max n (k + 1) ->
        exists i, s <= i < s + rlen /\ wbit ws i = negb b) \/
     (n0 <= r /\ r + rlen <= k + 1 /\ (forall i, r <= i < r + rlen -> wbit ws i = b) /\
      forall s, n0 <= s < r -> exists i, s <= i < s + rlen /\ wbit ws i = negb b)).
Proof.
  intros Hlen Hk H0 Hr fuel.
  induction fuel as [| fuel IH]; intros n start cur Hn Hfuel (Hc & Hge & Hst & Hrun & Hno);
    unfold loop_fuel in Hfuel; simpl; destruct (Z.leb_spec n k) as [Hnk | Hnk]; try lia.
  { eexists; split; [done |]; left; split; [done |]; intros s Hs Hs2.
    destruct (Hno s) as (i & ? & ? & ?); [lia | exists i; split; [lia | done]]. }
  destruct (rd_wbit ws n ltac:(lia)) as (w & -> & Hw). simpl.
  rewrite word_tst_eqb, Hw. rewrite u32_succ by lia.
  destruct (Bool.eqb (wbit ws n) b) eqn:Hb.
  - apply eqb_prop in Hb. rewrite (s32_small n) by lia.
    assert (Hu : u64 (cur + 1) = cur + 1) by (apply wrap_small; unfold in_u; lia).
    rewrite Hu.
    assert (Hst' : (if start =? BM_NOT_FOUND_ERROR then n else start) = n - cur).
    { rewrite Hst. destruct (Z.eqb_spec cur 0); simpl; [lia |].
      destruct (Z.eqb_spec (n - cur) BM_NOT_FOUND_ERROR) as [E |]; [| done].
      unfold BM_NOT_FOUND_ERROR in E. lia. }
    rewrite Hst'.
    assert (Hrun' : forall i, n - cur <= i < n + 1 -> wbit ws i = b).
    { intros i Hi. destruct (Z.eq_dec i n) as [-> |]; [done |]. apply Hrun. lia. }
    destruct (Z.eqb_spec (cur + 1) rlen) as [He | He].
    + eexists; split; [done |]. right. split; [lia |]. split; [lia |]. split.
      { intros i Hi. apply Hrun'. lia. }
      intros s Hs. destruct (Hno s Hs) as (i & ? & ? & ?). by exists i.
    + destruct (IH (n + 1) (n - cur) (cur + 1)) as (r & E & Hres);
        [lia | unfold loop_fuel; lia | | ].
      { repeat split; try lia.
        - destruct (Z.eqb_spec (cur + 1) 0); lia.
        - intros i Hi. apply Hrun'. lia.
        - intros s Hs. destruct (Hno s) as (i & ? & ? & ?); [lia |].
          exists i. repeat split; lia || done. }
      exists r. split; [done |]. destruct Hres as [[-> Hres] | Hres]; [left | by right].
      split; [done |]. intros s Hs Hs2. apply Hres; lia.
  - assert (Hnb : wbit ws n = negb b) by (destruct (wbit ws n), b; done).
    destruct (IH (n + 1) BM_NOT_FOUND_ERROR 0) as (r & E & Hres);
      [lia | unfold loop_fuel; lia | | ].
    { repeat split; try lia. intros s Hs.
      destruct (Z_lt_dec s (n - cur)) as [Hlt | Hge'].
      - destruct (Hno s) as (i & ? & ? & ?); [lia |]. exists i. repeat split; lia || done.
      - exists n. repeat split; try lia. done. }
    exists r. split; [done |]. destruct Hres as [[-> Hres] | Hres]; [left | by right].
    split; [done |]. intros s Hs Hs2. apply Hres; lia.
Qed.

(** ** Interface to the clients *)

Lemma bm_set_bit_in_range bm n :
  wf bm -> 0 <= n < len bm ->
  exists bm', bm_set_bit bm n = Ret (0, bm') /\ wf bm' /\ len bm' = len bm /\
    forall i, 0 <= i -> bit bm' i = if i =? n then true else bit bm i.
Proof.
  intros [Hlen Hmax] Hn. unfold bm_set_bit.
  destruct (Z.ltb_spec (len bm) (n / 32)); [Z.to_euclidean_division_equations; lia |].
  destruct (upd_word_bit word_set true (bits bm) n word_set_writes) as (ws & -> & Hl & Hb);
    [lia |].
  simpl. eexists; split; [done |]. split; [split; simpl; lia |]. split; [done |]. exact Hb.
Qed.

Lemma bm_set_range_in_range bm n k :
  wf bm -> 0 <= n < len bm -> k < len bm ->
  exists bm', bm_set_range bm n k = Ret (0, bm') /\ wf bm' /\ len bm' = len bm /\
    forall i, 0 <= i -> bit bm' i = if (n <=? i) && (i <=? k) then true else bit bm i.
Proof.
  intros Hwf Hn Hk. unfold bm_set_range. rewrite !leb_false by lia. simpl.
  destruct (bm_update_range word_set true bm n k word_set_writes Hwf) as (ws & -> & Hwf' & Hb);
    [lia .. |].
  simpl. by eexists.
Qed.

Lemma bm_unset_range_in_range bm n k :
  wf bm -> 0 <= n < len bm -> k < len bm ->
  exists bm', bm_unset_range bm n k = Ret (0, bm') /\ wf bm' /\ len bm' = len bm /\
    forall i, 0 <= i -> bit bm' i = if (n <=? i) && (i <=? k) then false else bit bm i.
Proof.
  intros Hwf Hn Hk. unfold bm_unset_range. rewrite !leb_false by lia. simpl.
  destruct (bm_update_range word_clr false bm n k word_clr_writes Hwf) as (ws & -> & Hwf' & Hb);
    [lia .. |].
  simpl. by eexists.
Qed.

Lemma bm_test_bit_in_range bm n :
  wf bm -> 0 <= n < len bm -> bm_test_bit bm n = Ret (Z.b2z (bit bm n)).
Proof.
  intros [Hlen _] Hn. unfold bm_test_bit. rewrite leb_false by lia.
  destruct (rd_wbit (bits bm) n) as (w & -> & Hw); [lia |]. simpl.
  unfold bit. by rewrite word_tst_bit, Hw.
Qed.

Lemma bm_find_first_in_range bm n k (b : bool) :
  wf bm -> 0 <= n < len bm -> k < len bm ->
  exists r, bm_find_first bm n k (Z.b2z b) = Ret r /\
    ((r = BM_NOT_FOUND_ERROR /\ run bm (negb b) n (k + 1 - n)) \/
     (n <= r <= k /\ bit bm r = b /\ run bm (negb b) n (r - n))).
Proof.
  intros [Hlen Hmax] Hn Hk. unfold bm_find_first. rewrite !leb_false by lia. simpl.
  destruct (find_loop_spec (bits bm) k b ltac:(lia) ltac:(lia) _ n ltac:(lia) eq_refl)
    as (r & -> & Hr).
  exists r. split; [done |]. destruct Hr as [[-> Hr] | (Hr & Hb & Hlt)].
  - left. split; [done |]. intros i Hi. apply Hr. lia.
  - right. split; [done |]. split; [done |]. intros i Hi. apply Hlt. lia.
Qed.

Lemma bm_find_first_range_in_range bm n k rlen (b : bool) :
  wf bm -> 0 <= n < len bm -> k < len bm -> 1 <= rlen < 2 ^ 64 ->
  exists r, bm_find_first_range bm n k rlen (Z.b2z b) = Ret r /\
    ((r = BM_NOT_FOUND_ERROR /\ forall s, n <= s -> s + rlen <= k + 1 -> ~ run bm b s rlen) \/
     (n <= r /\ r + rlen <= k + 1 /\ run bm b r rlen /\
      forall s, n <= s < r -> ~ run bm b s rlen)).
Proof.
  intros [Hlen Hmax] Hn Hk Hr. unfold bm_find_first_range. rewrite !leb_false by lia. simpl.
  assert (Hno : forall s, (exists i, s <= i < s + rlen /\ wbit (bits bm) i = negb b) ->
                ~ run bm b s rlen).
  { intros s (i & Hi & Hb) Hrun. specialize (Hrun i Hi). unfold bit in Hrun. rewrite Hrun in Hb. by destruct b. }
  destruct (find_range_loop_spec (bits bm) k b rlen n ltac:(lia) ltac:(lia) ltac:(lia) Hr
              _ n BM_NOT_FOUND_ERROR 0 ltac:(lia) eq_refl) as (r & -> & Hres).
  { repeat split; lia || (intros; lia). }
  exists r. split; [done |]. destruct Hres as [[-> Hres] | (H1 & H2 & H3 & H4)].
  - left. split; [done |]. intros s Hs Hs2. apply Hno, Hres; lia.
  - right. repeat split; try done. intros s Hs. by apply Hno, H4.
Qed.

(** ** Properties *)

(** On a well-formed bitmap and indices inside it, [bm_set_range] and
    [bm_unset_range] return 0, write exactly the bits [n..k] and keep every
    other bit, the length and well-formedness. *)
Theorem bm_range_update_correct (bm : bitmap) (n k : Z) :
  wf bm -> 0 <= n < len bm -> k < len bm ->
  (exists bm', bm_set_range bm n k = Ret (0, bm') /\ wf bm' /\ len bm' = len bm /\
     forall i, 0 <= i -> bit bm' i = if (n <=? i) && (i <=? k) then true else bit bm i) /\
  (exists bm', bm_unset_range bm n k = Ret (0, bm') /\ wf bm' /\ len bm' = len bm /\
     forall i, 0 <= i -> bit bm' i = if (n <=? i) && (i <=? k) then false else bit bm i).
Proof. auto using bm_set_range_in_range, bm_unset_range_in_range. Qed.

Definition sample_bm : bitmap := mk_bitmap 64 [5; 4294967295].

Lemma bm_range_update_correct_witness :
  wf sample_bm /\ exists bm', bm_set_range sample_bm 3 40 = Ret (0, bm').
Proof.
  assert (Hwf : wf sample_bm) by (split; vm_compute; congruence).
  split; [exact Hwf |].
  destruct (bm_range_update_correct sample_bm 3 40 Hwf) as [(bm' & E & _) _];
    [vm_compute; split; congruence | vm_compute; congruence |].
  exists bm'. exact E.
Defined.

(** [bm_find_first_unset_range] (and its set twin) terminates and
    returns the first index in [n..k] where [rlen] consecutive bits have
    the wanted value, or [BM_NOT_FOUND_ERROR] exactly when no such run lies
    inside the window. *)
Theorem bm_find_first_range_correct (bm : bitmap) (n k rlen : Z) (b : bool) :
  wf bm -> 0 <= n < len bm -> k < len bm -> 1 <= rlen < 2 ^ 64 ->
  exists r,
    (if b then bm_find_first_set_range bm n k rlen
          else bm_find_first_unset_range bm n k rlen) = Ret r /\
    ((r = BM_NOT_FOUND_ERROR /\ forall s, n <= s -> s + rlen <= k + 1 -> ~ run bm b s rlen) \/
     (n <= r /\ r + rlen <= k + 1 /\ run bm b r rlen /\
      forall s, n <= s < r -> ~ run bm b s rlen)).
Proof.
  intros. destruct b;
    [apply (bm_find_first_range_in_range bm n k rlen true)
    | apply (bm_find_first_range_in_range bm n k rlen false)]; done.
Qed.

Lemma bm_find_first_range_correct_witness :
  wf sample_bm /\
  exists r, bm_find_first_unset_range sample_bm 0 63 20 = Ret r /\ r = 3.
Proof.
  assert (Hwf : wf sample_bm) by (split; vm_compute; congruence).
  split; [exact Hwf |].
  destruct (bm_find_first_range_correct sample_bm 0 63 20 false Hwf) as (r & E & _);
    [vm_compute; split; congruence | vm_compute; congruence | vm_compute; split; congruence |].
  exists r. split; [exact E |]. vm_compute in E. congruence.
Defined.

(** [bm_set_bit] compares the word index with the length in bits, so an
    index past the end is not refused: the write leaves the array. *)
Lemma bm_set_bit_past_end bm n :
  wf bm -> len bm <= n -> n / 32 <= len bm -> bm_set_bit bm n = Fault.
Proof.
  intros [Hlen _] Hn Hd. unfold bm_set_bit. rewrite ltb_false by lia.
  unfold upd_word. rewrite rd_out; [done |]. Z.to_euclidean_division_equations; lia.
Qed.

End Bitmap.
