(* ===== verification/Util.v ===== *)
(** * Util: kernel/kernel/util.c

    The memory and string routines, over a byte-addressed memory: a finite
    map from addresses to bytes, where an access outside the map is a
    [Fault].  The allocation of [kmemdup], [kstrdup] and [kstrncat] is an
    argument: the address [kmalloc] returned (0 is the null pointer).

    The scanning loops take as fuel one more than the number of mapped
    bytes: each step reads a new mapped address, so a scan that uses up the
    fuel would have read more bytes than there are. *)

From S2P Require Import Prelude.

Module Util.

Abbreviation mem := (gmap Z Z).

Definition ld (m : mem) (a : Z) : out Z :=
  match m !! a with Some b => Ret b | None => Fault end.
Definition st (m : mem) (a b : Z) : out mem :=
  match m !! a with Some _ => Ret (<[a := u8 b]> m) | None => Fault end.

Definition fuel_of (m : mem) : nat := S (size m).
#[global] Arguments fuel_of : simpl never.

Fixpoint strlen_loop (fuel : nat) (m : mem) (str len : Z) : out Z :=
  match fuel with
  | O => Spin
  | S fuel' =>
      c ← ld m (str + len);
      if c =? 0 then Ret len else strlen_loop fuel' m str (len + 1)
  end.
Definition kstrlen (m : mem) (str : Z) : out Z := strlen_loop (fuel_of m) m str 0.

(** [for (i = 0; i < size; ++i) dst[i] = src[i];] from index [i] on, with
    [n] iterations left. *)
Fixpoint copy_up (m : mem) (dst src i : Z) (n : nat) : out mem :=
  match n with
  | O => Ret m
  | S n' => b ← ld m (src + i); m' ← st m (dst + i) b; copy_up m' dst src (i + 1) n'
  end.

(** [for (i = size; i != 0; i--) dst[i-1] = src[i-1];] *)
Fixpoint copy_down (m : mem) (dst src : Z) (n : nat) : out mem :=
  match n with
  | O => Ret m
  | S n' =>
      b ← ld m (src + Z.of_nat n'); m' ← st m (dst + Z.of_nat n') b;
      copy_down m' dst src n'
  end.

Definition kmemcpy (m : mem) (dst src size : Z) : out mem :=
  copy_up m dst src 0 (Z.to_nat size).

Fixpoint set_loop (m : mem) (p c : Z) (n : nat) : out mem :=
  match n with
  | O => Ret m
  | S n' => m' ← st m p c; set_loop m' (p + 1) c n'
  end.
Definition kmemset (m : mem) (buf c size : Z) : out mem := set_loop m buf c (Z.to_nat size).

Definition kmemmove (m : mem) (dst src size : Z) : out mem :=
  if dst <? src then copy_up m dst src 0 (Z.to_nat size)
  else copy_down m dst src (Z.to_nat size).

Fixpoint cmp_loop (m : mem) (s1 s2 : Z) (n : nat) : out Z :=
  match n with
  | O => Ret 0
  | S n' =>
      a ← ld m s1; b ← ld m s2;
      if a <? b then Ret (-1) else if b <? a then Ret 1
      else cmp_loop m (s1 + 1) (s2 + 1) n'
  end.
Definition kmemcmp (m : mem) (s1 s2 n : Z) : out Z := cmp_loop m s1 s2 (Z.to_nat n).

Definition kmemdup (m : mem) (new ptr size : Z) : out (Z * mem) :=
  m' ← kmemcpy m new ptr size; Ret (new, m').

Definition kstrdup (m : mem) (new s : Z) : out (option Z * mem) :=
  n ← kstrlen m s;
  if new =? 0 then Ret (None, m)
  else m1 ← copy_up m new s 0 (Z.to_nat n); m2 ← st m1 (new + n) 0; Ret (Some new, m2).

(** [char] is signed: the comparisons read the byte as [s8]. *)
Fixpoint strncmp_loop (fuel : nat) (m : mem) (s1 s2 len i : Z) : out Z :=
  match fuel with
  | O => Spin
  | S fuel' =>
      a ← ld m (s1 + i); b ← ld m (s2 + i);
      if negb (a =? 0) && negb (b =? 0) && (i <? len) then
        if s8 a <? s8 b then Ret (-1) else if s8 b <? s8 a then Ret 1
        else strncmp_loop fuel' m s1 s2 len (i + 1)
      else Ret (if s8 a =? s8 b then 0 else 1)
  end.
Definition kstrncmp (m : mem) (s1 s2 len : Z) : out Z := strncmp_loop (fuel_of m) m s1 s2 len 0.

Fixpoint strcmp_loop (fuel : nat) (m : mem) (s1 s2 i : Z) : out Z :=
  match fuel with
  | O => Spin
  | S fuel' =>
      a ← ld m (s1 + i); b ← ld m (s2 + i);
      if negb (a =? 0) || negb (b =? 0) then
        if s8 a <? s8 b then Ret (-1) else if s8 b <? s8 a then Ret 1
        else strcmp_loop fuel' m s1 s2 (i + 1)
      else Ret 0
  end.
Definition kstrcmp (m : mem) (s1 s2 : Z) : out Z := strcmp_loop (fuel_of m) m s1 s2 0.

Definition kstrcmp_s (m : mem) (s1 s2 : Z) : out Z :=
  len ← kstrlen m s1; kstrncmp m s1 s2 len.

Fixpoint strncpy_loop (m : mem) (dst src i : Z) (ended : bool) (n : nat) : out mem :=
  match n with
  | O => Ret m
  | S n' =>
      if ended then m' ← st m (dst + i) 0; strncpy_loop m' dst src (i + 1) true n'
      else
        c ← ld m (src + i);
        if c =? 0 then m' ← st m (dst + i) 0; strncpy_loop m' dst src (i + 1) true n'
        else m' ← st m (dst + i) c; strncpy_loop m' dst src (i + 1) false n'
  end.
Definition kstrncpy (m : mem) (dst src n : Z) : out mem :=
  strncpy_loop m dst src 0 false (Z.to_nat n).

Fixpoint strcpy_loop (fuel : nat) (m : mem) (dst src i : Z) : out mem :=
  match fuel with
  | O => Spin
  | S fuel' =>
      c ← ld m (src + i);
      if c =? 0 then Ret m else m' ← st m (dst + i) c; strcpy_loop fuel' m' dst src (i + 1)
  end.
Definition kstrcpy (m : mem) (dst src : Z) : out mem := strcpy_loop (fuel_of m) m dst src 0.

Fixpoint strchr_loop (fuel : nat) (m : mem) (s i c : Z) : out (option Z) :=
  match fuel with
  | O => Spin
  | S fuel' =>
      b ← ld m (s + i);
      if b =? 0 then Ret None
      else if s8 b =? c then Ret (Some (s + i)) else strchr_loop fuel' m s (i + 1) c
  end.
Definition kstrchr (m : mem) (s c : Z) : out (option Z) := strchr_loop (fuel_of m) m s 0 c.

Fixpoint delim_loop (fuel : nat) (m : mem) (c delim : Z) : out bool :=
  match fuel with
  | O => Spin
  | S fuel' =>
      d ← ld m delim;
      if d =? 0 then Ret false
      else if d =? c then Ret true else delim_loop fuel' m c (delim + 1)
  end.
Definition char_in_delim (m : mem) (c delim : Z) : out bool := delim_loop (fuel_of m) m c delim.

Fixpoint non_delim_loop (fuel : nat) (m : mem) (str delim : Z) : out Z :=
  match fuel with
  | O => Spin
  | S fuel' =>
      c ← ld m str; b ← char_in_delim m c delim;
      if (b : bool) then non_delim_loop fuel' m (str + 1) delim else Ret str
  end.
Definition find_first_non_delim (m : mem) (str delim : Z) : out Z :=
  non_delim_loop (fuel_of m) m str delim.

Fixpoint strsep_loop (fuel : nat) (m : mem) (s tok delim : Z) : out (Z * Z * mem) :=
  match fuel with
  | O => Spin
  | S fuel' =>
      c ← ld m s;
      if c =? 0 then Ret (tok, 0, m)
      else
        b ← char_in_delim m c delim;
        if (b : bool) then m' ← st m s 0; Ret (tok, s + 1, m')
        else strsep_loop fuel' m (s + 1) tok delim
  end.
(** The result is the token, the new value of [*str] and the memory. *)
Definition kstrsep (m : mem) (str delim : Z) : out (Z * Z * mem) :=
  if str =? 0 then Ret (0, str, m)
  else s ← find_first_non_delim m str delim; strsep_loop (fuel_of m) m s s delim.

Fixpoint cat_loop (fuel : nat) (m : mem) (rptr ptr : Z) : out (Z * mem) :=
  match fuel with
  | O => Spin
  | S fuel' =>
      c ← ld m ptr;
      if c =? 0 then Ret (rptr, m)
      else m' ← st m rptr c; cat_loop fuel' m' (rptr + 1) (ptr + 1)
  end.
Definition kstrncat (m : mem) (ret s1 s2 : Z) : out (Z * mem) :=
  '(r1, m1) ← cat_loop (fuel_of m) m ret s1;
  '(r2, m2) ← cat_loop (fuel_of m1) m1 r1 s2; Ret (ret, m2).

(** The size of the block asked of [kmalloc] is [len + 1]. *)
Definition kstrcat_s (m : mem) (kmalloc : Z -> Z) (s1 s2 : Z) : out (Z * mem) :=
  l1 ← kstrlen m s1; l2 ← kstrlen m s2; kstrncat m (kmalloc (l1 + l2 + 1)) s1 s2.

(** ** Bytes and strings in memory *)

Definition bytes_at (m : mem) (p : Z) (l : list Z) : Prop :=
  forall i b, l !! i = Some b -> m !! (p + Z.of_nat i) = Some b.

Definition byte (b : Z) : Prop := 0 <= b < 256.
#[global] Instance byte_dec b : Decision (byte b) := ltac:(unfold byte; apply _).

(** A C string: non-zero bytes followed by a zero. *)
Definition cstr (m : mem) (p : Z) (s : list Z) : Prop :=
  bytes_at m p (s ++ [0]) /\ Forall (fun b => 0 < b < 256) s.

Lemma bytes_at_cons m p b l :
  bytes_at m p (b :: l) <-> m !! p = Some b /\ bytes_at m (p + 1) l.
Proof.
  split.
  - intros H. split.
    + rewrite <- (H 0%nat b) by done. f_equal. lia.
    + intros i c Hi. rewrite <- (H (S i) c) by done. f_equal. lia.
  - intros [H0 H] i c Hi. destruct i as [| i]; simpl in Hi; simplify_eq.
    + rewrite <- H0. f_equal. lia.
    + rewrite <- (H i c Hi). f_equal. lia.
Qed.

Lemma cstr_nil m p : cstr m p [] <-> m !! p = Some 0.
Proof.
  unfold cstr. simpl. rewrite bytes_at_cons. split; [tauto |].
  intros H. by repeat split.
Qed.

Lemma cstr_cons m p b s :
  cstr m p (b :: s) <-> m !! p = Some b /\ 0 < b < 256 /\ cstr m (p + 1) s.
Proof. unfold cstr. simpl. rewrite bytes_at_cons, Forall_cons. tauto. Qed.

(** Opens a hypothesis about a string whose first byte is known. *)
Ltac str_cases H := first [rewrite cstr_nil in H | rewrite cstr_cons in H].

Lemma ld_at m a b : m !! a = Some b -> ld m a = Ret b.
Proof. intros H. unfold ld. by rewrite H. Qed.

(** A block of [n] consecutive mapped bytes has at most [size m] bytes. *)
Lemma mapped_size (m : mem) p n :
  (forall i, (i < n)%nat -> is_Some (m !! (p + Z.of_nat i))) -> (n <= size m)%nat.
Proof.
  intros H.
  set (A := list_to_set ((fun i => p + Z.of_nat i) <$> seq 0 n) : gset Z).
  assert (Hs : size A = n).
  { unfold A. rewrite size_list_to_set.
    - by rewrite length_fmap, length_seq.
    - apply (NoDup_fmap_2_strong _ _); [intros i j _ _ Hij; lia | apply NoDup_seq]. }
  rewrite <- Hs, <- (size_dom (D := gset Z) m). apply subseteq_size.
  intros a Ha. unfold A in Ha. apply elem_of_list_to_set, list_elem_of_fmap in Ha.
  destruct Ha as (i & -> & Hi%elem_of_seq). apply elem_of_dom, H. lia.
Qed.

Lemma cstr_size m p s : cstr m p s -> (length s < size m)%nat.
Proof.
  intros [H _]. apply (mapped_size m p (S (length s))). intros i Hi.
  destruct (lookup_lt_is_Some_2 (s ++ [0]) i) as [b Hb];
    [rewrite length_app; simpl; lia |].
  exists b. by apply H.
Qed.

Lemma strlen_loop_cstr m s : forall fuel str len,
  cstr m (str + len) s -> (length s < fuel)%nat ->
  strlen_loop fuel m str len = Ret (len + zlen s).
Proof.
  induction s as [| b s IH]; intros [| fuel] str len Hs Hf; simpl in Hf; try lia; simpl.
  - apply cstr_nil in Hs. rewrite (ld_at _ _ _ Hs). simpl. f_equal. unfold zlen. simpl. lia.
  - apply cstr_cons in Hs as (Hb & Hr & Hs). rewrite (ld_at _ _ _ Hb). simpl.
    destruct (Z.eqb_spec b 0); [lia |].
    rewrite IH; [f_equal; unfold zlen; simpl; lia | | lia].
    by replace (str + (len + 1)) with (str + len + 1) by lia.
Qed.

Lemma kstrlen_cstr m p s : cstr m p s -> kstrlen m p = Ret (zlen s).
Proof.
  intros H. unfold kstrlen, fuel_of. pose proof (cstr_size _ _ _ H).
  rewrite (strlen_loop_cstr m s); [f_equal; lia | by rewrite Z.add_0_r | lia].
Qed.

(** ** Comparison of strings *)

Lemma s8_inj a b : byte a -> byte b -> s8 a = s8 b -> a = b.
Proof.
  unfold byte, s8, swrap, wrap. intros Ha Hb.
  change (2 ^ 8) with 256. change (2 ^ (8 - 1)) with 128.
  rewrite !Z.mod_small by lia. zb; lia.
Qed.

Lemma s8_zero b : byte b -> s8 b = 0 <-> b = 0.
Proof. intros H. split; [| by intros ->]. intros E. apply s8_inj; [done | done |]. by rewrite E. Qed.

Lemma strcmp_loop_zero m s1 : forall s2 fuel p1 p2 i,
  cstr m (p1 + i) s1 -> cstr m (p2 + i) s2 -> (length s1 < fuel)%nat ->
  exists r, strcmp_loop fuel m p1 p2 i = Ret r /\ (r = 0 <-> s1 = s2).
Proof.
  induction s1 as [| a s1 IH]; intros [| b s2] [| fuel] p1 p2 i H1 H2 Hf; simpl in Hf; try lia;
    str_cases H1; str_cases H2; simpl.
  - rewrite (ld_at _ _ _ H1), (ld_at _ _ _ H2). simpl. by exists 0.
  - destruct H2 as (Hb & Hr & H2). rewrite (ld_at _ _ _ H1), (ld_at _ _ _ Hb). simpl.
    destruct (Z.eqb_spec b 0); [lia |]. simpl.
    assert (s8 b <> 0) by (rewrite s8_zero; unfold byte; lia).
    change (s8 0) with 0. zb; try lia; (eexists; split; [done |]; split; [lia | done]).
  - destruct H1 as (Ha & Hr & H1). rewrite (ld_at _ _ _ Ha), (ld_at _ _ _ H2). simpl.
    destruct (Z.eqb_spec a 0); [lia |]. simpl.
    assert (s8 a <> 0) by (rewrite s8_zero; unfold byte; lia).
    change (s8 0) with 0. zb; try lia; (eexists; split; [done |]; split; [lia | done]).
  - destruct H1 as (Ha & Hra & H1), H2 as (Hb & Hrb & H2).
    rewrite (ld_at _ _ _ Ha), (ld_at _ _ _ Hb). simpl.
    destruct (Z.eqb_spec a 0); [lia |]. simpl.
    destruct (Z.ltb_spec (s8 a) (s8 b)).
    { eexists; split; [done |]. split; [lia |]. intros E. simplify_eq. lia. }
    destruct (Z.ltb_spec (s8 b) (s8 a)).
    { eexists; split; [done |]. split; [lia |]. intros E. simplify_eq. lia. }
    assert (a = b) as -> by (apply s8_inj; unfold byte; lia).
    destruct (IH s2 fuel p1 p2 (i + 1)) as (r & E & Hr);
      [by rewrite Z.add_assoc | by rewrite Z.add_assoc | lia |].
    exists r. split; [done |]. rewrite Hr. split; [by intros -> | by intros [= ->]].
Qed.

(** [kstrncmp] with the length of its first string compares up to and
    including the terminator. *)
Lemma strncmp_loop_zero m s1 : forall s2 fuel p1 p2 len i,
  cstr m (p1 + i) s1 -> cstr m (p2 + i) s2 -> len = i + zlen s1 -> (length s1 < fuel)%nat ->
  exists r, strncmp_loop fuel m p1 p2 len i = Ret r /\ (r = 0 <-> s1 = s2).
Proof.
  induction s1 as [| a s1 IH]; intros [| b s2] [| fuel] p1 p2 len i H1 H2 Hl Hf;
    simpl in Hf; try lia; str_cases H1; str_cases H2; simpl.
  - rewrite (ld_at _ _ _ H1), (ld_at _ _ _ H2). simpl. by exists 0.
  - destruct H2 as (Hb & Hr & H2). rewrite (ld_at _ _ _ H1), (ld_at _ _ _ Hb). simpl.
    assert (s8 b <> 0) by (rewrite s8_zero; unfold byte; lia).
    change (s8 0) with 0. destruct (Z.eqb_spec 0 (s8 b)); [lia |].
    eexists; split; [done |]. split; [lia | done].
  - destruct H1 as (Ha & Hr & H1). rewrite (ld_at _ _ _ Ha), (ld_at _ _ _ H2). simpl.
    rewrite andb_false_r. simpl.
    assert (s8 a <> 0) by (rewrite s8_zero; unfold byte; lia).
    change (s8 0) with 0. destruct (Z.eqb_spec (s8 a) 0); [lia |].
    eexists; split; [done |]. split; [lia | done].
  - destruct H1 as (Ha & Hra & H1), H2 as (Hb & Hrb & H2).
    rewrite (ld_at _ _ _ Ha), (ld_at _ _ _ Hb). simpl.
    destruct (Z.eqb_spec a 0); [lia |]. destruct (Z.eqb_spec b 0); [lia |]. simpl.
    unfold zlen in Hl. simpl in Hl. rewrite ltb_true by lia.
    destruct (Z.ltb_spec (s8 a) (s8 b)).
    { eexists; split; [done |]. split; [lia |]. intros E. simplify_eq. lia. }
    destruct (Z.ltb_spec (s8 b) (s8 a)).
    { eexists; split; [done |]. split; [lia |]. intros E. simplify_eq. lia. }
    assert (a = b) as -> by (apply s8_inj; unfold byte; lia).
    destruct (IH s2 fuel p1 p2 len (i + 1)) as (r & E & Hr);
      [by rewrite Z.add_assoc | by rewrite Z.add_assoc | unfold zlen; lia | lia |].
    exists r. split; [done |]. rewrite Hr. split; [by intros -> | by intros [= ->]].
Qed.

(** ** Copies *)

Definition mem_ok (m : mem) : Prop := forall a b, m !! a = Some b -> byte b.

Definition mapped (m : mem) (p n : Z) : Prop := forall a, p <= a < p + n -> is_Some (m !! a).

(** [m'] is [m] with the [n] bytes at [dst] replaced by those [m] has at [src]. *)
Definition moved (m m' : mem) (dst src n : Z) : Prop :=
  forall a, m' !! a = if (dst <=? a) && (a <? dst + n) then m !! (a - dst + src) else m !! a.

Lemma st_mapped m a b : is_Some (m !! a) -> byte b -> st m a b = Ret (<[a := b]> m).
Proof.
  intros [x Hx] Hb. unfold st. rewrite Hx. f_equal. f_equal.
  apply wrap_small. unfold in_u. unfold byte in Hb. lia.
Qed.

Lemma mem_ok_insert m a b : mem_ok m -> byte b -> mem_ok (<[a := b]> m).
Proof. intros Hm Hb a' b'. rewrite lookup_insert. case_decide; naive_solver. Qed.

Lemma mapped_insert m a b p n : mapped m p n -> mapped (<[a := b]> m) p n.
Proof.
  intros H a' Ha. rewrite lookup_insert. case_decide; [by eexists | by apply H].
Qed.

Lemma mapped_le m p n q k : mapped m p n -> p <= q -> q + k <= p + n -> mapped m q k.
Proof. intros H Hq Hk a Ha. apply H. lia. Qed.

Lemma copy_up_moved dst src n : forall m i,
  mem_ok m -> dst <= src \/ src + Z.of_nat n <= dst ->
  mapped m (src + i) (Z.of_nat n) -> mapped m (dst + i) (Z.of_nat n) -> 0 <= i ->
  exists m', copy_up m dst src i n = Ret m' /\
    moved m m' (dst + i) (src + i) (Z.of_nat n).
Proof.
  induction n as [| n IH]; intros m i Hok Hov Hs Hd Hi; simpl.
  - exists m. split; [done |]. intros a. zb; lia || done.
  - destruct (Hs (src + i)) as [b Hb]; [lia |].
    assert (byte b) by eauto.
    rewrite (ld_at _ _ _ Hb). simpl. rewrite st_mapped by (done || apply Hd; lia). simpl.
    destruct (IH (<[dst + i := b]> m) (i + 1)) as (m' & E & Hm');
      [by apply mem_ok_insert | lia | | | lia |].
    + apply mapped_insert. eapply mapped_le; [exact Hs | lia | lia].
    + apply mapped_insert. eapply mapped_le; [exact Hd | lia | lia].
    + exists m'. split; [done |]. intros a. rewrite Hm', !lookup_insert.
      repeat case_decide; zb; zb_hyps; subst; try lia; try done;
        try (rewrite <- Hb; f_equal; lia); f_equal; lia.
Qed.

Lemma copy_down_moved dst src n : forall m,
  mem_ok m -> src <= dst ->
  mapped m src (Z.of_nat n) -> mapped m dst (Z.of_nat n) ->
  exists m', copy_down m dst src n = Ret m' /\ moved m m' dst src (Z.of_nat n).
Proof.
  induction n as [| n IH]; intros m Hok Hov Hs Hd; simpl.
  - exists m. split; [done |]. intros a. zb; lia || done.
  - destruct (Hs (src + Z.of_nat n)) as [b Hb]; [lia |].
    assert (byte b) by eauto.
    rewrite (ld_at _ _ _ Hb). simpl. rewrite st_mapped by (done || apply Hd; lia). simpl.
    destruct (IH (<[dst + Z.of_nat n := b]> m)) as (m' & E & Hm');
      [by apply mem_ok_insert | lia | | |].
    + apply mapped_insert. eapply mapped_le; [exact Hs | lia | lia].
    + apply mapped_insert. eapply mapped_le; [exact Hd | lia | lia].
    + exists m'. split; [done |]. intros a. rewrite Hm', !lookup_insert.
      repeat case_decide; zb; zb_hyps; subst; try lia; try done;
        try (rewrite <- Hb; f_equal; lia); f_equal; lia.
Qed.

Lemma kmemcpy_moved m dst src n :
  mem_ok m -> dst <= src \/ src + n <= dst -> 0 <= n -> mapped m src n -> mapped m dst n ->
  exists m', kmemcpy m dst src n = Ret m' /\ moved m m' dst src n.
Proof.
  intros Hok Hov Hn Hs Hd. unfold kmemcpy.
  destruct (copy_up_moved dst src (Z.to_nat n) m 0) as (m' & E & H);
    rewrite ?Z.add_0_r, ?Z2Nat.id in * by lia; eauto with lia.
Qed.

(** [cat_loop] appends the bytes of a string without its terminator. *)
Lemma cat_loop_cstr s : forall fuel m r p,
  cstr m p s -> mem_ok m -> mapped m r (zlen s) ->
  r + zlen s <= p \/ p + zlen s < r -> (length s < fuel)%nat ->
  exists m', cat_loop fuel m r p = Ret (r + zlen s, m') /\
    moved m m' r p (zlen s).
Proof.
  induction s as [| b s IH]; intros [| fuel] m r p Hs Hok Hd Hov Hf; simpl in Hf; try lia;
    str_cases Hs; unfold zlen in *; simpl length in *; simpl.
  - rewrite (ld_at _ _ _ Hs). simpl.
    exists m. split; [by rewrite Z.add_0_r |]. intros a. zb; lia || done.
  - destruct Hs as (Hb & Hr & Hs). rewrite (ld_at _ _ _ Hb). simpl.
    destruct (Z.eqb_spec b 0); [lia |].
    rewrite st_mapped by (unfold byte; lia || apply Hd; lia). simpl.
    destruct (IH fuel (<[r := b]> m) (r + 1) (p + 1)) as (m' & E & Hm');
      [| apply mem_ok_insert; [done | unfold byte; lia] | | lia | lia |].
    + destruct Hs as [Hs Hnz]. split; [| done]. intros i c Hi.
      pose proof (lookup_lt_Some _ _ _ Hi) as Hl. rewrite length_app in Hl. simpl in Hl.
      rewrite lookup_insert_ne by lia. by apply Hs.
    + apply mapped_insert. eapply mapped_le; [exact Hd | lia | lia].
    + exists m'. rewrite E. split; [do 2 f_equal; lia |].
      intros a. rewrite Hm', !lookup_insert.
      repeat case_decide; zb; zb_hyps; subst; try lia; try done;
        try (rewrite <- Hb; f_equal; lia); f_equal; lia.
Qed.

Lemma fuel_of_lt m p s : cstr m p s -> (length s < fuel_of m)%nat.
Proof. intros H%cstr_size. unfold fuel_of. lia. Qed.

Lemma cstr_frame m m' p s :
  cstr m p s -> (forall a, p <= a <= p + zlen s -> m' !! a = m !! a) -> cstr m' p s.
Proof.
  intros [Hs Hnz] H. split; [| done]. intros i b Hi.
  pose proof (lookup_lt_Some _ _ _ Hi) as Hl. rewrite length_app in Hl. simpl in Hl.
  rewrite H by (unfold zlen; lia). by apply Hs.
Qed.

Lemma moved_mem_ok m m' d s n : mem_ok m -> moved m m' d s n -> mem_ok m'.
Proof. intros Hok Hm a b. rewrite Hm. zb; apply Hok. Qed.

Lemma moved_mapped m m' d s n p k :
  moved m m' d s n -> mapped m s n -> mapped m p k -> mapped m' p k.
Proof. intros Hm Hs Hp a Ha. rewrite Hm. zb; [apply Hs; lia | by apply Hp ..]. Qed.

Lemma cstr_mapped m p s : cstr m p s -> mapped m p (zlen s + 1).
Proof.
  intros [H _] a Ha. unfold zlen in Ha.
  destruct (lookup_lt_is_Some_2 (s ++ [0]) (Z.to_nat (a - p))) as [b Hb];
    [rewrite length_app; simpl; lia |].
  exists b. rewrite <- (H _ _ Hb). f_equal. lia.
Qed.

(** ** Properties *)

(** C37: [kmemmove] is correct whether or not the two ranges overlap: the
    destination ends up with the bytes the source held before the call, and
    no other byte changes. *)
Theorem kmemmove_correct (m : mem) (dst src n : Z) :
  mem_ok m -> 0 <= n -> mapped m src n -> mapped m dst n ->
  exists m', kmemmove m dst src n = Ret m' /\ moved m m' dst src n.
Proof.
  intros Hok Hn Hs Hd. unfold kmemmove. destruct (Z.ltb_spec dst src).
  - apply kmemcpy_moved; auto with lia.
  - destruct (copy_down_moved dst src (Z.to_nat n) m) as (m' & E & H');
      rewrite ?Z2Nat.id in * by lia; eauto.
Qed.

(** Closes [is_Some (m !! a)] for a concrete [m] and [Hd : a ∈ l]. *)
Ltac each_mapped Hd :=
  repeat (apply elem_of_cons in Hd as [-> | Hd];
          [vm_compute; eexists; reflexivity |]);
  by apply not_elem_of_nil in Hd.

Definition sample_mem : mem := list_to_map (zip [100;101;102;103;104;105] [97;98;99;0;7;7]).

Lemma sample_mem_ok : mem_ok sample_mem.
Proof.
  intros a b H. assert (Hf : map_Forall (fun _ b => byte b) sample_mem).
  { refine (bool_decide_eq_true_1 _ _). vm_compute. reflexivity. }
  exact (Hf a b H).
Qed.

Lemma sample_mapped p n : 100 <= p -> p + n <= 106 -> mapped sample_mem p n.
Proof.
  intros Hp Hn a Ha. assert (Hd : a ∈ [100;101;102;103;104;105]).
  { rewrite !list_elem_of_In. simpl. lia. }
  each_mapped Hd.
Qed.

Lemma kmemmove_correct_witness :
  mem_ok sample_mem /\ exists m', kmemmove sample_mem 102 100 4 = Ret m' /\ m' !! 105 = Some 0.
Proof.
  split; [exact sample_mem_ok |].
  destruct (kmemmove_correct sample_mem 102 100 4 sample_mem_ok) as (m' & E & Hm);
    [lia | apply sample_mapped; lia | apply sample_mapped; lia |].
  exists m'. split; [exact E |]. rewrite Hm. reflexivity.
Defined.

(** On two C strings, [kstrcmp] and [kstrcmp_s] terminate inside them
    and return 0 exactly when the strings are equal. *)
Theorem kstrcmp_zero_iff_equal (m : mem) (p1 p2 : Z) (s1 s2 : list Z) :
  cstr m p1 s1 -> cstr m p2 s2 ->
  (exists r, kstrcmp m p1 p2 = Ret r /\ (r = 0 <-> s1 = s2)) /\
  (exists r, kstrcmp_s m p1 p2 = Ret r /\ (r = 0 <-> s1 = s2)).
Proof.
  intros H1 H2. split.
  - apply (strcmp_loop_zero m s1 s2 (fuel_of m) p1 p2 0);
      rewrite ?Z.add_0_r; eauto using fuel_of_lt.
  - unfold kstrcmp_s. rewrite (kstrlen_cstr _ _ _ H1).
    apply (strncmp_loop_zero m s1 s2 (fuel_of m) p1 p2 (zlen s1) 0);
      rewrite ?Z.add_0_r; eauto using fuel_of_lt.
Qed.

Lemma sample_str : cstr sample_mem 100 [97; 98; 99].
Proof.
  rewrite !cstr_cons, cstr_nil. repeat split; try lia; by vm_compute.
Qed.

Lemma kstrcmp_zero_iff_equal_witness :
  cstr sample_mem 100 [97; 98; 99] /\ exists r, kstrcmp_s sample_mem 100 101 = Ret r /\ r <> 0.
Proof.
  split; [exact sample_str |].
  assert (H2 : cstr sample_mem 101 [98; 99]).
  { rewrite !cstr_cons, cstr_nil. repeat split; try lia; by vm_compute. }
  destruct (kstrcmp_zero_iff_equal _ _ _ _ _ sample_str H2) as [_ (r & E & Hr)].
  exists r. split; [exact E |]. rewrite Hr. discriminate.
Defined.

(** [kstrcat_s] copies the two strings one after the other into the
    block of [len1 + len2 + 1] bytes it allocates, and writes nothing else:
    the last byte of the block, where the terminator belongs, keeps the
    value the allocator left there. *)
Theorem kstrcat_s_bytes (m : mem) (kmalloc : Z -> Z) (p1 p2 : Z) (s1 s2 : list Z) :
  mem_ok m -> cstr m p1 s1 -> cstr m p2 s2 ->
  let size := zlen s1 + zlen s2 + 1 in
  let new := kmalloc size in
  mapped m new size ->
  new + size <= p1 \/ p1 + zlen s1 < new -> new + size <= p2 \/ p2 + zlen s2 < new ->
  exists m', kstrcat_s m kmalloc p1 p2 = Ret (new, m') /\
    bytes_at m' new (s1 ++ s2) /\
    (forall a, ~ new <= a < new + zlen s1 + zlen s2 -> m' !! a = m !! a) /\
    m' !! (new + zlen s1 + zlen s2) = m !! (new + zlen s1 + zlen s2).
Proof.
  intros Hok H1 H2 size new Hd Ho1 Ho2. subst size.
  pose proof (zlen_nonneg s1) as Hl1. pose proof (zlen_nonneg s2) as Hl2.
  unfold kstrcat_s. rewrite (kstrlen_cstr _ _ _ H1), (kstrlen_cstr _ _ _ H2). rb. rb.
  fold new. unfold kstrncat.
  destruct (cat_loop_cstr s1 (fuel_of m) m new p1 H1 Hok) as (m1 & -> & Hm1);
    [eapply mapped_le; [exact Hd | lia | lia] | lia | by eapply fuel_of_lt |]. rb.
  assert (H2' : cstr m1 p2 s2).
  { apply (cstr_frame m); [done |]. intros a Ha. rewrite Hm1. zb; try lia; done. }
  assert (Hs1 : mapped m p1 (zlen s1)).
  { eapply mapped_le; [exact (cstr_mapped _ _ _ H1) | lia | lia]. }
  destruct (cat_loop_cstr s2 (fuel_of m1) m1 (new + zlen s1) p2 H2') as (m2 & -> & Hm2);
    [by eapply moved_mem_ok | | lia | by eapply fuel_of_lt |].
  { eapply (moved_mapped m); [exact Hm1 | exact Hs1 |].
    eapply mapped_le; [exact Hd | lia | lia]. }
  rb. exists m2. split; [done |].
  assert (Hout : forall a, ~ new <= a < new + zlen s1 + zlen s2 -> m2 !! a = m !! a).
  { intros a Ha. rewrite Hm2. zb; try lia; rewrite Hm1; zb; try lia; done. }
  split; [| split; [exact Hout | apply Hout; lia]].
  intros i b Hi. rewrite Hm2. apply lookup_app_Some in Hi as [Hi | [Hge Hi]];
    pose proof (lookup_lt_Some _ _ _ Hi) as Hlt; unfold zlen in *.
  - zb; try lia. rewrite Hm1. zb; try lia.
    destruct H1 as [H1 _]. rewrite <- (H1 i b) by (by apply lookup_app_l_Some). f_equal. lia.
  - zb; try lia.
    destruct H2' as [H2' _]. rewrite <- (H2' (i - length s1)%nat b) by (by apply lookup_app_l_Some).
    f_equal. lia.
Qed.

Definition cat_mem : mem :=
  list_to_map (zip [10;11;12;20;21;30;31;32;33] [97;98;0;99;0;9;9;9;9]).

Lemma kstrcat_s_bytes_witness :
  cstr cat_mem 10 [97; 98] /\
  exists m', kstrcat_s cat_mem (fun _ => 30) 10 20 = Ret (30, m') /\ m' !! 33 = Some 9.
Proof.
  assert (H1 : cstr cat_mem 10 [97; 98]).
  { rewrite !cstr_cons, cstr_nil. repeat split; try lia; by vm_compute. }
  assert (H2 : cstr cat_mem 20 [99]).
  { rewrite !cstr_cons, cstr_nil. repeat split; try lia; by vm_compute. }
  assert (Hok : mem_ok cat_mem).
  { intros a b H. assert (Hf : map_Forall (fun _ b => byte b) cat_mem).
    { refine (bool_decide_eq_true_1 _ _). vm_compute. reflexivity. }
    exact (Hf a b H). }
  split; [exact H1 |].
  destruct (kstrcat_s_bytes cat_mem (fun _ => 30) 10 20 _ _ Hok H1 H2) as (m' & E & _ & _ & Hl);
    [| unfold zlen; simpl; lia .. | exists m'; split; [exact E | exact Hl]].
  intros a Ha. unfold zlen in Ha. simpl in Ha. assert (Hd : a ∈ [30;31;32;33]).
  { rewrite !list_elem_of_In. simpl. lia. }
  each_mapped Hd.
Defined.

End Util.
