(* ===== verification/Bheap.v ===== *)
(** * Binary max-heap (lib/bheap.c)

    The heap is the array [elems], of which the first [hsize] entries are
    live.  A null heap pointer is [None]; a payload is an address, 0 being
    the null pointer. *)

From S2P Require Import Prelude.

Module Bheap.

Record elem := mk_elem { key : Z; payload : Z }.

Record bheap := mk_bheap {
  hsize : Z;
  capacity : Z;
  elems : list elem
}.

(** Elements per page: [sizeof(struct elem)] is 16. *)
Definition EPP : Z := 4096 / 16.

Definition PARENT (i : Z) : Z := Z.quot (i - 1) 2.
Definition RIGHT (i : Z) : Z := s32 (2 * i + 2).
Definition LEFT (i : Z) : Z := s32 (2 * i + 1).

Definition with_elems (h : bheap) (es : list elem) : bheap :=
  {| hsize := hsize h; capacity := capacity h; elems := es |}.
Definition with_size (h : bheap) (n : Z) : bheap :=
  {| hsize := n; capacity := capacity h; elems := elems h |}.

Definition __swap (h : bheap) (i p : Z) : out bheap :=
  tmp ← rd (elems h) p;
  ei ← rd (elems h) i;
  es ← wr (elems h) p ei;
  es ← wr es i tmp;
  mret (with_elems h es).

(** [b = l] when [l] is live and its key is above that of [b]. *)
Definition bigger (h : bheap) (l b : Z) : out Z :=
  if l <? s32 (hsize h)
  then el ← rd (elems h) l; eb ← rd (elems h) b;
       mret (if key el >? key eb then l else b)
  else mret b.

Fixpoint __max_heapify (fuel : nat) (h : bheap) (i : Z) : out bheap :=
  match fuel with
  | O => Spin
  | S fuel =>
      b ← bigger h (LEFT i) i;
      b ← bigger h (RIGHT i) b;
      if negb (b =? i)
      then h ← __swap h i b; __max_heapify fuel h b
      else mret h
  end.

(** The loop [while (i != 0 && elems[i].key > elems[PARENT(i)].key)] of
    [bh_insert] and [__remove_elem]. *)
Fixpoint sift_up (fuel : nat) (h : bheap) (i : Z) : out bheap :=
  match fuel with
  | O => Spin
  | S fuel =>
      if i =? 0 then mret h
      else
        ei ← rd (elems h) i;
        ep ← rd (elems h) (PARENT i);
        if key ei >? key ep
        then h ← __swap h i (PARENT i); sift_up fuel h (PARENT i)
        else mret h
  end.

Definition fuel_of (h : bheap) : nat := S (Z.to_nat (hsize h)).

Definition bh_remove_max (heap : option bheap) : out (res Z * option bheap) :=
  match heap with
  | None => mret (Err EINVAL, None)
  | Some h =>
      if hsize h =? 0 then mret (Err ENOENT, heap)
      else if hsize h =? 1 then
        e0 ← rd (elems h) 0;
        mret (Ok (payload e0), Some (with_size h 0))
      else
        e0 ← rd (elems h) 0;
        el ← rd (elems h) (hsize h - 1);
        es ← wr (elems h) 0 el;
        let h1 := with_size (with_elems h es) (hsize h - 1) in
        h2 ← __max_heapify (fuel_of h1) h1 0;
        mret (Ok (payload e0), Some h2)
  end.

Definition __remove_elem (h : bheap) (i : Z) : out (res Z * option bheap) :=
  ei ← rd (elems h) i;
  es ← wr (elems h) i (mk_elem INT_MAX (payload ei));
  h1 ← sift_up (fuel_of h) (with_elems h es) i;
  bh_remove_max (Some h1).

(** [items] elements; [object] says that [kmalloc] gave an object, [block]
    the memory of the pages, whose content is whatever they held.  The page
    count is the order passed to [mmu_block_alloc]. *)
Definition bh_init (object : bool) (block : Z -> list elem) (items : Z) : res bheap :=
  if negb object then Err ENOMEM
  else
    let npages := items / EPP + (if items mod EPP =? 0 then 0 else 1) in
    Ok {| hsize := 0; capacity := npages * EPP; elems := block npages |}.

(** [Some v]: the function returns [v].  [None]: control reaches the end of
    the function, and the caller reads an indeterminate value. *)
Definition bh_insert (heap : option bheap) (k pl : Z) : out (option Z * option bheap) :=
  match heap with
  | None => mret (Some (- EINVAL), None)
  | Some h =>
      if pl =? 0 then mret (Some (- EINVAL), heap)
      else if hsize h =? capacity h then mret (Some (- ENOSPC), heap)
      else
        es ← wr (elems h) (hsize h) (mk_elem k pl);
        let h1 := with_size (with_elems h es) (hsize h + 1) in
        h2 ← sift_up (fuel_of h1) h1 (hsize h1 - 1);
        mret (None, Some h2)
  end.

(** The search loop of the two removals: the first live index whose element
    satisfies the test. *)
Fixpoint find_elem (test : elem -> bool) (h : bheap) (i : Z) (n : nat) : out (option Z) :=
  match n with
  | O => mret None
  | S n => e ← rd (elems h) i;
           if test e then mret (Some i) else find_elem test h (i + 1) n
  end.

Definition bh_remove (heap : option bheap) (k : Z) : out (res Z * option bheap) :=
  match heap with
  | None => mret (Err EINVAL, None)
  | Some h =>
      if hsize h =? 0 then mret (Err ENOENT, heap)
      else
        r ← find_elem (fun e => key e =? k) h 0 (Z.to_nat (hsize h));
        match r with
        | Some i => __remove_elem h i
        | None => mret (Err ENOENT, heap)
        end
  end.

(** [cc] is the comparator applied to [arg]; a null argument or comparator
    is [None]. *)
Definition bh_remove_pld (heap : option bheap) (cc : option (Z -> bool)) : out (res Z * option bheap) :=
  match heap, cc with
  | Some h, Some cc =>
      r ← find_elem (fun e => cc (payload e)) h 0 (Z.to_nat (hsize h));
      match r with
      | Some i => __remove_elem h i
      | None => mret (Err ENOENT, heap)
      end
  | _, _ => mret (Err EINVAL, heap)
  end.

Definition bh_peek_max (heap : option bheap) : out Z :=
  match heap with
  | None => mret (- EINVAL)
  | Some h => if hsize h =? 0 then mret INT_MIN
              else e0 ← rd (elems h) 0; mret (key e0)
  end.

(** ** Indices of the tree *)

Definition child (j p : Z) : Prop := j = 2 * p + 1 \/ j = 2 * p + 2.

Lemma parent_child i : 0 < i -> 0 <= PARENT i < i /\ child i (PARENT i).
Proof.
  intros Hi. unfold PARENT, child. rewrite Z.quot_div_nonneg by lia.
  pose proof (Z.div_mod (i - 1) 2). pose proof (Z.mod_pos_bound (i - 1) 2). lia.
Qed.

Definition INDEX_BOUND : Z := 2 ^ 30.

Lemma left_right_small i : 0 <= i < INDEX_BOUND - 1 -> LEFT i = 2 * i + 1 /\ RIGHT i = 2 * i + 2.
Proof.
  unfold INDEX_BOUND. intros Hi. unfold LEFT, RIGHT, s32.
  rewrite !swrap_small by (cbn; lia). done.
Qed.

Definition live (h : bheap) : list elem := take (Z.to_nat (hsize h)) (elems h).

(** The key of index [i] (0 outside the array, where it is never used). *)
Definition K (es : list elem) (i : Z) : Z :=
  match es !! Z.to_nat i with Some e => key e | None => 0 end.

(** The shape of the array: [n] live entries inside it. *)
Definition shape (h : bheap) : Prop :=
  0 <= hsize h <= capacity h /\ capacity h <= zlen (elems h) /\ capacity h < INDEX_BOUND.

Definition heap_order (n : Z) (key_at : Z -> Z) : Prop :=
  forall j p, 0 <= p -> child j p -> j < n -> key_at j <= key_at p.

Definition wf (h : bheap) : Prop := shape h /\ heap_order (hsize h) (K (elems h)).

(** Heap order except between [i] and its parent. *)
Definition up_ok (n : Z) (key_at : Z -> Z) (i : Z) : Prop :=
  (forall j p, 0 <= p -> child j p -> j < n -> j <> i -> key_at j <= key_at p) /\
  (forall j g, 0 <= g -> child j i -> child i g -> j < n -> key_at j <= key_at g).

(** Heap order except between [i] and its children. *)
Definition down_ok (n : Z) (key_at : Z -> Z) (i : Z) : Prop :=
  (forall j p, 0 <= p -> child j p -> j < n -> p <> i -> key_at j <= key_at p) /\
  (forall j g, 0 <= g -> child j i -> child i g -> j < n -> key_at j <= key_at g).

(** ** Swapping two live entries *)

Definition swap_list (es : list elem) (i p : Z) : list elem :=
  match es !! Z.to_nat i, es !! Z.to_nat p with
  | Some ei, Some ep => <[Z.to_nat i := ep]> (<[Z.to_nat p := ei]> es)
  | _, _ => es
  end.

Lemma swap_Ret h i p :
  0 <= i < zlen (elems h) -> 0 <= p < zlen (elems h) ->
  __swap h i p = Ret (with_elems h (swap_list (elems h) i p)).
Proof.
  intros Hi Hp. unfold __swap, swap_list.
  destruct (rd_in _ _ Hi) as (ei & -> & ->), (rd_in _ _ Hp) as (ep & -> & ->). rb. rb.
  rewrite wr_in by done. rb. rewrite wr_in by (unfold zlen in *; rewrite length_insert; done).
  done.
Qed.

Lemma length_swap es i p : length (swap_list es i p) = length es.
Proof. unfold swap_list. repeat case_match; rewrite ?length_insert; done. Qed.

Lemma K_swap es i p k :
  0 <= i < zlen es -> 0 <= p < zlen es -> 0 <= k ->
  K (swap_list es i p) k = if k =? i then K es p else if k =? p then K es i else K es k.
Proof.
  unfold K, swap_list. intros Hi Hp Hk.
  destruct (rd_in _ _ Hi) as (ei & _ & Ei), (rd_in _ _ Hp) as (ep & _ & Ep).
  rewrite Ei, Ep. unfold zlen in *. zb; subst.
  - rewrite list_lookup_insert_eq by (rewrite length_insert; lia). done.
  - rewrite list_lookup_insert_ne by lia. rewrite list_lookup_insert_eq by lia. done.
  - rewrite !list_lookup_insert_ne by lia. done.
Qed.

Lemma swap_Permutation es i p n :
  0 <= i < n -> 0 <= p < n -> n <= zlen es ->
  take (Z.to_nat n) (swap_list es i p) ≡ₚ take (Z.to_nat n) es.
Proof.
  intros Hi Hp Hn. unfold swap_list, zlen in *.
  destruct (rd_in es i) as (ei & _ & Ei); [unfold zlen; lia |].
  destruct (rd_in es p) as (ep & _ & Ep); [unfold zlen; lia |].
  rewrite Ei, Ep. apply Permutation_inj.
  rewrite !length_take, !length_insert. split; [done |].
  set (a := Z.to_nat i). set (b := Z.to_nat p).
  exists (fun k => if decide (k = a) then b else if decide (k = b) then a else k). split.
  { intros x y. repeat case_decide; lia. }
  intros k. destruct (decide (k < Z.to_nat n)%nat) as [Hk | Hk].
  2:{ rewrite !lookup_ge_None_2; try done; rewrite length_take, ?length_insert;
      unfold a, b in *; repeat case_decide; lia. }
  rewrite lookup_take_lt by done. unfold a, b in *. repeat case_decide; subst.
  - rewrite lookup_take_lt by lia. rewrite list_lookup_insert_eq by (rewrite length_insert; lia). done.
  - rewrite lookup_take_lt by lia. rewrite list_lookup_insert_ne by lia.
    rewrite list_lookup_insert_eq by lia. done.
  - rewrite lookup_take_lt by lia. rewrite !list_lookup_insert_ne by lia. done.
Qed.

Lemma up_swap n es i :
  0 < i < n -> n <= zlen es -> K es i > K es (PARENT i) ->
  up_ok n (K es) i -> up_ok n (K (swap_list es i (PARENT i))) (PARENT i).
Proof.
  intros Hi Hn Hgt [H1 H2]. destruct (parent_child i) as [Hp Hc]; [lia |].
  set (p := PARENT i) in *. unfold up_ok, child in *. split.
  - intros j q Hq Hj Hjn Hne. rewrite !K_swap by lia.
    pose proof (H1 j q Hq Hj Hjn). pose proof (H2 j p ltac:(lia)). zb; subst; lia.
  - intros j g Hg Hj Hpg Hjn. rewrite !K_swap by lia.
    pose proof (H1 j p ltac:(lia) Hj Hjn). pose proof (H1 p g Hg Hpg ltac:(lia) ltac:(lia)).
    zb; subst; lia.
Qed.

Lemma up_done n es i :
  0 <= i -> (i = 0 \/ K es i <= K es (PARENT i)) -> up_ok n (K es) i -> heap_order n (K es).
Proof.
  intros Hi Hle [H1 _] j p Hp Hj Hjn. destruct (Z.eq_dec j i) as [-> |]; [| eauto].
  destruct Hle as [-> | Hle]; [unfold child in Hj; lia |].
  destruct (parent_child i) as [_ Hc]; [unfold child in Hj; lia |].
  assert (p = PARENT i) as ->; [unfold child in *; lia | done].
Qed.

(** The loop ends within its fuel, permutes the live entries and restores
    the heap order; an entry above every other key ends at the root. *)
Lemma sift_up_spec fuel h i :
  shape h -> 0 <= i < hsize h -> (Z.to_nat i < fuel)%nat -> up_ok (hsize h) (K (elems h)) i ->
  exists es, sift_up fuel h i = Ret (with_elems h es) /\ length es = length (elems h) /\
    take (Z.to_nat (hsize h)) es ≡ₚ live h /\ heap_order (hsize h) (K es) /\
    ((forall j, 0 <= j < hsize h -> j <> i -> K (elems h) j < K (elems h) i) ->
     es !! 0%nat = elems h !! Z.to_nat i).
Proof.
  revert h i. induction fuel as [| fuel IH]; intros h i Hsh Hi Hf Hup; [lia |]. cbn [sift_up].
  destruct (Z.eqb_spec i 0) as [-> | Hne].
  { exists (elems h). split; [by destruct h |]. split; [done |]. split; [done |].
    split; [apply (up_done _ _ 0); [lia | lia | done] | done]. }
  destruct (parent_child i) as [Hp Hc]; [lia |].
  assert (Hlen : hsize h <= zlen (elems h)) by (unfold shape in Hsh; lia).
  destruct (rd_in (elems h) i) as (ei & -> & Ei); [lia |]. rb.
  destruct (rd_in (elems h) (PARENT i)) as (ep & -> & Ep); [lia |]. rb.
  assert (EKi : K (elems h) i = key ei) by (unfold K; by rewrite Ei).
  assert (EKp : K (elems h) (PARENT i) = key ep) by (unfold K; by rewrite Ep).
  destruct (key ei >? key ep) eqn:Hgt; rewrite Z.gtb_ltb in Hgt; zb_hyps.
  - rewrite swap_Ret by lia. rb.
    set (h1 := with_elems h _).
    destruct (IH h1 (PARENT i)) as (es & E & Hl & HP & Ho & Hr);
      [unfold shape, zlen in *; simpl; rewrite length_swap; done | simpl; lia | lia
      | simpl; apply up_swap; try lia; done |].
    exists es. split; [exact E |]. simpl in *. rewrite length_swap in Hl.
    split; [done |]. split; [rewrite HP; unfold live; simpl; apply swap_Permutation; lia |].
    split; [done |]. intros Hmax. rewrite Hr.
    + unfold swap_list. rewrite Ei, Ep. rewrite list_lookup_insert_ne by lia.
      rewrite list_lookup_insert_eq by (unfold zlen in *; lia). done.
    + intros j Hj Hjp. rewrite !K_swap by lia.
      pose proof (Hmax j Hj). pose proof (Hmax (PARENT i)). zb; subst; lia.
  - exists (elems h). split; [by destruct h |]. split; [done |]. split; [done |].
    split; [apply (up_done _ _ i); [lia | lia | done] |].
    intros Hmax. pose proof (Hmax (PARENT i)). lia.
Qed.

Lemma down_swap n es i b :
  0 <= i < n -> n <= zlen es -> b < n -> child b i -> K es b > K es i ->
  (forall j, child j i -> j < n -> K es j <= K es b) ->
  down_ok n (K es) i -> down_ok n (K (swap_list es i b)) b.
Proof.
  intros Hi Hn Hb Hc Hgt Hmax [H1 H2]. assert (i < b) by (unfold child in Hc; lia). split.
  - intros j q Hq Hj Hjn Hne. rewrite !K_swap by (unfold child in *; lia).
    pose proof (H1 j q Hq Hj Hjn). pose proof (Hmax j).
    pose proof (H2 b q Hq Hc).
    destruct (Z.eq_dec q i) as [-> |].
    + specialize (Hmax j Hj Hjn). zb; subst; unfold child in *; lia.
    + zb; subst; unfold child in *; try lia. 
  - intros j g Hg Hj Hbg Hjn. assert (g = i) as -> by (unfold child in *; lia).
    rewrite !K_swap by (unfold child in *; lia).
    pose proof (H1 j b ltac:(lia) Hj Hjn ltac:(lia)). zb; subst; unfold child in *; lia.
Qed.

Lemma bigger_spec h l b :
  shape h -> 0 <= b < hsize h -> 0 <= l ->
  bigger h l b = Ret (if (l <? hsize h) && (K (elems h) b <? K (elems h) l) then l else b).
Proof.
  intros (Hsz & Hlen & Hb) Hbn Hl. unfold bigger, s32, INDEX_BOUND in *.
  rewrite swrap_small by (cbn; lia).
  destruct (Z.ltb_spec l (hsize h)); [| done]. cbn [andb].
  destruct (rd_in (elems h) l) as (el & -> & El); [lia |].
  destruct (rd_in (elems h) b) as (eb & -> & Eb); [lia |]. rb. rb.
  unfold K. rewrite El, Eb, Z.gtb_ltb. done.
Qed.

Lemma heapify_spec fuel h i :
  shape h -> 0 <= i < hsize h -> (Z.to_nat (hsize h - i) <= fuel)%nat -> 
  down_ok (hsize h) (K (elems h)) i ->
  exists es, __max_heapify fuel h i = Ret (with_elems h es) /\ length es = length (elems h) /\
    take (Z.to_nat (hsize h)) es ≡ₚ live h /\ heap_order (hsize h) (K es).
Proof.
  revert h i. induction fuel as [| fuel IH]; intros h i Hsh Hi Hf Hd; [lia |].
  cbn [__max_heapify]. pose proof Hsh as (Hsz & Hlen & Hbd).
  assert (HL : LEFT i = 2 * i + 1 /\ RIGHT i = 2 * i + 2).
  { apply left_right_small. unfold INDEX_BOUND in *. lia. }
  destruct HL as [-> ->].
  rewrite bigger_spec by (done || lia). rb.
  match goal with |- context [bigger h _ ?b] => set (b1 := b) end.
  assert (Hb1 : 0 <= b1 < hsize h /\ (b1 = i \/ b1 = 2 * i + 1) /\
    K (elems h) i <= K (elems h) b1 /\ (b1 <> i -> K (elems h) i < K (elems h) b1) /\
    (2 * i + 1 < hsize h -> K (elems h) (2 * i + 1) <= K (elems h) b1)).
  { unfold b1. zb; lia. }
  rewrite bigger_spec by (done || lia). rb.
  match goal with |- context [negb (?b =? i)] => set (b2 := b) end.
  assert (Hb2 : 0 <= b2 < hsize h /\ (b2 = i \/ child b2 i) /\
    (b2 <> i -> K (elems h) i < K (elems h) b2) /\
    (forall j, child j i -> j < hsize h -> K (elems h) j <= K (elems h) b2)).
  { unfold b2, child. clearbody b1. zb; split_and!; try lia;
      (intros j [-> | ->] Hj; lia) || (destruct (Z.eq_dec b1 i); intros; lia). }
  destruct Hb2 as (Hb2 & Hch & Hgt & Hmax). clearbody b2. clear Hb1 b1.
  destruct (Z.eqb_spec b2 i) as [-> | Hne]; cbn [negb].
  - exists (elems h). split; [by destruct h |]. split; [done |]. split; [done |].
    destruct Hd as [H1 _]. intros j p Hp Hj Hjn.
    destruct (Z.eq_dec p i) as [-> |]; eauto.
  - destruct Hch as [-> | Hch]; [done |].
    rewrite swap_Ret by lia. rb. set (h1 := with_elems h _).
    destruct (IH h1 b2) as (es & E & Hl & HP & Ho);
      [unfold shape, zlen in *; simpl; rewrite length_swap; done | simpl; lia
      | simpl; unfold child in Hch; lia | simpl; apply down_swap; auto; lia |].
    exists es. split; [exact E |]. simpl in *. rewrite length_swap in Hl.
    split; [done |]. split; [rewrite HP; unfold live; simpl; apply swap_Permutation; lia | done].
Qed.

(** ** The operations *)

Lemma K_live h i : 0 <= i < hsize h -> K (elems h) i = K (live h) i.
Proof. intros Hi. unfold K, live. by rewrite lookup_take_lt by lia. Qed.

Lemma wf_root_max h : wf h -> forall i, 0 <= i < hsize h -> K (elems h) i <= K (elems h) 0.
Proof.
  intros [_ Ho] i [Hi Hn]. revert Hn. pattern i. apply Zlt_0_ind; [| done]. clear i Hi.
  intros i IH Hi Hn. destruct (Z.eq_dec i 0) as [-> | Hne]; [done |].
  destruct (parent_child i) as [Hp Hc]; [lia |].
  transitivity (K (elems h) (PARENT i)); [apply Ho; [lia | done | lia] | apply IH; lia].
Qed.

Lemma length_live h : shape h -> length (live h) = Z.to_nat (hsize h).
Proof. intros (? & ? & _). unfold live, zlen in *. rewrite length_take. lia. Qed.

Lemma live_cons h e0 : shape h -> 0 < hsize h -> elems h !! 0%nat = Some e0 ->
  live h = e0 :: take (Z.to_nat (hsize h - 1)) (drop 1 (elems h)).
Proof.
  intros _ Hn He. unfold live. destruct (elems h) as [| x l]; [done |].
  simplify_eq/=. replace (Z.to_nat (hsize h)) with (S (Z.to_nat (hsize h - 1))) by lia.
  cbn [take]. by rewrite drop_0.
Qed.

Lemma remove_max_spec h e0 : wf h -> 0 < hsize h -> elems h !! 0%nat = Some e0 ->
  exists h', bh_remove_max (Some h) = Ret (Ok (payload e0), Some h') /\ wf h' /\
    capacity h' = capacity h /\ hsize h' = hsize h - 1 /\ live h ≡ₚ e0 :: live h'.
Proof.
  intros [Hsh Ho] Hn He. pose proof Hsh as (Hsz & Hlen & Hbd). unfold bh_remove_max.
  destruct (Z.eqb_spec (hsize h) 0); [lia |].
  assert (E0 : rd (elems h) 0 = Ret e0) by (by apply rd_Ret). rewrite E0.
  destruct (Z.eqb_spec (hsize h) 1) as [H1 |].
  - rb. eexists. split; [done |]. split_and!; [| done | simpl; lia |].
    + split; [unfold shape; simpl; lia |]. intros j p. unfold child. simpl. lia.
    + rewrite (live_cons _ _ Hsh Hn He), H1. done.
  - rb. destruct (rd_in (elems h) (hsize h - 1)) as (el & -> & El); [lia |]. rb.
    rewrite wr_in by lia. rb.
    set (es := <[Z.to_nat 0 := el]> (elems h)). set (h1 := with_size _ _).
    assert (HK : forall k, 0 < k -> K es k = K (elems h) k).
    { intros k Hk. unfold K, es. rewrite list_lookup_insert_ne by lia. done. }
    destruct (heapify_spec (fuel_of h1) h1 0) as (es' & -> & Hl & HP & Ho').
    { unfold shape, zlen, es in *. simpl. rewrite length_insert. lia. }
    { simpl. lia. }
    { unfold fuel_of. simpl. lia. }
    { split.
      - intros j p Hp Hj Hjn Hne. simpl in *. rewrite !HK by (unfold child in *; lia). apply Ho; [done | done | lia].
      - intros j g. unfold child. lia. }
    rb. eexists. split; [done |]. split_and!; [| done | done |].
    + split; [| exact Ho']. unfold shape, zlen, es in *. simpl in *. rewrite Hl, length_insert. lia.
    + assert (Hh' : live (with_elems h1 es') ≡ₚ live h1) by (unfold live at 1; done).
      rewrite Hh', (live_cons h e0 Hsh Hn He). constructor.
      rewrite (live_cons h1 el); [| unfold shape, zlen, es in *; simpl; rewrite length_insert; lia
        | simpl; lia | simpl; unfold es; rewrite list_lookup_insert_eq; [done | unfold zlen in *; lia]].
      simpl. unfold es. rewrite drop_insert_lt by lia.
      replace (Z.to_nat (hsize h - 1)) with (S (Z.to_nat (hsize h - 1 - 1))) by lia.
      rewrite (take_S_r _ _ el); [by rewrite <- Permutation_cons_append |].
      rewrite lookup_drop. rewrite <- El. f_equal. lia.
Qed.

Lemma elem_le_root h e0 e : wf h -> elems h !! 0%nat = Some e0 -> e ∈ live h -> key e <= key e0.
Proof.
  intros Hwf He0 (i & Hi)%list_elem_of_lookup. unfold live in Hi.
  apply lookup_take_Some in Hi as [Hi Hlt].
  pose proof (wf_root_max h Hwf (Z.of_nat i)) as H. unfold K in H.
  rewrite Nat2Z.id, Hi in H. change (Z.to_nat 0) with 0%nat in H. rewrite He0 in H. apply H. lia.
Qed.

Lemma root_live h e : wf h -> hsize h <> 0 -> rd (elems h) 0 = Ret e -> e ∈ live h.
Proof.
  intros Hwf Hn [_ He]%rd_Ret. pose proof Hwf as [(Hsz & _ & _) _].
  destruct (remove_max_spec h e Hwf ltac:(lia) He) as (h' & _ & _ & _ & _ & ->). by left.
Qed.

(** Everything the heap holds has a key below the key [__remove_elem]
    raises its element to. *)
Definition below_max (h : bheap) : Prop := forall e, e ∈ live h -> key e < INT_MAX.

Lemma remove_elem_spec h i e : wf h -> below_max h -> live h !! i = Some e ->
  exists h', __remove_elem h (Z.of_nat i) = Ret (Ok (payload e), Some h') /\ wf h' /\
    capacity h' = capacity h /\ live h ≡ₚ e :: live h'.
Proof.
  intros [Hsh Ho] Hb He. pose proof Hsh as (Hsz & Hlen & Hbd).
  pose proof (lookup_lt_Some _ _ _ He) as Hi. rewrite length_live in Hi by done.
  assert (Hei : elems h !! i = Some e).
  { unfold live in He. by apply lookup_take_Some in He as [He _]. }
  unfold __remove_elem. assert (E : rd (elems h) (Z.of_nat i) = Ret e).
  { apply rd_Ret. rewrite Nat2Z.id. split; [lia | done]. }
  rewrite E. rb. rewrite wr_in by lia. rb. rewrite Nat2Z.id.
  set (e' := mk_elem INT_MAX (payload e)). set (h1 := with_elems h _).
  assert (HKe : forall k, 0 <= k < hsize h -> K (elems h) k < INT_MAX).
  { intros k Hk. rewrite K_live by done. unfold K.
    destruct (lookup_lt_is_Some_2 (live h) (Z.to_nat k)) as [x Hx];
      [rewrite length_live by done; lia |].
    rewrite Hx. apply Hb. by eapply list_elem_of_lookup_2. }
  assert (HKi : K (elems h1) (Z.of_nat i) = INT_MAX).
  { unfold K, h1. simpl. rewrite Nat2Z.id, list_lookup_insert_eq by (unfold zlen in *; lia). done. }
  assert (HKn : forall k, 0 <= k -> k <> Z.of_nat i -> K (elems h1) k = K (elems h) k).
  { intros k Hk Hne. unfold K, h1. simpl. rewrite list_lookup_insert_ne by lia. done. }
  assert (Hsh1 : shape h1) by (unfold shape, zlen, h1 in *; simpl; rewrite length_insert; lia).
  destruct (sift_up_spec (fuel_of h) h1 (Z.of_nat i)) as (es & -> & Hl & HP & Ho' & Hr);
    [done | simpl; lia | unfold fuel_of; lia | |].
  { change (hsize h1) with (hsize h). split.
    - intros j p Hp Hj Hjn Hne. rewrite HKn by (unfold child in *; lia).
      pose proof (Ho j p Hp Hj Hjn). pose proof (HKe j).
      destruct (Z.eq_dec p (Z.of_nat i)) as [-> |]; [rewrite HKi | rewrite HKn by done];
        unfold child in *; lia.
    - intros j g Hg Hj Hi' Hjn. rewrite !HKn by (unfold child in *; lia).
      pose proof (Ho j (Z.of_nat i) ltac:(lia) Hj Hjn). pose proof (Ho (Z.of_nat i) g Hg Hi' ltac:(lia)). lia. }
  rb. destruct (remove_max_spec (with_elems h1 es) e') as (h' & -> & Hwf & Hcap & _ & HP').
  { split; [| exact Ho']. unfold shape, zlen, h1 in *. simpl in *. rewrite Hl, length_insert in *. lia. }
  { simpl. lia. }
  { simpl. rewrite Hr.
    - rewrite Nat2Z.id. unfold h1. simpl. apply list_lookup_insert_eq. unfold zlen in *. lia.
    - intros j Hj Hne. rewrite HKi, HKn by lia. apply HKe. exact Hj. }
  exists h'. split; [done |]. split_and!; [done | done |].
  assert (HP2 : <[i := e']> (live h) ≡ₚ e' :: live h').
  { rewrite <- HP'. unfold live at 2. rewrite HP. unfold live, h1. simpl.
    rewrite take_insert_lt by lia. done. }
  rewrite insert_take_drop in HP2 by (rewrite length_live by done; lia).
  rewrite <- Permutation_middle in HP2. apply Permutation_cons_inv in HP2.
  rewrite <- (take_drop_middle _ _ _ He) at 1. by rewrite <- Permutation_middle, HP2.
Qed.

Lemma find_elem_spec test h n i : 0 <= i -> i + Z.of_nat n = hsize h -> shape h ->
  (exists k e, find_elem test h i n = Ret (Some (Z.of_nat k)) /\ live h !! k = Some e /\ i <= Z.of_nat k /\
    test e = true /\ forall j x, i <= Z.of_nat j < Z.of_nat k -> live h !! j = Some x -> test x = false) \/
  (find_elem test h i n = Ret None /\
    forall j x, i <= Z.of_nat j -> live h !! j = Some x -> test x = false).
Proof.
  revert i. induction n as [| n IH]; intros i Hi Hn Hsh; cbn [find_elem].
  - right. split; [done |]. intros j x Hj Hx%lookup_lt_Some. rewrite length_live in Hx by done. lia.
  - pose proof Hsh as (Hsz & Hlen & _).
    destruct (rd_in (elems h) i) as (e & -> & He); [lia |]. rb.
    assert (Hle : live h !! Z.to_nat i = Some e).
    { unfold live. by rewrite lookup_take_lt by lia. }
    assert (Hstep : test e = false -> forall j x, Z.of_nat j = i -> live h !! j = Some x -> test x = false).
    { intros Ht j x Hj Hx. assert (j = Z.to_nat i) as -> by lia. congruence. }
    destruct (test e) eqn:Ht.
    + left. exists (Z.to_nat i), e. rewrite Z2Nat.id by lia. split_and!; [done .. | lia | done |]. lia.
    + destruct (IH (i + 1)) as [(k & x & -> & Hk & Hik & Hx & Hall) | (-> & Hall)]; [lia .. | done | |].
      * left. exists k, x. split_and!; [done .. | lia | done |]. intros j y Hj Hy.
        destruct (Z.eq_dec (Z.of_nat j) i); [eauto | apply (Hall j y); [lia | done]].
      * right. split; [done |]. intros j y Hj Hy.
        destruct (Z.eq_dec (Z.of_nat j) i); [eauto | apply (Hall j y); [lia | done]].
Qed.

(** ** What the heap promises its clients *)

(** Adding an entry to a heap that has room. *)
Lemma insert_spec (h : bheap) (k pl : Z) : wf h -> pl <> 0 -> hsize h <> capacity h ->
  exists h', bh_insert (Some h) k pl = Ret (None, Some h') /\ wf h' /\
     capacity h' = capacity h /\ live h' ≡ₚ mk_elem k pl :: live h.
Proof.
  intros [Hsh Ho] Hp Hn. pose proof Hsh as (Hsz & Hlen & Hbd). unfold bh_insert.
  rewrite (proj2 (Z.eqb_neq _ _) Hp), (proj2 (Z.eqb_neq _ _) Hn).
  rewrite wr_in by lia. rb. set (e := mk_elem k pl). set (h1 := with_size _ _).
  assert (HKn : forall j, 0 <= j < hsize h -> K (elems h1) j = K (elems h) j).
  { intros j Hj. unfold K, h1. simpl. rewrite list_lookup_insert_ne by lia. done. }
  assert (Hsh1 : shape h1) by (unfold shape, zlen, h1 in *; simpl; rewrite length_insert; lia).
  destruct (sift_up_spec (fuel_of h1) h1 (hsize h1 - 1)) as (es & -> & Hl & HP & Ho' & _);
    [done | unfold h1; simpl; lia | unfold fuel_of; lia | |].
  { change (hsize h1) with (hsize h + 1). split.
    - intros j p Hp' Hj Hjn Hne. rewrite !HKn by (unfold child in *; lia). apply Ho; [done .. | lia].
    - intros j g. unfold child. lia. }
  rb. eexists. split; [done |]. split_and!; [| done |].
  - split; [| exact Ho']. unfold shape, zlen, h1 in *. simpl in *. rewrite Hl, length_insert in *. lia.
  - unfold live at 1. change (hsize (with_elems h1 es)) with (hsize h1).
    change (elems (with_elems h1 es)) with es. rewrite HP. unfold live, h1. simpl.
    replace (Z.to_nat (hsize h + 1)) with (S (Z.to_nat (hsize h))) by lia.
    rewrite (take_S_r _ _ e); [| rewrite list_lookup_insert_eq; [done | unfold zlen in *; lia]].
    rewrite take_insert_ge by lia. by rewrite <- Permutation_cons_append.
Qed.

(** [bh_insert] refuses a null payload and a full heap without changing
    anything, and otherwise adds exactly the new entry and keeps the heap
    well formed; on that path the function has no return value. *)
Theorem bh_insert_correct (h : bheap) (k pl : Z) : wf h ->
  (pl = 0 -> bh_insert (Some h) k pl = Ret (Some (- EINVAL), Some h)) /\
  (pl <> 0 -> hsize h = capacity h -> bh_insert (Some h) k pl = Ret (Some (- ENOSPC), Some h)) /\
  (pl <> 0 -> hsize h <> capacity h ->
   exists h', bh_insert (Some h) k pl = Ret (None, Some h') /\ wf h' /\
     capacity h' = capacity h /\ live h' ≡ₚ mk_elem k pl :: live h).
Proof.
  intros Hwf. split_and!; [intros ->; done | | intros Hp Hn; by apply insert_spec].
  intros Hp Hn. unfold bh_insert. rewrite (proj2 (Z.eqb_neq _ _) Hp), Hn, Z.eqb_refl. done.
Qed.

Definition sample_heap : bheap :=
  {| hsize := 4; capacity := 6;
     elems := [mk_elem 9 100; mk_elem 5 101; mk_elem 7 102; mk_elem 1 103; mk_elem 0 0; mk_elem 3 3] |}.

Lemma sample_heap_wf : wf sample_heap.
Proof.
  split; [unfold shape, INDEX_BOUND, zlen; simpl; lia |]. intros j p Hp Hj Hn. simpl in Hn.
  assert (Hc : j = 1 /\ p = 0 \/ j = 2 /\ p = 0 \/ j = 3 /\ p = 1) by (unfold child in Hj; lia).
  destruct Hc as [[-> ->] | [[-> ->] | [-> ->]]]; cbv; discriminate.
Qed.

Lemma bh_insert_correct_witness :
  exists h', bh_insert (Some sample_heap) 8 104 = Ret (None, Some h') /\ wf h' /\ hsize h' = 5.
Proof.
  destruct (bh_insert_correct sample_heap 8 104 sample_heap_wf) as (_ & _ & H).
  destruct H as (h' & E & Hwf & _); [discriminate | discriminate |].
  exists h'. split; [exact E |]. split; [exact Hwf |]. vm_compute in E. injection E as <-. reflexivity.
Defined.

(** C36: on an empty heap [bh_remove_max] gives ENOENT and [bh_peek_max]
    INT_MIN; otherwise both speak about one entry of the largest key, and
    [bh_remove_max] returns its payload and removes exactly that entry,
    keeping the heap well formed. *)
Theorem bh_remove_max_correct (h : bheap) : wf h ->
  (hsize h = 0 -> bh_remove_max (Some h) = Ret (Err ENOENT, Some h) /\
                  bh_peek_max (Some h) = Ret INT_MIN) /\
  (hsize h <> 0 -> exists e h',
     bh_peek_max (Some h) = Ret (key e) /\
     bh_remove_max (Some h) = Ret (Ok (payload e), Some h') /\ wf h' /\
     live h ≡ₚ e :: live h' /\ (forall x, x ∈ live h -> key x <= key e)).
Proof.
  intros Hwf. pose proof Hwf as [(Hsz & Hlen & _) _]. split.
  - intros H0. unfold bh_remove_max, bh_peek_max. rewrite H0. done.
  - intros Hn. destruct (rd_in (elems h) 0) as (e & E & He); [lia |]. exists e.
    destruct (remove_max_spec h e Hwf) as (h' & E' & Hwf' & _ & _ & HP); [lia | done |].
    exists h'. split_and!; [| done | done | done | intros x; by apply elem_le_root].
    unfold bh_peek_max. rewrite (proj2 (Z.eqb_neq _ _) Hn), E. done.
Qed.

Lemma bh_remove_max_correct_witness :
  hsize sample_heap <> 0 /\
  exists h', bh_remove_max (Some sample_heap) = Ret (Ok 100, Some h') /\ wf h'.
Proof.
  assert (H0 : hsize sample_heap <> 0) by discriminate. split; [exact H0 |].
  destruct (bh_remove_max_correct sample_heap sample_heap_wf) as [_ H].
  destruct (H H0) as (e & h' & Ep & E & Hwf & _). exists h'. split; [| exact Hwf].
  rewrite E. vm_compute in Ep. vm_compute in E. injection E as Hpl _. rewrite Hpl. reflexivity.
Defined.

(** When every stored key is below [INT_MAX], [bh_remove] and
    [bh_remove_pld] remove exactly the first live entry that matches and
    return its payload, whatever its place in the heap, and give ENOENT
    without any change when none matches. *)
Theorem bh_remove_correct (h : bheap) (k : Z) (cc : Z -> bool) : wf h -> below_max h ->
  (forall test op,
     test = (fun e => key e =? k) /\ op = bh_remove (Some h) k \/
     test = (fun e => cc (payload e)) /\ op = bh_remove_pld (Some h) (Some cc) ->
     (exists i e h', live h !! i = Some e /\ test e = true /\
        (forall j x, (j < i)%nat -> live h !! j = Some x -> test x = false) /\
        op = Ret (Ok (payload e), Some h') /\ wf h' /\ live h ≡ₚ e :: live h') \/
     ((forall x, x ∈ live h -> test x = false) /\ op = Ret (Err ENOENT, Some h))).
Proof.
  intros Hwf Hb test op Hop. pose proof Hwf as [Hsh _]. pose proof Hsh as (Hsz & Hlen & _).
  assert (E : op = Ret (Err ENOENT, Some h) /\ hsize h = 0 \/
    op = (r ← find_elem test h 0 (Z.to_nat (hsize h));
          match r with Some i => __remove_elem h i | None => mret (Err ENOENT, Some h) end)).
  { destruct Hop as [[-> ->] | [-> ->]]; [| by right]. unfold bh_remove.
    destruct (Z.eqb_spec (hsize h) 0); [left | right]; done. }
  destruct E as [[-> H0] | ->].
  { right. split; [| done]. intros x (i & Hi%lookup_lt_Some)%list_elem_of_lookup.
    rewrite length_live in Hi by done. lia. }
  destruct (find_elem_spec test h (Z.to_nat (hsize h)) 0) as [(i & e & -> & He & _ & Ht & Hall) | (-> & Hall)];
    [lia | lia | done | left | right].
  - rb. destruct (remove_elem_spec h i e) as (h' & E & Hwf' & _ & HP); [done .. |].
    exists i, e, h'. split_and!; try done. intros j x Hj. apply Hall. lia.
  - split; [| done]. intros x (j & Hj)%list_elem_of_lookup. apply (Hall j x); [lia | done].
Qed.

Lemma bh_remove_correct_witness :
  below_max sample_heap /\
  exists h', bh_remove (Some sample_heap) 5 = Ret (Ok 101, Some h') /\ wf h'.
Proof.
  assert (Hb : below_max sample_heap).
  { assert (Hf : Forall (fun e => key e < INT_MAX) (live sample_heap)).
    { refine (bool_decide_eq_true_1 _ _). vm_compute. reflexivity. }
    intros e He. rewrite Forall_forall in Hf. apply Hf. exact He. }
  split; [exact Hb |].
  destruct (bh_remove_correct sample_heap 5 (fun _ => false) sample_heap_wf Hb _ _
              (or_introl (conj eq_refl eq_refl)))
    as [(i & e & h' & _ & _ & _ & E & Hwf & _) | (Hall & _)].
  - exists h'. split; [| exact Hwf]. rewrite E.
    vm_compute in E. injection E as Hpl _. rewrite Hpl. reflexivity.
  - exfalso. assert (H5 : mk_elem 5 101 ∈ live sample_heap) by exact (list_elem_of_lookup_2 (live sample_heap) 1 _ eq_refl).
    specialize (Hall _ H5). discriminate Hall.
Defined.

(** A fresh heap holds at least [items] entries when the pages hold at
    least [npages * EPP] elements, but none at all when [items] is 0. *)
Lemma bh_init_capacity block items h : 0 <= items ->
  bh_init true block items = Ok h ->
  hsize h = 0 /\ items <= capacity h < items + EPP /\ (items = 0 -> capacity h = 0).
Proof.
  unfold bh_init, EPP. intros Hi [= <-]. simpl.
  pose proof (Z.div_mod items (4096 / 16)) as Hd. pose proof (Z.mod_pos_bound items (4096 / 16)) as Hm.
  change (4096 / 16) with 256 in *. split; [done |].
  destruct (Z.eqb_spec (items mod 256) 0); split; lia.
Qed.

End Bheap.
