(* ===== verification/Dlist.v ===== *)
(** * Intrusive doubly linked lists (lib/list.c)

    A list head is a pair of links at an address; the store maps addresses to
    the links they hold, so that two structures that share a node share its
    links.  0 is the null pointer. *)

From S2P Require Import Prelude.

Module Dlist.

Record list_head := mk_links { next : Z; prev : Z }.

Abbreviation links := (gmap Z list_head).

Definition get (m : links) (s : Z) : out list_head :=
  if s =? 0 then Fault
  else match m !! s with Some n => Ret n | None => Fault end.

Definition set_next (m : links) (s v : Z) : out links :=
  n ← get m s; mret (<[s := mk_links v (prev n)]> m).
Definition set_prev (m : links) (s v : Z) : out links :=
  n ← get m s; mret (<[s := mk_links (next n) v]> m).

Definition list_init (m : links) (s : Z) : out links :=
  m ← set_next m s s; set_prev m s s.

Definition list_init_null (m : links) (s : Z) : out links :=
  m ← set_next m s 0; set_prev m s 0.

Definition list_remove (m : links) (s : Z) : out links :=
  n ← get m s;
  m ← (if negb (next n =? 0) then set_prev m (next n) (prev n) else mret m);
  n ← get m s;
  if negb (prev n =? 0) then set_next m (prev n) (next n) else mret m.

Definition list_insert (m : links) (new nxt prv : Z) : out links :=
  m ← set_next m prv new;
  m ← set_prev m nxt new;
  m ← set_prev m new prv;
  set_next m new nxt.

Definition list_append (m : links) (s t : Z) : out links :=
  n ← get m s;
  m ← set_next m t (next n);
  m ← set_prev m t s;
  n ← get m s;
  m ← (if negb (next n =? 0) then set_prev m (next n) t else mret m);
  set_next m s t.

Definition list_insert_tail (m : links) (s t : Z) : out links :=
  m ← set_next m s t;
  m ← set_prev m t s;
  set_next m t 0.

Definition list_insert_head (m : links) (s t : Z) : out links :=
  m ← set_prev m s t;
  m ← set_next m t s;
  set_prev m t 0.

Definition list_prepend (m : links) (s t : Z) : out links :=
  n ← get m s;
  m ← set_prev m t (prev n);
  m ← set_next m t s;
  m ← set_prev m s t;
  n ← get m s;
  if negb (prev n =? 0) then set_next m (prev n) t else mret m.

(** [FOREACH(list, i)]: the nodes the loop visits, from [list.next] to the
    head, when its body leaves the links alone. *)
Fixpoint foreach_loop (fuel : nat) (m : links) (head i : Z) : out (list Z) :=
  match fuel with
  | O => Spin
  | S fuel =>
      if i =? head then mret []
      else n ← get m i; l ← foreach_loop fuel m head (next n); mret (i :: l)
  end.

Definition FOREACH (m : links) (head : Z) : out (list Z) :=
  n ← get m head; foreach_loop (S (size m)) m head (next n).

Definition LIST_EMPTY (m : links) (head : Z) : out bool :=
  n ← get m head; mret (next n =? head).

(** ** Chains and rings *)

Definition nx (m : links) (a : Z) : option Z := next <$> m !! a.
Definition pv (m : links) (a : Z) : option Z := prev <$> m !! a.

Definition link (m : links) (a b : Z) : Prop :=
  nx m a = Some b /\ (b <> 0 -> pv m b = Some a).

Fixpoint chain (m : links) (a : Z) (xs : list Z) (b : Z) : Prop :=
  match xs with
  | [] => link m a b
  | x :: xs => link m a x /\ chain m x xs b
  end.

(** The list headed by [s] holds [xs] in this order: circular when the end
    [e] is [s], null-terminated when it is 0. *)
Definition dlist (m : links) (s : Z) (xs : list Z) (e : Z) : Prop :=
  NoDup (s :: xs) /\ 0 ∉ s :: xs /\ chain m s xs e /\ (e = s \/ e = 0).

(** A circular list. *)
Definition ring (m : links) (s : Z) (xs : list Z) : Prop := dlist m s xs s.

Lemma chain_app m a xs b ys c :
  chain m a (xs ++ b :: ys) c <-> chain m a xs b /\ chain m b ys c.
Proof. revert a. induction xs as [| x xs IH]; intros a; simpl; [done |]. rewrite IH. tauto. Qed.

(** Any node of a ring can be taken as its head. *)
Lemma ring_rotate m a xs b ys : ring m a (xs ++ b :: ys) <-> ring m b (ys ++ a :: xs).
Proof.
  unfold ring, dlist. rewrite !chain_app.
  assert (HP : a :: xs ++ b :: ys ≡ₚ b :: ys ++ a :: xs).
  { rewrite <- !Permutation_middle. rewrite (Permutation_app_comm xs ys). constructor 3. }
  rewrite HP. tauto.
Qed.

Lemma chain_frame m m' a xs b :
  (forall k, k ∈ a :: xs -> nx m' k = nx m k) ->
  (forall k, k <> 0 -> k ∈ xs ++ [b] -> pv m' k = pv m k) ->
  chain m a xs b -> chain m' a xs b.
Proof.
  revert a. induction xs as [| x xs IH]; intros a Hn Hp; simpl; unfold link.
  - rewrite Hn by set_solver. intros [H1 H2]. split; [done |].
    intros Hb. rewrite Hp by set_solver. auto.
  - intros [[H1 H2] Hc]. rewrite Hn by set_solver. split.
    + split; [done |]. intros Hx. rewrite Hp by set_solver. auto.
    + apply IH; [set_solver .. | done].
Qed.

Lemma chain_mapped m a xs b k : chain m a xs b -> k ∈ a :: xs -> is_Some (m !! k).
Proof.
  revert a. induction xs as [| x xs IH]; intros a Hc Hk.
  - apply list_elem_of_singleton in Hk as ->. destruct Hc as [Hc _]. unfold nx in Hc.
    destruct (m !! a); [eauto | done].
  - destruct Hc as [[Hc _] Hxs]. apply elem_of_cons in Hk as [-> | Hk]; [| by eapply IH].
    unfold nx in Hc. destruct (m !! a); [eauto | done].
Qed.

Lemma get_Ret m s n : get m s = Ret n <-> s <> 0 /\ m !! s = Some n.
Proof. unfold get. zb; repeat case_match; naive_solver. Qed.

(** The writes, as updates of the two link functions. *)
Lemma set_next_spec m s v : s <> 0 -> is_Some (m !! s) ->
  exists m', set_next m s v = Ret m' /\
    (forall a, nx m' a = if a =? s then Some v else nx m a) /\ (forall a, pv m' a = pv m a) /\
    dom m' = dom m.
Proof.
  intros Hs [n E]. assert (G : get m s = Ret n) by (by apply get_Ret).
  unfold set_next. rewrite G. rb. eexists. split; [done |].
  unfold nx, pv. split_and!; [| | apply dom_insert_lookup_L; eauto];
    intros a; destruct (Z.eqb_spec a s) as [-> | Hne];
    rewrite ?lookup_insert_eq, ?E, ?lookup_insert_ne by done; done.
Qed.

Lemma set_prev_spec m s v : s <> 0 -> is_Some (m !! s) ->
  exists m', set_prev m s v = Ret m' /\
    (forall a, pv m' a = if a =? s then Some v else pv m a) /\ (forall a, nx m' a = nx m a) /\
    dom m' = dom m.
Proof.
  intros Hs [n E]. assert (G : get m s = Ret n) by (by apply get_Ret).
  unfold set_prev. rewrite G. rb. eexists. split; [done |].
  unfold nx, pv. split_and!; [| | apply dom_insert_lookup_L; eauto];
    intros a; destruct (Z.eqb_spec a s) as [-> | Hne];
    rewrite ?lookup_insert_eq, ?E, ?lookup_insert_ne by done; done.
Qed.

Lemma get_nx m s b : s <> 0 -> nx m s = Some b ->
  exists n, get m s = Ret n /\ next n = b /\ pv m s = Some (prev n).
Proof.
  unfold nx, pv. intros Hs H. destruct (m !! s) as [n |] eqn:E; simplify_eq/=.
  exists n. by rewrite get_Ret.
Qed.

Lemma mapped_nx m s : is_Some (m !! s) <-> is_Some (nx m s).
Proof. unfold nx. by rewrite fmap_is_Some. Qed.

Lemma dom_mapped (m m' : links) s : dom m' = dom m -> is_Some (m !! s) -> is_Some (m' !! s).
Proof. intros Hd. rewrite <- !elem_of_dom, Hd. done. Qed.

Lemma first_link m a xs b : chain m a xs b -> link m a (hd b xs).
Proof. destruct xs; simpl; tauto. Qed.

(** ** The operations on well-formed lists *)

Lemma list_init_ring m s : s <> 0 -> is_Some (m !! s) ->
  exists m', list_init m s = Ret m' /\ ring m' s [] /\
    (forall a, a <> s -> nx m' a = nx m a /\ pv m' a = pv m a) /\ dom m' = dom m.
Proof.
  intros Hs Hm. unfold list_init.
  destruct (set_next_spec m s s Hs Hm) as (m1 & -> & N1 & P1 & D1). rb.
  destruct (set_prev_spec m1 s s Hs (dom_mapped _ _ _ D1 Hm)) as (m2 & -> & P2 & N2 & D2).
  exists m2. split; [done |]. split_and!; [| | congruence].
  - unfold ring, dlist, chain, link. rewrite N2, N1, P2, Z.eqb_refl.
    split_and!; [apply NoDup_singleton | set_solver | done | auto | auto].
  - intros a Ha. rewrite N2, N1, P2, P1. zb; done.
Qed.

Lemma links_ext (m m' : links) a : nx m' a = nx m a -> pv m' a = pv m a -> m' !! a = m !! a.
Proof. unfold nx, pv. destruct (m !! a) as [[]|], (m' !! a) as [[]|]; naive_solver. Qed.

(** [list_append] inserts the new node right after the given one and
    keeps the order of the others, in a circular list and in a
    null-terminated one; it writes no other node than the new one and its
    two neighbours. *)
Lemma list_append_dlist (m : links) (s t e : Z) (xs : list Z) :
  dlist m s xs e -> t <> 0 -> t ∉ s :: xs -> is_Some (m !! t) ->
  exists m', list_append m s t = Ret m' /\ dlist m' s (t :: xs) e /\
    (forall a, a <> s -> a <> t -> a <> hd e xs -> m' !! a = m !! a) /\ dom m' = dom m.
Proof.
  intros (Hnd & H0 & Hc & He) Ht Hts Hmt. unfold list_append. set (y := hd e xs).
  destruct (first_link _ _ _ _ Hc) as [Hn Hp]. fold y in Hn, Hp.
  assert (Hs : s <> 0) by set_solver. assert (Hst : s <> t) by set_solver.
  assert (Hys : y = 0 \/ y ∈ s :: xs).
  { unfold y. destruct He as [-> | ->]; destruct xs; simpl; set_solver. }
  assert (Hyt : y <> t) by (destruct Hys; [congruence | set_solver]).
  destruct (get_nx _ _ _ Hs Hn) as (n & -> & En & Epv). rb. rewrite En.
  destruct (set_next_spec m t y Ht Hmt) as (m1 & -> & N1 & P1 & D1). rb.
  destruct (set_prev_spec m1 t s Ht (dom_mapped _ _ _ D1 Hmt)) as (m2 & -> & P2 & N2 & D2). rb.
  destruct (get_nx m2 s y Hs) as (n2 & -> & En2 & _).
  { rewrite N2, N1. zb; congruence. }
  rb. rewrite En2.
  assert (Hm3 : exists m3, (if negb (y =? 0) then set_prev m2 y t else mret m2) = Ret m3 /\
    (forall a, a <> 0 -> pv m3 a = if a =? y then Some t else pv m2 a) /\
    (forall a, nx m3 a = nx m2 a) /\ dom m3 = dom m2 /\ m3 !! 0 = m2 !! 0).
  { destruct (Z.eqb_spec y 0) as [Hy0 | Hy0]; cbn [negb].
    - exists m2. split_and!; try done. intros a Ha. zb; congruence.
    - destruct (set_prev_spec m2 y t Hy0) as (m3 & E3 & P3 & N3 & D3).
      { apply (dom_mapped m); [congruence |].
        destruct Hys as [? | Hys]; [done | by eapply chain_mapped]. }
      exists m3. split_and!; auto. apply links_ext; [auto |]. rewrite P3. zb; congruence. }
  destruct Hm3 as (m3 & -> & P3 & N3 & D3 & Z3). rb.
  destruct (set_next_spec m3 s t Hs) as (m4 & -> & N4 & P4 & D4).
  { apply (dom_mapped m); [congruence |]. eapply chain_mapped; [exact Hc | set_solver]. }
  assert (N : forall a, nx m4 a = if a =? s then Some t else if a =? t then Some y else nx m a).
  { intros a. rewrite N4, N3, N2, N1. done. }
  assert (P : forall a, a <> 0 -> pv m4 a = if a =? y then Some t else if a =? t then Some s else pv m a).
  { intros a Ha. rewrite P4, P3, P2, P1 by done. done. }
  exists m4. split_and!; [done | | | congruence].
  - split_and!; [| set_solver | | done].
    { rewrite !NoDup_cons in *. set_solver. }
    simpl. split.
    { split; [rewrite N, Z.eqb_refl; done |]. intros _. rewrite P by done. zb; congruence. }
    assert (Hty : link m4 t y).
    { split; [rewrite N | intros Hy0; rewrite P by done]; zb; congruence. }
    destruct xs as [| x xs]; [exact Hty |]. split; [exact Hty |]. destruct Hc as [_ Hc].
    apply (chain_frame m); [| | exact Hc].
    + intros k Hk. rewrite N. rewrite !NoDup_cons in Hnd.
      zb; subst; [clear - Hk Hnd; set_solver | clear - Hk Hts; set_solver | done].
    + intros k Hk0 Hk. rewrite P by done. rewrite !NoDup_cons in Hnd. simpl in y.
      assert (Hkx : k <> y) by (unfold y; clear - Hk Hk0 Hnd He; set_solver).
      assert (Hkt : k <> t) by (clear - Hk Hk0 Hts He Ht; set_solver).
      zb; congruence.
  - intros a Ha1 Ha2 Ha3. destruct (Z.eq_dec a 0) as [-> |].
    + rewrite (links_ext m3 m4), Z3.
      * apply links_ext; [rewrite N2, N1 | rewrite P2, P1]; zb; congruence.
      * rewrite N4. zb; congruence.
      * apply P4.
    + apply links_ext; [rewrite N | rewrite P by done]; zb; congruence.
Qed.

(** [list_remove] on a node between [z] and [y]. *)
Lemma list_remove_links m x y z :
  x <> 0 -> z <> 0 -> x <> y -> x <> z ->
  link m z x -> link m x y -> is_Some (m !! y) \/ y = 0 ->
  exists m', list_remove m x = Ret m' /\
    (forall a, nx m' a = if a =? z then Some y else nx m a) /\
    (forall a, a <> 0 -> pv m' a = if a =? y then Some z else pv m a) /\
    pv m' 0 = pv m 0 /\ dom m' = dom m.
Proof.
  intros Hx Hz Hxy Hxz [Nz Pz] [Nx Py] Hmy. unfold list_remove.
  destruct (get_nx _ _ _ Hx Nx) as (n & -> & En & Epv). rb. rewrite En.
  assert (Ez : prev n = z) by (rewrite Pz in Epv by done; congruence). rewrite Ez.
  assert (H1 : exists m1, (if negb (y =? 0) then set_prev m y z else mret m) = Ret m1 /\
    (forall a, a <> 0 -> pv m1 a = if a =? y then Some z else pv m a) /\
    (forall a, nx m1 a = nx m a) /\ dom m1 = dom m /\ pv m1 0 = pv m 0).
  { destruct (Z.eqb_spec y 0) as [Hy0 | Hy0]; cbn [negb].
    - exists m. split_and!; try done. intros a Ha. zb; congruence.
    - destruct Hmy as [Hmy | ?]; [| done].
      destruct (set_prev_spec m y z Hy0 Hmy) as (m1 & E & P & N & D). exists m1. split_and!; auto.
      rewrite P. zb; congruence. }
  destruct H1 as (m1 & -> & P1 & N1 & D1 & Z1). rb.
  destruct (get_nx m1 x y Hx) as (n2 & -> & En2 & Epv2); [by rewrite N1 |]. rb.
  assert (Ez2 : prev n2 = z).
  { rewrite P1 in Epv2 by done. rewrite (proj2 (Z.eqb_neq _ _) Hxy) in Epv2.
    rewrite Pz in Epv2 by done. congruence. }
  rewrite Ez2, En2, (proj2 (Z.eqb_neq _ _) Hz). cbn [negb].
  destruct (set_next_spec m1 z y Hz) as (m2 & E2 & N2 & P2 & D2).
  { apply mapped_nx. rewrite N1, Nz. eauto. }
  exists m2. split_and!; [exact E2 | | | | congruence].
  - intros a. rewrite N2, N1. done.
  - intros a Ha. rewrite P2, P1 by done. done.
  - rewrite P2. auto.
Qed.

(** [list_remove] unlinks exactly the node, wherever it is in the list, and
    leaves its own links; it writes no other node than its neighbours. *)
Lemma list_remove_dlist (m : links) (s x e : Z) (xs ys : list Z) :
  dlist m s (xs ++ x :: ys) e ->
  exists m', list_remove m x = Ret m' /\ dlist m' s (xs ++ ys) e /\ m' !! x = m !! x /\
    (forall a, a ∉ s :: xs ++ x :: ys -> m' !! a = m !! a) /\ dom m' = dom m.
Proof.
  intros (Hnd & H0 & Hc & He). apply chain_app in Hc as [Hl Hr].
  set (y := hd e ys). pose proof (first_link _ _ _ _ Hr) as Hxy. fold y in Hxy.
  assert (Hz : exists z xs', s :: xs = xs' ++ [z]).
  { destruct (exists_last (l := s :: xs)) as (xs' & z & E); [done |]. eauto. }
  destruct Hz as (z & xs' & Ez).
  assert (Hzx : link m z x /\ (xs' = [] /\ z = s /\ xs = [] \/
     exists l, xs' = s :: l /\ xs = l ++ [z] /\ chain m s l z)).
  { destruct xs' as [| ? l]; simplify_eq/=; [by auto |].
    apply chain_app in Hl as [Hl1 Hl2]. split; [exact Hl2 |]. right. eauto. }
  destruct Hzx as [Hzx Hpre].
  assert (Hin : z ∈ s :: xs) by (rewrite Ez; set_solver).
  assert (Hzs : z <> 0) by set_solver.
  assert (Hx0 : x <> 0) by set_solver.
  assert (Hnd' : x ∉ s :: xs /\ x ∉ ys /\ NoDup ys /\ NoDup (s :: xs) /\ (forall k, k ∈ s :: xs -> k ∉ ys)).
  { rewrite app_comm_cons, NoDup_app, (NoDup_cons x) in Hnd. destruct Hnd as (? & Hd & ? & ?).
    split_and!; [| done .. |]; clear - Hd; set_solver. }
  destruct Hnd' as (Hxs & Hxys & Hndy & Hnds & Hdis).
  assert (Hy : y = 0 \/ y ∈ s :: ys) by (unfold y; destruct He as [-> | ->]; destruct ys; simpl; set_solver).
  destruct (list_remove_links m x y z) as (m' & E & N & P & P0 & D); [done | done | | | done | done | |].
  { clear - Hy Hx0 Hxs Hxys. destruct Hy; [congruence | set_solver]. }
  { clear - Hin Hxs. set_solver. }
  { destruct Hy as [Hy | Hy]; [by right | left].
    apply elem_of_cons in Hy as [-> | Hy]; eapply chain_mapped; [exact Hl | set_solver | exact Hr | set_solver]. }
  exists m'. split; [exact E |].
  assert (Hframe : forall a, a <> z -> a <> y \/ a = 0 -> m' !! a = m !! a).
  { intros a Haz Hay. destruct (Z.eq_dec a 0) as [-> | Ha].
    - apply links_ext; [rewrite N; zb; congruence | done].
    - destruct Hay as [Hay | ?]; [| done].
      apply links_ext; [rewrite N | rewrite P by done]; zb; congruence. }
  assert (Hyin : y = 0 \/ y ∈ s :: xs ++ x :: ys) by (clear - Hy; set_solver).
  split_and!; [| | | done].
  - split_and!; [| clear - H0; set_solver | | done].
    { clear - Hndy Hnds Hdis. rewrite app_comm_cons, NoDup_app. set_solver. }
    assert (Hzy : link m' z y).
    { split; [rewrite N, Z.eqb_refl; done |]. intros Hy0. rewrite P, Z.eqb_refl by done. done. }
    assert (Hright : forall n ys', ys = n :: ys' -> chain m' n ys' e).
    { intros n ys' ->. destruct Hr as [_ Hr]. simpl in y. apply (chain_frame m); [| | exact Hr].
      - intros k Hk. rewrite N. zb; [| done]. subst. clear - Hk Hin Hdis. set_solver.
      - intros k Hk0 Hk. rewrite P by done. zb; [| done]. subst k. exfalso. unfold y in *.
        rewrite NoDup_cons in Hndy.
        destruct He as [-> | ->]; clear - Hk Hk0 Hndy Hdis; set_solver. }
    assert (Hleft : forall l, xs = l ++ [z] -> chain m s l z -> chain m' s l z).
    { intros l -> Hc. apply (chain_frame m); [| | exact Hc].
      - intros k Hk. rewrite N. zb; [| done]. subst. exfalso.
        rewrite app_comm_cons, NoDup_app in Hnds. clear - Hk Hnds. set_solver.
      - intros k Hk0 Hk. rewrite P by done. zb; [| done]. subst k. exfalso.
        rewrite NoDup_cons in Hnds. clear - Hk Hk0 Hy Hdis Hnds. set_solver. }
    assert (Hjoin : chain m' z ys e).
    { destruct ys as [| n ys']; [exact Hzy |]. split; [exact Hzy | by apply Hright]. }
    destruct Hpre as [(-> & -> & ->) | (l & -> & -> & Hc)]; [exact Hjoin |].
    rewrite <- app_assoc. apply chain_app. split; [by apply Hleft | exact Hjoin].
  - apply Hframe; [clear - Hin Hxs; set_solver |].
    left. clear - Hy Hx0 Hxs Hxys. destruct Hy; [congruence | set_solver].
  - intros a Ha. apply Hframe; [clear - Ha Hin; set_solver |].
    destruct (Z.eq_dec a y) as [-> |]; [right | by left]. by destruct Hyin.
Qed.

(** The forward links alone: all a [FOREACH] walk reads. *)
Fixpoint npath (m : links) (a : Z) (xs : list Z) (b : Z) : Prop :=
  match xs with
  | [] => nx m a = Some b
  | x :: xs => nx m a = Some x /\ npath m x xs b
  end.

Lemma chain_npath m a xs b : chain m a xs b -> npath m a xs b.
Proof. revert a. induction xs as [| x xs IH]; intros a; simpl; unfold link; naive_solver. Qed.

Lemma npath_frame m m' a xs b :
  (forall k, k ∈ a :: xs -> nx m' k = nx m k) -> npath m a xs b -> npath m' a xs b.
Proof.
  revert a. induction xs as [| x xs IH]; intros a Hn; simpl; rewrite Hn by set_solver; [done |].
  intros [H1 H2]. split; [done | apply IH; [set_solver | done]].
Qed.

Lemma npath_first m a xs b : npath m a xs b -> nx m a = Some (hd b xs).
Proof. destruct xs; simpl; tauto. Qed.

Lemma npath_mapped m a xs b k : npath m a xs b -> k ∈ a :: xs -> k ∈ dom m.
Proof.
  revert a. induction xs as [| x xs IH]; intros a Hc Hk; rewrite elem_of_dom.
  - apply list_elem_of_singleton in Hk as ->. apply mapped_nx. simpl in Hc. rewrite Hc. eauto.
  - destruct Hc as [Hc Hxs]. apply elem_of_cons in Hk as [-> | Hk].
    + apply mapped_nx. rewrite Hc. eauto.
    + apply elem_of_dom. by apply (IH x).
Qed.

Lemma foreach_npath m s xs a fuel :
  s <> 0 -> s ∉ xs -> 0 ∉ xs -> npath m a xs s -> (length xs < fuel)%nat ->
  foreach_loop fuel m s (hd s xs) = Ret xs.
Proof.
  revert a fuel. induction xs as [| x xs IH]; intros a fuel Hs Hin H0 Hc Hf;
    (destruct fuel; [simpl in Hf; lia |]); cbn [foreach_loop hd].
  - by rewrite Z.eqb_refl.
  - destruct Hc as [_ Hc]. rewrite (proj2 (Z.eqb_neq _ _)) by set_solver.
    destruct (get_nx m x _ ltac:(set_solver) (npath_first _ _ _ _ Hc)) as (n & -> & En & _). rb.
    rewrite En, (IH x); [done | done | set_solver | set_solver | done | simpl in Hf; lia].
Qed.

(** The walk ends within the size of the store. *)
Lemma FOREACH_npath m s xs : NoDup (s :: xs) -> 0 ∉ s :: xs -> npath m s xs s -> FOREACH m s = Ret xs.
Proof.
  intros Hnd H0 Hc. unfold FOREACH.
  destruct (get_nx m s _ ltac:(set_solver) (npath_first _ _ _ _ Hc)) as (n & -> & En & _). rb.
  rewrite En. rewrite NoDup_cons in Hnd.
  apply (foreach_npath m s xs s); [set_solver | tauto | set_solver | done |].
  rewrite <- size_dom, <- (size_list_to_set (C:=gset Z) xs) by tauto.
  assert (Hsub : list_to_set (C:=gset Z) xs ⊆ dom m); [| apply subseteq_size in Hsub; lia].
  intros k Hk%elem_of_list_to_set. eapply npath_mapped; [exact Hc | set_solver].
Qed.

Lemma FOREACH_ring m s xs : ring m s xs -> FOREACH m s = Ret xs.
Proof. intros (Hnd & H0 & Hc & _). by apply FOREACH_npath, chain_npath. Qed.

(** A ring is not affected by what happens to other nodes. *)
Lemma ring_frame m m' w xs : (forall k, k ∈ w :: xs -> nx m' k = nx m k /\ pv m' k = pv m k) -> ring m w xs -> ring m' w xs.
Proof.
  intros Hk (Hnd & H0 & Hc & He). split_and!; [done | done | | done].
  apply (chain_frame m); [| | done]; intros j; intros; apply Hk; set_solver.
Qed.

(** A [FOREACH] loop that leaves at the first node that passes a test. *)
Fixpoint find_loop (fuel : nat) (m : links) (test : Z -> out bool) (head iter : Z) : out (option Z) :=
  match fuel with
  | O => Spin
  | S fuel =>
      if iter =? head then mret None
      else b ← test iter;
           if b : bool then mret (Some iter)
           else n ← get m iter; find_loop fuel m test head (next n)
  end.

Definition FOREACH_find (m : links) (test : Z -> out bool) (head : Z) : out (option Z) :=
  n ← get m head; find_loop (S (size m)) m test head (next n).

Lemma find_loop_chain m test f s xs a fuel :
  s <> 0 -> s ∉ xs -> 0 ∉ xs -> chain m a xs s -> (length xs < fuel)%nat -> (forall x, x ∈ xs -> test x = Ret (f x)) ->
  find_loop fuel m test s (hd s xs) = Ret (List.find f xs).
Proof.
  revert a fuel. induction xs as [| x xs IH]; intros a fuel Hs Hin H0 Hc Hf Ht;
    (destruct fuel as [| fuel]; [simpl in Hf; lia |]); cbn [find_loop hd List.find].
  - by rewrite Z.eqb_refl.
  - rewrite not_elem_of_cons in Hin. destruct Hin as [Hsx Hin]. destruct Hc as [_ Hc].
    rewrite (proj2 (Z.eqb_neq x s)) by congruence. rewrite (Ht x) by by left. rb. destruct (f x); [done |].
    rewrite not_elem_of_cons in H0. destruct H0 as [H0x H0].
    destruct (first_link _ _ _ _ Hc) as [Hx _].
    destruct (get_nx m x _ ltac:(congruence) Hx) as (n & -> & En & _). rb. rewrite En.
    apply (IH x); [done .. | simpl in Hf; lia |]. intros y Hy. apply Ht. by right.
Qed.

Lemma FOREACH_find_ring m test f s xs : ring m s xs -> (forall x, x ∈ xs -> test x = Ret (f x)) ->
  FOREACH_find m test s = Ret (List.find f xs).
Proof.
  intros (Hnd & H0 & Hc & _) Ht. unfold FOREACH_find. pose proof Hnd as [Hs _]%NoDup_cons.
  rewrite not_elem_of_cons in H0. destruct H0 as [H0s H0].
  destruct (first_link _ _ _ _ Hc) as [Hx _].
  destruct (get_nx m s _ ltac:(congruence) Hx) as (n & -> & En & _). rb. rewrite En.
  apply (find_loop_chain m test f s xs s); try done.
  assert (Hsub : list_to_set (s :: xs) ⊆ dom m).
  { intros k Hk%elem_of_list_to_set. apply elem_of_dom. by eapply chain_mapped. }
  apply subseteq_size in Hsub. rewrite (size_list_to_set (C := gset Z)) in Hsub by done. rewrite size_dom in Hsub. simpl in Hsub. lia.
Qed.

(** On a circular list, [list_append] puts the new node first,
    [list_remove] takes out exactly the given one, and a [FOREACH] walk
    ends and visits the remaining nodes once, in order. *)
Theorem list_edit_walk (m : links) (s t : Z) (xs : list Z) :
  ring m s xs -> t <> 0 -> t ∉ s :: xs -> is_Some (m !! t) ->
  FOREACH m s = Ret xs /\
  (exists m', list_append m s t = Ret m' /\ FOREACH m' s = Ret (t :: xs) /\
     exists m'', list_remove m' t = Ret m'' /\ FOREACH m'' s = Ret xs) /\
  (forall l x r, xs = l ++ x :: r ->
     exists m', list_remove m x = Ret m' /\ FOREACH m' s = Ret (l ++ r)).
Proof.
  intros Hr Ht Hts Hmt. split_and!; [by apply FOREACH_ring | |].
  - destruct (list_append_dlist m s t s xs Hr Ht Hts Hmt) as (m' & E & Hr' & _).
    exists m'. split_and!; [done | by apply FOREACH_ring |].
    destruct (list_remove_dlist m' s t s [] xs Hr') as (m'' & E'' & Hr'' & _).
    exists m''. split; [done | by apply FOREACH_ring].
  - intros l x r ->. destruct (list_remove_dlist m s x s l r Hr) as (m' & E & Hr' & _).
    exists m'. split; [done | by apply FOREACH_ring].
Qed.

Definition sample_links : links :=
  list_to_map [(1, mk_links 2 3); (2, mk_links 3 1); (3, mk_links 1 2); (9, mk_links 77 88)].

Lemma sample_ring : ring sample_links 1 [2; 3].
Proof.
  unfold ring, dlist. split_and!; [| | | by left].
  - refine (bool_decide_eq_true_1 _ _). vm_compute. reflexivity.
  - refine (bool_decide_eq_true_1 _ _). vm_compute. reflexivity.
  - repeat split.
Qed.

Lemma list_edit_walk_witness :
  ring sample_links 1 [2; 3] /\
  exists m', list_remove sample_links 2 = Ret m' /\ FOREACH m' 1 = Ret [3].
Proof.
  split; [exact sample_ring |].
  destruct (list_edit_walk sample_links 1 9 [2; 3] sample_ring) as (_ & _ & H).
  - discriminate.
  - refine (bool_decide_eq_true_1 _ _). vm_compute. reflexivity.
  - exists (mk_links 77 88). reflexivity.
  - exact (H [] 2 [3] eq_refl).
Defined.

(** [list_prepend] does not insert the node before [s]: it reads
    [s->prev] after overwriting it, so the new node ends up as its own
    successor and a forward walk of the list never meets it. *)
Theorem list_prepend_self_loop (m : links) (s t : Z) (xs : list Z) :
  ring m s xs -> t <> 0 -> t ∉ s :: xs -> is_Some (m !! t) ->
  exists m', list_prepend m s t = Ret m' /\ nx m' t = Some t /\ pv m' s = Some t /\
    FOREACH m' s = Ret xs.
Proof.
  intros Hr Ht Hts Hmt. pose proof Hr as (Hnd & H0 & Hc & _).
  assert (Hs : s <> 0) by (clear - H0; set_solver).
  assert (Hst : s <> t) by (clear - Hts; set_solver).
  destruct (first_link _ _ _ _ Hc) as [Hn _]. unfold list_prepend.
  destruct (get_nx m s _ Hs Hn) as (n & -> & En & Epv). rb.
  assert (Hms : is_Some (m !! s)) by (eapply chain_mapped; [exact Hc | clear; set_solver]).
  destruct (set_prev_spec m t (prev n) Ht Hmt) as (m1 & -> & P1 & N1 & D1). rb.
  destruct (set_next_spec m1 t s Ht (dom_mapped _ _ _ D1 Hmt)) as (m2 & -> & N2 & P2 & D2). rb.
  destruct (set_prev_spec m2 s t Hs) as (m3 & -> & P3 & N3 & D3).
  { apply (dom_mapped m); [congruence | done]. }
  rb. destruct (get_nx m3 s (hd s xs) Hs) as (n3 & -> & En3 & Epv3).
  { rewrite N3, N2, N1. zb; congruence. }
  rewrite P3, Z.eqb_refl in Epv3. simplify_eq. rb. rewrite (proj2 (Z.eqb_neq _ _) Ht). cbn [negb].
  destruct (set_next_spec m3 (prev n3) (prev n3) Ht) as (m4 & -> & N4 & P4 & D4).
  { apply (dom_mapped m); [congruence | done]. }
  exists m4. split_and!; [done | by rewrite N4, Z.eqb_refl | by rewrite P4, P3, Z.eqb_refl |].
  apply FOREACH_npath; [done | done |].
  apply (npath_frame m); [| by apply chain_npath].
  intros k Hk. rewrite N4, N3, N2, N1. zb; try done; subst; clear - Hk Hts; set_solver.
Qed.

Lemma list_prepend_self_loop_witness :
  ring sample_links 1 [2; 3] /\
  exists m', list_prepend sample_links 1 9 = Ret m' /\ nx m' 9 = Some 9 /\ FOREACH m' 1 = Ret [2; 3].
Proof.
  split; [exact sample_ring |].
  destruct (list_prepend_self_loop sample_links 1 9 [2; 3] sample_ring) as (m' & E & N & _ & F).
  - discriminate.
  - refine (bool_decide_eq_true_1 _ _). vm_compute. reflexivity.
  - exists (mk_links 77 88). reflexivity.
  - exists m'. split; [exact E | split; [exact N | exact F]].
Defined.

End Dlist.
