(* ===== verification/Locks.v ===== *)
(** * Spinlocks and mutexes (include/sync/spinlock.h, sync/mutex.c)

    Two views: the operations as the calling CPU sees them when no other CPU
    runs ([spin_acquire], [mutex_lock] and the others, used by the other
    components), and a step relation in which any number of CPUs interleave
    at the granularity of their memory accesses. *)

From S2P Require Import Prelude.

Module Locks.

(** ** The operations, one CPU *)

(** [xchgb]: the register gets the memory and the memory the register. *)
Definition xchgb (tmp s : Z) : Z * Z := (s, tmp).

(** The loop ends at its first exchange, or not at all without another
    CPU: an exchange that fails leaves the lock as it was. *)
Definition spin_acquire (s : Z) : out Z :=
  let '(tmp, s) := xchgb 1 s in if tmp =? 0 then mret s else Spin.

Definition spin_release (s : Z) : Z := let '(_, s) := xchgb 0 s in s.

(** [_irq]: the lock and the interrupt flag of the CPU. *)
Definition spin_acquire_irq (s : Z) : out (Z * bool) := s ← spin_acquire s; mret (s, false).
Definition spin_release_irq (s : Z) : Z * bool := (spin_release s, true).

(** [mutex_t] is an [int8_t]: -1 is locked, anything else unlocked. *)
Definition mutex_trylock (m : Z) : Z * Z := if m =? -1 then (-1, m) else (0, -1).
Definition mutex_lock (m : Z) : out (Z * Z) := if m =? -1 then Spin else mret (0, -1).
Definition mutex_unlock (m : Z) : Z * Z := if m =? 0 then (-1, m) else (0, 0).

Lemma spin_acquire_free : spin_acquire 0 = Ret 1.
Proof. reflexivity. Qed.

Lemma spin_release_0 s : spin_release s = 0.
Proof. reflexivity. Qed.

Lemma spin_acquire_Ret s s' : spin_acquire s = Ret s' <-> s = 0 /\ s' = 1.
Proof.
  unfold spin_acquire, xchgb. destruct (Z.eqb_spec s 0) as [-> | Hs]; simpl; split.
  - by intros [= <-].
  - by intros [_ ->].
  - done.
  - by intros [? _].
Qed.

(** ** Interleavings of many CPUs *)

Section interleaving.
Context {pc : Type}.

Definition upd (f : nat -> pc) (i : nat) (p : pc) : nat -> pc :=
  fun j => if decide (j = i) then p else f j.

Lemma upd_eq f i p : upd f i p i = p.
Proof. unfold upd. by rewrite decide_True. Qed.

Lemma upd_ne f i p j : j <> i -> upd f i p j = f j.
Proof. intros H. unfold upd. by rewrite decide_False. Qed.
End interleaving.

(** A CPU that uses the spinlock: outside, about to exchange its register,
    about to test it, inside the critical section. *)
Inductive spin_pc := SOut | SXchg (tmp : Z) | STest (tmp : Z) | SIn.

(** One atomic step of CPU [i]: the exchanges are the only accesses to the
    lock byte. *)
Inductive spin_step : Z * (nat -> spin_pc) -> Z * (nat -> spin_pc) -> Prop :=
| spin_call s f i : f i = SOut -> spin_step (s, f) (s, upd f i (SXchg 1))
| spin_xchg s f i tmp : f i = SXchg tmp ->
    spin_step (s, f) (snd (xchgb tmp s), upd f i (STest (fst (xchgb tmp s))))
| spin_again s f i tmp : f i = STest tmp -> tmp <> 0 -> spin_step (s, f) (s, upd f i (SXchg tmp))
| spin_enter s f i : f i = STest 0 -> spin_step (s, f) (s, upd f i SIn)
| spin_leave s f i : f i = SIn -> spin_step (s, f) (spin_release s, upd f i SOut).

(** A CPU that uses the mutex: [mutex_lock] reads the byte in its loop and
    writes it with a separate store. *)
Inductive mutex_pc := MOut | MRead | MWrite | MIn.

Inductive mutex_step : Z * (nat -> mutex_pc) -> Z * (nat -> mutex_pc) -> Prop :=
| mutex_call m f i : f i = MOut -> mutex_step (m, f) (m, upd f i MRead)
| mutex_busy m f i : f i = MRead -> m = -1 -> mutex_step (m, f) (m, f)
| mutex_seen m f i : f i = MRead -> m <> -1 -> mutex_step (m, f) (m, upd f i MWrite)
| mutex_enter m f i : f i = MWrite -> mutex_step (m, f) (-1, upd f i MIn)
| mutex_leave m f i : f i = MIn -> mutex_step (m, f) (snd (mutex_unlock m), upd f i MOut).

Definition spin_init : Z * (nat -> spin_pc) := (0, fun _ => SOut).
Definition mutex_init : Z * (nat -> mutex_pc) := (0, fun _ => MOut).

(** The CPU owns the lock: it has taken it and not released it yet. *)
Definition owns (p : spin_pc) : Prop := p = SIn \/ p = STest 0.

(** The lock byte is 0 and nobody owns it, or it is 1 and one CPU does. *)
Definition spin_inv (st : Z * (nat -> spin_pc)) : Prop :=
  let '(s, f) := st in
  (forall i t, f i = SXchg t -> t = 1) /\ (forall i t, f i = STest t -> t = 0 \/ t = 1) /\
  ((s = 0 /\ forall i, ~ owns (f i)) \/
   (s = 1 /\ exists i, owns (f i) /\ forall j, owns (f j) -> j = i)).

(** Case analysis on which CPU moved. *)
Ltac pcs :=
  intros; repeat (case_decide; simplify_eq); repeat match goal with
  | H : _ \/ _ |- _ => destruct H
  | H : exists _, _ |- _ => destruct H
  | H : _ /\ _ |- _ => destruct H
  end; simplify_eq; eauto.

Lemma spin_inv_step st st' : spin_inv st -> spin_step st st' -> spin_inv st'.
Proof.
  intros Hinv Hstep. destruct Hstep as [s f i Hi | s f i t Hi | s f i t Hi Ht | s f i Hi | s f i Hi];
    destruct Hinv as (Ht1 & Ht2 & Hown); unfold spin_inv, spin_release, xchgb, upd, owns in *; cbn [fst snd].
  - split_and!; [pcs .. |].
    destruct Hown as [[-> H] | [-> (k & Hk & H)]]; [left | right]; (split; [done |]).
    + intros j. specialize (H j). pcs; intros [|]; congruence.
    + exists k. split; [pcs; congruence |]. pcs; congruence.
  - assert (t = 1) as -> by eauto. split_and!; [pcs | pcs; destruct Hown; naive_solver |].
    right. split; [done |]. destruct Hown as [[-> H] | [-> (k & Hk & H)]].
    + exists i. rewrite decide_True by done. split; [by right |]. intros j Hj. specialize (H j).
      case_decide; [done | tauto].
    + exists k. split; [pcs; congruence |]. pcs; congruence.
  - destruct (Ht2 _ _ Hi) as [-> | ->]; [done |]. split_and!; [pcs .. |].
    destruct Hown as [[-> H] | [-> (k & Hk & H)]]; [left | right]; (split; [done |]).
    + intros j. specialize (H j). pcs; intros [|]; congruence.
    + exists k. split; [pcs; congruence |]. pcs; congruence.
  - split_and!; [pcs .. |].
    destruct Hown as [[-> H] | [-> (k & Hk & H)]]; [exfalso; apply (H i); auto |].
    right. split; [done |]. exists i. rewrite decide_True by done. split; [by left |].
    intros j. case_decide; [done |]. rewrite (H i) by auto. apply H.
  - split_and!; [pcs .. |].
    left. split; [done |]. intros j Hj. destruct Hown as [[-> H] | [-> (k & Hk & H)]]; [apply (H i); auto |].
    case_decide; [destruct Hj; congruence |]. rewrite <- (H i) in H by auto. apply H in Hj. congruence.
Qed.

Lemma spin_inv_reachable st : rtc spin_step spin_init st -> spin_inv st.
Proof.
  intros Hr. assert (H0 : spin_inv spin_init) by (split_and!; [done .. | left; unfold owns; naive_solver]).
  induction Hr as [| x y z Hxy _ IH]; [done |]. apply IH. by eapply spin_inv_step.
Qed.

(** C11: mutual exclusion: however the CPUs interleave, no two of them are
    past [spin_acquire] and before [spin_release] at once, and while one is
    the lock byte is 1. *)
Theorem spin_mutual_exclusion (s : Z) (f : nat -> spin_pc) (i j : nat) :
  rtc spin_step spin_init (s, f) -> f i = SIn -> f j = SIn -> i = j /\ s = 1.
Proof.
  intros (_ & _ & Hown)%spin_inv_reachable Hi Hj. unfold owns in *.
  destruct Hown as [[_ H] | [-> (k & _ & H)]]; [naive_solver |].
  split; [| done]. rewrite (H i), (H j) by auto. done.
Qed.

Lemma spin_mutual_exclusion_witness :
  exists s f, rtc spin_step spin_init (s, f) /\ f 7%nat = SIn /\ s = 1.
Proof.
  assert (H : rtc spin_step spin_init
    (1, upd (upd (upd (fun _ => SOut) 7%nat (SXchg 1)) 7%nat (STest 0)) 7%nat SIn)).
  { eapply rtc_l; [apply (spin_call 0 _ 7%nat); reflexivity |].
    eapply rtc_l; [apply (spin_xchg 0 _ 7%nat 1); reflexivity |].
    eapply rtc_l; [apply (spin_enter 1 _ 7%nat); reflexivity | apply rtc_refl]. }
  eexists _, _. split; [exact H |].
  split; [reflexivity | exact (proj2 (spin_mutual_exclusion _ _ 7 7 H eq_refl eq_refl))].
Defined.

(** The mutex does not exclude: its test and its store are separate
    accesses, so two CPUs that both read the unlocked byte before either
    writes it both enter, and a release by one of them then unlocks the
    mutex under the other. *)
Theorem mutex_admits_two (i j : nat) : i <> j ->
  exists f g, rtc mutex_step mutex_init (-1, f) /\ f i = MIn /\ f j = MIn /\
              mutex_step (-1, f) (0, g) /\ g j = MIn.
Proof.
  intros Hij. set (f0 := fun _ : nat => MOut).
  set (f1 := upd f0 i MRead). set (f2 := upd f1 j MRead). set (f3 := upd f2 i MWrite).
  set (f4 := upd f3 j MWrite). set (f5 := upd f4 i MIn). set (f6 := upd f5 j MIn).
  assert (E : forall (f : nat -> mutex_pc) p q, upd (upd f i p) j q i = p) by (intros; rewrite upd_ne, upd_eq; done).
  assert (E' : forall (f : nat -> mutex_pc) p, upd f i p j = f j) by (intros; rewrite upd_ne; done).
  exists f6, (upd f6 i MOut).
  assert (Hi : f6 i = MIn) by apply E. assert (Hj : f6 j = MIn) by apply upd_eq.
  split_and!; [| done | done | exact (mutex_leave (-1) f6 i Hi) | by rewrite E'].
  eapply rtc_l; [apply (mutex_call 0 f0 i); done |].
  eapply rtc_l; [apply (mutex_call 0 f1 j); apply E' |].
  eapply rtc_l; [apply (mutex_seen 0 f2 i); [apply E | done] |].
  eapply rtc_l; [apply (mutex_seen 0 f3 j); [unfold f3; rewrite E'; apply upd_eq | done] |].
  eapply rtc_l; [apply (mutex_enter 0 f4 i); apply E |].
  eapply rtc_l; [apply (mutex_enter (-1) f5 j); unfold f5; rewrite E'; apply upd_eq | apply rtc_refl].
Qed.

Lemma mutex_admits_two_witness :
  exists f, rtc mutex_step mutex_init (-1, f) /\ f 0%nat = MIn /\ f 1%nat = MIn.
Proof.
  destruct (mutex_admits_two 0 1) as (f & g & H & H0 & H1 & _); [discriminate |].
  exists f. split; [exact H | split; [exact H0 | exact H1]].
Defined.

(** The result codes of the mutex operations on a byte that is locked or
    unlocked. *)
Lemma mutex_codes :
  mutex_trylock 0 = (0, -1) /\ mutex_trylock (-1) = (-1, -1) /\
  mutex_lock 0 = Ret (0, -1) /\ mutex_lock (-1) = Spin /\
  mutex_unlock (-1) = (0, 0) /\ mutex_unlock 0 = (-1, 0).
Proof. done. Qed.

End Locks.
