(* ===== verification/Hashmap.v ===== *)
(** * Open-addressing hash map (lib/hashmap.c)

    The table is an array of pointers to items: [None] is the null pointer.
    A key argument is the memory it points to, as bytes, or [None] for the
    null pointer; an element is an address, 0 being the null pointer. *)

From S2P Require Import Prelude Locks.
Import Locks.

Module Hashmap.

Record hm_item := mk_item { data : Z; key : Z; occupied : bool }.

(** The hash function of the map: the two of the file, or one given by
    [hm_add_hash_func]. *)
Inductive hash_func :=
| hash_num
| hash_str
| hash_custom (h : option (list Z) -> Z).

Record hashmap := mk_hashmap {
  len : Z;
  cap : Z;
  lock : Z;
  elem : list (option hm_item);
  hash : hash_func
}.

Definition BUCKET_MAX_LEN : nat := 12.

Definition with_elem (h : hashmap) (e : list (option hm_item)) : hashmap :=
  {| len := len h; cap := cap h; lock := lock h; elem := e; hash := hash h |}.
Definition with_lock (h : hashmap) (l : Z) : hashmap :=
  {| len := len h; cap := cap h; lock := l; elem := elem h; hash := hash h |}.
Definition with_len (h : hashmap) (n : Z) : hashmap :=
  {| len := n; cap := cap h; lock := lock h; elem := elem h; hash := hash h |}.

(** The little-endian 32-bit value at the start of the key. *)
Definition le32 (k : list Z) : out Z :=
  b0 ← rd k 0; b1 ← rd k 1; b2 ← rd k 2; b3 ← rd k 3;
  mret (Z.lor b0 (Z.lor (Z.shiftl b1 8) (Z.lor (Z.shiftl b2 16) (Z.shiftl b3 24)))).

Definition mix (tmp : Z) : Z := Z.lxor (Z.shiftr tmp 16) tmp.
Definition MULT : Z := 0x45d9f3b.

Definition hash32 (tmp : Z) : Z :=
  let tmp := u32 (mix tmp * MULT) in
  let tmp := u32 (mix tmp * MULT) in
  mix tmp.

Definition hm_hash_num (k : option (list Z)) : out Z :=
  match k with
  | None => mret UINT32_MAX
  | Some k => tmp ← le32 k; mret (hash32 tmp)
  end.

(** [c = *str++] reads a signed [char]. *)
Fixpoint hash_str_loop (hash : Z) (str : list Z) : out Z :=
  match str with
  | [] => Fault
  | b :: str =>
      let c := s8 b in
      if negb (c =? 0)
      then hash_str_loop (u32 (u32 (u32 (Z.shiftl hash 5) + hash) + c)) str
      else mret hash
  end.

Definition hm_hash_str (k : option (list Z)) : out Z :=
  match k with
  | None => mret UINT32_MAX
  | Some str => hash_str_loop 5381 str
  end.

Definition hm_hash (h : hashmap) (k : option (list Z)) : out Z :=
  match hash h with
  | hash_num => hm_hash_num k
  | hash_str => hm_hash_str k
  | hash_custom f => mret (f k)
  end.

(** [object] and [table]: whether [kmalloc] and [kcalloc] gave memory.  A
    failed allocation returns null without an error number (0). *)
Definition hm_alloc_hashmap (object table : bool) (size type : Z) : res hashmap :=
  if negb object then Err 0
  else if negb table then Err 0
  else
    let h f := Ok {| len := 0; cap := size; lock := 0;
                     elem := repeat None (Z.to_nat size); hash := f |} in
    if type =? 0 then h hash_num
    else if type =? 1 then h hash_str
    else Err EINVAL.

(** The index of the probe after [index]. *)
Definition next_index (h : hashmap) (index : Z) : Z := (index + 1) mod cap h.

(** [key % hm->cap], a division fault on an empty table. *)
Definition first_index (h : hashmap) (k : Z) : out Z :=
  if cap h =? 0 then Fault else mret (k mod cap h).

(** The result of the search: the index, or -ENOSPC; [fresh] is what
    [kmalloc] gives for a new item ([None] when it fails). *)
Fixpoint free_loop (n : nat) (fresh : option hm_item) (h : hashmap) (index : Z) : out (Z * hashmap) :=
  match n with
  | O => mret (- ENOSPC, h)
  | S n =>
      e ← rd (elem h) index;
      match e with
      | None => es ← wr (elem h) index fresh; mret (index, with_elem h es)
      | Some it =>
          if negb (occupied it) then mret (index, h)
          else free_loop n fresh h (next_index h index)
      end
  end.

Definition hm_find_free_bucket (fresh : option hm_item) (h : hashmap) (k : Z) : out (Z * hashmap) :=
  index ← first_index h k; free_loop BUCKET_MAX_LEN fresh h index.

Definition hm_insert (fresh : option hm_item) (hm : option hashmap) (ukey : option (list Z)) (e : Z) :
    out (Z * option hashmap) :=
  match hm with
  | None => mret (- EINVAL, None)
  | Some h =>
      if e =? 0 then mret (- EINVAL, hm)
      else if len h =? cap h then mret (- ENOSPC, hm)
      else
        k ← hm_hash h ukey;
        if k =? UINT32_MAX then mret (- EINVAL, hm)
        else
          l ← spin_acquire (lock h);
          '(index, h) ← hm_find_free_bucket fresh (with_lock h l) k;
          if index <? 0 then mret (- ENOSPC, Some (with_lock h (spin_release (lock h))))
          else
            it ← rd (elem h) index;
            match it with
            | None => Fault
            | Some _ =>
                es ← wr (elem h) index (Some (mk_item e k true));
                let h := with_len (with_elem h es) (len h + 1) in
                mret (0, Some (with_lock h (spin_release (lock h))))
            end
  end.

Fixpoint remove_loop (n : nat) (h : hashmap) (k index : Z) : out (Z * hashmap) :=
  match n with
  | O => mret (- ENOENT, with_lock h (spin_release (lock h)))
  | S n =>
      e ← rd (elem h) index;
      match e with
      | None => Fault
      | Some it =>
          if key it =? k then
            es ← wr (elem h) index (Some (mk_item (data it) (key it) false));
            let h := with_elem h es in
            mret (0, with_lock h (spin_release (lock h)))
          else remove_loop n h k (next_index h index)
      end
  end.

Definition hm_remove (hm : option hashmap) (ukey : option (list Z)) : out (Z * option hashmap) :=
  match hm with
  | None => mret (- EINVAL, None)
  | Some h =>
      k ← hm_hash h ukey;
      if k =? UINT32_MAX then mret (- EINVAL, hm)
      else
        l ← spin_acquire (lock h);
        let h := with_lock h l in
        index ← first_index h k;
        '(r, h) ← remove_loop BUCKET_MAX_LEN h k index;
        mret (r, Some h)
  end.

Fixpoint get_loop (n : nat) (h : hashmap) (k index : Z) : out Z :=
  match n with
  | O => mret 0
  | S n =>
      e ← rd (elem h) index;
      match e with
      | None => mret 0
      | Some it =>
          if negb (occupied it) then mret 0
          else if key it =? k then mret (data it)
          else get_loop n h k (next_index h index)
      end
  end.

(** The element, or 0 for the null pointer. *)
Definition hm_get (hm : option hashmap) (ukey : option (list Z)) : out Z :=
  match hm with
  | None => mret 0
  | Some h =>
      k ← hm_hash h ukey;
      if k =? UINT32_MAX then mret 0
      else index ← first_index h k; get_loop BUCKET_MAX_LEN h k index
  end.

Definition hm_get_size (hm : option hashmap) : Z := match hm with Some h => len h | None => 0 end.
Definition hm_get_capacity (hm : option hashmap) : Z := match hm with Some h => cap h | None => 0 end.

Definition hm_add_hash_func (h : hashmap) (f : option (option (list Z) -> Z)) : hashmap :=
  match f with
  | Some f => {| len := len h; cap := cap h; lock := lock h; elem := elem h; hash := hash_custom f |}
  | None => h
  end.

(** ** The table as a map

    [probe h k d] is the slot the search for hash [k] reads at distance [d];
    [slot h k d] is the item it finds there. *)

Definition probe (h : hashmap) (k d : Z) : Z := (k + d) mod cap h.

Definition slot (h : hashmap) (k d : Z) : option hm_item :=
  match elem h !! Z.to_nat (probe h k d) with Some x => x | None => None end.

Definition PROBES : Z := 12.

(** A table that no [hm_remove] has touched: every item is live and sits on
    the probe sequence of its hash, after slots that are all taken. *)
Record insert_only (h : hashmap) : Prop := {
  io_cap : 0 < cap h /\ zlen (elem h) = cap h;
  io_lock : lock h = 0;
  io_live : forall j it, elem h !! j = Some (Some it) -> occupied it = true /\ data it <> 0;
  io_reach : forall j it, elem h !! j = Some (Some it) ->
    exists d, 0 <= d < PROBES /\ j = Z.to_nat (probe h (key it) d) /\
      forall d', 0 <= d' < d -> slot h (key it) d' <> None
}.

Lemma probe_range h k d : 0 < cap h -> 0 <= probe h k d < cap h.
Proof. intros Hc. apply Z.mod_pos_bound. exact Hc. Qed.

Lemma next_probe h k d : 0 < cap h -> next_index h (probe h k d) = probe h k (d + 1).
Proof.
  intros Hc. unfold next_index, probe. rewrite Z.add_mod_idemp_l by lia. f_equal. lia.
Qed.

Lemma rd_slot h k d : 0 < cap h -> zlen (elem h) = cap h ->
  rd (elem h) (probe h k d) = Ret (slot h k d).
Proof.
  intros Hc Hl. destruct (rd_in (elem h) (probe h k d)) as (x & -> & E).
  - rewrite Hl. by apply probe_range.
  - unfold slot. by rewrite E.
Qed.

(** The data of the first item of hash [k] at the distances [d ..] of the
    probe sequence, whatever the slots in between. *)
Fixpoint first_match (n : nat) (h : hashmap) (k d : Z) : Z :=
  match n with
  | O => 0
  | S n => match slot h k d with
           | Some it => if key it =? k then data it else first_match n h k (d + 1)
           | None => first_match n h k (d + 1)
           end
  end.

Lemma none_later h k d it d2 :
  insert_only h -> 0 <= d < PROBES -> slot h k d = None ->
  (forall d' x, 0 <= d' < d -> slot h k d' = Some x -> key x <> k) ->
  slot h k d2 = Some it -> key it <> k.
Proof.
  intros Hio Hd Hnone Hbefore H2 Hk. destruct (io_cap h Hio) as [Hc Hl].
  assert (E : elem h !! Z.to_nat (probe h k d2) = Some (Some it)).
  { unfold slot in H2. by destruct (elem h !! _); subst. }
  destruct (io_reach h Hio _ _ E) as (d3 & Hd3 & Hp & Hall). rewrite Hk in Hp, Hall.
  assert (E3 : slot h k d3 = Some it) by (unfold slot; by rewrite <- Hp, E).
  destruct (Z.lt_trichotomy d3 d) as [Hlt | [-> | Hgt]].
  - exact (Hbefore d3 it ltac:(lia) E3 Hk).
  - congruence.
  - exact (Hall d ltac:(lia) Hnone).
Qed.

Lemma first_match_none n h k d :
  (forall d' x, d <= d' < d + Z.of_nat n -> slot h k d' = Some x -> key x <> k) ->
  first_match n h k d = 0.
Proof.
  revert d. induction n as [| n IH]; intros d H; [done |]. cbn [first_match].
  rewrite IH by (intros d' x Hd'; apply H; lia).
  destruct (slot h k d) as [it |] eqn:E; [| done].
  rewrite (proj2 (Z.eqb_neq _ _)); [done | apply (H d it); [lia | done]].
Qed.

Lemma get_loop_first_match n h k d : insert_only h -> 0 <= d -> d + Z.of_nat n = PROBES ->
  (forall d' x, 0 <= d' < d -> slot h k d' = Some x -> key x <> k) ->
  get_loop n h k (probe h k d) = Ret (first_match n h k d).
Proof.
  intros Hio. destruct (io_cap h Hio) as [Hc Hl]. revert d.
  induction n as [| n IH]; intros d Hd Hn Hbefore; [done |]. cbn [get_loop first_match].
  rewrite rd_slot by done. rb. destruct (slot h k d) as [it |] eqn:E.
  - assert (Ho : occupied it = true).
    { unfold slot in E. destruct (elem h !! _) eqn:E2; [| done]. subst. by eapply io_live in E2 as [? _]. }
    rewrite Ho. cbn [negb]. destruct (Z.eqb_spec (key it) k) as [Hk | Hk]; [done |].
    rewrite next_probe by done. apply IH; [lia | lia |].
    intros d' x Hd' Hx. destruct (Z.eq_dec d' d) as [-> |]; [congruence | apply (Hbefore d' x); [lia | done]].
  - f_equal. symmetry. apply first_match_none. intros d' x Hd' Hx.
    eapply none_later; [done | | exact E | done | exact Hx]. lia.
Qed.

Lemma hm_get_first_match h uk k : insert_only h -> hm_hash h uk = Ret k ->
  hm_get (Some h) uk = Ret (if k =? UINT32_MAX then 0 else first_match BUCKET_MAX_LEN h k 0).
Proof.
  intros Hio Hh. destruct (io_cap h Hio) as [Hc Hl]. unfold hm_get. rewrite Hh. rb.
  destruct (Z.eqb_spec k UINT32_MAX); [done |].
  unfold first_index. rewrite (proj2 (Z.eqb_neq _ _)) by lia. rb.
  replace (k mod cap h) with (probe h k 0) by (unfold probe; f_equal; lia).
  apply get_loop_first_match; [done | lia | done | lia].
Qed.

(** Filling the free slot the search found. *)
Lemma free_loop_spec n fresh h k d : 0 < cap h -> zlen (elem h) = cap h ->
  (forall j it, elem h !! j = Some (Some it) -> occupied it = true) -> 0 <= d ->
  (exists d', d <= d' < d + Z.of_nat n /\ slot h k d' = None /\
     (forall d'', d <= d'' < d' -> slot h k d'' <> None) /\
     free_loop n fresh h (probe h k d) =
       Ret (probe h k d', with_elem h (<[Z.to_nat (probe h k d') := fresh]> (elem h)))) \/
  ((forall d', d <= d' < d + Z.of_nat n -> slot h k d' <> None) /\
     free_loop n fresh h (probe h k d) = Ret (- ENOSPC, h)).
Proof.
  intros Hc Hl Hlive. revert d. induction n as [| n IH]; intros d Hd; [right; split; [lia | done] |].
  cbn [free_loop]. rewrite rd_slot by done. rb. destruct (slot h k d) as [it |] eqn:E.
  - assert (Ho : occupied it = true).
    { unfold slot in E. destruct (elem h !! _) eqn:E2; [| done]. subst. by eapply Hlive. }
    rewrite Ho, next_probe by done. cbn [negb].
    destruct (IH (d + 1)) as [(d' & Hd' & Hn & Hb & ->) | (Hall & ->)]; [lia | left | right].
    + exists d'. split_and!; [lia | lia | done | | done].
      intros d'' Hd''. destruct (Z.eq_dec d'' d) as [-> |]; [congruence | apply Hb; lia].
    + split; [| done]. intros d' Hd'. destruct (Z.eq_dec d' d) as [-> |]; [congruence | apply Hall; lia].
  - left. exists d. split_and!; [lia | lia | done | lia |].
    rewrite wr_in by (rewrite Hl; by apply probe_range). done.
Qed.

Lemma slot_fill h p x k d : 0 < cap h -> 0 <= p < cap h -> zlen (elem h) = cap h ->
  slot (with_elem h (<[Z.to_nat p := Some x]> (elem h))) k d =
  if probe h k d =? p then Some x else slot h k d.
Proof.
  intros Hc Hp Hl. unfold slot, probe, with_elem, zlen in *. cbn [elem cap].
  pose proof (Z.mod_pos_bound (k + d) (cap h) Hc) as Hm.
  destruct (Z.eqb_spec ((k + d) mod cap h) p) as [-> | Hne].
  - rewrite list_lookup_insert_eq by lia. done.
  - rewrite list_lookup_insert_ne by lia. done.
Qed.

Section insertion.
Context (h : hashmap) (k p e : Z).
Hypothesis Hio : insert_only h.
Hypothesis Hp : 0 <= p < cap h.
Hypothesis Hfree : elem h !! Z.to_nat p = Some None.

Let h' : hashmap := with_elem h (<[Z.to_nat p := Some (mk_item e k true)]> (elem h)).

Lemma slot_at_free k2 d : probe h k2 d = p -> slot h k2 d = None.
Proof. intros E. unfold slot. by rewrite E, Hfree. Qed.

Lemma slot_h' k2 d : slot h' k2 d = if probe h k2 d =? p then Some (mk_item e k true) else slot h k2 d.
Proof. destruct (io_cap h Hio). by apply slot_fill. Qed.

Lemma first_match_other n k2 d : k2 <> k -> first_match n h' k2 d = first_match n h k2 d.
Proof.
  intros Hk. revert d. induction n as [| n IH]; intros d; [done |]. cbn [first_match].
  rewrite slot_h', IH. destruct (Z.eqb_spec (probe h k2 d) p) as [E |]; [| done].
  rewrite (slot_at_free _ _ E). cbn [key]. rewrite (proj2 (Z.eqb_neq k k2)) by congruence. done.
Qed.

Lemma first_match_same d0 n d : probe h k d0 = p -> 0 <= d <= d0 -> d0 < d + Z.of_nat n ->
  d + Z.of_nat n = PROBES ->
  (forall d', 0 <= d' < d0 -> slot h k d' <> None) ->
  (forall d' x, 0 <= d' < d -> slot h k d' = Some x -> key x <> k) ->
  first_match n h' k d = if first_match n h k d =? 0 then e else first_match n h k d.
Proof.
  intros Hd0 Hd Hn Hmax Hfull. revert d Hd Hn Hmax.
  induction n as [| n IH]; intros d Hd Hn Hmax Hbefore; [lia |]. cbn [first_match].
  rewrite slot_h'. destruct (Z.eq_dec d d0) as [-> | Hne].
  - rewrite Hd0, Z.eqb_refl. cbn [key data]. rewrite Z.eqb_refl.
    rewrite (slot_at_free k d0 Hd0), first_match_none; [done |].
    intros d' x Hd' Hx. apply (none_later h k d0 x d'); [done | lia | by apply slot_at_free | done | done].
  - assert (Hns : slot h k d <> None) by (apply Hfull; lia).
    destruct (Z.eqb_spec (probe h k d) p) as [E |]; [by rewrite (slot_at_free _ _ E) in Hns |].
    destruct (slot h k d) as [it |] eqn:E; [| done].
    destruct (Z.eqb_spec (key it) k) as [Hk | Hk].
    + destruct (Z.eqb_spec (data it) 0) as [Hz | Hz]; [| done].
      exfalso. unfold slot in E. case_match eqn:E2; [| done].
      rewrite E in E2. by eapply io_live in E2 as [_ ?].
    + apply IH; [lia .. |]. intros d' x Hd' Hx.
      destruct (Z.eq_dec d' d) as [-> |]; [congruence | apply (Hbefore d' x); [lia | done]].
Qed.

Lemma insert_only_fill d0 : probe h k d0 = p -> 0 <= d0 < PROBES -> e <> 0 ->
  (forall d', 0 <= d' < d0 -> slot h k d' <> None) -> insert_only h'.
Proof.
  intros Hd0 Hd He Hfull. destruct (io_cap h Hio) as [Hc Hl].
  assert (Hmono : forall k2 d, slot h k2 d <> None -> slot h' k2 d <> None).
  { intros k2 d Hs. rewrite slot_h'. by zb. }
  assert (Hlk : forall j it, elem h' !! j = Some (Some it) ->
    j = Z.to_nat p /\ it = mk_item e k true \/ elem h !! j = Some (Some it)).
  { intros j it. unfold h', with_elem. cbn [elem]. intros [(-> & [= ->] & _) | [_ ?]]%list_lookup_insert_Some; auto. }
  split.
  - unfold h', with_elem, zlen in *. cbn [cap elem]. rewrite length_insert. done.
  - exact (io_lock h Hio).
  - intros j it [[_ ->] | Hj]%Hlk; [done | by eapply io_live].
  - intros j it [[-> ->] | Hj]%Hlk.
    + exists d0. split_and!; [lia | lia | by rewrite <- Hd0 |]. intros d' Hd'. apply Hmono, Hfull. exact Hd'.
    + destruct (io_reach h Hio _ _ Hj) as (d & ? & ? & Hall). exists d. split_and!; [lia | lia | done |].
      intros d' Hd'. apply Hmono, Hall. exact Hd'.
Qed.
End insertion.

Lemma insert_get (h : hashmap) (fresh : hm_item) (uk : option (list Z)) (k e : Z) :
  insert_only h -> hm_hash h uk = Ret k -> k <> UINT32_MAX -> e <> 0 -> len h <> cap h ->
  (hm_insert (Some fresh) (Some h) uk e = Ret (- ENOSPC, Some h) /\
     (forall d, 0 <= d < PROBES -> slot h k d <> None)) \/
  exists h', hm_insert (Some fresh) (Some h) uk e = Ret (0, Some h') /\
    insert_only h' /\ len h' = len h + 1 /\ cap h' = cap h /\
    (exists v, hm_get (Some h) uk = Ret v /\ hm_get (Some h') uk = Ret (if v =? 0 then e else v)) /\
    (forall uk2 k2, hm_hash h uk2 = Ret k2 -> k2 <> k ->
       hm_get (Some h') uk2 = hm_get (Some h) uk2).
Proof.
  intros Hio Hh Hk He Hlen. destruct (io_cap h Hio) as [Hc Hl].
  unfold hm_insert. rewrite (proj2 (Z.eqb_neq e 0)), (proj2 (Z.eqb_neq _ (cap h))) by done.
  rewrite Hh. rb. rewrite (proj2 (Z.eqb_neq k _)) by done. rewrite (io_lock h Hio), spin_acquire_free. rb.
  set (h1 := with_lock h 1). unfold hm_find_free_bucket, first_index. change (cap h1) with (cap h).
  rewrite (proj2 (Z.eqb_neq (cap h) 0)) by lia. rb.
  replace (k mod cap h) with (probe h1 k 0) by (unfold probe; f_equal; lia).
  destruct (free_loop_spec BUCKET_MAX_LEN (Some fresh) h1 k 0) as [(d & Hd & Hn & Hb & ->) | (Hall & ->)];
    [done | done | intros j it Hj; by destruct (io_live h Hio j it Hj) | lia | right | left].
  - rb. change (0 <= d < PROBES) in Hd. change (probe h1 k d) with (probe h k d). change (slot h1 k d) with (slot h k d) in Hn.
    pose proof (probe_range h k d Hc) as Hp. set (p := probe h k d) in *.
    rewrite (proj2 (Z.ltb_ge p 0)) by lia. cbn [elem with_elem h1 with_lock].
    assert (Hfree : elem h !! Z.to_nat p = Some None).
    { unfold slot in Hn. fold p in Hn. destruct (rd_in (elem h) p) as (x & _ & E); [lia |].
      rewrite E in Hn. congruence. }
    assert (Hrd : rd (<[Z.to_nat p := Some fresh]> (elem h)) p = Ret (Some fresh)).
    { apply rd_Ret. split; [lia |]. apply list_lookup_insert_eq. unfold zlen in Hl. lia. }
    rewrite Hrd. rb. rewrite wr_in by (unfold zlen in *; rewrite length_insert; lia). rb.
    rewrite list_insert_insert_eq. eexists. split; [done |].
    cbn [lock with_lock with_len with_elem len cap elem]. rewrite spin_release_0.
    match goal with |- insert_only ?x /\ _ => set (h2 := x) end.
    assert (Heq : forall uk2 k2, hm_hash h uk2 = Ret k2 -> hm_hash h2 uk2 = Ret k2) by done.
    pose proof (insert_only_fill h k p e Hio Hp d eq_refl Hd He ltac:(intros; apply Hb; lia)) as Hfill.
    assert (Hio2 : insert_only h2) by (destruct Hfill as [? ? ? Hreach]; split; [done | done | done | exact Hreach]).
    set (hf := with_elem h (<[Z.to_nat p := Some (mk_item e k true)]> (elem h))) in *.
    assert (Hfm : forall n k2 d2, first_match n h2 k2 d2 = first_match n hf k2 d2).
    { intros n. induction n as [| n IH]; intros k2 d2; [done |]. cbn [first_match].
      rewrite IH. done. }
    split_and!; [done | done | done | |].
    + exists (first_match BUCKET_MAX_LEN h k 0).
      rewrite !(hm_get_first_match _ uk k) by auto. rewrite (proj2 (Z.eqb_neq k UINT32_MAX)) by done.
      split; [done |]. f_equal. rewrite Hfm. apply (first_match_same h k p e Hio Hp Hfree d);
        [done | lia | exact (proj2 Hd) | done | intros; apply Hb; lia | lia].
    + intros uk2 k2 Hh2 Hk2. rewrite !(hm_get_first_match _ uk2 k2) by auto.
      case_match; [done |]. f_equal. rewrite Hfm. by apply first_match_other.
  - rb. split; [| intros d Hd; apply Hall; done]. pose proof (io_lock h Hio). destruct h; simpl in *; by subst.
Qed.

(** Insertion keeps the hash function. *)
Lemma free_loop_hash n fresh h i r h' : free_loop n fresh h i = Ret (r, h') -> hash h' = hash h.
Proof.
  revert i. induction n as [| n IH]; intros i; cbn [free_loop]; [by intros [= _ <-] |]. intros E.
  apply bind_Ret in E as ([it |] & _ & E); [destruct (negb (occupied it)) |].
  - by injection E as _ <-.
  - by apply IH in E.
  - apply bind_Ret in E as (es & _ & E). by injection E as _ <-.
Qed.

Lemma hm_insert_hash fresh h uk e r h' : hm_insert fresh (Some h) uk e = Ret (r, Some h') -> hash h' = hash h.
Proof.
  unfold hm_insert. intros E. destruct (e =? 0); [by injection E as _ <- |]. destruct (len h =? cap h); [by injection E as _ <- |].
  apply bind_Ret in E as (k & _ & E). destruct (k =? UINT32_MAX); [by injection E as _ <- |].
  apply bind_Ret in E as (l & _ & E). apply bind_Ret in E as ([i h1] & Ef & E).
  unfold hm_find_free_bucket in Ef. apply bind_Ret in Ef as (j & _ & Ef). apply free_loop_hash in Ef.
  destruct (i <? 0); [by injection E as _ <- |]. apply bind_Ret in E as ([it |] & _ & E); [| done].
  apply bind_Ret in E as (es & _ & E). by injection E as _ <-.
Qed.

(** C34: on a table only insertions have touched, an insertion of an element
    under a valid key either finds all twelve slots of the key taken and
    gives -ENOSPC without any change, or succeeds: [hm_get] then finds the
    element under that key (or still the one stored there before), the
    elements of all keys with other hashes are unaffected, and the table
    keeps its invariant. *)
Theorem hm_insert_get (h : hashmap) (fresh : hm_item) (uk : option (list Z)) (k e : Z) :
  insert_only h -> hm_hash h uk = Ret k -> k <> UINT32_MAX -> e <> 0 -> len h <> cap h ->
  (hm_insert (Some fresh) (Some h) uk e = Ret (- ENOSPC, Some h) /\
     (forall d, 0 <= d < PROBES -> slot h k d <> None)) \/
  exists h', hm_insert (Some fresh) (Some h) uk e = Ret (0, Some h') /\
    insert_only h' /\ len h' = len h + 1 /\ cap h' = cap h /\
    (exists v, hm_get (Some h) uk = Ret v /\ hm_get (Some h') uk = Ret (if v =? 0 then e else v)) /\
    (forall uk2 k2, hm_hash h uk2 = Ret k2 -> k2 <> k ->
       hm_get (Some h') uk2 = hm_get (Some h) uk2).
Proof. exact (insert_get h fresh uk k e). Qed.

Definition sample_map : hashmap :=
  mk_hashmap 2 16 0 (<[4%nat := Some (mk_item 70 4 true)]> (<[5%nat := Some (mk_item 71 20 true)]> (repeat None 16)))
    (hash_custom (fun k => match k with Some (b :: _) => b | _ => UINT32_MAX end)).

Lemma sample_map_items j it : elem sample_map !! j = Some (Some it) ->
  j = 4%nat /\ it = mk_item 70 4 true \/ j = 5%nat /\ it = mk_item 71 20 true.
Proof. intros H. do 16 (destruct j as [| j]; [naive_solver |]). done. Qed.

Lemma sample_map_io : insert_only sample_map.
Proof.
  split; [done | done | |].
  - intros j it [[-> ->] | [-> ->]]%sample_map_items; done.
  - intros j it [[-> ->] | [-> ->]]%sample_map_items.
    + exists 0. split; [done |]. split; [done |]. lia.
    + exists 1. split; [done |]. split; [done |]. intros d' Hd. assert (d' = 0) as -> by lia. done.
Qed.

Lemma hm_insert_get_witness :
  insert_only sample_map /\
  exists h', hm_insert (Some (mk_item 0 0 false)) (Some sample_map) (Some [36]) 72 = Ret (0, Some h') /\
    hm_get (Some h') (Some [20]) = Ret 71.
Proof.
  split; [exact sample_map_io |].
  destruct (hm_insert_get sample_map (mk_item 0 0 false) (Some [36]) 36 72 sample_map_io)
    as [(_ & Hfull) | (h' & E & _ & _ & _ & _ & Hother)]; [reflexivity | discriminate .. | |].
  - exfalso. apply (Hfull 2); [done | reflexivity].
  - exists h'. split; [exact E |]. rewrite (Hother (Some [20]) 20); [reflexivity .. | discriminate].
Defined.

(** ** Removal *)

Lemma first_match_at n h k d m it : 0 <= m < Z.of_nat n ->
  slot h k (d + m) = Some it -> key it = k ->
  (forall d' x, d <= d' < d + m -> slot h k d' = Some x -> key x <> k) ->
  first_match n h k d = data it.
Proof.
  revert d m. induction n as [| n IH]; intros d m Hm Hs Hk Hb; [lia |]. cbn [first_match].
  destruct (Z.eq_dec m 0) as [-> | Hm0].
  - rewrite Z.add_0_r in Hs. rewrite Hs, Hk, Z.eqb_refl. done.
  - assert (E : first_match n h k (d + 1) = data it).
    { apply (IH _ (m - 1)); [lia | | done |].
      - rewrite <- Hs. f_equal. lia.
      - intros d' x Hd'. apply Hb. lia. }
    destruct (slot h k d) as [x |] eqn:Ex; [| done].
    rewrite (proj2 (Z.eqb_neq _ _)) by (apply (Hb d x); [lia | done]). done.
Qed.

Lemma get_loop_stop n h k d m it : 0 < cap h -> zlen (elem h) = cap h ->
  0 <= m < Z.of_nat n -> slot h k (d + m) = Some it -> occupied it = false ->
  (forall d' x, d <= d' < d + m -> slot h k d' = Some x -> key x <> k) ->
  get_loop n h k (probe h k d) = Ret 0.
Proof.
  intros Hc Hl. revert d m. induction n as [| n IH]; intros d m Hm Hs Ho Hb; [done |].
  cbn [get_loop]. rewrite rd_slot by done. rb. destruct (slot h k d) as [x |] eqn:E; [| done].
  destruct (Z.eq_dec m 0) as [-> | Hm0].
  - rewrite Z.add_0_r, E in Hs. injection Hs as ->. rewrite Ho. done.
  - destruct (occupied x); [| done]. cbn [negb].
    rewrite (proj2 (Z.eqb_neq _ _)) by (apply (Hb d x); [lia | done]).
    rewrite next_probe by done. apply (IH _ (m - 1)); [lia | | done |].
    + rewrite <- Hs. f_equal. lia.
    + intros d' y Hd'. apply Hb. lia.
Qed.

Lemma remove_loop_found n h k d m it : 0 < cap h -> zlen (elem h) = cap h ->
  0 <= m < Z.of_nat n -> slot h k (d + m) = Some it -> key it = k ->
  (forall d', d <= d' < d + m -> exists x, slot h k d' = Some x /\ key x <> k) ->
  remove_loop n h k (probe h k d) =
    Ret (0, with_lock (with_elem h (<[Z.to_nat (probe h k (d + m)) :=
              Some (mk_item (data it) (key it) false)]> (elem h))) 0).
Proof.
  intros Hc Hl. revert d m. induction n as [| n IH]; intros d m Hm Hs Hk Hb; [lia |].
  cbn [remove_loop]. rewrite rd_slot by done. rb. destruct (Z.eq_dec m 0) as [-> | Hm0].
  - rewrite Z.add_0_r in *. rewrite Hs, Hk, Z.eqb_refl.
    rewrite wr_in by (rewrite Hl; by apply probe_range). done.
  - destruct (Hb d) as (x & -> & Hx); [lia |]. rewrite (proj2 (Z.eqb_neq _ _) Hx).
    rewrite next_probe by done. rewrite (IH (d + 1) (m - 1)); [| lia | | done |].
    + do 6 f_equal. f_equal. lia.
    + rewrite <- Hs. f_equal. lia.
    + intros d' Hd'. apply Hb. lia.
Qed.

Lemma remove_loop_null n h k d m : 0 < cap h -> zlen (elem h) = cap h ->
  0 <= m < Z.of_nat n -> slot h k (d + m) = None ->
  (forall d' x, d <= d' < d + m -> slot h k d' = Some x -> key x <> k) ->
  remove_loop n h k (probe h k d) = Fault.
Proof.
  intros Hc Hl. revert d m. induction n as [| n IH]; intros d m Hm Hs Hb; [lia |].
  cbn [remove_loop]. rewrite rd_slot by done. rb. destruct (Z.eq_dec m 0) as [-> | Hm0].
  - rewrite Z.add_0_r in Hs. by rewrite Hs.
  - destruct (slot h k d) as [x |] eqn:E; [| done].
    rewrite (proj2 (Z.eqb_neq _ _)) by (apply (Hb d x); [lia | done]).
    rewrite next_probe by done. apply (IH _ (m - 1)); [lia | |].
    + rewrite <- Hs. f_equal. lia.
    + intros d' x' Hd'. apply Hb. lia.
Qed.

(** [hm_remove] of a stored key unlinks its first item and nothing is
    found under the key afterwards, but it neither lowers the length nor
    keeps the probe sequences that cross the freed slot: a key whose item
    lies behind that slot is no longer found although it was never removed.
    For a key that is not stored, the first free slot of its probe sequence
    is a null pointer that the loop dereferences. *)
Theorem hm_remove_effects (h : hashmap) (uk : option (list Z)) (k d : Z) :
  insert_only h -> hm_hash h uk = Ret k -> k <> UINT32_MAX -> 0 <= d < PROBES ->
  (forall d' x, 0 <= d' < d -> slot h k d' = Some x -> key x <> k) ->
  (forall it, slot h k d = Some it -> key it = k ->
    exists h', hm_remove (Some h) uk = Ret (0, Some h') /\ len h' = len h /\
      hm_get (Some h') uk = Ret 0 /\
      forall uk2 k2 d1 d2 it2, hm_hash h uk2 = Ret k2 -> k2 <> UINT32_MAX ->
        0 <= d1 < d2 -> d2 < PROBES -> probe h k2 d1 = probe h k d ->
        slot h k2 d2 = Some it2 -> key it2 = k2 ->
        (forall d' x, 0 <= d' < d2 -> slot h k2 d' = Some x -> key x <> k2) ->
        hm_get (Some h) uk2 = Ret (data it2) /\ data it2 <> 0 /\ hm_get (Some h') uk2 = Ret 0) /\
  (slot h k d = None -> hm_remove (Some h) uk = Fault).
Proof.
  intros Hio Hh Hk Hd Hb. destruct (io_cap h Hio) as [Hc Hl].
  assert (Hrem : hm_remove (Some h) uk =
    ('(r, h) ← remove_loop BUCKET_MAX_LEN (with_lock h 1) k (probe (with_lock h 1) k 0); mret (r, Some h))).
  { unfold hm_remove. rewrite Hh. rb. rewrite (proj2 (Z.eqb_neq _ _) Hk), (io_lock h Hio), spin_acquire_free. rb.
    unfold first_index. change (cap (with_lock h 1)) with (cap h).
    rewrite (proj2 (Z.eqb_neq (cap h) 0)) by lia. rb. unfold probe. by rewrite Z.add_0_r. }
  rewrite Hrem. split.
  - intros it Hit Hki. rewrite (remove_loop_found BUCKET_MAX_LEN (with_lock h 1) k 0 d it Hc Hl Hd Hit Hki).
    2:{ intros d' Hd'. change (slot (with_lock h 1) k d') with (slot h k d').
        destruct (slot h k d') as [x |] eqn:E; [exists x; eauto |].
        exfalso. apply (none_later h k d' it d Hio); [lia | done | | done | done].
        intros d'' x Hd''. apply Hb. lia. }
    rb. eexists. split; [done |]. split; [done |].
    change (probe (with_lock h 1) k (0 + d)) with (probe h k d).
    set (h' := with_lock (with_elem _ _) 0).
    assert (Hslot : forall k2 d2, slot h' k2 d2 =
      if probe h k2 d2 =? probe h k d then Some (mk_item (data it) (key it) false) else slot h k2 d2).
    { intros k2 d2. apply (slot_fill h); [done | by apply probe_range | done]. }
    assert (Hstop : forall uk2 k2 d1, hm_hash h uk2 = Ret k2 -> k2 <> UINT32_MAX ->
      0 <= d1 < PROBES -> probe h k2 d1 = probe h k d ->
      (forall d' x, 0 <= d' < d1 -> slot h' k2 d' = Some x -> key x <> k2) ->
      hm_get (Some h') uk2 = Ret 0).
    { intros uk2 k2 d1 Hh2 Hk2 Hd1 Hp Hb2. unfold hm_get.
      change (hm_hash h' uk2) with (hm_hash h uk2). rewrite Hh2. rb.
      rewrite (proj2 (Z.eqb_neq _ _) Hk2). unfold first_index. change (cap h') with (cap h).
      rewrite (proj2 (Z.eqb_neq (cap h) 0)) by lia. rb.
      replace (k2 mod cap h) with (probe h' k2 0) by (unfold probe; f_equal; lia).
      apply (get_loop_stop BUCKET_MAX_LEN h' k2 0 d1 (mk_item (data it) (key it) false)); [done | | done | | done | done].
      - unfold zlen in *. simpl. by rewrite length_insert.
      - rewrite Hslot, Z.add_0_l, Hp, Z.eqb_refl. done. }
    split.
    + apply (Hstop uk k d); [done .. |]. intros d' x Hd'. rewrite Hslot.
      destruct (Z.eqb_spec (probe h k d') (probe h k d)) as [E |]; [| by apply Hb].
      assert (E2 : slot h k d' = Some it) by (unfold slot in *; by rewrite E).
      exfalso. exact (Hb d' it Hd' E2 Hki).
    + intros uk2 k2 d1 d2 it2 Hh2 Hk2 Hd1 Hd2 Hp Hit2 Hki2 Hb2.
      assert (Hit1 : slot h k2 d1 = Some it) by (unfold slot in *; by rewrite Hp).
      pose proof (Hb2 d1 it Hd1 Hit1) as Hne.
      split; [| split].
      * rewrite (hm_get_first_match h uk2 k2 Hio Hh2), (proj2 (Z.eqb_neq _ _) Hk2). f_equal.
        apply (first_match_at _ h k2 0 d2 it2); [change (0 <= d2 < PROBES); lia | done | done |].
        intros d' x Hd'. apply Hb2. lia.
      * unfold slot in Hit2. case_match eqn:E2; [| done]. rewrite Hit2 in E2.
        by eapply io_live in E2 as [_ ?].
      * apply (Hstop uk2 k2 d1); [done | done | lia | done |]. intros d' x Hd'. rewrite Hslot.
        destruct (probe h k2 d' =? probe h k d); [by intros [= <-] | apply Hb2; lia].
  - intros Hnone. change (slot h k d) with (slot (with_lock h 1) k (0 + d)) in Hnone.
    rewrite (remove_loop_null BUCKET_MAX_LEN (with_lock h 1) k 0 d Hc Hl Hd Hnone); [done |].
    intros d' x Hd'. apply Hb. lia.
Qed.

Lemma hm_remove_effects_witness :
  hm_get (Some sample_map) (Some [20]) = Ret 71 /\
  exists h', hm_remove (Some sample_map) (Some [4]) = Ret (0, Some h') /\
    hm_get (Some h') (Some [20]) = Ret 0.
Proof.
  split; [reflexivity |].
  destruct (hm_remove_effects sample_map (Some [4]) 4 0 sample_map_io) as [H _];
    [reflexivity | discriminate | done | lia |].
  destruct (H (mk_item 70 4 true)) as (h' & E & _ & _ & Hlost); [reflexivity .. |].
  exists h'. split; [exact E |].
  destruct (Hlost (Some [20]) 20 0 1 (mk_item 71 20 true)) as (_ & _ & G);
    [reflexivity | discriminate | done .. | | exact G].
  intros d' x Hd'. assert (d' = 0) as -> by lia. intros [= <-]. discriminate.
Defined.

(** ** Numeric keys do not collide *)

Lemma mix_mix x : in_u 32 x -> mix (mix x) = x.
Proof.
  unfold in_u, mix. intros Hx. rewrite Z.shiftr_lxor, Z.shiftr_shiftr by lia.
  assert (E : Z.shiftr x (16 + 16) = 0).
  { rewrite Z.shiftr_div_pow2 by lia. apply Z.div_small. exact Hx. }
  rewrite E, Z.lxor_0_l, <- Z.lxor_assoc, Z.lxor_nilpotent, Z.lxor_0_l. done.
Qed.

Lemma mix_range x : in_u 32 x -> in_u 32 (mix x).
Proof.
  unfold in_u, mix. intros Hx.
  assert (Hs : 0 <= Z.shiftr x 16 < 2 ^ 32).
  { rewrite Z.shiftr_div_pow2 by lia. change (2 ^ 16) with 65536.
    pose proof (Z.div_pos x 65536). pose proof (Z.div_le_upper_bound x 65536 x). lia. }
  split; [apply Z.lxor_nonneg; lia |].
  destruct (Z.eq_dec (Z.lxor (Z.shiftr x 16) x) 0) as [-> |]; [lia |].
  apply Z.log2_lt_pow2; [apply Z.le_neq; split; [apply Z.lxor_nonneg; lia | congruence] |].
  eapply Z.le_lt_trans; [apply Z.log2_lxor; lia |].
  apply Z.max_lub_lt.
  - destruct (Z.eq_dec (Z.shiftr x 16) 0) as [-> |]; [done |]. apply Z.log2_lt_pow2; lia.
  - destruct (Z.eq_dec x 0) as [-> |]; [done |]. apply Z.log2_lt_pow2; lia.
Qed.

Lemma mult_inj x y : in_u 32 x -> in_u 32 y -> u32 (x * MULT) = u32 (y * MULT) -> x = y.
Proof.
  unfold in_u, u32, wrap, MULT. intros Hx Hy E.
  assert (Hinv : forall z, 0 <= z < 2 ^ 32 -> ((z * 0x45d9f3b) mod 2 ^ 32 * 295559667) mod 2 ^ 32 = z).
  { intros z Hz. rewrite Z.mul_mod_idemp_l by lia. rewrite <- Z.mul_assoc.
    rewrite <- Z.mul_mod_idemp_r by lia.
    change ((0x45d9f3b * 295559667) mod 2 ^ 32) with 1. rewrite Z.mul_1_r. apply Z.mod_small. exact Hz. }
  rewrite <- (Hinv x Hx), <- (Hinv y Hy), E. done.
Qed.

(** The hash of numeric keys is a bijection of the 32-bit values: two
    different numeric keys never have the same hash, so the table never
    confuses them. *)
Theorem hash32_injective (x y : Z) : in_u 32 x -> in_u 32 y ->
  in_u 32 (hash32 x) /\ (hash32 x = hash32 y -> x = y).
Proof.
  intros Hx Hy. unfold hash32.
  assert (Hr : forall z, in_u 32 (u32 z)) by (intros; by apply wrap_range).
  split; [apply mix_range, Hr |]. intros E.
  apply (f_equal mix) in E. rewrite !mix_mix in E by apply Hr.
  apply mult_inj in E; [| by apply mix_range, Hr ..].
  apply (f_equal mix) in E. rewrite !mix_mix in E by apply Hr.
  apply mult_inj in E; [| by apply mix_range ..].
  apply (f_equal mix) in E. by rewrite !mix_mix in E.
Qed.

Lemma hash32_injective_witness : in_u 32 7 /\ hash32 7 <> hash32 8.
Proof.
  assert (H7 : in_u 32 7) by (split; [discriminate | reflexivity]).
  assert (H8 : in_u 32 8) by (split; [discriminate | reflexivity]).
  split; [exact H7 |]. intros E. discriminate (proj2 (hash32_injective 7 8 H7 H8) E).
Defined.

End Hashmap.
