(* ===== verification/Ringbuffer.v ===== *)
(** * Byte ring buffer (lib/ringbuffer.c) *)

From S2P Require Import Prelude Locks.
Import Locks.

Module Ringbuffer.

Record ringbuffer := mk_rb {
  data : list Z;
  size : Z;
  w_ptr : Z;
  r_ptr : Z;
  w_spin : Z;
  r_spin : Z
}.

Definition __update_w_ptr (rb : ringbuffer) : ringbuffer :=
  let w := w_ptr rb + 1 in
  mk_rb (data rb) (size rb) (if size rb <=? w then 0 else w) (r_ptr rb) (w_spin rb) (r_spin rb).

Definition __update_r_ptr (rb : ringbuffer) : ringbuffer :=
  let r := r_ptr rb + 1 in
  mk_rb (data rb) (size rb) (w_ptr rb) (if size rb <=? r then 0 else r) (w_spin rb) (r_spin rb).

Definition with_data (rb : ringbuffer) (d : list Z) : ringbuffer :=
  mk_rb d (size rb) (w_ptr rb) (r_ptr rb) (w_spin rb) (r_spin rb).
Definition with_w_spin (rb : ringbuffer) (s : Z) : ringbuffer :=
  mk_rb (data rb) (size rb) (w_ptr rb) (r_ptr rb) s (r_spin rb).
Definition with_r_spin (rb : ringbuffer) (s : Z) : ringbuffer :=
  mk_rb (data rb) (size rb) (w_ptr rb) (r_ptr rb) (w_spin rb) s.

(** [cache]: whether the slab cache exists or could be created; [object]:
    the two lock bytes the allocated object happens to hold; [block]: the
    bytes of the data block.  The function does not write the locks. *)
Definition rb_create (cache : bool) (object : option (Z * Z)) (block : option (list Z)) (n : Z) : res ringbuffer :=
  if negb cache then Err ENOMEM
  else if n =? 0 then Err EINVAL
  else match object with
       | None => Err ENOMEM
       | Some (w, r) =>
           match block with
           | None => Err ENOMEM
           | Some d => Ok (mk_rb d n 0 0 w r)
           end
       end.

(** Both blocks go back to the allocator: the result code. *)
Definition rb_destroy (rb : option ringbuffer) : Z := match rb with None => - EINVAL | Some _ => 0 end.

Fixpoint read_loop (n : nat) (rb : ringbuffer) : out (list Z * ringbuffer) :=
  match n with
  | O => mret ([], rb)
  | S n =>
      b ← rd (data rb) (r_ptr rb);
      '(l, rb) ← read_loop n (__update_r_ptr rb);
      mret (b :: l, rb)
  end.

(** [buffer] says that the caller's buffer is not null; the result is the
    return value, the bytes stored in it and the new state. *)
Definition rb_read (rb : option ringbuffer) (buffer : bool) (n : Z) : out (Z * list Z * option ringbuffer) :=
  match rb with
  | None => mret (- EINVAL, [], None)
  | Some rb' =>
      if negb buffer || (n =? 0) then mret (- EINVAL, [], rb)
      else
        s ← spin_acquire (r_spin rb');
        '(l, rb') ← read_loop (Z.to_nat n) (with_r_spin rb' s);
        mret (n, l, Some (with_r_spin rb' (spin_release (r_spin rb'))))
  end.

Fixpoint write_loop (l : list Z) (rb : ringbuffer) : out ringbuffer :=
  match l with
  | [] => mret rb
  | b :: l =>
      d ← wr (data rb) (w_ptr rb) b;
      write_loop l (__update_w_ptr (with_data rb d))
  end.

(** [buffer]: the bytes to write, [None] for a null buffer. *)
Definition rb_write (rb : option ringbuffer) (buffer : option (list Z)) : out (Z * option ringbuffer) :=
  match rb, buffer with
  | Some rb', Some l =>
      if zlen l =? 0 then mret (- EINVAL, rb)
      else
        s ← spin_acquire (w_spin rb');
        rb' ← write_loop l (with_w_spin rb' s);
        mret (zlen l, Some (with_w_spin rb' (spin_release (w_spin rb'))))
  | _, _ => mret (- EINVAL, rb)
  end.

(** ** The queue of unread bytes *)

(** The bytes written and not read yet are [l], oldest first. *)
Record pending (rb : ringbuffer) (l : list Z) : Prop := {
  pe_size : 0 < size rb /\ zlen (data rb) = size rb;
  pe_ptr : 0 <= r_ptr rb < size rb /\ w_ptr rb = (r_ptr rb + zlen l) mod size rb;
  pe_fit : zlen l <= size rb;
  pe_data : forall i b, l !! i = Some b ->
    data rb !! Z.to_nat ((r_ptr rb + Z.of_nat i) mod size rb) = Some b
}.

Lemma step_mod p n : 0 < n -> 0 <= p < n -> (if n <=? p + 1 then 0 else p + 1) = (p + 1) mod n.
Proof.
  intros Hn Hp. destruct (Z.leb_spec n (p + 1)).
  - replace (p + 1) with n by lia. by rewrite Z.mod_same by lia.
  - symmetry. apply Z.mod_small. lia.
Qed.

Lemma mod_inj_range a b n : 0 < n -> a <= b < a + n -> a mod n = b mod n -> a = b.
Proof.
  intros Hn Hab E. pose proof (Z.div_mod a n ltac:(lia)) as Ha. pose proof (Z.div_mod b n ltac:(lia)) as Hb.
  assert (Hq : b - a = n * (b / n - a / n)) by lia.
  assert (b / n - a / n = 0) by nia. lia.
Qed.

Lemma pending_write rb l b : pending rb l -> zlen l < size rb ->
  exists d, wr (data rb) (w_ptr rb) b = Ret d /\ pending (__update_w_ptr (with_data rb d)) (l ++ [b]).
Proof.
  intros [[Hn Hl] [Hr Hw] Hf Hd] Hlt.
  assert (Hwr : 0 <= w_ptr rb < size rb) by (rewrite Hw; apply Z.mod_pos_bound; done).
  rewrite wr_in by lia. eexists. split; [done |].
  assert (Hlen : zlen (l ++ [b]) = zlen l + 1) by (unfold zlen; rewrite length_app; simpl; lia).
  split; simpl.
  - unfold zlen in *. by rewrite length_insert.
  - split; [done |]. rewrite step_mod, Hw, Hlen by done. rewrite Z.add_mod_idemp_l by lia. f_equal. lia.
  - lia.
  - intros i x [Hi | [Hi Hx]]%lookup_app_Some.
    + pose proof (lookup_lt_Some _ _ _ Hi). rewrite list_lookup_insert_ne; [by apply Hd |].
      intros E. rewrite Hw in E.
      pose proof (Z.mod_pos_bound (r_ptr rb + zlen l) (size rb) Hn).
      pose proof (Z.mod_pos_bound (r_ptr rb + Z.of_nat i) (size rb) Hn).
      apply Z2Nat.inj in E; [| lia ..]. symmetry in E. apply mod_inj_range in E; unfold zlen in *; lia.
    + assert (i = length l) as ->.
      { apply lookup_lt_Some in Hx. simpl in Hx. lia. }
      replace (length l - length l)%nat with 0%nat in Hx by lia. injection Hx as ->.
      change (Z.of_nat (length l)) with (zlen l). rewrite <- Hw.
      apply list_lookup_insert_eq. unfold zlen in *. lia.
Qed.

Lemma pending_read rb b l : pending rb (b :: l) ->
  rd (data rb) (r_ptr rb) = Ret b /\ pending (__update_r_ptr rb) l.
Proof.
  intros [[Hn Hl] [Hr Hw] Hf Hd]. assert (Hlen : zlen (b :: l) = 1 + zlen l) by (unfold zlen; simpl; lia).
  split.
  - apply rd_Ret. split; [lia |]. rewrite <- (Hd 0%nat b eq_refl). f_equal. f_equal.
    rewrite Z.mod_small; lia.
  - assert (Hmod : forall k, ((r_ptr rb + 1) mod size rb + k) mod size rb = (r_ptr rb + (1 + k)) mod size rb).
    { intros k. rewrite Z.add_mod_idemp_l by lia. f_equal. lia. }
    split; simpl; rewrite ?step_mod by done.
    + done.
    + split; [by apply Z.mod_pos_bound |]. by rewrite Hw, Hmod, Hlen.
    + lia.
    + intros i x Hx. rewrite Hmod. rewrite <- (Hd (S i) x Hx). f_equal. f_equal. f_equal. lia.
Qed.

Lemma write_loop_pending bs rb l : pending rb l -> zlen l + zlen bs <= size rb ->
  exists rb', write_loop bs rb = Ret rb' /\ pending rb' (l ++ bs) /\ size rb' = size rb /\
    w_spin rb' = w_spin rb /\ r_spin rb' = r_spin rb.
Proof.
  revert rb l. induction bs as [| b bs IH]; intros rb l Hp Hle; cbn [write_loop].
  { exists rb. by rewrite app_nil_r. }
  assert (Hb : zlen (b :: bs) = 1 + zlen bs) by (unfold zlen; simpl; lia).
  pose proof (zlen_nonneg bs).
  destruct (pending_write rb l b Hp) as (d & -> & Hp'); [lia |]. rb.
  destruct (IH _ _ Hp') as (rb' & E & Hp2 & Hs & Hw & Hr).
  { simpl. unfold zlen in *. rewrite length_app. simpl. lia. }
  exists rb'. rewrite <- app_assoc in Hp2. done.
Qed.

Lemma read_loop_pending n rb l : pending rb l -> (n <= length l)%nat ->
  exists rb', read_loop n rb = Ret (take n l, rb') /\ pending rb' (drop n l) /\
    size rb' = size rb /\ w_spin rb' = w_spin rb /\ r_spin rb' = r_spin rb.
Proof.
  revert rb l. induction n as [| n IH]; intros rb l Hp Hn; [exists rb; by rewrite drop_0 |].
  destruct l as [| b l]; [simpl in Hn; lia |]. cbn [read_loop].
  destruct (pending_read _ _ _ Hp) as [-> Hp']. rb.
  destruct (IH _ _ Hp') as (rb' & -> & Hp2 & Hs & Hw & Hr); [simpl in Hn; lia |]. rb. by exists rb'.
Qed.

Lemma pending_spins rb l w r : pending rb l ->
  pending (mk_rb (data rb) (size rb) (w_ptr rb) (r_ptr rb) w r) l.
Proof. by intros [? ? ? ?]. Qed.

(** C35: while the unread bytes fit, the buffer is a byte queue: a write
    appends its bytes to the unread ones, a read of as many bytes as are
    unread returns the oldest ones in order and drops them, across the wrap
    of both pointers, and both return the requested size. *)
Theorem rb_fifo (rb : ringbuffer) (l bs : list Z) (n : Z) :
  pending rb l -> w_spin rb = 0 -> r_spin rb = 0 ->
  (bs <> [] -> zlen l + zlen bs <= size rb ->
   exists rb', rb_write (Some rb) (Some bs) = Ret (zlen bs, Some rb') /\ pending rb' (l ++ bs) /\
     w_spin rb' = 0 /\ r_spin rb' = 0) /\
  (0 < n <= zlen l ->
   exists rb', rb_read (Some rb) true n = Ret (n, take (Z.to_nat n) l, Some rb') /\
     pending rb' (drop (Z.to_nat n) l) /\ w_spin rb' = 0 /\ r_spin rb' = 0).
Proof.
  intros Hp Hw Hr. split.
  - intros Hne Hfit. unfold rb_write. destruct (Z.eqb_spec (zlen bs) 0).
    { destruct bs; [done | unfold zlen in *; simpl in *; lia]. }
    rewrite Hw, spin_acquire_free. rb.
    destruct (write_loop_pending bs _ _ (pending_spins rb l 1 (r_spin rb) Hp)) as (rb' & E & Hp' & _ & _ & Hr');
      [done |].
    change (with_w_spin rb 1) with (mk_rb (data rb) (size rb) (w_ptr rb) (r_ptr rb) 1 (r_spin rb)).
    rewrite E. rb. eexists. split; [done |]. rewrite spin_release_0.
    split; [by apply pending_spins |]. simpl. rewrite Hr'. done.
  - intros Hn. unfold rb_read. destruct (Z.eqb_spec n 0); [lia |]. cbn [orb negb].
    rewrite Hr, spin_acquire_free. rb.
    destruct (read_loop_pending (Z.to_nat n) _ _ (pending_spins rb l (w_spin rb) 1 Hp)) as (rb' & E & Hp' & _ & Hw' & _);
      [unfold zlen in *; lia |].
    change (with_r_spin rb 1) with (mk_rb (data rb) (size rb) (w_ptr rb) (r_ptr rb) (w_spin rb) 1).
    rewrite E. rb. eexists. split; [done |]. rewrite spin_release_0.
    split; [by apply pending_spins |]. simpl. rewrite Hw'. done.
Qed.

Lemma rb_fifo_witness :
  let rb := mk_rb [8; 0; 0; 7] 4 1 3 0 0 in
  pending rb [7; 8] /\ exists rb', rb_write (Some rb) (Some [9; 10]) = Ret (2, Some rb') /\ pending rb' [7; 8; 9; 10].
Proof.
  assert (Hp : pending (mk_rb [8; 0; 0; 7] 4 1 3 0 0) [7; 8]).
  { split; [done | done | done |]. intros i b Hi. do 2 (destruct i as [| i]; [by injection Hi as <- |]). done. }
  split; [exact Hp |].
  destruct (rb_fifo _ [7; 8] [9; 10] 1 Hp eq_refl eq_refl) as [H _].
  destruct H as (rb' & E & Hp' & _); [discriminate | discriminate |]. exists rb'. split; [exact E | exact Hp'].
Defined.

End Ringbuffer.
