(* ===== verification/Sampler.v ===== *)
(** * Sliding-window sampler (lib/sample.c) *)

From S2P Require Import Prelude.

Module Sampler.

Record sample := mk_sample { s_ptr : Z; w_total : Z; data : list Z }.

Record ssampler := mk_ssampler {
  w_size : Z;
  s_size : Z;
  nclasses : Z;
  samples : list sample
}.

(** [blocks n] gives the data block of class [n], whatever it holds; the
    two flags are the outcomes of the first two allocations. *)
Definition ssmplr_init (object table : bool) (blocks : nat -> list Z) (w n : Z) : res ssampler :=
  if (w =? 0) || (w =? 0) || (n <? 1) then Err EINVAL
  else if negb object then Err ENOMEM
  else if negb table then Err ENOMEM
  else Ok (mk_ssampler w 1 n
             ((fun i => mk_sample 0 0 (blocks i)) <$> seq 0 (Z.to_nat n))).

Definition ssmplr_deinit (ss : option ssampler) : Z := match ss with None => - EINVAL | Some _ => 0 end.

Definition with_samples (ss : ssampler) (l : list sample) : ssampler :=
  mk_ssampler (w_size ss) (s_size ss) (nclasses ss) l.

(** Store one value in a class, with the oldest one decayed when the window
    is full. *)
Definition store_sample (w : Z) (s : sample) (v : Z) : out sample :=
  let index := s_ptr s in
  '(index, total) ←
     (if w <=? index then
        let index := s_ptr s mod w in
        old ← rd (data s) index;
        mret (index, u64 (w_total s - old))
      else mret (index, w_total s));
  d ← wr (data s) index v;
  mret (mk_sample (u64 (s_ptr s + 1)) (u64 (total + v)) d).

Fixpoint __add_sample (fuel : nat) (ss : ssampler) (v class : Z) : out (Z * ssampler) :=
  match fuel with
  | O => Spin
  | S fuel =>
      if nclasses ss =? class then mret (0, ss)
      else
        s ← rd (samples ss) class;
        s ← store_sample (w_size ss) s v;
        l ← wr (samples ss) class s;
        let ss := with_samples ss l in
        s0 ← rd (samples ss) 0;
        if s_ptr s0 mod w_size ss =? 0
        then __add_sample fuel ss (u8 (w_total s / w_size ss)) (class + 1)
        else mret (0, ss)
  end.

Definition ssmplr_add_sample (ss : option ssampler) (v : Z) : out (Z * option ssampler) :=
  match ss with
  | None => mret (- EINVAL, None)
  | Some ss' =>
      '(r, ss') ← __add_sample (S (Z.to_nat (nclasses ss'))) ss' v 0;
      mret (r, Some ss')
  end.

Definition ssmplr_get_avg (ss : option ssampler) (class : Z) : out Z :=
  match ss with
  | None => mret (- EINVAL)
  | Some ss =>
      if nclasses ss <=? class then mret (- EINVAL)
      else
        s ← rd (samples ss) class;
        if s_ptr s <? w_size ss then mret (- EINPROGRESS)
        else mret (s32 (w_total s / w_size ss))
  end.

(** ** The running total *)

Definition sum (l : list Z) : Z := foldr Z.add 0 l.

Definition byte (b : Z) : Prop := 0 <= b < 256.

(** The values of the window: all of it once it has been filled. *)
Definition window (w : Z) (s : sample) : list Z := take (Z.to_nat (Z.min (s_ptr s) w)) (data s).

Record class_ok (w : Z) (s : sample) : Prop := {
  co_len : zlen (data s) = w;
  co_byte : Forall byte (data s);
  co_ptr : 0 <= s_ptr s < 2 ^ 63;
  co_total : w_total s = sum (window w s)
}.

Record wf (ss : ssampler) : Prop := {
  wf_w : 0 < w_size ss < 2 ^ 31;
  wf_n : 0 < nclasses ss /\ nclasses ss = zlen (samples ss);
  wf_classes : Forall (class_ok (w_size ss)) (samples ss)
}.

Lemma sum_app l1 l2 : sum (l1 ++ l2) = sum l1 + sum l2.
Proof. induction l1; simpl; lia. Qed.

Lemma sum_insert l i old v : l !! i = Some old -> sum (<[i := v]> l) = sum l - old + v.
Proof.
  revert i. induction l as [| x l IH]; intros [| i] H; simplify_eq/=; [lia |].
  rewrite (IH _ H). lia.
Qed.

Lemma sum_bound l : Forall byte l -> 0 <= sum l <= 255 * zlen l.
Proof.
  unfold byte, zlen. induction 1; simpl; [lia |]. lia.
Qed.

Lemma sum_lookup l i old : Forall byte l -> l !! i = Some old -> byte old /\ old <= sum l.
Proof.
  intros Hf. revert i. induction Hf as [| x l Hx Hf IH]; intros [| i] H; simplify_eq/=.
  - split; [done |]. pose proof (sum_bound l Hf). lia.
  - destruct (IH _ H). split; [done |]. unfold byte in Hx. lia.
Qed.

Lemma window_bound w s : class_ok w s -> 0 <= w -> 0 <= w_total s <= 255 * w.
Proof.
  intros [Hl Hb Hp ->] Hw. unfold window.
  destruct (sum_bound (take (Z.to_nat (Z.min (s_ptr s) w)) (data s))); [by apply Forall_take |].
  unfold zlen in *. rewrite length_take in *. lia.
Qed.

Lemma store_sample_spec w s v : 0 < w < 2 ^ 31 -> class_ok w s -> byte v -> s_ptr s < 2 ^ 63 - 1 ->
  exists s', store_sample w s v = Ret s' /\ class_ok w s' /\ s_ptr s' = s_ptr s + 1 /\
    window w s' !! Z.to_nat (s_ptr s mod w) = Some v.
Proof.
  intros Hw Hok Hv Hmax. pose proof (window_bound _ _ Hok) as Htb.
  destruct Hok as [Hl Hb Hp Ht]. unfold store_sample, u64.
  assert (Hvu : forall z, 0 <= z < 2 ^ 64 -> wrap 64 z = z) by (intros; by apply wrap_small).
  assert (Hbyte : forall i, Forall byte (<[i := v]> (data s))) by (intros; by apply Forall_insert).
  destruct (Z.leb_spec w (s_ptr s)) as [Hge | Hlt].
  - pose proof (Z.mod_pos_bound (s_ptr s) w) as Hm.
    destruct (rd_in (data s) (s_ptr s mod w)) as (old & -> & Hold); [lia |]. rb. rb.
    rewrite wr_in by lia. rb.
    assert (Hwin : window w s = data s).
    { unfold window. apply take_ge. unfold zlen in Hl. lia. }
    destruct (sum_lookup _ _ _ Hb Hold) as [[Ho1 Ho2] Ho3]. rewrite Hwin in Ht.
    rewrite (Hvu (s_ptr s + 1)), (Hvu (w_total s - old)), Hvu by (unfold byte in Hv; lia).
    eexists. split; [done |].
    assert (Hwin' : forall t d, length d = length (data s) -> window w (mk_sample (s_ptr s + 1) t d) = d).
    { intros t d Hd. unfold window. simpl. apply take_ge. unfold zlen in Hl. lia. }
    split_and!; [split | done |]; simpl; rewrite ?Hwin' by apply length_insert.
    + unfold zlen in *. by rewrite length_insert.
    + auto.
    + lia.
    + rewrite (sum_insert _ _ _ _ Hold). lia.
    + apply list_lookup_insert_eq. unfold zlen in Hl. lia.
  - rb. rewrite wr_in by lia. rb. rewrite (Hvu (s_ptr s + 1)), Hvu by (unfold byte in Hv; lia).
    eexists. split; [done |].
    assert (Hwin' : forall t, window w (mk_sample (s_ptr s + 1) t (<[Z.to_nat (s_ptr s) := v]> (data s))) = window w s ++ [v]).
    { intros t. unfold window. simpl. rewrite !Z.min_l by lia.
      replace (Z.to_nat (s_ptr s + 1)) with (S (Z.to_nat (s_ptr s))) by lia.
      rewrite (take_S_r _ _ v) by (apply list_lookup_insert_eq; unfold zlen in Hl; lia).
      by rewrite take_insert_ge by lia. }
    split_and!; [split | done |]; simpl; rewrite ?Hwin'.
    + unfold zlen in *. by rewrite length_insert.
    + auto.
    + lia.
    + rewrite sum_app. simpl. lia.
    + rewrite Z.mod_small by lia. unfold window. rewrite Z.min_l by lia.
      apply lookup_snoc_Some. right. rewrite length_take. unfold zlen in Hl. split; [lia | done].
Qed.

(** ** The recursion over the classes *)

Definition ptr_of (ss : ssampler) (c : nat) : option Z := s_ptr <$> samples ss !! c.

Lemma avg_byte w t : 0 < w -> 0 <= t <= 255 * w -> byte (t / w) /\ u8 (t / w) = t / w.
Proof.
  intros Hw Ht. assert (H : 0 <= t / w < 256).
  { split; [by apply Z.div_pos; lia | apply Z.div_lt_upper_bound; lia]. }
  split; [done |]. by apply wrap_small.
Qed.

(** From class 1 on the test of the recursion does not change any more: it
    reads the pointer of class 0. *)
Lemma cascade fuel ss v c s0 : wf ss -> byte v -> 0 < c <= nclasses ss ->
  (Z.to_nat (nclasses ss - c) < fuel)%nat ->
  samples ss !! 0%nat = Some s0 -> s_ptr s0 mod w_size ss = 0 ->
  (forall i s, samples ss !! i = Some s -> s_ptr s < 2 ^ 63 - 1 \/ (i < Z.to_nat c)%nat) ->
  exists ss', __add_sample fuel ss v c = Ret (0, ss') /\ wf ss' /\
    w_size ss' = w_size ss /\ nclasses ss' = nclasses ss /\
    (forall i, ptr_of ss' i = (fun p => if decide (Z.to_nat c <= i)%nat then p + 1 else p) <$> ptr_of ss i).
Proof.
  revert ss v c. induction fuel as [| fuel IH]; intros ss v c Hwf Hv Hc Hf H0 Hz Hmax; [lia |].
  cbn [__add_sample]. destruct Hwf as [Hw [Hn1 Hn] Hcl].
  destruct (Z.eqb_spec (nclasses ss) c) as [E | Hne].
  { exists ss. split_and!; try done. intros i. unfold ptr_of.
    destruct (samples ss !! i) eqn:Ei; [| done]. simpl.
    rewrite decide_False; [done |]. apply lookup_lt_Some in Ei. unfold zlen in Hn. lia. }
  destruct (rd_in (samples ss) c) as (s & -> & Es); [lia |]. rb.
  pose proof (Forall_lookup_1 _ _ _ _ Hcl Es) as Hok.
  destruct (store_sample_spec (w_size ss) s v) as (s' & -> & Hok' & Hp & _); try done.
  { destruct (Hmax _ _ Es); lia. }
  rb. rewrite wr_in by lia. rb. set (ss1 := with_samples ss _).
  assert (Hs0 : samples ss1 !! 0%nat = Some s0).
  { unfold ss1. cbn [samples with_samples]. rewrite list_lookup_insert_ne by lia. done. }
  assert (Hrd : rd (samples ss1) 0 = Ret s0) by (by apply rd_Ret).
  rewrite Hrd. rb. change (w_size ss1) with (w_size ss). rewrite (proj2 (Z.eqb_eq _ _) Hz).
  pose proof (window_bound _ _ Hok' ltac:(lia)) as Htb.
  destruct (avg_byte (w_size ss) (w_total s')) as [Hav Hau]; [lia | done |].
  assert (Hlk1 : forall i, samples ss1 !! i = if decide (i = Z.to_nat c) then Some s' else samples ss !! i).
  { intros i. unfold ss1. cbn [samples with_samples]. case_decide; subst.
    - apply list_lookup_insert_eq. unfold zlen in Hn. lia.
    - by apply list_lookup_insert_ne. }
  rewrite Hau. destruct (IH ss1 (w_total s' / w_size ss) (c + 1)) as (ss' & E & Hwf' & Hw' & Hn' & Hptr).
  - split; [done | split; [done |] | by apply Forall_insert].
    unfold ss1, zlen in *. cbn [samples with_samples nclasses]. by rewrite length_insert.
  - done.
  - change (nclasses ss1) with (nclasses ss). lia.
  - change (nclasses ss1) with (nclasses ss). lia.
  - exact Hs0.
  - exact Hz.
  - intros i x. rewrite Hlk1. case_decide; [right; lia |]. intros Hx. destruct (Hmax _ _ Hx); [by left | right; lia].
  - exists ss'. split_and!; try done. intros i. rewrite Hptr. unfold ptr_of. rewrite Hlk1.
    destruct (decide (i = Z.to_nat c)) as [-> |];
      [rewrite Es; simpl; rewrite Hp, decide_False, decide_True by lia; done |].
    destruct (samples ss !! i); [| done]. simpl. f_equal. repeat case_decide; lia.
Qed.

Lemma get_avg_spec ss c s : wf ss -> 0 <= c -> samples ss !! Z.to_nat c = Some s ->
  ssmplr_get_avg (Some ss) c = Ret (if s_ptr s <? w_size ss then - EINPROGRESS else sum (data s) / w_size ss).
Proof.
  intros [Hw [_ Hn] Hcl] Hc Hs. unfold ssmplr_get_avg. pose proof (lookup_lt_Some _ _ _ Hs) as Hlt.
  rewrite (proj2 (Z.leb_gt _ _)) by (unfold zlen in Hn; lia).
  assert (E : rd (samples ss) c = Ret s) by (by apply rd_Ret). rewrite E. rb.
  pose proof (Forall_lookup_1 _ _ _ _ Hcl Hs) as Hoks.
  destruct (Z.ltb_spec (s_ptr s) (w_size ss)); [done |].
  pose proof (window_bound _ _ Hoks ltac:(lia)) as Htb.
  destruct (avg_byte (w_size ss) (w_total s)) as [[? ?] _]; [lia | done |].
  unfold s32. rewrite swrap_small by (cbn; lia). destruct Hoks as [Hlen _ _ Htot].
  rewrite Htot. unfold window. rewrite take_ge; [done |]. unfold zlen in Hlen. lia.
Qed.

(** Adding a value keeps every class's running total equal to the sum of
    the values in its window, so that an average is exactly the mean of the
    window; it stores the value in class 0 and, each time class 0 completes
    a window, one value in every other class as well, since the recursion
    tests the pointer of class 0 only. *)
Theorem ssmplr_add_sample_correct (ss : ssampler) (v : Z) (s0 : sample) :
  wf ss -> byte v -> samples ss !! 0%nat = Some s0 ->
  (forall s, s ∈ samples ss -> s_ptr s < 2 ^ 63 - 1) ->
  exists ss', ssmplr_add_sample (Some ss) v = Ret (0, Some ss') /\ wf ss' /\
    (forall i, ptr_of ss' i =
       (fun p => if decide (i = 0%nat) then p + 1
                 else if decide ((s_ptr s0 + 1) mod w_size ss = 0) then p + 1 else p) <$> ptr_of ss i) /\
    (forall c s, 0 <= c -> samples ss' !! Z.to_nat c = Some s ->
       ssmplr_get_avg (Some ss') c =
         Ret (if s_ptr s <? w_size ss then - EINPROGRESS else sum (data s) / w_size ss)).
Proof.
  intros Hwf Hv H0 Hmax. pose proof Hwf as [Hw [Hn1 Hn] Hcl].
  unfold ssmplr_add_sample. cbn [__add_sample]. rewrite (proj2 (Z.eqb_neq _ 0)) by lia.
  assert (Hrd : rd (samples ss) 0 = Ret s0) by (by apply rd_Ret). rewrite Hrd. rb.
  pose proof (Forall_lookup_1 _ _ _ _ Hcl H0) as Hok.
  destruct (store_sample_spec (w_size ss) s0 v) as (s' & -> & Hok' & Hp & _); try done.
  { apply Hmax. by eapply list_elem_of_lookup_2. }
  rb. rewrite wr_in by lia. rb. set (ss1 := with_samples ss _).
  assert (Hwf1 : wf ss1).
  { split; [done | split; [done |] | by apply Forall_insert].
    unfold ss1, zlen in *. cbn [samples with_samples nclasses]. by rewrite length_insert. }
  assert (Hlk1 : forall i, samples ss1 !! i = if decide (i = 0%nat) then Some s' else samples ss !! i).
  { intros i. unfold ss1. cbn [samples with_samples]. case_decide; subst.
    - apply list_lookup_insert_eq. unfold zlen in Hn. lia.
    - by apply list_lookup_insert_ne. }
  assert (Hrd1 : rd (samples ss1) 0 = Ret s') by (apply rd_Ret; split; [done | by rewrite Hlk1]).
  rewrite Hrd1. rb. change (w_size ss1) with (w_size ss). rewrite Hp.
  destruct (Z.eqb_spec ((s_ptr s0 + 1) mod w_size ss) 0) as [Hz | Hnz].
  - pose proof (window_bound _ _ Hok' ltac:(lia)) as Htb.
    destruct (avg_byte (w_size ss) (w_total s')) as [Hav ->]; [lia | done |].
    destruct (cascade (Z.to_nat (nclasses ss)) ss1 (w_total s' / w_size ss) 1 s') as (ss' & E & Hwf' & Hw' & Hn' & Hptr).
    + done.
    + done.
    + change (nclasses ss1) with (nclasses ss). lia.
    + change (nclasses ss1) with (nclasses ss). lia.
    + by rewrite Hlk1.
    + by rewrite Hp.
    + intros i x. rewrite Hlk1. case_decide; [right; lia |]. intros Hx. left. apply Hmax.
      by eapply list_elem_of_lookup_2.
    + change (0 + 1) with 1. rewrite E. rb. exists ss'. split_and!; try done.
      * intros i. rewrite Hptr. unfold ptr_of. rewrite Hlk1.
        destruct (decide (i = 0%nat)) as [-> |]; [rewrite H0; simpl; by rewrite Hp |].
        destruct (samples ss !! i); [| done]. simpl. f_equal. repeat case_decide; lia.
      * intros c s Hc Hs. rewrite (get_avg_spec ss' c s), Hw'; done.
  - rb. exists ss1. split_and!; try done.
    + intros i. unfold ptr_of. rewrite Hlk1.
      destruct (decide (i = 0%nat)) as [-> |]; [rewrite H0; simpl; by rewrite Hp |].
      destruct (samples ss !! i); [| done]. simpl. f_equal. repeat case_decide; lia.
    + intros c s. by apply (get_avg_spec ss1).
Qed.

Definition sample_ss : ssampler :=
  mk_ssampler 2 1 3 [mk_sample 1 10 [10; 99]; mk_sample 0 0 [1; 1]; mk_sample 0 0 [2; 2]].

Lemma ssmplr_add_sample_correct_witness :
  wf sample_ss /\
  exists ss', ssmplr_add_sample (Some sample_ss) 20 = Ret (0, Some ss') /\ ptr_of ss' 2%nat = Some 1.
Proof.
  assert (Hwf : wf sample_ss).
  { split; [done | done |].
    repeat constructor; simpl; try lia; reflexivity || discriminate. }
  split; [exact Hwf |].
  destruct (ssmplr_add_sample_correct sample_ss 20 (mk_sample 1 10 [10; 99]) Hwf) as (ss' & E & _ & Hp & _).
  - split; [discriminate | reflexivity].
  - reflexivity.
  - assert (Hf : Forall (fun s => s_ptr s < 2 ^ 63 - 1) (samples sample_ss)) by (repeat constructor).
    intros s Hs. exact (proj1 (Forall_forall _ _) Hf s Hs).
  - exists ss'. split; [exact E |]. rewrite Hp. reflexivity.
Defined.

End Sampler.
