(* ===== verification/Common.v ===== *)
(** * Macros and constants the memory components share
    (include/kernel/common.h, include/mm/types.h) *)

From S2P Require Import Prelude.

Module Common.

Definition PAGE_SIZE : Z := 4096.
Definition PAGE_SHIFT : Z := 12.
Definition INVALID_ADDRESS : Z := ULONG_MAX.
Definition BUDDY_MAX_ORDER : Z := 16.

Definition ROUND_DOWN (addr boundary : Z) : Z := Z.land addr (Z.lnot (boundary - 1)).
Definition ROUND_UP (addr boundary : Z) : Z :=
  if negb (addr mod boundary =? 0)
  then u64 (Z.land addr (Z.lnot (boundary - 1)) + boundary) else addr.
Definition MULTIPLE_OF_2 (value : Z) : Z := Z.land (u64 (value + 1)) (-2).
Definition ALIGNED (value aligment : Z) : bool := Z.land value (aligment - 1) =? 0.
Definition PAGE_ALIGNED (value : Z) : bool := ALIGNED value 4096.

Lemma land_lnot_ones a k : 0 <= a -> 0 <= k -> Z.land a (Z.lnot (2 ^ k - 1)) = a - a mod 2 ^ k.
Proof.
  intros Ha Hk. rewrite <- Z.ldiff_land.
  replace (2 ^ k - 1) with (Z.ones k) by (rewrite Z.ones_equiv; lia).
  rewrite Z.ldiff_ones_r, Z.shiftr_div_pow2, Z.shiftl_mul_pow2 by lia.
  pose proof (Z.div_mod a (2 ^ k) ltac:(apply Z.pow_nonzero; lia)). lia.
Qed.

Lemma ROUND_DOWN_page a : 0 <= a -> ROUND_DOWN a PAGE_SIZE = a - a mod PAGE_SIZE.
Proof. intros Ha. apply (land_lnot_ones a 12); lia. Qed.

Lemma ROUND_UP_page a : 0 <= a < 2 ^ 64 - PAGE_SIZE ->
  ROUND_UP a PAGE_SIZE = if a mod PAGE_SIZE =? 0 then a else a - a mod PAGE_SIZE + PAGE_SIZE.
Proof.
  intros Ha. unfold ROUND_UP. fold (ROUND_DOWN a PAGE_SIZE). rewrite ROUND_DOWN_page by lia.
  destruct (Z.eqb_spec (a mod PAGE_SIZE) 0); [done |]. cbn [negb].
  apply wrap_small. unfold in_u. pose proof (Z.mod_pos_bound a PAGE_SIZE). unfold PAGE_SIZE in *. lia.
Qed.

Lemma PAGE_ALIGNED_mod a : 0 <= a -> PAGE_ALIGNED a = (a mod PAGE_SIZE =? 0).
Proof.
  intros Ha. unfold PAGE_ALIGNED, ALIGNED. change (4096 - 1) with (Z.ones 12).
  by rewrite Z.land_ones by lia.
Qed.

(** The [n] pages from the address [a] on. *)
Definition pages_of (a : Z) (n : nat) : list Z := (fun i => a + PAGE_SIZE * Z.of_nat i) <$> seq 0 n.

Lemma pages_of_app a n m :
  pages_of a (n + m) = pages_of a n ++ pages_of (a + PAGE_SIZE * Z.of_nat n) m.
Proof.
  unfold pages_of. rewrite seq_app, fmap_app. f_equal.
  apply list_eq. intros i. rewrite !list_lookup_fmap.
  destruct (decide (i < m)%nat).
  - rewrite !lookup_seq_lt by done. simpl. f_equal. lia.
  - rewrite !lookup_seq_ge by lia. done.
Qed.

Lemma elem_of_pages_of p a n : p ∈ pages_of a n <-> exists i, (i < n)%nat /\ p = a + PAGE_SIZE * Z.of_nat i.
Proof.
  unfold pages_of. rewrite list_elem_of_fmap. setoid_rewrite elem_of_seq.
  split; intros (i & Hi); exists i; [intuition lia | split; [tauto | lia]].
Qed.

Lemma NoDup_pages_of a n : NoDup (pages_of a n).
Proof.
  unfold pages_of. apply NoDup_fmap_2_strong; [| apply NoDup_seq].
  intros x y _ _. unfold PAGE_SIZE. lia.
Qed.

End Common.
