(* ===== verification/Bootmem.v ===== *)
(** * Memory map and boot memory allocator (fs/multiboot2.c, mm/bootmem.c)

    The multiboot information is the list of its tags, up to the end tag; of
    the memory-map tag the entries matter, and it has at least one. *)

From S2P Require Import Prelude Common Bitmap.
Import Common Bitmap.

Module Bootmem.

Definition MULTIBOOT_MEMORY_AVAILABLE : Z := 1.
Definition MULTIBOOT_MEMORY_RESERVED : Z := 2.
Definition MULTIBOOT_MEMORY_ACPI_RECLAIMABLE : Z := 3.
Definition MULTIBOOT_MEMORY_NVS : Z := 4.
Definition MULTIBOOT_MEMORY_BADRAM : Z := 5.

Record mmap_entry := mk_mmap { e_addr : Z; e_len : Z; e_type : Z }.

Inductive tag :=
| TAG_MMAP (entries : list mmap_entry)
| TAG_OTHER.

(** The two halves of a 64-bit field, as the walk combines them. *)
Definition halves (z : Z) : Z := Z.lor (Z.shiftr z 32) (Z.land z 0xffffffff).

Definition known_type (t : Z) : bool :=
  (t =? MULTIBOOT_MEMORY_AVAILABLE) || (t =? MULTIBOOT_MEMORY_RESERVED) ||
  (t =? MULTIBOOT_MEMORY_ACPI_RECLAIMABLE) || (t =? MULTIBOOT_MEMORY_NVS) ||
  (t =? MULTIBOOT_MEMORY_BADRAM).

Section map_memory.
Context {S : Type} (callback : S -> Z -> Z -> Z -> out S).

Fixpoint map_entries (s : S) (es : list mmap_entry) : out S :=
  match es with
  | [] => mret s
  | e :: es =>
      s ← (if known_type (e_type e)
           then callback s (e_type e) (halves (e_addr e)) (halves (e_len e))
           else mret s);
      map_entries s es
  end.

Fixpoint multiboot2_map_memory (s : S) (tags : list tag) : out S :=
  match tags with
  | [] => mret s
  | TAG_MMAP es :: tags => s ← map_entries s es; multiboot2_map_memory s tags
  | TAG_OTHER :: tags => multiboot2_map_memory s tags
  end.
End map_memory.

(** One of the five ranges: [rbm] is the bitmap of its pages. *)
Record range := mk_range { start : Z; rbm : bitmap }.

Record mem_info := mk_info { ranges : list range; ptr : Z }.

Definition BM_LEN : Z := 256 * 32.

Definition bootmem_claim_range (mi : mem_info) (type addr len : Z) : out mem_info :=
  if negb (type =? MULTIBOOT_MEMORY_AVAILABLE) && negb (type =? MULTIBOOT_MEMORY_ACPI_RECLAIMABLE)
  then mret mi
  else if 5 <=? ptr mi then mret mi
  else
    let npages := ROUND_DOWN len PAGE_SIZE / PAGE_SIZE in
    if npages =? 0 then mret mi
    else
      r ← rd (ranges mi) (ptr mi);
      '(_, bm) ← bm_unset_range (rbm r) 0 (u32 npages);
      l ← wr (ranges mi) (ptr mi) (mk_range (ROUND_UP addr PAGE_SIZE) bm);
      mret (mk_info l (ptr mi + 1)).

(** The static words of each range hold [words] before the call. *)
Fixpoint init_ranges (words : list (list Z)) : out (list range) :=
  match words with
  | [] => mret []
  | ws :: words =>
      '(_, bm) ← bm_set_range (mk_bitmap BM_LEN ws) 0 (BM_LEN - 1);
      l ← init_ranges words;
      mret (mk_range INVALID_ADDRESS bm :: l)
  end.

Definition mmu_bootmem_init (words : list (list Z)) (tags : list tag) : out (Z * mem_info) :=
  l ← init_ranges words;
  mi ← multiboot2_map_memory bootmem_claim_range (mk_info l 0) tags;
  mret (0, mi).

Record bootmem_mmap := mk_bootmem_mmap { m_start : Z; m_npages : Z }.

Fixpoint release_loop (rs : list range) : out (list (option bootmem_mmap) * Z) :=
  match rs with
  | [] => mret ([], 0)
  | r :: rs =>
      s ← bm_find_first_unset (rbm r) 0 (len (rbm r) - 1);
      '(l, n) ← release_loop rs;
      if s =? BM_NOT_FOUND_ERROR then mret (None :: l, n)
      else mret (Some (mk_bootmem_mmap (start r) s) :: l, n + 1)
  end.

(** The map and the number of entries added to the counter, when the blocks
    of the map could be allocated. *)
Definition mmu_bootmem_release (mi : mem_info) : out (list (option bootmem_mmap) * Z) :=
  release_loop (ranges mi).

(** The search of [mmu_bootmem_alloc_block] over the ranges [i ..]. *)
Fixpoint alloc_loop (n : nat) (mi : mem_info) (i npages : Z) : out (Z * mem_info) :=
  match n with
  | O => mret (INVALID_ADDRESS, mi)
  | S n =>
      if negb (i <? ptr mi) then mret (INVALID_ADDRESS, mi)
      else
        r ← rd (ranges mi) i;
        s ← bm_find_first_unset_range (rbm r) 0 (len (rbm r) - 1) npages;
        if s =? BM_NOT_FOUND_ERROR then alloc_loop n mi (i + 1) npages
        else
          '(e, bm) ← (if npages =? 1 then bm_set_bit (rbm r) s
                      else bm_set_range (rbm r) s (u32 (s + npages)));
          l ← wr (ranges mi) i (mk_range (start r) bm);
          if negb (e =? 0) then mret (INVALID_ADDRESS, mk_info l (ptr mi))
          else mret (u64 (start r + PAGE_SIZE * s), mk_info l (ptr mi))
  end.

Definition mmu_bootmem_alloc_block (mi : mem_info) (npages : Z) : out (Z * mem_info) :=
  alloc_loop (Datatypes.S (length (ranges mi))) mi 0 npages.

Definition mmu_bootmem_alloc_page (mi : mem_info) : out (Z * mem_info) := mmu_bootmem_alloc_block mi 1.

Definition mmu_bootmem_free (mi : mem_info) (addr npages : Z) : mem_info := mi.

(** ** Well-formedness *)

Definition wf_range (r : range) : Prop := wf (rbm r) /\ len (rbm r) = BM_LEN.

Record wf_info (mi : mem_info) : Prop := {
  wi_ranges : length (ranges mi) = 5%nat /\ Forall wf_range (ranges mi);
  wi_ptr : 0 <= ptr mi <= 5
}.

Lemma wf_info_insert mi i r p : wf_info mi -> wf_range r -> 0 <= p <= 5 ->
  wf_info (mk_info (<[i := r]> (ranges mi)) p).
Proof.
  intros [[Hl Hf] Hp] Hr Hp'. split; [split; simpl; [by rewrite length_insert | by apply Forall_insert] | done].
Qed.

(** Registering an available range of [n] whole pages, fewer than the
    8192 bits of its bitmap, frees exactly the bits [0 .. n]: one page more
    than the range holds.  A range of 8192 pages or more takes a slot but
    frees nothing, and any other type, or a full table, changes nothing. *)
Theorem bootmem_claim_range_bits (mi : mem_info) (type addr n : Z) :
  wf_info mi -> 0 <= n < 2 ^ 32 ->
  type = MULTIBOOT_MEMORY_AVAILABLE \/ type = MULTIBOOT_MEMORY_ACPI_RECLAIMABLE ->
  (n = 0 \/ ptr mi = 5 -> bootmem_claim_range mi type addr (PAGE_SIZE * n) = Ret mi) /\
  (0 < n -> ptr mi < 5 -> exists mi' r r',
     bootmem_claim_range mi type addr (PAGE_SIZE * n) = Ret mi' /\ wf_info mi' /\
     ptr mi' = ptr mi + 1 /\ ranges mi !! Z.to_nat (ptr mi) = Some r /\
     ranges mi' = <[Z.to_nat (ptr mi) := r']> (ranges mi) /\
     start r' = ROUND_UP addr PAGE_SIZE /\
     forall i, 0 <= i -> bit (rbm r') i =
       if (n <? BM_LEN) && (i <=? n) then false else bit (rbm r) i).
Proof.
  intros Hwf Hn Htype. pose proof Hwf as [[Hl Hf] Hp]. unfold bootmem_claim_range.
  assert (Htest : negb (type =? MULTIBOOT_MEMORY_AVAILABLE) && negb (type =? MULTIBOOT_MEMORY_ACPI_RECLAIMABLE) = false)
    by (destruct Htype as [-> | ->]; done).
  rewrite Htest.
  assert (Hnp : ROUND_DOWN (PAGE_SIZE * n) PAGE_SIZE / PAGE_SIZE = n).
  { rewrite ROUND_DOWN_page by (unfold PAGE_SIZE; lia).
    replace (PAGE_SIZE * n) with (n * PAGE_SIZE) by lia.
    rewrite Z.mod_mul, Z.sub_0_r, Z.div_mul by done. done. }
  rewrite Hnp. split.
  - intros [-> | ->]; [by case_match | done].
  - intros Hn0 Hp5. rewrite leb_false by lia. rewrite (proj2 (Z.eqb_neq n 0)) by lia.
    destruct (rd_in (ranges mi) (ptr mi)) as (r & -> & Er); [unfold zlen; lia |]. rb.
    pose proof (Forall_lookup_1 _ _ _ _ Hf Er) as [Hwr Hlen].
    unfold u32. rewrite wrap_small by done.
    assert (Hu : exists e bm, bm_unset_range (rbm r) 0 n = Ret (e, bm) /\ wf bm /\ len bm = BM_LEN /\
      forall i, 0 <= i -> bit bm i = if (n <? BM_LEN) && (i <=? n) then false else bit (rbm r) i).
    { destruct (Z.ltb_spec n BM_LEN).
      - destruct (bm_unset_range_in_range (rbm r) 0 n) as (bm & -> & Hw & Hb & Hbit);
          [done | rewrite Hlen; done | lia |].
        exists 0, bm. split_and!; [done | done | lia |]. intros i Hi. rewrite Hbit by done.
        rewrite (leb_true 0 i) by done. done.
      - exists BM_RANGE_ERROR, (rbm r). split_and!; [| done | done | done].
        unfold bm_unset_range. rewrite Hlen, (leb_false BM_LEN 0), (leb_true BM_LEN n) by (lia || done). done. }
    destruct Hu as (e & bm & -> & Hw & Hb & Hbit). rb. rewrite wr_in by (unfold zlen; lia). rb.
    eexists _, r, (mk_range _ bm). split; [done |]. split_and!; try done.
    apply wf_info_insert; [done | done | lia].
Qed.

Definition fresh_info : mem_info :=
  mk_info (repeat (mk_range INVALID_ADDRESS (mk_bitmap BM_LEN (repeat UINT32_MAX 256))) 5) 0.

Lemma fresh_info_wf : wf_info fresh_info.
Proof.
  split; [split; [done |] | done].
  assert (H : wf_range (mk_range INVALID_ADDRESS (mk_bitmap BM_LEN (repeat UINT32_MAX 256)))).
  { split; [split; [by vm_compute | by vm_compute] | done]. }
  do 5 (apply Forall_cons; split; [exact H |]). constructor.
Qed.

Lemma bootmem_claim_range_bits_witness :
  wf_info fresh_info /\
  exists mi' r', bootmem_claim_range fresh_info 1 4096 (4096 * 2) = Ret mi' /\
    ranges mi' !! 0%nat = Some r' /\ bit (rbm r') 2 = false /\ bit (rbm r') 3 = true.
Proof.
  split; [exact fresh_info_wf |].
  destruct (bootmem_claim_range_bits fresh_info 1 4096 2 fresh_info_wf) as [_ H];
    [done | by left |].
  destruct H as (mi' & r & r' & E & _ & _ & Er & Er' & _ & Hbit); [done | done |].
  exists mi', r'. injection Er as <-. rewrite Er'. split; [exact E |].
  split; [reflexivity |]. rewrite !Hbit by done. split; reflexivity.
Defined.

(** ** Allocation *)

Lemma bm_mark bm s n : wf bm -> len bm = BM_LEN -> 0 <= s -> 1 <= n -> s + n <= BM_LEN ->
  exists e bm', (if n =? 1 then bm_set_bit bm s else bm_set_range bm s (u32 (s + n))) = Ret (e, bm') /\
    wf bm' /\ len bm' = BM_LEN /\
    (e = 0 /\ (forall j, 0 <= j -> bit bm' j =
                 if (s <=? j) && (j <=? if n =? 1 then s else s + n) then true else bit bm j) \/
     e <> 0 /\ bm' = bm).
Proof.
  intros Hwf Hlen Hs Hn Hfit. destruct (Z.eqb_spec n 1) as [-> | Hn1].
  - destruct (bm_set_bit_in_range bm s) as (bm' & -> & Hw & Hl & Hb); [done | lia |].
    exists 0, bm'. split_and!; [done | done | lia |]. left. split; [done |]. intros j Hj.
    rewrite Hb by done. destruct (Z.eqb_spec j s), (Z.leb_spec s j), (Z.leb_spec j s); simpl; done || lia.
  - unfold u32. rewrite wrap_small by (unfold in_u, BM_LEN in *; lia).
    destruct (Z.eq_dec (s + n) BM_LEN) as [E | Hne].
    + exists BM_RANGE_ERROR, bm. split_and!; [| done | done | by right].
      unfold bm_set_range. rewrite Hlen, E, (leb_true BM_LEN BM_LEN), orb_true_r by lia. done.
    + destruct (bm_set_range_in_range bm s (s + n)) as (bm' & -> & Hw & Hl & Hb); [done | lia | lia |].
      exists 0, bm'. split_and!; [done | done | lia |]. left. split; [done | exact Hb].
Qed.

(** What one call of the allocator may do. *)
Definition alloc_post (mi : mem_info) (n a : Z) (mi' : mem_info) : Prop :=
  (a = INVALID_ADDRESS /\ mi' = mi) \/
  exists i r r' s, ranges mi !! i = Some r /\ 0 <= s /\ s + n <= BM_LEN /\
    run (rbm r) false s n /\ a = u64 (start r + PAGE_SIZE * s) /\
    ranges mi' = <[i := r']> (ranges mi) /\ ptr mi' = ptr mi /\ start r' = start r /\
    run (rbm r') true s n /\ (forall j, 0 <= j -> bit (rbm r) j = true -> bit (rbm r') j = true).

Lemma alloc_loop_spec fuel mi i n : wf_info mi -> 1 <= n < 2 ^ 63 -> 0 <= i ->
  (Z.to_nat (ptr mi - i) < fuel)%nat ->
  exists a mi', alloc_loop fuel mi i n = Ret (a, mi') /\ wf_info mi' /\ alloc_post mi n a mi'.
Proof.
  revert i. induction fuel as [| fuel IH]; intros i Hwf Hn Hi Hf; [lia |].
  pose proof Hwf as [[Hl Hfa] Hp]. cbn [alloc_loop].
  destruct (Z.ltb_spec i (ptr mi)) as [Hlt | Hge]; cbn [negb].
  2:{ eexists _, mi. split; [done |]. split; [done | by left]. }
  destruct (rd_in (ranges mi) i) as (r & -> & Er); [unfold zlen; lia |]. rb.
  pose proof (Forall_lookup_1 _ _ _ _ Hfa Er) as [Hwr Hlen].
  destruct (bm_find_first_range_in_range (rbm r) 0 (len (rbm r) - 1) n false Hwr) as (s & E & Hs);
    [rewrite Hlen; done | lia | lia |].
  unfold bm_find_first_unset_range. change (Z.b2z false) with 0 in E. rewrite E. rb.
  destruct Hs as [[-> _] | (Hs0 & Hs1 & Hrun & _)]; [rewrite Z.eqb_refl; apply IH; [done .. | lia | lia] |].
  rewrite (proj2 (Z.eqb_neq s BM_NOT_FOUND_ERROR)) by (unfold BM_NOT_FOUND_ERROR; lia).
  destruct (bm_mark (rbm r) s n Hwr Hlen) as (e & bm & -> & Hw & Hb & Hmark); [lia .. |]. rb.
  rewrite wr_in by (unfold zlen; lia). rb.
  assert (Hwf' : wf_info (mk_info (<[Z.to_nat i := mk_range (start r) bm]> (ranges mi)) (ptr mi)))
    by (by apply wf_info_insert).
  destruct Hmark as [[-> Hbit] | [He ->]].
  - cbn [negb]. eexists _, _. split; [done |]. split; [done |]. right.
    exists (Z.to_nat i), r, (mk_range (start r) bm), s. split_and!; try done; try lia; simpl.
    + intros j Hj. rewrite Hbit by lia. zb; try done; try lia.
    + intros j Hj Hold. rewrite Hbit by done.
      match goal with |- (if ?b then _ else _) = _ => by destruct b end.
  - rewrite (proj2 (Z.eqb_neq e 0)) by done. cbn [negb]. eexists _, _. split; [done |]. split; [done |]. left.
    split; [done |]. destruct r. simpl. rewrite list_insert_id by done. by destruct mi.
Qed.


(** A first range of two free pages at 0x1000, after the claim. *)
Definition claimed_info : mem_info :=
  mk_info (mk_range 4096 (mk_bitmap BM_LEN (4294967288 :: repeat UINT32_MAX 255)) ::
           repeat (mk_range INVALID_ADDRESS (mk_bitmap BM_LEN (repeat UINT32_MAX 256))) 4) 1.

Lemma claimed_info_wf : wf_info claimed_info.
Proof.
  split; [split; [done |] | done].
  do 5 (apply Forall_cons; split; [split; [split; [by vm_compute | by vm_compute] | reflexivity] |]).
  constructor.
Qed.


(** The walk of the memory map hands its callback the low 32 bits of an
    address or length only when the high ones are zero; the value of any
    region at or above 4 GB is turned into another one below 4 GB. *)
Theorem halves_below_4GB (z : Z) : 0 <= z < 2 ^ 64 ->
  0 <= halves z < 2 ^ 32 /\ (halves z = z <-> z < 2 ^ 32).
Proof.
  intros Hz. unfold halves. change 0xffffffff with (Z.ones 32). rewrite Z.land_ones by lia.
  assert (Hs : 0 <= Z.shiftr z 32 < 2 ^ 32).
  { rewrite Z.shiftr_div_pow2 by lia. split; [by apply Z.div_pos; lia |].
    apply Z.div_lt_upper_bound; lia. }
  pose proof (Z.mod_pos_bound z (2 ^ 32) ltac:(lia)) as Hm.
  assert (Hlor : 0 <= Z.lor (Z.shiftr z 32) (z mod 2 ^ 32) < 2 ^ 32).
  { split; [apply Z.lor_nonneg; lia |].
    destruct (Z.eq_dec (Z.lor (Z.shiftr z 32) (z mod 2 ^ 32)) 0) as [-> | Hne]; [lia |].
    apply Z.log2_lt_pow2; [pose proof (Z.lor_nonneg (Z.shiftr z 32) (z mod 2 ^ 32)); lia |].
    rewrite Z.log2_lor by lia. apply Z.max_lub_lt.
    - destruct (Z.eq_dec (Z.shiftr z 32) 0) as [-> |]; [done | apply Z.log2_lt_pow2; lia].
    - destruct (Z.eq_dec (z mod 2 ^ 32) 0) as [-> |]; [done | apply Z.log2_lt_pow2; lia]. }
  split; [done |]. split; [lia |]. intros Hlt.
  rewrite Z.shiftr_div_pow2, Z.div_small, Z.lor_0_l, Z.mod_small by lia. done.
Qed.

Lemma halves_below_4GB_witness : halves 0x100000000 = 1 /\ halves 0x100000000 <> 0x100000000.
Proof.
  split; [reflexivity |]. intros E.
  apply (proj2 (halves_below_4GB 0x100000000 ltac:(split; [discriminate | reflexivity]))) in E. discriminate E.
Defined.

End Bootmem.
