(* ===== verification/Memory.v ===== *)
(** * What the allocators ask of the page frame allocator

    [PageSource] is the promise of a source of physical pages to its clients
    (the slab caches, the kernel heap, the page tables): a block it returns
    leaves the pages it can still give out.  PageAlloc has the instance.
    [EntrySource] is the promise of a slab cache to the components that take
    their objects from it; Slab has the instance. *)

From S2P Require Import Prelude Common.
Import Common.

Module Memory.

Class PageSource (S : Type) := {
  src_alloc : S -> Z -> out (Z * S);
  src_avail : S -> list Z;
  src_ok : S -> Prop;
  src_alloc_law : forall s order a s', src_ok s -> 0 <= order < 16 ->
    src_alloc s order = Ret (a, s') ->
    src_ok s' /\ 0 <= a /\ src_avail s ≡ₚ pages_of a (2 ^ Z.to_nat order) ++ src_avail s'
}.

(** A slab cache, to the components that keep their objects in it: an entry
    it hands out is held by nobody else until it is given back.  The flag of
    the result says that the entry was cleared. *)
Class EntrySource (C : Type) := {
  es_alloc : C -> Z -> out (res (Z * bool) * C);
  es_free : C -> Z -> out C;
  es_held : C -> list Z -> Prop;
  es_alloc_law : forall c flags held x z c', es_held c held ->
    es_alloc c flags = Ret (Ok (x, z), c') -> es_held c' (x :: held) /\ x <> 0 /\ x ∉ held;
  es_free_law : forall c x held, es_held c (x :: held) ->
    exists c', es_free c x = Ret c' /\ es_held c' held
}.

Definition KPSTART : Z := 0x0000000000100000.
Definition KVSTART : Z := 0xffffffff80100000.

Definition amd64_p_to_v (paddr : Z) : Z := u64 (paddr + (KVSTART - KPSTART)).
Definition amd64_v_to_p (vaddr : Z) : Z := u64 (vaddr - (KVSTART - KPSTART)).

Definition mmu_p_to_v (paddr : Z) : Z := amd64_p_to_v paddr.
Definition mmu_v_to_p (vaddr : Z) : Z := amd64_v_to_p vaddr.

Lemma v_to_p_to_v p : in_u 64 p -> amd64_v_to_p (amd64_p_to_v p) = p.
Proof.
  unfold amd64_v_to_p, amd64_p_to_v, u64, wrap, in_u. intros Hp.
  rewrite Zminus_mod_idemp_l. rewrite Z.mod_small; lia.
Qed.

Lemma p_to_v_inj p q : in_u 64 p -> in_u 64 q -> amd64_p_to_v p = amd64_p_to_v q -> p = q.
Proof. intros Hp Hq E. rewrite <- (v_to_p_to_v p), <- (v_to_p_to_v q), E by done. done. Qed.

(** The part of physical memory that is mapped without wrap-around. *)
Lemma p_to_v_small p : 0 <= p < 2 ^ 31 -> amd64_p_to_v p = p + (KVSTART - KPSTART).
Proof. intros Hp. apply wrap_small. unfold in_u, KVSTART, KPSTART. lia. Qed.

End Memory.
