(* ===== verification/PageAlloc.v ===== *)
(** * Page frame allocator (mm/page.c)

    Each zone keeps a free list per order; the head of a Rocq list is the
    block [list_append] put first and [__get_free_entry] takes next (Dlist
    proves that the linked lists behave this way).  The descriptors come from
    a slab cache, whose outcome is the argument [descriptor]. *)

From S2P Require Import Prelude Common Locks Bootmem Memory.
Import Common Locks Bootmem Memory.

Module PageAlloc.

Definition MM_ZONE_DMA : Z := 0.
Definition MM_ZONE_NORMAL : Z := 1.
Definition MM_ZONE_HIGH : Z := 2.

Definition MM_ZONE_DMA_END : Z := 0x1000000.
Definition MM_ZONE_NORMAL_START : Z := 0x1000000.
Definition MM_ZONE_NORMAL_END : Z := 0xffffffffffffffff.
Definition MM_ZONE_HIGH_START : Z := 0xffffffffffffffff.
Definition MM_ZONE_HIGH_END : Z := 0xffffffffffffffff.

Definition MM_PT_INVALID : Z := 0.
Definition MM_PT_FREE : Z := 1.
Definition MM_PT_IN_USE : Z := 2.

Record mm_block := mk_block { b_start : Z; b_end : Z }.

Record mm_zone := mk_zone {
  page_count : Z;
  zlock : Z;
  blocks : list (list mm_block)
}.

(** One entry of the page array. *)
Record page := mk_page { p_type : Z; p_order : Z; p_first : Z }.

Inductive zone_id := Dma | Normal | High.

Record state := mk_state {
  zone_dma : mm_zone;
  zone_normal : mm_zone;
  zone_high : mm_zone;
  page_array : list page
}.

Definition get_zone (s : state) (z : zone_id) : mm_zone :=
  match z with Dma => zone_dma s | Normal => zone_normal s | High => zone_high s end.

Definition set_zone (s : state) (i : zone_id) (z : mm_zone) : state :=
  match i with
  | Dma => mk_state z (zone_normal s) (zone_high s) (page_array s)
  | Normal => mk_state (zone_dma s) z (zone_high s) (page_array s)
  | High => mk_state (zone_dma s) (zone_normal s) z (page_array s)
  end.

Definition set_array (s : state) (pa : list page) : state :=
  mk_state (zone_dma s) (zone_normal s) (zone_high s) pa.

Definition with_blocks (z : mm_zone) (bs : list (list mm_block)) : mm_zone :=
  mk_zone (page_count z) (zlock z) bs.
Definition with_lock (z : mm_zone) (l : Z) : mm_zone := mk_zone (page_count z) l (blocks z).

Definition __get_zone (start fin : Z) : option zone_id :=
  if fin <? MM_ZONE_DMA_END then Some Dma
  else if (MM_ZONE_NORMAL_START <=? start) && (fin <? MM_ZONE_NORMAL_END) then Some Normal
  else if (MM_ZONE_HIGH_START <=? start) && (fin <? MM_ZONE_HIGH_END) then Some High
  else None.

(** [list_append(&zone->blocks[order].list, &block->list)]. *)
Definition push_block (z : mm_zone) (order : Z) (b : mm_block) : out mm_zone :=
  l ← rd (blocks z) order;
  bs ← wr (blocks z) order (b :: l);
  mret (with_blocks z bs).

(** [(1 << order) * PAGE_SIZE], for the orders of the allocator. *)
Definition block_bytes (order : Z) : Z := Z.shiftl 1 order * PAGE_SIZE.

Definition __zone_add_block (descriptor : bool) (z : mm_zone) (start order : Z) : out (Z * mm_zone) :=
  if negb descriptor then mret (- ENOMEM, z)
  else
    l ← spin_acquire (zlock z);
    z ← push_block (with_lock z l) order (mk_block start (u64 (start + block_bytes order - 1)));
    let z := mk_zone (u64 (page_count z + Z.shiftl 1 order)) (zlock z) (blocks z) in
    mret (0, with_lock z (spin_release (zlock z))).

(** The entries [pfn + i] for [i] from [i] on, not the first of their block. *)
Fixpoint array_loop (n : nat) (pa : list page) (pfn i type order : Z) : out (list page) :=
  match n with
  | O => mret pa
  | S n =>
      pa ← wr pa (u32 (pfn + i)) (mk_page type order 0);
      array_loop n pa pfn (i + 1) type order
  end.

(** The fields [type] and [order] have two and five bits. *)
Definition __page_array_add_block (pa : list page) (type start order : Z) : out (list page) :=
  let pfn := u32 (Z.shiftr start PAGE_SHIFT) in
  let t := wrap 2 type in
  let o := wrap 5 order in
  pa ← wr pa pfn (mk_page t o 1);
  array_loop (Z.to_nat (Z.shiftl 1 order - 1)) pa pfn 1 t o.

Section claim.
Context {S : Type} (callback : S -> Z -> Z -> out S).

(** [num_blocks] calls, the [b]-th of which moves [start] by [b + 1]
    blocks. *)
Fixpoint claim_blocks (n : nat) (s : S) (b start size order : Z) : out (Z * S) :=
  match n with
  | O => mret (start, s)
  | Datatypes.S n =>
      s ← callback s start order;
      claim_blocks n s (b + 1) (u64 (start + (b + 1) * size)) size order
  end.

Fixpoint claim_orders (order : nat) (s : S) (start range_len : Z) : out S :=
  let size := block_bytes (Z.of_nat order) in
  '(start, s) ← claim_blocks (Z.to_nat (range_len / size)) s 0 start size (Z.of_nat order);
  match order with
  | O => mret s
  | Datatypes.S order => claim_orders order s start (range_len mod size)
  end.

Definition __claim_range (s : S) (start fin : Z) : out S :=
  let range_len := u64 (fin - start) in
  if range_len <? PAGE_SIZE then mret s
  else claim_orders (Z.to_nat (BUDDY_MAX_ORDER - 1)) s start range_len.
End claim.

(** The first block of the order; the list head of an empty order is null
    and is dereferenced. *)
Definition __get_free_entry (z : mm_zone) (order : Z) : out (mm_block * mm_zone) :=
  _ ← kassert (order <? BUDDY_MAX_ORDER);
  l ← rd (blocks z) order;
  match l with
  | [] => Fault
  | b :: l => bs ← wr (blocks z) order l; mret (b, with_blocks z bs)
  end.

(** The loop of [__split_block]: the start of the part that is left over
    when [split_order] has come down to [req_order]. *)
Fixpoint split_loop (fuel : nat) (descriptor : bool) (z : mm_zone) (req split split_start : Z) : out (Z * mm_zone) :=
  if req =? split then mret (split_start, z)
  else match fuel with
  | O => Spin
  | Datatypes.S fuel =>
      if negb descriptor then Fault
      else
        let split_size := Z.shiftl 1 (split - 1) * PAGE_SIZE in
        z ← push_block z (split - 1) (mk_block split_start (u64 (split_start + split_size - 1)));
        split_loop fuel descriptor z req (split - 1) (u64 (split_start + split_size))
  end.

Definition __split_block (descriptor : bool) (z : mm_zone) (req split : Z) : out (Z * mm_zone) :=
  _ ← kassert (negb (split =? 0) && (req <? BUDDY_MAX_ORDER));
  l ← spin_acquire (zlock z);
  '(b, z) ← __get_free_entry (with_lock z l) split;
  let split_size := Z.shiftl 1 (split - 1) * PAGE_SIZE in
  let split_start := u64 (b_start b + split_size) in
  z ← push_block z (split - 1) (mk_block (b_start b) (u64 (b_end b - split_size)));
  '(r, z) ← split_loop (Z.to_nat BUDDY_MAX_ORDER) descriptor z req (split - 1) split_start;
  mret (r, with_lock z (spin_release (zlock z))).

(** The first order from [o] on whose list is not empty. *)
Fixpoint find_order (n : nat) (z : mm_zone) (o : Z) : out (option Z) :=
  match n with
  | O => mret None
  | Datatypes.S n =>
      if negb (o <? BUDDY_MAX_ORDER) then mret None
      else
        l ← rd (blocks z) o;
        match l with [] => find_order n z (o + 1) | _ => mret (Some o) end
  end.

(** The search under the lock: the taken block, or the order to split. *)
Definition alloc_search (z : mm_zone) (order : Z) : out ((Z + option Z) * mm_zone) :=
  l ← spin_acquire (zlock z);
  let z := with_lock z l in
  r ← find_order (Z.to_nat BUDDY_MAX_ORDER) z order;
  match r with
  | None => mret (inr None, with_lock z (spin_release (zlock z)))
  | Some o =>
      if o =? order then
        '(b, z) ← __get_free_entry z o;
        mret (inl (b_start b), with_lock z (spin_release (zlock z)))
      else mret (inr (Some o), with_lock z (spin_release (zlock z)))
  end.

Definition zone_alloc (descriptor : bool) (z : mm_zone) (order : Z) : out (res Z * mm_zone) :=
  '(r, z) ← alloc_search z order;
  match r with
  | inl start => mret (Ok start, z)
  | inr (Some o) => '(start, z) ← __split_block descriptor z order o; mret (Ok start, z)
  | inr None => mret (Err ENOMEM, z)
  end.

Definition __alloc_mem (descriptor : bool) (s : state) (memzone order : Z) : out (res Z * state) :=
  _ ← kassert (memzone =? MM_ZONE_NORMAL);
  if (BUDDY_MAX_ORDER <? order) ||
     negb (Z.land memzone (Z.lnot (Z.lor MM_ZONE_DMA (Z.lor MM_ZONE_NORMAL MM_ZONE_HIGH))) =? 0)
  then mret (Err EINVAL, s)
  else
    let zone := if negb (Z.land memzone MM_ZONE_NORMAL =? 0) then Some Normal
                else if negb (Z.land memzone MM_ZONE_DMA =? 0) then Some Dma
                else if negb (Z.land memzone MM_ZONE_HIGH =? 0) then Some High else None in
    match zone with
    | None => Fault
    | Some i =>
        '(r, z) ← zone_alloc descriptor (get_zone s i) order;
        mret (r, set_zone s i z)
    end.

(** Out of memory is a panic. *)
Definition mmu_block_alloc (descriptor : bool) (s : state) (memzone order : Z) : out (Z * state) :=
  '(r, s) ← __alloc_mem descriptor s memzone order;
  match r with
  | Err _ => Halt
  | Ok a =>
      if a =? INVALID_ADDRESS then Halt
      else
        pa ← __page_array_add_block (page_array s) MM_PT_IN_USE a order;
        mret (a, set_array s pa)
  end.

Definition mmu_page_alloc (descriptor : bool) (s : state) (memzone : Z) : out (Z * state) :=
  mmu_block_alloc descriptor s memzone 0.

Definition mmu_block_free (descriptor : bool) (s : state) (address order : Z) : out (Z * state) :=
  if negb (PAGE_ALIGNED address) then mret (- EINVAL, s)
  else match __get_zone address (u64 (address + block_bytes order)) with
  | None => mret (- ENXIO, s)
  | Some i =>
      pa ← __page_array_add_block (page_array s) MM_PT_FREE address order;
      let s := set_array s pa in
      '(r, z) ← __zone_add_block descriptor (get_zone s i) address order;
      mret (r, set_zone s i z)
  end.

Definition mmu_page_free (descriptor : bool) (s : state) (address : Z) : out (Z * state) :=
  mmu_block_free descriptor s address 0.

(** [(void)callback(...)] with a zone, and with the type of the pages. *)
Definition claim_into (descriptor : bool) (i : zone_id) (s : state) (start order : Z) : out state :=
  '(_, z) ← __zone_add_block descriptor (get_zone s i) start order; mret (set_zone s i z).

Definition claim_array (type : Z) (s : state) (start order : Z) : out state :=
  pa ← __page_array_add_block (page_array s) type start order; mret (set_array s pa).

Definition mmu_claim_range (descriptor : bool) (s : state) (address len : Z) : out state :=
  let last := u64 (address + len) in
  s ← match __get_zone address last with
      | Some i => __claim_range (claim_into descriptor i) s (ROUND_UP address PAGE_SIZE) (ROUND_DOWN last PAGE_SIZE)
      | None => mret s
      end;
  if (address <? MM_ZONE_NORMAL_START) && (MM_ZONE_DMA_END <? last) then
    s ← __claim_range (claim_into descriptor Dma) s (ROUND_UP address PAGE_SIZE) MM_ZONE_DMA_END;
    __claim_range (claim_into descriptor Normal) s MM_ZONE_NORMAL_START (ROUND_DOWN last PAGE_SIZE)
  else mret s.

Definition mmu_claim_page (descriptor : bool) (s : state) (address : Z) : out state :=
  mmu_claim_range descriptor s address PAGE_SIZE.

Definition __claim_range_preinit (descriptor : bool) (s : state) (type address len : Z) : out state :=
  if negb (type =? MULTIBOOT_MEMORY_AVAILABLE) && negb (type =? MULTIBOOT_MEMORY_ACPI_RECLAIMABLE)
  then mret s else mmu_claim_range descriptor s address len.

Definition __claim_range_postinit (s : state) (type address len : Z) : out state :=
  let mm_type :=
    if (type =? MULTIBOOT_MEMORY_AVAILABLE) || (type =? MULTIBOOT_MEMORY_ACPI_RECLAIMABLE) then MM_PT_FREE
    else if (type =? MULTIBOOT_MEMORY_RESERVED) || (type =? MULTIBOOT_MEMORY_NVS) ||
            (type =? MULTIBOOT_MEMORY_BADRAM) then MM_PT_IN_USE
    else MM_PT_INVALID in
  __claim_range (claim_array mm_type) s
    (ROUND_UP address PAGE_SIZE) (ROUND_DOWN (u64 (address + len)) PAGE_SIZE).

Definition empty_zone (z : mm_zone) : mm_zone := mk_zone 0 (zlock z) (replicate (Z.to_nat BUDDY_MAX_ORDER) []).

(** The whole initialisation: [s0] is the state of the static variables, [n]
    the number of entries the block of order 12 holds for the page array. *)
Definition mmu_zones_init (cache descriptor : bool) (n : nat) (s0 : state) (tags : list tag) : out state :=
  let s := mk_state (empty_zone (zone_dma s0)) (empty_zone (zone_normal s0)) (empty_zone (zone_high s0))
                    (page_array s0) in
  if negb cache then Halt
  else
    s ← multiboot2_map_memory (__claim_range_preinit descriptor) s tags;
    '(r, s) ← __alloc_mem descriptor s MM_ZONE_NORMAL 12;
    match r with
    | Err _ => Halt
    | Ok pa_mem =>
        if pa_mem =? INVALID_ADDRESS then Halt
        else
          let s := set_array s (repeat (mk_page MM_PT_INVALID 0 0) n) in
          s ← multiboot2_map_memory __claim_range_postinit s tags;
          pa ← __page_array_add_block (page_array s) MM_PT_IN_USE pa_mem 12;
          mret (set_array s pa)
    end.

(** ** The free pages of a zone *)

Definition block_pages (order : nat) (b : mm_block) : list Z := pages_of (b_start b) (2 ^ order).

Fixpoint pages_from (order : nat) (ls : list (list mm_block)) : list Z :=
  match ls with
  | [] => []
  | bs :: ls => (bs ≫= block_pages order) ++ pages_from (Datatypes.S order) ls
  end.

Definition free_pages (z : mm_zone) : list Z := pages_from 0 (blocks z).

(** The end field fits the order of the list, and nothing wraps. *)
Definition block_ok (order : nat) (b : mm_block) : Prop :=
  0 <= b_start b /\ b_start b + 2 ^ Z.of_nat order * PAGE_SIZE < 2 ^ 64 /\
  b_end b = b_start b + 2 ^ Z.of_nat order * PAGE_SIZE - 1.

Record zone_wf (z : mm_zone) : Prop := {
  zw_lock : zlock z = 0;
  zw_len : length (blocks z) = 16%nat;
  zw_ok : forall o bs b, blocks z !! o = Some bs -> b ∈ bs -> block_ok o b
}.

Lemma pages_from_push o ls i bs b : ls !! i = Some bs ->
  pages_from o (<[i := b :: bs]> ls) ≡ₚ block_pages (o + i) b ++ pages_from o ls.
Proof.
  revert o i. induction ls as [| bs' ls IH]; intros o [| i] H; simplify_eq/=.
  - rewrite Nat.add_0_r. by rewrite <- app_assoc.
  - rewrite (IH _ _ H). replace (Datatypes.S o + i)%nat with (o + Datatypes.S i)%nat by lia.
    rewrite !app_assoc. apply Permutation_app_tail. apply Permutation_app_comm.
Qed.

Lemma pages_from_pop o ls i bs b : ls !! i = Some (b :: bs) ->
  pages_from o ls ≡ₚ block_pages (o + i) b ++ pages_from o (<[i := bs]> ls).
Proof.
  intros H. assert (Hlt := lookup_lt_Some _ _ _ H).
  rewrite <- (pages_from_push o (<[i := bs]> ls) i bs b).
  - by rewrite list_insert_insert_eq, list_insert_id.
  - by apply list_lookup_insert_eq.
Qed.

Lemma shiftl_1 n : 0 <= n -> Z.shiftl 1 n = 2 ^ n.
Proof. intros Hn. rewrite Z.shiftl_mul_pow2 by done. lia. Qed.

Lemma block_bytes_pow order : 0 <= order -> block_bytes order = 2 ^ order * PAGE_SIZE.
Proof. intros Ho. unfold block_bytes. by rewrite shiftl_1. Qed.

Lemma pow_nat o : Z.of_nat (2 ^ o) = 2 ^ Z.of_nat o.
Proof. by rewrite Nat2Z.inj_pow. Qed.

Definition same_but_blocks (z z' : mm_zone) : Prop := page_count z' = page_count z /\ zlock z' = zlock z.

(** [push_block] and [__get_free_entry] move one block between the free
    pages and the caller. *)
Lemma push_block_spec z o b : length (blocks z) = 16%nat -> (o < 16)%nat -> block_ok o b ->
  (forall o bs b, blocks z !! o = Some bs -> b ∈ bs -> block_ok o b) ->
  exists z', push_block z (Z.of_nat o) b = Ret z' /\ same_but_blocks z z' /\ length (blocks z') = 16%nat /\
    (forall o bs b, blocks z' !! o = Some bs -> b ∈ bs -> block_ok o b) /\
    free_pages z' ≡ₚ block_pages o b ++ free_pages z.
Proof.
  intros Hl Ho Hb Hok. unfold push_block.
  destruct (rd_in (blocks z) (Z.of_nat o)) as (bs & -> & E); [unfold zlen; lia |]. rb.
  rewrite wr_in by (unfold zlen; lia). rb. rewrite Nat2Z.id in *.
  eexists. split; [done |]. split; [done |]. cbn [blocks with_blocks]. split; [by rewrite length_insert |].
  split; [| by apply (pages_from_push 0)].
  intros o' bs' b' [(-> & <- & _) | [_ Hlk]]%list_lookup_insert_Some Hin; [| by eapply Hok].
  apply elem_of_cons in Hin as [-> | Hin]; [done | by eapply Hok].
Qed.

Lemma get_free_entry_spec z o b bs : length (blocks z) = 16%nat -> blocks z !! o = Some (b :: bs) ->
  (forall o bs b, blocks z !! o = Some bs -> b ∈ bs -> block_ok o b) ->
  exists z', __get_free_entry z (Z.of_nat o) = Ret (b, z') /\ same_but_blocks z z' /\
    length (blocks z') = 16%nat /\ block_ok o b /\
    (forall o bs b, blocks z' !! o = Some bs -> b ∈ bs -> block_ok o b) /\
    free_pages z ≡ₚ block_pages o b ++ free_pages z'.
Proof.
  intros Hl E Hok. pose proof (lookup_lt_Some _ _ _ E) as Hlt. unfold __get_free_entry, BUDDY_MAX_ORDER.
  rewrite (proj2 (Z.ltb_lt _ _)) by lia. unfold kassert. rb.
  assert (Er : rd (blocks z) (Z.of_nat o) = Ret (b :: bs)) by (apply rd_Ret; rewrite Nat2Z.id; split; [lia | done]).
  rewrite Er. rb. rewrite wr_in by (unfold zlen; lia). rb. rewrite Nat2Z.id.
  eexists. split; [done |]. split; [done |]. cbn [blocks with_blocks]. split; [by rewrite length_insert |].
  split; [eapply Hok; [exact E | by left] |]. split; [| by apply (pages_from_pop 0)].
  intros o' bs' b' [(-> & <- & _) | [_ Hlk]]%list_lookup_insert_Some Hin; [| by eapply Hok].
  eapply Hok; [exact E | by right].
Qed.

Lemma pages_half a o : pages_of a (2 ^ Datatypes.S o) =
  pages_of a (2 ^ o) ++ pages_of (a + 2 ^ Z.of_nat o * PAGE_SIZE) (2 ^ o).
Proof.
  replace (2 ^ Datatypes.S o)%nat with (2 ^ o + 2 ^ o)%nat by (simpl; lia).
  rewrite pages_of_app, pow_nat. do 2 f_equal. lia.
Qed.

Lemma pow_split o : 2 ^ Z.of_nat (Datatypes.S o) = 2 * 2 ^ Z.of_nat o.
Proof. rewrite Nat2Z.inj_succ, Z.pow_succ_r by lia. done. Qed.

Lemma split_loop_spec d fuel z req a : length (blocks z) = 16%nat ->
  (forall o bs b, blocks z !! o = Some bs -> b ∈ bs -> block_ok o b) ->
  (req + d < 16)%nat -> (d <= fuel)%nat ->
  0 <= a -> a + 2 ^ Z.of_nat (req + d) * PAGE_SIZE < 2 ^ 64 ->
  exists r z', split_loop fuel true z (Z.of_nat req) (Z.of_nat (req + d)) a = Ret (r, z') /\
    same_but_blocks z z' /\ length (blocks z') = 16%nat /\ 0 <= r < 2 ^ 64 - 1 /\
    (forall o bs b, blocks z' !! o = Some bs -> b ∈ bs -> block_ok o b) /\
    pages_of a (2 ^ (req + d)) ++ free_pages z ≡ₚ pages_of r (2 ^ req) ++ free_pages z'.
Proof.
  revert fuel z a. induction d as [| d IH]; intros fuel z a Hl Hok Hd Hf Ha Hb.
  - rewrite Nat.add_0_r in *. assert (0 < 2 ^ Z.of_nat req) by (apply Z.pow_pos_nonneg; lia).
    exists a, z. split; [destruct fuel; cbn [split_loop]; by rewrite Z.eqb_refl |].
    split_and!; try done; unfold PAGE_SIZE in *; lia.
  - destruct fuel as [| fuel]; [lia |]. cbn [split_loop].
    rewrite (proj2 (Z.eqb_neq _ _)) by lia. cbn [negb].
    replace (req + Datatypes.S d)%nat with (Datatypes.S (req + d)) in * by lia.
    rewrite pow_split in Hb. replace (Z.of_nat (Datatypes.S (req + d)) - 1) with (Z.of_nat (req + d)) by lia.
    assert (0 < 2 ^ Z.of_nat (req + d)) by (apply Z.pow_pos_nonneg; lia).
    rewrite shiftl_1 by lia. unfold u64. rewrite !wrap_small by (unfold in_u, PAGE_SIZE in *; lia).
    destruct (push_block_spec z (req + d) (mk_block a (a + 2 ^ Z.of_nat (req + d) * PAGE_SIZE - 1)))
      as (z1 & -> & Hs1 & Hl1 & Hok1 & HP1); [done | lia | | done |].
    { unfold block_ok, PAGE_SIZE in *. simpl. lia. }
    rb. destruct (IH fuel z1 (a + 2 ^ Z.of_nat (req + d) * PAGE_SIZE)) as (r & z' & -> & Hs & Hl' & Hr & Hok' & HP);
      [done | done | lia | lia | unfold PAGE_SIZE in *; lia | unfold PAGE_SIZE in *; lia |].
    exists r, z'. split; [done |]. split; [destruct Hs, Hs1; split; congruence |].
    split_and!; try done; try lia.
    rewrite <- HP, HP1, pages_half. unfold block_pages. simpl. rewrite <- app_assoc.
    rewrite !app_assoc. apply Permutation_app_tail. apply Permutation_app_comm.
Qed.

Lemma zone_wf_lock z z' : same_but_blocks z z' -> length (blocks z') = 16%nat ->
  (forall o bs b, blocks z' !! o = Some bs -> b ∈ bs -> block_ok o b) -> zone_wf (with_lock z' 0).
Proof. by split. Qed.

(** The split keeps every page: the request and the parts left over are
    exactly the block. *)
Lemma split_block_spec z req o b bs : zone_wf z -> (req < o)%nat -> blocks z !! o = Some (b :: bs) ->
  exists r z', __split_block true z (Z.of_nat req) (Z.of_nat o) = Ret (r, z') /\ zone_wf z' /\
    0 <= r < 2 ^ 64 - 1 /\ page_count z' = page_count z /\
    free_pages z ≡ₚ pages_of r (2 ^ req) ++ free_pages z'.
Proof.
  intros [Hlock Hl Hok] Hreq E. pose proof (lookup_lt_Some _ _ _ E) as Hlt. unfold __split_block.
  rewrite (proj2 (Z.eqb_neq (Z.of_nat o) 0)), (proj2 (Z.ltb_lt (Z.of_nat req) BUDDY_MAX_ORDER)) by (unfold BUDDY_MAX_ORDER; lia).
  unfold kassert. cbn [negb andb]. rb. rewrite Hlock, spin_acquire_free. rb.
  destruct (get_free_entry_spec (with_lock z 1) o b bs) as (z1 & -> & [Hc1 Hk1] & Hl1 & (Hb1 & Hb2 & Hb3) & Hok1 & HP1);
    [done .. |]. rb.
  destruct o as [| o]; [lia |]. replace (Z.of_nat (Datatypes.S o) - 1) with (Z.of_nat o) by lia.
  rewrite pow_split in *. assert (0 < 2 ^ Z.of_nat o) by (apply Z.pow_pos_nonneg; lia).
  rewrite shiftl_1 by lia. unfold u64. rewrite !wrap_small by (unfold in_u, PAGE_SIZE in *; lia).
  destruct (push_block_spec z1 o (mk_block (b_start b) (b_end b - 2 ^ Z.of_nat o * PAGE_SIZE)))
    as (z2 & -> & [Hc2 Hk2] & Hl2 & Hok2 & HP2); [done | lia | | done |].
  { unfold block_ok, PAGE_SIZE in *. simpl. lia. }
  rb. replace o with (req + (o - req))%nat by lia.
  destruct (split_loop_spec (o - req) (Z.to_nat BUDDY_MAX_ORDER) z2 req (b_start b + 2 ^ Z.of_nat o * PAGE_SIZE))
    as (r & z3 & Hsl & [Hc3 Hk3] & Hl3 & Hr & Hok3 & HP3);
    [done | done | lia | unfold BUDDY_MAX_ORDER; lia | unfold PAGE_SIZE in *; lia | |].
  { replace (req + (o - req))%nat with o by lia. unfold PAGE_SIZE in *. lia. }
  replace (req + (o - req))%nat with o in * by lia. rewrite Hsl. rb.
  eexists r, _. split; [done |]. split; [by split |]. split; [done |]. cbn [page_count with_lock].
  change (page_count (with_lock z 1)) with (page_count z) in Hc1.
  split; [congruence |].
  change (free_pages (with_lock z3 (spin_release (zlock z3)))) with (free_pages z3).
  change (free_pages (with_lock z 1)) with (free_pages z) in HP1.
  rewrite HP1, <- HP3, HP2. unfold block_pages. rewrite pages_half. cbn [b_start].
  rewrite !app_assoc. apply Permutation_app_tail. apply Permutation_app_comm.
Qed.

Lemma find_order_spec n z o : length (blocks z) = 16%nat -> 16 <= Z.of_nat n + o -> 0 <= o ->
  exists r, find_order n z o = Ret r /\
    match r with
    | None => forall i bs, o <= Z.of_nat i -> blocks z !! i = Some bs -> bs = []
    | Some k => o <= k < 16 /\ exists b bs, blocks z !! Z.to_nat k = Some (b :: bs)
    end.
Proof.
  intros Hl. revert o. induction n as [| n IH]; intros o Hn Ho; cbn [find_order].
  - eexists; split; [done |]. intros i bs Hi Hbs%lookup_lt_Some. lia.
  - unfold BUDDY_MAX_ORDER. destruct (Z.ltb_spec o 16); cbn [negb].
    2:{ eexists; split; [done |]. intros i bs Hi Hbs%lookup_lt_Some. lia. }
    destruct (rd_in (blocks z) o) as (l & -> & E); [unfold zlen; lia |]. rb. destruct l as [| b l].
    + destruct (IH (o + 1)) as (r & -> & Hr); [lia | lia |]. exists r. split; [done |].
      destruct r as [k |]; [destruct Hr as [? ?]; split; [lia | done] |].
      intros i bs Hi Hbs. destruct (Z.eq_dec (Z.of_nat i) o) as [<- |]; [| apply (Hr i); [lia | done]].
      rewrite Nat2Z.id in E. congruence.
    + eexists; split; [done |]. split; [lia | eauto].
Qed.

(** An allocation takes the pages of one block, and only these, out of the
    free pages; it fails only when no block is large enough. *)
Lemma zone_alloc_spec z order : zone_wf z -> 0 <= order < 16 ->
  exists r z', zone_alloc true z order = Ret (r, z') /\ zone_wf z' /\ page_count z' = page_count z /\
    match r with
    | Ok a => 0 <= a < 2 ^ 64 - 1 /\ free_pages z ≡ₚ pages_of a (2 ^ Z.to_nat order) ++ free_pages z'
    | Err e => e = ENOMEM /\ z' = z /\
               forall i bs, order <= Z.of_nat i -> blocks z !! i = Some bs -> bs = []
    end.
Proof.
  intros Hwf Ho. pose proof Hwf as [Hlock Hl Hok]. unfold zone_alloc, alloc_search.
  rewrite Hlock, spin_acquire_free. rb.
  destruct (find_order_spec (Z.to_nat BUDDY_MAX_ORDER) (with_lock z 1) order) as (r & -> & Hr);
    [done | unfold BUDDY_MAX_ORDER; lia | lia |]. rb.
  assert (Hz : with_lock (with_lock z 1) (spin_release (zlock (with_lock z 1))) = z) by (destruct z; cbn in Hlock; by subst).
  destruct r as [k |].
  - destruct Hr as [Hk (b & bs & E)]. destruct (Z.eqb_spec k order) as [-> | Hne].
    + destruct (get_free_entry_spec (with_lock z 1) (Z.to_nat order) b bs) as (z1 & Hg & Hs & Hl1 & Hb & Hok1 & HP);
        [done .. |]. rewrite Z2Nat.id in Hg by lia. rewrite Hg. rb. rb.
      eexists _, _. split; [done |]. split; [by split |]. split; [apply Hs |].
      split; [| exact HP]. destruct Hb as (? & ? & ?). 
      assert (0 < 2 ^ Z.of_nat (Z.to_nat order)) by (apply Z.pow_pos_nonneg; lia).
      unfold PAGE_SIZE in *. lia.
    + rewrite Hz. rb.
      destruct (split_block_spec z (Z.to_nat order) (Z.to_nat k) b bs) as (r & z' & Hs & Hwf' & Hr & Hc & HP);
        [done | lia | done |]. rewrite !Z2Nat.id in Hs by lia. rewrite Hs. rb.
      by eexists _, _.
  - rewrite Hz. rb. eexists _, z. split; [done |]. by split_and!.
Qed.

Lemma zone_add_block_spec z a order : zone_wf z -> 0 <= order < 16 -> 0 <= a -> a + block_bytes order < 2 ^ 64 ->
  exists z', __zone_add_block true z a order = Ret (0, z') /\ zone_wf z' /\
    page_count z' = u64 (page_count z + 2 ^ order) /\
    free_pages z' ≡ₚ pages_of a (2 ^ Z.to_nat order) ++ free_pages z.
Proof.
  intros [Hlock Hl Hok] Ho Ha Hb. rewrite block_bytes_pow in Hb by lia. unfold __zone_add_block. cbn [negb].
  rewrite Hlock, spin_acquire_free. rb. rewrite block_bytes_pow, shiftl_1 by lia.
  assert (0 < 2 ^ order) by (apply Z.pow_pos_nonneg; lia).
  replace (u64 (a + 2 ^ order * PAGE_SIZE - 1)) with (a + 2 ^ order * PAGE_SIZE - 1)
    by (symmetry; apply wrap_small; unfold in_u, PAGE_SIZE in *; lia).
  destruct (push_block_spec (with_lock z 1) (Z.to_nat order) (mk_block a (a + 2 ^ order * PAGE_SIZE - 1)))
    as (z1 & Hp & [Hc1 Hk1] & Hl1 & Hok1 & HP1); [done | lia | | done |].
  { unfold block_ok. cbn [b_start b_end]. rewrite Z2Nat.id by lia. lia. }
  rewrite Z2Nat.id in Hp by lia. rewrite Hp. rb. eexists. split; [done |].
  split; [by split |]. cbn [page_count with_lock].
  change (page_count (with_lock z 1)) with (page_count z) in Hc1. rewrite Hc1. done.
Qed.

(** ** The page array *)

Lemma array_loop_spec n pa pfn i t o : 0 <= pfn -> 0 <= i -> pfn + i + Z.of_nat n <= zlen pa -> zlen pa < 2 ^ 32 ->
  exists pa', array_loop n pa pfn i t o = Ret pa' /\ length pa' = length pa /\
    forall k, pa' !! k = if decide (pfn + i <= Z.of_nat k < pfn + i + Z.of_nat n)
                         then Some (mk_page t o 0) else pa !! k.
Proof.
  revert pa i. induction n as [| n IH]; intros pa i Hp Hi Hb Hmax; cbn [array_loop].
  - exists pa. split; [done |]. split; [done |]. intros k. case_decide; [lia | done].
  - unfold u32. rewrite wrap_small by (unfold in_u; lia). rewrite wr_in by lia. rb.
    destruct (IH (<[Z.to_nat (pfn + i) := mk_page t o 0]> pa) (i + 1)) as (pa' & -> & Hl & Hk);
      [lia | lia | unfold zlen in *; rewrite length_insert; lia | unfold zlen in *; by rewrite length_insert |].
    exists pa'. rewrite length_insert in Hl. split; [done |]. split; [done |]. intros k. rewrite Hk.
    destruct (decide (Z.of_nat k = pfn + i)) as [E |].
    + replace (Z.to_nat (pfn + i)) with k by lia. rewrite list_lookup_insert_eq by (unfold zlen in *; lia).
      repeat case_decide; lia || done.
    + rewrite list_lookup_insert_ne by lia. repeat case_decide; lia || done.
Qed.

(** The entries of a block after it was marked. *)
Definition marked (pa pa' : list page) (t a order : Z) : Prop :=
  length pa' = length pa /\
  forall k, pa' !! k =
    if decide (a / PAGE_SIZE <= Z.of_nat k < a / PAGE_SIZE + 2 ^ order)
    then Some (mk_page t order (if decide (Z.of_nat k = a / PAGE_SIZE) then 1 else 0)) else pa !! k.

Lemma page_array_add_block_spec pa t a order : 0 <= t < 4 -> 0 <= order < 16 -> 0 <= a ->
  a / PAGE_SIZE + 2 ^ order <= zlen pa -> zlen pa < 2 ^ 32 ->
  exists pa', __page_array_add_block pa t a order = Ret pa' /\ marked pa pa' t a order.
Proof.
  intros Ht Ho Ha Hb Hmax. unfold __page_array_add_block.
  assert (0 < 2 ^ order) by (apply Z.pow_pos_nonneg; lia).
  rewrite Z.shiftr_div_pow2 by (unfold PAGE_SHIFT; lia). change (2 ^ PAGE_SHIFT) with PAGE_SIZE.
  assert (0 <= a / PAGE_SIZE) by (by apply Z.div_pos).
  rewrite (wrap_small 2 t) by (unfold in_u; lia). rewrite (wrap_small 5 order) by (unfold in_u; lia).
  unfold u32. rewrite wrap_small by (unfold in_u; lia). rewrite shiftl_1 by lia.
  rewrite wr_in by lia. rb.
  destruct (array_loop_spec (Z.to_nat (2 ^ order - 1)) (<[Z.to_nat (a / PAGE_SIZE) := mk_page t order 1]> pa)
              (a / PAGE_SIZE) 1 t order) as (pa' & -> & Hl & Hk);
    [done | lia | unfold zlen in *; rewrite length_insert; lia | unfold zlen in *; by rewrite length_insert |].
  exists pa'. rewrite length_insert in Hl. split; [done |]. split; [done |]. intros k. rewrite Hk.
  destruct (decide (Z.of_nat k = a / PAGE_SIZE)) as [E |].
  - replace (Z.to_nat (a / PAGE_SIZE)) with k by lia. rewrite list_lookup_insert_eq by (unfold zlen in *; lia).
    repeat case_decide; lia || done.
  - rewrite list_lookup_insert_ne by lia. repeat case_decide; lia || done.
Qed.

(** ** The interface *)

(** Every free page of the zone has an entry in the page array. *)
Definition covered (s : state) (z : mm_zone) : Prop :=
  zlen (page_array s) < 2 ^ 32 /\ forall p, p ∈ free_pages z -> 0 <= p /\ p / PAGE_SIZE < zlen (page_array s).

Lemma covered_block s z a order l : 0 <= order -> 0 <= a -> covered s z -> 
  free_pages z ≡ₚ pages_of a (2 ^ Z.to_nat order) ++ l -> a / PAGE_SIZE + 2 ^ order <= zlen (page_array s).
Proof.
  intros Ho Ha [_ Hc] HP. assert (0 < 2 ^ order) by (apply Z.pow_pos_nonneg; lia).
  destruct (Hc (a + PAGE_SIZE * (2 ^ order - 1))) as [_ Hlast].
  - rewrite HP, elem_of_app. left. apply elem_of_pages_of. exists (2 ^ Z.to_nat order - 1)%nat.
    assert (E : Z.of_nat (2 ^ Z.to_nat order) = 2 ^ order) by (rewrite pow_nat, Z2Nat.id by lia; done).
    split; [lia |]. rewrite Nat2Z.inj_sub, E by lia. done.
  - replace (a + PAGE_SIZE * (2 ^ order - 1)) with (a + (2 ^ order - 1) * PAGE_SIZE) in Hlast by lia.
    rewrite Z.div_add in Hlast by done. lia.
Qed.

(** What one allocation may do. *)
Lemma block_alloc_spec (s : state) (order : Z) :
  zone_wf (zone_normal s) -> covered s (zone_normal s) -> 0 <= order < 16 ->
  (mmu_block_alloc true s MM_ZONE_NORMAL order = Halt /\
     forall i bs, order <= Z.of_nat i -> blocks (zone_normal s) !! i = Some bs -> bs = []) \/
  exists a s', mmu_block_alloc true s MM_ZONE_NORMAL order = Ret (a, s') /\
    zone_wf (zone_normal s') /\ covered s' (zone_normal s') /\
    zone_dma s' = zone_dma s /\ zone_high s' = zone_high s /\
    free_pages (zone_normal s) ≡ₚ pages_of a (2 ^ Z.to_nat order) ++ free_pages (zone_normal s') /\
    (NoDup (free_pages (zone_normal s)) ->
       NoDup (free_pages (zone_normal s')) /\
       forall p, p ∈ pages_of a (2 ^ Z.to_nat order) -> p ∉ free_pages (zone_normal s')) /\
    marked (page_array s) (page_array s') MM_PT_IN_USE a order.
Proof.
  intros Hwf Hcov Ho. unfold mmu_block_alloc, __alloc_mem.
  change (kassert (MM_ZONE_NORMAL =? MM_ZONE_NORMAL)) with (Ret tt). rb.
  rewrite (proj2 (Z.ltb_ge BUDDY_MAX_ORDER order)) by (unfold BUDDY_MAX_ORDER; lia).
  change (negb (Z.land MM_ZONE_NORMAL (Z.lnot (Z.lor MM_ZONE_DMA (Z.lor MM_ZONE_NORMAL MM_ZONE_HIGH))) =? 0)) with false.
  change (negb (Z.land MM_ZONE_NORMAL MM_ZONE_NORMAL =? 0)) with true. cbn [orb get_zone].
  destruct (zone_alloc_spec (zone_normal s) order Hwf Ho) as (r & z' & -> & Hwf' & _ & Hr). rb. rb.
  destruct r as [a | e]; [right | left; destruct Hr as (_ & _ & Hr); done].
  destruct Hr as [Ha HP]. rewrite (proj2 (Z.eqb_neq a INVALID_ADDRESS)) by (unfold INVALID_ADDRESS, ULONG_MAX; lia).
  destruct (page_array_add_block_spec (page_array s) MM_PT_IN_USE a order) as (pa & E & Hm);
    [done | done | lia | eapply covered_block; [lia | lia | done | exact HP] | apply Hcov |].
  cbn [set_zone page_array]. rewrite E. rb. eexists a, _. split; [done |]. cbn [set_array set_zone zone_normal zone_dma zone_high page_array].
  split_and!; try done.
  - destruct Hcov as [Hmax Hc], Hm as [Hlen _]. unfold covered, zlen in *. cbn [page_array set_array set_zone zone_normal]. rewrite Hlen.
    split; [done |]. intros p Hp. apply Hc. rewrite HP. apply elem_of_app. by right.
  - rewrite HP, NoDup_app. intros (_ & Hd & Hn). split; [done |]. intros p Hp. by apply Hd.
Qed.


(** The normal zone as a source of pages. *)
Definition source_ok (s : state) : Prop :=
  zone_wf (zone_normal s) /\ covered s (zone_normal s).

Lemma source_law s order a s' : source_ok s -> 0 <= order < 16 ->
  mmu_block_alloc true s MM_ZONE_NORMAL order = Ret (a, s') ->
  source_ok s' /\ 0 <= a /\
  free_pages (zone_normal s) ≡ₚ pages_of a (2 ^ Z.to_nat order) ++ free_pages (zone_normal s').
Proof.
  intros [Hwf Hcov] Ho E.
  destruct (block_alloc_spec s order Hwf Hcov Ho) as [[E' _] | (a' & s2 & E' & Hwf' & Hcov' & _ & _ & HP & _)];
    rewrite E in E'; [done |]. injection E' as <- <-. split; [done |]. split; [| done].
  destruct Hcov as [_ Hc]. apply (Hc a). rewrite HP. apply elem_of_app. left. apply elem_of_pages_of.
  exists 0%nat. split; [| lia]. apply Nat.neq_0_lt_0, Nat.pow_nonzero. lia.
Qed.

#[export] Instance page_alloc_source : PageSource state := {
  src_alloc s order := mmu_block_alloc true s MM_ZONE_NORMAL order;
  src_avail s := free_pages (zone_normal s);
  src_ok := source_ok;
  src_alloc_law := source_law
}.

(** A zone of one free block of order 1 (two pages) at 16 MB, and a page array of
    8192 entries. *)
Definition small_zone : mm_zone :=
  mk_zone 2 0 ([] :: [mk_block 0x1000000 0x1001fff] :: replicate 14 []).
Definition no_zone : mm_zone := mk_zone 0 0 (replicate 16 []).
Definition small_state : state := mk_state no_zone small_zone no_zone (repeat (mk_page 1 0 0) 8192).

Lemma small_zone_wf : zone_wf small_zone.
Proof.
  split; [done | done |]. intros o bs b Hbs Hb. destruct o as [| [| o]].
  - injection Hbs as <-. by apply elem_of_nil in Hb.
  - injection Hbs as <-. apply list_elem_of_singleton in Hb as ->. unfold block_ok, PAGE_SIZE. simpl. lia.
  - apply (lookup_replicate 14) in Hbs as [-> _]. by apply elem_of_nil in Hb.
Qed.

Lemma small_covered : covered small_state (zone_normal small_state).
Proof.
  split; [by vm_compute |]. intros p Hp.
  assert (Hf : Forall (fun p => 0 <= p /\ p / PAGE_SIZE < 8192) (free_pages small_zone)).
  { refine (bool_decide_eq_true_1 _ _). vm_compute. reflexivity. }
  assert (E : zlen (page_array small_state) = 8192) by (vm_compute; reflexivity).
  rewrite E. exact (proj1 (Forall_forall _ _) Hf p Hp).
Qed.



Lemma no_zone_wf : zone_wf no_zone.
Proof.
  split; [done | done |]. intros o bs b Hbs Hb. apply lookup_replicate in Hbs as [-> _]. by apply elem_of_nil in Hb.
Qed.


(** The lock is released between the search and the split: when another
    CPU takes the only free block of the order in between, the split
    dereferences the null head of an empty list. *)
Theorem alloc_search_split_race (z : mm_zone) (order o : Z) (b : mm_block) :
  zone_wf z -> 0 <= order < o -> o < 16 ->
  blocks z !! Z.to_nat o = Some [b] ->
  (forall i bs, order <= Z.of_nat i -> i <> Z.to_nat o -> blocks z !! i = Some bs -> bs = []) ->
  exists z1 z2 a,
    alloc_search z order = Ret (inr (Some o), z1) /\   (* CPU 0, up to the release *)
    zone_alloc true z1 o = Ret (Ok a, z2) /\           (* CPU 1, a whole allocation *)
    __split_block true z2 order o = Fault.             (* CPU 0 again *)
Proof.
  intros Hwf Ho Ho16 Hb Hempty. pose proof Hwf as [Hlock Hl Hok].
  assert (Hz : with_lock (with_lock z 1) (spin_release (zlock (with_lock z 1))) = z).
  { destruct z. cbn in Hlock. by subst. }
  assert (Hfind : forall k, order <= k <= o -> find_order (Z.to_nat BUDDY_MAX_ORDER) (with_lock z 1) k = Ret (Some o)).
  { intros k Hk. destruct (find_order_spec (Z.to_nat BUDDY_MAX_ORDER) (with_lock z 1) k) as (r & -> & Hr);
      [done | unfold BUDDY_MAX_ORDER; lia | lia |].
    destruct r as [k2 |]; [| discriminate (Hr (Z.to_nat o) [b] ltac:(lia) Hb)].
    destruct Hr as [Hk2 (b2 & bs2 & Hk3)]. destruct (Z.eq_dec k2 o) as [-> |]; [done |].
    discriminate (Hempty (Z.to_nat k2) _ ltac:(lia) ltac:(lia) Hk3). }
  assert (Hget : forall z', blocks z' !! Z.to_nat o = Some [b] -> length (blocks z') = 16%nat ->
    __get_free_entry z' o = Ret (b, with_blocks z' (<[Z.to_nat o := []]> (blocks z')))).
  { intros z' Hb' Hl'. unfold __get_free_entry. rewrite (proj2 (Z.ltb_lt o BUDDY_MAX_ORDER)) by (unfold BUDDY_MAX_ORDER; lia).
    unfold kassert. rb. assert (Hrd : rd (blocks z') o = Ret [b]) by (apply rd_Ret; split; [lia | done]).
    rewrite Hrd. rb. rewrite wr_in by (unfold zlen; lia). done. }
  set (z2 := with_lock (with_blocks (with_lock z 1) (<[Z.to_nat o := []]> (blocks z))) 0).
  exists z, z2, (b_start b). split_and!.
  - unfold alloc_search. rewrite Hlock, spin_acquire_free. rb. rewrite Hfind by lia. rb.
    by rewrite (proj2 (Z.eqb_neq o order)), Hz by lia.
  - unfold zone_alloc, alloc_search. rewrite Hlock, spin_acquire_free. rb. rewrite Hfind by lia. rb.
    by rewrite Z.eqb_refl, Hget.
  - unfold __split_block.
    rewrite (proj2 (Z.eqb_neq o 0)), (proj2 (Z.ltb_lt order BUDDY_MAX_ORDER)) by (unfold BUDDY_MAX_ORDER; lia).
    unfold kassert at 1. cbn [andb negb]. rb. change (zlock z2) with 0. rewrite spin_acquire_free. rb.
    unfold __get_free_entry. rewrite (proj2 (Z.ltb_lt o BUDDY_MAX_ORDER)) by (unfold BUDDY_MAX_ORDER; lia).
    unfold kassert. rb.
    assert (Hrd : rd (blocks (with_lock z2 1)) o = Ret []).
    { apply rd_Ret. split; [lia |]. cbn. apply list_lookup_insert_eq. lia. }
    by rewrite Hrd.
Qed.

Lemma alloc_search_split_race_witness :
  exists z1 z2, alloc_search small_zone 0 = Ret (inr (Some 1), z1) /\ __split_block true z2 0 1 = Fault.
Proof.
  destruct (alloc_search_split_race small_zone 0 1 (mk_block 0x1000000 0x1001fff) small_zone_wf)
    as (z1 & z2 & a & E1 & _ & E3); [done | done | done | |].
  - intros i bs _ Hi Hbs. destruct i as [| [| i]]; [by injection Hbs | by destruct Hi |].
    by apply (lookup_replicate 14) in Hbs as [-> _].
  - exists z1, z2. split; [exact E1 | exact E3].
Defined.

(** ** Claiming a range *)

Definition claimed (i : zone_id) (s s' : state) (pages : list Z) : Prop :=
  zone_wf (get_zone s' i) /\ (forall j, j <> i -> get_zone s' j = get_zone s j) /\
  page_array s' = page_array s /\
  free_pages (get_zone s' i) ≡ₚ pages ++ free_pages (get_zone s i).

Lemma claimed_nil i s : zone_wf (get_zone s i) -> claimed i s s [].
Proof. intros Hwf. split; [done |]. split; [done |]. split; done. Qed.

Lemma claimed_trans i s s1 s2 l1 l2 : claimed i s s1 l1 -> claimed i s1 s2 l2 -> claimed i s s2 (l1 ++ l2).
Proof.
  intros (W1 & O1 & A1 & P1) (W2 & O2 & A2 & P2). split; [done |]. split; [intros j Hj; by rewrite O2, O1 |].
  split; [congruence |]. rewrite P2, P1, !app_assoc. apply Permutation_app_tail, Permutation_app_comm.
Qed.

Lemma claim_into_spec i s a o : zone_wf (get_zone s i) -> (o < 16)%nat -> 0 <= a ->
  a + block_bytes (Z.of_nat o) < 2 ^ 64 ->
  exists s', claim_into true i s a (Z.of_nat o) = Ret s' /\ claimed i s s' (pages_of a (2 ^ o)).
Proof.
  intros Hwf Ho Ha Hb. unfold claim_into.
  destruct (zone_add_block_spec (get_zone s i) a (Z.of_nat o)) as (z' & -> & Hwf' & _ & HP); [done | lia | done | done |].
  rb. eexists. split; [done |]. rewrite Nat2Z.id in HP.
  assert (E : get_zone (set_zone s i z') i = z') by (by destruct i). unfold claimed. rewrite E.
  split_and!; [done | intros j Hj; by destruct i, j | by destruct i | done].
Qed.

Lemma block_bytes_S o : block_bytes (Z.of_nat (S o)) = 2 * block_bytes (Z.of_nat o).
Proof. rewrite !block_bytes_pow, pow_split by lia. lia. Qed.

Lemma block_bytes_pos o : 0 < block_bytes (Z.of_nat o).
Proof.
  rewrite block_bytes_pow by lia. assert (0 < 2 ^ Z.of_nat o) by (apply Z.pow_pos_nonneg; lia).
  unfold PAGE_SIZE. lia.
Qed.

(** A range shorter than two blocks of the current order is cut into blocks
    that cover exactly its pages. *)
Lemma claim_orders_tile i o n s a : zone_wf (get_zone s i) -> (o < 16)%nat -> 0 <= a ->
  PAGE_SIZE * Z.of_nat n < 2 * block_bytes (Z.of_nat o) -> a + PAGE_SIZE * Z.of_nat n < 2 ^ 64 ->
  exists s', claim_orders (claim_into true i) o s a (PAGE_SIZE * Z.of_nat n) = Ret s' /\
    claimed i s s' (pages_of a n).
Proof.
  revert n s a. induction o as [| o IH]; intros n s a Hwf Ho Ha Hlt Hmax; cbn [claim_orders].
  - change (block_bytes (Z.of_nat 0)) with PAGE_SIZE in *.
    replace (PAGE_SIZE * Z.of_nat n / PAGE_SIZE) with (Z.of_nat n)
      by (rewrite Z.mul_comm, Z.div_mul by done; done).
    assert (n = 0 \/ n = 1)%nat as [-> | ->] by (unfold PAGE_SIZE in *; lia).
    + eexists; split; [done | by apply claimed_nil].
    + change (Z.to_nat (Z.of_nat 1)) with 1%nat. cbn [claim_blocks].
      destruct (claim_into_spec i s a 0 Hwf) as (s' & -> & Hc); [lia | done | done |].
      rb. rb. by exists s'.
  - set (size := block_bytes (Z.of_nat (S o))) in *. set (len := PAGE_SIZE * Z.of_nat n) in *.
    pose proof (block_bytes_pos o) as Hpos. pose proof (block_bytes_S o) as HS. fold size in HS.
    assert (Hsize : size = PAGE_SIZE * Z.of_nat (2 ^ S o)).
    { unfold size. rewrite block_bytes_pow, pow_nat by lia. lia. }
    destruct (Z.lt_ge_cases len size) as [Hs | Hs].
    + rewrite Z.div_small by (unfold len, PAGE_SIZE in *; lia). change (Z.to_nat 0) with 0%nat. cbn [claim_blocks]. rb.
      rewrite Z.mod_small by (unfold len, PAGE_SIZE in *; lia). apply IH; [done | lia | done | lia | done].
    + assert (Hq : len / size = 1) by (symmetry; apply (Z.div_unique _ _ _ (len - size)); lia).
      assert (Hm : len mod size = len - size) by (symmetry; apply (Z.mod_unique _ _ 1); lia).
      rewrite Hq, Hm. change (Z.to_nat 1) with 1%nat. cbn [claim_blocks].
      destruct (claim_into_spec i s a (S o) Hwf) as (s1 & -> & Hc1); [lia | done | fold size; lia |].
      rb. rb. unfold u64. rewrite wrap_small by (unfold in_u; lia).
      assert (Hn : (2 ^ S o <= n)%nat) by (unfold len, PAGE_SIZE in *; lia).
      assert (Hlen : len - size = PAGE_SIZE * Z.of_nat (n - 2 ^ S o)).
      { rewrite Hsize, Nat2Z.inj_sub by done. unfold len. lia. }
      rewrite Hlen. destruct (IH (n - 2 ^ S o)%nat s1 (a + (0 + 1) * size)) as (s2 & -> & Hc2);
        [apply Hc1 | lia | lia | lia | lia |].
      exists s2. split; [done |]. pose proof (claimed_trans _ _ _ _ _ _ Hc1 Hc2) as Hc.
      replace n with (2 ^ S o + (n - 2 ^ S o))%nat at 1 by lia. rewrite pages_of_app, <- Hsize.
      by replace (a + size) with (a + (0 + 1) * size) by lia.
Qed.

(** The bytes of the largest block: 128 MB. *)
Definition TOP_BLOCK : Z := 2 ^ 27.

(** Claiming a page-aligned range adds exactly its pages to the zone
    when it is shorter than two blocks of the largest order.  A range of two
    such blocks and a rest gets the rest wrong: the start moves by
    [(b + 1)] blocks for the [b]-th one, so the pages after the first two
    blocks are lost and as many pages one block further, past the end of
    the range, are added instead. *)
Theorem claim_range_pages (i : zone_id) (s : state) (a : Z) (n : nat) :
  zone_wf (get_zone s i) -> 0 <= a -> a + PAGE_SIZE * Z.of_nat n + TOP_BLOCK < 2 ^ 64 ->
  (PAGE_SIZE * Z.of_nat n < 2 * TOP_BLOCK ->
   exists s', __claim_range (claim_into true i) s a (a + PAGE_SIZE * Z.of_nat n) = Ret s' /\
     claimed i s s' (pages_of a n)) /\
  (2 * TOP_BLOCK <= PAGE_SIZE * Z.of_nat n < 3 * TOP_BLOCK ->
   exists s', __claim_range (claim_into true i) s a (a + PAGE_SIZE * Z.of_nat n) = Ret s' /\
     claimed i s s' (pages_of a (2 * 2 ^ 15) ++ pages_of (a + 3 * TOP_BLOCK) (n - 2 * 2 ^ 15))).
Proof.
  intros Hwf Ha Hmax. unfold __claim_range, TOP_BLOCK in *.
  replace (a + PAGE_SIZE * Z.of_nat n - a) with (PAGE_SIZE * Z.of_nat n) by lia.
  unfold u64. rewrite wrap_small by (unfold in_u, PAGE_SIZE in *; lia).
  change (Z.to_nat (BUDDY_MAX_ORDER - 1)) with 15%nat.
  assert (Hbb : block_bytes (Z.of_nat 15) = 2 ^ 27) by done. split.
  - intros Hlt. destruct (Z.ltb_spec (PAGE_SIZE * Z.of_nat n) PAGE_SIZE).
    + assert (n = 0%nat) as -> by (unfold PAGE_SIZE in *; lia). exists s. split; [done | by apply claimed_nil].
    + apply claim_orders_tile; [done | lia | done | rewrite Hbb; lia | lia].
  - intros Hlt. rewrite (proj2 (Z.ltb_ge _ _)) by (unfold PAGE_SIZE in *; lia).
    remember 15%nat as o eqn:Ho. destruct o as [| o]; [lia |]. cbn [claim_orders]. rewrite Hbb.
    set (len := PAGE_SIZE * Z.of_nat n) in *.
    assert (Hq : len / 2 ^ 27 = 2) by (symmetry; apply (Z.div_unique _ _ _ (len - 2 * 2 ^ 27)); lia).
    assert (Hm : len mod 2 ^ 27 = len - 2 * 2 ^ 27) by (symmetry; apply (Z.mod_unique _ _ 2); lia).
    rewrite Hq, Hm. change (Z.to_nat 2) with 2%nat. cbn [claim_blocks].
    destruct (claim_into_spec i s a (S o) Hwf) as (s1 & -> & Hc1); [lia | done | rewrite Hbb; lia |]. rb.
    replace (u64 (a + (0 + 1) * 2 ^ 27)) with (a + 2 ^ 27) by (symmetry; apply wrap_small; unfold in_u; lia).
    destruct (claim_into_spec i s1 (a + 2 ^ 27) (S o)) as (s2 & -> & Hc2); [apply Hc1 | lia | lia | rewrite Hbb; lia |].
    rb. rb. replace (u64 (a + 2 ^ 27 + (0 + 1 + 1) * 2 ^ 27)) with (a + 3 * 2 ^ 27)
      by (symmetry; unfold u64; rewrite wrap_small; unfold in_u; lia).
    assert (Hlen : len - 2 * 2 ^ 27 = PAGE_SIZE * Z.of_nat (n - 2 * 2 ^ S o)).
    { assert (E15 : Z.of_nat (2 * 2 ^ S o) = 2 * 2 ^ 15) by (rewrite Nat2Z.inj_mul, pow_nat, Ho; done).
      rewrite Nat2Z.inj_sub, E15; [unfold len, PAGE_SIZE; lia |].
      apply Nat2Z.inj_le. rewrite E15. unfold len, PAGE_SIZE in *. lia. }
    rewrite Hlen. destruct (claim_orders_tile i o (n - 2 * 2 ^ S o) s2 (a + 3 * 2 ^ 27)) as (s3 & -> & Hc3);
      [apply Hc2 | lia | lia | | lia |].
    { rewrite <- Hlen, <- block_bytes_S, Hbb. lia. }
    exists s3. split; [done |].
    replace (2 * 2 ^ S o)%nat with (2 ^ S o + 2 ^ S o)%nat at 1 by lia. rewrite pages_of_app, pow_nat.
    replace (PAGE_SIZE * 2 ^ Z.of_nat (S o)) with (2 ^ 27) by (rewrite Ho; done).
    exact (claimed_trans _ _ _ _ _ _ (claimed_trans _ _ _ _ _ _ Hc1 Hc2) Hc3).
Qed.

Lemma claim_range_pages_witness :
  exists s', __claim_range (claim_into true Normal) small_state 0x2000000 (0x2000000 + PAGE_SIZE * Z.of_nat (2 * 2 ^ 15 + 1)) = Ret s' /\
    claimed Normal small_state s' (pages_of 0x2000000 (2 * 2 ^ 15) ++ pages_of (0x2000000 + 3 * TOP_BLOCK) 1).
Proof.
  destruct (claim_range_pages Normal small_state 0x2000000 (2 * 2 ^ 15 + 1) small_zone_wf) as [_ H];
    [discriminate | reflexivity |].
  replace (2 * 2 ^ 15 + 1 - 2 * 2 ^ 15)%nat with 1%nat in H by lia.
  apply H. split; [discriminate | reflexivity].
Defined.

End PageAlloc.
