(* ===== verification/Slab.v ===== *)
(** * Slab caches (mm/slab.c)

    A cache cuts pages into items of one size.  The linked lists are Rocq
    lists with the element [list_append] puts second (after the head it is
    given) in second place; pages come from any [PageSource]; [kmalloc] and
    [kzalloc] always give the small descriptors (Heap panics otherwise). *)

From S2P Require Import Prelude Common Locks Bitmap Bootmem Memory PageAlloc.
Import Common Locks Memory.

Module Slab.

Definition MM_ZERO : Z := 1.
Definition C_FORCE_SPATIAL : Z := 0.

(** [cfe_t]: a page and how far it has been cut. *)
Record cache_fixed_entry := mk_cfe { num_free : Z; next_free : Z; fmem : Z }.

Record mm_cache := mk_cache {
  item_size : Z;
  capacity : Z;
  lock : Z;
  free_list : option cache_fixed_entry;
  used_list : list cache_fixed_entry;
  free_chunks : list Z
}.

Section slab.
Context {S : Type} `{PageSource S}.

(** The static variables: the free pages, the lock of
    [alloc_fixed_entry], and the page allocator behind them. *)
Record slab := mk_slab { free_pages : list cache_fixed_entry; fe_lock : Z; src : S }.

Definition alloc_fixed_entry (st : slab) (size : Z) : out (cache_fixed_entry * slab) :=
  l ← spin_acquire (fe_lock st);
  match free_pages st with
  | e :: es =>
      mret (mk_cfe (u64 (PAGE_SIZE / size - 1)) (next_free e) (fmem e), mk_slab es (spin_release l) (src st))
  | [] =>
      '(mem, s) ← src_alloc (src st) 0;
      _ ← kassert (negb (mem =? INVALID_ADDRESS));
      let mem_v := mmu_p_to_v mem in
      mret (mk_cfe (u64 (PAGE_SIZE / size - 1)) mem_v mem_v, mk_slab [] (spin_release l) s)
  end.

(** Two boot pages; the result of the boot allocator is not tested. *)
Fixpoint preinit_loop (n : nat) (mi : Bootmem.mem_info) (l : list cache_fixed_entry) :
    out (Bootmem.mem_info * list cache_fixed_entry) :=
  match n with
  | O => mret (mi, l)
  | Datatypes.S n =>
      '(mem, mi) ← Bootmem.mmu_bootmem_alloc_page mi;
      preinit_loop n mi (mk_cfe PAGE_SIZE (mmu_p_to_v mem) (mmu_p_to_v mem) :: l)
  end.

Definition mmu_slab_preinit (mi : Bootmem.mem_info) (st : slab) : out (Z * Bootmem.mem_info * slab) :=
  '(mi, l) ← preinit_loop 2 mi [];
  mret (0, mi, mk_slab l (fe_lock st) (src st)).

Fixpoint init_loop (n : nat) (s : S) (l : list cache_fixed_entry) : out (Z * S * list cache_fixed_entry) :=
  match n with
  | O => mret (0, s, l)
  | Datatypes.S n =>
      '(mem, s) ← src_alloc s 0;
      if mem =? INVALID_ADDRESS then mret (- ENOMEM, s, l)
      else init_loop n s (mk_cfe PAGE_SIZE (mmu_p_to_v mem) (mmu_p_to_v mem) :: l)
  end.

Definition mmu_slab_init (st : slab) : out (Z * slab) :=
  '(r, s, l) ← init_loop 20 (src st) [];
  mret (r, mk_slab l (fe_lock st) s).

Definition mmu_cache_create (st : slab) (size : Z) : out (res mm_cache * slab) :=
  if (PAGE_SIZE <? size) || (size =? 0) then mret (Err EINVAL, st)
  else
    let isize := MULTIPLE_OF_2 size in
    '(e, st) ← alloc_fixed_entry st isize;
    mret (Ok (mk_cache isize (PAGE_SIZE / isize) 0 (Some e) [] []), st).

Definition mmu_cache_destroy (c : option mm_cache) : Z :=
  match c with
  | None => - EINVAL
  | Some c => match used_list c with [] => 0 | _ => - EBUSY end
  end.

(** [list_append] on a list whose head is given: null starts the list. *)
Definition append_head {A} (l : list A) (x : A) : list A :=
  match l with [] => [x] | h :: t => h :: x :: t end.

(** Cutting the next item from the current page of the cache; [l] is the
    lock it holds. *)
Definition alloc_spatial (c : mm_cache) (l : Z) (st : slab) (flags : Z) :
    out (res (Z * bool) * option mm_cache * slab) :=
  '(e, cap, st) ←
    match free_list c with
    | Some e => mret (e, capacity c, st)
    | None => '(e, st) ← alloc_fixed_entry st (item_size c);
              mret (e, u64 (capacity c + PAGE_SIZE / item_size c), st)
    end;
  let ret := next_free e in
  let left := u64 (num_free e - 1) in
  let c' :=
    if num_free e =? 0
    then mk_cache (item_size c) cap (spin_release l) None
           (append_head (used_list c) (mk_cfe left ret (fmem e))) (free_chunks c)
    else mk_cache (item_size c) cap (spin_release l)
           (Some (mk_cfe left (u64 (ret + item_size c)) (fmem e))) (used_list c) (free_chunks c) in
  mret (Ok (ret, negb (Z.land flags MM_ZERO =? 0)), Some c', st).

(** The result is the entry and whether it was cleared. *)
Definition mmu_cache_alloc_entry (c : option mm_cache) (st : slab) (flags : Z) :
    out (res (Z * bool) * option mm_cache * slab) :=
  match c with
  | None => mret (Err EINVAL, None, st)
  | Some c =>
      l ← spin_acquire (lock c);
      match free_chunks c with
      | ret :: chunks =>
          if Z.land flags C_FORCE_SPATIAL =? 0 then
            mret (Ok (ret, false),
                  Some (mk_cache (item_size c) (capacity c) (spin_release l) (free_list c) (used_list c) chunks), st)
          else alloc_spatial c l st flags
      | [] => alloc_spatial c l st flags
      end
  end.

Definition mmu_cache_free_entry (c : option mm_cache) (entry : Z) : Z * option mm_cache :=
  match c with
  | None => (- EINVAL, None)
  | Some c' =>
      if entry =? 0 then (- EINVAL, c)
      else (0, Some (mk_cache (item_size c') (capacity c') (spin_release (spin_release (lock c')))
                       (free_list c') (used_list c') (append_head (free_chunks c') entry)))
  end.

(** ** The items a cache has handed out *)

Definition per_page (c : mm_cache) : Z := PAGE_SIZE / item_size c.

(** [x] is an item already cut from a page of the cache. *)
Definition cut (c : mm_cache) (x : Z) : Prop :=
  exists e i, 0 <= i < per_page c /\ x = fmem e + item_size c * i /\
    (e ∈ used_list c \/ free_list c = Some e /\ x < next_free e).

Definition cache_pages (c : mm_cache) : list Z :=
  (match free_list c with Some e => [fmem e] | None => [] end) ++ (fmem <$> used_list c).

(** All pages in reach: of other caches, of this one, of the free list and
    of the source; they are distinct pages of the mapped memory. *)
Definition all_pages (others : list Z) (c : mm_cache) (st : slab) : list Z :=
  others ++ cache_pages c ++ (fmem <$> free_pages st) ++ (mmu_p_to_v <$> src_avail (src st)).

Definition vpage (v : Z) : Prop := v mod PAGE_SIZE = 0 /\ 0 < v /\ v + PAGE_SIZE < 2 ^ 64.

Record inv (others : list Z) (c : mm_cache) (st : slab) (live : list Z) : Prop := {
  in_size : 2 <= item_size c <= PAGE_SIZE;
  in_locks : lock c = 0 /\ fe_lock st = 0;
  in_src : src_ok (src st);
  in_fresh : forall e, e ∈ free_pages st -> next_free e = fmem e;
  in_pages : NoDup (all_pages others c st) /\ Forall vpage (all_pages others c st);
  in_current : forall e, free_list c = Some e ->
    exists k, 0 <= k < per_page c /\ next_free e = fmem e + item_size c * k /\ num_free e = per_page c - 1 - k;
  in_items : NoDup (free_chunks c ++ live) /\ forall x, x ∈ free_chunks c ++ live -> cut c x
}.

Lemma per_page_bounds c : 2 <= item_size c <= PAGE_SIZE ->
  1 <= per_page c <= 2048 /\ item_size c * per_page c <= PAGE_SIZE.
Proof.
  intros Hs. unfold per_page. split; [| apply Z.mul_div_le; lia].
  split; [apply Z.div_le_lower_bound; lia |].
  apply Z.div_le_upper_bound; [lia |]. unfold PAGE_SIZE in *. lia.
Qed.

(** An item lies inside its page. *)
Lemma item_in_page c i : 2 <= item_size c <= PAGE_SIZE -> 0 <= i < per_page c ->
  0 <= item_size c * i /\ item_size c * i + item_size c <= PAGE_SIZE.
Proof. intros Hs Hi. pose proof (per_page_bounds c Hs). nia. Qed.

(** Two items of the cache are the same or do not overlap. *)
Lemma cut_disjoint c x y :
  2 <= item_size c <= PAGE_SIZE -> Forall vpage (cache_pages c) -> cut c x -> cut c y -> x <> y ->
  x + item_size c <= y \/ y + item_size c <= x.
Proof.
  intros Hs Hp (e1 & i1 & Hi1 & -> & H1) (e2 & i2 & Hi2 & -> & H2) Hne.
  assert (Hin : forall e x, e ∈ used_list c \/ free_list c = Some e /\ x < next_free e -> vpage (fmem e)).
  { intros e x He. rewrite Forall_forall in Hp. apply Hp. unfold cache_pages. apply elem_of_app.
    destruct He as [He | [-> _]]; [right; by apply list_elem_of_fmap_2 | left; by left]. }
  destruct (Hin _ _ H1) as [Ha1 _], (Hin _ _ H2) as [Ha2 _].
  destruct (item_in_page c i1 Hs Hi1), (item_in_page c i2 Hs Hi2).
  pose proof (Z.div_mod (fmem e1) PAGE_SIZE ltac:(done)). pose proof (Z.div_mod (fmem e2) PAGE_SIZE ltac:(done)).
  destruct (Z.eq_dec (fmem e1) (fmem e2)) as [E |]; [| unfold PAGE_SIZE in *; lia].
  rewrite E in *. assert (i1 <> i2) by congruence. nia.
Qed.

(** ** Allocation *)

Lemma append_head_Permutation {A} (l : list A) x : append_head l x ≡ₚ x :: l.
Proof. destruct l as [| h t]; [done | apply Permutation_swap]. Qed.

Lemma vpage_not_invalid m : vpage (mmu_p_to_v m) -> m <> INVALID_ADDRESS.
Proof. intros [Hm _] ->. vm_compute in Hm. discriminate Hm. Qed.

(** The page [alloc_fixed_entry] returns is new, uncut, and leaves the free
    list or the source. *)
Lemma alloc_fixed_entry_spec others st size : 2 <= size <= PAGE_SIZE ->
  fe_lock st = 0 -> src_ok (src st) -> (forall e, e ∈ free_pages st -> next_free e = fmem e) ->
  Forall vpage (others ++ (fmem <$> free_pages st) ++ (mmu_p_to_v <$> src_avail (src st))) ->
  (free_pages st = [] /\ forall x, src_alloc (src st) 0 <> Ret x) \/
  exists e st', alloc_fixed_entry st size = Ret (e, st') /\
    next_free e = fmem e /\ num_free e = PAGE_SIZE / size - 1 /\
    fe_lock st' = 0 /\ src_ok (src st') /\ (forall e, e ∈ free_pages st' -> next_free e = fmem e) /\
    (fmem <$> free_pages st) ++ (mmu_p_to_v <$> src_avail (src st)) ≡ₚ
    fmem e :: (fmem <$> free_pages st') ++ (mmu_p_to_v <$> src_avail (src st')).
Proof.
  intros Hs Hl Hok Hfresh Hv. unfold alloc_fixed_entry. rewrite Hl, spin_acquire_free. rb.
  assert (Hq : 1 <= PAGE_SIZE / size <= PAGE_SIZE).
  { split; [apply Z.div_le_lower_bound; lia |]. apply Z.div_le_upper_bound; [lia |]. unfold PAGE_SIZE. lia. }
  assert (Hnum : u64 (PAGE_SIZE / size - 1) = PAGE_SIZE / size - 1).
  { apply wrap_small. unfold in_u, PAGE_SIZE in *. lia. }
  destruct (free_pages st) as [| e es] eqn:Ef.
  - destruct (src_alloc (src st) 0) as [[mem s'] | | |] eqn:Ea; [right | left; split; [done | congruence] ..]. rb.
    destruct (src_alloc_law _ _ _ _ Hok ltac:(done) Ea) as (Hok' & _ & HP).
    change (pages_of mem (2 ^ Z.to_nat 0)) with [mem + PAGE_SIZE * 0] in HP.
    rewrite Z.mul_0_r, Z.add_0_r in HP.
    assert (Hvm : vpage (mmu_p_to_v mem)).
    { rewrite Forall_forall in Hv. apply Hv. rewrite !elem_of_app. right. right.
      apply list_elem_of_fmap_2. rewrite HP. by left. }
    rewrite (proj2 (Z.eqb_neq _ _) (vpage_not_invalid _ Hvm)). cbn [negb]. unfold kassert. rb. rewrite Hnum.
    eexists _, _. split; [done |]. cbn [next_free num_free fmem fe_lock src free_pages].
    split_and!; try done. by rewrite HP.
  - right. rewrite Hnum. eexists _, _. split; [done |]. cbn [next_free num_free fmem fe_lock src free_pages].
    split_and!; try done. { apply Hfresh. by left. } intros e' He. apply Hfresh. by right.
Qed.

Lemma same_page m1 m2 o1 o2 : m1 mod PAGE_SIZE = 0 -> m2 mod PAGE_SIZE = 0 ->
  0 <= o1 < PAGE_SIZE -> 0 <= o2 < PAGE_SIZE -> m1 + o1 = m2 + o2 -> m1 = m2.
Proof.
  intros H1 H2 Ho1 Ho2 E.
  pose proof (Z.div_mod m1 PAGE_SIZE ltac:(done)). pose proof (Z.div_mod m2 PAGE_SIZE ltac:(done)).
  unfold PAGE_SIZE in *. lia.
Qed.

(** What is cut stays cut when the cut grows. *)
Lemma cut_mono c c' x : item_size c' = item_size c ->
  (forall e, e ∈ used_list c -> exists e', e' ∈ used_list c' /\ fmem e' = fmem e) ->
  (forall e, free_list c = Some e ->
     (exists e', free_list c' = Some e' /\ fmem e' = fmem e /\ next_free e <= next_free e') \/
     (exists e', e' ∈ used_list c' /\ fmem e' = fmem e)) ->
  cut c x -> cut c' x.
Proof.
  intros Hs Hu Hf (e & i & Hi & -> & Hx). unfold cut, per_page in *. rewrite Hs in *.
  destruct Hx as [Hin | [E Hlt]].
  - destruct (Hu _ Hin) as (e' & Hin' & <-). exists e', i. auto.
  - destruct (Hf _ E) as [(e' & E' & Em & Hle) | (e' & Hin' & Em)]; exists e', i; rewrite Em.
    + split; [done |]. split; [done |]. right. split; [done | lia].
    + auto.
Qed.

(** The next item of the current page is not cut yet. *)
Lemma next_not_cut c e k : 2 <= item_size c <= PAGE_SIZE -> Forall vpage (cache_pages c) ->
  NoDup (cache_pages c) -> free_list c = Some e -> 0 <= k < per_page c ->
  next_free e = fmem e + item_size c * k -> ~ cut c (next_free e).
Proof.
  intros Hs Hp Hnd Ef Hk Hn (e2 & i & Hi & E & Hx).
  destruct (item_in_page c k Hs Hk), (item_in_page c i Hs Hi).
  unfold cache_pages in *. rewrite Ef in *. cbn [app] in *.
  destruct Hx as [Hin | [E2 Hlt]]; [| assert (e2 = e) as -> by congruence; lia].
  assert (Hin2 : fmem e2 ∈ (fmem <$> used_list c)) by (by apply list_elem_of_fmap_2).
  rewrite Forall_forall in Hp. destruct (Hp (fmem e)) as [Ha _]; [by left |].
  destruct (Hp (fmem e2)) as [Hb _]; [by right |].
  assert (Heq : fmem e = fmem e2) by (apply (same_page _ _ (item_size c * k) (item_size c * i)); lia).
  apply NoDup_cons in Hnd as [Hnd _]. by rewrite Heq in Hnd.
Qed.

(** The state the cache is in when it cuts an item from the page [e]. *)
Definition with_current (c : mm_cache) (e : cache_fixed_entry) (cap : Z) : mm_cache :=
  mk_cache (item_size c) cap 0 (Some e) (used_list c) (free_chunks c).

Lemma inv_with_page others c st live e st' : inv others c st live -> free_list c = None ->
  next_free e = fmem e -> num_free e = PAGE_SIZE / item_size c - 1 ->
  fe_lock st' = 0 -> src_ok (src st') -> (forall e, e ∈ free_pages st' -> next_free e = fmem e) ->
  (fmem <$> free_pages st) ++ (mmu_p_to_v <$> src_avail (src st)) ≡ₚ
    fmem e :: (fmem <$> free_pages st') ++ (mmu_p_to_v <$> src_avail (src st')) ->
  forall cap, inv others (with_current c e cap) st' live.
Proof.
  intros [Hs [Hl Hfl] Hok Hfr [Hnd Hv] Hcur [Hi Hc]] Hn Hnext Hnum Hl' Hok' Hfr' HP cap.
  assert (HP' : all_pages others (with_current c e cap) st' ≡ₚ all_pages others c st).
  { unfold all_pages, cache_pages. cbn [free_list used_list with_current]. rewrite Hn. cbn [app].
    apply Permutation_app_head. rewrite HP. apply Permutation_middle. }
  split; try done; cbn [item_size lock free_list with_current].
  - by rewrite HP'.
  - intros e' [= <-]. exists 0. pose proof (per_page_bounds c Hs). unfold per_page in *.
    cbn [item_size with_current]. split_and!; lia.
  - split; [done |]. intros x Hx. apply (cut_mono c); [done | by eauto | congruence | by apply Hc].
Qed.

(** Cutting the next item of the current page. *)
Lemma alloc_spatial_spec others c st live flags : inv others c st live -> is_Some (free_list c) ->
  exists x c', alloc_spatial c 1 st flags = Ret (Ok (x, negb (Z.land flags MM_ZERO =? 0)), Some c', st) /\
    inv others c' st (x :: live) /\ ~ cut c x /\ item_size c' = item_size c.
Proof.
  intros [Hs [Hl Hfl] Hok Hfr [Hnd Hv] Hcur [Hi Hc]] [e Ef]. unfold alloc_spatial. rewrite Ef. rb.
  destruct (Hcur e Ef) as (k & Hk & Hnext & Hnum).
  assert (Hcp : cache_pages c = fmem e :: (fmem <$> used_list c)) by (unfold cache_pages; by rewrite Ef).
  assert (Hsub : NoDup (cache_pages c) /\ Forall vpage (cache_pages c)).
  { unfold all_pages in Hnd, Hv. rewrite NoDup_app, NoDup_app in Hnd. rewrite !Forall_app in Hv. tauto. }
  assert (Hnc := next_not_cut c e k Hs (proj2 Hsub) (proj1 Hsub) Ef Hk Hnext).
  assert (Hve : vpage (fmem e)).
  { destruct Hsub as [_ Hf]. rewrite Hcp in Hf. by apply Forall_cons in Hf as [? _]. }
  pose proof (item_in_page c k Hs Hk). pose proof (per_page_bounds c Hs).
  eexists _, _. split; [done |]. split; [| split; [done | by case_match]].
  assert (Hitems : forall c', (forall x, cut c x -> cut c' x) -> cut c' (next_free e) ->
    free_chunks c' = free_chunks c ->
    NoDup (free_chunks c' ++ next_free e :: live) /\ forall x, x ∈ free_chunks c' ++ next_free e :: live -> cut c' x).
  { intros c' Hm Hnx ->. split.
    - rewrite <- Permutation_middle. apply NoDup_cons. split; [| done]. intros Hin. apply Hnc, Hc, Hin.
    - intros x. rewrite <- Permutation_middle, elem_of_cons. intros [-> | Hx]; auto. }
  destruct (Z.eqb_spec (num_free e) 0) as [Hz | Hnz].
  - set (c' := mk_cache _ _ _ _ _ _).
    assert (HP : all_pages others c' st ≡ₚ all_pages others c st).
    { unfold all_pages. rewrite Hcp. unfold cache_pages. cbn [free_list used_list c'].
      rewrite append_head_Permutation. done. }
    assert (Hin : mk_cfe (u64 (num_free e - 1)) (next_free e) (fmem e) ∈ used_list c').
    { cbn [used_list c']. rewrite append_head_Permutation. by left. }
    split; try done.
    + by rewrite HP.
    + apply Hitems; [| | done].
      * intros x. apply cut_mono; [done | | ].
        { intros u Hu. exists u. split; [| done]. cbn [used_list c']. rewrite append_head_Permutation. by right. }
        { intros e2 E2. right. eexists. split; [exact Hin |]. cbn [fmem]. congruence. }
      * exists (mk_cfe (u64 (num_free e - 1)) (next_free e) (fmem e)), k.
        split; [exact Hk |]. split; [exact Hnext |]. left. exact Hin.
  - assert (Hk' : k + 1 < per_page c) by lia.
    assert (Hw : u64 (next_free e + item_size c) = next_free e + item_size c).
    { apply wrap_small. destruct Hve as (_ & ? & ?). unfold in_u. unfold PAGE_SIZE in *. lia. }
    assert (Hw2 : u64 (num_free e - 1) = num_free e - 1).
    { apply wrap_small. unfold in_u. lia. }
    rewrite Hw, Hw2. set (c' := mk_cache _ _ _ _ _ _).
    assert (HP : all_pages others c' st = all_pages others c st).
    { unfold all_pages. rewrite Hcp. done. }
    split; try done.
    + by rewrite HP.
    + intros e' [= <-]. exists (k + 1). cbn [next_free fmem num_free]. change (per_page c') with (per_page c).
      change (item_size c') with (item_size c). split_and!; lia.
    + apply Hitems; [| | done].
      * intros x. apply cut_mono; [done | by eauto |]. intros e2 E2. left. eexists. split; [done |].
        rewrite E2 in Ef. injection Ef as ->. cbn [fmem next_free]. split; [done | lia].
      * exists (mk_cfe (num_free e - 1) (next_free e + item_size c) (fmem e)), k.
        split; [exact Hk |]. split; [exact Hnext |]. right. split; [done |]. cbn [next_free]. lia.
Qed.

Lemma alloc_entry_spec (others : list Z) (c : mm_cache) (st : slab) (live : list Z) (flags : Z) :
  inv others c st live ->
  (free_chunks c = [] /\ free_list c = None /\ free_pages st = [] /\ forall r, src_alloc (src st) 0 <> Ret r) \/
  exists x c' st',
    mmu_cache_alloc_entry (Some c) st flags =
      Ret (Ok (x, bool_decide (free_chunks c = []) && negb (Z.land flags MM_ZERO =? 0)), Some c', st') /\
    inv others c' st' (x :: live) /\
    forall y, y ∈ live -> y <> x /\ (x + item_size c <= y \/ y + item_size c <= x).
Proof.
  intros Hinv. pose proof Hinv as [Hs [Hl Hfl] Hok Hfr [Hnd Hv] Hcur [Hi Hc]].
  assert (Hdis : forall c' st' x, item_size c' = item_size c -> inv others c' st' (x :: live) ->
    forall y, y ∈ live -> y <> x /\ (x + item_size c <= y \/ y + item_size c <= x)).
  { intros c' st' x Hsz [Hs' _ _ _ [_ Hv'] _ [Hi' Hc']] y Hy.
    assert (Hne : y <> x).
    { intros ->. apply NoDup_app in Hi' as (_ & _ & Hn). apply NoDup_cons in Hn. tauto. }
    split; [done |]. rewrite <- Hsz. apply cut_disjoint; [done | | | | congruence].
    - unfold all_pages in Hv'. rewrite !Forall_app in Hv'. tauto.
    - apply Hc', elem_of_app. right. by left.
    - apply Hc', elem_of_app. right. by right. }
  unfold mmu_cache_alloc_entry. rewrite Hl, spin_acquire_free. rb.
  destruct (free_chunks c) as [| ret chunks] eqn:Ech.
  - rewrite bool_decide_eq_true_2 by done. cbn [andb].
    destruct (free_list c) as [e |] eqn:Ef.
    + right. destruct (alloc_spatial_spec others c st live flags Hinv) as (x & c' & E & Hinv' & _ & Hsz); [by eexists |].
      exists x, c', st. eauto.
    + destruct (alloc_fixed_entry_spec others st (item_size c) Hs Hfl Hok Hfr) as
        [[Hp Hsrc] | (e & st' & E & Hnext & Hnum & Hl' & Hok' & Hfr' & HP)]; [| left; auto |].
      { unfold all_pages in Hv. rewrite !Forall_app in *. tauto. }
      right. set (cap := u64 (capacity c + PAGE_SIZE / item_size c)).
      destruct (alloc_spatial_spec others (with_current c e cap) st' live flags) as (x & c' & E' & Hinv' & _ & Hsz);
        [by eapply inv_with_page | by eexists |].
      exists x, c', st'. split; [| eauto]. rewrite <- E'. unfold alloc_spatial. rewrite Ef, E. done.
  - right. rewrite bool_decide_eq_false_2 by done. change (Z.land flags C_FORCE_SPATIAL) with (Z.land flags 0).
    rewrite Z.land_0_r. change (0 =? 0) with true. cbn [andb]. rewrite spin_release_0.
    set (c' := mk_cache _ _ _ _ _ _). assert (Hinv' : inv others c' st (ret :: live)).
    { split; try done. cbn [free_chunks c']. split.
      - rewrite <- Permutation_middle. exact Hi.
      - intros y. rewrite <- Permutation_middle. apply Hc. }
    exists ret, c', st. split; [done |]. split; [done |]. by apply (Hdis c' st).
Qed.

(** C6: an allocation from a cache returns an item that no caller holds and
    that overlaps none of the items they hold, whether it is recycled, cut
    from the current page, or cut from a new one, and keeps the invariant;
    it fails only when it needs a page and the source has none.  The entry
    is cleared only when it is cut from a page: [MM_ZERO] is ignored for a
    recycled one. *)
Theorem mmu_cache_alloc_entry_fresh (others : list Z) (c : mm_cache) (st : slab) (live : list Z) (flags : Z) :
  inv others c st live ->
  (free_chunks c = [] /\ free_list c = None /\ free_pages st = [] /\ forall r, src_alloc (src st) 0 <> Ret r) \/
  exists x c' st',
    mmu_cache_alloc_entry (Some c) st flags =
      Ret (Ok (x, bool_decide (free_chunks c = []) && negb (Z.land flags MM_ZERO =? 0)), Some c', st') /\
    inv others c' st' (x :: live) /\
    forall y, y ∈ live -> y <> x /\ (x + item_size c <= y \/ y + item_size c <= x).
Proof. exact (alloc_entry_spec others c st live flags). Qed.

Lemma held_nonzero others c st x rest : inv others c st (x :: rest) -> x <> 0.
Proof.
  intros [Hs [Hl Hfl] Hok Hfr [Hnd Hv] Hcur [Hi Hc]].
destruct (Hc x) as (e & i & Hi' & -> & He); [apply elem_of_app; right; by left |].
  destruct (item_in_page c i Hs Hi'). unfold all_pages in Hv. rewrite !Forall_app in Hv.
  destruct Hv as (_ & Hv & _). rewrite Forall_forall in Hv. destruct (Hv (fmem e)) as (_ & ? & _); [| lia].
  unfold cache_pages. apply elem_of_app.
  destruct He as [He | [-> _]]; [right; by apply list_elem_of_fmap_2 | left; by left].
Qed.

Lemma free_entry_spec (others : list Z) (c : mm_cache) (st : slab) (x : Z) (rest : list Z) :
  inv others c st (x :: rest) ->
  mmu_cache_free_entry (Some c) 0 = (- EINVAL, Some c) /\
  exists c', mmu_cache_free_entry (Some c) x = (0, Some c') /\ inv others c' st rest /\ x ∈ free_chunks c'.
Proof.
  intros Hinv. pose proof Hinv as [Hs [Hl Hfl] Hok Hfr [Hnd Hv] Hcur [Hi Hc]]. split; [done |].
  assert (Hx : x <> 0) by exact (held_nonzero _ _ _ _ _ Hinv).
  unfold mmu_cache_free_entry. rewrite (proj2 (Z.eqb_neq x 0) Hx). rewrite spin_release_0.
  eexists. split; [done |].
  assert (HP : append_head (free_chunks c) x ++ rest ≡ₚ free_chunks c ++ x :: rest).
  { rewrite append_head_Permutation. apply Permutation_middle. }
  split; [split; try done |].
  - cbn [free_chunks]. rewrite HP. split; [done |]. intros y Hy. rewrite HP in Hy. by apply Hc.
  - cbn [free_chunks]. rewrite append_head_Permutation. by left.
Qed.

(** Giving back an item that is held makes it available again and keeps
    the invariant for the remaining ones; null arguments give EINVAL. *)
Theorem mmu_cache_free_entry_correct (others : list Z) (c : mm_cache) (st : slab) (x : Z) (rest : list Z) :
  inv others c st (x :: rest) ->
  mmu_cache_free_entry (Some c) 0 = (- EINVAL, Some c) /\
  exists c', mmu_cache_free_entry (Some c) x = (0, Some c') /\ inv others c' st rest /\ x ∈ free_chunks c'.
Proof. exact (free_entry_spec others c st x rest). Qed.

(** The interface the clients of a cache use. *)
#[global] Instance cache_entries : EntrySource (option mm_cache * slab).
Proof.
  refine {|
    es_alloc c flags := '(r, c', st) ← mmu_cache_alloc_entry (fst c) (snd c) flags; mret (r, (c', st));
    es_free c x := mret (snd (mmu_cache_free_entry (fst c) x), snd c);
    es_held c held := exists others c0, fst c = Some c0 /\ inv others c0 (snd c) held |}.
  - intros [c st] flags held x z [c' st'] (others & c0 & E0 & Hinv) E. cbn [fst snd] in *. subst c.
    destruct (alloc_entry_spec others c0 st held flags Hinv) as [(Hch & Hf & Hp & Hs) | (y & c1 & st1 & E1 & Hinv1 & Hd)].
    + exfalso. unfold mmu_cache_alloc_entry in E. destruct Hinv as [_ [Hl Hfl] _ _ _ _ _].
      rewrite Hl, spin_acquire_free, ret_bind, Hch in E. unfold alloc_spatial, alloc_fixed_entry in E.
      rewrite Hf, Hfl, spin_acquire_free, ret_bind, Hp in E.
      destruct (src_alloc (src st) 0) as [r | | |] eqn:Er; [by destruct (Hs r) | done ..].
    + rewrite E1 in E. injection E as <- _ <- <-. split; [by exists others, c1 |].
      split; [exact (held_nonzero _ _ _ _ _ Hinv1) |]. intros Hin. destruct (Hd _ Hin) as [Hne _]. done.
  - intros [c st] x held (others & c0 & E0 & Hinv). cbn [fst snd] in *. subst c.
    destruct (free_entry_spec others c0 st x held Hinv) as (_ & c1 & -> & Hinv1 & _).
    eexists. split; [done |]. by exists others, c1.
Defined.
End slab.

#[local] Existing Instance PageAlloc.page_alloc_source.

(** A cache of 32-byte items with one uncut page, on the page allocator. *)
Definition sample_cache : mm_cache :=
  mk_cache 32 128 0 (Some (mk_cfe 127 0xffffffff82000000 0xffffffff82000000)) [] [].
Definition sample_slab : slab := mk_slab [] 0 PageAlloc.small_state.

Lemma sample_inv : inv [] sample_cache sample_slab [].
Proof.
  split.
  - split; discriminate.
  - done.
  - split; [exact PageAlloc.small_zone_wf | exact PageAlloc.small_covered].
  - intros e He. by apply elem_of_nil in He.
  - assert (E : all_pages [] sample_cache sample_slab = [0xffffffff82000000; 0xffffffff81000000; 0xffffffff81001000])
      by (vm_compute; reflexivity).
    rewrite E. split; [refine (bool_decide_eq_true_1 _ _); vm_compute; reflexivity |].
    repeat constructor.
  - intros e [= <-]. exists 0. split; [split; [discriminate | reflexivity] |]. split; reflexivity.
  - split; [constructor |]. intros x Hx. by apply elem_of_nil in Hx.
Qed.

Lemma mmu_cache_alloc_entry_fresh_witness :
  exists x c' st', mmu_cache_alloc_entry (Some sample_cache) sample_slab MM_ZERO = Ret (Ok (x, true), Some c', st') /\
    inv [] c' st' [x].
Proof.
  destruct (mmu_cache_alloc_entry_fresh [] sample_cache sample_slab [] MM_ZERO sample_inv)
    as [(_ & Hf & _) | (x & c' & st' & E & Hinv & _)].
  - discriminate Hf.
  - exists x, c', st'. split; [exact E | exact Hinv].
Defined.

Lemma mmu_cache_free_entry_correct_witness :
  exists c c' x, inv [] c sample_slab [x] /\ mmu_cache_free_entry (Some c) x = (0, Some c') /\ inv [] c' sample_slab [].
Proof.
  destruct (alloc_spatial_spec [] sample_cache sample_slab [] 0 sample_inv) as (x & c & _ & Hinv & _ & _);
    [eexists; reflexivity |].
  destruct (mmu_cache_free_entry_correct [] c sample_slab x [] Hinv) as (_ & c' & E & Hinv' & _).
  exists c, c', x. split; [exact Hinv | split; [exact E | exact Hinv']].
Defined.

(** [mmu_cache_free_entry] starts by releasing the lock of the cache: it
    takes it away from the CPU that holds it. *)
Lemma free_entry_releases_lock c x : x <> 0 -> lock c = 1 ->
  exists c', mmu_cache_free_entry (Some c) x = (0, Some c') /\ lock c' = 0.
Proof. intros Hx _. unfold mmu_cache_free_entry. rewrite (proj2 (Z.eqb_neq x 0) Hx). by eexists. Qed.

End Slab.
