(* ===== verification/Heap.v ===== *)
(** * Kernel heap (mm/heap.c)

    The chunk headers live in a store indexed by their address, with the
    links as the code has them (0 is the null pointer); so do the arenas.
    A header takes 25 bytes (the structure is packed). *)

From S2P Require Import Prelude Common Locks Bitmap Bootmem Memory PageAlloc.
Import Common Locks Memory.

Module Heap.

Definition SPLIT_THRESHOLD : Z := 8.
Definition HEAP_ARENA_SIZE : Z := 2.
Definition MM_ZERO : Z := 1.
Definition MM_HIGH_PRIO : Z := 2.

(** [sizeof(mm_chunk_t)] and [sizeof(mm_arena_t)]. *)
Definition CHUNK : Z := 8 + 1 + 8 + 8.
Definition ARENA : Z := 8 + 8 + 1 + 8 + 8.

Record mm_chunk := mk_chunk { c_size : Z; c_free : bool; c_next : Z; c_prev : Z }.

Record mm_arena := mk_arena { a_size : Z; a_base : Z; a_lock : Z; a_next : Z; a_prev : Z }.

Abbreviation chunks := (gmap Z mm_chunk).

(** The addresses of the two static arenas. *)
Definition __mem : Z := 1.
Definition __high_prio : Z := 2.

Record heap := mk_heap {
  store : chunks;
  arenas : gmap Z mm_arena;
  initialized : bool
}.

Definition chunk_at (m : chunks) (a : Z) : out mm_chunk :=
  match m !! a with Some c => mret c | None => Fault end.

Definition arena_at (h : heap) (a : Z) : out mm_arena :=
  match arenas h !! a with Some x => mret x | None => Fault end.

Definition with_store (h : heap) (m : chunks) : heap := mk_heap m (arenas h) (initialized h).
Definition with_arena (h : heap) (a : Z) (x : mm_arena) : heap :=
  mk_heap (store h) (<[a := x]> (arenas h)) (initialized h).
Definition with_lock (x : mm_arena) (l : Z) : mm_arena :=
  mk_arena (a_size x) (a_base x) l (a_next x) (a_prev x).

Definition set_prev (m : chunks) (a p : Z) : out chunks :=
  c ← chunk_at m a; mret (<[a := mk_chunk (c_size c) (c_free c) (c_next c) p]> m).

Definition __split_block (m : chunks) (block size : Z) : out (Z * chunks) :=
  b ← chunk_at m block;
  if u64 (c_size b - size) <? CHUNK + SPLIT_THRESHOLD then mret (block, m)
  else
    let new := u64 (block + CHUNK + size) in
    m ← (if negb (c_next b =? 0) then set_prev m (c_next b) new else mret m);
    let m := <[new := mk_chunk (u64 (c_size b - size - CHUNK)) true (c_next b) block]> m in
    mret (block, <[block := mk_chunk size (c_free b) new (c_prev b)]> m).

(** [while (block && !(block->free && block->size >= size))]. *)
Fixpoint find_block (fuel : nat) (m : chunks) (block size : Z) : out Z :=
  match fuel with
  | O => Spin
  | S fuel =>
      if block =? 0 then mret 0
      else
        b ← chunk_at m block;
        if c_free b && (size <=? c_size b) then mret block
        else find_block fuel m (c_next b) size
  end.

(** The walk over the arenas; 0 when no chunk is found. *)
Fixpoint find_arena (fuel : nat) (h : heap) (iter size : Z) : out (Z * heap) :=
  match fuel with
  | O => Spin
  | S fuel =>
      if iter =? 0 then mret (0, h)
      else
        x ← arena_at h iter;
        l ← spin_acquire (a_lock x);
        block ← find_block (S (base.size (store h))) (store h) (a_base x) size;
        if negb (block =? 0) then
          '(ret, m) ← __split_block (store h) block size;
          mret (ret, with_arena (with_store h m) iter (with_lock x (spin_release l)))
        else
          find_arena fuel (with_arena h iter (with_lock x (spin_release l))) (a_next x) size
  end.

Definition __find_free (h : heap) (arena size : Z) : out (Z * heap) :=
  find_arena (S (base.size (arenas h))) h arena size.

Fixpoint __merge_blocks_prev (fuel : nat) (m : chunks) (cur prev : Z) : out (Z * chunks) :=
  match fuel with
  | O => Spin
  | S fuel =>
      if prev =? 0 then mret (cur, m)
      else
        p ← chunk_at m prev;
        if negb (c_free p) then mret (cur, m)
        else
          c ← chunk_at m cur;
          let m := <[prev := mk_chunk (u64 (c_size p + c_size c + CHUNK)) (c_free p) (c_next c) (c_prev p)]> m in
          m ← (if negb (c_next c =? 0) then set_prev m (c_next c) prev else mret m);
          __merge_blocks_prev fuel m prev (c_prev p)
  end.

Fixpoint __merge_blocks_next (fuel : nat) (m : chunks) (cur next : Z) : out chunks :=
  match fuel with
  | O => Spin
  | S fuel =>
      if next =? 0 then mret m
      else
        n ← chunk_at m next;
        if negb (c_free n) then mret m
        else
          c ← chunk_at m cur;
          let m := <[cur := mk_chunk (u64 (c_size c + (c_size n + CHUNK))) (c_free c) (c_next n) (c_prev c)]> m in
          m ← (if negb (c_next n =? 0) then set_prev m (c_next n) cur else mret m);
          __merge_blocks_next fuel m cur (c_next n)
  end.

Definition set_free (m : chunks) (a : Z) (f : bool) : out chunks :=
  c ← chunk_at m a; mret (<[a := mk_chunk (c_size c) f (c_next c) (c_prev c)]> m).

(** One free chunk that fills [bytes] bytes. *)
Definition first_chunk (bytes : Z) : mm_chunk := mk_chunk (bytes - CHUNK) true 0 0.

Section pages.
Context {S : Type} `{PageSource S}.

(** [entry] is the address of the arena descriptor from the slab cache and
    the value its [next] field happens to hold: it is never written. *)
Definition __alloc_arena (entry : Z * Z) (h : heap) (s : S) : out (heap * S) :=
  if negb (initialized h) then Halt
  else
    '(mem, s) ← src_alloc s HEAP_ARENA_SIZE;
    let base := mmu_p_to_v mem in
    let bytes := PAGE_SIZE * Z.shiftl 1 HEAP_ARENA_SIZE in
    let arena := mk_arena bytes base 0 (snd entry) __mem in
    x ← arena_at h __mem;
    l ← spin_acquire (a_lock x);
    let x' := mk_arena (a_size x) (a_base x) (spin_release l) (fst entry) (a_prev x) in
    mret (mk_heap (<[base := first_chunk bytes]> (store h))
            (<[__mem := x']> (<[fst entry := arena]> (arenas h))) (initialized h), s).

(** The result is the memory and whether it was cleared. *)
Definition kmalloc (entry : Z * Z) (h : heap) (s : S) (size flags : Z) : out (Z * bool * heap * S) :=
  let hp := negb (Z.land flags MM_HIGH_PRIO =? 0) in
  '(block, h) ← __find_free h (if hp then __high_prio else __mem) size;
  '(block, h, s) ←
    (if block =? 0 then
       if hp then Halt
       else
         '(h, s) ← __alloc_arena entry h s;
         '(block, h) ← __find_free h __mem size;
         if block =? 0 then Halt else mret (block, h, s)
     else mret (block, h, s));
  m ← set_free (store h) block false;
  mret (block + CHUNK, negb (Z.land flags MM_ZERO =? 0), with_store h m, s).

Definition kzalloc (entry : Z * Z) (h : heap) (s : S) (size : Z) : out (Z * bool * heap * S) :=
  '(mem, _, h, s) ← kmalloc entry h s size 0; mret (mem, true, h, s).

Definition kcalloc (entry : Z * Z) (h : heap) (s : S) (nmemb size : Z) : out (Z * bool * heap * S) :=
  kzalloc entry h s (u64 (nmemb * size)).

Definition kfree (h : heap) (mem : Z) : out heap :=
  m ← set_free (store h) (mem - CHUNK) true; mret (with_store h m).

(** The static arenas before initialisation are all zero. *)
Definition mmu_heap_preinit (mi : Bootmem.mem_info) (h : heap) : out (Z * Bootmem.mem_info * heap) :=
  '(mem, mi) ← Bootmem.mmu_bootmem_alloc_block mi 2;
  if mem =? INVALID_ADDRESS then mret (- ENOMEM, mi, h)
  else
    x ← arena_at h __mem;
    let base := mmu_p_to_v mem in
    let bytes := PAGE_SIZE * Z.shiftl 1 2 in
    mret (0, mi, mk_heap (<[base := first_chunk bytes]> (store h))
                   (<[__mem := mk_arena bytes base 0 (a_next x) (a_prev x)]> (arenas h)) (initialized h)).

Definition mmu_heap_init (cache : bool) (h : heap) (s : S) : out (Z * heap * S) :=
  '(mem, s) ← src_alloc s HEAP_ARENA_SIZE;
  '(hp, s) ← src_alloc s 1;
  _ ← kassert (negb (mem =? INVALID_ADDRESS));
  _ ← kassert (negb (hp =? INVALID_ADDRESS));
  x ← arena_at h __mem;
  y ← arena_at h __high_prio;
  let bytes := PAGE_SIZE * Z.shiftl 1 HEAP_ARENA_SIZE in
  let hbytes := PAGE_SIZE * Z.shiftl 1 1 in
  let m := <[mmu_p_to_v hp := first_chunk hbytes]> (<[mmu_p_to_v mem := first_chunk bytes]> (store h)) in
  let ars := <[__high_prio := mk_arena hbytes (mmu_p_to_v hp) 0 (a_next y) (a_prev y)]>
               (<[__mem := mk_arena bytes (mmu_p_to_v mem) 0 (a_next x) (a_prev x)]> (arenas h)) in
  if negb cache then Halt else mret (0, mk_heap m ars true, s).
End pages.

(** ** Chunks tile their arena *)

(** [l] are the addresses of the chunks from [a] on: each begins where the
    one before ends, the last one ends at [lim], and the links agree. *)
Fixpoint tiled (m : chunks) (p a : Z) (l : list Z) (lim : Z) : Prop :=
  match l with
  | [] => a = lim
  | x :: l => x = a /\ exists c, m !! a = Some c /\ 0 <= c_size c /\ c_prev c = p /\
                c_next c = hd 0 l /\ tiled m a (a + CHUNK + c_size c) l lim
  end.

Lemma tiled_le m p a l lim : tiled m p a l lim -> a <= lim.
Proof.
  revert p a. induction l as [| x l IH]; intros p a; simpl; [lia |].
  intros (-> & c & _ & Hs & _ & _ & H). apply IH in H. unfold CHUNK in *. lia.
Qed.

(** Each chunk and its header lie inside the arena. *)
Lemma tiled_bounds m p a l lim x : tiled m p a l lim -> x ∈ l ->
  exists c, m !! x = Some c /\ 0 <= c_size c /\ a <= x /\ x + CHUNK + c_size c <= lim.
Proof.
  revert p a. induction l as [| y l IH]; intros p a; simpl; [intros _ H; by apply elem_of_nil in H |].
  intros (-> & c & Hc & Hs & _ & _ & H) [-> | Hx]%elem_of_cons.
  - exists c. apply tiled_le in H. split_and!; try done; lia.
  - destruct (IH _ _ H Hx) as (c' & ? & ? & ? & ?). exists c'. unfold CHUNK in *. split_and!; try done; lia.
Qed.

Lemma tiled_frame m m' p a l lim : (forall x, x ∈ l -> m' !! x = m !! x) -> tiled m p a l lim -> tiled m' p a l lim.
Proof.
  revert p a. induction l as [| y l IH]; intros p a Hf; simpl; [done |].
  intros (-> & c & Hc & Hs & Hp & Hn & H). split; [done |]. exists c.
  rewrite (Hf a) by (by left). split_and!; try done. apply IH; [| done]. intros x Hx. apply Hf. by right.
Qed.

(** The first chunk gets another predecessor. *)
Lemma tiled_set_prev m m' p p' a l lim : tiled m p a l lim ->
  (forall x, x ∈ tail l -> m' !! x = m !! x) ->
  (forall c, l <> [] -> m !! a = Some c -> m' !! a = Some (mk_chunk (c_size c) (c_free c) (c_next c) p')) ->
  tiled m' p' a l lim.
Proof.
  destruct l as [| y l]; simpl; [done |]. intros (-> & c & Hc & Hs & Hp & Hn & H) Hf Ha.
  split; [done |]. eexists. split; [by apply Ha |]. cbn [c_size c_prev c_next].
  split_and!; try done. by eapply tiled_frame.
Qed.

(** The two chunks of an arena are the same or apart. *)
Lemma tiled_apart m p a l lim x y cx cy : tiled m p a l lim -> x ∈ l -> y ∈ l -> x <> y ->
  m !! x = Some cx -> m !! y = Some cy -> x + CHUNK + c_size cx <= y \/ y + CHUNK + c_size cy <= x.
Proof.
  revert p a. induction l as [| z l IH]; intros p a; simpl; [intros _ H; by apply elem_of_nil in H |].
  intros (-> & c & Hc & Hs & _ & _ & H) [-> | Hx]%elem_of_cons [-> | Hy]%elem_of_cons Hne Ex Ey; [done | | | by eapply IH].
  - destruct (tiled_bounds _ _ _ _ _ _ H Hy) as (c' & ? & ? & ? & ?). simplify_eq. by left.
  - destruct (tiled_bounds _ _ _ _ _ _ H Hx) as (c' & ? & ? & ? & ?). simplify_eq. by right.
Qed.

Lemma tiled_NoDup m p a l lim : tiled m p a l lim -> NoDup l.
Proof.
  revert p a. induction l as [| z l IH]; intros p a; simpl; [constructor |].
  intros (-> & c & Hc & Hs & _ & _ & H). apply NoDup_cons. split; [| by eapply IH].
  intros Hin. destruct (tiled_bounds _ _ _ _ _ _ H Hin) as (c' & _ & _ & ? & _). unfold CHUNK in *. lia.
Qed.

Lemma tiled_length m p a l lim : tiled m p a l lim -> (length l < S (base.size m))%nat.
Proof.
  intros Ht. rewrite <- (size_dom m), <- (size_list_to_set (C := gset Z) l) by (by eapply tiled_NoDup).
  assert (Hsub : list_to_set (C := gset Z) l ⊆ dom m); [| apply subseteq_size in Hsub; lia].
  intros k Hk%elem_of_list_to_set. apply elem_of_dom.
  destruct (tiled_bounds _ _ _ _ _ _ Ht Hk) as (c & -> & _). eauto.
Qed.

(** ** Finding a chunk *)

Definition fits (m : chunks) (size x : Z) : Prop :=
  exists c, m !! x = Some c /\ c_free c = true /\ size <= c_size c.

(** First fit, or null when no chunk fits. *)
Lemma find_block_spec fuel m p a l lim size : tiled m p a l lim -> 0 < a -> (length l < fuel)%nat ->
  exists r, find_block fuel m (hd 0 l) size = Ret r /\
    ((r = 0 /\ forall x, x ∈ l -> ~ fits m size x) \/
     (exists pre post, l = pre ++ r :: post /\ fits m size r /\ forall x, x ∈ pre -> ~ fits m size x)).
Proof.
  revert p a l. induction fuel as [| fuel IH]; intros p a l Ht Ha Hf; [lia |].
  destruct l as [| x l]; cbn [find_block hd].
  { exists 0. split; [done |]. left. split; [done |]. intros x Hx. by apply elem_of_nil in Hx. }
  destruct Ht as (-> & c & Hc & Hs & _ & Hn & H). rewrite (proj2 (Z.eqb_neq a 0)) by lia.
  unfold chunk_at. rewrite Hc. rb. destruct (c_free c && (size <=? c_size c)) eqn:Eb.
  - zb_hyps. exists a. split; [done |]. right. exists [], l. split; [done |].
    split; [by exists c |]. intros x Hx. by apply elem_of_nil in Hx.
  - assert (Hnf : ~ fits m size a).
    { intros (c' & Hc' & Hf' & Hsz). simplify_eq. rewrite Hf', (proj2 (Z.leb_le _ _) Hsz) in Eb. done. }
    rewrite Hn. destruct (IH a _ l H) as (r & E & Hr); [unfold CHUNK; lia | simpl in Hf; lia |].
    exists r. split; [exact E |]. destruct Hr as [[-> Hr] | (pre & post & -> & Hfit & Hr)]; [left | right].
    + split; [done |]. intros x [-> | Hx]%elem_of_cons; [done | by apply Hr].
    + exists (a :: pre), post. split_and!; [done | done |]. intros x [-> | Hx]%elem_of_cons; [done | by apply Hr].
Qed.

(** ** Splitting a chunk *)

Definition same_chunk (m m' : chunks) (x : Z) : Prop :=
  exists c c', m !! x = Some c /\ m' !! x = Some c' /\ c_size c' = c_size c /\ c_free c' = c_free c.

(** The part of an arena from a chunk on can be replaced by another tiling
    of the same bytes that starts with this chunk. *)
Lemma tiled_replace m p a pre b post lim : tiled m p a (pre ++ b :: post) lim ->
  exists p', tiled m p' b (b :: post) lim /\ a <= b /\
    (forall m' rest, (forall x, x ∈ pre -> m' !! x = m !! x) ->
       tiled m' p' b (b :: rest) lim -> tiled m' p a (pre ++ b :: rest) lim) /\
    (forall x, x ∈ pre -> a <= x /\ x + CHUNK <= b).
Proof.
  revert p a. induction pre as [| y pre IH]; intros p a Ht.
  - pose proof Ht as [<- _]. exists p. split_and!; [done | lia | done |]. intros x Hx. by apply elem_of_nil in Hx.
  - destruct Ht as (-> & c & Hc & Hs & Hp & Hn & H). destruct (IH _ _ H) as (p' & Hb & Hle & Hrep & Hpre).
    unfold CHUNK in *. exists p'. split_and!; [done | lia | |].
    + intros m' rest Hf Hrest. simpl. split; [done |]. exists c. rewrite (Hf a) by (by left).
      split_and!; try done.
      * rewrite Hn. by destruct pre.
      * apply Hrep; [| done]. intros x Hx. apply Hf. by right.
    + intros x [-> | Hx]%elem_of_cons; [lia |]. destruct (Hpre x Hx). lia.
Qed.

Lemma set_prev_Ret m x c p : m !! x = Some c ->
  set_prev m x p = Ret (<[x := mk_chunk (c_size c) (c_free c) (c_next c) p]> m).
Proof. intros E. unfold set_prev, chunk_at. by rewrite E. Qed.

(** The state after a real split, as one function of the old store. *)
Definition split_store (m : chunks) (b : Z) (c : mm_chunk) (size : Z) : chunks :=
  let new := b + CHUNK + size in
  let m1 := match m !! c_next c with
            | Some n => <[c_next c := mk_chunk (c_size n) (c_free n) (c_next n) new]> m
            | None => m
            end in
  <[b := mk_chunk size (c_free c) new (c_prev c)]>
    (<[new := mk_chunk (c_size c - size - CHUNK) true (c_next c) b]> m1).

Lemma split_store_tiled m p b post lim c size : tiled m p b (b :: post) lim -> 0 < b -> m !! 0 = None ->
  m !! b = Some c -> 0 <= size -> CHUNK + size <= c_size c ->
  let m' := split_store m b c size in
  tiled m' p b (b :: (b + CHUNK + size) :: post) lim /\
  (forall x, x ∈ post -> same_chunk m m' x) /\
  (forall x, x <> b -> x <> b + CHUNK + size -> x ∉ post -> m' !! x = m !! x).
Proof.
  intros (_ & c0 & Hc0 & Hs & Hp & Hn & H) Hb H0 Hc Hsz Hfit m'. rewrite Hc in Hc0. injection Hc0 as <-.
  set (new := b + CHUNK + size).
  assert (Hpost : forall x, x ∈ post -> x <> b /\ x <> new).
  { intros x Hx. destruct (tiled_bounds _ _ _ _ _ _ H Hx) as (cx & _ & _ & ? & _). unfold new, CHUNK in *. lia. }
  assert (Hnb : new <> b) by (unfold new, CHUNK; lia).
  assert (Hother : forall x, x <> b -> x <> new -> m' !! x =
    match m !! c_next c with
    | Some n => <[c_next c := mk_chunk (c_size n) (c_free n) (c_next n) new]> m
    | None => m end !! x).
  { intros x Hxb Hxn. unfold m', split_store. fold new. rewrite !lookup_insert_ne by done. done. }
  assert (Hhd : forall x, x ∈ post -> x = c_next c \/ m' !! x = m !! x).
  { intros x Hx. destruct (Hpost x Hx). rewrite Hother by done. destruct (m !! c_next c); [| by right].
    destruct (Z.eq_dec x (c_next c)); [by left | right]. by rewrite lookup_insert_ne. }
  split_and!.
  - split; [done |]. eexists. split; [unfold m', split_store; apply lookup_insert_eq |].
    cbn [c_size c_prev c_next]. split_and!; [lia | done | done |]. fold new.
    split; [done |]. eexists. split; [unfold m', split_store; fold new; rewrite lookup_insert_ne by done; apply lookup_insert_eq |].
    cbn [c_size c_prev c_next]. split_and!; [unfold CHUNK in *; lia | done | done |].
    replace (new + CHUNK + (c_size c - size - CHUNK)) with (b + CHUNK + c_size c) by (unfold new; lia).
    apply (tiled_set_prev m _ b); [done | |].
    + intros x Hx. destruct (Hhd x) as [-> | ?]; [destruct post; [by apply elem_of_nil in Hx | by right] | | done].
      exfalso. rewrite Hn in Hx. apply tiled_NoDup in H. destruct post; [by apply elem_of_nil in Hx |].
      apply NoDup_cons in H. simpl in Hx. tauto.
    + intros cn Hne Hcn. destruct post as [| n post]; [done |]. destruct H as (-> & cn' & Hcn' & _).
      destruct (Hpost (b + CHUNK + c_size c)) as [? ?]; [by left |]. simpl in Hn.
      rewrite Hother, Hn, Hcn by done. by rewrite lookup_insert_eq.
  - intros x Hx. destruct (tiled_bounds _ _ _ _ _ _ H Hx) as (cx & Hcx & _). destruct (Hpost x Hx).
    destruct (decide (x = c_next c)) as [-> |].
    + eexists _, _. split; [done |]. rewrite Hother, Hcx by done. rewrite lookup_insert_eq. done.
    + exists cx, cx. destruct (Hhd x Hx) as [? | ->]; done.
  - intros x Hxb Hxn Hx. rewrite Hother by done. destruct (m !! c_next c) eqn:E; [| done].
    rewrite lookup_insert_ne; [done |]. intros <-. rewrite Hn in Hx, E.
    destruct post; [simpl in E; congruence | apply Hx; by left].
Qed.

Lemma split_chunk_spec m p a pre b post lim c size :
  tiled m p a (pre ++ b :: post) lim -> 0 < a -> lim < 2 ^ 64 -> m !! 0 = None ->
  m !! b = Some c -> 0 <= size <= c_size c ->
  exists m' new c', __split_block m b size = Ret (b, m') /\ m' !! 0 = None /\
    tiled m' p a (pre ++ b :: new ++ post) lim /\
    m' !! b = Some c' /\ size <= c_size c' /\ c_free c' = c_free c /\
    (new = [] \/ exists n cn, new = [n] /\ m' !! n = Some cn /\ c_free cn = true) /\
    (forall x, x ∈ pre ++ post -> same_chunk m m' x) /\
    (forall x, ~ a <= x < lim -> m' !! x = m !! x).
Proof.
  intros Ht Ha Hlim H0 Hb Hsz.
  destruct (tiled_replace _ _ _ _ _ _ _ Ht) as (p' & Htb & Hab & Hrep & Hpre).
  pose proof Htb as (_ & c0 & Hc0 & Hs & Hp & Hn & H). rewrite Hb in Hc0. injection Hc0 as <-.
  pose proof (tiled_le _ _ _ _ _ H) as Hle.
  unfold __split_block, chunk_at. rewrite Hb. rb. unfold u64.
  rewrite (wrap_small 64 (c_size c - size)) by (unfold in_u, CHUNK in *; lia).
  destruct (Z.ltb_spec (c_size c - size) (CHUNK + SPLIT_THRESHOLD)) as [Hlt | Hge].
  { exists m, [], c. split; [done |]. split; [done |]. split; [done |]. split_and!; try done; try lia; [by left |].
    intros x Hx. destruct (tiled_bounds _ _ _ _ _ x Ht) as (cx & Hcx & _).
    { apply elem_of_app in Hx. apply elem_of_app. rewrite elem_of_cons. tauto. }
    by exists cx, cx. }
  unfold SPLIT_THRESHOLD in Hge.
  rewrite !wrap_small by (unfold in_u, CHUNK in *; lia).
  destruct (split_store_tiled m p' b post lim c size Htb) as (Ht' & Hpost & Hfr); [lia | done | done | lia | lia |].
  set (m' := split_store m b c size) in *. set (n := b + CHUNK + size) in *.
  assert (Hm' : (m1 ← (if negb (c_next c =? 0) then set_prev m (c_next c) n else mret m);
     mret (b, <[b := mk_chunk size (c_free c) n (c_prev c)]>
                (<[n := mk_chunk (c_size c - size - CHUNK) true (c_next c) b]> m1))) = Ret (b, m')).
  { unfold m', split_store. fold n. destruct (Z.eqb_spec (c_next c) 0) as [Hz | Hz]; cbn [negb].
    - rb. rewrite Hz, H0. done.
    - destruct post as [| y post]; [done |]. destruct H as (Ey & cy & Hcy & _).
      simpl in Hn. subst y. rewrite <- Hn in Hcy. rewrite (set_prev_Ret _ _ _ _ Hcy), Hcy. done. }
  assert (Hlookup : forall x, x ∈ pre -> m' !! x = m !! x).
  { intros x Hx. destruct (Hpre x Hx). apply Hfr; [unfold CHUNK in *; lia | unfold n, CHUNK in *; lia |].
    intros Hin. destruct (tiled_bounds _ _ _ _ _ _ H Hin) as (? & _ & _ & ? & _). unfold CHUNK in *. lia. }
  eexists m', [n], _. split; [exact Hm' |].
  assert (Hmn : m' !! n = Some (mk_chunk (c_size c - size - CHUNK) true (c_next c) b)).
  { unfold m', split_store. fold n. rewrite lookup_insert_ne by (unfold n, CHUNK; lia). apply lookup_insert_eq. }
  split_and!.
  - rewrite Hfr; [done | lia | unfold n, CHUNK; lia |]. intros Hin.
    destruct (tiled_bounds _ _ _ _ _ _ H Hin) as (? & _ & _ & ? & _). unfold CHUNK in *. lia.
  - by apply Hrep.
  - unfold m', split_store. apply lookup_insert_eq.
  - done.
  - done.
  - right. exists n. eexists. split; [done |]. split; [exact Hmn | done].
  - intros x [Hx | Hx]%elem_of_app; [| by apply Hpost].
    destruct (tiled_bounds _ _ _ _ _ x Ht) as (cx & Hcx & _); [apply elem_of_app; by left |].
    exists cx, cx. rewrite Hlookup by done. done.
  - intros x Hx. apply Hfr; [unfold CHUNK in *; lia | unfold n, CHUNK in *; lia |].
    intros Hin. destruct (tiled_bounds _ _ _ _ _ _ H Hin) as (? & _ & ? & ? & ?). unfold CHUNK in *. lia.
Qed.

(** ** The arenas *)

(** The memory of one arena and its chunks. *)
Record region := mk_region { r_arena : Z; r_base : Z; r_lim : Z; r_list : list Z }.

Fixpoint arena_chain (h : heap) (start : Z) (rs : list region) : Prop :=
  match rs with
  | [] => start = 0
  | r :: rs => start = r_arena r /\ r_arena r <> 0 /\
      exists x, arenas h !! r_arena r = Some x /\ a_base x = r_base r /\ a_lock x = 0 /\
                arena_chain h (a_next x) rs
  end.

Definition region_ok (m : chunks) (r : region) : Prop :=
  0 < r_base r /\ r_lim r < 2 ^ 64 /\ r_list r <> [] /\ tiled m 0 (r_base r) (r_list r) (r_lim r).

Definition apart (r1 r2 : region) : Prop := r_lim r1 <= r_base r2 \/ r_lim r2 <= r_base r1.

Record heap_inv (h : heap) (start : Z) (rs : list region) : Prop := {
  hi_chain : arena_chain h start rs;
  hi_arenas : NoDup (r_arena <$> rs);
  hi_null : store h !! 0 = None;
  hi_regions : Forall (region_ok (store h)) rs;
  hi_apart : forall i j ri rj, rs !! i = Some ri -> rs !! j = Some rj -> i <> j -> apart ri rj
}.

Definition chunks_of (rs : list region) : list Z := rs ≫= r_list.

Lemma arena_chain_store h m start rs : arena_chain h start rs -> arena_chain (with_store h m) start rs.
Proof.
  revert start. induction rs as [| r rs IH]; intros start; simpl; [done |].
  intros (? & ? & x & ? & ? & ? & Hc). split_and!; try done. exists x. split_and!; try done. by apply IH.
Qed.

Lemma arena_chain_length h start rs : arena_chain h start rs -> NoDup (r_arena <$> rs) ->
  (length rs < S (base.size (arenas h)))%nat.
Proof.
  intros Hc Hnd. rewrite <- (size_dom (arenas h)). rewrite <- (length_fmap r_arena rs).
  rewrite <- (size_list_to_set (C := gset Z) (r_arena <$> rs)) by done.
  assert (Hsub : list_to_set (C := gset Z) (r_arena <$> rs) ⊆ dom (arenas h)); [| apply subseteq_size in Hsub; lia].
  intros k Hk%elem_of_list_to_set. apply elem_of_dom. clear Hnd.
  revert start Hc. induction rs as [| r rs IH]; intros start Hc; [by apply elem_of_nil in Hk |].
  destruct Hc as (_ & _ & x & Hx & _ & _ & Hc). simpl in Hk.
  apply elem_of_cons in Hk as [-> | Hk]; [eauto | by eapply IH].
Qed.

Lemma with_arena_id h a x : arenas h !! a = Some x -> a_lock x = 0 -> with_arena h a (with_lock x 0) = h.
Proof.
  intros E Hl. unfold with_arena. destruct x as [sz b l n p], h as [m ar i]. simpl in *. subst l.
  unfold with_lock. simpl. by rewrite insert_id.
Qed.

Lemma with_store_id h : with_store h (store h) = h.
Proof. by destruct h. Qed.

(** The search returns the first fitting chunk in the order of the walk,
    split, or null and an unchanged heap when no chunk fits. *)
Lemma find_arena_spec fuel h start rs size :
  arena_chain h start rs -> Forall (region_ok (store h)) rs -> store h !! 0 = None -> 0 <= size ->
  (length rs < fuel)%nat ->
  (find_arena fuel h start size = Ret (0, h) /\ forall x, x ∈ chunks_of rs -> ~ fits (store h) size x) \/
  exists rs1 r rs2 pre b post m',
    rs = rs1 ++ r :: rs2 /\ r_list r = pre ++ b :: post /\ b <> 0 /\ fits (store h) size b /\
    (forall x, x ∈ chunks_of rs1 ++ pre -> ~ fits (store h) size x) /\
    __split_block (store h) b size = Ret (b, m') /\
    find_arena fuel h start size = Ret (b, with_store h m').
Proof.
  revert start rs. induction fuel as [| fuel IH]; intros start rs Hc Hok H0 Hsz Hf; [lia |].
  destruct rs as [| r rs]; cbn [find_arena].
  { simpl in Hc. subst start. left. split; [done |]. intros x Hx. by apply elem_of_nil in Hx. }
  destruct Hc as (-> & Hnz & x & Hx & Hbase & Hl & Hc). rewrite (proj2 (Z.eqb_neq _ _) Hnz).
  apply Forall_cons in Hok as [(Hb & Hlim & Hne & Ht) Hok].
  unfold arena_at. rewrite Hx. rb. rewrite Hl, spin_acquire_free, Hbase. rb.
  assert (Hhd : r_base r = hd 0 (r_list r)).
  { destruct (r_list r); [done |]. by destruct Ht. }
  rewrite Hhd. destruct (find_block_spec (S (base.size (store h))) (store h) 0 (r_base r) (r_list r) (r_lim r) size)
    as (b & -> & Hb'); [done | done | by eapply tiled_length |]. rb.
  rewrite spin_release_0. destruct Hb' as [[-> Hno] | (pre & post & El & Hfit & Hno)].
  - cbn [negb Z.eqb]. rewrite Z.eqb_refl. cbn [negb]. rewrite with_arena_id by done.
    destruct (IH (a_next x) rs Hc Hok H0 Hsz) as [[E Hall] | (rs1 & r' & rs2 & pre & b & post & m' & -> & ? & ? & ? & Hall & ? & E)];
      [simpl in Hf; lia | left | right].
    + split; [exact E |]. intros y [Hy | Hy]%elem_of_app; [by apply Hno | by apply Hall].
    + exists (r :: rs1), r', rs2, pre, b, post, m'. split_and!; try done. intros y.
      change (chunks_of (r :: rs1)) with (r_list r ++ chunks_of rs1). rewrite <- app_assoc.
      intros [Hy | Hy]%elem_of_app; [by apply Hno | by apply Hall].
  - assert (Hbz : b <> 0) by (destruct Hfit as (c & Hc' & _); congruence).
    rewrite (proj2 (Z.eqb_neq b 0) Hbz). cbn [negb]. right. destruct Hfit as (c & Hcb & Hcf & Hcs).
    rewrite El in Ht.
    destruct (split_chunk_spec (store h) 0 (r_base r) pre b post (r_lim r) c size Ht Hb Hlim H0 Hcb)
      as (m' & new & c' & Hsplit & _); [lia |].
    exists [], r, rs, pre, b, post, m'. split_and!; try done.
    + by exists c.
    + rewrite Hsplit. rb. f_equal. f_equal. apply (with_arena_id (with_store h m')); done.
Qed.

Lemma in_region m r x : region_ok m r -> x ∈ r_list r -> r_base r <= x < r_lim r.
Proof.
  intros (_ & _ & _ & Ht) Hx. destruct (tiled_bounds _ _ _ _ _ _ Ht Hx) as (c & _ & ? & ? & ?).
  unfold CHUNK in *. lia.
Qed.

Lemma in_chunks rs x : x ∈ chunks_of rs <-> exists i r, rs !! i = Some r /\ x ∈ r_list r.
Proof.
  unfold chunks_of. rewrite list_elem_of_bind. split.
  - intros (r & Hx & (i & Hr)%list_elem_of_lookup). eauto.
  - intros (i & r & Hr & Hx). exists r. split; [done |]. by eapply list_elem_of_lookup_2.
Qed.

(** Chunks of different arenas are apart too. *)
Lemma chunks_apart h start rs x y cx cy : heap_inv h start rs ->
  x ∈ chunks_of rs -> y ∈ chunks_of rs -> x <> y -> store h !! x = Some cx -> store h !! y = Some cy ->
  x + CHUNK + c_size cx <= y \/ y + CHUNK + c_size cy <= x.
Proof.
  intros [_ _ _ Hok Hap] (i & ri & Hi & Hx)%in_chunks (j & rj & Hj & Hy)%in_chunks Hne Ex Ey.
  pose proof (Forall_lookup_1 _ _ _ _ Hok Hi) as (_ & _ & _ & Hti).
  pose proof (Forall_lookup_1 _ _ _ _ Hok Hj) as (_ & _ & _ & Htj).
  destruct (decide (i = j)) as [-> | Hij].
  - simplify_eq. by eapply (tiled_apart (store h)).
  - destruct (tiled_bounds _ _ _ _ _ _ Hti Hx) as (c1 & ? & ? & ? & ?), (tiled_bounds _ _ _ _ _ _ Htj Hy) as (c2 & ? & ? & ? & ?).
    destruct (Hap _ _ _ _ Hi Hj Hij); simplify_eq; unfold CHUNK in *; lia.
Qed.

Lemma set_free_tiled m b f c p a l lim : m !! b = Some c -> tiled m p a l lim ->
  tiled (<[b := mk_chunk (c_size c) f (c_next c) (c_prev c)]> m) p a l lim.
Proof.
  intros Hb. revert p a. induction l as [| x l IH]; intros p a; simpl; [done |].
  intros (-> & c' & Hc' & Hs & Hp & Hn & H). split; [done |].
  destruct (Z.eq_dec a b) as [-> | Hne].
  - simplify_eq. eexists. split; [apply lookup_insert_eq |]. split_and!; try done. by apply IH.
  - exists c'. rewrite lookup_insert_ne by done. split_and!; try done. by apply IH.
Qed.

Lemma set_free_inv h start rs b c f : heap_inv h start rs -> store h !! b = Some c ->
  heap_inv (with_store h (<[b := mk_chunk (c_size c) f (c_next c) (c_prev c)]> (store h))) start rs.
Proof.
  intros [Hc Hnd H0 Hok Hap] Hb. split; [by apply arena_chain_store | done | | | done].
  - cbn [store with_store]. rewrite lookup_insert_ne; [done | congruence].
  - eapply Forall_impl; [exact Hok |]. intros r (? & ? & ? & Ht). split_and!; try done. by apply set_free_tiled.
Qed.

(** A region after the split of one of its chunks. *)
Definition with_list (r : region) (l : list Z) : region := mk_region (r_arena r) (r_base r) (r_lim r) l.

Lemma split_inv h start rs1 r rs2 pre b post c size m' new :
  heap_inv h start (rs1 ++ r :: rs2) -> r_list r = pre ++ b :: post -> 
  store h !! b = Some c -> 0 <= size <= c_size c ->
  m' !! 0 = None -> tiled m' 0 (r_base r) (pre ++ b :: new ++ post) (r_lim r) ->
  (forall x, ~ r_base r <= x < r_lim r -> m' !! x = store h !! x) ->
  heap_inv (with_store h m') start (rs1 ++ with_list r (pre ++ b :: new ++ post) :: rs2).
Proof.
  intros [Hc Hnd H0 Hok Hap] El Hb Hsz H0' Ht Hfr.
  assert (Hmap : forall (r' : region) {A} (f : region -> A), f r' = f r -> f <$> (rs1 ++ r' :: rs2) = f <$> (rs1 ++ r :: rs2)).
  { intros r' A f E. rewrite !fmap_app. simpl. by rewrite E. }
  split.
  - apply arena_chain_store. clear -Hc. revert start Hc. induction rs1 as [| r1 rs1 IH]; intros start; simpl; [done |].
    intros (? & ? & x & ? & ? & ? & Hc). split_and!; try done. exists x. split_and!; try done. by apply IH.
  - by rewrite (Hmap _ _ r_arena).
  - done.
  - apply Forall_lookup_2. intros i ri Hi. destruct (decide (i = length rs1)) as [-> | Hne].
    + rewrite list_lookup_middle in Hi by done. injection Hi as <-.
      pose proof (Forall_lookup_1 _ _ _ _ Hok (list_lookup_middle rs1 rs2 r _ eq_refl)) as (? & ? & _ & _).
      split_and!; try done. cbn [with_list r_list]. by destruct pre.
    + assert (Hold : (rs1 ++ r :: rs2) !! i = Some ri).
      { rewrite <- Hi. apply lookup_app_Some in Hi as [Hi | [Hge Hi]]; [by rewrite !lookup_app_l by (by eapply lookup_lt_Some) |].
        rewrite !lookup_app_r by done. destruct (i - length rs1)%nat eqn:E; [lia | done]. }
      pose proof (Forall_lookup_1 _ _ _ _ Hok Hold) as Hri. pose proof Hri as (? & ? & ? & Hti).
      split_and!; try done. apply (tiled_frame (store h)); [| done]. intros x Hx. apply Hfr.
      pose proof (in_region _ _ _ Hri Hx).
      destruct (Hap _ _ _ _ Hold (list_lookup_middle rs1 rs2 r _ eq_refl) Hne) as [? | ?]; lia.
  - intros i j ri rj Hi Hj Hij.
    assert (Hg : forall k rk, (rs1 ++ with_list r (pre ++ b :: new ++ post) :: rs2) !! k = Some rk ->
      exists rk', (rs1 ++ r :: rs2) !! k = Some rk' /\ r_base rk' = r_base rk /\ r_lim rk' = r_lim rk).
    { intros k rk Hk. apply lookup_app_Some in Hk as [Hk | [Hge Hk]].
      - exists rk. by rewrite lookup_app_l by (by eapply lookup_lt_Some).
      - rewrite lookup_app_r by done. destruct (k - length rs1)%nat; [injection Hk as <-; by exists r | by exists rk]. }
    destruct (Hg _ _ Hi) as (ri' & Hi' & ? & ?), (Hg _ _ Hj) as (rj' & Hj' & ? & ?).
    pose proof (Hap _ _ _ _ Hi' Hj' Hij) as Ha. unfold apart in *. lia.
Qed.

Lemma chunks_of_middle rs1 r rs2 : chunks_of (rs1 ++ r :: rs2) = chunks_of rs1 ++ r_list r ++ chunks_of rs2.
Proof. unfold chunks_of. by rewrite bind_app. Qed.

Lemma same_fits m m' size x : same_chunk m m' x -> fits m' size x -> fits m size x.
Proof. intros (c & c' & E & E' & Hs & Hf) (c2 & E2 & ? & ?). simplify_eq. exists c. split_and!; [done | congruence | lia]. Qed.

Lemma first_unique {A} (P : A -> Prop) l1 b r1 l2 b2 r2 :
  l1 ++ b :: r1 = l2 ++ b2 :: r2 -> P b -> P b2 ->
  (forall x, x ∈ l1 -> ~ P x) -> (forall x, x ∈ l2 -> ~ P x) -> b = b2.
Proof.
  revert l2. induction l1 as [| x l1 IH]; intros [| y l2] E Hb Hb2 H1 H2; simplify_eq/=; [done | | |].
  - exfalso. apply (H2 y); [by left | done].
  - exfalso. apply (H1 b2); [by left | done].
  - apply (IH l2); [done .. | |]; intros z Hz; [apply H1 | apply H2]; by right.
Qed.

(** What a successful search did to the heap. *)
Record found (h : heap) (rs : list region) (size b : Z) (h' : heap) (rs' : list region) : Prop := {
  fo_null : b <> 0;
  fo_old : b ∈ chunks_of rs /\ fits (store h) size b;
  fo_new : exists c, store h' !! b = Some c /\ c_free c = true /\ size <= c_size c;
  fo_rest : initialized h' = initialized h /\ arenas h' = arenas h;
  fo_same : forall x, x ∈ chunks_of rs -> x <> b -> same_chunk (store h) (store h') x;
  fo_incl : forall x, x ∈ chunks_of rs -> x ∈ chunks_of rs';
  fo_added : forall x, x ∈ chunks_of rs' ->
    x ∈ chunks_of rs \/ exists c, store h' !! x = Some c /\ c_free c = true;
  fo_first : exists l r, chunks_of rs' = l ++ b :: r /\ forall x, x ∈ l -> ~ fits (store h') size x
}.

Lemma find_free_spec h start rs size : heap_inv h start rs -> 0 <= size ->
  (__find_free h start size = Ret (0, h) /\ forall x, x ∈ chunks_of rs -> ~ fits (store h) size x) \/
  exists b h' rs', __find_free h start size = Ret (b, h') /\ heap_inv h' start rs' /\ found h rs size b h' rs'.
Proof.
  intros Hinv Hsz. pose proof Hinv as [Hc Hnd H0 Hok Hap]. unfold __find_free.
  destruct (find_arena_spec (S (base.size (arenas h))) h start rs size)
    as [? | (rs1 & r & rs2 & pre & b & post & m' & -> & El & Hbz & Hfit & Hno & Hs & ->)];
    [done .. | by eapply arena_chain_length | by left | right].
  pose proof (Forall_lookup_1 _ _ _ _ Hok (list_lookup_middle rs1 rs2 r _ eq_refl)) as (Hb0 & Hlim & _ & Ht).
  rewrite El in Ht. pose proof Hfit as (c & Hcb & Hcf & Hcs).
  destruct (split_chunk_spec (store h) 0 (r_base r) pre b post (r_lim r) c size Ht Hb0 Hlim H0 Hcb)
    as (m2 & new & c' & Hs2 & H0' & Ht' & Hb' & Hsz' & Hcf' & Hnew & Hsame & Hfr); [lia |].
  rewrite Hs in Hs2. injection Hs2 as <-.
  set (r' := with_list r (pre ++ b :: new ++ post)).
  exists b, (with_store h m'), (rs1 ++ r' :: rs2). split; [done |].
  split; [exact (split_inv h start rs1 r rs2 pre b post c size m' new Hinv El Hcb (conj Hsz Hcs) H0' Ht' Hfr) |].
  assert (Hin : forall x, x ∈ chunks_of (rs1 ++ r :: rs2) -> x <> b -> same_chunk (store h) m' x).
  { intros x Hx Hxb. rewrite chunks_of_middle, El, !elem_of_app, elem_of_cons in Hx.
    assert (Hout : forall i ri, (rs1 ++ r :: rs2) !! i = Some ri -> i <> length rs1 -> x ∈ r_list ri -> same_chunk (store h) m' x).
    { intros i ri Hi Hne Hxi. pose proof (Forall_lookup_1 _ _ _ _ Hok Hi) as Hri.
      pose proof (in_region _ _ _ Hri Hxi) as Hr. destruct Hri as (_ & _ & _ & Hti).
      destruct (tiled_bounds _ _ _ _ _ _ Hti Hxi) as (cx & Hcx & _). exists cx, cx. rewrite Hfr; [done |].
      destruct (Hap _ _ _ _ Hi (list_lookup_middle rs1 rs2 r _ eq_refl) Hne); lia. }
    destruct Hx as [Hx | [[Hx | [? | Hx]] | Hx]]; [| apply Hsame, elem_of_app; by left | done | apply Hsame, elem_of_app; by right |].
    - apply in_chunks in Hx as (i & ri & Hi & Hxi). pose proof (lookup_lt_Some _ _ _ Hi).
      apply (Hout i ri); [by rewrite lookup_app_l | lia | done].
    - apply in_chunks in Hx as (i & ri & Hi & Hxi). apply (Hout (length rs1 + S i)%nat ri); [| lia | done].
      rewrite lookup_app_r by lia. replace (length rs1 + S i - length rs1)%nat with (S i) by lia. done. }
  split; cbn [store with_store].
  - done.
  - split; [| done]. rewrite chunks_of_middle, El, !elem_of_app, elem_of_cons. tauto.
  - exists c'. split_and!; [done | congruence | done].
  - done.
  - exact Hin.
  - intros x. rewrite !chunks_of_middle, El. cbn [r' with_list r_list]. rewrite !elem_of_app, !elem_of_cons, !elem_of_app. tauto.
  - intros x. rewrite !chunks_of_middle, El. cbn [r' with_list r_list]. rewrite !elem_of_app, !elem_of_cons, !elem_of_app.
    destruct Hnew as [-> | (n & cn & -> & Hn & Hfn)]; [rewrite elem_of_nil; tauto |].
    rewrite list_elem_of_singleton. intros Hx.
    destruct (decide (x = n)) as [-> |]; [right; eauto | left; tauto].
  - exists (chunks_of rs1 ++ pre), ((new ++ post) ++ chunks_of rs2). split.
    + rewrite chunks_of_middle. cbn [r' with_list r_list]. rewrite <- !app_assoc. simpl. by rewrite <- !app_assoc.
    + intros x Hx Hf. apply (Hno x Hx). eapply same_fits; [| exact Hf]. apply Hin.
      * rewrite chunks_of_middle, El, !elem_of_app. rewrite elem_of_app in Hx. tauto.
      * intros ->. exact (Hno b Hx Hfit).
Qed.

Section clients.
Context {S : Type} `{PageSource S}.

(** C7: when a chunk of the arenas fits the request, [kmalloc] returns the
    memory behind the header of the first such chunk, which was free, is at
    least as large as requested and taken afterwards; it overlaps no other
    chunk, no chunk that was in use is moved, resized or freed, and the
    tiling of the arenas is kept, whether or not the chunk was split. *)
Theorem kmalloc_correct (entry : Z * Z) (h : heap) (s : S) (rs : list region) (size flags : Z) :
  let start := if negb (Z.land flags MM_HIGH_PRIO =? 0) then __high_prio else __mem in
  heap_inv h start rs -> 0 <= size -> (exists x, x ∈ chunks_of rs /\ fits (store h) size x) ->
  exists b h' rs' c,
    kmalloc entry h s size flags = Ret (b + CHUNK, negb (Z.land flags MM_ZERO =? 0), h', s) /\
    heap_inv h' start rs' /\ b ∈ chunks_of rs /\ b ∈ chunks_of rs' /\ fits (store h) size b /\
    store h' !! b = Some c /\ c_free c = false /\ size <= c_size c /\
    (forall x, x ∈ chunks_of rs -> x <> b -> x ∈ chunks_of rs' /\ same_chunk (store h) (store h') x) /\
    (forall y cy, y ∈ chunks_of rs' -> y <> b -> store h' !! y = Some cy ->
       b + CHUNK + c_size c <= y \/ y + CHUNK + c_size cy <= b).
Proof.
  intros start Hinv Hsz (x & Hx & Hfit). unfold kmalloc. fold start.
  destruct (find_free_spec h start rs size Hinv Hsz) as [[_ Hno] | (b & h1 & rs' & -> & Hinv1 & Hf)];
    [exfalso; exact (Hno x Hx Hfit) |].
  rb. destruct Hf as [Hbz [Hbold Hbfit] (c & Hc & Hcf & Hcs) _ Hsame Hincl _ _].
  rewrite (proj2 (Z.eqb_neq b 0) Hbz). rb. unfold set_free, chunk_at. rewrite Hc. rb. rb.
  pose proof (set_free_inv h1 start rs' b c false Hinv1 Hc) as Hinv2. set (h2 := with_store h1 _) in *.
  assert (Hcb : store h2 !! b = Some (mk_chunk (c_size c) false (c_next c) (c_prev c))) by apply lookup_insert_eq.
  eexists b, h2, rs', _. split; [done |]. split; [done |].
  split; [done |]. split; [by apply Hincl |]. split; [done |]. split; [exact Hcb |]. split; [done |]. split; [done |].
  split.
  - intros y Hy Hyb. split; [by apply Hincl |]. destruct (Hsame y Hy Hyb) as (c1 & c2 & ? & ? & ? & ?).
    exists c1, c2. split_and!; try done. unfold h2. cbn [store with_store]. by rewrite lookup_insert_ne.
  - intros y cy Hy Hyb Hcy. apply (chunks_apart h2 start rs' b y _ cy Hinv2); auto.
Qed.

(** The search releases the arena lock before its caller marks the chunk
    as taken: a second request of the same size that runs in between gets
    the same chunk. *)
Theorem kmalloc_same_chunk_twice (h h1 : heap) (start : Z) (rs : list region) (size b : Z) :
  heap_inv h start rs -> 0 <= size ->
  __find_free h start size = Ret (b, h1) -> b <> 0 ->
  exists h2, __find_free h1 start size = Ret (b, h2).
Proof.
  intros Hinv Hsz E Hb.
  destruct (find_free_spec h start rs size Hinv Hsz) as [[E' _] | (b' & h1' & rs' & E' & Hinv1 & Hf)];
    rewrite E in E'; injection E' as -> ->; [done |].
  destruct Hf as [_ [Hbold _] (c & Hc & Hcf & Hcs) _ _ Hincl _ (l & r & El & Hno)].
  assert (Hfit : fits (store h1') size b') by (by exists c).
  pose proof Hinv1 as [Hch Hnd H0 Hok _]. unfold __find_free.
  destruct (find_arena_spec (Datatypes.S (base.size (arenas h1'))) h1' start rs' size)
    as [[_ Hno2] | (rs1 & r1 & rs2 & pre & b2 & post & m' & -> & El2 & _ & Hfit2 & Hno2 & _ & E2)];
    [done .. | by eapply arena_chain_length | exfalso; exact (Hno2 b' (Hincl _ Hbold) Hfit) |].
  assert (b' = b2) as ->; [| eauto].
  apply (first_unique (fits (store h1') size) l b' r (chunks_of rs1 ++ pre) b2 (post ++ chunks_of rs2)); [| done ..].
  rewrite <- El, chunks_of_middle, El2. rewrite <- !app_assoc. done.
Qed.
End clients.

(** [__alloc_arena] overwrites the link of the first arena: whatever arenas
    followed it are not searched any more, and the walk after the new arena
    goes on at the stale content of its [next] field. *)
Lemma alloc_arena_links {S} `{PageSource S} entry h (s : S) h' s' x :
  arenas h !! __mem = Some x -> a_lock x = 0 -> __alloc_arena entry h s = Ret (h', s') -> fst entry <> __mem ->
  exists x' y, arenas h' !! __mem = Some x' /\ a_next x' = fst entry /\
    arenas h' !! fst entry = Some y /\ a_next y = snd entry.
Proof.
  intros Hx Hl E Hne. unfold __alloc_arena in E. destruct (initialized h); [| done]. cbn [negb] in E.
  apply bind_Ret in E as ([mem s1] & _ & E). unfold arena_at in E. rewrite Hx in E.
  rewrite ret_bind in E. cbn beta in E. rewrite Hl, spin_acquire_free, ret_bind in E.
  injection E as <- _. eexists _, _. cbn [arenas]. split; [apply lookup_insert_eq |]. split; [done |].
  split; [rewrite lookup_insert_ne by done; apply lookup_insert_eq | done].
Qed.

#[local] Existing Instance PageAlloc.page_alloc_source.

(** One arena of 64 bytes: a used chunk and a free one of 9 bytes. *)
Definition sample_heap : heap :=
  mk_heap (list_to_map [(1000, mk_chunk 5 false 1030 0); (1030, mk_chunk 95 true 0 1000)])
          (list_to_map [(__mem, mk_arena 150 1000 0 0 0)]) true.

Lemma sample_heap_inv : heap_inv sample_heap __mem [mk_region __mem 1000 1150 [1000; 1030]].
Proof.
  split.
  - split; [done |]. split; [done |]. exists (mk_arena 150 1000 0 0 0). done.
  - apply NoDup_singleton.
  - done.
  - constructor; [| constructor]. split; [done |]. split; [done |]. split; [done |].
    split; [done |]. eexists. split; [reflexivity |]. split_and!; [done | done | done |].
    split; [done |]. eexists. split; [reflexivity |]. done.
  - intros [| i] [| j] ri rj Hi Hj Hij; done.
Qed.

Lemma kmalloc_correct_witness :
  exists h' rs', kmalloc (0, 0) sample_heap PageAlloc.small_state 20 0 = Ret (1055, false, h', PageAlloc.small_state) /\
    heap_inv h' __mem rs'.
Proof.
  destruct (kmalloc_correct (0, 0) sample_heap PageAlloc.small_state _ 20 0 sample_heap_inv)
    as (b & h' & rs' & c & E & Hinv & Hb & _ & Hfit & _); [done | |].
  - exists 1030. split; [right; left | eexists; split; [reflexivity |]; done].
  - assert (b = 1030) as ->.
    { change (b ∈ [1000; 1030]) in Hb. apply elem_of_cons in Hb as [-> | Hb].
      - destruct Hfit as (c1 & Hc & Hf & _). vm_compute in Hc. injection Hc as <-. discriminate Hf.
      - apply list_elem_of_singleton in Hb. exact Hb. }
    exists h', rs'. split; [exact E | exact Hinv].
Defined.

Lemma kmalloc_same_chunk_twice_witness :
  exists h1 h2, __find_free sample_heap __mem 20 = Ret (1030, h1) /\ __find_free h1 __mem 20 = Ret (1030, h2).
Proof.
  destruct (__find_free sample_heap __mem 20) as [[b h1] | | |] eqn:E; [| exfalso; vm_compute in E; discriminate E ..].
  assert (b = 1030) as -> by (vm_compute in E; congruence).
  destruct (kmalloc_same_chunk_twice sample_heap h1 __mem _ 20 1030 sample_heap_inv) as (h2 & E2);
    [discriminate | exact E | discriminate |].
  exists h1, h2. split; [reflexivity | exact E2].
Defined.

End Heap.
