(* ===== verification/Mts.v ===== *)
(** * The multi-CPU task scheduler (sched/mts.c)

    Every CPU has a run queue: a heap of ready entries keyed by scheduling
    priority, and a list of blocked ones.  Entries ([sched_task]) live in a
    store under their addresses, tasks under theirs, list links in the store
    of Dlist; the entry cache is any [EntrySource].  The calling CPU is the
    argument [me].  Floating-point arithmetic is IEEE single and double
    precision, rounding to nearest. *)

From S2P Require Import Prelude Bheap Dlist Locks Memory PageAlloc Slab.
From Stdlib Require Import SpecFloat.
Import Dlist Locks Memory.

Module Mts.

(** ** Constants *)

Definition ST_OK : Z := 0.
Definition ST_SWITCH : Z := 1.
Definition ST_ENOMEM : Z := - ENOMEM.
Definition ST_EINVAL : Z := - EINVAL.
Definition ST_ENOENT : Z := - ENOENT.

Definition ST_ACTIVE : Z := 2.
Definition ST_READY : Z := 4.
Definition ST_BLOCKED : Z := 8.
Definition ST_NEED_RESCHED : Z := 16.
Definition ST_PREEMPTED : Z := 32.
Definition ST_UNSCHEDULED : Z := 64.

Definition SP_BATCH : Z := 5.
Definition SP_BASE : Z := 7.
Definition SP_INTERACTIVE : Z := 10.
Definition SPB_BIRTH : Z := 2.
Definition SPB_SLEEP : Z := 3.

Definition STS_BASE : Z := 10.
Definition STS_BATCH : Z := 15.
Definition STS_NORMAL : Z := 5.

Definition SCHED_NORMAL : Z := 0.
Definition SCHED_BATCH : Z := 1.

Definition MAX_CPU : Z := 64.

(** ** State *)

Record heur := mk_heur {
  blocked : Z;
  total_rt : Z;
  unused_rt : Z;
  total_blocked : Z;
  total_running : Z;
  total_alloc : Z;
  htick : Z;
  birth : Z;
  unfair : Z;
  h_nexec : Z
}.

Record sched_task := mk_st {
  ty : Z;
  state : Z;
  task : Z;
  prio : Z;
  sprio : Z;
  nice : Z;
  timeslice : Z;
  exec_rt : Z;
  rt_heur : heur;
  st_pid : Z
}.

Record run_queue := mk_rq {
  pqueue : option Bheap.bheap;
  wait_list : Z;
  active : Z;
  idle : Z;
  tick : Z;
  ntasks : Z;
  nready : Z;
  nblocked : Z;
  nexec : Z;
  rprio : Z;
  lowest : Z;
  iactive : bool;
  lock : Z
}.

(** What the scheduler reads of a [task_t]. *)
Record task_t := mk_task { pid : Z; cpu : Z }.

(** [offsetof(sched_task_t, list)]: where the links of an entry are. *)
Definition LIST (t : Z) : Z := t + 128.
Definition container_of_list (iter : Z) : Z := iter - 128.

Definition set_blocked (v : Z) (h : heur) : heur := mk_heur v (total_rt h) (unused_rt h) (total_blocked h) (total_running h) (total_alloc h) (htick h) (birth h) (unfair h) (h_nexec h).
Definition set_unused_rt (v : Z) (h : heur) : heur := mk_heur (blocked h) (total_rt h) v (total_blocked h) (total_running h) (total_alloc h) (htick h) (birth h) (unfair h) (h_nexec h).
Definition set_total_blocked (v : Z) (h : heur) : heur := mk_heur (blocked h) (total_rt h) (unused_rt h) v (total_running h) (total_alloc h) (htick h) (birth h) (unfair h) (h_nexec h).
Definition set_total_running (v : Z) (h : heur) : heur := mk_heur (blocked h) (total_rt h) (unused_rt h) (total_blocked h) v (total_alloc h) (htick h) (birth h) (unfair h) (h_nexec h).
Definition set_total_alloc (v : Z) (h : heur) : heur := mk_heur (blocked h) (total_rt h) (unused_rt h) (total_blocked h) (total_running h) v (htick h) (birth h) (unfair h) (h_nexec h).
Definition set_htick (v : Z) (h : heur) : heur := mk_heur (blocked h) (total_rt h) (unused_rt h) (total_blocked h) (total_running h) (total_alloc h) v (birth h) (unfair h) (h_nexec h).
Definition set_h_nexec (v : Z) (h : heur) : heur := mk_heur (blocked h) (total_rt h) (unused_rt h) (total_blocked h) (total_running h) (total_alloc h) (htick h) (birth h) (unfair h) v.
Definition set_state (v : Z) (t : sched_task) : sched_task := mk_st (ty t) v (task t) (prio t) (sprio t) (nice t) (timeslice t) (exec_rt t) (rt_heur t) (st_pid t).
Definition set_exec_rt (v : Z) (t : sched_task) : sched_task := mk_st (ty t) (state t) (task t) (prio t) (sprio t) (nice t) (timeslice t) v (rt_heur t) (st_pid t).
Definition set_rt_heur (v : heur) (t : sched_task) : sched_task := mk_st (ty t) (state t) (task t) (prio t) (sprio t) (nice t) (timeslice t) (exec_rt t) v (st_pid t).
Definition set_prios (ty' p sp ts : Z) (t : sched_task) : sched_task :=
  mk_st ty' (state t) (task t) p sp (nice t) ts (exec_rt t) (rt_heur t) (st_pid t).
Definition set_pqueue (v : option Bheap.bheap) (q : run_queue) : run_queue := mk_rq v (wait_list q) (active q) (idle q) (tick q) (ntasks q) (nready q) (nblocked q) (nexec q) (rprio q) (lowest q) (iactive q) (lock q).
Definition set_tick (v : Z) (q : run_queue) : run_queue := mk_rq (pqueue q) (wait_list q) (active q) (idle q) v (ntasks q) (nready q) (nblocked q) (nexec q) (rprio q) (lowest q) (iactive q) (lock q).
Definition set_ntasks (v : Z) (q : run_queue) : run_queue := mk_rq (pqueue q) (wait_list q) (active q) (idle q) (tick q) v (nready q) (nblocked q) (nexec q) (rprio q) (lowest q) (iactive q) (lock q).
Definition set_nready (v : Z) (q : run_queue) : run_queue := mk_rq (pqueue q) (wait_list q) (active q) (idle q) (tick q) (ntasks q) v (nblocked q) (nexec q) (rprio q) (lowest q) (iactive q) (lock q).
Definition set_nblocked (v : Z) (q : run_queue) : run_queue := mk_rq (pqueue q) (wait_list q) (active q) (idle q) (tick q) (ntasks q) (nready q) v (nexec q) (rprio q) (lowest q) (iactive q) (lock q).
Definition set_nexec (v : Z) (q : run_queue) : run_queue := mk_rq (pqueue q) (wait_list q) (active q) (idle q) (tick q) (ntasks q) (nready q) (nblocked q) v (rprio q) (lowest q) (iactive q) (lock q).
Definition set_rprio (v : Z) (q : run_queue) : run_queue := mk_rq (pqueue q) (wait_list q) (active q) (idle q) (tick q) (ntasks q) (nready q) (nblocked q) (nexec q) v (lowest q) (iactive q) (lock q).
Definition set_lowest (v : Z) (q : run_queue) : run_queue := mk_rq (pqueue q) (wait_list q) (active q) (idle q) (tick q) (ntasks q) (nready q) (nblocked q) (nexec q) (rprio q) v (iactive q) (lock q).
Definition set_lock (v : Z) (q : run_queue) : run_queue := mk_rq (pqueue q) (wait_list q) (active q) (idle q) (tick q) (ntasks q) (nready q) (nblocked q) (nexec q) (rprio q) (lowest q) (iactive q) v.
Definition set_active (a : Z) (i : bool) (q : run_queue) : run_queue :=
  mk_rq (pqueue q) (wait_list q) a (idle q) (tick q) (ntasks q) (nready q) (nblocked q) (nexec q) (rprio q)
    (lowest q) i (lock q).

(** ** Single-precision arithmetic *)

Definition f32 (z : Z) : spec_float := binary_normalize 24 128 z 0 false.
Definition f64 (z : Z) : spec_float := binary_normalize 53 1024 z 0 false.
Definition fadd := SFadd 24 128.
Definition fsub := SFsub 24 128.
Definition fmul := SFmul 24 128.
Definition fdiv := SFdiv 24 128.

(** Conversion to [int]: towards zero; the processor's answer to a value
    that does not fit (and to a NaN) is [INT_MIN]. *)
Definition int_of (x : spec_float) : Z :=
  match x with
  | S754_zero _ => 0
  | S754_finite s m e =>
      let a := if e <? 0 then Z.pos m / 2 ^ (- e) else Z.pos m * 2 ^ e in
      let v := if s then - a else a in
      if (INT_MIN <=? v) && (v <=? INT_MAX) then v else INT_MIN
  | _ => INT_MIN
  end.

(** [1.03f], [0.97f] and the double [1.10]. *)
Definition f_1_03 : spec_float := fdiv (f32 103) (f32 100).
Definition f_0_97 : spec_float := fdiv (f32 97) (f32 100).
Definition d_1_10 : spec_float := SFdiv 53 1024 (f64 110) (f64 100).

(** ** Priorities *)

Definition runtime_utilisation (t : sched_task) : Z :=
  int_of (fmul (fdiv (f32 (total_running (rt_heur t))) (f32 (total_alloc (rt_heur t)))) (f32 100)).

(** The branch of a task that uses at least 90% of its time. *)
Definition adjust_batch (q : run_queue) (t : sched_task) : Z * run_queue * sched_task :=
  let tprio := fadd (f32 (rprio q)) (f32 (prio t)) in
  let p2t := fdiv (f32 (u64 (tick q - birth (rt_heur t)))) tprio in
  let tu := fdiv (f32 (total_running (rt_heur t))) (fmul p2t (f32 (prio t))) in
  let '(ret, sp, ts) :=
    if SFltb f_1_03 tu then (ST_SWITCH, s32 (lowest q - 1), STS_BATCH)
    else if SFltb tu f_0_97 then
      (ST_OK, int_of (SFmul 53 1024 (f64 (SP_BATCH + nice t)) d_1_10),
       u64 (Z.max (int_of (fsub (fmul p2t (f32 (prio t))) (f32 (total_running (rt_heur t))))) STS_BATCH))
    else (ST_OK, sprio t, timeslice t) in
  let t := set_prios SCHED_BATCH (s32 (SP_BATCH + nice t)) sp ts t in
  let q := set_rprio (s64 (rprio q + prio t)) q in
  (ret, (if sprio t <? lowest q then set_lowest (sprio t) q else q), t).

(** [q] is the run queue of the calling CPU. *)
Definition __adjust_priority (q : run_queue) (t : sched_task) : out (Z * run_queue * sched_task) :=
  _ ← kassert (negb (total_alloc (rt_heur t) =? 0));
  mret (
  if u64 (tick q - birth (rt_heur t)) <? 20 then
    let p := s32 (SP_BASE + nice t) in
    (ST_OK, set_rprio (s64 (rprio q + p)) q, set_prios (ty t) p p (timeslice t) t)
  else
    let rtu := runtime_utilisation t in
    let bonus := if (state t =? ST_BLOCKED) && (ty t =? SCHED_BATCH) then s32 (nice t + SPB_SLEEP) else nice t in
    if (rtu <=? 40) && (STS_BASE <? total_running (rt_heur t)) then
      let p := s32 (SP_INTERACTIVE + bonus) in
      (ST_OK, set_rprio (s64 (rprio q + p)) q, set_prios SCHED_NORMAL p p STS_NORMAL t)
    else if 90 <=? rtu then adjust_batch q t
    else
      let p := s32 (SP_BASE + bonus) in
      (ST_OK, set_rprio (s64 (rprio q + p)) q, set_prios (ty t) p p STS_BASE t)).

(** ** What the priority adjustment keeps *)

(** The fields of a queue that only selection and blocking change. *)
Definition same_ctl (q q' : run_queue) : Prop :=
  pqueue q' = pqueue q /\ wait_list q' = wait_list q /\ active q' = active q /\ idle q' = idle q /\
  iactive q' = iactive q /\ lock q' = lock q.

Lemma adjust_spec q t : total_alloc (rt_heur t) <> 0 ->
  exists r q' t', __adjust_priority q t = Ret (r, q', t') /\ same_ctl q q' /\ tick q' = tick q /\
    nready q' = nready q /\ task t' = task t /\ state t' = state t /\ rt_heur t' = rt_heur t /\ exec_rt t' = exec_rt t /\
    nice t' = nice t.
Proof.
  intros Ha. unfold __adjust_priority, adjust_batch. rewrite (proj2 (Z.eqb_neq _ _) Ha). unfold kassert. cbn [negb]. rb.
  repeat match goal with |- context [if ?b then _ else _] => destruct b end; cbn;
    do 3 eexists; (split; [reflexivity |]); unfold same_ctl; cbn; tauto.
Qed.


Lemma int_of_range x : INT_MIN <= int_of x <= INT_MAX.
Proof.
  unfold int_of. destruct x as [| | | sg m e]; try (unfold INT_MIN, INT_MAX; lia).
  destruct ((INT_MIN <=? _) && _) eqn:E; zb_hyps; unfold INT_MIN, INT_MAX in *; lia.
Qed.

Lemma boost_value n : -4 <= n <= 4 -> int_of (SFmul 53 1024 (f64 (SP_BATCH + n)) d_1_10) = SP_BATCH + n.
Proof.
  intros Hn. assert (H : n = -4 \/ n = -3 \/ n = -2 \/ n = -1 \/ n = 0 \/ n = 1 \/ n = 2 \/ n = 3 \/ n = 4) by lia.
  destruct H as [-> | [-> | [-> | [-> | [-> | [-> | [-> | [-> | ->]]]]]]]]; vm_compute; reflexivity.
Qed.

Lemma small_int z : -100 <= z <= 100 -> s32 z = z.
Proof. intros Hz. apply swrap_small; lia. Qed.

(** For an admissible nice value the adjusted priority is between 1 and
    17, the scheduling priority never exceeds 17, the timeslice stays
    positive, the load of the queue grows by the new priority, and a switch
    is asked for exactly to move the task below every task ever queued.  The
    boost factor 1.10 of an underused batch task has no effect: truncation
    gives back its priority. *)
Theorem adjust_priority_bounds (q : run_queue) (t : sched_task) :
  total_alloc (rt_heur t) <> 0 -> -4 <= nice t <= 4 -> INT_MIN <= sprio t <= 17 -> 1 <= timeslice t < 2 ^ 64 ->
  INT_MIN < lowest q <= 17 ->
  exists r q' t', __adjust_priority q t = Ret (r, q', t') /\
    1 <= prio t' <= 17 /\ sprio t' <= 17 /\ 1 <= timeslice t' < 2 ^ 64 /\
    rprio q' = s64 (rprio q + prio t') /\ INT_MIN <= lowest q' <= lowest q /\
    (r = ST_SWITCH -> sprio t' = lowest q - 1 /\ lowest q' = sprio t') /\ (r = ST_OK \/ r = ST_SWITCH) /\
    int_of (SFmul 53 1024 (f64 (SP_BATCH + nice t)) d_1_10) = SP_BATCH + nice t.
Proof.
  intros Ha Hn Hsp Hts Hlow. unfold __adjust_priority. rewrite (proj2 (Z.eqb_neq _ _) Ha).
  change (kassert (negb false)) with (Ret tt). rb.
  assert (Hl : s32 (lowest q - 1) = lowest q - 1) by (apply swrap_small; unfold INT_MIN in *; lia).
  assert (Hb : s32 (SP_BATCH + nice t) = SP_BATCH + nice t) by (apply small_int; unfold SP_BATCH; lia).
  set (bonus := if _ && _ then s32 (nice t + SPB_SLEEP) else nice t).
  assert (Hbonus : -4 <= bonus <= 7).
  { unfold bonus. destruct (_ && _); [rewrite small_int; unfold SPB_SLEEP; lia | lia]. }
  generalize dependent bonus. intros bonus Hbonus.
  generalize (u64 (tick q - birth (rt_heur t)) <? 20) as newborn.
  generalize ((runtime_utilisation t <=? 40) && (STS_BASE <? total_running (rt_heur t))) as interactive.
  generalize (90 <=? runtime_utilisation t) as batch. intros batch interactive newborn.
  unfold SP_BASE, SP_INTERACTIVE, STS_NORMAL, STS_BASE.
  destruct newborn; [| destruct interactive; [| destruct batch]].
  1, 2, 4: do 3 eexists; (split; [reflexivity |]); cbn; rewrite boost_value, small_int by lia; unfold SCHED_NORMAL, SCHED_BATCH, ST_OK, ST_SWITCH; repeat split; lia || tauto || (intros; congruence).
  unfold adjust_batch. rewrite Hl, Hb, !boost_value by done. unfold STS_BATCH, SP_BATCH in *.
  pose proof (int_of_range (fsub (fmul (fdiv (f32 (u64 (tick q - birth (rt_heur t)))) (fadd (f32 (rprio q)) (f32 (prio t)))) (f32 (prio t)))
    (f32 (total_running (rt_heur t))))) as Hi.
  set (i := int_of _) in *.
  assert (Hu : u64 (Z.max i 15) = Z.max i 15) by (apply wrap_small; unfold in_u, INT_MAX in *; lia).
  destruct (SFltb f_1_03 _); [| destruct (SFltb _ f_0_97)]; cbn zeta; do 3 eexists; (split; [reflexivity |]); cbn [sprio prio timeslice ty set_prios];
    match goal with |- context [if ?b then _ else _] => destruct b eqn:Eb end; zb_hyps; cbn [rprio lowest set_lowest set_rprio lowest];
    cbn [set_rprio lowest] in Eb; rewrite ?Hu; unfold ST_OK, ST_SWITCH, INT_MAX, INT_MIN in *; repeat split; lia || tauto || (intros; lia).
Qed.

Section mts.
Context {C : Type} `{EntrySource C}.

Record sys := mk_sys {
  rqs : list run_queue;
  mts_lock : Z;
  ncpu : Z;
  mts_rq : list Z;
  st_cache : C;
  store : gmap Z sched_task;
  tasks : gmap Z task_t;
  lnk : links
}.

Definition set_rqs (v : list run_queue) (s : sys) : sys :=
  mk_sys v (mts_lock s) (ncpu s) (mts_rq s) (st_cache s) (store s) (tasks s) (lnk s).
Definition set_mts_lock (v : Z) (s : sys) : sys :=
  mk_sys (rqs s) v (ncpu s) (mts_rq s) (st_cache s) (store s) (tasks s) (lnk s).
Definition set_st_cache (v : C) (s : sys) : sys :=
  mk_sys (rqs s) (mts_lock s) (ncpu s) (mts_rq s) v (store s) (tasks s) (lnk s).
Definition set_store (v : gmap Z sched_task) (s : sys) : sys :=
  mk_sys (rqs s) (mts_lock s) (ncpu s) (mts_rq s) (st_cache s) v (tasks s) (lnk s).
Definition set_tasks (v : gmap Z task_t) (s : sys) : sys :=
  mk_sys (rqs s) (mts_lock s) (ncpu s) (mts_rq s) (st_cache s) (store s) v (lnk s).
Definition set_lnk (v : links) (s : sys) : sys :=
  mk_sys (rqs s) (mts_lock s) (ncpu s) (mts_rq s) (st_cache s) (store s) (tasks s) v.

Definition get_st (s : sys) (a : Z) : out sched_task := at_ptr (store s) a.
Definition put_st (s : sys) (a : Z) (t : sched_task) : sys := set_store (<[a := t]> (store s)) s.
Definition get_task (s : sys) (a : Z) : out task_t := at_ptr (tasks s) a.
Definition get_q (s : sys) (c : Z) : out run_queue := rd (rqs s) c.
Definition put_q (s : sys) (c : Z) (q : run_queue) : out sys := l ← wr (rqs s) c q; mret (set_rqs l s).
Definition mod_q (s : sys) (c : Z) (f : run_queue -> run_queue) : out sys :=
  q ← get_q s c; put_q s c (f q).

(** [a2] is a payload of the heap, [a1] the task searched for. *)
Definition __cmp_pld (s : sys) (a1 a2 : Z) : bool :=
  if (a1 =? 0) || (a2 =? 0) then false
  else match tasks s !! a1, store s !! a2 with
       | Some t1, Some e => match tasks s !! task e with Some t2 => pid t1 =? pid t2 | None => false end
       | _, _ => false
       end.

(** The queue pointer is the CPU number. *)
Definition __get_rq (s : sys) (c : Z) : out sys :=
  q ← get_q s c; l ← spin_acquire (lock q); put_q s c (set_lock l q).
Definition __put_rq (s : sys) (c : Z) : out sys :=
  mod_q s c (fun q => set_lock (spin_release (lock q)) q).

Definition __update_blocked (s : sys) (me a : Z) (start : bool) : out sys :=
  _ ← kassert (negb (a =? 0));
  q ← get_q s me;
  t ← get_st s a;
  let h := rt_heur t in
  mret (put_st s a (set_rt_heur
    (if start then set_htick (tick q) (set_blocked (u64 (blocked h + 1)) h)
     else set_total_blocked (u64 (total_blocked h + u64 (tick q - htick h))) h) t)).

(** The runtime counters of a task that slept or used its timeslice. *)
Definition NEW_SLICE : Z := Z.lor ST_NEED_RESCHED ST_BLOCKED.

Definition __schedule_task (s : sys) (me a : Z) (switch_task : bool) : out (Z * sys) :=
  _ ← kassert (negb (a =? 0));
  t ← get_st s a;
  k ← get_task s (task t);
  if state t =? ST_READY then mret (ST_OK, s)
  else
    let h := rt_heur t in
    let h1 := if state t =? ST_BLOCKED then set_unused_rt (u64 (unused_rt h + u64 (timeslice t - exec_rt t))) h else h in
    s ← (if state t =? ST_BLOCKED
         then mod_q s (cpu k) (fun q => set_nblocked (u64 (nblocked q - 1)) q) else mret s);
    let new_slice := negb (Z.land (state t) NEW_SLICE =? 0) in
    let h2 := if new_slice then set_total_running (u64 (total_running h1 + exec_rt t)) h1 else h1 in
    mine ← get_q s me;
    '(r, mine, t) ← __adjust_priority mine (set_rt_heur h2 t);
    s ← put_q s me mine;
    let t := if new_slice
             then set_exec_rt 0 (set_rt_heur (set_total_alloc (u64 (total_alloc (rt_heur t) + timeslice t)) (rt_heur t)) t)
             else t in
    let s := put_st s a (set_state ST_READY t) in
    if switch_task || (r =? ST_SWITCH) then
      s ← mod_q s (cpu k) (fun q => set_nready (u64 (nready q + 1)) q);
      q ← get_q s (cpu k);
      '(_, hp) ← Bheap.bh_insert (pqueue q) (sprio t) a;
      s ← put_q s (cpu k) (set_pqueue hp q);
      mret (ST_SWITCH, s)
    else
      s ← mod_q s (cpu k) (fun q => set_rprio (s64 (rprio q - prio t)) q);
      mret (ST_OK, s).

(** ** Start-up *)

(** [cache] is the result of [mmu_cache_create]. *)
Definition mts_init (s : sys) (cache : res C) : Z * sys :=
  match cache with
  | Err _ => (ST_ENOMEM, mk_sys (rqs s) 0 0 (mts_rq s) (st_cache s) (store s) (tasks s) (lnk s))
  | Ok c => (ST_OK, mk_sys (rqs s) 0 0 (mts_rq s) c (store s) (tasks s) (lnk s))
  end.

(** [object] and [block] are those of [bh_init].  [rprio] and [iactive] keep
    what the queue held. *)
Definition mts_init_cpu (s : sys) (me : Z) (object : bool) (block : Z -> list Bheap.elem) (idle_task : Z) :
    out (Z * sys) :=
  l ← spin_acquire (mts_lock s);
  q ← get_q s me;
  match Bheap.bh_init object block 256 with
  | Err _ => s ← put_q s me (set_pqueue None q); mret (ST_ENOMEM, set_mts_lock (spin_release l) s)
  | Ok h =>
      lk ← list_init (lnk s) (wait_list q);
      s ← put_q s me (mk_rq (Some h) (wait_list q) 0 idle_task 0 0 0 0 0 (rprio q) INT_MAX (iactive q) 0);
      r ← wr (mts_rq s) (ncpu s) me;
      mret (ST_OK, mk_sys (rqs s) (spin_release l) (u64 (ncpu s + 1)) r (st_cache s) (store s) (tasks s) lk)
  end.

(** ** New tasks *)

Definition ABS (n : Z) : Z := if n <? 0 then s32 (- n) else n.

(** The CPU of the queue that has the fewest tasks, the first of them when
    several have: the loop over [mts.rq]. *)
Fixpoint pick_loop (s : sys) (n : nat) (i best : Z) : out Z :=
  match n with
  | O => mret best
  | S n =>
      ci ← rd (mts_rq s) i; qi ← get_q s ci;
      cb ← rd (mts_rq s) best; qb ← get_q s cb;
      pick_loop s n (i + 1) (if ntasks qi <? ntasks qb then i else best)
  end.

Definition new_entry (tk p nice now : Z) : sched_task :=
  mk_st SCHED_BATCH ST_ACTIVE tk (s32 (SP_BASE + SPB_BIRTH + nice)) (s32 (SP_BASE + SPB_BIRTH + nice)) nice STS_BASE 0
    (mk_heur 0 0 0 0 0 STS_BASE 0 now 0 0) p.

(** [eax] is what the caller of [bh_insert] finds in the return register
    when the function ends without a [return]. *)
Definition mts_schedule (s : sys) (me tk nice eax : Z) : out (Z * sys) :=
  if (ncpu s =? 0) || (tk =? 0) || (4 <? ABS nice) then mret (ST_EINVAL, s)
  else
    l ← spin_acquire (mts_lock s);
    let s := set_mts_lock l s in
    c ← pick_loop s (Z.to_nat (ncpu s - 1)) 1 0;
    k ← get_task s tk;
    let s := set_tasks (<[tk := mk_task (pid k) c]> (tasks s)) s in
    '(r, cache) ← es_alloc (st_cache s) 1;
    let s := set_st_cache cache s in
    match r with
    | Err _ => mret (ST_ENOMEM, set_mts_lock (spin_release (mts_lock s)) s)
    | Ok (a, _) =>
        lk ← list_init (lnk s) (LIST a);
        let s := set_lnk lk s in
        qc ← rd (mts_rq s) c;
        s ← __get_rq s qc;
        q ← get_q s qc;
        let e := new_entry tk (pid k) nice (tick q) in
        let s := put_st s a e in
        let q := if sprio e <? lowest q then set_lowest (sprio e) q else q in
        let q := set_rprio (s64 (rprio q + prio e)) (set_nready (u64 (nready q + 1)) (set_ntasks (u64 (ntasks q + 1)) q)) in
        '(ins, hp) ← Bheap.bh_insert (pqueue q) (sprio e) a;
        s ← put_q s qc (set_pqueue hp q);
        let ret := default eax ins in
        higher ← (if (ret <? 0) || (active q =? 0) then mret false
                  else act ← get_st s (active q); mret (sprio act <? sprio e));
        let ret := if higher && negb (c =? me) then ST_SWITCH else ret in
        s ← __put_rq (set_mts_lock (spin_release (mts_lock s)) s) qc;
        mret (ret, s)
    end.

(** ** Selection *)

(** The labels [setup_idle] and [setup_active]. *)
Definition setup_idle (s : sys) (me : Z) : out (Z * sys) :=
  q ← get_q s me;
  s ← put_q s me (set_lock (spin_release (lock q)) (set_active 0 true q));
  mret (idle q, s).

Definition setup_active (s : sys) (me p : Z) : out (Z * sys) :=
  if p =? INT_MIN then setup_idle s me
  else
    q ← get_q s me;
    '(r, hp) ← Bheap.bh_remove_max (pqueue q);
    s ← put_q s me (set_pqueue hp q);
    let st := match r with Ok st => st | Err _ => 0 end in
    _ ← kassert (negb (st =? 0));
    s ← (if active q =? 0 then mret s else '(_, s) ← __schedule_task s me (active q) true; mret s);
    t ← get_st s st;
    q ← get_q s me;
    let h := rt_heur t in
    let s := put_st s st (set_state ST_ACTIVE (set_rt_heur (set_h_nexec (u64 (h_nexec h + 1)) (set_htick (tick q) h)) t)) in
    s ← put_q s me (set_lock (spin_release (lock q)) (set_rprio (s64 (rprio q - prio t))
           (set_nexec (u64 (nexec q + 1)) (set_nready (u64 (nready q - 1)) (set_active st false q)))));
    mret (task t, s).

Definition mts_get_next (s : sys) (me : Z) : out (Z * sys) :=
  s ← __get_rq s me;
  q ← get_q s me;
  p ← Bheap.bh_peek_max (pqueue q);
  if active q =? 0 then setup_active s me p
  else
    t ← get_st s (active q);
    if state t =? ST_UNSCHEDULED then
      ml ← spin_acquire (mts_lock s);
      lk ← list_remove (lnk s) (LIST (active q));
      cache ← es_free (st_cache s) (active q);
      let s := mk_sys (rqs s) (spin_release ml) (ncpu s) (mts_rq s) cache (delete (active q) (store s)) (tasks s) lk in
      s ← put_q s me (set_active 0 (iactive q) q);
      setup_active s me p
    else if sprio t <? p then
      setup_active (put_st s (active q) (set_state (Z.lor (state t) ST_PREEMPTED) t)) me p
    else if state t =? ST_BLOCKED then
      s ← put_q s me (set_active 0 (iactive q) q);
      setup_active s me p
    else if exec_rt t <? timeslice t then mret (task t, s)
    else if negb (Z.land (state t) ST_NEED_RESCHED =? 0) then
      if p <? sprio t then
        '(r, s) ← __schedule_task s me (active q) false;
        if r =? ST_OK then
          s ← __put_rq s me;
          t ← get_st s (active q);
          mret (task t, s)
        else setup_active s me p
      else setup_active s me p
    else setup_active s me p.

Definition mts_get_active (s : sys) (me : Z) : out Z :=
  q ← get_q s me;
  if active q =? 0 then (if iactive q then mret (idle q) else Halt)
  else t ← get_st s (active q); mret (task t).

Definition mts_tick (s : sys) (me : Z) : out (Z * sys) :=
  q ← get_q s me;
  if active q =? 0 then
    if negb (iactive q) then mret (ST_SWITCH, s)
    else p ← Bheap.bh_peek_max (pqueue q); mret (if INT_MIN <? p then ST_SWITCH else ST_OK, s)
  else
    s ← put_q s me (set_tick (u64 (tick q + 1)) q);
    t ← get_st s (active q);
    let t := set_exec_rt (u64 (exec_rt t + 1)) t in
    p ← Bheap.bh_peek_max (pqueue q);
    if sprio t <? p then
      mret (ST_SWITCH, put_st s (active q) (set_state (Z.lor (state t) ST_PREEMPTED) t))
    else if state t =? ST_BLOCKED then mret (ST_SWITCH, put_st s (active q) t)
    else if timeslice t <=? exec_rt t then
      mret (ST_SWITCH, put_st s (active q) (set_state (Z.lor (state t) ST_NEED_RESCHED) t))
    else mret (ST_OK, put_st s (active q) t).

(** ** Leaving the run queue *)

Definition mts_unschedule (s : sys) (tk : Z) : out (Z * sys) :=
  k ← get_task s tk;
  q ← get_q s (cpu k);
  if (active q =? 0) && negb (iactive q) then mret (ST_OK, s)
  else
    act ← get_st s (active q);
    if task act =? tk then
      s ← put_q s (cpu k) (set_ntasks (u64 (ntasks q - 1)) q);
      mret (ST_SWITCH, put_st s (active q) (set_state ST_UNSCHEDULED act))
    else
      s ← __get_rq s (cpu k);
      q ← get_q s (cpu k);
      '(r, hp) ← Bheap.bh_remove_pld (pqueue q) (Some (__cmp_pld s tk));
      s ← put_q s (cpu k) (set_nready (u64 (nready q - 1)) (set_ntasks (u64 (ntasks q - 1)) (set_pqueue hp q)));
      let a := match r with Ok a => a | Err _ => 0 end in
      ml ← spin_acquire (mts_lock s);
      _ ← get_st s a;
      lk ← list_remove (lnk s) (LIST a);
      cache ← es_free (st_cache s) a;
      s ← __put_rq (mk_sys (rqs s) (spin_release ml) (ncpu s) (mts_rq s) cache (delete a (store s)) (tasks s) lk) (cpu k);
      mret (ST_OK, s).

(** The label [end]: entry [a] of queue [c] goes to the wait list of CPU 0. *)
Definition move_to_wait (s : sys) (me c tk a : Z) : out sys :=
  s ← mod_q s 0 (fun q => set_nblocked (u64 (nblocked q + 1)) q);
  s ← mod_q s c (fun q => set_nready (u64 (nready q - 1)) q);
  t ← get_st s a;
  s ← mod_q s c (fun q => set_rprio (s64 (rprio q - prio t)) q);
  let s := put_st s a (set_state ST_BLOCKED t) in
  k ← get_task s tk;
  let s := set_tasks (<[tk := mk_task (pid k) 0]> (tasks s)) s in
  lk ← list_init (lnk s) (LIST a);
  bq ← get_q s 0;
  lk ← list_append lk (wait_list bq) (LIST a);
  s ← __update_blocked (set_lnk lk s) me a true;
  _ ← kassert (negb (task t =? 0));
  s ← (if c =? 0 then mret s else __put_rq s 0);
  __put_rq s c.

Definition mts_block (s : sys) (me tk : Z) : out (Z * sys) :=
  if tk =? 0 then mret (ST_EINVAL, s)
  else
    s ← __get_rq s 0;
    k ← get_task s tk;
    s ← (if cpu k =? 0 then mret s else __get_rq s (cpu k));
    q ← get_q s (cpu k);
    is_active ← (if active q =? 0 then mret false else act ← get_st s (active q); mret (task act =? tk));
    if is_active : bool then
      s ← move_to_wait s me (cpu k) tk (active q); mret (ST_SWITCH, s)
    else
      '(r, hp) ← Bheap.bh_remove_pld (pqueue q) (Some (__cmp_pld s tk));
      s ← put_q s (cpu k) (set_pqueue hp q);
      match r with
      | Ok a => s ← move_to_wait s me (cpu k) tk a; mret (ST_OK, s)
      | Err _ => s ← move_to_wait s me (cpu k) tk 0; mret (ST_ENOENT, s)
      end.

(** The walk of the wait list: the first entry whose task has the pid
    searched for.  The walk visits every link at most once on a list that
    ends, so the number of links is enough fuel. *)
Fixpoint find_waiting (fuel : nat) (s : sys) (p head iter : Z) : out (option Z) :=
  match fuel with
  | O => Spin
  | S fuel =>
      if iter =? head then mret None
      else
        t ← get_st s (container_of_list iter);
        k ← get_task s (task t);
        if pid k =? p then mret (Some (container_of_list iter))
        else n ← get (lnk s) iter; find_waiting fuel s p head (next n)
  end.

Definition mts_unblock (s : sys) (me tk : Z) : out (Z * sys) :=
  if tk =? 0 then mret (ST_EINVAL, s)
  else
    k ← get_task s tk;
    s ← __get_rq s (cpu k);
    q ← get_q s (cpu k);
    if (active q =? 0) && negb (iactive q) then s ← __put_rq s (cpu k); mret (ST_OK, s)
    else
      n ← get (lnk s) (wait_list q);
      r ← find_waiting (S (base.size (lnk s))) s (pid k) (wait_list q) (next n);
      match r with
      | None => s ← __put_rq s (cpu k); mret (ST_ENOENT, s)
      | Some a =>
          lk ← list_remove (lnk s) (LIST a);
          s ← __update_blocked (set_lnk lk s) me a false;
          '(_, s) ← __schedule_task s me a true;
          q ← get_q s (cpu k);
          t ← get_st s a;
          ret ← (if active q =? 0 then mret ST_OK
                 else act ← get_st s (active q); mret (if sprio act <? sprio t then ST_SWITCH else ST_OK));
          s ← __put_rq s (cpu k);
          mret (ret, s)
      end.

(** ** The queues of the state *)

Definition upd (c : Z) (f : run_queue -> run_queue) (s : sys) : sys :=
  set_rqs (alter f (Z.to_nat c) (rqs s)) s.

Lemma get_q_nonneg s c q : get_q s c = Ret q -> 0 <= c /\ rqs s !! Z.to_nat c = Some q.
Proof. apply rd_Ret. Qed.

Lemma put_q_upd s c q q' : get_q s c = Ret q -> put_q s c q' = Ret (upd c (fun _ => q') s).
Proof.
  intros [Hc Hq]%get_q_nonneg. unfold put_q, upd. rewrite wr_in.
  - rb. unfold mret, out_ret. do 2 f_equal. apply list_eq. intros i. rewrite list_lookup_alter.
    case_decide as Hi; [subst i | by rewrite list_lookup_insert_ne by done].
    rewrite Hq. apply list_lookup_insert_eq. by eapply lookup_lt_Some.
  - apply lookup_lt_Some in Hq. unfold zlen. lia.
Qed.

Lemma get_q_upd_eq s c f q : get_q s c = Ret q -> get_q (upd c f s) c = Ret (f q).
Proof.
  intros [Hc Hq]%get_q_nonneg. apply rd_Ret. split; [done |].
  cbn [upd set_rqs rqs]. by rewrite list_lookup_alter_eq, Hq.
Qed.

Lemma get_q_upd_ne s c c' f : 0 <= c -> c <> c' -> get_q (upd c f s) c' = get_q s c'.
Proof.
  intros Hc Hn. unfold get_q, rd. destruct (Z.ltb_spec c' 0); [done |].
  cbn [upd set_rqs rqs]. by rewrite list_lookup_alter_ne by lia.
Qed.

Lemma mod_q_upd s c f q : get_q s c = Ret q -> mod_q s c f = Ret (upd c f s).
Proof.
  intros Hq. unfold mod_q. rewrite Hq. rb. rewrite (put_q_upd _ _ _ _ Hq). unfold upd.
  do 2 f_equal. apply list_alter_ext; [| done]. intros x Hx. apply get_q_nonneg in Hq as [_ Hq]. congruence.
Qed.

Lemma get_q_put_st s a t c : get_q (put_st s a t) c = get_q s c.
Proof. done. Qed.

Lemma get_st_put_eq s a t : a <> 0 -> get_st (put_st s a t) a = Ret t.
Proof. intros Ha. apply at_ptr_Ret. split; [done |]. apply lookup_insert_eq. Qed.

Lemma get_st_put_ne s a b t : a <> b -> get_st (put_st s a t) b = get_st s b.
Proof. intros Ha. unfold get_st, at_ptr, put_st. cbn [set_store store]. by rewrite lookup_insert_ne. Qed.

(** What an operation on the queues leaves alone. *)
Definition same_env (s s' : sys) : Prop :=
  tasks s' = tasks s /\ lnk s' = lnk s /\ st_cache s' = st_cache s /\ mts_lock s' = mts_lock s /\
  ncpu s' = ncpu s /\ mts_rq s' = mts_rq s.

(** Writing a queue back through functions that leave the control fields
    alone. *)
Lemma upd_ctl s c f c' q : get_q s c' = Ret q -> 0 <= c -> (forall q, same_ctl q (f q)) ->
  exists q', get_q (upd c f s) c' = Ret q' /\ same_ctl q q'.
Proof.
  intros Hq Hc Hf. destruct (Z.eq_dec c c') as [-> | Hn].
  - exists (f q). split; [by apply get_q_upd_eq | apply Hf].
  - exists q. split; [by rewrite get_q_upd_ne | by unfold same_ctl].
Qed.

Lemma same_ctl_trans q q' q'' : same_ctl q q' -> same_ctl q' q'' -> same_ctl q q''.
Proof. unfold same_ctl. intuition congruence. Qed.

(** Rescheduling an entry that is not ready puts it in the heap of its CPU. *)
Lemma schedule_task_spec s me a t k q mine h :
  get_st s a = Ret t -> get_task s (task t) = Ret k -> get_q s (cpu k) = Ret q -> get_q s me = Ret mine ->
  pqueue q = Some h -> Bheap.wf h -> Bheap.hsize h <> Bheap.capacity h ->
  state t <> ST_READY -> total_alloc (rt_heur t) <> 0 ->
  exists s' t' q' h',
    __schedule_task s me a true = Ret (ST_SWITCH, s') /\ same_env s s' /\ store s' = <[a := t']> (store s) /\
    state t' = ST_READY /\ task t' = task t /\
    get_q s' (cpu k) = Ret q' /\ same_ctl (set_pqueue (Some h') q) q' /\
    (forall c x, c <> cpu k -> get_q s c = Ret x -> exists x', get_q s' c = Ret x' /\ same_ctl x x') /\
    Bheap.wf h' /\ Bheap.capacity h' = Bheap.capacity h /\
    Bheap.live h' ≡ₚ Bheap.mk_elem (sprio t') a :: Bheap.live h.
Proof.
  intros Hst Hk Hq Hme Hh Hwf Hcap Hstate Halloc. unfold __schedule_task.
  pose proof (proj1 (at_ptr_Ret _ _ _) Hst) as [Ha _].
  rewrite (proj2 (Z.eqb_neq a 0) Ha). unfold kassert at 1. cbn [negb]. rb. rewrite Hst. rb. rewrite Hk. rb.
  rewrite (proj2 (Z.eqb_neq _ _) Hstate).
  pose proof (get_q_nonneg _ _ _ Hq) as [Hc _]. pose proof (get_q_nonneg _ _ _ Hme) as [Hm _].
  set (s0 := if state t =? ST_BLOCKED then upd (cpu k) (fun q => set_nblocked (u64 (nblocked q - 1)) q) s else s).
  assert (E0 : (if state t =? ST_BLOCKED then mod_q s (cpu k) (fun q => set_nblocked (u64 (nblocked q - 1)) q) else mret s) = Ret s0).
  { unfold s0. destruct (state t =? ST_BLOCKED); [by apply (mod_q_upd _ _ _ q) | done]. }
  assert (Hs0 : forall c x, get_q s c = Ret x -> exists x', get_q s0 c = Ret x' /\ same_ctl x x').
  { intros c x Hx. unfold s0. destruct (state t =? ST_BLOCKED); [| by exists x]. by apply upd_ctl. }
  rewrite E0. rb. clear E0.
  set (h1 := if state t =? ST_BLOCKED then _ else rt_heur t). set (ns := negb _).
  set (h2 := if ns then set_total_running _ h1 else h1).
  assert (Hal : total_alloc h2 = total_alloc (rt_heur t)) by (unfold h2, h1; destruct ns, (state t =? ST_BLOCKED); done).
  destruct (Hs0 me mine Hme) as (mine0 & Em & Hcm). rewrite Em. rb.
  destruct (adjust_spec mine0 (set_rt_heur h2 t)) as (r & mine1 & t1 & -> & Hc1 & _ & _ & Htk & _); [cbn; congruence |]. rb.
  rewrite (put_q_upd _ _ _ _ Em). rb.
  set (t2 := set_state ST_READY _).
  assert (Ht2 : state t2 = ST_READY /\ task t2 = task t).
  { unfold t2. destruct ns; cbn in *; auto. }
  cbn [orb]. set (s2 := put_st _ a t2).
  assert (Hs2 : forall c x, get_q s c = Ret x -> exists x', get_q s2 c = Ret x' /\ same_ctl x x').
  { intros c x Hx. unfold s2. destruct (Hs0 c x Hx) as (x' & Ex & Hcx).
    destruct (Z.eq_dec me c) as [<- | Hn].
    - exists mine1. split; [apply (get_q_upd_eq _ _ _ _ Em) |]. assert (x' = mine0) as -> by congruence.
      by eapply same_ctl_trans.
    - exists x'. split; [| done]. rewrite get_q_put_st. by rewrite get_q_upd_ne. }
  destruct (Hs2 _ _ Hq) as (q2 & Eq2 & Hcq2). rewrite (mod_q_upd _ _ _ _ Eq2). rb.
  rewrite (get_q_upd_eq _ _ _ _ Eq2). rb. cbn [pqueue set_nready].
  assert (Hh2 : pqueue q2 = Some h) by (destruct Hcq2; congruence). rewrite Hh2.
  match goal with |- context [Bheap.bh_insert _ (sprio ?x) a] => change (sprio x) with (sprio t2) end.
  destruct (Bheap.insert_spec h (sprio t2) a Hwf Ha Hcap) as (h' & Ei & Hwf' & Hcap' & HP).
  rewrite Ei. rb.
  set (s3 := upd (cpu k) _ s2). assert (Eq3 : get_q s3 (cpu k) = Ret (set_nready (u64 (nready q2 + 1)) q2))
    by exact (get_q_upd_eq _ _ (fun q => set_nready (u64 (nready q + 1)) q) _ Eq2).
  rewrite (put_q_upd _ _ _ _ Eq3). rb.
  eexists _, t2, (set_pqueue (Some h') (set_nready (u64 (nready q2 + 1)) q2)), h'. split; [reflexivity |]. split_and!; try (done || apply Ht2).
  - unfold same_env. cbn. unfold s0. destruct (state t =? ST_BLOCKED); cbn; tauto.
  - cbn. unfold s0. destruct (state t =? ST_BLOCKED); done.
  - exact (get_q_upd_eq _ _ (fun _ => set_pqueue (Some h') (set_nready (u64 (nready q2 + 1)) q2)) _ Eq3).
  - unfold same_ctl in *. cbn. intuition congruence.
  - intros c x Hn Hx. destruct (Hs2 c x Hx) as (x' & Ex & Hcx). exists x'. split; [| done].
    rewrite get_q_upd_ne by congruence. unfold s3. by rewrite get_q_upd_ne by congruence.
Qed.

(** ** Selecting the next task *)

(** The entries of a heap are entries of the store, and no key is the
    [INT_MIN] by which [bh_peek_max] says that the heap is empty. *)
Definition resolves (s : sys) (h : Bheap.bheap) : Prop :=
  forall e, e ∈ Bheap.live h -> Bheap.payload e <> 0 /\ INT_MIN < Bheap.key e /\ is_Some (store s !! Bheap.payload e).

(** [e] is an entry of the largest key, [rest] the others. *)
Definition top (h : Bheap.bheap) (e : Bheap.elem) (rest : list Bheap.elem) : Prop :=
  Bheap.live h ≡ₚ e :: rest /\ forall x, x ∈ Bheap.live h -> Bheap.key x <= Bheap.key e.

(** The active entry goes back to the heap when the CPU switches. *)
Definition requeueable (s : sys) (me b : Z) (h : Bheap.bheap) : Prop :=
  b ∉ (Bheap.payload <$> Bheap.live h) /\
  exists t k, get_st s b = Ret t /\ get_task s (task t) = Ret k /\ cpu k = me /\
    total_alloc (rt_heur t) <> 0.

(** What a switch leaves: the chosen entry is active, the queue holds the
    others and the entries [back]. *)
Definition switched (s s' : sys) (me : Z) (e : Bheap.elem) (rest : list Bheap.elem) (back : list Z) : Prop :=
  exists q' h' t', get_q s' me = Ret q' /\ active q' = Bheap.payload e /\ iactive q' = false /\ lock q' = 0 /\
    pqueue q' = Some h' /\ Bheap.wf h' /\ Bheap.payload <$> Bheap.live h' ≡ₚ back ++ (Bheap.payload <$> rest) /\
    get_st s' (Bheap.payload e) = Ret t' /\ state t' = ST_ACTIVE /\
    (forall b, b ∈ back -> exists t, get_st s' b = Ret t /\ state t = ST_READY) /\
    lnk s' = lnk s /\ (forall b, b <> Bheap.payload e -> b ∉ back -> get_st s' b = get_st s b).

Lemma setup_active_spec s me q h e :
  get_q s me = Ret q -> pqueue q = Some h -> Bheap.wf h -> resolves s h ->
  Bheap.hsize h <> 0 -> rd (Bheap.elems h) 0 = Ret e ->
  (active q = 0 \/
   requeueable s me (active q) h /\ forall t, get_st s (active q) = Ret t -> state t <> ST_READY) ->
  exists rest t s',
    top h e rest /\ store s !! Bheap.payload e = Some t /\
    setup_active s me (Bheap.key e) = Ret (task t, s') /\
    switched s s' me e rest (if active q =? 0 then [] else [active q]).
Proof.
  intros Hq Hh Hwf Hres Hn Hrd Hact. pose proof (proj1 (rd_Ret _ _ _) Hrd) as [_ He0].
  pose proof Hwf as [(Hsz & _ & Hcap) _].
  destruct (Bheap.remove_max_spec h e Hwf) as (h1 & E1 & Hwf1 & Hc1 & Hs1 & HP); [lia | done |].
  assert (Hin : e ∈ Bheap.live h) by (rewrite HP; by left).
  destruct (Hres e Hin) as (Hp0 & Hkey & [t Ht]).
  exists (Bheap.live h1), t. unfold setup_active.
  rewrite (proj2 (Z.eqb_neq (Bheap.key e) INT_MIN)) by lia. rewrite Hq. rb. rewrite Hh, E1. rb.
  rewrite (put_q_upd _ _ _ _ Hq). rb. rewrite (proj2 (Z.eqb_neq _ _) Hp0). unfold kassert at 1. cbn [negb]. rb.
  set (s1 := upd me _ s). assert (Eq1 : get_q s1 me = Ret (set_pqueue (Some h1) q))
    by exact (get_q_upd_eq _ _ (fun _ => set_pqueue (Some h1) q) _ Hq).
  assert (Htop : top h e (Bheap.live h1)).
  { split; [exact HP | intros x Hx; exact (Bheap.elem_le_root h e x Hwf He0 Hx)]. }
  assert (Hmid : exists s2 q2 h2,
    (if active q =? 0 then mret s1 else '(_, s) ← __schedule_task s1 me (active q) true; mret s) = Ret s2 /\
    get_q s2 me = Ret q2 /\ pqueue q2 = Some h2 /\ Bheap.wf h2 /\ get_st s2 (Bheap.payload e) = Ret t /\
    Bheap.payload <$> Bheap.live h2 ≡ₚ (if active q =? 0 then [] else [active q]) ++ (Bheap.payload <$> Bheap.live h1) /\
    (forall b, b ∈ (if active q =? 0 then [] else [active q]) ->
       b <> Bheap.payload e /\ exists t, get_st s2 b = Ret t /\ state t = ST_READY) /\ lnk s2 = lnk s /\
    (forall b, b ∉ (if active q =? 0 then [] else [active q]) -> get_st s2 b = get_st s b)).
  { destruct Hact as [-> | [(Hfresh & tb & k & Hb & Hk & Hcpu & Halloc) Hstate]].
    - exists s1, (set_pqueue (Some h1) q), h1. split_and!; try done; [by apply at_ptr_Ret |].
      intros b Hb. by apply elem_of_nil in Hb.
    - pose proof (proj1 (at_ptr_Ret _ _ _) Hb) as [Hb0 _]. rewrite (proj2 (Z.eqb_neq _ _) Hb0).
      assert (Hbe : active q <> Bheap.payload e).
      { intros E. apply Hfresh. rewrite E. by apply list_elem_of_fmap_2. }
      subst me. destruct (schedule_task_spec s1 (cpu k) (active q) tb k _ _ h1 Hb Hk Eq1 Eq1 eq_refl Hwf1)
        as (s2 & t' & q2 & h2 & -> & Henv & Hst & Hst' & _ & Hq2 & Hctl & _ & Hwf2 & _ & HP2); [lia | by apply Hstate | done |].
      rb. exists s2, q2, h2. split_and!; try done.
      + destruct Hctl as [-> _]. done.
      + apply at_ptr_Ret. split; [done |]. rewrite Hst. by rewrite lookup_insert_ne.
      + by rewrite HP2.
      + intros b ->%list_elem_of_singleton. split; [done |]. exists t'. split; [| done].
        apply at_ptr_Ret. split; [done |]. rewrite Hst. apply lookup_insert_eq.
      + destruct Henv as (_ & -> & _). done.
      + intros b Hnb. unfold get_st, at_ptr. rewrite Hst, lookup_insert_ne; [done |].
        intros <-. apply Hnb. by left. }
  destruct Hmid as (s2 & q2 & h2 & -> & Hq2 & Hh2 & Hwf2 & Ht2 & HP2 & Hback & Hlnk & Hframe). rb. rewrite Ht2. rb. rewrite Hq2. rb.
  set (s3 := put_st s2 _ _). assert (Hq3 : get_q s3 me = Ret q2) by done.
  rewrite (put_q_upd _ _ _ _ Hq3). rb. eexists. split; [done |]. split; [done |]. split; [reflexivity |].
  eexists _, h2, _. split; [exact (get_q_upd_eq _ _ (fun _ => _) _ Hq3) |].
  split_and!; try done; [exact (get_st_put_eq s2 (Bheap.payload e) _ Hp0) | done | |].
  - intros b Hb. destruct (Hback b Hb) as (Hbe & tb & Htb & Hsb). exists tb. split; [| done].
    transitivity (get_st s3 b); [done |]. unfold s3. rewrite get_st_put_ne by congruence. done.
  - intros b Hbe Hb. rewrite <- (Hframe b Hb). transitivity (get_st s3 b); [done |].
    unfold s3. by rewrite get_st_put_ne by congruence.
Qed.

Lemma get_rq_upd s c q : get_q s c = Ret q -> lock q = 0 -> __get_rq s c = Ret (upd c (fun _ => set_lock 1 q) s).
Proof.
  intros Hq Hl. unfold __get_rq. rewrite Hq. rb. rewrite Hl, spin_acquire_free. rb. exact (put_q_upd _ _ _ _ Hq).
Qed.

Lemma peek_root h e : Bheap.hsize h <> 0 -> rd (Bheap.elems h) 0 = Ret e ->
  Bheap.bh_peek_max (Some h) = Ret (Bheap.key e).
Proof. intros Hn He. unfold Bheap.bh_peek_max. rewrite (proj2 (Z.eqb_neq _ _) Hn), He. done. Qed.

Lemma lor_bit x b y : 0 <= b -> Z.testbit y b = false -> Z.lor x (2 ^ b) <> y.
Proof.
  intros Hb Hy E. assert (Z.testbit (Z.lor x (2 ^ b)) b = false) by congruence.
  rewrite Z.lor_spec, Z.pow2_bits_true, orb_true_r in * by done. done.
Qed.

(** The running entry must leave: a waiting one has a higher priority, or
    one has the same priority and the timeslice is used up. *)
Definition must_switch (t : sched_task) (p : Z) : Prop :=
  state t <> ST_UNSCHEDULED /\
  (sprio t < p \/
   sprio t = p /\ state t <> ST_BLOCKED /\ timeslice t <= exec_rt t /\ Z.land (state t) ST_NEED_RESCHED <> 0).

Lemma get_next_switch (s : sys) (me : Z) (q : run_queue) (h : Bheap.bheap) :
  get_q s me = Ret q -> lock q = 0 -> pqueue q = Some h -> Bheap.wf h -> resolves s h ->
  (active q = 0 -> Bheap.hsize h = 0 -> exists s' q',
     mts_get_next s me = Ret (idle q, s') /\ get_q s' me = Ret q' /\
     active q' = 0 /\ iactive q' = true /\ lock q' = 0 /\ pqueue q' = Some h) /\
  (forall e, Bheap.hsize h <> 0 -> rd (Bheap.elems h) 0 = Ret e ->
     (active q = 0 \/
      requeueable s me (active q) h /\ exists t, get_st s (active q) = Ret t /\ must_switch t (Bheap.key e)) ->
     exists rest t s', top h e rest /\ store s !! Bheap.payload e = Some t /\
       mts_get_next s me = Ret (task t, s') /\
       switched s s' me e rest (if active q =? 0 then [] else [active q])).
Proof.
  intros Hq Hl Hh Hwf Hres. unfold mts_get_next. rewrite (get_rq_upd _ _ _ Hq Hl). rb.
  set (s1 := upd me _ s). assert (Eq1 : get_q s1 me = Ret (set_lock 1 q)) by exact (get_q_upd_eq _ _ (fun _ => _) _ Hq).
  rewrite Eq1. rb. cbn [pqueue set_lock active]. rewrite Hh. split.
  - intros Ha Hn. rewrite Ha. unfold Bheap.bh_peek_max. rewrite Hn. change (0 =? 0) with true. cbn iota. rb.
    unfold setup_active, setup_idle. rewrite Z.eqb_refl, Eq1. rb. rewrite (put_q_upd _ _ _ _ Eq1). rb.
    eexists _, _. split; [reflexivity |]. split; [exact (get_q_upd_eq _ _ (fun _ => _) _ Eq1) |]. done.
  - intros e Hn He Hact. rewrite (peek_root _ _ Hn He). rb.
    destruct (Z.eqb_spec (active q) 0) as [Ha | Ha].
    + destruct (setup_active_spec s1 me (set_lock 1 q) h e Eq1 Hh Hwf Hres Hn He (or_introl Ha))
        as (rest & t & s' & Ht & Hst & E & Hsw). cbn [active set_lock] in Hsw. rewrite Ha in Hsw.
      exists rest, t, s'. done.
    + destruct Hact as [? | [Hrq (t & Ht & Hun & Hms)]]; [done |].
      assert (Ht1 : get_st s1 (active q) = Ret t) by done. rewrite Ht1. rb.
      rewrite (proj2 (Z.eqb_neq _ _) Hun). destruct (Z.ltb_spec (sprio t) (Bheap.key e)) as [Hlt | Hge].
      * set (t2 := set_state _ t). set (s2 := put_st s1 (active q) t2).
        destruct (setup_active_spec s2 me (set_lock 1 q) h e Eq1 Hh Hwf) as (rest & t' & s' & Htop & Hst & E & Hsw);
          [| done | done | |].
        { intros x Hx. destruct (Hres x Hx) as (? & ? & ?). split_and!; [done | done |].
          apply lookup_insert_is_Some'. by right. }
        { right. cbn [active set_lock]. destruct Hrq as (Hfr & t0 & k & Ht0 & Hk & Hc & Hal).
          assert (t0 = t) as -> by congruence.
          assert (E2 : get_st s2 (active q) = Ret t2) by (apply (get_st_put_eq s1 (active q) t2 Ha)).
          split; [split; [done |]; exists t2, k; done |]. intros t3 E3. assert (t3 = t2) as -> by congruence.
          apply (lor_bit (state t) 5 4); done. }
        cbn [active set_lock] in Hsw. rewrite (proj2 (Z.eqb_neq _ _) Ha) in Hsw.
        destruct (decide (Bheap.payload e = active q)) as [Epl | Hne].
        { exfalso. destruct Hrq as [Hfr _]. apply Hfr. rewrite <- Epl. apply list_elem_of_fmap_2.
          destruct Htop as [-> _]. by left. }
        exists rest, t', s'. split_and!; [done | | done |].
        { cbn [store put_st set_store s2] in Hst. by rewrite lookup_insert_ne in Hst. }
        destruct Hsw as (q' & h' & te & H1 & H2 & H3 & H4 & H5 & H6 & H7 & H8 & H9 & H10 & H11 & H12).
        exists q', h', te. split_and!; try done. intros b Hb Hnb. rewrite H12 by done.
        unfold s2. rewrite get_st_put_ne; [done |]. intros <-. apply Hnb. by left.
      * destruct Hms as [? | (Heq & Hbl & Hts & Hnr)]; [lia |].
        rewrite (proj2 (Z.eqb_neq _ _) Hbl), (ltb_false (exec_rt t)) by lia.
        rewrite (proj2 (Z.eqb_neq _ _) Hnr). cbn [negb]. rewrite (ltb_false (Bheap.key e)) by lia.
        assert (Hnready : forall t', get_st s1 (active q) = Ret t' -> state t' <> ST_READY).
        { intros t' E' Hs. assert (t' = t) as -> by congruence. by rewrite Hs in Hnr. }
        destruct (setup_active_spec s1 me (set_lock 1 q) h e Eq1 Hh Hwf Hres Hn He (or_intror (conj Hrq Hnready)))
          as (rest & t' & s' & Htop & Hst & E & Hsw). cbn [active set_lock] in Hsw.
        rewrite (proj2 (Z.eqb_neq _ _) Ha) in Hsw. exists rest, t', s'. done.
Qed.

(** C3: when the CPU has no active entry, or its active entry must leave,
    [mts_get_next] returns the task of an entry of the highest priority and
    makes exactly that entry active; the previous active entry is back in
    the queue, marked ready; no other entry is added or lost.  With no
    active entry and an empty queue it returns the idle task.  The lock of
    the queue is free afterwards. *)
Theorem mts_get_next_switch (s : sys) (me : Z) (q : run_queue) (h : Bheap.bheap) :
  get_q s me = Ret q -> lock q = 0 -> pqueue q = Some h -> Bheap.wf h -> resolves s h ->
  (active q = 0 -> Bheap.hsize h = 0 -> exists s' q',
     mts_get_next s me = Ret (idle q, s') /\ get_q s' me = Ret q' /\
     active q' = 0 /\ iactive q' = true /\ lock q' = 0 /\ pqueue q' = Some h) /\
  (forall e, Bheap.hsize h <> 0 -> rd (Bheap.elems h) 0 = Ret e ->
     (active q = 0 \/
      requeueable s me (active q) h /\ exists t, get_st s (active q) = Ret t /\ must_switch t (Bheap.key e)) ->
     exists rest t s', top h e rest /\ store s !! Bheap.payload e = Some t /\
       mts_get_next s me = Ret (task t, s') /\
       switched s s' me e rest (if active q =? 0 then [] else [active q])).
Proof. exact (get_next_switch s me q h). Qed.

(** While [mts_tick] says that nothing has to be done, [mts_get_next]
    returns the task that is running, but on this path it does not release
    the lock of the queue: the CPU's next [mts_get_next] never returns. *)
Theorem mts_tick_ok_next (s s1 : sys) (me : Z) (q : run_queue) (t : sched_task) :
  get_q s me = Ret q -> active q <> 0 -> lock q = 0 -> get_st s (active q) = Ret t -> state t <> ST_UNSCHEDULED ->
  mts_tick s me = Ret (ST_OK, s1) ->
  mts_get_active s1 me = Ret (task t) /\
  exists s2, mts_get_next s1 me = Ret (task t, s2) /\ mts_get_active s2 me = Ret (task t) /\
    mts_get_next s2 me = Spin.
Proof.
  intros Hq Ha Hl Ht Hun Htick. unfold mts_tick in Htick. rewrite Hq, ret_bind in Htick.
  rewrite (proj2 (Z.eqb_neq _ _) Ha), (put_q_upd _ _ _ _ Hq), ret_bind in Htick.
  set (s0 := upd me _ s) in Htick.
  assert (Ht0 : get_st s0 (active q) = Ret t) by done. rewrite Ht0, ret_bind in Htick.
  set (t1 := set_exec_rt _ t) in Htick. apply bind_Ret in Htick as (p & Hp & Htick).
  destruct (Z.ltb_spec (sprio t1) p) as [| Hlt]; [done |].
  destruct (Z.eqb_spec (state t1) ST_BLOCKED) as [| Hbl]; [done |].
  destruct (Z.leb_spec (timeslice t1) (exec_rt t1)) as [| Hle]; [done |]. injection Htick as <-.
  assert (Hq1 : get_q (put_st s0 (active q) t1) me = Ret (set_tick (u64 (tick q + 1)) q))
    by exact (get_q_upd_eq _ _ (fun _ => _) _ Hq).
  set (s1 := put_st s0 _ t1) in *. assert (Ht1 : get_st s1 (active q) = Ret t1) by exact (get_st_put_eq _ _ _ Ha).
  unfold mts_get_active. rewrite Hq1. rb. cbn [active set_tick]. rewrite (proj2 (Z.eqb_neq _ _) Ha), Ht1.
  split; [done |].
  set (q2 := set_lock 1 (set_tick (u64 (tick q + 1)) q)). set (s2 := upd me (fun _ => q2) s1).
  assert (Hq2 : get_q s2 me = Ret q2) by exact (get_q_upd_eq _ _ (fun _ => q2) _ Hq1).
  assert (Ht2 : get_st s2 (active q) = Ret t1) by exact Ht1.
  exists s2. split_and!.
  - unfold mts_get_next. rewrite (get_rq_upd _ _ _ Hq1) by done. rb. fold q2. fold s2. rewrite Hq2. rb.
    change (pqueue q2) with (pqueue q). rewrite Hp. rb. change (active q2) with (active q).
    rewrite (proj2 (Z.eqb_neq _ _) Ha), Ht2. rb. change (state t1) with (state t) in *.
    rewrite (proj2 (Z.eqb_neq _ _) Hun), (ltb_false (sprio t1)) by lia.
    rewrite (proj2 (Z.eqb_neq _ _) Hbl), ltb_true by lia. done.
  - rewrite Hq2. rb. change (active q2) with (active q). by rewrite (proj2 (Z.eqb_neq _ _) Ha), Ht2.
  - unfold mts_get_next, __get_rq. rewrite Hq2. rb. done.
Qed.

(** ** Blocking *)

(** Initialising the links of an entry and putting them on a list. *)
Lemma wait_append m w xs a : ring m w xs -> a <> 0 -> a ∉ w :: xs -> is_Some (m !! a) ->
  exists m1 m2, list_init m a = Ret m1 /\ list_append m1 w a = Ret m2 /\ ring m2 w (a :: xs).
Proof.
  intros Hr Ha Hn Hm. destruct (list_init_ring m a Ha Hm) as (m1 & E1 & _ & Hf & Hd). exists m1.
  assert (Hr1 : ring m1 w xs).
  { apply (ring_frame m); [| done]. intros k Hk. apply Hf. intros ->. exact (Hn Hk). }
  destruct (list_append_dlist m1 w a w xs Hr1 Ha Hn) as (m2 & E2 & Hr2 & _ & _).
  { by apply (dom_mapped m). }
  exists m2. done.
Qed.

Lemma block_active_spec s a tk t k q xs :
  get_q s 0 = Ret q -> lock q = 0 -> active q = a -> get_st s a = Ret t -> task t = tk ->
  get_task s tk = Ret k -> cpu k = 0 ->
  ring (lnk s) (wait_list q) xs -> LIST a <> 0 -> LIST a ∉ wait_list q :: xs -> is_Some (lnk s !! LIST a) ->
  exists s' q' t', mts_block s 0 tk = Ret (ST_SWITCH, s') /\ get_q s' 0 = Ret q' /\ same_ctl q q' /\
    store s' = <[a := t']> (store s) /\ state t' = ST_BLOCKED /\ task t' = tk /\ sprio t' = sprio t /\
    total_alloc (rt_heur t') = total_alloc (rt_heur t) /\
    get_task s' tk = Ret (mk_task (pid k) 0) /\ ring (lnk s') (wait_list q) (LIST a :: xs).
Proof.
  intros Hq Hl Ha Ht Htk Hk Hc Hr HL Hn Hm.
  pose proof (proj1 (at_ptr_Ret _ _ _) Hk) as [Htk0 _]. pose proof (proj1 (at_ptr_Ret _ _ _) Ht) as [Ha0 Hst].
  unfold mts_block. rewrite (proj2 (Z.eqb_neq _ _) Htk0). rewrite (get_rq_upd _ _ _ Hq Hl). rb.
  set (s1 := upd 0 _ s). assert (Eq1 : get_q s1 0 = Ret (set_lock 1 q)) by exact (get_q_upd_eq _ _ (fun _ => _) _ Hq).
  assert (Hk1 : get_task s1 tk = Ret k) by done. rewrite Hk1. rb.
  rewrite Hc. change (0 =? 0) with true. cbn iota. rb. rewrite Eq1. rb.
  cbn [active set_lock]. rewrite Ha, (proj2 (Z.eqb_neq _ _) Ha0).
  assert (Ht1 : get_st s1 a = Ret t) by done. rewrite Ht1. rb. rewrite Htk, Z.eqb_refl. rb.
  unfold move_to_wait. rewrite (mod_q_upd _ _ _ _ Eq1). rb.
  pose (q2 := set_nblocked (u64 (nblocked q + 1)) (set_lock 1 q)). set (s2 := upd 0 _ s1).
  assert (Eq2 : get_q s2 0 = Ret q2) by exact (get_q_upd_eq _ _ (fun q => set_nblocked (u64 (nblocked q + 1)) q) _ Eq1).
  rewrite (mod_q_upd _ _ _ _ Eq2). rb. set (s3 := upd 0 _ s2).
  assert (Eq3 : get_q s3 0 = Ret (set_nready (u64 (nready q2 - 1)) q2))
    by exact (get_q_upd_eq _ _ (fun q => set_nready (u64 (nready q - 1)) q) _ Eq2).
  assert (Ht3 : get_st s3 a = Ret t) by done. rewrite Ht3. rb. rewrite (mod_q_upd _ _ _ _ Eq3). rb.
  set (s4 := upd 0 _ s3).
  assert (Eq4 : exists q4, get_q s4 0 = Ret q4 /\ same_ctl (set_lock 1 q) q4).
  { eexists. split; [exact (get_q_upd_eq _ _ (fun q => set_rprio (s64 (rprio q - prio t)) q) _ Eq3) |]. done. }
  destruct Eq4 as (q4 & Eq4 & Hq4).
  assert (Hk4 : get_task (put_st s4 a (set_state ST_BLOCKED t)) tk = Ret k) by done. rewrite Hk4. rb.
  destruct (wait_append _ _ _ (LIST a) Hr HL Hn Hm) as (m1 & m2 & E1 & E2 & Hr2).
  change (lnk (set_tasks _ (put_st s4 a _))) with (lnk s). rewrite E1. rb.
  match goal with |- context [get_q ?x 0] => change (get_q x 0) with (get_q s4 0) end. rewrite Eq4. rb.
  assert (Hw : wait_list q4 = wait_list q) by apply Hq4. rewrite Hw, E2. rb.
  unfold __update_blocked. rewrite (proj2 (Z.eqb_neq _ _) Ha0). change (kassert (negb false)) with (Ret tt). rb.
  match goal with |- context [get_q ?x 0] => change (get_q x 0) with (get_q s4 0) end. rewrite Eq4. rb.
  match goal with |- context [get_st ?x a] => change (get_st x a) with (get_st (put_st s4 a (set_state ST_BLOCKED t)) a) end.
  rewrite get_st_put_eq by done. rb. rewrite Htk, (proj2 (Z.eqb_neq _ _) Htk0). change (kassert (negb false)) with (Ret tt). rb.
  change (0 =? 0) with true. cbn iota. rb. unfold __put_rq. rb.
  match goal with |- context [mod_q (put_st ?x a ?y) 0 ?f] =>
    set (s5 := x); set (t5 := y); rewrite (mod_q_upd (put_st s5 a t5) 0 f q4 Eq4) end.
  rb. eexists _, (set_lock 0 q4), t5. split; [reflexivity |].
  split; [exact (get_q_upd_eq _ _ (fun q => set_lock (spin_release (lock q)) q) _ Eq4) |].
  split_and!; try done.
  - unfold same_ctl in *. cbn in *. intuition congruence.
  - cbn. apply insert_insert_eq.
  - apply at_ptr_Ret. split; [done |]. apply lookup_insert_eq.
Qed.

(** C8: blocking the running task moves its entry to the wait list; the
    following [mts_get_next] leaves it there alone when no waiting entry has
    a higher priority, but otherwise it treats it as preempted: the entry of
    the blocked task is put back in the queue, marked ready, while it is
    still on the wait list, and it will run without having been woken. *)
Theorem mts_block_then_switch (s : sys) (a tk : Z) (t : sched_task) (k : task_t) (q : run_queue)
    (h : Bheap.bheap) (e : Bheap.elem) (xs : list Z) :
  get_q s 0 = Ret q -> lock q = 0 -> active q = a -> get_st s a = Ret t -> task t = tk ->
  get_task s tk = Ret k -> cpu k = 0 -> total_alloc (rt_heur t) <> 0 ->
  ring (lnk s) (wait_list q) xs -> LIST a <> 0 -> LIST a ∉ wait_list q :: xs -> is_Some (lnk s !! LIST a) ->
  pqueue q = Some h -> Bheap.wf h -> resolves s h -> Bheap.hsize h <> 0 -> rd (Bheap.elems h) 0 = Ret e ->
  a ∉ Bheap.payload <$> Bheap.live h ->
  exists s1 s2 next_task q2 h2 t2 rest,
    mts_block s 0 tk = Ret (ST_SWITCH, s1) /\ mts_get_next s1 0 = Ret (next_task, s2) /\
    get_q s2 0 = Ret q2 /\ active q2 = Bheap.payload e /\ top h e rest /\
    FOREACH (lnk s2) (wait_list q) = Ret (LIST a :: xs) /\
    pqueue q2 = Some h2 /\ get_st s2 a = Ret t2 /\
    (if sprio t <? Bheap.key e
     then Bheap.payload <$> Bheap.live h2 ≡ₚ a :: (Bheap.payload <$> rest) /\ state t2 = ST_READY
     else Bheap.payload <$> Bheap.live h2 ≡ₚ Bheap.payload <$> rest /\ state t2 = ST_BLOCKED).
Proof.
  intros Hq Hl Ha Ht Htk Hk Hc Hal Hr HL Hn Hm Hh Hwf Hres Hsz He Hfr.
  destruct (block_active_spec s a tk t k q xs Hq Hl Ha Ht Htk Hk Hc Hr HL Hn Hm)
    as (s1 & q1 & t1 & Eb & Eq1 & Hctl & Hst & Hbl & Htk1 & Hsp & Hal1 & Hk1 & Hr1).
  pose proof (proj1 (at_ptr_Ret _ _ _) Ht) as [Ha0 _].
  assert (Ht1 : get_st s1 a = Ret t1).
  { apply at_ptr_Ret. split; [done |]. rewrite Hst. apply lookup_insert_eq. }
  assert (Hres1 : resolves s1 h).
  { intros x Hx. destruct (Hres x Hx) as (? & ? & ?). split_and!; [done | done |]. rewrite Hst.
    apply lookup_insert_is_Some'. by right. }
  assert (Hctl' := Hctl). destruct Hctl' as (Hp1 & Hw1 & Ha1 & Hi1 & Hia1 & Hl1).
  assert (Hea : Bheap.payload e <> a).
  { intros E. apply Hfr. rewrite <- E. apply list_elem_of_fmap_2.
    apply (Bheap.root_live h e Hwf Hsz He). }
  destruct (Z.ltb_spec (sprio t) (Bheap.key e)) as [Hlt | Hge].
  - destruct (get_next_switch s1 0 q1 h Eq1) as [_ Hsw]; [congruence | congruence | done | done |].
    destruct (Hsw e Hsz He) as (rest & t' & s2 & Htop & _ & E & q2 & h2 & t2 & Eq2 & Ea2 & _ & _ & Eh2 & _ & HP & _ & _ & Hback & Hlnk & _).
    { right. rewrite Ha1, Ha. split.
      - split; [done |]. exists t1, (mk_task (pid k) 0). rewrite Htk1. split_and!; [done | done | done | congruence].
      - exists t1. split; [done |]. split; [by rewrite Hbl | left; lia]. }
    rewrite Ha1, Ha, (proj2 (Z.eqb_neq _ _) Ha0) in *.
    destruct (Hback a) as (ta & Eta & Hsa); [by left |].
    exists s1, s2, (task t'), q2, h2, ta, rest. split_and!; try done.
    rewrite Hlnk. by apply FOREACH_ring.
  - set (q1' := set_active 0 (iactive q1) (set_lock 1 q1)).
    set (s1a := upd 0 (fun _ => set_lock 1 q1) s1). set (s1b := upd 0 (fun _ => q1') s1a).
    assert (Eqa : get_q s1a 0 = Ret (set_lock 1 q1)) by exact (get_q_upd_eq _ _ (fun _ => _) _ Eq1).
    assert (Eqb : get_q s1b 0 = Ret q1') by exact (get_q_upd_eq _ _ (fun _ => q1') _ Eqa).
    assert (E : mts_get_next s1 0 = setup_active s1b 0 (Bheap.key e)).
    { unfold mts_get_next. rewrite (get_rq_upd _ _ _ Eq1) by congruence. rb. fold s1a. rewrite Eqa. rb.
      cbn [pqueue active set_lock]. rewrite Hp1, Hh, (peek_root _ _ Hsz He). rb.
      rewrite Ha1, Ha, (proj2 (Z.eqb_neq _ _) Ha0). assert (Ht1a : get_st s1a a = Ret t1) by done. rewrite Ht1a. rb.
      rewrite Hbl. change (ST_BLOCKED =? ST_UNSCHEDULED) with false. rewrite (ltb_false (sprio t1)) by lia.
      rewrite Z.eqb_refl. cbn iota. rewrite (put_q_upd _ _ _ _ Eqa). rb. done. }
    destruct (setup_active_spec s1b 0 q1' h e Eqb) as (rest & t' & s2 & Htop & _ & E2 & q2 & h2 & t2 & Eq2 & Ea2 & _ & _ & Eh2 & _ & HP & _ & _ & _ & Hlnk & Hframe);
      [cbn; congruence | done | done | done | done | by left |].
    assert (Eta : get_st s2 a = Ret t1).
    { rewrite Hframe; [done | congruence |]. intros Hin. by apply elem_of_nil in Hin. }
    exists s1, s2, (task t'), q2, h2, t1, rest. rewrite E. split_and!; try done.
    rewrite Hlnk. by apply FOREACH_ring.
Qed.

(** ** Placing a new task *)

(** The number of tasks of the [j]th registered queue. *)
Definition load (s : sys) (j n : Z) : Prop :=
  exists c q, rd (mts_rq s) j = Ret c /\ get_q s c = Ret q /\ ntasks q = n.

(** Queue [r] is the first of the [m] queues with the fewest tasks. *)
Definition least (s : sys) (m r : Z) : Prop :=
  0 <= r < m /\ forall j nj nr, 0 <= j < m -> load s j nj -> load s r nr -> nr <= nj /\ (j < r -> nr < nj).

Lemma load_fun s j n n' : load s j n -> load s j n' -> n = n'.
Proof. intros (c & q & E1 & E2 & <-) (c' & q' & E1' & E2' & <-). congruence. Qed.

Lemma pick_loop_spec s n i best :
  (forall j, 0 <= j < i + Z.of_nat n -> exists m, load s j m) -> least s i best ->
  exists r, pick_loop s n i best = Ret r /\ least s (i + Z.of_nat n) r.
Proof.
  revert i best. induction n as [| n IH]; intros i best Hall Hb; cbn [pick_loop].
  - exists best. split; [done |]. by rewrite Z.add_0_r.
  - pose proof Hb as [Hr Hmin].
    destruct (Hall i ltac:(lia)) as [mi Hi]. destruct (Hall best ltac:(lia)) as [mb Hbm].
    pose proof Hi as (ci & qi & E1 & E2 & E3). pose proof Hbm as (cb & qb & F1 & F2 & F3).
    rewrite E1. rb. rewrite E2. rb. rewrite F1. rb. rewrite F2. rb.
    destruct (IH (i + 1) (if ntasks qi <? ntasks qb then i else best)) as (r & E & Hr').
    + intros j Hj. apply Hall. lia.
    + rewrite E3, F3. destruct (Z.ltb_spec mi mb) as [Hlt | Hge].
      * split; [lia |]. intros j nj nr Hj Hlj Hlr. rewrite (load_fun _ _ _ _ Hlr Hi) in *.
        destruct (Z.eq_dec j i) as [-> | Hne]; [rewrite (load_fun _ _ _ _ Hlj Hi); lia |].
        destruct (Hmin j nj mb ltac:(lia) Hlj Hbm). lia.
      * split; [lia |]. intros j nj nr Hj Hlj Hlr.
        destruct (Z.eq_dec j i) as [-> | Hne]; [| apply Hmin; [lia | done | done]].
        rewrite (load_fun _ _ _ _ Hlj Hi), (load_fun _ _ _ _ Hlr Hbm). lia.
    + exists r. split; [done |]. replace (i + Z.of_nat (S n)) with (i + 1 + Z.of_nat n) by lia. done.
Qed.

(** [mts_schedule] refuses a null task, a nice value outside -4..4 and
    an unstarted scheduler; otherwise it gives the task to the first CPU
    with the fewest tasks: a fresh entry of priority 9 plus the nice value
    joins exactly that queue, and both locks are free afterwards.  The value
    it returns is ST_SWITCH or what [bh_insert] left in the return register. *)
Theorem mts_schedule_least_loaded (s : sys) (me tk nice eax : Z) :
  (ncpu s = 0 \/ tk = 0 \/ 4 < Z.abs nice < 2 ^ 31 -> mts_schedule s me tk nice eax = Ret (ST_EINVAL, s)) /\
  (forall k held a z cache,
    0 < ncpu s < 2 ^ 64 -> tk <> 0 -> Z.abs nice <= 4 -> mts_lock s = 0 -> get_task s tk = Ret k ->
    (forall j, 0 <= j < ncpu s -> exists c q h, rd (mts_rq s) j = Ret c /\ get_q s c = Ret q /\ lock q = 0 /\
       pqueue q = Some h /\ Bheap.wf h /\ Bheap.hsize h <> Bheap.capacity h /\
       (active q <> 0 -> exists t, get_st s (active q) = Ret t)) ->
    es_held (st_cache s) held -> (forall b, is_Some (store s !! b) -> b ∈ held) ->
    es_alloc (st_cache s) 1 = Ret (Ok (a, z), cache) -> LIST a <> 0 -> is_Some (lnk s !! LIST a) ->
    exists i c q h s' q' h',
      least s (ncpu s) i /\ rd (mts_rq s) i = Ret c /\ get_q s c = Ret q /\ pqueue q = Some h /\
      (exists ret, mts_schedule s me tk nice eax = Ret (ret, s') /\ (ret = eax \/ ret = ST_SWITCH)) /\
      get_task s' tk = Ret (mk_task (pid k) i) /\
      store s !! a = None /\ store s' = <[a := new_entry tk (pid k) nice (tick q)]> (store s) /\
      get_q s' c = Ret q' /\ pqueue q' = Some h' /\ Bheap.wf h' /\
      Bheap.live h' ≡ₚ Bheap.mk_elem (9 + nice) a :: Bheap.live h /\
      ntasks q' = u64 (ntasks q + 1) /\ lock q' = 0 /\ mts_lock s' = 0 /\
      (forall c', c' <> c -> get_q s' c' = get_q s c') /\
      ring (lnk s') (LIST a) [] /\ es_held (st_cache s') (a :: held)).
Proof.
  split.
  - intros Hbad. unfold mts_schedule.
    assert ((ncpu s =? 0) || (tk =? 0) || (4 <? ABS nice) = true) as ->; [| done].
    rewrite !orb_true_iff, !Z.eqb_eq, Z.ltb_lt. destruct Hbad as [? | [? | Hn]]; [tauto | tauto |].
    right. unfold ABS. destruct (Z.ltb_spec nice 0); [| lia]. unfold s32. rewrite swrap_small; lia.
  - intros k held a z cache Hcpu Htk Hnice Hml Hk Hall Hheld Hstored Halloc HL Hm. unfold mts_schedule.
    assert ((ncpu s =? 0) || (tk =? 0) || (4 <? ABS nice) = false) as ->.
    { rewrite !orb_false_iff, !Z.eqb_neq, Z.ltb_ge. split_and!; [lia | done |].
      unfold ABS. destruct (Z.ltb_spec nice 0); [| lia]. unfold s32. rewrite swrap_small; lia. }
    rewrite Hml, spin_acquire_free. rb. set (s1 := set_mts_lock 1 s).
    destruct (es_alloc_law _ _ _ _ _ _ Hheld Halloc) as (Hheld' & Ha0 & Hfresh).
    assert (Hnone : store s !! a = None).
    { apply eq_None_not_Some. intros Hs. by apply Hfresh, Hstored. }
    destruct (pick_loop_spec s1 (Z.to_nat (ncpu s - 1)) 1 0) as (i & Epick & Hleast).
    { intros j Hj. destruct (Hall j) as (c & q & h & E1 & E2 & _); [lia |]. exists (ntasks q), c, q. done. }
    { split; [lia |]. intros j nj nr Hj Hlj Hlr. assert (j = 0) as -> by lia. rewrite (load_fun _ _ _ _ Hlj Hlr). lia. }
    change (ncpu s1) with (ncpu s) in *. rewrite Epick. rb. replace (1 + Z.of_nat (Z.to_nat (ncpu s - 1))) with (ncpu s) in Hleast by lia.
    assert (Hk1 : get_task s1 tk = Ret k) by done. rewrite Hk1. rb. set (s2 := set_tasks _ s1).
    change (st_cache s2) with (st_cache s). rewrite Halloc. rb. cbn iota.
    destruct (list_init_ring (lnk s) (LIST a) HL Hm) as (m1 & Em & Hring & _ & _).
    change (lnk (set_st_cache cache s2)) with (lnk s). rewrite Em. rb.
    destruct (Hall i ltac:(apply Hleast)) as (c & q & h & Ec & Eq & Hl & Hh & Hwf & Hcap & Hact).
    set (s3 := set_lnk m1 _). change (mts_rq s3) with (mts_rq s). rewrite Ec. rb.
    assert (Eq3 : get_q s3 c = Ret q) by done. rewrite (get_rq_upd _ _ _ Eq3 Hl). rb. set (s4 := upd c _ s3).
    assert (Eq4 : get_q s4 c = Ret (set_lock 1 q)) by exact (get_q_upd_eq _ _ (fun _ => _) _ Eq3). rewrite Eq4. rb.
    cbn [tick set_lock]. set (e := new_entry _ _ _ _). set (s5 := put_st s4 a e).
    set (q1 := if sprio e <? _ then _ else _).
    assert (Hq1 : same_ctl (set_lock 1 q) q1 /\ ntasks q1 = ntasks q).
    { unfold q1. destruct (sprio e <? _); split; done. }
    destruct Hq1 as [(Hp1 & Hw1 & Ha1 & Hi1 & Hia1 & Hl1) Hnt1].
    cbn [pqueue set_rprio set_nready set_ntasks]. rewrite Hp1. cbn [pqueue set_lock]. rewrite Hh.
    destruct (Bheap.insert_spec h (sprio e) a Hwf Ha0 Hcap) as (h' & -> & Hwf' & _ & HP). rb.
    assert (Eq5 : get_q s5 c = Ret (set_lock 1 q)) by exact Eq4. rewrite (put_q_upd _ _ _ _ Eq5). rb.
    set (q2 := set_pqueue (Some h') _). set (s6 := upd c _ s5).
    assert (Eq6 : get_q s6 c = Ret q2) by exact (get_q_upd_eq _ _ (fun _ => q2) _ Eq5).
    cbn [default]. cbn [active set_rprio set_nready set_ntasks]. rewrite Ha1. cbn [active set_lock].
    set (hi := if _ || _ then _ else _).
    assert (Hhi : exists b, hi = Ret b).
    { unfold hi. match goal with |- context [if ?b then _ else _] => destruct b eqn:Eb end; [by exists false |]. apply orb_false_iff in Eb as [_ Eb%Z.eqb_neq].
      destruct Hact as (t & [Hta Ht]%at_ptr_Ret); [done |].
      assert (Et : get_st s6 (active q) = Ret t).
      { apply at_ptr_Ret. split; [done |]. cbn. rewrite lookup_insert_ne; [done |]. intros ->. congruence. }
      rewrite Et. by exists (sprio t <? sprio e). }
    destruct Hhi as [b ->]. rb. unfold __put_rq.
    set (s7 := set_mts_lock _ s6). assert (Eq7 : get_q s7 c = Ret q2) by exact Eq6.
    rewrite (mod_q_upd s7 c (fun q => set_lock (spin_release (lock q)) q) q2 Eq7). rb.
    exists i, c, q, h, (upd c (fun q => set_lock (spin_release (lock q)) q) s7), (set_lock 0 q2), h'.
    split_and!; try done.
    + eexists. split; [reflexivity |]. destruct (b && _); [by right | by left].
    + apply at_ptr_Ret. split; [done |]. apply lookup_insert_eq.
    + exact (get_q_upd_eq _ _ (fun q => set_lock (spin_release (lock q)) q) _ Eq7).
    + rewrite HP. unfold e, new_entry. cbn [sprio]. unfold s32, SP_BASE, SPB_BIRTH. rewrite swrap_small by lia. done.
    + cbn. by rewrite Hnt1.
    + intros c' Hne. pose proof (get_q_nonneg _ _ _ Eq) as [Hc0 _].
      rewrite get_q_upd_ne by congruence. transitivity (get_q s6 c'); [done |].
      unfold s6. rewrite get_q_upd_ne by congruence. transitivity (get_q s4 c'); [done |].
      unfold s4. by rewrite get_q_upd_ne by congruence.
Qed.
End mts.
#[global] Arguments sys C : clear implicits.

(** ** A sample state: CPU 0 runs one task and two wait *)

#[local] Existing Instance PageAlloc.PageAlloc.page_alloc_source.

Abbreviation cache := (option Slab.Slab.mm_cache * Slab.Slab.slab (S := PageAlloc.PageAlloc.state))%type.

Definition sample_st (tk p st ts : Z) : sched_task :=
  mk_st SCHED_BATCH st tk p p 0 ts 4 (mk_heur 0 0 0 0 0 10 0 0 0 1) tk.
Definition sample_ready : Bheap.bheap :=
  Bheap.mk_bheap 2 256 ([Bheap.mk_elem 9 2000; Bheap.mk_elem 7 3000] ++ replicate 254 (Bheap.mk_elem 0 0)).
Definition sample_rq : run_queue := mk_rq (Some sample_ready) 500 1000 90 30 3 2 0 5 16 7 false 0.
Definition sample_sys (p : Z) : sys cache :=
  mk_sys [sample_rq] 0 1 (replicate 64 0) (Some Slab.Slab.sample_cache, Slab.Slab.sample_slab)
    (<[1000 := sample_st 10 p ST_ACTIVE 10]> (<[2000 := sample_st 20 9 ST_READY 10]>
      (<[3000 := sample_st 30 7 ST_READY 10]> ∅)))
    (<[10 := mk_task 1 0]> (<[20 := mk_task 2 0]> (<[30 := mk_task 3 0]> (<[40 := mk_task 4 0]> ∅))))
    (<[500 := mk_links 500 500]> (<[LIST 1000 := mk_links 0 0]> ∅)).

Lemma sample_ready_wf : Bheap.wf sample_ready.
Proof.
  split; [unfold Bheap.shape, Bheap.INDEX_BOUND, zlen; simpl; lia |]. intros j p Hp Hj Hn.
  change (Bheap.hsize sample_ready) with 2 in *.
  assert (Hc : j = 1 /\ p = 0) by (unfold Bheap.child in Hj; lia). destruct Hc as [-> ->]. cbv. discriminate.
Qed.
Lemma sample_resolves p : resolves (sample_sys p) sample_ready.
Proof.
  intros e He. change (Bheap.live sample_ready) with [Bheap.mk_elem 9 2000; Bheap.mk_elem 7 3000] in He.
  apply elem_of_cons in He as [-> | [-> | He%elem_of_nil]%elem_of_cons]; [| | done];
    (split; [discriminate | split; [reflexivity | by eexists]]).
Qed.
Lemma sample_fresh : 1000 ∉ Bheap.payload <$> Bheap.live sample_ready.
Proof. refine (bool_decide_eq_true_1 _ _). vm_compute. reflexivity. Qed.
Lemma sample_requeueable p : requeueable (sample_sys p) 0 1000 sample_ready.
Proof.
  split; [exact sample_fresh |]. exists (sample_st 10 p ST_ACTIVE 10), (mk_task 1 0). repeat split; discriminate.
Qed.

Lemma mts_get_next_switch_witness :
  must_switch (sample_st 10 7 ST_ACTIVE 10) 9 /\
  exists t s', mts_get_next (sample_sys 7) 0 = Ret (task t, s') /\ task t = 20.
Proof.
  assert (Hms : must_switch (sample_st 10 7 ST_ACTIVE 10) 9) by (split; [discriminate | left; reflexivity]).
  split; [exact Hms |].
  destruct (mts_get_next_switch (sample_sys 7) 0 sample_rq sample_ready eq_refl eq_refl eq_refl sample_ready_wf
              (sample_resolves 7)) as [_ H].
  destruct (H (Bheap.mk_elem 9 2000)) as (rest & t & s' & _ & Ht & E & _); [discriminate | reflexivity | |].
  - right. split; [exact (sample_requeueable 7) |]. exists (sample_st 10 7 ST_ACTIVE 10).
    split; [reflexivity | exact Hms].
  - exists t, s'. split; [exact E |]. vm_compute in Ht. injection Ht as <-. reflexivity.
Defined.

Lemma mts_tick_ok_next_witness :
  exists s1 s2, mts_tick (sample_sys 9) 0 = Ret (ST_OK, s1) /\ mts_get_next s1 0 = Ret (10, s2) /\
    mts_get_next s2 0 = Spin.
Proof.
  destruct (mts_tick (sample_sys 9) 0) as [[r s1] | | |] eqn:E; try (vm_compute in E; discriminate E).
  assert (Hr : r = ST_OK) by (vm_compute in E; injection E as <- _; reflexivity). subst r.
  destruct (mts_tick_ok_next (sample_sys 9) s1 0 sample_rq (sample_st 10 9 ST_ACTIVE 10)) as (_ & s2 & E2 & _ & E3);
    [reflexivity | discriminate | reflexivity | reflexivity | discriminate | exact E |].
  exists s1, s2. split; [reflexivity | split; [exact E2 | exact E3]].
Defined.

Lemma mts_block_then_switch_witness :
  exists s1 s2 n, mts_block (sample_sys 7) 0 10 = Ret (ST_SWITCH, s1) /\ mts_get_next s1 0 = Ret (n, s2) /\
    FOREACH (lnk s2) 500 = Ret [LIST 1000] /\ exists t, get_st s2 1000 = Ret t /\ state t = ST_READY.
Proof.
  destruct (mts_block_then_switch (sample_sys 7) 1000 10 (sample_st 10 7 ST_ACTIVE 10) (mk_task 1 0) sample_rq sample_ready
              (Bheap.mk_elem 9 2000) []) as (s1 & s2 & n & q2 & h2 & t2 & rest & E1 & E2 & _ & _ & _ & EF & _ & Et & Hr);
    try reflexivity; try discriminate.
  - split; [refine (bool_decide_eq_true_1 _ _); vm_compute; reflexivity |].
    split; [refine (bool_decide_eq_true_1 _ _); vm_compute; reflexivity |].
    split; [split; [reflexivity | intros _; reflexivity] | left; reflexivity].
  - refine (bool_decide_eq_true_1 _ _). vm_compute. reflexivity.
  - eexists. reflexivity.
  - exact sample_ready_wf.
  - exact (sample_resolves 7).
  - exact sample_fresh.
  - exists s1, s2, n. split; [exact E1 |]. split; [exact E2 |]. split; [exact EF |].
    exists t2. split; [exact Et |]. exact (proj2 Hr).
Defined.

(** The address the sample cache hands out first. *)
Definition sample_entry : Z := 0xffffffff82000000.
Definition sample_env (s : sys cache) : sys cache := set_lnk (<[LIST sample_entry := mk_links 0 0]> (lnk s)) (set_store ∅
  (set_rqs [set_active 0 true sample_rq] s)).

Lemma mts_schedule_least_loaded_witness :
  exists ret s', mts_schedule (sample_env (sample_sys 7)) 0 40 2 0 = Ret (ret, s') /\ get_task s' 40 = Ret (mk_task 4 0).
Proof.
  destruct (mts_schedule_least_loaded (sample_env (sample_sys 7)) 0 40 2 0) as [_ H].
  destruct (es_alloc (st_cache (sample_env (sample_sys 7))) 1) as [[[[a z] |] c'] | | |] eqn:E;
    try (vm_compute in E; discriminate E).
  assert (Ha : a = sample_entry) by (vm_compute in E; injection E as <- _ _; reflexivity).
  destruct (H (mk_task 4 0) [] a z c') as (i & c & q & h & s' & q' & h' & Hl & _ & _ & _ & (ret & Er & _) & Et & _);
    try reflexivity; try discriminate; try (subst a; discriminate).
  - split; reflexivity.
  - intros j Hj. assert (j = 0) as -> by (change (ncpu _) with 1 in Hj; lia).
    exists 0, (set_active 0 true sample_rq), sample_ready.
    repeat (split; [reflexivity |]). split; [exact sample_ready_wf |]. split; [discriminate |]. intros Hf. by destruct Hf.
  - exists [], Slab.Slab.sample_cache. split; [reflexivity | exact Slab.Slab.sample_inv].
  - intros b [x Hx]. discriminate Hx.
  - subst a. eexists. reflexivity.
  - exists ret, s'. split; [exact Er |]. rewrite Et. f_equal. f_equal. destruct Hl as [Hl _].
    change (ncpu _) with 1 in Hl. lia.
Defined.

Lemma adjust_priority_bounds_witness :
  exists r q' t', __adjust_priority sample_rq (sample_st 10 7 ST_ACTIVE 10) = Ret (r, q', t') /\ 1 <= prio t' <= 17.
Proof.
  destruct (adjust_priority_bounds sample_rq (sample_st 10 7 ST_ACTIVE 10)) as (r & q' & t' & E & Hp & _);
    [discriminate | split; discriminate | split; discriminate | split; [discriminate | reflexivity] | split; [reflexivity | discriminate] |].
  exists r, q', t'. split; [exact E | exact Hp].
Defined.

(** ** Null dereferences *)

(** Blocking a task that is neither active nor queued: the error path falls
    into the code that moves the entry, whose pointer is null. *)
Lemma mts_block_unknown_faults : mts_block (sample_sys 7) 0 40 = Fault.
Proof. vm_compute. reflexivity. Qed.

(** Unscheduling a task while its CPU runs the idle task. *)
Lemma mts_unschedule_idle_faults : mts_unschedule (sample_env (sample_sys 7)) 20 = Fault.
Proof. vm_compute. reflexivity. Qed.

(** A nice value of [INT_MIN] passes the range test. *)
Lemma abs_int_min : ABS INT_MIN = INT_MIN.
Proof. reflexivity. Qed.

End Mts.
