(* ===== verification/Dentry.v ===== *)
(** * Dentries and inodes (fs/dentry.c, fs/inode.c)

    Objects live in stores under their addresses; the memory of a freed
    object keeps its content until it is reused.  The children of a
    directory are a Hashmap, keyed by the NUL-terminated name; a name is the
    list of its bytes without the NUL.  Function pointers of the operation
    tables are values of a type [F], called through [call_lookup].
    [kmalloc] gives addresses no live object has. *)

From S2P Require Import Prelude Hashmap Dlist Memory PageAlloc Slab.
Import Dlist Memory.

Module Dentry.

Definition T_IFCHR : Z := 4.
Definition T_IFREG : Z := 16.
Definition T_IFDIR : Z := 32.
Definition DNTR_NO_CACHE : Z := 128.
Definition DENTRY_NAME_MAXLEN : Z := 128.
Definition DENTRY_HM_LEN : Z := 32.

Definition has (flags f : Z) : bool := negb (Z.land flags f =? 0).
Definition USE_CACHE (flags : Z) : bool := negb (has flags DNTR_NO_CACHE).

Record dentry := mk_dentry {
  d_flags : Z;
  d_parent : Z;
  d_inode : Z;
  d_children : Z;
  d_count : Z;
  d_private : Z;
  d_name : list Z
}.

Record inode := mk_inode {
  i_uid : Z;
  i_gid : Z;
  i_ino : Z;
  i_size : Z;
  i_count : Z;
  i_flags : Z;
  i_mask : Z;
  i_private : Z;
  i_iops : Z;
  i_fops : Z
}.

(** [offsetof(dentry_t, d_list)]. *)
Definition DLIST (d : Z) : Z := d + 40.

(** What [MM_ZERO] makes of a new entry. *)
Definition zero_dentry : dentry := mk_dentry 0 0 0 0 0 0 [].
Definition zero_inode : inode := mk_inode 0 0 0 0 0 0 0 0 0 0.

Definition set_d_flags (v : Z) (d : dentry) : dentry :=
  mk_dentry v (d_parent d) (d_inode d) (d_children d) (d_count d) (d_private d) (d_name d).
Definition set_d_parent (v : Z) (d : dentry) : dentry :=
  mk_dentry (d_flags d) v (d_inode d) (d_children d) (d_count d) (d_private d) (d_name d).
Definition set_d_inode (v : Z) (d : dentry) : dentry :=
  mk_dentry (d_flags d) (d_parent d) v (d_children d) (d_count d) (d_private d) (d_name d).
Definition set_d_children (v : Z) (d : dentry) : dentry :=
  mk_dentry (d_flags d) (d_parent d) (d_inode d) v (d_count d) (d_private d) (d_name d).
Definition set_d_count (v : Z) (d : dentry) : dentry :=
  mk_dentry (d_flags d) (d_parent d) (d_inode d) (d_children d) v (d_private d) (d_name d).
Definition set_d_private (v : Z) (d : dentry) : dentry :=
  mk_dentry (d_flags d) (d_parent d) (d_inode d) (d_children d) (d_count d) v (d_name d).
Definition set_d_name (v : list Z) (d : dentry) : dentry :=
  mk_dentry (d_flags d) (d_parent d) (d_inode d) (d_children d) (d_count d) (d_private d) v.
Definition set_i_ops (io fo : Z) (i : inode) : inode :=
  mk_inode (i_uid i) (i_gid i) (i_ino i) (i_size i) (i_count i) (i_flags i) (i_mask i) (i_private i) io fo.
Definition set_i_count (v : Z) (i : inode) : inode :=
  mk_inode (i_uid i) (i_gid i) (i_ino i) (i_size i) v (i_flags i) (i_mask i) (i_private i) (i_iops i) (i_fops i).

(** A key for the hash map: the bytes of the name and the NUL. *)
Definition key_of (name : option (list Z)) : option (list Z) := (fun n => n ++ [0]) <$> name.

Section dentry.
Context {F C : Type} `{EntrySource C}.

(** The operation tables: the members the modelled code calls. *)
Record inode_ops := mk_iops { lookup : option F; mkdir : option F }.
Record file_ops := mk_fops {
  read : option F; write : option F; open : option F; close : option F; seek : option F
}.

Definition no_iops : inode_ops := mk_iops None None.
Definition no_fops : file_ops := mk_fops None None None None None.

Record fs := mk_fs {
  dents : gmap Z dentry;
  inos : gmap Z inode;
  iops : gmap Z inode_ops;
  fops : gmap Z file_ops;
  maps : gmap Z Hashmap.hashmap;
  next_map : Z;
  dentry_cache : C;
  inode_cache : C;
  inode_ops_cache : C;
  file_ops_cache : C;
  lnk : links
}.

Definition set_dents (v : gmap Z dentry) (s : fs) : fs :=
  mk_fs v (inos s) (iops s) (fops s) (maps s) (next_map s) (dentry_cache s) (inode_cache s) (inode_ops_cache s) (file_ops_cache s) (lnk s).
Definition set_inos (v : gmap Z inode) (s : fs) : fs :=
  mk_fs (dents s) v (iops s) (fops s) (maps s) (next_map s) (dentry_cache s) (inode_cache s) (inode_ops_cache s) (file_ops_cache s) (lnk s).
Definition set_maps (v : gmap Z Hashmap.hashmap) (s : fs) : fs :=
  mk_fs (dents s) (inos s) (iops s) (fops s) v (next_map s) (dentry_cache s) (inode_cache s) (inode_ops_cache s) (file_ops_cache s) (lnk s).
Definition set_dentry_cache (v : C) (s : fs) : fs :=
  mk_fs (dents s) (inos s) (iops s) (fops s) (maps s) (next_map s) v (inode_cache s) (inode_ops_cache s) (file_ops_cache s) (lnk s).
Definition set_lnk (v : links) (s : fs) : fs :=
  mk_fs (dents s) (inos s) (iops s) (fops s) (maps s) (next_map s) (dentry_cache s) (inode_cache s) (inode_ops_cache s) (file_ops_cache s) v.
Definition set_inode_stores (i : gmap Z inode) (io : gmap Z inode_ops) (fo : gmap Z file_ops) (ic oc fc : C) (s : fs) : fs :=
  mk_fs (dents s) i io fo (maps s) (next_map s) (dentry_cache s) ic oc fc (lnk s).

Definition get_dent (s : fs) (d : Z) : out dentry := at_ptr (dents s) d.
Definition put_dent (s : fs) (a : Z) (d : dentry) : fs := set_dents (<[a := d]> (dents s)) s.
Definition mod_dent (s : fs) (a : Z) (f : dentry -> dentry) : out fs :=
  d ← get_dent s a; mret (put_dent s a (f d)).
Definition mod_ino (s : fs) (a : Z) (f : inode -> inode) : out fs :=
  i ← at_ptr (inos s) a; mret (set_inos (<[a := f i]> (inos s)) s).

(** ** The children of a dentry *)

Definition hm_get (s : fs) (p : Z) (name : option (list Z)) : out Z :=
  if p =? 0 then Hashmap.hm_get None (key_of name)
  else h ← at_ptr (maps s) p; Hashmap.hm_get (Some h) (key_of name).

Definition fresh_item : option Hashmap.hm_item := Some (Hashmap.mk_item 0 0 false).

Definition hm_insert (s : fs) (p : Z) (name : option (list Z)) (e : Z) : out (Z * fs) :=
  if p =? 0 then mret (- EINVAL, s)
  else
    h ← at_ptr (maps s) p;
    '(r, h') ← Hashmap.hm_insert fresh_item (Some h) (key_of name) e;
    mret (r, set_maps (<[p := default h h']> (maps s)) s).

Definition hm_remove (s : fs) (p : Z) (name : option (list Z)) : out (Z * fs) :=
  if p =? 0 then mret (- EINVAL, s)
  else
    h ← at_ptr (maps s) p;
    '(r, h') ← Hashmap.hm_remove (Some h) (key_of name);
    mret (r, set_maps (<[p := default h h']> (maps s)) s).

Definition hm_alloc_hashmap (s : fs) (size type : Z) : res Z * fs :=
  match Hashmap.hm_alloc_hashmap true true size type with
  | Err e => (Err e, s)
  | Ok h => (Ok (next_map s),
      mk_fs (dents s) (inos s) (iops s) (fops s) (<[next_map s := h]> (maps s)) (next_map s + 1)
        (dentry_cache s) (inode_cache s) (inode_ops_cache s) (file_ops_cache s) (lnk s))
  end.

Definition hm_dealloc_hashmap (s : fs) (p : Z) : out fs :=
  if p =? 0 then mret s
  else _ ← at_ptr (maps s) p; mret (set_maps (delete p (maps s)) s).

(** ** dentry.c *)

(** The cache clears the entry only when it cuts it from a page; a recycled
    one keeps what it held.  The [cache] argument is not used. *)
Definition __dentry_alloc (s : fs) (name : option (list Z)) (cache : bool) : out (res Z * fs) :=
  '(r, c) ← es_alloc (dentry_cache s) 1;
  let s := set_dentry_cache c s in
  match r with
  | Err e => mret (Err e, s)
  | Ok (a, cleared) =>
      mret (Ok a, put_dent s a (if (cleared : bool) then zero_dentry else default zero_dentry (dents s !! a)))
  end.

Definition __dentry_alloc_empty (s : fs) (parent : Z) (name : option (list Z)) (cache : bool) : out (res Z * fs) :=
  match name with
  | None => Fault
  | Some nm =>
      let len := zlen nm + 1 in
      if parent =? 0 then mret (Err EINVAL, s)
      else if DENTRY_NAME_MAXLEN <? len then mret (Err E2BIG, s)
      else
        p ← get_dent s parent;
        g ← hm_get s (d_children p) name;
        if negb (g =? 0) then mret (Err EEXIST, s)
        else
          '(r, s) ← __dentry_alloc s name cache;
          match r with
          | Err _ => mret (Err ENOMEM, s)
          | Ok a =>
              d ← get_dent s a;
              let s := put_dent s a (mk_dentry 0 parent 0 (d_children d) 1 0 nm) in
              lk ← list_init (lnk s) (DLIST a);
              p ← get_dent s parent;
              '(e, s) ← hm_insert (set_lnk lk s) (d_children p) name a;
              if e <? 0 then mret (Err e, s)
              else
                s ← mod_dent s parent (fun p => set_d_count (s32 (d_count p + 1)) p);
                lk ← list_append (lnk s) (DLIST parent) (DLIST a);
                mret (Ok a, set_lnk lk s)
          end
  end.

Definition dentry_dealloc (s : fs) (a : Z) : out (Z * fs) :=
  if a =? 0 then mret (- EINVAL, s)
  else
    d ← get_dent s a;
    if 1 <? d_count d then mret (- EBUSY, s)
    else
      '(ret, s) ← (if d_parent d =? 0 then mret (0, s)
                   else p ← get_dent s (d_parent d); hm_remove s (d_children p) (Some (d_name d)));
      if ret <? 0 then mret (ret, s)
      else
        s ← (if d_inode d =? 0 then mret s else mod_ino s (d_inode d) (fun i => set_i_count (s32 (i_count i - 1)) i));
        lk ← list_remove (lnk s) (DLIST a);
        s ← hm_dealloc_hashmap (set_lnk lk s) (d_children d);
        c ← es_free (dentry_cache s) a;
        mret (ret, set_dentry_cache c s).

(** "." and "..". *)
Definition DOT : list Z := [46].
Definition DOTDOT : list Z := [46; 46].

Definition __dentry_init_children (s : fs) (parent dntr flags : Z) : out (Z * fs) :=
  let '(r, s) := hm_alloc_hashmap s DENTRY_HM_LEN 1 in
  match r with
  | Err e => s ← mod_dent s dntr (set_d_children 0); mret (- e, s)
  | Ok h =>
      s ← mod_dent s dntr (set_d_children h);
      '(r, s) ← __dentry_alloc_empty s dntr (Some DOT) false;
      match r with
      | Err e => mret (- e, s)
      | Ok this =>
          s ← mod_dent s this (fun d => set_d_flags T_IFREG (set_d_parent 0 d));
          '(r, s) ← __dentry_alloc_empty s dntr (Some DOTDOT) false;
          match r with
          | Err e => '(_, s) ← dentry_dealloc s this; mret (- e, s)
          | Ok prnt =>
              s ← mod_dent s prnt (fun d => set_d_flags (Z.lor T_IFREG flags) (set_d_parent parent d));
              s ← (if parent =? 0 then mret s
                   else p ← get_dent s parent; mod_dent s prnt (set_d_inode (d_inode p)));
              mret (0, s)
          end
      end
  end.

Definition dentry_alloc (s : fs) (parent : Z) (name : option (list Z)) (flags : Z) : out (res Z * fs) :=
  if parent =? 0 then mret (Err EINVAL, s)
  else
    p ← get_dent s parent;
    g ← hm_get s (d_children p) name;
    if negb (g =? 0) then mret (Err EEXIST, s)
    else
      '(r, s) ← __dentry_alloc_empty s parent name (USE_CACHE flags);
      match r with
      | Err _ => mret (Err ENOMEM, s)
      | Ok a =>
          s ← mod_dent s a (set_d_flags flags);
          if has flags T_IFDIR then
            '(ret, s) ← __dentry_init_children s parent a flags;
            if ret <? 0 then '(_, s) ← dentry_dealloc s a; mret (Err (- ret), s)
            else mret (Ok a, s)
          else mret (Ok a, s)
      end.

(** The name buffer is the last member of the structure: a longer name is
    written past it. *)
Definition dentry_alloc_orphan (s : fs) (name : option (list Z)) (flags : Z) : out (res Z * fs) :=
  '(r, s) ← __dentry_alloc s name (USE_CACHE flags);
  match r with
  | Err _ => mret (Err ENOMEM, s)
  | Ok a =>
      d ← get_dent s a;
      match name with
      | None => Fault
      | Some nm =>
          if DENTRY_NAME_MAXLEN <? zlen nm + 1 then Fault
          else
            let s := put_dent s a (mk_dentry flags 0 0 (d_children d) 1 (d_private d) nm) in
            lk ← list_init (lnk s) (DLIST a);
            let s := set_lnk lk s in
            if has flags T_IFDIR then
              '(ret, s) ← __dentry_init_children s 0 a flags;
              if ret <? 0 then '(_, s) ← dentry_dealloc s a; mret (Err (- ret), s)
              else mret (Ok a, s)
            else mret (Ok a, s)
      end
  end.

(** The reference count of the inode grows even when no dentry was made. *)
Definition attach_ino (r : res Z) (s : fs) (ino : Z) : out (res Z * fs) :=
  s ← (match r with Ok a => mod_dent s a (set_d_inode ino) | Err _ => mret s end);
  s ← mod_ino s ino (fun i => set_i_count (s32 (i_count i + 1)) i);
  mret (r, s).

Definition dentry_alloc_ino (s : fs) (parent : Z) (name : option (list Z)) (ino flags : Z) : out (res Z * fs) :=
  if ino =? 0 then mret (Err EINVAL, s)
  else '(r, s) ← dentry_alloc s parent name flags; attach_ino r s ino.

Definition dentry_alloc_orphan_ino (s : fs) (name : option (list Z)) (ino flags : Z) : out (res Z * fs) :=
  if ino =? 0 then mret (Err EINVAL, s)
  else '(r, s) ← dentry_alloc_orphan s name flags; attach_ino r s ino.

Definition dentry_cache_lookup (name : option (list Z)) : Z := 0.
Definition dentry_cache_insert (d : Z) : Z := 0.
Definition dentry_cache_evict (d : Z) : Z := 0.

(** ** inode.c *)

(** Three allocations; the second or third failing gives back the inode
    (and its operations), never the file operations. *)
Definition inode_generic_alloc (s : fs) (flags : Z) : out (res Z * fs) :=
  '(r1, ic) ← es_alloc (inode_cache s) 1;
  match r1 with
  | Err _ => mret (Err ENOMEM, set_inode_stores (inos s) (iops s) (fops s) ic (inode_ops_cache s) (file_ops_cache s) s)
  | Ok (a, cleared) =>
      let i := if (cleared : bool) then zero_inode else default zero_inode (inos s !! a) in
      '(r2, fc) ← es_alloc (file_ops_cache s) 1;
      match r2 with
      | Err _ =>
          oc ← (if i_iops i =? 0 then mret (inode_ops_cache s) else es_free (inode_ops_cache s) (i_iops i));
          ic ← es_free ic a;
          mret (Err ENOMEM, set_inode_stores (<[a := set_i_ops (i_iops i) 0 i]> (inos s)) (iops s) (fops s) ic oc fc s)
      | Ok (fo, fz) =>
          '(r3, oc) ← es_alloc (inode_ops_cache s) 1;
          match r3 with
          | Err _ =>
              ic ← es_free ic a;
              mret (Err ENOMEM, set_inode_stores (<[a := set_i_ops 0 fo i]> (inos s)) (iops s) (fops s) ic oc fc s)
          | Ok (io, iz) =>
              mret (Ok a, set_inode_stores
                (<[a := mk_inode (-1) (-1) (-1) (-1) 1 flags 0 (i_private i) io fo]> (inos s))
                (<[io := if (iz : bool) then no_iops else default no_iops (iops s !! io)]> (iops s))
                (<[fo := if (fz : bool) then no_fops else default no_fops (fops s !! fo)]> (fops s)) ic oc fc s)
          end
      end
  end.

Definition inode_generic_dealloc (s : fs) (ino : Z) : out (Z * fs) :=
  if ino =? 0 then mret (- EINVAL, s)
  else
    i ← at_ptr (inos s) ino;
    if 1 <? i_count i then mret (- EBUSY, s)
    else
      oc ← es_free (inode_ops_cache s) (i_iops i);
      fc ← es_free (file_ops_cache s) (i_fops i);
      ic ← es_free (inode_cache s) ino;
      mret (0, set_inode_stores (inos s) (iops s) (fops s) ic oc fc s).

(** [call_lookup f d name]: the [lookup] operation of a file system. *)
Variable call_lookup : F -> fs -> Z -> list Z -> out (res Z * fs).

Definition inode_lookup (s : fs) (dntr : Z) (name : option (list Z)) : out (res Z * fs) :=
  if dntr =? 0 then mret (Err EINVAL, s)
  else
    d ← get_dent s dntr;
    if d_inode d =? 0 then mret (Err EINVAL, s)
    else
      i ← at_ptr (inos s) (d_inode d);
      if i_iops i =? 0 then mret (Err EINVAL, s)
      else match name with
           | None => mret (Err EINVAL, s)
           | Some nm =>
               o ← at_ptr (iops s) (i_iops i);
               match lookup o with
               | None => mret (Err ENOSYS, s)
               | Some f => call_lookup f s dntr nm
               end
           end.

(** ** A directory and its children *)

(** The children map of a directory: a string-keyed table that only
    insertions have touched, with room. *)
Definition children_ok (s : fs) (p : dentry) (h : Hashmap.hashmap) : Prop :=
  d_children p <> 0 /\ maps s !! d_children p = Some h /\ Hashmap.insert_only h /\ Hashmap.len h <> Hashmap.cap h.

Lemma get_dent_put_eq s a d : a <> 0 -> get_dent (put_dent s a d) a = Ret d.
Proof. intros Ha. apply at_ptr_Ret. split; [done |]. apply lookup_insert_eq. Qed.

Lemma get_dent_put_ne s a b d : a <> b -> get_dent (put_dent s a d) b = get_dent s b.
Proof. intros Ha. unfold get_dent, at_ptr, put_dent. cbn. by rewrite lookup_insert_ne. Qed.

Lemma hm_get_map s p name h : p <> 0 -> maps s !! p = Some h ->
  hm_get s p name = Hashmap.hm_get (Some h) (key_of name).
Proof. intros Hp Hm. unfold hm_get, at_ptr. rewrite (proj2 (Z.eqb_neq _ _) Hp), Hm. done. Qed.

(** What making a child needs: a valid name that is not taken, an entry of
    the cache, and list links for it. *)
Record child_ready (s : fs) (parent : Z) (p : dentry) (h : Hashmap.hashmap) (nm : list Z) (k : Z)
    (held : list Z) (a : Z) (z : bool) (c : C) (xs : list Z) : Prop := {
  cr_parent : get_dent s parent = Ret p;
  cr_held : es_held (dentry_cache s) held /\ parent ∈ held;
  cr_name : zlen nm < DENTRY_NAME_MAXLEN;
  cr_children : children_ok s p h;
  cr_hash : Hashmap.hm_hash h (Some (nm ++ [0])) = Ret k /\ k <> UINT32_MAX;
  cr_new : hm_get s (d_children p) (Some nm) = Ret 0;
  cr_alloc : es_alloc (dentry_cache s) 1 = Ret (Ok (a, z), c);
  cr_list : ring (lnk s) (DLIST parent) xs /\ DLIST a <> 0 /\ DLIST a ∉ DLIST parent :: xs /\
    is_Some (lnk s !! DLIST a)
}.

(** What a new child is: its record, its place in the parent's table and
    list, and what stays. *)
Definition child_of (s s' : fs) (parent : Z) (p : dentry) (nm : list Z) (a : Z) (d : dentry) (xs held : list Z) : Prop :=
  get_dent s' a = Ret d /\ d_parent d = parent /\ d_name d = nm /\ d_inode d = 0 /\ d_count d = 1 /\
  get_dent s' parent = Ret (set_d_count (s32 (d_count p + 1)) p) /\
  hm_get s' (d_children p) (Some nm) = Ret a /\
  ring (lnk s') (DLIST parent) (DLIST a :: xs) /\ es_held (dentry_cache s') (a :: held) /\
  (forall b, b <> a -> b <> parent -> get_dent s' b = get_dent s b).

Lemma alloc_empty_spec s parent p h nm k held a z c xs cache :
  child_ready s parent p h nm k held a z c xs ->
  (exists s', __dentry_alloc_empty s parent (Some nm) cache = Ret (Err (- ENOSPC), s')) \/
  exists s' d, __dentry_alloc_empty s parent (Some nm) cache = Ret (Ok a, s') /\
    child_of s s' parent p nm a d xs held /\ d_flags d = 0 /\
    d_children d = (if z then 0 else d_children (default zero_dentry (dents s !! a))).
Proof.
  intros [Hp [Hheld Hin] Hnm (Hc0 & Hmap & Hio & Hlen) [Hh Hk] Hnew Hal (Hr & HL & Hnl & Hml)].
  pose proof (proj1 (at_ptr_Ret _ _ _) Hp) as [Hp0 Hpl].
  destruct (es_alloc_law _ _ _ _ _ _ Hheld Hal) as (Hheld' & Ha0 & Hfresh).
  assert (Hap : a <> parent) by (intros ->; done).
  unfold __dentry_alloc_empty. rewrite (proj2 (Z.eqb_neq _ _) Hp0), ltb_false by lia.
  rewrite Hp. rb. rewrite Hnew. rb. unfold __dentry_alloc. rewrite Hal. rb. rb.
  set (d0 := if z then _ else _). set (s1 := put_dent _ a d0).
  assert (E1 : get_dent s1 a = Ret d0) by (by apply get_dent_put_eq). rewrite E1. rb.
  set (d1 := mk_dentry 0 _ 0 _ 1 0 nm). set (s2 := put_dent s1 a d1).
  destruct (list_init_ring (lnk s) (DLIST a) HL Hml) as (m1 & Em & _ & Hf & Hd).
  change (lnk s2) with (lnk s). rewrite Em. rb.
  assert (E2 : get_dent s2 parent = Ret p).
  { unfold s2, s1. by rewrite !get_dent_put_ne. }
  rewrite E2. rb. unfold hm_insert. rewrite (proj2 (Z.eqb_neq _ _) Hc0).
  assert (E3 : at_ptr (maps (set_lnk m1 s2)) (d_children p) = Ret h) by (by apply at_ptr_Ret). rewrite E3. rb.
  change (key_of (Some nm)) with (Some (nm ++ [0])).
  destruct (Hashmap.insert_get h (Hashmap.mk_item 0 0 false) (Some (nm ++ [0])) k a Hio Hh Hk Ha0 Hlen)
    as [[E _] | (h' & E & Hio' & _ & _ & (v & Ev & Eg) & _)]; unfold fresh_item; rewrite E; rb.
  { left. eexists. rb. done. }
  right. rb. set (s3 := set_maps _ _). change (0 <? 0) with false. cbn iota.
  assert (E4 : get_dent s3 parent = Ret p) by exact E2. unfold mod_dent. rewrite E4. rb. rb.
  set (s4 := put_dent s3 parent _). change (lnk s4) with m1.
  assert (Hr1 : ring m1 (DLIST parent) xs).
  { apply (ring_frame (lnk s)); [| done]. intros j Hj. apply Hf. intros ->. exact (Hnl Hj). }
  destruct (list_append_dlist m1 (DLIST parent) (DLIST a) (DLIST parent) xs Hr1 HL Hnl) as (m2 & E5 & Hr2 & _ & _).
  { by apply (dom_mapped (lnk s)). }
  rewrite E5. rb. exists (set_lnk m2 s4), d1. split; [done |].
  assert (Hv : v = 0).
  { pose proof Hnew as Hn. rewrite (hm_get_map _ _ _ _ Hc0 Hmap) in Hn. cbn [key_of fmap option_fmap option_map] in Hn. congruence. }
  split; [| split; [done |]; unfold d1, d0; by destruct z].
  split_and!; try done.
  - transitivity (get_dent s4 a); [done |]. unfold s4. rewrite get_dent_put_ne by done.
    transitivity (get_dent s2 a); [done |]. by apply get_dent_put_eq.
  - by apply get_dent_put_eq.
  - rewrite (hm_get_map _ _ _ h'); [| done | cbn; apply lookup_insert_eq].
    cbn [key_of fmap option_fmap option_map]. rewrite Eg, Hv. done.
  - intros b Hb1 Hb2. transitivity (get_dent s4 b); [done |]. unfold s4. rewrite get_dent_put_ne by done.
    transitivity (get_dent s2 b); [done |]. unfold s2, s1. by rewrite !get_dent_put_ne by done.
Qed.

(** [dentry_alloc] of a file under a directory with a valid free name
    gives EEXIST, ENOMEM or a new entry: the directory's table then finds it
    under its name and its list starts with it, the directory counts one
    more reference, and no other dentry changes.  A recycled entry keeps the
    children pointer it had before, since [MM_ZERO] clears only new ones. *)
Theorem dentry_alloc_child s parent p h nm k held a z c xs flags :
  child_ready s parent p h nm k held a z c xs -> has flags T_IFDIR = false ->
  (exists s', dentry_alloc s parent (Some nm) flags = Ret (Err ENOMEM, s')) \/
  exists s' d, dentry_alloc s parent (Some nm) flags = Ret (Ok a, s') /\
    child_of s s' parent p nm a d xs held /\ d_flags d = flags /\
    d_children d = (if z then 0 else d_children (default zero_dentry (dents s !! a))) /\
    dentry_alloc s' parent (Some nm) flags = Ret (Err EEXIST, s').
Proof.
  intros Hcr Hfl. pose proof Hcr as [Hp [Hheld Hin] _ _ _ Hnew Hal _].
  pose proof (proj1 (at_ptr_Ret _ _ _) Hp) as [Hp0 Hpl].
  destruct (es_alloc_law _ _ _ _ _ _ Hheld Hal) as (_ & Ha0 & Hfresh).
  assert (Hap : a <> parent) by (intros ->; done).
  unfold dentry_alloc at 1 2. rewrite (proj2 (Z.eqb_neq _ _) Hp0), Hp. rb. rewrite Hnew. rb. change (0 =? 0) with true. cbn [negb].
  destruct (alloc_empty_spec _ _ _ _ _ _ _ _ _ _ _ (USE_CACHE flags) Hcr) as [(s' & ->) | (s' & d & -> & Hch & Hfd & Hcd)]; rb.
  { left. by exists s'. }
  right. destruct Hch as (Hd & Hdp & Hdn & Hdi & Hdc & Hpp & Hg & Hr & Hh' & Hfr).
  unfold mod_dent. rewrite Hd. rb. rb. rewrite Hfl. eexists _, (set_d_flags flags d). split; [done |]. split.
  - split_and!; try done; [by apply get_dent_put_eq | by rewrite get_dent_put_ne by done |].
    intros b Hb1 Hb2. rewrite get_dent_put_ne by done. by apply Hfr.
  - split; [done |]. split; [done |]. unfold dentry_alloc. rewrite (proj2 (Z.eqb_neq _ _) Hp0).
    rewrite get_dent_put_ne, Hpp by done. rb. cbn [d_children set_d_count].
    change (hm_get (put_dent s' a (set_d_flags flags d)) (d_children p) (Some nm)) with (hm_get s' (d_children p) (Some nm)).
    rewrite Hg. rb. rewrite (proj2 (Z.eqb_neq _ _) Ha0). done.
Qed.

(** ** Directories *)

(** Whatever [__dentry_alloc_empty] returns: a new entry is one more
    reference of the parent, and an error number that is not positive is
    the result of the insertion in the parent's table. *)
Definition alloc_result (s s' : fs) (parent : Z) (p : dentry) (nm : option (list Z)) (held : list Z) (r : res Z) : Prop :=
  match r with
  | Ok a =>
      a ∉ held /\ a <> 0 /\ es_held (dentry_cache s') (a :: held) /\ next_map s' = next_map s /\
      (exists d, get_dent s' a = Ret d /\ d_count d = 1) /\
      get_dent s' parent = Ret (set_d_count (s32 (d_count p + 1)) p) /\
      (forall b, b <> a -> b <> parent -> get_dent s' b = get_dent s b) /\
      exists h v h', maps s !! d_children p = Some h /\
        Hashmap.hm_insert fresh_item (Some h) (key_of nm) a = Ret (v, h') /\
        maps s' = <[d_children p := default h h']> (maps s) /\ 0 <= v
  | Err e => 0 < e \/ d_children p = 0 \/ exists h a h', maps s !! d_children p = Some h /\ a <> 0 /\
        Hashmap.hm_insert fresh_item (Some h) (key_of nm) a = Ret (e, h') /\ e < 0
  end.

Lemma alloc_empty_inv s parent p nm cache r s' held :
  get_dent s parent = Ret p -> es_held (dentry_cache s) held -> parent ∈ held ->
  __dentry_alloc_empty s parent nm cache = Ret (r, s') -> alloc_result s s' parent p nm held r.
Proof.
  intros Hp Hheld Hin E. unfold __dentry_alloc_empty in E. destruct nm as [nm |]; [| done].
  pose proof (proj1 (at_ptr_Ret _ _ _) Hp) as [Hp0 _]. rewrite (proj2 (Z.eqb_neq _ _) Hp0) in E.
  destruct (DENTRY_NAME_MAXLEN <? _); [injection E as <- <-; by left |]. rewrite Hp, ret_bind in E.
  apply bind_Ret in E as (g & _ & E). destruct (negb (g =? 0)); [injection E as <- <-; by left |].
  unfold __dentry_alloc in E. destruct (es_alloc (dentry_cache s) 1) as [[r0 c] | | |] eqn:Hal; [| done ..].
  rewrite ret_bind in E. destruct r0 as [[a0 z] |]; rewrite ret_bind in E; [| injection E as <- <-; by left].
  destruct (es_alloc_law _ _ _ _ _ _ Hheld Hal) as (Hheld' & Ha0 & Hfresh).
  assert (Hap : a0 <> parent) by (intros ->; done).
  set (d0 := if (z : bool) then _ else _) in E. set (s1 := put_dent _ a0 d0) in E.
  assert (E1 : get_dent s1 a0 = Ret d0) by (by apply get_dent_put_eq). rewrite E1, ret_bind in E.
  set (s2 := put_dent s1 a0 _) in E. apply bind_Ret in E as (lk & _ & E).
  assert (E2 : get_dent s2 parent = Ret p) by (unfold s2, s1; by rewrite !get_dent_put_ne). rewrite E2, ret_bind in E.
  unfold hm_insert in E. destruct (Z.eqb_spec (d_children p) 0) as [Hc0 | Hc0].
  { rewrite ret_bind in E. change (- EINVAL <? 0) with true in E. injection E as <- <-. right. by left. }
  destruct (at_ptr (maps (set_lnk lk s2)) (d_children p)) as [h | | |] eqn:Eh; [| done ..].
  apply at_ptr_Ret in Eh as [_ Eh]. change (maps s !! d_children p = Some h) in Eh. rewrite ret_bind in E.
  destruct (Hashmap.hm_insert fresh_item (Some h) (key_of (Some nm)) a0) as [[v h'] | | |] eqn:Ei; [| done ..].
  rewrite !ret_bind in E. destruct (Z.ltb_spec v 0).
  { injection E as <- <-. right. right. exists h, a0, h'. done. }
  unfold mod_dent in E. set (s3 := set_maps _ _) in E. assert (E3 : get_dent s3 parent = Ret p) by exact E2.
  rewrite E3, !ret_bind in E. apply bind_Ret in E as (lk2 & _ & E). injection E as <- <-.
  unfold alloc_result. split_and!; try done.
  - eexists. split; [transitivity (get_dent (put_dent s3 parent (set_d_count (s32 (d_count p + 1)) p)) a0); [done |];
      rewrite get_dent_put_ne by done; exact (get_dent_put_eq s1 a0 _ Ha0) |]. done.
  - by apply get_dent_put_eq.
  - intros b Hb1 Hb2. transitivity (get_dent (put_dent s3 parent (set_d_count (s32 (d_count p + 1)) p)) b); [done |].
    rewrite get_dent_put_ne by done. transitivity (get_dent s2 b); [done |]. unfold s2, s1. by rewrite !get_dent_put_ne by done.
  - exists h, v, h'. done.
Qed.

Lemma mod_dent_Ret s b f s' : mod_dent s b f = Ret s' -> exists d, get_dent s b = Ret d /\ s' = put_dent s b (f d).
Proof. unfold mod_dent. intros E. apply bind_Ret in E as (d & Hd & E). injection E as <-. eauto. Qed.

(** The table of a new directory, and the same with its entry ".". *)
Definition new_map : Hashmap.hashmap :=
  Hashmap.mk_hashmap 0 32 0 (repeat None 32) Hashmap.hash_str.
Lemma insert_dot a : a <> 0 -> exists h, Hashmap.hm_insert fresh_item (Some new_map) (key_of (Some DOT)) a = Ret (0, Some h) /\
  forall b, b <> 0 -> exists h', Hashmap.hm_insert fresh_item (Some h) (key_of (Some DOTDOT)) b = Ret (0, Some h').
Proof.
  intros Ha. unfold Hashmap.hm_insert. rewrite (proj2 (Z.eqb_neq _ _) Ha). eexists. split; [vm_compute; reflexivity |].
  intros b Hb. rewrite (proj2 (Z.eqb_neq _ _) Hb). eexists. vm_compute. reflexivity.
Qed.

(** "." and ".." count as references of the directory they are in. *)
Lemma init_children_counts s parent dir d flags r s' held :
  get_dent s dir = Ret d -> d_count d = 1 -> es_held (dentry_cache s) held -> dir ∈ held -> next_map s <> 0 ->
  __dentry_init_children s parent dir flags = Ret (r, s') ->
  r < 0 \/ exists d', get_dent s' dir = Ret d' /\ d_count d' = 3.
Proof.
  intros Hd Hc Hheld Hin Hnm E. pose proof (proj1 (at_ptr_Ret _ _ _) Hd) as [Hd0 _].
  unfold __dentry_init_children in E. change (hm_alloc_hashmap s DENTRY_HM_LEN 1) with
    (Ok (next_map s), mk_fs (dents s) (inos s) (iops s) (fops s) (<[next_map s := new_map]> (maps s)) (next_map s + 1)
        (dentry_cache s) (inode_cache s) (inode_ops_cache s) (file_ops_cache s) (lnk s)) in E. cbn iota beta in E.
  set (s1 := mk_fs _ _ _ _ _ _ _ _ _ _ _) in E. assert (Hd1 : get_dent s1 dir = Ret d) by done.
  apply bind_Ret in E as (sx & (dx & Hdx & ->)%mod_dent_Ret & E). assert (dx = d) as -> by congruence.
  set (s2 := put_dent s1 dir _) in E.
  set (d2 := set_d_children (next_map s) d) in *.
  assert (Hd2 : get_dent s2 dir = Ret d2) by (by apply get_dent_put_eq).
  assert (Hm2 : maps s2 !! next_map s = Some new_map) by apply lookup_insert_eq.
  apply bind_Ret in E as ([r3 s3] & E3 & E). pose proof (alloc_empty_inv _ _ _ _ _ _ _ held Hd2 Hheld Hin E3) as R3.
  destruct r3 as [this | e]; cbn [alloc_result] in R3.
  2:{ left. injection E as <- _. destruct R3 as [? | [? | (h & a & h' & Hm & Ha & Hi & ?)]]; [lia | done |].
      change (d_children d2) with (next_map s) in Hm. rewrite Hm2 in Hm. injection Hm as <-.
      destruct (insert_dot a Ha) as (h2 & Hi2 & _). rewrite Hi in Hi2. injection Hi2 as ? _. lia. }
  destruct R3 as (Hn3 & Ht0 & Hh3 & _ & _ & Hd3 & Hf3 & (h & v & h' & Hm & Hi & Hm3 & _)).
  change (d_children d2) with (next_map s) in *. rewrite Hm2 in Hm. injection Hm as <-.
  destruct (insert_dot this Ht0) as (h2 & Hi2 & Hdd). rewrite Hi in Hi2. injection Hi2 as -> ->.
  apply bind_Ret in E as (s4 & (t & Ht & ->)%mod_dent_Ret & E).
  assert (Htd : this <> dir) by (intros ->; done).
  set (s4 := put_dent s3 this _) in E. set (d3 := set_d_count (s32 (d_count d2 + 1)) d2) in *.
  assert (Hd4 : get_dent s4 dir = Ret d3) by (unfold s4; by rewrite get_dent_put_ne).
  apply bind_Ret in E as ([r5 s5] & E5 & E).
  pose proof (alloc_empty_inv _ _ _ _ _ _ _ (this :: held) Hd4 Hh3 (proj2 (elem_of_cons _ _ _) (or_intror Hin)) E5) as R5.
  assert (Hm4 : maps s4 !! next_map s = Some h2) by (change (maps s4) with (maps s3); rewrite Hm3; apply lookup_insert_eq).
  destruct r5 as [prnt | e]; cbn [alloc_result] in R5.
  2:{ left. apply bind_Ret in E as ([? ?] & _ & E). injection E as <- _.
      destruct R5 as [? | [? | (h & a & h' & Hm & Ha & Hi5 & ?)]]; [lia | done |].
      change (d_children d3) with (next_map s) in Hm. rewrite Hm4 in Hm. injection Hm as <-.
      destruct (Hdd a Ha) as [h3 Hi3]. rewrite Hi5 in Hi3. injection Hi3 as ? _. lia. }
  destruct R5 as (Hn5 & Hp0 & _ & _ & _ & Hd5 & _). right.
  assert (Hpd : prnt <> dir) by (intros ->; apply Hn5; by right).
  apply bind_Ret in E as (s6 & (t6 & Ht6 & ->)%mod_dent_Ret & E). apply bind_Ret in E as (s7 & E7 & E).
  injection E as _ <-. exists (set_d_count (s32 (d_count d3 + 1)) d3). split; [| cbn; rewrite Hc; done].
  destruct (parent =? 0); [injection E7 as <-; by rewrite get_dent_put_ne |].
  apply bind_Ret in E7 as (pp & _ & (t7 & _ & ->)%mod_dent_Ret). by rewrite !get_dent_put_ne.
Qed.

(** The entries "." and ".." of a new directory are references of it,
    so its count starts at 3 and [dentry_dealloc] refuses to free it ever
    after: a directory without children cannot be removed. *)
Theorem dentry_alloc_directory_busy s parent nm flags a s' held :
  es_held (dentry_cache s) held -> parent ∈ held -> next_map s <> 0 -> has flags T_IFDIR = true ->
  dentry_alloc s parent nm flags = Ret (Ok a, s') ->
  exists d, get_dent s' a = Ret d /\ d_count d = 3 /\ dentry_dealloc s' a = Ret (- EBUSY, s').
Proof.
  intros Hheld Hin Hnm Hfl E. unfold dentry_alloc in E. destruct (parent =? 0); [done |].
  apply bind_Ret in E as (p & Hp & E). apply bind_Ret in E as (g & _ & E). destruct (negb (g =? 0)); [done |].
  apply bind_Ret in E as ([r s1] & E1 & E). pose proof (alloc_empty_inv _ _ _ _ _ _ _ held Hp Hheld Hin E1) as R1.
  destruct r as [a1 |]; [| done]. destruct R1 as (Hn1 & Ha1 & Hh1 & Hnm1 & (d0 & Hd0 & Hc0) & _).
  apply bind_Ret in E as (s2 & (d1 & Hd1 & ->)%mod_dent_Ret & E). rewrite Hfl in E.
  apply bind_Ret in E as ([ret s3] & E3 & E).
  assert (d0 = d1) as -> by congruence.
  destruct (init_children_counts _ parent a1 (set_d_flags flags d1) flags ret s3 (a1 :: held)
    (get_dent_put_eq s1 a1 _ Ha1) Hc0 Hh1) as [Hr | (d & Hd & Hc)]; [by left | cbn; congruence | exact E3 | |].
  - rewrite (ltb_true ret) in E by lia. apply bind_Ret in E as ([? ?] & _ & E). done.
  - destruct (Z.ltb_spec ret 0); [apply bind_Ret in E as ([? ?] & _ & E); done |].
    injection E as <- <-. exists d. split; [done |]. split; [done |]. unfold dentry_dealloc.
    rewrite (proj2 (Z.eqb_neq _ _) Ha1), Hd. rb. rewrite Hc. done.
Qed.
End dentry.
#[global] Arguments fs : clear implicits.
#[global] Arguments inode_ops : clear implicits.
#[global] Arguments file_ops : clear implicits.

(** ** A sample directory *)

#[local] Existing Instance PageAlloc.PageAlloc.page_alloc_source.

Abbreviation cache := (option Slab.Slab.mm_cache * Slab.Slab.slab (S := PageAlloc.PageAlloc.state))%type.

Definition full_cache : cache := (Some Slab.Slab.sample_cache, Slab.Slab.sample_slab).
Definition sample_dir : Z := 0xffffffff82000000.
Definition dir_cache : cache := match es_alloc full_cache 1 with Ret (_, c) => c | _ => full_cache end.
Definition dir_dentry : dentry := mk_dentry T_IFDIR 0 0 9 3 0 [100].
Definition sample_fs : fs unit cache :=
  mk_fs (<[sample_dir := dir_dentry]> ∅) ∅ ∅ ∅ (<[9 := new_map]> ∅) 10 dir_cache full_cache full_cache full_cache
    (<[DLIST sample_dir := mk_links (DLIST sample_dir) (DLIST sample_dir)]>
      (<[DLIST (sample_dir + 32) := mk_links 0 0]> (<[DLIST (sample_dir + 64) := mk_links 0 0]>
        (<[DLIST (sample_dir + 96) := mk_links 0 0]> ∅)))).

Lemma new_map_ok : Hashmap.insert_only new_map.
Proof.
  assert (Hn : forall j it, Hashmap.elem new_map !! j <> Some (Some it)).
  { intros j it Hj. apply (lookup_replicate_1 32 (None : option Hashmap.hm_item) (Some it) j) in Hj as [E _]. done. }
  split; [done | done | |]; intros j it Hj; by destruct (Hn j it).
Qed.

Lemma dir_cache_held : es_held dir_cache [sample_dir].
Proof.
  destruct (es_alloc full_cache 1) as [[[[x z] |] c] | | |] eqn:E; try (vm_compute in E; discriminate E).
  assert (Hc : dir_cache = c) by (unfold dir_cache; by rewrite E). rewrite Hc.
  assert (Hx : x = sample_dir) by (vm_compute in E; injection E as <- _ _; reflexivity). subst x.
  refine (proj1 (es_alloc_law full_cache 1 [] sample_dir z c _ E)).
  exists [], Slab.Slab.sample_cache. split; [reflexivity | exact Slab.Slab.sample_inv].
Qed.

Lemma dentry_alloc_child_witness :
  exists s' d, dentry_alloc sample_fs sample_dir (Some [116]) T_IFCHR = Ret (Ok (sample_dir + 32), s') /\
    get_dent s' (sample_dir + 32) = Ret d /\ hm_get s' 9 (Some [116]) = Ret (sample_dir + 32).
Proof.
  destruct (es_alloc dir_cache 1) as [[[[x z] |] c] | | |] eqn:E; try (vm_compute in E; discriminate E).
  assert (Hx : x = sample_dir + 32) by (vm_compute in E; injection E as <- _ _; reflexivity). subst x.
  assert (Hcr : child_ready sample_fs sample_dir dir_dentry new_map [116] 177689 [sample_dir] (sample_dir + 32) z c []).
  { split.
    - reflexivity.
    - split; [exact dir_cache_held | apply list_elem_of_singleton; reflexivity].
    - reflexivity.
    - split; [discriminate |]. split; [reflexivity |]. split; [exact new_map_ok | discriminate].
    - split; [vm_compute; reflexivity | discriminate].
    - vm_compute. reflexivity.
    - exact E.
    - split; [| split; [discriminate | split; [| eexists; vm_compute; reflexivity]]].
      + split; [refine (bool_decide_eq_true_1 _ _); vm_compute; reflexivity |].
        split; [refine (bool_decide_eq_true_1 _ _); vm_compute; reflexivity |].
        split; [split; [vm_compute; reflexivity | intros _; vm_compute; reflexivity] | left; reflexivity].
      + refine (bool_decide_eq_true_1 _ _). vm_compute. reflexivity. }
  destruct (dentry_alloc_child sample_fs sample_dir dir_dentry new_map [116] 177689 [sample_dir] (sample_dir + 32) z c []
              T_IFCHR Hcr eq_refl) as [[s' E2] | (s' & d & E2 & Hch & _)].
  - exfalso. vm_compute in E2. discriminate E2.
  - exists s', d. split; [exact E2 |]. destruct Hch as (Hd & _ & _ & _ & _ & _ & Hg & _). split; [exact Hd | exact Hg].
Defined.

Lemma dentry_alloc_directory_busy_witness :
  exists a s' d, dentry_alloc sample_fs sample_dir (Some [116]) T_IFDIR = Ret (Ok a, s') /\
    get_dent s' a = Ret d /\ dentry_dealloc s' a = Ret (- EBUSY, s').
Proof.
  destruct (dentry_alloc sample_fs sample_dir (Some [116]) T_IFDIR) as [[[a |] s'] | | |] eqn:E;
    try (vm_compute in E; discriminate E).
  destruct (dentry_alloc_directory_busy sample_fs sample_dir (Some [116]) T_IFDIR a s' [sample_dir]) as (d & Hd & _ & Hb).
  - exact dir_cache_held.
  - apply list_elem_of_singleton. reflexivity.
  - discriminate.
  - reflexivity.
  - exact E.
  - exists a, s', d. split; [reflexivity |]. split; [exact Hd | exact Hb].
Defined.

End Dentry.
