(* ===== verification/File.v ===== *)
(** * Open files (fs/file.c)

    A [file] refers to a dentry and to a table of operations; the generic
    operations below are what the file systems build theirs from.  The
    tables are those of Dentry; calls through them are the functions
    [call_*] of the section. *)

From S2P Require Import Prelude Dlist Memory Dentry.
Import Memory Dentry.

Module File.

Record file := mk_file {
  f_dentry : Z;
  f_private : Z;
  f_count : Z;
  f_pos : Z;
  f_mode : Z;
  f_ops : Z
}.

Definition zero_file : file := mk_file 0 0 0 0 0 0.

Section file.
Context {F C : Type} `{EntrySource C}.

(** [core] is the state of the dentries and inodes. *)
Record fsys := mk_fsys {
  core : fs F C;
  files : gmap Z file;
  file_cache : C;
  f_ops_cache : C
}.

Definition set_core (c : fs F C) (s : fsys) : fsys := mk_fsys c (files s) (file_cache s) (f_ops_cache s).
Definition set_files (m : gmap Z file) (s : fsys) : fsys := mk_fsys (core s) m (file_cache s) (f_ops_cache s).
Definition set_file_caches (fc oc : C) (s : fsys) : fsys := mk_fsys (core s) (files s) fc oc.
Definition set_fops (o : gmap Z (file_ops F)) (s : fs F C) : fs F C :=
  set_inode_stores (inos s) (iops s) o (inode_cache s) (inode_ops_cache s) (file_ops_cache s) s.

Definition get_file (s : fsys) (f : Z) : out file := at_ptr (files s) f.
Definition put_file (s : fsys) (a : Z) (f : file) : fsys := set_files (<[a := f]> (files s)) s.

(** The file object and its own table of operations; when the second is not
    given, the first goes back. *)
Definition file_generic_alloc (s : fsys) : out (res Z * fsys) :=
  '(r, fc) ← es_alloc (file_cache s) 1;
  match r with
  | Err _ => mret (Err ENOMEM, set_file_caches fc (f_ops_cache s) s)
  | Ok (a, cleared) =>
      let f := if (cleared : bool) then zero_file else default zero_file (files s !! a) in
      '(r, oc) ← es_alloc (f_ops_cache s) 1;
      match r with
      | Err _ =>
          fc ← es_free fc a;
          mret (Err ENOMEM, set_file_caches fc oc
            (put_file s a (mk_file (f_dentry f) (f_private f) (f_count f) (f_pos f) (f_mode f) 0)))
      | Ok (o, oz) =>
          let ops := if (oz : bool) then no_fops else default no_fops (fops (core s) !! o) in
          mret (Ok a, set_file_caches fc oc (set_core (set_fops (<[o := ops]> (fops (core s))) (core s))
            (put_file s a (mk_file (f_dentry f) (f_private f) 1 0 (f_mode f) o))))
      end
  end.

(** [f_count] is unsigned, the count of the dentry is not. *)
Definition file_generic_dealloc (s : fsys) (a : Z) : out (Z * fsys) :=
  if a =? 0 then mret (- EINVAL, s)
  else
    f ← get_file s a;
    if 1 <? f_count f then mret (- EBUSY, s)
    else
      c ← (if f_dentry f =? 0 then mret (core s)
           else mod_dent (core s) (f_dentry f) (fun d => set_d_count (s32 (d_count d - 1)) d));
      oc ← es_free (f_ops_cache s) (f_ops f);
      fc ← es_free (file_cache s) a;
      mret (0, set_file_caches fc oc (set_core c s)).

(** The size of the inode is read as an unsigned 32-bit number. *)
Definition file_generic_seek (s : fsys) (a off : Z) : out (Z * fsys) :=
  if a =? 0 then mret (- EINVAL, s)
  else
    f ← get_file s a;
    if f_dentry f =? 0 then mret (- EINVAL, s)
    else
      d ← get_dent (core s) (f_dentry f);
      if d_inode d =? 0 then mret (- EINVAL, s)
      else
        i ← at_ptr (inos (core s)) (d_inode d);
        let FILE_SIZE := u32 (i_size i) in
        if (f_pos f <? s64 (- off)) || (FILE_SIZE <? s64 (f_pos f + off)) then mret (- ESPIPE, s)
        else mret (0, put_file s a (mk_file (f_dentry f) (f_private f) (f_count f) (s64 (f_pos f + off)) (f_mode f) (f_ops f))).

(** ** Calls through the operation table *)

Variable call_open : F -> fsys -> Z -> Z -> out (res Z * fsys).
Variable call_close : F -> fsys -> Z -> out (Z * fsys).
Variable call_seek : F -> fsys -> Z -> Z -> out (Z * fsys).
Variable call_read : F -> fsys -> Z -> Z -> Z -> out (res (list Z) * fsys).
Variable call_write : F -> fsys -> Z -> Z -> list Z -> out (Z * fsys).

Definition ops_of (s : fsys) (f : file) : out (file_ops F) := at_ptr (fops (core s)) (f_ops f).

Definition file_open (s : fsys) (dntr mode : Z) : out (res Z * fsys) :=
  if dntr =? 0 then mret (Err EINVAL, s)
  else
    d ← get_dent (core s) dntr;
    if d_inode d =? 0 then mret (Err EINVAL, s)
    else
      i ← at_ptr (inos (core s)) (d_inode d);
      if i_fops i =? 0 then mret (Err EINVAL, s)
      else
        o ← at_ptr (fops (core s)) (i_fops i);
        match open o with
        | None => mret (Err ENOSYS, s)
        | Some op => call_open op s dntr mode
        end.

(** The result is the error number, 0 when the operation was called. *)
Definition file_close (s : fsys) (a : Z) : out (Z * fsys) :=
  if a =? 0 then mret (EINVAL, s)
  else
    f ← get_file s a; o ← ops_of s f;
    match close o with
    | None => mret (ENOSYS, s)
    | Some op => '(_, s) ← call_close op s a; mret (0, s)
    end.

Definition file_seek (s : fsys) (a off : Z) : out (Z * fsys) :=
  if a =? 0 then mret (- EINVAL, s)
  else
    f ← get_file s a; o ← ops_of s f;
    match seek o with
    | None => mret (- ENOSYS, s)
    | Some op => call_seek op s a off
    end.

(** [buffer] says whether the buffer pointer is not null; the result is the
    bytes read, or the error number. *)
Definition file_read (s : fsys) (a offset size : Z) (buffer : bool) : out (res (list Z) * fsys) :=
  if (a =? 0) || negb buffer then mret (Err EINVAL, s)
  else
    f ← get_file s a; o ← ops_of s f;
    match read o with
    | None => mret (Err ENOSYS, s)
    | Some op => call_read op s a offset size
    end.

Definition file_write (s : fsys) (a offset : Z) (buffer : option (list Z)) : out (Z * fsys) :=
  match buffer with
  | None => mret (- EINVAL, s)
  | Some b =>
      if a =? 0 then mret (- EINVAL, s)
      else
        f ← get_file s a; o ← ops_of s f;
        match write o with
        | None => mret (- ENOSYS, s)
        | Some op => call_write op s a offset b
        end
  end.

(** ** Seeking *)

(** A generic seek of a file at a position inside it succeeds exactly
    when the new position is inside it too (its end included): it then moves
    there and changes nothing else, and gives ESPIPE without any change
    otherwise. *)
Theorem file_generic_seek_bounds (s : fsys) (a off : Z) (f : file) (d : dentry) (i : inode) :
  get_file s a = Ret f -> get_dent (core s) (f_dentry f) = Ret d -> at_ptr (inos (core s)) (d_inode d) = Ret i ->
  0 <= i_size i < 2 ^ 31 -> 0 <= f_pos f <= i_size i -> - 2 ^ 63 < off < 2 ^ 63 - 2 ^ 31 ->
  file_generic_seek s a off =
    Ret (if bool_decide (0 <= f_pos f + off <= i_size i)
         then (0, put_file s a (mk_file (f_dentry f) (f_private f) (f_count f) (f_pos f + off) (f_mode f) (f_ops f)))
         else (- ESPIPE, s)).
Proof.
  intros Hf Hd Hi Hsz Hpos Hoff. unfold file_generic_seek.
  pose proof (proj1 (at_ptr_Ret _ _ _) Hf) as [Ha _]. pose proof (proj1 (at_ptr_Ret _ _ _) Hd) as [Hd0 _].
  pose proof (proj1 (at_ptr_Ret _ _ _) Hi) as [Hi0 _].
  rewrite (proj2 (Z.eqb_neq _ _) Ha), Hf. rb. rewrite (proj2 (Z.eqb_neq _ _) Hd0), Hd. rb.
  rewrite (proj2 (Z.eqb_neq _ _) Hi0), Hi. rb.
  assert (E1 : u32 (i_size i) = i_size i) by (apply wrap_small; unfold in_u; lia).
  assert (E2 : s64 (- off) = - off) by (apply swrap_small; lia).
  assert (E3 : s64 (f_pos f + off) = f_pos f + off) by (apply swrap_small; lia).
  rewrite E1, E2, E3. destruct (Z.ltb_spec (f_pos f) (- off)); cbn [orb].
  - rewrite bool_decide_eq_false_2 by lia. done.
  - destruct (Z.ltb_spec (i_size i) (f_pos f + off)).
    + rewrite bool_decide_eq_false_2 by lia. done.
    + rewrite bool_decide_eq_true_2 by lia. done.
Qed.
End file.
#[global] Arguments fsys : clear implicits.

Definition sample_fsys : fsys unit unit :=
  mk_fsys (mk_fs (<[8 := mk_dentry 0 0 16 0 1 0 []]> ∅) (<[16 := mk_inode 0 0 0 100 1 0 0 0 0 0]> ∅) ∅ ∅ ∅ 1 tt tt tt tt ∅)
    (<[24 := mk_file 8 0 1 40 0 0]> ∅) tt tt.

Lemma file_generic_seek_bounds_witness :
  exists s', file_generic_seek sample_fsys 24 60 = Ret (0, s') /\ file_generic_seek sample_fsys 24 61 = Ret (- ESPIPE, sample_fsys).
Proof.
  pose proof (fun off => file_generic_seek_bounds sample_fsys 24 off (mk_file 8 0 1 40 0 0) (mk_dentry 0 0 16 0 1 0 [])
    (mk_inode 0 0 0 100 1 0 0 0 0 0) eq_refl eq_refl eq_refl) as H.
  assert (E1 := H 60 ltac:(split; [discriminate | reflexivity]) ltac:(split; discriminate) ltac:(split; reflexivity)).
  assert (E2 := H 61 ltac:(split; [discriminate | reflexivity]) ltac:(split; discriminate) ltac:(split; reflexivity)).
  eexists. split; [rewrite E1; reflexivity | rewrite E2; reflexivity].
Defined.

End File.
