(* ===== verification/Vfs.v ===== *)
(** * The virtual file system (fs/fs.c)

    Mounts, registered file system types, path lookup, and the file system
    and file contexts of tasks.  Paths and names are lists of bytes without
    the NUL, [None] being a null pointer; 47 is the slash.  The operations
    of the file systems are called through [call_lookup] and [call_get_sb];
    [kmalloc] and the caches of this file never fail (they stop the CPU). *)

From S2P Require Import Prelude Locks Hashmap Dlist Memory PageAlloc Slab Dentry File.
Import Locks Dlist Memory Dentry File.

Module Vfs.

Definition LOOKUP_PARENT : Z := 1.
Definition LOOKUP_CREATE : Z := 2.
Definition LOOKUP_OPEN : Z := 4.

Definition LOOKUP_STAT_SUCCESS : Z := 0.
Definition LOOKUP_STAT_ENOENT : Z := 1.
Definition LOOKUP_STAT_EEXISTS : Z := 2.
Definition LOOKUP_STAT_EINVAL : Z := 4.

Abbreviation str := (list Z).
Definition SLASH : Z := 47.

Record mount := mk_mount {
  mnt_sb : Z;
  mnt_mount : Z;
  mnt_root : Z;
  mnt_devname : option str;
  mnt_type : option str
}.

(** [offsetof(mount_t, mnt_list)], [offsetof(superblock_t, s_list)]. *)
Definition MLIST (m : Z) : Z := m + 40.
Definition container_of_mount (iter : Z) : Z := iter - 40.
Definition SLIST (sb : Z) : Z := sb.

Record path_t := mk_path { p_dentry : Z; p_flags : Z; p_status : Z }.

(** [fd] is the array of pointers to open files. *)
Record file_ctx := mk_file_ctx { fc_count : Z; numfd : Z; fd : list Z; fc_lock : Z }.
Record fs_ctx := mk_fs_ctx { fx_count : Z; fx_root : Z; fx_pwd : Z }.

(** ** Splitting a path *)

(** The scan of [vfs_extract_child]: the bytes before the first slash, and
    what follows the slash ([None] when there is none). *)
Fixpoint scan_child (path : str) : str * option str :=
  match path with
  | [] => ([], None)
  | c :: rest =>
      if c =? SLASH then ([], Some rest)
      else let '(child, next) := scan_child rest in (c :: child, next)
  end.

(** The child is null when nothing is left of the path. *)
Definition vfs_extract_child (path : str) : option str * option str :=
  let '(child, next) := scan_child path in
  (match path with [] => None | _ => Some child end, next).

(** ** Paths as lists of components *)

(** Splitting at every slash; the result is never empty. *)
Fixpoint components (path : str) : list str :=
  match path with
  | [] => [[]]
  | c :: rest =>
      if c =? SLASH then [] :: components rest
      else match components rest with x :: xs => (c :: x) :: xs | [] => [[c]] end
  end.

Fixpoint join (l : list str) : str :=
  match l with
  | [] => []
  | [x] => x
  | x :: xs => x ++ SLASH :: join xs
  end.

Lemma components_cons path : exists x xs, components path = x :: xs.
Proof.
  destruct path as [| c rest]; cbn; [eauto |]. destruct (c =? SLASH); [eauto |]. destruct (components rest); eauto.
Qed.

Lemma join_components path : join (components path) = path.
Proof.
  induction path as [| c rest IH]; cbn [components]; [done |].
  destruct (components_cons rest) as (x & xs & E). rewrite E in *. destruct (Z.eqb_spec c SLASH) as [-> |].
  - change (join ([] :: x :: xs)) with (SLASH :: join (x :: xs)). by rewrite IH.
  - destruct xs; cbn in *; by rewrite IH.
Qed.

Lemma components_no_slash path x : x ∈ components path -> SLASH ∉ x.
Proof.
  revert x. induction path as [| c rest IH]; intros x; cbn [components].
  - intros ->%list_elem_of_singleton. by intros ?%elem_of_nil.
  - destruct (components_cons rest) as (y & ys & E). rewrite E in *. destruct (Z.eqb_spec c SLASH).
    + intros [-> | Hx]%elem_of_cons; [by intros ?%elem_of_nil | by apply IH].
    + intros [-> | Hx]%elem_of_cons; [| apply IH; by right].
      intros [? | Hs]%elem_of_cons; [congruence | by eapply (IH y); [left |]].
Qed.

(** [vfs_extract_child] takes the first component off. *)
Lemma scan_child_components path :
  match scan_child path with
  | (child, None) => components path = [child]
  | (child, Some next) => components path = child :: components next /\ (length next < length path)%nat
  end.
Proof.
  induction path as [| c rest IH]; [done |]. cbn [scan_child components].
  destruct (c =? SLASH); [cbn; auto with lia |]. destruct (scan_child rest) as [child [next |]].
  - destruct IH as [-> ?]. cbn. auto with lia.
  - by rewrite IH.
Qed.

Section vfs.
Context {F G C : Type} `{EntrySource C}.

Record fs_type := mk_fs_type { fs_name : option str; get_sb : option G; kill_sb : option G }.

(** The static variables; [sbs] gives the [s_root] of each superblock,
    [next_obj] the address of the next [kmalloc] object. *)
Record vfs := mk_vfs {
  sys : fsys F C;
  mounts : gmap Z mount;
  sbs : gmap Z Z;
  types : gmap Z fs_type;
  fs_types : Z;
  mountpoints : Z;
  superblocks : Z;
  root_fs : Z;
  next_obj : Z
}.

Definition set_sys (v : fsys F C) (s : vfs) : vfs :=
  mk_vfs v (mounts s) (sbs s) (types s) (fs_types s) (mountpoints s) (superblocks s) (root_fs s) (next_obj s).
Definition set_mounts (v : gmap Z mount) (s : vfs) : vfs :=
  mk_vfs (sys s) v (sbs s) (types s) (fs_types s) (mountpoints s) (superblocks s) (root_fs s) (next_obj s).
Definition fscore (s : vfs) : fs F C := core (sys s).
Definition set_fscore (c : fs F C) (s : vfs) : vfs := set_sys (set_core c (sys s)) s.
Definition vlnk (s : vfs) : links := lnk (fscore s).
Definition set_vlnk (l : links) (s : vfs) : vfs := set_fscore (set_lnk l (fscore s)) s.
Definition get_mount (s : vfs) (m : Z) : out mount := at_ptr (mounts s) m.
Definition put_mount (s : vfs) (a : Z) (m : mount) : vfs := set_mounts (<[a := m]> (mounts s)) s.

(** [kstrcmp_s(a, b) == 0] (see Util for the comparison of bytes). *)
Definition streq (a b : option str) : out bool :=
  match a, b with Some a, Some b => mret (bool_decide (a = b)) | _, _ => Fault end.

(** [call_lookup f s dntr name], [call_get_sb g s fs dev data]: the
    superblock, 0 for null. *)
Variable call_lookup : F -> fs F C -> Z -> str -> out (res Z * fs F C).
Variable call_get_sb : G -> vfs -> Z -> option str -> out (Z * vfs).

(** ** Mounting *)

Definition alloc_empty_mount (s : vfs) : out (Z * vfs) :=
  let a := next_obj s in
  lk ← list_init (<[MLIST a := mk_links 0 0]> (vlnk s)) (MLIST a);
  let s := set_vlnk lk (put_mount s a (mk_mount 0 0 0 None None)) in
  mret (a, mk_vfs (sys s) (mounts s) (sbs s) (types s) (fs_types s) (mountpoints s) (superblocks s) (root_fs s) (a + 1)).

Definition vfs_mount_pseudo (s : vfs) (target type : option str) (mountpoint : Z) : out (Z * vfs) :=
  match target, type with
  | Some _, Some _ =>
      if mountpoint =? 0 then mret (- EINVAL, s)
      else
        f ← hm_get (fscore s) (fs_types s) type;
        if f =? 0 then mret (- ENOSYS, s)
        else
          '(m, s) ← alloc_empty_mount s;
          t ← at_ptr (types s) f;
          match get_sb t with
          | None => Fault
          | Some g =>
              '(sb, s) ← call_get_sb g s f None;
              root ← at_ptr (sbs s) sb;
              let s := put_mount s m (mk_mount sb mountpoint root type type) in
              c ← mod_dent (fscore s) mountpoint (fun d => set_d_count (s32 (d_count d + 1)) d);
              let s := set_fscore c s in
              lk ← list_append (vlnk s) (mountpoints s) (MLIST m);
              mret (0, set_vlnk lk s)
          end
  | _, _ => mret (- EINVAL, s)
  end.

(** [initramfs] is [initramfs_get_sb], which fails with an error number. *)
Definition vfs_install_rootfs (s : vfs) (type : option str) (initramfs : vfs -> Z -> out (res Z * vfs)) : out (Z * vfs) :=
  f ← hm_get (fscore s) (fs_types s) type;
  if f =? 0 then mret (- ENOTSUP, s)
  else
    m ← get_mount s (root_fs s);
    if negb (mnt_sb m =? 0) then mret (- EBUSY, s)
    else
      '(r, s) ← initramfs s f;
      m ← get_mount s (root_fs s);
      match r with
      | Err e => mret (- e, put_mount s (root_fs s) (mk_mount 0 (mnt_mount m) (mnt_root m) (mnt_devname m) (mnt_type m)))
      | Ok sb =>
          root ← at_ptr (sbs s) sb;
          let s := put_mount s (root_fs s)
                     (mk_mount sb (mnt_mount m) root None (Some [105; 110; 105; 116; 114; 97; 109; 102; 115])) in
          lk ← list_append (vlnk s) (superblocks s) (SLIST sb);
          mret (0, set_vlnk lk s)
      end.

(** A type is registered under its pointer; 0 is the null pointer. *)
Definition vfs_register_fs (s : vfs) (f : Z) : out (Z * vfs) :=
  if f =? 0 then mret (- EINVAL, s)
  else
    t ← at_ptr (types s) f;
    match get_sb t, kill_sb t with
    | Some _, Some _ =>
        g ← hm_get (fscore s) (fs_types s) (fs_name t);
        if negb (g =? 0) then mret (- EEXIST, s)
        else
          '(r, c) ← hm_insert (fscore s) (fs_types s) (fs_name t) f;
          mret (r, set_fscore c s)
    | _, _ => mret (- EINVAL, s)
    end.

(** The mount whose type is [type], compared with [kstrcmp_s]. *)
Definition type_test (s : vfs) (type : option str) (iter : Z) : out bool :=
  m ← get_mount s (container_of_mount iter); streq (mnt_type m) type.

Definition vfs_unregister_fs (s : vfs) (type : option str) : out (Z * vfs) :=
  match type with
  | None => mret (- EINVAL, s)
  | Some _ =>
      f ← hm_get (fscore s) (fs_types s) type;
      if f =? 0 then mret (- EINVAL, s)
      else
        r ← FOREACH_find (vlnk s) (type_test s type) (mountpoints s);
        match r with
        | Some _ => mret (- EBUSY, s)
        | None => '(r, c) ← hm_remove (fscore s) (fs_types s) type; mret (r, set_fscore c s)
        end
  end.

(** ** Walking a path *)

(** The child of [parent]: from its table, or from the file system. *)
Definition find_child (s : fs F C) (parent : Z) (next : option str) : out (res Z * fs F C) :=
  p ← get_dent s parent;
  g ← hm_get s (d_children p) next;
  if negb (g =? 0) then mret (Ok g, s)
  else
    '(r, s) ← inode_lookup call_lookup s parent next;
    match r with
    | Err e => mret (Err e, s)
    | Ok ino => i ← at_ptr (inos s) ino; dentry_alloc_ino s parent next ino (i_flags i)
    end.

Fixpoint vfs_walk_path (fuel : nat) (s : fs F C) (parent : Z) (path : option str) (flags : Z) : out (res Z * fs F C) :=
  match fuel with
  | O => Spin
  | S fuel =>
      match path with
      | None => mret (Err EINVAL, s)
      | Some path =>
          if parent =? 0 then mret (Err EINVAL, s)
          else
            let '(next, path) := vfs_extract_child path in
            match path with
            | None => if has flags LOOKUP_PARENT then mret (Ok parent, s) else find_child s parent next
            | Some _ =>
                p ← get_dent s parent;
                if d_children p =? 0 then mret (Err EINVAL, s)
                else
                  '(r, s) ← find_child s parent next;
                  match r with
                  | Err e => mret (Err e, s)
                  | Ok d => vfs_walk_path fuel s d path flags
                  end
            end
      end
  end.

(** The walk calls itself on the path after a slash. *)
Definition walk_fuel (path : option str) : nat := match path with Some p => S (length p) | None => 1 end.

(** [path] is the string after the first slash. *)
Definition mount_test (s : vfs) (name : option str) (iter : Z) : out bool :=
  m ← get_mount s (container_of_mount iter);
  d ← get_dent (fscore s) (mnt_mount m);
  streq (Some (d_name d)) name.

Definition vfs_find_bootstrap (s : vfs) (path : str) : out (Z * option str) :=
  match path with
  | [] => m ← get_mount s (root_fs s); mret (mnt_root m, None)
  | _ =>
      let '(name, _) := vfs_extract_child path in
      r ← FOREACH_find (vlnk s) (mount_test s name) (mountpoints s);
      match r with
      | None => mret (0, Some path)
      | Some iter =>
          m ← get_mount s (container_of_mount iter);
          match drop (length (default [] name)) path with
          | [] => mret (mnt_root m, None)
          | _ :: rest => mret (mnt_root m, Some rest)
          end
      end
  end.

(** The status when the walk has found nothing, or a dentry. *)
Definition status_absent (flags : Z) : Z :=
  if has flags LOOKUP_CREATE then LOOKUP_STAT_SUCCESS else LOOKUP_STAT_ENOENT.
Definition status_found (flags : Z) : Z :=
  if has flags LOOKUP_OPEN then LOOKUP_STAT_SUCCESS
  else if has flags LOOKUP_CREATE && negb (has flags LOOKUP_PARENT) then LOOKUP_STAT_EEXISTS
  else LOOKUP_STAT_ENOENT.

(** From the dentry the walk starts at. *)
Definition lookup_from (s : vfs) (start : Z) (path : option str) (flags junk : Z) : out (path_t * vfs) :=
  if start =? 0 then mret (mk_path junk flags LOOKUP_STAT_EINVAL, s)
  else
    '(r, c) ← vfs_walk_path (walk_fuel path) (fscore s) start path flags;
    match r with
    | Err _ =>
        let d := if has flags LOOKUP_CREATE && has flags LOOKUP_PARENT then start else 0 in
        mret (mk_path d flags (status_absent flags), set_fscore c s)
    | Ok d =>
        c ← mod_dent c d (fun e => set_d_count (s32 (d_count e + 1)) e);
        mret (mk_path d flags (status_found flags), set_fscore c s)
    end.

(** [current] is the running task: [None] when the scheduler has not
    started, and the [pwd] of its file system context, if it has one.
    [junk] is what the memory of the result holds in [p_dentry]. *)
Definition vfs_path_lookup (s : vfs) (path : option str) (flags : Z) (current : option (option Z)) (junk : Z) :
    out (path_t * vfs) :=
  match path with
  | None | Some [] => mret (mk_path 0 flags LOOKUP_STAT_EINVAL, s)
  | Some (c :: rest as path) =>
      if c =? SLASH then
        '(start, p) ← vfs_find_bootstrap s rest;
        match p with
        | None =>
            m ← get_mount s (root_fs s);
            let d := if has flags LOOKUP_PARENT then mnt_root m else start in
            let st := if has flags LOOKUP_OPEN && negb (start =? 0) then LOOKUP_STAT_SUCCESS
                      else if has flags LOOKUP_CREATE && negb (start =? 0) then LOOKUP_STAT_EEXISTS
                      else LOOKUP_STAT_ENOENT in
            mret (mk_path d flags st, s)
        | Some _ =>
            start ← (if start =? 0 then m ← get_mount s (root_fs s); mret (mnt_root m) else mret start);
            lookup_from s start p flags junk
        end
      else
        match current with
        | None | Some None => mret (mk_path junk flags LOOKUP_STAT_ENOENT, s)
        | Some (Some pwd) => lookup_from s pwd (Some path) flags junk
        end
  end.

Definition vfs_path_release (s : vfs) (path : option path_t) : out (Z * vfs) :=
  match path with
  | None => mret (- EINVAL, s)
  | Some p =>
      if p_dentry p =? 0 then mret (- EINVAL, s)
      else
        d ← get_dent (fscore s) (p_dentry p);
        let n := s32 (d_count d - 1) in
        let c := put_dent (fscore s) (p_dentry p) (set_d_count n d) in
        c ← (if n =? 1 then '(_, c) ← dentry_dealloc c (p_dentry p); mret c else mret c);
        mret (0, set_fscore c s)
  end.

(** "devfs", "sysfs", "procfs", "tmpfs". *)
Definition single_types : list str :=
  [[100; 101; 118; 102; 115]; [115; 121; 115; 102; 115]; [112; 114; 111; 99; 102; 115]].
Definition TMPFS : str := [116; 109; 112; 102; 115].

(** From the label [check_dest]; [dst] is still null when it is counted. *)
Definition check_dest (s : vfs) (f : Z) (source target type : option str) (current : option (option Z)) (junk : Z) :
    out (Z * vfs) :=
  '(p, s) ← vfs_path_lookup s target 0 current junk;
  if p_dentry p =? 0 then mret (- ENOENT, s)
  else
    r ← FOREACH_find (vlnk s) (type_test s type) (mountpoints s);
    match r with
    | Some _ => mret (- EEXIST, s)
    | None =>
        '(m, s) ← alloc_empty_mount s;
        t ← at_ptr (types s) f;
        match get_sb t with
        | None => Fault
        | Some g =>
            '(sb, s) ← call_get_sb g s f source;
            let dst := 0 in
            let s := put_mount s m (mk_mount sb dst 0 source type) in
            c ← mod_dent (fscore s) dst (fun d => set_d_count (s32 (d_count d + 1)) d);
            let s := set_fscore c s in
            lk ← list_append (vlnk s) (mountpoints s) (MLIST m);
            mret (0, set_vlnk lk s)
        end
    end.

Definition vfs_mount (s : vfs) (source target type : option str) (current : option (option Z)) (junk : Z) : out (Z * vfs) :=
  match target, type with
  | Some _, Some ty =>
      f ← hm_get (fscore s) (fs_types s) type;
      if f =? 0 then mret (- ENOTSUP, s)
      else if bool_decide (ty ∈ single_types) then
        match source with
        | Some _ => mret (- EINVAL, s)
        | None =>
            r ← FOREACH_find (vlnk s) (type_test s type) (mountpoints s);
            match r with
            | Some _ => mret (- EEXIST, s)
            | None => check_dest s f source target type current junk
            end
        end
      else
        match source with
        | None =>
            if bool_decide (ty = TMPFS) then check_dest s f source target type current junk
            else mret (- EINVAL, s)
        | Some _ =>
            '(p, s) ← vfs_path_lookup s source 0 current junk;
            if p_dentry p =? 0 then mret (- ENOENT, s)
            else check_dest s f source target type current junk
        end
  | _, _ => mret (- EINVAL, s)
  end.

(** ** Contexts *)

Definition vfs_alloc_fs_ctx (s : vfs) (pwd : Z) : out fs_ctx :=
  m ← get_mount s (root_fs s); mret (mk_fs_ctx 1 (mnt_root m) pwd).

(** [old] is what the array from [kmalloc] holds. *)
Definition vfs_alloc_file_ctx (old : list Z) (n : Z) : file_ctx :=
  mk_file_ctx 1 n (take (Z.to_nat n) old) 0.

(** The descriptor table grows by one: [8 * numfd - 1] bytes of the new
    size are copied, so the last entry gets seven bytes of what follows the
    old array, [after].  The new entry then gets the file. *)
Definition vfs_alloc_fd (s : vfs) (ctx : option file_ctx) (after : Z) : out (Z * option file_ctx * vfs) :=
  match ctx with
  | None => mret (- EINVAL, None, s)
  | Some c =>
      l ← spin_acquire (fc_lock c);
      let ret := numfd c in
      let n := s32 (numfd c + 1) in
      let new := take (Z.to_nat n) (fd c ++ [after mod 2 ^ 56]) in
      '(r, y) ← file_generic_alloc (sys s);
      let s := set_sys y s in
      match r with
      | Err _ =>
          new ← wr new ret 0;
          mret (- ENOMEM, Some (mk_file_ctx (fc_count c) n new l), s)
      | Ok f =>
          new ← wr new ret f;
          mret (ret, Some (mk_file_ctx (fc_count c) n new (spin_release l)), s)
      end
  end.

Definition vfs_free_fs_ctx (s : vfs) (ctx : option fs_ctx) : out (Z * option fs_ctx * vfs) :=
  match ctx with
  | None => mret (- EINVAL, None, s)
  | Some c =>
      if 2 <=? fx_count c then mret (- EBUSY, Some (mk_fs_ctx (fx_count c - 1) (fx_root c) (fx_pwd c)), s)
      else
        '(_, k) ← dentry_dealloc (fscore s) (fx_root c);
        '(_, k) ← dentry_dealloc k (fx_pwd c);
        mret (0, ctx, set_fscore k s)
  end.

(** The result says whether the array was given back. *)
Definition vfs_free_file_ctx (ctx : option file_ctx) : Z * option file_ctx * bool :=
  match ctx with
  | None => (- EINVAL, None, false)
  | Some c =>
      if 2 <=? fc_count c then (- EBUSY, Some (mk_file_ctx (fc_count c - 1) (numfd c) (fd c) (fc_lock c)), false)
      else (0, ctx, 0 <? numfd c)
  end.

(** The walk as a recursion on the components. *)
Fixpoint walk_components (s : fs F C) (d : Z) (l : list str) (flags : Z) : out (res Z * fs F C) :=
  if d =? 0 then mret (Err EINVAL, s)
  else match l with
  | [] => mret (Err EINVAL, s)
  | [c] => if has flags LOOKUP_PARENT then mret (Ok d, s) else find_child s d (match c with [] => None | _ => Some c end)
  | c :: l =>
      p ← get_dent s d;
      if d_children p =? 0 then mret (Err EINVAL, s)
      else
        '(r, s) ← find_child s d (Some c);
        match r with Err e => mret (Err e, s) | Ok d => walk_components s d l flags end
  end.

Lemma walk_enough_fuel fuel s d path flags : (length path < fuel)%nat ->
  vfs_walk_path fuel s d (Some path) flags = walk_components s d (components path) flags.
Proof.
  revert s d path. induction fuel as [| fuel IH]; intros s d path Hf; [lia |]. cbn [vfs_walk_path].
  unfold vfs_extract_child. pose proof (scan_child_components path) as Hsc.
  destruct (scan_child path) as [child [next |]].
  - destruct Hsc as [-> Hlen]. destruct (components_cons next) as (x & xs & E).
    assert (Hne : path <> []) by (intros ->; cbn in Hlen; lia). destruct path as [| b rest]; [done |].
    rewrite E. cbn [walk_components]. destruct (d =? 0); [done |]. destruct (get_dent s d) as [p | | |]; [| done ..].
    rewrite !ret_bind. destruct (d_children p =? 0); [done |].
    destruct (find_child s d (Some child)) as [[[d' | e] s'] | | |]; [| done ..]. rewrite !ret_bind.
    rewrite IH by (cbn in *; lia). by rewrite E.
  - rewrite Hsc. cbn [walk_components]. destruct (d =? 0); [done |].
    destruct (has flags LOOKUP_PARENT); [done |]. destruct path as [| b rest]; cbn in Hsc.
    + by injection Hsc as <-.
    + destruct (components_cons rest) as (x & xs & E). rewrite E in Hsc.
      destruct (b =? SLASH); injection Hsc as <- Hxs; [| done]. by rewrite Hxs in E || discriminate.
Qed.

(** C17: the path is the join of its components, none of which has a slash,
    and the walk that cuts children off the path in place does exactly what
    the recursion on the components does; it always ends. *)
Theorem vfs_walk_path_components (s : fs F C) (d : Z) (path : str) (flags : Z) :
  join (components path) = path /\ Forall (fun x => SLASH ∉ x) (components path) /\
  vfs_walk_path (walk_fuel (Some path)) s d (Some path) flags = walk_components s d (components path) flags /\
  forall fuel, (walk_fuel (Some path) <= fuel)%nat ->
    vfs_walk_path fuel s d (Some path) flags = vfs_walk_path (walk_fuel (Some path)) s d (Some path) flags.
Proof.
  split; [apply join_components |]. split; [apply Forall_forall; intros x; apply components_no_slash |].
  assert (H0 : forall fuel, (walk_fuel (Some path) <= fuel)%nat ->
    vfs_walk_path fuel s d (Some path) flags = walk_components s d (components path) flags).
  { intros fuel Hf. apply walk_enough_fuel. cbn in Hf. lia. }
  split; [by apply H0 |]. intros fuel Hf. rewrite !H0 by lia. done.
Qed.

(** ** References taken by a lookup *)

(** Looking up a path that leads to a dentry below the starting point
    takes a reference which releasing the path gives back.  Looking up "/"
    takes none, and releasing it takes one away from the root all the same:
    each such pair brings the root closer to being freed. *)
Theorem vfs_lookup_release_balance (s : vfs) (current : option (option Z)) (junk : Z) :
  (forall start path flags d c e,
     start <> 0 -> vfs_walk_path (walk_fuel path) (fscore s) start path flags = Ret (Ok d, c) ->
     get_dent c d = Ret e -> 2 <= d_count e < 2 ^ 31 - 1 ->
     exists s1 s2, lookup_from s start path flags junk = Ret (mk_path d flags (status_found flags), s1) /\
       get_dent (fscore s1) d = Ret (set_d_count (d_count e + 1) e) /\
       vfs_path_release s1 (Some (mk_path d flags (status_found flags))) = Ret (0, s2) /\
       get_dent (fscore s2) d = Ret e) /\
  (forall m d, get_mount s (root_fs s) = Ret m -> get_dent (fscore s) (mnt_root m) = Ret d ->
     3 <= d_count d < 2 ^ 31 ->
     vfs_path_lookup s (Some [SLASH]) LOOKUP_OPEN current junk =
       Ret (mk_path (mnt_root m) LOOKUP_OPEN LOOKUP_STAT_SUCCESS, s) /\
     exists s2, vfs_path_release s (Some (mk_path (mnt_root m) LOOKUP_OPEN LOOKUP_STAT_SUCCESS)) = Ret (0, s2) /\
       get_dent (fscore s2) (mnt_root m) = Ret (set_d_count (d_count d - 1) d)).
Proof.
  split.
  - intros start path flags d c e Hs Hw Hd Hcnt. pose proof (proj1 (at_ptr_Ret _ _ _) Hd) as [Hd0 _].
    unfold lookup_from. rewrite (proj2 (Z.eqb_neq _ _) Hs), Hw. rb. unfold mod_dent. rewrite Hd. rb. rb.
    assert (E1 : s32 (d_count e + 1) = d_count e + 1) by (apply swrap_small; lia). rewrite E1. eexists _, _. split; [done |].
    split; [exact (get_dent_put_eq c d _ Hd0) |]. split.
    + unfold vfs_path_release. cbn [p_dentry]. rewrite (proj2 (Z.eqb_neq _ _) Hd0).
      match goal with |- context [get_dent ?x d] => change (get_dent x d) with (get_dent (put_dent c d (set_d_count (d_count e + 1) e)) d) end.
      rewrite get_dent_put_eq by done. rb. cbn [d_count set_d_count].
      assert (E2 : s32 (d_count e + 1 - 1) = d_count e + 1 - 1) by (apply swrap_small; lia). rewrite E2.
      rewrite (proj2 (Z.eqb_neq (d_count e + 1 - 1) 1)) by lia. rb. done.
    + match goal with |- get_dent ?x d = _ => change (get_dent x d) with
        (get_dent (put_dent (put_dent c d (set_d_count (d_count e + 1) e)) d (set_d_count (d_count e + 1 - 1) (set_d_count (d_count e + 1) e))) d) end.
      rewrite get_dent_put_eq by done. replace (d_count e + 1 - 1) with (d_count e) by lia. by destruct e.
  - intros m d Hm Hd Hcnt. pose proof (proj1 (at_ptr_Ret _ _ _) Hd) as [Hd0 _]. split.
    + unfold vfs_path_lookup, vfs_find_bootstrap. rewrite Z.eqb_refl, Hm. rb. rb. rb.
      rewrite (proj2 (Z.eqb_neq _ _) Hd0). done.
    + unfold vfs_path_release. cbn [p_dentry]. rewrite (proj2 (Z.eqb_neq _ _) Hd0), Hd. rb.
      assert (E3 : s32 (d_count d - 1) = d_count d - 1) by (apply swrap_small; lia). rewrite E3.
      rewrite (proj2 (Z.eqb_neq (d_count d - 1) 1)) by lia. rb.
      eexists. split; [done |]. exact (get_dent_put_eq (fscore s) (mnt_root m) _ Hd0).
Qed.

(** ** Mounting never succeeds *)

(** [vfs_mount] cannot mount anything: whatever it returns is an error,
    because the reference it counts on success is that of the dentry
    [dst], which is still null. *)
Theorem vfs_mount_only_fails (s s' : vfs) (source target type : option str) (current : option (option Z)) (junk r : Z) :
  vfs_mount s source target type current junk = Ret (r, s') -> r < 0.
Proof.
  assert (Hcd : forall s f, check_dest s f source target type current junk = Ret (r, s') -> r < 0).
  { clear s. intros s f E. unfold check_dest in E. apply bind_Ret in E as ([p s1] & _ & E).
    destruct (p_dentry p =? 0); [by injection E as <- _ |].
    apply bind_Ret in E as (o & _ & E). destruct o; [by injection E as <- _ |].
    apply bind_Ret in E as ([m s2] & _ & E). apply bind_Ret in E as (t & _ & E).
    destruct (get_sb t); [| done]. apply bind_Ret in E as ([sb s3] & _ & E). done. }
  unfold vfs_mount. intros E. destruct target as [tg |]; [| by injection E as <- _].
  destruct type as [ty |]; [| by injection E as <- _].
  apply bind_Ret in E as (f & _ & E). destruct (f =? 0); [by injection E as <- _ |].
  destruct (bool_decide (ty ∈ single_types)).
  - destruct source; [by injection E as <- _ |]. apply bind_Ret in E as (o & _ & E).
    destruct o; [by injection E as <- _ | by apply Hcd in E].
  - destruct source.
    + apply bind_Ret in E as ([p s1] & _ & E). destruct (p_dentry p =? 0); [by injection E as <- _ | by apply Hcd in E].
    + destruct (bool_decide (ty = TMPFS)); [by apply Hcd in E | by injection E as <- _].
Qed.

(** ** File descriptors *)

(** [vfs_alloc_fd] returns the next descriptor, bound to a new file,
    keeps every open one and frees the lock; when no file can be allocated
    it gives -ENOMEM but keeps both the longer table and the lock: the next
    call on the context never returns. *)
Theorem vfs_alloc_fd_extends (s : vfs) (c : file_ctx) (after : Z) :
  zlen (fd c) = numfd c -> numfd c < 2 ^ 31 - 1 -> fc_lock c = 0 ->
  (forall f y, file_generic_alloc (sys s) = Ret (Ok f, y) ->
     exists c', vfs_alloc_fd s (Some c) after = Ret (numfd c, Some c', set_sys y s) /\
       fd c' = fd c ++ [f] /\ numfd c' = numfd c + 1 /\ fc_lock c' = 0 /\ fc_count c' = fc_count c) /\
  (forall e y, file_generic_alloc (sys s) = Ret (Err e, y) ->
     exists c', vfs_alloc_fd s (Some c) after = Ret (- ENOMEM, Some c', set_sys y s) /\
       fd c' = fd c ++ [0] /\ numfd c' = numfd c + 1 /\
       forall s2 after2, vfs_alloc_fd s2 (Some c') after2 = Spin).
Proof.
  intros Hlen Hn Hl. pose proof (zlen_nonneg (fd c)) as Hpos. unfold vfs_alloc_fd at 1 2. rewrite Hl, spin_acquire_free.
  assert (En : s32 (numfd c + 1) = numfd c + 1) by (apply swrap_small; lia). rewrite En.
  assert (Et : take (Z.to_nat (numfd c + 1)) (fd c ++ [after mod 2 ^ 56]) = fd c ++ [after mod 2 ^ 56]).
  { apply take_ge. rewrite length_app. unfold zlen in Hlen. cbn. lia. }
  assert (Ew : forall x, wr (fd c ++ [after mod 2 ^ 56]) (numfd c) x = Ret (fd c ++ [x])).
  { intros x. rewrite wr_in by (unfold zlen in *; rewrite length_app; cbn; lia).
    rewrite insert_app_r_alt by (unfold zlen in *; lia).
    replace (Z.to_nat (numfd c) - length (fd c))%nat with 0%nat by (unfold zlen in *; lia). done. }
  rewrite ret_bind. rewrite Et. split; intros a y Ea; rewrite Ea; rb; rewrite Ew; rb; eexists; (split; [done |]).
  - done.
  - done.
Qed.
End vfs.
#[global] Arguments vfs : clear implicits.
#[global] Arguments fs_type : clear implicits.

(** ** A sample state: the directory of Dentry as the root *)

#[local] Existing Instance PageAlloc.PageAlloc.page_alloc_source.

Definition no_lookup (f : unit) (s : fs unit cache) (d : Z) (name : str) : out (res Z * fs unit cache) := mret (Err ENOENT, s).
Definition sample_vfs : vfs unit unit cache :=
  mk_vfs (mk_fsys sample_fs ∅ full_cache full_cache) (<[100 := mk_mount 0 0 sample_dir None None]> ∅) ∅ ∅ 0 0 0 100 200.
Definition no_get_sb (g : unit) (s : vfs unit unit cache) (f : Z) (dev : option str) : out (Z * vfs unit unit cache) := mret (0, s).

Lemma vfs_walk_path_components_witness :
  (walk_fuel (Some [97; 47; 98]%Z) <= 7)%nat /\
  vfs_walk_path no_lookup 7 sample_fs sample_dir (Some [97; 47; 98]) 0 =
    vfs_walk_path no_lookup 4 sample_fs sample_dir (Some [97; 47; 98]) 0.
Proof.
  assert (Hf : (walk_fuel (Some [97; 47; 98]%Z) <= 7)%nat) by (cbn; lia). split; [exact Hf |].
  destruct (vfs_walk_path_components no_lookup sample_fs sample_dir [97; 47; 98] 0) as (_ & _ & _ & H).
  exact (H 7%nat Hf).
Defined.

Lemma vfs_lookup_release_balance_witness :
  (exists s1 s2, lookup_from no_lookup sample_vfs sample_dir (Some [97]) LOOKUP_PARENT 0 = Ret (mk_path sample_dir LOOKUP_PARENT 1, s1) /\
     vfs_path_release s1 (Some (mk_path sample_dir LOOKUP_PARENT 1)) = Ret (0, s2)) /\
  (exists s2, vfs_path_release sample_vfs (Some (mk_path sample_dir LOOKUP_OPEN LOOKUP_STAT_SUCCESS)) = Ret (0, s2) /\
     get_dent (fscore s2) sample_dir = Ret (set_d_count 2 dir_dentry)).
Proof.
  destruct (vfs_lookup_release_balance no_lookup sample_vfs None 0) as [H1 H2]. split.
  - destruct (H1 sample_dir (Some [97]) LOOKUP_PARENT sample_dir sample_fs dir_dentry) as (s1 & s2 & E1 & _ & E2 & _).
    + discriminate.
    + reflexivity.
    + reflexivity.
    + split; [discriminate | reflexivity].
    + exists s1, s2. split; [exact E1 | exact E2].
  - destruct (H2 (mk_mount 0 0 sample_dir None None) dir_dentry) as (_ & s2 & E & Hd).
    + reflexivity.
    + reflexivity.
    + split; [discriminate | reflexivity].
    + exists s2. split; [exact E | exact Hd].
Defined.

Lemma vfs_mount_only_fails_witness :
  vfs_mount no_lookup no_get_sb sample_vfs None (Some [47]) (Some TMPFS) None 0 = Ret (- ENOTSUP, sample_vfs) /\ - ENOTSUP < 0.
Proof.
  assert (E : vfs_mount no_lookup no_get_sb sample_vfs None (Some [47]) (Some TMPFS) None 0 = Ret (- ENOTSUP, sample_vfs)) by reflexivity.
  split; [exact E |]. exact (vfs_mount_only_fails no_lookup no_get_sb _ _ _ _ _ _ _ _ E).
Defined.

Lemma vfs_alloc_fd_extends_witness :
  exists f y c', vfs_alloc_fd sample_vfs (Some (mk_file_ctx 1 2 [7; 8] 0)) 99 = Ret (2, Some c', set_sys y sample_vfs) /\
    fd c' = [7; 8; f].
Proof.
  destruct (vfs_alloc_fd_extends sample_vfs (mk_file_ctx 1 2 [7; 8] 0) 99 eq_refl eq_refl eq_refl) as [H _].
  destruct (file_generic_alloc (sys sample_vfs)) as [[[f | e] y] | | |] eqn:E; try (vm_compute in E; discriminate E).
  destruct (H f y eq_refl) as (c' & E2 & Hfd & _). exists f, y, c'. split; [exact E2 | exact Hfd].
Defined.

End Vfs.
