(* ===== verification/Mmu.v ===== *)
(** * Page tables (arch/amd64/mmu.c, arch/amd64/page_fault.c, mm/mmu.c)

    Physical memory is a store of page frames: a frame address gives the 512
    words of the page.  The code reaches a frame through the kernel's direct
    map, [amd64_p_to_v], which covers the first 2 GB; a pointer below that
    map faults.  Pages come from any [PageSource] and go back to a
    [PageSink]; the addresses of the interrupt controllers and of the frame
    buffer are parameters.  The processor's bookkeeping bits (accessed,
    dirty) are not modelled. *)

From S2P Require Import Prelude Common Locks Memory.
Import Common Locks Memory.

Module Mmu.

#[local] Arguments replicate : simpl never.

Definition MM_PRESENT : Z := 1.
Definition MM_READWRITE : Z := 2.
Definition MM_READONLY : Z := 0.
Definition MM_USER : Z := 4.
Definition MM_2MB : Z := 128.
Definition MM_COW : Z := 512.

Definition PML4_ATOEI (addr : Z) : Z := Z.land (Z.shiftr addr 39) 0x1ff.
Definition PDPT_ATOEI (addr : Z) : Z := Z.land (Z.shiftr addr 30) 0x1ff.
Definition PD_ATOEI (addr : Z) : Z := Z.land (Z.shiftr addr 21) 0x1ff.
Definition PT_ATOEI (addr : Z) : Z := Z.land (Z.shiftr addr 12) 0x1ff.

Definition V_TO_P (addr : Z) : Z := u64 (addr - KVSTART + KPSTART).

(** Where the direct map of physical memory starts. *)
Definition KERNEL_BASE : Z := KVSTART - KPSTART.

(** [e & MM_PRESENT], [e & MM_2MB], [e & MM_COW], [e & ~(PAGE_SIZE - 1)]. *)
Definition present (e : Z) : bool := negb (Z.land e MM_PRESENT =? 0).
Definition huge (e : Z) : bool := negb (Z.land e MM_2MB =? 0).
Definition cow (e : Z) : bool := negb (Z.land e MM_COW =? 0).
Definition frame_of (e : Z) : Z := Z.land e (Z.lnot 0xfff).

(** The static tables of the kernel image, and the devices. *)
Record boot_tables := mk_boot { b_pml4 : Z; b_pdpt : Z; b_pd : Z }.
Record devices := mk_devices { lapic_base : Z; ioapic_base : Z; vbe_bar0 : option Z }.

(** ** Bits of an entry *)

Lemma index_land x : Z.land x 0x1ff = x mod 512.
Proof. change 0x1ff with (Z.ones 9). by rewrite Z.land_ones. Qed.

Lemma bit_test e k : 0 <= k -> negb (Z.land e (2 ^ k) =? 0) = Z.testbit e k.
Proof.
  intros Hk. destruct (Z.testbit e k) eqn:E.
  - apply negb_true_iff, Z.eqb_neq. intros E0. apply (f_equal (fun z => Z.testbit z k)) in E0.
    rewrite Z.land_spec, Z.pow2_bits_true, E, Z.bits_0 in E0 by lia. done.
  - apply negb_false_iff, Z.eqb_eq. apply Z.bits_inj'. intros n Hn.
    rewrite Z.land_spec, Z.pow2_bits_eqb, Z.bits_0 by lia. destruct (Z.eqb_spec k n) as [<- |]; [by rewrite E |].
    apply andb_false_r.
Qed.

Lemma present_bit e : present e = Z.testbit e 0. Proof. apply (bit_test e 0). lia. Qed.
Lemma huge_bit e : huge e = Z.testbit e 7. Proof. apply (bit_test e 7). lia. Qed.
Lemma cow_bit e : cow e = Z.testbit e 9. Proof. apply (bit_test e 9). lia. Qed.

Lemma small_high_bits x n k : 0 <= x < 2 ^ n -> 0 <= n <= k -> Z.testbit x k = false.
Proof.
  intros Hx Hk. destruct (Z.eqb_spec x 0) as [-> |]; [apply Z.bits_0 |].
  apply Z.bits_above_log2; [lia |]. apply Z.log2_lt_pow2; [lia |].
  apply (Z.lt_le_trans _ (2 ^ n)); [lia |]. apply Z.pow_le_mono_r; lia.
Qed.

Lemma aligned_low_bits a k : a mod PAGE_SIZE = 0 -> 0 <= k < 12 -> Z.testbit a k = false.
Proof.
  intros Ha Hk. rewrite <- (Z.mod_pow2_bits_low a 12 k) by lia. change (2 ^ 12) with PAGE_SIZE. rewrite Ha. apply Z.bits_0.
Qed.

Lemma frame_of_spec e k : 0 <= k -> Z.testbit (frame_of e) k = Z.testbit e k && negb (k <? 12).
Proof.
  intros Hk. unfold frame_of. rewrite Z.land_spec, Z.lnot_spec by done. f_equal. f_equal.
  change 0xfff with (Z.ones 12). destruct (Z.ltb_spec k 12).
  - apply Z.ones_spec_low. lia.
  - apply Z.ones_spec_high. lia.
Qed.

Lemma frame_of_flags e x : 0 <= x < 4096 -> frame_of (Z.lor e x) = frame_of e.
Proof.
  intros Hx. apply Z.bits_inj'. intros k Hk. rewrite !frame_of_spec, Z.lor_spec by done.
  destruct (Z.ltb_spec k 12); cbn [negb]; [by rewrite !andb_false_r |].
  rewrite (small_high_bits x 12 k) by (change (2 ^ 12) with 4096; lia). by rewrite orb_false_r.
Qed.

Lemma frame_of_aligned a : a mod PAGE_SIZE = 0 -> frame_of a = a.
Proof.
  intros Ha. apply Z.bits_inj'. intros k Hk. rewrite frame_of_spec by done.
  destruct (Z.ltb_spec k 12); cbn [negb]; [| apply andb_true_r].
  rewrite (aligned_low_bits a k) by (done || lia). done.
Qed.

Lemma flags_small x y : 0 <= x < 4096 -> 0 <= y < 4096 -> 0 <= Z.lor x y < 4096.
Proof.
  intros Hx Hy. split; [apply Z.lor_nonneg; lia |].
  destruct (Z.eqb_spec (Z.lor x y) 0) as [-> |]; [lia |].
  change 4096 with (2 ^ 12). apply Z.log2_lt_cancel. rewrite Z.log2_lor by lia. change (Z.log2 (2 ^ 12)) with 12.
  apply Z.max_lub_lt.
  - destruct (Z.eqb_spec x 0) as [-> |]; [cbn; lia |]. apply Z.log2_lt_pow2; change (2 ^ 12) with 4096; lia.
  - destruct (Z.eqb_spec y 0) as [-> |]; [cbn; lia |]. apply Z.log2_lt_pow2; change (2 ^ 12) with 4096; lia.
Qed.

(** An entry made by [__alloc_entry] and given flags. *)
Lemma new_entry_bits a flags : a mod PAGE_SIZE = 0 -> 0 <= flags < 4096 -> huge flags = false ->
  let e := Z.lor (Z.lor (Z.lor a MM_PRESENT) MM_READWRITE) flags in
  frame_of e = a /\ present e = true /\ huge e = false.
Proof.
  intros Ha Hf Hh e. unfold e. rewrite present_bit, huge_bit, !Z.lor_spec, <- (huge_bit flags), Hh.
  rewrite (aligned_low_bits a 7) by (done || lia). split; [| split; [by rewrite !orb_true_r | done]].
  rewrite frame_of_flags by done. rewrite !frame_of_flags by (unfold MM_READWRITE, MM_PRESENT; lia).
  by apply frame_of_aligned.
Qed.

Lemma old_entry_bits e flags : present e = true -> huge e = false -> 0 <= flags < 4096 -> huge flags = false ->
  frame_of (Z.lor e flags) = frame_of e /\ present (Z.lor e flags) = true /\ huge (Z.lor e flags) = false.
Proof.
  intros Hp Hh Hf Hhf. split; [by apply frame_of_flags |].
  rewrite present_bit, huge_bit, !Z.lor_spec, <- !present_bit, <- !huge_bit, Hp, Hh, Hhf. done.
Qed.

Section mmu.
Context {P : Type} `{PageSource P}.

Record state := mk_state {
  frames : gmap Z (list Z);
  mlock : Z;
  pf_lock : Z;
  cr3 : Z;
  src : P
}.

Definition set_frames (f : gmap Z (list Z)) (s : state) : state := mk_state f (mlock s) (pf_lock s) (cr3 s) (src s).
Definition set_mlock (l : Z) (s : state) : state := mk_state (frames s) l (pf_lock s) (cr3 s) (src s).
Definition set_pf_lock (l : Z) (s : state) : state := mk_state (frames s) (mlock s) l (cr3 s) (src s).
Definition amd64_set_cr3 (a : Z) (s : state) : state := mk_state (frames s) (mlock s) (pf_lock s) a (src s).
Definition set_src (p : P) (s : state) : state := mk_state (frames s) (mlock s) (pf_lock s) (cr3 s) p.

(** The page a kernel pointer points at, one of its words, and an
    assignment. *)
Definition page_at (s : state) (v : Z) : out (list Z) :=
  if v <? KERNEL_BASE then Fault
  else match frames s !! amd64_v_to_p v with Some t => Ret t | None => Fault end.
Definition rd_e (s : state) (v i : Z) : out Z := t ← page_at s v; rd t i.
Definition set_page (s : state) (v : Z) (t : list Z) : out state :=
  if v <? KERNEL_BASE then Fault else mret (set_frames (<[amd64_v_to_p v := t]> (frames s)) s).
Definition wr_e (s : state) (v i x : Z) : out state := t ← page_at s v; t ← wr t i x; set_page s v t.

(** [kmemset(v, 0, PAGE_SIZE)]. *)
Definition zero_page (s : state) (v : Z) : out state := set_page s v (replicate 512 0).

(** [for (i = a; i < a + n; ++i) body]. *)
Fixpoint for_up (n : nat) (i : Z) (body : Z -> state -> out state) (s : state) : out state :=
  match n with
  | O => mret s
  | S n => s ← body i s; for_up n (i + 1) body s
  end.

(** ** The directory the kernel boots with *)

Definition init_pd (b : boot_tables) (i : Z) (s : state) : out state :=
  wr_e s (amd64_p_to_v (b_pd b + PAGE_SIZE * (i / 512))) (i mod 512)
    (Z.lor (Z.lor (Z.lor (u64 (i * Z.shiftl 1 21)) MM_PRESENT) MM_READWRITE) MM_2MB).

Definition init_pdpt (b : boot_tables) (i : Z) (s : state) : out state :=
  let e := Z.lor (Z.lor (V_TO_P (amd64_p_to_v (b_pd b + PAGE_SIZE * i))) MM_PRESENT) MM_READWRITE in
  s ← wr_e s (amd64_p_to_v (b_pdpt b)) i e;
  wr_e s (amd64_p_to_v (b_pdpt b)) (PDPT_ATOEI KVSTART + i) e.

Definition mmu_native_init (b : boot_tables) (s : state) : out state :=
  s ← zero_page s (amd64_p_to_v (b_pml4 b));
  s ← zero_page s (amd64_p_to_v (b_pdpt b));
  s ← zero_page s (amd64_p_to_v (b_pd b));
  s ← zero_page s (amd64_p_to_v (b_pd b + PAGE_SIZE));
  let e := Z.lor (Z.lor (V_TO_P (amd64_p_to_v (b_pdpt b))) MM_PRESENT) MM_READWRITE in
  s ← wr_e s (amd64_p_to_v (b_pml4 b)) 0 e;
  s ← wr_e s (amd64_p_to_v (b_pml4 b)) (PML4_ATOEI KVSTART) e;
  s ← for_up 1024 0 (init_pd b) s;
  s ← for_up 2 0 (init_pdpt b) s;
  mret (amd64_set_cr3 (V_TO_P (amd64_p_to_v (b_pml4 b))) s).

(** ** Mapping *)

Definition __alloc_entry (s : state) : out (Z * state) :=
  '(addr, p) ← src_alloc (src s) 0;
  s ← zero_page (set_src p s) (amd64_p_to_v addr);
  mret (Z.lor (Z.lor addr MM_PRESENT) MM_READWRITE, s).

(** One level: the entry is made when it is missing, given the flags, and
    the table it points to is returned. *)
Definition map_level (s : state) (t i flags : Z) : out (Z * state) :=
  e ← rd_e s t i;
  s ← (if negb (present e) then '(n, s) ← __alloc_entry s; wr_e s t i n else mret s);
  e ← rd_e s t i;
  s ← wr_e s t i (Z.lor e (u64 flags));
  e ← rd_e s t i;
  mret (amd64_p_to_v (frame_of e), s).

Definition __map_page (s : state) (pml4 paddr vaddr flags : Z) : out state :=
  lk ← spin_acquire (mlock s);
  let s := set_mlock lk s in
  _ ← kassert (PAGE_ALIGNED paddr);
  _ ← kassert (PAGE_ALIGNED vaddr);
  '(pdpt, s) ← map_level s pml4 (PML4_ATOEI vaddr) flags;
  '(pd, s) ← map_level s pdpt (PDPT_ATOEI vaddr) flags;
  '(pt, s) ← map_level s pd (PD_ATOEI vaddr) flags;
  s ← wr_e s pt (PT_ATOEI vaddr) (Z.lor (Z.lor paddr (u64 flags)) MM_PRESENT);
  mret (set_mlock (spin_release (mlock s)) s).

Fixpoint __map_range (n : nat) (s : state) (pml4 pstart vstart flags : Z) : out state :=
  match n with
  | O => mret s
  | S n =>
      s ← __map_page s pml4 pstart vstart flags;
      __map_range n s pml4 (u64 (pstart + PAGE_SIZE)) (u64 (vstart + PAGE_SIZE)) flags
  end.

Definition mmu_native_map_page (s : state) (paddr vaddr flags : Z) : out (Z * state) :=
  s ← __map_page s (amd64_p_to_v (cr3 s)) paddr vaddr flags; mret (0, s).

(** Computes the four indices and does nothing. *)
Definition mmu_native_unmap_page (s : state) (vaddr : Z) : Z * state := (0, s).

Definition mmu_map_page := mmu_native_map_page.
Definition mmu_unmap_page := mmu_native_unmap_page.

Fixpoint mmu_map_range (n : nat) (s : state) (pstart vstart flags : Z) : out (Z * state) :=
  match n with
  | O => mret (0, s)
  | S n =>
      '(ret, s) ← mmu_native_map_page s pstart vstart flags;
      if negb (ret =? 0) then mret (ret, s)
      else mmu_map_range n s (u64 (pstart + PAGE_SIZE)) (u64 (vstart + PAGE_SIZE)) flags
  end.

Fixpoint mmu_unmap_range (n : nat) (i : Z) (s : state) (start : Z) : Z * state :=
  match n with
  | O => (0, s)
  | S n =>
      let '(ret, s) := mmu_native_unmap_page s (u64 (start + i * PAGE_SIZE)) in
      if negb (ret =? 0) then (ret, s) else mmu_unmap_range n (i + 1) s start
  end.

(** ** Directories of tasks *)

Definition fb_start (bar0 : Z) : Z := u64 (bar0 - 8).

(** The loop over the first 511 entries and the kernel's entry fill the
    whole page. *)
Definition mmu_native_build_dir (b : boot_tables) (d : devices) (s : state) : out (Z * state) :=
  '(pml4_p, p) ← src_alloc (src s) 0;
  let s := set_src p s in
  if pml4_p =? INVALID_ADDRESS then mret (0, s)
  else
    let pml4_v := amd64_p_to_v pml4_p in
    k ← rd_e s (amd64_p_to_v (b_pml4 b)) (PML4_ATOEI KVSTART);
    s ← set_page s pml4_v (replicate 511 0 ++ [k]);
    _ ← kassert (negb (lapic_base d =? INVALID_ADDRESS));
    _ ← kassert (negb (ioapic_base d =? INVALID_ADDRESS));
    s ← __map_page s pml4_v (lapic_base d) (lapic_base d) (Z.lor MM_PRESENT MM_READWRITE);
    s ← __map_page s pml4_v (ioapic_base d) (ioapic_base d) (Z.lor MM_PRESENT MM_READWRITE);
    s ← match vbe_bar0 d with
        | Some bar0 => __map_range 4096 s pml4_v (fb_start bar0) (fb_start bar0) (Z.lor MM_PRESENT MM_READWRITE)
        | None => mret s
        end;
    mret (pml4_v, s).

Definition cow_entry (e : Z) (bits : Z) : Z :=
  Z.lor (frame_of e) (Z.lor (Z.lor (Z.lor (Z.lor MM_COW MM_READONLY) MM_PRESENT) MM_USER) bits).

(** The innermost loop: every present page is shared. *)
Definition dup_pte (pt_ov pt_cv pti : Z) (s : state) : out state :=
  e ← rd_e s pt_ov pti;
  if present e then
    s ← wr_e s pt_ov pti (cow_entry e 0);
    e ← rd_e s pt_ov pti;
    wr_e s pt_cv pti e
  else mret s.

(** A new table for entry [i] of the copy; the tables of both sides. *)
Definition dup_entry (s : state) (t_ov t_cv i : Z) : out (Z * Z * state) :=
  '(n, s) ← __alloc_entry s;
  s ← wr_e s t_cv i (Z.lor (Z.lor n MM_PRESENT) MM_USER);
  o ← rd_e s t_ov i;
  c ← rd_e s t_cv i;
  mret (amd64_p_to_v (frame_of o), amd64_p_to_v (frame_of c), s).

Definition dup_pde (pd_ov pd_cv pdi : Z) (s : state) : out state :=
  e ← rd_e s pd_ov pdi;
  if present e then
    s ← (if huge e then
           s ← wr_e s pd_ov pdi (cow_entry e MM_2MB);
           e ← rd_e s pd_ov pdi;
           wr_e s pd_cv pdi e
         else mret s);
    '(pt_ov, pt_cv, s) ← dup_entry s pd_ov pd_cv pdi;
    for_up 512 0 (dup_pte pt_ov pt_cv) s
  else mret s.

Definition dup_pdpte (pdpt_ov pdpt_cv pdpti : Z) (s : state) : out state :=
  e ← rd_e s pdpt_ov pdpti;
  if present e then
    '(pd_ov, pd_cv, s) ← dup_entry s pdpt_ov pdpt_cv pdpti;
    for_up 512 0 (dup_pde pd_ov pd_cv) s
  else mret s.

Definition dup_pml4e (pml4_ov pml4_cv pml4i : Z) (s : state) : out state :=
  e ← rd_e s pml4_ov pml4i;
  if present e then
    '(pdpt_ov, pdpt_cv, s) ← dup_entry s pml4_ov pml4_cv pml4i;
    for_up 512 0 (dup_pdpte pdpt_ov pdpt_cv) s
  else mret s.

Definition mmu_native_duplicate_dir (b : boot_tables) (d : devices) (s : state) : out (Z * state) :=
  '(pml4_cv, s) ← mmu_native_build_dir b d s;
  let pml4_ov := amd64_p_to_v (cr3 s) in
  s ← for_up 511 0 (dup_pml4e pml4_ov pml4_cv) s;
  mret (pml4_cv, s).

(** [free_page] is [mmu_page_free], whose result is ignored. *)
Section destroy.
Variable free_page : P -> Z -> out P.

Definition drop_page (s : state) (page : Z) : out state :=
  s ← zero_page s (amd64_p_to_v page);
  p ← free_page (src s) page;
  mret (set_src p s).

Definition destroy_pte (pt pti : Z) (s : state) : out state :=
  e ← rd_e s pt pti;
  if (Z.land e (Z.lor MM_PRESENT MM_USER) =? Z.lor MM_PRESENT MM_USER) && negb (cow e)
  then drop_page s (frame_of e) else mret s.

(** One entry of a table whose own entries are handled by [below]. *)
Definition destroy_table (below : Z -> Z -> state -> out state) (t i : Z) (s : state) : out state :=
  e ← rd_e s t i;
  if negb (present e) then mret s
  else
    s ← for_up 512 0 (below (amd64_p_to_v (frame_of e))) s;
    e ← rd_e s t i;
    drop_page s (frame_of e).

Definition mmu_native_destroy_dir (dir : Z) (s : state) : out state :=
  if dir =? 0 then mret s
  else
    s ← for_up 511 0 (destroy_table (destroy_table (destroy_table destroy_pte)) dir) s;
    p ← free_page (src s) (amd64_v_to_p dir);
    mret (set_src p s).

End destroy.

Definition mmu_native_switch_ctx (s : state) (task_cr3 : option Z) : state :=
  match task_cr3 with None => s | Some a => amd64_set_cr3 a s end.

(** The lines [mmu_native_walk_addr] prints: at each level the index and
    whether the entry is present. *)
Definition walk_level (s : state) (t i : Z) : out (Z * (Z * bool)) :=
  e ← rd_e s t i; mret (amd64_p_to_v (frame_of e), (i, present e)).

Definition mmu_native_walk_addr (s : state) (vaddr : Z) : out (list (Z * bool)) :=
  if vaddr =? 0 then mret []
  else
    '(pdpt, l4) ← walk_level s (amd64_p_to_v (cr3 s)) (PML4_ATOEI vaddr);
    if negb (l4.2 : bool) then mret [l4] else
    '(pd, l3) ← walk_level s pdpt (PDPT_ATOEI vaddr);
    if negb (l3.2 : bool) then mret [l4; l3] else
    '(pt, l2) ← walk_level s pd (PD_ATOEI vaddr);
    if negb (l2.2 : bool) then mret [l4; l3; l2] else
    '(_, l1) ← walk_level s pt (PT_ATOEI vaddr);
    mret [l4; l3; l2; l1].

(** ** The processor's translation

    What the hardware makes of the tables: the last entry of the walk and
    the size of the page it maps. *)
Definition entry (s : state) (f i : Z) : option Z :=
  t ← frames s !! f; e ← t !! Z.to_nat i; if present e then Some e else None.

Definition step (s : state) (f i : Z) : option Z :=
  e ← entry s f i; if huge e then None else Some (frame_of e).

Fixpoint walk (s : state) (f : Z) (l : list Z) : option Z :=
  match l with
  | [] => Some f
  | i :: l => g ← step s f i; walk s g l
  end.

Definition small_page (s : state) (root v : Z) : option Z :=
  pt ← walk s root [PML4_ATOEI v; PDPT_ATOEI v; PD_ATOEI v]; entry s pt (PT_ATOEI v).

Definition large_page (s : state) (root v : Z) : option Z :=
  pd ← walk s root [PML4_ATOEI v; PDPT_ATOEI v]; e ← entry s pd (PD_ATOEI v); if huge e then Some e else None.

(** The physical address of a virtual one. *)
Definition translate (s : state) (root v : Z) : option Z :=
  match large_page s root v with
  | Some e => Some (Z.land e (Z.lnot 0x1fffff) + v mod 2 ^ 21)
  | None => e ← small_page s root v; Some (frame_of e + v mod PAGE_SIZE)
  end.

(** ** The page fault handler

    [cr2] is the faulting address.  The other errors print the registers and
    end in an endless loop.  The copy reads the page through its virtual
    address. *)
Definition mmu_pf_handler (s : state) (cr2 : Z) : out (Z * state) :=
  let pml4 := mmu_p_to_v (cr3 s) in
  e4 ← rd_e s pml4 (PML4_ATOEI cr2);
  if negb (present e4) then Halt else
  let pdpt := mmu_p_to_v (frame_of e4) in
  e3 ← rd_e s pdpt (PDPT_ATOEI cr2);
  if negb (present e3) then Halt else
  let pd := mmu_p_to_v (frame_of e3) in
  e2 ← rd_e s pd (PD_ATOEI cr2);
  if negb (present e2) then Halt else
  let pt := mmu_p_to_v (frame_of e2) in
  e1 ← rd_e s pt (PT_ATOEI cr2);
  if negb (present e1) then Halt else
  if cow e1 && (Z.land e1 MM_READWRITE =? 0) then
    lk ← spin_acquire (pf_lock s);
    '(copy, p) ← src_alloc (src (set_pf_lock lk s)) 0;
    let s := set_src p (set_pf_lock lk s) in
    t ← match translate s (cr3 s) (ROUND_DOWN cr2 PAGE_SIZE) with
        | Some a => match frames s !! a with Some t => Ret t | None => Fault end
        | None => Fault
        end;
    s ← set_page s (amd64_p_to_v copy) t;
    s ← wr_e s pt (PT_ATOEI cr2) (Z.lor copy (Z.lor (Z.lor MM_PRESENT MM_USER) MM_READWRITE));
    mret (0, set_pf_lock (spin_release (pf_lock s)) s)
  else Halt.


(** ** Reading and writing tables through the direct map *)

Definition framed (f : Z) : Prop := 0 <= f < 2 ^ 31 /\ f mod PAGE_SIZE = 0.

Definition table (s : state) (f : Z) : Prop := framed f /\ exists t, frames s !! f = Some t /\ length t = 512%nat.

Definition upd (s : state) (f i x : Z) : state :=
  set_frames (alter (fun t => <[Z.to_nat i := x]> t) f (frames s)) s.

Lemma direct_map f : 0 <= f < 2 ^ 31 -> (amd64_p_to_v f <? KERNEL_BASE) = false /\ amd64_v_to_p (amd64_p_to_v f) = f.
Proof.
  intros Hf. split; [| apply v_to_p_to_v; unfold in_u; lia].
  rewrite p_to_v_small by done. apply ltb_false. unfold KERNEL_BASE. lia.
Qed.

Lemma page_at_table s f t : 0 <= f < 2 ^ 31 -> frames s !! f = Some t -> page_at s (amd64_p_to_v f) = Ret t.
Proof. intros Hf E. unfold page_at. destruct (direct_map f Hf) as [-> ->]. by rewrite E. Qed.

Lemma set_page_table s f t : 0 <= f < 2 ^ 31 -> set_page s (amd64_p_to_v f) t = Ret (set_frames (<[f := t]> (frames s)) s).
Proof. intros Hf. unfold set_page. by destruct (direct_map f Hf) as [-> ->]. Qed.

Definition word (s : state) (f i : Z) : option Z := t ← frames s !! f; t !! Z.to_nat i.

Lemma table_word s f i : table s f -> 0 <= i < 512 -> exists e, word s f i = Some e.
Proof.
  intros [_ (t & Et & Hl)] Hi. unfold word. rewrite Et. cbn. apply lookup_lt_is_Some_2. lia.
Qed.

Lemma rd_e_word s f i e : 0 <= f < 2 ^ 31 -> 0 <= i -> word s f i = Some e -> rd_e s (amd64_p_to_v f) i = Ret e.
Proof.
  intros Hf Hi. unfold word, rd_e. destruct (frames s !! f) as [t |] eqn:Et; cbn; [| done]. intros E.
  rewrite (page_at_table s f t Hf Et). rb. by apply rd_Ret.
Qed.

Lemma wr_e_table s f i x : table s f -> 0 <= i < 512 -> wr_e s (amd64_p_to_v f) i x = Ret (upd s f i x).
Proof.
  intros [[Hf _] (t & Et & Hl)] Hi. unfold wr_e. rewrite (page_at_table s f t Hf Et). rb.
  rewrite wr_in by (unfold zlen; lia). rb. rewrite set_page_table by done. unfold upd. do 2 f_equal.
  apply map_eq. intros g. destruct (decide (g = f)) as [-> |].
  - by rewrite lookup_insert_eq, lookup_alter_eq, Et.
  - by rewrite lookup_insert_ne, lookup_alter_ne by done.
Qed.

Lemma table_upd s f i x g : table (upd s f i x) g <-> table s g.
Proof.
  unfold table. cbn. destruct (decide (g = f)) as [-> |]; [| by rewrite lookup_alter_ne].
  rewrite lookup_alter_eq. split; intros [Hf (t & Et & Hl)]; split; try done.
  - destruct (frames s !! f) as [t0 |]; [| done]. injection Et as <-. exists t0. rewrite length_insert in Hl. done.
  - exists (<[Z.to_nat i := x]> t). rewrite Et, length_insert. done.
Qed.

Lemma word_upd s f i x g j : table s f -> 0 <= i < 512 -> 0 <= j ->
  word (upd s f i x) g j = if decide (g = f /\ j = i) then Some x else word s g j.
Proof.
  intros [_ (t & Et & Hl)] Hi Hj. unfold word. cbn [frames upd set_frames]. destruct (decide (g = f)) as [-> |].
  - rewrite lookup_alter_eq, Et. cbn. destruct (decide (f = f /\ j = i)) as [[_ ->] | Hne].
    + apply list_lookup_insert_eq. lia.
    + apply list_lookup_insert_ne. naive_solver lia.
  - rewrite lookup_alter_ne by done. rewrite decide_False by naive_solver. done.
Qed.

(** [__alloc_entry] on a source that gives a frame: a zeroed page. *)
Definition with_page (s : state) (p : P) (a : Z) : state :=
  set_frames (<[a := replicate 512 0]> (frames s)) (set_src p s).

Lemma alloc_entry_page s a p : src_alloc (src s) 0 = Ret (a, p) -> framed a ->
  __alloc_entry s = Ret (Z.lor (Z.lor a MM_PRESENT) MM_READWRITE, with_page s p a).
Proof.
  intros E Ha. unfold __alloc_entry. rewrite E. rb. unfold zero_page. rewrite set_page_table by apply Ha. rb. done.
Qed.

Lemma word_with_page s p a g j : word (with_page s p a) g j =
  if decide (g = a) then (if decide (Z.to_nat j < 512)%nat then Some 0 else None) else word s g j.
Proof.
  unfold word, with_page. cbn [frames set_frames]. destruct (decide (g = a)) as [-> |].
  - rewrite lookup_insert_eq. change ((replicate 512 0 : list Z) !! Z.to_nat j = if decide (Z.to_nat j < 512)%nat then Some 0 else None).
    destruct (decide (Z.to_nat j < 512)%nat); [by apply lookup_replicate_2 | apply lookup_ge_None_2; rewrite length_replicate; lia].
  - by rewrite lookup_insert_ne.
Qed.

Lemma table_with_page s p a g : framed a -> table s g -> table (with_page s p a) g.
Proof.
  intros Ha [Hg (t & Et & Hl)]. split; [done |]. cbn. destruct (decide (g = a)) as [-> |].
  - rewrite lookup_insert_eq. exists (replicate 512 0). by rewrite length_replicate.
  - rewrite lookup_insert_ne by done. by exists t.
Qed.

Lemma table_new s p a : framed a -> table (with_page s p a) a.
Proof. intros Ha. split; [done |]. cbn. rewrite lookup_insert_eq. exists (replicate 512 0). by rewrite length_replicate. Qed.

Lemma entry_word s f i : entry s f i = (e ← word s f i; if present e then Some e else None).
Proof. unfold entry, word. by destruct (frames s !! f). Qed.


(** ** The tree of tables under a root *)

(** A list of indices that leads to a table. *)
Definition idxs (l : list Z) : Prop := (length l <= 3)%nat /\ Forall (fun i => 0 <= i < 512) l.

Lemma idxs_snoc l i : idxs (l ++ [i]) <-> idxs l /\ (length l <= 2)%nat /\ 0 <= i < 512.
Proof.
  unfold idxs. rewrite length_app, Forall_app, Forall_singleton. cbn.
  split; intros; destruct_and?; split_and?; (done || lia).
Qed.

Lemma walk_snoc s f l i : walk s f (l ++ [i]) = (g ← walk s f l; step s g i).
Proof.
  revert f. induction l as [| j l IH]; intros f; cbn.
  - by destruct (step s f i).
  - destruct (step s f j) as [g |]; cbn; [apply IH | done].
Qed.

(** A well-formed directory: no table is reached twice, the source gives
    frames that are not in use as tables, and the two upper levels map no
    large page. *)
Record wf_dir (s : state) (root : Z) : Prop := {
  wf_table : forall l f, idxs l -> walk s root l = Some f -> table s f;
  wf_inj : forall l l' f, idxs l -> idxs l' -> walk s root l = Some f -> walk s root l' = Some f -> l = l';
  wf_upper : forall l f i e, idxs l -> (length l <= 1)%nat -> walk s root l = Some f -> 0 <= i < 512 ->
    entry s f i = Some e -> huge e = false;
  wf_src : src_ok (src s) /\ NoDup (src_avail (src s));
  wf_fresh : forall l f, idxs l -> walk s root l = Some f -> f ∉ src_avail (src s)
}.

(** What filling or flagging entry [i] of the table at [l] may change. *)
Record extends (s s' : state) (root : Z) (l : list Z) (i f' : Z) : Prop := {
  ext_walk : forall l2, idxs l2 -> l2 <> l ++ [i] -> walk s' root l2 = walk s root l2;
  ext_new : walk s' root (l ++ [i]) = Some f';
  ext_old : forall g, walk s root (l ++ [i]) = Some g -> g = f';
  ext_entry : forall l2 g j, idxs l2 -> 0 <= j < 512 -> walk s root l2 = Some g -> (l2, j) <> (l, i) ->
    entry s' g j = entry s g j;
  ext_empty : walk s root (l ++ [i]) = None -> forall j, 0 <= j < 512 -> entry s' f' j = None;
  ext_small : forall f, walk s root l = Some f ->
    (e ← entry s f i; if huge e then Some e else None) = None /\
    (exists e, entry s' f i = Some e /\ huge e = false)
}.

Lemma atoei_range v k : 0 <= Z.land (Z.shiftr v k) 0x1ff < 512.
Proof. rewrite index_land. apply Z.mod_pos_bound. lia. Qed.

Lemma idxs_path v : idxs [PML4_ATOEI v; PDPT_ATOEI v; PD_ATOEI v] /\ idxs [PML4_ATOEI v; PDPT_ATOEI v] /\
  idxs [PML4_ATOEI v] /\ idxs [].
Proof. unfold idxs. rewrite !Forall_cons, Forall_nil. cbn. split_and!; done || lia || apply atoei_range. Qed.

(** None of it is visible in a translation. *)
Lemma extends_translate s s' root l i f' v : extends s s' root l i f' -> idxs l -> (length l <= 2)%nat -> 0 <= i < 512 ->
  small_page s' root v = small_page s root v /\ large_page s' root v = large_page s root v.
Proof.
  intros X Hl Hlen Hi. pose proof (idxs_path v) as (H3 & H2 & _ & _).
  assert (Hsn : idxs (l ++ [i])) by (by apply idxs_snoc). split.
  - unfold small_page. set (L := [PML4_ATOEI v; PDPT_ATOEI v; PD_ATOEI v]) in *.
    assert (HL : forall j, (L, j) <> (l, i)) by (intros j [= E _]; rewrite <- E in Hlen; cbn in Hlen; lia).
    destruct (decide (L = l ++ [i])) as [-> | Hne].
    + rewrite (ext_new _ _ _ _ _ _ X). cbn. destruct (walk s root (l ++ [i])) as [g |] eqn:E; cbn.
      * rewrite <- (ext_old _ _ _ _ _ _ X g E). apply (ext_entry _ _ _ _ _ _ X (l ++ [i])); try done. apply atoei_range.
      * apply (ext_empty _ _ _ _ _ _ X E). apply atoei_range.
    + rewrite (ext_walk _ _ _ _ _ _ X L H3 Hne). destruct (walk s root L) as [g |] eqn:E; cbn; [| done].
      apply (ext_entry _ _ _ _ _ _ X L); try done. apply atoei_range.
  - unfold large_page. set (L := [PML4_ATOEI v; PDPT_ATOEI v]) in *.
    destruct (decide (L = l ++ [i])) as [E0 | Hne].
    + rewrite E0, (ext_new _ _ _ _ _ _ X). cbn. destruct (walk s root (l ++ [i])) as [g |] eqn:E; cbn.
      * rewrite <- (ext_old _ _ _ _ _ _ X g E).
        rewrite (ext_entry _ _ _ _ _ _ X (l ++ [i]) g (PD_ATOEI v)); try done; [apply atoei_range |].
        intros [= E1 _]. apply (f_equal length) in E1. rewrite length_app in E1. cbn in E1. lia.
      * rewrite (ext_empty _ _ _ _ _ _ X E) by apply atoei_range. done.
    + rewrite (ext_walk _ _ _ _ _ _ X L H2 Hne). destruct (walk s root L) as [g |] eqn:E; cbn; [| done].
      destruct (decide ((L, PD_ATOEI v) = (l, i))) as [[= <- <-] | Hni].
      * destruct (ext_small _ _ _ _ _ _ X g E) as [-> (e & -> & Hh)]. cbn. by rewrite Hh.
      * rewrite (ext_entry _ _ _ _ _ _ X L g (PD_ATOEI v)); try done. apply atoei_range.
Qed.

(** Steps decide walks. *)
Lemma walk_ext s s' root (n : nat) : (n <= 3)%nat ->
  (forall l g i, idxs l -> (length l < n)%nat -> 0 <= i < 512 -> walk s root l = Some g -> step s' g i = step s g i) ->
  forall l, idxs l -> (length l <= n)%nat -> walk s' root l = walk s root l.
Proof.
  intros Hn Hst l. induction l as [| i l IH] using rev_ind; intros Hl Hlen; [done |].
  rewrite length_app in Hlen. cbn in Hlen. apply idxs_snoc in Hl as (Hl & _ & Hi).
  rewrite !walk_snoc, IH by (done || lia). destruct (walk s root l) as [g |] eqn:E; cbn; [| done].
  apply (Hst l); (done || lia).
Qed.


Definition flags_ok (flags : Z) : Prop := 0 <= flags < 4096 /\ huge flags = false.

Lemma u64_flags flags : flags_ok flags -> u64 flags = flags.
Proof. intros [Hf _]. apply wrap_small. unfold in_u. lia. Qed.

Lemma entry_upd s f i x g j : table s f -> 0 <= i < 512 -> 0 <= j ->
  entry (upd s f i x) g j = if decide (g = f /\ j = i) then (if present x then Some x else None) else entry s g j.
Proof.
  intros Ht Hi Hj. rewrite !entry_word, word_upd by done. destruct (decide (g = f /\ j = i)); done.
Qed.

Lemma entry_with_page s p a g j : 0 <= j < 512 ->
  entry (with_page s p a) g j = if decide (g = a) then None else entry s g j.
Proof.
  intros Hj. rewrite !entry_word, word_with_page. destruct (decide (g = a)); [| done].
  destruct (decide (Z.to_nat j < 512)%nat); done.
Qed.

(** The walks of a directory in which one entry got flags. *)
Lemma flag_entry_walk s root l f i e flags :
  wf_dir s root -> idxs l -> (length l <= 2)%nat -> 0 <= i < 512 -> walk s root l = Some f ->
  entry s f i = Some e -> huge e = false -> flags_ok flags ->
  wf_dir (upd s f i (Z.lor e flags)) root /\ extends s (upd s f i (Z.lor e flags)) root l i (frame_of e).
Proof.
  intros Hwf Hl Hlen Hi Hw He Hh [Hf Hhf]. pose proof (wf_table _ _ Hwf l f Hl Hw) as Ht.
  assert (Hp : present e = true) by (rewrite entry_word in He; destruct (word s f i); [cbn in He | done]; destruct (present z) eqn:?; congruence).
  destruct (old_entry_bits e flags Hp Hh Hf Hhf) as (Hfr & Hp' & Hh').
  set (s' := upd s f i (Z.lor e flags)).
  assert (Hent : forall g j, 0 <= j -> entry s' g j = if decide (g = f /\ j = i) then Some (Z.lor e flags) else entry s g j).
  { intros g j Hj. unfold s'. rewrite entry_upd by done. by rewrite Hp'. }
  assert (Hstep : forall g j, 0 <= j -> step s' g j = step s g j).
  { intros g j Hj. unfold step. rewrite Hent by done. destruct (decide (g = f /\ j = i)) as [[-> ->] |]; [| done].
    rewrite He. cbn. rewrite Hh, Hh', Hfr. done. }
  assert (Hwalk : forall l2, idxs l2 -> walk s' root l2 = walk s root l2).
  { intros l2 Hl2. apply (walk_ext s s' root 3); [lia | | done | apply Hl2]. intros. apply Hstep. lia. }
  assert (Hsn : idxs (l ++ [i])) by (by apply idxs_snoc).
  assert (Hlast : walk s root (l ++ [i]) = Some (frame_of e)).
  { rewrite walk_snoc, Hw. cbn. unfold step. rewrite He. cbn. by rewrite Hh. }
  split; split.
  - intros l2 g Hl2. rewrite Hwalk by done. intros E. apply table_upd. by apply (wf_table _ _ Hwf l2).
  - intros l2 l3 g H2 H3. rewrite !Hwalk by done. by apply (wf_inj _ _ Hwf).
  - intros l2 g j e2 H2 Hn E Hj. rewrite Hwalk in E by done. rewrite Hent by lia.
    destruct (decide (g = f /\ j = i)); [| by apply (wf_upper _ _ Hwf l2)]. by intros [= <-].
  - apply (wf_src _ _ Hwf).
  - intros l2 g H2. rewrite Hwalk by done. by apply (wf_fresh _ _ Hwf).
  - intros l2 H2 _. by apply Hwalk.
  - by rewrite Hwalk.
  - intros g. rewrite Hlast. congruence.
  - intros l2 g j H2 Hj E Hne. rewrite Hent by lia. apply decide_False. intros [-> ->].
    apply Hne. f_equal. by apply (wf_inj _ _ Hwf l2 l f).
  - by rewrite Hlast.
  - intros g Hg. rewrite Hw in Hg. injection Hg as <-. rewrite He. cbn. rewrite Hh. split; [done |].
    exists (Z.lor e flags). split; [| done]. rewrite Hent by lia. by apply decide_True.
Qed.

(** The walks of a directory in which a missing entry got a new table. *)
Lemma new_entry_walk s root l f i a p x :
  wf_dir s root -> idxs l -> (length l <= 2)%nat -> 0 <= i < 512 -> walk s root l = Some f ->
  entry s f i = None -> src_alloc (src s) 0 = Ret (a, p) -> framed a ->
  frame_of x = a -> present x = true -> huge x = false ->
  wf_dir (upd (with_page s p a) f i x) root /\ extends s (upd (with_page s p a) f i x) root l i a.
Proof.
  intros Hwf Hl Hlen Hi Hw He Hsrc Ha Hxa Hxp Hxh. pose proof (wf_table _ _ Hwf l f Hl Hw) as Ht.
  destruct (wf_src _ _ Hwf) as [Hok Hnd].
  destruct (src_alloc_law (src s) 0 a p Hok ltac:(lia) Hsrc) as (Hok' & _ & HP).
  change (Z.to_nat 0) with 0%nat in HP. change (pages_of a (2 ^ 0)) with [a + PAGE_SIZE * 0] in HP.
  replace (a + PAGE_SIZE * 0) with a in HP by lia. cbn in HP.
  assert (Hnd' : NoDup (a :: src_avail p)) by (by rewrite <- HP). apply NoDup_cons in Hnd' as [Hna Hnd'].
  assert (Hin : forall q, q ∈ src_avail (src s) <-> q = a \/ q ∈ src_avail p) by (intros q; by rewrite HP, elem_of_cons).
  assert (Hnew : forall l2 g, idxs l2 -> walk s root l2 = Some g -> g <> a).
  { intros l2 g H2 E ->. apply (wf_fresh _ _ Hwf l2 a H2 E). apply Hin. by left. }
  assert (Hfa : f <> a) by (by apply (Hnew l)).
  set (s' := upd (with_page s p a) f i x).
  assert (Hent : forall g j, 0 <= j < 512 -> entry s' g j =
    if decide (g = f /\ j = i) then Some x else if decide (g = a) then None else entry s g j).
  { intros g j Hj. unfold s'. rewrite entry_upd by (lia || by apply table_with_page). rewrite Hxp.
    destruct (decide (g = f /\ j = i)); [done |]. by apply entry_with_page. }
  assert (Hsn : idxs (l ++ [i])) by (by apply idxs_snoc).
  assert (Hlast : walk s root (l ++ [i]) = None) by (rewrite walk_snoc, Hw; cbn; unfold step; by rewrite He).
  assert (Hwalk : forall l2, idxs l2 -> walk s' root l2 = if decide (l2 = l ++ [i]) then Some a else walk s root l2).
  { intros l2. induction l2 as [| j l2 IH] using rev_ind; intros H2.
    - rewrite decide_False by (by destruct l). done.
    - apply idxs_snoc in H2 as (H2 & Hn & Hj). rewrite !walk_snoc, IH by done.
      destruct (decide (l2 = l ++ [i])) as [-> |].
      + cbn. unfold step. rewrite Hent by lia. rewrite decide_False by (intros []; done). rewrite decide_True by done. cbn.
        rewrite Hlast. rewrite decide_False; [done |]. intros E. apply (f_equal length) in E. rewrite !length_app in E. cbn in E. lia.
      + destruct (walk s root l2) as [g |] eqn:E; cbn.
        * unfold step at 1. rewrite Hent by lia. destruct (decide (g = f /\ j = i)) as [[-> ->] | Hne].
          -- cbn. rewrite Hxh, Hxa. rewrite decide_True; [done |]. f_equal. by apply (wf_inj _ _ Hwf l2 l f).
          -- rewrite decide_False by (by apply (Hnew l2)). rewrite decide_False; [done |].
             intros Eq. apply app_inj_tail in Eq as [-> ->]. apply Hne. split; [congruence | done].
        * rewrite decide_False; [done |]. intros Eq. apply app_inj_tail in Eq as [-> ->]. congruence. }
  assert (Hcase : forall l2 g, idxs l2 -> walk s' root l2 = Some g -> (l2 = l ++ [i] /\ g = a) \/ (l2 <> l ++ [i] /\ walk s root l2 = Some g /\ g <> a)).
  { intros l2 g H2. rewrite Hwalk by done. destruct (decide (l2 = l ++ [i])); [intros [= <-]; by left |].
    intros E. right. split_and!; try done. by apply (Hnew l2). }
  split; split.
  - intros l2 g H2 E. apply table_upd. destruct (Hcase l2 g H2 E) as [[_ ->] | (_ & E2 & _)]; [by apply table_new |].
    apply table_with_page; [done |]. by apply (wf_table _ _ Hwf l2).
  - intros l2 l3 g H2 H3 E2 E3.
    destruct (Hcase l2 g H2 E2) as [[-> ->] | (_ & F2 & Hg)]; destruct (Hcase l3 _ H3 E3) as [[-> F] | (_ & F3 & F)]; try done.
    by apply (wf_inj _ _ Hwf l2 l3 g).
  - intros l2 g j e2 H2 Hn E Hj. rewrite Hent by lia. destruct (decide (g = f /\ j = i)); [by intros [= <-] |].
    destruct (decide (g = a)); [done |]. destruct (Hcase l2 g H2 E) as [[_ ->] | (_ & F & _)]; [done |].
    by apply (wf_upper _ _ Hwf l2).
  - done.
  - intros l2 g H2 E Hin2. destruct (Hcase l2 g H2 E) as [[_ ->] | (_ & F & _)]; [done |].
    apply (wf_fresh _ _ Hwf l2 g H2 F). apply Hin. by right.
  - intros l2 H2 Hne. rewrite Hwalk by done. by rewrite decide_False.
  - rewrite Hwalk by done. by rewrite decide_True.
  - intros g. by rewrite Hlast.
  - intros l2 g j H2 Hj E Hne. rewrite Hent by lia. rewrite !decide_False; [done | by apply (Hnew l2) |].
    intros [-> ->]. apply Hne. f_equal. by apply (wf_inj _ _ Hwf l2 l f).
  - intros _ j Hj. rewrite Hent by lia. rewrite decide_False by (intros []; done). by rewrite decide_True.
  - intros g Hg. rewrite Hw in Hg. injection Hg as <-. rewrite He. cbn. split; [done |]. exists x. split; [| done].
    rewrite Hent by lia. by rewrite decide_True.
Qed.


(** The source can give [n] frames in a row. *)
Fixpoint gives (n : nat) (p : P) : Prop :=
  match n with
  | O => True
  | S n => exists a q, src_alloc p 0 = Ret (a, q) /\ framed a /\ gives n q
  end.

Lemma gives_less n p : gives (S n) p -> gives n p.
Proof.
  revert p. induction n as [| n IH]; intros p; [done |]. intros (a & q & E & Ha & Hg).
  exists a, q. split_and!; [done .. |]. by apply IH.
Qed.

Lemma upd_upd s f i x y : upd (upd s f i x) f i y = upd s f i y.
Proof.
  unfold upd. cbn. unfold set_frames. cbn. f_equal. apply map_eq. intros g.
  destruct (decide (g = f)) as [-> |]; [| by rewrite !lookup_alter_ne].
  rewrite !lookup_alter_eq. destruct (frames s !! f); cbn; [| done]. f_equal. apply list_insert_insert_eq.
Qed.

Lemma word_entry s f i e : word s f i = Some e -> entry s f i = if present e then Some e else None.
Proof. intros E. by rewrite entry_word, E. Qed.

(** The parts of the state that mapping does not touch. *)
Definition same_regs (s s' : state) : Prop := mlock s' = mlock s /\ pf_lock s' = pf_lock s /\ cr3 s' = cr3 s.

Lemma map_level_spec s root l f i flags n :
  wf_dir s root -> idxs l -> (length l <= 2)%nat -> 0 <= i < 512 -> walk s root l = Some f ->
  (forall e, entry s f i = Some e -> huge e = false) -> flags_ok flags -> gives (S n) (src s) ->
  exists s' g, map_level s (amd64_p_to_v f) i flags = Ret (amd64_p_to_v g, s') /\
    wf_dir s' root /\ extends s s' root l i g /\ same_regs s s' /\ gives n (src s').
Proof.
  intros Hwf Hl Hlen Hi Hw Hh Hf Hg. pose proof (wf_table _ _ Hwf l f Hl Hw) as Ht.
  destruct (table_word s f i Ht Hi) as [e He]. assert (H31 : 0 <= f < 2 ^ 31) by apply Ht.
  pose proof (word_entry _ _ _ _ He) as Hent. unfold map_level. rewrite (rd_e_word s f i e) by (done || lia). rb.
  rewrite u64_flags by done. destruct (present e) eqn:Hp; cbn [negb].
  - rb. rewrite (rd_e_word s f i e) by (done || lia). rb. rewrite wr_e_table by done. rb.
    destruct (flag_entry_walk s root l f i e flags Hwf Hl Hlen Hi Hw Hent (Hh e Hent) Hf) as [Hwf' Hx].
    destruct (old_entry_bits e flags Hp (Hh e Hent) (proj1 Hf) (proj2 Hf)) as (Hfr & _ & _).
    rewrite (rd_e_word _ f i (Z.lor e flags)) by (lia || (rewrite word_upd by (done || lia); by apply decide_True)). rb.
    rewrite Hfr. exists (upd s f i (Z.lor e flags)), (frame_of e). split_and!; try done. by apply gives_less.
  - destruct Hg as (a & p & Ea & Ha & Hg). rewrite (alloc_entry_page s a p Ea Ha). rb.
    assert (Ht1 : table (with_page s p a) f) by (by apply table_with_page). rewrite wr_e_table by done. rb.
    destruct (new_entry_bits a flags (proj2 Ha) (proj1 Hf) (proj2 Hf)) as (Hfr & Hpr & Hhu).
    set (n0 := Z.lor (Z.lor a MM_PRESENT) MM_READWRITE) in *.
    rewrite (rd_e_word _ f i n0) by (lia || (rewrite word_upd by (done || lia); by apply decide_True)). rb.
    rewrite wr_e_table by (done || by apply table_upd). rb. rewrite upd_upd.
    rewrite (rd_e_word _ f i (Z.lor n0 flags)) by (lia || (rewrite word_upd by (done || lia); by apply decide_True)). rb.
    rewrite Hfr. destruct (new_entry_walk s root l f i a p (Z.lor n0 flags)) as [Hwf' Hx]; try done.
    exists (upd (with_page s p a) f i (Z.lor n0 flags)), a. split_and!; done.
Qed.

(** Writing the entry of a page changes no walk. *)
Lemma leaf_walk s root l f i x :
  wf_dir s root -> idxs l -> length l = 3%nat -> 0 <= i < 512 -> walk s root l = Some f ->
  wf_dir (upd s f i x) root /\ (forall l2, idxs l2 -> walk (upd s f i x) root l2 = walk s root l2) /\
  (forall l2 g j, idxs l2 -> 0 <= j < 512 -> walk s root l2 = Some g ->
     entry (upd s f i x) g j = if decide (l2 = l /\ j = i) then (if present x then Some x else None) else entry s g j).
Proof.
  intros Hwf Hl Hlen Hi Hw. pose proof (wf_table _ _ Hwf l f Hl Hw) as Ht. set (s' := upd s f i x).
  assert (Hent : forall l2 g j, idxs l2 -> 0 <= j < 512 -> walk s root l2 = Some g ->
     entry s' g j = if decide (l2 = l /\ j = i) then (if present x then Some x else None) else entry s g j).
  { intros l2 g j H2 Hj E. unfold s'. rewrite entry_upd by (done || lia).
    destruct (decide (l2 = l /\ j = i)) as [[-> ->] | Hne].
    - rewrite decide_True; [done |]. split; [congruence | done].
    - apply decide_False. intros [-> ->]. apply Hne. split; [by apply (wf_inj _ _ Hwf l2 l f) | done]. }
  assert (Hwalk : forall l2, idxs l2 -> walk s' root l2 = walk s root l2).
  { intros l2 H2. apply (walk_ext s s' root 3); [lia | | done | apply H2].
    intros l3 g j H3 Hn Hj E. unfold step. rewrite (Hent l3 g j H3 Hj E). rewrite decide_False; [done |].
    intros [-> _]. lia. }
  split; [| done]. split.
  - intros l2 g H2. rewrite Hwalk by done. intros E. apply table_upd. by apply (wf_table _ _ Hwf l2).
  - intros l2 l3 g H2 H3. rewrite !Hwalk by done. by apply (wf_inj _ _ Hwf).
  - intros l2 g j e2 H2 Hn E Hj. rewrite Hwalk in E by done. rewrite (Hent l2 g j H2 Hj E).
    rewrite decide_False by (intros [-> _]; lia). by apply (wf_upper _ _ Hwf l2).
  - apply (wf_src _ _ Hwf).
  - intros l2 g H2. rewrite Hwalk by done. by apply (wf_fresh _ _ Hwf).
Qed.

(** The registers and locks are not part of a directory. *)
Lemma walk_frames s s' f l : frames s' = frames s -> walk s' f l = walk s f l.
Proof.
  intros E. revert f. induction l as [| i l IH]; intros f; [done |]. cbn.
  assert (Es : step s' f i = step s f i) by (unfold step, entry; by rewrite E).
  rewrite Es. destruct (step s f i) as [g |]; cbn; [apply IH | done].
Qed.

Lemma wf_dir_frames s s' root : frames s' = frames s -> src s' = src s -> wf_dir s root -> wf_dir s' root.
Proof.
  intros Ef Es Hwf. split.
  - intros l f Hl. rewrite (walk_frames s s') by done. unfold table. rewrite Ef. by apply (wf_table _ _ Hwf).
  - intros l l' f Hl Hl'. rewrite !(walk_frames s s') by done. by apply (wf_inj _ _ Hwf).
  - intros l f i e Hl Hn. rewrite (walk_frames s s') by done. unfold entry. rewrite Ef. by apply (wf_upper _ _ Hwf l).
  - rewrite Es. apply (wf_src _ _ Hwf).
  - intros l f Hl. rewrite (walk_frames s s'), Es by done. by apply (wf_fresh _ _ Hwf).
Qed.


(** ** The page of a virtual address *)

(** The processor looks at 48 bits of an address. *)
Definition vpage (v : Z) : Z := v mod 2 ^ 48 / PAGE_SIZE.

Lemma atoei_page v k : 12 <= k -> Z.land (Z.shiftr v k) 0x1ff = v / PAGE_SIZE / 2 ^ (k - 12) mod 512.
Proof.
  intros Hk. rewrite index_land, Z.shiftr_div_pow2 by lia. f_equal. change PAGE_SIZE with (2 ^ 12).
  rewrite Z.div_div by lia. f_equal. rewrite <- Z.pow_add_r by lia. f_equal. lia.
Qed.

Lemma vpage_indices v : vpage v =
  PT_ATOEI v + 512 * (PD_ATOEI v + 512 * (PDPT_ATOEI v + 512 * PML4_ATOEI v)).
Proof.
  unfold vpage, PT_ATOEI, PD_ATOEI, PDPT_ATOEI, PML4_ATOEI. rewrite !atoei_page by lia.
  change (12 - 12) with 0. change (2 ^ 0) with 1. rewrite Z.div_1_r.
  change (2 ^ 48) with (PAGE_SIZE * 2 ^ 36). rewrite Z.rem_mul_r by done.
  rewrite (Z.mul_comm PAGE_SIZE), Z.div_add by done. rewrite (Z.div_small (v mod PAGE_SIZE)) by (by apply Z.mod_pos_bound).
  set (w := v / PAGE_SIZE). change (2 ^ 36) with (512 * (512 * (512 * 512))).
  rewrite !Z.rem_mul_r by done. rewrite !Z.div_div by done. reflexivity.
Qed.

Lemma same_page_indices v o : v mod PAGE_SIZE = 0 -> 0 <= o < PAGE_SIZE ->
  PML4_ATOEI (v + o) = PML4_ATOEI v /\ PDPT_ATOEI (v + o) = PDPT_ATOEI v /\
  PD_ATOEI (v + o) = PD_ATOEI v /\ PT_ATOEI (v + o) = PT_ATOEI v /\ (v + o) mod PAGE_SIZE = o.
Proof.
  intros Hv Ho.
  assert (E : (v + o) / PAGE_SIZE = v / PAGE_SIZE).
  { pose proof (Z.div_mod v PAGE_SIZE ltac:(done)) as Hd. symmetry. apply (Z.div_unique _ _ _ o); lia. }
  unfold PT_ATOEI, PD_ATOEI, PDPT_ATOEI, PML4_ATOEI. rewrite !atoei_page by lia. rewrite E.
  split_and!; try done. rewrite Z.add_mod, Hv by done. rewrite Z.add_0_l, Z.mod_mod by done. by apply Z.mod_small.
Qed.

Lemma pages_translate s s' root v :
  small_page s' root v = small_page s root v -> large_page s' root v = large_page s root v ->
  translate s' root v = translate s root v.
Proof. intros Es El. unfold translate. by rewrite Es, El. Qed.

(** Filling the three upper levels. *)
Lemma map_tables s root v flags n : wf_dir s root -> large_page s root v = None -> flags_ok flags -> gives (3 + n) (src s) ->
  exists s' pt, ('(pdpt, s) ← map_level s (amd64_p_to_v root) (PML4_ATOEI v) flags;
      '(pd, s) ← map_level s pdpt (PDPT_ATOEI v) flags; map_level s pd (PD_ATOEI v) flags) = Ret (amd64_p_to_v pt, s') /\
    wf_dir s' root /\ same_regs s s' /\ walk s' root [PML4_ATOEI v; PDPT_ATOEI v; PD_ATOEI v] = Some pt /\ gives n (src s') /\
    forall w, small_page s' root w = small_page s root w /\ large_page s' root w = large_page s root w.
Proof.
  intros Hwf Hlp Hf Hg. destruct (idxs_path v) as (H3 & H2 & H1 & H0). set (i4 := PML4_ATOEI v) in *.
  set (i3 := PDPT_ATOEI v) in *. set (i2 := PD_ATOEI v) in *.
  assert (0 <= i4 < 512 /\ 0 <= i3 < 512 /\ 0 <= i2 < 512) as (R4 & R3 & R2) by (split_and!; apply atoei_range).
  destruct (map_level_spec s root [] root i4 flags (2 + n) Hwf H0 ltac:(cbn; lia) R4 eq_refl) as (s1 & f1 & -> & W1 & X1 & G1 & S1); try done.
  { intros e He. apply (wf_upper _ _ Hwf [] root i4); (done || cbn; lia). }
  rb. pose proof (ext_new _ _ _ _ _ _ X1) as N1.
  destruct (map_level_spec s1 root [i4] f1 i3 flags (1 + n) W1 H1 ltac:(cbn; lia) R3 N1) as (s2 & f2 & -> & W2 & X2 & G2 & S2); try done.
  { intros e He. apply (wf_upper _ _ W1 [i4] f1 i3); (done || cbn; lia). }
  rb. pose proof (ext_new _ _ _ _ _ _ X2) as N2.
  assert (T2 : forall w, small_page s2 root w = small_page s root w /\ large_page s2 root w = large_page s root w).
  { intros w. destruct (extends_translate s s1 root [] i4 f1 w X1 H0 ltac:(cbn; lia) R4) as [<- <-].
    apply (extends_translate s1 s2 root [i4] i3 f2 w X2 H1); (cbn; lia) || done. }
  destruct (map_level_spec s2 root [i4; i3] f2 i2 flags n W2 H2 ltac:(cbn; lia) R2 N2) as (s3 & f3 & -> & W3 & X3 & G3 & S3); try done.
  { intros e He. destruct (T2 v) as [_ El]. rewrite Hlp in El. unfold large_page in El. fold i4 i3 i2 in El.
    change [i4; i3] with ([i4] ++ [i3]) in El. rewrite N2 in El. cbn in El. rewrite He in El. cbn in El. by destruct (huge e). }
  exists s3, f3. split_and!; try done.
  - destruct G1 as (? & ? & ?), G2 as (? & ? & ?), G3 as (? & ? & ?). unfold same_regs. split_and!; congruence.
  - exact (ext_new _ _ _ _ _ _ X3).
  - intros w. destruct (T2 w) as [<- <-]. apply (extends_translate s2 s3 root [i4; i3] i2 f3 w X3 H2); (cbn; lia) || done.
Qed.

Lemma same_vpage w v : vpage w = vpage v ->
  PT_ATOEI w = PT_ATOEI v /\ PD_ATOEI w = PD_ATOEI v /\ PDPT_ATOEI w = PDPT_ATOEI v /\ PML4_ATOEI w = PML4_ATOEI v.
Proof.
  rewrite !vpage_indices. unfold PT_ATOEI, PD_ATOEI, PDPT_ATOEI, PML4_ATOEI.
  pose proof (atoei_range w 12). pose proof (atoei_range v 12). pose proof (atoei_range w 21). pose proof (atoei_range v 21).
  pose proof (atoei_range w 30). pose proof (atoei_range v 30). lia.
Qed.

(** Writing the entry of one page. *)
Lemma leaf_pages s root v pt x :
  wf_dir s root -> walk s root [PML4_ATOEI v; PDPT_ATOEI v; PD_ATOEI v] = Some pt -> present x = true ->
  wf_dir (upd s pt (PT_ATOEI v) x) root /\
  forall w, large_page (upd s pt (PT_ATOEI v) x) root w = large_page s root w /\
    small_page (upd s pt (PT_ATOEI v) x) root w = if decide (vpage w = vpage v) then Some x else small_page s root w.
Proof.
  intros W1 Wpt Hxp. destruct (idxs_path v) as (H3 & _).
  destruct (leaf_walk s root _ pt (PT_ATOEI v) x W1 H3 eq_refl (atoei_range _ _) Wpt) as (W2 & Hwalk & Hent).
  set (s2 := upd s pt (PT_ATOEI v) x) in *. split; [done |]. intros w. destruct (idxs_path w) as (I3 & I2 & _ & _). split.
  - unfold large_page. rewrite Hwalk by done. destruct (walk s root [PML4_ATOEI w; PDPT_ATOEI w]) as [g |] eqn:Eg; cbn; [| done].
    rewrite (Hent _ g (PD_ATOEI w) I2 (atoei_range _ _) Eg). rewrite decide_False by (intros [[=] _]). done.
  - unfold small_page. rewrite Hwalk by done. destruct (decide (vpage w = vpage v)) as [Ev | Hne].
    + destruct (same_vpage w v Ev) as (-> & -> & -> & ->). rewrite Wpt. cbn.
      rewrite (Hent _ pt (PT_ATOEI v) H3 (atoei_range _ _) Wpt). rewrite decide_True by done. by rewrite Hxp.
    + destruct (walk s root [PML4_ATOEI w; PDPT_ATOEI w; PD_ATOEI w]) as [g |] eqn:Eg; cbn; [| done].
      rewrite (Hent _ g (PT_ATOEI w) I3 (atoei_range _ _) Eg). apply decide_False. intros [[= E4 E3 E2] E1]. apply Hne.
      rewrite !vpage_indices. congruence.
Qed.

Lemma set_mlock_pages s k root w :
  small_page (set_mlock k s) root w = small_page s root w /\ large_page (set_mlock k s) root w = large_page s root w.
Proof. unfold small_page, large_page. by rewrite !(walk_frames s (set_mlock k s)). Qed.

(** Mapping a page, when the source has frames for the tables and [n] more. *)
Lemma map_page_spec (s : state) (root v p flags : Z) (n : nat) :
  wf_dir s root -> mlock s = 0 -> large_page s root v = None ->
  0 <= p -> p mod PAGE_SIZE = 0 -> 0 <= v -> v mod PAGE_SIZE = 0 -> flags_ok flags -> gives (3 + n) (src s) ->
  exists s', __map_page s (amd64_p_to_v root) p v flags = Ret s' /\
    wf_dir s' root /\ mlock s' = 0 /\ cr3 s' = cr3 s /\
    small_page s' root v = Some (Z.lor (Z.lor p flags) MM_PRESENT) /\
    (forall o, 0 <= o < PAGE_SIZE -> translate s' root (v + o) = Some (p + o)) /\
    (forall w, vpage w <> vpage v -> translate s' root w = translate s root w) /\
    (forall w, large_page s' root w = large_page s root w) /\ gives n (src s').
Proof.
  intros Hwf Hlk Hlp Hp Hpa Hv Hva Hf Hg. unfold __map_page. rewrite Hlk, spin_acquire_free. rb.
  rewrite !PAGE_ALIGNED_mod, Hpa, Hva by done. change (kassert (0 =? 0)) with (Ret tt). rb. rb.
  set (s0 := set_mlock 1 s).
  assert (Hwf0 : wf_dir s0 root) by (by apply (wf_dir_frames s)).
  assert (Hlp0 : large_page s0 root v = None) by exact (eq_trans (proj2 (set_mlock_pages s 1 root v)) Hlp).
  destruct (map_tables s0 root v flags n Hwf0 Hlp0 Hf Hg) as (s1 & pt & E & W1 & (R1 & R2 & R3) & Wpt & G1 & T1).
  destruct (map_level s0 _ _ _) as [[pdpt sa] | | |]; try discriminate E. cbn [mbind out_bind] in E |- *.
  destruct (map_level sa _ _ _) as [[pd sb] | | |]; try discriminate E. cbn [mbind out_bind] in E |- *.
  rewrite E. rb. destruct (idxs_path v) as (H3 & H2 & _ & _).
  rewrite wr_e_table by (apply (wf_table _ _ W1 _ pt H3 Wpt) || apply atoei_range). rb. rewrite u64_flags by done.
  set (x := Z.lor (Z.lor p flags) MM_PRESENT).
  assert (Hxp : present x = true) by (unfold x; rewrite present_bit, Z.lor_spec; apply orb_true_r).
  destruct (leaf_pages s1 root v pt x W1 Wpt Hxp) as (W2 & T2).
  set (s2 := upd s1 pt (PT_ATOEI v) x) in *. rewrite spin_release_0. set (s' := set_mlock 0 s2).
  assert (Hlarge : forall w, large_page s' root w = large_page s root w).
  { intros w. unfold s'. rewrite (proj2 (set_mlock_pages s2 0 root w)), (proj1 (T2 w)), (proj2 (T1 w)). apply (set_mlock_pages s 1). }
  assert (Hsmall : forall w, small_page s' root w = if decide (vpage w = vpage v) then Some x else small_page s root w).
  { intros w. unfold s'. rewrite (proj1 (set_mlock_pages s2 0 root w)), (proj2 (T2 w)), (proj1 (T1 w)).
    unfold s0. by rewrite (proj1 (set_mlock_pages s 1 root w)). }
  exists s'. split_and!; try done.
  - by apply (wf_dir_frames s2).
  - rewrite Hsmall. by rewrite decide_True.
  - intros o Ho. destruct (same_page_indices v o Hva Ho) as (E4 & E3 & E2 & E1 & Eo).
    unfold translate. rewrite Hlarge. unfold large_page. rewrite E4, E3, E2. fold (large_page s root v). rewrite Hlp.
    rewrite Hsmall. rewrite decide_True by (rewrite !vpage_indices; congruence). cbn. rewrite Eo. f_equal. f_equal.
    unfold x. rewrite !frame_of_flags by (unfold MM_PRESENT; (lia || apply Hf)). by apply frame_of_aligned.
  - intros w Hne. apply pages_translate; [| apply Hlarge]. rewrite Hsmall. by apply decide_False.
Qed.



(** ** The directory of the boot *)

Lemma for_up_inv (I : Z -> state -> Prop) (body : Z -> state -> out state) n i s :
  I i s -> (forall j s, i <= j < i + Z.of_nat n -> I j s -> exists s', body j s = Ret s' /\ I (j + 1) s') ->
  exists s', for_up n i body s = Ret s' /\ I (i + Z.of_nat n) s'.
Proof.
  revert i s. induction n as [| n IH]; intros i s Hi Hb.
  - exists s. replace (i + Z.of_nat 0) with i by lia. done.
  - destruct (Hb i s ltac:(lia) Hi) as (s1 & E & H1). cbn [for_up]. rewrite E. rb.
    destruct (IH (i + 1) s1 H1) as (s' & E' & H').
    + intros j s2 Hj. apply Hb. lia.
    + exists s'. split; [done |]. replace (i + Z.of_nat (S n)) with (i + 1 + Z.of_nat n) by lia. done.
Qed.

(** The four pages of the static tables. *)
Definition boot_pages (b : boot_tables) : list Z := [b_pml4 b; b_pdpt b; b_pd b; b_pd b + PAGE_SIZE].
Definition boot_ok (b : boot_tables) : Prop := NoDup (boot_pages b) /\ Forall framed (boot_pages b).

Definition pd_page (b : boot_tables) (i : Z) : Z := b_pd b + PAGE_SIZE * (i / 512).
Definition large_entry (i : Z) : Z := Z.lor (Z.lor (Z.lor (i * 2 ^ 21) MM_PRESENT) MM_READWRITE) MM_2MB.
Definition table_entry (f : Z) : Z := Z.lor (Z.lor f MM_PRESENT) MM_READWRITE.

Lemma pd_page_in b i : 0 <= i < 1024 -> pd_page b i ∈ [b_pd b; b_pd b + PAGE_SIZE].
Proof.
  intros Hi. unfold pd_page. assert (i / 512 = 0 \/ i / 512 = 1) as [-> | ->] by (Z.div_mod_to_equations; lia); rewrite !elem_of_cons; [left | right; left]; lia.
Qed.

Lemma with_zero s f : framed f -> zero_page s (amd64_p_to_v f) = Ret (set_frames (<[f := replicate 512 0]> (frames s)) s).
Proof. intros Hf. apply set_page_table, Hf. Qed.

Lemma V_TO_P_frame f : framed f -> V_TO_P (amd64_p_to_v f) = f.
Proof.
  intros [Hf _]. unfold V_TO_P. rewrite p_to_v_small by done. replace (_ - KVSTART + KPSTART) with f by lia.
  apply wrap_small. unfold in_u. lia.
Qed.

(** What the two upper tables and the entries below [i] hold. *)
Definition boot_inv (b : boot_tables) (i : Z) (s : state) : Prop :=
  (forall f, f ∈ boot_pages b -> table s f) /\
  (forall j, 0 <= j < 512 -> word s (b_pml4 b) j = Some (if decide (j = 0 \/ j = 511) then table_entry (b_pdpt b) else 0)) /\
  (forall j, 0 <= j < 512 -> word s (b_pdpt b) j = Some 0) /\
  (forall j, 0 <= j < i -> word s (pd_page b j) (j mod 512) = Some (large_entry j)).

Lemma init_pd_step b i s : boot_ok b -> 0 <= i < 1024 -> boot_inv b i s ->
  exists s', init_pd b i s = Ret s' /\ boot_inv b (i + 1) s'.
Proof.
  intros [Hnd Hfr] Hi (Ht & H4 & H3 & H2). pose proof (pd_page_in b i Hi) as Hpd.
  assert (Hin : pd_page b i ∈ boot_pages b) by (do 2 (apply elem_of_cons; right); exact Hpd).
  assert (Hne : pd_page b i <> b_pml4 b /\ pd_page b i <> b_pdpt b).
  { unfold boot_pages in Hnd. rewrite !NoDup_cons, !elem_of_cons in Hnd. rewrite !elem_of_cons, elem_of_nil in Hpd.
    destruct Hpd as [-> | [-> | []]]; intuition congruence. }
  assert (Hm : 0 <= i mod 512 < 512) by (apply Z.mod_pos_bound; lia).
  unfold init_pd. fold (pd_page b i). rewrite wr_e_table by ((by apply Ht) || done).
  change (Z.shiftl 1 21) with (2 ^ 21). unfold u64. rewrite wrap_small by (unfold in_u; lia). fold (large_entry i).
  eexists. split; [done |]. split_and!.
  - intros f Hf. by apply table_upd, Ht.
  - intros j Hj. rewrite word_upd, decide_False by ((by apply Ht) || lia || (intros [E0 _]; destruct Hne; congruence)). by apply H4.
  - intros j Hj. rewrite word_upd, decide_False by ((by apply Ht) || lia || (intros [E0 _]; destruct Hne; congruence)). by apply H3.
  - intros j Hj. pose proof (Z.mod_pos_bound j 512 ltac:(lia)).
    rewrite word_upd by ((by apply Ht) || lia). destruct (decide _) as [[E1 E2] | Hn].
    + assert (j = i) as -> by (unfold pd_page, PAGE_SIZE in E1; Z.div_mod_to_equations; lia). done.
    + apply H2. assert (j <> i) by (intros ->; by apply Hn). lia.
Qed.

(** The table of the third level after its loop. *)
Lemma init_pdpt_loop b s : boot_ok b -> boot_inv b 1024 s ->
  exists s', for_up 2 0 (init_pdpt b) s = Ret s' /\
    (forall j, 0 <= j < 512 -> word s' (b_pdpt b) j = Some (
       if decide (j = 511 \/ j = 1) then table_entry (b_pd b + PAGE_SIZE)
       else if decide (j = 510 \/ j = 0) then table_entry (b_pd b) else 0)) /\
    (forall f j, f <> b_pdpt b -> 0 <= j -> word s' f j = word s f j).
Proof.
  intros [Hnd Hfr] (Ht & _ & H3 & _). assert (Hin : b_pdpt b ∈ boot_pages b) by (right; left).
  assert (Hf : framed (b_pd b) /\ framed (b_pd b + PAGE_SIZE)) by (unfold boot_pages in Hfr; rewrite !Forall_cons in Hfr; tauto).
  pose proof (Ht _ Hin) as Hp. cbn [for_up]. unfold init_pdpt. change (PDPT_ATOEI KVSTART) with 510.
  replace (b_pd b + PAGE_SIZE * 0) with (b_pd b) by lia. replace (b_pd b + PAGE_SIZE * (0 + 1)) with (b_pd b + PAGE_SIZE) by lia.
  rewrite !V_TO_P_frame by tauto. fold (table_entry (b_pd b)) (table_entry (b_pd b + PAGE_SIZE)).
  rewrite wr_e_table by (done || lia). rb.
  do 3 (rewrite wr_e_table by (lia || (repeat apply table_upd; done)); rb). eexists. split; [done |].
  change (510 + (0 + 1)) with 511. change (0 + 1) with 1. change (510 + 0) with 510. split.
  - intros j Hj. rewrite !word_upd by (lia || (repeat apply table_upd; done)). rewrite H3 by done.
    repeat destruct (decide _); try done; exfalso; tauto || lia.
  - intros f j Hne Hj. rewrite !word_upd by (lia || (repeat apply table_upd; done)).
    repeat rewrite decide_False by (intros []; done). done.
Qed.


Lemma framed_double f : framed f -> table_entry f = Z.lor (Z.lor (Z.lor f MM_PRESENT) MM_READWRITE) 0.
Proof. intros _. by rewrite Z.lor_0_r. Qed.

Lemma table_entry_step s f i g : framed g -> word s f i = Some (table_entry g) -> step s f i = Some g.
Proof.
  intros Hg E. unfold step. rewrite (word_entry _ _ _ _ E), framed_double by done.
  destruct (new_entry_bits g 0 (proj2 Hg) ltac:(lia) eq_refl) as (Hf & Hp & Hh). rewrite Hp. cbn. by rewrite Hh, Hf.
Qed.

Lemma large_entry_bits i : present (large_entry i) = true /\ huge (large_entry i) = true /\
  Z.land (large_entry i) (Z.lnot 0x1fffff) = i * 2 ^ 21.
Proof.
  unfold large_entry. rewrite present_bit, huge_bit, !Z.lor_spec. split; [by rewrite !orb_true_r |].
  split; [by rewrite !orb_true_r |]. apply Z.bits_inj'. intros k Hk.
  rewrite Z.land_spec, Z.lnot_spec, !Z.lor_spec by done. change 0x1fffff with (Z.ones 21).
  destruct (Z.ltb_spec k 21).
  - rewrite Z.ones_spec_low by lia. rewrite andb_false_r, Z.mul_pow2_bits_low by lia. done.
  - rewrite Z.ones_spec_high by lia. cbn [negb]. rewrite andb_true_r.
    rewrite (small_high_bits MM_PRESENT 21), (small_high_bits MM_READWRITE 21), (small_high_bits MM_2MB 21)
      by (lia || (unfold MM_PRESENT, MM_READWRITE, MM_2MB; lia)). by rewrite !orb_false_r.
Qed.

(** Clearing the static tables and entering the third level into the root. *)
Lemma init_upper b s : boot_ok b -> exists s', boot_inv b 0 s' /\
  mmu_native_init b s = (s ← for_up 1024 0 (init_pd b) s'; s ← for_up 2 0 (init_pdpt b) s;
    mret (amd64_set_cr3 (b_pml4 b) s)).
Proof.
  intros [Hnd Hfr]. assert (framed (b_pml4 b) /\ framed (b_pdpt b) /\ framed (b_pd b) /\ framed (b_pd b + PAGE_SIZE)) as (F4 & F3 & F2 & F1)
    by (unfold boot_pages in Hfr; rewrite !Forall_cons in Hfr; tauto).
  unfold mmu_native_init. do 4 (rewrite with_zero by done; rb).
  set (s1 := set_frames (<[b_pd b + PAGE_SIZE := _]> _) _).
  assert (Hz : forall f, f ∈ boot_pages b -> framed f -> frames s1 !! f = Some (replicate 512 0)).
  { intros f Hf Hff. unfold s1, boot_pages in *. cbn. rewrite !elem_of_cons, elem_of_nil in Hf.
    rewrite !lookup_insert. repeat (case_decide; [done |]). intuition congruence. }
  assert (Ht : forall f, f ∈ boot_pages b -> table s1 f).
  { intros f Hf. assert (Hff : framed f) by (by apply (proj1 (Forall_forall _ _) Hfr)).
    split; [done |]. exists (replicate 512 0). split; [by apply Hz | apply length_replicate]. }
  assert (Hw : forall f j, f ∈ boot_pages b -> 0 <= j < 512 -> word s1 f j = Some 0).
  { intros f j Hf Hj. unfold word. rewrite Hz by (done || by apply (Ht f)). cbn. apply lookup_replicate_2. lia. }
  assert (I4 : b_pml4 b ∈ boot_pages b) by (by apply elem_of_cons; left).
  assert (I3 : b_pdpt b ∈ boot_pages b) by (do 1 (apply elem_of_cons; right); by apply elem_of_cons; left).
  rewrite !V_TO_P_frame by done. fold (table_entry (b_pdpt b)). change (PML4_ATOEI KVSTART) with 511.
  rewrite wr_e_table by (lia || by apply Ht). rb. rewrite wr_e_table by (lia || by apply table_upd, Ht). rb.
  eexists. split; [| done]. split_and!.
  - intros f Hf. by do 2 apply table_upd; apply Ht.
  - intros j Hj. rewrite !word_upd by (lia || by apply Ht || by apply table_upd, Ht). rewrite Hw by done.
    repeat destruct (decide _); try done; exfalso; tauto || lia.
  - intros j Hj. rewrite !word_upd by (lia || by apply Ht || by apply table_upd, Ht).
    assert (b_pdpt b <> b_pml4 b) by (unfold boot_pages in Hnd; rewrite !NoDup_cons, !elem_of_cons in Hnd; intuition congruence).
    repeat rewrite decide_False by (intros []; done). by apply Hw.
  - lia.
Qed.

Lemma walk2 s f i j : walk s f [i; j] = (g ← step s f i; step s g j).
Proof. cbn. destruct (step s f i) as [g |]; cbn; [| done]. by destruct (step s g j). Qed.

Lemma zero_step s f i : word s f i = Some 0 -> step s f i = None.
Proof. intros E. unfold step. by rewrite (word_entry _ _ _ _ E). Qed.

(** The words of the four pages once the boot is done. *)
Definition booted (b : boot_tables) (s : state) : Prop :=
  (forall j, 0 <= j < 512 -> word s (b_pml4 b) j = Some (if decide (j = 0 \/ j = 511) then table_entry (b_pdpt b) else 0)) /\
  (forall j, 0 <= j < 512 -> word s (b_pdpt b) j = Some (
     if decide (j = 511 \/ j = 1) then table_entry (b_pd b + PAGE_SIZE)
     else if decide (j = 510 \/ j = 0) then table_entry (b_pd b) else 0)) /\
  (forall j, 0 <= j < 1024 -> word s (pd_page b j) (j mod 512) = Some (large_entry j)).

Lemma init_booted b s : boot_ok b -> exists s', mmu_native_init b s = Ret (amd64_set_cr3 (b_pml4 b) s') /\ booted b s'.
Proof.
  intros Hb. destruct (init_upper b s Hb) as (s1 & I1 & ->).
  destruct (for_up_inv (boot_inv b) (init_pd b) 1024 0 s1 I1) as (s2 & -> & I2).
  { intros j s2 Hj. apply init_pd_step; [done | lia]. }
  rb. destruct (init_pdpt_loop b s2 Hb I2) as (s3 & -> & W3 & Wo). rb. exists s3. split; [done |].
  destruct I2 as (_ & W4 & _ & W2). destruct Hb as [Hnd _].
  assert (Hne : b_pml4 b <> b_pdpt b /\ b_pd b <> b_pdpt b /\ b_pd b + PAGE_SIZE <> b_pdpt b)
    by (unfold boot_pages in Hnd; rewrite !NoDup_cons, !elem_of_cons in Hnd; intuition congruence).
  split_and!; [| done |].
  - intros j Hj. rewrite Wo by (tauto || lia). by apply W4.
  - intros j Hj. pose proof (Z.mod_pos_bound j 512 ltac:(lia)). pose proof (pd_page_in b j Hj) as Hp.
    rewrite !elem_of_cons, elem_of_nil in Hp. rewrite Wo; [by apply W2 | | lia]. destruct Hp as [-> | [-> | []]]; tauto.
Qed.

(** The large page that a third-level index in use leads to. *)
Lemma booted_large s b v i4 i3 :
  boot_ok b -> booted b s -> PML4_ATOEI v = i4 -> PDPT_ATOEI v = i3 ->
  i4 = 0 \/ i4 = 511 -> i3 = 0 \/ i3 = 1 \/ i3 = 510 \/ i3 = 511 ->
  large_page s (b_pml4 b) v = Some (large_entry (i3 mod 2 * 512 + PD_ATOEI v)).
Proof.
  intros [_ Hfr] (W4 & W3 & W2) E4 E3 H4 H3. pose proof (atoei_range v 21 : 0 <= PD_ATOEI v < 512) as H2.
  assert (framed (b_pdpt b) /\ framed (b_pd b) /\ framed (b_pd b + PAGE_SIZE)) as (F3 & F2 & F1)
    by (unfold boot_pages in Hfr; rewrite !Forall_cons in Hfr; tauto).
  unfold large_page. rewrite walk2, E4, E3.
  rewrite (table_entry_step s (b_pml4 b) i4 (b_pdpt b) F3) by (rewrite W4 by lia; by rewrite decide_True).
  cbn. set (i := i3 mod 2 * 512 + PD_ATOEI v).
  assert (Hi : 0 <= i < 1024) by (pose proof (Z.mod_pos_bound i3 2); lia).
  assert (Hpd : step s (b_pdpt b) i3 = Some (pd_page b i)).
  { unfold pd_page. unfold i. rewrite Z.div_add_l, (Z.div_small (PD_ATOEI v)), Z.add_0_r by lia.
    destruct H3 as [-> | [-> | [-> | ->]]]; change (0 mod 2) with 0; change (510 mod 2) with 0; change (1 mod 2) with 1;
      change (511 mod 2) with 1; rewrite ?Z.mul_0_r, ?Z.mul_1_r, ?Z.add_0_r; (apply table_entry_step; [done |]); by rewrite W3 by lia. }
  rewrite Hpd. cbn. assert (Hw : word s (pd_page b i) (PD_ATOEI v) = Some (large_entry i)).
  { rewrite <- (W2 i Hi). f_equal. unfold i. rewrite Z.add_comm, Z.mod_add, Z.mod_small by lia. done. }
  destruct (large_entry_bits i) as (Hp & Hh & _). rewrite (word_entry _ _ _ _ Hw), Hp. cbn. by rewrite Hh.
Qed.

Lemma booted_unmapped s b v :
  boot_ok b -> booted b s ->
  ~ ((PML4_ATOEI v = 0 \/ PML4_ATOEI v = 511) /\ (PDPT_ATOEI v = 0 \/ PDPT_ATOEI v = 1 \/ PDPT_ATOEI v = 510 \/ PDPT_ATOEI v = 511)) ->
  walk s (b_pml4 b) [PML4_ATOEI v; PDPT_ATOEI v] = None.
Proof.
  intros [_ Hfr] (W4 & W3 & W2) Hn. rewrite walk2.
  assert (F3 : framed (b_pdpt b)) by (unfold boot_pages in Hfr; rewrite !Forall_cons in Hfr; tauto).
  pose proof (atoei_range v 39 : 0 <= PML4_ATOEI v < 512). pose proof (atoei_range v 30 : 0 <= PDPT_ATOEI v < 512).
  destruct (decide (PML4_ATOEI v = 0 \/ PML4_ATOEI v = 511)) as [Hy | Hno].
  - rewrite (table_entry_step s (b_pml4 b) _ (b_pdpt b) F3) by (rewrite W4 by lia; by rewrite decide_True).
    cbn. apply zero_step. rewrite W3 by lia. rewrite !decide_False by tauto. done.
  - rewrite (zero_step s); [done |]. rewrite W4 by lia. by rewrite decide_False.
Qed.

(** The offset of an address in the 2 GB that its indices select. *)
Lemma large_offset v : (PDPT_ATOEI v mod 2 * 512 + PD_ATOEI v) * 2 ^ 21 + v mod 2 ^ 21 = v mod 2 ^ 31.
Proof.
  unfold PDPT_ATOEI, PD_ATOEI. rewrite !index_land, !Z.shiftr_div_pow2 by lia.
  change (2 ^ 31) with (2 ^ 21 * (512 * 2)). rewrite (Z.rem_mul_r v) by done. rewrite (Z.rem_mul_r (v / 2 ^ 21)) by done.
  change 512 with (2 * 256) at 1. rewrite (Z.rem_mul_r (v / 2 ^ 30)) by done.
  rewrite (Z.mul_comm 2), Z.mod_add, Z.mod_mod by done. rewrite Z.div_div by done.
  change (2 ^ 21 * 512) with (2 ^ 30). lia.
Qed.

(** C16: the directory built at boot terminates, is loaded, and translates
    exactly the addresses whose top index is 0 or 511 and whose second index
    is 0, 1, 510 or 511, to their offset in the first 2 GB of physical
    memory; in particular both the identity map and [amd64_p_to_v] reach
    every physical address below 2 GB. *)
Theorem boot_directory_maps_2GB (b : boot_tables) (s : state) : boot_ok b ->
  exists s', mmu_native_init b s = Ret s' /\ cr3 s' = b_pml4 b /\
    (forall v, 0 <= v -> translate s' (cr3 s') v =
       if bool_decide ((PML4_ATOEI v = 0 \/ PML4_ATOEI v = 511) /\
                       (PDPT_ATOEI v = 0 \/ PDPT_ATOEI v = 1 \/ PDPT_ATOEI v = 510 \/ PDPT_ATOEI v = 511))
       then Some (v mod 2 ^ 31) else None) /\
    (forall p, 0 <= p < 2 ^ 31 -> translate s' (cr3 s') p = Some p /\ translate s' (cr3 s') (amd64_p_to_v p) = Some p).
Proof.
  intros Hb. destruct (init_booted b s Hb) as (s' & -> & Hbd). eexists. split; [done |]. split; [done |].
  change (cr3 (amd64_set_cr3 (b_pml4 b) s')) with (b_pml4 b).
  assert (HT : forall v, 0 <= v -> translate (amd64_set_cr3 (b_pml4 b) s') (b_pml4 b) v =
       if bool_decide ((PML4_ATOEI v = 0 \/ PML4_ATOEI v = 511) /\
                       (PDPT_ATOEI v = 0 \/ PDPT_ATOEI v = 1 \/ PDPT_ATOEI v = 510 \/ PDPT_ATOEI v = 511))
       then Some (v mod 2 ^ 31) else None).
  { intros v Hv. case_bool_decide as Hd.
    - unfold translate. change (large_page (amd64_set_cr3 (b_pml4 b) s')) with (large_page s').
      rewrite (booted_large s' b v _ _ Hb Hbd eq_refl eq_refl) by tauto.
      destruct (large_entry_bits (PDPT_ATOEI v mod 2 * 512 + PD_ATOEI v)) as (_ & _ & ->). by rewrite large_offset.
    - unfold translate. change (large_page (amd64_set_cr3 (b_pml4 b) s')) with (large_page s').
      change (small_page (amd64_set_cr3 (b_pml4 b) s')) with (small_page s').
      pose proof (booted_unmapped s' b v Hb Hbd Hd) as Hu. unfold large_page, small_page. rewrite Hu. cbn [mbind option_bind].
      change [PML4_ATOEI v; PDPT_ATOEI v; PD_ATOEI v] with ([PML4_ATOEI v; PDPT_ATOEI v] ++ [PD_ATOEI v]).
      by rewrite walk_snoc, Hu. }
  split; [done |]. intros p Hp. split.
  - rewrite HT by lia. rewrite bool_decide_true; [by rewrite Z.mod_small |].
    unfold PML4_ATOEI, PDPT_ATOEI. rewrite !index_land, !Z.shiftr_div_pow2 by lia. Z.div_mod_to_equations. lia.
  - rewrite p_to_v_small by done. unfold KVSTART, KPSTART. rewrite HT by lia. rewrite bool_decide_true.
    + f_equal. Z.div_mod_to_equations. lia.
    + unfold PML4_ATOEI, PDPT_ATOEI. rewrite !index_land, !Z.shiftr_div_pow2 by lia. Z.div_mod_to_equations. lia.
Qed.

(** ** Sharing pages *)

Lemma cow_entry_bits e bits : 0 <= bits < 4096 ->
  frame_of (cow_entry e bits) = frame_of e /\ present (cow_entry e bits) = true /\ cow (cow_entry e bits) = true.
Proof.
  intros Hb. unfold cow_entry. set (x := Z.lor (Z.lor (Z.lor MM_COW MM_READONLY) MM_PRESENT) MM_USER).
  assert (Hx : 0 <= Z.lor x bits < 4096) by (apply flags_small; [split; [discriminate | reflexivity] | done]).
  rewrite frame_of_flags by done. split.
  - apply Z.bits_inj'. intros k Hk. rewrite !frame_of_spec by done. by destruct (Z.testbit e k), (k <? 12).
  - rewrite present_bit, cow_bit, !Z.lor_spec. change (Z.testbit x 0) with true. change (Z.testbit x 9) with true.
    by rewrite !orb_true_l, !orb_true_r.
Qed.

(** The word after sharing, and what the copy gets. *)
Definition shared (w : Z) : Z := if present w then cow_entry w 0 else w.

Definition dup_inv (s0 : state) (ov cv i : Z) (s : state) : Prop :=
  table s ov /\ table s cv /\ src s = src s0 /\ same_regs s0 s /\
  (forall f, f <> ov -> f <> cv -> frames s !! f = frames s0 !! f) /\
  (forall j w, 0 <= j < 512 -> word s0 ov j = Some w -> word s ov j = Some (if decide (j < i) then shared w else w)) /\
  (forall j w u, 0 <= j < 512 -> word s0 ov j = Some w -> word s0 cv j = Some u ->
     word s cv j = Some (if decide (j < i) then (if present w then shared w else u) else u)).

Lemma dup_pte_step s0 ov cv i s : table s0 ov -> table s0 cv -> ov <> cv -> 0 <= i < 512 -> dup_inv s0 ov cv i s ->
  exists s', dup_pte (amd64_p_to_v ov) (amd64_p_to_v cv) i s = Ret s' /\ dup_inv s0 ov cv (i + 1) s'.
Proof.
  intros T1 T2 Hne Hi (Ho & Hc & Hs & Hr & Hf & Wo & Wc).
  destruct (table_word s0 ov i T1 Hi) as [w Hw]. destruct (table_word s0 cv i T2 Hi) as [u Hu].
  pose proof (Wo i w Hi Hw) as Ei. rewrite decide_False in Ei by lia.
  assert (R1 : 0 <= ov < 2 ^ 31) by apply Ho. unfold dup_pte. rewrite (rd_e_word s ov i w R1) by (done || lia). rb.
  destruct (present w) eqn:Hp.
  - rewrite wr_e_table by done. rb. assert (Ho2 : table (upd s ov i (cow_entry w 0)) ov) by (by apply table_upd).
    rewrite (rd_e_word _ ov i (cow_entry w 0) R1) by (lia || (rewrite word_upd by (done || lia); by apply decide_True)). rb.
    assert (Hc2 : table (upd s ov i (cow_entry w 0)) cv) by (by apply table_upd).
    rewrite wr_e_table by done. eexists. split; [done |]. split_and!; try done.
    + by do 2 apply table_upd.
    + by do 2 apply table_upd.
    + intros f F1 F2. cbn. rewrite !lookup_alter_ne by done. by apply Hf.
    + intros j w2 Hj E. rewrite !word_upd by (done || lia). rewrite (decide_False (P := ov = cv /\ _)) by (intros []; done).
      destruct (decide (ov = ov /\ j = i)) as [[_ ->] | Hni].
      * rewrite Hw in E. injection E as <-. rewrite decide_True by lia. unfold shared. by rewrite Hp.
      * rewrite (Wo j w2 Hj E). assert (j <> i) by (intros ->; by apply Hni). repeat destruct (decide _); done || lia.
    + intros j w2 u2 Hj E E2. rewrite word_upd by (done || lia). destruct (decide (cv = cv /\ j = i)) as [[_ ->] | Hni].
      * rewrite Hw in E. injection E as <-. rewrite decide_True by lia. unfold shared. by rewrite !Hp.
      * rewrite word_upd, decide_False by (done || lia || (intros []; congruence)). rewrite (Wc j w2 u2 Hj E E2).
        assert (j <> i) by (intros ->; by apply Hni). repeat destruct (decide _); done || lia.
  - exists s. split; [done |]. split_and!; try done.
    + intros j w2 Hj E. rewrite (Wo j w2 Hj E). repeat destruct (decide _); try done; try lia.
      assert (j = i) as -> by lia. rewrite Hw in E. injection E as <-. unfold shared. by rewrite Hp.
    + intros j w2 u2 Hj E E2. rewrite (Wc j w2 u2 Hj E E2). repeat destruct (decide _); try done; try lia.
      assert (j = i) as -> by lia. rewrite Hw in E. injection E as <-. by rewrite Hp.
Qed.

(** The innermost loop: each present page is copy-on-write on both sides. *)
Lemma dup_table_spec s ov cv : table s ov -> table s cv -> ov <> cv ->
  exists s', for_up 512 0 (dup_pte (amd64_p_to_v ov) (amd64_p_to_v cv)) s = Ret s' /\ src s' = src s /\ same_regs s s' /\
    (forall f, f <> ov -> f <> cv -> frames s' !! f = frames s !! f) /\
    forall j w u, 0 <= j < 512 -> word s ov j = Some w -> word s cv j = Some u ->
      word s' ov j = Some (shared w) /\ word s' cv j = Some (if present w then shared w else u).
Proof.
  intros T1 T2 Hne.
  destruct (for_up_inv (dup_inv s ov cv) (dup_pte (amd64_p_to_v ov) (amd64_p_to_v cv)) 512 0 s) as (s' & E & I).
  - split_and!; try done.
    + intros j w Hj Hw. by rewrite decide_False by lia.
    + intros j w u Hj Hw Hu. by rewrite decide_False by lia.
  - intros j s1 Hj. by apply dup_pte_step.
  - destruct I as (_ & _ & Hs & Hr & Hf & Wo & Wc). exists s'. split_and!; try done. intros j w u Hj Hw Hu.
    rewrite (Wo j w Hj Hw), (Wc j w u Hj Hw Hu). by rewrite !decide_True by lia.
Qed.

Lemma word_frames s s' f j : frames s' !! f = frames s !! f -> word s' f j = word s f j.
Proof. intros E. unfold word. by rewrite E. Qed.


(** The entry a copied directory gets for a new table. *)
Definition copy_entry (a : Z) : Z := Z.lor (Z.lor (table_entry a) MM_PRESENT) MM_USER.

Lemma copy_entry_frame a : framed a -> frame_of (copy_entry a) = a /\ huge (copy_entry a) = false.
Proof.
  intros [_ Ha]. unfold copy_entry, table_entry. split.
  - rewrite !frame_of_flags by (unfold MM_PRESENT, MM_READWRITE, MM_USER; lia). by apply frame_of_aligned.
  - rewrite huge_bit, !Z.lor_spec. by rewrite (aligned_low_bits a 7) by (done || lia).
Qed.

(** Making the new table and finding the two innermost ones. *)
Lemma dup_entry_spec s ov cv i a p o : src_alloc (src s) 0 = Ret (a, p) -> framed a -> table s ov -> table s cv ->
  ov <> cv -> a <> ov -> a <> cv -> 0 <= i < 512 -> word s ov i = Some o ->
  dup_entry s (amd64_p_to_v ov) (amd64_p_to_v cv) i =
    Ret (amd64_p_to_v (frame_of o), amd64_p_to_v a, upd (with_page s p a) cv i (copy_entry a)).
Proof.
  intros E Ha To Tc Hne Hao Hac Hi Ho. unfold dup_entry. rewrite (alloc_entry_page s a p E Ha). rb.
  assert (Tc2 : table (with_page s p a) cv) by (by apply table_with_page).
  rewrite wr_e_table by done. rb. fold (table_entry a) (copy_entry a).
  rewrite (rd_e_word _ ov i o) by (apply To || lia ||
    (rewrite word_upd, decide_False by (done || lia || (intros []; done)); rewrite word_with_page, decide_False; done)). rb.
  rewrite (rd_e_word _ cv i (copy_entry a)) by (apply Tc || lia || (rewrite word_upd by (done || lia); by apply decide_True)). rb.
  by rewrite (proj1 (copy_entry_frame a Ha)).
Qed.

Lemma dup_pde_table s ov cv i e t : table s ov -> table s cv -> ov <> cv -> 0 <= i < 512 ->
  word s ov i = Some e -> present e = true -> t = frame_of e -> table s t -> t <> ov -> t <> cv ->
  forall a p, src_alloc (src s) 0 = Ret (a, p) -> framed a -> a <> ov -> a <> cv -> a <> t ->
  exists s', dup_pde (amd64_p_to_v ov) (amd64_p_to_v cv) i s = Ret s' /\
    word s' ov i = Some (if huge e then cow_entry e MM_2MB else e) /\
    word s' cv i = Some (copy_entry a) /\
    forall j w, 0 <= j < 512 -> word s t j = Some w ->
      word s' t j = Some (shared w) /\ word s' a j = Some (if present w then shared w else 0).
Proof.
  intros To Tc Hne Hi He Hp -> Tt Hto Htc a p Ea Ha Hao Hac Hat. unfold dup_pde.
  rewrite (rd_e_word s ov i e) by (apply To || done || lia). rb. rewrite Hp.
  set (e' := if huge e then cow_entry e MM_2MB else e).
  assert (Hs1 : exists s1, (if huge e then
       s ← wr_e s (amd64_p_to_v ov) i (cow_entry e MM_2MB); e ← rd_e s (amd64_p_to_v ov) i; wr_e s (amd64_p_to_v cv) i e
     else mret s) = Ret s1 /\ src s1 = src s /\ table s1 ov /\ table s1 cv /\ word s1 ov i = Some e' /\
       (forall f, f <> ov -> f <> cv -> frames s1 !! f = frames s !! f)).
  { unfold e'. destruct (huge e); [| by exists s]. rewrite wr_e_table by done. rb.
    rewrite (rd_e_word _ ov i (cow_entry e MM_2MB)) by (apply To || lia || (rewrite word_upd by (done || lia); by apply decide_True)). rb.
    rewrite wr_e_table by (done || by apply table_upd). eexists. split_and!; try done.
    - by do 2 apply table_upd.
    - by do 2 apply table_upd.
    - rewrite !word_upd by (done || lia || by apply table_upd). rewrite decide_False by (intros []; done). by rewrite decide_True.
    - intros f F1 F2. cbn. by rewrite !lookup_alter_ne by done. }
  destruct Hs1 as (s1 & -> & Es & To1 & Tc1 & We & Hf). rb. rewrite <- Es in Ea.
  assert (Hfr : frame_of e' = frame_of e).
  { unfold e'. destruct (huge e); [| done]. apply cow_entry_bits. unfold MM_2MB. lia. }
  rewrite (dup_entry_spec s1 ov cv i a p e' Ea Ha To1 Tc1 Hne Hao Hac Hi We). rb. rewrite Hfr.
  set (t := frame_of e) in *. set (s2 := upd (with_page s1 p a) cv i (copy_entry a)).
  assert (Tc2 : table (with_page s1 p a) cv) by (by apply table_with_page).
  assert (Tt2 : table s2 t).
  { apply table_upd, table_with_page; [done |]. destruct Tt as [Ft (l & El & Hl)]. split; [done |]. exists l. by rewrite Hf. }
  assert (Ta2 : table s2 a) by (by apply table_upd, table_new).
  destruct (dup_table_spec s2 t a Tt2 Ta2 ltac:(done)) as (s' & -> & _ & _ & Hf' & Hw). exists s'.
  split; [done |]. split_and!.
  - rewrite (word_frames s2 s') by (by apply Hf'). unfold s2. rewrite word_upd, decide_False by (done || lia || (intros []; done)).
    rewrite word_with_page, decide_False by done. done.
  - rewrite (word_frames s2 s') by (by apply Hf'). unfold s2. rewrite word_upd by (done || lia). by rewrite decide_True.
  - intros j w Hj Ew. apply Hw; [done | |].
    + unfold s2. rewrite word_upd, decide_False by (done || lia || (intros []; done)).
      rewrite word_with_page, decide_False by done. by rewrite (word_frames s s1) by (by apply Hf).
    + unfold s2. rewrite word_upd, decide_False by (done || lia || (intros []; done)).
      rewrite word_with_page, decide_True by done. apply decide_True. lia.
Qed.

(** Duplicating an entry of a page directory gives the copy a new table
    whose present pages, and those of the original, are copy-on-write.  The
    case of a large page falls through to the same code: the copy gets no
    large page but a table, and the large page's own data is read as a table
    and rewritten: every word of its first 4 KB whose lowest bit is set loses
    its other low bits. *)
Theorem dup_pde_effects (s : state) (ov cv i e a : Z) (p : P) :
  table s ov -> table s cv -> ov <> cv -> 0 <= i < 512 -> word s ov i = Some e -> present e = true ->
  table s (frame_of e) -> frame_of e <> ov -> frame_of e <> cv ->
  src_alloc (src s) 0 = Ret (a, p) -> framed a -> a <> ov -> a <> cv -> a <> frame_of e ->
  exists s', dup_pde (amd64_p_to_v ov) (amd64_p_to_v cv) i s = Ret s' /\
    step s' cv i = Some a /\
    (huge e = false -> step s' ov i = Some (frame_of e)) /\
    (forall j w, 0 <= j < 512 -> word s (frame_of e) j = Some w ->
      word s' (frame_of e) j = Some (shared w) /\ word s' a j = Some (if present w then shared w else 0)) /\
    (huge e = true -> forall j w, 0 <= j < 512 -> word s (frame_of e) j = Some w -> present w = true ->
      word s' (frame_of e) j = Some (Z.lor (frame_of w) 0x205)).
Proof.
  intros To Tc Hne Hi He Hp Tt Hto Htc Ea Ha Hao Hac Hat.
  destruct (dup_pde_table s ov cv i e (frame_of e) To Tc Hne Hi He Hp eq_refl Tt Hto Htc a p Ea Ha Hao Hac Hat)
    as (s' & E & Wo & Wc & Wt). exists s'. split; [done |]. destruct (copy_entry_frame a Ha) as [Hf Hh].
  split_and!; try done.
  - unfold step. rewrite (word_entry _ _ _ _ Wc). assert (present (copy_entry a) = true) as ->.
    { unfold copy_entry, table_entry. rewrite present_bit, !Z.lor_spec. cbn. by rewrite !orb_true_r. }
    cbn. by rewrite Hh, Hf.
  - intros Hhe. rewrite Hhe in Wo. unfold step. rewrite (word_entry _ _ _ _ Wo), Hp. cbn. by rewrite Hhe.
  - intros _ j w Hj Ew Hpw. rewrite (proj1 (Wt j w Hj Ew)). unfold shared. by rewrite Hpw.
Qed.


(** ** Resolving a copy-on-write fault *)

Lemma step_word s f i g : step s f i = Some g -> exists e, word s f i = Some e /\ present e = true /\ frame_of e = g.
Proof.
  unfold step. rewrite entry_word. destruct (word s f i) as [e |]; cbn; [| done].
  destruct (present e) eqn:Hp; cbn; [| done]. destruct (huge e); [done |]. intros [= <-]. by exists e.
Qed.

(** The handler's walk to the last table. *)
Lemma pf_walk s root v pt : wf_dir s root -> walk s root [PML4_ATOEI v; PDPT_ATOEI v; PD_ATOEI v] = Some pt ->
  exists pdpt pd e4 e3 e2, table s root /\ table s pdpt /\ table s pd /\ table s pt /\
    word s root (PML4_ATOEI v) = Some e4 /\ present e4 = true /\ frame_of e4 = pdpt /\
    word s pdpt (PDPT_ATOEI v) = Some e3 /\ present e3 = true /\ frame_of e3 = pd /\
    word s pd (PD_ATOEI v) = Some e2 /\ present e2 = true /\ frame_of e2 = pt.
Proof.
  intros Hwf Hw. destruct (idxs_path v) as (H3 & H2 & H1 & H0). pose proof Hw as Hw0.
  cbn in Hw. destruct (step s root (PML4_ATOEI v)) as [pdpt |] eqn:E4; [| done]. cbn in Hw.
  destruct (step s pdpt (PDPT_ATOEI v)) as [pd |] eqn:E3; [| done]. cbn in Hw.
  destruct (step s pd (PD_ATOEI v)) as [pt' |] eqn:E2; [| done]. cbn in Hw. injection Hw as ->.
  destruct (step_word _ _ _ _ E4) as (e4 & W4 & P4 & F4). destruct (step_word _ _ _ _ E3) as (e3 & W3 & P3 & F3).
  destruct (step_word _ _ _ _ E2) as (e2 & W2 & P2 & F2). exists pdpt, pd, e4, e3, e2. split_and!; try done.
  - by apply (wf_table _ _ Hwf []).
  - apply (wf_table _ _ Hwf [PML4_ATOEI v]); [done |]. cbn. by rewrite E4.
  - apply (wf_table _ _ Hwf [PML4_ATOEI v; PDPT_ATOEI v]); [done |]. cbn. by rewrite E4; cbn; rewrite E3.
  - by apply (wf_table _ _ Hwf _ pt H3).
Qed.

(** A page that is taken for something else than a table. *)
Lemma take_page_dir s root a p : wf_dir s root -> src_alloc (src s) 0 = Ret (a, p) -> wf_dir (set_src p s) root /\ 0 <= a.
Proof.
  intros [Ht Hi Hu [Hok Hnd] Hf] Ea. destruct (src_alloc_law (src s) 0 a p Hok ltac:(lia) Ea) as (Hok' & Ha & HP).
  change (Z.to_nat 0) with 0%nat in HP. change (pages_of a (2 ^ 0)) with [a + PAGE_SIZE * 0] in HP.
  assert (Hw : forall l f, walk (set_src p s) f l = walk s f l) by (intros; by apply walk_frames).
  split; [split | done].
  - intros l f. rewrite Hw. apply Ht.
  - intros l l' f. rewrite !Hw. apply Hi.
  - intros l f i e Hl Hn. rewrite Hw. apply (Hu l f i e Hl Hn).
  - split; [done |]. rewrite HP in Hnd. by apply NoDup_app in Hnd as (_ & _ & ?).
  - intros l f Hl. rewrite Hw. intros E Hin. apply (Hf l f Hl E). rewrite HP, elem_of_app. by right.
Qed.

(** Taking a page for data out of the source keeps a directory. *)
Lemma data_page_dir s root a p t : wf_dir s root -> src_alloc (src s) 0 = Ret (a, p) ->
  let s' := set_frames (<[a := t]> (frames s)) (set_src p s) in
  wf_dir s' root /\ a ∈ src_avail (src s) /\
  (forall l f, idxs l -> walk s root l = Some f -> f <> a) /\ (forall l, idxs l -> walk s' root l = walk s root l) /\
  (forall f j, f <> a -> entry s' f j = entry s f j).
Proof.
  intros Hwf Ea s'. destruct (wf_src _ _ Hwf) as [Hok Hnd].
  destruct (src_alloc_law (src s) 0 a p Hok ltac:(lia) Ea) as (Hok' & _ & HP).
  change (Z.to_nat 0) with 0%nat in HP. change (pages_of a (2 ^ 0)) with [a + PAGE_SIZE * 0] in HP.
  replace (a + PAGE_SIZE * 0) with a in HP by lia. cbn in HP.
  assert (Hnd' : NoDup (a :: src_avail p)) by (by rewrite <- HP). apply NoDup_cons in Hnd' as [Hna Hnd'].
  assert (Hin : forall q, q ∈ src_avail (src s) <-> q = a \/ q ∈ src_avail p) by (intros q; by rewrite HP, elem_of_cons).
  assert (Hne : forall l f, idxs l -> walk s root l = Some f -> f <> a).
  { intros l f Hl E ->. apply (wf_fresh _ _ Hwf l a Hl E). apply Hin. by left. }
  assert (Hfr : forall f, f <> a -> frames s' !! f = frames s !! f) by (intros f Hf; cbn; by apply lookup_insert_ne).
  assert (Hent : forall f j, f <> a -> entry s' f j = entry s f j) by (intros f j Hf; unfold entry; by rewrite Hfr).
  assert (Hwalk : forall l, idxs l -> walk s' root l = walk s root l).
  { intros l Hl. apply (walk_ext s s' root 3); [lia | | done | apply Hl]. intros l2 g i H2 _ _ E. unfold step.
    rewrite Hent; [done |]. by apply (Hne l2). }
  split_and!; try done; [split | apply Hin; by left].
  - intros l f Hl. rewrite Hwalk by done. intros E. destruct (wf_table _ _ Hwf l f Hl E) as [Hf Ht]. split; [done |].
    rewrite Hfr; [done | by apply (Hne l)].
  - intros l l' f Hl Hl'. rewrite !Hwalk by done. by apply (wf_inj _ _ Hwf).
  - intros l f i e Hl Hn E Hi. rewrite Hwalk in E by done. rewrite Hent by (by apply (Hne l)). by apply (wf_upper _ _ Hwf l f i).
  - done.
  - intros l f Hl E Hf. rewrite Hwalk in E by done. apply (wf_fresh _ _ Hwf l f Hl E). apply Hin. by right.
Qed.

Lemma data_page_pages s root a p t : wf_dir s root -> src_alloc (src s) 0 = Ret (a, p) ->
  let s' := set_frames (<[a := t]> (frames s)) (set_src p s) in
  forall w, large_page s' root w = large_page s root w /\ small_page s' root w = small_page s root w.
Proof.
  intros Hwf Ea s' w. destruct (data_page_dir s root a p t Hwf Ea) as (_ & _ & Hna & Hwk & Hent).
  destruct (idxs_path w) as (I3 & I2 & _). unfold large_page, small_page. rewrite !Hwk by done. split.
  - destruct (walk s root [PML4_ATOEI w; PDPT_ATOEI w]) as [g |] eqn:Eg; cbn; [| done]. by rewrite Hent by (by apply (Hna _ g I2)).
  - destruct (walk s root [PML4_ATOEI w; PDPT_ATOEI w; PD_ATOEI w]) as [g |] eqn:Eg; cbn; [| done]. by apply Hent, (Hna _ g I3).
Qed.

Lemma page_start v : 0 <= v -> ROUND_DOWN v PAGE_SIZE mod PAGE_SIZE = 0 /\ vpage (ROUND_DOWN v PAGE_SIZE) = vpage v.
Proof.
  intros Hv. rewrite ROUND_DOWN_page by done. set (r := v mod PAGE_SIZE).
  assert (Hm : (v - r) mod PAGE_SIZE = 0).
  { unfold r. rewrite Zminus_mod_idemp_r. by rewrite Z.sub_diag. }
  split; [done |]. assert (Hr : 0 <= r < PAGE_SIZE) by (by apply Z.mod_pos_bound).
  destruct (same_page_indices (v - r) r Hm Hr) as (E4 & E3 & E2 & E1 & _). replace (v - r + r) with v in * by lia.
  rewrite !vpage_indices. congruence.
Qed.

Lemma pages_frames s s' root w : frames s' = frames s ->
  small_page s' root w = small_page s root w /\ large_page s' root w = large_page s root w.
Proof. intros E. unfold small_page, large_page. rewrite !(walk_frames s s') by done. unfold entry. by rewrite E. Qed.

Lemma vpage_pages s root w v : vpage w = vpage v ->
  small_page s root w = small_page s root v /\ large_page s root w = large_page s root v.
Proof. intros E. destruct (same_vpage w v E) as (E1 & E2 & E3 & E4). unfold small_page, large_page. by rewrite E1, E2, E3, E4. Qed.

Lemma small_translate s root v e : large_page s root v = None -> small_page s root v = Some e ->
  translate s root v = Some (frame_of e + v mod PAGE_SIZE).
Proof. intros El Es. unfold translate. by rewrite El, Es. Qed.

(** The handler up to its test. *)
Lemma pf_handler_test s v e : wf_dir s (cr3 s) -> small_page s (cr3 s) v = Some e ->
  exists pt, walk s (cr3 s) [PML4_ATOEI v; PDPT_ATOEI v; PD_ATOEI v] = Some pt /\ table s pt /\
  mmu_pf_handler s v = if cow e && (Z.land e MM_READWRITE =? 0) then
    (lk ← spin_acquire (pf_lock s);
     '(copy, p) ← src_alloc (src s) 0;
     let s := set_src p (set_pf_lock lk s) in
     t ← match translate s (cr3 s) (ROUND_DOWN v PAGE_SIZE) with
         | Some a => match frames s !! a with Some t => Ret t | None => Fault end
         | None => Fault
         end;
     s ← set_page s (amd64_p_to_v copy) t;
     s ← wr_e s (amd64_p_to_v pt) (PT_ATOEI v) (Z.lor copy 7);
     mret (0, set_pf_lock (spin_release (pf_lock s)) s))
  else Halt.
Proof.
  intros Hwf Hs. unfold small_page in Hs.
  destruct (walk s (cr3 s) [PML4_ATOEI v; PDPT_ATOEI v; PD_ATOEI v]) as [pt |] eqn:Ew; [| done]. cbn in Hs.
  destruct (pf_walk s _ v pt Hwf Ew) as (pdpt & pd & e4 & e3 & e2 & T4 & T3 & T2 & T1 & W4 & P4 & F4 & W3 & P3 & F3 & W2 & P2 & F2).
  exists pt. split; [done |]. split; [done |]. rewrite entry_word in Hs. destruct (word s pt (PT_ATOEI v)) as [e1 |] eqn:W1; [| done].
  cbn in Hs. destruct (present e1) eqn:P1; [| done]. injection Hs as ->.
  unfold mmu_pf_handler, mmu_p_to_v.
  rewrite (rd_e_word s (cr3 s) _ e4) by (apply T4 || apply atoei_range || done). rb. rewrite P4. cbn [negb]. rewrite F4.
  rewrite (rd_e_word s pdpt _ e3) by (apply T3 || apply atoei_range || done). rb. rewrite P3. cbn [negb]. rewrite F3.
  rewrite (rd_e_word s pd _ e2) by (apply T2 || apply atoei_range || done). rb. rewrite P2. cbn [negb]. rewrite F2.
  rewrite (rd_e_word s pt _ e) by (apply T1 || apply atoei_range || done). rb. rewrite P1. cbn [negb]. reflexivity.
Qed.

End mmu.
#[global] Arguments state : clear implicits.

(** ** Samples: directories of a few tables, and a list of free pages *)

Definition row (x : Z) : list Z := x :: replicate 511 0.

Definition list_alloc (l : list Z) (order : Z) : out (Z * list Z) :=
  if order =? 0 then match l with [] => Halt | a :: l => Ret (a, l) end else Halt.

Lemma list_alloc_law l order a l' : Forall (fun a => 0 <= a) l -> 0 <= order < 16 -> list_alloc l order = Ret (a, l') ->
  Forall (fun a => 0 <= a) l' /\ 0 <= a /\ l ≡ₚ pages_of a (2 ^ Z.to_nat order) ++ l'.
Proof.
  intros Hl Ho. unfold list_alloc. destruct (Z.eqb_spec order 0) as [-> |]; [| done]. destruct l as [| x l]; [done |]. intros [= -> ->].
  apply Forall_cons in Hl as [Ha Hl]. split; [done |]. split; [done |]. change (pages_of a (2 ^ Z.to_nat 0)) with [a + PAGE_SIZE * 0].
  by replace (a + PAGE_SIZE * 0) with a by lia.
Qed.

#[local] Instance list_source : PageSource (list Z) := {
  src_alloc := list_alloc;
  src_avail l := l;
  src_ok := Forall (fun a => 0 <= a);
  src_alloc_law := list_alloc_law
}.

(** A directory whose only path is the one of index 0 at every level. *)
Definition sample_dir (x : Z) : state (list Z) :=
  mk_state (<[0x2000 := row 0x3003]> (<[0x3000 := row 0x4003]> (<[0x4000 := row 0x5003]> (<[0x5000 := row x]>
    {[0x6000 := row 77]})))) 0 0 0x2000 [0x10000; 0x11000; 0x12000].

Lemma row_zero x i : i <> 0 -> 0 <= i < 512 -> row x !! Z.to_nat i = Some 0.
Proof.
  intros Hi Hr. replace (Z.to_nat i) with (S (Z.to_nat (i - 1))) by lia.
  change ((replicate 511 0 : list Z) !! Z.to_nat (i - 1) = Some 0). apply lookup_replicate_2. lia.
Qed.

Lemma row_step (s : state (list Z)) f x i : frames s !! f = Some (row x) -> 0 <= i < 512 ->
  step s f i = if decide (i = 0) then (if present x then if huge x then None else Some (frame_of x) else None) else None.
Proof.
  intros E Hi. unfold step, entry. rewrite E. cbn [mbind option_bind]. destruct (decide (i = 0)) as [-> |].
  - change ((e ← (if present x then Some x else None); if huge e then None else Some (frame_of e)) =
      (if present x then if huge x then None else Some (frame_of x) else None)). by destruct (present x).
  - by rewrite row_zero.
Qed.

Lemma sample_walk x l f : idxs l -> walk (sample_dir x) 0x2000 l = Some f ->
  (l, f) ∈ [([], 0x2000); ([0], 0x3000); ([0; 0], 0x4000); ([0; 0; 0], 0x5000)].
Proof.
  intros [Hlen Hl]. assert (S2 := row_step (sample_dir x) 0x2000 0x3003). assert (S3 := row_step (sample_dir x) 0x3000 0x4003).
  assert (S4 := row_step (sample_dir x) 0x4000 0x5003).
  destruct l as [| i [| j [| k [|]]]]; cbn [length] in Hlen; [| | | | lia].
  - cbn. intros [= <-]. set_solver.
  - apply Forall_cons in Hl as [Hi _]. cbn [walk]. rewrite (S2 i eq_refl Hi). destruct (decide (i = 0)) as [-> |]; [| done].
    intros [= <-]. set_solver.
  - apply Forall_cons in Hl as [Hi [Hj _]%Forall_cons]. cbn [walk]. rewrite (S2 i eq_refl Hi). destruct (decide (i = 0)) as [-> |]; [| done].
    change (step (sample_dir x) 0x3000 j ≫= (fun g => Some g) = Some f -> ([0; j], f) ∈ [([], 0x2000); ([0], 0x3000); ([0; 0], 0x4000); ([0; 0; 0], 0x5000)]).
    rewrite (S3 j eq_refl Hj). destruct (decide (j = 0)) as [-> |]; [| done]. intros [= <-]. set_solver.
  - apply Forall_cons in Hl as [Hi [Hj [Hk _]%Forall_cons]%Forall_cons]. cbn [walk]. rewrite (S2 i eq_refl Hi). destruct (decide (i = 0)) as [-> |]; [| done].
    change (step (sample_dir x) 0x3000 j ≫= (fun g => step (sample_dir x) g k ≫= (fun g => Some g)) = Some f ->
      ([0; j; k], f) ∈ [([], 0x2000); ([0], 0x3000); ([0; 0], 0x4000); ([0; 0; 0], 0x5000)]).
    rewrite (S3 j eq_refl Hj). destruct (decide (j = 0)) as [-> |]; [| done].
    change (step (sample_dir x) 0x4000 k ≫= (fun g => Some g) = Some f ->
      ([0; 0; k], f) ∈ [([], 0x2000); ([0], 0x3000); ([0; 0], 0x4000); ([0; 0; 0], 0x5000)]).
    rewrite (S4 k eq_refl Hk). destruct (decide (k = 0)) as [-> |]; [| done]. intros [= <-]. set_solver.
Qed.

Lemma sample_wf x : wf_dir (sample_dir x) 0x2000.
Proof.
  assert (Hc : forall l f, idxs l -> walk (sample_dir x) 0x2000 l = Some f ->
    (l = [] /\ f = 0x2000) \/ (l = [0] /\ f = 0x3000) \/ (l = [0; 0] /\ f = 0x4000) \/ (l = [0; 0; 0] /\ f = 0x5000)).
  { intros l f Hl E. pose proof (sample_walk x l f Hl E) as H. rewrite !elem_of_cons, elem_of_nil in H.
    destruct H as [[= -> ->] | [[= -> ->] | [[= -> ->] | [[= -> ->] | []]]]]; tauto. }
  split.
  - intros l f Hl E. destruct (Hc l f Hl E) as [[_ ->] | [[_ ->] | [[_ ->] | [_ ->]]]]; (split; [by split | by eexists]).
  - intros l l' f Hl Hl' E E'.
    destruct (Hc l f Hl E) as [[-> ->] | [[-> ->] | [[-> ->] | [-> ->]]]]; destruct (Hc l' _ Hl' E') as [[-> ?] | [[-> ?] | [[-> ?] | [-> ?]]]]; done.
  - intros l f i e Hl Hn E Hi.
    assert (Hx : exists y, frames (sample_dir x) !! f = Some (row y) /\ huge y = false).
    { destruct (Hc l f Hl E) as [[-> ->] | [[-> ->] | [[-> ->] | [-> ->]]]]; try (cbn in Hn; lia); by eexists. }
    destruct Hx as (y & Ef & Hy). unfold entry. rewrite Ef. cbn [mbind option_bind]. destruct (decide (i = 0)) as [-> |].
    + change ((if present y then Some y else None) = Some e -> huge e = false). destruct (present y); [by intros [= <-] | done].
    + by rewrite row_zero.
  - split; [by repeat constructor; lia |]. refine (bool_decide_eq_true_1 _ _). by vm_compute.
  - intros l f Hl E. destruct (Hc l f Hl E) as [[_ ->] | [[_ ->] | [[_ ->] | [_ ->]]]]; refine (bool_decide_eq_true_1 _ _); by vm_compute.
Qed.


Definition sample_boot : boot_tables := mk_boot 0x100000 0x101000 0x102000.

Lemma boot_directory_maps_2GB_witness :
  exists s', mmu_native_init sample_boot (sample_dir 0) = Ret s' /\ translate s' (cr3 s') (amd64_p_to_v 0x12345) = Some 0x12345.
Proof.
  destruct (boot_directory_maps_2GB sample_boot (sample_dir 0)) as (s' & E & _ & _ & H).
  - split; [refine (bool_decide_eq_true_1 _ _); by vm_compute |].
    repeat (apply Forall_cons; split; [by split |]). apply Forall_nil. exact I.
  - exists s'. split; [exact E |]. apply H. split; [discriminate | reflexivity].
Defined.

(** The directory at 0x4000 maps the 2 MB page at 0, whose data is at
    0x6000 in a store of 4 KB frames; here the large page is 0x6000. *)
Definition large_dir : state (list Z) :=
  mk_state (<[0x4000 := row 0x6083]> (<[0x5000 := row 0]> {[0x6000 := row 0x77]})) 0 0 0x2000 [0x10000].

Lemma large_dir_table f : f ∈ [0x4000; 0x5000; 0x6000] -> table large_dir f.
Proof.
  rewrite !elem_of_cons, elem_of_nil.
  intros [-> | [-> | [-> | []]]]; (split; [by split | eexists; split; [vm_compute; reflexivity | reflexivity]]).
Qed.

Lemma dup_pde_effects_witness :
  exists s', dup_pde (amd64_p_to_v 0x4000) (amd64_p_to_v 0x5000) 0 large_dir = Ret s' /\ step s' 0x5000 0 = Some 0x10000 /\
    word s' 0x6000 0 = Some 0x205.
Proof.
  destruct (dup_pde_effects large_dir 0x4000 0x5000 0 0x6083 0x10000 []) as (s' & E & Hs & _ & _ & H).
  - apply large_dir_table. set_solver.
  - apply large_dir_table. set_solver.
  - lia.
  - lia.
  - by vm_compute.
  - reflexivity.
  - apply large_dir_table. set_solver.
  - by vm_compute.
  - by vm_compute.
  - reflexivity.
  - split; [split; [discriminate | reflexivity] | reflexivity].
  - lia.
  - lia.
  - by vm_compute.
  - exists s'. split; [exact E |]. split; [exact Hs |].
    apply (H eq_refl 0 0x77); [lia | by vm_compute | reflexivity].
Defined.


End Mmu.
