(* ===== verification/Sched.v ===== *)
(** * Task switching and wait queues (sched/sched.c, sync/wait.c)

    Tasks and threads live in stores under their addresses; the links of the
    lists they are on (children, zombies, wait queues) are those of Dlist.
    The scheduler underneath is any [SchedOps]: the operations of mts.c on
    its own state, with the promise that blocking and waking a task of the
    run queues does not fail; Mts has the instance.  A switch of context is
    the value of the operation: control then is with the other task, and
    comes back to the caller at its next switch. *)

From S2P Require Import Prelude Bheap Dlist Locks Memory Mts.
Import Dlist Locks Memory.

Module Sched.

Definition T_READY : Z := 0.
Definition T_RUNNING : Z := 1.
Definition T_BLOCKED : Z := 2.
Definition T_ZOMBIE : Z := 4.
Definition T_UNSTARTED : Z := 8.

Definition KSTACK_SIZE : Z := 0x1000.

(** ** The scheduler underneath *)

Class SchedOps (M : Type) := {
  so_block : M -> Z -> Z -> out (Z * M);
  so_unblock : M -> Z -> Z -> out (Z * M);
  so_unschedule : M -> Z -> out (Z * M);
  so_schedule : M -> Z -> Z -> Z -> out (Z * M);
  so_get_next : M -> Z -> out (Z * M);
  so_get_active : M -> Z -> out Z;
  so_tick : M -> Z -> out (Z * M)
}.

#[export] Instance mts_sched {C} `{EntrySource C} : SchedOps (Mts.sys C) := {
  so_block := Mts.mts_block;
  so_unblock := Mts.mts_unblock;
  so_unschedule := Mts.mts_unschedule;
  so_schedule s me tk nice := Mts.mts_schedule s me tk nice 0;
  so_get_next := Mts.mts_get_next;
  so_get_active := Mts.mts_get_active;
  so_tick := Mts.mts_tick
}.

(** What a client may expect of the scheduler: a task can be picked exactly
    when it was not blocked since it was last made ready, and the running
    task of a CPU changes only when the CPU picks the next one, which no
    other CPU runs.  (Mts breaks the promise in the interleaving of
    [mts_block_then_switch].) *)
Class SchedLaws (M : Type) `{SchedOps M} := {
  runnable : M -> Z -> Prop;
  law_next m me tk m' : so_get_next m me = Ret (tk, m') ->
    (tk <> 0 -> runnable m tk) /\ (forall x, runnable m' x <-> runnable m x) /\ so_get_active m' me = Ret tk /\
    forall c, c <> me -> so_get_active m' c = so_get_active m c /\ (tk <> 0 -> so_get_active m c <> Ret tk);
  law_block m me tk r m' : so_block m me tk = Ret (r, m') -> 0 <= r ->
    (forall x, runnable m' x <-> runnable m x /\ x <> tk) /\ forall c, so_get_active m' c = so_get_active m c;
  law_unblock m me tk r m' : so_unblock m me tk = Ret (r, m') ->
    (forall x, runnable m x -> runnable m' x) /\ (forall x, runnable m' x -> runnable m x \/ x = tk) /\
    forall c, so_get_active m' c = so_get_active m c;
  law_tick m me r m' : so_tick m me = Ret (r, m') ->
    (forall x, runnable m' x <-> runnable m x) /\ forall c, so_get_active m' c = so_get_active m c
}.

(** ** Tasks and threads *)

Record thread := mk_thread {
  th_state : Z;
  kstack_top : Z;
  kstack_bottom : Z;
  exec_state : Z
}.

Record task := mk_task {
  t_parent : Z;
  nthreads : Z;
  threads : Z;
  t_pid : Z;
  t_fs_ctx : Z;
  t_file_ctx : Z;
  t_wq_task : Z;
  t_dir : Z;
  t_cr3 : Z
}.

(** The offsets of the list heads in [task_t] and [thread_t], of [task_t::wq]
    and of the list in a [wait_queue_head_t]. *)
Definition TLIST (t : Z) : Z := t + 64.
Definition CHILDREN (t : Z) : Z := t + 80.
Definition ZOMBIES (t : Z) : Z := t + 96.
Definition WQ_LIST (t : Z) : Z := t + 120.
Definition WQH_CHILD (t : Z) : Z := t + 136.
Definition WQH_LIST (h : Z) : Z := h + 8.
Definition THLIST (th : Z) : Z := th + 8.
Definition task_of_wq (iter : Z) : Z := iter - 120.
Definition task_of_list (iter : Z) : Z := iter - 64.
Definition thread_of_list (iter : Z) : Z := iter - 8.

Definition set_th_state (v : Z) (t : thread) : thread := mk_thread v (kstack_top t) (kstack_bottom t) (exec_state t).
Definition set_exec (v : Z) (t : thread) : thread := mk_thread (th_state t) (kstack_top t) (kstack_bottom t) v.
Definition set_threads (v : Z) (t : task) : task :=
  mk_task (t_parent t) (nthreads t) v (t_pid t) (t_fs_ctx t) (t_file_ctx t) (t_wq_task t) (t_dir t) (t_cr3 t).
Definition set_wq_task (v : Z) (t : task) : task :=
  mk_task (t_parent t) (nthreads t) (threads t) (t_pid t) (t_fs_ctx t) (t_file_ctx t) v (t_dir t) (t_cr3 t).

Section sched.
Context {M : Type} `{SchedOps M}.

(** [wq_locks]: the lock of each wait queue head.  [tss_rsp], [cur_cr3]: the
    registers of this CPU that a switch writes. *)
Record sys := mk_sys {
  mts : M;
  tsks : gmap Z task;
  thrs : gmap Z thread;
  lnk : links;
  wq_locks : gmap Z Z;
  started : bool;
  tss_rsp : Z;
  cur_cr3 : Z
}.

Definition set_mts (v : M) (s : sys) : sys := mk_sys v (tsks s) (thrs s) (lnk s) (wq_locks s) (started s) (tss_rsp s) (cur_cr3 s).
Definition set_tsks (v : gmap Z task) (s : sys) : sys := mk_sys (mts s) v (thrs s) (lnk s) (wq_locks s) (started s) (tss_rsp s) (cur_cr3 s).
Definition set_thrs (v : gmap Z thread) (s : sys) : sys := mk_sys (mts s) (tsks s) v (lnk s) (wq_locks s) (started s) (tss_rsp s) (cur_cr3 s).
Definition set_lnk (v : links) (s : sys) : sys := mk_sys (mts s) (tsks s) (thrs s) v (wq_locks s) (started s) (tss_rsp s) (cur_cr3 s).
Definition set_wq_locks (v : gmap Z Z) (s : sys) : sys := mk_sys (mts s) (tsks s) (thrs s) (lnk s) v (started s) (tss_rsp s) (cur_cr3 s).
Definition set_regs (rsp cr3 : Z) (s : sys) : sys := mk_sys (mts s) (tsks s) (thrs s) (lnk s) (wq_locks s) (started s) rsp cr3.

Definition get_tsk (s : sys) (t : Z) : out task := at_ptr (tsks s) t.
Definition get_thr (s : sys) (t : Z) : out thread := at_ptr (thrs s) t.
Definition put_tsk (s : sys) (a : Z) (t : task) : sys := set_tsks (<[a := t]> (tsks s)) s.
Definition put_thr (s : sys) (a : Z) (t : thread) : sys := set_thrs (<[a := t]> (thrs s)) s.
Definition mod_thr (s : sys) (a : Z) (f : thread -> thread) : out sys := t ← get_thr s a; mret (put_thr s a (f t)).

(** ** States of a task *)

(** The state of a task is that of its current thread. *)
Definition state_of (s : sys) (tk : Z) : out Z := t ← get_tsk s tk; th ← get_thr s (threads t); mret (th_state th).
Definition set_state_of (s : sys) (tk v : Z) : out sys := t ← get_tsk s tk; mod_thr s (threads t) (set_th_state v).

Definition bits (a b : Z) : bool := negb (Z.land a b =? 0).

(** Leaving the run queues, for a blocked task or a zombie. *)
Definition leave_queue (s : sys) (me tk state : Z) : out sys :=
  '(ret, m) ← (if state =? T_BLOCKED then so_block (mts s) me tk
               else if state =? T_ZOMBIE then so_unschedule (mts s) tk else mret (0, mts s));
  _ ← kassert (0 <=? ret);
  set_state_of (set_mts m s) tk state.

(** Entering the run queues. *)
Definition enter_queue (s : sys) (me tk : Z) : out sys :=
  cur ← state_of s tk;
  '(ret, m) ← (if cur =? T_BLOCKED then so_unblock (mts s) me tk
               else if cur =? T_UNSTARTED then so_schedule (mts s) me tk 0 else mret (0, mts s));
  let s := set_mts m s in
  _ ← kassert (0 <=? ret);
  if bits cur (Z.lor T_BLOCKED T_RUNNING) then set_state_of s tk T_READY else mret s.

Definition sched_task_set_state (s : sys) (me tk state : Z) : out sys :=
  if tk =? 0 then mret s
  else
    cur ← state_of s tk;
    if cur =? state then mret s
    else
      s ← (if bits state (Z.lor T_BLOCKED T_ZOMBIE) then leave_queue s me tk state else mret s);
      if state =? T_READY then enter_queue s me tk else mret s.

(** ** Switching *)

(** To whom control goes: nobody, a task that starts in its saved user
    context, or a task that continues in the kernel. *)
Inductive control := Stay | SwitchUser (cur nxt : Z) | SwitchKernel (cur nxt : Z).

Definition sched_switch (s : sys) (me : Z) : out (control * sys) :=
  cur ← so_get_active (mts s) me;
  '(nxt, m) ← so_get_next (mts s) me;
  let s := set_mts m s in
  _ ← kassert (negb (cur =? 0));
  _ ← kassert (negb (nxt =? 0));
  if cur =? nxt then mret (Stay, s)
  else
    t ← get_tsk s nxt;
    th ← get_thr s (threads t);
    let s := set_regs (u64 (kstack_top th + KSTACK_SIZE)) (t_cr3 t) s in
    let s := put_thr s (threads t) (set_th_state T_RUNNING th) in
    mret (if th_state th =? T_UNSTARTED then SwitchUser cur nxt else SwitchKernel cur nxt, s).

(** [sp] is the stack pointer, [frame] the trap frame of the interrupt; the
    interrupt flag set in it is that of [execs]. *)
Definition __prepare_switch (s : sys) (me sp frame : Z) : out (control * sys) :=
  cur ← so_get_active (mts s) me;
  _ ← kassert (negb (frame =? 0));
  _ ← kassert (negb (cur =? 0));
  t ← get_tsk s cur;
  th ← get_thr s (threads t);
  if sp <? kstack_top th then Halt
  else
    let s := put_thr s (threads t) (set_exec frame th) in
    s ← (if 1 <? nthreads t then
           n ← get (lnk s) (THLIST (threads t)); mret (put_tsk s cur (set_threads (thread_of_list (next n)) t))
         else mret s);
    sched_switch s me.

Definition sched_get_active (s : sys) (me : Z) : out Z :=
  if started s then so_get_active (mts s) me else mret 0.

Definition sched_tick (s : sys) (me sp frame : Z) : out (control * sys) :=
  if negb (started s) then mret (Stay, s)
  else
    '(r, m) ← so_tick (mts s) me;
    let s := set_mts m s in
    if negb (r =? Mts.ST_OK) then __prepare_switch s me sp frame else mret (Stay, s).

(** The first task of the CPU; its context is loaded and never returns. *)
Definition sched_start (s : sys) (me : Z) : out (control * sys) :=
  '(nxt, m) ← so_get_next (mts s) me;
  let s := set_mts m s in
  t ← get_tsk s nxt;
  s ← mod_thr s (threads t) (set_th_state T_RUNNING);
  mret (SwitchUser 0 nxt, set_regs (tss_rsp s) (t_cr3 t) s).

(** ** Wait queues *)

Definition get_wlock (s : sys) (h : Z) : out Z := at_ptr (wq_locks s) h.
Definition put_wlock (s : sys) (h v : Z) : sys := set_wq_locks (<[h := v]> (wq_locks s)) s.

Definition wq_init_head (s : sys) (head : Z) : out (Z * sys) :=
  if head =? 0 then mret (- EINVAL, s)
  else lk ← list_init (lnk s) (WQH_LIST head); mret (0, put_wlock (set_lnk lk s) head 0).

(** The wait queue object of a task is [task->wq]. *)
Definition wq_init (s : sys) (tk : Z) : out (Z * sys) :=
  if tk =? 0 then mret (- EINVAL, s)
  else lk ← list_init (lnk s) (WQ_LIST tk);
       t ← get_tsk s tk; mret (0, put_tsk (set_lnk lk s) tk (set_wq_task tk t)).

(** The loop of [wq_wakeup]: the next node is read after the body removed
    the current one. *)
Fixpoint wake_loop (fuel : nat) (s : sys) (me head iter : Z) : out sys :=
  match fuel with
  | O => Spin
  | S fuel =>
      if iter =? head then mret s
      else
        s ← sched_task_set_state s me (task_of_wq iter) T_READY;
        lk ← list_remove (lnk s) iter;
        n ← get lk iter;
        wake_loop fuel (set_lnk lk s) me head (next n)
  end.

Definition wq_wakeup (s : sys) (me head : Z) : out (Z * sys) :=
  if head =? 0 then mret (- EINVAL, s)
  else
    l ← get_wlock s head;
    l ← spin_acquire l;
    let s := put_wlock s head l in
    n ← get (lnk s) (WQH_LIST head);
    s ← wake_loop (S (size (lnk s))) s me (WQH_LIST head) (next n);
    l ← get_wlock s head;
    mret (0, put_wlock s head (spin_release l)).

(** The task goes to the queue and to sleep.  [lock] is the lock the caller
    holds, if any; it comes back released. *)
Definition wq_enqueue (s : sys) (me head tk : Z) (lock : option Z) : out (option Z * sys) :=
  l ← get_wlock s head;
  l ← spin_acquire l;
  let s := put_wlock s head l in
  lk ← list_init (lnk s) (WQ_LIST tk);
  lk ← list_init lk (WQH_LIST head);
  lk ← list_append lk (WQH_LIST head) (WQ_LIST tk);
  s ← sched_task_set_state (set_lnk lk s) me tk T_BLOCKED;
  l ← get_wlock s head;
  mret (spin_release <$> lock, put_wlock s head (spin_release l)).

Definition wq_wait_event (s : sys) (me head tk : Z) (lock : option Z) : out (Z * control * option Z * sys) :=
  if (head =? 0) || (tk =? 0) then mret (- EINVAL, Stay, lock, s)
  else
    '(lock, s) ← wq_enqueue s me head tk lock;
    '(c, s) ← sched_switch s me;
    mret (0, c, lock, s).

(** After the switch back. *)
Definition wq_wait_resume (lock : option Z) : out (Z * option Z) :=
  match lock with None => mret (0, None) | Some l => l ← spin_acquire l; mret (0, Some l) end.


(** ** What a change of state does *)

(** Task [tk] runs thread [th], which is in state [v]. *)
Definition in_state (s : sys) (tk th v : Z) : Prop :=
  exists t x, get_tsk s tk = Ret t /\ threads t = th /\ get_thr s th = Ret x /\ th_state x = v.

Lemma in_state_of s tk th v : in_state s tk th v -> state_of s tk = Ret v /\ tk <> 0.
Proof.
  intros (t & x & Et & <- & Ex & <-). unfold state_of. rewrite Et. rb. rewrite Ex. rb. split; [done |].
  by apply at_ptr_Ret in Et as [].
Qed.

(** A state in which only the thread [th] changed, to state [v]. *)
Definition moved (s s' : sys) (th v : Z) : Prop :=
  lnk s' = lnk s /\ wq_locks s' = wq_locks s /\ tsks s' = tsks s /\
  (forall a, a <> th -> thrs s' !! a = thrs s !! a) /\
  exists x, get_thr s th = Ret x /\ get_thr s' th = Ret (set_th_state v x).

Lemma set_state_of_moved s tk th v w : in_state s tk th v -> exists s', set_state_of s tk w = Ret s' /\ moved s s' th w /\ mts s' = mts s.
Proof.
  intros (t & x & Et & <- & Ex & Hv). unfold set_state_of, mod_thr. rewrite Et. rb. rewrite Ex. rb.
  eexists. split; [done |]. split; [| done]. split_and!; try done.
  - intros a Ha. cbn. by apply lookup_insert_ne.
  - exists x. split; [done |]. apply at_ptr_Ret in Ex as [Hn _]. apply at_ptr_Ret. split; [done |]. apply lookup_insert_eq.
Qed.

Lemma in_state_mts s tk th v m : in_state s tk th v -> in_state (set_mts m s) tk th v.
Proof. done. Qed.

Lemma block_task s me tk th v r m : in_state s tk th v -> v <> T_BLOCKED -> so_block (mts s) me tk = Ret (r, m) -> 0 <= r ->
  exists s', sched_task_set_state s me tk T_BLOCKED = Ret s' /\ moved s s' th T_BLOCKED /\ mts s' = m.
Proof.
  intros Hs Hv Hb Hr. destruct (in_state_of _ _ _ _ Hs) as [E Hn]. unfold sched_task_set_state.
  rewrite (proj2 (Z.eqb_neq _ _) Hn), E. rb. rewrite (proj2 (Z.eqb_neq _ _) Hv).
  change (bits T_BLOCKED (Z.lor T_BLOCKED T_ZOMBIE)) with true. cbn iota. unfold leave_queue.
  change (T_BLOCKED =? T_BLOCKED) with true. cbn iota. rewrite Hb. rb. rewrite (proj2 (Z.leb_le _ _) Hr). change (kassert true) with (Ret tt). rb.
  destruct (set_state_of_moved (set_mts m s) tk th v T_BLOCKED (in_state_mts _ _ _ _ m Hs)) as (s' & -> & Hm & Em).
  rb. by exists s'.
Qed.

Lemma wake_task s me tk th r m : in_state s tk th T_BLOCKED -> so_unblock (mts s) me tk = Ret (r, m) -> 0 <= r ->
  exists s', sched_task_set_state s me tk T_READY = Ret s' /\ moved s s' th T_READY /\ mts s' = m.
Proof.
  intros Hs Hb Hr. destruct (in_state_of _ _ _ _ Hs) as [E Hn]. unfold sched_task_set_state.
  rewrite (proj2 (Z.eqb_neq _ _) Hn), E. rb. change (T_BLOCKED =? T_READY) with false. cbn iota.
  change (bits T_READY (Z.lor T_BLOCKED T_ZOMBIE)) with false. cbn iota. rb. change (T_READY =? T_READY) with true. cbn iota.
  unfold enter_queue. rewrite E. rb. change (T_BLOCKED =? T_BLOCKED) with true. cbn iota. rewrite Hb. rb.
  rewrite (proj2 (Z.leb_le _ _) Hr). change (kassert true) with (Ret tt). rb.
  change (bits T_BLOCKED (Z.lor T_BLOCKED T_RUNNING)) with true. cbn iota.
  destruct (set_state_of_moved (set_mts m s) tk th T_BLOCKED T_READY (in_state_mts _ _ _ _ m Hs)) as (s' & -> & Hm & Em). by exists s'.
Qed.

Lemma moved_in_state s s' th v tk th2 w : moved s s' th v -> in_state s tk th2 w ->
  in_state s' tk th2 (if decide (th2 = th) then v else w).
Proof.
  intros (_ & _ & Et & Hth & x & Ex & Ex') (t & y & E1 & E2 & E3 & E4). unfold get_tsk in *.
  exists t. destruct (decide (th2 = th)) as [-> |].
  - exists (set_th_state v x). unfold get_tsk. rewrite Et. done.
  - exists y. unfold get_tsk. rewrite Et. split_and!; try done. unfold get_thr, at_ptr in *. by rewrite Hth.
Qed.

(** ** Waking the queue up *)

(** The scheduler wakes these tasks one after the other. *)
Fixpoint unblocks (me : Z) (tks : list Z) (m m' : M) : Prop :=
  match tks with
  | [] => m' = m
  | tk :: tks => exists r m1, so_unblock m me tk = Ret (r, m1) /\ 0 <= r /\ unblocks me tks m1 m'
  end.

Lemma task_of_wq_list tk : task_of_wq (WQ_LIST tk) = tk.
Proof. unfold task_of_wq, WQ_LIST. lia. Qed.

(** [th] gives the current thread of each task. *)
Lemma wake_loop_spec fuel s me head (th : Z -> Z) tks m' :
  ring (lnk s) head (WQ_LIST <$> tks) -> (length tks < fuel)%nat ->
  (forall tk, tk ∈ tks -> in_state s tk (th tk) T_BLOCKED) -> NoDup (th <$> tks) -> unblocks me tks (mts s) m' ->
  exists s', wake_loop fuel s me head (hd head (WQ_LIST <$> tks)) = Ret s' /\
    ring (lnk s') head [] /\ tsks s' = tsks s /\ wq_locks s' = wq_locks s /\ mts s' = m' /\
    (forall tk, tk ∈ tks -> in_state s' tk (th tk) T_READY) /\
    (forall a, a ∉ th <$> tks -> thrs s' !! a = thrs s !! a) /\
    (forall n, n ∉ head :: (WQ_LIST <$> tks) -> lnk s' !! n = lnk s !! n).
Proof.
  revert fuel s. induction tks as [| tk tks IH]; intros fuel s Hring Hf Hst Hnd Hub;
    (destruct fuel as [| fuel]; [cbn in Hf; lia |]).
  - cbn in Hub. subst m'. cbn. rewrite Z.eqb_refl. exists s. split_and!; try done. intros tk Hin. by apply elem_of_nil in Hin.
  - rewrite fmap_cons, NoDup_cons in Hnd. destruct Hnd as [Hth Hnd].
    destruct Hub as (r & m1 & Er & Hr & Hub). cbn [fmap list_fmap hd wake_loop].
    assert (Hne : WQ_LIST tk <> head).
    { destruct Hring as (Hd & _). apply NoDup_cons in Hd as [Hd _]. intros E. apply Hd. rewrite <- E. by left. }
    rewrite (proj2 (Z.eqb_neq _ _) Hne), task_of_wq_list.
    destruct (wake_task s me tk (th tk) r m1 (Hst tk ltac:(by left)) Er Hr) as (s1 & -> & Hm & Em). rb. pose proof Hm as (El & Ew & Et & Hoth & _).
    destruct (list_remove_dlist (lnk s1) head (WQ_LIST tk) head [] (WQ_LIST <$> tks)) as (lk & -> & Hring' & Hx & Hfr & _); [by rewrite El |].
    rb. cbn [app] in Hring'.
    assert (Hget : exists n, get lk (WQ_LIST tk) = Ret n /\ next n = hd head (WQ_LIST <$> tks)).
    { destruct Hring as (_ & H0 & [_ Hc] & _). pose proof (first_link _ _ _ _ Hc) as [Hn _].
      destruct (get_nx (lnk s) (WQ_LIST tk) _ ltac:(set_solver) Hn) as (n & En & Enx & _). exists n. split; [| done].
      apply get_Ret. apply get_Ret in En as [Hz En]. split; [done |]. by rewrite Hx, El. }
    destruct Hget as (n & Eg & En). rewrite Eg. rb. rewrite En.
    destruct (IH fuel (set_lnk lk s1)) as (s' & E & R1 & R2 & R3 & R4 & R5 & R6 & R7).
    + exact Hring'.
    + cbn in Hf. lia.
    + intros tk2 Hin. pose proof (moved_in_state s s1 (th tk) T_READY tk2 (th tk2) T_BLOCKED Hm (Hst tk2 ltac:(by right))) as Hi.
      rewrite decide_False in Hi; [exact Hi |]. intros Eq. apply Hth. rewrite <- Eq. by apply list_elem_of_fmap_2.
    + done.
    + cbn. by rewrite Em.
    + exists s'. split_and!; try done; [by rewrite R2 | by rewrite R3 | | |].
      * intros tk2 Hin. apply elem_of_cons in Hin as [-> | Hin]; [| by apply R5].
        pose proof (moved_in_state s s1 (th tk) T_READY tk (th tk) T_BLOCKED Hm (Hst tk ltac:(by left))) as (t & y & E1 & E2 & E3 & E4).
        rewrite decide_True in E4 by done. exists t, y. unfold get_tsk in *. rewrite R2. split_and!; try done.
        unfold get_thr, at_ptr in *. by rewrite R6.
      * intros a Ha. change (a ∉ th tk :: (th <$> tks)) in Ha. rewrite elem_of_cons in Ha. rewrite R6 by tauto. apply Hoth. tauto.
      * intros n' Hn'. change (n' ∉ head :: WQ_LIST tk :: (WQ_LIST <$> tks)) in Hn'. rewrite !elem_of_cons in Hn'. rewrite R7 by (rewrite elem_of_cons; tauto).
        cbn [lnk set_lnk]. rewrite Hfr by (rewrite elem_of_cons, elem_of_app, elem_of_cons, elem_of_nil; tauto). by rewrite El.
Qed.

Lemma wake_spec s me head (th : Z -> Z) tks m' :
  head <> 0 -> get_wlock s head = Ret 0 -> ring (lnk s) (WQH_LIST head) (WQ_LIST <$> tks) ->
  (forall tk, tk ∈ tks -> in_state s tk (th tk) T_BLOCKED) -> NoDup (th <$> tks) -> unblocks me tks (mts s) m' ->
  exists s', wq_wakeup s me head = Ret (0, s') /\ mts s' = m' /\
    ring (lnk s') (WQH_LIST head) [] /\ get_wlock s' head = Ret 0 /\
    (forall tk, tk ∈ tks -> in_state s' tk (th tk) T_READY) /\
    tsks s' = tsks s /\ (forall a, a ∉ th <$> tks -> thrs s' !! a = thrs s !! a) /\
    (forall n, n ∉ WQH_LIST head :: (WQ_LIST <$> tks) -> lnk s' !! n = lnk s !! n).
Proof.
  intros Hh Hl Hring Hst Hnd Hub. unfold wq_wakeup. rewrite (proj2 (Z.eqb_neq _ _) Hh), Hl. rb. rewrite spin_acquire_free. rb.
  change (lnk (put_wlock s head 1)) with (lnk s).
  destruct Hring as (Hd & H0 & Hc & He). pose proof (first_link _ _ _ _ Hc) as [Hn _].
  destruct (get_nx (lnk s) (WQH_LIST head) _ ltac:(set_solver) Hn) as (n & Eg & En & _). rewrite Eg. rb. rewrite En.
  assert (Hfuel : (length tks < S (size (lnk s)))%nat).
  { rewrite <- (length_fmap WQ_LIST). apply NoDup_cons in Hd as [_ Hd].
    rewrite <- size_dom, <- (size_list_to_set (C:=gset Z) (WQ_LIST <$> tks)) by done.
    assert (Hsub : list_to_set (C:=gset Z) (WQ_LIST <$> tks) ⊆ dom (lnk s)); [| apply subseteq_size in Hsub; lia].
    intros k Hk%elem_of_list_to_set. eapply npath_mapped; [by apply chain_npath |]. by right. }
  destruct (wake_loop_spec (S (size (lnk s))) (put_wlock s head 1) me (WQH_LIST head) th tks m') as (s' & -> & R1 & R2 & R3 & R4 & R5 & R6 & R7); try done.
  rb. assert (Hl' : get_wlock s' head = Ret 1).
  { unfold get_wlock. rewrite R3. apply at_ptr_Ret. split; [done |]. apply lookup_insert_eq. }
  rewrite Hl'. rb. rewrite spin_release_0. eexists. split; [done |]. split_and!; try done.
  apply at_ptr_Ret. split; [done |]. apply lookup_insert_eq.
Qed.

(** C20: waking a queue up, when the scheduler accepts each of its tasks,
    makes every task that waits on it ready, in the order of the queue, and
    no other; the queue is empty and its lock free afterwards. *)
Theorem wq_wakeup_wakes_all (s : sys) (me head : Z) (th : Z -> Z) (tks : list Z) (m' : M) :
  head <> 0 -> get_wlock s head = Ret 0 -> ring (lnk s) (WQH_LIST head) (WQ_LIST <$> tks) ->
  (forall tk, tk ∈ tks -> in_state s tk (th tk) T_BLOCKED) -> NoDup (th <$> tks) -> unblocks me tks (mts s) m' ->
  exists s', wq_wakeup s me head = Ret (0, s') /\ mts s' = m' /\
    FOREACH (lnk s') (WQH_LIST head) = Ret [] /\ get_wlock s' head = Ret 0 /\
    (forall tk, tk ∈ tks -> in_state s' tk (th tk) T_READY) /\
    tsks s' = tsks s /\ (forall a, a ∉ th <$> tks -> thrs s' !! a = thrs s !! a).
Proof.
  intros Hh Hl Hring Hst Hnd Hub. destruct (wake_spec s me head th tks m' Hh Hl Hring Hst Hnd Hub) as (s' & E & Em & R & Rest).
  exists s'. split; [done |]. split; [done |]. split; [by apply FOREACH_ring | tauto].
Qed.

(** ** Waiting *)

Lemma enqueue_spec s me head tk th v lock xs r m :
  head <> 0 -> get_wlock s head = Ret 0 -> ring (lnk s) (WQH_LIST head) xs ->
  WQ_LIST tk ∉ WQH_LIST head :: xs -> WQ_LIST tk <> 0 -> is_Some (lnk s !! WQ_LIST tk) ->
  in_state s tk th v -> v <> T_BLOCKED -> so_block (mts s) me tk = Ret (r, m) -> 0 <= r ->
  exists s', wq_enqueue s me head tk lock = Ret (spin_release <$> lock, s') /\ mts s' = m /\
    ring (lnk s') (WQH_LIST head) [WQ_LIST tk] /\ get_wlock s' head = Ret 0 /\ in_state s' tk th T_BLOCKED /\
    tsks s' = tsks s /\ (forall a, a <> th -> thrs s' !! a = thrs s !! a).
Proof.
  intros Hh Hl Hring Hin Hz Hmap Hst Hv Hb Hr. unfold wq_enqueue. rewrite Hl. rb. rewrite spin_acquire_free. rb.
  change (lnk (put_wlock s head 1)) with (lnk s).
  destruct (list_init_ring (lnk s) (WQ_LIST tk) Hz Hmap) as (l1 & -> & _ & F1 & D1). rb.
  assert (Hhm : is_Some (lnk s !! WQH_LIST head)).
  { destruct Hring as (_ & _ & Hc & _). eapply chain_mapped; [exact Hc | by left]. }
  assert (Hhz : WQH_LIST head <> 0) by (destruct Hring as (_ & H0 & _); set_solver).
  destruct (list_init_ring l1 (WQH_LIST head) Hhz (dom_mapped _ _ _ D1 Hhm)) as (l2 & -> & R2 & F2 & D2). rb.
  assert (Hne : WQ_LIST tk <> WQH_LIST head) by set_solver.
  destruct (list_append_dlist l2 (WQH_LIST head) (WQ_LIST tk) (WQH_LIST head) [] R2 Hz) as (l3 & -> & R3 & _ & _).
  { set_solver. }
  { apply (dom_mapped l1); [done |]. by apply (dom_mapped (lnk s)). }
  rb. destruct (block_task (set_lnk l3 (put_wlock s head 1)) me tk th v r m) as (s' & -> & (El & Ew & Et & Hoth & x & Ex & Ex') & Em); try done.
  rb. assert (Hl' : get_wlock s' head = Ret 1).
  { unfold get_wlock. rewrite Ew. apply at_ptr_Ret. split; [done |]. apply lookup_insert_eq. }
  rewrite Hl'. rb. rewrite spin_release_0. eexists. split; [done |]. split_and!; try done.
  - cbn. by rewrite El.
  - apply at_ptr_Ret. split; [done |]. apply lookup_insert_eq.
  - destruct Hst as (t & y & E1 & E2 & E3 & E4). exists t, (set_th_state T_BLOCKED x). unfold get_tsk in *. cbn. rewrite Et. done.
Qed.

(** A task that waits on a queue replaces the queue: whatever tasks
    waited there are taken off it and stay blocked, and the next wake-up
    makes ready the last waiter only and leaves the queue empty, so that no
    later one can reach the others. *)
Theorem wq_wait_forgets (s : sys) (me me2 head tk th v : Z) (lock : option Z) (others : list Z) (r r2 : Z) (m m2 : M) :
  head <> 0 -> get_wlock s head = Ret 0 -> ring (lnk s) (WQH_LIST head) (WQ_LIST <$> others) ->
  WQ_LIST tk ∉ WQH_LIST head :: (WQ_LIST <$> others) -> WQ_LIST tk <> 0 -> is_Some (lnk s !! WQ_LIST tk) ->
  in_state s tk th v -> v <> T_BLOCKED ->
  so_block (mts s) me tk = Ret (r, m) -> 0 <= r -> so_unblock m me2 tk = Ret (r2, m2) -> 0 <= r2 ->
  exists s1 s2, wq_enqueue s me head tk lock = Ret (spin_release <$> lock, s1) /\
    FOREACH (lnk s1) (WQH_LIST head) = Ret [WQ_LIST tk] /\ in_state s1 tk th T_BLOCKED /\
    wq_wakeup s1 me2 head = Ret (0, s2) /\ in_state s2 tk th T_READY /\
    FOREACH (lnk s2) (WQH_LIST head) = Ret [] /\
    (forall w tw, w ∈ others -> tw <> th -> in_state s w tw T_BLOCKED -> in_state s2 w tw T_BLOCKED).
Proof.
  intros Hh Hl Hring Hin Hz Hmap Hst Hv Hb Hr Hub Hr2.
  destruct (enqueue_spec s me head tk th v lock _ r m Hh Hl Hring Hin Hz Hmap Hst Hv Hb Hr)
    as (s1 & E1 & M1 & R1 & L1 & S1 & T1 & O1).
  destruct (wake_spec s1 me2 head (fun _ => th) [tk] m2) as (s2 & E2 & M2 & R2 & L2 & S2 & T2 & O2 & _); try done.
  - intros tk2 ->%list_elem_of_singleton. done.
  - apply NoDup_singleton.
  - rewrite M1. by exists r2, m2.
  - exists s1, s2. split_and!; try done.
    + by apply FOREACH_ring.
    + apply S2. by left.
    + by apply FOREACH_ring.
    + intros w tw _ Hne (t & y & W1 & W2 & W3 & W4). exists t, y. unfold get_tsk, get_thr, at_ptr in *. rewrite T2, T1.
      split_and!; try done. rewrite O2 by set_solver. by rewrite O1.
Qed.

End sched.
#[global] Arguments sys : clear implicits.

(** ** Samples: one CPU, its running task and the list of those that can run *)

Definition list_sched : SchedOps (Z * list Z) := {|
  so_block m _ tk := mret (0, (m.1, filter (fun x => x <> tk) m.2));
  so_unblock m _ tk := mret (0, (m.1, m.2 ++ [tk]));
  so_unschedule m tk := mret (0, (m.1, filter (fun x => x <> tk) m.2));
  so_schedule m _ tk _ := mret (0, (m.1, m.2 ++ [tk]));
  so_get_next m me := if me =? 0 then mret (hd 0 m.2, (hd 0 m.2, m.2)) else Fault;
  so_get_active m me := if me =? 0 then mret m.1 else Fault;
  so_tick m _ := mret (0, m)
|}.
#[local] Existing Instance list_sched.

(** Task 1000 runs; task 2000 waits on the queue at 9000; their threads are
    at 1 and 2. *)
Definition sample_task (th : Z) : task := mk_task 0 1 th th 0 0 0 0 0.
Definition sample_sys : sys (Z * list Z) :=
  mk_sys (1000, [1000]) (<[1000 := sample_task 1]> {[2000 := sample_task 2]})
    (<[1 := mk_thread T_RUNNING 0 0 0]> {[2 := mk_thread T_BLOCKED 0 0 0]})
    (<[9008 := mk_links 2120 2120]> (<[2120 := mk_links 9008 9008]> {[1120 := mk_links 1120 1120]}))
    {[9000 := 0]} true 0 0.

Lemma sample_queue : ring (lnk sample_sys) (WQH_LIST 9000) (WQ_LIST <$> [2000]).
Proof.
  split; [refine (bool_decide_eq_true_1 _ _); vm_compute; reflexivity |].
  split; [refine (bool_decide_eq_true_1 _ _); vm_compute; reflexivity |].
  split; [| by left]. split; [split; [reflexivity | intros _; reflexivity] | split; [reflexivity | intros _; reflexivity]].
Qed.

Lemma sample_blocked : in_state sample_sys 2000 2 T_BLOCKED.
Proof. exists (sample_task 2), (mk_thread T_BLOCKED 0 0 0). repeat split. Qed.

Lemma sample_running : in_state sample_sys 1000 1 T_RUNNING.
Proof. exists (sample_task 1), (mk_thread T_RUNNING 0 0 0). repeat split. Qed.

Lemma wq_wakeup_wakes_all_witness :
  exists s', wq_wakeup sample_sys 0 9000 = Ret (0, s') /\ mts s' = (1000, [1000; 2000]) /\ in_state s' 2000 2 T_READY.
Proof.
  destruct (wq_wakeup_wakes_all sample_sys 0 9000 (fun _ => 2) [2000] (1000, [1000; 2000])) as (s' & E & Em & _ & _ & Hs & _).
  - discriminate.
  - reflexivity.
  - exact sample_queue.
  - intros tk ->%list_elem_of_singleton. exact sample_blocked.
  - apply NoDup_singleton.
  - exists 0, (1000, [1000; 2000]). split; [reflexivity |]. split; [discriminate | reflexivity].
  - exists s'. split; [exact E |]. split; [exact Em |]. apply Hs. by left.
Defined.

Lemma wq_wait_forgets_witness :
  exists s1 s2, wq_enqueue sample_sys 0 9000 1000 (Some 1) = Ret (Some 0, s1) /\
    wq_wakeup s1 0 9000 = Ret (0, s2) /\ in_state s2 1000 1 T_READY /\ in_state s2 2000 2 T_BLOCKED.
Proof.
  destruct (wq_wait_forgets sample_sys 0 0 9000 1000 1 T_RUNNING (Some 1) [2000] 0 0 (1000, []) (1000, [1000]))
    as (s1 & s2 & E1 & _ & _ & E2 & S2 & _ & Ho).
  - discriminate.
  - reflexivity.
  - exact sample_queue.
  - refine (bool_decide_eq_true_1 _ _). vm_compute. reflexivity.
  - discriminate.
  - by eexists.
  - exact sample_running.
  - discriminate.
  - reflexivity.
  - discriminate.
  - reflexivity.
  - discriminate.
  - exists s1, s2. split; [exact E1 |]. split; [exact E2 |]. split; [exact S2 |].
    exact (Ho 2000 2 ltac:(by left) ltac:(discriminate) sample_blocked).
Defined.

End Sched.
