(* ===== verification/Pipe.v ===== *)
(** * Pipes (fs/pipe.c)

    A pipe is a buffer of bytes with one position: the bytes before [ptr] are
    unread.  Its two wait queues and the blocking of the caller are those of
    Sched; an operation that puts its caller to sleep returns [Wait], and
    [*_resume] is what the caller does when it runs again.  The interrupt
    flag is not modelled. *)

From S2P Require Import Prelude Bytes Dlist Locks Memory PageAlloc Slab Dentry File Sched.
Import Bytes Dlist Locks Memory Sched.

Module Pipe.

Definition O_RDONLY : Z := 2.
Definition O_WRONLY : Z := 8.

Record pipe := mk_pipe {
  p_file : Z;
  p_lock : Z;
  mem : list Z;
  psize : Z;
  ptr : Z;
  nreaders : Z;
  nwriters : Z;
  wq_readers : Z;
  wq_writers : Z
}.

Definition set_p_lock (v : Z) (p : pipe) : pipe := mk_pipe (p_file p) v (mem p) (psize p) (ptr p) (nreaders p) (nwriters p) (wq_readers p) (wq_writers p).
Definition set_data (m : list Z) (n : Z) (p : pipe) : pipe := mk_pipe (p_file p) (p_lock p) m (psize p) n (nreaders p) (nwriters p) (wq_readers p) (wq_writers p).
Definition set_users (r w : Z) (p : pipe) : pipe := mk_pipe (p_file p) (p_lock p) (mem p) (psize p) (ptr p) r w (wq_readers p) (wq_writers p).

(** What a call comes to: it returns, with the bytes it stored in the
    caller's buffer, or its caller sleeps. *)
Inductive call := Done (r : Z) (data : list Z) | Wait (c : control).

(** The part of [__read] after the loop. *)
Definition read_now (p : pipe) (size : Z) : out (Z * list Z * pipe) :=
  let nread := if size <? ptr p then size else ptr p in
  buffer ← rd_bytes (mem p) 0 nread;
  p ← (if ptr p <=? size then mret (set_data (mem p) 0 p)
       else
         moved ← rd_bytes (mem p) size (ptr p - nread);
         m ← wr_bytes (mem p) 0 moved;
         mret (set_data m (u64 (size + ptr p - nread)) p));
  mret (nread, buffer, set_p_lock (spin_release (p_lock p)) p).

Section pipe.
Context {M : Type} `{SchedOps M}.

(** The loop: without a running task the wait returns at once, for ever. *)
Definition read_loop (s : sys M) (me : Z) (p : pipe) (size : Z) : out (call * sys M * pipe) :=
  if ptr p =? 0 then
    cur ← sched_get_active s me;
    '(r, c, lk, s) ← wq_wait_event s me (wq_readers p) cur (Some (p_lock p));
    if negb (r =? 0) then Spin else mret (Wait c, s, set_p_lock (default 0 lk) p)
  else
    '(n, buffer, p) ← read_now p size; mret (Done n buffer, s, p).

(** [buffer] says that the caller's buffer is not null. *)
Definition __read (s : sys M) (me : Z) (p : option pipe) (buffer : bool) (size : Z) : out (call * sys M * option pipe) :=
  match p with
  | None => mret (Done (- EINVAL) [], s, p)
  | Some q =>
      if negb buffer || (size =? 0) then mret (Done (- EINVAL) [], s, p)
      else
        l ← spin_acquire (p_lock q);
        '(c, s, q) ← read_loop s me (set_p_lock l q) size; mret (c, s, Some q)
  end.

Definition read_resume (s : sys M) (me : Z) (p : pipe) (size : Z) : out (call * sys M * pipe) :=
  '(_, lk) ← wq_wait_resume (Some (p_lock p));
  read_loop s me (set_p_lock (default 0 lk) p) size.

(** The part of [__write] after the test. *)
Definition write_now (s : sys M) (me : Z) (p : pipe) (buffer : list Z) : out (call * sys M * pipe) :=
  m ← wr_bytes (mem p) (ptr p) buffer;
  let p := set_data m (u64 (ptr p + zlen buffer)) p in
  '(_, s) ← wq_wakeup s me (wq_readers p);
  mret (Done (zlen buffer) [], s, set_p_lock (spin_release (p_lock p)) p).

Definition __write (s : sys M) (me : Z) (p : option pipe) (buffer : option (list Z)) : out (call * sys M * option pipe) :=
  match p, buffer with
  | Some q, Some l =>
      if zlen l =? 0 then mret (Done (- EINVAL) [], s, p)
      else
        lk ← spin_acquire (p_lock q);
        let q := set_p_lock lk q in
        if u64 (psize q - ptr q) <? zlen l then
          cur ← sched_get_active s me;
          '(r, c, lk, s) ← wq_wait_event s me (wq_writers q) cur (Some (p_lock q));
          let q := set_p_lock (default 0 lk) q in
          if negb (r =? 0) then '(c, s, q) ← write_now s me q l; mret (c, s, Some q)
          else mret (Wait c, s, Some q)
        else '(c, s, q) ← write_now s me q l; mret (c, s, Some q)
  | _, _ => mret (Done (- EINVAL) [], s, p)
  end.

(** The space is not tested again. *)
Definition write_resume (s : sys M) (me : Z) (p : pipe) (buffer : list Z) : out (call * sys M * pipe) :=
  '(_, lk) ← wq_wait_resume (Some (p_lock p));
  write_now s me (set_p_lock (default 0 lk) p) buffer.

(** Returns the null pointer in every case. *)
Definition __open (dntr : bool) (p : option pipe) (mode : Z) : out (Z * option pipe) :=
  match p with
  | Some q =>
      if negb dntr then mret (0, p)
      else
        l ← spin_acquire (p_lock q);
        let q := if mode =? O_WRONLY then set_users (nreaders q) (u64 (nwriters q + 1)) q
                 else if mode =? O_RDONLY then set_users (u64 (nreaders q + 1)) (nwriters q) q else q in
        mret (0, Some (set_p_lock (spin_release l) q))
  | None => mret (0, p)
  end.

(** [mode] is that of the file object. *)
Definition __close (file : bool) (p : option pipe) (mode : Z) : out (Z * option pipe) :=
  if negb file then mret (- EINVAL, p)
  else match p with
  | None => Fault
  | Some q =>
      l ← spin_acquire (p_lock q);
      let q := if mode =? O_WRONLY then set_users (nreaders q) (u64 (nwriters q - 1)) q
               else if mode =? O_RDONLY then set_users (u64 (nreaders q - 1)) (nwriters q) q else q in
      mret (0, Some (set_p_lock (spin_release l) q))
  end.

(** The calls through the operation table of the pipe's file; [f_mode] is the
    mode of the file object, which opening sets. *)
Definition pipe_open (p : option pipe) (dntr : bool) (f_mode mode : Z) : out (Z * Z * option pipe) :=
  match p with None => mret (- EINVAL, f_mode, p) | Some _ => '(_, p) ← __open dntr p mode; mret (0, mode, p) end.
Definition pipe_close (p : option pipe) (mode : Z) : out (Z * option pipe) :=
  match p with None => mret (- EINVAL, p) | Some _ => __close true p mode end.
Definition pipe_read (s : sys M) (me : Z) (p : option pipe) (buffer : bool) (size : Z) : out (call * sys M * option pipe) :=
  match p with
  | None => mret (Done (- EINVAL) [], s, p)
  | Some _ => if negb buffer || (size =? 0) then mret (Done (- EINVAL) [], s, p) else __read s me p buffer size
  end.
Definition pipe_write (s : sys M) (me : Z) (p : option pipe) (buffer : option (list Z)) : out (call * sys M * option pipe) :=
  match p, buffer with
  | Some _, Some l => if zlen l =? 0 then mret (Done (- EINVAL) [], s, p) else __write s me p buffer
  | _, _ => mret (Done (- EINVAL) [], s, p)
  end.

End pipe.

(** ** Making a pipe *)

Section create.
Context {F C : Type} `{EntrySource C}.
Variables op_open op_close op_read op_write : F.

Definition pipe_init (cache : res C) : Z * option C :=
  match cache with Err _ => (- ENOMEM, None) | Ok c => (0, Some c) end.

(** [block]: the bytes of the buffer [kmalloc] gives.  The object keeps what
    its memory held in the fields that are not written; [a + 64] and
    [a + 88] are its wait queues.  The file object comes without a dentry. *)
Definition pipe_create (s : File.fsys F C) (cache : option C) (wq : links) (block : list Z) (nr nw : Z) (size : Z) :
    out (res (Z * pipe) * File.fsys F C * option C * links) :=
  match cache with
  | None => mret (Err EINVAL, s, cache, wq)
  | Some c =>
      if size =? 0 then mret (Err EINVAL, s, cache, wq)
      else
        '(r, c) ← es_alloc c 0;
        match r with
        | Err e => mret (Err e, s, Some c, wq)
        | Ok (a, _) =>
            '(r, s) ← File.file_generic_alloc s;
            match r with
            | Err e => mret (Err e, s, Some c, wq)
            | Ok f =>
                fl ← File.get_file s f;
                o ← at_ptr (Dentry.fops (File.core s)) (File.f_ops fl);
                let o := Dentry.mk_fops (Some op_read) (Some op_write) (Some op_open) (Some op_close) (Dentry.seek o) in
                let s := File.set_core (File.set_fops (<[File.f_ops fl := o]> (Dentry.fops (File.core s))) (File.core s)) s in
                let s := File.put_file s f (File.mk_file (File.f_dentry fl) a (File.f_count fl) (File.f_pos fl) (File.f_mode fl) (File.f_ops fl)) in
                c2 ← Dentry.mod_dent (File.core s) (File.f_dentry fl) (Dentry.set_d_private a);
                wq ← list_init wq (WQH_LIST (a + 64));
                wq ← list_init wq (WQH_LIST (a + 88));
                mret (Ok (a, mk_pipe f 0 block size 0 nr nw (a + 64) (a + 88)), File.set_core c2 s, Some c, wq)
            end
        end
  end.
End create.

(** ** The unread bytes *)

Definition unread (p : pipe) : list Z := take (Z.to_nat (ptr p)) (mem p).

(** The position is inside the buffer. *)
Definition pipe_ok (p : pipe) : Prop := zlen (mem p) = psize p /\ 0 <= ptr p <= psize p /\ psize p < 2 ^ 64.

Lemma take_app_exact {A} (l k : list A) n : n = length l -> take n (l ++ k) = l.
Proof. intros ->. by rewrite take_app_length. Qed.

(** A read returns the first bytes, as many as there are or as were
    asked for.  When it asks for all of them the pipe is empty afterwards.
    When it asks for fewer, the rest moves to the front but the position
    stays: the last bytes of the old content are unread once more, so that
    the number of unread bytes never goes down except to 0. *)
Theorem pipe_read_data (p : pipe) (size : Z) :
  pipe_ok p -> 0 < size < 2 ^ 64 -> 0 < ptr p ->
  exists p', read_now p size = Ret (Z.min size (ptr p), take (Z.to_nat size) (unread p), p') /\
    pipe_ok p' /\ p_lock p' = 0 /\ psize p' = psize p /\ wq_readers p' = wq_readers p /\
    (ptr p <= size -> unread p' = []) /\
    (size < ptr p -> unread p' = drop (Z.to_nat size) (unread p) ++ drop (Z.to_nat (ptr p - size)) (unread p) /\
       length (unread p') = length (unread p)).
Proof.
  intros (Hm & Hp & Hs) Hn Hptr. unfold read_now, unread in *.
  assert (Hlen : length (mem p) = Z.to_nat (psize p)) by (unfold zlen in Hm; lia).
  assert (Er : forall off n, 0 <= off -> 0 <= n -> off + n <= psize p ->
    rd_bytes (mem p) off n = Ret (take (Z.to_nat n) (drop (Z.to_nat off) (mem p)))).
  { intros off n H1 H2 H3. unfold rd_bytes. rewrite Hm, !(proj2 (Z.leb_le _ _)) by done. done. }
  cbn zeta. rewrite (Er 0 (if size <? ptr p then size else ptr p)) by (destruct (Z.ltb_spec size (ptr p)); lia). rb. rewrite drop_0.
  destruct (Z.leb_spec (ptr p) size) as [Hle | Hgt].
  - rewrite (proj2 (Z.ltb_ge _ _)) by done. rb. rewrite spin_release_0. eexists. split; [f_equal; f_equal; f_equal |].
    + lia.
    + rewrite take_take. f_equal. lia.
    + unfold pipe_ok. cbn. split_and!; try done; try lia; intros; lia.
  - rewrite (proj2 (Z.ltb_lt _ _)) by done. rewrite Er by lia. rb. set (moved := take (Z.to_nat (ptr p - size)) (drop (Z.to_nat size) (mem p))).
    assert (Hml : length moved = Z.to_nat (ptr p - size)) by (unfold moved; rewrite length_take, length_drop, Hlen; lia).
    unfold wr_bytes. rewrite (proj2 (Z.leb_le (0 + zlen moved) (zlen (mem p)))) by (unfold zlen in *; lia). change (0 <=? 0) with true. cbn [andb]. rb. rb. rewrite spin_release_0. replace (size + ptr p - size) with (ptr p) by lia.
    unfold u64. rewrite wrap_small by (unfold in_u; lia). change (Z.to_nat 0 + length moved)%nat with (length moved). cbn [take Z.to_nat app].
    set (m' := moved ++ drop (length moved) (mem p)).
    assert (Hm' : length m' = length (mem p)) by (unfold m'; rewrite length_app, length_drop, Hml, Hlen; lia).
    eexists. split; [f_equal; f_equal; f_equal |].
    + lia.
    + rewrite take_take. f_equal. lia.
    + unfold pipe_ok, zlen. cbn. change (take (Z.to_nat 0) (mem p) ++ m') with m'. rewrite Hm'. unfold zlen in Hm. split_and!; try done; try lia.
      intros _. assert (Hu : take (Z.to_nat (ptr p)) m' = drop (Z.to_nat size) (take (Z.to_nat (ptr p)) (mem p)) ++
          drop (Z.to_nat (ptr p - size)) (take (Z.to_nat (ptr p)) (mem p))).
      { unfold m'. rewrite take_app, Hml. f_equal.
        - unfold moved. rewrite take_ge by (rewrite length_take, length_drop; lia).
          rewrite skipn_firstn_comm. f_equal. lia.
        - rewrite skipn_firstn_comm. done. }
      split; [exact Hu |]. rewrite !length_take, Hm', Hlen. lia.
Qed.

Section write.
Context {M : Type} `{SchedOps M}.

(** A write that fits appends its bytes. *)
Lemma write_now_fits (s s' : sys M) (me r : Z) (p : pipe) (buffer : list Z) :
  pipe_ok p -> wq_wakeup s me (wq_readers p) = Ret (r, s') -> p_lock p = 1 -> ptr p + zlen buffer <= psize p ->
  exists p', write_now s me p buffer = Ret (Done (zlen buffer) [], s', p') /\ pipe_ok p' /\ p_lock p' = 0 /\
    unread p' = unread p ++ buffer /\ psize p' = psize p /\ ptr p' = ptr p + zlen buffer /\ wq_readers p' = wq_readers p.
Proof.
  intros (Hm & Hp & Hs) Hw Hl Hfit. pose proof (zlen_nonneg buffer) as Hb.
  unfold write_now, wr_bytes. rewrite Hm, !(proj2 (Z.leb_le _ _)) by lia. cbn [andb]. rb.
  change (wq_readers (set_data _ _ p)) with (wq_readers p). rewrite Hw. rb. rewrite spin_release_0.
  unfold u64. rewrite wrap_small by (unfold in_u; lia). eexists. split; [done |].
  assert (Hlen : length (mem p) = Z.to_nat (psize p)) by (unfold zlen in Hm; lia). unfold zlen in *.
  unfold pipe_ok, unread, zlen. cbn. split_and!; try done; try lia.
  - rewrite !length_app, length_take, length_drop. lia.
  - rewrite app_assoc. apply take_app_exact. rewrite length_app, length_take. lia.
Qed.

(** C12: a write that fits appends its bytes to the unread ones; once the
    pipe has to wait for space it writes without testing again, and when the
    space is still missing it writes past the end of the buffer. *)
Theorem pipe_write_data (s s' : sys M) (me r : Z) (p : pipe) (buffer : list Z) :
  pipe_ok p -> p_lock p = 1 -> wq_wakeup s me (wq_readers p) = Ret (r, s') ->
  (ptr p + zlen buffer <= psize p ->
    exists p', write_now s me p buffer = Ret (Done (zlen buffer) [], s', p') /\ pipe_ok p' /\ p_lock p' = 0 /\
      unread p' = unread p ++ buffer) /\
  (psize p < ptr p + zlen buffer -> write_now s me p buffer = Fault) /\
  (psize p < ptr p + zlen buffer -> write_resume s me (set_p_lock 0 p) buffer = Fault).
Proof.
  intros (Hm & Hp & Hs) Hl Hw. pose proof (zlen_nonneg buffer) as Hb.
  assert (Hf : psize p < ptr p + zlen buffer -> write_now s me p buffer = Fault).
  { intros Hx. unfold write_now, wr_bytes. rewrite Hm, (proj2 (Z.leb_gt (ptr p + zlen buffer) (psize p))) by done. by rewrite andb_false_r. }
  split; [| split; [done |]].
  - intros Hfit. destruct (write_now_fits s s' me r p buffer) as (p' & E & Hok & Hlk & Hu & _); try done. by exists p'.
  - intros Hx. unfold write_resume, wq_wait_resume. cbn [p_lock set_p_lock]. rewrite spin_acquire_free. rb. rb.
    cbn [default]. unfold write_now in *. exact (Hf Hx).
Qed.
End write.

(** ** Samples *)

#[local] Existing Instance Sched.list_sched.

Definition sample_pipe : pipe := mk_pipe 0 1 [97; 98; 99; 0] 4 3 1 1 9000 9100.

Lemma pipe_read_data_witness :
  exists p', read_now sample_pipe 1 = Ret (1, [97], p') /\ unread p' = [98; 99; 99].
Proof.
  destruct (pipe_read_data sample_pipe 1) as (p' & E & _ & _ & _ & _ & _ & H).
  - split; [reflexivity |]. split; [split; discriminate | reflexivity].
  - split; reflexivity.
  - reflexivity.
  - exists p'. split; [exact E |]. exact (proj1 (H eq_refl)).
Defined.

Lemma pipe_write_data_witness :
  exists s' p', write_now Sched.sample_sys 0 sample_pipe [100] = Ret (Done 1 [], s', p') /\ unread p' = [97; 98; 99; 100] /\
    write_now Sched.sample_sys 0 sample_pipe [100; 101] = Fault.
Proof.
  destruct (wq_wakeup Sched.sample_sys 0 (wq_readers sample_pipe)) as [[r s'] | | |] eqn:E; try (vm_compute in E; discriminate E).
  assert (Hok : pipe_ok sample_pipe) by (split; [reflexivity | split; [split; discriminate | reflexivity]]).
  destruct (pipe_write_data Sched.sample_sys s' 0 r sample_pipe [100] Hok eq_refl E) as (H & _ & _).
  destruct (pipe_write_data Sched.sample_sys s' 0 r sample_pipe [100; 101] Hok eq_refl E) as (_ & Hf & _).
  destruct H as (p' & E2 & _ & _ & Hu); [discriminate |]. exists s', p'.
  split; [exact E2 |]. split; [exact Hu |]. apply Hf. reflexivity.
Defined.

End Pipe.
