(* ===== verification/PipeLive.v ===== *)
(** * A writer that waits for space in a pipe is never woken

    Any number of CPUs execute the operations of a pipe, one step of a
    running task at a time, over any scheduler that keeps the promise of
    [SchedLaws]. *)

From S2P Require Import Prelude Dlist Locks Sched Pipe.
Import Dlist Locks Sched Pipe.

Module PipeLive.

Section live.
Context {M : Type} `{SchedLaws M}.

(** One step of the task that runs on a CPU: a call, the continuation of one
    that was waiting, a timer tick or a switch. *)
Inductive pstep : sys M * pipe -> sys M * pipe -> Prop :=
| step_read s p me size c s' p' :
    __read s me (Some p) true size = Ret (c, s', Some p') -> pstep (s, p) (s', p')
| step_read_resume s p me size c s' p' :
    read_resume s me p size = Ret (c, s', p') -> pstep (s, p) (s', p')
| step_write s p me l c s' p' :
    __write s me (Some p) (Some l) = Ret (c, s', Some p') -> pstep (s, p) (s', p')
| step_write_resume s p me l c s' p' :
    write_resume s me p l = Ret (c, s', p') -> pstep (s, p) (s', p')
| step_tick s p me sp frame c s' :
    sched_tick s me sp frame = Ret (c, s') -> pstep (s, p) (s', p)
| step_switch s p me c s' :
    sched_switch s me = Ret (c, s') -> pstep (s, p) (s', p).

Definition own_threads (s : sys M) : Prop :=
  forall x y tx ty, get_tsk s x = Ret tx -> get_tsk s y = Ret ty -> threads tx = threads ty -> x = y.

(** A state between steps: threads belong to one task each, a task whose
    thread is blocked cannot be picked, the readers' queue holds blocked
    tasks, and what a CPU runs can be picked and runs there only.  In the
    middle of a step the CPU [Some ex] is an exception. *)
Record good (s : sys M) (p : pipe) (xs : list Z) (ex : option Z) : Prop := {
  g_active : forall c tk, ex <> Some c -> so_get_active (mts s) c = Ret tk -> tk <> 0 -> runnable (mts s) tk;
  g_unique : forall c c' tk, so_get_active (mts s) c = Ret tk -> so_get_active (mts s) c' = Ret tk -> tk <> 0 -> c = c';
  g_threads : own_threads s;
  g_single : forall x t, get_tsk s x = Ret t -> nthreads t <= 1;
  g_blocked : forall x th, in_state s x th T_BLOCKED -> ~ runnable (mts s) x;
  g_ring : ring (lnk s) (WQH_LIST (wq_readers p)) (WQ_LIST <$> xs);
  g_asleep : forall x, x ∈ xs -> exists th, in_state s x th T_BLOCKED;
  g_heads : WQH_LIST (wq_readers p) <> WQH_LIST (wq_writers p) /\
    forall x t, get_tsk s x = Ret t -> WQ_LIST x <> WQH_LIST (wq_readers p) /\ WQ_LIST x <> WQH_LIST (wq_writers p)
}.

(** ** Changes of state *)

(** The thread of [x] changes from [v]; the others do not. *)
Definition only_task (s s' : sys M) (x : Z) : Prop :=
  lnk s' = lnk s /\ wq_locks s' = wq_locks s /\ tsks s' = tsks s /\ started s' = started s /\
  forall t a, get_tsk s x = Ret t -> a <> threads t -> thrs s' !! a = thrs s !! a.

Lemma set_state_of_only s tk w s' : set_state_of s tk w = Ret s' ->
  only_task s s' tk /\ mts s' = mts s /\ exists th, in_state s' tk th w.
Proof.
  intros E. unfold set_state_of, mod_thr in E. apply bind_Ret in E as (t & Et & E).
  apply bind_Ret in E as (x & Ex & E). injection E as <-. unfold only_task. split_and!; try done.
  - intros t' a Et' Ha. rewrite Et in Et'. injection Et' as <-. cbn. by apply lookup_insert_ne.
  - exists (threads t), t, (set_th_state w x). split_and!; try done. apply at_ptr_Ret in Ex as [Hn _].
    apply at_ptr_Ret. split; [done |]. apply lookup_insert_eq.
Qed.

Lemma only_task_mts s s' m x : only_task (set_mts m s) s' x -> only_task s s' x.
Proof. done. Qed.

Lemma only_refl s m x : only_task s (set_mts m s) x.
Proof. done. Qed.

(** The running tasks are the same. *)
Definition same_active (s s' : sys M) : Prop := forall c, so_get_active (mts s') c = so_get_active (mts s) c.

(** Blocking a task that is not blocked. *)
Lemma block_effect s me tk s' : sched_task_set_state s me tk T_BLOCKED = Ret s' -> tk <> 0 ->
  (forall th, ~ in_state s tk th T_BLOCKED) ->
  only_task s s' tk /\ (exists th, in_state s' tk th T_BLOCKED) /\ same_active s s' /\
  forall x, runnable (mts s') x <-> runnable (mts s) x /\ x <> tk.
Proof.
  intros E Hn Hst. unfold sched_task_set_state in E. rewrite (proj2 (Z.eqb_neq _ _) Hn) in E.
  apply bind_Ret in E as (cur & Ecur & E). destruct (Z.eqb_spec cur T_BLOCKED) as [-> | Hc].
  { exfalso. unfold state_of in Ecur. apply bind_Ret in Ecur as (t & Et & Ecur). apply bind_Ret in Ecur as (x & Ex & Ecur).
    injection Ecur as Ev. apply (Hst (threads t)). by exists t, x. }
  apply bind_Ret in E as (s1 & E1 & E). change (T_BLOCKED =? T_READY) with false in E. injection E as <-.
  change (bits T_BLOCKED (Z.lor T_BLOCKED T_ZOMBIE)) with true in E1. unfold leave_queue in E1.
  change (T_BLOCKED =? T_BLOCKED) with true in E1. apply bind_Ret in E1 as ([r m] & Eb & E1).
  apply bind_Ret in E1 as (u & Ek & E1). unfold kassert in Ek. destruct (Z.leb_spec 0 r) as [Hr |]; [| done].
  destruct (law_block (mts s) me tk r m Eb Hr) as [Hl Hb].
  destruct (set_state_of_only (set_mts m s) tk T_BLOCKED s1 E1) as (Ho & Em & Hs1). split; [by apply only_task_mts in Ho |].
  split; [done |]. unfold same_active. rewrite Em. done.
Qed.

(** Making a blocked task ready. *)
Lemma ready_effect s me tk th s' : sched_task_set_state s me tk T_READY = Ret s' -> in_state s tk th T_BLOCKED ->
  only_task s s' tk /\ (forall x, runnable (mts s') x -> runnable (mts s) x \/ x = tk) /\ (exists th, in_state s' tk th T_READY) /\
  same_active s s' /\ forall x, runnable (mts s) x -> runnable (mts s') x.
Proof.
  intros E Hs. destruct (in_state_of _ _ _ _ Hs) as [Ec Hn]. unfold sched_task_set_state in E.
  rewrite (proj2 (Z.eqb_neq _ _) Hn), Ec in E. apply bind_Ret in E as (cur & Ecur & E). injection Ecur as <-.
  change (T_BLOCKED =? T_READY) with false in E. change (bits T_READY (Z.lor T_BLOCKED T_ZOMBIE)) with false in E.
  apply bind_Ret in E as (s1 & E1 & E). injection E1 as <-. change (T_READY =? T_READY) with true in E. unfold enter_queue in E.
  rewrite Ec in E. apply bind_Ret in E as (cur & Ecur & E). injection Ecur as <-. change (T_BLOCKED =? T_BLOCKED) with true in E.
  apply bind_Ret in E as ([r m] & Eb & E). apply bind_Ret in E as (u & Ek & E).
  change (bits T_BLOCKED (Z.lor T_BLOCKED T_RUNNING)) with true in E.
  destruct (set_state_of_only (set_mts m s) tk T_READY s' E) as (Ho & Em & Hs'). split; [by apply only_task_mts in Ho |].
  destruct (law_unblock (mts s) me tk r m Eb) as (L1 & L2 & L3). unfold same_active. rewrite Em. by split_and!.
Qed.

(** A task keeps its state when another one changes. *)
Lemma only_in_state s s' x y th v : own_threads s -> only_task s s' x -> (exists t, get_tsk s x = Ret t) -> y <> x ->
  in_state s y th v <-> in_state s' y th v.
Proof.
  intros Hown (_ & _ & Et & _ & Ho) [tx Ex] Hne.
  assert (Heq : forall t, get_tsk s y = Ret t -> thrs s' !! threads t = thrs s !! threads t).
  { intros t Ey. apply (Ho tx (threads t) Ex). intros Eq. apply Hne. by apply (Hown y x t tx). }
  unfold in_state, get_tsk in *. rewrite Et. split; intros (t & z & E1 & <- & E3 & E4); exists t, z; split_and!; try done;
    unfold get_thr, at_ptr in *; [rewrite Heq | rewrite Heq in E3]; done.
Qed.

(** ** Links *)

Lemma list_init_mapped lk a lk' : list_init lk a = Ret lk' -> a <> 0 /\ is_Some (lk !! a).
Proof.
  unfold list_init, set_next. intros E. apply bind_Ret in E as (l & E & _). apply bind_Ret in E as (n & E & _).
  apply get_Ret in E as [Ha E]. by eexists.
Qed.

Lemma enqueue_links lk h a l1 l2 l3 : a <> h -> list_init lk a = Ret l1 -> list_init l1 h = Ret l2 -> list_append l2 h a = Ret l3 ->
  ring l3 h [a] /\ forall b, b <> a -> b <> h -> nx l3 b = nx lk b /\ pv l3 b = pv lk b.
Proof.
  intros Hne E1 E2 E3. destruct (list_init_mapped _ _ _ E1) as [Ha Ma]. destruct (list_init_mapped _ _ _ E2) as [Hh Mh].
  destruct (list_init_ring lk a Ha Ma) as (m1 & F1 & _ & N1 & D1). rewrite E1 in F1. injection F1 as <-.
  destruct (list_init_ring l1 h Hh Mh) as (m2 & F2 & R2 & N2 & D2). rewrite E2 in F2. injection F2 as <-.
  destruct (list_append_dlist l2 h a h [] R2 Ha) as (m3 & F3 & R3 & N3 & _).
  { set_solver. }
  { apply (dom_mapped l1); [done |]. by apply (dom_mapped lk). }
  rewrite E3 in F3. injection F3 as <-. split; [exact R3 |]. intros b Hba Hbh.
  destruct (N1 b Hba) as [<- <-]. destruct (N2 b Hbh) as [<- <-]. unfold nx, pv. by rewrite N3.
Qed.

(** ** The operations keep a good state *)

Lemma good_only s s' p xs ex x : good s p xs ex -> only_task s s' x -> (exists t, get_tsk s x = Ret t) -> x ∉ xs ->
  (forall th, in_state s' x th T_BLOCKED -> ~ runnable (mts s') x) ->
  (forall y, runnable (mts s') y -> runnable (mts s) y \/ y = x) ->
  same_active s s' -> (forall y, runnable (mts s) y -> runnable (mts s') y) -> good s' p xs ex.
Proof.
  intros G Ho Hx Hin Hb Hr Ha Hr2. pose proof Ho as (El & Ew & Et & _ & _). unfold get_tsk in Hx. split.
  - intros c tk Hex. rewrite Ha. intros Hc Hn. apply Hr2. by apply (g_active _ _ _ _ G c).
  - intros c c' tk. rewrite !Ha. apply (g_unique _ _ _ _ G).
  - unfold own_threads, get_tsk. rewrite Et. apply (g_threads _ _ _ _ G).
  - unfold get_tsk. rewrite Et. apply (g_single _ _ _ _ G).
  - intros y th Hs. destruct (decide (y = x)) as [-> | Hne]; [by apply (Hb th) |].
    apply (only_in_state s s' x y) in Hs; try done; [| apply G]. intros [Hy | Hy]%Hr; [| done]. by apply (g_blocked _ _ _ _ G y th).
  - rewrite El. apply (g_ring _ _ _ _ G).
  - intros y Hy. destruct (g_asleep _ _ _ _ G y Hy) as [th Hs]. exists th.
    apply (only_in_state s s' x y); try done; [apply G | by intros ->].
  - unfold get_tsk. rewrite Et. apply (g_heads _ _ _ _ G).
Qed.

Lemma good_relink s p p' xs ys ex lk : good s p xs ex -> wq_readers p' = wq_readers p -> wq_writers p' = wq_writers p ->
  ring lk (WQH_LIST (wq_readers p)) (WQ_LIST <$> ys) -> (forall y, y ∈ ys -> exists th, in_state s y th T_BLOCKED) ->
  good (set_lnk lk s) p' ys ex.
Proof. intros [] Er Ew Hr Ha. split; rewrite ?Er, ?Ew; try done. Qed.

Lemma good_frame s s' p xs ex : good s p xs ex -> mts s' = mts s -> tsks s' = tsks s -> thrs s' = thrs s -> lnk s' = lnk s -> good s' p xs ex.
Proof.
  intros [] Em Et Eh El. split; unfold own_threads, in_state, get_tsk, get_thr in *; rewrite ?Em, ?Et, ?Eh, ?El; done.
Qed.

Lemma WQ_LIST_inj x y : WQ_LIST x = WQ_LIST y -> x = y.
Proof. unfold WQ_LIST. lia. Qed.

Lemma in_state_tsk (s : sys M) x th v : in_state s x th v -> exists t, get_tsk s x = Ret t.
Proof. intros (t & z & E & _). by exists t. Qed.

(** Going to sleep on the queue of the readers, or on that of the writers. *)
Lemma enqueue_good s p xs me head tk lock lock' s' :
  good s p xs None -> so_get_active (mts s) me = Ret tk -> tk <> 0 -> head = wq_readers p \/ head = wq_writers p ->
  wq_enqueue s me head tk lock = Ret (lock', s') ->
  (exists ys, good s' p ys (Some me) /\ (forall y, y ∈ ys -> y = tk \/ y ∈ xs) /\ (head = wq_writers p -> ys = xs)) /\
  (exists th, in_state s' tk th T_BLOCKED) /\ tk ∉ xs /\
  (forall y th v, y <> tk -> in_state s y th v -> in_state s' y th v).
Proof.
  intros G Hact Hn Hhead E. pose proof (g_active _ _ _ _ G me tk ltac:(done) Hact Hn) as Hrun. unfold wq_enqueue in E. apply bind_Ret in E as (l & El & E). apply bind_Ret in E as (l0 & El0 & E).
  apply bind_Ret in E as (l1 & E1 & E). apply bind_Ret in E as (l2 & E2 & E). apply bind_Ret in E as (l3 & E3 & E).
  apply bind_Ret in E as (s1 & Es & E). apply bind_Ret in E as (l4 & El4 & E). injection E as <- <-.
  set (s0 := put_wlock s head l0) in *.
  assert (Hnb : forall th, ~ in_state (set_lnk l3 s0) tk th T_BLOCKED) by (intros th Hs; by apply (g_blocked _ _ _ _ G tk th)).
  destruct (block_effect _ _ _ _ Es Hn Hnb) as (Ho & Hs1 & Ha & Hf). change (mts (set_lnk l3 s0)) with (mts s) in Hf.
  unfold same_active in Ha. change (mts (set_lnk l3 s0)) with (mts s) in Ha.
  assert (Htk : exists t, get_tsk s tk = Ret t).
  { destruct Hs1 as (th & t & z & Et & _). exists t. destruct Ho as (_ & _ & Etk & _). unfold get_tsk in *. by rewrite Etk in Et. }
  destruct Htk as [t Et]. destruct (g_heads _ _ _ _ G) as [Hrw Hd]. destruct (Hd tk t Et) as [Hdr Hdw].
  assert (Hnx : tk ∉ xs).
  { intros Hin. destruct (g_asleep _ _ _ _ G tk Hin) as [th Hs]. by apply (g_blocked _ _ _ _ G tk th). }
  assert (Hne : WQ_LIST tk <> WQH_LIST head) by (destruct Hhead as [-> | ->]; done).
  destruct (enqueue_links (lnk s) (WQH_LIST head) (WQ_LIST tk) l1 l2 l3 Hne E1 E2 E3) as [R3 N3].
  assert (Hring : ring l3 (WQH_LIST (wq_readers p)) (WQ_LIST <$> (if decide (head = wq_writers p) then xs else [tk]))).
  { destruct (decide (head = wq_writers p)) as [-> | Hw]; [| destruct Hhead as [-> | ?]; done].
    apply (ring_frame (lnk s)); [| apply (g_ring _ _ _ _ G)]. intros k Hk. apply N3; intros ->.
    - apply elem_of_cons in Hk as [Hk | Hk]; [by apply Hdr |]. apply list_elem_of_fmap in Hk as (y & Ey & Hy).
      apply WQ_LIST_inj in Ey as ->. done.
    - apply elem_of_cons in Hk as [Hk | Hk]; [by apply Hrw |]. apply list_elem_of_fmap in Hk as (y & Ey & Hy).
      destruct (g_asleep _ _ _ _ G y Hy) as [th (ty & z & Ety & _)]. by apply (Hd y ty). }
  assert (Hoth : forall y th v, y <> tk -> in_state s y th v -> in_state s1 y th v).
  { intros y th v Hy Hs. apply (only_in_state (set_lnk l3 s0) s1 tk); try done; [apply (g_threads _ _ _ _ G) | by exists t]. }
  split; [exists (if decide (head = wq_writers p) then xs else [tk]); split; [| split] |].
  - pose proof Ho as (El1 & _ & Et1 & _ & _). split; unfold own_threads, get_tsk in *.
    + intros c x Hc Hx Hxn. cbn in Hx |- *. rewrite Ha in Hx. apply Hf. split; [by apply (g_active _ _ _ _ G c) |].
      intros ->. apply Hc. f_equal. by apply (g_unique _ _ _ _ G me c tk).
    + intros c c' x. cbn. rewrite !Ha. apply (g_unique _ _ _ _ G).
    + cbn. rewrite Et1. apply (g_threads _ _ _ _ G).
    + cbn. rewrite Et1. apply (g_single _ _ _ _ G).
    + intros y th Hs. cbn. intros [Hy2 Hy]%Hf. apply (g_blocked _ _ _ _ G y th); [| done].
      apply (only_in_state (set_lnk l3 s0) s1 tk) in Hs; try done; [apply (g_threads _ _ _ _ G) | by exists t].
    + cbn. by rewrite El1.
    + intros y Hy. destruct (decide (y = tk)) as [-> | Hy2]; [done |]. destruct (decide (head = wq_writers p)).
      * destruct (g_asleep _ _ _ _ G y Hy) as [th Hs]. exists th. by apply Hoth.
      * by apply list_elem_of_singleton in Hy.
    + split; [done |]. cbn. rewrite Et1. done.
  - intros y Hy. destruct (decide _); [by right |]. left. by apply list_elem_of_singleton in Hy.
  - intros ->. by rewrite decide_True.
  - split_and!; try done.
Qed.


(** Waking the readers up. *)
Lemma wake_loop_good fuel s p me ys s' : good s p ys None ->
  wake_loop fuel s me (WQH_LIST (wq_readers p)) (hd (WQH_LIST (wq_readers p)) (WQ_LIST <$> ys)) = Ret s' ->
  good s' p [] None /\
  (forall y th v, y ∉ ys -> in_state s y th v -> in_state s' y th v).
Proof.
  revert fuel s. induction ys as [| y ys IH]; intros fuel s G E; (destruct fuel as [| fuel]; [done |]).
  - cbn in E. rewrite Z.eqb_refl in E. injection E as <-. done.
  - cbn [fmap list_fmap hd wake_loop] in E. pose proof (g_ring _ _ _ _ G) as Hring. pose proof Hring as (Hd & Hz0 & Hc & _).
    change (WQ_LIST <$> y :: ys) with (WQ_LIST y :: (WQ_LIST <$> ys)) in Hd, Hz0, Hc, Hring.
    rewrite !NoDup_cons in Hd. destruct Hd as (Hh & Hy & Hd).
    rewrite (proj2 (Z.eqb_neq _ _)) in E by (intros Eq; apply Hh; rewrite Eq; by left).
    rewrite task_of_wq_list in E. apply bind_Ret in E as (s1 & E1 & E). apply bind_Ret in E as (lk & E2 & E).
    apply bind_Ret in E as (n & E3 & E). destruct (g_asleep _ _ _ _ G y ltac:(by left)) as [th Hs].
    destruct (ready_effect s me y th s1 E1 Hs) as (Ho & Hr & [th1 Hs1] & Ha & Hr2). pose proof Ho as (El & Ew & Et & Es & Hth). rewrite El in E2.
    destruct (list_remove_dlist (lnk s) _ (WQ_LIST y) _ [] (WQ_LIST <$> ys) Hring) as (lk' & F & Hring' & Hx & _ & _).
    rewrite E2 in F. injection F as <-. cbn [app] in Hring'.
    assert (Hny : y ∉ ys) by (intros Hin; apply Hy; by apply list_elem_of_fmap_2).
    assert (En : next n = hd (WQH_LIST (wq_readers p)) (WQ_LIST <$> ys)).
    { destruct Hc as [_ Hc]. pose proof (first_link _ _ _ _ Hc) as [Hn _]. apply get_Ret in E3 as [_ E3].
      rewrite Hx in E3. unfold nx in Hn. rewrite E3 in Hn. by injection Hn. }
    rewrite En in E.
    assert (G0 : good (set_lnk lk s) p ys None).
    { apply (good_relink s p p (y :: ys) ys None lk G); try done. intros z Hz. apply (g_asleep _ _ _ _ G). by right. }
    assert (G1 : good (set_lnk lk s1) p ys None).
    { apply (good_only (set_lnk lk s) (set_lnk lk s1) p ys None y G0); try done.
      - by apply (in_state_tsk s y th T_BLOCKED).
      - intros th2 Hs2. destruct (in_state_of _ _ _ _ Hs1) as [Ea _]. destruct (in_state_of (set_lnk lk s1) _ _ _ Hs2) as [Eb _].
        change (state_of (set_lnk lk s1) y) with (state_of s1 y) in Eb. by rewrite Ea in Eb. }
    destruct (IH fuel (set_lnk lk s1) G1 E) as (G' & S'). split; [done |].
      intros z th2 v Hz Hs2. apply S'; [intros Hin; apply Hz; by right |].
      assert (z <> y) by (intros ->; apply Hz; by left).
      apply (only_in_state (set_lnk lk s) (set_lnk lk s1) y); try done; [apply G0 | by apply (in_state_tsk s y th T_BLOCKED)].
Qed.

Lemma wakeup_good s p me ys r s' : good s p ys None -> wq_wakeup s me (wq_readers p) = Ret (r, s') -> 
  exists zs, good s' p zs None /\ (forall z, z ∈ zs -> z ∈ ys) /\
  (forall y th v, y ∉ ys -> in_state s y th v -> in_state s' y th v).
Proof.
  intros G E. unfold wq_wakeup in E. destruct (wq_readers p =? 0) eqn:Eh.
  { injection E as _ <-. by exists ys. }
  apply bind_Ret in E as (l & E1 & E). apply bind_Ret in E as (l2 & E2 & E). apply bind_Ret in E as (n & E3 & E).
  apply bind_Ret in E as (s1 & E4 & E). apply bind_Ret in E as (l3 & E5 & E). injection E as _ <-.
  change (lnk (put_wlock s (wq_readers p) l2)) with (lnk s) in E3, E4.
  assert (En : next n = hd (WQH_LIST (wq_readers p)) (WQ_LIST <$> ys)).
  { destruct (g_ring _ _ _ _ G) as (_ & _ & Hc & _). pose proof (first_link _ _ _ _ Hc) as [Hn _]. apply get_Ret in E3 as [_ E3].
    unfold nx in Hn. rewrite E3 in Hn. by injection Hn. }
  rewrite En in E4. destruct (wake_loop_good _ (put_wlock s (wq_readers p) l2) p me ys s1 (good_frame s (put_wlock s (wq_readers p) l2) p ys None G eq_refl eq_refl eq_refl eq_refl) E4) as (G1 & S1).
  exists []. split_and!; [by apply (good_frame s1) | | done]. intros z Hz. by apply elem_of_nil in Hz.
Qed.

(** Switching: the task that continues was not blocked. *)
Lemma switch_good s p xs ex me c s' : good s p xs ex -> ex = None \/ ex = Some me -> sched_switch s me = Ret (c, s') ->
  good s' p xs None /\ (forall y th, in_state s y th T_BLOCKED -> in_state s' y th T_BLOCKED).
Proof.
  intros G Hex E. unfold sched_switch in E. apply bind_Ret in E as (cur & E1 & E). apply bind_Ret in E as ([nxt m] & E2 & E).
  apply bind_Ret in E as (u1 & E3 & E). apply bind_Ret in E as (u2 & E4 & E).
  assert (Hn : nxt <> 0) by (intros ->; done). destruct (law_next (mts s) me nxt m E2) as (Hrun & Hf & Ham & Hao). specialize (Hrun Hn).
  assert (G0 : good (set_mts m s) p xs None).
  { destruct G. split; try done.
    - intros c0 tk _ Hc Hz. cbn in Hc |- *. apply Hf. destruct (decide (c0 = me)) as [-> | Hne].
      + rewrite Ham in Hc. by injection Hc as <-.
      + destruct (Hao c0 Hne) as [Hsame _]. rewrite Hsame in Hc. apply (g_active0 c0); [| done | done]. destruct Hex as [-> | ->]; congruence.
    - intros c0 c1 tk H1 H2 Hz. cbn in H1, H2. destruct (decide (c0 = me)) as [-> | N0], (decide (c1 = me)) as [-> | N1]; try done.
      + rewrite Ham in H1. injection H1 as <-. destruct (Hao c1 N1) as [Hs1 Hno]. rewrite Hs1 in H2. by destruct (Hno Hn).
      + rewrite Ham in H2. injection H2 as <-. destruct (Hao c0 N0) as [Hs1 Hno]. rewrite Hs1 in H1. by destruct (Hno Hn).
      + destruct (Hao c0 N0) as [Hs0 _], (Hao c1 N1) as [Hs1 _]. rewrite Hs0 in H1. rewrite Hs1 in H2. by apply (g_unique0 c0 c1 tk).
    - intros x th Hs Hx%Hf. by apply (g_blocked0 x th). }
  destruct (cur =? nxt).
  { injection E as _ <-. done. }
  apply bind_Ret in E as (t & E5 & E). apply bind_Ret in E as (th & E6 & E). injection E as _ <-.
  change (get_tsk (set_mts m s) nxt) with (get_tsk s nxt) in E5. change (get_thr (set_mts m s)) with (get_thr s) in E6.
  set (s' := put_thr _ _ _). assert (Hnx : forall th, ~ in_state s nxt th T_BLOCKED) by (intros th2 Hs; by apply (g_blocked _ _ _ _ G nxt th2)).
  assert (Hxs : nxt ∉ xs) by (intros Hin; destruct (g_asleep _ _ _ _ G nxt Hin) as [th2 Hs]; by apply (Hnx th2)).
  assert (Ho : only_task (set_mts m s) s' nxt).
  { unfold only_task. split_and!; try done. intros t2 a Et2 Ha. change (get_tsk (set_mts m s) nxt) with (get_tsk s nxt) in Et2.
    rewrite E5 in Et2. injection Et2 as <-. cbn. by apply lookup_insert_ne. }
  split.
  - apply (good_only _ _ _ _ _ nxt G0 Ho); try done; [by exists t | | by left].
    intros th2 (t2 & z & F1 & F2 & F3 & F4). exfalso. change (get_tsk s' nxt) with (get_tsk s nxt) in F1. rewrite E5 in F1. injection F1 as <-.
    apply at_ptr_Ret in E6 as [Hz _]. subst th2. apply at_ptr_Ret in F3 as [_ F3]. cbn in F3. rewrite lookup_insert_eq in F3.
    injection F3 as <-. discriminate F4.
  - intros y th2 Hs. assert (y <> nxt) by (intros ->; by apply (Hnx th2)).
    apply (only_in_state (set_mts m s) s' nxt); try done; [apply G0 | by exists t].
Qed.

(** ** The invariant *)

(** [w] sleeps, and not on the queue of the readers. *)
Definition stuck (w : Z) (s : sys M) (p : pipe) : Prop :=
  exists xs, good s p xs None /\ w ∉ xs /\ exists th, in_state s w th T_BLOCKED.

Lemma good_heads s p p' xs ex : good s p xs ex -> wq_readers p' = wq_readers p -> wq_writers p' = wq_writers p -> good s p' xs ex.
Proof. intros [] Er Ew. split; rewrite ?Er, ?Ew; done. Qed.

Lemma stuck_heads w s p p' : stuck w s p -> wq_readers p' = wq_readers p -> wq_writers p' = wq_writers p -> stuck w s p'.
Proof. intros (xs & G & Hw & Hs) Er Ew. exists xs. split; [by apply (good_heads s p) | done]. Qed.

Lemma active_started (s : sys M) me tk : sched_get_active s me = Ret tk -> tk <> 0 -> so_get_active (mts s) me = Ret tk.
Proof. unfold sched_get_active. destruct (started s); [done | by intros [= <-]]. Qed.

Lemma stuck_switch w s p me c s' : stuck w s p -> sched_switch s me = Ret (c, s') -> stuck w s' p.
Proof.
  intros (xs & G & Hw & th & Hs) E. destruct (switch_good s p xs None me c s' G (or_introl eq_refl) E) as (G' & Hb).
  exists xs. split; [done |]. split; [done |]. exists th. by apply Hb.
Qed.

(** The running task goes to sleep on either queue: both sleep. *)
Lemma wait_stuck s p xs me head tk lock c lk s' :
  good s p xs None -> sched_get_active s me = Ret tk -> head = wq_readers p \/ head = wq_writers p ->
  wq_wait_event s me head tk lock = Ret (0, c, lk, s') ->
  (forall w, w ∉ xs -> (exists th, in_state s w th T_BLOCKED) -> stuck w s' p) /\ (head = wq_writers p -> stuck tk s' p).
Proof.
  intros G Ea Hh E. unfold wq_wait_event in E. destruct ((head =? 0) || (tk =? 0)) eqn:Ez; [done |]. zb_hyps.
  apply bind_Ret in E as ([lk0 s1] & E1 & E). apply bind_Ret in E as ([c0 s2] & E2 & E). injection E as _ _ <-.
  pose proof (active_started s me tk Ea ltac:(done)) as Hact.
  destruct (enqueue_good s p xs me head tk lock lk0 s1 G Hact ltac:(done) Hh E1) as ((ys & G1 & Hys & Hyw) & Hst & Hnx & Hoth).
  destruct (switch_good s1 p ys (Some me) me c0 s2 G1 (or_intror eq_refl) E2) as (G2 & Hb). split.
  - intros w Hw [th Hs]. assert (Hne : w <> tk). { intros ->. apply (g_blocked _ _ _ _ G tk th Hs). by apply (g_active _ _ _ _ G me). }
    exists ys. split; [done |]. split; [by intros [-> | ?]%Hys |]. exists th. by apply Hb, Hoth.
  - intros Hd. exists ys. rewrite (Hyw Hd) in *. split; [done |]. split; [done |]. destruct Hst as [th Hs]. exists th. by apply Hb.
Qed.

Lemma read_now_heads p size n b p' : read_now p size = Ret (n, b, p') -> wq_readers p' = wq_readers p /\ wq_writers p' = wq_writers p.
Proof.
  unfold read_now. intros E. apply bind_Ret in E as (b0 & _ & E). apply bind_Ret in E as (q & Eq & E). injection E as _ _ <-.
  destruct (ptr p <=? size); [by injection Eq as <- |]. apply bind_Ret in Eq as (x & _ & Eq). apply bind_Ret in Eq as (y & _ & Eq).
  by injection Eq as <-.
Qed.

Lemma stuck_read_loop w s p me size c s' p' : stuck w s p -> read_loop s me p size = Ret (c, s', p') -> stuck w s' p'.
Proof.
  intros Hst E. unfold read_loop in E. destruct (ptr p =? 0).
  - apply bind_Ret in E as (tk & Ea & E). apply bind_Ret in E as ([[[r c0] lk] s1] & Ew & E). destruct (Z.eqb_spec r 0) as [-> |]; [| done].
    cbn in E. injection E as _ <- <-. destruct Hst as (xs & G & Hw & Hs). apply (stuck_heads w s1 p); try done.
    destruct (wait_stuck s p xs me _ tk _ c0 lk s1 G Ea (or_introl eq_refl) Ew) as [H1 _]. by apply H1.
  - apply bind_Ret in E as ([[n b] q] & Er & E). injection E as _ <- <-. destruct (read_now_heads _ _ _ _ _ Er). by apply (stuck_heads w s p).
Qed.

Lemma stuck_write_now w s p me l c s' p' : stuck w s p -> write_now s me p l = Ret (c, s', p') -> stuck w s' p'.
Proof.
  intros (xs & G & Hw & th & Hs) E. unfold write_now in E. apply bind_Ret in E as (m & _ & E).
  apply bind_Ret in E as ([r s1] & Ew & E). injection E as _ <- <-. 
  destruct (wakeup_good s p me xs r s1 G Ew) as (zs & G1 & Hz & Ho). exists zs.
  split; [by apply (good_heads s1 p) |]. split; [by intros ?%Hz |]. exists th. by apply Ho.
Qed.

Lemma put_thr_in_state (s : sys M) th x x' y a v : get_thr s th = Ret x -> th_state x' = th_state x ->
  in_state (put_thr s th x') y a v <-> in_state s y a v.
Proof.
  intros Ex Ev. assert (Hz : forall z, get_thr (put_thr s th x') a = Ret z -> exists z', get_thr s a = Ret z' /\ th_state z' = th_state z).
  { intros z [Hn Hz]%at_ptr_Ret. cbn in Hz. destruct (decide (a = th)) as [-> | Hne].
    - rewrite lookup_insert_eq in Hz. injection Hz as <-. by exists x.
    - rewrite lookup_insert_ne in Hz by done. exists z. split; [by apply at_ptr_Ret | done]. }
  assert (Hz' : forall z, get_thr s a = Ret z -> exists z', get_thr (put_thr s th x') a = Ret z' /\ th_state z' = th_state z).
  { intros z E. destruct (decide (a = th)) as [-> | Hne].
    - rewrite Ex in E. injection E as <-. exists x'. split; [| done]. apply at_ptr_Ret in Ex as [Hn _]. apply at_ptr_Ret.
      split; [done | apply lookup_insert_eq].
    - exists z. split; [| done]. apply at_ptr_Ret in E as [Hn E]. apply at_ptr_Ret. split; [done |]. cbn. by rewrite lookup_insert_ne. }
  split; intros (t & z & E1 & E2 & E3 & E4).
  - destruct (Hz z E3) as (z' & F & Fv). exists t, z'. by rewrite Fv.
  - destruct (Hz' z E3) as (z' & F & Fv). exists t, z'. by rewrite Fv.
Qed.

Lemma prepare_stuck w s p me sp frame c s' : stuck w s p -> __prepare_switch s me sp frame = Ret (c, s') -> stuck w s' p.
Proof.
  intros (xs & G & Hw & th & Hs) E. unfold __prepare_switch in E. apply bind_Ret in E as (cur & _ & E).
  apply bind_Ret in E as (u1 & _ & E). apply bind_Ret in E as (u2 & _ & E). apply bind_Ret in E as (t & Et & E).
  apply bind_Ret in E as (x & Ex & E). destruct (sp <? kstack_top x); [done |].
  rewrite (proj2 (Z.ltb_ge _ _)) in E by (by apply (g_single _ _ _ _ G cur)). rewrite ret_bind in E.
  apply (stuck_switch w (put_thr s (threads t) (set_exec frame x)) p me c s'); [| exact E].
  pose proof (fun y a v => put_thr_in_state s (threads t) x (set_exec frame x) y a v Ex eq_refl) as Hin.
  exists xs. split; [| split; [done | exists th; by apply Hin]]. destruct G. split; try done.
  - intros y a Hy%Hin. by apply (g_blocked0 y a).
  - intros y Hy. destruct (g_asleep0 y Hy) as [a Ha]. exists a. by apply Hin.
Qed.

Lemma stuck_step w s p s' p' : stuck w s p -> pstep (s, p) (s', p') -> stuck w s' p'.
Proof.
  intros Hst Hstep. inversion Hstep as [? ? me size c ? ? E | ? ? me size c ? ? E | ? ? me l c ? ? E | ? ? me l c ? ? E | ? ? me sp fr c ? E | ? ? me c ? E]; subst.
  - unfold __read in E. destruct (negb true || (size =? 0)); [by injection E as _ <- <- |].
    apply bind_Ret in E as (lk & _ & E). apply bind_Ret in E as ([[c0 s1] q] & E1 & E). injection E as _ <- <-.
    apply (stuck_read_loop w s (set_p_lock lk p) me size c0); [by apply (stuck_heads w s p) | done].
  - unfold read_resume in E. apply bind_Ret in E as ([r lk] & _ & E).
    apply (stuck_read_loop w s (set_p_lock (default 0 lk) p) me size c); [by apply (stuck_heads w s p) | done].
  - unfold __write in E. destruct (zlen l =? 0); [by injection E as _ <- <- |]. apply bind_Ret in E as (lk & _ & E).
    destruct (_ <? zlen l).
    + apply bind_Ret in E as (tk & Ea & E). apply bind_Ret in E as ([[[r c0] lk2] s1] & Ew & E).
      destruct (Z.eqb_spec r 0) as [-> | Hr].
      * cbn in E. injection E as _ <- <-. destruct Hst as (xs & G & Hw & Hs). apply (stuck_heads w s1 p); try done.
        destruct (wait_stuck s p xs me _ tk _ c0 lk2 s1 G Ea (or_intror eq_refl) Ew) as [H1 _]. by apply H1.
      * cbn in E. apply bind_Ret in E as ([[c1 s2] q] & E1 & E). injection E as _ <- <-.
        assert (Es : s1 = s).
        { unfold wq_wait_event in Ew. destruct (_ || _); [by injection Ew as _ _ _ <- |].
          apply bind_Ret in Ew as ([? ?] & _ & Ew). apply bind_Ret in Ew as ([? ?] & _ & Ew). by injection Ew as <- _ _ _. }
        subst s1. apply (stuck_write_now w s (set_p_lock (default 0 lk2) (set_p_lock lk p)) me l c1); [by apply (stuck_heads w s p) | done].
    + apply bind_Ret in E as ([[c1 s2] q] & E1 & E). injection E as _ <- <-.
      apply (stuck_write_now w s (set_p_lock lk p) me l c1); [by apply (stuck_heads w s p) | done].
  - unfold write_resume in E. apply bind_Ret in E as ([r lk] & _ & E).
    apply (stuck_write_now w s (set_p_lock (default 0 lk) p) me l c); [by apply (stuck_heads w s p) | done].
  - unfold sched_tick in E. destruct (negb (started s)); [by injection E as _ <- |]. apply bind_Ret in E as ([r m] & Et & E).
    assert (Hm : stuck w (set_mts m s) p').
    { destruct Hst as (xs & G & Hw & th & Hs). exists xs. split; [| by split; [| exists th]]. destruct (law_tick (mts s) me r m Et) as [Hl Ha].
      destruct G. split; try done.
      - intros c0 tk. cbn. rewrite Ha. intros Hc Hx Hz. apply Hl. by apply (g_active0 c0).
      - intros c0 c1 tk. cbn. rewrite !Ha. apply g_unique0.
      - intros y a Hy Hr%Hl. by apply (g_blocked0 y a). }
    destruct (negb (r =? Mts.Mts.ST_OK)); [by apply (prepare_stuck w (set_mts m s) p' me sp fr c s') | by injection E as _ <-].
  - by apply (stuck_switch w s p' me c s').
Qed.


End live.

(** ** A sample: a full pipe, a sleeping reader and two tasks that run *)

#[local] Existing Instance Sched.list_sched.

#[local] Instance list_laws : SchedLaws (Z * list Z).
Proof.
  refine {| runnable m x := x ∈ m.2 |}.
  - intros [a l] me tk m'. cbn. destruct (Z.eqb_spec me 0) as [-> |]; [| done]. intros [= <- <-]. split_and!; try done.
    + destruct l; [done | by left].
    + intros c Hc. cbn. by rewrite (proj2 (Z.eqb_neq _ _) Hc).
  - intros [a l] me tk r m' [= <- <-] _. split; [| done]. intros x. cbn. rewrite list_elem_of_filter. tauto.
  - intros [a l] me tk r m' [= <- <-]. split_and!; try done; cbn; intros x; rewrite elem_of_app; [tauto |].
    intros [Hx | Hx%list_elem_of_singleton]; [by left | by right].
  - by intros m me r m' [= <- <-].
Defined.

Definition full_pipe : pipe := mk_pipe 0 0 [1; 2] 2 2 1 1 9000 9100.
Definition pipe_sys : sys (Z * list Z) :=
  mk_sys (1000, [1000; 3000]) (<[1000 := sample_task 1]> (<[2000 := sample_task 2]> {[3000 := sample_task 3]}))
    (<[1 := mk_thread T_RUNNING 0 0 0]> (<[2 := mk_thread T_BLOCKED 0 0 0]> {[3 := mk_thread T_READY 0 0 0]}))
    (<[9008 := mk_links 2120 2120]> (<[2120 := mk_links 9008 9008]> (<[9108 := mk_links 9108 9108]> {[1120 := mk_links 1120 1120]})))
    (<[9000 := 0]> {[9100 := 0]}) true 0 0.

Lemma pipe_sys_task x t : get_tsk pipe_sys x = Ret t ->
  (x = 1000 /\ threads t = 1 \/ x = 2000 /\ threads t = 2 \/ x = 3000 /\ threads t = 3) /\ nthreads t = 1.
Proof.
  intros [_ E]%at_ptr_Ret. change (tsks pipe_sys) with (<[1000 := sample_task 1]> (<[2000 := sample_task 2]> {[3000 := sample_task 3]} : gmap Z task)) in E.
  rewrite !lookup_insert in E. destruct (decide (1000 = x)) as [<- |]; [injection E as <-; split; [left | done]; done |].
  destruct (decide (2000 = x)) as [<- |]; [injection E as <-; split; [right; left | done]; done |].
  apply lookup_singleton_Some in E as [<- <-]. split; [right; right | done]; done.
Qed.

Lemma pipe_sys_good : good pipe_sys full_pipe [2000] None.
Proof.
  split.
  - intros c tk _. cbn. destruct (c =? 0); [| done]. intros [= <-] _. by left.
  - intros c c' tk. cbn. destruct (Z.eqb_spec c 0), (Z.eqb_spec c' 0); try done. congruence.
  - intros x y tx ty Ex Ey Eth. destruct (pipe_sys_task x tx Ex) as [Hx _], (pipe_sys_task y ty Ey) as [Hy _]. lia.
  - intros x t Ex. destruct (pipe_sys_task x t Ex) as [_ ->]. done.
  - intros x th (t & z & Ex & <- & Ez & Ev). destruct (pipe_sys_task x t Ex) as [[[-> Et] | [[-> Et] | [-> Et]]] _]; rewrite Et in Ez.
    + vm_compute in Ez. by injection Ez as <-.
    + change (2000 ∉ [1000; 3000]). refine (bool_decide_eq_true_1 _ _). vm_compute. reflexivity.
    + vm_compute in Ez. by injection Ez as <-.
  - split; [refine (bool_decide_eq_true_1 _ _); vm_compute; reflexivity |].
    split; [refine (bool_decide_eq_true_1 _ _); vm_compute; reflexivity |].
    split; [| by left]. split; [split; [reflexivity | intros _; reflexivity] | split; [reflexivity | intros _; reflexivity]].
  - intros x ->%list_elem_of_singleton. exists 2, (sample_task 2), (mk_thread T_BLOCKED 0 0 0). repeat split.
  - split; [discriminate |]. intros x t Ex. unfold WQ_LIST, WQH_LIST. cbn. destruct (pipe_sys_task x t Ex) as [Hx _]. lia.
Qed.

(** Task 1000 tries to write, task 3000 then empties the pipe. *)
Definition wrote : sys (Z * list Z) * pipe :=
  match __write pipe_sys 0 (Some full_pipe) (Some [3]) with Ret (_, s, Some p) => (s, p) | _ => (pipe_sys, full_pipe) end.
Definition drained : sys (Z * list Z) * pipe :=
  match __read wrote.1 0 (Some wrote.2) true 2 with Ret (_, s, Some p) => (s, p) | _ => wrote end.


End PipeLive.
