(* ===== verification/Netutil.v ===== *)
(** * Network helpers (include/net/util.h, include/net/types.h)

    Byte order, and the text form of IPv4 addresses.  A string is the block
    of memory that holds it, from its first character on. *)

From S2P Require Import Prelude Bytes.
Import Bytes.

Module Netutil.

Definition PROTO_IPV4 : Z := 0x0800.
Definition PROTO_ARP : Z := 0x0806.
Definition PROTO_IPV6 : Z := 0x86dd.
Definition PROTO_ICMP : Z := 0x01.
Definition PROTO_TCP : Z := 0x06.
Definition PROTO_UDP : Z := 0x11.
Definition PROTO_UNDEF : Z := 0.
Definition ETH_HDR_SIZE : Z := 14.
Definition IPV4_HDR_SIZE : Z := 20.
Definition UDP_HDR_SIZE : Z := 8.
Definition NF_NONE : Z := 0.
Definition NF_REUSE : Z := 1.
Definition NF_NO_RTO : Z := 2.

(** [sizeof] of the packed headers. *)
Definition SIZEOF_ETH : Z := 14.
Definition SIZEOF_IPV4 : Z := 20.
Definition SIZEOF_IPV6 : Z := 41.
Definition SIZEOF_ARP : Z := 8.
Definition SIZEOF_UDP : Z := 8.
Definition SIZEOF_TCP : Z := 20.
Definition SIZEOF_ICMP : Z := 8.

(** ** Byte order *)

Definition n2h_16 (n : Z) : Z := Z.lor (Z.shiftl (Z.land n 0xff) 8) (Z.land (Z.shiftr n 8) 0xff).
Definition n2h_32 (n : Z) : Z :=
  Z.lor (Z.lor (Z.lor (Z.shiftl (Z.land n 0x000000ff) 24) (Z.shiftl (Z.land n 0x0000ff00) 8))
               (Z.shiftr (Z.land n 0x00ff0000) 8)) (Z.shiftr (Z.land n 0xff000000) 24).
Definition h2n_16 (n : Z) : Z := Z.lor (Z.shiftl (Z.land n 0xff) 8) (Z.land (Z.shiftr n 8) 0xff).
Definition h2n_32 (n : Z) : Z :=
  Z.lor (Z.lor (Z.lor (Z.shiftl (Z.land n 0x000000ff) 24) (Z.shiftl (Z.land n 0x0000ff00) 8))
               (Z.shiftr (Z.land n 0x00ff0000) 8)) (Z.shiftr (Z.land n 0xff000000) 24).

(** ** Text of addresses *)

Definition DOT : Z := 46.
Definition ZERO : Z := 48.

(** The inner loop: up to the next dot or the NUL. *)
Fixpoint octet (ptr : list Z) (val : Z) : out (Z * list Z) :=
  match ptr with
  | [] => Fault
  | c :: rest =>
      if (c =? 0) || (c =? DOT) then mret (val, ptr)
      else octet rest (u8 (u8 (val * 10) + (c - ZERO)))
  end.

(** The outer loop steps over the character the inner one stopped at, which
    may be the NUL. *)
Fixpoint addr2bin_loop (fuel : nat) (ptr dst : list Z) (cnt : Z) : out (list Z) :=
  match fuel with
  | O => Spin
  | S fuel =>
      c ← rd ptr 0;
      if c =? 0 then mret dst
      else
        '(val, ptr) ← octet ptr 0;
        dst ← wr_bytes dst cnt [val];
        addr2bin_loop fuel (drop 1 ptr) dst (cnt + 1)
  end.

Definition net_ipv4_addr2bin (src dst : list Z) (off : Z) : out (list Z) :=
  addr2bin_loop (S (length src)) src dst off.

(** One octet at [k]; the result is the position after its dot. *)
Definition put_octet (val : Z) (dst : list Z) (k : Z) : out (list Z * Z) :=
  '(val, p, dst) ← (if 100 <? val then d ← wr dst (k + 2) (ZERO + val mod 10); mret (val / 10, 1, d) else mret (val, 0, dst));
  '(val, p, dst) ← (if 10 <? val then d ← wr dst (k + 1) (ZERO + val mod 10); mret (val / 10, p + 1, d) else mret (val, p, dst));
  dst ← wr dst k (ZERO + val mod 10);
  dst ← wr dst (k + (p + 1)) DOT;
  mret (dst, k + (p + 1) + 1).

Fixpoint bin2addr_loop (n : nat) (src : list Z) (i : Z) (dst : list Z) (k : Z) : out (list Z * Z) :=
  match n with
  | O => mret (dst, k)
  | S n => val ← rd src i; '(dst, k) ← put_octet val dst k; bin2addr_loop n src (i + 1) dst k
  end.

Definition net_ipv4_bin2addr (src dst : list Z) : out (list Z) :=
  '(dst, k) ← bin2addr_loop 4 src 0 dst 0; wr dst (k - 1) 0.

(** ** Byte order, in arithmetic *)

Lemma lor_shift a b k : 0 <= a -> 0 <= k -> 0 <= b < 2 ^ k -> Z.lor (Z.shiftl a k) b = a * 2 ^ k + b.
Proof.
  intros Ha Hk Hb. rewrite Z.shiftl_mul_pow2 by done. symmetry.
  rewrite <- Z.add_nocarry_lor; [done |]. apply Z.bits_inj'. intros i Hi. rewrite Z.land_spec, Z.bits_0.
  destruct (Z.ltb_spec i k).
  - by rewrite Z.mul_pow2_bits_low.
  - destruct (Z.eq_dec b 0) as [-> |]; [by rewrite Z.bits_0, andb_false_r |].
    rewrite (Z.bits_above_log2 b i), andb_false_r; [done | lia |]. apply Z.log2_lt_pow2; [lia |].
    apply (Z.lt_le_trans _ (2 ^ k)); [lia | by apply Z.pow_le_mono_r].
Qed.

Lemma n2h_16_swap a b : is_byte a -> is_byte b -> n2h_16 (le_val [a; b]) = le_val [b; a].
Proof.
  unfold is_byte. intros Ha Hb. unfold n2h_16. cbn [le_val]. change 255 with (Z.ones 8).
  rewrite !Z.land_ones, Z.shiftr_div_pow2 by done. change (2 ^ 8) with 256.
  rewrite lor_shift by (change (2 ^ 8) with 256; Z.div_mod_to_equations; lia). change (2 ^ 8) with 256. Z.div_mod_to_equations. lia.
Qed.

Lemma n2h_16_range n : 0 <= n2h_16 n < 2 ^ 16.
Proof.
  unfold n2h_16. change 255 with (Z.ones 8). rewrite !Z.land_ones by done. change (2 ^ 8) with 256.
  rewrite lor_shift by (change (2 ^ 8) with 256; Z.div_mod_to_equations; lia). change (2 ^ 8) with 256. Z.div_mod_to_equations. lia.
Qed.

Lemma h2n_n2h_16 n : in_u 16 n -> n2h_16 (h2n_16 n) = n.
Proof.
  intros Hn. change (n2h_16 (n2h_16 n) = n). unfold in_u in Hn.
  assert (E : n = le_val [n mod 256; n / 256]) by (cbn; Z.div_mod_to_equations; lia). rewrite E at 1.
  rewrite !n2h_16_swap by (unfold is_byte; Z.div_mod_to_equations; lia). by rewrite <- E.
Qed.

Lemma land_byte n k : 0 <= k -> Z.land n (Z.shiftl 255 k) = Z.shiftl (n / 2 ^ k mod 256) k.
Proof.
  intros Hk. rewrite <- Z.shiftr_div_pow2 by done. change 256 with (2 ^ 8). rewrite <- Z.land_ones by done.
  change (Z.ones 8) with 255. apply Z.bits_inj'. intros i Hi. rewrite Z.land_spec. destruct (Z.ltb_spec i k).
  - by rewrite !Z.shiftl_spec_low, andb_false_r.
  - rewrite !Z.shiftl_spec by done. rewrite Z.land_spec, Z.shiftr_spec by lia. by replace (i - k + k) with i by lia.
Qed.

Lemma n2h_32_swap a b c d : is_byte a -> is_byte b -> is_byte c -> is_byte d ->
  n2h_32 (le_val [a; b; c; d]) = le_val [d; c; b; a].
Proof.
  unfold is_byte. intros Ha Hb Hc Hd. set (n := le_val [a; b; c; d]).
  assert (E0 : n / 2 ^ 0 mod 256 = a) by (unfold n; cbn; Z.div_mod_to_equations; lia).
  assert (E1 : n / 2 ^ 8 mod 256 = b) by (unfold n; cbn; change (Z.pow_pos 2 8) with 256; Z.div_mod_to_equations; lia).
  assert (E2 : n / 2 ^ 16 mod 256 = c) by (unfold n; cbn; change (Z.pow_pos 2 16) with 65536; Z.div_mod_to_equations; lia).
  assert (E3 : n / 2 ^ 24 mod 256 = d) by (unfold n; cbn; change (Z.pow_pos 2 24) with 16777216; Z.div_mod_to_equations; lia).
  unfold n2h_32. change 0x000000ff with (Z.shiftl 255 0). change 0x0000ff00 with (Z.shiftl 255 8).
  change 0x00ff0000 with (Z.shiftl 255 16). change 0xff000000 with (Z.shiftl 255 24).
  rewrite !land_byte, E0, E1, E2, E3 by done. rewrite !Z.shiftl_shiftl, Z.shiftr_shiftl_l, Z.shiftr_shiftl_l by done.
  change (0 + 24) with 24. change (8 + 8) with 16. change (16 - 8) with 8. change (24 - 24) with 0.
  replace (Z.shiftl b 16) with (Z.shiftl (Z.shiftl b 8) 8) by (by rewrite Z.shiftl_shiftl).
  replace (Z.shiftl a 24) with (Z.shiftl (Z.shiftl (Z.shiftl a 8) 8) 8) by (by rewrite !Z.shiftl_shiftl).
  rewrite <- !Z.shiftl_lor, Z.shiftl_0_r. rewrite (lor_shift a b 8), (lor_shift _ c 8), (lor_shift _ d 8) by (change (2 ^ 8) with 256; lia).
  change (2 ^ 8) with 256. cbn [le_val]. lia.
Qed.

Lemma n2h_32_involutive n : in_u 32 n -> n2h_32 (n2h_32 n) = n.
Proof.
  intros Hn. assert (E : le_val (le_bytes 4 n) = n) by (rewrite le_val_bytes; by apply Z.mod_small).
  pose proof (le_bytes_byte 4 n) as Hb. cbn [le_bytes] in E, Hb. rewrite <- E at 1. repeat apply Forall_cons in Hb as [? Hb].
  by rewrite !n2h_32_swap by done.
Qed.

(** ** Addresses and their text *)

(** The decimal digits of an octet. *)
Definition digits (v : Z) : list Z :=
  if v <? 10 then [ZERO + v]
  else if v <? 100 then [ZERO + v / 10; ZERO + v mod 10]
  else [ZERO + v / 100; ZERO + v / 10 mod 10; ZERO + v mod 10].

(** The octets [net_ipv4_bin2addr] writes correctly. *)
Definition plain_octet (v : Z) : Prop := is_byte v /\ v <> 10 /\ ~ 100 <= v <= 109.

Lemma wr_app_r (pre l : list Z) j x : 0 <= j < zlen l -> wr (pre ++ l) (zlen pre + j) x = Ret (pre ++ <[Z.to_nat j := x]> l).
Proof.
  intros Hj. unfold zlen in *. rewrite wr_in by (unfold zlen; rewrite length_app; lia). f_equal.
  replace (Z.to_nat (Z.of_nat (length pre) + j)) with (length pre + Z.to_nat j)%nat by lia. apply insert_app_r.
Qed.

Lemma wr_app_0 (pre l : list Z) y x : wr (pre ++ y :: l) (zlen pre) x = Ret (pre ++ x :: l).
Proof. pose proof (wr_app_r pre (y :: l) 0 x) as E. rewrite Z.add_0_r in E. apply E. unfold zlen. cbn [length]. lia. Qed.

Lemma wr_app_1 (pre l : list Z) y1 y2 x : wr (pre ++ y1 :: y2 :: l) (zlen pre + 1) x = Ret (pre ++ y1 :: x :: l).
Proof. apply (wr_app_r pre (y1 :: y2 :: l) 1 x). unfold zlen. cbn [length]. lia. Qed.
Lemma wr_app_2 (pre l : list Z) y1 y2 y3 x : wr (pre ++ y1 :: y2 :: y3 :: l) (zlen pre + 2) x = Ret (pre ++ y1 :: y2 :: x :: l).
Proof. apply (wr_app_r pre (y1 :: y2 :: y3 :: l) 2 x). unfold zlen. cbn [length]. lia. Qed.
Lemma wr_app_3 (pre l : list Z) y1 y2 y3 y4 x : wr (pre ++ y1 :: y2 :: y3 :: y4 :: l) (zlen pre + 3) x = Ret (pre ++ y1 :: y2 :: y3 :: x :: l).
Proof. apply (wr_app_r pre (y1 :: y2 :: y3 :: y4 :: l) 3 x). unfold zlen. cbn [length]. lia. Qed.

Lemma put_octet_plain v pre n : plain_octet v -> (4 <= n)%nat ->
  exists m, put_octet v (pre ++ replicate n 0) (zlen pre) = Ret (pre ++ digits v ++ DOT :: replicate m 0, zlen (pre ++ digits v) + 1) /\
    (length (digits v) + 1 + m = n)%nat.
Proof.
  intros (Hb & H10 & H100) Hn. unfold is_byte in Hb. destruct n as [| [| [| [| n]]]]; try lia. clear Hn.
  assert (Hz : forall m, 0 <= zlen (replicate m 0)) by (intros; apply zlen_nonneg).
  unfold put_octet, digits. cbn [replicate]. destruct (Z.ltb_spec v 10), (Z.ltb_spec v 100); try lia.
  - rewrite (ltb_false 100 v) by lia. rb. rewrite (ltb_false 10 v) by lia. rb. rewrite Z.mod_small by lia.
    rewrite wr_app_0. rb.
    cbn [Z.add Pos.add Pos.succ]. rewrite ?wr_app_1, ?wr_app_2, ?wr_app_3. rb. exists (2 + n)%nat. split; [| cbn; lia]. unfold mret, out_ret. do 2 f_equal. unfold zlen. rewrite length_app. cbn. lia.
  - rewrite (ltb_false 100 v) by lia. rb. rewrite (ltb_true 10 v) by lia. rewrite ?wr_app_1, ?wr_app_2, ?wr_app_3. do 2 rb.
    rewrite (Z.mod_small (v / 10)) by (Z.div_mod_to_equations; lia).
    rewrite wr_app_0. rb.
    cbn [Z.add Pos.add Pos.succ]. rewrite ?wr_app_1, ?wr_app_2, ?wr_app_3. rb. exists (1 + n)%nat. split; [| cbn; lia]. unfold mret, out_ret. do 2 f_equal. unfold zlen. rewrite length_app. cbn. lia.
  - rewrite (ltb_true 100 v) by lia. rewrite ?wr_app_1, ?wr_app_2, ?wr_app_3. do 2 rb. rewrite (ltb_true 10 (v / 10)) by (Z.div_mod_to_equations; lia).
    rewrite ?wr_app_1, ?wr_app_2, ?wr_app_3. do 2 rb. rewrite Z.div_div, (Z.mod_small (v / (10 * 10))) by (Z.div_mod_to_equations; lia).
    rewrite wr_app_0. rb.
    cbn [Z.add Pos.add Pos.succ]. rewrite ?wr_app_1, ?wr_app_2, ?wr_app_3. rb. exists n. split; [| cbn; lia]. unfold mret, out_ret. do 2 f_equal. unfold zlen. rewrite length_app. cbn. lia.
Qed.

Lemma octet_digit x rest val : 0 <= x < 10 -> octet ((ZERO + x) :: rest) val = octet rest (u8 (u8 (val * 10) + x)).
Proof.
  intros Hx. cbn [octet]. unfold ZERO, DOT. destruct (Z.eqb_spec (48 + x) 0), (Z.eqb_spec (48 + x) 46); try lia. cbn [orb].
  by replace (48 + x - 48) with x by lia.
Qed.

Lemma u8_small x : is_byte x -> u8 x = x.
Proof. intros. by apply wrap_small. Qed.

(** The digits of an octet read back as the octet. *)
Lemma octet_digits v c rest : is_byte v -> c = 0 \/ c = DOT -> octet (digits v ++ c :: rest) 0 = Ret (v, c :: rest).
Proof.
  unfold is_byte. intros Hv Hc. assert (Hend : forall w, octet (c :: rest) w = Ret (w, c :: rest)).
  { intros w. cbn [octet]. by destruct Hc as [-> | ->]. }
  unfold digits. destruct (Z.ltb_spec v 10); [| destruct (Z.ltb_spec v 100)]; cbn [app].
  - rewrite octet_digit, Hend by lia. change (u8 (0 * 10)) with 0. by rewrite !u8_small by (unfold is_byte; lia).
  - assert (H1 : u8 (u8 (0 * 10) + v / 10) = v / 10) by (change (u8 (0 * 10)) with 0; apply u8_small; unfold is_byte; Z.div_mod_to_equations; lia).
    rewrite !octet_digit by (Z.div_mod_to_equations; lia). rewrite H1, Hend.
    rewrite (u8_small (v / 10 * 10)); [rewrite u8_small |]; unfold is_byte; try (Z.div_mod_to_equations; lia).
    do 2 f_equal. Z.div_mod_to_equations; lia.
  - assert (H1 : u8 (u8 (0 * 10) + v / 100) = v / 100) by (change (u8 (0 * 10)) with 0; apply u8_small; unfold is_byte; Z.div_mod_to_equations; lia).
    assert (H2 : u8 (u8 (v / 100 * 10) + v / 10 mod 10) = v / 10)
      by (rewrite (u8_small (v / 100 * 10)); [rewrite u8_small |]; unfold is_byte; Z.div_mod_to_equations; lia).
    rewrite !octet_digit by (Z.div_mod_to_equations; lia). rewrite H1, H2, Hend.
    rewrite (u8_small (v / 10 * 10)); [rewrite u8_small |]; unfold is_byte; try (Z.div_mod_to_equations; lia).
    do 2 f_equal. Z.div_mod_to_equations; lia.
Qed.

Lemma digits_head v : is_byte v -> exists x l, digits v = (ZERO + x) :: l /\ 0 <= x < 10.
Proof.
  unfold is_byte, digits. intros Hv. destruct (Z.ltb_spec v 10); [| destruct (Z.ltb_spec v 100)]; do 2 eexists; (split; [done |]); Z.div_mod_to_equations; lia.
Qed.

Lemma addr2bin_step fuel v c rest dst cnt : is_byte v -> c = 0 \/ c = DOT ->
  addr2bin_loop (S fuel) (digits v ++ c :: rest) dst cnt = (dst ← wr_bytes dst cnt [v]; addr2bin_loop fuel rest dst (cnt + 1)).
Proof.
  intros Hv Hc. cbn [addr2bin_loop]. destruct (digits_head v Hv) as (x & l & E & Hx).
  assert (Ec : rd (digits v ++ c :: rest) 0 = Ret (ZERO + x)) by (by rewrite E). rewrite Ec. rb.
  rewrite (proj2 (Z.eqb_neq (ZERO + x) 0)) by (unfold ZERO; lia). rewrite octet_digits by done. by rb.
Qed.

(** The text of octets, each with its dot, and of an address. *)
Definition dotted (vs : list Z) : list Z := mbind (fun v => digits v ++ [DOT]) vs.
Definition addr_text (a b c d : Z) : list Z := dotted [a; b; c] ++ digits d ++ [0].

Lemma bin2addr_loop_plain src vs i pre n : Forall plain_octet vs -> 0 <= i -> drop (Z.to_nat i) src = vs -> (4 * length vs <= n)%nat ->
  exists m, bin2addr_loop (length vs) src i (pre ++ replicate n 0) (zlen pre) =
    Ret ((pre ++ dotted vs) ++ replicate m 0, zlen (pre ++ dotted vs)) /\ (length (dotted vs) + m = n)%nat.
Proof.
  intros Hvs. revert i pre n. induction Hvs as [| v vs Hv _ IH]; intros i pre n Hi Hs Hn.
  { exists n. cbn. by rewrite app_nil_r. }
  cbn [length bin2addr_loop]. cbn [length] in Hn.
  assert (Er : rd src i = Ret v).
  { apply rd_Ret. split; [done |]. rewrite <- (Nat.add_0_r (Z.to_nat i)), <- lookup_drop, Hs. done. }
  rewrite Er. rb. destruct (put_octet_plain v pre n Hv ltac:(lia)) as (m & E & Em). rewrite E. rb.
  destruct (IH (i + 1) (pre ++ digits v ++ [DOT]) m) as (m2 & E2 & Em2); [lia | | | ].
  - rewrite Z2Nat.inj_add, <- drop_drop, Hs by lia. done.
  - assert (length (digits v) <= 3)%nat by (unfold digits; repeat case_match; cbn; lia). lia.
  - exists m2. replace (pre ++ digits v ++ DOT :: replicate m 0) with ((pre ++ digits v ++ [DOT]) ++ replicate m 0) by (by rewrite <- !app_assoc).
    replace (zlen (pre ++ digits v) + 1) with (zlen (pre ++ digits v ++ [DOT])) by (unfold zlen; rewrite !length_app; cbn; lia).
    rewrite E2. unfold dotted in *. cbn [mbind list_bind]. split; [by rewrite <- !app_assoc |]. rewrite !length_app. cbn. lia.
Qed.

Lemma bin2addr_plain a b c d : plain_octet a -> plain_octet b -> plain_octet c -> plain_octet d ->
  exists m, net_ipv4_bin2addr [a; b; c; d] (replicate 16 0) = Ret (addr_text a b c d ++ replicate m 0) /\
    (length (addr_text a b c d) + m = 16)%nat.
Proof.
  intros Ha Hb Hc Hd. destruct (bin2addr_loop_plain [a; b; c; d] [a; b; c; d] 0 [] 16) as (m & E & Em); [repeat (apply Forall_cons_2; [done |]); apply Forall_nil_2 | done | done | done |].
  assert (Et : dotted [a; b; c; d] = (dotted [a; b; c] ++ digits d) ++ [DOT]).
  { unfold dotted. cbn [mbind list_bind]. by rewrite <- !app_assoc, app_nil_r. }
  exists m. unfold net_ipv4_bin2addr. cbn [length] in E. change ([] ++ replicate 16 0) with (replicate 16 0) in E. change (zlen []) with 0 in E.
  rewrite E. rb. cbn [app]. rewrite Et in *. split.
  - replace (zlen ((dotted [a; b; c] ++ digits d) ++ [DOT]) - 1) with (zlen (dotted [a; b; c] ++ digits d)) by (unfold zlen; rewrite !length_app; cbn; lia).
    rewrite <- (app_assoc _ [DOT]). cbn [app]. rewrite wr_app_0. unfold addr_text. by rewrite <- !app_assoc.
  - unfold addr_text. rewrite !length_app in *. cbn in *. lia.
Qed.

(** What is read back: nothing follows the NUL when the text fills the
    buffer, and the loop reads there. *)
Lemma addr2bin_text a b c d m : is_byte a -> is_byte b -> is_byte c -> is_byte d ->
  net_ipv4_addr2bin (addr_text a b c d ++ replicate m 0) (replicate 4 0) 0 = match m with O => Fault | S _ => Ret [a; b; c; d] end.
Proof.
  intros Ha Hb Hc Hd. unfold net_ipv4_addr2bin.
  assert (Hf : exists f, length (addr_text a b c d ++ replicate m 0) = S (S (S (S f)))).
  { unfold addr_text, dotted. cbn [mbind list_bind]. rewrite !length_app, length_replicate. cbn [length].
    exists (length (digits a) + length (digits b) + length (digits c) + length (digits d) + m)%nat. lia. }
  destruct Hf as [f ->]. unfold addr_text, dotted. cbn [mbind list_bind]. repeat (rewrite <- app_assoc || cbn [app]).
  rewrite addr2bin_step by auto. change (wr_bytes (replicate 4 0) 0 [a]) with (Ret [a; 0; 0; 0]). rb.
  rewrite addr2bin_step by auto. change (wr_bytes [a; 0; 0; 0] (0 + 1) [b]) with (Ret [a; b; 0; 0]). rb.
  rewrite addr2bin_step by auto. change (wr_bytes [a; b; 0; 0] (0 + 1 + 1) [c]) with (Ret [a; b; c; 0]). rb.
  rewrite addr2bin_step by auto. change (wr_bytes [a; b; c; 0] (0 + 1 + 1 + 1) [d]) with (Ret [a; b; c; d]). rb.
  by destruct m.
Qed.

(** ** The first octet of a network 10 *)

Lemma wr_below (l l' : list Z) i j x : wr l i x = Ret l' -> j < i -> rd l' j = rd l j.
Proof. intros E Hj. apply (rd_wr_ne l i j x l' E). lia. Qed.

Lemma put_octet_below v dst k dst' k' j : put_octet v dst k = Ret (dst', k') -> j < k -> rd dst' j = rd dst j /\ k < k'.
Proof.
  unfold put_octet. intros E Hj. apply bind_Ret in E as ([[v1 p1] d1] & E1 & E). apply bind_Ret in E as ([[v2 p2] d2] & E2 & E).
  apply bind_Ret in E as (d3 & E3 & E). apply bind_Ret in E as (d4 & E4 & E). injection E as <- <-.
  assert (H1 : rd d1 j = rd dst j /\ 0 <= p1).
  { destruct (100 <? v); [| by injection E1 as _ <- <-]. apply bind_Ret in E1 as (d & Ew & E1). injection E1 as _ <- <-.
    split; [| lia]. apply (wr_below _ _ _ _ _ Ew). lia. }
  assert (H2 : rd d2 j = rd d1 j /\ 0 <= p2).
  { destruct (10 <? v1); [| injection E2 as _ <- <-; destruct H1; by split]. apply bind_Ret in E2 as (d & Ew & E2). injection E2 as _ <- <-.
    split; [| lia]. apply (wr_below _ _ _ _ _ Ew). lia. }
  rewrite (wr_below _ _ _ _ _ E4), (wr_below _ _ _ _ _ E3) by lia. split; [| lia]. by rewrite (proj1 H2), (proj1 H1).
Qed.

Lemma bin2addr_loop_below n src i dst k dst' k' j : bin2addr_loop n src i dst k = Ret (dst', k') -> j < k -> rd dst' j = rd dst j /\ k + Z.of_nat n <= k'.
Proof.
  revert i dst k. induction n as [| n IH]; intros i dst k; cbn [bin2addr_loop].
  - intros [= <- <-]. split; [done | lia].
  - intros E Hj. apply bind_Ret in E as (v & _ & E). apply bind_Ret in E as ([d1 k1] & E1 & E).
    apply (put_octet_below _ _ _ _ _ j) in E1 as [E1 Hk]; [| done]. apply IH in E as [E Hk2]; [| lia]. rewrite E, E1. split; [done | lia].
Qed.

Lemma addr2bin_loop_above fuel ptr dst cnt dst' j : addr2bin_loop fuel ptr dst cnt = Ret dst' -> 0 <= j < cnt -> rd_bytes dst' j 1 = rd_bytes dst j 1.
Proof.
  revert ptr dst cnt. induction fuel as [| fuel IH]; intros ptr dst cnt; cbn [addr2bin_loop]; [done |].
  intros E Hj. apply bind_Ret in E as (c & _ & E). destruct (c =? 0); [by injection E as <- |].
  apply bind_Ret in E as ([v p] & _ & E). apply bind_Ret in E as (d & Ew & E). rewrite (IH _ _ _ E) by lia.
  apply (rd_wr_bytes_ne _ _ _ _ j 1 Ew). lia.
Qed.

(** The text of 10, and of 100 to 109, starts with a zero that ends at a dot
    or a NUL. *)
Lemma bad_octet_text v : v = 10 \/ 100 <= v <= 109 -> exists dst k, put_octet v (replicate 16 0) 0 = Ret (dst, k) /\
  exists x rest, dst = ZERO :: x :: rest /\ 2 <= k /\ (x = DOT \/ x = 0 \/ x = ZERO /\ rest !! 0%nat = Some DOT /\ 3 <= k).
Proof.
  intros Hv. assert (Hin : v ∈ [10; 100; 101; 102; 103; 104; 105; 106; 107; 108; 109]).
  { destruct Hv as [-> | Hv]; [by left |]. right. apply list_elem_of_lookup. exists (Z.to_nat (v - 100)).
    assert (H : exists i, (i < 10)%nat /\ v = 100 + Z.of_nat i) by (exists (Z.to_nat (v - 100)); lia). destruct H as (i & Hi & ->).
    replace (Z.to_nat (100 + Z.of_nat i - 100)) with i by lia. do 10 (destruct i as [| i]; [done |]). lia. }
  repeat (apply elem_of_cons in Hin as [-> | Hin]; [do 2 eexists; (split; [vm_compute; reflexivity |]); do 2 eexists; (split; [reflexivity |]); unfold DOT, ZERO; split; [lia | naive_solver] |]).
  by apply elem_of_nil in Hin.
Qed.

Lemma bad_octet_lost a b c d text : a = 10 \/ 100 <= a <= 109 -> net_ipv4_bin2addr [a; b; c; d] (replicate 16 0) = Ret text ->
  net_ipv4_addr2bin text (replicate 4 0) 0 <> Ret [a; b; c; d].
Proof.
  intros Ha E E2. unfold net_ipv4_bin2addr in E.
  change (bin2addr_loop 4 [a; b; c; d] 0 (replicate 16 0) 0) with
    (val ← rd [a; b; c; d] 0; '(dst, k) ← put_octet val (replicate 16 0) 0; bin2addr_loop 3 [a; b; c; d] 1 dst k) in E. change (rd [a; b; c; d] 0) with (Ret a) in E.
  rewrite ret_bind in E. destruct (bad_octet_text a Ha) as (dst & k & Ep & x & rest & -> & Hk & Hx). rewrite Ep in E. rewrite ret_bind in E. cbn beta iota in E.
  apply bind_Ret in E as ([d2 k2] & El & E).
  assert (Hpre : forall j, j < k -> rd text j = rd (ZERO :: x :: rest) j).
  { intros j Hj. destruct (bin2addr_loop_below _ _ _ _ _ _ _ j El ltac:(lia)) as [E3 Hk2].
    rewrite (wr_below _ _ _ j _ E) by lia. done. }
  assert (Ho : exists p, octet text 0 = Ret (0, p)).
  { pose proof (proj1 (rd_Ret _ _ _) (Hpre 0 ltac:(lia))) as [_ H0]. pose proof (proj1 (rd_Ret _ _ _) (Hpre 1 ltac:(lia))) as [_ H1].
    destruct text as [| t0 [| t1 text]]; try done. cbn in H0, H1. injection H0 as ->. injection H1 as ->.
    change ZERO with (ZERO + 0). rewrite octet_digit by lia. change (u8 (u8 (0 * 10) + 0)) with 0.
    destruct Hx as [-> | [-> | (-> & Hr & Hk3)]]; [by eexists | by eexists |].
    destruct rest as [| r0 rest]; [done |]. cbn in Hr. injection Hr as ->.
    pose proof (proj1 (rd_Ret _ _ _) (Hpre 2 ltac:(lia))) as [_ H2]. destruct text as [| t2 text]; [done |]. cbn in H2. injection H2 as ->.
    change ZERO with (ZERO + 0). rewrite octet_digit by lia. by eexists. }
  destruct Ho as [p Ho]. unfold net_ipv4_addr2bin in E2. cbn [addr2bin_loop] in E2. rewrite (Hpre 0) in E2 by lia.
  change (rd (ZERO :: x :: rest) 0) with (Ret ZERO) in E2. rewrite ret_bind, Ho, ret_bind in E2. cbn beta iota in E2.
  change (wr_bytes (replicate 4 0) 0 [0]) with (Ret [0; 0; 0; 0]) in E2. rewrite ret_bind in E2.
  change (ZERO =? 0) with false in E2. cbn beta iota in E2.
  apply (addr2bin_loop_above _ _ _ _ _ 0) in E2; [| lia]. injection E2 as E2. lia.
Qed.



End Netutil.
