(* ===== verification/Kmem.v ===== *)
(** * Memory of the network stack, and computations that carry a state

    [st S A] is a computation on a state [S] that can stop early like any
    [out].  The memory is a set of blocks of bytes; the address of byte [i]
    of block [b] is [b * BLOCK + i], so that address arithmetic stays inside
    a block, and block 0 is the null pointer's.  [kmalloc] and the slab
    caches behind it do not fail (they stop the CPU), see Heap and Slab. *)

From S2P Require Import Prelude Bytes.
Import Bytes.

Module Kmem.

(** ** Computations on a state *)

Definition st (S A : Type) : Type := S -> out (A * S).
#[global] Instance st_ret {S} : MRet (st S) := fun A a s => Ret (a, s).
#[global] Instance st_bind {S} : MBind (st S) := fun A B f m s =>
  match m s with Ret (a, s) => f a s | Halt => Halt | Fault => Fault | Spin => Spin end.

Definition lift {S A} (m : out A) : st S A := fun s => a ← m; Ret (a, s).
Definition gets {S A} (f : S -> A) : st S A := fun s => Ret (f s, s).
Definition modify {S} (f : S -> S) : st S unit := fun s => Ret (tt, f s).
Definition fail {S A} : st S A := fun _ => Fault.
Definition halt {S A} : st S A := fun _ => Halt.
Definition assert {S} (c : bool) : st S unit := lift (kassert c).

(** One step of a computation whose first part is known. *)
Lemma st_step {S A B} (m : st S A) (f : A -> st S B) s a s' : m s = Ret (a, s') -> (m ≫= f) s = f a s'.
Proof. intros E. unfold mbind, st_bind. by rewrite E. Qed.

Lemma st_bind_Ret {S A B} (m : st S A) (f : A -> st S B) s b s2 :
  (m ≫= f) s = Ret (b, s2) <-> exists a s1, m s = Ret (a, s1) /\ f a s1 = Ret (b, s2).
Proof. unfold mbind, st_bind. destruct (m s) as [[a s1] | | |]; naive_solver. Qed.

Lemma st_bind_Halt {S A B} (m : st S A) (f : A -> st S B) s : m s = Halt -> (m ≫= f) s = Halt.
Proof. intros E. unfold mbind, st_bind. by rewrite E. Qed.

(** What a computation that returned went through. *)
Lemma bind_inv {S A B} (m : st S A) (f : A -> st S B) s b s2 :
  (m ≫= f) s = Ret (b, s2) -> exists a s1, m s = Ret (a, s1) /\ f a s1 = Ret (b, s2).
Proof. apply st_bind_Ret. Qed.

Lemma st_assoc {S A B C} (m : st S A) (f : A -> st S B) (g : B -> st S C) s : ((m ≫= f) ≫= g) s = (m ≫= (fun a => f a ≫= g)) s.
Proof. unfold mbind, st_bind. by destruct (m s) as [[a s1] | | |]. Qed.

Lemma lift_Ret {S A} (m : out A) (a : A) (s : S) : m = Ret a -> lift m s = Ret (a, s).
Proof. by intros ->. Qed.

(** ** Memory *)

Record kmem := mk_kmem { blocks : gmap Z (list Z); next_block : Z }.

Definition BLOCK : Z := 2 ^ 32.

Definition block (m : kmem) (a : Z) : out (list Z) := at_ptr (blocks m) (a / BLOCK).
Definition set_block (m : kmem) (a : Z) (b : list Z) : kmem := mk_kmem (<[a / BLOCK := b]> (blocks m)) (next_block m).

Definition mread (m : kmem) (a n : Z) : out (list Z) := b ← block m a; rd_bytes b (a mod BLOCK) n.
Definition mwrite (m : kmem) (a : Z) (l : list Z) : out kmem :=
  b ← block m a; b ← wr_bytes b (a mod BLOCK) l; mret (set_block m a b).

(** From an address on, to the end of its block. *)
Definition mrest (m : kmem) (a : Z) : out (list Z) := b ← block m a; mret (drop (Z.to_nat (a mod BLOCK)) b).

(** A new block with the given bytes. *)
Definition new_block (m : kmem) (b : list Z) : Z * kmem :=
  (next_block m * BLOCK, mk_kmem (<[next_block m := b]> (blocks m)) (next_block m + 1)).

Definition kzalloc (m : kmem) (size : Z) : Z * kmem := new_block m (replicate (Z.to_nat size) 0).
Definition kmemdup (m : kmem) (a size : Z) : out (Z * kmem) := b ← mread m a size; mret (new_block m b).
Definition kfree (m : kmem) (a : Z) : out kmem :=
  _ ← block m a; mret (mk_kmem (delete (a / BLOCK) (blocks m)) (next_block m)).

(** Blocks have numbers from 1 on, below the next one. *)
Definition mem_ok (m : kmem) : Prop := 0 < next_block m /\ forall k, next_block m <= k -> blocks m !! k = None.

Lemma block_Ret m a b : block m a = Ret b <-> a / BLOCK <> 0 /\ blocks m !! (a / BLOCK) = Some b.
Proof. apply at_ptr_Ret. Qed.

(** Addresses inside a block that starts at [a]. *)
Definition based (a : Z) : Prop := a mod BLOCK = 0.

Lemma based_off a i : based a -> 0 <= i < BLOCK -> (a + i) / BLOCK = a / BLOCK /\ (a + i) mod BLOCK = i.
Proof.
  unfold based. intros Ha Hi. change BLOCK with 4294967296 in *. Z.div_mod_to_equations. lia.
Qed.

Lemma based_block n : based (n * BLOCK).
Proof. unfold based. by apply Z.mod_mul. Qed.

Lemma block_off m a i : based a -> 0 <= i < BLOCK -> block m (a + i) = block m a.
Proof. intros Ha Hi. unfold block. by rewrite (proj1 (based_off a i Ha Hi)). Qed.

Lemma mread_off m a i n b : based a -> 0 <= i < BLOCK -> block m a = Ret b -> mread m (a + i) n = rd_bytes b i n.
Proof.
  intros Ha Hi Hb. unfold mread. rewrite block_off, Hb by done. rb. by rewrite (proj2 (based_off a i Ha Hi)).
Qed.

Lemma mwrite_off m a i l b : based a -> 0 <= i < BLOCK -> block m a = Ret b ->
  mwrite m (a + i) l = (b ← wr_bytes b i l; mret (set_block m a b)).
Proof.
  intros Ha Hi Hb. unfold mwrite. rewrite block_off, Hb by done. rb. rewrite (proj2 (based_off a i Ha Hi)).
  unfold set_block. by rewrite (proj1 (based_off a i Ha Hi)).
Qed.

Lemma block_set m a b : a / BLOCK <> 0 -> block (set_block m a b) a = Ret b.
Proof. intros Ha. apply block_Ret. split; [done |]. apply lookup_insert_eq. Qed.

Lemma block_set_ne m a c b : a / BLOCK <> c / BLOCK -> block (set_block m a b) c = block m c.
Proof. intros Ha. unfold block, at_ptr, set_block. cbn. by rewrite lookup_insert_ne. Qed.

Lemma set_block_twice m a b c : set_block (set_block m a b) a c = set_block m a c.
Proof. unfold set_block. cbn. by rewrite insert_insert_eq. Qed.

End Kmem.
