(* ===== verification/Netdev.v ===== *)
(** * Packets, network addresses and the card
    (net/netdev.c, crypto/random.c, drivers/net/rtl8139.c)

    Packets are objects at addresses, with their bytes in a block of the
    memory; the headers are read and written at their offsets in the packed
    structs.  The card's transmit side is the driver's record and its four
    pages; [wire] is what the card was told to send.  [upper] is the state of
    the layers above. *)

From S2P Require Import Prelude Bytes Netutil Kmem Hashmap.
Import Bytes Netutil Kmem.

Module Netdev.

(** ** Packets *)

Record layer := mk_layer { proto : Z; lsize : Z; lpacket : Z }.
Definition no_layer : layer := mk_layer 0 0 0.

Record packet := mk_packet {
  size : Z;
  flags : Z;
  link : Z;
  src_addr : Z;
  dst_addr : Z;
  src_port : Z;
  dst_port : Z;
  pnet : layer;
  transport : layer;
  app : layer
}.

Definition zero_packet : packet := mk_packet 0 0 0 0 0 0 0 no_layer no_layer no_layer.
Definition set_flags (v : Z) (p : packet) : packet :=
  mk_packet (size p) v (link p) (src_addr p) (dst_addr p) (src_port p) (dst_port p) (pnet p) (transport p) (app p).
Definition set_addrs (src dst : Z) (p : packet) : packet :=
  mk_packet (size p) (flags p) (link p) src dst (src_port p) (dst_port p) (pnet p) (transport p) (app p).
Definition set_ports (src dst : Z) (p : packet) : packet :=
  mk_packet (size p) (flags p) (link p) (src_addr p) (dst_addr p) src dst (pnet p) (transport p) (app p).
Definition set_net (l : layer) (p : packet) : packet :=
  mk_packet (size p) (flags p) (link p) (src_addr p) (dst_addr p) (src_port p) (dst_port p) l (transport p) (app p).
Definition set_transport (l : layer) (p : packet) : packet :=
  mk_packet (size p) (flags p) (link p) (src_addr p) (dst_addr p) (src_port p) (dst_port p) (pnet p) l (app p).
Definition set_app (l : layer) (p : packet) : packet :=
  mk_packet (size p) (flags p) (link p) (src_addr p) (dst_addr p) (src_port p) (dst_port p) (pnet p) (transport p) l.

(** [sizeof(ip_t)], and the offset of the address bytes in a [mac_t]. *)
Definition SIZEOF_IP : Z := 40.
Definition SIZEOF_MAC : Z := 16.
Definition MAC_B : Z := 8.

(** ** State *)

(** [netdev_info]; [our_ip] is the address of the object in it. *)
Record netdev_info := mk_info { mac : list Z; dhcp : Z; our_ip : Z; dhcp_done : bool; mtu : Z }.

Record rtl8139 := mk_rtl { tx_number : Z; tx_flag : Z; tx_buffer : list (list Z); tx_size : list Z; wire : list (list Z) }.

Section netdev.
Context {X : Type}.

Record net := mk_net {
  mem : kmem;
  pkts : gmap Z packet;
  info : netdev_info;
  addrs : option Hashmap.hashmap;
  arp_requests : option Hashmap.hashmap;
  nic : rtl8139;
  rnd : Z;
  upper : X
}.

Definition set_mem (v : kmem) (s : net) : net := mk_net v (pkts s) (info s) (addrs s) (arp_requests s) (nic s) (rnd s) (upper s).
Definition set_pkts (v : gmap Z packet) (s : net) : net := mk_net (mem s) v (info s) (addrs s) (arp_requests s) (nic s) (rnd s) (upper s).
Definition set_info (v : netdev_info) (s : net) : net := mk_net (mem s) (pkts s) v (addrs s) (arp_requests s) (nic s) (rnd s) (upper s).
Definition set_cache (v : option Hashmap.hashmap) (s : net) : net := mk_net (mem s) (pkts s) (info s) v (arp_requests s) (nic s) (rnd s) (upper s).
Definition set_arp (v : option Hashmap.hashmap) (s : net) : net := mk_net (mem s) (pkts s) (info s) (addrs s) v (nic s) (rnd s) (upper s).
Definition set_nic (v : rtl8139) (s : net) : net := mk_net (mem s) (pkts s) (info s) (addrs s) (arp_requests s) v (rnd s) (upper s).
Definition set_rnd (v : Z) (s : net) : net := mk_net (mem s) (pkts s) (info s) (addrs s) (arp_requests s) (nic s) v (upper s).
Definition set_upper (v : X) (s : net) : net := mk_net (mem s) (pkts s) (info s) (addrs s) (arp_requests s) (nic s) (rnd s) v.

Abbreviation nt := (st net).

Definition rdm (a n : Z) : nt (list Z) := fun s => b ← mread (mem s) a n; Ret (b, s).
Definition wrm (a : Z) (l : list Z) : nt unit := fun s => m ← mwrite (mem s) a l; Ret (tt, set_mem m s).
Definition rdle (a n : Z) : nt Z := b ← rdm a n; mret (le_val b).
Definition wrle (a n v : Z) : nt unit := wrm a (le_bytes (Z.to_nat n) v).
Definition cpy (dst src n : Z) : nt unit := b ← rdm src n; wrm dst b.
Definition zalloc (n : Z) : nt Z := fun s => let '(a, m) := kzalloc (mem s) n in Ret (a, set_mem m s).
Definition memdup (a n : Z) : nt Z := fun s => '(b, m) ← kmemdup (mem s) a n; Ret (b, set_mem m s).
Definition free (a : Z) : nt unit := fun s => m ← kfree (mem s) a; Ret (tt, set_mem m s).

Definition get_pkt (p : Z) : nt packet := fun s => k ← at_ptr (pkts s) p; Ret (k, s).
Definition put_pkt (p : Z) (k : packet) : nt unit := modify (fun s => set_pkts (<[p := k]> (pkts s)) s).

(** The key of a map, given by a pointer. *)
Definition key_at (a : Z) : nt (option (list Z)) :=
  if a =? 0 then mret None else fun s => b ← mrest (mem s) a; Ret (Some b, s).

(** ** Random numbers *)

Definition random_gen32 : nt Z :=
  next ← gets rnd;
  let next := u64 (u64 (next * 1103515245) + 12345) in
  _ ← modify (set_rnd next);
  mret (u32 (next / 65536) mod 32768).
Definition random_gen16 : nt Z := r ← random_gen32; mret (Z.land r 0xffff).

(** ** The card *)

(** Writing the size to the status register of a descriptor sends its
    page. *)
Definition rtl8139_cmd_tx (r : rtl8139) : out rtl8139 :=
  let n := tx_number r in
  let next := if n + 1 =? 4 then 0 else n + 1 in
  sz ← rd (tx_size r) n; page ← rd (tx_buffer r) n;
  frame ← rd_bytes page 0 sz;
  mret (mk_rtl next (tx_flag r) (tx_buffer r) (tx_size r) (wire r ++ [frame])).

(** While the flag of the next descriptor is set. *)
Fixpoint tx_loop (fuel : nat) (r : rtl8139) : out rtl8139 :=
  match fuel with
  | O => Spin
  | S fuel =>
      if negb (Z.land (tx_flag r) (Z.shiftl 1 (tx_number r)) =? 0) then r ← rtl8139_cmd_tx r; tx_loop fuel r else mret r
  end.

Definition __handle_tx (r : rtl8139) : out rtl8139 :=
  let tx := if negb (tx_number r =? 0) then tx_number r - 1 else 3 in
  sizes ← wr (tx_size r) tx 0;
  tx_loop 5 (mk_rtl (tx_number r) (Z.land (tx_flag r) (Z.lnot (Z.shiftl 1 tx))) (tx_buffer r) sizes (wire r)).

Definition free_desc (r : rtl8139) (i : Z) : bool := Z.land (tx_flag r) (Z.shiftl 1 i) =? 0.

Definition rtl8139_alloc_tx (r : rtl8139) : Z :=
  match List.find (free_desc r) (seqZ (tx_number r) (4 - tx_number r)) with
  | Some i => i
  | None => default 0xff (List.find (free_desc r) (seqZ 0 (tx_number r)))
  end.

(** [size] is a [size_t]. *)
Definition rtl8139_send_pkt (data size : Z) : nt Z :=
  r ← gets nic;
  let index := rtl8139_alloc_tx r in
  page ← lift (rd (tx_buffer r) index);
  b ← rdm data size;
  page ← lift (wr_bytes page 0 b);
  pages ← lift (wr (tx_buffer r) index page);
  sizes ← lift (wr (tx_size r) index size);
  let r := mk_rtl (tx_number r) (tx_flag r) pages sizes (wire r) in
  r ← (if index =? tx_number r then lift (rtl8139_cmd_tx r) else mret r);
  _ ← modify (set_nic r);
  mret 0.

(** ** Packets *)

Definition new_packet (k : packet) : nt Z := fun s =>
  let '(p, m) := new_block (mem s) [] in Ret (p, set_pkts (<[p := k]> (pkts s)) (set_mem m s)).

Definition netdev_alloc_pkt_in (sz : Z) : nt Z :=
  _ ← assert (negb (sz =? 0));
  link ← zalloc sz;
  new_packet (mk_packet (s16 sz) 0 link 0 0 0 0 no_layer no_layer no_layer).

Definition net_hdr (net : Z) : Z :=
  if net =? PROTO_IPV4 then SIZEOF_IPV4 else if net =? PROTO_IPV6 then SIZEOF_IPV6 else if net =? PROTO_ARP then SIZEOF_ARP else 0.
Definition transport_hdr (transport : Z) : Z :=
  if transport =? PROTO_UDP then SIZEOF_UDP else if transport =? PROTO_TCP then SIZEOF_TCP else if transport =? PROTO_ICMP then SIZEOF_ICMP else 0.

Definition netdev_alloc_pkt_L5 (net transport sz : Z) : nt Z :=
  let net_size := net_hdr net in
  let transport_size := transport_hdr transport in
  let pkt_size := u64 (SIZEOF_ETH + sz + net_size + transport_size) in
  link ← zalloc pkt_size;
  let n := mk_layer (u16 net) (u16 (pkt_size - SIZEOF_ETH)) (link + SIZEOF_ETH) in
  let t := mk_layer (u16 transport) (u16 (lsize n - net_size)) (lpacket n + net_size) in
  let a := mk_layer PROTO_UNDEF (u16 (lsize t - transport_size)) (lpacket t + transport_size) in
  new_packet (mk_packet (s16 pkt_size) 0 link 0 0 0 0 n t a).

Definition netdev_alloc_pkt_L4 (net sz : Z) : nt Z :=
  let net_size := net_hdr net in
  let pkt_size := u64 (SIZEOF_ETH + sz + net_size) in
  link ← zalloc pkt_size;
  let n := mk_layer 0 (u16 (pkt_size - SIZEOF_ETH)) (link + SIZEOF_ETH) in
  let t := mk_layer 0 (u16 (lsize n - net_size)) (lpacket n + net_size) in
  new_packet (mk_packet (s16 pkt_size) 0 link 0 0 0 0 n t no_layer).

(** The buffer has [pkt->size] bytes, a [short]. *)
Definition netdev_alloc_pkt_L3 (sz : Z) : nt Z :=
  let pkt_size := s16 (SIZEOF_ETH + sz) in
  if pkt_size <? 0 then halt
  else
    link ← zalloc pkt_size;
    new_packet (mk_packet pkt_size 0 link 0 0 0 0 (mk_layer 0 (u16 sz) (link + SIZEOF_ETH)) no_layer no_layer).

Definition netdev_dealloc_pkt (p : Z) : nt Z :=
  _ ← assert (negb (p =? 0));
  k ← get_pkt p;
  _ ← free (link k);
  _ ← modify (fun s => set_pkts (delete p (pkts s)) s);
  mret 0.

(** ** Addresses *)

Definition netdev_get_mac : nt (list Z) := i ← gets info; mret (mac i).
(** Nothing is returned once [dhcp_done] is set. *)
Definition netdev_get_ip : nt Z := i ← gets info; if dhcp_done i then fail else mret (our_ip i).
Definition netdev_get_mtu : nt Z := i ← gets info; mret (mtu i).

Definition netdev_set_hw_info (hmac hmtu : Z) : nt unit :=
  let b k := Z.land (Z.shiftr hmac k) 0xff in
  modify (fun s => set_info (mk_info [b 16; b 24; b 32; b 40; b 0; b 8] (dhcp (info s)) (our_ip (info s)) (dhcp_done (info s)) hmtu) s).

(** What [kmalloc] gives for a new item of a map; all of it is written. *)
Definition item : option Hashmap.hm_item := Some (Hashmap.mk_item 0 0 false).

(** The number is put together from the octets, and its own bytes are the
    key. *)
Definition netdev_add_ipv4_addr_pair (hw ipv4 : Z) : nt unit :=
  b ← rdm ipv4 4;
  match b with
  | [b0; b1; b2; b3] =>
      let ip := Z.lor (Z.lor (Z.lor (Z.shiftl b0 24) (Z.shiftl b1 16)) (Z.shiftl b2 8)) b3 in
      h ← gets addrs;
      '(_, h) ← lift (Hashmap.hm_insert item h (Some (le_bytes 4 ip)) hw);
      modify (set_cache h)
  | _ => fail
  end.

(** Offsets in [dhcp_info_t]. *)
Definition SIZEOF_DHCP_INFO : Z := 40.
Definition INFO_ADDR : Z := 0.
Definition INFO_ROUTER : Z := 4.
Definition INFO_DNS : Z := 8.
Definition INFO_BROADCAST : Z := 12.
Definition INFO_SB_MASK : Z := 16.
Definition INFO_LEASE : Z := 20.
Definition INFO_MAC : Z := 24.

Definition netdev_add_dhcp_info (dinfo : Z) : nt unit :=
  d ← memdup dinfo SIZEOF_DHCP_INFO;
  _ ← modify (fun s => set_info (mk_info (mac (info s)) d (our_ip (info s)) (dhcp_done (info s)) (mtu (info s))) s);
  i ← gets info;
  _ ← cpy (our_ip i) (dinfo + INFO_ADDR) 4;
  key ← key_at (dinfo + INFO_ROUTER);
  h ← gets addrs;
  '(_, h) ← lift (Hashmap.hm_insert item h key (dinfo + INFO_MAC));
  modify (set_cache h).

(** [ip->ipv4] is at the start of the object. *)
Definition netdev_resolve_address (ip : Z) : nt Z :=
  key ← key_at ip;
  h ← gets addrs;
  ret ← lift (Hashmap.hm_get h key);
  if ret =? 0 then i ← gets info; if dhcp i =? 0 then fail else mret (dhcp i + INFO_MAC)
  else mret ret.

(** ** Working on one block *)

Definition with_block (s : net) (a : Z) (b : list Z) : net := set_mem (set_block (mem s) a b) s.

Lemma with_block_twice s a b c : with_block (with_block s a b) a c = with_block s a c.
Proof. unfold with_block, set_mem. cbn. by rewrite set_block_twice. Qed.

Lemma block_with s a b c : block (mem s) a = Ret c -> block (mem (with_block s a b)) a = Ret b.
Proof. intros [Ha _]%block_Ret. by apply block_set. Qed.

Lemma block_with_ne s a b c : a / BLOCK <> c / BLOCK -> block (mem (with_block s a b)) c = block (mem s) c.
Proof. apply block_set_ne. Qed.

Lemma rdm_at s a b x i n : block (mem s) a = Ret b -> based a -> x = a + i -> 0 <= i < BLOCK ->
  rdm x n s = (l ← rd_bytes b i n; Ret (l, s)).
Proof. intros Hb Ha -> Hi. unfold rdm. by rewrite (mread_off (mem s) a i n b) by done. Qed.

Lemma rdm_sub s a b x i n l : block (mem s) a = Ret b -> based a -> x = a + i -> 0 <= i < BLOCK -> rd_bytes b i n = Ret l -> rdm x n s = Ret (l, s).
Proof. intros Hb Ha Hx Hi E. rewrite (rdm_at s a b x i n) by done. by rewrite E. Qed.

Lemma wrm_at s a b x i l : block (mem s) a = Ret b -> based a -> x = a + i -> 0 <= i -> i + zlen l <= zlen b -> zlen b < BLOCK -> l <> [] ->
  exists b', wr_bytes b i l = Ret b' /\ zlen b' = zlen b /\ wrm x l s = Ret (tt, with_block s a b').
Proof.
  intros Hb Ha -> Hi Hl Hz Hne. destruct (wr_bytes_ok b i l Hi Hl) as [b' E]. exists b'. split; [done |]. split; [by apply zlen_wr_bytes in E |].
  assert (0 < zlen l) by (destruct l; [done | unfold zlen; cbn; lia]).
  unfold wrm. rewrite (mwrite_off (mem s) a i l b) by (done || lia). rewrite E. by rb.
Qed.

Lemma wrle_at s a b x i n v : block (mem s) a = Ret b -> based a -> x = a + i -> 0 <= i -> 0 < n -> i + n <= zlen b -> zlen b < BLOCK ->
  exists b', wr_le b i n v = Ret b' /\ zlen b' = zlen b /\ wrle x n v s = Ret (tt, with_block s a b').
Proof.
  intros Hb Ha Hx Hi Hn Hl Hz. apply (wrm_at s a b x i); try done; [rewrite zlen_le_bytes; lia |].
  destruct (Z.to_nat n) eqn:E; [lia | done].
Qed.

Lemma rdle_at s a b x i n v : block (mem s) a = Ret b -> based a -> x = a + i -> 0 <= i < BLOCK -> rd_le b i n = Ret v -> rdle x n s = Ret (v, s).
Proof.
  intros Hb Ha Hx Hi Hv. unfold rdle. unfold rd_le in Hv. apply bind_Ret in Hv as (l & El & Ev).
  rewrite (st_step _ _ s l s) by (rewrite (rdm_at s a b x i n) by done; by rewrite El). by injection Ev as <-.
Qed.

Lemma rdm_Ret s a n l s' : rdm a n s = Ret (l, s') -> zlen l = n /\ s' = s.
Proof.
  unfold rdm, mread. intros E. apply bind_Ret in E as (k & E & E2). injection E2 as <- <-.
  apply bind_Ret in E as (b & _ & E). by apply zlen_rd_bytes in E.
Qed.

(** The card when no descriptor is in use: the four pages have their size. *)
Definition nic_ok (r : rtl8139) : Prop :=
  tx_flag r = 0 /\ 0 <= tx_number r < 4 /\ zlen (tx_buffer r) = 4 /\ zlen (tx_size r) = 4 /\ Forall (fun p => zlen p = 4096) (tx_buffer r).

Lemma rtl8139_send s data b n : nic_ok (nic s) -> block (mem s) data = Ret b -> based data -> 0 <= n <= zlen b -> n <= 4096 ->
  exists r, rtl8139_send_pkt data n s = Ret (0, set_nic r s) /\ nic_ok r /\ wire r = wire (nic s) ++ [take (Z.to_nat n) b].
Proof.
  intros (Hf & Hn & Hb4 & Hs4 & Hp) Hb Ha Hnb Hn4. set (r := nic s) in *.
  assert (Ei : rtl8139_alloc_tx r = tx_number r).
  { unfold rtl8139_alloc_tx. rewrite seqZ_cons by lia. cbn [List.find]. unfold free_desc. by rewrite Hf, Z.land_0_l. }
  destruct (rd_in (tx_buffer r) (tx_number r) ltac:(lia)) as (page & Erd & Epg).
  assert (Hpg : zlen page = 4096) by (rewrite Forall_lookup in Hp; by apply (Hp _ _ Epg)).
  set (frame := take (Z.to_nat n) b).
  assert (Hfr : zlen frame = n) by (unfold frame, zlen in *; rewrite length_take; lia).
  destruct (wr_bytes_ok page 0 frame) as [page' Ew]; [lia | lia |].
  pose proof (zlen_wr_bytes _ _ _ _ Ew) as Hpg'.
  unfold rtl8139_send_pkt. fold r. rewrite (st_step (gets nic) _ s r s eq_refl). rewrite Ei.
  rewrite (st_step _ _ _ page s (lift_Ret _ _ _ Erd)).
  rewrite (st_step (rdm data n) _ s frame s) by (rewrite (rdm_at s data b data 0 n) by (done || lia || (unfold BLOCK; lia)); rewrite rd_bytes_in by lia; by rb).
  rewrite (st_step _ _ _ page' s (lift_Ret _ _ _ Ew)).
  rewrite (st_step _ _ _ _ s (lift_Ret _ _ _ (wr_in (tx_buffer r) (tx_number r) page' ltac:(lia)))).
  rewrite (st_step _ _ _ _ s (lift_Ret _ _ _ (wr_in (tx_size r) (tx_number r) n ltac:(lia)))).
  rewrite Z.eqb_refl. set (r1 := mk_rtl _ _ _ _ _).
  assert (Ec : rtl8139_cmd_tx r1 = Ret (mk_rtl (if tx_number r + 1 =? 4 then 0 else tx_number r + 1) 0 (tx_buffer r1) (tx_size r1) (wire r ++ [frame]))).
  { unfold rtl8139_cmd_tx. cbn [r1 tx_number tx_size tx_buffer tx_flag wire].
    rewrite (rd_wr_eq (tx_size r) (tx_number r) n) by (apply wr_in; lia). rb.
    rewrite (rd_wr_eq (tx_buffer r) (tx_number r) page') by (apply wr_in; lia). rb.
    pose proof (rd_wr_bytes_eq _ _ _ _ Ew) as Er. rewrite Hfr in Er. rewrite Er. rb. by rewrite Hf. }
  rewrite (st_step _ _ _ _ s (lift_Ret _ _ _ Ec)). eexists. split; [reflexivity |]. split; [| done].
  unfold nic_ok. cbn [r1 tx_number tx_size tx_buffer tx_flag]. unfold zlen in *. rewrite !length_insert.
  split_and!; try done; try (destruct (Z.eqb_spec (tx_number r + 1) 4); lia).
  apply Forall_insert; [done | lia].
Qed.

(** A packet is freed with the block of its frame. *)
Definition freed (s : net) (p l : Z) : net :=
  set_pkts (delete p (pkts s)) (set_mem (mk_kmem (delete (l / BLOCK) (blocks (mem s))) (next_block (mem s))) s).

Lemma dealloc_at s p k b : at_ptr (pkts s) p = Ret k -> block (mem s) (link k) = Ret b ->
  netdev_dealloc_pkt p s = Ret (0, freed s p (link k)).
Proof.
  intros Hp Hb. apply at_ptr_Ret in Hp as Hp'. destruct Hp' as [Hp0 _]. unfold netdev_dealloc_pkt, assert, free, get_pkt, modify.
  rewrite (proj2 (Z.eqb_neq _ _) Hp0). rewrite (st_step _ _ s tt s eq_refl). rewrite (st_step _ _ s k s) by (by rewrite Hp).
  erewrite (st_step _ _ s tt) by (unfold kfree; rewrite Hb; reflexivity). by erewrite st_step by reflexivity.
Qed.

End netdev.
#[global] Arguments net : clear implicits.

End Netdev.
