(* ===== verification/Ipv4.v ===== *)
(** * Ethernet, IPv4 and UDP output (net/eth.c, net/ipv4.c, net/udp.c, net/tcp.c)

    The path of an outgoing packet: each layer writes its header in front of
    the payload it was given, and the frame goes to the card. *)

From S2P Require Import Prelude Bytes Netutil Kmem Hashmap Netdev.
Import Bytes Netutil Kmem Netdev.

Module Ipv4.

(** ** Ethernet *)

Definition ETH_DST : Z := 0.
Definition ETH_SRC : Z := 6.
Definition ETH_TYPE : Z := 12.

(** ** IPv4 *)

Definition IPV4_FRAG_MASK : Z := 0x1fff.
Definition IPV4_MORE_FRAGS : Z := 0x2000.
Definition IPV4_PAYLOAD_MAX : Z := 65515.

Definition IP_LEN : Z := 2.
Definition IP_IDEN : Z := 4.
Definition IP_F_OFF : Z := 6.
Definition IP_TTL : Z := 8.
Definition IP_PROTO : Z := 9.
Definition IP_CHECKSUM : Z := 10.
Definition IP_SRC : Z := 12.
Definition IP_DST : Z := 16.

(** The 16-bit words of a block, as the processor reads them. *)
Fixpoint words (l : list Z) : list Z := match l with a :: b :: l => (a + 256 * b) :: words l | _ => [] end.

Definition sum32 (l : list Z) : Z := foldl (fun sum w => u32 (sum + w)) 0 l.

(** One carry is added back. *)
Definition __calculate_checksum (header : list Z) : Z :=
  let sum := sum32 (words header) in
  let carry := Z.shiftr (Z.land sum 0xff0000) 16 in
  u16 (Z.lnot (u32 (carry + sum))).

Definition UDP_SRC : Z := 0.
Definition UDP_DST : Z := 2.
Definition UDP_LEN : Z := 4.
Definition UDP_CHECKSUM : Z := 6.

Section ipv4.
Context {X : Type}.
Abbreviation nt := (st (net X)).

(** ** The layers *)

Definition eth_send_pkt (p : Z) : nt Z :=
  _ ← assert (negb (p =? 0));
  k ← get_pkt p;
  let eth := link k in
  _ ← (if negb (proto (pnet k) =? PROTO_ARP)
       then dst ← netdev_resolve_address (dst_addr k); cpy (eth + ETH_DST) (dst + MAC_B) 6
       else mret tt);
  m ← netdev_get_mac;
  _ ← wrm (eth + ETH_SRC) m;
  _ ← wrle (eth + ETH_TYPE) 2 (h2n_16 (proto (pnet k)));
  _ ← rtl8139_send_pkt eth (u64 (size k));
  _ ← (if Z.land (flags k) NF_REUSE =? 0 then netdev_dealloc_pkt p else mret 0);
  mret 0.

Definition ipv4_checksum (dgram : Z) : nt unit :=
  h ← rdm dgram 20; wrle (dgram + IP_CHECKSUM) 2 (__calculate_checksum h).

(** The last fragment and what comes before the sending of each one. *)
Definition frag_send (frag dgram pkt_payload len f_off ptr n : Z) : nt Z :=
  _ ← wrle (dgram + IP_LEN) 2 (h2n_16 len);
  _ ← wrle (dgram + IP_F_OFF) 2 (h2n_16 f_off);
  _ ← wrle (dgram + IP_CHECKSUM) 2 0;
  _ ← ipv4_checksum dgram;
  _ ← cpy (dgram + SIZEOF_IPV4) (pkt_payload + ptr) n;
  eth_send_pkt frag.

(** [left] and [ptr] are 16 bits wide. *)
Fixpoint frag_loop (fuel : nat) (frag dgram pkt_payload mtu left ptr : Z) : nt (Z * Z) :=
  match fuel with
  | O => fun _ => Spin
  | S fuel =>
      if mtu <? left then
        _ ← frag_send frag dgram pkt_payload (u16 (mtu + IPV4_HDR_SIZE)) (u16 (Z.lor IPV4_MORE_FRAGS (ptr / 8))) ptr mtu;
        frag_loop fuel frag dgram pkt_payload mtu (u16 (left - mtu)) (u16 (ptr + mtu))
      else mret (left, ptr)
  end.

(** The packet all fragments use, with a copy of the header. *)
Definition frag_setup (dgram mtu : Z) : nt (Z * packet) :=
  frag ← netdev_alloc_pkt_L3 (mtu + IPV4_HDR_SIZE);
  k ← get_pkt frag;
  _ ← put_pkt frag (set_flags NF_REUSE k);
  _ ← cpy (lpacket (pnet k)) dgram IPV4_HDR_SIZE;
  mret (frag, k).

Definition ipv4_fragment (p dgram mtu net_size : Z) : nt Z :=
  '(frag, k) ← frag_setup dgram mtu;
  let ipv4 := lpacket (pnet k) in
  let left := u16 (net_size - IPV4_HDR_SIZE) in
  '(left, ptr) ← frag_loop (S (Z.to_nat left)) frag ipv4 (dgram + SIZEOF_IPV4) mtu left 0;
  ret ← frag_send frag ipv4 (dgram + SIZEOF_IPV4) (u16 (left + IPV4_HDR_SIZE)) (ptr / 8) ptr left;
  _ ← netdev_dealloc_pkt p;
  mret ret.

(** The fields the sender fills in. *)
Definition ipv4_header (k : packet) (dgram : Z) : nt unit :=
  _ ← cpy (dgram + IP_SRC) (src_addr k) 4;
  _ ← cpy (dgram + IP_DST) (dst_addr k) 4;
  b ← rdle dgram 1;
  _ ← wrle dgram 1 (Z.lor (Z.land b 0xf0) 5);
  b ← rdle dgram 1;
  _ ← wrle dgram 1 (Z.lor (Z.land b 0x0f) (Z.shiftl 4 4));
  _ ← wrle (dgram + IP_TTL) 1 128;
  r ← random_gen16;
  _ ← wrle (dgram + IP_IDEN) 2 (h2n_16 r);
  _ ← wrle (dgram + IP_PROTO) 1 (u8 (proto (transport k)));
  _ ← wrle (dgram + IP_LEN) 2 (h2n_16 (lsize (pnet k)));
  ipv4_checksum dgram.

Definition ipv4_send_pkt (p : Z) : nt Z :=
  _ ← assert (negb (p =? 0));
  k ← get_pkt p;
  let net_size := lsize (pnet k) in
  _ ← assert (net_size <=? IPV4_PAYLOAD_MAX);
  let dgram := lpacket (pnet k) in
  mtu ← netdev_get_mtu;
  let mtu := u16 (mtu - SIZEOF_IPV4) in
  _ ← ipv4_header k dgram;
  if net_size <? mtu - IPV4_HDR_SIZE then eth_send_pkt p else ipv4_fragment p dgram mtu net_size.

(** [ipv6_send_pkt] stops the CPU. *)
Definition ipv6_send_pkt (p : Z) : nt Z := halt.

Definition udp_send_pkt (p : Z) : nt Z :=
  _ ← assert (negb (p =? 0));
  k ← get_pkt p;
  let udp := lpacket (transport k) in
  _ ← wrle (udp + UDP_SRC) 2 (h2n_16 (src_port k));
  _ ← wrle (udp + UDP_DST) 2 (h2n_16 (dst_port k));
  _ ← wrle (udp + UDP_LEN) 2 (h2n_16 (lsize (transport k)));
  _ ← wrle (udp + UDP_CHECKSUM) 2 0;
  if proto (pnet k) =? PROTO_IPV4 then ipv4_send_pkt p else ipv6_send_pkt p.

(** [tcp_send_pkt] (tcp.c) has the last two lines only. *)
Definition tcp_send_pkt (p : Z) : nt Z :=
  k ← get_pkt p;
  if proto (pnet k) =? PROTO_IPV4 then ipv4_send_pkt p else ipv6_send_pkt p.

End ipv4.

(** ** The checksum *)

Definition total (l : list Z) : Z := foldr Z.add 0 l.

(** The Internet checksum (RFC 1071): the carries are added back until none
    is left. *)
Fixpoint fold16 (fuel : nat) (s : Z) : Z :=
  match fuel with O => s | S fuel => if s <? 65536 then s else fold16 fuel (s / 65536 + s mod 65536) end.
Definition internet_checksum (ws : list Z) : Z := 65535 - fold16 3 (total ws).

Lemma words_range l : Forall is_byte l -> Forall (fun w => 0 <= w < 65536) (words l).
Proof.
  intros Hl. assert (H : forall n l, (length l <= n)%nat -> Forall is_byte l -> Forall (fun w => 0 <= w < 65536) (words l)); [| by apply (H (length l))].
  clear. induction n as [| n IH]; intros [| a [| b l]] Hn Hl; cbn [words]; try apply Forall_nil_2; [cbn in Hn; lia |].
  apply Forall_cons in Hl as [Ha Hl]. apply Forall_cons in Hl as [Hb Hl]. apply Forall_cons. unfold is_byte in *. split; [lia |].
  apply IH; [cbn in Hn; lia | done].
Qed.

Lemma total_range l : Forall (fun w => 0 <= w < 65536) l -> 0 <= total l <= 65535 * zlen l.
Proof. unfold zlen. induction 1 as [| w l Hw _ IH]; cbn [total foldr length]; [lia |]. unfold total in IH. lia. Qed.

Lemma length_words l n : zlen l = 2 * n -> zlen (words l) = n.
Proof.
  revert n. assert (H : forall m l n, (length l <= m)%nat -> zlen l = 2 * n -> zlen (words l) = n); [| intros n; by apply (H (length l))].
  induction m as [| m IH]; intros [| a [| b k]] n Hm Hl; unfold zlen in *; cbn in Hm, Hl |- *; try lia.
  pose proof (IH k (n - 1) ltac:(lia) ltac:(lia)); lia.
Qed.

Lemma sum32_total l : Forall (fun w => 0 <= w < 65536) l -> total l < 2 ^ 32 -> sum32 l = total l.
Proof.
  assert (H : forall l acc, Forall (fun w => 0 <= w < 65536) l -> 0 <= acc -> acc + total l < 2 ^ 32 ->
    foldl (fun sum w => u32 (sum + w)) acc l = acc + total l).
  { clear. induction l as [| w l IH]; intros acc Hl Hacc Hs; cbn [foldl total foldr] in *; [lia |].
    apply Forall_cons in Hl as [Hw Hl]. pose proof (total_range l Hl). pose proof (zlen_nonneg l). unfold total in *.
    unfold u32. rewrite wrap_small by (unfold in_u; lia). rewrite IH by (done || lia). lia. }
  intros Hl Hs. unfold sum32. rewrite H by (done || lia). lia.
Qed.

Lemma fold16_step n s : fold16 (S n) s = if s <? 65536 then s else fold16 n (s / 65536 + s mod 65536).
Proof. done. Qed.

Lemma fold16_once s : 0 <= s < 2 ^ 24 -> fold16 3 s = let x := s / 65536 + s mod 65536 in if x <? 65536 then x else x - 65535.
Proof.
  intros Hs. rewrite fold16_step. cbn zeta. set (x := s / 65536 + s mod 65536).
  assert (Hx : 0 <= x < 2 * 65536 - 65280) by (unfold x; Z.div_mod_to_equations; lia).
  destruct (Z.ltb_spec s 65536) as [Hlt |].
  - assert (E : x = s) by (unfold x; rewrite Z.div_small, Z.mod_small by lia; lia). by rewrite E, ltb_true.
  - rewrite fold16_step. destruct (Z.ltb_spec x 65536); [done |].
    assert (Hy : x / 65536 = 1) by (Z.div_mod_to_equations; lia). assert (Hm : x mod 65536 = x - 65536) by (Z.div_mod_to_equations; lia).
    rewrite fold16_step, Hy, Hm, ltb_true by lia. lia.
Qed.

(** What both checksums of the stack compute, for sums below 2^24. *)
Lemma one_carry_checksum ws : Forall (fun w => 0 <= w < 65536) ws -> total ws < 2 ^ 24 ->
  u16 (Z.lnot (u32 (Z.shiftr (Z.land (sum32 ws) 0xff0000) 16 + sum32 ws))) =
  internet_checksum ws + (if 65536 <=? total ws / 65536 + total ws mod 65536 then 1 else 0).
Proof.
  intros Hws Hs. rewrite sum32_total by (done || lia). pose proof (total_range ws Hws) as Hr. set (s := total ws) in *.
  assert (Ec : Z.shiftr (Z.land s 0xff0000) 16 = s / 65536).
  { change 0xff0000 with (Z.shiftl 255 16). rewrite land_byte, Z.shiftr_shiftl_l, Z.shiftl_0_r by done.
    change (2 ^ 16) with 65536. apply Z.mod_small. Z.div_mod_to_equations. lia. }
  rewrite Ec. unfold internet_checksum. fold s. rewrite fold16_once by lia. cbn zeta.
  unfold u32. rewrite wrap_small by (unfold in_u; Z.div_mod_to_equations; lia).
  unfold u16, wrap, Z.lnot. change (2 ^ 16) with 65536.
  destruct (Z.ltb_spec (s / 65536 + s mod 65536) 65536), (Z.leb_spec 65536 (s / 65536 + s mod 65536)); try lia; Z.div_mod_to_equations; lia.
Qed.

(** C25: the checksum of a header is the Internet checksum of its ten words,
    except that the carry of adding the carries back is dropped: it is then
    one too large. *)
Theorem ipv4_checksum_rfc1071 (h : list Z) :
  Forall is_byte h -> zlen h = 20 ->
  __calculate_checksum h = internet_checksum (words h) +
    (if 65536 <=? total (words h) / 65536 + total (words h) mod 65536 then 1 else 0).
Proof.
  intros Hb Hl. pose proof (words_range h Hb) as Hw. pose proof (total_range _ Hw) as Hr.
  rewrite (length_words h 10) in Hr by done. unfold __calculate_checksum. cbn zeta. apply one_carry_checksum; [done | lia].
Qed.

(** Two headers: one of a usual datagram and one whose carries carry. *)
Definition usual_header : list Z := [0x45; 0; 0; 0x3c; 0x1c; 0x46; 0x40; 0; 0x40; 6; 0; 0; 172; 16; 10; 99; 172; 16; 10; 12].
Definition carry_header : list Z := [0xff; 0xff; 0xff; 0xff; 0xff; 0xff; 1; 0; 0; 0; 0; 0; 0; 0; 0; 0; 0; 0; 0; 0].

Lemma ipv4_checksum_rfc1071_witness :
  __calculate_checksum usual_header = internet_checksum (words usual_header) /\
  __calculate_checksum carry_header = internet_checksum (words carry_header) + 1.
Proof.
  split.
  - rewrite (ipv4_checksum_rfc1071 usual_header); [vm_compute; done | repeat (apply Forall_cons_2; [unfold is_byte; lia |]); apply Forall_nil_2 | done].
  - rewrite (ipv4_checksum_rfc1071 carry_header); [vm_compute; done | repeat (apply Forall_cons_2; [unfold is_byte; lia |]); apply Forall_nil_2 | done].
Defined.

(** ** Sending a frame *)

Section send.
Context {X : Type}.
Implicit Types s : net X.

(** The head of a frame; the rest is as it was. *)
Definition framed_as (dst src : list Z) (type : Z) (b f : list Z) : Prop :=
  zlen f = zlen b /\ rd_bytes f 0 6 = Ret dst /\ rd_bytes f 6 6 = Ret src /\ rd_le f 12 2 = Ret type /\
  forall a n, 14 <= a -> rd_bytes f a n = rd_bytes b a n.

(** A packet that is kept: the frame is written in its block and sent. *)
Lemma eth_send_kept s p k b dst m : at_ptr (pkts s) p = Ret k -> Z.land (flags k) NF_REUSE <> 0 -> proto (pnet k) <> PROTO_ARP ->
  block (mem s) (link k) = Ret b -> based (link k) -> size k = zlen b -> 14 <= zlen b <= 4096 ->
  netdev_resolve_address (dst_addr k) s = Ret (m, s) -> rdm (m + MAC_B) 6 s = Ret (dst, s) -> zlen dst = 6 -> zlen (mac (info s)) = 6 -> nic_ok (nic s) ->
  exists r f, eth_send_pkt p s = Ret (0, set_nic r (with_block s (link k) f)) /\ nic_ok r /\ wire r = wire (nic s) ++ [f] /\
    framed_as dst (mac (info s)) (h2n_16 (proto (pnet k))) b f.
Proof.
  intros Hp Hfl Hpr Hb Hba Hsz Hlen Hres Hdst Hd6 Hm6 Hnic. apply at_ptr_Ret in Hp as Hp0. destruct Hp0 as [Hp0 _].
  assert (HB : zlen b < BLOCK) by (unfold BLOCK; lia).
  destruct (wrm_at s (link k) b (link k + ETH_DST) 0 dst Hb Hba) as (b1 & W1 & Z1 & E1); [unfold ETH_DST; lia .. | lia | intros ->; done |].
  pose proof (block_with s (link k) b1 b Hb) as Hb1.
  destruct (wrm_at _ (link k) b1 (link k + ETH_SRC) 6 (mac (info s)) Hb1 Hba) as (b2 & W2 & Z2 & E2); [unfold ETH_SRC; lia .. | lia | intros Em; by rewrite Em in Hm6 |].
  rewrite with_block_twice in E2. pose proof (block_with s (link k) b2 b Hb) as Hb2.
  destruct (wrle_at _ (link k) b2 (link k + ETH_TYPE) 12 2 (h2n_16 (proto (pnet k))) Hb2 Hba) as (b3 & W3 & Z3 & E3); [unfold ETH_TYPE; lia .. | lia |].
  rewrite with_block_twice in E3. pose proof (block_with s (link k) b3 b Hb) as Hb3.
  destruct (rtl8139_send (with_block s (link k) b3) (link k) b3 (zlen b)) as (r & E4 & Hr & Hw); [done | done | done | lia | lia |].
  exists r, b3. split; [| split; [done |]].
  - unfold eth_send_pkt, assert, netdev_get_mac. rewrite (proj2 (Z.eqb_neq p 0)) by done. rewrite (st_step _ _ s tt s eq_refl).
    rewrite (st_step (get_pkt p) _ s k s) by (unfold get_pkt; by rewrite Hp). rewrite (proj2 (Z.eqb_neq _ _) Hpr). cbn [negb].
    rewrite (st_step _ _ s tt (with_block s (link k) b1)).
    2: { rewrite (st_step _ _ s m s Hres). unfold cpy. by rewrite (st_step _ _ s dst s Hdst). }
    rewrite (st_step _ _ (with_block s (link k) b1) (mac (info s)) (with_block s (link k) b1) eq_refl).
    rewrite (st_step _ _ _ tt _ E2), (st_step _ _ _ tt _ E3).
    assert (Esz : u64 (size k) = zlen b) by (rewrite Hsz; apply wrap_small; unfold in_u; pose proof (zlen_nonneg b); lia).
    rewrite Esz, (st_step _ _ _ 0 _ E4). by rewrite (proj2 (Z.eqb_neq _ _) Hfl).
  - split; [rewrite Hw; unfold with_block; cbn; do 2 f_equal; by rewrite take_ge by (unfold zlen in *; lia) |].
    unfold framed_as. split; [lia |].
    split; [rewrite (rd_wr_bytes_ne _ _ _ _ 0 6 W3) by (rewrite zlen_le_bytes; lia); rewrite (rd_wr_bytes_ne _ _ _ _ 0 6 W2) by lia;
      by apply (rd_wr_bytes_len _ _ _ _ _ W1) |].
    split; [rewrite (rd_wr_bytes_ne _ _ _ _ 6 6 W3) by (rewrite zlen_le_bytes; lia); by apply (rd_wr_bytes_len _ _ _ _ _ W2) |].
    split; [rewrite (rd_wr_le_eq _ 12 2 _ _ ltac:(lia) W3); f_equal; apply Z.mod_small; apply n2h_16_range |].
    intros a n Ha. rewrite (rd_wr_bytes_ne _ _ _ _ a n W3) by (rewrite zlen_le_bytes; lia).
    rewrite (rd_wr_bytes_ne _ _ _ _ a n W2), (rd_wr_bytes_ne _ _ _ _ a n W1) by lia. done.
Qed.

(** ** Fragments *)

(** A packet whose payload lies in block [src] is being cut: [frag] is the
    packet that all fragments use, without a protocol or a destination. *)
Record cutting (s : net X) (frag fl src m : Z) (b gw : list Z) : Prop := {
  c_frag : at_ptr (pkts s) frag = Ret (mk_packet (m + 34) NF_REUSE fl 0 0 0 0 (mk_layer 0 (m + 20) (fl + 14)) no_layer no_layer);
  c_m : 0 < m /\ m + 34 <= 4096;
  c_based : based fl /\ based src /\ src / BLOCK <> fl / BLOCK;
  c_block : exists fb, block (mem s) fl = Ret fb /\ zlen fb = m + 34;
  c_src : block (mem s) src = Ret b /\ zlen b < BLOCK;
  c_gw : dhcp (info s) <> 0 /\ rdm (dhcp (info s) + INFO_MAC + MAC_B) 6 s = Ret (gw, s) /\
    (dhcp (info s) + INFO_MAC + MAC_B) / BLOCK <> fl / BLOCK;
  c_mac : zlen (mac (info s)) = 6;
  c_nic : nic_ok (nic s);
  c_cache : Hashmap.hm_get (addrs s) None = Ret 0
}.

Lemma cutting_step s frag fl src m b gw r f : cutting s frag fl src m b gw -> zlen f = m + 34 -> nic_ok r ->
  cutting (set_nic r (with_block s fl f)) frag fl src m b gw.
Proof.
  intros [] Hf Hr. destruct c_block0 as (fb & Hfb & _), c_based0 as (B1 & B2 & B3), c_src0 as (S1 & S2), c_gw0 as (G1 & G2 & G3).
  constructor; try done.
  - exists f. split; [by apply (block_with s fl f fb) | done].
  - split; [| done]. change (block (mem (with_block s fl f)) src = Ret b). by rewrite block_with_ne by done.
  - split_and!; try done. unfold rdm, mread in *. cbn [set_nic with_block set_mem info mem] in *.
    change (block (set_block (mem s) fl f)) with (block (mem (with_block s fl f))). rewrite block_with_ne by done.
    apply bind_Ret in G2 as (l & G2 & E). injection E as ->. by rewrite G2.
Qed.

Lemma resolve_nowhere s frag fl src m b gw : cutting s frag fl src m b gw -> netdev_resolve_address 0 s = Ret (dhcp (info s) + INFO_MAC, s).
Proof.
  intros []. unfold netdev_resolve_address, key_at. cbn [Z.eqb]. change (0 =? 0) with true. cbn iota.
  rewrite (st_step _ _ s None s eq_refl), (st_step _ _ s (addrs s) s eq_refl), (st_step _ _ s 0 s (lift_Ret _ _ _ c_cache0)).
  change (0 =? 0) with true. cbn iota. rewrite (st_step _ _ s (info s) s eq_refl).
  by rewrite (proj2 (Z.eqb_neq (dhcp (info s)) 0)) by tauto.
Qed.

(** The frame of the fragment with [n] bytes of the payload from [ptr] on. *)
Definition is_fragment (gw src_mac b : list Z) (m len f_off ptr n : Z) (f : list Z) : Prop :=
  zlen f = m + 34 /\ rd_bytes f 0 6 = Ret gw /\ rd_bytes f 6 6 = Ret src_mac /\ rd_le f 12 2 = Ret 0 /\
  rd_le f 16 2 = Ret (h2n_16 len) /\ rd_le f 20 2 = Ret (h2n_16 f_off) /\
  rd_bytes f 34 n = rd_bytes b (34 + ptr) n.

Lemma frag_send_frame s frag fl src m b gw len f_off ptr n : cutting s frag fl src m b gw ->
  0 <= ptr -> 0 < n <= m -> 34 + ptr + n <= zlen b ->
  exists r f, frag_send frag (fl + 14) (src + 34) len f_off ptr n s = Ret (0, set_nic r (with_block s fl f)) /\
    nic_ok r /\ wire r = wire (nic s) ++ [f] /\ is_fragment gw (mac (info s)) b m len f_off ptr n f.
Proof.
  intros C Hptr Hn Hlen. pose proof C as []. destruct c_m0 as [M1 M2], c_block0 as (fb & Hfb & Zfb), c_based0 as (B1 & B2 & B3), c_src0 as (S1 & S2).
  assert (HB : zlen fb < BLOCK) by (unfold BLOCK; lia). pose proof (fun f => block_with s fl f fb Hfb) as Hw.
  destruct (wrle_at s fl fb (fl + 14 + IP_LEN) 16 2 (h2n_16 len) Hfb B1) as (b1 & W1 & Z1 & E1); [unfold IP_LEN; lia .. |].
  destruct (wrle_at _ fl b1 (fl + 14 + IP_F_OFF) 20 2 (h2n_16 f_off) (Hw b1) B1) as (b2 & W2 & Z2 & E2); [unfold IP_F_OFF; lia .. |].
  destruct (wrle_at _ fl b2 (fl + 14 + IP_CHECKSUM) 24 2 0 (Hw b2) B1) as (b3 & W3 & Z3 & E3); [unfold IP_CHECKSUM; lia .. |].
  assert (Hh : rdm (fl + 14) 20 (with_block s fl b3) = Ret (take 20 (drop 14 b3), with_block s fl b3)).
  { rewrite (rdm_at _ fl b3 (fl + 14) 14 20) by (apply Hw || done || (unfold BLOCK; lia)). by rewrite rd_bytes_in by lia. }
  destruct (wrle_at _ fl b3 (fl + 14 + IP_CHECKSUM) 24 2 (__calculate_checksum (take 20 (drop 14 b3))) (Hw b3) B1) as (b4 & W4 & Z4 & E4); [unfold IP_CHECKSUM; lia .. |].
  set (chunk := take (Z.to_nat n) (drop (Z.to_nat (34 + ptr)) b)).
  assert (Ech : rd_bytes b (34 + ptr) n = Ret chunk) by (apply rd_bytes_in; lia).
  assert (Zch : zlen chunk = n) by (by apply zlen_rd_bytes in Ech).
  destruct (wrm_at _ fl b4 (fl + 14 + SIZEOF_IPV4) 34 chunk (Hw b4) B1) as (b5 & W5 & Z5 & E5); [unfold SIZEOF_IPV4; lia .. | lia | intros Ez; unfold zlen in Zch; rewrite Ez in Zch; cbn [length] in Zch; lia |].
  rewrite with_block_twice in E2, E3, E4, E5.
  destruct (eth_send_kept (with_block s fl b5) frag _ b5 gw (dhcp (info s) + INFO_MAC) c_frag0) as (r & f & E6 & Hr & Hwire & Hf); cbn [link flags proto pnet size dst_addr]; try done; try lia.
  - apply (resolve_nowhere (with_block s fl b5) frag fl src m b gw). apply (cutting_step s frag fl src m b gw (nic s) b5); [done | lia | done].
  - destruct (cutting_step s frag fl src m b gw (nic s) b5 C ltac:(lia) c_nic0) as [_ _ _ _ _ (_ & G & _) _ _ _]. exact G.
  - destruct c_gw0 as (_ & G & _). exact (proj1 (rdm_Ret _ _ _ _ _ G)).
  - cbn [link] in E6. rewrite with_block_twice in E6. exists r, f. split; [| split; [done | split; [done |]]].
    + unfold frag_send, ipv4_checksum, cpy. rewrite (st_step _ _ _ tt _ E1), (st_step _ _ _ tt _ E2), (st_step _ _ _ tt _ E3).
      rewrite (st_step _ _ _ tt (with_block s fl b4)) by (by rewrite (st_step _ _ _ _ _ Hh)).
      rewrite (st_step _ _ _ tt (with_block s fl b5)); [done |].
      rewrite (st_step (rdm (src + 34 + ptr) n) _ _ chunk (with_block s fl b4)); [done |].
      unfold rdm, mread. replace (src + 34 + ptr) with (src + (34 + ptr)) by lia.
      rewrite block_off by (done || unfold BLOCK in *; lia). rewrite block_with_ne by done. rewrite S1. rb.
      rewrite (proj2 (based_off src (34 + ptr) B2 ltac:(unfold BLOCK in *; lia))), Ech. by rb.
    + destruct Hf as (F1 & F2 & F3 & F4 & F5). unfold is_fragment, rd_le in *.
      assert (R : forall a k, 14 <= a -> a + k <= 16 \/ 18 <= a -> a + k <= 20 \/ 22 <= a -> a + k <= 24 \/ 26 <= a -> a + k <= 34 -> rd_bytes f a k = rd_bytes fb a k).
      { intros a k R1 R2 R3 R4 R5. rewrite F5 by lia. rewrite (rd_wr_bytes_ne _ _ _ _ a k W5) by lia.
        rewrite (rd_wr_bytes_ne _ _ _ _ a k W4), (rd_wr_bytes_ne _ _ _ _ a k W3), (rd_wr_bytes_ne _ _ _ _ a k W2), (rd_wr_bytes_ne _ _ _ _ a k W1) by (rewrite zlen_le_bytes; lia). done. }
      split; [lia |]. split; [done |]. split; [done |]. split; [done |].
      split; [rewrite (F5 16 2) by lia; rewrite (rd_wr_bytes_ne _ _ _ _ 16 2 W5) by lia;
        rewrite (rd_wr_bytes_ne _ _ _ _ 16 2 W4), (rd_wr_bytes_ne _ _ _ _ 16 2 W3), (rd_wr_bytes_ne _ _ _ _ 16 2 W2) by (rewrite zlen_le_bytes; lia);
        change (rd_le b1 16 2 = Ret (h2n_16 len)); rewrite (rd_wr_le_eq _ 16 2 _ _ ltac:(lia) W1); f_equal; apply Z.mod_small; apply n2h_16_range |].
      split; [rewrite (F5 20 2) by lia; rewrite (rd_wr_bytes_ne _ _ _ _ 20 2 W5) by lia;
        rewrite (rd_wr_bytes_ne _ _ _ _ 20 2 W4), (rd_wr_bytes_ne _ _ _ _ 20 2 W3) by (rewrite zlen_le_bytes; lia);
        change (rd_le b2 20 2 = Ret (h2n_16 f_off)); rewrite (rd_wr_le_eq _ 20 2 _ _ ltac:(lia) W2); f_equal; apply Z.mod_small; apply n2h_16_range |].
      rewrite F5 by lia. rewrite Ech. by apply (rd_wr_bytes_len _ _ _ _ _ W5).
Qed.

(** What a fragment run leaves alone: everything but the block of the
    fragment packet and the card. *)
Definition same_but (fl : Z) (s s' : net X) : Prop :=
  pkts s' = pkts s /\ info s' = info s /\ addrs s' = addrs s /\ next_block (mem s') = next_block (mem s) /\
  forall k, k <> fl / BLOCK -> blocks (mem s') !! k = blocks (mem s) !! k.

Lemma same_but_trans fl s1 s2 s3 : same_but fl s1 s2 -> same_but fl s2 s3 -> same_but fl s1 s3.
Proof.
  intros (A1 & A2 & A3 & A4 & A5) (B1 & B2 & B3 & B4 & B5). unfold same_but. rewrite B1, B2, B3, B4. split_and!; try done.
  intros k Hk. by rewrite B5, A5.
Qed.

Lemma same_but_step fl s r f : same_but fl s (set_nic r (with_block s fl f)).
Proof. unfold same_but. split_and!; try done. intros k Hk. cbn. by rewrite lookup_insert_ne. Qed.

(** The fragments but the last. *)
Lemma frag_loop_frames fuel s frag fl src m b gw L i : cutting s frag fl src m b gw ->
  0 <= i -> 0 < L - m * i -> L < 65536 -> 34 + L <= zlen b -> L - m * i < Z.of_nat fuel ->
  exists s' fs, frag_loop fuel frag (fl + 14) (src + 34) m (L - m * i) (m * i) s = Ret (L - m * (i + zlen fs), m * (i + zlen fs), s') /\
    cutting s' frag fl src m b gw /\ same_but fl s s' /\ wire (nic s') = wire (nic s) ++ fs /\ 0 < L - m * (i + zlen fs) <= m /\
    forall k f, fs !! k = Some f -> let ptr := m * (i + Z.of_nat k) in
      ptr + m < L /\ is_fragment gw (mac (info s)) b m (u16 (m + IPV4_HDR_SIZE)) (u16 (Z.lor IPV4_MORE_FRAGS (ptr / 8))) ptr m f.
Proof.
  revert s i. induction fuel as [| fuel IH]; intros s i C Hi HL HL2 Hb Hf; [lia |].
  pose proof C as []. destruct c_m0 as [M1 M2]. cbn [frag_loop]. destruct (Z.ltb_spec m (L - m * i)) as [Hlt | Hge].
  - destruct (frag_send_frame s frag fl src m b gw (u16 (m + IPV4_HDR_SIZE)) (u16 (Z.lor IPV4_MORE_FRAGS (m * i / 8))) (m * i) m C) as (r & f & E & Hr & Hw & Hfrag); [nia | lia | lia |].
    rewrite (st_step _ _ _ 0 _ E). set (s1 := set_nic r (with_block s fl f)) in *.
    assert (C1 : cutting s1 frag fl src m b gw) by (apply cutting_step; [done | apply Hfrag | done]).
    assert (E1 : u16 (L - m * i - m) = L - m * (i + 1)) by (transitivity (L - m * i - m); [apply wrap_small; unfold in_u; nia | lia]).
    assert (E2 : u16 (m * i + m) = m * (i + 1)) by (transitivity (m * i + m); [apply wrap_small; unfold in_u; nia | lia]).
    rewrite E1, E2. destruct (IH s1 (i + 1) C1) as (s' & fs & E3 & C' & Hsame & Hwire & Hleft & Hfs); [lia | lia | done | done | lia |].
    exists s', (f :: fs). assert (El : i + zlen (f :: fs) = i + 1 + zlen fs) by (unfold zlen; cbn [length]; lia). rewrite El.
    split; [done |]. split; [done |]. split; [by apply (same_but_trans fl s s1); [apply same_but_step | done] |].
    split; [rewrite Hwire; unfold s1; cbn; rewrite Hw; by rewrite <- app_assoc |]. split; [done |].
    intros [| k] g Hg; cbn [lookup list_lookup] in Hg; cbn zeta.
    + injection Hg as <-. replace (i + Z.of_nat 0) with i by lia. split; [lia | done].
    + destruct (Hfs k g Hg) as [H1 H2]. replace (i + Z.of_nat (S k)) with (i + 1 + Z.of_nat k) by lia. done.
  - exists s, []. change (zlen []) with 0. rewrite Z.add_0_r, app_nil_r. split_and!; try done; lia.
Qed.

(** The fields of the header, written in the packet's own block. *)
Lemma ipv4_header_frame s k src b sa da : block (mem s) src = Ret b -> based src -> 34 <= zlen b < BLOCK ->
  rdm (src_addr k) 4 s = Ret (sa, s) -> rdm (dst_addr k) 4 s = Ret (da, s) -> dst_addr k / BLOCK <> src / BLOCK ->
  exists b' r, ipv4_header k (src + 14) s = Ret (tt, set_rnd r (with_block s src b')) /\ zlen b' = zlen b /\
    forall a n, 34 <= a -> rd_bytes b' a n = rd_bytes b a n.
Proof.
  intros Hb B Hz Hsa Hda Hne. pose proof (fun f => block_with s src f b Hb) as Hw.
  destruct (rdm_Ret _ _ _ _ _ Hsa) as [Zsa _]. destruct (rdm_Ret _ _ _ _ _ Hda) as [Zda _].
  assert (Hnil : forall l : list Z, zlen l = 4 -> l <> []) by (intros l E ->; done).
  destruct (wrm_at s src b (src + 14 + IP_SRC) 26 sa Hb B) as (b1 & W1 & Z1 & E1); [unfold IP_SRC; lia .. | lia | by apply Hnil |].
  destruct (wrm_at _ src b1 (src + 14 + IP_DST) 30 da (Hw b1) B) as (b2 & W2 & Z2 & E2); [unfold IP_DST; lia .. | lia | by apply Hnil |].
  assert (Hrd : forall f a n, zlen f = zlen b -> 0 <= a -> 0 <= n -> a + n <= 34 ->
    exists v, rd_le f a n = Ret v /\ rdle (src + a) n (with_block s src f) = Ret (v, with_block s src f)).
  { intros f a n Zf H1 H2 H3. destruct (rd_le_ok f a n) as [v Ev]; [lia .. |]. exists v. split; [done |].
    apply (rdle_at _ src f _ a); try done; lia. }
  destruct (Hrd b2 14 1) as (v1 & _ & R1); [lia .. |].
  destruct (wrle_at _ src b2 (src + 14) 14 1 (Z.lor (Z.land v1 0xf0) 5) (Hw b2) B) as (b3 & W3 & Z3 & E3); [lia .. |].
  destruct (Hrd b3 14 1) as (v2 & _ & R2); [lia .. |].
  destruct (wrle_at _ src b3 (src + 14) 14 1 (Z.lor (Z.land v2 0x0f) (Z.shiftl 4 4)) (Hw b3) B) as (b4 & W4 & Z4 & E4); [lia .. |].
  destruct (wrle_at _ src b4 (src + 14 + IP_TTL) 22 1 128 (Hw b4) B) as (b5 & W5 & Z5 & E5); [unfold IP_TTL; lia .. |].
  set (nx := u64 (u64 (rnd s * 1103515245) + 12345)). set (rv := Z.land (u32 (nx / 65536) mod 32768) 0xffff).
  pose proof (fun f => block_with (set_rnd nx s) src f b Hb) as Hw'.
  destruct (wrle_at _ src b5 (src + 14 + IP_IDEN) 18 2 (h2n_16 rv) (Hw' b5) B) as (b6 & W6 & Z6 & E6); [unfold IP_IDEN; lia .. |].
  destruct (wrle_at _ src b6 (src + 14 + IP_PROTO) 23 1 (u8 (proto (transport k))) (Hw' b6) B) as (b7 & W7 & Z7 & E7); [unfold IP_PROTO; lia .. |].
  destruct (wrle_at _ src b7 (src + 14 + IP_LEN) 16 2 (h2n_16 (lsize (pnet k))) (Hw' b7) B) as (b8 & W8 & Z8 & E8); [unfold IP_LEN; lia .. |].
  set (h := take (Z.to_nat 20) (drop (Z.to_nat 14) b8)).
  assert (Hh : rdm (src + 14) 20 (with_block (set_rnd nx s) src b8) = Ret (h, with_block (set_rnd nx s) src b8)).
  { rewrite (rdm_at _ src b8 (src + 14) 14 20) by (apply Hw' || done || (unfold BLOCK; lia)). by rewrite rd_bytes_in by lia. }
  destruct (wrle_at _ src b8 (src + 14 + IP_CHECKSUM) 24 2 (__calculate_checksum h) (Hw' b8) B) as (b9 & W9 & Z9 & E9); [unfold IP_CHECKSUM; lia .. |].
  rewrite with_block_twice in E2, E3, E4, E5, E6, E7, E8, E9.
  assert (Hda1 : rdm (dst_addr k) 4 (with_block s src b1) = Ret (da, with_block s src b1)).
  { unfold rdm, mread in *. rewrite block_with_ne by done. apply bind_Ret in Hda as (l & Hda & E). injection E as ->. by rewrite Hda. }
  exists b9, nx. split; [| split; [lia |]].
  - unfold ipv4_header, ipv4_checksum, cpy. rewrite (st_step _ _ _ tt (with_block s src b1)) by (by rewrite (st_step _ _ _ _ _ Hsa)).
    rewrite (st_step _ _ _ tt (with_block s src b2)) by (by rewrite (st_step _ _ _ _ _ Hda1)).
    rewrite (st_step _ _ _ _ _ R1), (st_step _ _ _ _ _ E3), (st_step _ _ _ _ _ R2), (st_step _ _ _ _ _ E4), (st_step _ _ _ _ _ E5).
    assert (Er : random_gen16 (with_block s src b5) = Ret (rv, with_block (set_rnd nx s) src b5)) by reflexivity.
    rewrite (st_step _ _ _ _ _ Er).
    rewrite (st_step _ _ _ _ _ E6), (st_step _ _ _ _ _ E7), (st_step _ _ _ _ _ E8), (st_step _ _ _ _ _ Hh). exact E9.
  - intros a n Ha. rewrite (rd_wr_bytes_ne _ _ _ _ a n W9), (rd_wr_bytes_ne _ _ _ _ a n W8), (rd_wr_bytes_ne _ _ _ _ a n W7),
      (rd_wr_bytes_ne _ _ _ _ a n W6), (rd_wr_bytes_ne _ _ _ _ a n W5), (rd_wr_bytes_ne _ _ _ _ a n W4), (rd_wr_bytes_ne _ _ _ _ a n W3) by (rewrite zlen_le_bytes; lia).
    by rewrite (rd_wr_bytes_ne _ _ _ _ a n W2), (rd_wr_bytes_ne _ _ _ _ a n W1) by lia.
Qed.

(** A packet whose header is written, about to be cut into pieces of [m]
    bytes, in a sound state. *)
Record outgoing (s : net X) (p : Z) (k : packet) (src m : Z) (b gw : list Z) : Prop := {
  o_pkt : at_ptr (pkts s) p = Ret k /\ p < next_block (mem s) * BLOCK;
  o_link : link k = src /\ lpacket (pnet k) = src + 14 /\ based src;
  o_block : block (mem s) src = Ret b /\ zlen b < BLOCK;
  o_mem : mem_ok (mem s);
  o_m : 0 < m /\ m + 34 <= 4096;
  o_gw : dhcp (info s) <> 0 /\ rdm (dhcp (info s) + INFO_MAC + MAC_B) 6 s = Ret (gw, s);
  o_mac : zlen (mac (info s)) = 6;
  o_nic : nic_ok (nic s);
  o_cache : Hashmap.hm_get (addrs s) None = Ret 0
}.

Lemma rdm_old s a n l : mem_ok (mem s) -> rdm a n s = Ret (l, s) -> a / BLOCK < next_block (mem s).
Proof.
  unfold rdm, mread. intros [_ Hm] E. apply bind_Ret in E as (l2 & E & _). apply bind_Ret in E as (b & E & _).
  apply block_Ret in E as [_ E]. destruct (Z.lt_ge_cases (a / BLOCK) (next_block (mem s))) as [| Hge]; [done |].
  by rewrite (Hm _ Hge) in E.
Qed.

(** The fragment packet is set up with a copy of the header. *)
Lemma fragment_setup s p k src m b gw : outgoing s p k src m b gw -> 34 <= zlen b ->
  let fl := next_block (mem s) * BLOCK in let frag := (next_block (mem s) + 1) * BLOCK in
  exists s' kf, frag_setup (src + 14) m s = Ret ((frag, kf), s') /\
    lpacket (pnet kf) = fl + 14 /\ cutting s' frag fl src m b gw /\ at_ptr (pkts s') p = Ret k /\ frag <> p /\
    info s' = info s /\ nic s' = nic s.
Proof.
  intros [(Hp & Hpn) (Hl & Hlp & B) (Hb & HB) [Hn Hm] (M1 & M2) (G1 & G2) Hmac Hnic Hc] H34. cbn zeta.
  set (n0 := next_block (mem s)) in *. set (fl := n0 * BLOCK). set (frag := (n0 + 1) * BLOCK).
  pose proof (rdm_old s _ _ _ (conj Hn Hm) G2) as Gn. fold n0 in Gn.
  assert (Es : s16 (SIZEOF_ETH + (m + IPV4_HDR_SIZE)) = m + 34) by (unfold SIZEOF_ETH, IPV4_HDR_SIZE; transitivity (14 + (m + 20)); [apply swrap_small; lia | lia]).
  assert (En : u16 (m + IPV4_HDR_SIZE) = m + 20) by (apply wrap_small; unfold in_u, IPV4_HDR_SIZE; lia).
  set (kf := mk_packet (m + 34) 0 fl 0 0 0 0 (mk_layer 0 (m + 20) (fl + SIZEOF_ETH)) no_layer no_layer).
  set (s1 := set_pkts (<[frag := kf]> (pkts s)) (set_mem (snd (new_block (snd (kzalloc (mem s) (m + 34))) [])) s)).
  assert (Ea : netdev_alloc_pkt_L3 (m + IPV4_HDR_SIZE) s = Ret (frag, s1)).
  { unfold netdev_alloc_pkt_L3. rewrite Es. cbn zeta. rewrite ltb_false by lia. rewrite En. reflexivity. }
  set (s2 := set_pkts (<[frag := set_flags NF_REUSE kf]> (pkts s1)) s1).
  assert (Efl : fl / BLOCK = n0) by (unfold fl; by apply Z.div_mul). assert (Efr : frag / BLOCK = n0 + 1) by (unfold frag; by apply Z.div_mul).
  assert (Hf0 : frag <> 0) by (unfold frag, BLOCK; lia).
  apply block_Ret in Hb as Hb'. destruct Hb' as [Hs0 Hsb].
  assert (Hsn : src / BLOCK < n0).
  { destruct (Z.lt_ge_cases (src / BLOCK) n0) as [| Hge]; [done |]. by rewrite (Hm _ Hge) in Hsb. }
  assert (Hother : forall a, a / BLOCK < n0 -> block (mem s2) a = block (mem s) a).
  { intros a Ha. unfold block, at_ptr. cbn. by rewrite !lookup_insert_ne by lia. }
  assert (Hfl : block (mem s2) fl = Ret (replicate (Z.to_nat (m + 34)) 0)).
  { apply block_Ret. rewrite Efl. split; [lia |]. cbn. rewrite lookup_insert_ne by lia. by rewrite lookup_insert_eq. }
  assert (Zfl : zlen (replicate (Z.to_nat (m + 34)) 0) = m + 34) by (unfold zlen; rewrite length_replicate; lia).
  set (h := take (Z.to_nat 20) (drop (Z.to_nat 14) b)). assert (Zh : zlen h = 20) by (unfold h, zlen in *; rewrite length_take, length_drop; lia).
  assert (Eh : rdm (src + 14) IPV4_HDR_SIZE s2 = Ret (h, s2)).
  { rewrite (rdm_at s2 src b (src + 14) 14) by (rewrite ?Hother; done || (unfold BLOCK; lia)). by rewrite rd_bytes_in by (unfold IPV4_HDR_SIZE; lia). }
  destruct (wrm_at s2 fl _ (fl + SIZEOF_ETH) 14 h Hfl (based_block n0)) as (f & _ & Zf & Ew); [unfold SIZEOF_ETH, BLOCK in *; lia .. | unfold BLOCK; lia | intros Ez; by rewrite Ez in Zh |].
  exists (with_block s2 fl f), kf. split.
  { unfold frag_setup. rewrite (st_step _ _ s frag s1 Ea). rewrite (st_step (get_pkt frag) _ s1 kf s1).
    2: { unfold get_pkt, at_ptr. rewrite (proj2 (Z.eqb_neq _ _) Hf0). cbn. by rewrite lookup_insert_eq. }
    rewrite (st_step (put_pkt frag (set_flags NF_REUSE kf)) _ s1 tt s2 eq_refl). unfold cpy.
    rewrite (st_step _ _ s2 tt (with_block s2 fl f)); [done |]. by rewrite (st_step _ _ _ _ _ Eh). }
  split; [done |]. split; [constructor |]; try done.
  - apply at_ptr_Ret. split; [done |]. cbn. by rewrite lookup_insert_eq.
  - split_and!; [apply based_block | done | lia].
  - exists f. split; [by apply (block_with s2 fl f _ Hfl) | lia].
  - split; [| done]. rewrite block_with_ne by lia. by rewrite Hother.
  - change (info (with_block s2 fl f)) with (info s). split_and!; [done | | lia]. unfold rdm, mread in *.
    apply bind_Ret in G2 as (l & G2 & E). injection E as ->. rewrite block_with_ne, Hother by lia. by rewrite G2.
  - assert (Hfp : frag <> p) by (unfold frag, BLOCK in *; lia). split; [| done].
    apply at_ptr_Ret in Hp as [Hp0 Hp]. apply at_ptr_Ret. split; [done |]. cbn. by rewrite !lookup_insert_ne.
Qed.

(** The fields of the frames: [m] bytes each but the last. *)
Definition fragments_of (gw src_mac b : list Z) (m L : Z) (fs : list (list Z)) : Prop :=
  m * (zlen fs - 1) < L <= m * zlen fs /\
  forall i f, fs !! i = Some f -> let ptr := m * Z.of_nat i in let n := Z.min m (L - ptr) in
    is_fragment gw src_mac b m (n + 20) (if ptr + m <? L then Z.lor IPV4_MORE_FRAGS (ptr / 8) else ptr / 8) ptr n f.

Lemma dealloc_ok (s : net X) p k b : at_ptr (pkts s) p = Ret k -> block (mem s) (link k) = Ret b ->
  exists s', netdev_dealloc_pkt p s = Ret (0, s') /\ pkts s' = delete p (pkts s) /\ nic s' = nic s.
Proof.
  intros Hp Hb. eexists. split; [exact (dealloc_at s p k b Hp Hb) | done].
Qed.

Lemma fragment_frames s p k src m b gw n : outgoing s p k src m b gw -> 20 < n < 65536 -> 14 + n <= zlen b ->
  exists s' fs, ipv4_fragment p (src + 14) m n s = Ret (0, s') /\ wire (nic s') = wire (nic s) ++ fs /\
    fragments_of gw (mac (info s)) b m (n - 20) fs /\ pkts s' !! p = None /\ is_Some (pkts s' !! ((next_block (mem s) + 1) * BLOCK)).
Proof.
  intros O Hn Hb. pose proof O as [_ (Hl & _) _ _ (M1 & M2) _ _ _ _]. set (L := n - 20).
  destruct (fragment_setup s p k src m b gw O ltac:(lia)) as (s1 & kf & E1 & Ekf & C1 & Hp1 & Hfp & Hi1 & Hn1).
  set (fl := next_block (mem s) * BLOCK) in *. set (frag := (next_block (mem s) + 1) * BLOCK) in *.
  unfold ipv4_fragment. rewrite (st_step _ _ _ _ _ E1). cbn zeta beta iota. rewrite Ekf.
  assert (EL : u16 (n - IPV4_HDR_SIZE) = L) by (apply wrap_small; unfold in_u, IPV4_HDR_SIZE; lia). rewrite EL.
  replace (src + 14 + SIZEOF_IPV4) with (src + 34) by (unfold SIZEOF_IPV4; lia).
  destruct (frag_loop_frames (S (Z.to_nat L)) s1 frag fl src m b gw L 0 C1) as (s2 & fs & E2 & C2 & Hsame & Hw2 & Hleft & Hfs); [lia .. |].
  rewrite Z.mul_0_r, Z.sub_0_r, Z.add_0_l in E2. rewrite Z.add_0_l in Hleft. rewrite (st_step _ _ _ _ _ E2). cbn beta iota.
  set (j := zlen fs) in *. pose proof (zlen_nonneg fs) as Hj. fold j in Hj. set (ln := L - m * j) in *.
  destruct (frag_send_frame s2 frag fl src m b gw (u16 (ln + IPV4_HDR_SIZE)) (m * j / 8) (m * j) ln C2) as (r & f & E3 & Hr & Hw3 & Hf); [nia | lia | lia |].
  rewrite (st_step _ _ _ _ _ E3). destruct Hsame as (Hpk & Hi2 & _). pose proof C2 as [Cf _ _ _ (Cs & _) _ _ _ _].
  destruct (dealloc_ok (set_nic r (with_block s2 fl f)) p k b) as (s3 & E4 & Hpk3 & Hn3).
  { change (pkts (set_nic r (with_block s2 fl f))) with (pkts s2). by rewrite Hpk. }
  { rewrite Hl. change (block (mem (with_block s2 fl f)) src = Ret b). rewrite block_with_ne; [done |]. pose proof C2 as [_ _ (_ & _ & ?) _ _ _ _ _ _]. done. }
  rewrite (st_step _ _ _ _ _ E4). exists s3, (fs ++ [f]). split; [done |].
  split; [rewrite Hn3; cbn [nic set_nic]; by rewrite Hw3, Hw2, Hn1, <- app_assoc |].
  rewrite <- Hi1. split; [split |].
  - unfold zlen in *. rewrite length_app. cbn [length]. fold j. replace (Z.of_nat (length fs + 1)) with (j + 1) by (unfold j; lia). unfold ln in *. lia.
  - intros i g [Hg | (Hge & Hg)]%lookup_app_Some; cbn zeta.
    + destruct (Hfs i g Hg) as [H1 H2]. rewrite Z.add_0_l in H1, H2. rewrite Z.min_l, ltb_true by lia. unfold IPV4_HDR_SIZE in H2.
      rewrite !(wrap_small 16) in H2; [done | | unfold in_u; lia]. unfold in_u. split.
      * apply Z.lor_nonneg. unfold IPV4_MORE_FRAGS. split; [lia | apply Z.div_pos; lia].
      * apply Z.log2_lt_cancel. rewrite Z.log2_lor; [| done | apply Z.div_pos; lia]. apply Z.max_lub_lt; [done |].
        change (Z.log2 (2 ^ 16)) with 16. destruct (Z.eq_dec (m * Z.of_nat i / 8) 0) as [-> | Hnz]; [done |].
        apply Z.log2_lt_pow2; [assert (0 <= m * Z.of_nat i / 8) by (apply Z.div_pos; lia); lia |]. Z.div_mod_to_equations. lia.
    + apply list_lookup_singleton_Some in Hg as [Hi <-]. replace (Z.of_nat i) with j by (unfold j, zlen; lia).
      rewrite Z.min_r, ltb_false by lia. unfold IPV4_HDR_SIZE in Hf. rewrite (wrap_small 16) in Hf by (unfold in_u; lia). rewrite Hi2 in Hf. exact Hf.
  - rewrite Hpk3. cbn [pkts set_nic with_block set_mem]. rewrite lookup_delete_eq. split; [done |]. rewrite lookup_delete_ne by done.
    apply at_ptr_Ret in Cf as [_ Cf]. by eexists.
Qed.

(** C24: a datagram too large for the network (its payload at least the MTU
    less 40 bytes) leaves as consecutive pieces of the MTU less 20 bytes
    that together are its payload, each with its length, its offset and, but
    for the last, the flag for more; but every one of these frames has type
    0 in its Ethernet header and the address of the gateway, whatever the
    protocol and the destination of the datagram, and the packet used for
    the pieces is never freed. *)
Theorem ipv4_send_fragments (s : net X) p k src m b gw sa da : outgoing s p k src m b gw ->
  mtu (info s) = m + 20 -> let n := lsize (pnet k) in 20 < n <= IPV4_PAYLOAD_MAX -> m - 20 <= n -> 14 + n <= zlen b ->
  rdm (src_addr k) 4 s = Ret (sa, s) -> rdm (dst_addr k) 4 s = Ret (da, s) ->
  dst_addr k / BLOCK <> src / BLOCK -> (dhcp (info s) + INFO_MAC + MAC_B) / BLOCK <> src / BLOCK ->
  exists s' fs, ipv4_send_pkt p s = Ret (0, s') /\ wire (nic s') = wire (nic s) ++ fs /\
    fragments_of gw (mac (info s)) b m (n - 20) fs /\ (forall f, f ∈ fs -> rd_le f ETH_TYPE 2 = Ret 0) /\
    pkts s' !! p = None /\ is_Some (pkts s' !! ((next_block (mem s) + 1) * BLOCK)).
Proof.
  intros O Hmtu n Hn Hmn Hnb Hsa Hda Hne1 Hne2. unfold IPV4_PAYLOAD_MAX in Hn.
  pose proof O as [(Hp & Hpn) (Hl & Hlp & B) (Hb & HB) [Hm0 Hm] (M1 & M2) (G1 & G2) Hmac Hnic Hc].
  destruct (ipv4_header_frame s k src b sa da Hb B) as (b' & r & E & Zb & Hb'); [lia | done | done | done |].
  set (s1 := set_rnd r (with_block s src b')) in *. apply block_Ret in Hb as Hb2. destruct Hb2 as [Hs0 Hsb].
  assert (O1 : outgoing s1 p k src m b' gw).
  { constructor; try done.
    - split; [by apply (block_with s src b' b Hb) | lia].
    - split; [done |]. intros q Hq. cbn. rewrite lookup_insert_ne; [by apply Hm |]. intros <-. rewrite (Hm _ Hq) in Hsb. done.
    - split; [done |]. unfold rdm, mread in *. apply bind_Ret in G2 as (l & G2 & Eg). injection Eg as ->.
      change (mem s1) with (mem (with_block s src b')). change (info s1) with (info s). rewrite block_with_ne by done. by rewrite G2. }
  destruct (fragment_frames s1 p k src m b' gw n O1) as (s' & fs & E2 & Hw & [Hcnt Hfs] & Hpk & Hleak); [lia | lia |].
  assert (Hfs' : forall i f, fs !! i = Some f -> let ptr := m * Z.of_nat i in let q := Z.min m (n - 20 - ptr) in
    is_fragment gw (mac (info s)) b m (q + 20) (if ptr + m <? n - 20 then Z.lor IPV4_MORE_FRAGS (ptr / 8) else ptr / 8) ptr q f).
  { intros i f Hf. cbn zeta. specialize (Hfs i f Hf). cbn zeta in Hfs. unfold is_fragment in *. rewrite Hb' in Hfs by lia. exact Hfs. }
  exists s', fs. split; [| split; [done | split; [done | split; [| done]]]].
  - apply at_ptr_Ret in Hp as Hp'. destruct Hp' as [Hp0 _]. unfold ipv4_send_pkt, assert, netdev_get_mtu, get_pkt.
    rewrite (proj2 (Z.eqb_neq _ _) Hp0). rewrite (st_step _ _ s tt s eq_refl). rewrite (st_step _ _ s k s) by (by rewrite Hp). cbn zeta. fold n.
    rewrite leb_true by (unfold IPV4_PAYLOAD_MAX; lia). rewrite (st_step _ _ s tt s eq_refl). rewrite (st_step _ _ s (mtu (info s)) s eq_refl).
    rewrite Hlp, (st_step _ _ _ _ _ E). assert (Em : u16 (mtu (info s) - SIZEOF_IPV4) = m).
    { rewrite Hmtu. transitivity (m + 20 - 20); [apply wrap_small; unfold in_u, SIZEOF_IPV4; lia | lia]. }
    rewrite Em, ltb_false by (unfold IPV4_HDR_SIZE; lia). exact E2.
  - intros f (i & Hi)%list_elem_of_lookup. specialize (Hfs' i f Hi). cbn zeta in Hfs'. apply Hfs'.
Qed.

End send.

(** ** A sample: 40 bytes over a network that takes 44 *)

Definition sample_nic : rtl8139 := mk_rtl 0 0 (replicate 4 (replicate 4096 0)) [0; 0; 0; 0] [].
Definition sample_link : list Z := replicate 34 0 ++ seqZ 1 40.
Definition sample_mem : kmem := mk_kmem (list_to_map [(1, sample_link); (2, [192; 168; 1; 2] ++ replicate 36 0); (3, [192; 168; 1; 9] ++ replicate 36 0);
  (4, replicate 32 0 ++ [82; 84; 0; 18; 53; 2] ++ replicate 2 0)]) 6.
Definition sample_packet : packet :=
  mk_packet 74 0 (1 * BLOCK) (2 * BLOCK) (3 * BLOCK) 0 0 (mk_layer PROTO_IPV4 60 (1 * BLOCK + 14)) (mk_layer PROTO_UDP 40 (1 * BLOCK + 34)) no_layer.
Definition sample_net : net unit :=
  mk_net sample_mem {[5 * BLOCK := sample_packet]} (mk_info [82; 84; 0; 18; 52; 86] (4 * BLOCK) (2 * BLOCK) false 44) None None sample_nic 1 tt.

Lemma frag_mem_ok : mem_ok sample_mem.
Proof.
  split; [done |]. intros k Hk. cbn [next_block sample_mem] in Hk. unfold sample_mem. cbn [blocks]. rewrite <- not_elem_of_list_to_map. cbn. set_solver by lia.
Qed.

Lemma sample_outgoing : outgoing sample_net (5 * BLOCK) sample_packet (1 * BLOCK) 24 sample_link [82; 84; 0; 18; 53; 2].
Proof.
  constructor.
  - split; [by vm_compute | done].
  - split_and!; [done | done | by vm_compute].
  - split; [by vm_compute | done].
  - apply frag_mem_ok.
  - lia.
  - split; [done | by vm_compute].
  - done.
  - unfold nic_ok. split_and!; try done; try (by vm_compute). repeat (apply Forall_cons_2; [by vm_compute |]). apply Forall_nil_2.
  - done.
Qed.

Lemma ipv4_send_fragments_witness :
  exists s' fs, ipv4_send_pkt (5 * BLOCK) sample_net = Ret (0, s') /\ zlen fs = 2 /\ wire (nic s') = fs /\
    (forall f, f ∈ fs -> rd_le f ETH_TYPE 2 = Ret 0) /\ is_Some (pkts s' !! (7 * BLOCK)).
Proof.
  destruct (ipv4_send_fragments sample_net (5 * BLOCK) sample_packet (1 * BLOCK) 24 sample_link [82; 84; 0; 18; 53; 2] [192; 168; 1; 2] [192; 168; 1; 9] sample_outgoing)
    as (s' & fs & E & Hw & [Hc _] & Ht & _ & Hk); [done | cbn; unfold IPV4_PAYLOAD_MAX; lia | cbn; lia | vm_compute; lia || (by vm_compute) | by vm_compute | by vm_compute | by vm_compute | by vm_compute |].
  exists s', fs. split; [done |]. split; [cbn in Hc; lia |]. split; [done |]. split; [done |]. exact Hk.
Defined.

End Ipv4.
