(* ===== verification/Arp.v ===== *)
(** * Address resolution (net/arp.c)

    Requests and replies of ARP, and what a reply does to the table of
    address pairs. *)

From S2P Require Import Prelude Bytes Netutil Kmem Hashmap Netdev Ipv4.
Import Bytes Netutil Kmem Netdev Ipv4.

Module Arp.

Definition HW_ADDR_SIZE : Z := 6.
Definition IPV4_ADDR_SIZE : Z := 4.
Definition ARP_ETHERNET : Z := 1.
Definition ARP_REQUEST : Z := 1.
Definition ARP_REPLY : Z := 2.

(** Offsets in [arp_pkt_t] and [arp_ipv4_t]. *)
Definition A_HTYPE : Z := 0.
Definition A_PTYPE : Z := 2.
Definition A_HLEN : Z := 4.
Definition A_PLEN : Z := 5.
Definition A_OPCODE : Z := 6.
Definition A_PAYLOAD : Z := 8.
Definition SRCHW : Z := 0.
Definition SRCPR : Z := 6.
Definition DSTHW : Z := 10.
Definition DSTPR : Z := 16.
Definition SIZEOF_ARP_IPV4 : Z := 20.

Section arp.
Context {X : Type}.
Abbreviation nt := (st (net X)).

(** The two helpers of net/util.h on memory. *)
Definition addr2bin_mem (src dst : Z) : nt unit :=
  s ← (fun s => b ← mrest (mem s) src; Ret (b, s)); d ← (fun s => b ← mrest (mem s) dst; Ret (b, s));
  d ← lift (net_ipv4_addr2bin s d 0); wrm dst d.
Definition bin2addr_mem (src dst : Z) : nt unit :=
  b ← rdm src 4; d ← (fun s => b ← mrest (mem s) dst; Ret (b, s));
  d ← lift (net_ipv4_bin2addr b d); wrm dst d.

(** The fields common to requests and replies; the results are the packet
    and the ARP header in it. *)
Definition arp_packet (opcode : Z) : nt (Z * packet) :=
  p ← netdev_alloc_pkt_L3 (SIZEOF_ARP + SIZEOF_ARP_IPV4);
  k ← get_pkt p;
  let k := set_net (mk_layer PROTO_ARP (SIZEOF_ARP + SIZEOF_ARP_IPV4) (lpacket (pnet k))) k in
  _ ← put_pkt p k;
  let arp := lpacket (pnet k) in
  _ ← wrle (arp + A_HTYPE) 2 (h2n_16 ARP_ETHERNET);
  _ ← wrle (arp + A_PTYPE) 2 (h2n_16 PROTO_IPV4);
  _ ← wrle (arp + A_HLEN) 1 HW_ADDR_SIZE;
  _ ← wrle (arp + A_PLEN) 1 IPV4_ADDR_SIZE;
  _ ← wrle (arp + A_OPCODE) 2 (h2n_16 opcode);
  mret (p, k).

(** The answer to a request for our address. *)
Definition arp_reply (in_pl our_ip : Z) : nt Z :=
  '(p, k) ← arp_packet ARP_REPLY;
  let ipv4 := lpacket (pnet k) + A_PAYLOAD in
  m ← netdev_get_mac;
  _ ← wrm (ipv4 + SRCHW) m;
  _ ← cpy (ipv4 + SRCPR) our_ip 4;
  _ ← cpy (link k + ETH_DST) (in_pl + SRCHW) 6;
  _ ← cpy (ipv4 + DSTHW) (in_pl + SRCHW) 6;
  _ ← cpy (ipv4 + DSTPR) (in_pl + SRCPR) 4;
  eth_send_pkt p.

(** A reply is kept when its address was asked for. *)
Definition arp_learn (pl : Z) : nt Z :=
  addr ← zalloc 16;
  _ ← bin2addr_mem (pl + SRCPR) addr;
  key ← key_at addr;
  r ← gets arp_requests;
  hit ← lift (Hashmap.hm_get r key);
  _ ← (if negb (hit =? 0) then
         hw ← memdup (pl + SRCHW) HW_ADDR_SIZE;
         _ ← netdev_add_ipv4_addr_pair hw (pl + SRCPR);
         r ← gets arp_requests;
         '(_, r) ← lift (Hashmap.hm_remove r key);
         modify (set_arp r)
       else mret tt);
  _ ← free addr;
  mret 0.

Definition arp_handle_pkt (p : Z) : nt Z :=
  k ← get_pkt p;
  let in_pkt := lpacket (pnet k) in
  op ← rdle (in_pkt + A_OPCODE) 2;
  if n2h_16 op =? ARP_REQUEST then
    our_ip ← netdev_get_ip;
    ours ← rdm our_ip 4;
    dst ← rdm (in_pkt + A_PAYLOAD + DSTPR) 4;
    if (our_ip =? 0) || negb (bool_decide (ours = dst)) then mret (- ENOSYS)
    else arp_reply (in_pkt + A_PAYLOAD) our_ip
  else if n2h_16 op =? ARP_REPLY then
    plen ← rdle (in_pkt + A_PLEN) 1;
    if plen =? IPV4_ADDR_SIZE then arp_learn (in_pkt + A_PAYLOAD) else mret (- ENOTSUP)
  else mret (- ENOTSUP).

Definition arp_resolve (addr : Z) : nt unit :=
  if addr =? 0 then mret tt
  else
    r ← gets arp_requests;
    let r := match r with None => match Hashmap.hm_alloc_hashmap true true 8 1 with Ok h => Some h | Err _ => None end | _ => r end in
    key ← key_at addr;
    '(e, r) ← lift (Hashmap.hm_insert item r key addr);
    _ ← modify (set_arp r);
    if e <? 0 then mret tt
    else
      '(p, k) ← arp_packet ARP_REQUEST;
      let ipv4 := lpacket (pnet k) + A_PAYLOAD in
      m ← netdev_get_mac;
      _ ← wrm (ipv4 + SRCHW) m;
      _ ← wrm (ipv4 + SRCPR) (replicate 4 0);
      _ ← wrm (ipv4 + DSTHW) (replicate 6 0);
      _ ← addr2bin_mem addr (ipv4 + DSTPR);
      _ ← eth_send_pkt p;
      mret tt.

(** ** What a learnt pair is worth *)

Lemma le32_val a b c d rest : is_byte a -> is_byte b -> is_byte c -> is_byte d ->
  Hashmap.le32 (a :: b :: c :: d :: rest) = Ret (le_val [a; b; c; d]).
Proof.
  unfold is_byte. intros Ha Hb Hc Hd. unfold Hashmap.le32.
  change (rd (a :: b :: c :: d :: rest) 0) with (Ret a). change (rd (a :: b :: c :: d :: rest) 1) with (Ret b).
  change (rd (a :: b :: c :: d :: rest) 2) with (Ret c). change (rd (a :: b :: c :: d :: rest) 3) with (Ret d). do 4 rb. unfold mret, out_ret. f_equal.
  replace (Z.shiftl d 24) with (Z.shiftl (Z.shiftl (Z.shiftl d 8) 8) 8) by (by rewrite !Z.shiftl_shiftl).
  replace (Z.shiftl c 16) with (Z.shiftl (Z.shiftl c 8) 8) by (by rewrite !Z.shiftl_shiftl).
  rewrite <- !Z.shiftl_lor, (Z.lor_comm c), (lor_shift d c 8), (Z.lor_comm b), (lor_shift _ b 8), Z.lor_comm, (lor_shift _ a 8) by (change (2 ^ 8) with 256; lia).
  change (2 ^ 8) with 256. cbn [le_val]. lia.
Qed.

Lemma pair_key a b c d : is_byte a -> is_byte b -> is_byte c -> is_byte d ->
  Z.lor (Z.lor (Z.lor (Z.shiftl a 24) (Z.shiftl b 16)) (Z.shiftl c 8)) d = le_val [d; c; b; a].
Proof.
  unfold is_byte. intros Ha Hb Hc Hd.
  replace (Z.shiftl a 24) with (Z.shiftl (Z.shiftl (Z.shiftl a 8) 8) 8) by (by rewrite !Z.shiftl_shiftl).
  replace (Z.shiftl b 16) with (Z.shiftl (Z.shiftl b 8) 8) by (by rewrite !Z.shiftl_shiftl).
  rewrite <- !Z.shiftl_lor, (lor_shift a b 8), (lor_shift _ c 8), (lor_shift _ d 8) by (change (2 ^ 8) with 256; lia).
  change (2 ^ 8) with 256. cbn [le_val]. lia.
Qed.

(** The pair of an address and its hardware address, as an ARP reply
    stores it, is of no use: the key is the address with its bytes reversed,
    so that unless the address reads the same backwards its look-up gives
    what it gave before; and when it does, the look-up gives the six bytes
    of the hardware address where those are expected behind a pointer, and
    taking them from there reads past the end of the block. *)
Theorem arp_pair_unusable (s : net X) (h h' : Hashmap.hashmap) (hw ip q a b c d : Z) (rest hwb : list Z) :
  addrs s = Some h -> Hashmap.insert_only h -> Hashmap.hash h = Hashmap.hash_num -> Hashmap.len h <> Hashmap.cap h ->
  is_byte a -> is_byte b -> is_byte c -> is_byte d -> hw <> 0 -> block (mem s) hw = Ret hwb -> zlen hwb = HW_ADDR_SIZE -> based hw ->
  rdm ip 4 s = Ret ([a; b; c; d], s) -> q <> 0 -> mrest (mem s) q = Ret (a :: b :: c :: d :: rest) ->
  Hashmap.hash32 (le_val [d; c; b; a]) <> UINT32_MAX -> Hashmap.hm_get (Some h) (Some [d; c; b; a]) = Ret 0 ->
  Hashmap.hm_insert item (Some h) (Some [d; c; b; a]) hw = Ret (0, Some h') ->
  let s' := set_cache (Some h') s in
  netdev_add_ipv4_addr_pair hw ip s = Ret (tt, s') /\
  if bool_decide (a = d /\ b = c) then netdev_resolve_address q s' = Ret (hw, s') /\ rdm (hw + MAC_B) 6 s' = Fault
  else forall m, netdev_resolve_address q s = Ret (m, s) -> netdev_resolve_address q s' = Ret (m, s').
Proof.
  intros Hs Hio Hh Hlen Ha Hb Hc Hd Hhw Hblk Hz Hbased Hip Hq Hkey Hmax Hold Hins s'.
  assert (Ed : Hashmap.hm_hash h (Some [d; c; b; a]) = Ret (Hashmap.hash32 (le_val [d; c; b; a]))).
  { unfold Hashmap.hm_hash. rewrite Hh. unfold Hashmap.hm_hash_num. by rewrite le32_val. }
  assert (Ea : Hashmap.hm_hash h (Some (a :: b :: c :: d :: rest)) = Ret (Hashmap.hash32 (le_val [a; b; c; d]))).
  { unfold Hashmap.hm_hash. rewrite Hh. unfold Hashmap.hm_hash_num. by rewrite le32_val. }
  destruct (Hashmap.insert_get h (Hashmap.mk_item 0 0 false) _ _ hw Hio Ed Hmax Hhw Hlen) as [(E & _) | (h2 & E & _ & _ & _ & (v & G1 & G2) & Gother)];
    unfold item in Hins; rewrite E in Hins; [done |]. injection Hins as ->. rewrite Hold in G1. injection G1 as <-. change (0 =? 0) with true in G2. cbn iota in G2.
  split.
  { unfold netdev_add_ipv4_addr_pair. rewrite (st_step _ _ _ _ _ Hip). rewrite pair_key by done. cbn zeta.
    assert (El : le_bytes 4 (le_val [d; c; b; a]) = [d; c; b; a]) by (by apply (le_bytes_val [d; c; b; a]); repeat (apply Forall_cons_2; [done |]); apply Forall_nil_2).
    rewrite El, (st_step _ _ s (addrs s) s eq_refl), Hs. unfold item. by rewrite (st_step _ _ _ _ _ (lift_Ret _ _ s E)). }
  assert (Hn : Hashmap.hash h' = Hashmap.hash_num) by (rewrite <- Hh; exact (Hashmap.hm_insert_hash _ _ _ _ _ _ E)).
  assert (Er : forall (t : net X) x, addrs t = Some x -> mem t = mem s -> info t = info s -> netdev_resolve_address q t =
    (r ← Hashmap.hm_get (Some x) (Some (a :: b :: c :: d :: rest)); if r =? 0 then if dhcp (info s) =? 0 then Fault else Ret (dhcp (info s) + INFO_MAC, t) else Ret (r, t))).
  { intros t x Ht Hm Hi. unfold netdev_resolve_address, key_at. rewrite (proj2 (Z.eqb_neq q 0)) by done.
    rewrite (st_step _ _ t (Some (a :: b :: c :: d :: rest)) t) by (by rewrite Hm, Hkey). rewrite (st_step _ _ t (addrs t) t eq_refl), Ht.
    destruct (Hashmap.hm_get (Some x) (Some (a :: b :: c :: d :: rest))) as [r | | |]; try reflexivity. rewrite (st_step (lift (Ret r)) _ t r t eq_refl). rb.
    destruct (r =? 0); [| done]. rewrite (st_step _ _ t (info t) t eq_refl), Hi. by destruct (dhcp (info s) =? 0). }
  destruct (bool_decide_reflect (a = d /\ b = c)) as [[<- <-] | Hne].
  - split.
    + rewrite (Er s' h' eq_refl eq_refl eq_refl). unfold Hashmap.hm_get in *. unfold Hashmap.hm_hash in *. rewrite Hn in *. unfold Hashmap.hm_hash_num in *.
      rewrite le32_val in * by done. rewrite !ret_bind in G2. rb. rb. rewrite (proj2 (Z.eqb_neq _ _) Hmax) in *.
      rewrite G2. rb. by rewrite (proj2 (Z.eqb_neq hw 0)).
    + rewrite (rdm_at s' hw hwb (hw + MAC_B) 8) by (done || (unfold MAC_B, BLOCK; lia)). unfold rd_bytes, HW_ADDR_SIZE in *. rewrite Hz. done.
  - intros m Em. rewrite (Er s' h' eq_refl eq_refl eq_refl). rewrite (Er s h Hs eq_refl eq_refl) in Em. rewrite (Gother _ _ Ea).
    + apply bind_Ret in Em as (r & Eg & Em). rewrite Eg. rb. destruct (r =? 0); [destruct (dhcp (info s) =? 0) |]; try done; by injection Em as ->.
    + intros Eh. assert (Hbs : forall w x y z, is_byte w -> is_byte x -> is_byte y -> is_byte z -> Forall is_byte [w; x; y; z] /\ in_u 32 (le_val [w; x; y; z])).
      { intros w x y z Hw Hx Hy Hzz. assert (HF : Forall is_byte [w; x; y; z]) by (repeat (apply Forall_cons_2; [done |]); apply Forall_nil_2). split; [done |]. exact (le_val_range _ HF). }
      apply (Hashmap.hash32_injective (le_val [a; b; c; d]) (le_val [d; c; b; a])) in Eh; [| by apply Hbs ..].
      apply le_val_inj in Eh; [| by apply Hbs | by apply Hbs | done]. injection Eh as E1 E2 _ _. by apply Hne.
Qed.
End arp.

(** ** A sample: the pair of 192.168.1.9 *)

Definition pair_map : Hashmap.hashmap := Hashmap.mk_hashmap 0 32 0 (repeat None 32) Hashmap.hash_num.
Definition pair_mem : kmem := mk_kmem (list_to_map [(1, [82; 84; 0; 18; 52; 86]); (2, [192; 168; 1; 9] ++ replicate 36 0)]) 3.
Definition pair_net : net unit := mk_net pair_mem ∅ (mk_info [82; 84; 0; 18; 52; 86] (4 * BLOCK) (2 * BLOCK) false 1500) (Some pair_map) None sample_nic 1 tt.

Lemma pair_map_io : Hashmap.insert_only pair_map.
Proof.
  constructor; try done; intros j it Hj; change (Hashmap.elem pair_map) with (replicate 32 (@None Hashmap.hm_item)) in Hj; by apply lookup_replicate in Hj as [Hj _].
Qed.

Lemma arp_pair_unusable_witness :
  exists h', netdev_resolve_address (2 * BLOCK) (set_cache (Some h') pair_net) = Ret (4 * BLOCK + INFO_MAC, set_cache (Some h') pair_net).
Proof.
  destruct (Hashmap.hm_insert item (Some pair_map) (Some [9; 1; 168; 192]) (1 * BLOCK)) as [[r [h' |]] | | |] eqn:E; try (vm_compute in E; discriminate E).
  exists h'. assert (Er : r = 0) by (vm_compute in E; congruence). subst r.
  refine (proj2 (arp_pair_unusable pair_net pair_map h' (1 * BLOCK) (2 * BLOCK) (2 * BLOCK) 192 168 1 9 (replicate 36 0) [82; 84; 0; 18; 52; 86]
    eq_refl pair_map_io eq_refl _ _ _ _ _ _ _ _ _ _ _ _ _ _ E) (4 * BLOCK + INFO_MAC) _); first [unfold is_byte; lia | by vm_compute].
Defined.

End Arp.
