(* ===== verification/Tick.v ===== *)
(** * Timers (kernel/tick.c)

    The tick counter of a CPU and its list of timers, a null-terminated list
    whose nodes are the [list] members of the timers.  The callbacks are
    given by the section; they may work on the timers as well as on the rest
    of the system. *)

From S2P Require Import Prelude Dlist Kmem.
Import Dlist Kmem.

Module Tick.

Record timer := mk_timer { wait : Z; expr : Z; t_ctx : Z }.

(** [scale] is the number of ticks of a millisecond. *)
Record tick := mk_tick { pcpu_tick : Z; scale : Z; lnk : links; tmrs : gmap Z timer }.

Definition set_lnk (v : links) (t : tick) : tick := mk_tick (pcpu_tick t) (scale t) v (tmrs t).
Definition set_tmrs (v : gmap Z timer) (t : tick) : tick := mk_tick (pcpu_tick t) (scale t) (lnk t) v.
Definition set_pcpu (v : Z) (t : tick) : tick := mk_tick v (scale t) (lnk t) (tmrs t).

(** The head of the list, and [offsetof(timer_t, list)]. *)
Definition TIMERS : Z := 16.
Definition TLINK (tmr : Z) : Z := tmr + 32.
Definition timer_of (iter : Z) : Z := iter - 32.

Definition tick_init (ticks ms : Z) (t : tick) : out tick :=
  if ms =? 0 then Fault else mret (mk_tick (pcpu_tick t) (ticks / ms) (lnk t) (tmrs t)).

Definition tick_ms_to_ticks (t : tick) (ms : Z) : Z := u64 (ms * scale t).
Definition tick_us_to_ticks (t : tick) (us : Z) : Z := u64 (us / 1000 * scale t).
Definition tick_ns_to_ticks (t : tick) (ns : Z) : Z := u64 (ns / 1000 / 1000 * scale t).

Definition tick_init_timer (t : tick) : out tick :=
  m ← set_next (lnk t) TIMERS 0; m ← set_prev m TIMERS 0; mret (set_lnk m t).

Definition tick_install_timer (tmr : Z) (t : tick) : out tick :=
  x ← at_ptr (tmrs t) tmr;
  let x := mk_timer (wait x) (u64 (pcpu_tick t + u64 (scale t * wait x))) (t_ctx x) in
  m ← list_append (lnk t) TIMERS (TLINK tmr);
  mret (set_lnk m (set_tmrs (<[tmr := x]> (tmrs t)) t)).

(** The loop of [tick_wait] on the values the counter has at its tests. *)
Fixpoint tick_wait (start ticks : Z) (seen : list Z) : out unit :=
  match seen with
  | [] => Spin
  | now :: seen => if now <? u64 (start + ticks) then tick_wait start ticks seen else mret tt
  end.

Section callbacks.
Context {T : Type}.
Variable callback : Z -> st (tick * T) unit.

Definition with_tick {A} (f : tick -> out A) : st (tick * T) A := fun s => a ← f (fst s); Ret (a, s).
Definition upd_tick (f : tick -> out tick) : st (tick * T) unit := fun s => t ← f (fst s); Ret (tt, (t, snd s)).

(** [iter] is the node; the next one is read after the body. *)
Fixpoint tick_loop (fuel : nat) (ticks iter : Z) : st (tick * T) unit :=
  match fuel with
  | O => fun _ => Spin
  | S fuel =>
      if iter =? 0 then mret tt
      else
        x ← with_tick (fun t => at_ptr (tmrs t) (timer_of iter));
        _ ← (if expr x <=? ticks then
               _ ← callback (t_ctx x);
               upd_tick (fun t => m ← list_remove (lnk t) iter; mret (set_lnk m t))
             else mret tt);
        n ← with_tick (fun t => get (lnk t) iter);
        tick_loop fuel ticks (next n)
  end.

(** The loop starts from a copy of the head. *)
Definition tick_inc : st (tick * T) unit :=
  _ ← upd_tick (fun t => mret (set_pcpu (u64 (pcpu_tick t + scale t)) t));
  ticks ← with_tick (fun t => mret (pcpu_tick t));
  n ← with_tick (fun t => get (lnk t) TIMERS);
  sz ← with_tick (fun t => mret (size (lnk t)));
  tick_loop (S sz) ticks (next n).

(** ** Callbacks that leave the timers alone *)

Section quiet.
Variable act : Z -> T -> T.
Hypothesis Hquiet : forall c t x, callback c (t, x) = Ret (tt, (t, act c x)).

(** The timers [ts] with their contents. *)
Definition listed (t : tick) (l : list (Z * timer)) : Prop :=
  dlist (lnk t) TIMERS ((fun p => TLINK p.1) <$> l) 0 /\ forall p, p ∈ l -> at_ptr (tmrs t) p.1 = Ret p.2.

Definition due (now : Z) (p : Z * timer) : bool := expr p.2 <=? now.

Lemma next_in_list m s xs x ys : dlist m s (xs ++ x :: ys) 0 -> exists n, get m x = Ret n /\ next n = hd 0 ys.
Proof.
  intros (_ & H0 & Hc & _). apply chain_app in Hc as [_ Hc]. apply first_link in Hc as [Hn _].
  destruct (get_nx m x (hd 0 ys)) as (n & E & En & _); [set_solver | done | by exists n].
Qed.

Lemma tick_loop_fires fuel now pre l t x : listed t (pre ++ l) -> (length l < fuel)%nat ->
  exists t', tick_loop fuel now (hd 0 ((fun p => TLINK p.1) <$> l)) (t, x) =
      Ret (tt, (t', foldl (fun x p => act (t_ctx p.2) x) x (List.filter (due now) l))) /\
    listed t' (pre ++ List.filter (fun p => negb (due now p)) l) /\ pcpu_tick t' = pcpu_tick t /\ tmrs t' = tmrs t.
Proof.
  revert fuel pre t x. induction l as [| [tmr tm] l IH]; intros fuel pre t x [Hd Ht] Hf; (destruct fuel as [| fuel]; [cbn in Hf; lia |]).
  { exists t. cbn. by rewrite app_nil_r in *. }
  rewrite fmap_app, fmap_cons in Hd. cbn [fst] in Hd.
  assert (Hn0 : TLINK tmr <> 0) by (destruct Hd as (_ & H0 & _); set_solver).
  cbn [fmap list_fmap hd tick_loop fst]. rewrite (proj2 (Z.eqb_neq _ _) Hn0).
  assert (Ex : at_ptr (tmrs t) (timer_of (TLINK tmr)) = Ret tm).
  { replace (timer_of (TLINK tmr)) with tmr by (unfold timer_of, TLINK; lia). apply (Ht (tmr, tm)). set_solver. }
  rewrite (st_step (with_tick (fun t => at_ptr (tmrs t) (timer_of (TLINK tmr)))) _ (t, x) tm (t, x)) by (unfold with_tick; cbn [fst]; by rewrite Ex).
  assert (Hcut : forall p, p ∈ pre ++ l -> p ∈ pre ++ (tmr, tm) :: l) by set_solver.
  unfold due at 1 2. cbn [List.filter snd]. destruct (expr tm <=? now) eqn:Edue; cbn [negb].
  - destruct (list_remove_dlist _ _ _ _ _ _ Hd) as (m & Em & Hd' & Hx & _). set (t1 := set_lnk m t).
    rewrite (st_step _ _ (t, x) tt (t1, act (t_ctx tm) x)).
    2: { rewrite (st_step _ _ _ _ _ (Hquiet (t_ctx tm) t x)). unfold upd_tick. cbn [fst snd]. by rewrite Em. }
    destruct (next_in_list _ _ _ _ _ Hd) as (n & En & Hnx).
    assert (En1 : get m (TLINK tmr) = Ret n) by (apply get_Ret in En; apply get_Ret; by rewrite Hx).
    rewrite (st_step (with_tick (fun t => get (lnk t) (TLINK tmr))) _ (t1, act (t_ctx tm) x) n (t1, act (t_ctx tm) x)) by (unfold with_tick; cbn [fst t1 lnk set_lnk]; by rewrite En1).
    rewrite Hnx. destruct (IH fuel pre t1 (act (t_ctx tm) x)) as (t' & E & Hl & Hpc & Htm).
    + split; [by rewrite fmap_app | intros p Hp; by apply Ht, Hcut].
    + cbn in Hf. lia.
    + exists t'. split; [exact E |]. done.
  - rewrite (st_step (mret tt) _ (t, x) tt (t, x) eq_refl).
    destruct (next_in_list _ _ _ _ _ Hd) as (n & En & Hnx).
    rewrite (st_step (with_tick (fun t => get (lnk t) (TLINK tmr))) _ (t, x) n (t, x)) by (unfold with_tick; cbn [fst]; by rewrite En).
    rewrite Hnx. destruct (IH fuel (pre ++ [(tmr, tm)]) t x) as (t' & E & Hl & Hpc & Htm).
    + split; [by rewrite <- app_assoc; cbn [app]; rewrite fmap_app, fmap_cons | rewrite <- app_assoc; exact Ht].
    + cbn in Hf. lia.
    + exists t'. split; [exact E |]. rewrite <- app_assoc in Hl. done.
Qed.

(** C26: a tick ends; it calls back exactly the timers that are due, in the
    order of the list, takes them off and keeps the others in their
    order. *)
Theorem tick_inc_fires (t : tick) (x : T) (l : list (Z * timer)) : listed t l ->
  let now := u64 (pcpu_tick t + scale t) in
  exists t', tick_inc (t, x) = Ret (tt, (t', foldl (fun x p => act (t_ctx p.2) x) x (List.filter (due now) l))) /\
    listed t' (List.filter (fun p => negb (due now p)) l) /\ pcpu_tick t' = now /\ tmrs t' = tmrs t.
Proof.
  intros Hl now. pose proof Hl as [Hd _]. set (t0 := set_pcpu now t).
  destruct Hd as (Hnd & H0 & Hc & He). pose proof (first_link _ _ _ _ Hc) as [Hn _].
  destruct (get_nx (lnk t) TIMERS _ ltac:(done) Hn) as (n & En & Hnx & _).
  destruct (tick_loop_fires (S (size (lnk t))) now [] l t0 x) as (t' & E & Hl' & Hpc & Htm).
  - exact Hl.
  - assert (Hsz : (length ((fun p => TLINK p.1) <$> l) <= size (lnk t))%nat); [| by rewrite length_fmap in Hsz; lia].
    rewrite NoDup_cons in Hnd. rewrite <- size_dom, <- (size_list_to_set (C:=gset Z)) by tauto.
    apply subseteq_size. intros k Hk%elem_of_list_to_set. apply elem_of_dom. apply (chain_mapped _ _ _ _ k Hc). by right.
  - exists t'. split; [| done]. unfold tick_inc. rewrite (st_step _ _ (t, x) tt (t0, x) eq_refl).
    rewrite (st_step _ _ (t0, x) now (t0, x) eq_refl).
    rewrite (st_step (with_tick (fun t => get (lnk t) TIMERS)) _ (t0, x) n (t0, x)) by (unfold with_tick; cbn [fst t0 lnk set_pcpu]; by rewrite En).
    rewrite (st_step _ _ (t0, x) (size (lnk t)) (t0, x) eq_refl), Hnx. exact E.
Qed.
End quiet.

(** ** A callback that installs its own timer again *)

Section rearm.
Variables tmr c : Z.

(** As [__retransmit_pkt] of tcp.c does. *)
Hypothesis Hrearm : forall t x, callback c (t, x) =
  (m ← list_init_null (lnk t) (TLINK tmr); t ← tick_install_timer tmr (set_lnk m t); Ret (tt, (t, x))).

(** When the only timer of the list is due and its callback installs it
    again, the tick never ends: the node is its own successor, whatever the
    fuel of the walk. *)
Theorem tick_rearm_spins (t : tick) (x : T) (tm : timer) (fuel : nat) (now : Z) :
  TLINK tmr <> 0 -> TLINK tmr <> TIMERS -> lnk t !! TIMERS = Some (mk_links (TLINK tmr) 0) -> lnk t !! TLINK tmr = Some (mk_links 0 TIMERS) ->
  tmr <> 0 -> tmrs t !! tmr = Some tm -> t_ctx tm = c -> expr tm <= now < u64 (pcpu_tick t + u64 (scale t * wait tm)) ->
  tick_loop fuel now (TLINK tmr) (t, x) = Spin.
Proof.
  intros H0 HT Hhead Hnode Htmr Htm Hc Hnow.
  assert (Eo : timer_of (TLINK tmr) = tmr) by (unfold timer_of, TLINK; lia).
  set (tm' := mk_timer (wait tm) (u64 (pcpu_tick t + u64 (scale t * wait tm))) (t_ctx tm)).
  (* round and round *)
  assert (Hloop : forall fuel t', lnk t' !! TLINK tmr = Some (mk_links (TLINK tmr) (TLINK tmr)) -> tmrs t' !! tmr = Some tm' -> tick_loop fuel now (TLINK tmr) (t', x) = Spin).
  { clear fuel. induction fuel as [| fuel IH]; intros t' Hn Ht; [done |]. cbn [tick_loop]. rewrite (proj2 (Z.eqb_neq _ _) H0), Eo.
    rewrite (st_step _ _ (t', x) tm' (t', x)) by (unfold with_tick; cbn [fst]; by rewrite (proj2 (at_ptr_Ret _ _ tm') (conj Htmr Ht))).
    rewrite leb_false by (unfold tm'; cbn; lia). rewrite (st_step (mret tt) _ (t', x) tt (t', x) eq_refl).
    rewrite (st_step _ _ (t', x) (mk_links (TLINK tmr) (TLINK tmr)) (t', x)) by (unfold with_tick; cbn [fst]; by rewrite (proj2 (get_Ret _ _ _) (conj H0 Hn))).
    by apply IH. }
  destruct fuel as [| fuel]; [done |]. cbn [tick_loop]. rewrite (proj2 (Z.eqb_neq _ _) H0), Eo.
  rewrite (st_step _ _ (t, x) tm (t, x)) by (unfold with_tick; cbn [fst]; by rewrite (proj2 (at_ptr_Ret _ _ tm) (conj Htmr Htm))).
  rewrite leb_true by lia. rewrite Hc.
  assert (Hpos : (TLINK tmr =? 0) = false) by (by apply Z.eqb_neq).
  assert (Egt : forall m : links, get m TIMERS = match m !! TIMERS with Some n => Ret n | None => Fault end) by done.
  assert (Egn : forall m : links, get m (TLINK tmr) = match m !! TLINK tmr with Some n => Ret n | None => Fault end) by (intros m; unfold get; by rewrite Hpos).
  set (t' := mk_tick (pcpu_tick t) (scale t) (<[TLINK tmr := mk_links (TLINK tmr) (TLINK tmr)]> (lnk t)) (<[tmr := tm']> (tmrs t))).
  assert (Ecb : callback c (t, x) = Ret (tt, (t', x))).
  { rewrite Hrearm. unfold list_init_null, set_next, set_prev. rewrite Egn, Hnode. rb. rb. rewrite Egn, lookup_insert_eq. rb. rb. rewrite insert_insert_eq.
    unfold tick_install_timer. cbn [tmrs set_lnk lnk pcpu_tick scale]. rewrite (proj2 (at_ptr_Ret _ _ tm) (conj Htmr Htm)). rb. fold tm'.
    unfold list_append, set_next, set_prev. rewrite Egt, lookup_insert_ne, Hhead by done. rb. cbn [next prev]. rewrite Egn, lookup_insert_eq. do 2 rb. cbn [next prev].
    rewrite Egn, lookup_insert_eq. do 2 rb. cbn [next prev]. rewrite !insert_insert_eq. rewrite Egt, lookup_insert_ne, Hhead by done. rb. cbn [next prev]. rewrite Hpos. cbn [negb].
    rewrite Egn, lookup_insert_eq. do 2 rb. cbn [next prev]. rewrite insert_insert_eq. rewrite Egt, lookup_insert_ne, Hhead by done. do 3 rb. cbn [next prev].
    unfold t', set_lnk, set_tmrs. cbn [pcpu_tick scale tmrs lnk]. rewrite insert_insert_ne by done. by rewrite (insert_id (lnk t) TIMERS) by done. }
  assert (Erm : list_remove (lnk t') (TLINK tmr) = Ret (lnk t')).
  { unfold list_remove, set_prev, set_next. cbn [t' lnk]. rewrite !Egn, lookup_insert_eq. rb. cbn [next prev]. rewrite Hpos. cbn [negb].
    rewrite Egn, lookup_insert_eq. do 2 rb. cbn [next prev]. rewrite insert_insert_eq. rewrite Egn, lookup_insert_eq. rb. cbn [next prev]. rewrite Hpos. cbn [negb].
    rewrite Egn, lookup_insert_eq. rb. cbn [next prev]. by rewrite insert_insert_eq. }
  assert (Hn' : lnk t' !! TLINK tmr = Some (mk_links (TLINK tmr) (TLINK tmr))) by (cbn; by rewrite lookup_insert_eq).
  rewrite (st_step _ _ (t, x) tt (t', x)).
  2: { rewrite (st_step _ _ _ _ _ Ecb). unfold upd_tick. cbn [fst snd]. rewrite Erm. do 2 rb. done. }
  rewrite (st_step _ _ (t', x) (mk_links (TLINK tmr) (TLINK tmr)) (t', x)) by (unfold with_tick; cbn [fst]; by rewrite (proj2 (get_Ret _ _ _) (conj H0 Hn'))).
  apply Hloop; [exact Hn' |]. cbn. by rewrite lookup_insert_eq.
Qed.
End rearm.
End callbacks.
(** ** Samples *)

Definition log_callback (c : Z) : st (tick * list Z) unit := fun s => Ret (tt, (fst s, snd s ++ [c])).

Definition two_timers : tick := mk_tick 90 10
  {[TIMERS := mk_links 1032 0; 1032 := mk_links 2032 TIMERS; 2032 := mk_links 0 1032]}
  {[1000 := mk_timer 5 100 7; 2000 := mk_timer 9 170 8]}.

Lemma tick_inc_fires_witness :
  exists t', tick_inc log_callback (two_timers, []) = Ret (tt, (t', [7])) /\ listed t' [(2000, mk_timer 9 170 8)] /\ pcpu_tick t' = 100.
Proof.
  destruct (tick_inc_fires log_callback (fun c x => x ++ [c]) (fun c t x => eq_refl) two_timers [] [(1000, mk_timer 5 100 7); (2000, mk_timer 9 170 8)])
    as (t' & E & Hl & Hp & _).
  - split.
    + split_and!; [by apply (bool_decide_eq_true_1 _); vm_compute | by apply (bool_decide_eq_true_1 _); vm_compute | | by right].
      cbn. unfold link, nx, pv. vm_compute. naive_solver.
    + intros p [-> | [-> | []%elem_of_nil]%elem_of_cons]%elem_of_cons; by vm_compute.
  - by exists t'.
Defined.

Definition rearm_callback (c : Z) : st (tick * unit) unit := fun s =>
  m ← list_init_null (lnk (fst s)) (TLINK 1000); t ← tick_install_timer 1000 (set_lnk m (fst s)); Ret (tt, (t, snd s)).
Definition one_timer : tick := mk_tick 90 10 {[TIMERS := mk_links 1032 0; 1032 := mk_links 0 TIMERS]} {[1000 := mk_timer 5 90 7]}.

Lemma tick_rearm_spins_witness : tick_loop rearm_callback 1000 90 (TLINK 1000) (one_timer, tt) = Spin.
Proof.
  apply (tick_rearm_spins rearm_callback 1000 7 (fun t x => eq_refl) one_timer tt (mk_timer 5 90 7) 1000 90); try done.
Defined.

End Tick.
