(* ===== verification/Inet.v ===== *)
(** * Sockets and their buffers (include/net/socket.h, udp.h, tcp.h; the
    buffer functions of net/udp.c and net/tcp.c)

    The state of the upper layers of the network stack, and the ring of ten
    packets every socket has.  A packet in a ring is a pointer, 0 a free
    slot. *)

From S2P Require Import Prelude Bytes Netutil Kmem Hashmap Locks Netdev Tick Dlist Memory Mts Sched.
Import Bytes Netutil Kmem Locks Netdev.

Module Inet.

Definition SKB_MAX_SIZE : Z := 10.

(** [udp_skb_t] and [tcp_skb_t]; [sptr] is the second's. *)
Record skb := mk_skb { sk_lock : Z; rptr : Z; wptr : Z; sptr : Z; npkts : Z; packets : list Z }.
Definition zero_skb : skb := mk_skb 0 0 0 0 0 (replicate 10 0).

Definition AF_INET : Z := 2.
Definition SOCK_STREAM : Z := 1.
Definition SOCK_DGRAM : Z := 2.

Record socket := mk_socket {
  s_domain : Z;
  s_proto : Z;
  s_flags : Z;
  s_private : Z;
  s_skb : Z;
  s_src_addr : Z;
  s_src_port : Z;
  s_dst_addr : Z;
  s_dst_port : Z
}.

Definition zero_socket : socket := mk_socket 0 0 0 0 0 0 0 0 0.
Definition set_s_flags (v : Z) (s : socket) : socket :=
  mk_socket (s_domain s) (s_proto s) v (s_private s) (s_skb s) (s_src_addr s) (s_src_port s) (s_dst_addr s) (s_dst_port s).
Definition set_s_private (v b : Z) (s : socket) : socket :=
  mk_socket (s_domain s) (s_proto s) (s_flags s) v b (s_src_addr s) (s_src_port s) (s_dst_addr s) (s_dst_port s).
Definition set_s_src (a p : Z) (s : socket) : socket :=
  mk_socket (s_domain s) (s_proto s) (s_flags s) (s_private s) (s_skb s) a p (s_dst_addr s) (s_dst_port s).
Definition set_s_dst (a p : Z) (s : socket) : socket :=
  mk_socket (s_domain s) (s_proto s) (s_flags s) (s_private s) (s_skb s) (s_src_addr s) (s_src_port s) a p.

(** [&sock->wq]. *)
Definition WQ (sock : Z) : Z := sock + 64.

Record tcp_ctx := mk_ctx {
  tseq : Z;
  taseq : Z;
  c_flags : Z;
  nclients : Z;
  clients : list Z;
  rt_queue : option Hashmap.hashmap;
  c_lock : Z
}.

Record tcp_rt_ctx := mk_rt { rt_sock : Z; rt_seq : Z; retries : Z; rt_tmr : Z }.

(** [ipv4_fragbuf_t] of net/ipv4.c: the fragments of a datagram. *)
Record fragbuf := mk_fragbuf { fsize : Z; tsize : Z; f_npkts : Z; e_idx : Z; f_pkts : list Z }.

(** An entry of the table of bound sockets. *)
Record sock := mk_sock { port : Z; active : bool; sk : Z }.
Definition MAX_SOCKETS : Z := 10.

Definition with_sk_lock (l : Z) (k : skb) : skb := mk_skb l (rptr k) (wptr k) (sptr k) (npkts k) (packets k).

(** Taking the next packet, as [udp_read_skb] does after its copy and
    [__skb_get] before its return. *)
Definition ring_take (k : skb) : out skb :=
  ps ← wr (packets k) (rptr k) 0;
  mret (mk_skb (sk_lock k) (u64 (rptr k + 1) mod SKB_MAX_SIZE) (wptr k) (sptr k) (u64 (npkts k - 1)) ps).

(** Storing a packet; the result is what was in its slot. *)
Definition ring_store (k : skb) (pkt : Z) : out (Z * skb) :=
  old ← rd (packets k) (wptr k);
  ps ← wr (packets k) (wptr k) pkt;
  mret (old, mk_skb (sk_lock k) (rptr k) (u64 (wptr k + 1) mod SKB_MAX_SIZE) (sptr k) (u64 (npkts k + 1)) ps).

Section inet.
Context {M V : Type}.

(** [fds]: the file contexts of the tasks, see Socket. *)
Record inet := mk_inet {
  socks : gmap Z socket;
  skbs : gmap Z skb;
  ctxs : gmap Z tcp_ctx;
  rts : gmap Z tcp_rt_ctx;
  sockets : list sock;
  dhcp_requests : option Hashmap.hashmap;
  fragments : option Hashmap.hashmap;
  fragbufs : gmap Z fragbuf;
  tck : Tick.tick;
  sch : Sched.sys M;
  fds : V
}.

Definition set_socks (v : gmap Z socket) (s : inet) : inet := mk_inet v (skbs s) (ctxs s) (rts s) (sockets s) (dhcp_requests s) (fragments s) (fragbufs s) (tck s) (sch s) (fds s).
Definition set_skbs (v : gmap Z skb) (s : inet) : inet := mk_inet (socks s) v (ctxs s) (rts s) (sockets s) (dhcp_requests s) (fragments s) (fragbufs s) (tck s) (sch s) (fds s).
Definition set_ctxs (v : gmap Z tcp_ctx) (s : inet) : inet := mk_inet (socks s) (skbs s) v (rts s) (sockets s) (dhcp_requests s) (fragments s) (fragbufs s) (tck s) (sch s) (fds s).
Definition set_rts (v : gmap Z tcp_rt_ctx) (s : inet) : inet := mk_inet (socks s) (skbs s) (ctxs s) v (sockets s) (dhcp_requests s) (fragments s) (fragbufs s) (tck s) (sch s) (fds s).
Definition set_sockets (v : list sock) (s : inet) : inet := mk_inet (socks s) (skbs s) (ctxs s) (rts s) v (dhcp_requests s) (fragments s) (fragbufs s) (tck s) (sch s) (fds s).
Definition set_dhcp (v : option Hashmap.hashmap) (s : inet) : inet := mk_inet (socks s) (skbs s) (ctxs s) (rts s) (sockets s) v (fragments s) (fragbufs s) (tck s) (sch s) (fds s).
Definition set_fragments (v : option Hashmap.hashmap) (s : inet) : inet := mk_inet (socks s) (skbs s) (ctxs s) (rts s) (sockets s) (dhcp_requests s) v (fragbufs s) (tck s) (sch s) (fds s).
Definition set_fragbufs (v : gmap Z fragbuf) (s : inet) : inet := mk_inet (socks s) (skbs s) (ctxs s) (rts s) (sockets s) (dhcp_requests s) (fragments s) v (tck s) (sch s) (fds s).
Definition set_tck (v : Tick.tick) (s : inet) : inet := mk_inet (socks s) (skbs s) (ctxs s) (rts s) (sockets s) (dhcp_requests s) (fragments s) (fragbufs s) v (sch s) (fds s).
Definition set_sch (v : Sched.sys M) (s : inet) : inet := mk_inet (socks s) (skbs s) (ctxs s) (rts s) (sockets s) (dhcp_requests s) (fragments s) (fragbufs s) (tck s) v (fds s).
Definition set_fds (v : V) (s : inet) : inet := mk_inet (socks s) (skbs s) (ctxs s) (rts s) (sockets s) (dhcp_requests s) (fragments s) (fragbufs s) (tck s) (sch s) v.

Abbreviation nt := (st (net inet)).

Definition geti {A} (f : inet -> A) : nt A := gets (fun s => f (upper s)).
Definition modi (f : inet -> inet) : nt unit := modify (fun s => set_upper (f (upper s)) s).
Definition at_i {A} (f : inet -> gmap Z A) (p : Z) : nt A := m ← geti f; lift (at_ptr m p).

Definition get_sock (p : Z) : nt socket := at_i socks p.
Definition get_skb (p : Z) : nt skb := at_i skbs p.
Definition get_ctx (p : Z) : nt tcp_ctx := at_i ctxs p.
Definition get_rt (p : Z) : nt tcp_rt_ctx := at_i rts p.
Definition get_fb (p : Z) : nt fragbuf := at_i fragbufs p.
Definition put_sock (p : Z) (x : socket) : nt unit := modi (fun i => set_socks (<[p := x]> (socks i)) i).
Definition put_skb (p : Z) (x : skb) : nt unit := modi (fun i => set_skbs (<[p := x]> (skbs i)) i).
Definition put_ctx (p : Z) (x : tcp_ctx) : nt unit := modi (fun i => set_ctxs (<[p := x]> (ctxs i)) i).
Definition put_rt (p : Z) (x : tcp_rt_ctx) : nt unit := modi (fun i => set_rts (<[p := x]> (rts i)) i).

Definition put_fb (p : Z) (x : fragbuf) : nt unit := modi (fun i => set_fragbufs (<[p := x]> (fragbufs i)) i).

(** The address of a new object. *)
Definition new_obj : nt Z := zalloc 0.

(** ** The ring of packets *)

(** [udp_write_skb] and [__skb_put]: a packet in the way is freed. *)
Definition ring_put (p pkt : Z) : nt unit :=
  k ← get_skb p;
  l ← lift (spin_acquire (sk_lock k));
  '(old, k) ← lift (ring_store (with_sk_lock l k) pkt);
  _ ← (if negb (old =? 0) then netdev_dealloc_pkt old else mret 0);
  put_skb p (with_sk_lock (spin_release l) k).

Definition __skb_put (p pkt : Z) : nt Z :=
  _ ← assert (negb (p =? 0) && negb (pkt =? 0));
  _ ← ring_put p pkt;
  mret 0.

Definition __skb_get (p : Z) : nt Z :=
  _ ← assert (negb (p =? 0));
  k ← get_skb p;
  _ ← assert (negb (npkts k =? 0));
  l ← lift (spin_acquire (sk_lock k));
  pkt ← lift (rd (packets k) (rptr k));
  k ← lift (ring_take (with_sk_lock l k));
  _ ← put_skb p (with_sk_lock (spin_release l) k);
  mret pkt.

(** The result, and the bytes stored in the caller's buffer of [size]
    bytes. *)
Definition udp_read_skb (sock : Z) (buf : bool) (size : Z) : nt (Z * list Z) :=
  s ← get_sock sock;
  if (s_skb s =? 0) || negb buf || (size =? 0) then mret (- EINVAL, [])
  else
    k ← get_skb (s_skb s);
    if npkts k =? 0 then mret (0, [])
    else
      l ← lift (spin_acquire (sk_lock k));
      pkt ← lift (rd (packets k) (rptr k));
      p ← get_pkt pkt;
      let cpy_size := Z.min size (lsize (app p)) in
      data ← rdm (lpacket (app p)) cpy_size;
      _ ← netdev_dealloc_pkt pkt;
      k ← lift (ring_take (with_sk_lock l k));
      _ ← put_skb (s_skb s) (with_sk_lock (spin_release l) k);
      mret (s32 cpy_size, data).

Definition udp_write_skb (sock pkt : Z) : nt Z :=
  s ← get_sock sock;
  if (s_skb s =? 0) || (pkt =? 0) then mret (- EINVAL)
  else _ ← ring_put (s_skb s) pkt; mret 0.

End inet.
#[global] Arguments inet : clear implicits.

(** ** The ring as a queue *)

(** The slots hold [ps], in order, from the read position on. *)
Record slots (k : skb) (ps : list Z) : Prop := {
  sl_r : 0 <= rptr k < 10;
  sl_len : length (packets k) = 10%nat;
  sl_ps : (length ps <= 10)%nat;
  sl_at : forall i, 0 <= i < 10 -> rd (packets k) ((rptr k + i) mod 10) = Ret (default 0 (ps !! Z.to_nat i))
}.

(** A queue of at most ten packets. *)
Definition queue (k : skb) (ps : list Z) : Prop :=
  slots k ps /\ wptr k = (rptr k + zlen ps) mod 10 /\ npkts k = zlen ps /\ Forall (fun p => p <> 0) ps.

(** The packets of [n] reads in a row. *)
Fixpoint reads (n : nat) (k : skb) : out (list Z) :=
  match n with
  | O => mret []
  | S n => p ← rd (packets k) (rptr k); k ← ring_take k; l ← reads n k; mret (p :: l)
  end.

Lemma slots_first k ps : slots k ps -> rd (packets k) (rptr k) = Ret (hd 0 ps).
Proof.
  intros [Hr _ _ Hat]. specialize (Hat 0 ltac:(lia)). rewrite Z.add_0_r, Z.mod_small in Hat by lia. by destruct ps.
Qed.

Lemma slots_take k ps : slots k ps -> exists k', ring_take k = Ret k' /\ slots k' (tail ps) /\
  rptr k' = (rptr k + 1) mod 10 /\ wptr k' = wptr k /\ npkts k' = u64 (npkts k - 1).
Proof.
  intros [Hr Hl Hps Hat]. unfold ring_take. rewrite wr_in by (unfold zlen; lia). rb. eexists. split; [done |].
  assert (Er : u64 (rptr k + 1) mod SKB_MAX_SIZE = (rptr k + 1) mod 10) by (unfold u64; by rewrite wrap_small by (unfold in_u; lia)).
  cbn [rptr wptr npkts packets]. rewrite Er. split_and!; try done. constructor; cbn [rptr packets].
  - apply Z.mod_pos_bound. lia.
  - by rewrite length_insert.
  - destruct ps; cbn in *; lia.
  - intros i Hi. rewrite Zplus_mod_idemp_l. assert (Hm := Z.mod_pos_bound (rptr k + 1 + i) 10 ltac:(lia)).
    destruct (Z.eq_dec i 9) as [-> | Hi9].
    + replace ((rptr k + 1 + 9) mod 10) with (rptr k) by (Z.div_mod_to_equations; lia).
      replace (default 0 (tail ps !! Z.to_nat 9)) with 0 by (rewrite lookup_ge_None_2 by (destruct ps; cbn in *; lia); done).
      apply rd_Ret. split; [lia |]. apply list_lookup_insert_eq. lia.
    + assert (Hne : (rptr k + 1 + i) mod 10 <> rptr k) by (Z.div_mod_to_equations; lia).
      specialize (Hat (i + 1) ltac:(lia)). replace (rptr k + (i + 1)) with (rptr k + 1 + i) in Hat by lia.
      apply rd_Ret in Hat as [H1 H2]. apply rd_Ret. split; [done |]. rewrite list_lookup_insert_ne by lia. rewrite H2.
      f_equal. f_equal. replace (Z.to_nat (i + 1)) with (S (Z.to_nat i)) by lia. by destruct ps.
Qed.

Lemma queue_take k q qs : queue k (q :: qs) ->
  rd (packets k) (rptr k) = Ret q /\ exists k', ring_take k = Ret k' /\ queue k' qs /\ sk_lock k' = sk_lock k /\ sptr k' = sptr k.
Proof.
  intros (Hs & Hw & Hn & Hnz). pose proof (sl_ps _ _ Hs) as Hlen. split; [by apply (slots_first k (q :: qs)) |].
  destruct (slots_take k _ Hs) as (k' & E & Hs' & Er & Ew & En). exists k'. split; [done |].
  split; [| by unfold ring_take in E; apply bind_Ret in E as (l & _ & E); injection E as <-].
  split; [done |]. rewrite Er, Ew, En, Hw, Hn. unfold zlen in *. cbn [length] in *. rewrite Zplus_mod_idemp_l.
  apply Forall_cons in Hnz as [_ Hnz].
  split_and!; [f_equal; lia | transitivity (Z.of_nat (S (length qs)) - 1); [apply wrap_small; unfold in_u |]; lia | done].
Qed.

Lemma slots_store k ps p d : slots k ps -> 0 <= d <= zlen ps -> d < 10 -> wptr k = (rptr k + d) mod 10 ->
  exists k', ring_store k p = Ret (default 0 (ps !! Z.to_nat d), k') /\
    slots k' (if d =? zlen ps then ps ++ [p] else <[Z.to_nat d := p]> ps) /\
    rptr k' = rptr k /\ wptr k' = (wptr k + 1) mod 10 /\ npkts k' = u64 (npkts k + 1).
Proof.
  intros [Hr Hl Hps Hat] Hd Hd10 Hw. assert (Hm := Z.mod_pos_bound (rptr k + d) 10 ltac:(lia)).
  assert (Eo : rd (packets k) (wptr k) = Ret (default 0 (ps !! Z.to_nat d))) by (rewrite Hw; apply Hat; lia).
  assert (Hwr : 0 <= wptr k < 10) by (rewrite Hw; lia). unfold ring_store. rewrite Eo. rb. rewrite wr_in by (unfold zlen; lia). rb. eexists. split; [done |].
  cbn [rptr wptr npkts packets]. split; [| split_and!; [done | | done]].
  2: { f_equal. unfold u64. apply wrap_small. unfold in_u. lia. }
  unfold zlen in *. constructor; cbn [rptr packets]; [done | by rewrite length_insert | |].
  - destruct (Z.eqb_spec d (Z.of_nat (length ps))); rewrite ?length_app, ?length_insert; cbn; lia.
  - intros i Hi. assert (Hmi := Z.mod_pos_bound (rptr k + i) 10 ltac:(lia)). apply rd_Ret. split; [lia |].
    destruct (Z.eq_dec i d) as [-> | Hne].
    + rewrite <- Hw, list_lookup_insert_eq by lia. destruct (Z.eqb_spec d (Z.of_nat (length ps))).
      * rewrite lookup_app_r by lia. by replace (Z.to_nat d - length ps)%nat with 0%nat by lia.
      * by rewrite list_lookup_insert_eq by lia.
    + rewrite list_lookup_insert_ne by (rewrite Hw; Z.div_mod_to_equations; lia).
      specialize (Hat i Hi). apply rd_Ret in Hat as [_ ->]. do 2 f_equal. destruct (Z.eqb_spec d (Z.of_nat (length ps))).
      * destruct (decide (Z.to_nat i < length ps)%nat); [by rewrite lookup_app_l |].
        rewrite lookup_ge_None_2 by lia. rewrite lookup_app_r by lia. destruct (Z.to_nat i - length ps)%nat as [| j] eqn:Ej; [lia | done].
      * by rewrite list_lookup_insert_ne by lia.
Qed.

Lemma slots_reads n k ps : slots k ps -> reads n k = Ret ((fun i => default 0 (ps !! i)) <$> seq 0 n).
Proof.
  revert k ps. induction n as [| n IH]; intros k ps Hs; [done |]. cbn [reads]. rewrite (slots_first k ps Hs). rb.
  destruct (slots_take k ps Hs) as (k' & E & Hs' & _). rewrite E. rb. rewrite (IH k' (tail ps) Hs'). rb. unfold mret, out_ret. f_equal.
  cbn [seq fmap list_fmap]. f_equal; [by destruct ps |]. rewrite <- fmap_S_seq, <- list_fmap_compose. apply list_fmap_ext. intros i x _. by destruct ps.
Qed.

(** The ring of a socket is a first-in first-out queue of ten packets as
    long as it is not full; a packet that arrives at a full ring replaces the
    oldest one but keeps its place: it is read first, before the nine older
    ones, and one more read is counted than there are packets, which finds
    the null pointer. *)
Theorem skb_ring_queue (k : skb) (ps : list Z) (p : Z) : queue k ps -> p <> 0 ->
  (zlen ps < 10 -> exists k', ring_store k p = Ret (0, k') /\ queue k' (ps ++ [p])) /\
  (forall q qs, ps = q :: qs -> rd (packets k) (rptr k) = Ret q /\ exists k', ring_take k = Ret k' /\ queue k' qs) /\
  (zlen ps = 10 -> exists k', ring_store k p = Ret (hd 0 ps, k') /\ npkts k' = 11 /\ reads 11 k' = Ret (p :: tail ps ++ [0])).
Proof.
  intros (Hs & Hw & Hn & Hnz) Hp. pose proof (sl_ps _ _ Hs) as Hlen. pose proof (zlen_nonneg ps). split_and!.
  - intros Hlt. destruct (slots_store k ps p (zlen ps) Hs) as (k' & E & Hs' & Er & Ew & En); [lia | lia | done |].
    rewrite Z.eqb_refl in Hs'. rewrite lookup_ge_None_2 in E by (unfold zlen; lia). exists k'. split; [exact E |]. split; [done |].
    assert (El : zlen (ps ++ [p]) = zlen ps + 1) by (unfold zlen; rewrite length_app; cbn; lia). rewrite El, Er, Ew, En, Hw, Hn.
    rewrite Zplus_mod_idemp_l. split_and!; [f_equal; lia | apply wrap_small; unfold in_u; lia |]. apply Forall_app. split; [done | by constructor].
  - intros q qs ->. destruct (queue_take k q qs) as [H1 (k' & E & Hq & _)]; [done |]. split; [done | by exists k'].
  - intros Hf. destruct (slots_store k ps p 0 Hs) as (k' & E & Hs' & Er & Ew & En); [lia | lia | |].
    { rewrite Hw, Hf, Z.add_0_r. Z.div_mod_to_equations. pose proof (sl_r _ _ Hs). lia. }
    rewrite (proj2 (Z.eqb_neq 0 (zlen ps))) in Hs' by lia. destruct ps as [| q qs]; [done |]. cbn in E, Hs'. exists k'. split; [exact E |].
    split; [rewrite En, Hn, Hf; done |]. rewrite (slots_reads 11 k' _ Hs').
    assert (Hq : length qs = 9%nat) by (unfold zlen in Hf; cbn in Hf; lia). do 10 (destruct qs as [| ? qs]; try done).
Qed.

(** A full ring. *)
Definition full_skb : skb := mk_skb 0 3 3 0 10 [8; 9; 10; 1; 2; 3; 4; 5; 6; 7].

Lemma skb_ring_queue_witness :
  queue full_skb [1; 2; 3; 4; 5; 6; 7; 8; 9; 10] /\
  exists k', ring_store full_skb 11 = Ret (1, k') /\ reads 11 k' = Ret [11; 2; 3; 4; 5; 6; 7; 8; 9; 10; 0].
Proof.
  assert (Hq : queue full_skb [1; 2; 3; 4; 5; 6; 7; 8; 9; 10]).
  { split; [constructor; cbn; try lia | split_and!; [done | done | repeat (apply Forall_cons_2; [done |]); apply Forall_nil_2]].
    intros i Hi. assert (Hc : i = 0 \/ i = 1 \/ i = 2 \/ i = 3 \/ i = 4 \/ i = 5 \/ i = 6 \/ i = 7 \/ i = 8 \/ i = 9) by lia.
    repeat (destruct Hc as [-> | Hc]; [done |]). by subst. }
  split; [exact Hq |]. destruct (proj2 (proj2 (skb_ring_queue full_skb _ 11 Hq ltac:(done))) eq_refl) as (k' & E & _ & R). by exists k'.
Defined.

End Inet.
