(* ===== verification/Tcp.v ===== *)
(** * TCP (net/tcp.c)

    Segments, the handshakes as far as they go, the retransmission queue and
    the stream the reader gets.  A call that sleeps is split at its waits:
    [x_wait] goes to sleep, [x_resume] is what runs after the wake-up.  The
    functions of the C file that end without a [return] give 0 here. *)

From S2P Require Import Prelude Bytes Netutil Kmem Hashmap Locks Netdev Ipv4 Tick Dlist Memory Mts Sched Pipe Inet.
Import Bytes Netutil Kmem Locks Netdev Ipv4 Inet.

Module Tcp.

Definition TCP_NO_OPTS : Z := Z.shiftl 5 4.
Definition TCP_MAX_CLIENTS : Z := 5.
Definition TCP_SYN_RETRIES : Z := 5.
Definition TCP_WINDOW_SIZE : Z := 1460.
Definition TCP_FLAG_MASK : Z := 0xff00.
Definition TCP_RETRANSMIT : Z := 250.

Definition TCP_FLAG_SYN : Z := Z.shiftl 1 9.
Definition TCP_FLAG_RST : Z := Z.shiftl 1 10.
Definition TCP_FLAG_PSH : Z := Z.shiftl 1 11.
Definition TCP_FLAG_ACK : Z := Z.shiftl 1 12.

Definition TCP_STATE_NONE : Z := 0.
Definition TCP_STATE_PASSIVE : Z := 1.
Definition TCP_STATE_SYN_SENT : Z := 2.
Definition TCP_STATE_SYN_RECEIVED : Z := 4.
Definition TCP_STATE_PORT_CLOSED : Z := 16.
Definition TCP_STATE_CONNECTED : Z := 32.

(** Offsets in [tcp_pkt_t]. *)
Definition T_SRC : Z := 0.
Definition T_DST : Z := 2.
Definition T_SEQ : Z := 4.
Definition T_ASEQ : Z := 8.
Definition T_OFF : Z := 12.
Definition T_LEN : Z := 14.
Definition T_CKS : Z := 16.
Definition T_UPTR : Z := 18.

Definition bit (flags mask : Z) : bool := negb (Z.land flags mask =? 0).

Section tcp.
Context {M V : Type} `{Sched.SchedOps M}.
Abbreviation nt := (st (net (inet M V))).

(** ** Checksum *)

(** The pseudo header: the addresses, the protocol and the length. *)
Definition pseudo (src dst : list Z) (size : Z) : list Z :=
  src ++ dst ++ [0; PROTO_TCP] ++ le_bytes 2 (h2n_16 size).

Definition tcp_sum (pseudo segment : list Z) : Z :=
  let sum := foldl (fun sum w => u32 (sum + w)) (sum32 (words pseudo)) (words segment) in
  u16 (Z.lnot (u32 (Z.shiftr (Z.land sum 0xff0000) 16 + sum))).

(** The last byte of a segment of odd length is left out. *)
Definition tcp_checksum (k : packet) : nt Z :=
  src ← rdm (src_addr k) 4; dst ← rdm (dst_addr k) 4;
  b ← rdm (lpacket (transport k)) (2 * (lsize (transport k) / 2));
  mret (tcp_sum (pseudo src dst (lsize (transport k))) b).

Definition put_checksum (k : packet) : nt unit :=
  let tcp := lpacket (transport k) in
  _ ← wrle (tcp + T_CKS) 2 0; c ← tcp_checksum k; wrle (tcp + T_CKS) 2 c.

(** The fields of a segment; ports and numbers in host order. *)
Definition put_segment (k : packet) (src dst off sq asq : Z) : nt unit :=
  let tcp := lpacket (transport k) in
  _ ← wrle (tcp + T_SRC) 2 (h2n_16 src);
  _ ← wrle (tcp + T_DST) 2 (h2n_16 dst);
  _ ← wrle (tcp + T_OFF) 2 off;
  _ ← wrle (tcp + T_LEN) 2 (h2n_16 TCP_WINDOW_SIZE);
  _ ← wrle (tcp + T_SEQ) 4 (h2n_32 sq);
  _ ← wrle (tcp + T_ASEQ) 4 (h2n_32 asq);
  put_checksum k.

(** ** Retransmission *)

Definition on_tick (f : Tick.tick -> out Tick.tick) : nt unit :=
  t ← geti tck; t ← lift (f t); modi (set_tck t).

(** A new timer, its node cleared. *)
Definition new_timer (ctx : Z) : nt Z :=
  a ← new_obj;
  _ ← on_tick (fun t => mret (Tick.set_lnk (<[Tick.TLINK a := Dlist.mk_links 0 0]> (Tick.lnk t))
                               (Tick.set_tmrs (<[a := Tick.mk_timer TCP_RETRANSMIT 0 ctx]> (Tick.tmrs t)) t)));
  mret a.

Definition set_rt_queue (q : option Hashmap.hashmap) (c : tcp_ctx) : tcp_ctx :=
  mk_ctx (tseq c) (taseq c) (c_flags c) (nclients c) (clients c) q (c_lock c).
Definition set_c_lock (l : Z) (c : tcp_ctx) : tcp_ctx :=
  mk_ctx (tseq c) (taseq c) (c_flags c) (nclients c) (clients c) (rt_queue c) l.
Definition set_seqs (sq asq : Z) (c : tcp_ctx) : tcp_ctx :=
  mk_ctx sq asq (c_flags c) (nclients c) (clients c) (rt_queue c) (c_lock c).

(** Runs in the timer interrupt. *)
Definition __retransmit_pkt (rt : Z) : nt unit :=
  r ← get_rt rt;
  s ← get_sock (rt_sock r);
  c ← get_ctx (s_private s);
  l ← lift (spin_acquire (c_lock c));
  _ ← put_ctx (s_private s) (set_c_lock l c);
  pkt ← lift (Hashmap.hm_get (rt_queue c) (Some (le_bytes 4 (rt_seq r))));
  if negb (pkt =? 0) then
    _ ← tcp_send_pkt pkt;
    let r := mk_rt (rt_sock r) (rt_seq r) (s32 (retries r - 1)) (rt_tmr r) in
    _ ← put_rt rt r;
    if negb (retries r =? 0) then
      _ ← on_tick (fun t => m ← Dlist.list_init_null (Tick.lnk t) (Tick.TLINK (rt_tmr r)); mret (Tick.set_lnk m t));
      _ ← put_ctx (s_private s) (set_c_lock (spin_release l) c);
      on_tick (Tick.tick_install_timer (rt_tmr r))
    else
      _ ← netdev_dealloc_pkt pkt;
      '(_, q) ← lift (Hashmap.hm_remove (rt_queue c) (Some (le_bytes 4 (rt_seq r))));
      put_ctx (s_private s) (set_c_lock (spin_release l) (set_rt_queue q c))
  else put_ctx (s_private s) (set_c_lock (spin_release l) c).

(** The packet is queued under the number of the byte after it, and sent. *)
Definition __send_pkt (sock pkt : Z) : nt Z :=
  _ ← assert (negb (pkt =? 0));
  k ← get_pkt pkt;
  _ ← (if Z.land (flags k) NF_NO_RTO =? 0 then
         rt ← new_obj;
         tmr ← new_timer rt;
         sq ← rdle (lpacket (transport k) + T_SEQ) 4;
         let key := u32 (n2h_32 sq + lsize (transport k) - SIZEOF_TCP) in
         _ ← put_rt rt (mk_rt sock key TCP_SYN_RETRIES tmr);
         s ← get_sock sock;
         c ← get_ctx (s_private s);
         '(_, q) ← lift (Hashmap.hm_insert item (rt_queue c) (Some (le_bytes 4 key)) pkt);
         _ ← put_ctx (s_private s) (set_rt_queue q c);
         on_tick (Tick.tick_install_timer tmr)
       else mret tt);
  tcp_send_pkt pkt.

(** ** The stream *)

(** [file->f_private] is the socket. *)
Definition __tcp_write (sock pkt : Z) : nt Z :=
  k ← get_pkt pkt;
  s ← get_sock sock;
  c ← get_ctx (s_private s);
  _ ← put_segment k (src_port k) (dst_port k) (Z.lor (Z.lor TCP_NO_OPTS TCP_FLAG_PSH) TCP_FLAG_ACK) (tseq c) (taseq c);
  _ ← put_ctx (s_private s) (set_seqs (u32 (tseq c + lsize (transport k) - SIZEOF_TCP)) (taseq c) c);
  __send_pkt sock pkt.

Definition with_sptr (v : Z) (k : skb) : skb := mk_skb (sk_lock k) (rptr k) (wptr k) v (npkts k) (packets k).

(** Copies go to the start of the buffer [buf], each over the one before.
    [left] and the position are signed. *)
Fixpoint read_loop (fuel : nat) (sk : Z) (buf : list Z) (left ptr : Z) : nt (Z * list Z) :=
  match fuel with
  | O => fun _ => Spin
  | S fuel =>
      k ← get_skb sk;
      if (0 <? left) && negb (npkts k =? 0) then
        cur ← lift (rd (packets k) (rptr k));
        p ← get_pkt cur;
        let psize := s64 (lsize (transport p) - SIZEOF_TCP - sptr k) in
        let from := lpacket (transport p) + SIZEOF_TCP + sptr k in
        if psize <=? left then
          cur ← __skb_get sk;
          b ← rdm from (u64 psize);
          buf ← lift (wr_bytes buf 0 b);
          k ← get_skb sk;
          _ ← put_skb sk (with_sptr 0 k);
          _ ← netdev_dealloc_pkt cur;
          read_loop fuel sk buf (left - psize) (ptr + psize)
        else
          b ← rdm from left;
          buf ← lift (wr_bytes buf 0 b);
          _ ← put_skb sk (with_sptr (u64 (sptr k + left)) k);
          read_loop fuel sk buf 0 (ptr + left)
      else mret (ptr, buf)
  end.

(** Each round takes a packet or is the last. *)
Definition tcp_read_data (sk : Z) (buf : list Z) (size : Z) : nt (Z * list Z) :=
  k ← get_skb sk; read_loop (S (S (Z.to_nat (npkts k)))) sk buf size 0.

(** Sleeping on the socket; the value says where control goes. *)
Definition wait_on (me sock : Z) : nt Sched.control := fun s =>
  cur ← Sched.sched_get_active (sch (upper s)) me;
  '(_, c, _, s') ← Sched.wq_wait_event (sch (upper s)) me (WQ sock) cur None;
  Ret (c, set_upper (set_sch s' (upper s)) s).

Definition wakeup (me sock : Z) : nt unit := fun s =>
  '(_, s') ← Sched.wq_wakeup (sch (upper s)) me (WQ sock); Ret (tt, set_upper (set_sch s' (upper s)) s).

Definition __tcp_read (me sock : Z) (buf : list Z) (size : Z) : nt (Pipe.call * list Z) :=
  s ← get_sock sock;
  k ← get_skb (s_skb s);
  if npkts k =? 0 then c ← wait_on me sock; mret (Pipe.Wait c, buf)
  else '(n, buf) ← tcp_read_data (s_skb s) buf size; mret (Pipe.Done n [], buf).

Definition __tcp_read_resume (sock : Z) (buf : list Z) (size : Z) : nt (Z * list Z) :=
  s ← get_sock sock; tcp_read_data (s_skb s) buf size.

(** ** Sockets *)

(** The wait queue of a new socket, whose memory is cleared. *)
Definition init_wq (sock : Z) : nt unit := fun s =>
  let x := sch (upper s) in
  let x := Sched.set_lnk (<[Sched.WQH_LIST (WQ sock) := Dlist.mk_links 0 0]> (Sched.lnk x)) x in
  '(_, x) ← Sched.wq_init_head x (WQ sock); Ret (tt, set_upper (set_sch x (upper s)) s).

Definition tcp_init_socket (sock : Z) : nt unit :=
  s ← get_sock sock;
  a ← new_obj;
  _ ← put_sock sock (set_s_private a (s_skb s) s);
  let q := match Hashmap.hm_alloc_hashmap true true 16 0 with Ok h => Some h | Err _ => None end in
  put_ctx a (mk_ctx 0 0 TCP_STATE_NONE 0 (replicate 5 0) q 0).

(** An acknowledgement of all that [c] has received. *)
Definition ack_segment (s : socket) (c : tcp_ctx) (tsize : Z) : nt Z :=
  ack ← netdev_alloc_pkt_L4 PROTO_IPV4 SIZEOF_TCP;
  k ← get_pkt ack;
  let k := set_addrs (s_src_addr s) (s_dst_addr s)
             (set_transport (mk_layer PROTO_TCP SIZEOF_TCP (lpacket (transport k)))
               (set_net (mk_layer PROTO_IPV4 (lsize (pnet k)) (lpacket (pnet k))) k)) in
  _ ← put_pkt ack k;
  _ ← put_segment k (u16 (s_src_port s)) (u16 (s_dst_port s)) (Z.lor TCP_NO_OPTS TCP_FLAG_ACK) (tseq c) (u32 (taseq c + tsize - SIZEOF_TCP - 4));
  mret ack.

Definition __handle_connected (sock pkt : Z) : nt Z :=
  k ← get_pkt pkt;
  s ← get_sock sock;
  c ← get_ctx (s_private s);
  off ← rdle (lpacket (transport k) + T_OFF) 2;
  let fl := Z.land off TCP_FLAG_MASK in
  if fl =? Z.lor TCP_FLAG_PSH TCP_FLAG_ACK then
    sq ← rdle (lpacket (transport k) + T_SEQ) 4;
    if negb (sq =? taseq c) then _ ← netdev_dealloc_pkt pkt; mret 0
    else
      _ ← __skb_put (s_skb s) pkt;
      ack ← ack_segment s c (lsize (transport k));
      _ ← put_ctx (s_private s) (set_seqs (tseq c) (u32 (taseq c + lsize (transport k) - SIZEOF_TCP - 4)) c);
      tcp_send_pkt ack
  else if fl =? TCP_FLAG_ACK then
    l ← lift (spin_acquire (c_lock c));
    asq ← rdle (lpacket (transport k) + T_ASEQ) 4;
    '(_, q) ← lift (Hashmap.hm_remove (rt_queue c) (Some (le_bytes 4 asq)));
    _ ← put_ctx (s_private s) (set_c_lock (spin_release l) (set_rt_queue q c));
    mret 0
  else halt.

(** The clients of a listening socket, from the [i]th on. *)
Fixpoint accept_loop (n : nat) (me sock pkt i : Z) (k : packet) (c : tcp_ctx) : nt Z :=
  match n with
  | O => mret 0
  | S n =>
      tmp ← lift (rd (clients c) i);
      ts ← get_sock tmp;
      tc ← get_ctx (s_private ts);
      from ← rdle (lpacket (pnet k) + IP_SRC) 4;
      peer ← rdle (s_dst_addr ts) 4;
      src ← rdle (lpacket (transport k) + T_SRC) 2;
      if (h2n_32 from =? peer) && (n2h_16 src =? n2h_16 (u16 (s_dst_port ts))) then
        _ ← __skb_put (s_skb ts) pkt;
        ack ← ack_segment ts tc (lsize (transport k));
        _ ← put_ctx (s_private ts) (set_seqs (tseq tc) (u32 (taseq tc + lsize (transport k) - SIZEOF_TCP - 4)) tc);
        _ ← __send_pkt sock ack;
        _ ← wakeup me tmp;
        mret 0
      else accept_loop n me sock pkt (i + 1) k c
  end.

Definition __handle_accept (me sock pkt : Z) : nt Z :=
  k ← get_pkt pkt;
  s ← get_sock sock;
  off ← rdle (lpacket (transport k) + T_OFF) 2;
  let fl := Z.land off TCP_FLAG_MASK in
  if fl =? TCP_FLAG_SYN then
    _ ← put_sock sock (set_s_flags (Z.lor (s_flags s) TCP_STATE_SYN_RECEIVED) s);
    _ ← __skb_put (s_skb s) pkt;
    _ ← wakeup me sock;
    mret 0
  else if fl =? TCP_FLAG_ACK then
    _ ← put_sock sock (set_s_flags (Z.lor (s_flags s) TCP_STATE_CONNECTED) s);
    _ ← wakeup me sock;
    mret 0
  else
    c ← get_ctx (s_private s);
    accept_loop (Z.to_nat (nclients c)) me sock pkt 0 k c.

Definition __handle_syn (me sock pkt : Z) : nt Z :=
  k ← get_pkt pkt;
  s ← get_sock sock;
  off ← rdle (lpacket (transport k) + T_OFF) 2;
  let fl := Z.land off TCP_FLAG_MASK in
  if fl =? Z.lor TCP_FLAG_ACK TCP_FLAG_RST then
    _ ← put_sock sock (set_s_flags (Z.lor (Z.land (s_flags s) (Z.lnot TCP_STATE_SYN_SENT)) TCP_STATE_PORT_CLOSED) s);
    _ ← netdev_dealloc_pkt pkt;
    _ ← wakeup me sock;
    mret (- EFAULT)
  else if fl =? Z.lor TCP_FLAG_ACK TCP_FLAG_SYN then
    _ ← __skb_put (s_skb s) pkt;
    _ ← wakeup me sock;
    mret 0
  else
    _ ← netdev_dealloc_pkt pkt;
    mret (- EINVAL).

Definition tcp_write_skb (me sock pkt : Z) : nt Z :=
  s ← get_sock sock;
  if bit (s_flags s) TCP_STATE_SYN_SENT then __handle_syn me sock pkt
  else if bit (s_flags s) TCP_STATE_PASSIVE then __handle_accept me sock pkt
  else if bit (s_flags s) TCP_STATE_CONNECTED then __handle_connected sock pkt
  else halt.

(** ** Connecting *)

(** The remote address is given by its four bytes and its port; the result
    is the packet, kept for the acknowledgement. *)
Definition tcp_connect (me sock : Z) (addr : list Z) (dport : Z) : nt (Z * Sched.control) :=
  p ← netdev_alloc_pkt_L4 PROTO_IPV4 SIZEOF_TCP;
  k ← get_pkt p;
  s ← get_sock sock;
  d ← zalloc SIZEOF_IP;
  _ ← wrm d addr;
  let k := set_flags (Z.lor NF_REUSE NF_NO_RTO) (set_ports (u16 (s_src_port s)) dport (set_addrs (s_src_addr s) d
             (set_transport (mk_layer PROTO_TCP SIZEOF_TCP (lpacket (transport k))) k))) in
  _ ← put_pkt p k;
  let tcp := lpacket (transport k) in
  _ ← wrle (tcp + T_SRC) 2 (h2n_16 (src_port k));
  _ ← wrle (tcp + T_DST) 2 (h2n_16 (dst_port k));
  _ ← wrle (tcp + T_OFF) 2 (Z.lor TCP_NO_OPTS TCP_FLAG_SYN);
  _ ← wrle (tcp + T_LEN) 2 (h2n_16 TCP_WINDOW_SIZE);
  _ ← put_checksum k;
  _ ← put_sock sock (set_s_flags (Z.lor (s_flags s) TCP_STATE_SYN_SENT) s);
  _ ← tcp_send_pkt p;
  c ← wait_on me sock;
  mret (p, c).

Definition tcp_connect_resume (sock p dport : Z) : nt Z :=
  s ← get_sock sock;
  kb ← get_skb (s_skb s);
  if (npkts kb =? 0) && bit (s_flags s) TCP_STATE_SYN_SENT then
    mret (if bit (s_flags s) TCP_STATE_PORT_CLOSED then - EFAULT else - EINVAL)
  else
    in_pkt ← __skb_get (s_skb s);
    ik ← get_pkt in_pkt;
    isq ← rdle (lpacket (transport ik) + T_SEQ) 4;
    k ← get_pkt p;
    _ ← (if bit (s_flags s) TCP_STATE_CONNECTED then mret tt
         else
           let tcp := lpacket (transport k) in
           _ ← wrle (tcp + T_OFF) 2 (Z.lor TCP_NO_OPTS TCP_FLAG_ACK);
           _ ← wrle (tcp + T_SEQ) 4 (h2n_32 1);
           _ ← wrle (tcp + T_ASEQ) 4 (h2n_32 (u32 (isq + 1)));
           _ ← put_checksum k;
           _ ← put_sock sock (set_s_flags (Z.lor (Z.land (s_flags s) (Z.lnot TCP_STATE_SYN_SENT)) TCP_STATE_CONNECTED) s);
           _ ← tcp_send_pkt p; mret tt);
    s ← get_sock sock;
    c ← get_ctx (s_private s);
    _ ← put_ctx (s_private s) (mk_ctx 1 (u32 (isq + 1)) TCP_STATE_CONNECTED (nclients c) (clients c) (rt_queue c) (c_lock c));
    d ← memdup (dst_addr k) SIZEOF_IP;
    _ ← put_sock sock (set_s_dst d (s16 dport) s);
    _ ← netdev_dealloc_pkt p;
    _ ← netdev_dealloc_pkt in_pkt;
    mret 0.

(** ** Listening *)

Definition tcp_listen (sock : Z) : nt Z :=
  s ← get_sock sock;
  _ ← put_sock sock (set_s_flags (Z.lor (s_flags s) TCP_STATE_PASSIVE) s);
  mret 0.

(** Up to the first wait. *)
Definition tcp_accept (me sock : Z) : nt (res Sched.control) :=
  s ← get_sock sock;
  c ← get_ctx (s_private s);
  if negb (bit (s_flags s) TCP_STATE_PASSIVE) then mret (Err ENOTSUP)
  else if nclients c =? TCP_MAX_CLIENTS then mret (Err ENOMEM)
  else w ← wait_on me sock; mret (Ok w).

(** The answer to the SYN, and the second wait; the results are the two
    packets. *)
Definition tcp_accept_syn (me sock : Z) : nt (Z * Z * Sched.control) :=
  s ← get_sock sock;
  in_pkt ← __skb_get (s_skb s);
  ik ← get_pkt in_pkt;
  isrc ← rdle (lpacket (transport ik) + T_SRC) 2;
  isq ← rdle (lpacket (transport ik) + T_SEQ) 4;
  p ← netdev_alloc_pkt_L4 PROTO_IPV4 SIZEOF_TCP;
  k ← get_pkt p;
  d ← zalloc SIZEOF_IP;
  from ← rdle (lpacket (pnet ik) + IP_SRC) 4;
  _ ← wrle d 4 (n2h_32 from);
  let k := set_flags (Z.lor NF_REUSE NF_NO_RTO) (set_addrs (s_src_addr s) d
             (set_transport (mk_layer PROTO_TCP SIZEOF_TCP (lpacket (transport k)))
               (set_net (mk_layer PROTO_IPV4 (lsize (pnet k)) (lpacket (pnet k))) k))) in
  _ ← put_pkt p k;
  _ ← put_segment k (u16 (s_src_port s)) isrc (Z.lor (Z.lor TCP_NO_OPTS TCP_FLAG_SYN) TCP_FLAG_ACK) 0 (u32 (isq + 1));
  _ ← tcp_send_pkt p;
  c ← wait_on me sock;
  mret (in_pkt, p, c).

(** The new client; an error number is returned as if it were a pointer. *)
Definition tcp_accept_resume (sock in_pkt p : Z) : nt Z :=
  s ← get_sock sock;
  if negb (bit (s_flags s) TCP_STATE_CONNECTED) then mret (- EFAULT)
  else
    ik ← get_pkt in_pkt;
    isrc ← rdle (lpacket (transport ik) + T_SRC) 2;
    isq ← rdle (lpacket (transport ik) + T_SEQ) 4;
    k ← get_pkt p;
    client ← new_obj;
    src ← zalloc SIZEOF_IP;
    dst ← zalloc SIZEOF_IP;
    _ ← cpy src (s_src_addr s) SIZEOF_IP;
    _ ← cpy dst (dst_addr k) SIZEOF_IP;
    kb ← new_obj;
    _ ← put_skb kb zero_skb;
    pr ← new_obj;
    _ ← put_ctx pr (mk_ctx 1 (u32 (isq + 1)) TCP_STATE_CONNECTED 0 (replicate 5 0) None 0);
    _ ← put_sock client (mk_socket (s_domain s) (s_proto s) 0 pr kb src (s_src_port s) dst (s16 isrc));
    _ ← init_wq client;
    c ← get_ctx (s_private s);
    cl ← lift (wr (clients c) (nclients c) client);
    _ ← put_ctx (s_private s) (mk_ctx (tseq c) (taseq c) (c_flags c) (nclients c + 1) cl (rt_queue c) (c_lock c));
    mret client.


(** ** Connecting fails *)

Implicit Types t : net (inet M V).

Lemma rdm_with_ne t a n l c b : rdm a n t = Ret (l, t) -> a / BLOCK <> c / BLOCK ->
  rdm a n (with_block t c b) = Ret (l, with_block t c b).
Proof.
  unfold rdm, mread. intros E Hne. rewrite block_with_ne by done. apply bind_Ret in E as (x & E & Ex). injection Ex as ->. by rewrite E.
Qed.

(** A write in the block of the segment, followed by the rest. *)
Lemma wrle_then {A} t a b x i n v (f : nt A) (r : out (A * net (inet M V))) : block (mem t) a = Ret b -> based a -> x = a + i -> 0 <= i -> 0 < n -> i + n <= zlen b -> zlen b < BLOCK ->
  (forall b', zlen b' = zlen b -> block (mem (with_block t a b')) a = Ret b' -> f (with_block t a b') = r) ->
  (_ ← wrle x n v; f) t = r.
Proof.
  intros Hb Ha Hx Hi Hn Hin HB Hf. destruct (wrle_at t a b x i n v Hb Ha Hx) as (b' & _ & Z' & E); [done .. |].
  rewrite (st_step _ _ _ _ _ E). apply Hf; [done |]. by apply (block_with t a b' b).
Qed.

Lemma put_checksum_at t k a b i sa da : block (mem t) a = Ret b -> based a -> lpacket (transport k) = a + i -> 0 <= i ->
  T_CKS + 2 <= lsize (transport k) -> i + lsize (transport k) <= zlen b -> zlen b < BLOCK ->
  rdm (src_addr k) 4 t = Ret (sa, t) -> src_addr k / BLOCK <> a / BLOCK -> rdm (dst_addr k) 4 t = Ret (da, t) -> dst_addr k / BLOCK <> a / BLOCK ->
  exists b', put_checksum k t = Ret (tt, with_block t a b') /\ zlen b' = zlen b.
Proof.
  intros Hb Ha Hl Hi Hs Hin HB Hsa Hna Hda Hnd. unfold T_CKS in *. unfold put_checksum.
  destruct (wrle_at t a b (lpacket (transport k) + T_CKS) (i + 16) 2 0 Hb Ha) as (b1 & _ & Z1 & E1); [unfold T_CKS; lia .. |].
  pose proof (block_with t a b1 b Hb) as Hb1.
  destruct (wrle_at _ a b1 (lpacket (transport k) + T_CKS) (i + 16) 2 (tcp_sum (pseudo sa da (lsize (transport k))) (take (Z.to_nat (2 * (lsize (transport k) / 2))) (drop (Z.to_nat i) b1))) Hb1 Ha)
    as (b2 & _ & Z2 & E2); [unfold T_CKS; lia .. |].
  exists b2. split; [| lia]. rewrite (st_step _ _ _ _ _ E1). rewrite with_block_twice in E2.
  match goal with |- (mbind ?f ?m) ?x = _ => rewrite (st_step m f x (tcp_sum (pseudo sa da (lsize (transport k))) (take (Z.to_nat (2 * (lsize (transport k) / 2))) (drop (Z.to_nat i) b1))) x) end; [exact E2 |].
  unfold tcp_checksum. rewrite (st_step _ _ _ _ _ (rdm_with_ne _ _ _ _ _ b1 Hsa Hna)), (st_step _ _ _ _ _ (rdm_with_ne _ _ _ _ _ b1 Hda Hnd)).
  assert (Hev : 2 * (lsize (transport k) / 2) <= lsize (transport k)) by (Z.div_mod_to_equations; lia).
  assert (H0 : 0 <= lsize (transport k) / 2) by (apply Z.div_pos; lia).
  rewrite (st_step _ _ _ (take (Z.to_nat (2 * (lsize (transport k) / 2))) (drop (Z.to_nat i) b1)) (with_block t a b1)); [done |].
  rewrite (rdm_at _ a b1 _ i _ Hb1 Ha Hl) by lia. by rewrite rd_bytes_in by lia.
Qed.

Lemma tcp_send_ipv6 t p k : at_ptr (pkts t) p = Ret k -> proto (pnet k) <> PROTO_IPV4 -> tcp_send_pkt p t = Halt.
Proof.
  intros Hp Hk. unfold tcp_send_pkt. rewrite (st_step (get_pkt p) _ t k t) by (unfold get_pkt; by rewrite Hp).
  by rewrite (proj2 (Z.eqb_neq _ _) Hk).
Qed.

(** The packet [tcp_connect] builds: no protocol in its network layer. *)
Definition syn_packet (so : socket) (dport lk d : Z) : packet :=
  mk_packet 54 (Z.lor NF_REUSE NF_NO_RTO) lk (s_src_addr so) d (u16 (s_src_port so)) dport
    (mk_layer 0 40 (lk + 14)) (mk_layer PROTO_TCP SIZEOF_TCP (lk + 14 + 20)) no_layer.

(** The memory after the allocations. *)
Definition syn_mem (m : kmem) : kmem := snd (kzalloc (snd (new_block (snd (kzalloc m 54)) [])) SIZEOF_IP).

(** Writing and sending the segment, from the state in which the packet is
    set up. *)
Lemma syn_send {A} t p so dport lk d b sa da (f : nt A) k : k = syn_packet so dport lk d -> at_ptr (pkts t) p = Ret k ->
  block (mem t) lk = Ret b -> based lk -> zlen b = 54 ->
  rdm (s_src_addr so) 4 t = Ret (sa, t) -> s_src_addr so / BLOCK <> lk / BLOCK -> rdm d 4 t = Ret (da, t) -> d / BLOCK <> lk / BLOCK ->
  (forall b, at_ptr (pkts (with_block t lk b)) p = Ret k -> f (with_block t lk b) = Halt) ->
  (let tcp := lpacket (transport k) in
   _ ← wrle (tcp + T_SRC) 2 (h2n_16 (src_port k)); _ ← wrle (tcp + T_DST) 2 (h2n_16 (dst_port k));
   _ ← wrle (tcp + T_OFF) 2 (Z.lor TCP_NO_OPTS TCP_FLAG_SYN); _ ← wrle (tcp + T_LEN) 2 (h2n_16 TCP_WINDOW_SIZE);
   _ ← put_checksum k; f) t = Halt.
Proof.
  intros Ek Hp Hb B Hz Hsa Hna Hda Hnd Hf. assert (El : lpacket (transport k) = lk + 34) by (rewrite Ek; cbn [syn_packet transport lpacket]; lia).
  assert (HB : zlen b < BLOCK) by (unfold BLOCK; lia). cbn zeta. rewrite El.
  unfold T_SRC, T_DST, T_OFF, T_LEN.
  refine (wrle_then _ lk b _ 34 2 _ _ _ Hb B _ _ _ _ _ _); try lia. intros b1 Z1 Hb1.
  refine (wrle_then _ lk b1 _ 36 2 _ _ _ Hb1 B _ _ _ _ _ _); try lia. intros b2 Z2. rewrite with_block_twice. intros Hb2.
  refine (wrle_then _ lk b2 _ 46 2 _ _ _ Hb2 B _ _ _ _ _ _); try lia. intros b3 Z3. rewrite with_block_twice. intros Hb3.
  refine (wrle_then _ lk b3 _ 48 2 _ _ _ Hb3 B _ _ _ _ _ _); try lia. intros b4 Z4. rewrite with_block_twice. intros Hb4.
  assert (Es : lsize (transport k) = 20 /\ src_addr k = s_src_addr so /\ dst_addr k = d) by (by rewrite Ek). destruct Es as (Es & E1 & E2).
  destruct (put_checksum_at _ k lk b4 34 sa da Hb4 B El) as (b5 & E5 & _); rewrite ?Es, ?E1, ?E2; unfold T_CKS;
    [lia | lia | lia | lia | by apply rdm_with_ne | done | by apply rdm_with_ne | done |].
  rewrite (st_step _ _ _ _ _ E5), with_block_twice. by apply Hf.
Qed.

(** [tcp_connect] never gets a connection: the packet it builds has no
    network protocol, [tcp_send_pkt] takes that for IPv6, and IPv6 output
    stops the CPU, whatever the socket and the address. *)
Theorem tcp_connect_halts t me sock so addr sa dport : at_ptr (socks (upper t)) sock = Ret so -> mem_ok (mem t) ->
  rdm (s_src_addr so) 4 t = Ret (sa, t) -> zlen addr = 4 -> tcp_connect me sock addr dport t = Halt.
Proof.
  intros Hso Hmem Hsa Hz. pose proof (rdm_old t _ _ _ Hmem Hsa) as Hold. destruct Hmem as [Hn0 Hmem]. set (n0 := next_block (mem t)) in *.
  set (lk := n0 * BLOCK). set (p := (n0 + 1) * BLOCK). set (d := (n0 + 1 + 1) * BLOCK).
  assert (Elk : lk / BLOCK = n0) by (by apply Z.div_mul). assert (Ed : d / BLOCK = n0 + 2) by (unfold d; rewrite Z.div_mul by done; lia).
  assert (Hp0 : p <> 0) by (unfold p, BLOCK; lia).
  set (k0 := mk_packet 54 0 lk 0 0 0 0 (mk_layer 0 40 (lk + 14)) (mk_layer 0 20 (lk + 14 + 20)) no_layer).
  set (t1 := set_pkts (<[p := k0]> (pkts t)) (set_mem (snd (new_block (snd (kzalloc (mem t) 54)) [])) t)).
  set (k := syn_packet so dport lk d).
  set (t2 := set_mem (syn_mem (mem t)) t1).
  assert (Bd : block (mem t2) d = Ret (replicate 40 0)) by (apply block_Ret; rewrite Ed; split; [lia |]; cbn; fold n0; replace (n0 + 1 + 1) with (n0 + 2) by lia; by rewrite lookup_insert_eq).
  destruct (wrm_at t2 d _ d 0 addr Bd (based_block _)) as (bd & Wd & Zd & Ewd); [lia | lia | change (zlen (replicate 40 0)) with 40; lia | by vm_compute | by intros -> |].
  set (t3 := with_block t2 d bd) in *. set (t4 := set_pkts (<[p := k]> (pkts t3)) t3).
  assert (Blk : block (mem t4) lk = Ret (replicate 54 0)).
  { change (block (mem t3) lk = Ret (replicate 54 0)). unfold t3. rewrite block_with_ne by lia. apply block_Ret. rewrite Elk. split; [lia |].
    cbn. fold n0. rewrite !lookup_insert_ne by lia. by rewrite lookup_insert_eq. }
  assert (Esa : rdm (s_src_addr so) 4 t4 = Ret (sa, t4)).
  { assert (E2 : rdm (s_src_addr so) 4 t2 = Ret (sa, t2)).
    { unfold rdm, mread in *. apply bind_Ret in Hsa as (l & Hsa & E). injection E as ->.
      replace (block (mem t2) (s_src_addr so)) with (block (mem t) (s_src_addr so)); [by rewrite Hsa |].
      unfold block, at_ptr. cbn. fold n0. by rewrite !lookup_insert_ne by lia. }
    pose proof (rdm_with_ne _ _ _ _ d bd E2 ltac:(lia)) as E3. unfold rdm in *. cbn [t4 mem set_pkts]. fold t3 in E3. apply bind_Ret in E3 as (l & E3 & E). injection E as ->. by rewrite E3. }
  assert (Eda : rdm d 4 t4 = Ret (addr, t4)).
  { unfold t4. rewrite (rdm_at _ d bd d 0 4) by ((change (block (mem (with_block t2 d bd)) d = Ret bd); by apply (block_with t2 d bd _ Bd)) || apply based_block || (unfold BLOCK; lia)).
    by rewrite (rd_wr_bytes_len _ _ _ _ 4 Wd Hz). }
  unfold tcp_connect. rewrite (st_step (netdev_alloc_pkt_L4 PROTO_IPV4 SIZEOF_TCP) _ t p t1 eq_refl).
  rewrite (st_step (get_pkt p) _ t1 k0 t1) by (unfold get_pkt, at_ptr; rewrite (proj2 (Z.eqb_neq _ _) Hp0); cbn; by rewrite lookup_insert_eq).
  rewrite (st_step (get_sock sock) _ t1 so t1) by (unfold get_sock, at_i, geti; rewrite (st_step _ _ t1 (socks (upper t)) t1 eq_refl); by apply lift_Ret).
  rewrite (st_step (zalloc SIZEOF_IP) _ t1 d t2 eq_refl), (st_step _ _ _ _ _ Ewd). fold t3.
  rewrite (st_step (put_pkt p k) _ t3 tt t4 eq_refl). 
  apply (syn_send t4 p so dport lk d (replicate 54 0) sa addr _ k eq_refl); try done; [by apply at_ptr_Ret; split; [| cbn; rewrite lookup_insert_eq] | apply based_block | lia | lia |].
  intros b Hk. erewrite st_step by reflexivity. apply st_bind_Halt. by apply (tcp_send_ipv6 _ p k).
Qed.


(** ** Reading a stream *)

(** The packet at [p] holds [pl] behind its TCP header. *)
Definition holds t (p : Z) (pl : list Z) : Prop := exists k b i,
  at_ptr (pkts t) p = Ret k /\ block (mem t) (link k) = Ret b /\ based (link k) /\ lpacket (transport k) = link k + i /\ 0 <= i /\
  lsize (transport k) = SIZEOF_TCP + zlen pl /\ zlen b < BLOCK /\ rd_bytes b (i + SIZEOF_TCP) (zlen pl) = Ret pl.

Definition frame_of t (p : Z) : Z := match pkts t !! p with Some k => link k / BLOCK | None => 0 end.

(** The packets of a ring, each with its own block. *)
Record received t (ps : list Z) (pls : list (list Z)) : Prop := {
  rc_hold : Forall2 (holds t) ps pls;
  rc_pkts : NoDup ps;
  rc_links : NoDup (frame_of t <$> ps)
}.

Lemma holds_upper t p pl u : holds t p pl -> holds (set_upper u t) p pl.
Proof. done. Qed.

Lemma received_freed t p k ps pls : at_ptr (pkts t) p = Ret k -> p ∉ ps -> link k / BLOCK ∉ frame_of t <$> ps ->
  received t ps pls -> received (freed t p (link k)) ps pls.
Proof.
  intros Hp Hn Hl [H1 H2 H3].
  assert (Hf : forall q, q ∈ ps -> pkts (freed t p (link k)) !! q = pkts t !! q) by (intros q Hq; cbn; rewrite lookup_delete_ne by (intros ->; done); done).
  constructor; [| done |].
  - apply Forall2_same_length_lookup in H1 as [Hlen H1]. apply Forall2_same_length_lookup. split; [done |]. intros j q pl Hq Hpl.
    destruct (H1 j q pl Hq Hpl) as (kq & b & i & A1 & A2 & A3 & A4 & A5 & A6 & A7 & A8). exists kq, b, i.
    assert (Hin : q ∈ ps) by (by apply list_elem_of_lookup_2 in Hq).
    split; [unfold at_ptr in *; by rewrite (Hf q Hin) |]. split; [| done].
    apply block_Ret in A2 as [A2 A2']. apply block_Ret. split; [done |]. cbn. rewrite lookup_delete_ne; [done |].
    intros E. apply Hl. apply list_elem_of_fmap. exists q. split; [| done]. apply at_ptr_Ret in A1 as [_ A1]. unfold frame_of. by rewrite A1.
  - replace (frame_of (freed t p (link k)) <$> ps) with (frame_of t <$> ps); [done |]. apply list_fmap_ext. intros j q Hq.
    unfold frame_of. by rewrite (Hf q) by (by apply list_elem_of_lookup_2 in Hq).
Qed.

Definition set_skb (sk : Z) (k : skb) t : net (inet M V) := set_upper (set_skbs (<[sk := k]> (skbs (upper t))) (upper t)) t.

Lemma get_skb_at t sk k : at_ptr (skbs (upper t)) sk = Ret k -> get_skb sk t = Ret (k, t).
Proof. intros E. unfold get_skb, at_i, geti. rewrite (st_step _ _ t (skbs (upper t)) t eq_refl). by apply lift_Ret. Qed.

Lemma at_set_skb sk k t k0 : at_ptr (skbs (upper t)) sk = Ret k0 -> at_ptr (skbs (upper (set_skb sk k t))) sk = Ret k.
Proof. intros [Hn _]%at_ptr_Ret. apply at_ptr_Ret. split; [done |]. apply lookup_insert_eq. Qed.

Lemma queue_same k k' ps : queue k ps -> rptr k' = rptr k -> wptr k' = wptr k -> npkts k' = npkts k -> packets k' = packets k -> queue k' ps.
Proof. intros ([] & Hw & Hn & Hz) E1 E2 E3 E4. unfold queue. rewrite E1, E2, E3. split_and!; try done. constructor; by rewrite ?E1, ?E4. Qed.

Lemma skb_get_queue t sk k q qs : at_ptr (skbs (upper t)) sk = Ret k -> queue k (q :: qs) -> sk_lock k = 0 ->
  exists k', __skb_get sk t = Ret (q, set_skb sk k' t) /\ queue k' qs /\ sk_lock k' = 0 /\ sptr k' = sptr k.
Proof.
  intros Hk Hq Hl. apply at_ptr_Ret in Hk as Hk'. destruct Hk' as [Hk0 _]. unfold __skb_get, assert.
  rewrite (proj2 (Z.eqb_neq _ _) Hk0), (st_step _ _ t tt t eq_refl), (st_step _ _ _ _ _ (get_skb_at t sk k Hk)).
  assert (Hn : npkts k <> 0) by (destruct Hq as (_ & _ & -> & _); unfold zlen; cbn [length]; lia).
  rewrite (proj2 (Z.eqb_neq _ _) Hn), (st_step _ _ t tt t eq_refl). rewrite Hl, spin_acquire_free, (st_step _ _ t 1 t eq_refl).
  destruct (queue_take (with_sk_lock 1 k) q qs) as [E1 (k' & E2 & Hq' & _ & Hs)]; [by apply (queue_same k) |].
  rewrite (st_step _ _ t q t (lift_Ret _ _ t E1)), (st_step _ _ t k' t (lift_Ret _ _ t E2)).
  rewrite (st_step (put_skb sk _) _ t tt (set_skb sk (with_sk_lock (spin_release 1) k') t) eq_refl).
  eexists. split; [reflexivity |]. split; [by apply (queue_same k') | done].
Qed.

Lemma set_skb_twice sk k1 k2 t : set_skb sk k2 (set_skb sk k1 t) = set_skb sk k2 t.
Proof. unfold set_skb, set_upper, set_skbs. cbn. by rewrite insert_insert_eq. Qed.

(** A buffer after one more piece: the piece is at the start. *)
Definition over (buf pl : list Z) : list Z := pl ++ drop (length pl) buf.

Lemma read_step fuel t sk k q qs pl buf left ptr : at_ptr (skbs (upper t)) sk = Ret k -> queue k (q :: qs) -> sk_lock k = 0 -> sptr k = 0 ->
  holds t q pl -> 0 < zlen pl <= left -> zlen pl <= zlen buf ->
  exists kq k', at_ptr (pkts t) q = Ret kq /\ queue k' qs /\ sk_lock k' = 0 /\ sptr k' = 0 /\
    read_loop (S fuel) sk buf left ptr t =
    read_loop fuel sk (over buf pl) (left - zlen pl) (ptr + zlen pl) (freed (set_skb sk k' t) q (link kq)).
Proof.
  intros Hk Hq Hlk Hsp (kq & b & i & A1 & A2 & A3 & A4 & A5 & A6 & A7 & A8) Hpl Hbuf. apply rd_bytes_Ret in A8 as B8. destruct B8 as (B1 & B2 & B3 & _).
  destruct (skb_get_queue t sk k q qs Hk Hq Hlk) as (k1 & E1 & Hq1 & Hl1 & Hs1). unfold SIZEOF_TCP, BLOCK in *.
  exists kq, (with_sptr 0 k1). split; [done |]. split; [by apply (queue_same k1) |]. split; [done |]. split; [done |].
  cbn [read_loop]. rewrite (st_step _ _ _ _ _ (get_skb_at t sk k Hk)). rewrite ltb_true by lia.
  assert (Hn : npkts k <> 0) by (destruct Hq as (_ & _ & -> & _); unfold zlen; cbn [length]; lia).
  rewrite (proj2 (Z.eqb_neq _ _) Hn). cbn [negb andb].
  rewrite (st_step _ _ t q t (lift_Ret _ _ t (proj1 (queue_take k q qs Hq)))).
  rewrite (st_step (get_pkt q) _ t kq t) by (unfold get_pkt; by rewrite A1). rewrite A6, Hsp.
  assert (Es : s64 (20 + zlen pl - 20 - 0) = zlen pl) by (transitivity (20 + zlen pl - 20 - 0); [apply swrap_small; lia | lia]).
  unfold SIZEOF_TCP. rewrite Es, leb_true by lia. cbn zeta. rewrite (st_step _ _ _ _ _ E1). set (t1 := set_skb sk k1 t).
  assert (Eu : u64 (zlen pl) = zlen pl) by (apply wrap_small; unfold in_u; lia). rewrite Eu.
  rewrite (st_step _ _ t1 pl t1) by (rewrite (rdm_at t1 (link kq) b _ (i + 20) _ A2 A3) by (unfold BLOCK; lia); by rewrite A8).
  assert (Ew : wr_bytes buf 0 pl = Ret (over buf pl)) by (by rewrite wr_bytes_in by lia).
  rewrite (st_step _ _ t1 _ t1 (lift_Ret _ _ t1 Ew)). rewrite (st_step _ _ _ _ _ (get_skb_at t1 sk k1 (at_set_skb sk k1 t k Hk))).
  rewrite (st_step (put_skb sk _) _ t1 tt (set_skb sk (with_sptr 0 k1) t1) eq_refl). unfold t1. rewrite set_skb_twice.
  by rewrite (st_step _ _ _ _ _ (dealloc_at (set_skb sk (with_sptr 0 k1) t) q kq b A1 A2)).
Qed.

Lemma zlen_over buf pl : zlen pl <= zlen buf -> zlen (over buf pl) = zlen buf.
Proof. unfold over, zlen. intros Hl. rewrite length_app, length_drop. lia. Qed.

(** Empty rings end the loop. *)
Lemma read_done fuel t sk k buf left ptr : at_ptr (skbs (upper t)) sk = Ret k -> queue k [] -> read_loop (S fuel) sk buf left ptr t = Ret ((ptr, buf), t).
Proof.
  intros Hk (_ & _ & Hn & _). cbn [read_loop]. rewrite (st_step _ _ _ _ _ (get_skb_at t sk k Hk)), Hn. change (zlen [] =? 0) with true.
  cbn [negb]. by rewrite andb_false_r.
Qed.

Lemma read_all ps : forall pls fuel t sk k buf left ptr, (length ps < fuel)%nat -> at_ptr (skbs (upper t)) sk = Ret k -> queue k ps -> sk_lock k = 0 -> sptr k = 0 ->
  received t ps pls -> Forall (fun pl => 0 < zlen pl <= zlen buf) pls -> total (zlen <$> pls) <= left ->
  exists t' k', read_loop fuel sk buf left ptr t = Ret ((ptr + total (zlen <$> pls), foldl over buf pls), t') /\
    at_ptr (skbs (upper t')) sk = Ret k' /\ queue k' [] /\ (forall p, p ∈ ps -> pkts t' !! p = None) /\ forall p, pkts t !! p = None -> pkts t' !! p = None.
Proof.
  induction ps as [| q qs IH]; intros pls [| fuel] t sk k buf left ptr Hf Hk Hq Hlk Hsp [H1 H2 H3] Hpl Hsum; cbn [length] in Hf; try lia.
  - apply Forall2_nil_inv_l in H1 as ->. exists t, k. rewrite (read_done _ t sk k) by done. cbn. rewrite Z.add_0_r. split_and!; try done. intros p Hp. by apply not_elem_of_nil in Hp.
  - apply Forall2_cons_inv_l in H1 as (pl & pls' & Hh & H1 & ->). apply Forall_cons in Hpl as [Hp Hpl]. cbn [fmap list_fmap] in *.
    apply NoDup_cons in H2 as [N2 H2]. apply NoDup_cons in H3 as [N3 H3]. unfold total in Hsum. cbn [foldr] in Hsum. fold (total (zlen <$> pls')) in Hsum.
    assert (Ht : 0 <= total (zlen <$> pls')) by (clear; induction pls' as [| x l IH]; cbn; [lia |]; pose proof (zlen_nonneg x); unfold total in IH; lia).
    destruct (read_step fuel t sk k q qs pl buf left ptr Hk Hq Hlk Hsp Hh ltac:(lia) ltac:(lia)) as (kq & k' & A1 & Hq' & Hlk' & Hsp' & E). rewrite E.
    set (t1 := set_skb sk k' t) in *. apply at_ptr_Ret in A1 as A1'. destruct A1' as [A0 A2].
    assert (Efr : frame_of t q = link kq / BLOCK) by (unfold frame_of; by rewrite A2).
    destruct (IH pls' fuel (freed t1 q (link kq)) sk k' (over buf pl) (left - zlen pl) (ptr + zlen pl)) as (t' & k2 & E2 & K1 & K2 & K3 & K4);
      [lia | by apply (at_set_skb sk k' t k) | done | done | done | | by rewrite zlen_over by lia | lia |].
    { apply (received_freed t1 q kq); [done | done | change (link kq / BLOCK ∉ frame_of t <$> qs); by rewrite <- Efr | constructor; done]. }
    exists t', k2. split; [rewrite E2; unfold total; cbn [foldr]; by rewrite Z.add_assoc |]. split; [done |]. split; [done |].
    split; [| intros p Hnone; apply K4; cbn; by rewrite lookup_delete_None; right].
    intros p [-> | Hin]%elem_of_cons; [apply K4; cbn; by rewrite lookup_delete_eq | by apply K3].
Qed.

(** C27: a read of a stream whose buffer has room for all the packets that
    have arrived returns the number of bytes of all of them and frees them
    all, but each is copied to the start of the buffer, over the one before:
    what the caller gets is the last packet followed by what is left of
    longer earlier ones. *)
Theorem tcp_read_overwrites t sk k ps pls buf : at_ptr (skbs (upper t)) sk = Ret k -> queue k ps -> sk_lock k = 0 -> sptr k = 0 ->
  received t ps pls -> Forall (fun pl => 0 < zlen pl) pls -> total (zlen <$> pls) <= zlen buf ->
  exists t' k', tcp_read_data sk buf (zlen buf) t = Ret ((total (zlen <$> pls), foldl over buf pls), t') /\
    at_ptr (skbs (upper t')) sk = Ret k' /\ queue k' [] /\ forall p, p ∈ ps -> pkts t' !! p = None.
Proof.
  intros Hk Hq Hlk Hsp Hr Hpl Hsum. unfold tcp_read_data. rewrite (st_step _ _ _ _ _ (get_skb_at t sk k Hk)).
  pose proof Hq as (_ & _ & Hn & _). destruct (read_all ps pls (S (S (Z.to_nat (npkts k)))) t sk k buf (zlen buf) 0) as (t' & k' & E & K1 & K2 & K3 & _); try done.
  - rewrite Hn. unfold zlen. lia.
  - apply Forall_lookup. intros i pl Hi. rewrite Forall_lookup in Hpl. split; [by apply (Hpl i) |].
    etrans; [| exact Hsum]. clear -Hi. revert i Hi. induction pls as [| x l IH]; intros [| i] Hi; cbn in Hi; [done | done | |].
    + injection Hi as ->. unfold total. cbn. assert (0 <= foldr Z.add 0 (zlen <$> l)); [| lia]. clear. induction l as [| y l IH]; cbn; [lia |]. pose proof (zlen_nonneg y). lia.
    + specialize (IH i Hi). unfold total in *. cbn. pose proof (zlen_nonneg x). lia.
  - exists t', k'. rewrite E. split_and!; try done.
Qed.
End tcp.

(** ** Samples *)

#[local] Existing Instance Sched.list_sched.

Definition sample_sys : Sched.sys (Z * list Z) := Sched.mk_sys (1000, [1000]) ∅ ∅ ∅ ∅ true 0 0.
Definition sample_ring (ps : list Z) : skb := mk_skb 0 0 (zlen ps mod 10) 0 (zlen ps) (ps ++ replicate (10 - length ps) 0).

(** A connection socket at 100, its ring at 200 and its context at 300. *)
Definition sample_sock : socket := mk_socket AF_INET SOCK_STREAM TCP_STATE_CONNECTED 300 200 (2 * BLOCK) 80 (3 * BLOCK) 4000.
Definition sample_inet (k : skb) : inet (Z * list Z) unit :=
  mk_inet {[100 := sample_sock]} {[200 := k]} {[300 := mk_ctx 1 1 0 0 (replicate 5 0) None 0]} ∅ [] None None ∅ (Tick.mk_tick 0 1 ∅ ∅) sample_sys tt.

(** Two segments, of five and of two bytes. *)
Definition segment (pl : list Z) : list Z := replicate 54 0 ++ pl.
Definition segment_packet (n lk : Z) : packet := mk_packet (54 + n) 0 lk 0 0 0 0 (mk_layer PROTO_IPV4 (40 + n) (lk + 14)) (mk_layer PROTO_TCP (20 + n) (lk + 34)) no_layer.
Definition tcp_mem : kmem := mk_kmem (list_to_map [(1, segment [1; 2; 3; 4; 5]); (2, [192; 168; 1; 2] ++ replicate 36 0); (4, segment [6; 7])]) 6.
Definition tcp_net : net (inet (Z * list Z) unit) :=
  mk_net tcp_mem (list_to_map [(1 * BLOCK, segment_packet 5 (1 * BLOCK)); (4 * BLOCK, segment_packet 2 (4 * BLOCK))])
    (mk_info [82; 84; 0; 18; 52; 86] 0 (2 * BLOCK) false 1500) None None sample_nic 1 (sample_inet (sample_ring [1 * BLOCK; 4 * BLOCK])).

Lemma tcp_mem_ok : mem_ok tcp_mem.
Proof.
  split; [done |]. intros k Hk. cbn [next_block tcp_mem] in Hk. unfold tcp_mem. cbn [blocks]. rewrite <- not_elem_of_list_to_map. cbn. set_solver by lia.
Qed.

Lemma tcp_connect_halts_witness : tcp_connect 0 100 [192; 168; 1; 9] 80 tcp_net = Halt.
Proof.
  apply (tcp_connect_halts tcp_net 0 100 sample_sock [192; 168; 1; 9] [192; 168; 1; 2] 80); [done | apply tcp_mem_ok | by vm_compute | done].
Defined.

Lemma two_segments : queue (sample_ring [1 * BLOCK; 4 * BLOCK]) [1 * BLOCK; 4 * BLOCK].
Proof.
  split; [constructor; cbn; try lia | split_and!; [done | done | repeat (apply Forall_cons_2; [done |]); apply Forall_nil_2]].
  intros i Hi. assert (Hc : i = 0 \/ i = 1 \/ i = 2 \/ i = 3 \/ i = 4 \/ i = 5 \/ i = 6 \/ i = 7 \/ i = 8 \/ i = 9) by lia.
  repeat (destruct Hc as [-> | Hc]; [done |]). by subst.
Qed.

Lemma sample_received : received tcp_net [1 * BLOCK; 4 * BLOCK] [[1; 2; 3; 4; 5]; [6; 7]].
Proof.
  constructor.
  - repeat apply Forall2_cons_2; [| | apply Forall2_nil_2].
    + exists (segment_packet 5 (1 * BLOCK)), (segment [1; 2; 3; 4; 5]), 34. split_and!; try done; by vm_compute.
    + exists (segment_packet 2 (4 * BLOCK)), (segment [6; 7]), 34. split_and!; try done; by vm_compute.
  - by apply (bool_decide_unpack _).
  - by apply (bool_decide_unpack _); vm_compute.
Qed.

Lemma tcp_read_overwrites_witness :
  exists t', tcp_read_data 200 (replicate 8 0) 8 tcp_net = Ret ((7, [6; 7; 3; 4; 5; 0; 0; 0]), t').
Proof.
  destruct (tcp_read_overwrites tcp_net 200 (sample_ring [1 * BLOCK; 4 * BLOCK]) [1 * BLOCK; 4 * BLOCK] [[1; 2; 3; 4; 5]; [6; 7]] (replicate 8 0))
    as (t' & _ & E & _); [done | apply two_segments | done | done | apply sample_received | repeat (apply Forall_cons_2; [by vm_compute |]); apply Forall_nil_2 | by vm_compute |].
  by exists t'.
Defined.

End Tcp.
