(* ===== verification/Dhcp.v ===== *)
(** * DHCP (net/dhcp.c)

    The client: what it sends, and what it takes from the answers.  The two
    addresses are those of the static objects of net/types.h. *)

From S2P Require Import Prelude Bytes Netutil Kmem Hashmap Dlist Netdev Ipv4 Tick Sched Inet.
Import Bytes Netutil Kmem Netdev Ipv4 Inet.

Module Dhcp.

Definition DHCP_COOKIE : Z := 0x63825363.
Definition OP_REQUEST : Z := 1.
Definition DHCP_SERVER_PORT : Z := 67.
Definition DHCP_CLIENT_PORT : Z := 68.

Definition OPT_SUBNET_MASK : Z := 1.
Definition OPT_ROUTER : Z := 3.
Definition OPT_DNS : Z := 6.
Definition OPT_BROADCAST : Z := 28.
Definition OPT_REQUESTED_IP_ADDR : Z := 50.
Definition OPT_LEASE_TIME : Z := 51.
Definition OPT_MESSAGE_TYPE : Z := 53.
Definition OPT_PARAMETER_REQUEST : Z := 55.
Definition OPT_END : Z := 255.

Definition MSG_DISCOVER : Z := 1.
Definition MSG_OFFER : Z := 2.
Definition MSG_REQUEST : Z := 3.
Definition MSG_ACK : Z := 5.

(** Offsets in [dhcp_pkt_t], and the sizes of it and of [dhcp_options_t]. *)
Definition D_OP : Z := 0.
Definition D_HTYPE : Z := 1.
Definition D_HLEN : Z := 2.
Definition D_XID : Z := 4.
Definition D_YIADDR : Z := 16.
Definition D_SIADDR : Z := 20.
Definition D_CHADDR : Z := 28.
Definition D_COOKIE : Z := 236.
Definition D_PAYLOAD : Z := 240.
Definition SIZEOF_DHCP : Z := 240.
Definition SIZEOF_OPTIONS : Z := 80.

(** Where an option of an offer is kept in a [dhcp_info_t]. *)
Definition field (code : Z) : option Z :=
  if code =? OPT_SUBNET_MASK then Some INFO_SB_MASK
  else if code =? OPT_BROADCAST then Some INFO_BROADCAST
  else if code =? OPT_ROUTER then Some INFO_ROUTER
  else if code =? OPT_DNS then Some INFO_DNS
  else if code =? OPT_LEASE_TIME then Some INFO_LEASE
  else None.

Section dhcp.
Context {M V : Type}.
Variables IPV4_UNSPECIFIED IPV4_BROADCAST : Z.
Abbreviation nt := (st (net (inet M V))).

Definition __alloc_dhcp_pkt (size : Z) : nt Z :=
  p ← netdev_alloc_pkt_L5 PROTO_IPV4 PROTO_UDP (SIZEOF_DHCP + size);
  k ← get_pkt p;
  let dhcp := lpacket (app k) in
  _ ← wrle (dhcp + D_OP) 1 OP_REQUEST;
  _ ← wrle (dhcp + D_HTYPE) 1 1;
  _ ← wrle (dhcp + D_HLEN) 1 6;
  _ ← wrle (dhcp + D_XID) 4 (h2n_32 0x13371338);
  _ ← wrle (dhcp + D_COOKIE) 4 (h2n_32 DHCP_COOKIE);
  mac ← netdev_get_mac;
  _ ← wrm (dhcp + D_CHADDR) mac;
  mret p.

(** The addresses and ports of both messages, a copy of the [size] bytes of
    the message to where they are, and the sending. *)
Definition dhcp_send (p size : Z) : nt Z :=
  k ← get_pkt p;
  _ ← put_pkt p (set_ports DHCP_CLIENT_PORT DHCP_SERVER_PORT (set_addrs IPV4_UNSPECIFIED IPV4_BROADCAST k));
  _ ← cpy (lpacket (app k)) (lpacket (app k)) (SIZEOF_DHCP + size);
  udp_send_pkt p.

(** The rest of [__handle_ack] has no [return]; 0 here. *)
Definition __handle_ack (in_pkt : Z) : nt Z :=
  k ← get_pkt in_pkt;
  key ← key_at (lpacket (app k) + D_XID);
  r ← geti dhcp_requests;
  info ← lift (Hashmap.hm_get r key);
  if info =? 0 then mret (- ENOENT)
  else
    '(_, r) ← lift (Hashmap.hm_remove r key);
    _ ← modi (set_dhcp r);
    _ ← netdev_add_dhcp_info info;
    mret 0.

(** The options of an offer: a code, a length and that many bytes. The
    position is a [short]. *)
Fixpoint offer_loop (fuel : nat) (payload info size i : Z) : nt unit :=
  match fuel with
  | O => fun _ => Spin
  | S fuel =>
      if i <? size then
        code ← rdle (payload + i) 1;
        if code =? OPT_END then mret tt
        else
          len ← rdle (payload + (i + 1)) 1;
          _ ← (match field code with Some off => cpy (info + off) (payload + (i + 2)) len | None => mret tt end);
          offer_loop fuel payload info size (s16 (i + (2 + len)))
      else mret tt
  end.

(** What an offer says about the network. *)
Definition offer_learn (k : packet) (info : Z) : nt unit :=
  let in_dhcp := lpacket (app k) in
  _ ← offer_loop (S (Z.to_nat (lsize (app k)))) (in_dhcp + D_PAYLOAD) info (lsize (app k)) 0;
  _ ← cpy (info + INFO_ADDR) (in_dhcp + D_YIADDR) 4;
  _ ← assert (proto (pnet k) =? PROTO_IPV4);
  src ← rdle (lpacket (pnet k) + IP_SRC) 4;
  router ← rdm (info + INFO_ROUTER) 4;
  if bool_decide (le_bytes 4 (n2h_32 src) = router) then cpy (info + INFO_MAC + MAC_B) (link k + ETH_SRC) SIZEOF_MAC else mret tt.

Definition dhcp_request (in_dhcp : Z) : nt Z :=
  p ← __alloc_dhcp_pkt 10;
  k ← get_pkt p;
  let dhcp := lpacket (app k) in
  _ ← cpy (dhcp + D_YIADDR) (in_dhcp + D_YIADDR) 4;
  _ ← cpy (dhcp + D_SIADDR) (in_dhcp + D_SIADDR) 4;
  _ ← wrm (dhcp + D_PAYLOAD) [OPT_MESSAGE_TYPE; 1; MSG_REQUEST; OPT_REQUESTED_IP_ADDR; 4];
  _ ← cpy (dhcp + D_PAYLOAD + 5) (dhcp + D_YIADDR) 4;
  _ ← wrm (dhcp + D_PAYLOAD + 9) [OPT_END];
  dhcp_send p 10.

Definition __handle_offer (in_pkt : Z) : nt Z :=
  k ← get_pkt in_pkt;
  key ← key_at (lpacket (app k) + D_XID);
  r ← geti dhcp_requests;
  info ← lift (Hashmap.hm_get r key);
  if info =? 0 then mret (- ENOENT)
  else
    _ ← offer_learn k info;
    dhcp_request (lpacket (app k)).

(** When the request cannot be recorded the result is uninitialised. *)
Definition dhcp_discover : nt Z :=
  r ← geti dhcp_requests;
  _ ← modi (set_dhcp (match r with None => match Hashmap.hm_alloc_hashmap true true 4 0 with Ok h => Some h | Err _ => None end | _ => r end));
  p ← __alloc_dhcp_pkt 9;
  k ← get_pkt p;
  let dhcp := lpacket (app k) in
  opts ← zalloc SIZEOF_OPTIONS;
  key ← key_at (dhcp + D_XID);
  r ← geti dhcp_requests;
  '(e, r) ← lift (Hashmap.hm_insert item r key opts);
  _ ← modi (set_dhcp r);
  if e <? 0 then fail
  else
    _ ← wrm (dhcp + D_PAYLOAD) [OPT_MESSAGE_TYPE; 1; MSG_DISCOVER; OPT_PARAMETER_REQUEST; 3; OPT_SUBNET_MASK; OPT_ROUTER; OPT_DNS; OPT_END];
    dhcp_send p 9.

(** The type of the message is taken from its third option byte. *)
Definition dhcp_handle_pkt (in_pkt : Z) : nt Z :=
  k ← get_pkt in_pkt;
  type ← rdle (lpacket (app k) + D_PAYLOAD + 2) 1;
  ret ← (if type =? MSG_OFFER then __handle_offer in_pkt
         else if type =? MSG_ACK then __handle_ack in_pkt
         else mret (- ENOTSUP));
  _ ← netdev_dealloc_pkt in_pkt;
  mret ret.

(** ** The options of an offer *)

Implicit Types t : net (inet M V).

(** Options as they are sent, and what they leave in a [dhcp_info_t]. *)
Definition encode (opts : list (Z * list Z)) : list Z := concat ((fun o => o.1 :: zlen o.2 :: o.2) <$> opts) ++ [OPT_END].
Fixpoint store_all (opts : list (Z * list Z)) (ib : list Z) : out (list Z) :=
  match opts with
  | [] => mret ib
  | (code, data) :: opts => ib ← (match field code with Some off => wr_bytes ib off data | None => mret ib end); store_all opts ib
  end.

Definition valid_opt (o : Z * list Z) : Prop := o.1 <> OPT_END /\ is_byte o.1 /\ zlen o.2 < 256.

Lemma rd_bytes_prefix b i x y : rd_bytes b i (zlen (x ++ y)) = Ret (x ++ y) -> rd_bytes b i (zlen x) = Ret x /\ rd_bytes b (i + zlen x) (zlen y) = Ret y.
Proof.
  intros (H1 & H2 & H3 & E)%rd_bytes_Ret. unfold zlen in *. rewrite length_app in *. split.
  - rewrite rd_bytes_in by (unfold zlen; lia). f_equal. rewrite Nat2Z.id.
    assert (Et : take (length x) (x ++ y) = x) by (by rewrite take_app_length). rewrite E, take_take in Et. rewrite <- Et at 2. f_equal. lia.
  - rewrite rd_bytes_in by (unfold zlen; lia). f_equal. rewrite Nat2Z.id.
    assert (Ed : drop (length x) (x ++ y) = y) by (by rewrite drop_app_length). rewrite E, skipn_firstn_comm, drop_drop in Ed. rewrite <- Ed at 2.
    f_equal; [lia | f_equal; lia].
Qed.

Lemma cpy_blocks t src dst sb db i j n l : block (mem t) src = Ret sb -> based src -> block (mem t) dst = Ret db -> based dst ->
  0 <= i < BLOCK -> 0 <= j < BLOCK -> rd_bytes sb i n = Ret l ->
  cpy (dst + j) (src + i) n t = (db' ← wr_bytes db j l; Ret (tt, with_block t dst db')).
Proof.
  intros Hs Hsb Hd Hdb Hi Hj Hl. unfold cpy. rewrite (st_step _ _ t l t (rdm_sub t src sb _ i n l Hs Hsb eq_refl Hi Hl)).
  unfold wrm. rewrite (mwrite_off (mem t) dst j l db) by done. destruct (wr_bytes db j l); [| done ..]. by rb.
Qed.

Lemma with_block_same t a b : block (mem t) a = Ret b -> with_block t a b = t.
Proof. unfold with_block, set_block. intros [_ Hb]%block_Ret. rewrite insert_id by done. by destruct t as [[] ? ? ? ? ? ? ?]. Qed.

(** One option. *)
Lemma offer_step fuel t lk b info ib po i size code data rest : block (mem t) lk = Ret b -> based lk -> block (mem t) info = Ret ib -> based info ->
  zlen b < BLOCK -> 0 <= po -> 0 <= i -> valid_opt (code, data) -> i < size -> i + 2 + zlen data < 32768 ->
  rd_bytes b (po + i) (zlen (code :: zlen data :: data ++ rest)) = Ret (code :: zlen data :: data ++ rest) ->
  offer_loop (S fuel) (lk + po) info size i t =
  (ib' ← (match field code with Some off => wr_bytes ib off data | None => mret ib end);
   offer_loop fuel (lk + po) info size (i + 2 + zlen data) (with_block t info ib')).
Proof.
  intros Hb Bl Hib Bi HB Hpo Hi (Hend & Hcode & Hdata) Hsz Hs16 Hrd. cbn [fst snd] in *. pose proof (zlen_nonneg data) as Hz0.
  assert (Hin := rd_bytes_Ret _ _ _ _ Hrd). destruct Hin as (H1 & H2 & H3 & _).
  change (code :: zlen data :: data ++ rest) with ([code] ++ [zlen data] ++ data ++ rest) in *.
  apply rd_bytes_prefix in Hrd as [R1 Hrd]. apply rd_bytes_prefix in Hrd as [R2 Hrd]. apply rd_bytes_prefix in Hrd as [R3 _].
  rewrite !zlen_app in H3. change (zlen [code]) with 1 in *. change (zlen [zlen data]) with 1 in *. pose proof (zlen_nonneg rest).
  assert (E1 : rdle (lk + po + i) 1 t = Ret (code, t)) by (apply (rdle_at t lk b _ (po + i)); [done | done | lia | lia | unfold rd_le; rewrite R1; rb; cbn; f_equal; lia]).
  assert (E2 : rdle (lk + po + (i + 1)) 1 t = Ret (zlen data, t)) by (apply (rdle_at t lk b _ (po + i + 1)); [done | done | lia | lia | unfold rd_le; rewrite R2; rb; cbn; f_equal; lia]).
  assert (E16 : s16 (i + (2 + zlen data)) = i + 2 + zlen data) by (transitivity (i + (2 + zlen data)); [apply swrap_small; lia | lia]).
  cbn [offer_loop]. rewrite ltb_true by lia. rewrite (st_step _ _ _ _ _ E1), (proj2 (Z.eqb_neq _ _) Hend), (st_step _ _ _ _ _ E2), E16.
  destruct (field code) as [off |] eqn:Ef.
  - assert (Hoff : 0 <= off < BLOCK) by (unfold field in Ef; unfold BLOCK; repeat (case_match; [injection Ef as <-; cbv; split; congruence |]); done).
    assert (E3 : cpy (info + off) (lk + po + (i + 2)) (zlen data) t = (ib' ← wr_bytes ib off data; Ret (tt, with_block t info ib'))).
    { replace (lk + po + (i + 2)) with (lk + (po + i + 1 + 1)) by lia. apply (cpy_blocks t lk info b ib); try done. lia. }
    destruct (wr_bytes ib off data) as [ib' | | |]; rewrite ?ret_bind in E3 |- *; [by rewrite (st_step _ _ _ _ _ E3) | | |]; unfold mbind at 1, st_bind; by rewrite E3.
  - rewrite ret_bind. rewrite (st_step (mret tt) _ t tt t eq_refl). by rewrite with_block_same.
Qed.

Lemma encode_cons code data opts : encode ((code, data) :: opts) = code :: zlen data :: data ++ encode opts.
Proof. unfold encode. cbn [fmap list_fmap concat fst snd]. cbn [app]. by rewrite <- app_assoc. Qed.

Lemma offer_run opts : forall fuel t lk b info ib po i size, block (mem t) lk = Ret b -> based lk -> block (mem t) info = Ret ib -> based info ->
  lk / BLOCK <> info / BLOCK -> zlen b < BLOCK -> 0 <= po -> 0 <= i -> Forall valid_opt opts ->
  i + zlen (encode opts) <= size -> size < 32768 -> size - i < Z.of_nat fuel ->
  rd_bytes b (po + i) (zlen (encode opts)) = Ret (encode opts) ->
  offer_loop fuel (lk + po) info size i t = (ib' ← store_all opts ib; Ret (tt, with_block t info ib')).
Proof.
  induction opts as [| [code data] opts IH]; intros fuel t lk b info ib po i size Hb Bl Hib Bi Hne HB Hpo Hi Hv Hsz Hsz2 Hf Hrd.
  - change (encode []) with [OPT_END] in *. change (zlen [OPT_END]) with 1 in *. destruct fuel as [| fuel]; [lia |].
    cbn [offer_loop]. rewrite ltb_true by lia. pose proof (rd_bytes_Ret _ _ _ _ Hrd) as (_ & _ & H3 & _).
    rewrite (st_step (rdle _ _) _ t OPT_END t) by (apply (rdle_at t lk b _ (po + i)); [done | done | lia | lia | unfold rd_le; rewrite Hrd; by rb]).
    change (OPT_END =? OPT_END) with true. cbn iota. cbn [store_all]. rb. by rewrite with_block_same.
  - apply Forall_cons in Hv as [Hv Hvs]. rewrite encode_cons in *. pose proof (zlen_nonneg data) as Hz0. pose proof (zlen_nonneg (encode opts)) as Hz1.
    assert (El : zlen (code :: zlen data :: data ++ encode opts) = 2 + zlen data + zlen (encode opts)) by (unfold zlen; cbn [length]; rewrite length_app; lia).
    assert (H1 : 1 <= zlen (encode opts)) by (unfold encode; rewrite zlen_app; change (zlen [OPT_END]) with 1; pose proof (zlen_nonneg (concat ((fun o => o.1 :: zlen o.2 :: o.2) <$> opts))); lia).
    destruct fuel as [| fuel]; [lia |]. rewrite (offer_step fuel t lk b info ib po i size code data (encode opts)) by (done || lia).
    cbn [store_all]. rewrite bind_assoc. destruct (match field code with Some off => wr_bytes ib off data | None => mret ib end) as [ib' | | |]; try done. rb.
    rewrite (IH fuel (with_block t info ib') lk b info ib' po); [| try done ..]; try lia.
    + rewrite ret_bind. destruct (store_all opts ib'); try done. by rewrite !ret_bind, with_block_twice.
    + by rewrite block_with_ne.
    + by apply (block_with t info ib' ib).
    + change (code :: zlen data :: data ++ encode opts) with ([code] ++ [zlen data] ++ data ++ encode opts) in Hrd.
      apply rd_bytes_prefix in Hrd as [_ Hrd]. apply rd_bytes_prefix in Hrd as [_ Hrd]. apply rd_bytes_prefix in Hrd as [_ Hrd].
      change (zlen [code]) with 1 in Hrd. change (zlen [zlen data]) with 1 in Hrd. by replace (po + (i + 2 + zlen data)) with (po + i + 1 + 1 + zlen data) by lia.
Qed.

(** The options of an offer are read to their end, and each of the five
    kinds that are known is stored, with its own length, at the offset of
    its field, later ones over earlier ones and others skipped; an option
    longer than what is left of the object behind its field is stored past
    the end of it. *)
Theorem dhcp_offer_options t lk b info ib po size opts : block (mem t) lk = Ret b -> based lk -> block (mem t) info = Ret ib -> based info ->
  lk / BLOCK <> info / BLOCK -> zlen b < BLOCK -> 0 <= po -> Forall valid_opt opts -> zlen (encode opts) <= size < 32768 ->
  rd_bytes b po (zlen (encode opts)) = Ret (encode opts) ->
  offer_loop (S (Z.to_nat size)) (lk + po) info size 0 t = (ib' ← store_all opts ib; Ret (tt, with_block t info ib')) /\
  (forall code data opts', opts = (code, data) :: opts' -> forall off, field code = Some off -> zlen ib < off + zlen data ->
    offer_loop (S (Z.to_nat size)) (lk + po) info size 0 t = Fault).
Proof.
  intros Hb Bl Hib Bi Hne HB Hpo Hv [Hs1 Hs2] Hrd.
  assert (E : offer_loop (S (Z.to_nat size)) (lk + po) info size 0 t = (ib' ← store_all opts ib; Ret (tt, with_block t info ib'))).
  { pose proof (zlen_nonneg (encode opts)). apply (offer_run opts _ t lk b info ib po 0 size); try done; try lia. by rewrite Z.add_0_r. }
  split; [exact E |]. intros code data opts' -> off Hoff Hl. rewrite E. cbn [store_all]. rewrite Hoff.
  assert (Ew : wr_bytes ib off data = Fault) by (unfold wr_bytes; rewrite (leb_false (off + zlen data) (zlen ib)) by lia; by rewrite andb_false_r). by rewrite Ew.
Qed.
End dhcp.

(** ** Samples: an offer and one with an option that is too long *)

Definition an_offer : list (Z * list Z) := [(53, [2]); (OPT_SUBNET_MASK, [255; 255; 255; 0]); (OPT_ROUTER, [10; 0; 0; 1]); (OPT_DNS, [10; 0; 0; 53])].
Definition long_offer : list (Z * list Z) := [(OPT_DNS, replicate 80 1)].
Definition quiet_inet : inet unit unit := mk_inet ∅ ∅ ∅ ∅ [] None None ∅ (Tick.mk_tick 0 1 ∅ ∅) (Sched.mk_sys tt ∅ ∅ ∅ ∅ true 0 0) tt.
Definition offer_net (opts : list (Z * list Z)) : net (inet unit unit) :=
  mk_net (mk_kmem (list_to_map [(1, encode opts); (2, replicate 80 0)]) 3) ∅ (mk_info [82; 84; 0; 18; 52; 86] 0 (2 * BLOCK) false 1500) None None sample_nic 1 quiet_inet.

Lemma dhcp_offer_options_witness :
  (exists ib, offer_loop (S (Z.to_nat 300)) (1 * BLOCK + 0) (2 * BLOCK) 300 0 (offer_net an_offer) = Ret (tt, with_block (offer_net an_offer) (2 * BLOCK) ib) /\
    take 24 ib = replicate 4 0 ++ [10; 0; 0; 1; 10; 0; 0; 53] ++ replicate 4 0 ++ [255; 255; 255; 0] ++ replicate 4 0) /\
  offer_loop (S (Z.to_nat 300)) (1 * BLOCK + 0) (2 * BLOCK) 300 0 (offer_net long_offer) = Fault.
Proof.
  assert (Hv : forall opts, Forall valid_opt opts <-> forallb (fun o => negb (o.1 =? OPT_END) && (0 <=? o.1) && (o.1 <? 256) && (zlen o.2 <? 256)) opts = true).
  { intros opts. induction opts as [| o l IH]; cbn [forallb]; [done |]. rewrite andb_true_iff, Forall_cons, <- IH. unfold valid_opt, is_byte. split; intros [Ho Hl]; (split; [zb; try done; naive_solver lia | done]). }
  split.
  - destruct (dhcp_offer_options (offer_net an_offer) (1 * BLOCK) (encode an_offer) (2 * BLOCK) (replicate 80 0) 0 300 an_offer) as [E _];
      [by vm_compute | by vm_compute | by vm_compute | by vm_compute | by vm_compute | by vm_compute | lia | by apply Hv | vm_compute; split; congruence | by vm_compute |].
    eexists. split; [exact E |]. done.
  - destruct (dhcp_offer_options (offer_net long_offer) (1 * BLOCK) (encode long_offer) (2 * BLOCK) (replicate 80 0) 0 300 long_offer) as [_ E];
      [by vm_compute | by vm_compute | by vm_compute | by vm_compute | by vm_compute | by vm_compute | lia | by apply Hv | vm_compute; split; congruence | by vm_compute |].
    by apply (E OPT_DNS (replicate 80 1) [] eq_refl INFO_DNS).
Defined.

End Dhcp.
