(* ===== verification/Socket.v ===== *)
(** * Sockets (net/socket.c; the file operations of net/udp.c)

    The system's calls on sockets, the table of bound ports and the delivery
    of packets to it.  The descriptor tables are behind the interface
    [FdOps]; the instance at the end is that of Vfs and File.  A call that
    sleeps is split at its waits, as in Tcp. *)

From S2P Require Import Prelude Bytes Netutil Kmem Hashmap Dlist Memory Netdev Ipv4 Tick Mts Sched Pipe Inet Tcp Dentry File Vfs.
Import Bytes Netutil Kmem Netdev Ipv4 Inet.

Module Socket.

Definition MSG_DONTWAIT : Z := 1.
Definition INADDR_ANY : Z := 0.
Definition UDP_PAYLOAD_MAX : Z := 65507.

(** [saddr_in_t]. *)
Record saddr := mk_saddr { sin_port : Z; s_addr : Z }.

(** Whose [read] and [write] a file has. *)
Inductive kind := Udp | Tcp.

(** ** What sockets need of descriptors *)

Class FdOps (V : Type) := {
  fd_alloc : V -> Z -> out (Z * V);           (** [vfs_alloc_fd(ctx)] *)
  fd_num : V -> Z -> out Z;                   (** [ctx->numfd] *)
  fd_file : V -> Z -> Z -> out Z;             (** [ctx->fd[fd]] *)
  get_private : V -> Z -> out Z;              (** [file->f_private] *)
  set_private : V -> Z -> Z -> out V;
  get_rw : V -> Z -> out (option kind * option kind);   (** [read] and [write] of [file->f_ops] *)
  set_rw : V -> Z -> kind -> out V
}.

(** A file keeps what is stored in it, and files do not share. *)
Class FdLaws (V : Type) `{FdOps V} := {
  private_same v f x v' : set_private v f x = Ret v' -> get_private v' f = Ret x;
  private_other v f g x v' : set_private v f x = Ret v' -> f <> g -> get_private v' g = get_private v g;
  private_file v f x v' ctx fd : set_private v f x = Ret v' -> fd_file v' ctx fd = fd_file v ctx fd;
  private_num v f x v' ctx : set_private v f x = Ret v' -> fd_num v' ctx = fd_num v ctx;
  rw_private v f g k v' : set_rw v f k = Ret v' -> get_private v' g = get_private v g;
  rw_file v f k v' ctx fd : set_rw v f k = Ret v' -> fd_file v' ctx fd = fd_file v ctx fd;
  rw_num v f k v' ctx : set_rw v f k = Ret v' -> fd_num v' ctx = fd_num v ctx;
  alloc_num v ctx fd v' : fd_alloc v ctx = Ret (fd, v') -> 0 <= fd -> fd_num v' ctx = Ret (fd + 1) /\ fd_num v ctx = Ret fd
}.

Section socket.
Context {M V : Type} `{Sched.SchedOps M} `{FdOps V}.
Abbreviation nt := (st (net (inet M V))).

Definition on_fds {A} (f : V -> out A) : nt A := v ← geti fds; lift (f v).
Definition mod_fds (f : V -> out V) : nt unit := v ← on_fds f; modi (set_fds v).

(** ** The table of bound sockets *)

Definition free_entry : sock := mk_sock 0 false 0.

Definition __add_listener (src_port sock : Z) : nt Z :=
  l ← geti sockets;
  match list_find (fun e => active e = false) l with
  | None => mret (- ENOMEM)
  | Some (i, _) => _ ← modi (set_sockets (<[i := mk_sock src_port true sock]> l)); mret 0
  end.

Definition socket_init : nt Z := _ ← modi (set_sockets (replicate 10 free_entry)); mret 0.

Fixpoint deliver (l : list sock) (me pkt dst : Z) : nt Z :=
  match l with
  | [] => _ ← netdev_dealloc_pkt pkt; mret (- ENOTSUP)
  | e :: l =>
      k ← get_pkt pkt;
      if active e && (port e =? dst) && (proto (transport k) =? PROTO_UDP) then
        ret ← udp_write_skb (sk e) pkt; _ ← Tcp.wakeup me (sk e); mret ret
      else if active e && (port e =? dst) && (proto (transport k) =? PROTO_TCP) then
        ret ← Tcp.tcp_write_skb me (sk e) pkt; _ ← Tcp.wakeup me (sk e); mret ret
      else deliver l me pkt dst
  end.

(** The ports of both transports are at the same place; an entry's is an
    [int] made from a [short]. *)
Definition socket_handle_pkt (me pkt : Z) : nt Z :=
  k ← get_pkt pkt;
  dst ← rdle (lpacket (transport k) + UDP_DST) 2;
  l ← geti sockets;
  deliver l me pkt dst.

(** ** The file operations of UDP *)

Definition __udp_write (size pkt : Z) : nt Z := if UDP_PAYLOAD_MAX <? size then mret (- EINVAL) else udp_send_pkt pkt.

(** The data goes to the start of the buffer. *)
Definition udp_read_data (sock : Z) (buf : list Z) : nt (Z * list Z) :=
  '(ret, data) ← udp_read_skb sock true (zlen buf);
  buf ← lift (wr_bytes buf 0 data);
  mret (ret, buf).

Definition __udp_read (me sock flags : Z) (buf : list Z) : nt (Pipe.call * list Z) :=
  s ← get_sock sock;
  k ← get_skb (s_skb s);
  if npkts k =? 0 then
    if negb (Z.land flags MSG_DONTWAIT =? 0) then mret (Pipe.Done (- EAGAIN) [], buf)
    else c ← Tcp.wait_on me sock; mret (Pipe.Wait c, buf)
  else '(n, buf) ← udp_read_data sock buf; mret (Pipe.Done n [], buf).

Definition udp_init_socket (file sock : Z) : nt unit :=
  _ ← mod_fds (fun v => set_rw v file Udp);
  s ← get_sock sock;
  put_sock sock (set_s_private 0 (s_skb s) s).

(** [file_write] and [file_read] on a socket. *)
Definition file_write (file size pkt : Z) : nt Z :=
  if (file =? 0) || (pkt =? 0) then mret (- EINVAL)
  else
    '(_, w) ← on_fds (fun v => get_rw v file);
    sock ← on_fds (fun v => get_private v file);
    match w with
    | None => mret (- ENOSYS)
    | Some Udp => __udp_write size pkt
    | Some Tcp => Tcp.__tcp_write sock pkt
    end.

Definition file_read (me file flags : Z) (buf : list Z) : nt (Pipe.call * list Z) :=
  if file =? 0 then mret (Pipe.Done (- EINVAL) [], buf)
  else
    '(r, _) ← on_fds (fun v => get_rw v file);
    sock ← on_fds (fun v => get_private v file);
    match r with
    | None => mret (Pipe.Done (- ENOSYS) [], buf)
    | Some Udp => __udp_read me sock flags buf
    | Some Tcp => Tcp.__tcp_read me sock buf (zlen buf)
    end.

(** ** The calls *)

Definition bad_fd (ctx sockfd : Z) : nt bool :=
  if (ctx =? 0) || (sockfd <? 2) then mret true else n ← on_fds (fun v => fd_num v ctx); mret (n <=? sockfd).

(** [ctx->fd[fd]->f_private]. *)
Definition sock_at (ctx fd : Z) : nt (Z * Z) :=
  file ← on_fds (fun v => fd_file v ctx fd);
  sock ← on_fds (fun v => get_private v file);
  mret (file, sock).

(** The end of [socket_alloc]: the kind's own part, and the ring. *)
Definition alloc_rest (type file sock fd : Z) : nt Z :=
  _ ← (if type =? SOCK_DGRAM then udp_init_socket file sock
       else _ ← mod_fds (fun v => set_rw v file Tcp); Tcp.tcp_init_socket sock);
  kb ← new_obj;
  _ ← put_skb kb zero_skb;
  s ← get_sock sock;
  _ ← put_sock sock (set_s_private (s_private s) kb s);
  mret fd.

Definition socket_alloc (ctx domain type proto : Z) : nt Z :=
  _ ← assert ((proto =? 0) && (domain =? AF_INET) && ((type =? SOCK_DGRAM) || (type =? SOCK_STREAM)));
  if ctx =? 0 then mret (- EINVAL)
  else
    '(fd, v) ← on_fds (fun v => fd_alloc v ctx);
    _ ← modi (set_fds v);
    if fd <? 0 then mret fd
    else
      sock ← new_obj;
      _ ← put_sock sock (mk_socket domain type 0 0 0 0 0 0 0);
      _ ← Tcp.init_wq sock;
      file ← on_fds (fun v => fd_file v ctx fd);
      _ ← mod_fds (fun v => set_private v file sock);
      alloc_rest type file sock fd.

(** Any address but INADDR_ANY stops the CPU. *)
Definition socket_bind (ctx sockfd : Z) (addr : option saddr) (addrlen : Z) : nt Z :=
  bad ← bad_fd ctx sockfd;
  match addr with
  | Some a =>
      if bad || (addrlen =? 0) then mret (- EINVAL)
      else
        '(_, sock) ← sock_at ctx sockfd;
        s ← get_sock sock;
        let port := s16 (sin_port a) in
        _ ← put_sock sock (set_s_src (s_src_addr s) port s);
        if s_addr a =? INADDR_ANY then
          ip ← netdev_get_ip;
          _ ← put_sock sock (set_s_src ip port s);
          __add_listener port sock
        else halt
  | None => mret (- EINVAL)
  end.

(** The destination of a packet: four bytes in a new [ip_t]. *)
Definition set_dst (pkt port : Z) (addr : list Z) : nt unit :=
  d ← zalloc SIZEOF_IP;
  k ← get_pkt pkt;
  _ ← put_pkt pkt (set_ports (src_port k) port (set_addrs (src_addr k) d k));
  wrm d addr.

(** A packet that is refused is not freed. *)
Definition socket_send (ctx sockfd : Z) (buf : list Z) (flags : Z) (dest_addr : option saddr) (addrlen : Z) : nt Z :=
  bad ← bad_fd ctx sockfd;
  if bad || (zlen buf =? 0) then mret (- EINVAL)
  else
    '(file, sock) ← sock_at ctx sockfd;
    s ← get_sock sock;
    pkt ← (if s_proto s =? SOCK_DGRAM then netdev_alloc_pkt_L5 PROTO_IPV4 PROTO_UDP (zlen buf)
           else if s_proto s =? SOCK_STREAM then netdev_alloc_pkt_L5 PROTO_IPV4 PROTO_TCP (zlen buf)
           else fail);
    k ← get_pkt pkt;
    _ ← put_pkt pkt (set_ports (u16 (s_src_port s)) (dst_port k) (set_addrs (s_src_addr s) (dst_addr k) k));
    err ← (if s_proto s =? SOCK_DGRAM then
             match dest_addr with
             | Some a => if addrlen =? 0 then mret (- EINVAL) else _ ← set_dst pkt (sin_port a) (le_bytes 4 (s_addr a)); mret 0
             | None => mret (- EINVAL)
             end
           else
             match dest_addr with
             | Some _ => mret (- ENOTSUP)
             | None =>
                 if negb (addrlen =? 0) then mret (- ENOTSUP)
                 else if (s_dst_addr s =? 0) || (s_dst_port s =? 0) then mret (- ENOTSUP)
                 else a ← rdm (s_dst_addr s) 4; _ ← set_dst pkt (u16 (s_dst_port s)) a; mret 0
             end);
    if negb (err =? 0) then mret err
    else
      _ ← wrm (lpacket (app k)) buf;
      file_write file (u64 (size k)) pkt.

Definition socket_recv (me ctx sockfd : Z) (buf : list Z) (flags : Z) (dest_addr addrlen : bool) : nt (Pipe.call * list Z) :=
  bad ← bad_fd ctx sockfd;
  if (bad : bool) then mret (Pipe.Done (- EINVAL) [], buf)
  else
    _ ← assert (negb dest_addr && negb addrlen);
    file ← on_fds (fun v => fd_file v ctx sockfd);
    file_read me file flags buf.

(** Up to the wait of [tcp_connect]; the packet it keeps is in the result. *)
Definition socket_connect (me ctx sockfd : Z) (dest_addr : option saddr) (addrlen : Z) : nt (Z + Z * Sched.control) :=
  bad ← bad_fd ctx sockfd;
  if (bad : bool) then mret (inl (- EINVAL))
  else
    '(_, sock) ← sock_at ctx sockfd;
    s ← get_sock sock;
    if negb (s_proto s =? SOCK_STREAM) then mret (inl (- ENOTSUP))
    else
      match dest_addr with
      | Some a =>
          if (s_src_addr s =? 0) || (s_src_port s =? 0) || (addrlen =? 0) then mret (inl (- EFAULT))
          else w ← Tcp.tcp_connect me sock (le_bytes 4 (s_addr a)) (sin_port a); mret (inr w)
      | None => mret (inl (- EFAULT))
      end.

Definition socket_connect_resume (sock pkt : Z) (a : saddr) : nt Z :=
  ret ← Tcp.tcp_connect_resume sock pkt (sin_port a);
  if ret <? 0 then mret ret
  else
    d ← zalloc SIZEOF_IP;
    s ← get_sock sock;
    _ ← put_sock sock (set_s_dst d (s16 (sin_port a)) s);
    _ ← wrm d (le_bytes 4 (s_addr a));
    mret ret.

Definition socket_listen (ctx sockfd : Z) : nt Z :=
  bad ← bad_fd ctx sockfd;
  if (bad : bool) then mret (- EINVAL)
  else
    '(_, sock) ← sock_at ctx sockfd;
    s ← get_sock sock;
    if negb (s_proto s =? SOCK_STREAM) then mret (- ENOTSUP) else Tcp.tcp_listen sock.

Definition socket_accept (me ctx sockfd : Z) : nt (Z + Sched.control) :=
  bad ← bad_fd ctx sockfd;
  if (bad : bool) then mret (inl (- EINVAL))
  else
    '(_, sock) ← sock_at ctx sockfd;
    r ← Tcp.tcp_accept me sock;
    match r with Err e => mret (inl (- e)) | Ok w => mret (inr w) end.

(** After the second wait of [tcp_accept]. *)
Definition socket_accept_resume (ctx sock in_pkt p : Z) : nt Z :=
  client ← Tcp.tcp_accept_resume sock in_pkt p;
  '(fd, v) ← on_fds (fun v => fd_alloc v ctx);
  _ ← modi (set_fds v);
  if fd <? 0 then mret fd
  else
    file ← on_fds (fun v => fd_file v ctx fd);
    _ ← mod_fds (fun v => set_private v file (u64 client));
    _ ← mod_fds (fun v => set_rw v file Tcp);
    mret fd.

(** ** Delivery to a bound port *)

Implicit Types t : net (inet M V).

(** What a call that only looks leaves as it was. *)
Lemma on_fds_Ret {A} (f : V -> out A) t a t1 : on_fds f t = Ret (a, t1) -> t1 = t /\ f (fds (upper t)) = Ret a.
Proof.
  unfold on_fds, geti. intros E. rewrite (st_step _ _ t (fds (upper t)) t eq_refl) in E. unfold lift in E.
  destruct (f (fds (upper t))) as [b | | |]; try discriminate E. by injection E as <- <-.
Qed.

Lemma get_sock_Ret p t s t1 : get_sock p t = Ret (s, t1) -> t1 = t /\ at_ptr (socks (upper t)) p = Ret s.
Proof.
  unfold get_sock, at_i, geti. intros E. rewrite (st_step _ _ t (socks (upper t)) t eq_refl) in E. unfold lift in E.
  destruct (at_ptr (socks (upper t)) p) as [b | | |]; try discriminate E. by injection E as <- <-.
Qed.

Lemma bad_fd_Ret ctx fd t b t1 : bad_fd ctx fd t = Ret (b, t1) -> t1 = t.
Proof.
  unfold bad_fd. destruct ((ctx =? 0) || (fd <? 2)); intros E; [by injection E as _ <- |].
  apply bind_inv in E as (n & t2 & E & E2). apply on_fds_Ret in E as [-> _]. by injection E2 as _ <-.
Qed.

Lemma sock_at_Ret ctx fd t r t1 : sock_at ctx fd t = Ret (r, t1) -> t1 = t.
Proof.
  unfold sock_at. intros E. apply bind_inv in E as (f & t2 & E & E2). apply on_fds_Ret in E as [-> _].
  apply bind_inv in E2 as (x & t3 & E & E2). apply on_fds_Ret in E as [-> _]. by injection E2 as _ <-.
Qed.

Lemma add_listener_Ret port sock t t1 : __add_listener port sock t = Ret (0, t1) ->
  exists i e, sockets (upper t) !! i = Some e /\ active e = false /\ sockets (upper t1) = <[i := mk_sock port true sock]> (sockets (upper t)).
Proof.
  unfold __add_listener, geti. intros E. rewrite (st_step _ _ t (sockets (upper t)) t eq_refl) in E.
  destruct (list_find (fun e => active e = false) (sockets (upper t))) as [[i e] |] eqn:Ef; [| done].
  apply list_find_Some in Ef as (Hi & Ha & _). injection E as <-. exists i, e. done.
Qed.

Lemma bind_listens ctx fd a addrlen t t1 : socket_bind ctx fd (Some a) addrlen t = Ret (0, t1) ->
  exists i e sock, (exists file, sock_at ctx fd t = Ret ((file, sock), t)) /\ sockets (upper t) !! i = Some e /\ active e = false /\
    sockets (upper t1) = <[i := mk_sock (s16 (sin_port a)) true sock]> (sockets (upper t)).
Proof.
  unfold socket_bind. intros E. apply bind_inv in E as (bad & t2 & E & E2). apply bad_fd_Ret in E as ->.
  destruct (bad || (addrlen =? 0)); [done |]. apply bind_inv in E2 as ([file sock] & t2 & E & E2).
  apply sock_at_Ret in E as Et. subst t2. apply bind_inv in E2 as (s & t2 & E3 & E2). apply get_sock_Ret in E3 as [-> _].
  apply bind_inv in E2 as ([] & t2 & E3 & E2). injection E3 as <-. destruct (s_addr a =? INADDR_ANY); [| done].
  apply bind_inv in E2 as (ip & t3 & E3 & E2). assert (Et : t3 = set_upper (upper t3) t3 /\ sockets (upper t3) = sockets (upper t)).
  { unfold netdev_get_ip in E3. apply bind_inv in E3 as (i & t4 & E4 & E3). injection E4 as <- <-. cbn in E3. destruct (dhcp_done (info t)); [done |]. injection E3 as _ <-. done. }
  apply bind_inv in E2 as ([] & t4 & E4 & E2). injection E4 as <-. apply add_listener_Ret in E2 as (i & e & H1 & H2 & H3).
  cbn in H1, H3. destruct Et as [_ Et]. rewrite Et in H1, H3. exists i, e, sock. split; [by exists file | done].
Qed.

Lemma deliver_udp l i port sock me p k dst t : l !! i = Some (mk_sock port true sock) ->
  (forall j e, l !! j = Some e -> j <> i -> active e = true -> Inet.port e <> dst) ->
  at_ptr (pkts t) p = Ret k -> proto (transport k) = PROTO_UDP ->
  deliver l me p dst t = if port =? dst then (ret ← udp_write_skb sock p; _ ← Tcp.wakeup me sock; mret ret) t
                         else (_ ← netdev_dealloc_pkt p; mret (- ENOTSUP)) t.
Proof.
  intros Hi Ho Hp Hk. revert i Hi Ho.
  assert (Hget : forall (A : Type) (f : packet -> nt A), (get_pkt p ≫= f) t = f k t) by (intros A f; apply st_step; unfold get_pkt; by rewrite Hp).
  assert (Hnone : forall l, (forall j e, l !! j = Some e -> active e = true -> Inet.port e <> dst) -> deliver l me p dst t = (_ ← netdev_dealloc_pkt p; mret (- ENOTSUP)) t).
  { clear l. induction l as [| e l IH]; intros Hl; [done |]. cbn [deliver]. rewrite Hget.
    assert (Hb : active e && (Inet.port e =? dst) = false).
    { destruct (active e) eqn:Ea; [| done]. apply Z.eqb_neq. by apply (Hl 0%nat e). }
    rewrite Hb. cbn [andb]. apply IH. intros j e2 Hj. by apply (Hl (S j)). }
  induction l as [| e l IH]; intros [| i] Hi Ho; [done | done | |]; cbn [deliver]; rewrite Hget.
  - injection Hi as ->. cbn [active Inet.port sk]. rewrite Hk. change (PROTO_UDP =? PROTO_UDP) with true. rewrite andb_true_r, andb_true_l.
    destruct (port =? dst); [done |]. apply Hnone. intros j e2 Hj. by apply (Ho (S j)).
  - assert (Hb : active e && (Inet.port e =? dst) = false).
    { destruct (active e) eqn:Ea; [| done]. apply Z.eqb_neq. by apply (Ho 0%nat e). }
    rewrite Hb. cbn [andb]. apply (IH i); [done |]. intros j e2 Hj Hne. apply (Ho (S j)); [done | lia].
Qed.

(** C22: a UDP packet that arrives for the port a socket was bound to is put
    in that socket's ring, and its waiters are woken, when the port is below
    32768; for a larger port the table has a negative number, the packet is
    freed and the socket never receives anything. *)
Theorem socket_bind_receives t t1 t2 ctx fd a addrlen me p k : 0 <= sin_port a < 65536 ->
  socket_bind ctx fd (Some a) addrlen t = Ret (0, t1) -> sockets (upper t2) = sockets (upper t1) ->
  (forall j e, sockets (upper t) !! j = Some e -> active e = true -> port e <> sin_port a) ->
  at_ptr (pkts t2) p = Ret k -> proto (transport k) = PROTO_UDP -> rdle (lpacket (transport k) + UDP_DST) 2 t2 = Ret (sin_port a, t2) ->
  exists file sock, sock_at ctx fd t = Ret ((file, sock), t) /\
    socket_handle_pkt me p t2 = if sin_port a <? 32768 then (ret ← udp_write_skb sock p; _ ← Tcp.wakeup me sock; mret ret) t2
                                else (_ ← netdev_dealloc_pkt p; mret (- ENOTSUP)) t2.
Proof.
  intros Ha Hbind Hs Hother Hp Hk Hdst. destruct (bind_listens _ _ _ _ _ _ Hbind) as (i & e & sock & (file & Hsock) & Hi & Hact & Hs1).
  exists file, sock. split; [done |]. unfold socket_handle_pkt, geti.
  rewrite (st_step (get_pkt p) _ t2 k t2) by (unfold get_pkt; by rewrite Hp). rewrite (st_step _ _ _ _ _ Hdst), (st_step _ _ t2 (sockets (upper t2)) t2 eq_refl).
  apply lookup_lt_Some in Hi as Hlt. rewrite (deliver_udp _ i (s16 (sin_port a)) sock me p k); try done.
  - assert (E : (s16 (sin_port a) =? sin_port a) = (sin_port a <? 32768)); [| by rewrite E].
    unfold s16, swrap, wrap. change (2 ^ 16) with 65536. change (2 ^ (16 - 1)) with 32768. rewrite Z.mod_small by lia.
    destruct (Z.ltb_spec (sin_port a) 32768); [apply Z.eqb_refl | apply Z.eqb_neq; lia].
  - by rewrite Hs, Hs1, list_lookup_insert_eq.
  - intros j e2 Hj Hne. rewrite Hs, Hs1, list_lookup_insert_ne in Hj by done. by apply (Hother j).
Qed.

(** ** New sockets *)

(** A socket as the calls expect it: its ring exists, and a stream socket
    has its context. *)
Definition typed_sock t (p : Z) : Prop := exists s,
  at_ptr (socks (upper t)) p = Ret s /\ s_domain s = AF_INET /\
  ((s_proto s = SOCK_DGRAM) \/ (s_proto s = SOCK_STREAM /\ exists c, at_ptr (ctxs (upper t)) (s_private s) = Ret c)) /\
  exists k, at_ptr (skbs (upper t)) (s_skb s) = Ret k.

(** What is there stays there, but for the socket [sock]. *)
Record keeps (sock : Z) t t1 : Prop := {
  kp_socks : forall p s, p <> sock -> at_ptr (socks (upper t)) p = Ret s -> at_ptr (socks (upper t1)) p = Ret s;
  kp_skbs : forall p k, at_ptr (skbs (upper t)) p = Ret k -> exists k', at_ptr (skbs (upper t1)) p = Ret k';
  kp_ctxs : forall p c, at_ptr (ctxs (upper t)) p = Ret c -> exists c', at_ptr (ctxs (upper t1)) p = Ret c'
}.

Lemma typed_keeps sock t t1 p : keeps sock t t1 -> p <> sock -> typed_sock t p -> typed_sock t1 p.
Proof.
  intros [K1 K2 K3] Hne (s & Hs & Hd & Hp & k & Hk). exists s. split; [by apply K1 |]. split; [done |].
  split; [destruct Hp as [| [? (c & Hc)]]; [by left | right; split; [done | by apply (K3 _ c)]] | by apply (K2 _ k)].
Qed.

Lemma keeps_trans sock t1 t2 t3 : keeps sock t1 t2 -> keeps sock t2 t3 -> keeps sock t1 t3.
Proof.
  intros [A1 A2 A3] [B1 B2 B3]. constructor.
  - intros p s Hp Hs. apply B1; [done |]. by apply A1.
  - intros p k [k' Hk]%A2. by apply (B2 _ k').
  - intros p c [c' Hc]%A3. by apply (B3 _ c').
Qed.

Lemma at_insert {A} (m : gmap Z A) p q x y : at_ptr m p = Ret x -> exists z, at_ptr (<[q := y]> m) p = Ret z.
Proof.
  intros [Hn Hx]%at_ptr_Ret. destruct (decide (p = q)) as [-> | Hne].
  - exists y. apply at_ptr_Ret. split; [done |]. apply lookup_insert_eq.
  - exists x. apply at_ptr_Ret. split; [done |]. by rewrite lookup_insert_ne.
Qed.

Lemma keeps_sock sock t x : keeps sock t (set_upper (set_socks (<[sock := x]> (socks (upper t))) (upper t)) t).
Proof.
  constructor; cbn; [| eauto | eauto]. intros p s Hp [Hn Hs]%at_ptr_Ret. apply at_ptr_Ret. split; [done |]. by rewrite lookup_insert_ne.
Qed.

(** The address of a new object. *)
Lemma new_obj_Ret t a t1 : new_obj t = Ret (a, t1) -> a = next_block (mem t) * BLOCK /\ t1 = set_mem (snd (kzalloc (mem t) 0)) t.
Proof. unfold new_obj, zalloc, kzalloc, new_block. intros E. by injection E as <- <-. Qed.

Lemma mod_fds_Ret (f : V -> out V) t u t1 : mod_fds f t = Ret (u, t1) -> exists v, f (fds (upper t)) = Ret v /\ t1 = set_upper (set_fds v (upper t)) t.
Proof.
  unfold mod_fds. intros E. apply bind_inv in E as (v & t2 & E & E2). apply on_fds_Ret in E as [-> E]. exists v. split; [done |]. by injection E2 as <-.
Qed.

Lemma alloc_ops_typed type file sock t u t2 s :
  (if type =? SOCK_DGRAM then udp_init_socket file sock else _ ← mod_fds (fun v => set_rw v file Tcp); Tcp.tcp_init_socket sock) t = Ret (u, t2) ->
  0 < next_block (mem t) -> type = SOCK_DGRAM \/ type = SOCK_STREAM -> at_ptr (socks (upper t)) sock = Ret s -> s_domain s = AF_INET -> s_proto s = type ->
  keeps sock t t2 /\ (exists k, set_rw (fds (upper t)) file k = Ret (fds (upper t2))) /\ 0 < next_block (mem t2) /\ exists s2,
    at_ptr (socks (upper t2)) sock = Ret s2 /\ s_domain s2 = AF_INET /\ s_proto s2 = type /\
    (type = SOCK_DGRAM \/ type = SOCK_STREAM /\ exists c, at_ptr (ctxs (upper t2)) (s_private s2) = Ret c).
Proof.
  intros E1 Hn Hty Hs Hd Hpr. apply at_ptr_Ret in Hs as Hs'. destruct Hs' as [Hs0 _]. destruct (Z.eqb_spec type SOCK_DGRAM) as [Ht | Ht].
  - unfold udp_init_socket in E1. apply bind_inv in E1 as (u1 & t3 & E2 & E1). apply mod_fds_Ret in E2 as (v & Ev & ->). set (t3 := set_upper (set_fds v (upper t)) t) in *.
    apply bind_inv in E1 as (s' & t4 & E2 & E1). apply get_sock_Ret in E2 as [-> E2]. cbn in E2. rewrite Hs in E2. injection E2 as <-.
    injection E1 as _ <-. split; [apply (keeps_trans _ _ t3); [by constructor; cbn; eauto | exact (keeps_sock sock t3 _)] |].
    split; [by exists Udp |]. split; [done |]. exists (set_s_private 0 (s_skb s) s). split; [by apply at_ptr_Ret; split; [| apply lookup_insert_eq] |]. split_and!; try done. by left.
  - destruct Hty as [| Hty]; [done |]. apply bind_inv in E1 as (u1 & t3 & E2 & E1). apply mod_fds_Ret in E2 as (v & Ev & ->). set (t3 := set_upper (set_fds v (upper t)) t) in *.
    unfold Tcp.tcp_init_socket in E1. apply bind_inv in E1 as (s' & t4 & E2 & E1). apply get_sock_Ret in E2 as [-> E2]. cbn in E2. rewrite Hs in E2. injection E2 as <-.
    apply bind_inv in E1 as (a & t5 & E2 & E1). apply new_obj_Ret in E2 as [-> ->]. apply bind_inv in E1 as (u2 & t6 & E2 & E1). injection E2 as _ <-. injection E1 as _ <-.
    set (a := next_block (mem t3) * BLOCK) in *. assert (Ha : a <> 0) by (unfold a, BLOCK; cbn; lia).
    split; [| split; [by exists Tcp | split; [cbn; lia |]]].
    + apply (keeps_trans _ _ t3); [by constructor; cbn; eauto |].
      apply (keeps_trans _ _ (set_upper (set_socks (<[sock := set_s_private a (s_skb s) s]> (socks (upper t3))) (upper t3)) t3)); [exact (keeps_sock sock t3 _) |].
      constructor; cbn; [done | by eauto |]. intros p c. apply at_insert.
    + exists (set_s_private a (s_skb s) s). split; [by apply at_ptr_Ret; split; [| apply lookup_insert_eq] |]. split_and!; try done.
      right. split; [done |]. eexists. apply at_ptr_Ret. split; [done |]. cbn. apply lookup_insert_eq.
Qed.

Lemma alloc_rest_typed type file sock fd t r t1 s : alloc_rest type file sock fd t = Ret (r, t1) -> 0 < next_block (mem t) ->
  type = SOCK_DGRAM \/ type = SOCK_STREAM -> at_ptr (socks (upper t)) sock = Ret s -> s_domain s = AF_INET -> s_proto s = type ->
  r = fd /\ keeps sock t t1 /\ typed_sock t1 sock /\ exists k, set_rw (fds (upper t)) file k = Ret (fds (upper t1)).
Proof.
  intros E Hn Hty Hs Hd Hpr. unfold alloc_rest in E. apply bind_inv in E as (u & t2 & E1 & E).
  destruct (alloc_ops_typed _ _ _ _ _ _ _ E1 Hn Hty Hs Hd Hpr) as (K & Hrw & Hn2 & s2 & Hs2 & Hd2 & Hp2 & Hc2). apply at_ptr_Ret in Hs2 as Hs2'. destruct Hs2' as [Hs0 _].
  apply bind_inv in E as (kb & t3 & E2 & E). apply new_obj_Ret in E2 as [-> ->]. apply bind_inv in E as (u1 & t4 & E2 & E). injection E2 as _ <-.
  apply bind_inv in E as (s3 & t5 & E2 & E). apply get_sock_Ret in E2 as [-> E2]. cbn in E2. rewrite Hs2 in E2. injection E2 as <-.
  apply bind_inv in E as (u2 & t6 & E2 & E). injection E2 as _ <-. injection E as <- <-.
  set (kb := next_block (mem t2) * BLOCK) in *. assert (Hk : kb <> 0) by (unfold kb, BLOCK; lia).
  set (t3 := set_upper (set_skbs (<[kb := zero_skb]> (skbs (upper t2))) (upper t2)) (set_mem (snd (kzalloc (mem t2) 0)) t2)).
  split; [done |]. split; [apply (keeps_trans _ _ t2); [done |] |].
  - apply (keeps_trans _ _ t3); [| exact (keeps_sock sock t3 _)].
    constructor; cbn; [done | | by eauto]. intros p k. apply at_insert.
  - split; [| exact Hrw]. exists (set_s_private (s_private s2) kb s2). split; [by apply at_ptr_Ret; split; [| apply lookup_insert_eq] |]. cbn.
    split; [done |]. rewrite Hp2. split; [exact Hc2 |]. exists zero_skb. apply at_ptr_Ret. split; [done | apply lookup_insert_eq].
Qed.

Lemma init_wq_Ret sock t u t1 : Tcp.init_wq sock t = Ret (u, t1) -> exists s', t1 = set_upper (set_sch s' (upper t)) t.
Proof. unfold Tcp.init_wq. intros E. apply bind_Ret in E as ([r s'] & _ & E). injection E as _ <-. eexists. reflexivity. Qed.

End socket.

(** ** Descriptors over the virtual file system

    [vfs_alloc_fd] of Vfs, and the files of File; [after] is what follows
    the old descriptor table in memory. *)

Section vfs_fds.
Context {G C : Type} `{Memory.EntrySource C} (after : Z).

Definition tables : Type := Vfs.vfs kind G C * gmap Z Vfs.file_ctx.

Definition vfs_fd_alloc (v : tables) (ctx : Z) : out (Z * tables) :=
  c ← at_ptr (snd v) ctx;
  '(fd, c, s) ← Vfs.vfs_alloc_fd (fst v) (Some c) after;
  mret (fd, (s, match c with Some c => <[ctx := c]> (snd v) | None => snd v end)).

Definition the_file (v : tables) (f : Z) : out File.file := File.get_file (Vfs.sys (fst v)) f.
Definition the_ops (v : tables) (f : Z) : out (Z * Dentry.file_ops kind) :=
  x ← the_file v f; o ← at_ptr (Dentry.fops (File.core (Vfs.sys (fst v)))) (File.f_ops x); mret (File.f_ops x, o).

#[global] Instance vfs_fds : FdOps tables := {
  fd_alloc := vfs_fd_alloc;
  fd_num v ctx := c ← at_ptr (snd v) ctx; mret (Vfs.numfd c);
  fd_file v ctx fd := c ← at_ptr (snd v) ctx; rd (Vfs.fd c) fd;
  get_private v f := x ← the_file v f; mret (File.f_private x);
  set_private v f p :=
    x ← the_file v f;
    mret (Vfs.set_sys (File.put_file (Vfs.sys (fst v)) f
      (File.mk_file (File.f_dentry x) p (File.f_count x) (File.f_pos x) (File.f_mode x) (File.f_ops x))) (fst v), snd v);
  get_rw v f := '(_, o) ← the_ops v f; mret (Dentry.read o, Dentry.write o);
  set_rw v f k :=
    '(a, o) ← the_ops v f;
    let y := Vfs.sys (fst v) in
    let o := Dentry.mk_fops (Some k) (Some k) (Dentry.open o) (Dentry.close o) (Dentry.seek o) in
    mret (Vfs.set_sys (File.set_core (File.set_fops (<[a := o]> (Dentry.fops (File.core y))) (File.core y)) y) (fst v), snd v)
}.

Lemma get_put_file (s : File.fsys kind C) f g x : f <> 0 -> File.get_file (File.put_file s f x) g = if g =? f then Ret x else File.get_file s g.
Proof.
  intros Hf. unfold File.get_file, File.put_file, at_ptr. cbn. destruct (Z.eqb_spec g f) as [-> |].
  - rewrite (proj2 (Z.eqb_neq _ _) Hf). by rewrite lookup_insert_eq.
  - by rewrite lookup_insert_ne.
Qed.

#[global] Instance vfs_fds_laws : FdLaws tables.
Proof.
  constructor.
  - intros v f x v'. cbn. unfold the_file. intros (y & E & E2)%bind_Ret. injection E2 as <-. apply at_ptr_Ret in E as Hf. cbn.
    rewrite get_put_file by tauto. by rewrite Z.eqb_refl.
  - intros v f g x v'. cbn. unfold the_file. intros (y & E & E2)%bind_Ret Hne. injection E2 as <-. apply at_ptr_Ret in E as Hf. cbn.
    rewrite get_put_file by tauto. by rewrite (proj2 (Z.eqb_neq g f)).
  - intros v f x v' ctx fd. cbn. intros (y & E & E2)%bind_Ret. by injection E2 as <-.
  - intros v f x v' ctx. cbn. intros (y & E & E2)%bind_Ret. by injection E2 as <-.
  - intros v f g k v'. cbn. intros ([a o] & E & E2)%bind_Ret. by injection E2 as <-.
  - intros v f k v' ctx fd. cbn. intros ([a o] & E & E2)%bind_Ret. by injection E2 as <-.
  - intros v f k v' ctx. cbn. intros ([a o] & E & E2)%bind_Ret. by injection E2 as <-.
  - intros v ctx fd v'. cbn. unfold vfs_fd_alloc. intros (c & E & E2)%bind_Ret Hfd. apply bind_Ret in E2 as ([[r c'] s] & E2 & E3).
    injection E3 as -> <-. cbn [snd]. rewrite E. unfold Vfs.vfs_alloc_fd in E2. apply bind_Ret in E2 as (l & _ & E2).
    apply bind_Ret in E2 as ([q y] & _ & E2). destruct q as [f | e]; apply bind_Ret in E2 as (new & Ew & E2); injection E2 as E2 <- _; [| unfold ENOMEM in E2; lia].
    subst fd. apply wr_Ret in Ew as [Hr _]. unfold zlen in Hr. rewrite length_take in Hr.
    assert (Hn : s32 (Vfs.numfd c + 1) = Vfs.numfd c + 1).
    { assert (Hle : s32 (Vfs.numfd c + 1) <= Vfs.numfd c + 1); [| lia]. unfold s32, swrap, wrap. pose proof (Z.mod_le (Vfs.numfd c + 1) (2 ^ 32) ltac:(lia) ltac:(lia)). zb; lia. }
    rewrite Hn. split; [| done]. unfold at_ptr. apply at_ptr_Ret in E as [Hc _]. rewrite (proj2 (Z.eqb_neq _ _) Hc). by rewrite lookup_insert_eq.
Qed.

End vfs_fds.

(** ** Samples: descriptor 2 of the table at 7 is the UDP socket at 100 *)

#[local] Existing Instance Sched.list_sched.
#[local] Existing Instance PageAlloc.PageAlloc.page_alloc_source.

Definition sample_tables : @tables unit Dentry.cache :=
  let c := Dentry.full_cache in
  (Vfs.mk_vfs (File.mk_fsys (Dentry.mk_fs ∅ ∅ ∅ {[600 := Dentry.no_fops]} ∅ 1 c c c c ∅) {[500 := File.mk_file 0 100 1 0 0 600]} c c) ∅ ∅ ∅ 0 0 0 0 200,
   {[7 := Vfs.mk_file_ctx 1 3 [0; 0; 500] 0]}).
#[local] Instance sample_fds : FdOps (@tables unit Dentry.cache) := vfs_fds 0.

Definition udp_socket : socket := mk_socket AF_INET SOCK_DGRAM 0 0 200 0 0 0 0.
Definition socket_inet : inet (Z * list Z) (@tables unit Dentry.cache) :=
  mk_inet {[100 := udp_socket]} {[200 := zero_skb]} ∅ ∅ (replicate 10 free_entry) None None ∅ (Tick.mk_tick 0 1 ∅ ∅) Tcp.sample_sys sample_tables.

(** A datagram for [port] is in block 1. *)
Definition port_packet : packet := mk_packet 46 0 (1 * BLOCK) 0 0 0 0 (mk_layer PROTO_IPV4 32 (1 * BLOCK + 14)) (mk_layer PROTO_UDP 12 (1 * BLOCK + 34)) (mk_layer 0 4 (1 * BLOCK + 42)).
Definition port_net (port : Z) : net (inet (Z * list Z) (@tables unit Dentry.cache)) :=
  mk_net (mk_kmem (list_to_map [(1, replicate 36 0 ++ le_bytes 2 port ++ replicate 8 0); (2, [192; 168; 1; 2] ++ replicate 36 0)]) 6) {[5 * BLOCK := port_packet]}
    (mk_info [82; 84; 0; 18; 52; 86] 0 (2 * BLOCK) false 1500) None None (mk_rtl 0 0 [] [] []) 1 socket_inet.
Definition bound_net (port : Z) := match socket_bind 7 2 (Some (mk_saddr port 0)) 16 (port_net port) with Ret (_, t) => t | _ => port_net port end.

Lemma socket_bind_receives_witness :
  socket_handle_pkt 0 (5 * BLOCK) (bound_net 80) = (ret ← udp_write_skb 100 (5 * BLOCK); _ ← Tcp.wakeup 0 100; mret ret) (bound_net 80) /\
  socket_handle_pkt 0 (5 * BLOCK) (bound_net 40000) = (_ ← netdev_dealloc_pkt (5 * BLOCK); mret (- ENOTSUP)) (bound_net 40000).
Proof.
  assert (Hnone : forall port j e, sockets (upper (port_net port)) !! j = Some e -> active e = true -> Inet.port e <> port).
  { intros port j e Hj Ha. change (replicate 10 free_entry !! j = Some e) in Hj. by apply lookup_replicate in Hj as [-> _]. }
  split.
  - destruct (socket_bind_receives (port_net 80) (bound_net 80) (bound_net 80) 7 2 (mk_saddr 80 0) 16 0 (5 * BLOCK) port_packet) as (file & sock & E1 & E2);
      [cbn; lia | by vm_compute | done | apply (Hnone 80) | by vm_compute | done | by vm_compute |].
    assert (Es : (file, sock) = (500, 100)); [| injection Es as -> ->; exact E2].
    pose proof (f_equal (fun r => match r with Ret (x, _) => x | _ => (0, 0) end) E1) as E3. cbn beta iota in E3. by rewrite <- E3; vm_compute.
  - destruct (socket_bind_receives (port_net 40000) (bound_net 40000) (bound_net 40000) 7 2 (mk_saddr 40000 0) 16 0 (5 * BLOCK) port_packet) as (file & sock & E1 & E2);
      [cbn; lia | by vm_compute | done | apply (Hnone 40000) | by vm_compute | done | by vm_compute | exact E2].
Defined.


End Socket.
