(* ===== verification/Netin.v ===== *)
(** * Incoming packets
    (net/eth.c, ipv4.c, ipv6.c, icmp.c; the handlers of net/udp.c and
    net/tcp.c; netdev_init; the receive side of drivers/net/rtl8139.c)

    The way of a frame from the card to the sockets.  Each layer converts its
    header in place and hands the packet on. *)

From S2P Require Import Prelude Bytes Netutil Kmem Hashmap Dlist Dentry File Vfs Netdev Ipv4 Arp Tick Mts Sched Pipe Inet Tcp Dhcp Socket.
Import Bytes Netutil Kmem Netdev Ipv4 Inet Socket.

Module Netin.

Definition RX_BUFFER_SIZE : Z := 8192.
Definition RX_BUFFER_OVRH : Z := 7.
Definition IPV6_NEXT_HDR : Z := 7.
Definition ICMP_TYPE : Z := 4.

(** The receive position after a packet of [size] bytes: the next multiple
    of four behind its header and its data, inside the buffer. *)
Definition rx_next (cbr size : Z) : Z :=
  let cbr := Z.land (u64 (cbr + size + RX_BUFFER_OVRH)) (u64 (Z.lnot 3)) in
  if RX_BUFFER_SIZE <=? cbr then cbr - RX_BUFFER_SIZE else cbr.

Section netin.
Context {M V : Type} `{Sched.SchedOps M} `{FdOps V}.
Variables IPV4_UNSPECIFIED IPV4_BROADCAST ETH_BROADCAST : Z.
Abbreviation nt := (st (net (inet M V))).

(** Fields converted in place. *)
Definition swap16 (a : Z) : nt Z := v ← rdle a 2; let v := n2h_16 v in _ ← wrle a 2 v; mret v.
Definition swap32 (a : Z) : nt Z := v ← rdle a 4; let v := n2h_32 v in _ ← wrle a 4 v; mret v.

(** ** The transports *)

Definition icmp_handle_pkt (pkt : Z) : nt Z := _ ← rdle (pkt + ICMP_TYPE) 1; mret 0.

Definition udp_handle_pkt (me p : Z) : nt Z :=
  k ← get_pkt p;
  let udp := lpacket (transport k) in
  _ ← swap16 (udp + UDP_SRC);
  dst ← swap16 (udp + UDP_DST);
  len ← swap16 (udp + UDP_LEN);
  _ ← put_pkt p (set_app (mk_layer (proto (app k)) (u16 (len - UDP_HDR_SIZE)) (udp + SIZEOF_UDP)) k);
  if dst =? Dhcp.DHCP_CLIENT_PORT then Dhcp.dhcp_handle_pkt IPV4_UNSPECIFIED IPV4_BROADCAST p else socket_handle_pkt me p.

Definition tcp_handle_pkt (me p : Z) : nt Z :=
  k ← get_pkt p;
  let tcp := lpacket (transport k) in
  _ ← swap16 (tcp + Tcp.T_SRC);
  _ ← swap16 (tcp + Tcp.T_DST);
  _ ← swap32 (tcp + Tcp.T_SEQ);
  _ ← swap32 (tcp + Tcp.T_ASEQ);
  _ ← swap16 (tcp + Tcp.T_LEN);
  _ ← swap16 (tcp + Tcp.T_CKS);
  _ ← swap16 (tcp + Tcp.T_UPTR);
  socket_handle_pkt me p.

(** ** IPv4 *)

Definition new_map (n : Z) : option Hashmap.hashmap := match Hashmap.hm_alloc_hashmap true true n 0 with Ok h => Some h | Err _ => None end.
Definition ipv4_init : nt unit := modi (set_fragments (new_map 8)).

(** The last switch of [ipv4_handle_pkt]; the protocol is read from the
    header that came in. *)
Definition ipv4_dispatch (me dgram p : Z) : nt Z :=
  pr ← rdle (dgram + IP_PROTO) 1;
  if pr =? PROTO_ICMP then _ ← rdle (dgram + IP_LEN) 2; icmp_handle_pkt (dgram + SIZEOF_IPV4)
  else if pr =? PROTO_UDP then udp_handle_pkt me p
  else if pr =? PROTO_TCP then tcp_handle_pkt me p
  else mret (- ENOTSUP).

(** The buffer for the fragments of a datagram. *)
Definition frag_buffer (iden len : Z) : nt Z :=
  fr ← geti fragments;
  fb ← lift (Hashmap.hm_get fr (Some (le_bytes 4 iden)));
  if negb (fb =? 0) then mret fb
  else
    fb ← new_obj;
    '(_, fr) ← lift (Hashmap.hm_insert item fr (Some (le_bytes 4 iden)) fb);
    _ ← modi (set_fragments fr);
    _ ← put_fb fb (mk_fragbuf (u64 (len - IPV4_HDR_SIZE)) 0 0 (-1) (replicate 45 0));
    mret fb.

(** Division of integers; by zero it traps. *)
Definition div (a b : Z) : out Z := if b =? 0 then Fault else mret (Z.quot a b).

(** A fragment takes its place; the result is the buffer. *)
Definition frag_store (fb p f_off len : Z) : nt fragbuf :=
  b ← get_fb fb;
  let at_ := Z.land f_off IPV4_FRAG_MASK * 8 in
  let p_len := len - IPV4_HDR_SIZE in
  off ← lift (div at_ p_len);
  '(off, e) ← (if (Z.land f_off IPV4_MORE_FRAGS =? 0) && negb (Z.land f_off IPV4_FRAG_MASK =? 0)
               then off ← lift (div at_ (fsize b)); mret (s32 off, s32 off) else mret (off, e_idx b));
  ps ← lift (wr (f_pkts b) off p);
  let b := mk_fragbuf (fsize b) (s32 (tsize b + p_len)) (s32 (f_npkts b + 1)) e ps in
  _ ← put_fb fb b;
  mret b.

(** The payloads are put one behind the other, and the fragments freed;
    [n] are left, from the [i]th on. *)
Fixpoint merge_loop (n : nat) (ps : list Z) (i payload ptr : Z) : nt unit :=
  match n with
  | O => mret tt
  | S n =>
      p ← lift (rd ps i);
      k ← get_pkt p;
      let frag := lpacket (pnet k) in
      len ← rdle (frag + IP_LEN) 2;
      _ ← cpy (payload + ptr) (frag + SIZEOF_IPV4) (u64 (len - IPV4_HDR_SIZE));
      _ ← netdev_dealloc_pkt p;
      merge_loop n ps (i + 1) payload (ptr + (len - IPV4_HDR_SIZE))
  end.

Definition ipv4_merge (fb : Z) (b : fragbuf) (k : packet) : nt Z :=
  merged ← netdev_alloc_pkt_L4 PROTO_IPV4 (u64 (tsize b));
  mk ← get_pkt merged;
  let ipv4 := lpacket (pnet mk) in
  _ ← cpy ipv4 (link k + SIZEOF_ETH) IPV4_HDR_SIZE;
  _ ← wrle (ipv4 + IP_F_OFF) 2 0;
  _ ← wrle (ipv4 + IP_LEN) 2 (u16 (tsize b));
  _ ← merge_loop (Z.to_nat (f_npkts b)) (f_pkts b) 0 (lpacket (transport mk)) 0;
  _ ← modi (fun i => set_fragbufs (delete fb (fragbufs i)) i);
  iden ← rdle (ipv4 + IP_IDEN) 2;
  fr ← geti fragments;
  '(_, fr) ← lift (Hashmap.hm_remove fr (Some (le_bytes 4 iden)));
  _ ← modi (set_fragments fr);
  mret merged.

(** A fragment; when none is missing the datagram is handed on. *)
Definition frag_handle (me p : Z) (k : packet) (iden f_off len : Z) : nt Z :=
  fb ← frag_buffer iden len;
  b ← frag_store fb p f_off len;
  if negb (f_npkts b - 1 =? e_idx b) || (e_idx b =? -1) then mret 0
  else p ← ipv4_merge fb b k; ipv4_dispatch me (lpacket (pnet k)) p.

Definition ipv4_handle_pkt (me p : Z) : nt Z :=
  k ← get_pkt p;
  let dgram := lpacket (pnet k) in
  pr ← rdle (dgram + IP_PROTO) 1;
  _ ← put_pkt p (set_transport (mk_layer pr (u16 (lsize (pnet k) - IPV4_HDR_SIZE)) (dgram + SIZEOF_IPV4)) k);
  iden ← swap16 (dgram + IP_IDEN);
  f_off ← swap16 (dgram + IP_F_OFF);
  _ ← swap32 (dgram + IP_SRC);
  _ ← swap32 (dgram + IP_DST);
  len ← swap16 (dgram + IP_LEN);
  if negb (Z.land f_off IPV4_MORE_FRAGS =? 0) || negb (Z.land f_off IPV4_FRAG_MASK =? 0) then
    frag_handle me p k iden f_off len
  else ipv4_dispatch me dgram p.

(** ** IPv6 and Ethernet *)

Definition ipv6_handle_pkt (me p : Z) : nt Z :=
  k ← get_pkt p;
  let dgram := lpacket (pnet k) in
  let up pr := put_pkt p (set_transport (mk_layer pr (u16 (lsize (pnet k) - SIZEOF_IPV6)) (dgram + SIZEOF_IPV6)) k) in
  pr ← rdle (dgram + IPV6_NEXT_HDR) 1;
  if pr =? PROTO_ICMP then _ ← up PROTO_ICMP; icmp_handle_pkt (dgram + SIZEOF_IPV6)
  else if pr =? PROTO_UDP then _ ← up PROTO_UDP; udp_handle_pkt me p
  else if pr =? PROTO_TCP then _ ← up PROTO_TCP; tcp_handle_pkt me p
  else _ ← up (proto (transport k)); mret 0.

(** A frame of another type is not freed. *)
Definition eth_handle_frame (me p : Z) : nt Z :=
  k ← get_pkt p;
  type ← swap16 (link k + ETH_TYPE);
  _ ← put_pkt p (set_net (mk_layer type (u16 (size k - ETH_HDR_SIZE)) (link k + SIZEOF_ETH)) k);
  if type =? PROTO_IPV4 then ipv4_handle_pkt me p
  else if type =? PROTO_IPV6 then ipv6_handle_pkt me p
  else if type =? PROTO_ARP then Arp.arp_handle_pkt p
  else mret (- ENOTSUP).

(** ** The card and the start *)

(** [bufs] is what the receive buffer holds each time around the loop; the
    card's register says whether there is a next time. *)
Fixpoint rx_loop (me : Z) (bufs : list (list Z)) (cbr : Z) : nt Z :=
  match bufs with
  | [] => mret cbr
  | data :: bufs =>
      size ← lift (rd_le data (cbr + 2) 2);
      p ← netdev_alloc_pkt_in size;
      k ← get_pkt p;
      b ← lift (rd_bytes data (cbr + 4) size);
      _ ← wrm (link k) b;
      _ ← eth_handle_frame me p;
      rx_loop me bufs (rx_next cbr size)
  end.

Definition netdev_init : nt unit :=
  let m := new_map 32 in
  key ← key_at IPV4_BROADCAST;
  '(e, m) ← lift (Hashmap.hm_insert item m key ETH_BROADCAST);
  _ ← modify (set_cache m);
  if negb (e =? 0) then halt
  else
    _ ← modify (fun s => set_info (mk_info (mac (info s)) (dhcp (info s)) (our_ip (info s)) false (mtu (info s))) s);
    _ ← ipv4_init;
    _ ← Dhcp.dhcp_discover IPV4_UNSPECIFIED IPV4_BROADCAST;
    _ ← socket_init;
    mret tt.

(** ** Fragments are never delivered *)

Implicit Types t : net (inet M V).

(** Reading, writing and freeing. *)
Lemma rdm_same a n t l t1 : rdm a n t = Ret (l, t1) -> t1 = t.
Proof. intros E. exact (proj2 (rdm_Ret _ _ _ _ _ E)). Qed.

Lemma rdle_same a n t v t1 : rdle a n t = Ret (v, t1) -> t1 = t.
Proof. unfold rdle. intros E. apply bind_inv in E as (l & t2 & E & E2). apply rdm_same in E as ->. by injection E2 as _ <-. Qed.

Lemma get_pkt_Ret p t k t1 : get_pkt p t = Ret (k, t1) -> t1 = t /\ p <> 0 /\ pkts t !! p = Some k.
Proof. unfold get_pkt. intros E. apply bind_Ret in E as (x & E & E2). injection E2 as <- <-. by apply at_ptr_Ret in E. Qed.

Lemma dealloc_Ret p t r t1 : netdev_dealloc_pkt p t = Ret (r, t1) -> exists k, pkts t !! p = Some k /\ t1 = freed t p (link k).
Proof.
  unfold netdev_dealloc_pkt, assert. intros E. apply bind_inv in E as (u & t2 & E1 & E). destruct (negb (p =? 0)); [injection E1 as _ <- | done].
  apply bind_inv in E as (k & t2 & E1 & E). apply get_pkt_Ret in E1 as (-> & _ & Hk). exists k. split; [done |].
  apply bind_inv in E as (u2 & t2 & E1 & E). unfold free, kfree in E1. apply bind_Ret in E1 as (m & E1 & E2). apply bind_Ret in E1 as (b & _ & E1).
  injection E1 as <-. injection E2 as _ <-. apply bind_inv in E as (u3 & t3 & E1 & E). injection E1 as _ <-. by injection E as _ <-.
Qed.

(** A step that writes bytes: packets, the upper layers and the blocks that
    do not exist stay as they are. *)
Record writes t t1 : Prop := {
  w_pkts : pkts t1 = pkts t;
  w_upper : upper t1 = upper t;
  w_none : forall x, blocks (mem t) !! x = None -> blocks (mem t1) !! x = None;
  w_next : next_block (mem t1) = next_block (mem t)
}.

Lemma writes_refl t : writes t t.
Proof. by constructor. Qed.

Lemma writes_trans t1 t2 t3 : writes t1 t2 -> writes t2 t3 -> writes t1 t3.
Proof. intros [] []. constructor; [by etrans | by etrans | by eauto | by etrans]. Qed.

Lemma wrm_writes a l t u t1 : wrm a l t = Ret (u, t1) -> writes t t1.
Proof.
  unfold wrm, mwrite. intros E. apply bind_Ret in E as (m & E & E2). injection E2 as _ <-. apply bind_Ret in E as (b & Eb & E). apply bind_Ret in E as (b' & _ & E).
  injection E as <-. apply block_Ret in Eb as [_ Eb]. constructor; try done. intros x Hx. cbn. rewrite lookup_insert_ne; [done |]. intros <-. by rewrite Eb in Hx.
Qed.

Lemma cpy_writes d a n t u t1 : cpy d a n t = Ret (u, t1) -> writes t t1.
Proof. unfold cpy. intros E. apply bind_inv in E as (l & t2 & E & E2). apply rdm_same in E as ->. by apply wrm_writes in E2. Qed.

Lemma swap16_writes a t v t1 : swap16 a t = Ret (v, t1) -> writes t t1.
Proof.
  unfold swap16. intros E. apply bind_inv in E as (x & t2 & E & E2). apply rdle_same in E as ->. apply bind_inv in E2 as (u & t2 & E & E2).
  apply wrm_writes in E. by injection E2 as _ <-.
Qed.

Lemma swap32_writes a t v t1 : swap32 a t = Ret (v, t1) -> writes t t1.
Proof.
  unfold swap32. intros E. apply bind_inv in E as (x & t2 & E & E2). apply rdle_same in E as ->. apply bind_inv in E2 as (u & t2 & E & E2).
  apply wrm_writes in E. by injection E2 as _ <-.
Qed.

(** The merge frees every packet it goes over, none of them null. *)
Lemma merge_frees n : forall ps i payload ptr t u t1, merge_loop n ps i payload ptr t = Ret (u, t1) ->
  upper t1 = upper t /\ (forall x, blocks (mem t) !! x = None -> blocks (mem t1) !! x = None) /\
  (forall j, i <= j < i + Z.of_nat n -> exists q, rd ps j = Ret q /\ q <> 0) /\
  forall j p k, i <= j < i + Z.of_nat n -> rd ps j = Ret p -> pkts t !! p = Some k -> blocks (mem t1) !! (link k / BLOCK) = None.
Proof.
  induction n as [| n IH]; intros ps i payload ptr t u t1 E; cbn [merge_loop] in E.
  { injection E as _ <-. split_and!; try done; intros; lia. }
  apply bind_inv in E as (q & t2 & E1 & E). unfold lift in E1. apply bind_Ret in E1 as (q' & Eq & E1). injection E1 as -> <-.
  apply bind_inv in E as (kq & t2 & E1 & E). apply get_pkt_Ret in E1 as (-> & Hq0 & Hq). apply bind_inv in E as (len & t2 & E1 & E). apply rdle_same in E1 as ->.
  apply bind_inv in E as (u2 & t2 & E1 & E). apply cpy_writes in E1 as W. apply bind_inv in E as (r & t3 & E2 & E). apply dealloc_Ret in E2 as (k2 & Hk2 & ->).
  rewrite (w_pkts _ _ W) in Hk2. rewrite Hq in Hk2. injection Hk2 as <-. apply IH in E as (H1 & H2 & H3 & H4). cbn [upper freed set_pkts set_mem mem blocks pkts] in *.
  assert (Hfreed : blocks (mem t1) !! (link kq / BLOCK) = None) by (apply H2; cbn; apply lookup_delete_eq).
  split; [by rewrite H1, (w_upper _ _ W) |]. split.
  { intros x Hx. apply H2. cbn. apply lookup_delete_None. right. by apply (w_none _ _ W). }
  split.
  - intros j Hj. destruct (Z.eq_dec j i) as [-> | Hne]; [by exists q | apply H3; lia].
  - intros j p k Hj Hp Hk. destruct (decide (p = q)) as [-> | Hne]; [rewrite Hq in Hk; by injection Hk as <- |].
    apply (H4 j p k); [| done | rewrite lookup_delete_ne by done; by rewrite (w_pkts _ _ W)].
    destruct (Z.eq_dec j i) as [-> |]; [rewrite Eq in Hp; by injection Hp as -> | lia].
Qed.

Lemma filter_every {A} (P : A -> Prop) `{!forall x, Decision (P x)} l : Forall P l -> filter P l = l.
Proof. induction 1 as [| x l Hx _ IH]; [done |]. rewrite filter_cons_True by done. by rewrite IH. Qed.

(** Slots in use. *)
Definition filled (ps : list Z) : Z := zlen (filter (fun q => q <> 0) ps).

Lemma filled_below ps n j p : (forall j, 0 <= j < Z.of_nat n -> exists q, rd ps j = Ret q /\ q <> 0) -> filled ps <= Z.of_nat n ->
  rd ps j = Ret p -> p <> 0 -> 0 <= j < Z.of_nat n.
Proof.
  intros Hn Hf Hj Hp. apply rd_Ret in Hj as [Hj0 Hj]. split; [done |]. apply Z.nle_gt. intros Hge.
  assert (Hall : filter (fun q => q <> 0) (take n ps) = take n ps).
  { apply filter_every. apply Forall_lookup. intros i q Hi. apply lookup_take_Some in Hi as [Hi Hlt].
    destruct (Hn (Z.of_nat i) ltac:(lia)) as (q' & Hq & Hq0). apply rd_Ret in Hq as [_ Hq]. rewrite Nat2Z.id, Hi in Hq. by injection Hq as ->. }
  assert (Hlen : (n <= length ps)%nat).
  { destruct n as [| n]; [lia |]. destruct (Hn (Z.of_nat n) ltac:(lia)) as (q & Hq & _). apply rd_Ret in Hq as [_ Hq]. rewrite Nat2Z.id in Hq. apply lookup_lt_Some in Hq. lia. }
  unfold filled, zlen in Hf. rewrite <- (take_drop n ps), filter_app, length_app, Hall, length_take in Hf.
  assert (Hin : p ∈ filter (fun q => q <> 0) (drop n ps)).
  { apply list_elem_of_filter. split; [done |]. apply list_elem_of_lookup. exists (Z.to_nat j - n)%nat. rewrite lookup_drop. by replace (n + (Z.to_nat j - n))%nat with (Z.to_nat j) by lia. }
  destruct (filter (fun q => q <> 0) (drop n ps)); [by apply not_elem_of_nil in Hin | cbn in Hf; lia].
Qed.

Lemma filled_insert ps i p : filled (<[i := p]> ps) <= filled ps + 1.
Proof.
  unfold filled, zlen. revert i. induction ps as [| q ps IH]; intros i; [by destruct i |].
  destruct i as [| i]; [change (<[0%nat := p]> (q :: ps)) with (p :: ps) | change (<[S i := p]> (q :: ps)) with (q :: <[i := p]> ps); specialize (IH i)];
    rewrite !filter_cons; repeat case_decide; cbn [length]; lia.
Qed.

(** A buffer never has more packets than it counts. *)
Definition frag_inv t : Prop := forall fb b, at_ptr (fragbufs (upper t)) fb = Ret b -> filled (f_pkts b) <= f_npkts b.

Lemma wrm_rdle a l b n t t1 u v : wrm a l t = Ret (u, t1) -> b / BLOCK = a / BLOCK -> b mod BLOCK + n <= a mod BLOCK \/ a mod BLOCK + zlen l <= b mod BLOCK ->
  rdle b n t = Ret (v, t) -> rdle b n t1 = Ret (v, t1).
Proof.
  unfold wrm, mwrite. intros E Hb Hd Hr. apply bind_Ret in E as (m & E & E2). injection E2 as _ <-. apply bind_Ret in E as (x & Ex & E). apply bind_Ret in E as (x' & Ew & E). injection E as <-.
  unfold rdle in *. apply bind_inv in Hr as (bs & t2 & Hr & Hv). unfold rdm, mread in Hr. apply bind_Ret in Hr as (bs' & Hr & E). injection E as -> <-.
  assert (Eb : forall m, block m b = block m a) by (intros m; unfold block; by rewrite Hb). rewrite Eb, Ex, ret_bind in Hr.
  rewrite (st_step _ _ (set_mem (set_block (mem t) a x') t) bs (set_mem (set_block (mem t) a x') t)); [by injection Hv as <- |].
  unfold rdm, mread. cbn [mem set_mem]. rewrite Eb. apply block_Ret in Ex as [Hn _]. rewrite block_set, ret_bind by done.
  by rewrite (rd_wr_bytes_ne _ _ _ _ _ n Ew Hd), Hr.
Qed.

(** Nothing has reached a socket. *)
Record undelivered t t1 : Prop := {
  ud_pkts : pkts t1 = pkts t;
  ud_skbs : skbs (upper t1) = skbs (upper t);
  ud_socks : socks (upper t1) = socks (upper t);
  ud_next : next_block (mem t) <= next_block (mem t1)
}.

Lemma undelivered_trans t1 t2 t3 : undelivered t1 t2 -> undelivered t2 t3 -> undelivered t1 t3.
Proof. intros [] []. constructor; [by etrans .. | lia]. Qed.

Lemma frag_buffer_Ret iden len t fb t1 : frag_buffer iden len t = Ret (fb, t1) -> frag_inv t ->
  undelivered t t1 /\ frag_inv t1 /\ (forall x, x < next_block (mem t) -> blocks (mem t1) !! x = blocks (mem t) !! x) /\
  forall fb b, at_ptr (fragbufs (upper t1)) fb = Ret b -> at_ptr (fragbufs (upper t)) fb = Ret b \/ f_npkts b = 0.
Proof.
  intros E Hinv. unfold frag_buffer, geti in E. rewrite (st_step _ _ t (fragments (upper t)) t eq_refl) in E.
  apply bind_inv in E as (f & t2 & E1 & E). unfold lift in E1. apply bind_Ret in E1 as (f' & _ & E1). injection E1 as _ <-.
  destruct (negb (f =? 0)); [injection E as _ <-; split; [by constructor | split; [done | split; [done | intros; by left]]] |].
  apply bind_inv in E as (nb & t2 & E1 & E). apply new_obj_Ret in E1 as [-> ->]. set (nb := next_block (mem t) * BLOCK) in *.
  apply bind_inv in E as ([e fr] & t2 & E1 & E). unfold lift in E1. apply bind_Ret in E1 as (x & _ & E1). injection E1 as -> <-.
  apply bind_inv in E as (u & t2 & E1 & E). injection E1 as _ <-. apply bind_inv in E as (u2 & t2 & E1 & E). injection E1 as _ <-. injection E as _ <-.
  set (b0 := mk_fragbuf _ _ _ _ _).
  assert (Hat : forall g b, at_ptr (<[nb := b0]> (fragbufs (upper t))) g = Ret b -> at_ptr (fragbufs (upper t)) g = Ret b \/ b = b0).
  { intros g b [Hg Hb]%at_ptr_Ret. destruct (decide (g = nb)) as [-> | Hne]; [rewrite lookup_insert_eq in Hb; right; congruence |].
    rewrite lookup_insert_ne in Hb by done. left. by apply at_ptr_Ret. }
  split; [constructor; cbn; try done; lia |]. split.
  { intros g b Hb. apply Hat in Hb as [Hb | ->]; [by apply (Hinv g) | by vm_compute]. }
  split; [intros x Hx; cbn; by rewrite lookup_insert_ne by lia |].
  intros g b Hb. apply Hat in Hb as [Hb | ->]; [by left | by right].
Qed.

Lemma frag_store_Ret fb p f_off len t b t1 : frag_store fb p f_off len t = Ret (b, t1) -> frag_inv t ->
  (forall fb b, at_ptr (fragbufs (upper t)) fb = Ret b -> f_npkts b < INT_MAX) ->
  undelivered t t1 /\ frag_inv t1 /\ mem t1 = mem t /\ filled (f_pkts b) <= f_npkts b /\ exists off, rd (f_pkts b) off = Ret p.
Proof.
  intros E Hinv Hmax. unfold frag_store in E. apply bind_inv in E as (b0 & t2 & E1 & E).
  assert (Hb0 : t2 = t /\ at_ptr (fragbufs (upper t)) fb = Ret b0).
  { unfold get_fb, at_i, geti in E1. rewrite (st_step _ _ t (fragbufs (upper t)) t eq_refl) in E1. unfold lift in E1. apply bind_Ret in E1 as (x & Ex & E1). by injection E1 as -> <-. }
  destruct Hb0 as [-> Hb0]. clear E1. apply bind_inv in E as (off0 & t2 & E1 & E). unfold lift in E1. apply bind_Ret in E1 as (x & _ & E1). injection E1 as -> <-.
  apply bind_inv in E as ([off e] & t2 & E1 & E).
  assert (Et : t2 = t).
  { destruct (_ && _); [| by injection E1 as _ _ <-]. apply bind_inv in E1 as (o & t3 & E2 & E1). unfold lift in E2. apply bind_Ret in E2 as (y & _ & E2).
    injection E2 as _ <-. by injection E1 as _ _ <-. }
  subst t2. apply bind_inv in E as (ps & t2 & E2 & E). unfold lift in E2. apply bind_Ret in E2 as (ps' & Ew & E2). injection E2 as -> <-.
  apply bind_inv in E as (u & t2 & E2 & E). injection E2 as _ <-. injection E as <- <-. set (b := mk_fragbuf _ _ _ _ _).
  pose proof (Hmax fb b0 Hb0) as Hm. pose proof (Hinv fb b0 Hb0) as Hi. apply wr_Ret in Ew as Ew'. destruct Ew' as [_ ->].
  assert (Hf0 : 0 <= filled (f_pkts b0)) by (unfold filled, zlen; lia).
  assert (Hn : s32 (f_npkts b0 + 1) = f_npkts b0 + 1) by (apply swrap_small; unfold INT_MAX in *; lia).
  assert (Hfb : filled (f_pkts b) <= f_npkts b) by (unfold b; cbn [f_pkts f_npkts]; rewrite Hn; pose proof (filled_insert (f_pkts b0) (Z.to_nat off) p); lia).
  split; [by constructor |]. split.
  { intros g c [Hg Hc]%at_ptr_Ret. cbn in Hc. destruct (decide (g = fb)) as [-> | Hne]; [rewrite lookup_insert_eq in Hc; injection Hc as <-; exact Hfb |].
    rewrite lookup_insert_ne in Hc by done. apply (Hinv g). by apply at_ptr_Ret. }
  split; [done |]. split; [exact Hfb |]. exists off. exact (rd_wr_eq _ _ _ _ Ew).
Qed.

Lemma merge_kills fb b k t m t1 p k' off : ipv4_merge fb b k t = Ret (m, t1) -> p <> 0 -> pkts t !! p = Some k' -> p < next_block (mem t) * BLOCK ->
  rd (f_pkts b) off = Ret p -> filled (f_pkts b) <= f_npkts b -> blocks (mem t1) !! (link k' / BLOCK) = None.
Proof.
  intros E Hp Hk Hlt Hoff Hf. unfold ipv4_merge in E. apply bind_inv in E as (mg & t2 & E1 & E).
  assert (H2 : pkts t2 !! p = Some k').
  { unfold netdev_alloc_pkt_L4 in E1. apply bind_inv in E1 as (lk & t3 & E2 & E1). unfold zalloc, kzalloc, new_block in E2. injection E2 as <- <-.
    unfold new_packet, new_block in E1. injection E1 as _ <-. cbn. rewrite lookup_insert_ne; [done |]. unfold BLOCK in *. lia. }
  apply bind_inv in E as (mk & t3 & E2 & E). apply get_pkt_Ret in E2 as (-> & _ & _). apply bind_inv in E as (u & t3 & E2 & E). apply cpy_writes in E2 as W1. clear E2.
  apply bind_inv in E as (u2 & t4 & E2 & E). apply wrm_writes in E2 as W2. clear E2. apply bind_inv in E as (u3 & t5 & E2 & E). apply wrm_writes in E2 as W3. clear E2.
  apply bind_inv in E as (u4 & t6 & E2 & E). apply merge_frees in E2 as (_ & _ & Hall & Hkill).
  assert (Hff : 0 <= filled (f_pkts b)) by (unfold filled, zlen; lia).
  assert (Hnone : blocks (mem t6) !! (link k' / BLOCK) = None).
  { assert (Hj := filled_below (f_pkts b) (Z.to_nat (f_npkts b)) off p). rewrite Z2Nat.id in * by lia.
    apply (Hkill off p k'); [| done | by rewrite (w_pkts _ _ W3), (w_pkts _ _ W2), (w_pkts _ _ W1)]. by apply Hj. }
  apply bind_inv in E as (u5 & t7 & E2 & E). injection E2 as _ <-. apply bind_inv in E as (iden & t7 & E2 & E). apply rdle_same in E2 as ->.
  apply bind_inv in E as (fr & t7 & E2 & E). injection E2 as _ <-. apply bind_inv in E as ([r fr2] & t7 & E2 & E). unfold lift in E2. apply bind_Ret in E2 as (y & _ & E2). injection E2 as _ <-.
  apply bind_inv in E as (u6 & t7 & E2 & E). injection E2 as _ <-. by injection E as _ <-.
Qed.

Lemma frag_handle_stays me p k iden f_off len t r t1 k' : frag_handle me p k iden f_off len t = Ret (r, t1) ->
  frag_inv t -> (forall fb b, at_ptr (fragbufs (upper t)) fb = Ret b -> f_npkts b < INT_MAX) -> p <> 0 -> pkts t !! p = Some k' ->
  0 <= next_block (mem t) -> p < next_block (mem t) * BLOCK -> (lpacket (pnet k) + IP_PROTO) / BLOCK = link k' / BLOCK ->
  r = 0 /\ undelivered t t1 /\ frag_inv t1.
Proof.
  intros E Hinv Hmax Hp Hk Hn0 Hlt Hblk. unfold frag_handle in E. apply bind_inv in E as (fb & t2 & E1 & E).
  destruct (frag_buffer_Ret _ _ _ _ _ E1 Hinv) as (U1 & I1 & Hold & Hnew). apply bind_inv in E as (b & t3 & E2 & E).
  destruct (frag_store_Ret _ _ _ _ _ _ _ E2 I1) as (U2 & I2 & Hm & Hf & off & Hoff).
  { intros g c Hc. apply Hnew in Hc as [Hc | ->]; [by apply (Hmax g) | done]. }
  pose proof (undelivered_trans _ _ _ U1 U2) as U. destruct (_ || _); [by injection E as <- <- |]. exfalso.
  apply bind_inv in E as (m & t4 & E3 & E). apply (merge_kills _ _ _ _ _ _ p k' off) in E3; try done.
  - unfold ipv4_dispatch in E. apply bind_inv in E as (pr & t5 & E4 & _). unfold rdle in E4. apply bind_inv in E4 as (l & t6 & E4 & _).
    unfold rdm, mread in E4. apply bind_Ret in E4 as (l2 & E4 & _). apply bind_Ret in E4 as (bl & E4 & _). apply block_Ret in E4 as [_ E4].
    by rewrite Hblk, E3 in E4.
  - by rewrite (ud_pkts _ _ U).
  - pose proof (ud_next _ _ U). unfold BLOCK in *. nia.
Qed.

Lemma swap16_inv a t v t1 : swap16 a t = Ret (v, t1) -> exists x u, rdle a 2 t = Ret (x, t) /\ v = n2h_16 x /\ wrm a (le_bytes 2 v) t = Ret (u, t1).
Proof.
  unfold swap16. intros E. apply bind_inv in E as (x & t2 & E & E2). apply rdle_same in E as Et. subst t2. apply bind_inv in E2 as (u & t2 & E3 & E2).
  injection E2 as <- <-. by exists x, u.
Qed.

Lemma swap16_value a b t v t1 x : swap16 a t = Ret (v, t1) -> b / BLOCK = a / BLOCK -> b mod BLOCK + 2 <= a mod BLOCK \/ a mod BLOCK + 2 <= b mod BLOCK ->
  rdle b 2 t = Ret (x, t) -> rdle b 2 t1 = Ret (x, t1).
Proof. intros (y & u & _ & _ & E)%swap16_inv Hb Hd Hr. exact (wrm_rdle _ _ _ _ _ _ _ _ E Hb Hd Hr). Qed.

(** C23: no datagram that arrives in fragments is ever delivered: the handler
    of a fragment, when it returns, has only stored it and returned 0, no
    buffer counts fewer packets than it holds, and what sockets and rings
    hold is as before.  (When the last fragment completes a datagram, the
    packets are freed as they are merged and the header of one of them is
    read to go on.) *)
Theorem ipv4_fragment_never_delivered me t p k f r t1 : pkts t !! p = Some k -> p <> 0 -> 0 < next_block (mem t) -> p < next_block (mem t) * BLOCK ->
  based (link k) -> lpacket (pnet k) = link k + SIZEOF_ETH -> rdle (lpacket (pnet k) + IP_F_OFF) 2 t = Ret (f, t) ->
  Z.land (n2h_16 f) IPV4_MORE_FRAGS <> 0 \/ Z.land (n2h_16 f) IPV4_FRAG_MASK <> 0 ->
  frag_inv t -> (forall fb b, at_ptr (fragbufs (upper t)) fb = Ret b -> f_npkts b < INT_MAX) ->
  ipv4_handle_pkt me p t = Ret (r, t1) ->
  r = 0 /\ skbs (upper t1) = skbs (upper t) /\ socks (upper t1) = socks (upper t) /\ frag_inv t1.
Proof.
  intros Hk Hp Hn Hlt Hb Hd Hf Hfrag Hinv Hmax E. unfold ipv4_handle_pkt in E. apply bind_inv in E as (k0 & t2 & E1 & E). apply get_pkt_Ret in E1 as (-> & _ & E1).
  rewrite Hk in E1. injection E1 as <-. apply bind_inv in E as (pr & t2 & E1 & E). apply rdle_same in E1 as ->. apply bind_inv in E as (u & t2 & E1 & E). injection E1 as _ <-.
  set (k' := set_transport _ k) in *. set (t2 := set_pkts (<[p := k']> (pkts t)) t) in *. rewrite Hd in *.
  assert (Ho : forall i, 0 <= i < 100 -> (link k + SIZEOF_ETH + i) / BLOCK = link k / BLOCK /\ (link k + SIZEOF_ETH + i) mod BLOCK = SIZEOF_ETH + i).
  { intros i Hi. rewrite <- Z.add_assoc. apply based_off; [done |]. unfold SIZEOF_ETH, BLOCK. lia. }
  apply bind_inv in E as (iden & t3 & E1 & E). apply swap16_writes in E1 as W1.
  assert (Hf3 : rdle (link k + SIZEOF_ETH + IP_F_OFF) 2 t3 = Ret (f, t3)).
  { apply (swap16_value _ _ t2 _ _ _ E1).
    - by rewrite (proj1 (Ho IP_IDEN ltac:(unfold IP_IDEN; lia))), (proj1 (Ho IP_F_OFF ltac:(unfold IP_F_OFF; lia))).
    - rewrite (proj2 (Ho IP_IDEN ltac:(unfold IP_IDEN; lia))), (proj2 (Ho IP_F_OFF ltac:(unfold IP_F_OFF; lia))). unfold IP_IDEN, IP_F_OFF. lia.
    - unfold rdle, rdm in *. change (mem t2) with (mem t). apply bind_inv in Hf as (l & t4 & H1 & H2). apply bind_Ret in H1 as (l2 & H1 & H3). injection H3 as -> <-.
      injection H2 as <-. rewrite (st_step _ _ t2 l t2); [done |]. cbn beta. change (mem t2) with (mem t). by rewrite H1. }
  apply bind_inv in E as (f_off & t4 & E2 & E). apply swap16_inv in E2 as E3. destruct E3 as (x & u2 & E3 & Efo & _). rewrite Hf3 in E3. injection E3 as <-.
  apply swap16_writes in E2 as W2. apply bind_inv in E as (v1 & t5 & E3 & E). apply swap32_writes in E3 as W3. clear E3.
  apply bind_inv in E as (v2 & t6 & E3 & E). apply swap32_writes in E3 as W4. clear E3. apply bind_inv in E as (len & t7 & E3 & E). apply swap16_writes in E3 as W5.
  pose proof (writes_trans _ _ _ W1 (writes_trans _ _ _ W2 (writes_trans _ _ _ W3 (writes_trans _ _ _ W4 W5)))) as [Wp Wu _ Wn].
  assert (Hc : negb (Z.land f_off IPV4_MORE_FRAGS =? 0) || negb (Z.land f_off IPV4_FRAG_MASK =? 0) = true).
  { subst f_off. destruct Hfrag as [Hm | Hm]; rewrite (proj2 (Z.eqb_neq _ _) Hm); [done | apply orb_true_r]. }
  rewrite Hc in E. apply (frag_handle_stays _ _ _ _ _ _ _ _ _ k') in E as (-> & [Up Us Uo _] & I1).
  - rewrite Us, Uo, Wu. done.
  - intros fb b. rewrite Wu. apply (Hinv fb b).
  - intros fb b. rewrite Wu. apply (Hmax fb b).
  - done.
  - rewrite Wp. cbn. by rewrite lookup_insert_eq.
  - rewrite Wn. cbn. lia.
  - rewrite Wn. exact Hlt.
  - rewrite Hd. exact (proj1 (Ho IP_PROTO ltac:(unfold IP_PROTO; lia))).
Qed.
End netin.

(** ** Samples: the two fragments of a datagram *)

#[local] Existing Instance Sched.list_sched.
#[local] Existing Instance Socket.sample_fds.

Definition frag_bytes (f_off len : Z) (pl : list Z) : list Z :=
  replicate 12 0 ++ [8; 0] ++ [0x45; 0] ++ le_bytes 2 (n2h_16 len) ++ [0; 7] ++ le_bytes 2 (n2h_16 f_off) ++ [64; PROTO_UDP; 0; 0; 10; 0; 0; 1; 10; 0; 0; 2] ++ pl.
Definition frag_packet (lk : Z) (n : Z) : packet := mk_packet (34 + n) 0 lk 0 0 0 0 (mk_layer PROTO_IPV4 (20 + n) (lk + 14)) no_layer no_layer.
Definition frag_inet : inet (Z * list Z) (@tables unit Dentry.cache) :=
  mk_inet {[100 := udp_socket]} {[200 := zero_skb]} ∅ ∅ (replicate 10 free_entry) None (new_map 8) ∅ (Tick.mk_tick 0 1 ∅ ∅) Tcp.sample_sys sample_tables.
Definition frag_net : net (inet (Z * list Z) (@tables unit Dentry.cache)) :=
  mk_net (mk_kmem (list_to_map [(1, frag_bytes 0x2000 28 (seqZ 1 8)); (2, frag_bytes 1 24 (seqZ 9 4))]) 6)
    (list_to_map [(3 * BLOCK, frag_packet (1 * BLOCK) 8); (4 * BLOCK, frag_packet (2 * BLOCK) 4)])
    (mk_info [82; 84; 0; 18; 52; 86] 0 (2 * BLOCK) false 1500) None None (mk_rtl 0 0 [] [] []) 1 frag_inet.
Definition handle_one (p : Z) (t : net (inet (Z * list Z) (@tables unit Dentry.cache))) := ipv4_handle_pkt 0 0 0 p t.

Lemma ipv4_fragment_never_delivered_witness :
  (exists t1, handle_one (3 * BLOCK) frag_net = Ret (0, t1) /\ skbs (upper t1) = {[200 := zero_skb]} /\ frag_inv t1) /\
  (t ← handle_one (3 * BLOCK) frag_net; handle_one (4 * BLOCK) (snd t)) = Fault.
Proof.
  split; [| by vm_compute].
  assert (E0 : match handle_one (3 * BLOCK) frag_net with Ret _ => True | _ => False end) by (by vm_compute).
  destruct (handle_one (3 * BLOCK) frag_net) as [[r t1] | | |] eqn:E; [| destruct E0 ..].
  destruct (ipv4_fragment_never_delivered 0 0 0 frag_net (3 * BLOCK) (frag_packet (1 * BLOCK) 8) (n2h_16 0x2000) r t1) as (-> & Hs & _ & Hi);
    [by vm_compute | by vm_compute | by vm_compute | by vm_compute | by vm_compute | by vm_compute | by vm_compute | left; by vm_compute
    | intros fb b [_ Hb]%at_ptr_Ret; done | intros fb b [_ Hb]%at_ptr_Ret; done | exact E |].
  exists t1. split; [reflexivity | split; [rewrite Hs; reflexivity | exact Hi]].
Defined.

End Netin.
