(* ===== verification/Frames.v ===== *)
(** * A datagram on the wire

    The frame that [udp_send_pkt] gives to the card, field by field, and what
    the handlers make of it at the other end. *)

From S2P Require Import Prelude Bytes Locks Netutil Kmem Hashmap Dlist Dentry File Vfs Netdev Ipv4 Tick Mts Sched Pipe Inet Tcp Dhcp Socket Netin.
Import Bytes Locks Netutil Kmem Netdev Ipv4 Inet Socket Netin.

Module Frames.

(** ** Fields of a block of the memory *)

Section fields.
Context {X : Type}.
Implicit Types t : net X.

(** The same on the memory. *)
Lemma wrm_field t lk lens fs pl i l x : block (mem t) lk = Ret (concat fs ++ pl) -> based lk -> shaped lens fs -> lens !! i = Some (length l) ->
  x = lk + offset lens i -> offset lens i < BLOCK -> wrm x l t = Ret (tt, with_block t lk (concat (<[i := l]> fs) ++ pl)).
Proof.
  intros Hb B Hs Hi -> Ho. unfold wrm. rewrite (mwrite_off (mem t) lk _ l _ B) by (done || (unfold offset in *; lia)). by rewrite (wr_field lens fs pl i l Hs Hi).
Qed.

Lemma rdm_field t lk lens fs pl i m x n : block (mem t) lk = Ret (concat fs ++ pl) -> based lk -> shaped lens fs ->
  x = lk + offset lens i -> offset lens i < BLOCK -> n = Z.of_nat (sum_list (take m (drop i lens))) -> rdm x n t = Ret (concat (take m (drop i fs)), t).
Proof.
  intros Hb B Hs Hx Ho ->. apply (rdm_sub t lk (concat fs ++ pl) x (offset lens i)); try done; [unfold offset in *; lia | by apply rd_fields].
Qed.

(** A block under construction, and the generator of random numbers. *)
Definition upd t (lk r : Z) (b : list Z) : net X := set_rnd r (with_block t lk b).

Lemma upd_block t lk r b b0 : block (mem t) lk = Ret b0 -> block (mem (upd t lk r b)) lk = Ret b.
Proof. exact (block_with t lk b b0). Qed.

Lemma with_upd t lk r b b' : with_block (upd t lk r b) lk b' = upd t lk r b'.
Proof. unfold upd, with_block, set_rnd, set_mem. cbn. by rewrite set_block_twice. Qed.

Lemma upd_start t lk b : block (mem t) lk = Ret b -> upd t lk (rnd t) b = t.
Proof. unfold upd, with_block, set_block, set_rnd. intros [_ Hb]%block_Ret. cbn. rewrite insert_id by done. by destruct t as [[] ? ? ? ? ? ? ?]. Qed.

Lemma rdm_upd_ne t lk r b a n l : rdm a n t = Ret (l, t) -> a / BLOCK <> lk / BLOCK -> rdm a n (upd t lk r b) = Ret (l, upd t lk r b).
Proof.
  unfold rdm, mread. intros E Hne. change (mem (upd t lk r b)) with (mem (with_block t lk b)). rewrite block_with_ne by done.
  apply bind_Ret in E as (x & E & Ex). injection Ex as ->. by rewrite E.
Qed.

Lemma wrm_do {A} t lk r lens fs pl i x l (f : st (net X) A) b0 res : block (mem t) lk = Ret b0 -> based lk -> shaped lens fs -> lens !! i = Some (length l) ->
  x = lk + offset lens i -> offset lens i < BLOCK -> f (upd t lk r (concat (<[i := l]> fs) ++ pl)) = res ->
  (_ ← wrm x l; f) (upd t lk r (concat fs ++ pl)) = res.
Proof.
  intros Hb B Hs Hi Hx Ho Hf. rewrite (st_step _ _ _ tt (upd t lk r (concat (<[i := l]> fs) ++ pl))); [done |].
  rewrite (wrm_field _ lk lens fs pl i l x (upd_block t lk r _ b0 Hb) B Hs Hi Hx Ho). by rewrite with_upd.
Qed.

Lemma wrle_do {A} t lk r lens fs pl i x n v (f : st (net X) A) b0 res : block (mem t) lk = Ret b0 -> based lk -> shaped lens fs -> lens !! i = Some (Z.to_nat n) ->
  x = lk + offset lens i -> offset lens i < BLOCK -> f (upd t lk r (concat (<[i := le_bytes (Z.to_nat n) v]> fs) ++ pl)) = res ->
  (_ ← wrle x n v; f) (upd t lk r (concat fs ++ pl)) = res.
Proof. intros Hb B Hs Hi. unfold wrle. apply (wrm_do t lk r lens fs pl i x _ f b0 res Hb B Hs). by rewrite length_le_bytes. Qed.

Lemma wrle_last t lk r lens fs pl i x n v b0 : block (mem t) lk = Ret b0 -> based lk -> shaped lens fs -> lens !! i = Some (Z.to_nat n) ->
  x = lk + offset lens i -> offset lens i < BLOCK ->
  wrle x n v (upd t lk r (concat fs ++ pl)) = Ret (tt, upd t lk r (concat (<[i := le_bytes (Z.to_nat n) v]> fs) ++ pl)).
Proof.
  intros Hb B Hs Hi Hx Ho. unfold wrle. rewrite (wrm_field _ lk lens fs pl i _ x (upd_block t lk r _ b0 Hb) B Hs); [by rewrite with_upd | by rewrite length_le_bytes | done | done].
Qed.

Lemma cpy_do {A} t lk r lens fs pl i x a n l (f : st (net X) A) b0 res : block (mem t) lk = Ret b0 -> based lk -> shaped lens fs ->
  rdm a n t = Ret (l, t) -> a / BLOCK <> lk / BLOCK -> lens !! i = Some (length l) -> x = lk + offset lens i -> offset lens i < BLOCK ->
  f (upd t lk r (concat (<[i := l]> fs) ++ pl)) = res -> (_ ← cpy x a n; f) (upd t lk r (concat fs ++ pl)) = res.
Proof.
  intros Hb B Hs Hl Hne Hi Hx Ho Hf. rewrite (st_step _ _ _ tt (upd t lk r (concat (<[i := l]> fs) ++ pl))); [done |].
  unfold cpy. rewrite (st_step _ _ _ l _ (rdm_upd_ne t lk r _ a n l Hl Hne)).
  rewrite (wrm_field _ lk lens fs pl i l x (upd_block t lk r _ b0 Hb) B Hs Hi Hx Ho). by rewrite with_upd.
Qed.

(** Reading the fields from the [i]th on. *)
Lemma rdm_do {A} t lk r lens fs pl i m x n (f : list Z -> st (net X) A) b0 res : block (mem t) lk = Ret b0 -> based lk -> shaped lens fs ->
  x = lk + offset lens i -> offset lens i < BLOCK -> n = Z.of_nat (sum_list (take m (drop i lens))) ->
  f (concat (take m (drop i fs))) (upd t lk r (concat fs ++ pl)) = res -> (b ← rdm x n; f b) (upd t lk r (concat fs ++ pl)) = res.
Proof.
  intros Hb B Hs Hx Ho Hn Hf. by rewrite (st_step _ _ _ _ _ (rdm_field _ lk lens fs pl i m x n (upd_block t lk r _ b0 Hb) B Hs Hx Ho Hn)).
Qed.

Lemma rdle_do {A} t lk r lens fs pl i x n (f : Z -> st (net X) A) b0 res : block (mem t) lk = Ret b0 -> based lk -> shaped lens fs ->
  x = lk + offset lens i -> offset lens i < BLOCK -> n = Z.of_nat (sum_list (take 1 (drop i lens))) ->
  f (le_val (concat (take 1 (drop i fs)))) (upd t lk r (concat fs ++ pl)) = res -> (v ← rdle x n; f v) (upd t lk r (concat fs ++ pl)) = res.
Proof.
  intros Hb B Hs Hx Ho Hn Hf. rewrite (st_step (rdle x n) _ _ (le_val (concat (take 1 (drop i fs)))) (upd t lk r (concat fs ++ pl))); [done |].
  unfold rdle. by apply (rdm_do t lk r lens fs pl i 1 x n _ b0).
Qed.
End fields.

(** ** The frame of a UDP datagram *)

Definition LENS : list nat := [6; 6; 2; 1; 1; 2; 2; 2; 1; 1; 2; 4; 4; 2; 2; 2; 2]%nat.
Definition be16 (v : Z) : list Z := le_bytes 2 (h2n_16 v).

Definition ip_fields (n iden cks : Z) (sa da : list Z) : list (list Z) :=
  [[0x45]; [0]; be16 (28 + n); be16 iden; [0; 0]; [128]; [PROTO_UDP]; le_bytes 2 cks; sa; da].

(** Ethernet, IPv4 and UDP headers for [n] bytes. *)
Definition udp_fields (dm sm : list Z) (iden : Z) (sa da : list Z) (sport dport n : Z) : list (list Z) :=
  [dm; sm; be16 PROTO_IPV4] ++ ip_fields n iden (__calculate_checksum (concat (ip_fields n iden 0 sa da))) sa da ++
  [be16 sport; be16 dport; be16 (8 + n); [0; 0]].

Definition udp_frame (dm sm : list Z) (iden : Z) (sa da : list Z) (sport dport : Z) (pl : list Z) : list Z :=
  concat (udp_fields dm sm iden sa da sport dport (zlen pl)) ++ pl.

(** Where a field is. *)
Ltac at_field :=
  match goal with |- context [offset LENS ?i] => let v := eval vm_compute in (offset LENS i) in change (offset LENS i) with v end;
  unfold SIZEOF_ETH, ETH_DST, ETH_SRC, ETH_TYPE, IP_LEN, IP_IDEN, IP_F_OFF, IP_TTL, IP_PROTO, IP_CHECKSUM, IP_SRC, IP_DST, UDP_SRC, UDP_DST, UDP_LEN, UDP_CHECKSUM, BLOCK; lia.

Section output.
Context {X : Type}.
Implicit Types t : net X.

(** A datagram as [socket_send] leaves it: the payload behind an empty
    header. *)
Record outgoing_udp t (p : Z) (k : packet) (lk : Z) (pl sa da dm : list Z) (m : Z) : Prop := {
  u_pkt : at_ptr (pkts t) p = Ret k /\ Z.land (flags k) NF_REUSE = 0;
  u_layers : link k = lk /\ size k = 42 + zlen pl /\ pnet k = mk_layer PROTO_IPV4 (28 + zlen pl) (lk + 14) /\ transport k = mk_layer PROTO_UDP (8 + zlen pl) (lk + 34);
  u_block : block (mem t) lk = Ret (replicate 42 0 ++ pl) /\ based lk;
  u_src : rdm (src_addr k) 4 t = Ret (sa, t) /\ src_addr k / BLOCK <> lk / BLOCK;
  u_dst : rdm (dst_addr k) 4 t = Ret (da, t) /\ dst_addr k / BLOCK <> lk / BLOCK;
  u_mac : netdev_resolve_address (dst_addr k) t = Ret (m, t) /\ rdm (m + MAC_B) 6 t = Ret (dm, t) /\ (m + MAC_B) / BLOCK <> lk / BLOCK;
  u_len : 28 + zlen pl < mtu (info t) - 40 /\ mtu (info t) <= 4000;
  u_card : zlen (mac (info t)) = 6 /\ nic_ok (nic t)
}.

Lemma zlen_4 (l : list Z) : zlen l = 4 -> exists a b c d, l = [a; b; c; d].
Proof. unfold zlen. intros Hl. do 4 (destruct l as [| ? l]; [cbn in Hl; lia |]). destruct l; [by repeat eexists | cbn in Hl; lia]. Qed.
Lemma zlen_6 (l : list Z) : zlen l = 6 -> exists a b c d e f, l = [a; b; c; d; e; f].
Proof. unfold zlen. intros Hl. do 6 (destruct l as [| ? l]; [cbn in Hl; lia |]). destruct l; [by repeat eexists | cbn in Hl; lia]. Qed.

Definition rnd_next (r : Z) : Z := u64 (u64 (r * 1103515245) + 12345).
Definition iden_of (r : Z) : Z := Z.land (u32 (rnd_next r / 65536) mod 32768) 0xffff.

Lemma random_do {A} t lk r b (f : Z -> st (net X) A) res : f (iden_of r) (upd t lk (rnd_next r) b) = res -> (v ← random_gen16; f v) (upd t lk r b) = res.
Proof. by intros <-. Qed.

Definition no_fields (l : list nat) : list (list Z) := (fun n => replicate n 0) <$> l.

(** The IPv4 header, in front of any four fields [us]. *)
Lemma ipv4_header_fields t lk k b0 pl n a b c d a' b' c' d' u1 u2 u3 u4 r : block (mem t) lk = Ret b0 -> based lk ->
  rdm (src_addr k) 4 t = Ret ([a; b; c; d], t) -> src_addr k / BLOCK <> lk / BLOCK -> rdm (dst_addr k) 4 t = Ret ([a'; b'; c'; d'], t) -> dst_addr k / BLOCK <> lk / BLOCK ->
  lsize (pnet k) = 28 + n -> proto (transport k) = PROTO_UDP ->
  let us := [le_bytes 2 u1; le_bytes 2 u2; le_bytes 2 u3; le_bytes 2 u4] in
  let cks := __calculate_checksum (concat (ip_fields n (iden_of r) 0 [a; b; c; d] [a'; b'; c'; d'])) in
  ipv4_header k (lk + 14) (upd t lk r (concat (no_fields [6; 6; 2]%nat ++ no_fields [1; 1; 2; 2; 2; 1; 1; 2; 4; 4]%nat ++ us) ++ pl)) =
  Ret (tt, upd t lk (rnd_next r) (concat (no_fields [6; 6; 2]%nat ++ ip_fields n (iden_of r) cks [a; b; c; d] [a'; b'; c'; d'] ++ us) ++ pl)).
Proof.
  intros Hb B Hsa Hsn Hda Hdn Hl Hpr us cks. unfold ipv4_header.
  refine (cpy_do t lk r LENS _ pl 11 _ _ _ _ _ b0 _ Hb B _ Hsa Hsn _ _ _ _); [reflexivity | reflexivity | at_field | at_field |].
  refine (cpy_do t lk r LENS _ pl 12 _ _ _ _ _ b0 _ Hb B _ Hda Hdn _ _ _ _); [reflexivity | reflexivity | at_field | at_field |].
  refine (rdle_do t lk r LENS _ pl 3 _ 1 _ b0 _ Hb B _ _ _ _ _); [reflexivity | at_field | at_field | reflexivity |].
  refine (wrle_do t lk r LENS _ pl 3 _ 1 _ _ b0 _ Hb B _ _ _ _ _); [reflexivity | reflexivity | at_field | at_field |].
  refine (rdle_do t lk r LENS _ pl 3 _ 1 _ b0 _ Hb B _ _ _ _ _); [reflexivity | at_field | at_field | reflexivity |].
  refine (wrle_do t lk r LENS _ pl 3 _ 1 _ _ b0 _ Hb B _ _ _ _ _); [reflexivity | reflexivity | at_field | at_field |].
  refine (wrle_do t lk r LENS _ pl 8 _ 1 _ _ b0 _ Hb B _ _ _ _ _); [reflexivity | reflexivity | at_field | at_field |].
  apply random_do.
  refine (wrle_do t lk _ LENS _ pl 6 _ 2 _ _ b0 _ Hb B _ _ _ _ _); [reflexivity | reflexivity | at_field | at_field |].
  refine (wrle_do t lk _ LENS _ pl 9 _ 1 _ _ b0 _ Hb B _ _ _ _ _); [reflexivity | reflexivity | at_field | at_field |].
  refine (wrle_do t lk _ LENS _ pl 5 _ 2 _ _ b0 _ Hb B _ _ _ _ _); [reflexivity | reflexivity | at_field | at_field |].
  unfold ipv4_checksum. refine (rdm_do t lk _ LENS _ pl 3 10 _ 20 _ b0 _ Hb B _ _ _ _ _); [reflexivity | at_field | at_field | reflexivity |].
  rewrite Hl, Hpr. rewrite (wrle_last t lk _ LENS _ pl 10 _ 2 _ b0 Hb B); [reflexivity | reflexivity | reflexivity | at_field | at_field].
Qed.

Lemma key_upd t lk r b a key t2 : key_at a t = Ret (key, t2) -> a / BLOCK <> lk / BLOCK -> t2 = t /\ key_at a (upd t lk r b) = Ret (key, upd t lk r b).
Proof.
  unfold key_at. intros E Hne. destruct (a =? 0); [by injection E as <- <- |].
  assert (Hm : mrest (mem (upd t lk r b)) a = mrest (mem t) a) by (unfold mrest; change (mem (upd t lk r b)) with (mem (with_block t lk b)); by rewrite block_with_ne).
  rewrite Hm. apply bind_Ret in E as (l & -> & E). by injection E as <- <-.
Qed.

Lemma resolve_upd t lk r b a m : netdev_resolve_address a t = Ret (m, t) -> a / BLOCK <> lk / BLOCK -> netdev_resolve_address a (upd t lk r b) = Ret (m, upd t lk r b).
Proof.
  intros E Hne. set (u := upd t lk r b). unfold netdev_resolve_address in *. apply bind_inv in E as (key & t2 & E1 & E).
  destruct (key_upd t lk r b a key t2 E1 Hne) as [-> E1']. fold u in E1'. rewrite (st_step _ _ _ _ _ E1').
  rewrite (st_step _ _ u (addrs t) u eq_refl). rewrite (st_step _ _ t (addrs t) t eq_refl) in E.
  apply bind_inv in E as (x & t2 & E2 & E). unfold lift in E2. apply bind_Ret in E2 as (y & E2 & E3). injection E3 as -> <-.
  rewrite (st_step _ _ u x u (lift_Ret _ _ u E2)). destruct (x =? 0); [| by injection E as <-].
  rewrite (st_step _ _ t (info t) t eq_refl) in E. rewrite (st_step _ _ u (info t) u eq_refl). destruct (dhcp (info t) =? 0); [done |]. by injection E as <-.
Qed.

(** The Ethernet header, in front of any other fields [fs], and the card. *)
Lemma eth_send_fields t p k lk b0 r pl fs dm sm m : at_ptr (pkts t) p = Ret k -> Z.land (flags k) NF_REUSE = 0 -> block (mem t) lk = Ret b0 -> based lk -> link k = lk ->
  proto (pnet k) = PROTO_IPV4 -> netdev_resolve_address (dst_addr k) t = Ret (m, t) -> dst_addr k / BLOCK <> lk / BLOCK ->
  rdm (m + MAC_B) 6 t = Ret (dm, t) -> (m + MAC_B) / BLOCK <> lk / BLOCK -> mac (info t) = sm -> zlen sm = 6 -> nic_ok (nic t) ->
  (@length Z <$> fs) = drop 3 LENS -> size k = 42 + zlen pl -> zlen pl <= 4000 ->
  exists s', eth_send_pkt p (upd t lk r (concat (no_fields [6; 6; 2]%nat ++ fs) ++ pl)) = Ret (0, s') /\
    wire (nic s') = wire (nic t) ++ [concat ([dm; sm; be16 PROTO_IPV4] ++ fs) ++ pl] /\ pkts s' = delete p (pkts t).
Proof.
  intros Hp Hfl Hb B Hl Hpr Hres Hdn Hdm Hmn Hmac Hs6 Hnic Hfs Hsz Hpl. destruct (rdm_Ret _ _ _ _ _ Hdm) as [Hd6 _].
  apply at_ptr_Ret in Hp as Hp'. destruct Hp' as [Hp0 _].
  assert (Hlen : forall a b c : list Z, zlen a = 6 -> zlen b = 6 -> zlen c = 2 -> shaped LENS ([a; b; c] ++ fs)).
  { intros a b c Ha Hb2 Hc. unfold shaped. rewrite fmap_app, Hfs. unfold zlen in *. cbn [fmap list_fmap]. by replace (length a) with 6%nat by lia; replace (length b) with 6%nat by lia; replace (length c) with 2%nat by lia. }
  set (fin := concat ([dm; sm; be16 PROTO_IPV4] ++ fs) ++ pl). set (u := upd t lk r fin).
  assert (Hfin : zlen fin = 42 + zlen pl).
  { unfold fin. rewrite zlen_app, zlen_concat. pose proof (Hlen dm sm (be16 PROTO_IPV4) Hd6 Hs6 eq_refl) as Hsh. unfold shaped in Hsh. by rewrite Hsh. }
  pose proof (upd_block t lk r fin b0 Hb) as Hbu.
  destruct (rtl8139_send u lk fin (42 + zlen pl)) as (rt & E4 & Hr & Hw); [done | done | done | pose proof (zlen_nonneg pl); lia | lia |].
  assert (Htk : take (Z.to_nat (42 + zlen pl)) fin = fin) by (apply take_ge; unfold zlen in *; lia). rewrite Htk in Hw.
  exists (freed (set_nic rt u) p lk). split; [| split; [exact Hw | done]].
  unfold eth_send_pkt, assert. rewrite (proj2 (Z.eqb_neq _ _) Hp0). rewrite (st_step _ _ _ tt _ eq_refl).
  rewrite (st_step (get_pkt p) _ _ k (upd t lk r (concat (no_fields [6; 6; 2]%nat ++ fs) ++ pl))) by (unfold get_pkt; cbn; by rewrite Hp). rewrite Hpr, Hl. cbn [negb].
  change (negb (PROTO_IPV4 =? PROTO_ARP)) with true. cbn iota. rewrite st_assoc, (st_step _ _ _ _ _ (resolve_upd t lk r _ _ _ Hres Hdn)).
  change (no_fields [6; 6; 2]%nat ++ fs) with ([replicate 6 0; replicate 6 0; replicate 2 0] ++ fs).
  refine (cpy_do t lk r LENS _ pl 0 _ _ _ _ _ b0 _ Hb B _ Hdm Hmn _ _ _ _); [by apply Hlen | change (Some 6%nat = Some (length dm)); f_equal; unfold zlen in Hd6; lia | at_field | at_field |].
  erewrite (st_step netdev_get_mac) by reflexivity. change (mac (info (upd t lk r _))) with (mac (info t)). rewrite Hmac.
  refine (wrm_do t lk r LENS _ pl 1 _ _ _ b0 _ Hb B _ _ _ _ _); [by apply (Hlen dm) | change (Some 6%nat = Some (length sm)); f_equal; unfold zlen in Hs6; lia | at_field | at_field |].
  refine (wrle_do t lk r LENS _ pl 2 _ 2 _ _ b0 _ Hb B _ _ _ _ _); [by apply (Hlen dm sm) | done | at_field | at_field |].
  assert (Esz : u64 (size k) = 42 + zlen pl) by (rewrite Hsz; apply wrap_small; unfold in_u; pose proof (zlen_nonneg pl); lia). rewrite Esz.
  rewrite (st_step _ _ _ _ _ E4). rewrite Hfl. change (0 =? 0) with true. cbn iota.
  by rewrite (st_step _ _ _ _ _ (eq_trans (dealloc_at (set_nic rt u) p k fin Hp ltac:(rewrite Hl; exact Hbu)) (f_equal (fun l => Ret (0, freed (set_nic rt u) p l)) Hl))).
Qed.

(** The frame that leaves for a datagram that fits is the Ethernet, IPv4
    and UDP headers with every field as it should be, checksum included (that
    of UDP is 0, not computed), and the payload; and the packet is freed. *)
Lemma udp_send_frame t p k lk pl sa da dm m : outgoing_udp t p k lk pl sa da dm m ->
  exists s', udp_send_pkt p t = Ret (0, s') /\
    wire (nic s') = wire (nic t) ++ [udp_frame dm (mac (info t)) (iden_of (rnd t)) sa da (src_port k) (dst_port k) pl] /\ pkts s' = delete p (pkts t).
Proof.
  intros [(Hp & Hfl) (Hl & Hsz & Hn & Ht) (Hb & B) (Hsa & Hsn) (Hda & Hdn) (Hres & Hdm & Hmn) (Hlen & Hmtu) (Hmac & Hnic)].
  destruct (zlen_4 sa (proj1 (rdm_Ret _ _ _ _ _ Hsa))) as (a & b & c & d & ->). destruct (zlen_4 da (proj1 (rdm_Ret _ _ _ _ _ Hda))) as (a' & b' & c' & d' & ->).
  apply at_ptr_Ret in Hp as Hp'. destruct Hp' as [Hp0 _]. pose proof (zlen_nonneg pl) as Hpl. set (n := zlen pl) in *.
  set (r := rnd t). set (us := [be16 (src_port k); be16 (dst_port k); be16 (8 + n); [0; 0]]).
  set (ip := ip_fields n (iden_of r) (__calculate_checksum (concat (ip_fields n (iden_of r) 0 [a; b; c; d] [a'; b'; c'; d']))) [a; b; c; d] [a'; b'; c'; d'] ++ us).
  destruct (eth_send_fields t p k lk _ (rnd_next r) pl ip dm (mac (info t)) m Hp Hfl Hb B Hl ltac:(by rewrite Hn) Hres Hdn Hdm Hmn eq_refl Hmac Hnic eq_refl Hsz ltac:(lia))
    as (s' & E & Hw & Hpk).
  exists s'. split; [| by split]. unfold udp_send_pkt, assert. rewrite (proj2 (Z.eqb_neq _ _) Hp0), (st_step _ _ t tt t eq_refl).
  rewrite (st_step (get_pkt p) _ t k t) by (unfold get_pkt; by rewrite Hp). rewrite Ht, Hn. cbn [lpacket lsize proto].
  rewrite <- (upd_start t lk _ Hb). change (replicate 42 0 ++ pl) with (concat (no_fields LENS) ++ pl).
  refine (wrle_do t lk r LENS _ pl 13 _ 2 _ _ _ _ Hb B _ _ _ _ _); [reflexivity | reflexivity | at_field | at_field |].
  refine (wrle_do t lk r LENS _ pl 14 _ 2 _ _ _ _ Hb B _ _ _ _ _); [reflexivity | reflexivity | at_field | at_field |].
  refine (wrle_do t lk r LENS _ pl 15 _ 2 _ _ _ _ Hb B _ _ _ _ _); [reflexivity | reflexivity | at_field | at_field |].
  refine (wrle_do t lk r LENS _ pl 16 _ 2 _ _ _ _ Hb B _ _ _ _ _); [reflexivity | reflexivity | at_field | at_field |].
  change (PROTO_IPV4 =? PROTO_IPV4) with true. cbn iota.
  match goal with |- ipv4_send_pkt p (upd t lk r ?x) = _ =>
    change x with (concat (no_fields [6; 6; 2]%nat ++ no_fields [1; 1; 2; 2; 2; 1; 1; 2; 4; 4]%nat ++
      [le_bytes 2 (h2n_16 (src_port k)); le_bytes 2 (h2n_16 (dst_port k)); le_bytes 2 (h2n_16 (8 + n)); le_bytes 2 0]) ++ pl) end.
  unfold ipv4_send_pkt, assert. rewrite (proj2 (Z.eqb_neq _ _) Hp0). erewrite st_step by reflexivity.
  match goal with |- (_ ≫= _) ?u = _ => rewrite (st_step (get_pkt p) _ u k u) by (unfold get_pkt; cbn; by rewrite Hp) end.
  rewrite Hn. cbn [lsize lpacket]. rewrite leb_true by (unfold IPV4_PAYLOAD_MAX; lia). erewrite st_step by reflexivity. erewrite (st_step netdev_get_mtu) by reflexivity.
  rewrite (st_step _ _ _ _ _ (ipv4_header_fields t lk k _ pl n a b c d a' b' c' d' _ _ _ 0 r Hb B Hsa Hsn Hda Hdn ltac:(by rewrite Hn) ltac:(by rewrite Ht))).
  change (mtu (info (upd t lk r _))) with (mtu (info t)).
  assert (Em : u16 (mtu (info t) - SIZEOF_IPV4) = mtu (info t) - 20) by (unfold SIZEOF_IPV4; apply wrap_small; unfold in_u; lia).
  rewrite Em, ltb_true by (unfold IPV4_HDR_SIZE; lia). exact E.
Qed.
End output.

(** ** The other end *)

Section input.
Context {M V : Type} `{Sched.SchedOps M} `{FdOps V}.
Variables unspecified broadcast : Z.
Implicit Types t : net (inet M V).

Lemma swap16_do {A} t lk r lens fs pl i x (f : Z -> st (net (inet M V)) A) b0 res : block (mem t) lk = Ret b0 -> based lk -> shaped lens fs -> lens !! i = Some 2%nat ->
  x = lk + offset lens i -> offset lens i < BLOCK -> let v := n2h_16 (le_val (concat (take 1 (drop i fs)))) in
  f v (upd t lk r (concat (<[i := le_bytes 2 v]> fs) ++ pl)) = res -> (w ← swap16 x; f w) (upd t lk r (concat fs ++ pl)) = res.
Proof.
  intros Hb B Hs Hi Hx Ho v Hf. unfold swap16. rewrite st_assoc.
  refine (rdle_do t lk r lens fs pl i x 2 _ b0 res Hb B Hs Hx Ho _ _); [by rewrite (drop_S _ 2%nat) |].
  rewrite st_assoc. by refine (wrle_do t lk r lens fs pl i x 2 v _ b0 res Hb B Hs Hi Hx Ho _).
Qed.

Lemma swap32_do {A} t lk r lens fs pl i x (f : Z -> st (net (inet M V)) A) b0 res : block (mem t) lk = Ret b0 -> based lk -> shaped lens fs -> lens !! i = Some 4%nat ->
  x = lk + offset lens i -> offset lens i < BLOCK -> let v := n2h_32 (le_val (concat (take 1 (drop i fs)))) in
  f v (upd t lk r (concat (<[i := le_bytes 4 v]> fs) ++ pl)) = res -> (w ← swap32 x; f w) (upd t lk r (concat fs ++ pl)) = res.
Proof.
  intros Hb B Hs Hi Hx Ho v Hf. unfold swap32. rewrite st_assoc.
  refine (rdle_do t lk r lens fs pl i x 4 _ b0 res Hb B Hs Hx Ho _ _); [by rewrite (drop_S _ 4%nat) |].
  rewrite st_assoc. by refine (wrle_do t lk r lens fs pl i x 4 v _ b0 res Hb B Hs Hi Hx Ho _).
Qed.

Lemma be16_back v : 0 <= v < 65536 -> n2h_16 (le_val (be16 v)) = v.
Proof. intros Hv. unfold be16. rewrite le_val_bytes, Z.mod_small by (apply n2h_16_range). by apply h2n_n2h_16. Qed.

(** The frame of a datagram, followed by the check sequence of the card or
    anything else, arrived in a packet. *)
Record arrived t (p : Z) (k : packet) (lk : Z) (dm sm : list Z) (iden : Z) (sa da : list Z) (sport dport : Z) (pl fcs : list Z) : Prop := {
  a_pkt : at_ptr (pkts t) p = Ret k;
  a_link : link k = lk /\ based lk /\ size k = 42 + zlen pl + zlen fcs;
  a_block : block (mem t) lk = Ret (udp_frame dm sm iden sa da sport dport pl ++ fcs);
  a_lens : zlen dm = 6 /\ zlen sm = 6 /\ zlen sa = 4 /\ zlen da = 4;
  a_ports : 0 <= sport < 65536 /\ 0 <= dport < 65536 /\ zlen pl <= 4000
}.

Definition with_pkt t (p : Z) (k : packet) : net (inet M V) := set_pkts (<[p := k]> (pkts t)) t.

Lemma get_do {A} t lk r b p k (f : packet -> st (net (inet M V)) A) res : at_ptr (pkts t) p = Ret k -> f k (upd t lk r b) = res -> (x ← get_pkt p; f x) (upd t lk r b) = res.
Proof. intros Hp <-. apply (st_step (get_pkt p)). unfold get_pkt. cbn. by rewrite Hp. Qed.

Lemma put_do {A} t lk r b p k (f : st (net (inet M V)) A) res : f (upd (with_pkt t p k) lk r b) = res -> (_ ← put_pkt p k; f) (upd t lk r b) = res.
Proof. by intros <-. Qed.

Lemma at_with_pkt t p k : p <> 0 -> at_ptr (pkts (with_pkt t p k)) p = Ret k.
Proof. intros Hp. unfold with_pkt. cbn [pkts set_pkts]. unfold at_ptr. by rewrite (proj2 (Z.eqb_neq _ _) Hp), lookup_insert_eq. Qed.

(** The same where the value is known. *)
Lemma swap16_to {A} t lk r fs pl i x v w (f : Z -> st (net (inet M V)) A) b0 res : block (mem t) lk = Ret b0 -> based lk -> shaped LENS fs -> fs !! i = Some w -> length w = 2%nat ->
  n2h_16 (le_val w) = v -> x = lk + offset LENS i -> offset LENS i < BLOCK ->
  f v (upd t lk r (concat (<[i := le_bytes 2 v]> fs) ++ pl)) = res -> (w ← swap16 x; f w) (upd t lk r (concat fs ++ pl)) = res.
Proof.
  intros Hb B Hs Hi Hw Hv Hx Ho Hf. apply (swap16_do t lk r LENS fs pl i x f b0 res Hb B Hs); [| done | done |].
  - unfold shaped in Hs. by rewrite <- Hs, list_lookup_fmap, Hi, <- Hw.
  - rewrite (drop_S _ w i Hi). cbn [take concat]. rewrite firstn_O, app_nil_r. by rewrite Hv.
Qed.

Lemma swap32_to {A} t lk r fs pl i x v w (f : Z -> st (net (inet M V)) A) b0 res : block (mem t) lk = Ret b0 -> based lk -> shaped LENS fs -> fs !! i = Some w -> length w = 4%nat ->
  n2h_32 (le_val w) = v -> x = lk + offset LENS i -> offset LENS i < BLOCK ->
  f v (upd t lk r (concat (<[i := le_bytes 4 v]> fs) ++ pl)) = res -> (w ← swap32 x; f w) (upd t lk r (concat fs ++ pl)) = res.
Proof.
  intros Hb B Hs Hi Hw Hv Hx Ho Hf. apply (swap32_do t lk r LENS fs pl i x f b0 res Hb B Hs); [| done | done |].
  - unfold shaped in Hs. by rewrite <- Hs, list_lookup_fmap, Hi, <- Hw.
  - rewrite (drop_S _ w i Hi). cbn [take concat]. rewrite firstn_O, app_nil_r. by rewrite Hv.
Qed.

Lemma rdle_to {A} t lk r fs pl i x n v w (f : Z -> st (net (inet M V)) A) b0 res : block (mem t) lk = Ret b0 -> based lk -> shaped LENS fs -> fs !! i = Some w -> zlen w = n ->
  le_val w = v -> x = lk + offset LENS i -> offset LENS i < BLOCK -> f v (upd t lk r (concat fs ++ pl)) = res -> (w ← rdle x n; f w) (upd t lk r (concat fs ++ pl)) = res.
Proof.
  intros Hb B Hs Hi Hw Hv Hx Ho Hf. apply (rdle_do t lk r LENS fs pl i x n f b0 res Hb B Hs Hx Ho).
  - unfold shaped in Hs. rewrite <- Hs, <- fmap_drop, (drop_S _ w i Hi), <- Hw, fmap_cons. change (Z.of_nat (length w) = Z.of_nat (length w + 0)). lia.
  - rewrite (drop_S _ w i Hi). cbn [take concat]. rewrite firstn_O, app_nil_r. by rewrite Hv.
Qed.

Ltac tidy := match goal with |- context [upd _ _ _ (concat ?fs ++ _)] => let fs' := eval cbv [insert list_insert app] in fs in change fs with fs' end.
Ltac step16 v i := refine (swap16_to _ _ _ _ _ i _ v _ _ _ _ _ _ _ _ _ _ _ _ _); [eassumption | assumption | first [reflexivity | match goal with H : _ ++ _ = LENS |- _ => exact H end] | reflexivity | try reflexivity | | at_field | at_field | tidy].

Ltac step32 v i := refine (swap32_to _ _ _ _ _ i _ v _ _ _ _ _ _ _ _ _ _ _ _ _); [eassumption | assumption | reflexivity | reflexivity | reflexivity | | at_field | at_field | tidy].

(** Names for the fields in front of a UDP header. *)
Ltac spread pre Hpre :=
  do 13 (destruct pre as [| ? pre]; [exfalso; apply (f_equal length) in Hpre; cbn in Hpre; lia |]);
  destruct pre as [| ? pre]; [| exfalso; apply (f_equal length) in Hpre; cbn in Hpre; lia].

(** The UDP header: the ports and the length are converted, the payload is
    found, and the packet goes to the sockets. *)
Lemma udp_in t me p k lk r b0 pre sport dport n tl : at_ptr (pkts t) p = Ret k -> block (mem t) lk = Ret b0 -> based lk -> lpacket (transport k) = lk + 34 ->
  shaped (take 13 LENS) pre -> 0 <= sport < 65536 -> 0 <= dport < 65536 -> 0 <= n <= 4000 -> dport <> Dhcp.DHCP_CLIENT_PORT ->
  udp_handle_pkt unspecified broadcast me p (upd t lk r (concat (pre ++ [be16 sport; be16 dport; be16 (8 + n); [0; 0]]) ++ tl)) =
  deliver (sockets (upper t)) me p dport
    (upd (with_pkt t p (set_app (mk_layer (proto (app k)) n (lk + 42)) k)) lk r
      (concat (pre ++ [le_bytes 2 sport; le_bytes 2 dport; le_bytes 2 (8 + n); [0; 0]]) ++ tl)).
Proof.
  intros Hp Hb B Ht Hpre Hsp Hdp Hn Hdhcp. apply at_ptr_Ret in Hp as Hp'. destruct Hp' as [Hp0 _].
  assert (Hsh : (@length Z <$> pre) ++ [2; 2; 2; 2]%nat = LENS) by (by rewrite Hpre).
  unfold udp_handle_pkt. apply (get_do t lk r _ p k); [done |]. rewrite Ht. spread pre Hpre. tidy.
  step16 sport 13%nat; [by apply be16_back |].
  step16 dport 14%nat; [by apply be16_back |].
  step16 (8 + n) 15%nat; [apply be16_back; lia |].
  apply put_do.
  rewrite (proj2 (Z.eqb_neq _ _) Hdhcp). set (k' := set_app _ k). set (t' := with_pkt t p k').
  assert (Ek : k' = set_app (mk_layer (proto (app k)) n (lk + 42)) k).
  { unfold k', UDP_HDR_SIZE, SIZEOF_UDP. f_equal. f_equal; [| lia]. replace (8 + n - 8) with n by lia. apply wrap_small. unfold in_u. lia. }
  unfold socket_handle_pkt. apply (get_do t' lk r _ p k'); [by apply at_with_pkt |].
  refine (rdle_to t' lk r _ tl 14 _ 2 dport _ _ b0 _ Hb B _ _ _ _ _ _ _); [exact Hsh | reflexivity | reflexivity | | rewrite Ek; cbn [transport set_app]; rewrite Ht; at_field | at_field |].
  { rewrite le_val_bytes. apply Z.mod_small. lia. }
  unfold t'. rewrite Ek. reflexivity.
Qed.

(** The whole way of the frame. *)
Lemma udp_arrives t me p k lk dm sm iden sa da sport dport pl fcs : arrived t p k lk dm sm iden sa da sport dport pl fcs -> dport <> Dhcp.DHCP_CLIENT_PORT ->
  exists t' k', eth_handle_frame unspecified broadcast me p t = deliver (sockets (upper t)) me p dport t' /\ upper t' = upper t /\
    at_ptr (pkts t') p = Ret k' /\ proto (transport k') = PROTO_UDP /\ lsize (app k') = zlen pl /\ rdm (lpacket (app k')) (zlen pl) t' = Ret (pl, t') /\
    exists b, block (mem t') (link k') = Ret b.
Proof.
  intros [Hp (Hl & B & Hsz) Hb (Hd6 & Hs6 & Hsa4 & Hda4) (Hsp & Hdp & Hn)] Hdhcp.
  destruct (zlen_6 dm Hd6) as (x0 & x1 & x2 & x3 & x4 & x5 & ->). destruct (zlen_6 sm Hs6) as (y0 & y1 & y2 & y3 & y4 & y5 & ->).
  destruct (zlen_4 sa Hsa4) as (a & b & c & d & ->). destruct (zlen_4 da Hda4) as (a' & b' & c' & d' & ->).
  apply at_ptr_Ret in Hp as Hp'. destruct Hp' as [Hp0 Hpk]. pose proof (zlen_nonneg pl) as Hpl. set (n := zlen pl) in *.
  unfold udp_frame in Hb. rewrite <- app_assoc in Hb. fold n in Hb. set (tl := pl ++ fcs) in *. set (r := rnd t).
  set (cks := le_bytes 2 (__calculate_checksum (concat (ip_fields n iden 0 [a; b; c; d] [a'; b'; c'; d'])))) in *.
  set (pre := [[x0; x1; x2; x3; x4; x5]; [y0; y1; y2; y3; y4; y5]; le_bytes 2 PROTO_IPV4; [0x45]; [0]; le_bytes 2 (28 + n);
    le_bytes 2 (n2h_16 (le_val (be16 iden))); le_bytes 2 0; [128]; [PROTO_UDP]; cks; le_bytes 4 (n2h_32 (le_val [a; b; c; d])); le_bytes 4 (n2h_32 (le_val [a'; b'; c'; d']))]).
  set (k1 := set_net (mk_layer PROTO_IPV4 (u16 (size k - ETH_HDR_SIZE)) (lk + SIZEOF_ETH)) k). set (t1 := with_pkt t p k1).
  set (k2 := set_transport (mk_layer PROTO_UDP (u16 (lsize (pnet k1) - IPV4_HDR_SIZE)) (lk + SIZEOF_ETH + SIZEOF_IPV4)) k1). set (t2 := with_pkt t1 p k2).
  set (k3 := set_app (mk_layer (proto (app k2)) n (lk + 42)) k2).
  exists (upd (with_pkt t2 p k3) lk r (concat (pre ++ [le_bytes 2 sport; le_bytes 2 dport; le_bytes 2 (8 + n); [0; 0]]) ++ tl)), k3. split.
  { unfold eth_handle_frame. rewrite (st_step (get_pkt p) _ t k t) by (unfold get_pkt; by rewrite Hp). rewrite Hl.
    rewrite <- (upd_start t lk _ Hb). unfold udp_fields, ip_fields. fold r. tidy.
    step16 PROTO_IPV4 2%nat; [reflexivity |]. apply (put_do t lk r _ p k1). change (PROTO_IPV4 =? PROTO_IPV4) with true. cbn iota.
    unfold ipv4_handle_pkt. apply (get_do t1 lk r _ p k1); [by apply at_with_pkt |]. cbn [pnet k1 set_net lpacket lsize].
    refine (rdle_to t1 lk r _ tl 9 _ 1 PROTO_UDP _ _ _ _ Hb B _ _ _ _ _ _ _); [reflexivity | reflexivity | reflexivity | reflexivity | at_field | at_field |].
    apply (put_do t1 lk r _ p k2).
    step16 (n2h_16 (le_val (be16 iden))) 6%nat; [reflexivity |]. step16 0 7%nat; [reflexivity |].
    step32 (n2h_32 (le_val [a; b; c; d])) 11%nat; [reflexivity |]. step32 (n2h_32 (le_val [a'; b'; c'; d'])) 12%nat; [reflexivity |].
    step16 (28 + n) 5%nat; [apply be16_back; lia |]. change (Z.land 0 _) with 0. cbn [negb orb Z.eqb].
    unfold ipv4_dispatch. refine (rdle_to t2 lk r _ tl 9 _ 1 PROTO_UDP _ _ _ _ Hb B _ _ _ _ _ _ _); [reflexivity | reflexivity | reflexivity | reflexivity | at_field | at_field |].
    change (PROTO_UDP =? PROTO_ICMP) with false. change (PROTO_UDP =? PROTO_UDP) with true. cbn iota.
    exact (udp_in t2 me p k2 lk r _ pre sport dport n tl (at_with_pkt t1 p k2 Hp0) Hb B ltac:(cbn; unfold SIZEOF_ETH, SIZEOF_IPV4; lia) eq_refl Hsp Hdp (conj Hpl Hn) Hdhcp). }
  split; [done | split; [exact (at_with_pkt t2 p k3 Hp0) | split; [done | split; [done | split]]]].
  2: { exists (concat (pre ++ [le_bytes 2 sport; le_bytes 2 dport; le_bytes 2 (8 + n); [0; 0]]) ++ tl). rewrite <- (upd_block (with_pkt t2 p k3) lk r _ _ Hb). by rewrite <- Hl. }
  refine (rdm_sub (upd (with_pkt t2 p k3) lk r _) lk _ (lk + 42) 42 n pl (upd_block (with_pkt t2 p k3) lk r _ _ Hb) B eq_refl _ _); [split; by vm_compute | by apply (rd_payload LENS)].
Qed.

(** A socket bound to [port] whose ring is empty and whose waiters can be
    woken. *)
Record listening t (me : Z) (i : nat) (port sock : Z) (s : socket) (ring : skb) : Prop := {
  l_entry : sockets (upper t) !! i = Some (mk_sock port true sock);
  l_others : forall j e, sockets (upper t) !! j = Some e -> j <> i -> active e = true -> Inet.port e <> port;
  l_sock : at_ptr (socks (upper t)) sock = Ret s /\ s_skb s <> 0;
  l_ring : at_ptr (skbs (upper t)) (s_skb s) = Ret ring /\ queue ring [] /\ exists l, spin_acquire (sk_lock ring) = Ret l;
  l_wake : exists u s', Sched.wq_wakeup (sch (upper t)) me (Inet.WQ sock) = Ret (u, s')
}.

Lemma queue_store ring p : queue ring [] -> p <> 0 -> exists ring', ring_store ring p = Ret (0, ring') /\ queue ring' [p].
Proof.
  intros (Hs & Hw & Hn & _) Hp. change (zlen []) with 0 in *.
  destruct (slots_store ring [] p 0 Hs ltac:(done) ltac:(done) ltac:(by rewrite Hw)) as (ring' & E & Hs' & Hr & Hw' & Hn').
  exists ring'. split; [exact E |]. change (0 =? zlen []) with true in Hs'. cbn in Hs'. pose proof (sl_r _ _ Hs). split; [done |].
  rewrite Hr, Hw', Hw, Hn', Hn. change (zlen [p]) with 1. split_and!; [| done | by apply Forall_singleton].
  rewrite Z.add_0_r. by rewrite Zplus_mod_idemp_l.
Qed.

Lemma at_i_at {A} (sel : inet M V -> gmap Z A) t p x : at_ptr (sel (upper t)) p = Ret x -> at_i sel p t = Ret (x, t).
Proof. unfold at_i, geti. intros Hp. rewrite (st_step _ _ t (sel (upper t)) t eq_refl), Hp. done. Qed.

Lemma rdm_upper t v a n l : rdm a n t = Ret (l, t) -> rdm a n (set_upper v t) = Ret (l, set_upper v t).
Proof. unfold rdm. intros E. apply bind_Ret in E as (x & E & Ex). injection Ex as ->. change (mem (set_upper v t)) with (mem t). by rewrite E. Qed.

(** What is put in the ring is what the next read takes out of it. *)
Lemma ring_there_and_back t me i port sock s ring p k pl cap : listening t me i port sock s ring -> at_ptr (pkts t) p = Ret k ->
  lsize (app k) = zlen pl -> rdm (lpacket (app k)) (zlen pl) t = Ret (pl, t) -> (exists b, block (mem t) (link k) = Ret b) -> zlen pl <= cap < 2 ^ 31 -> 0 < cap ->
  exists t1 t2, (ret ← udp_write_skb sock p; _ ← Tcp.wakeup me sock; mret ret) t = Ret (0, t1) /\ udp_read_skb sock true cap t1 = Ret ((zlen pl, pl), t2) /\
    pkts t2 = delete p (pkts t) /\ exists ring2, at_ptr (skbs (upper t2)) (s_skb s) = Ret ring2 /\ queue ring2 [].
Proof.
  intros [_ _ (Hsk & Hskb) (Hr & Hq & l & Hl) (u & s' & Hwk)] Hp Hsz Hrd (b & Hb) Hcap Hc0. apply at_ptr_Ret in Hp as Hp'. destruct Hp' as [Hp0 _].
  apply spin_acquire_Ret in Hl as [Hl ->].
  assert (Hq1 : queue (with_sk_lock 1 ring) []) by (destruct Hq as ([] & ? & ? & ?); split; [by constructor | done]).
  destruct (queue_store _ p Hq1 Hp0) as (ring1 & Est & Hq2).
  set (r1 := with_sk_lock (spin_release 1) ring1).
  assert (Hq3 : queue (with_sk_lock 1 r1) [p]) by (destruct Hq2 as ([] & ? & ? & ?); split; [by constructor | done]).
  destruct (queue_take _ p [] Hq3) as (Erd & ring2 & Etk & Hq4 & _).
  set (t1 := set_upper (set_sch s' (set_skbs (<[s_skb s := r1]> (skbs (upper t))) (upper t))) t).
  set (r2 := with_sk_lock (spin_release 1) ring2).
  exists t1, (set_upper (set_skbs (<[s_skb s := r2]> (skbs (upper t1))) (upper t1)) (freed t1 p (link k))).
  assert (Hw : udp_write_skb sock p t = Ret (0, set_upper (set_skbs (<[s_skb s := r1]> (skbs (upper t))) (upper t)) t)).
  { unfold udp_write_skb, ring_put. rewrite (st_step _ _ _ _ _ (at_i_at _ _ _ _ Hsk)), (proj2 (Z.eqb_neq _ _) Hskb), (proj2 (Z.eqb_neq _ _) Hp0). cbn [orb].
    rewrite st_assoc, (st_step _ _ _ _ _ (at_i_at _ _ _ _ Hr)), Hl, spin_acquire_free. rewrite st_assoc, (st_step (lift (Ret 1)) _ t 1 t eq_refl), Est.
    by rewrite st_assoc, (st_step (lift (Ret (0, ring1))) _ t (0, ring1) t eq_refl). }
  split; [| split; [| split; [done |]]].
  - rewrite (st_step _ _ _ _ _ Hw). rewrite (st_step (Tcp.wakeup me sock) _ _ tt t1); [done |].
    unfold Tcp.wakeup. cbn [upper set_upper sch set_skbs]. by rewrite Hwk.
  - unfold udp_read_skb. rewrite (st_step (get_sock sock) _ t1 s t1 (at_i_at _ t1 _ _ Hsk)), (proj2 (Z.eqb_neq _ _) Hskb), (proj2 (Z.eqb_neq cap 0) ltac:(lia)). cbn [orb negb].
    rewrite (st_step (get_skb (s_skb s)) _ t1 r1 t1) by (apply at_i_at; cbn; unfold at_ptr; by rewrite (proj2 (Z.eqb_neq _ _) Hskb), lookup_insert_eq).
    assert (En : npkts r1 = 1) by (by destruct Hq3 as (_ & _ & En & _)). rewrite En. change (1 =? 0) with false. cbn iota.
    change (sk_lock r1) with 0. rewrite spin_acquire_free, (st_step (lift (Ret 1)) _ t1 1 t1 eq_refl). change (packets r1) with (packets (with_sk_lock 1 r1)).
    change (rptr r1) with (rptr (with_sk_lock 1 r1)). rewrite Erd, (st_step (lift (Ret p)) _ t1 p t1 eq_refl), (st_step (get_pkt p) _ t1 k t1) by (unfold get_pkt; cbn; by rewrite Hp).
    rewrite Hsz, Z.min_r by lia. rewrite (st_step (rdm _ _) _ t1 pl t1) by exact (rdm_upper t _ _ _ _ Hrd).
    rewrite (st_step _ _ _ _ _ (dealloc_at t1 p k b Hp Hb)), Etk.
    assert (Es : s32 (zlen pl) = zlen pl) by (apply swrap_small; pose proof (zlen_nonneg pl); lia). by rewrite Es.
  - exists r2. split; [cbn; unfold at_ptr; by rewrite (proj2 (Z.eqb_neq _ _) Hskb), lookup_insert_eq |].
    destruct Hq4 as ([] & ? & ? & ?); split; [by constructor | done].
Qed.
End input.

(** ** From one machine to another *)

Section exchange.
Context {X M V : Type} `{Sched.SchedOps M} `{FdOps V}.
Variables unspecified broadcast : Z.

(** C2: a datagram sent is the datagram received.  [udp_send_pkt] puts one
    frame on the wire, with every field of the Ethernet, IPv4 and UDP headers
    as it should be, checksum included (that of UDP is 0, not computed), and
    frees the packet; when that frame, with any check sequence behind it,
    reaches a machine where a socket is bound to the destination port, the
    handlers put it in the ring of that socket, and the next read returns the
    payload and its length, frees the packet and leaves the ring empty. *)
Theorem udp_datagram_delivered (t : net X) p k lk pl sa da dm m : outgoing_udp t p k lk pl sa da dm m -> 0 <= src_port k < 65536 -> 0 <= dst_port k < 65536 -> dst_port k <> Dhcp.DHCP_CLIENT_PORT ->
  let f := udp_frame dm (mac (info t)) (iden_of (rnd t)) sa da (src_port k) (dst_port k) pl in
  exists s', udp_send_pkt p t = Ret (0, s') /\ wire (nic s') = wire (nic t) ++ [f] /\ pkts s' = delete p (pkts t) /\
  forall (t2 : net (inet M V)) me p2 k2 lk2 fcs i sock s ring cap, at_ptr (pkts t2) p2 = Ret k2 -> link k2 = lk2 -> based lk2 -> size k2 = 42 + zlen pl + zlen fcs ->
    block (mem t2) lk2 = Ret (f ++ fcs) -> listening t2 me i (dst_port k) sock s ring -> zlen pl <= cap < 2 ^ 31 -> 0 < cap ->
    exists t3 t4, eth_handle_frame unspecified broadcast me p2 t2 = Ret (0, t3) /\ udp_read_skb sock true cap t3 = Ret ((zlen pl, pl), t4) /\
      pkts t4 !! p2 = None /\ exists ring2, at_ptr (skbs (upper t4)) (s_skb s) = Ret ring2 /\ queue ring2 [].
Proof.
  intros Ho Hsp Hdp Hdhcp f. destruct (udp_send_frame t p k lk pl sa da dm m Ho) as (s' & E & Hw & Hpk). exists s'. split; [done |]. split; [done |]. split; [done |].
  intros t2 me p2 k2 lk2 fcs i sock s ring cap Hp2 Hl2 B2 Hsz2 Hb2 Hls Hcap Hc0.
  destruct Ho as [_ _ _ (Hsa & _) (Hda & _) (_ & Hdm & _) (Hlen & Hmtu) (Hmac & _)].
  destruct (udp_arrives unspecified broadcast t2 me p2 k2 lk2 dm (mac (info t)) (iden_of (rnd t)) sa da (src_port k) (dst_port k) pl fcs) as (t' & k' & E2 & Hu & Hp' & Hpr & Hsz & Hrd & Hblk);
    [constructor; try done | done |].
  { pose proof (proj1 (rdm_Ret _ _ _ _ _ Hsa)). pose proof (proj1 (rdm_Ret _ _ _ _ _ Hda)). by pose proof (proj1 (rdm_Ret _ _ _ _ _ Hdm)). }
  { split; [done | split; [done | lia]]. }
  assert (Hls' : listening t' me i (dst_port k) sock s ring) by (destruct Hls; constructor; by rewrite ?Hu).
  rewrite E2, (deliver_udp _ i (dst_port k) sock me p2 k' (dst_port k) t' (l_entry _ _ _ _ _ _ _ Hls) (l_others _ _ _ _ _ _ _ Hls) Hp' Hpr), Z.eqb_refl.
  destruct (ring_there_and_back t' me i (dst_port k) sock s ring p2 k' pl cap Hls' Hp' Hsz Hrd Hblk Hcap Hc0) as (t3 & t4 & E3 & E4 & Hpk4 & Hring).
  exists t3, t4. split; [exact E3 |]. split; [exact E4 |]. split; [| exact Hring]. rewrite Hpk4. apply lookup_delete_eq.
Qed.
End exchange.

(** ** A sample: four bytes to port 4000 *)

#[local] Existing Instance Sched.list_sched.
#[local] Existing Instance Socket.sample_fds.

Definition ping : list Z := [112; 105; 110; 103].
Definition ping_packet : packet :=
  mk_packet 46 0 (1 * BLOCK) (2 * BLOCK) (3 * BLOCK) 80 4000 (mk_layer PROTO_IPV4 32 (1 * BLOCK + 14)) (mk_layer PROTO_UDP 12 (1 * BLOCK + 34)) (mk_layer 0 4 (1 * BLOCK + 42)).
Definition ping_net : net unit :=
  mk_net (mk_kmem (list_to_map [(1, replicate 42 0 ++ ping); (2, [192; 168; 1; 2] ++ replicate 36 0); (3, [192; 168; 1; 9] ++ replicate 36 0); (4, replicate 32 0 ++ [82; 84; 0; 18; 53; 2] ++ replicate 2 0)]) 6)
    {[5 * BLOCK := ping_packet]} (mk_info [82; 84; 0; 18; 52; 86] (4 * BLOCK) (2 * BLOCK) false 1500) None None sample_nic 1 tt.

(** The frame, the check sequence behind it, and the receiver: the socket at
    100 is bound to port 4000. *)
Definition ping_frame : list Z := udp_frame [82; 84; 0; 18; 53; 2] [82; 84; 0; 18; 52; 86] (iden_of 1) [192; 168; 1; 2] [192; 168; 1; 9] 80 4000 ping.
Definition pong_inet : inet (Z * list Z) (@tables unit Dentry.cache) :=
  mk_inet {[100 := udp_socket]} {[200 := zero_skb]} ∅ ∅ (mk_sock 4000 true 100 :: replicate 9 free_entry) None None ∅ (Tick.mk_tick 0 1 ∅ ∅)
    (Sched.mk_sys (1000, [1000]) ∅ ∅ {[Sched.WQH_LIST (WQ 100) := Dlist.mk_links (Sched.WQH_LIST (WQ 100)) (Sched.WQH_LIST (WQ 100))]} {[WQ 100 := 0]} true 0 0) sample_tables.
Definition pong_net : net (inet (Z * list Z) (@tables unit Dentry.cache)) :=
  mk_net (mk_kmem (list_to_map [(1, ping_frame ++ [1; 2; 3; 4]); (2, [192; 168; 1; 9] ++ replicate 36 0)]) 6) {[5 * BLOCK := mk_packet 50 0 (1 * BLOCK) 0 0 0 0 no_layer no_layer no_layer]}
    (mk_info [82; 84; 0; 18; 53; 2] 0 (2 * BLOCK) false 1500) None None sample_nic 1 pong_inet.


Lemma ping_outgoing : outgoing_udp ping_net (5 * BLOCK) ping_packet (1 * BLOCK) ping [192; 168; 1; 2] [192; 168; 1; 9] [82; 84; 0; 18; 53; 2] (4 * BLOCK + INFO_MAC).
Proof.
  constructor.
  - split; [by vm_compute | done].
  - split_and!; done.
  - split; [by vm_compute | by vm_compute].
  - split; [by vm_compute | by vm_compute].
  - split; [by vm_compute | by vm_compute].
  - split_and!; [by vm_compute | by vm_compute | by vm_compute].
  - cbn. unfold ping, zlen. cbn. lia.
  - split; [done |]. unfold nic_ok. split_and!; try done; try (by vm_compute). repeat (apply Forall_cons_2; [by vm_compute |]). apply Forall_nil_2.
Qed.

Lemma pong_listening : listening pong_net 0 0 4000 100 udp_socket zero_skb.
Proof.
  constructor.
  - done.
  - intros [| j] e Hj Hne Ha; [done |]. change (replicate 9 free_entry !! j = Some e) in Hj. by apply lookup_replicate in Hj as [-> _].
  - by vm_compute.
  - split; [by vm_compute |]. split; [| exists 1; by vm_compute]. split; [| by vm_compute].
    constructor; [by vm_compute | by vm_compute | cbn; lia |]. intros i Hi. change (rptr zero_skb) with 0. rewrite Z.add_0_l, Z.mod_small by lia.
    assert (H : forall j, In j (seqZ 0 10) -> rd (packets zero_skb) j = Ret (default 0 (@nil Z !! Z.to_nat j))) by (intros j Hj; cbv in Hj; repeat (destruct Hj as [<- | Hj]; [by vm_compute |]); done).
    apply H. apply list_elem_of_In. apply elem_of_seqZ. lia.
  - vm_compute. by eexists _, _.
Qed.

Lemma udp_datagram_delivered_witness :
  exists s', udp_send_pkt (5 * BLOCK) ping_net = Ret (0, s') /\ wire (nic s') = [ping_frame] /\
  exists t3 t4, eth_handle_frame 0 0 0 (5 * BLOCK) pong_net = Ret (0, t3) /\ udp_read_skb 100 true 100 t3 = Ret ((4, ping), t4).
Proof.
  destruct (@udp_datagram_delivered unit (Z * list Z) (@tables unit Dentry.cache) _ 0 0 ping_net (5 * BLOCK) ping_packet (1 * BLOCK) ping [192; 168; 1; 2] [192; 168; 1; 9] [82; 84; 0; 18; 53; 2] (4 * BLOCK + INFO_MAC) ping_outgoing)
    as (s' & E & Hw & _ & Hr); [by vm_compute | by vm_compute | done |].
  exists s'. split; [exact E |]. split; [exact Hw |].
  destruct (Hr pong_net 0 (5 * BLOCK) (mk_packet 50 0 (1 * BLOCK) 0 0 0 0 no_layer no_layer no_layer) (1 * BLOCK) [1; 2; 3; 4] 0%nat 100 udp_socket zero_skb 100)
    as (t3 & t4 & E3 & E4 & _);
    [vm_compute; reflexivity | reflexivity | vm_compute; reflexivity | vm_compute; reflexivity | vm_compute; reflexivity | exact pong_listening | vm_compute; split; congruence | reflexivity |].
  exists t3, t4. split; [exact E3 | exact E4].
Defined.


End Frames.
