(* ===== verification/Initrd.v ===== *)
(** * The initial ramdisk as it is built (toolchain/util/mkinitrd.c)

    The program takes pairs of a host file and a path of two components, and
    writes one image: a disk header, the root directory, and each directory
    followed by its files.  Strings are lists of bytes without the NUL; an
    array of [NAME_MAXLEN] characters is the list of all its bytes.  Of a
    host file only the content matters. *)

From S2P Require Import Prelude Bytes.
Import Bytes.

Module Initrd.

Definition HEADER_MAGIC : Z := 0x13371338.
Definition FILE_MAGIC : Z := 0xdeadbeef.
Definition DIR_MAGIC : Z := 0xcafebabe.
Definition NAME_MAXLEN : Z := 64.
Definition MAX_FILES : Z := 5.
Definition MAX_DIRS : Z := 5.

Record disk_header := mk_disk { k_size : Z; k_magic : Z; k_num_dir : Z; k_offsets : list Z }.
Record dir_header := mk_dir { d_name : list Z; d_size : Z; d_num_files : Z; d_inode : Z; d_magic : Z; d_offsets : list Z }.
Record file_header := mk_file { f_name : list Z; f_size : Z; f_inode : Z; f_magic : Z }.

Definition SIZEOF_DISK : Z := 32.
Definition SIZEOF_DIR : Z := 100.
Definition SIZEOF_FILE : Z := 76.

(** Offsets in the headers of directories and files. *)
Definition H_SIZE : Z := 64.
Definition D_NUM_FILES : Z := 68.
Definition F_INODE : Z := 68.
Definition F_MAGIC : Z := 72.
Definition D_INODE : Z := 72.
Definition D_MAGIC : Z := 76.
Definition D_OFFSETS : Z := 80.

(** The bytes of the headers. *)
Definition dword (v : Z) : list Z := le_bytes 4 v.
Definition disk_bytes (h : disk_header) : list Z := concat ([dword (k_size h); dword (k_magic h); dword (k_num_dir h)] ++ (dword <$> k_offsets h)).
Definition dir_fields (h : dir_header) : list (list Z) :=
  [d_name h; dword (d_size h); dword (d_num_files h); dword (d_inode h); dword (d_magic h)] ++ (dword <$> d_offsets h).
Definition dir_bytes (h : dir_header) : list Z := concat (dir_fields h).
Definition file_fields (h : file_header) : list (list Z) := [f_name h; dword (f_size h); dword (f_inode h); dword (f_magic h)].
Definition file_bytes (h : file_header) : list Z := concat (file_fields h).

(** ** Strings in arrays *)

(** The string an array holds. *)
Fixpoint cstr (a : list Z) : list Z := match a with [] => [] | c :: a => if c =? 0 then [] else c :: cstr a end.

(** [strncpy(dst, s, NAME_MAXLEN)] and [strncmp(s, a, NAME_MAXLEN) == 0]. *)
Definition strncpy (s : list Z) : list Z := take 64 (s ++ replicate 64 0).
Definition strncmp (s a : list Z) : bool := bool_decide (take 64 s = cstr a).

(** ** [parse_path] *)

(** What follows the last slash: [strrchr] gives null when there is none,
    and the null pointer plus one is then copied. *)
Fixpoint after_last (path : list Z) : option (list Z) :=
  match path with
  | [] => None
  | c :: path => match after_last path with Some f => Some f | None => if c =? 47 then Some path else None end
  end.

(** The characters up to the next slash; the scan does not stop at the end
    of the string. *)
Fixpoint up_to_slash (path : list Z) : out (list Z) :=
  match path with
  | [] => Fault
  | c :: path => if c =? 47 then mret [] else d ← up_to_slash path; mret (c :: d)
  end.

(** [dir] has [NAME_MAXLEN] bytes. *)
Definition parse_path (path : list Z) : out (list Z * list Z) :=
  match after_last path, path with
  | Some fname, _ :: path =>
      dir ← up_to_slash path;
      if zlen dir <? NAME_MAXLEN then mret (dir, fname) else Fault
  | _, _ => Fault
  end.

(** ** The files that were given *)

(** [e_data] is the content of the host file, [None] a null [file_path]. *)
Record entry := mk_entry { e_file : file_header; e_data : option (list Z) }.
Record dir_data := mk_data { dd_dir : dir_header; dd_ptr : Z; dd_count : Z; dd_files : list entry }.

Definition zero_entry : entry := mk_entry (mk_file (replicate 64 0) 0 0 0) None.
Definition zero_dir : dir_header := mk_dir (replicate 64 0) 0 0 0 0 (replicate 5 0).
Definition zero_data : dir_data := mk_data zero_dir 0 0 (replicate 5 zero_entry).

(** [t_next] is the counter of [alloc_inode]. *)
Record tool := mk_tool { t_data : list dir_data; t_dir_count : Z; t_dir_ptr : Z; t_cur_offset : Z; t_prev : list Z; t_next : Z }.

(** The inode of the root is taken before the arguments are read. *)
Definition start : tool := mk_tool (replicate 5 zero_data) 0 0 0 [] 2.

Definition dir_is (cur : list Z) (d : dir_data) : Prop := cstr (d_name (dd_dir d)) = cur.
#[local] Instance dir_is_dec cur d : Decision (dir_is cur d) := ltac:(unfold dir_is; apply _).

(** The directory of the file: that of the argument before, one that exists,
    or a new one; the result is [None] when there is no room. *)
Definition find_dir (t : tool) (cur : list Z) : out (option tool) :=
  if bool_decide (cur = t_prev t) then mret (Some t)
  else
    match list_find (dir_is cur) (t_data t) with
    | Some (i, _) => mret (Some (mk_tool (t_data t) (t_dir_count t) (Z.of_nat i) (t_cur_offset t) (t_prev t) (t_next t)))
    | None =>
        if t_dir_count t =? MAX_DIRS then mret None
        else
          d ← rd (t_data t) (t_dir_count t);
          let h := mk_dir (strncpy cur) (d_size (dd_dir d)) 0 (t_next t) DIR_MAGIC (d_offsets (dd_dir d)) in
          l ← wr (t_data t) (t_dir_count t) (mk_data h (dd_ptr d) (dd_count d) (dd_files d));
          mret (Some (mk_tool l (t_dir_count t + 1) (t_dir_count t) (t_cur_offset t) (t_prev t) (t_next t + 1)))
    end.

(** A file is added to the current directory.  Its size and its number are
    counted before the tests that may refuse it. *)
Definition save_file (t : tool) (fname data : list Z) : out tool :=
  d ← rd (t_data t) (t_dir_ptr t);
  let h := dd_dir d in
  let nwritten := u32 (zlen data) in
  let h := mk_dir (d_name h) (u32 (d_size h + (nwritten + SIZEOF_FILE))) (u32 (d_num_files h + 1)) (d_inode h) (d_magic h) (d_offsets h) in
  let taken := existsb (fun e => strncmp fname (f_name (e_file e))) (dd_files d) in
  if taken || (dd_count d =? MAX_FILES) then
    l ← wr (t_data t) (t_dir_ptr t) (mk_data h (dd_ptr d) (dd_count d) (dd_files d));
    mret (mk_tool l (t_dir_count t) (t_dir_ptr t) (t_cur_offset t) (t_prev t) (t_next t))
  else
    let fptr := dd_count d in
    off ← (if fptr =? 0 then mret SIZEOF_DIR
           else e ← rd (dd_files d) (fptr - 1); mret (u32 (t_cur_offset t + (SIZEOF_FILE + f_size (e_file e)))));
    fs ← wr (dd_files d) fptr (mk_entry (mk_file (strncpy fname) nwritten (t_next t) FILE_MAGIC) (Some data));
    offs ← wr (d_offsets h) fptr off;
    let h := mk_dir (d_name h) (d_size h) (d_num_files h) (d_inode h) (d_magic h) offs in
    l ← wr (t_data t) (t_dir_ptr t) (mk_data h (dd_ptr d + 1) (dd_count d + 1) fs);
    mret (mk_tool l (t_dir_count t) (t_dir_ptr t) off (t_prev t) (t_next t + 1)).

(** One [-f] argument. *)
Definition add_file (t : tool) (path data : list Z) : out (option tool) :=
  '(dir, fname) ← parse_path path;
  r ← find_dir t dir;
  match r with
  | None => mret None
  | Some t =>
      t ← save_file t fname data;
      mret (Some (mk_tool (t_data t) (t_dir_count t) (t_dir_ptr t) (t_cur_offset t) dir (t_next t)))
  end.

Fixpoint add_files (t : tool) (args : list (list Z * list Z)) : out (option tool) :=
  match args with
  | [] => mret (Some t)
  | (path, data) :: args => r ← add_file t path data; match r with None => mret None | Some t => add_files t args end
  end.

(** ** The image *)

Fixpoint write_files (n : nat) (i : Z) (d : dir_data) : out (list Z) :=
  match n with
  | O => mret []
  | S n =>
      e ← rd (dd_files d) i;
      match e_data e with
      | None => Fault
      | Some data => rest ← write_files n (i + 1) d; mret (file_bytes (e_file e) ++ data ++ rest)
      end
  end.

Fixpoint write_dirs (n : nat) (i : Z) (t : tool) : out (list Z) :=
  match n with
  | O => mret []
  | S n =>
      d ← rd (t_data t) i;
      fs ← write_files (Z.to_nat (d_num_files (dd_dir d))) 0 d;
      rest ← write_dirs n (i + 1) t;
      mret (dir_bytes (dd_dir d) ++ fs ++ rest)
  end.

(** The sum of the sizes of the directories. *)
Fixpoint disk_size (n : nat) (i : Z) (t : tool) : out Z :=
  match n with
  | O => mret 0
  | S n => d ← rd (t_data t) i; s ← disk_size n (i + 1) t; mret (u32 (d_size (dd_dir d) + s))
  end.

(** The offsets of the directories in the root: [data] is indexed by the
    directory of the last argument in every round. *)
Fixpoint root_offsets (n : nat) (i : Z) (offs : list Z) (t : tool) : out (list Z) :=
  match n with
  | O => mret offs
  | S n =>
      o ← rd offs (i - 1);
      d ← rd (t_data t) (t_dir_ptr t - 1);
      offs ← wr offs i (u32 (o + SIZEOF_DIR + d_size (dd_dir d)));
      root_offsets n (i + 1) offs t
  end.

(** The result of [main], and what it wrote: 1 stands for the exit status of
    an aborted run. *)
Definition mkinitrd (args : list (list Z * list Z)) : out (res (list Z)) :=
  r ← (if zlen args =? 0 then mret None else add_files start args);
  match r with
  | None => mret (Err 1)
  | Some t =>
      let n := Z.to_nat (t_dir_count t) in
      body ← write_dirs n 0 t;
      size ← disk_size n 0 t;
      offs ← root_offsets (n - 1) 1 (SIZEOF_DIR :: replicate 4 0) t;
      let root := mk_dir (strncpy [47]) (u32 (SIZEOF_DIR * t_dir_count t)) (t_dir_count t) 1 DIR_MAGIC offs in
      mret (Ok (disk_bytes (mk_disk size HEADER_MAGIC 0 (replicate 5 0)) ++ dir_bytes root ++ body))
  end.

(** ** Proofs

    *** The image of a list of directories *)

(** The arguments for directories with their files, and what the tool keeps
    of them. *)
Definition dir_t : Type := list Z * list (list Z * list Z).
Definition path_of (d f : list Z) : list Z := 47 :: d ++ 47 :: f.
Definition args_of (dirs : list dir_t) : list (list Z * list Z) := concat (map (fun g : dir_t => map (fun x => (path_of g.1 x.1, x.2)) g.2) dirs).

Definition files_size (fs : list (list Z * list Z)) : Z := foldr (fun x n => SIZEOF_FILE + zlen x.2 + n) 0 fs.
Fixpoint file_offs (off : Z) (fs : list (list Z * list Z)) : list Z :=
  match fs with [] => [] | x :: fs => off :: file_offs (off + SIZEOF_FILE + zlen x.2) fs end.
Definition pad {A} (n : nat) (x : A) (l : list A) : list A := l ++ replicate (n - length l) x.
Fixpoint entries (next : Z) (fs : list (list Z * list Z)) : list entry :=
  match fs with [] => [] | x :: fs => mk_entry (mk_file (strncpy x.1) (zlen x.2) next FILE_MAGIC) (Some x.2) :: entries (next + 1) fs end.
Definition data_of (next : Z) (g : dir_t) : dir_data :=
  mk_data (mk_dir (strncpy g.1) (files_size g.2) (zlen g.2) next DIR_MAGIC (pad 5 0 (file_offs SIZEOF_DIR g.2)))
    (zlen g.2) (zlen g.2) (pad 5 zero_entry (entries (next + 1) g.2)).
Fixpoint datas (next : Z) (dirs : list dir_t) : list dir_data :=
  match dirs with [] => [] | g :: dirs => data_of next g :: datas (next + 1 + zlen g.2) dirs end.
Definition inodes (dirs : list dir_t) : Z := foldr (fun g n => 1 + zlen g.2 + n) 0 dirs.

Definition good_name (n : list Z) : Prop := n <> [] /\ zlen n < NAME_MAXLEN /\ Forall (fun c => c <> 0 /\ c <> 47) n.
Record good_dir (g : dir_t) : Prop := {
  g_name : good_name g.1;
  g_files : Forall (fun x => good_name x.1) g.2 /\ NoDup g.2.*1;
  g_count : 1 <= zlen g.2 <= 5;
  g_size : files_size g.2 < 2 ^ 29
}.

(** *** Strings *)

Lemma zlen_cons {A} (x : A) l : zlen (x :: l) = 1 + zlen l.
Proof. unfold zlen. cbn [length]. lia. Qed.

Lemma cstr_app n l : Forall (fun c => c <> 0 /\ c <> 47) n -> cstr (n ++ 0 :: l) = n.
Proof. induction 1 as [| c n [Hc _] _ IH]; cbn; [done |]. by rewrite (proj2 (Z.eqb_neq _ _) Hc), IH. Qed.

Lemma strncpy_eq n : zlen n < NAME_MAXLEN -> strncpy n = n ++ 0 :: replicate (63 - length n) 0.
Proof.
  unfold zlen, NAME_MAXLEN, strncpy. intros Hn. rewrite take_app_ge by lia. f_equal. rewrite take_replicate.
  replace (Nat.min (64 - length n) 64) with (S (63 - length n)) by lia. done.
Qed.

Lemma cstr_strncpy n : good_name n -> cstr (strncpy n) = n.
Proof. intros (_ & Hl & Hn). rewrite strncpy_eq by done. by apply cstr_app. Qed.

Lemma length_strncpy n : length (strncpy n) = 64%nat.
Proof. unfold strncpy. rewrite length_take, length_app, length_replicate. lia. Qed.

Lemma strncmp_name n m : good_name n -> good_name m -> strncmp n (strncpy m) = bool_decide (n = m).
Proof. intros Hn Hm. unfold strncmp. rewrite cstr_strncpy by done. destruct Hn as (_ & Hn & _). unfold zlen, NAME_MAXLEN in Hn. by rewrite take_ge by lia. Qed.

Lemma after_last_slash d f : Forall (fun c => c <> 0 /\ c <> 47) f -> after_last (d ++ 47 :: f) = Some f.
Proof.
  intros Hf. assert (Hnone : after_last f = None) by (induction Hf as [| c f [_ Hc] _ IH]; cbn; [done |]; by rewrite IH, (proj2 (Z.eqb_neq _ _) Hc)).
  induction d as [| c d IH]; cbn; [by rewrite Hnone | by rewrite IH].
Qed.

Lemma up_to_slash_eq d f : Forall (fun c => c <> 0 /\ c <> 47) d -> up_to_slash (d ++ 47 :: f) = Ret d.
Proof. induction 1 as [| c d [_ Hc] _ IH]; cbn; [done |]. by rewrite (proj2 (Z.eqb_neq _ _) Hc), IH. Qed.

Lemma parse_path_of d f : good_name d -> good_name f -> parse_path (path_of d f) = Ret (d, f).
Proof.
  intros (_ & Hl & Hd) (_ & _ & Hf). unfold parse_path, path_of. change (47 :: d ++ 47 :: f) with ((47 :: d) ++ 47 :: f).
  rewrite after_last_slash by done. cbn [app]. rewrite up_to_slash_eq by done. rb. by rewrite ltb_true by done.
Qed.

(** *** Arrays that fill up *)

Lemma pad_lookup {A} n (x : A) l y k : (length l < n)%nat -> pad n x (l ++ y :: k) !! length l = Some y.
Proof. intros Hl. unfold pad. rewrite lookup_app_l by (rewrite length_app; cbn; lia). rewrite lookup_app_r by lia. by rewrite Nat.sub_diag. Qed.

Lemma pad_next {A} n (x : A) l : (length l < n)%nat -> pad n x l !! length l = Some x.
Proof. intros Hl. unfold pad. rewrite lookup_app_r, Nat.sub_diag by lia. apply lookup_replicate. split; [done | lia]. Qed.

Lemma pad_snoc {A} n (x y : A) l : (length l < n)%nat -> <[length l := y]> (pad n x l) = pad n x (l ++ [y]).
Proof.
  intros Hl. unfold pad. rewrite <- (Nat.add_0_r (length l)) at 1. rewrite insert_app_r. rewrite <- app_assoc. f_equal.
  rewrite length_app. cbn [length]. replace (n - length l)%nat with (S (n - (length l + 1))) by lia. done.
Qed.

Lemma pad_last {A} n (x y z : A) l : (length l < n)%nat -> <[length l := z]> (pad n x (l ++ [y])) = pad n x (l ++ [z]).
Proof. intros Hl. rewrite <- !pad_snoc by done. by rewrite list_insert_insert_eq. Qed.

Lemma length_pad {A} n (x : A) l : (length l <= n)%nat -> length (pad n x l) = n.
Proof. intros Hl. unfold pad. rewrite length_app, length_replicate. lia. Qed.

Lemma rd_pad {A} n (x : A) l y k : (length l < n)%nat -> rd (pad n x (l ++ y :: k)) (zlen l) = Ret y.
Proof. intros Hl. apply rd_Ret. split; [apply zlen_nonneg |]. unfold zlen. rewrite Nat2Z.id. by apply pad_lookup. Qed.

Lemma rd_pad_at {A B} n (x : A) l y k (d : list B) : length l = length d -> (length l < n)%nat -> rd (pad n x (l ++ y :: k)) (zlen d) = Ret y.
Proof. intros E Hl. replace (zlen d) with (zlen l) by (unfold zlen; lia). by apply rd_pad. Qed.

Lemma rd_pad_next {A} n (x : A) l : (length l < n)%nat -> rd (pad n x l) (zlen l) = Ret x.
Proof. intros Hl. apply rd_Ret. split; [apply zlen_nonneg |]. unfold zlen. rewrite Nat2Z.id. by apply pad_next. Qed.

Lemma wr_pad {A} n (x : A) l y : (length l < n)%nat -> wr (pad n x l) (zlen l) y = Ret (pad n x (l ++ [y])).
Proof.
  intros Hl. pose proof (zlen_nonneg l). unfold wr. rewrite length_pad by lia. unfold zlen in *. rewrite leb_true, ltb_true by lia. cbn [andb].
  by rewrite Nat2Z.id, pad_snoc.
Qed.

Lemma wr_pad_last {A} n (x : A) l y z : (length l < n)%nat -> wr (pad n x (l ++ [y])) (zlen l) z = Ret (pad n x (l ++ [z])).
Proof.
  intros Hl. pose proof (zlen_nonneg l). unfold wr. rewrite length_pad by (rewrite length_app; cbn; lia). unfold zlen in *. rewrite leb_true, ltb_true by lia. cbn [andb].
  by rewrite Nat2Z.id, pad_last.
Qed.

(** *** One more file *)

Lemma files_size_app a b : files_size (a ++ b) = files_size a + files_size b.
Proof. induction a as [| x a IH]; cbn [app files_size foldr]; [done |]. fold (files_size (a ++ b)). fold (files_size a). lia. Qed.

Lemma files_size_nonneg fs : 0 <= files_size fs.
Proof. induction fs as [| x fs IH]; cbn [files_size foldr]; [done |]. fold (files_size fs). pose proof (zlen_nonneg x.2). unfold SIZEOF_FILE. lia. Qed.

Lemma files_size_one x : files_size [x] = SIZEOF_FILE + zlen x.2.
Proof. cbn. lia. Qed.

Lemma file_offs_snoc fs x : forall o, file_offs o (fs ++ [x]) = file_offs o fs ++ [o + files_size fs].
Proof.
  induction fs as [| y fs IH]; intros o; cbn [app file_offs files_size foldr]; [by rewrite Z.add_0_r |].
  rewrite IH. fold (files_size fs). do 2 f_equal. f_equal. lia.
Qed.

Lemma entries_app a b : forall n, entries n (a ++ b) = entries n a ++ entries (n + zlen a) b.
Proof.
  induction a as [| y a IH]; intros n; cbn [app entries]; [by rewrite Z.add_0_r |]. rewrite IH.
  replace (n + zlen (y :: a)) with (n + 1 + zlen a) by (unfold zlen; cbn; lia). done.
Qed.

Lemma entries_snoc fs x : forall n, entries n (fs ++ [x]) = entries n fs ++ [mk_entry (mk_file (strncpy x.1) (zlen x.2) (n + zlen fs) FILE_MAGIC) (Some x.2)].
Proof. intros n. by rewrite entries_app. Qed.

Lemma length_entries n fs : length (entries n fs) = length fs.
Proof. revert n. induction fs as [| y fs IH]; intros n; cbn; [done | by rewrite IH]. Qed.
Lemma length_file_offs o fs : length (file_offs o fs) = length fs.
Proof. revert o. induction fs as [| y fs IH]; intros o; cbn; [done | by rewrite IH]. Qed.

Lemma not_taken n fs f : good_name f -> Forall (fun x => good_name x.1) fs -> f ∉ fs.*1 ->
  existsb (fun e => strncmp f (f_name (e_file e))) (pad 5 zero_entry (entries n fs)) = false.
Proof.
  intros Hf Hfs Hnew. unfold pad. rewrite existsb_app. apply orb_false_iff. split.
  - revert n. induction Hfs as [| x fs Hx _ IH]; intros n; cbn [entries existsb]; [done |]. cbn [e_file f_name]. rewrite fmap_cons, not_elem_of_cons in Hnew.
    rewrite strncmp_name, bool_decide_eq_false_2 by naive_solver. apply IH. tauto.
  - destruct (existsb _ _) eqn:E; [| done]. apply existsb_exists in E as (e & He & Hc). apply list_elem_of_In, elem_of_replicate in He as [-> _].
    destruct Hf as (Hf & Hl & _). unfold strncmp in Hc. apply bool_decide_eq_true in Hc. cbn in Hc. destruct f; done.
Qed.

Lemma save_next L n d fs f c cnt off prev : (length L < 5)%nat -> (length fs < 5)%nat -> good_name f -> Forall (fun x => good_name x.1) fs -> f ∉ fs.*1 ->
  files_size (fs ++ [(f, c)]) < 2 ^ 30 -> (fs <> [] -> off = SIZEOF_DIR + files_size (removelast fs)) ->
  save_file (mk_tool (pad 5 zero_data (L ++ [data_of n (d, fs)])) cnt (zlen L) off prev (n + 1 + zlen fs)) f c =
  Ret (mk_tool (pad 5 zero_data (L ++ [data_of n (d, fs ++ [(f, c)])])) cnt (zlen L) (SIZEOF_DIR + files_size fs) prev (n + 1 + zlen fs + 1)).
Proof.
  intros HL Hfs5 Hf Hfs Hnew Hsz Hoff. pose proof (zlen_nonneg c) as Hc0. pose proof (files_size_nonneg fs) as Hs0. rewrite files_size_app, files_size_one in Hsz. cbn [snd] in Hsz.
  assert (Hz5 : zlen fs < 5) by (unfold zlen; lia). pose proof (zlen_nonneg fs) as Hz0. unfold SIZEOF_FILE in Hsz.
  assert (Eu : u32 (zlen c) = zlen c) by (apply wrap_small; unfold in_u; lia).
  assert (Es : u32 (files_size fs + (zlen c + SIZEOF_FILE)) = files_size (fs ++ [(f, c)])).
  { rewrite files_size_app, files_size_one. cbn [snd]. unfold SIZEOF_FILE. transitivity (files_size fs + (zlen c + 76)); [apply wrap_small; unfold in_u | ]; lia. }
  assert (En : u32 (zlen fs + 1) = zlen (fs ++ [(f, c)])) by (rewrite zlen_app; change (zlen [(f, c)]) with 1; apply wrap_small; unfold in_u; lia).
  unfold save_file. cbn [t_data t_dir_ptr t_dir_count t_cur_offset t_prev t_next]. rewrite rd_pad by done. rb. unfold data_of. cbn [dd_dir dd_files dd_count dd_ptr d_name d_size d_num_files d_inode d_magic d_offsets fst snd].
  cbv zeta. cbn [d_size d_num_files d_name d_inode d_magic d_offsets]. rewrite not_taken, (proj2 (Z.eqb_neq (zlen fs) MAX_FILES)) by (done || (unfold MAX_FILES; lia)). cbn [orb].
  assert (Eoff : (if zlen fs =? 0 then mret SIZEOF_DIR
     else e ← rd (pad 5 zero_entry (entries (n + 1) fs)) (zlen fs - 1); mret (u32 (off + (SIZEOF_FILE + f_size (e_file e))))) = Ret (SIZEOF_DIR + files_size fs)).
  { destruct fs as [| y fs' _] using rev_ind; [done |]. rewrite (proj2 (Z.eqb_neq _ _)) by (rewrite zlen_app; change (zlen [y]) with 1; pose proof (zlen_nonneg fs'); lia).
    rewrite entries_snoc. replace (zlen (fs' ++ [y]) - 1) with (zlen (entries (n + 1) fs')) by (rewrite zlen_app; change (zlen [y]) with 1; unfold zlen; rewrite length_entries; lia).
    rewrite rd_pad by (rewrite length_entries, length_app in *; cbn in *; lia). rb. cbn [e_file f_size]. rewrite Hoff by (by destruct fs'). rewrite removelast_last.
    rewrite files_size_app, files_size_one in *. unfold SIZEOF_FILE, SIZEOF_DIR in *. pose proof (files_size_nonneg fs'). pose proof (zlen_nonneg y.2). f_equal. transitivity (100 + files_size fs' + (76 + zlen y.2)); [apply wrap_small; unfold in_u |]; lia. }
  rewrite Eoff. rb. replace (zlen fs) with (zlen (entries (n + 1) fs)) at 1 by (unfold zlen; by rewrite length_entries). rewrite wr_pad by (rewrite length_entries; lia). rb.
  replace (zlen fs) with (zlen (file_offs SIZEOF_DIR fs)) at 1 by (unfold zlen; by rewrite length_file_offs). rewrite wr_pad by (rewrite length_file_offs; lia). rb.
  rewrite wr_pad_last by done. rb. rewrite Eu, Es, En. unfold mret, out_ret.
  rewrite entries_snoc, file_offs_snoc. cbn [fst snd]. rewrite !(zlen_app fs). change (zlen [(f, c)]) with 1. done.
Qed.

(** *** The files of one directory, and the directories *)

Definition tool_at (L : list dir_data) (n : Z) (g : dir_t) (prev : list Z) : tool :=
  mk_tool (pad 5 zero_data (L ++ [data_of n g])) (zlen L + 1) (zlen L) (SIZEOF_DIR + files_size (removelast g.2)) prev (n + 1 + zlen g.2).

Lemma add_files_dir L n d rest more : forall fs, (length L < 5)%nat -> fs <> [] -> good_dir (d, fs ++ rest) ->
  add_files (tool_at L n (d, fs) d) (map (fun x => (path_of d x.1, x.2)) rest ++ more) = add_files (tool_at L n (d, fs ++ rest) d) more.
Proof.
  induction rest as [| [f c] rest IH]; intros fs HL Hne Hg; cbn [map app]; [by rewrite app_nil_r |].
  pose proof Hg as [Hd [Hn Hnd] Hc Hs]. cbn [fst snd] in *. replace (fs ++ (f, c) :: rest) with ((fs ++ [(f, c)]) ++ rest) in * by (by rewrite <- app_assoc).
  rewrite <- (IH (fs ++ [(f, c)])) by (done || by destruct fs). cbn [add_files]. unfold add_file.
  apply Forall_app in Hn as [[Hn Hf]%Forall_app _]. rewrite Forall_singleton in Hf. cbn [fst] in Hf.
  rewrite parse_path_of by done. rb. unfold find_dir, tool_at at 1. cbn [t_prev]. rewrite bool_decide_eq_true_2 by done. rb.
  rewrite !fmap_app in Hnd. apply NoDup_app in Hnd as (Hnd & _ & _). apply NoDup_app in Hnd as (_ & Hnd & _).
  rewrite files_size_app in Hs. pose proof (files_size_nonneg rest). rewrite !zlen_app in Hc. change (zlen [(f, c)]) with 1 in Hc. pose proof (zlen_nonneg rest).
  unfold tool_at. cbn [fst snd]. rewrite save_next; [| done | unfold zlen in *; lia | done | done | intros Hin; apply (Hnd _ Hin); by left | lia | done].
  rb. cbn [t_data t_dir_count t_dir_ptr t_cur_offset t_next]. rewrite removelast_last, zlen_app. change (zlen [(f, c)]) with 1. by rewrite !Z.add_assoc.
Qed.

Lemma dir_new d dirs n : d <> [] -> Forall (fun g => good_name g.1) dirs -> d ∉ dirs.*1 ->
  list_find (dir_is d) (pad 5 zero_data (datas n dirs)) = None.
Proof.
  intros Hd Hg Hnew. apply list_find_None. unfold pad. apply Forall_app. split.
  - revert n. induction Hg as [| g dirs Hg _ IH]; intros n; cbn [datas]; [done |]. rewrite fmap_cons, not_elem_of_cons in Hnew.
    constructor; [| apply IH; tauto]. unfold dir_is. cbn. rewrite cstr_strncpy by done. intros <-. tauto.
  - apply Forall_forall. intros x [-> _]%elem_of_replicate. change ([] <> d). congruence.
Qed.

Lemma datas_app a b : forall n, datas n (a ++ b) = datas n a ++ datas (n + inodes a) b.
Proof.
  induction a as [| g a IH]; intros n; cbn [app datas inodes foldr]; [by rewrite Z.add_0_r |]. fold (inodes a). rewrite IH.
  by replace (n + 1 + zlen g.2 + inodes a) with (n + (1 + zlen g.2 + inodes a)) by lia.
Qed.
Lemma inodes_app a b : inodes (a ++ b) = inodes a + inodes b.
Proof. induction a as [| g a IH]; cbn [app inodes foldr]; [done |]. fold (inodes (a ++ b)). fold (inodes a). lia. Qed.
Lemma length_datas n dirs : length (datas n dirs) = length dirs.
Proof. revert n. induction dirs as [| g dirs IH]; intros n; cbn; [done | by rewrite IH]. Qed.
Lemma zlen_datas n dirs : zlen (datas n dirs) = zlen dirs.
Proof. unfold zlen. by rewrite length_datas. Qed.

(** The first file of a new directory. *)
Lemma add_file_first dirs d x ptr off prev : (length dirs < 5)%nat -> Forall good_dir dirs -> d ∉ dirs.*1 -> prev <> d -> good_dir (d, [x]) ->
  add_file (mk_tool (pad 5 zero_data (datas 2 dirs)) (zlen dirs) ptr off prev (2 + inodes dirs)) (path_of d x.1) x.2 =
  Ret (Some (tool_at (datas 2 dirs) (2 + inodes dirs) (d, [x]) d)).
Proof.
  intros HL Hg Hnew Hp [Hd [Hx _] _ Hs]. destruct x as [f c]. cbn [fst snd] in *. rewrite Forall_singleton in Hx. cbn [fst] in Hx.
  unfold add_file. rewrite parse_path_of by done. rb. unfold find_dir. cbn [t_prev t_data t_dir_count t_dir_ptr t_cur_offset t_next].
  rewrite bool_decide_eq_false_2 by congruence.
  rewrite dir_new; [| apply Hd | eapply Forall_impl; [exact Hg | by intros g []] | done].
  rewrite (proj2 (Z.eqb_neq (zlen dirs) MAX_DIRS)) by (unfold zlen, MAX_DIRS; lia).
  rewrite <- (zlen_datas 2 dirs). rewrite rd_pad_next by (by rewrite length_datas).
  rb. rewrite wr_pad by (by rewrite length_datas). rb. cbn [dd_dir dd_ptr dd_count dd_files zero_data zero_dir d_size d_offsets].
  pose proof (save_next (datas 2 dirs) (2 + inodes dirs) d [] f c (zlen (datas 2 dirs) + 1) off prev) as W. unfold data_of at 1 in W. cbn [fst snd] in W.
  change (pad 5 0 (file_offs SIZEOF_DIR [])) with (replicate 5 0) in W. change (pad 5 zero_entry (entries (2 + inodes dirs + 1) [])) with (replicate 5 zero_entry) in W.
  change (files_size []) with 0 in W. change (@zlen (list Z * list Z) []) with 0 in W. 
  rewrite (Z.add_0_r (2 + inodes dirs + 1)) in W. rb. rewrite W; [| by rewrite length_datas | cbn; lia | done | done | apply not_elem_of_nil | cbn [app]; lia | done].
  rb. cbn [t_data t_dir_count t_dir_ptr t_cur_offset t_next]. done.
Qed.

Lemma good_dir_one d x fs : good_dir (d, x :: fs) -> good_dir (d, [x]).
Proof.
  intros [Hd [Hx _] _ Hs]. cbn [fst snd] in *. apply Forall_cons in Hx as [Hx _]. pose proof (files_size_nonneg fs). pose proof (files_size_app [x] fs) as E. cbn [app] in E.
  split; cbn [fst snd]; [done | split; [by constructor | apply NoDup_singleton] | done | lia].
Qed.

Lemma add_files_dirs rest : forall dirs ptr off prev, Forall good_dir (dirs ++ rest) -> NoDup (dirs ++ rest).*1 -> zlen (dirs ++ rest) <= MAX_DIRS ->
  prev ∉ rest.*1 -> exists ptr' off' prev',
  add_files (mk_tool (pad 5 zero_data (datas 2 dirs)) (zlen dirs) ptr off prev (2 + inodes dirs)) (args_of rest) =
  Ret (Some (mk_tool (pad 5 zero_data (datas 2 (dirs ++ rest))) (zlen (dirs ++ rest)) ptr' off' prev' (2 + inodes (dirs ++ rest)))) /\
  ptr' = match rest with [] => ptr | _ => zlen (dirs ++ rest) - 1 end.
Proof.
  induction rest as [| g rest IH]; intros dirs ptr off prev Hg Hnd Hn Hp.
  { exists ptr, off, prev. rewrite app_nil_r. done. }
  cbn [args_of map concat]. fold (args_of rest).
  assert (EQ : dirs ++ g :: rest = (dirs ++ [g]) ++ rest) by (by rewrite <- app_assoc). rewrite EQ in Hg, Hnd, Hn |- *. destruct g as [d fs].
  pose proof Hg as [[Hgd Hgf]%Forall_app _]%Forall_app. rewrite Forall_singleton in Hgf.
  assert (HL : (length dirs < 5)%nat) by (unfold zlen, MAX_DIRS in Hn; rewrite !length_app in Hn; cbn in Hn; lia).
  rewrite fmap_cons, not_elem_of_cons in Hp. cbn [fst] in Hp. pose proof Hnd as Hnd'. rewrite !fmap_app in Hnd'.
  apply NoDup_app in Hnd' as ([_ [Hda _]]%NoDup_app & Hdr & _).
  destruct fs as [| x fs]; [destruct Hgf as [_ _ [Hc _] _]; exfalso; change (1 <= 0) in Hc; lia |]. cbn [map app add_files fst snd].
  rewrite add_file_first; [| done | done | intros Hin; apply (Hda _ Hin); by left | tauto | by eapply good_dir_one].
  rb. rewrite add_files_dir by (done || by rewrite ?length_datas). cbn [app].
  edestruct (IH (dirs ++ [(d, x :: fs)]) (zlen dirs)) as (p & o & q & E & Ep); [done | done | done | |].
  { intros Hin. apply (Hdr d); [rewrite elem_of_app; right; by left | done]. }
  exists p, o, q. split.
  - etrans; [| exact E]. unfold tool_at. cbn [fst snd]. rewrite datas_app, zlen_datas. cbn [datas].
    rewrite zlen_app, inodes_app. change (zlen [(d, x :: fs)]) with 1.
    replace (2 + (inodes dirs + inodes [(d, x :: fs)])) with (2 + inodes dirs + 1 + zlen (x :: fs)) by (cbn [inodes foldr snd]; lia). done.
  - rewrite Ep. destruct rest; [| done]. rewrite app_nil_r, zlen_app. change (zlen [(d, x :: fs)]) with 1. lia.
Qed.

(** *** The image *)

Definition file_image (n : Z) (x : list Z * list Z) : list Z := file_bytes (mk_file (strncpy x.1) (zlen x.2) n FILE_MAGIC) ++ x.2.
Fixpoint files_image (n : Z) (fs : list (list Z * list Z)) : list Z :=
  match fs with [] => [] | x :: fs => file_image n x ++ files_image (n + 1) fs end.
Definition dir_image (n : Z) (g : dir_t) : list Z := dir_bytes (dd_dir (data_of n g)) ++ files_image (n + 1) g.2.
Fixpoint dirs_image (n : Z) (dirs : list dir_t) : list Z :=
  match dirs with [] => [] | g :: dirs => dir_image n g ++ dirs_image (n + 1 + zlen g.2) dirs end.

Definition dirs_size (dirs : list dir_t) : Z := foldr (fun g n => SIZEOF_DIR + files_size g.2 + n) 0 dirs.
Fixpoint dir_offs (off : Z) (dirs : list dir_t) : list Z :=
  match dirs with [] => [] | g :: dirs => off :: dir_offs (off + SIZEOF_DIR + files_size g.2) dirs end.
Definition content_size (dirs : list dir_t) : Z := foldr (fun g n => files_size g.2 + n) 0 dirs.

Definition root_of (dirs : list dir_t) : dir_header :=
  mk_dir (strncpy [47]) (SIZEOF_DIR * zlen dirs) (zlen dirs) 1 DIR_MAGIC (pad 5 0 (dir_offs SIZEOF_DIR dirs)).
Definition image (dirs : list dir_t) : list Z :=
  disk_bytes (mk_disk (content_size dirs) HEADER_MAGIC 0 (replicate 5 0)) ++ dir_bytes (root_of dirs) ++ dirs_image 2 dirs.

(** The offsets in the root are right when all the directories but the last
    have the size of the one before the last. *)
Definition even_dirs (dirs : list dir_t) : Prop :=
  forall g h, g ∈ removelast dirs -> last (removelast dirs) = Some h -> files_size g.2 = files_size h.2.

Lemma write_files_image n fs : forall dn h p q, zlen (dn ++ fs) <= 5 ->
  write_files (length fs) (zlen dn) (mk_data h p q (pad 5 zero_entry (entries n (dn ++ fs)))) = Ret (files_image (n + zlen dn) fs).
Proof.
  induction fs as [| x fs IH]; intros dn h p q Hn; cbn [length write_files files_image]; [done |]. cbn [dd_files].
  assert (Hrd : rd (pad 5 zero_entry (entries n (dn ++ x :: fs))) (zlen dn) = Ret (mk_entry (mk_file (strncpy x.1) (zlen x.2) (n + zlen dn) FILE_MAGIC) (Some x.2))).
  { rewrite entries_app. cbn [entries]. eapply rd_pad_at; [by rewrite length_entries |]. rewrite length_entries. unfold zlen in Hn. rewrite !length_app in Hn. cbn in Hn. lia. }
  rewrite Hrd. rb. cbn [e_data e_file]. assert (EQ : dn ++ x :: fs = (dn ++ [x]) ++ fs) by (by rewrite <- app_assoc). rewrite EQ in *.
  replace (zlen dn + 1) with (zlen (dn ++ [x])) by (by rewrite zlen_app). rewrite IH by done. rb.
  unfold file_image. rewrite zlen_app, <- app_assoc, Z.add_assoc. done.
Qed.

Lemma write_files_dir n g : zlen g.2 <= 5 -> write_files (length g.2) 0 (data_of n g) = Ret (files_image (n + 1) g.2).
Proof.
  intros Hn. pose proof (write_files_image (n + 1) g.2 [] (dd_dir (data_of n g)) (zlen g.2) (zlen g.2) Hn) as W.
  change (@zlen (list Z * list Z) []) with 0 in W. by rewrite Z.add_0_r in W.
Qed.

Lemma content_size_bounds dirs : Forall good_dir dirs -> 0 <= content_size dirs <= zlen dirs * 2 ^ 29.
Proof.
  induction 1 as [| g dirs Hg _ IH]; cbn [content_size foldr]; [by cbn |]. fold (content_size dirs). pose proof (files_size_nonneg g.2).
  pose proof (g_size g Hg). unfold zlen in *. cbn [length]. lia.
Qed.

Lemma write_dirs_image t dirs : forall dn, Forall good_dir (dn ++ dirs) -> zlen (dn ++ dirs) <= 5 -> t_data t = pad 5 zero_data (datas 2 (dn ++ dirs)) ->
  write_dirs (length dirs) (zlen dn) t = Ret (dirs_image (2 + inodes dn) dirs) /\ disk_size (length dirs) (zlen dn) t = Ret (content_size dirs).
Proof.
  induction dirs as [| g dirs IH]; intros dn Hg Hn Ht; cbn [length write_dirs disk_size dirs_image content_size foldr]; [done |]. fold (content_size dirs).
  assert (Hrd : rd (t_data t) (zlen dn) = Ret (data_of (2 + inodes dn) g)).
  { rewrite Ht, datas_app. cbn [datas]. eapply rd_pad_at; [by rewrite length_datas |]. rewrite length_datas. unfold zlen in Hn. rewrite length_app in Hn. cbn in Hn. lia. }
  pose proof Hg as Hg'. apply Forall_app in Hg' as [_ Hg']. pose proof (content_size_bounds _ Hg') as Hb. apply Forall_cons in Hg' as [Hgg _].
  assert (EQ : dn ++ g :: dirs = (dn ++ [g]) ++ dirs) by (by rewrite <- app_assoc). rewrite EQ in Hg, Hn, Ht.
  destruct (IH (dn ++ [g]) Hg Hn Ht) as [IH1 IH2]. rewrite Hrd. rb.
  rewrite zlen_app in IH1, IH2. change (zlen [g]) with 1 in IH1, IH2. rewrite IH1, IH2. cbn [dd_dir data_of d_num_files d_size]. split.
  - replace (Z.to_nat (zlen g.2)) with (length g.2) by (unfold zlen; lia). rewrite write_files_dir by apply Hgg. rb. rb.
    unfold dir_image. rewrite inodes_app, <- app_assoc. replace (2 + (inodes dn + inodes [g])) with (2 + inodes dn + 1 + zlen g.2) by (cbn [inodes foldr]; lia). done.
  - transitivity (Ret (u32 (files_size g.2 + content_size dirs)) : out Z); [done |]. f_equal. apply wrap_small. unfold in_u.
    cbn [content_size foldr] in Hb. fold (content_size dirs) in Hb. rewrite zlen_app in Hn. unfold zlen in *. rewrite length_app in Hn. cbn [length] in *. lia.
Qed.

(** *** The offsets in the root *)

Lemma dirs_size_app a b : dirs_size (a ++ b) = dirs_size a + dirs_size b.
Proof. induction a as [| x a IH]; cbn [app dirs_size foldr]; [done |]. fold (dirs_size (a ++ b)). fold (dirs_size a). lia. Qed.

Lemma dir_offs_snoc a g : forall o, dir_offs o (a ++ [g]) = dir_offs o a ++ [o + dirs_size a].
Proof.
  induction a as [| y a IH]; intros o; cbn [app dir_offs dirs_size foldr]; [by rewrite Z.add_0_r |]. fold (dirs_size a). rewrite IH.
  replace (o + SIZEOF_DIR + files_size y.2 + dirs_size a) with (o + (SIZEOF_DIR + files_size y.2 + dirs_size a)) by lia. done.
Qed.
Lemma length_dir_offs o dirs : length (dir_offs o dirs) = length dirs.
Proof. revert o. induction dirs as [| y dirs IH]; intros o; cbn; [done | by rewrite IH]. Qed.

Lemma dirs_size_bounds dirs : Forall good_dir dirs -> 0 <= dirs_size dirs <= zlen dirs * (2 ^ 29 + 100).
Proof.
  induction 1 as [| g dirs Hg _ IH]; cbn [dirs_size foldr]; [by cbn |]. fold (dirs_size dirs). pose proof (files_size_nonneg g.2).
  pose proof (g_size g Hg). unfold zlen, SIZEOF_DIR in *. cbn [length]. lia.
Qed.

(** The directory that is read in every round, and its size. *)
Lemma root_offsets_image t s z : rd (t_data t) (t_dir_ptr t - 1) = Ret s -> d_size (dd_dir s) = z -> forall rest dn g, Forall good_dir (dn ++ g :: rest) -> zlen (dn ++ g :: rest) <= 5 ->
  Forall (fun g => files_size g.2 = z) (removelast (g :: rest)) ->
  root_offsets (length rest) (zlen dn + 1) (pad 5 0 (dir_offs SIZEOF_DIR (dn ++ [g]))) t = Ret (pad 5 0 (dir_offs SIZEOF_DIR (dn ++ g :: rest))).
Proof.
  intros Hs Hz. induction rest as [| h rest IH]; intros dn g Hg Hn He; cbn [length root_offsets]; [done |].
  assert (Hlen : (length dn + 2 <= 5)%nat) by (unfold zlen in Hn; rewrite length_app in Hn; cbn in Hn; lia).
  rewrite (dir_offs_snoc dn g) at 1. rewrite Z.add_simpl_r, (rd_pad_at 5 0 (dir_offs SIZEOF_DIR dn) _ [] dn) by (rewrite length_dir_offs; lia).
  rb. rewrite Hs. rb. rewrite Hz. cbn [removelast] in He. apply Forall_cons in He as [He1 He].
  assert (EQ : dn ++ g :: h :: rest = (dn ++ [g]) ++ h :: rest) by (by rewrite <- app_assoc). rewrite EQ in *.
  assert (Ev : u32 (SIZEOF_DIR + dirs_size dn + SIZEOF_DIR + z) = SIZEOF_DIR + dirs_size (dn ++ [g])).
  { apply Forall_app in Hg as [Hg _]. pose proof (dirs_size_bounds _ Hg) as Hb. unfold zlen in Hb. rewrite length_app in Hb. rewrite dirs_size_app in *. cbn [dirs_size foldr length] in *. unfold SIZEOF_DIR in *.
    rewrite He1 in *. transitivity (100 + dirs_size dn + 100 + z); [apply wrap_small; unfold in_u |]; lia. }
  assert (W : wr (pad 5 0 (dir_offs SIZEOF_DIR (dn ++ [g]))) (zlen dn + 1) (SIZEOF_DIR + dirs_size (dn ++ [g])) = Ret (pad 5 0 (dir_offs SIZEOF_DIR ((dn ++ [g]) ++ [h])))).
  { rewrite (dir_offs_snoc (dn ++ [g]) h), <- wr_pad by (rewrite length_dir_offs, length_app; cbn; lia). f_equal.
    unfold zlen. rewrite length_dir_offs, length_app. cbn. lia. }
  rewrite Ev, W. rb. replace (zlen dn + 1 + 1) with (zlen (dn ++ [g]) + 1) by (rewrite zlen_app; done). by apply IH.
Qed.

Lemma root_offsets_dirs t dirs : dirs <> [] -> Forall good_dir dirs -> zlen dirs <= 5 -> even_dirs dirs ->
  t_data t = pad 5 zero_data (datas 2 dirs) -> t_dir_ptr t = zlen dirs - 1 ->
  root_offsets (length dirs - 1) 1 (SIZEOF_DIR :: replicate 4 0) t = Ret (pad 5 0 (dir_offs SIZEOF_DIR dirs)).
Proof.
  intros Hne Hg Hn He Ht Hp. destruct dirs as [| g rest]; [done |]. replace (length (g :: rest) - 1)%nat with (length rest) by (cbn; lia).
  destruct rest as [| l ds _] using rev_ind; [done |]. rewrite app_comm_cons in *.
  destruct (exists_last (l := g :: ds)) as (a & h & Ea); [done |].
  assert (Hrd : rd (t_data t) (t_dir_ptr t - 1) = Ret (data_of (2 + inodes a) h)).
  { rewrite Ht, Hp, Ea, datas_app, datas_app, <- app_assoc. rewrite !zlen_app, Z.add_simpl_r. change (zlen [h]) with 1. rewrite Z.add_simpl_r.
    eapply rd_pad_at; [by rewrite length_datas |]. rewrite length_datas. unfold zlen in Hn. rewrite Ea, !length_app in Hn. cbn in Hn. lia. }
  apply (root_offsets_image t _ (files_size h.2) Hrd eq_refl (ds ++ [l]) []); [done | done |]. rewrite app_comm_cons, removelast_last.
  apply Forall_forall. intros x Hx. apply He; rewrite removelast_last; [done |]. rewrite Ea. apply last_snoc.
Qed.

Lemma args_of_some dirs : dirs <> [] -> Forall good_dir dirs -> zlen (args_of dirs) <> 0.
Proof.
  intros Hne Hg. destruct dirs as [| [d [| x fs]] dirs]; [done | apply Forall_cons in Hg as [[_ _ [Hc _] _] _]; change (1 <= 0) in Hc; lia |].
  cbn [args_of map concat app snd]. rewrite zlen_cons.
  match goal with |- 1 + zlen ?l <> 0 => pose proof (zlen_nonneg l) end. lia.
Qed.

(** The whole program: the image of the directories it is given, up to five
    with up to five files each. *)
Lemma mkinitrd_image dirs : dirs <> [] -> Forall good_dir dirs -> NoDup dirs.*1 -> zlen dirs <= MAX_DIRS -> even_dirs dirs ->
  mkinitrd (args_of dirs) = Ret (Ok (image dirs)).
Proof.
  intros Hne Hg Hnd Hn He. unfold MAX_DIRS in Hn.
  destruct (add_files_dirs dirs [] 0 0 []) as (p & o & q & E & Ep); [done | done | done | |].
  { intros ([d fs] & Ed & Hd)%list_elem_of_fmap. rewrite Forall_forall in Hg. destruct (Hg _ Hd) as [[Hx _] _ _ _]. by rewrite <- Ed in Hx. }
  cbn [app] in E, Ep. change (mk_tool (pad 5 zero_data (datas 2 [])) (zlen []) 0 0 [] (2 + inodes [])) with start in E.
  pose proof (args_of_some dirs Hne Hg) as Ha.
  unfold mkinitrd. rewrite (proj2 (Z.eqb_neq _ _) Ha), E. rb. cbn [t_dir_count].
  set (t := mk_tool _ _ _ _ _ _). replace (Z.to_nat (zlen dirs)) with (length dirs) by (unfold zlen; lia).
  destruct (write_dirs_image t dirs [] Hg Hn eq_refl) as [W1 W2]. change (@zlen dir_t []) with 0 in W1, W2. rewrite W1, W2. rb. rb.
  rewrite root_offsets_dirs; [| done | done | done | done | done | by destruct dirs]. rb.
  replace (u32 (SIZEOF_DIR * zlen dirs)) with (SIZEOF_DIR * zlen dirs); [done |]. symmetry. apply wrap_small. unfold in_u, SIZEOF_DIR. pose proof (zlen_nonneg dirs). lia.
Qed.



(** *** Sizes of the images *)

Definition FILE_LENS : list nat := [64; 4; 4; 4]%nat.
Definition DIR_LENS : list nat := ([64; 4; 4; 4; 4] ++ replicate 5 4)%nat.

Lemma file_shaped n (x : list Z * list Z) : shaped FILE_LENS (file_fields (mk_file (strncpy x.1) (zlen x.2) n FILE_MAGIC)).
Proof. unfold shaped, FILE_LENS, file_fields. cbn [fmap list_fmap f_name f_size f_inode f_magic]. unfold dword. by rewrite length_strncpy, !length_le_bytes. Qed.

Lemma dwords_shaped k : @length Z <$> (dword <$> k) = replicate (length k) 4%nat.
Proof. induction k as [| v k IH]; [done |]. by rewrite !fmap_cons, IH. Qed.

Lemma dir_shaped nm a b c d l : (length l <= 5)%nat -> shaped DIR_LENS (dir_fields (mk_dir (strncpy nm) a b c d (pad 5 0 l))).
Proof.
  intros Hl. unfold shaped, DIR_LENS, dir_fields. rewrite fmap_app. cbn [fmap list_fmap d_name d_size d_num_files d_inode d_magic d_offsets]. unfold dword at 1 2 3 4. rewrite length_strncpy, !length_le_bytes.
  by rewrite dwords_shaped, length_pad.
Qed.

Lemma zlen_shaped lens fs : shaped lens fs -> zlen (concat fs) = Z.of_nat (sum_list lens).
Proof. unfold shaped. intros <-. apply zlen_concat. Qed.

Lemma zlen_files_image fs : forall n, zlen (files_image n fs) = files_size fs.
Proof.
  induction fs as [| x fs IH]; intros n; cbn [files_image files_size foldr]; [done |]. fold (files_size fs). unfold file_image, file_bytes.
  rewrite !zlen_app, IH, (zlen_shaped _ _ (file_shaped n x)). cbn. unfold SIZEOF_FILE. lia.
Qed.

Lemma zlen_dir_image n g : zlen g.2 <= 5 -> zlen (dir_image n g) = SIZEOF_DIR + files_size g.2.
Proof.
  intros Hn. unfold dir_image, dir_bytes. rewrite zlen_app, zlen_files_image. f_equal.
  apply (zlen_shaped DIR_LENS), dir_shaped. rewrite length_file_offs. unfold zlen in Hn. lia.
Qed.

Lemma zlen_dirs_image dirs : Forall good_dir dirs -> forall n, zlen (dirs_image n dirs) = dirs_size dirs.
Proof.
  induction 1 as [| g dirs Hg _ IH]; intros n; cbn [dirs_image dirs_size foldr]; [done |]. fold (dirs_size dirs).
  rewrite zlen_app, IH, zlen_dir_image by apply Hg. done.
Qed.

Lemma files_image_app a b : forall n, files_image n (a ++ b) = files_image n a ++ files_image (n + zlen a) b.
Proof.
  induction a as [| x a IH]; intros n; cbn [app files_image]; [by rewrite Z.add_0_r |]. rewrite IH, <- app_assoc.
  replace (n + zlen (x :: a)) with (n + 1 + zlen a) by (unfold zlen; cbn; lia). done.
Qed.

Lemma dirs_image_app a b : forall n, dirs_image n (a ++ b) = dirs_image n a ++ dirs_image (n + inodes a) b.
Proof.
  induction a as [| g a IH]; intros n; cbn [app dirs_image inodes foldr]; [by rewrite Z.add_0_r |]. fold (inodes a). rewrite IH, <- app_assoc.
  by replace (n + (1 + zlen g.2 + inodes a)) with (n + 1 + zlen g.2 + inodes a) by lia.
Qed.

(** The offsets of the entries. *)
Lemma file_offs_lookup a x b : forall o, file_offs o (a ++ x :: b) !! length a = Some (o + files_size a).
Proof.
  induction a as [| y a IH]; intros o; cbn [app file_offs files_size foldr length lookup list_lookup]; [by rewrite Z.add_0_r |].
  fold (files_size a). etrans; [apply IH |]. f_equal. lia.
Qed.
Lemma dir_offs_lookup a x b : forall o, dir_offs o (a ++ x :: b) !! length a = Some (o + dirs_size a).
Proof.
  induction a as [| y a IH]; intros o; cbn [app dir_offs dirs_size foldr length lookup list_lookup]; [by rewrite Z.add_0_r |].
  fold (dirs_size a). etrans; [apply IH |]. f_equal. lia.
Qed.

Lemma dir_fields_offset h n k o l : d_offsets h = pad n 0 l -> l !! k = Some o -> dir_fields h !! (5 + k)%nat = Some (dword o).
Proof.
  intros Eh Hk. change (dir_fields h !! (5 + k)%nat) with ((dword <$> d_offsets h) !! k). rewrite Eh, list_lookup_fmap. unfold pad.
  by rewrite (lookup_app_l_Some _ _ _ _ Hk).
Qed.



(** Where an entry is in its directory. *)
Lemma dir_image_split n g u x v : zlen g.2 <= 5 -> g.2 = u ++ x :: v ->
  exists a b, dir_image n g = a ++ file_image (n + 1 + zlen u) x ++ b /\ zlen a = SIZEOF_DIR + files_size u.
Proof.
  intros Hn Eg. exists (dir_bytes (dd_dir (data_of n g)) ++ files_image (n + 1) u), (files_image (n + 1 + zlen u + 1) v). split.
  - unfold dir_image. rewrite Eg, files_image_app. cbn [files_image]. by rewrite <- app_assoc.
  - rewrite zlen_app, zlen_files_image. f_equal. apply (zlen_shaped DIR_LENS), dir_shaped. rewrite length_file_offs. unfold zlen in Hn. lia.
Qed.

Lemma root_image_split dirs u g v : Forall good_dir dirs -> zlen dirs <= 5 -> dirs = u ++ g :: v ->
  exists a b, dir_bytes (root_of dirs) ++ dirs_image 2 dirs = a ++ dir_image (2 + inodes u) g ++ b /\ zlen a = SIZEOF_DIR + dirs_size u.
Proof.
  intros Hg Hn ->. exists (dir_bytes (root_of (u ++ g :: v)) ++ dirs_image 2 u), (dirs_image (2 + inodes u + 1 + zlen g.2) v). split.
  - rewrite dirs_image_app. cbn [dirs_image]. by rewrite <- app_assoc.
  - apply Forall_app in Hg as [Hg _]. rewrite zlen_app, zlen_dirs_image by done. f_equal. apply (zlen_shaped DIR_LENS), dir_shaped. rewrite length_dir_offs. unfold zlen in Hn. lia.
Qed.

(** The numbers of a good directory fit in their fields. *)
Lemma good_dir_fits g u x v : good_dir g -> g.2 = u ++ x :: v -> good_name x.1 /\ x.1 ∉ u.*1 /\ 0 <= zlen u < 5 /\ 0 <= zlen x.2 < 2 ^ 29 /\ 0 <= files_size u < 2 ^ 29.
Proof.
  intros [_ [Hf Hnd] Hc Hs] Eg. rewrite Eg in *. apply Forall_app in Hf as [_ [Hx _]%Forall_cons]. rewrite fmap_app in Hnd. apply NoDup_app in Hnd as (_ & Hnd & _).
  rewrite zlen_app in Hc. rewrite files_size_app in Hs. pose proof (files_size_nonneg u). pose proof (files_size_app [x] v) as E. rewrite files_size_one in E. cbn [app] in E.
  pose proof (files_size_nonneg v). pose proof (zlen_nonneg x.2). pose proof (zlen_nonneg u). rewrite zlen_cons in Hc. pose proof (zlen_nonneg v). unfold SIZEOF_FILE in *.
  split; [done |]. split; [intros Hin; apply (Hnd _ Hin); by left |]. lia.
Qed.

Lemma good_dirs_fit dirs u g v : Forall good_dir dirs -> NoDup dirs.*1 -> zlen dirs <= 5 -> dirs = u ++ g :: v ->
  good_dir g /\ g.1 ∉ u.*1 /\ Forall good_dir u /\ 0 <= zlen u < 5 /\ 0 <= dirs_size u < 5 * (2 ^ 29 + 100) /\ 0 <= inodes u < 50.
Proof.
  intros Hg Hnd Hn ->. apply Forall_app in Hg as [Hu [Hg _]%Forall_cons]. rewrite fmap_app in Hnd. apply NoDup_app in Hnd as (_ & Hnd & _).
  rewrite zlen_app in Hn. pose proof (dirs_size_bounds _ Hu). pose proof (zlen_nonneg u). rewrite zlen_cons in Hn. pose proof (zlen_nonneg v).
  assert (Hi : 0 <= inodes u <= zlen u * 6).
  { clear -Hu. induction Hu as [| h u Hh _ IH]; cbn [inodes foldr]; [by cbn |]. fold (inodes u). pose proof (g_count h Hh). unfold zlen in *. cbn [length]. lia. }
  split; [done |]. split; [intros Hin; apply (Hnd _ Hin); by left |]. split; [done |]. lia.
Qed.

End Initrd.
