(* ===== verification/Initramfs.v ===== *)
(** * The initial ramdisk as the kernel reads it (fs/initramfs.c)

    The image is part of the kernel: [ram] is the memory from [ramfs_start]
    on.  Headers are read at the offsets of Initrd; names are compared as
    [kstrcmp_s] does (see Util).  Dentries, inodes and open files are those
    of Dentry and File; what this file system keeps for an inode or an open
    file is in stores of its own, under the addresses in [i_private] and
    [f_private]. *)

From S2P Require Import Prelude Bytes Hashmap Dlist Memory PageAlloc Slab Dentry File Initrd.
Import Bytes Dlist Memory Dentry File.

Module Initramfs.

Definition O_RDONLY : Z := 2.

(** The operations this file system puts in the tables. *)
Inductive op := Lookup | Read | Open | Close | Seek.

Record i_private_t := mk_ip { ip_pstart : Z; ip_vstart : Z }.
Record f_private_t := mk_fp { fp_mapped : bool; fp_num_mapped : Z; fp_pstart : Z; fp_vstart : Z }.
Record superblock := mk_sb { s_root : Z; s_magic : Z; s_count : Z; s_private : Z; s_ops : Z; s_type : Z }.

(** [offsetof(inode_t, i_list)] and the lists of a superblock. *)
Definition ILIST (i : Z) : Z := i + 80.
Definition S_INO (sb : Z) : Z := sb + 72.
Definition S_INO_DIRTY (sb : Z) : Z := sb + 88.
Definition S_INSTANCES (sb : Z) : Z := sb + 128.

Definition ROUND_DOWN (a n : Z) : Z := a - a mod n.

Section initramfs.
Context {C : Type} `{EntrySource C}.
Variable ramfs_start : Z.

(** [i_sb]: the superblock of an inode; [next_obj]: the next [kzalloc]. *)
Record irfs := mk_irfs {
  sys : fsys op C;
  ram : list Z;
  privs : gmap Z i_private_t;
  fprivs : gmap Z f_private_t;
  i_sb : gmap Z Z;
  supers : gmap Z superblock;
  next_obj : Z
}.

Definition fscore (s : irfs) : fs op C := core (sys s).
Definition set_sys (v : fsys op C) (s : irfs) : irfs := mk_irfs v (ram s) (privs s) (fprivs s) (i_sb s) (supers s) (next_obj s).
Definition set_fscore (c : fs op C) (s : irfs) : irfs := set_sys (set_core c (sys s)) s.
Definition put_priv (a : Z) (p : i_private_t) (s : irfs) : irfs := mk_irfs (sys s) (ram s) (<[a := p]> (privs s)) (fprivs s) (i_sb s) (supers s) (next_obj s).
Definition put_fpriv (a : Z) (p : f_private_t) (s : irfs) : irfs := mk_irfs (sys s) (ram s) (privs s) (<[a := p]> (fprivs s)) (i_sb s) (supers s) (next_obj s).
Definition put_sb (a : Z) (p : superblock) (s : irfs) : irfs := mk_irfs (sys s) (ram s) (privs s) (fprivs s) (i_sb s) (<[a := p]> (supers s)) (next_obj s).
Definition set_i_sb (a sb : Z) (s : irfs) : irfs := mk_irfs (sys s) (ram s) (privs s) (fprivs s) (<[a := sb]> (i_sb s)) (supers s) (next_obj s).

(** A new object of [kzalloc]. *)
Definition new_obj (s : irfs) : Z * irfs := (next_obj s, mk_irfs (sys s) (ram s) (privs s) (fprivs s) (i_sb s) (supers s) (next_obj s + 1)).

(** Links that are written whether the object is new or not. *)
Definition link_node (a : Z) (m : links) : links := match m !! a with Some _ => m | None => <[a := mk_links 0 0]> m end.

(** ** Reading the image *)

Definition get32 (s : irfs) (a : Z) : out Z := rd_le (ram s) (a - ramfs_start) 4.

Fixpoint rd_str (l : list Z) : out (list Z) :=
  match l with [] => Fault | c :: l => if c =? 0 then mret [] else s ← rd_str l; mret (c :: s) end.

(** [kstrcmp_s(a, name) == 0]. *)
Definition name_is (s : irfs) (a : Z) (name : list Z) : out bool :=
  if a <? ramfs_start then Fault else n ← rd_str (drop (Z.to_nat (a - ramfs_start)) (ram s)); mret (bool_decide (n = name)).

(** ** Inodes *)

Definition initramfs_inode_alloc (s : irfs) (sb : Z) : out (res Z * irfs) :=
  '(r, c) ← inode_generic_alloc (fscore s) 0;
  let s := set_fscore c s in
  match r with
  | Err e => mret (Err e, s)
  | Ok a =>
      i ← at_ptr (inos (fscore s)) a;
      let i := mk_inode 0 0 (i_ino i) 0 (i_count i) (i_flags i) (i_mask i) (i_private i) (i_iops i) (i_fops i) in
      let c := fscore s in
      let c := set_inode_stores (<[a := i]> (inos c)) (<[i_iops i := mk_iops (Some Lookup) None]> (iops c))
                 (<[i_fops i := mk_fops (Some Read) None (Some Open) (Some Close) (Some Seek)]> (fops c))
                 (inode_cache c) (inode_ops_cache c) (file_ops_cache c) c in
      lk ← list_append (link_node (ILIST a) (lnk c)) (S_INO sb) (ILIST a);
      mret (Ok a, set_i_sb a sb (set_fscore (set_lnk lk c) s))
  end.

Definition initramfs_inode_destroy (s : irfs) (ino : Z) : out (Z * irfs) :=
  '(r, c) ← inode_generic_dealloc (fscore s) ino; mret (r, set_fscore c s).

(** The search of a directory at [dh]: where the entry is, and its inode
    number, size and flags. *)
Fixpoint find_entry (n : nat) (i : Z) (s : irfs) (dh : Z) (name : list Z) : out (option (Z * Z * Z * Z)) :=
  match n with
  | O => mret None
  | S n =>
      i_offset ← get32 s (dh + Initrd.D_OFFSETS + 4 * i);
      let e := dh + i_offset in
      m ← get32 s (e + Initrd.D_MAGIC);
      is_dir ← (if m =? Initrd.DIR_MAGIC then name_is s e name else mret false);
      if (is_dir : bool) then
        ino ← get32 s (e + Initrd.D_INODE); size ← get32 s (e + Initrd.H_SIZE);
        mret (Some (i_offset, ino, size, T_IFDIR))
      else
        m ← get32 s (e + Initrd.F_MAGIC);
        is_file ← (if m =? Initrd.FILE_MAGIC then name_is s e name else mret false);
        if (is_file : bool) then
          ino ← get32 s (e + Initrd.F_INODE); size ← get32 s (e + Initrd.H_SIZE);
          mret (Some (i_offset, ino, size, T_IFREG))
        else find_entry n (i + 1) s dh name
  end.

(** Where the entry starts; both branches of the test give the same physical
    address, and files have no virtual one. *)
Definition entry_private (ip : i_private_t) (parent_size i_offset i_size i_flags : Z) : i_private_t :=
  let parent_start := u32 (ip_pstart ip) in
  let boundary := ROUND_DOWN parent_start 4096 in
  let off_start := u32 (parent_start + i_offset - boundary) in
  if has i_flags T_IFDIR && (4096 <? u32 (off_start + i_size)) then mk_ip (u64 (ip_pstart ip + i_offset)) (u64 (ip_pstart ip + i_offset))
  else mk_ip (u64 (ip_pstart ip + i_offset)) (if has i_flags T_IFDIR then u64 (ip_vstart ip + i_offset) else 0).

(** [name] is [None] for a null pointer. *)
Definition initramfs_inode_lookup (s : irfs) (parent : Z) (name : option (list Z)) : out (res Z * irfs) :=
  match name with
  | None => mret (Err EINVAL, s)
  | Some name =>
      if parent =? 0 then mret (Err EINVAL, s)
      else
        p ← get_dent (fscore s) parent;
        pi ← at_ptr (inos (fscore s)) (d_inode p);
        if negb (has (i_flags pi) T_IFDIR) then mret (Err ENOTDIR, s)
        else
          ip ← at_ptr (privs s) (i_private pi);
          n ← get32 s (ip_vstart ip + Initrd.D_NUM_FILES);
          r ← find_entry (Z.to_nat n) 0 s (ip_vstart ip) name;
          match r with
          | None => mret (Err ENOENT, s)
          | Some (i_offset, ino, size, flags) =>
              sb ← at_ptr (i_sb s) (d_inode p);
              '(r, s) ← initramfs_inode_alloc s sb;
              match r with
              | Err e => mret (Err e, s)
              | Ok a =>
                  let '(q, s) := new_obj s in
                  c ← mod_ino (fscore s) a (fun i => mk_inode (i_uid i) (i_gid i) (s32 ino) (s32 size) (i_count i) flags (i_mask i) q (i_iops i) (i_fops i));
                  mret (Ok a, put_priv q (entry_private ip (i_size pi) i_offset size flags) (set_fscore c s))
              end
          end
  end.

(** ** Open files *)

(** The table of the inode replaces the one the file was given. *)
Definition initramfs_file_open (s : irfs) (dntr mode : Z) : out (res Z * irfs) :=
  if dntr =? 0 then mret (Err EINVAL, s)
  else
    d ← get_dent (fscore s) dntr;
    if d_inode d =? 0 then mret (Err EINVAL, s)
    else if negb (mode =? O_RDONLY) then mret (Err ENOTSUP, s)
    else
      i ← at_ptr (inos (fscore s)) (d_inode d);
      if negb (has (i_flags i) T_IFREG) then mret (Err EINVAL, s)
      else
        '(r, y) ← file_generic_alloc (sys s);
        match r with
        | Err e => mret (Err e, set_sys y s)
        | Ok f =>
            let '(q, s) := new_obj (set_sys (put_file y f (File.mk_file dntr (next_obj s) 1 0 mode (i_fops i))) s) in
            c ← mod_dent (fscore s) dntr (fun d => set_d_count (s32 (d_count d + 1)) d);
            i ← at_ptr (inos (fscore s)) (d_inode d);
            ip ← at_ptr (privs s) (i_private i);
            mret (Ok f, put_fpriv q (mk_fp false 0 (ip_pstart ip) 0) (set_fscore c s))
        end.

(** The release of what was mapped is commented out in the code. *)
Definition initramfs_file_close (s : irfs) (f : Z) : out (Z * irfs) :=
  if f =? 0 then mret (- EINVAL, s)
  else
    x ← get_file (sys s) f;
    _ ← (if f_count x =? 1 then at_ptr (fprivs s) (f_private x) else mret (mk_fp false 0 0 0));
    let s := mk_irfs (sys s) (ram s) (privs s) (delete (f_private x) (fprivs s)) (i_sb s) (supers s) (next_obj s) in
    '(r, y) ← file_generic_dealloc (sys s) f;
    mret (r, set_sys y s).

Definition initramfs_file_seek (s : irfs) (f offset : Z) : out (Z * irfs) :=
  '(r, y) ← file_generic_seek (sys s) f offset; mret (r, set_sys y s).

(** The result is what was copied to [buf], or the error number. *)
Definition initramfs_file_read (s : irfs) (f offset count : Z) (buf : bool) : out (res (list Z) * irfs) :=
  if (f =? 0) || negb buf then mret (Err EINVAL, s)
  else
    x ← get_file (sys s) f;
    p ← at_ptr (fprivs s) (f_private x);
    let p := if fp_mapped p then p else mk_fp true (-1) (fp_pstart p) (fp_pstart p) in
    '(ret, s) ← initramfs_file_seek (put_fpriv (f_private x) p s) f offset;
    if ret <? 0 then mret (Err (- ret), s)
    else
      x ← get_file (sys s) f;
      d ← get_dent (fscore s) (f_dentry x);
      i ← at_ptr (inos (fscore s)) (d_inode d);
      if i_size i <? s64 (s64 count + f_pos x) then mret (Err E2BIG, s)
      else
        b ← rd_bytes (ram s) (fp_vstart p + Initrd.SIZEOF_FILE + f_pos x - ramfs_start) count;
        mret (Ok b, s).

(** ** The superblock *)

Definition initramfs_init (s : irfs) (sb : Z) : out (Z * irfs) :=
  if zlen (ram s) =? 0 then mret (- ENXIO, s)
  else
    magic ← get32 s (ramfs_start + 4);
    if negb (magic =? Initrd.HEADER_MAGIC) then mret (- ENXIO, s)
    else
      '(r, c) ← dentry_alloc_orphan (fscore s) (Some [47]) T_IFDIR;
      let s := set_fscore c s in
      let root := match r with Ok d => d | Err _ => 0 end in
      x ← at_ptr (supers s) sb;
      let s := put_sb sb (mk_sb root (s_magic x) (s_count x) (s_private x) (s_ops x) (s_type x)) s in
      '(r, s) ← initramfs_inode_alloc s sb;
      let ino := match r with Ok i => i | Err _ => 0 end in
      c ← mod_dent (fscore s) root (set_d_inode ino);
      let '(p, s) := new_obj (set_fscore c s) in
      let s := put_sb sb (mk_sb root (s_magic x) (s_count x) p (s_ops x) (s_type x)) s in
      let '(q, s) := new_obj s in
      c ← mod_ino (fscore s) ino (fun i => mk_inode (i_uid i) (i_gid i) 1 (i_size i) (i_count i) T_IFDIR (i_mask i) q (i_iops i) (i_fops i));
      let start := u64 (ramfs_start + Initrd.SIZEOF_DISK) in
      mret (0, put_priv q (mk_ip start start) (set_fscore c s)).

(** The result of [initramfs_init] is not looked at. *)
Definition initramfs_get_sb (s : irfs) (type : Z) : out (Z * irfs) :=
  let '(sb, s) := new_obj s in
  let '(ops, s) := new_obj s in
  let s := put_sb sb (mk_sb 0 Initrd.HEADER_MAGIC 1 0 ops type) s in
  let m := <[S_INO sb := mk_links 0 0]> (<[S_INO_DIRTY sb := mk_links 0 0]> (<[S_INSTANCES sb := mk_links 0 0]> (lnk (fscore s)))) in
  m ← list_init m (S_INO sb);
  m ← list_init m (S_INO_DIRTY sb);
  m ← list_init m (S_INSTANCES sb);
  '(_, s) ← initramfs_init (set_fscore (set_lnk m (fscore s)) s) sb;
  mret (sb, s).

Definition initramfs_kill_sb (s : irfs) (sb : Z) : out (Z * irfs) :=
  if sb =? 0 then mret (- EINVAL, s)
  else
    x ← at_ptr (supers s) sb;
    if 1 <? s_count x then mret (- EBUSY, s)
    else mret (0, mk_irfs (sys s) (ram s) (privs s) (fprivs s) (i_sb s) (delete sb (supers s)) (next_obj s)).

(** ** Proofs *)

(** ** Finding an entry *)

(** Entry [i] of the directory at [dh] can be read, and has this name. *)
Definition readable (s : irfs) (dh i : Z) (nm : list Z) : Prop :=
  exists o m v, get32 s (dh + Initrd.D_OFFSETS + 4 * i) = Ret o /\ get32 s (dh + o + Initrd.D_MAGIC) = Ret m /\
    get32 s (dh + o + Initrd.F_MAGIC) = Ret v /\ forall name, name_is s (dh + o) name = Ret (bool_decide (nm = name)).

Lemma find_entry_skip s dh name names : forall i n, (forall j nm, names !! j = Some nm -> readable s dh (i + Z.of_nat j) nm) -> name ∉ names ->
  find_entry (length names + n) i s dh name = find_entry n (i + zlen names) s dh name.
Proof.
  induction names as [| nm names IH]; intros i n Hr Hnew; [by rewrite Z.add_0_r |]. rewrite not_elem_of_cons in Hnew.
  destruct (Hr 0%nat nm eq_refl) as (o & m & v & E1 & E2 & E3 & E4). rewrite Z.add_0_r in E1. cbn [length Nat.add find_entry]. rewrite E1. rb. rewrite E2. rb.
  assert (Hf : forall b : bool, (if b then name_is s (dh + o) name else mret false) = Ret false) by (intros []; [rewrite E4; by rewrite bool_decide_eq_false_2 by naive_solver | done]).
  rewrite Hf. rb. rewrite E3. rb. rewrite Hf. rb. rewrite IH; [| | tauto].
  - by replace (i + zlen (nm :: names)) with (i + 1 + zlen names) by (unfold zlen; cbn; lia).
  - intros j nm' Hj. replace (i + 1 + Z.of_nat j) with (i + Z.of_nat (S j)) by lia. by apply Hr.
Qed.

(** A name that no entry has. *)
Lemma find_entry_none s dh name names : (forall j nm, names !! j = Some nm -> readable s dh (Z.of_nat j) nm) -> name ∉ names ->
  find_entry (length names) 0 s dh name = Ret None.
Proof. intros Hr Hnew. pose proof (find_entry_skip s dh name names 0 0 Hr Hnew) as E. by rewrite Nat.add_0_r in E. Qed.

Section image.
Variable s : irfs.
Variable pre : list Z.

(** The fields of a header at [a]. *)
Lemma get32_field a lens fs pl i v : ram s = pre ++ concat fs ++ pl -> a = ramfs_start + zlen pre -> Bytes.shaped lens fs -> fs !! i = Some (Initrd.dword v) -> in_u 32 v ->
  get32 s (a + Bytes.offset lens i) = Ret v.
Proof.
  intros Er -> Hs Hi Hv. unfold get32. rewrite Er. replace (ramfs_start + zlen pre + Bytes.offset lens i - ramfs_start) with (zlen pre + Bytes.offset lens i) by lia.
  rewrite rd_le_skip by (unfold Bytes.offset; lia). by apply (rd_le_field lens fs pl i 4 v Hs Hi).
Qed.

Lemma rd_str_name n l : Forall (fun c => c <> 0 /\ c <> 47) n -> rd_str (n ++ 0 :: l) = Ret n.
Proof. induction 1 as [| c n [Hc _] _ IH]; cbn; [done |]. by rewrite (proj2 (Z.eqb_neq _ _) Hc), IH. Qed.

Lemma name_is_field a n l name : ram s = pre ++ Initrd.strncpy n ++ l -> a = ramfs_start + zlen pre -> Initrd.good_name n ->
  name_is s a name = Ret (bool_decide (n = name)).
Proof.
  intros Er -> (Hne & Hl & Hn). pose proof (zlen_nonneg pre). unfold name_is. rewrite ltb_false by lia. rewrite Er.
  replace (Z.to_nat (ramfs_start + zlen pre - ramfs_start)) with (length pre) by (unfold zlen; lia). rewrite drop_app_length.
  rewrite Initrd.strncpy_eq by done. rewrite <- app_assoc. cbn [app]. by rewrite rd_str_name.
Qed.


(** A file: its header, and the word that is taken for the magic number of
    a directory. *)
Lemma file_header a n (x : list Z * list Z) post : ram s = pre ++ Initrd.file_image n x ++ post -> a = ramfs_start + zlen pre ->
  Initrd.good_name x.1 -> in_u 32 n -> in_u 32 (zlen x.2) ->
  get32 s (a + Initrd.H_SIZE) = Ret (zlen x.2) /\ get32 s (a + Initrd.F_INODE) = Ret n /\ get32 s (a + Initrd.F_MAGIC) = Ret Initrd.FILE_MAGIC /\
  forall name, name_is s a name = Ret (bool_decide (x.1 = name)).
Proof.
  intros Er Ha Hx Hn Hz. unfold Initrd.file_image in Er. rewrite <- app_assoc in Er. pose proof (Initrd.file_shaped n x) as Hs.
  split; [exact (get32_field a _ _ _ 1 _ Er Ha Hs eq_refl Hz) |]. split; [exact (get32_field a _ _ _ 2 _ Er Ha Hs eq_refl Hn) |].
  split; [exact (get32_field a _ _ _ 3 Initrd.FILE_MAGIC Er Ha Hs eq_refl ltac:(by vm_compute)) |].
  intros name. unfold Initrd.file_bytes, Initrd.file_fields in Er. cbn [concat Initrd.f_name] in Er. rewrite <- app_assoc in Er. eapply name_is_field; done.
Qed.

Lemma file_image_word a n (x : list Z * list Z) post : ram s = pre ++ Initrd.file_image n x ++ post -> a = ramfs_start + zlen pre -> 4 <= zlen post ->
  exists m, get32 s (a + Initrd.D_MAGIC) = Ret m /\ (4 <= zlen x.2 -> m = le_val (take 4 x.2)).
Proof.
  intros Er -> Hp. unfold get32. rewrite Er. replace (ramfs_start + zlen pre + Initrd.D_MAGIC - ramfs_start) with (zlen pre + Initrd.D_MAGIC) by lia.
  rewrite rd_le_skip by done. unfold Initrd.file_image, Initrd.file_bytes. rewrite <- app_assoc.
  pose proof (Initrd.zlen_shaped _ _ (Initrd.file_shaped n x)) as Hz. rewrite <- (Z.add_0_r Initrd.D_MAGIC). change Initrd.D_MAGIC with (Z.of_nat (sum_list Initrd.FILE_LENS)). rewrite <- Hz, rd_le_skip by done.
  pose proof (zlen_nonneg x.2). unfold rd_le. rewrite rd_bytes_in by (rewrite ?zlen_app; lia). rb. eexists. split; [done |]. intros Hx.
  change (drop (Z.to_nat 0) (x.2 ++ post)) with (x.2 ++ post). by rewrite take_app_le by (unfold zlen in Hx; lia).
Qed.

(** A directory: [h] is its header, [l] the offsets of its entries. *)
Lemma dir_header a nm size num ino l post : ram s = pre ++ Initrd.dir_bytes (Initrd.mk_dir (Initrd.strncpy nm) size num ino Initrd.DIR_MAGIC (Initrd.pad 5 0 l)) ++ post ->
  a = ramfs_start + zlen pre -> (length l <= 5)%nat -> in_u 32 size -> in_u 32 num -> in_u 32 ino ->
  get32 s (a + Initrd.H_SIZE) = Ret size /\ get32 s (a + Initrd.D_NUM_FILES) = Ret num /\ get32 s (a + Initrd.D_INODE) = Ret ino /\
  get32 s (a + Initrd.D_MAGIC) = Ret Initrd.DIR_MAGIC /\ (Initrd.good_name nm -> forall name, name_is s a name = Ret (bool_decide (nm = name))) /\
  forall k o, l !! k = Some o -> in_u 32 o -> get32 s (a + Initrd.D_OFFSETS + 4 * Z.of_nat k) = Ret o.
Proof.
  intros Er Ha Hl H1 H2 H3. pose proof (Initrd.dir_shaped nm size num ino Initrd.DIR_MAGIC l Hl) as Hs.
  split; [exact (get32_field a _ _ _ 1 _ Er Ha Hs eq_refl H1) |]. split; [exact (get32_field a _ _ _ 2 _ Er Ha Hs eq_refl H2) |].
  split; [exact (get32_field a _ _ _ 3 _ Er Ha Hs eq_refl H3) |].
  split; [exact (get32_field a _ _ _ 4 Initrd.DIR_MAGIC Er Ha Hs eq_refl ltac:(by vm_compute)) |]. split.
  - intros Hg name. unfold Initrd.dir_bytes, Initrd.dir_fields in Er. cbn [concat app Initrd.d_name] in Er. rewrite <- app_assoc in Er. eapply name_is_field; done.
  - intros k o Hk Ho. assert (Hk5 : (k < 5)%nat) by (apply lookup_lt_Some in Hk; lia).
    assert (Eo : Initrd.D_OFFSETS + 4 * Z.of_nat k = Bytes.offset Initrd.DIR_LENS (5 + k)) by (do 5 (destruct k as [| k]; [done |]); lia).
    rewrite <- Z.add_assoc, Eo. eapply get32_field; [exact Er | exact Ha | exact Hs | | exact Ho].
    by eapply Initrd.dir_fields_offset.
Qed.

End image.

Lemma root_dir_header s pre a dirs post : ram s = pre ++ (Initrd.dir_bytes (Initrd.root_of dirs) ++ Initrd.dirs_image 2 dirs) ++ post -> a = ramfs_start + zlen pre ->
  zlen dirs <= 5 -> get32 s (a + Initrd.D_NUM_FILES) = Ret (zlen dirs) /\
  forall u g v, dirs = u ++ g :: v -> in_u 32 (Initrd.SIZEOF_DIR + Initrd.dirs_size u) -> get32 s (a + Initrd.D_OFFSETS + 4 * zlen u) = Ret (Initrd.SIZEOF_DIR + Initrd.dirs_size u).
Proof.
  intros Er Ha Hn. rewrite <- app_assoc in Er. pose proof (zlen_nonneg dirs) as H0. unfold Initrd.root_of in Er.
  eapply dir_header in Er as (_ & E1 & _ & _ & _ & E2); [| exact Ha | rewrite Initrd.length_dir_offs; unfold zlen in Hn; lia | unfold in_u, Initrd.SIZEOF_DIR; lia | unfold in_u; lia | by vm_compute].
  split; [exact E1 |]. intros u g v Ed Hu. apply E2; [| exact Hu]. rewrite Ed. apply Initrd.dir_offs_lookup.
Qed.

Lemma dir_image_header s pre a n g post : ram s = pre ++ Initrd.dir_image n g ++ post -> a = ramfs_start + zlen pre -> Initrd.good_dir g -> in_u 31 n ->
  get32 s (a + Initrd.H_SIZE) = Ret (Initrd.files_size g.2) /\ get32 s (a + Initrd.D_NUM_FILES) = Ret (zlen g.2) /\ get32 s (a + Initrd.D_INODE) = Ret n /\
  get32 s (a + Initrd.D_MAGIC) = Ret Initrd.DIR_MAGIC /\ (forall name, name_is s a name = Ret (bool_decide (g.1 = name))) /\
  forall u x v, g.2 = u ++ x :: v -> get32 s (a + Initrd.D_OFFSETS + 4 * zlen u) = Ret (Initrd.SIZEOF_DIR + Initrd.files_size u).
Proof.
  intros Er Ha Hg Hn. pose proof (Initrd.g_count g Hg). pose proof (Initrd.g_size g Hg). pose proof (Initrd.files_size_nonneg g.2).
  unfold Initrd.dir_image in Er. rewrite <- app_assoc in Er. cbn [Initrd.dd_dir Initrd.data_of] in Er. unfold in_u in Hn.
  eapply dir_header in Er as (E1 & E2 & E3 & E4 & E5 & E6); [| exact Ha | rewrite Initrd.length_file_offs; unfold zlen in *; lia | unfold in_u; lia | unfold in_u; lia | unfold in_u; lia].
  split; [exact E1 |]. split; [exact E2 |]. split; [exact E3 |]. split; [exact E4 |]. split; [by apply E5, Hg |].
  intros u x v Eg. pose proof (Initrd.good_dir_fits g u x v Hg Eg). apply E6; [rewrite Eg; apply Initrd.file_offs_lookup | unfold in_u, Initrd.SIZEOF_DIR; lia].
Qed.

(** The file [x] of a directory. *)
Lemma file_readable s pre a n g u x v post : ram s = pre ++ Initrd.dir_image n g ++ post -> a = ramfs_start + zlen pre -> Initrd.good_dir g -> in_u 31 n ->
  4 <= zlen post -> g.2 = u ++ x :: v -> readable s a (zlen u) x.1.
Proof.
  intros Er Ha Hg Hn Hp Eg. destruct (dir_image_header s pre a n g post Er Ha Hg Hn) as (_ & _ & _ & _ & _ & Eo).
  destruct (Initrd.good_dir_fits g u x v Hg Eg) as (Hx & _ & Hu & Hz & Hs).
  destruct (Initrd.dir_image_split n g u x v) as (b & c & Ei & Hb); [apply Hg | done |].
  rewrite Ei, <- !app_assoc in Er. rewrite (app_assoc pre b) in Er.
  assert (Ha' : a + (Initrd.SIZEOF_DIR + Initrd.files_size u) = ramfs_start + zlen (pre ++ b)) by (rewrite zlen_app; lia).
  unfold in_u in Hn. destruct (file_header s _ _ _ x _ Er Ha' Hx) as (_ & _ & Em & En); [unfold in_u; lia | unfold in_u; lia |].
  destruct (file_image_word s _ _ _ x _ Er Ha') as (m & Ew & _); [rewrite zlen_app; pose proof (zlen_nonneg c); lia |].
  exists (Initrd.SIZEOF_DIR + Initrd.files_size u), m, Initrd.FILE_MAGIC. eauto.
Qed.

Lemma names_readable {A} s a (l : list (list Z * A)) u x v : l = u ++ x :: v -> (forall u x v, l = u ++ x :: v -> readable s a (zlen u) x.1) ->
  forall j nm, u.*1 !! j = Some nm -> readable s a (0 + Z.of_nat j) nm.
Proof.
  intros -> Hr j nm Hj. apply list_lookup_fmap_Some in Hj as (y & -> & Hj). pose proof (lookup_lt_Some _ _ _ Hj). apply take_drop_middle in Hj.
  specialize (Hr (take j u) y (drop (S j) u ++ x :: v)). rewrite app_comm_cons, app_assoc, Hj in Hr. unfold zlen in Hr. rewrite length_take, Nat.min_l in Hr by lia. by apply Hr.
Qed.

(** The search of a directory finds each of its files; a content that
    begins with the magic number of directories is the exception. *)
Lemma find_file s pre a n g u x v post : ram s = pre ++ Initrd.dir_image n g ++ post -> a = ramfs_start + zlen pre -> Initrd.good_dir g -> in_u 31 n ->
  4 <= zlen post -> g.2 = u ++ x :: v -> 4 <= zlen x.2 -> le_val (take 4 x.2) <> Initrd.DIR_MAGIC ->
  find_entry (length g.2) 0 s a x.1 = Ret (Some (Initrd.SIZEOF_DIR + Initrd.files_size u, n + 1 + zlen u, zlen x.2, T_IFREG)).
Proof.
  intros Er Ha Hg Hn Hp Eg Hx4 Hmagic. destruct (Initrd.good_dir_fits g u x v Hg Eg) as (Hx & Hnew & Hu & Hz & Hs).
  destruct (dir_image_header s pre a n g post Er Ha Hg Hn) as (_ & _ & _ & _ & _ & Eo).
  pose proof (names_readable s a g.2 u x v Eg) as Hr. rewrite Eg, length_app. replace (length u) with (length u.*1) by apply length_fmap.
  rewrite find_entry_skip; [| apply Hr; intros u' x' v' E'; by eapply file_readable | done].
  destruct (Initrd.dir_image_split n g u x v) as (b & c & Ei & Hb); [apply Hg | done |].
  rewrite Ei, <- !app_assoc in Er. rewrite (app_assoc pre b) in Er.
  assert (Ha' : a + (Initrd.SIZEOF_DIR + Initrd.files_size u) = ramfs_start + zlen (pre ++ b)) by (rewrite zlen_app; lia).
  unfold in_u in Hn. destruct (file_header s _ _ _ x _ Er Ha' Hx) as (E1 & E2 & E3 & E4); [unfold in_u; lia | unfold in_u; lia |].
  destruct (file_image_word s _ _ _ x _ Er Ha') as (m & Ew & Em); [rewrite zlen_app; pose proof (zlen_nonneg c); lia |].
  cbn [length find_entry]. replace (0 + zlen u.*1) with (zlen u) by (unfold zlen; by rewrite length_fmap).
  rewrite (Eo u x v Eg). rb. rewrite Ew. rb. rewrite (Em Hx4), (proj2 (Z.eqb_neq _ _) Hmagic). rb.
  rewrite E3. rb. rewrite Z.eqb_refl, E4, bool_decide_eq_true_2 by done. rb. by rewrite E2, E1.
Qed.

(** The search of the root finds each of the directories. *)
Lemma find_dir_entry s pre a dirs u g v post : ram s = pre ++ (Initrd.dir_bytes (Initrd.root_of dirs) ++ Initrd.dirs_image 2 dirs) ++ post -> a = ramfs_start + zlen pre ->
  Forall Initrd.good_dir dirs -> NoDup dirs.*1 -> zlen dirs <= 5 -> dirs = u ++ g :: v ->
  find_entry (length dirs) 0 s a g.1 = Ret (Some (Initrd.SIZEOF_DIR + Initrd.dirs_size u, 2 + Initrd.inodes u, Initrd.files_size g.2, T_IFDIR)).
Proof.
  intros Er Ha Hg Hnd Hn Ed. destruct (root_dir_header s pre a dirs post Er Ha Hn) as [_ Eo].
  assert (Hh : forall u g v, dirs = u ++ g :: v -> exists o, get32 s (a + Initrd.D_OFFSETS + 4 * zlen u) = Ret o /\ o = Initrd.SIZEOF_DIR + Initrd.dirs_size u /\
    get32 s (a + o + Initrd.H_SIZE) = Ret (Initrd.files_size g.2) /\ get32 s (a + o + Initrd.D_INODE) = Ret (2 + Initrd.inodes u) /\
    get32 s (a + o + Initrd.D_MAGIC) = Ret Initrd.DIR_MAGIC /\ forall name, name_is s (a + o) name = Ret (bool_decide (g.1 = name))).
  { intros u' g' v' E'. destruct (Initrd.good_dirs_fit dirs u' g' v' Hg Hnd Hn E') as (Hg' & _ & _ & Hu & Hs & Hi).
    destruct (Initrd.root_image_split dirs u' g' v' Hg Hn E') as (b & c & Ei & Hb).
    pose proof Er as Er'. rewrite Ei, <- !app_assoc in Er'. rewrite (app_assoc pre b) in Er'.
    assert (Ha' : a + (Initrd.SIZEOF_DIR + Initrd.dirs_size u') = ramfs_start + zlen (pre ++ b)) by (rewrite zlen_app; lia).
    destruct (dir_image_header s _ _ _ g' _ Er' Ha' Hg') as (E1 & _ & E3 & E4 & E5 & _); [unfold in_u; lia |].
    exists (Initrd.SIZEOF_DIR + Initrd.dirs_size u'). split; [apply (Eo _ _ _ E'); unfold in_u, Initrd.SIZEOF_DIR; lia | done]. }
  destruct (Initrd.good_dirs_fit dirs u g v Hg Hnd Hn Ed) as (_ & Hnew & _).
  pose proof (names_readable s a dirs u g v Ed) as Hr. rewrite Ed, length_app. replace (length u) with (length u.*1) by apply length_fmap.
  rewrite find_entry_skip; [| apply Hr; intros u' x' v' (o & F1 & -> & _ & F3 & F4 & F5)%Hh; exists (Initrd.SIZEOF_DIR + Initrd.dirs_size u'), Initrd.DIR_MAGIC, (2 + Initrd.inodes u'); done | done].
  cbn [length find_entry]. replace (0 + zlen u.*1) with (zlen u) by (unfold zlen; by rewrite length_fmap).
  destruct (Hh u g v Ed) as (o & F1 & -> & F2 & F3 & F4 & F5). rewrite F1. rb. rewrite F4. rb. rewrite Z.eqb_refl, F5, bool_decide_eq_true_2 by done. rb. by rewrite F3, F2.
Qed.

(** ** From the inode of a directory to the content of a file *)

(** [parent] is a directory whose header is at [A]. *)
Definition dir_at (s : irfs) (parent A sb : Z) : Prop :=
  exists p i, parent <> 0 /\ get_dent (fscore s) parent = Ret p /\ at_ptr (inos (fscore s)) (d_inode p) = Ret i /\ has (i_flags i) T_IFDIR = true /\
    at_ptr (privs s) (i_private i) = Ret (mk_ip A A) /\ at_ptr (i_sb s) (d_inode p) = Ret sb.

(** The inode at [a], with what this file system keeps for it. *)
Definition inode_is (s : irfs) (a ino size flags : Z) (p : i_private_t) : Prop :=
  exists i, at_ptr (inos (fscore s)) a = Ret i /\ i_ino i = ino /\ i_size i = size /\ i_flags i = flags /\ at_ptr (privs s) (i_private i) = Ret p.

Lemma alloc_ram s sb a s1 : initramfs_inode_alloc s sb = Ret (Ok a, s1) -> ram s1 = ram s /\ exists i, at_ptr (inos (fscore s1)) a = Ret i.
Proof.
  unfold initramfs_inode_alloc. intros ([r c] & _ & E)%bind_Ret. destruct r as [b | e]; [| discriminate].
  apply bind_Ret in E as (i & Ei & E). apply bind_Ret in E as (lk & _ & E). injection E as <- <-. split; [done |].
  apply at_ptr_Ret in Ei as [Hb _]. eexists. by apply at_ptr_insert.
Qed.

Lemma lookup_found s parent A sb name n off ino size flags a s1 : dir_at s parent A sb ->
  get32 s (A + Initrd.D_NUM_FILES) = Ret n -> find_entry (Z.to_nat n) 0 s A name = Ret (Some (off, ino, size, flags)) ->
  initramfs_inode_alloc s sb = Ret (Ok a, s1) -> next_obj s1 <> 0 -> - 2 ^ 31 <= ino < 2 ^ 31 -> - 2 ^ 31 <= size < 2 ^ 31 -> 0 <= A + off < 2 ^ 64 ->
  exists s2, initramfs_inode_lookup s parent (Some name) = Ret (Ok a, s2) /\ ram s2 = ram s /\
    inode_is s2 a ino size flags (mk_ip (A + off) (if has flags T_IFDIR then A + off else 0)).
Proof.
  intros (p & i & Hp & E1 & E2 & E3 & E4 & E5) E6 E7 E8 Ho Hi Hs Hoff. destruct (alloc_ram _ _ _ _ E8) as [Er [j Ej]].
  unfold initramfs_inode_lookup. rewrite (proj2 (Z.eqb_neq _ _) Hp), E1. rb. rewrite E2. rb. rewrite E3. cbn [negb]. rewrite E4. rb. cbn [ip_vstart].
  rewrite E6. rb. rewrite E7. rb. rewrite E5. rb. rewrite E8. rb. unfold new_obj, mod_ino. unfold fscore in Ej |- *. cbn [sys]. rewrite Ej. rb.
  eexists. split; [done |]. split; [done |]. eexists. split; [apply at_ptr_insert; by apply at_ptr_Ret in Ej as [Ha _] |]. cbn [i_ino i_size i_flags i_private].
  split; [by apply swrap_small |]. split; [by apply swrap_small |]. split; [done |]. cbn [put_priv privs]. rewrite at_ptr_insert by done.
  unfold entry_private. cbn [ip_pstart ip_vstart]. assert (E : u64 (A + off) = A + off) by (apply wrap_small; unfold in_u; lia). rewrite E. by destruct (has flags T_IFDIR), (4096 <? _).
Qed.

Lemma file_seek_in (y : fsys op C) h x d i off : get_file y h = Ret x -> get_dent (core y) (f_dentry x) = Ret d -> at_ptr (inos (core y)) (d_inode d) = Ret i ->
  0 <= i_size i < 2 ^ 31 -> 0 <= f_pos x + off <= i_size i -> 0 <= f_pos x -> 0 <= off ->
  file_generic_seek y h off = Ret (0, put_file y h (File.mk_file (f_dentry x) (f_private x) (f_count x) (f_pos x + off) (f_mode x) (f_ops x))).
Proof.
  intros Hf Hd Hi Hsz Hpos Hx0 Ho. pose proof (proj1 (at_ptr_Ret _ _ _) Hf) as [Ha _]. pose proof (proj1 (at_ptr_Ret _ _ _) Hd) as [Hd0 _].
  pose proof (proj1 (at_ptr_Ret _ _ _) Hi) as [Hi0 _]. unfold file_generic_seek.
  rewrite (proj2 (Z.eqb_neq _ _) Ha), Hf. rb. rewrite (proj2 (Z.eqb_neq _ _) Hd0), Hd. rb. rewrite (proj2 (Z.eqb_neq _ _) Hi0), Hi. rb.
  
  assert (E1 : u32 (i_size i) = i_size i) by (apply wrap_small; unfold in_u; lia). assert (E2 : s64 (- off) = - off) by (apply swrap_small; lia).
  assert (E3 : s64 (f_pos x + off) = f_pos x + off) by (apply swrap_small; lia). by rewrite E1, E2, E3, !ltb_false by lia.
Qed.

(** Reading an open file whose header is at [B]. *)
Lemma read_found s h x q d i B c pre n nm post off count : ram s = pre ++ Initrd.file_image n (nm, c) ++ post -> B = ramfs_start + zlen pre ->
  get_file (sys s) h = Ret x -> at_ptr (fprivs s) (f_private x) = Ret q -> fp_pstart q = B -> (fp_mapped q = true -> fp_vstart q = B) ->
  get_dent (fscore s) (f_dentry x) = Ret d -> at_ptr (inos (fscore s)) (d_inode d) = Ret i -> i_size i = zlen c -> zlen c < 2 ^ 31 ->
  0 <= f_pos x -> 0 <= off -> 0 <= count -> f_pos x + off + count <= zlen c ->
  exists s2, initramfs_file_read s h off count true = Ret (Ok (take (Z.to_nat count) (drop (Z.to_nat (f_pos x + off)) c)), s2).
Proof.
  intros Er HB Hx Hq Hp Hv Hd Hi Hsz Hc Hpos Ho Hn Hle. pose proof (proj1 (at_ptr_Ret _ _ _) Hx) as [Hh _]. pose proof (proj1 (at_ptr_Ret _ _ _) Hq) as [Hq0 _].
  unfold initramfs_file_read. rewrite (proj2 (Z.eqb_neq _ _) Hh). cbn [orb negb]. rewrite Hx. rb. rewrite Hq. rb.
  set (q' := if fp_mapped q then q else _). assert (HB' : fp_vstart q' = B) by (subst q'; destruct (fp_mapped q); [by apply Hv | done]).
  unfold initramfs_file_seek. cbn [put_fpriv sys]. rewrite (file_seek_in _ _ _ _ _ _ Hx Hd Hi) by lia. rb. rb. cbn [Z.ltb Z.compare].
  cbn [set_sys sys]. unfold get_file, put_file. cbn [set_files files]. rewrite at_ptr_insert by done. rb. unfold fscore in Hd, Hi. cbn [f_dentry f_pos]. unfold fscore. change (0 <? 0) with false. cbn [set_sys set_files sys core]. rewrite Hd. rb. rewrite Hi. rb.
  assert (E1 : s64 count = count) by (apply swrap_small; lia). assert (E2 : s64 (count + (f_pos x + off)) = count + (f_pos x + off)) by (apply swrap_small; lia).
  rewrite E1, E2, ltb_false by lia. cbn [set_sys put_fpriv ram]. rewrite Er, HB', HB.
  replace (ramfs_start + zlen pre + Initrd.SIZEOF_FILE + (f_pos x + off) - ramfs_start) with (zlen pre + (Initrd.SIZEOF_FILE + (f_pos x + off))) by lia.
  rewrite rd_bytes_skip by (unfold Initrd.SIZEOF_FILE; lia). unfold Initrd.file_image, Initrd.file_bytes. rewrite <- app_assoc.
  change Initrd.SIZEOF_FILE with (Z.of_nat (sum_list Initrd.FILE_LENS)). rewrite <- (Initrd.zlen_shaped _ _ (Initrd.file_shaped n (nm, c))).
  rewrite rd_bytes_skip by lia. pose proof (zlen_nonneg post). rewrite rd_bytes_in by (rewrite ?zlen_app; cbn [snd]; lia). rb. eexists. unfold mret, out_ret. do 3 f_equal.
  cbn [snd]. rewrite drop_app_le, take_app_le by (rewrite ?length_drop; unfold zlen in *; lia). done.
Qed.


(** ** The round trip *)

(** The image as it is seen from one of its files: the disk header and the
    root, the directory, the file. *)
Lemma image_split us d fs vs u x v post : fs = u ++ x :: v -> Forall Initrd.good_dir (us ++ (d, fs) :: vs) -> zlen (us ++ (d, fs) :: vs) <= 5 ->
  exists disk a b a' b', Initrd.image (us ++ (d, fs) :: vs) ++ post =
    disk ++ (Initrd.dir_bytes (Initrd.root_of (us ++ (d, fs) :: vs)) ++ Initrd.dirs_image 2 (us ++ (d, fs) :: vs)) ++ post /\
  zlen disk = Initrd.SIZEOF_DISK /\
  Initrd.image (us ++ (d, fs) :: vs) ++ post = (disk ++ a) ++ Initrd.dir_image (2 + Initrd.inodes us) (d, fs) ++ b ++ post /\
  zlen a = Initrd.SIZEOF_DIR + Initrd.dirs_size us /\
  Initrd.image (us ++ (d, fs) :: vs) ++ post = ((disk ++ a) ++ a') ++ Initrd.file_image (2 + Initrd.inodes us + 1 + zlen u) x ++ b' ++ b ++ post /\
  zlen a' = Initrd.SIZEOF_DIR + Initrd.files_size u.
Proof.
  intros Ef Hg Hn. destruct (Initrd.root_image_split _ us (d, fs) vs Hg Hn eq_refl) as (a & b & E1 & Ha).
  assert (Hc : zlen (d, fs).2 <= 5) by (apply Forall_app in Hg as [_ [Hg _]%Forall_cons]; apply Hg).
  destruct (Initrd.dir_image_split (2 + Initrd.inodes us) (d, fs) u x v Hc Ef) as (a' & b' & E2 & Ha'). unfold Initrd.image.
  set (disk := Initrd.disk_bytes _). exists disk, a, b, a', b'. split; [by rewrite <- !app_assoc |]. split; [done |].
  split; [by rewrite E1, <- !app_assoc |]. split; [done |]. split; [by rewrite E1, E2, <- !app_assoc | done].
Qed.


End initramfs.
#[global] Arguments irfs : clear implicits.

#[local] Existing Instance PageAlloc.PageAlloc.page_alloc_source.

(** One directory with two files, and a kernel with the second of them open. *)
Definition sample_dirs : list Initrd.dir_t := [([98; 105], [([97], [7]); ([98], [1; 2; 3; 4; 5])])].
Definition sample_irfs (img : list Z) (B : Z) : irfs Dentry.cache :=
  mk_irfs
    (mk_fsys (mk_fs (<[8 := mk_dentry 0 0 16 0 1 0 []]> ∅) (<[16 := mk_inode 0 0 0 5 1 T_IFREG 0 0 0 0]> ∅) ∅ ∅ ∅ 1 full_cache full_cache full_cache full_cache ∅)
      (<[24 := File.mk_file 8 32 1 1 O_RDONLY 0]> ∅) full_cache full_cache)
    (img ++ [0; 0; 0; 0]) ∅ (<[32 := mk_fp false 0 B 0]> ∅) ∅ ∅ 64.


End Initramfs.
