(* ===== verification/Task.v ===== *)
(** * Tasks and threads (sched/task.c)

    Creating, forking and freeing of tasks.  The state is that of Sched, the
    page tables of Mmu and the files of Vfs together; the contexts of the
    tasks are in stores under their addresses, so that they can be shared.
    [frames] holds the saved registers, under the address of an
    [exec_state_t]; it is that of an [isr_regs_t], which has the same
    fields.  What a task keeps that no operation uses ([name], [gid],
    [exit_status], the accounting of a thread) is left out. *)

From S2P Require Import Prelude Kmem Dlist Locks Memory Mts Sched Mmu Dentry File Vfs.
Import Kmem Dlist Locks Memory Sched.

Module Task.

Definition SEG_KERNEL_CODE : Z := 0x8.
Definition SEG_KERNEL_DATA : Z := 0x10.
Definition SIZEOF_EXEC_STATE : Z := 176.
Definition O_RDWR : Z := 4.

Record frame := mk_frame {
  rax : Z; rcx : Z; rdx : Z; rbx : Z; rbp : Z; rsi : Z; rdi : Z;
  r8 : Z; r9 : Z; r10 : Z; r11 : Z; r12 : Z; r13 : Z; r14 : Z; r15 : Z;
  isr_num : Z; err_num : Z;
  rip : Z; cs : Z; eflags : Z; rsp : Z; ss : Z
}.
Definition zero_frame : frame := mk_frame 0 0 0 0 0 0 0 0 0 0 0 0 0 0 0 0 0 0 0 0 0 0.
Definition set_rax (v : Z) (f : frame) : frame :=
  mk_frame v (rcx f) (rdx f) (rbx f) (rbp f) (rsi f) (rdi f) (r8 f) (r9 f) (r10 f) (r11 f) (r12 f) (r13 f) (r14 f) (r15 f)
    (isr_num f) (err_num f) (rip f) (cs f) (eflags f) (rsp f) (ss f).
(** A new thread: interrupts enabled, on its own stack. *)
Definition start_frame (func at_ : Z) : frame :=
  mk_frame 0 0 0 0 0 0 0 0 0 0 0 0 0 0 0 0 0 func SEG_KERNEL_CODE (Z.shiftl 1 9) (u64 (at_ + 4)) SEG_KERNEL_DATA.

Definition zero_thread : thread := mk_thread 0 0 0 0.
Definition zero_task : task := mk_task 0 0 0 0 0 0 0 0 0.
Definition set_nthreads (n : Z) (t : task) : task :=
  mk_task (t_parent t) n (threads t) (t_pid t) (t_fs_ctx t) (t_file_ctx t) (t_wq_task t) (t_dir t) (t_cr3 t).
Definition set_parent (p : Z) (t : task) : task :=
  mk_task p (nthreads t) (threads t) (t_pid t) (t_fs_ctx t) (t_file_ctx t) (t_wq_task t) (t_dir t) (t_cr3 t).
Definition set_dir (dir cr3 : Z) (t : task) : task :=
  mk_task (t_parent t) (nthreads t) (threads t) (t_pid t) (t_fs_ctx t) (t_file_ctx t) (t_wq_task t) dir cr3.
Definition set_ctx (fs fd : Z) (t : task) : task :=
  mk_task (t_parent t) (nthreads t) (threads t) (t_pid t) fs fd (t_wq_task t) (t_dir t) (t_cr3 t).

(** The nodes of a task and of a thread; those of an object that was used
    before keep what they hold. *)
Definition node (a : Z) (m : links) : links := match m !! a with Some _ => m | None => <[a := mk_links 0 0]> m end.
Definition task_nodes (t : Z) (m : links) : links :=
  node (TLIST t) (node (CHILDREN t) (node (ZOMBIES t) (node (WQ_LIST t) (node (WQH_LIST (WQH_CHILD t)) m)))).

(** ** What a fork does *)


Lemma node_spec a s : is_Some (node a s !! a) /\ (forall b, b <> a -> node a s !! b = s !! b) /\ (forall b, is_Some (s !! b) -> is_Some (node a s !! b)).
Proof.
  unfold node. destruct (s !! a) as [n |] eqn:E; [rewrite E; split_and!; eauto |]. rewrite lookup_insert_eq. split_and!; [eauto | intros b Hb; by apply lookup_insert_ne | ].
  intros b Hb. destruct (decide (b = a)) as [-> |]; [rewrite lookup_insert_eq; eauto |]. by rewrite lookup_insert_ne.
Qed.

Lemma node_ne a s b : b <> a -> node a s !! b = s !! b.
Proof. apply (proj1 (proj2 (node_spec a s))). Qed.

(** The nodes of a task. *)
Definition nodes_of (t : Z) : list Z := [TLIST t; CHILDREN t; ZOMBIES t; WQ_LIST t; WQH_LIST (WQH_CHILD t)].

Ltac nodes_lia := unfold nodes_of, THLIST, TLIST, CHILDREN, ZOMBIES, WQ_LIST, WQH_LIST, WQH_CHILD in *; rewrite ?elem_of_cons, ?elem_of_nil in *; lia.

Lemma nodes_NoDup t : NoDup (nodes_of t).
Proof. unfold nodes_of, TLIST, CHILDREN, ZOMBIES, WQ_LIST, WQH_LIST, WQH_CHILD. repeat (constructor; [rewrite ?elem_of_cons, elem_of_nil; lia |]). constructor. Qed.

Lemma task_nodes_spec t s : (forall b, b ∉ nodes_of t -> task_nodes t s !! b = s !! b) /\
  (forall b, is_Some (s !! b) \/ b ∈ nodes_of t -> is_Some (task_nodes t s !! b)).
Proof.
  unfold task_nodes, nodes_of. split.
  - intros b Hb. rewrite !not_elem_of_cons in Hb. destruct Hb as (H1' & H2 & H3 & H4 & H5 & _). by rewrite !node_ne.
  - intros b Hb. rewrite !elem_of_cons, elem_of_nil in Hb. destruct Hb as [Hb | [-> | [-> | [-> | [-> | [-> | []]]]]]];
      repeat first [exact (proj1 (node_spec _ _)) | exact Hb | apply (proj2 (proj2 (node_spec _ _)))].
Qed.

(** Nodes that are initialised one after the other. *)
Fixpoint list_inits (ns : list Z) (s : links) : out links := match ns with [] => mret s | n :: ns => s ← list_init s n; list_inits ns s end.

Lemma list_inits_rings ns : forall s, NoDup ns -> 0 ∉ ns -> (forall n, n ∈ ns -> is_Some (s !! n)) ->
  exists s', list_inits ns s = Ret s' /\ (forall n, n ∈ ns -> ring s' n []) /\ (forall a, a ∉ ns -> nx s' a = nx s a /\ pv s' a = pv s a) /\ dom s' = dom s.
Proof.
  induction ns as [| n ns IH]; intros s Hnd Hz Hm; cbn [list_inits].
  { exists s. split_and!; try done. intros n Hn. by apply elem_of_nil in Hn. }
  apply NoDup_cons in Hnd as [Hn Hnd]. rewrite not_elem_of_cons in Hz. destruct Hz as [Hn0 Hz].
  destruct (list_init_ring s n) as (s1 & -> & R1 & F1 & D1); [done | by apply Hm; left |]. rb.
  destruct (IH s1 Hnd Hz) as (s' & -> & R & F & D).
  { intros b Hb. apply (dom_mapped s); [done |]. apply Hm. by right. }
  exists s'. split; [done |]. split_and!; [| | congruence].
  - intros b [-> | Hb]%elem_of_cons; [| by apply R]. apply (ring_frame s1); [| done]. intros j ->%list_elem_of_singleton. by apply F.
  - intros b Hb. rewrite not_elem_of_cons in Hb. destruct (F b) as [-> ->]; [tauto |]. apply F1. tauto.
Qed.

Lemma list_inits_last ns n s s' : list_inits (ns ++ [n]) s = Ret s' <-> exists s1, list_inits ns s = Ret s1 /\ list_init s1 n = Ret s'.
Proof.
  revert s. induction ns as [| b ns IH]; intros s; cbn [app list_inits].
  - rewrite bind_Ret. split; [intros (s1 & E & [= ->]); eauto | intros (s1 & [= ->] & E); eauto].
  - rewrite bind_Ret. split.
    + intros (s1 & E1 & (s2 & E2 & E3)%IH). exists s2. split; [| done]. rewrite E1. by rb.
    + intros (s2 & (s1 & E1 & E2)%bind_Ret & E3). exists s1. split; [done |]. apply IH. eauto.
Qed.

(** The lists of the tasks, from those before a fork to those after. *)
Lemma fork_links (s : links) (a c ct : Z) xs : ring s (CHILDREN a) xs -> 0 < c -> 0 < ct ->
  (forall n, n ∈ THLIST ct :: nodes_of c -> n ∉ CHILDREN a :: xs) -> THLIST ct ∉ nodes_of c ->
  exists s1 s2 s3 s4 s5 s6 s7, list_init (task_nodes c s) (WQ_LIST c) = Ret s1 /\ list_init s1 (WQH_LIST (WQH_CHILD c)) = Ret s2 /\
    list_init (node (THLIST ct) s2) (THLIST ct) = Ret s3 /\ list_init s3 (CHILDREN c) = Ret s4 /\ list_init s4 (ZOMBIES c) = Ret s5 /\
    list_init s5 (TLIST c) = Ret s6 /\ list_append s6 (CHILDREN a) (TLIST c) = Ret s7 /\
    (forall b, is_Some (s !! b) -> is_Some (s3 !! b)) /\
    ring s7 (CHILDREN a) (TLIST c :: xs) /\ forall n, n ∈ [CHILDREN c; ZOMBIES c; WQH_LIST (WQH_CHILD c); THLIST ct] -> ring s7 n [].
Proof.
  intros Hr Hc Hct Hdis Hth. destruct (task_nodes_spec c s) as [T1 T2].
  destruct (list_inits_rings [WQ_LIST c; WQH_LIST (WQH_CHILD c)] (task_nodes c s)) as (s2 & E2 & R2 & F2 & D2).
  { clear -Hc. rewrite !NoDup_cons. split_and!; [nodes_lia .. | constructor]. }
  { clear -Hc. nodes_lia. }
  { intros n Hn. apply T2. right. clear -Hn. nodes_lia. }
  destruct (node_spec (THLIST ct) s2) as (N1 & N2 & N3).
  destruct (list_inits_rings [THLIST ct; CHILDREN c; ZOMBIES c; TLIST c] (node (THLIST ct) s2)) as (s6 & E6 & R6 & F6 & D6).
  { clear -Hth. rewrite !NoDup_cons. split_and!; [nodes_lia .. | constructor]. }
  { clear -Hc Hct. nodes_lia. }
  { intros n Hn. destruct (decide (n = THLIST ct)) as [-> |]; [done |]. apply N3, (dom_mapped (task_nodes c s)); [done |]. apply T2. right. rewrite elem_of_cons in Hn. destruct Hn; [done |]. clear -H. nodes_lia. }
  assert (Hold : forall n, n ∈ CHILDREN a :: xs -> nx s6 n = nx s n /\ pv s6 n = pv s n).
  { intros n Hn. assert (Hnot : n ∉ THLIST ct :: nodes_of c) by (intros Hin; by apply (Hdis n)). clear -Hnot F6 F2 N2 T1.
    assert (Hnn : n <> THLIST ct) by (clear -Hnot; nodes_lia).
    destruct (F6 n) as [-> ->]; [clear -Hnot; nodes_lia |]. unfold nx, pv. rewrite !(N2 n) by done. fold (nx s2 n) (pv s2 n).
    destruct (F2 n) as [-> ->]; [clear -Hnot; nodes_lia |]. unfold nx, pv. rewrite T1; [done |]. clear -Hnot. rewrite elem_of_cons in Hnot. tauto. }
  assert (Hr6 : ring s6 (CHILDREN a) xs) by (by apply (ring_frame s)).
  assert (Hmt : is_Some (s6 !! TLIST c)).
  { apply (dom_mapped (node (THLIST ct) s2)); [done |]. apply N3, (dom_mapped (task_nodes c s)); [done |]. apply T2. right. by left. }
  destruct (list_append_dlist s6 (CHILDREN a) (TLIST c) (CHILDREN a) xs Hr6) as (s7 & E7 & R7 & F7 & D7); [clear -Hc; nodes_lia | apply Hdis; right; by left | done |].
  assert (Hrings : forall n, n ∈ [CHILDREN c; ZOMBIES c; WQH_LIST (WQH_CHILD c); THLIST ct] -> ring s6 n []).
  { intros n Hn. destruct (decide (n = WQH_LIST (WQH_CHILD c))) as [-> |]; [| apply R6; clear -Hn n0; rewrite !elem_of_cons in *; tauto].
    apply (ring_frame s2); [| apply R2; right; by left]. intros k ->%list_elem_of_singleton.
    destruct (F6 (WQH_LIST (WQH_CHILD c))) as [-> ->]; [clear -Hth; nodes_lia |]. unfold nx, pv. rewrite N2; [done |]. clear -Hth. nodes_lia. }
  apply bind_Ret in E2 as (s1 & E1 & (s2' & E2 & [= ->])%bind_Ret). apply bind_Ret in E6 as (s3 & E3 & (s4 & E4 & (s5 & E5 & (s6' & E6 & [= ->])%bind_Ret)%bind_Ret)%bind_Ret).
  exists s1, s2, s3, s4, s5, s6, s7. split_and!; try done.
  - intros b Hb. apply (dom_mapped (node (THLIST ct) s2)).
    { destruct (list_init_ring (node (THLIST ct) s2) (THLIST ct)) as (s3' & E3' & _ & _ & D3); [unfold THLIST; lia | done |]. congruence. }
    apply N3, (dom_mapped (task_nodes c s)); [done |]. apply T2. by left.
  - intros n Hn. apply (ring_frame s6); [| by apply Hrings]. intros k ->%list_elem_of_singleton.
    assert (Hin : n ∈ THLIST ct :: nodes_of c) by (clear -Hn; nodes_lia). pose proof (Hdis n Hin) as Hna.
    assert (E : s7 !! n = s6 !! n); [| unfold nx, pv; by rewrite E]. apply F7; [intros ->; apply Hna; by left | clear -Hn Hth; nodes_lia |].
    intros ->. apply Hna. destruct xs; [by left | right; by left].
Qed.

Section task.
Context {M P F G C : Type} `{SchedOps M} `{PageSource P} `{EntrySource C}.

(** [next_ctx]: the next context object. *)
Record kern := mk_kern {
  sch : sys M;
  mem : Mmu.Mmu.state P;
  vf : Vfs.vfs F G C;
  fsx : gmap Z Vfs.fs_ctx;
  fdx : gmap Z Vfs.file_ctx;
  next_ctx : Z;
  frames : gmap Z frame;
  pid : Z;
  pid_lock : Z;
  task_cache : C;
  thread_cache : C
}.

Definition set_sch (v : sys M) (k : kern) : kern := mk_kern v (mem k) (vf k) (fsx k) (fdx k) (next_ctx k) (frames k) (pid k) (pid_lock k) (task_cache k) (thread_cache k).
Definition set_mem (v : Mmu.Mmu.state P) (k : kern) : kern := mk_kern (sch k) v (vf k) (fsx k) (fdx k) (next_ctx k) (frames k) (pid k) (pid_lock k) (task_cache k) (thread_cache k).
Definition set_vf (v : Vfs.vfs F G C) (k : kern) : kern := mk_kern (sch k) (mem k) v (fsx k) (fdx k) (next_ctx k) (frames k) (pid k) (pid_lock k) (task_cache k) (thread_cache k).
Definition set_ctxs (fs : gmap Z Vfs.fs_ctx) (fd : gmap Z Vfs.file_ctx) (n : Z) (k : kern) : kern := mk_kern (sch k) (mem k) (vf k) fs fd n (frames k) (pid k) (pid_lock k) (task_cache k) (thread_cache k).
Definition set_frames (v : gmap Z frame) (k : kern) : kern := mk_kern (sch k) (mem k) (vf k) (fsx k) (fdx k) (next_ctx k) v (pid k) (pid_lock k) (task_cache k) (thread_cache k).
Definition set_pid (p l : Z) (k : kern) : kern := mk_kern (sch k) (mem k) (vf k) (fsx k) (fdx k) (next_ctx k) (frames k) p l (task_cache k) (thread_cache k).
Definition set_caches (a b : C) (k : kern) : kern := mk_kern (sch k) (mem k) (vf k) (fsx k) (fdx k) (next_ctx k) (frames k) (pid k) (pid_lock k) a b.

#[local] Notation m := (st kern).

(** Operations of the parts. *)
Definition on_sch {A} (f : sys M -> out (A * sys M)) : m A := fun k => '(a, s) ← f (sch k); Ret (a, set_sch s k).
Definition upd_sch (f : sys M -> out (sys M)) : m unit := fun k => s ← f (sch k); Ret (tt, set_sch s k).
Definition upd_lnk (f : links -> out links) : m unit := upd_sch (fun s => l ← f (lnk s); mret (set_lnk l s)).
Definition on_mem {A} (f : Mmu.Mmu.state P -> out (A * Mmu.Mmu.state P)) : m A := fun k => '(a, s) ← f (mem k); Ret (a, set_mem s k).
Definition on_vf {A} (f : Vfs.vfs F G C -> out (A * Vfs.vfs F G C)) : m A := fun k => '(a, s) ← f (vf k); Ret (a, set_vf s k).
Definition links_of {A} (f : links -> out A) : m A := fun k => a ← f (lnk (sch k)); Ret (a, k).

Definition get_task (a : Z) : m task := fun k => t ← get_tsk (sch k) a; Ret (t, k).
Definition put_task (a : Z) (t : task) : m unit := modify (fun k => set_sch (put_tsk (sch k) a t) k).
Definition mod_task (a : Z) (f : task -> task) : m unit := t ← get_task a; put_task a (f t).
Definition get_thread (a : Z) : m thread := fun k => t ← get_thr (sch k) a; Ret (t, k).
Definition put_thread (a : Z) (t : thread) : m unit := modify (fun k => set_sch (put_thr (sch k) a t) k).
Definition get_frame (a : Z) : m frame := fun k => f ← at_ptr (frames k) a; Ret (f, k).
Definition put_frame (a : Z) (f : frame) : m unit := modify (fun k => set_frames (<[a := f]> (frames k)) k).

(** ** The parts of other components that tasks use *)

Variable free_page : P -> Z -> out P.
Variable boot : Mmu.Mmu.boot_tables.
Variable devs : Mmu.Mmu.devices.
Variable call_lookup : F -> Dentry.fs F C -> Z -> list Z -> out (res Z * Dentry.fs F C).
Variable call_open : F -> File.fsys F C -> Z -> Z -> out (res Z * File.fsys F C).
Variable after : Z.

Definition page_alloc : m Z := on_mem (fun s => '(a, p) ← src_alloc (Mmu.Mmu.src s) 0; mret (a, Mmu.Mmu.set_src p s)).
Definition page_free (a : Z) : m unit := on_mem (fun s => p ← free_page (Mmu.Mmu.src s) a; mret (tt, Mmu.Mmu.set_src p s)).

(** The entry, and whether it was cleared. *)
Definition alloc_task : m Z := fun k =>
  '(r, c) ← es_alloc (task_cache k) 1;
  let k := set_caches c (thread_cache k) k in
  match r with
  | Err _ => Fault
  | Ok (a, z) =>
      let t := if (z : bool) then zero_task else default zero_task (tsks (sch k) !! a) in
      Ret (a, set_sch (set_lnk (task_nodes a (lnk (sch k))) (put_tsk (sch k) a t)) k)
  end.
Definition alloc_thread : m Z := fun k =>
  '(r, c) ← es_alloc (thread_cache k) 1;
  let k := set_caches (task_cache k) c k in
  match r with
  | Err _ => Fault
  | Ok (a, z) =>
      let t := if (z : bool) then zero_thread else default zero_thread (thrs (sch k) !! a) in
      Ret (a, set_sch (set_lnk (node (THLIST a) (lnk (sch k))) (put_thr (sch k) a t)) k)
  end.
Definition free_thread (a : Z) : m unit := fun k => c ← es_free (thread_cache k) a; Ret (tt, set_caches (task_cache k) c k).

(** [kmemset(kstack_top, 0, KSTACK_SIZE)], for the registers saved there. *)
Definition clear_stack (top : Z) : m unit :=
  modify (fun k => set_frames (map_imap (fun a f => Some (if (top <=? a) && (a <? top + KSTACK_SIZE) then zero_frame else f)) (frames k)) k).

(** ** Threads *)

Definition sched_get_pid : m Z := fun k =>
  l ← spin_acquire (pid_lock k); Ret (pid k, set_pid (s32 (pid k + 1)) (spin_release l) k).

(** The stack of a new thread and the place of its registers. *)
Definition new_stack (t : Z) : m Z :=
  p ← page_alloc;
  let top := mmu_p_to_v p in
  let bottom := u64 (top + KSTACK_SIZE) in
  let ex := u64 (bottom - SIZEOF_EXEC_STATE) in
  _ ← put_thread t (mk_thread T_UNSTARTED top bottom ex);
  _ ← upd_lnk (fun l => list_init l (THLIST t));
  mret ex.

Definition sched_thread_create (func : Z) : m Z :=
  t ← alloc_thread;
  ex ← new_stack t;
  _ ← put_frame ex (start_frame func ex);
  mret t.

Definition sched_thread_destroy (t : Z) : m unit :=
  if t =? 0 then mret tt
  else
    _ ← upd_lnk (fun l => list_remove l (THLIST t));
    x ← get_thread t;
    _ ← clear_stack (kstack_top x);
    _ ← page_free (mmu_v_to_p (kstack_top x));
    _ ← put_thread t zero_thread;
    _ ← upd_lnk (fun l => mret (<[THLIST t := mk_links 0 0]> l));
    free_thread t.

(** A further thread goes in front of the last one. *)
Definition sched_task_add_thread (parent child : Z) : m unit :=
  p ← get_task parent;
  _ ← (if nthreads p =? 0 then put_task parent (set_threads child p)
       else
         n ← links_of (fun l => get l (THLIST (threads p)));
         upd_lnk (fun l => list_append l (THLIST (thread_of_list (prev n))) (THLIST child)));
  mod_task parent (fun p => set_nthreads (u64 (nthreads p + 1)) p).

(** ** Tasks *)

Definition TTY : list Z := [47; 100; 101; 118; 47; 116; 116; 121; 49].

(** The running task, as the path lookup looks at it. *)
Definition current_pwd (me : Z) : m (option (option Z)) := fun k =>
  a ← Sched.sched_get_active (sch k) me;
  if a =? 0 then Ret (None, k)
  else
    t ← get_tsk (sch k) a;
    if t_fs_ctx t =? 0 then Ret (Some None, k)
    else x ← at_ptr (fsx k) (t_fs_ctx t); Ret (Some (Some (Vfs.fx_pwd x)), k).

Definition new_ctxs (fs : option Vfs.fs_ctx) (fd : option Vfs.file_ctx) : m Z := fun k =>
  let a := next_ctx k in
  Ret (a, set_ctxs (match fs with Some x => <[a := x]> (fsx k) | None => fsx k end)
            (match fd with Some x => <[a := x]> (fdx k) | None => fdx k end) (a + 1) k).

(** The three standard descriptors are one file. *)
Definition open_tty (t me : Z) : m unit :=
  cur ← current_pwd me;
  path ← on_vf (fun s => Vfs.vfs_path_lookup call_lookup s (Some TTY) Vfs.LOOKUP_OPEN cur after);
  if negb (Vfs.p_status path =? Vfs.LOOKUP_STAT_SUCCESS) then mret tt
  else
    r ← on_vf (fun s => '(r, y) ← File.file_open call_open (Vfs.sys s) (Vfs.p_dentry path) O_RDWR; mret (r, Vfs.set_sys y s));
    match r with
    | Err _ => mret tt
    | Ok file =>
        c ← new_ctxs None (Some (Vfs.vfs_alloc_file_ctx [file; file; file] 3));
        mod_task t (fun x => set_ctx (t_fs_ctx x) c x)
    end.

Definition sched_task_create (me : Z) : m Z :=
  t ← alloc_task;
  n ← sched_get_pid;
  _ ← mod_task t (fun x => mk_task 0 0 (threads x) n (t_fs_ctx x) (t_file_ctx x) (t_wq_task x) (t_dir x) (t_cr3 x));
  _ ← upd_lnk (fun l => l ← list_init l (CHILDREN t); l ← list_init l (ZOMBIES t); list_init l (TLIST t));
  dir ← on_mem (Mmu.Mmu.mmu_native_build_dir boot devs);
  _ ← mod_task t (set_dir dir (mmu_v_to_p dir));
  _ ← on_sch (fun s => wq_init s t);
  _ ← on_sch (fun s => wq_init_head s (WQH_CHILD t));
  _ ← open_tty t me;
  x ← (fun k => c ← Vfs.vfs_alloc_fs_ctx (vf k) 0; Ret (c, k));
  c ← new_ctxs (Some x) None;
  _ ← mod_task t (fun x => set_ctx c (t_file_ctx x) x);
  mret t.

(** The task object is not given back, and nothing is returned. *)
Definition sched_task_destroy (task : Z) : m unit :=
  if task =? 0 then mret tt
  else
    t ← get_task task;
    _ ← assert (nthreads t =? 1);
    _ ← on_mem (fun s => s ← Mmu.Mmu.mmu_native_destroy_dir free_page (t_dir t) s; mret (tt, s));
    sched_thread_destroy (threads t).

(** One thread of the child: a new stack with the registers of the parent's. *)
Definition fork_thread (child parent_t : Z) : m Z :=
  child_t ← alloc_thread;
  ex ← new_stack child_t;
  x ← get_thread parent_t;
  f ← get_frame (exec_state x);
  _ ← put_frame ex f;
  _ ← sched_task_add_thread child child_t;
  n ← links_of (fun l => get l (THLIST parent_t));
  mret (thread_of_list (next n)).

Fixpoint fork_threads (n : nat) (child parent_t : Z) : m unit :=
  match n with O => mret tt | S n => parent_t ← fork_thread child parent_t; fork_threads n child parent_t end.

Definition share_fs (a : Z) : m unit := fun k =>
  x ← at_ptr (fsx k) a;
  Ret (tt, set_ctxs (<[a := Vfs.mk_fs_ctx (s32 (Vfs.fx_count x + 1)) (Vfs.fx_root x) (Vfs.fx_pwd x)]> (fsx k)) (fdx k) (next_ctx k) k).
Definition share_file (a : Z) : m unit := fun k =>
  x ← at_ptr (fdx k) a;
  Ret (tt, set_ctxs (fsx k) (<[a := Vfs.mk_file_ctx (s32 (Vfs.fc_count x + 1)) (Vfs.numfd x) (Vfs.fd x) (Vfs.fc_lock x)]> (fdx k)) (next_ctx k) k).

Definition sched_task_fork (parent : Z) : m Z :=
  _ ← assert (negb (parent =? 0));
  child ← alloc_task;
  n ← sched_get_pid;
  _ ← mod_task child (fun x => mk_task parent 0 (threads x) n (t_fs_ctx x) (t_file_ctx x) (t_wq_task x) (t_dir x) (t_cr3 x));
  _ ← on_sch (fun s => wq_init s child);
  _ ← on_sch (fun s => wq_init_head s (WQH_CHILD child));
  p ← get_task parent;
  _ ← fork_threads (Z.to_nat (nthreads p)) child (threads p);
  _ ← upd_lnk (fun l => l ← list_init l (CHILDREN child); l ← list_init l (ZOMBIES child); l ← list_init l (TLIST child);
                        list_append l (CHILDREN parent) (TLIST child));
  dir ← on_mem (Mmu.Mmu.mmu_native_duplicate_dir boot devs);
  _ ← mod_task child (set_dir dir (mmu_v_to_p dir));
  p ← get_task parent;
  _ ← mod_task child (fun x => set_ctx (t_fs_ctx p) (t_file_ctx x) x);
  _ ← share_fs (t_fs_ctx p);
  _ ← mod_task child (fun x => set_ctx (t_fs_ctx x) (t_file_ctx p) x);
  _ ← share_file (t_file_ctx p);
  mret child.

(** All threads but the first go back to the cache; they stay linked, and
    their stacks are kept. *)
Fixpoint free_loop (fuel : nat) (t iter : Z) : m unit :=
  match fuel with
  | O => fun _ => Spin
  | S fuel =>
      _ ← free_thread iter;
      n ← links_of (fun l => get l (THLIST iter));
      x ← get_task t;
      let left := u64 (nthreads x - 1) in
      _ ← put_task t (set_nthreads left x);
      if 1 <? left then free_loop fuel t (thread_of_list (next n)) else mret tt
  end.

Definition sched_free_threads (t : Z) : m unit :=
  x ← get_task t;
  if nthreads x =? 1 then mret tt
  else
    n ← links_of (fun l => get l (THLIST (threads x)));
    free_loop (Z.to_nat (u64 (nthreads x - 1))) t (thread_of_list (next n)).

(** What is needed for task [a] to be forked into [c]: [a] has one thread,
    and the caches and the page allocator give objects that are not in use. *)
Record forkable (k : kern) (a : Z) (p : task) (x : thread) (f : frame) (fsc : Vfs.fs_ctx) (fdc : Vfs.file_ctx) (xs : list Z)
    (c ct pg dir : Z) (mm : Mmu.Mmu.state P) : Prop := {
  fk_task : get_tsk (sch k) a = Ret p;
  fk_one : nthreads p = 1;
  fk_thread : get_thr (sch k) (threads p) = Ret x;
  fk_frame : at_ptr (frames k) (exec_state x) = Ret f;
  fk_fs : at_ptr (fsx k) (t_fs_ctx p) = Ret fsc;
  fk_fd : at_ptr (fdx k) (t_file_ctx p) = Ret fdc;
  fk_children : ring (lnk (sch k)) (CHILDREN a) xs;
  fk_link : is_Some (lnk (sch k) !! THLIST (threads p)) /\ THLIST (threads p) <> 0;
  fk_lock : pid_lock k = 0;
  fk_child : exists z tc, es_alloc (task_cache k) 1 = Ret (Ok (c, z), tc);
  fk_child_thread : exists z hc, es_alloc (thread_cache k) 1 = Ret (Ok (ct, z), hc);
  fk_stack : exists sp, src_alloc (Mmu.Mmu.src (mem k)) 0 = Ret (pg, sp) /\ Mmu.Mmu.mmu_native_duplicate_dir boot devs (Mmu.Mmu.set_src sp (mem k)) = Ret (dir, mm);
  fk_new : 0 < c /\ c <> a /\ 0 < ct /\ ct <> threads p;
  fk_nodes : forall n, n ∈ THLIST ct :: nodes_of c -> n ∉ CHILDREN a :: xs;
  fk_thread_node : THLIST ct ∉ nodes_of c
}.

Definition stack_top (pg : Z) : Z := mmu_p_to_v pg.
Definition stack_bottom (pg : Z) : Z := u64 (stack_top pg + KSTACK_SIZE).
Definition stack_frame (pg : Z) : Z := u64 (stack_bottom pg - SIZEOF_EXEC_STATE).

Record forked (k k' : kern) (a : Z) (p : task) (f : frame) (fsc : Vfs.fs_ctx) (fdc : Vfs.file_ctx) (xs : list Z) (c ct pg dir : Z) : Prop := {
  fd_task : get_tsk (sch k') c = Ret (mk_task a 1 ct (pid k) (t_fs_ctx p) (t_file_ctx p) c dir (mmu_v_to_p dir));
  fd_thread : get_thr (sch k') ct = Ret (mk_thread T_UNSTARTED (stack_top pg) (stack_bottom pg) (stack_frame pg));
  fd_frames : frames k' = <[stack_frame pg := f]> (frames k);
  fd_fs : fsx k' = <[t_fs_ctx p := Vfs.mk_fs_ctx (s32 (Vfs.fx_count fsc + 1)) (Vfs.fx_root fsc) (Vfs.fx_pwd fsc)]> (fsx k);
  fd_fd : fdx k' = <[t_file_ctx p := Vfs.mk_file_ctx (s32 (Vfs.fc_count fdc + 1)) (Vfs.numfd fdc) (Vfs.fd fdc) (Vfs.fc_lock fdc)]> (fdx k);
  fd_children : ring (lnk (sch k')) (CHILDREN a) (TLIST c :: xs);
  fd_rings : forall n, n ∈ [CHILDREN c; ZOMBIES c; WQH_LIST (WQH_CHILD c); THLIST ct] -> ring (lnk (sch k')) n [];
  fd_tasks : forall b, b <> c -> tsks (sch k') !! b = tsks (sch k) !! b;
  fd_threads : forall b, b <> ct -> thrs (sch k') !! b = thrs (sch k) !! b;
  fd_sched : mts (sch k') = mts (sch k) /\ started (sch k') = started (sch k) /\ tss_rsp (sch k') = tss_rsp (sch k) /\ cur_cr3 (sch k') = cur_cr3 (sch k);
  fd_pid : pid k' = s32 (pid k + 1) /\ pid_lock k' = 0
}.


(** The steps of a fork. *)

Lemma run_mod_task k a g t : get_tsk (sch k) a = Ret t -> mod_task a g k = Ret (tt, set_sch (put_tsk (sch k) a (g t)) k).
Proof. intros E. unfold mod_task, get_task. rewrite (st_step _ _ k t k); [done |]. by rewrite E. Qed.

Lemma run_upd_lnk k g l : g (lnk (sch k)) = Ret l -> upd_lnk g k = Ret (tt, set_sch (set_lnk l (sch k)) k).
Proof. intros E. unfold upd_lnk, upd_sch. by rewrite E. Qed.

Lemma run_alloc_task k a z tc : es_alloc (task_cache k) 1 = Ret (Ok (a, z), tc) ->
  exists t, alloc_task k = Ret (a, set_sch (set_lnk (task_nodes a (lnk (sch k))) (put_tsk (sch k) a t)) (set_caches tc (thread_cache k) k)).
Proof. intros E. unfold alloc_task. rewrite E. rb. eexists. done. Qed.

Lemma run_alloc_thread k a z hc : es_alloc (thread_cache k) 1 = Ret (Ok (a, z), hc) ->
  exists t, alloc_thread k = Ret (a, set_sch (set_lnk (node (THLIST a) (lnk (sch k))) (put_thr (sch k) a t)) (set_caches (task_cache k) hc k)).
Proof. intros E. unfold alloc_thread. rewrite E. rb. eexists. done. Qed.

Lemma run_new_stack k t pg sp l : src_alloc (Mmu.Mmu.src (mem k)) 0 = Ret (pg, sp) -> list_init (lnk (sch k)) (THLIST t) = Ret l ->
  new_stack t k = Ret (stack_frame pg, set_sch (set_lnk l (put_thr (sch k) t (mk_thread T_UNSTARTED (stack_top pg) (stack_bottom pg) (stack_frame pg))))
    (set_mem (Mmu.Mmu.set_src sp (mem k)) k)).
Proof.
  intros E1 E2. unfold new_stack. rewrite (st_step page_alloc _ k pg (set_mem (Mmu.Mmu.set_src sp (mem k)) k)).
  2: { unfold page_alloc, on_mem. by rewrite E1. }
  cbv beta zeta. erewrite st_step; [| reflexivity]. cbv beta. erewrite st_step; [| apply run_upd_lnk; exact E2]. done.
Qed.

Lemma run_get_pid k : pid_lock k = 0 -> sched_get_pid k = Ret (pid k, set_pid (s32 (pid k + 1)) 0 k).
Proof. intros E. unfold sched_get_pid. by rewrite E, spin_acquire_free, ret_bind, spin_release_0. Qed.

Lemma run_links_of {A} k (g : links -> out A) v : g (lnk (sch k)) = Ret v -> links_of g k = Ret (v, k).
Proof. intros E. unfold links_of. by rewrite E. Qed.

Lemma run_add_first k c ct q : get_tsk (sch k) c = Ret q -> nthreads q = 0 ->
  sched_task_add_thread c ct k = Ret (tt, set_sch (put_tsk (sch k) c (set_nthreads 1 (set_threads ct q))) k).
Proof.
  intros Eq Hq. unfold sched_task_add_thread, get_task. rewrite (st_step _ _ k q k) by (by rewrite Eq). rewrite Hq. change (0 =? 0) with true. cbv iota.
  erewrite (st_step (put_task c (set_threads ct q))); [| reflexivity]. pose proof (proj1 (at_ptr_Ret _ _ _) Eq) as [Hc _].
  erewrite run_mod_task; [| apply at_ptr_insert, Hc]. cbn [set_threads nthreads]. rewrite Hq. change (u64 (0 + 1)) with 1.
  unfold set_sch, put_tsk, set_tsks. cbn [sch tsks]. by rewrite insert_insert_eq.
Qed.

(** One thread, given to a child that has none. *)
Lemma run_fork_thread k c ct pt q x f z hc pg sp l n : es_alloc (thread_cache k) 1 = Ret (Ok (ct, z), hc) -> ct <> 0 -> ct <> pt ->
  list_init (node (THLIST ct) (lnk (sch k))) (THLIST ct) = Ret l -> src_alloc (Mmu.Mmu.src (mem k)) 0 = Ret (pg, sp) ->
  get_thr (sch k) pt = Ret x -> at_ptr (frames k) (exec_state x) = Ret f -> get_tsk (sch k) c = Ret q -> nthreads q = 0 -> get l (THLIST pt) = Ret n ->
  fork_thread c pt k = Ret (thread_of_list (next n),
    set_sch (set_lnk l (put_tsk (put_thr (sch k) ct (mk_thread T_UNSTARTED (stack_top pg) (stack_bottom pg) (stack_frame pg))) c (set_nthreads 1 (set_threads ct q))))
      (set_frames (<[stack_frame pg := f]> (frames k)) (set_mem (Mmu.Mmu.set_src sp (mem k)) (set_caches (task_cache k) hc k)))).
Proof.
  intros Ea Hct Hpt El Es Ex Ef Eq Hq En. destruct (run_alloc_thread k ct z hc Ea) as [x0 Ex0]. unfold fork_thread. rewrite (st_step alloc_thread _ _ _ _ Ex0).
  erewrite (st_step (new_stack ct)); [| eapply run_new_stack; [exact Es | exact El]].
  set (k1 := set_sch _ _). assert (E1 : get_thr (sch k1) pt = Ret x).
  { unfold get_thr. cbn [k1 sch set_sch set_lnk put_thr thrs set_thrs]. rewrite !at_ptr_insert_ne by done. exact Ex. }
  unfold get_thread, get_frame. rewrite (st_step _ _ k1 x k1) by (by rewrite E1). rewrite (st_step _ _ k1 f k1) by (cbn; by rewrite Ef).
  erewrite (st_step (put_frame _ _)); [| reflexivity].
  erewrite (st_step (sched_task_add_thread c ct)); [| apply run_add_first; [exact Eq | exact Hq]].
  erewrite (st_step (links_of _)); [| apply run_links_of; exact En].
  clear E1. subst k1. destruct k as [[mt tk th lk wl sd rs cr] me v fs fd nc fr pi pl tc hc'].
  unfold mret, st_ret. cbv [set_sch set_frames set_mem set_caches set_lnk put_tsk put_thr set_tsks set_thrs sch mem vf fsx fdx next_ctx frames pid pid_lock task_cache thread_cache mts tsks thrs lnk wq_locks started tss_rsp cur_cr3].
  by rewrite insert_insert_eq.
Qed.

Lemma sched_task_fork_spec k a p x f fsc fdc xs c ct pg dir mm : forkable k a p x f fsc fdc xs c ct pg dir mm ->
  exists k', sched_task_fork a k = Ret (c, k') /\ mem k' = mm /\ forked k k' a p f fsc fdc xs c ct pg dir.
Proof.
  intros [Ht Ho Hth Hf Hfs Hfd Hch [Hlk Hlz] Hl (z & tc' & Ec) (z2 & hc' & Eh) (sp & Es & Ed) (Hc & Hca & Hct & Hctp) Hn Hnt].
  destruct k as [[mt tk th lk wl sd rs cr] me vf fs fd nc fr pi pl tc hc].
  cbn [sch mem fsx fdx frames pid pid_lock task_cache thread_cache lnk] in *. subst pl.
  destruct (fork_links lk a c ct xs Hch Hc Hct Hn Hnt) as (s1 & s2 & s3 & s4 & s5 & s6 & s7 & E1 & E2 & E3 & E4 & E5 & E6 & E7 & Hold & Hring & Hrings).
  pose proof (proj1 (at_ptr_Ret _ _ _) Ht) as [Ha _]. assert (Hc0 : c <> 0) by lia.
  set (K := fun tk th lk wl me fs fd fr pi tc hc => mk_kern (mk_sys mt tk th lk wl sd rs cr) me vf fs fd nc fr pi 0 tc hc).
  change (mk_kern _ _ _ _ _ _ _ _ _ _ _) with (K tk th lk wl me fs fd fr pi tc hc).
  unfold sched_task_fork. rewrite (proj2 (Z.eqb_neq _ _) Ha). rewrite (st_step (assert true) _ _ tt _ eq_refl).
  destruct (run_alloc_task (K tk th lk wl me fs fd fr pi tc hc) c z tc' Ec) as [t0 Et0].
  rewrite (st_step alloc_task _ _ c (K (<[c := t0]> tk) th (task_nodes c lk) wl me fs fd fr pi tc' hc) Et0).
  rewrite (st_step sched_get_pid _ _ pi (K (<[c := t0]> tk) th (task_nodes c lk) wl me fs fd fr (s32 (pi + 1)) tc' hc) (run_get_pid (K (<[c := t0]> tk) th (task_nodes c lk) wl me fs fd fr pi tc' hc) eq_refl)).
  set (t1 := mk_task a 0 (threads t0) pi (t_fs_ctx t0) (t_file_ctx t0) (t_wq_task t0) (t_dir t0) (t_cr3 t0)).
  erewrite (st_step (mod_task c _)); [| apply (run_mod_task _ c _ t0), at_ptr_insert, Hc0].
  change (set_sch _ _) with (K (<[c := t1]> (<[c := t0]> tk)) th (task_nodes c lk) wl me fs fd fr (s32 (pi + 1)) tc' hc). rewrite insert_insert_eq.
  set (t2 := mk_task a 0 (threads t0) pi (t_fs_ctx t0) (t_file_ctx t0) c (t_dir t0) (t_cr3 t0)).
  assert (Ew : wq_init (sch (K (<[c := t1]> tk) th (task_nodes c lk) wl me fs fd fr (s32 (pi + 1)) tc' hc)) c = Ret (0, mk_sys mt (<[c := t2]> (<[c := t1]> tk)) th s1 wl sd rs cr)).
  { unfold wq_init. rewrite (proj2 (Z.eqb_neq _ _) Hc0). cbn [lnk sch K]. rewrite E1. rb. unfold get_tsk. cbn [tsks sch K]. rewrite at_ptr_insert by done. done. }
  erewrite (st_step (on_sch (fun s => wq_init s c))); [| unfold on_sch; rewrite Ew; reflexivity]. rewrite insert_insert_eq.
  change (set_sch _ _) with (K (<[c := t2]> tk) th s1 wl me fs fd fr (s32 (pi + 1)) tc' hc).
  set (wl' := <[WQH_CHILD c := 0]> wl).
  assert (Eh2 : wq_init_head (sch (K (<[c := t2]> tk) th s1 wl me fs fd fr (s32 (pi + 1)) tc' hc)) (WQH_CHILD c) = Ret (0, mk_sys mt (<[c := t2]> tk) th s2 wl' sd rs cr)).
  { unfold wq_init_head. rewrite (proj2 (Z.eqb_neq (WQH_CHILD c) 0)) by (unfold WQH_CHILD; lia). cbn [lnk sch K]. rewrite E2. done. }
  erewrite (st_step (on_sch (fun s => wq_init_head s (WQH_CHILD c)))); [| unfold on_sch; rewrite Eh2; reflexivity].
  change (set_sch _ _) with (K (<[c := t2]> tk) th s2 wl' me fs fd fr (s32 (pi + 1)) tc' hc).
  assert (Hta : forall t, at_ptr (<[c := t]> tk) a = Ret p) by (intros t; rewrite at_ptr_insert_ne by done; exact Ht).
  erewrite (st_step (get_task a)); [| unfold get_task, get_tsk; cbn [sch tsks K]; rewrite Hta; reflexivity].
  rewrite Ho. change (Z.to_nat 1) with 1%nat. cbn [fork_threads]. rewrite st_assoc.
  destruct Hlk as [ln Hlk]. destruct (Hold _ (ex_intro _ ln Hlk)) as [n3 Hn3].
  set (thr := mk_thread T_UNSTARTED (stack_top pg) (stack_bottom pg) (stack_frame pg)). set (t3 := set_nthreads 1 (set_threads ct t2)).
  erewrite (st_step (fork_thread c (threads p))).
  2: { apply (run_fork_thread _ c ct (threads p) t2 x f z2 hc' pg sp s3 n3); try done; [lia | by apply at_ptr_insert | by apply get_Ret]. }
  change (set_sch _ _) with (K (<[c := t3]> (<[c := t2]> tk)) (<[ct := thr]> th) s3 wl' (Mmu.Mmu.set_src sp me) fs fd (<[stack_frame pg := f]> fr) (s32 (pi + 1)) tc' hc').
  rewrite insert_insert_eq. rewrite (st_step (mret tt) _ _ tt _ eq_refl).
  erewrite (st_step (upd_lnk _)); [| apply (run_upd_lnk _ _ s7); cbn [sch lnk K]; rewrite E4; rb; rewrite E5; rb; rewrite E6; rb; exact E7].
  erewrite (st_step (on_mem _)); [| unfold on_mem; cbn [mem set_sch K]; rewrite Ed; reflexivity].
  change (set_mem _ _) with (K (<[c := t3]> tk) (<[ct := thr]> th) s7 wl' mm fs fd (<[stack_frame pg := f]> fr) (s32 (pi + 1)) tc' hc').
  erewrite (st_step (mod_task c _)); [| apply (run_mod_task _ c _ t3), at_ptr_insert, Hc0].
  set (t4 := set_dir dir (mmu_v_to_p dir) t3). change (set_sch _ _) with (K (<[c := t4]> (<[c := t3]> tk)) (<[ct := thr]> th) s7 wl' mm fs fd (<[stack_frame pg := f]> fr) (s32 (pi + 1)) tc' hc').
  rewrite insert_insert_eq. erewrite (st_step (get_task a)); [| unfold get_task, get_tsk; cbn [sch tsks K]; rewrite Hta; reflexivity].
  erewrite (st_step (mod_task c _)); [| apply (run_mod_task _ c _ t4), at_ptr_insert, Hc0].
  set (t5 := set_ctx (t_fs_ctx p) (t_file_ctx t4) t4). change (set_sch _ _) with (K (<[c := t5]> (<[c := t4]> tk)) (<[ct := thr]> th) s7 wl' mm fs fd (<[stack_frame pg := f]> fr) (s32 (pi + 1)) tc' hc').
  rewrite insert_insert_eq. erewrite (st_step (share_fs _)); [| unfold share_fs; cbn [fsx K]; rewrite Hfs; reflexivity].
  erewrite (st_step (mod_task c _)); [| apply (run_mod_task _ c _ t5), at_ptr_insert, Hc0].
  erewrite (st_step (share_file _)); [| unfold share_file; cbn [fdx set_sch set_ctxs K]; rewrite Hfd; reflexivity].
  eexists. split; [reflexivity |]. split; [reflexivity |].
  split; try done.
  - unfold get_tsk. cbn [sch tsks set_sch set_ctxs put_tsk set_tsks K]. rewrite insert_insert_eq. by apply at_ptr_insert.
  - unfold get_thr. apply at_ptr_insert. lia.
  - intros b Hb. cbn [sch tsks set_sch set_ctxs put_tsk set_tsks K]. by rewrite !lookup_insert_ne by done.
  - intros b Hb. cbn [sch thrs set_sch set_ctxs put_tsk set_tsks K]. by rewrite lookup_insert_ne by done.
Qed.



End task.
#[global] Arguments kern : clear implicits.

End Task.
