(* ===== verification/Syscall.v ===== *)
(** * System calls (sched/syscall.c)

    The table of calls and its handler.  The arguments are in the registers
    that the interrupt saved at [cpu]; the result goes to the frame that the
    thread of the caller has as [exec_state].  A call may put its caller to
    sleep, or leave for another task for ever: [Sleeps] then says to whom
    control went, and [..._resume] is what runs after the switch back.  The
    calls on sockets are those of Socket, and what a file does those of its
    table of operations; both are given as functions on the whole state. *)

From S2P Require Import Prelude Kmem Dlist Locks Memory Mts Sched Mmu Dentry File Vfs Task.
Import Kmem Dlist Locks Memory Sched Task.

Module Syscall.

Definition MAX_SYSCALLS : Z := 17.
Definition IRQ_HANDLED : Z := 0.
Definition O_RDONLY : Z := 2.

Inductive outcome := Done (ret : Z) | Sleeps (c : control).

(** The calls on sockets with their arguments; an address of 0 is a null
    pointer. *)
Inductive sock_call :=
  | SocketAlloc (ctx domain type proto : Z)
  | SocketBind (ctx fd addr len : Z)
  | SocketSend (ctx fd buf len flags addr slen : Z)
  | SocketRecv (ctx fd buf len flags addr slen : Z)
  | SocketConnect (ctx fd addr len : Z)
  | SocketListen (ctx fd backlog : Z)
  | SocketAccept (ctx fd addr len : Z).

(** ** Lists of tasks *)

Lemma LIST_EMPTY_ring l s xs : ring l s xs -> LIST_EMPTY l s = Ret (bool_decide (xs = [])).
Proof.
  intros (Hnd & Hz & Hc & _). destruct (first_link _ _ _ _ Hc) as [Hn _]. assert (Hs : s <> 0) by (intros ->; apply Hz; by left).
  destruct (get_nx l s _ Hs Hn) as (n & E & En & _). unfold LIST_EMPTY. rewrite E. rb. unfold mret, out_ret. f_equal. rewrite En.
  destruct xs as [| x xs]; [by rewrite Z.eqb_refl |]. rewrite bool_decide_eq_false_2 by done. apply Z.eqb_neq. cbn. apply NoDup_cons in Hnd as [Hnd _]. intros ->. apply Hnd. by left.
Qed.

(** A task leaves the children of its parent for the zombies. *)
Lemma exit_links l p c l1 l2 zs w ws : ring l (CHILDREN p) (l1 ++ TLIST c :: l2) -> ring l (ZOMBIES p) zs -> ring l w ws ->
  (forall n, n ∈ CHILDREN p :: l1 ++ TLIST c :: l2 -> n ∉ ZOMBIES p :: zs /\ n ∉ w :: ws) -> (forall n, n ∈ ZOMBIES p :: zs -> n ∉ w :: ws) ->
  exists s1 s2, list_remove l (TLIST c) = Ret s1 /\ list_append s1 (ZOMBIES p) (TLIST c) = Ret s2 /\
    ring s2 (CHILDREN p) (l1 ++ l2) /\ ring s2 (ZOMBIES p) (TLIST c :: zs) /\ ring s2 w ws.
Proof.
  intros Hc Hzs Hw D1 D2. destruct (list_remove_dlist l (CHILDREN p) (TLIST c) (CHILDREN p) l1 l2 Hc) as (s1 & E1 & R1 & Hx & F1 & Dm).
  assert (Ht : TLIST c ∈ CHILDREN p :: l1 ++ TLIST c :: l2) by (rewrite elem_of_cons, elem_of_app, elem_of_cons; tauto).
  assert (Fr1 : forall v vs, (forall n, n ∈ v :: vs -> n ∉ CHILDREN p :: l1 ++ TLIST c :: l2) -> ring l v vs -> ring s1 v vs).
  { intros v vs Hv. apply ring_frame. intros n Hn. unfold nx, pv. rewrite F1; [done | by apply Hv]. }
  assert (Z1 : ring s1 (ZOMBIES p) zs) by (apply Fr1; [intros n Hn Hn2; by apply (D1 n) in Hn2 as [] | done]).
  assert (W1 : ring s1 w ws) by (apply Fr1; [intros n Hn Hn2; by apply (D1 n) in Hn2 as [] | done]).
  assert (Hmt : is_Some (l !! TLIST c)) by (destruct Hc as (_ & _ & Hc & _); by eapply chain_mapped).
  destruct (list_append_dlist s1 (ZOMBIES p) (TLIST c) (ZOMBIES p) zs Z1) as (s2 & E2 & R2 & F2 & _);
    [intros E0; destruct Hc as (_ & Hc & _); apply Hc; by rewrite <- E0 | by apply D1 | by apply (dom_mapped l) |].
  assert (Fr2 : forall v vs, (forall n, n ∈ v :: vs -> n ∉ ZOMBIES p :: zs /\ n <> TLIST c) -> ring s1 v vs -> ring s2 v vs).
  { intros v vs Hv. apply ring_frame. intros n Hn. destruct (Hv n Hn) as [Hn1 Hn2]. unfold nx, pv. rewrite F2; [done | intros ->; apply Hn1; by left | done |].
    intros ->. apply Hn1. destruct zs; [by left | right; by left]. }
  exists s1, s2. split_and!; [done | done | | done |].
  - apply Fr2; [| done]. intros n Hn. split; [apply D1; rewrite elem_of_cons, elem_of_app in Hn; rewrite elem_of_cons, elem_of_app, elem_of_cons; tauto |].
    intros ->. destruct Hc as (Hnd & _). rewrite app_comm_cons in Hnd. apply NoDup_app in Hnd as (_ & Hnd & Hnd2). apply NoDup_cons in Hnd2 as [Hnd2 _].
    rewrite elem_of_cons, elem_of_app in Hn. destruct Hn as [Hn | [Hn | Hn]]; [apply (Hnd (TLIST c)) | apply (Hnd (TLIST c)) |]; rewrite ?elem_of_cons; tauto.
  - apply Fr2; [| done]. intros n Hn. split; [intros Hn2; by apply (D2 n) in Hn2 |]. intros ->. by apply (D1 (TLIST c)) in Ht as [].
Qed.

Section syscall.
Context {M P F G C : Type} `{SchedOps M} `{PageSource P} `{EntrySource C}.
#[local] Notation kern := (kern M P F G C).
#[local] Notation m := (st kern).

Variable free_page : P -> Z -> out P.
Variable boot : Mmu.Mmu.boot_tables.
Variable devs : Mmu.Mmu.devices.
Variable call_lookup : F -> Dentry.fs F C -> Z -> list Z -> out (res Z * Dentry.fs F C).
Variable call_open : F -> File.fsys F C -> Z -> Z -> out (res Z * File.fsys F C).
Variable after : Z.
(** [call_read op file offset size buffer], [call_write ...]. *)
Variable call_read : F -> Z -> Z -> Z -> Z -> m outcome.
Variable call_write : F -> Z -> Z -> Z -> Z -> m outcome.
Variable call_socket : sock_call -> m outcome.
(** The string at an address of the user, and the loaders of binfmt.c. *)
Variable user_string : Z -> option (list Z).
Variable binfmt_load : Z -> m outcome.
(** The CPU. *)
Variable me : Z.

Definition sched_get_active : m Z := fun k => a ← Sched.sched_get_active (sch k) me; Ret (a, k).
Definition then_done (x : m outcome) (f : Z -> m Z) : m outcome :=
  o ← x; match o with Done r => r ← f r; mret (Done r) | Sleeps c => mret (Sleeps c) end.

(** ** Files *)

Definition ops_of_file (file : Z) : m (Dentry.file_ops F) := fun k =>
  x ← File.get_file (Vfs.sys (vf k)) file; o ← File.ops_of (Vfs.sys (vf k)) x; Ret (o, k).
Definition file_read (file offset size buffer : Z) : m outcome :=
  if (file =? 0) || (buffer =? 0) then mret (Done (- EINVAL))
  else o ← ops_of_file file; match Dentry.read o with None => mret (Done (- ENOSYS)) | Some op => call_read op file offset size buffer end.
Definition file_write (file offset size buffer : Z) : m outcome :=
  if (file =? 0) || (buffer =? 0) then mret (Done (- EINVAL))
  else o ← ops_of_file file; match Dentry.write o with None => mret (Done (- ENOSYS)) | Some op => call_write op file offset size buffer end.

(** The descriptor of a call; [None] for one that does not exist, with the
    error number. *)
Definition user_file (t : task) (buf fd : Z) : m (res Z) :=
  if (buf =? 0) || (t_file_ctx t =? 0) then mret (Err EINVAL)
  else
    fun k =>
      x ← at_ptr (fdx k) (t_file_ctx t);
      if (fd <? 0) || (Vfs.numfd x <=? fd) then Ret (Err EINVAL, k)
      else f ← rd (Vfs.fd x) fd; Ret (if f =? 0 then Err ENOENT else Ok f, k).

(** After a read the registers of the call are the ones a result goes to. *)
Definition sys_read_end (cur cpu nread : Z) : m Z :=
  t ← get_task cur;
  x ← get_thread (threads t);
  _ ← put_thread (threads t) (set_exec cpu x);
  mret (s32 nread).

Definition sys_read (cpu : Z) : m outcome :=
  r ← get_frame cpu;
  cur ← sched_get_active;
  t ← get_task cur;
  f ← user_file t (rbx r) (s32 (rdx r));
  match f with
  | Err _ => mret (Done (- 1))
  | Ok f => then_done (file_read f 0 (rcx r) (rbx r)) (sys_read_end cur cpu)
  end.

Definition sys_write (cpu : Z) : m outcome :=
  r ← get_frame cpu;
  cur ← sched_get_active;
  t ← get_task cur;
  f ← user_file t (rbx r) (s32 (rdx r));
  match f with
  | Err _ => mret (Done (- 1))
  | Ok f => then_done (file_write f 0 (rcx r) (rbx r)) (fun n => mret (s32 n))
  end.

(** ** Processes *)

(** The child can run before its result is written. *)
Definition sys_fork (cpu : Z) : m outcome :=
  cur ← sched_get_active;
  t ← sched_task_fork boot devs cur;
  if t =? 0 then mret (Done (- 1))
  else
    _ ← upd_sch (fun s => sched_task_set_state s me t T_READY);
    c ← get_task t;
    x ← get_thread (threads c);
    f ← get_frame (exec_state x);
    _ ← put_frame (exec_state x) (set_rax 0 f);
    mret (Done (t_pid c)).

(** A loader that comes back has failed; the path was released already and
    is released again. *)
Definition sys_execv (cpu : Z) : m outcome :=
  r ← get_frame cpu;
  cur ← current_pwd me;
  path ← on_vf (fun s => Vfs.vfs_path_lookup call_lookup s (user_string (rbx r)) Vfs.LOOKUP_OPEN cur after);
  let error := _ ← on_vf (fun s => Vfs.vfs_path_release s (Some path)); mret (Done (- 1)) in
  if negb (Vfs.p_status path =? Vfs.LOOKUP_STAT_SUCCESS) then error
  else
    f ← on_vf (fun s => '(f, y) ← File.file_open call_open (Vfs.sys s) (Vfs.p_dentry path) O_RDONLY; mret (f, Vfs.set_sys y s));
    match f with
    | Err _ => error
    | Ok file =>
        _ ← on_vf (fun s => Vfs.vfs_path_release s (Some path));
        o ← binfmt_load file;
        match o with Sleeps c => mret (Sleeps c) | Done _ => fail end
    end.

Definition free_fs (a : Z) : m unit := fun k =>
  '(_, x, v) ← Vfs.vfs_free_fs_ctx (vf k) (if a =? 0 then None else fsx k !! a);
  Ret (tt, set_ctxs (match x with Some x => <[a := x]> (fsx k) | None => fsx k end) (fdx k) (next_ctx k) (set_vf v k)).
Definition free_files (a : Z) : m unit :=
  modify (fun k => let '(_, x, _) := Vfs.vfs_free_file_ctx (if a =? 0 then None else fdx k !! a) in
                   set_ctxs (fsx k) (match x with Some x => <[a := x]> (fdx k) | None => fdx k end) (next_ctx k) k).

(** What [sys_exit] does before it leaves for the next task. *)
Definition exit_task (cur : Z) : m unit :=
  t ← get_task cur;
  let parent := t_parent t in
  _ ← assert (negb (parent =? 0));
  e ← links_of (fun l => LIST_EMPTY l (CHILDREN cur));
  _ ← (if negb e then mod_task cur (set_parent 0) else mret tt);
  _ ← free_fs (t_fs_ctx t);
  _ ← free_files (t_file_ctx t);
  _ ← sched_free_threads cur;
  _ ← upd_sch (fun s => sched_task_set_state s me cur T_ZOMBIE);
  _ ← upd_lnk (fun l => l ← list_remove l (TLIST cur); list_append l (ZOMBIES parent) (TLIST cur));
  _ ← on_sch (fun s => wq_wakeup s me (WQH_CHILD parent));
  mret tt.

Definition sys_exit (cpu : Z) : m outcome :=
  cur ← sched_get_active;
  _ ← exit_task cur;
  c ← on_sch (fun s => sched_switch s me);
  match c with Stay => fail | _ => mret (Sleeps c) end.

(** The zombies are freed one after the other; a freed task keeps its link. *)
Fixpoint reap_loop (fuel : nat) (head iter : Z) : m unit :=
  match fuel with
  | O => fun _ => Spin
  | S fuel =>
      if iter =? head then mret tt
      else
        let child := task_of_list iter in
        t ← get_task child;
        _ ← assert (negb (threads t =? 0));
        x ← get_thread (threads t);
        _ ← assert (th_state x =? T_ZOMBIE);
        _ ← sched_task_destroy free_page child;
        n ← links_of (fun l => get l iter);
        reap_loop fuel head (next n)
  end.

Definition sys_wait_resume (cur : Z) : m outcome :=
  n ← links_of (fun l => get l (ZOMBIES cur));
  _ ← (fun k => reap_loop (S (size (lnk (sch k)))) (ZOMBIES cur) (next n) k);
  _ ← upd_lnk (fun l => list_init l (ZOMBIES cur));
  mret (Done 0).

Definition sys_wait (cpu : Z) : m outcome :=
  cur ← sched_get_active;
  e ← links_of (fun l => LIST_EMPTY l (CHILDREN cur));
  if negb e then
    '(_, c, _) ← on_sch (fun s => '(r, c, l, s) ← wq_wait_event s me (WQH_CHILD cur) cur None; mret (r, c, l, s));
    match c with Stay => sys_wait_resume cur | _ => mret (Sleeps c) end
  else sys_wait_resume cur.

(** ** Sockets *)

Definition on_socket (cpu : Z) (f : Z -> frame -> sock_call) : m outcome :=
  r ← get_frame cpu;
  cur ← sched_get_active;
  t ← get_task cur;
  then_done (call_socket (f (t_file_ctx t) r)) (fun n => mret (s32 n)).

Definition sys_socket (cpu : Z) : m outcome := on_socket cpu (fun x r => SocketAlloc x (s32 (rdx r)) (s32 (rbx r)) (s32 (rcx r))).
Definition sys_bind (cpu : Z) : m outcome := on_socket cpu (fun x r => SocketBind x (s32 (rdi r)) (rsi r) (u32 (rdx r))).
Definition sys_send (cpu : Z) : m outcome := on_socket cpu (fun x r => SocketSend x (s32 (rdi r)) (rsi r) (s32 (rdx r)) (s32 (rcx r)) 0 0).
Definition sys_sendto (cpu : Z) : m outcome := on_socket cpu (fun x r => SocketSend x (s32 (rdi r)) (rsi r) (s32 (rdx r)) (s32 (rcx r)) (r8 r) (u32 (r9 r))).
Definition sys_recv (cpu : Z) : m outcome := on_socket cpu (fun x r => SocketRecv x (s32 (rdi r)) (rsi r) (s32 (rdx r)) (s32 (rcx r)) 0 0).
Definition sys_recvfrom (cpu : Z) : m outcome := on_socket cpu (fun x r => SocketRecv x (s32 (rdi r)) (rsi r) (s32 (rdx r)) (s32 (rcx r)) (r8 r) (r9 r)).
Definition sys_connect (cpu : Z) : m outcome := on_socket cpu (fun x r => SocketConnect x (s32 (rdi r)) (rsi r) (u32 (rdx r))).
Definition sys_listen (cpu : Z) : m outcome := on_socket cpu (fun x r => SocketListen x (s32 (rdi r)) (s32 (rsi r))).
Definition sys_accept (cpu : Z) : m outcome := on_socket cpu (fun x r => SocketAccept x (s32 (rdi r)) (rsi r) (rdx r)).

(** ** The handler *)

(** Entries 4, 5 and 16 are null, and [sys_accept] has none. *)
Definition syscalls (n : Z) : option (Z -> m outcome) :=
  match n with
  | 0 => Some sys_read | 1 => Some sys_write | 2 => Some sys_fork | 3 => Some sys_execv
  | 6 => Some sys_exit | 7 => Some sys_wait | 8 => Some sys_socket | 9 => Some sys_bind
  | 10 => Some sys_send | 11 => Some sys_sendto | 12 => Some sys_recv | 13 => Some sys_recvfrom
  | 14 => Some sys_connect | 15 => Some sys_listen
  | _ => None
  end.

(** The result of the call goes to the registers the thread of the caller
    has saved last. *)
Definition syscall_end (cur ret : Z) : m Z :=
  t ← get_task cur;
  x ← get_thread (threads t);
  f ← get_frame (exec_state x);
  _ ← put_frame (exec_state x) (set_rax (u64 ret) f);
  mret IRQ_HANDLED.

Definition syscall_handler (cpu : Z) : m outcome :=
  r ← get_frame cpu;
  if MAX_SYSCALLS <=? rax r then halt
  else
    cur ← sched_get_active;
    match syscalls (rax r) with
    | None => fail
    | Some call => then_done (call cpu) (syscall_end cur)
    end.

(** ** Proofs: fork *)

(** A thread that has not started is handed to the scheduler and stays
    unstarted until it is switched to. *)
Lemma ready_unstarted (s : sys M) tk th r m' : in_state s tk th T_UNSTARTED -> so_schedule (mts s) me tk 0 = Ret (r, m') -> 0 <= r ->
  sched_task_set_state s me tk T_READY = Ret (set_mts m' s).
Proof.
  intros Hs Es Hr. destruct (in_state_of _ _ _ _ Hs) as [E Hn]. unfold sched_task_set_state. rewrite (proj2 (Z.eqb_neq _ _) Hn), E. rb.
  change (T_UNSTARTED =? T_READY) with false. change (bits T_READY (Z.lor T_BLOCKED T_ZOMBIE)) with false. cbv iota. rb.
  change (T_READY =? T_READY) with true. cbv iota. unfold enter_queue. rewrite E. rb.
  change (T_UNSTARTED =? T_BLOCKED) with false. change (T_UNSTARTED =? T_UNSTARTED) with true. cbv iota. rewrite Es. rb.
  rewrite (proj2 (Z.leb_le _ _) Hr). change (kassert true) with (Ret tt). rb. done.
Qed.

Lemma run_get_frame (k : kern) a f : at_ptr (frames k) a = Ret f -> get_frame a k = Ret (f, k).
Proof. intros E. unfold get_frame. by rewrite E. Qed.
Lemma run_get_task (k : kern) a t : get_tsk (sch k) a = Ret t -> get_task a k = Ret (t, k).
Proof. intros E. unfold get_task. by rewrite E. Qed.
Lemma run_get_thread (k : kern) a t : get_thr (sch k) a = Ret t -> get_thread a k = Ret (t, k).
Proof. intros E. unfold get_thread. by rewrite E. Qed.

Lemma run_active (k : kern) a : started (sch k) = true -> so_get_active (mts (sch k)) me = Ret a -> sched_get_active k = Ret (a, k).
Proof. intros Es Ea. unfold sched_get_active, Sched.sched_get_active. by rewrite Es, Ea. Qed.

Lemma run_syscall_end (k : kern) cur ret t x f : get_tsk (sch k) cur = Ret t -> get_thr (sch k) (threads t) = Ret x -> at_ptr (frames k) (exec_state x) = Ret f ->
  syscall_end cur ret k = Ret (IRQ_HANDLED, set_frames (<[exec_state x := set_rax (u64 ret) f]> (frames k)) k).
Proof.
  intros Et Ex Ef. unfold syscall_end. rewrite (st_step _ _ _ _ _ (run_get_task k cur t Et)), (st_step _ _ _ _ _ (run_get_thread k _ x Ex)), (st_step _ _ _ _ _ (run_get_frame k _ f Ef)). done.
Qed.

(** C4: A fork returns twice.  When the caches have objects and the scheduler
    takes the new task, the call ends; the registers of the child are those
    the parent's thread had saved last, with the result 0; the same registers
    of the parent get the number of the child.  The child is in the run
    queues, in the list of the parent's children, and shares its contexts,
    whose counts went up.  No other saved registers change: when the call
    came in on other registers than the ones saved last, its caller never
    sees the number. *)
Theorem syscall_fork_returns_twice (k : kern) cpu r a p x f fsc fdc xs c ct pg dir mm n m' :
  forkable boot devs k a p x f fsc fdc xs c ct pg dir mm -> started (sch k) = true -> so_get_active (mts (sch k)) me = Ret a ->
  at_ptr (frames k) cpu = Ret r -> rax r = 2 -> so_schedule (mts (sch k)) me c 0 = Ret (n, m') -> 0 <= n ->
  stack_frame pg <> 0 -> stack_frame pg <> exec_state x -> 0 <= pid k < 2 ^ 31 ->
  exists k', syscall_handler cpu k = Ret (Done IRQ_HANDLED, k') /\
    frames k' = <[exec_state x := set_rax (pid k) f]> (<[stack_frame pg := set_rax 0 f]> (frames k)) /\
    (exists q, get_tsk (sch k') c = Ret q /\ t_pid q = pid k /\ t_parent q = a /\ t_dir q = dir /\
      exists y, get_thr (sch k') (threads q) = Ret y /\ exec_state y = stack_frame pg /\ th_state y = T_UNSTARTED /\ kstack_top y = mmu_p_to_v pg) /\
    mts (sch k') = m' /\ mem k' = mm /\ FOREACH (lnk (sch k')) (CHILDREN a) = Ret (TLIST c :: xs) /\
    (exists q, fsx k' !! t_fs_ctx p = Some q /\ Vfs.fx_count q = s32 (Vfs.fx_count fsc + 1)) /\
    (exists q, fdx k' !! t_file_ctx p = Some q /\ Vfs.fc_count q = s32 (Vfs.fc_count fdc + 1) /\ Vfs.fd q = Vfs.fd fdc) /\
    get_tsk (sch k') a = Ret p.
Proof.
  intros Hfk Hst Hact Hr Hrax Hsched Hn Hsf Hne Hpid.
  destruct (sched_task_fork_spec boot devs k a p x f fsc fdc xs c ct pg dir mm Hfk) as (k1 & Ef & Em & [F1 F2 F3 F4 F5 F6 F7 F8 F9 (G1 & G2 & _) [G3 _]]).
  destruct Hfk as [Ht Ho Hth Hf Hfs Hfd Hch _ Hl _ _ _ (Hc & Hca & Hct & Hctp) _ _].
  assert (Ht1 : get_tsk (sch k1) a = Ret p) by (unfold get_tsk, at_ptr in *; by rewrite F8 by done).
  assert (Hth1 : get_thr (sch k1) (threads p) = Ret x) by (unfold get_thr, at_ptr in *; by rewrite F9 by done).
  pose proof (proj1 (at_ptr_Ret _ _ _) Hf) as [Hxz Hfl].
  assert (Hready : sched_task_set_state (sch k1) me c T_READY = Ret (set_mts m' (sch k1))).
  { apply (ready_unstarted _ _ ct n); [| by rewrite G1 | done]. eexists _, _. split; [exact F1 |]. split; [reflexivity |]. split; [exact F2 | done]. }
  set (k2 := set_sch (set_mts m' (sch k1)) k1).
  set (k3 := set_frames (<[stack_frame pg := set_rax 0 f]> (frames k1)) k2).
  assert (Es : sys_fork cpu k = Ret (Done (pid k), k3)).
  { unfold sys_fork. rewrite (st_step _ _ _ _ _ (run_active k a Hst Hact)), (st_step _ _ _ _ _ Ef). rewrite (proj2 (Z.eqb_neq c 0)) by lia.
    rewrite (st_step (upd_sch _) _ k1 tt k2) by (unfold upd_sch; by rewrite Hready).
    erewrite (st_step (get_task c)); [| apply (run_get_task k2); exact F1]. cbn [threads]. rewrite (st_step _ _ _ _ _ (run_get_thread k2 ct _ F2)). cbn [exec_state].
    rewrite (st_step _ _ k2 f k2); [done |]. apply run_get_frame. cbn [frames set_sch k2]. rewrite F3. by apply at_ptr_insert. }
  assert (E3 : frames k3 = <[stack_frame pg := set_rax 0 f]> (frames k)) by (cbn [frames set_frames k3]; rewrite F3; apply insert_insert_eq).
  set (k4 := set_frames (<[exec_state x := set_rax (u64 (pid k)) f]> (frames k3)) k3).
  assert (Ep : u64 (pid k) = pid k) by (apply wrap_small; unfold in_u; lia).
  exists k4. split.
  { unfold syscall_handler. rewrite (st_step _ _ _ _ _ (run_get_frame k cpu r Hr)), Hrax. change (MAX_SYSCALLS <=? 2) with false. cbv iota.
    rewrite (st_step _ _ _ _ _ (run_active k a Hst Hact)). change (syscalls 2) with (Some sys_fork). cbv iota. unfold then_done. rewrite (st_step _ _ _ _ _ Es).
    rewrite (st_step (syscall_end a (pid k)) _ k3 IRQ_HANDLED k4); [done |]. apply (run_syscall_end k3 a _ p x f); [exact Ht1 | exact Hth1 |].
    rewrite E3, at_ptr_insert_ne by done. exact Hf. }
  split; [cbn [frames set_frames k4]; by rewrite E3, Ep |]. split; [eexists; split; [exact F1 |]; cbn; split_and!; try done; eexists; split; [exact F2 | done] |].
  split; [done |]. split; [exact Em |]. split; [by apply FOREACH_ring |]. split; [cbn; rewrite F4, lookup_insert_eq; eauto |].
  split; [cbn; rewrite F5, lookup_insert_eq; eauto | exact Ht1].
Qed.


(** ** Proofs: exit *)

(** Task [cur] with one thread, on its way out: [l1] and [l2] are its
    siblings, [zs] the zombies of the parent, [tks] who waits for a child. *)
Record exiting (k : kern) (cur : Z) (t : task) (x : thread) (ch l1 l2 zs tks : list Z) (th : Z -> Z) (m1 m2 : M) : Prop := {
  ex_task : get_tsk (sch k) cur = Ret t;
  ex_one : nthreads t = 1;
  ex_thread : get_thr (sch k) (threads t) = Ret x;
  ex_state : th_state x <> T_ZOMBIE;
  ex_parent : 0 < t_parent t;
  ex_fs : exists o q v, Vfs.vfs_free_fs_ctx (vf k) (if t_fs_ctx t =? 0 then None else fsx k !! t_fs_ctx t) = Ret (o, q, v);
  ex_children : ring (lnk (sch k)) (CHILDREN cur) ch;
  ex_siblings : ring (lnk (sch k)) (CHILDREN (t_parent t)) (l1 ++ TLIST cur :: l2);
  ex_zombies : ring (lnk (sch k)) (ZOMBIES (t_parent t)) zs;
  ex_waiters : ring (lnk (sch k)) (WQH_LIST (WQH_CHILD (t_parent t))) (WQ_LIST <$> tks);
  ex_apart : (forall n, n ∈ CHILDREN (t_parent t) :: l1 ++ TLIST cur :: l2 -> n ∉ ZOMBIES (t_parent t) :: zs /\ n ∉ WQH_LIST (WQH_CHILD (t_parent t)) :: (WQ_LIST <$> tks)) /\
    (forall n, n ∈ ZOMBIES (t_parent t) :: zs -> n ∉ WQH_LIST (WQH_CHILD (t_parent t)) :: (WQ_LIST <$> tks));
  ex_lock : get_wlock (sch k) (WQH_CHILD (t_parent t)) = Ret 0;
  ex_blocked : forall tk, tk ∈ tks -> tk <> cur /\ th tk <> threads t /\ in_state (sch k) tk (th tk) T_BLOCKED;
  ex_nodup : NoDup (th <$> tks);
  ex_unschedule : exists r, so_unschedule (mts (sch k)) cur = Ret (r, m1) /\ 0 <= r;
  ex_unblocks : unblocks me tks m1 m2
}.

Lemma zombie_task (s : sys M) cur th v r m1 : in_state s cur th v -> v <> T_ZOMBIE -> so_unschedule (mts s) cur = Ret (r, m1) -> 0 <= r ->
  exists s', sched_task_set_state s me cur T_ZOMBIE = Ret s' /\ moved s s' th T_ZOMBIE /\ mts s' = m1.
Proof.
  intros Hs Hv Hb Hr. destruct (in_state_of _ _ _ _ Hs) as [E Hn]. unfold sched_task_set_state.
  rewrite (proj2 (Z.eqb_neq _ _) Hn), E. rb. rewrite (proj2 (Z.eqb_neq _ _) Hv). change (bits T_ZOMBIE (Z.lor T_BLOCKED T_ZOMBIE)) with true. cbv iota.
  unfold leave_queue. change (T_ZOMBIE =? T_BLOCKED) with false. change (T_ZOMBIE =? T_ZOMBIE) with true. cbv iota. rewrite Hb. rb.
  rewrite (proj2 (Z.leb_le _ _) Hr). change (kassert true) with (Ret tt). rb.
  destruct (set_state_of_moved (set_mts m1 s) cur th v T_ZOMBIE (in_state_mts _ _ _ _ m1 Hs)) as (s' & -> & Hm & Em). rb. by exists s'.
Qed.


Lemma run_free_fs (k : kern) a o q v : Vfs.vfs_free_fs_ctx (vf k) (if a =? 0 then None else fsx k !! a) = Ret (o, q, v) -> exists k1, free_fs a k = Ret (tt, k1) /\ sch k1 = sch k.
Proof. intros E. unfold free_fs. rewrite E. rb. eauto. Qed.

Lemma run_free_files (k : kern) a : exists k1, free_files a k = Ret (tt, k1) /\ sch k1 = sch k.
Proof. unfold free_files, modify. destruct (Vfs.vfs_free_file_ctx _) as [[o q] b]. eauto. Qed.

Lemma run_free_threads (k : kern) a t : get_tsk (sch k) a = Ret t -> nthreads t = 1 -> sched_free_threads a k = Ret (tt, k).
Proof. intros E Ho. unfold sched_free_threads. rewrite (st_step _ _ _ _ _ (run_get_task k a t E)). by rewrite Ho. Qed.

(** The contexts are given back and the threads freed before the state
    changes. *)
Lemma exit_begin k cur t x ch l1 l2 zs tks th m1 m2 : exiting k cur t x ch l1 l2 zs tks th m1 m2 ->
  exists k1, (forall (g : unit -> m unit), ((e ← links_of (fun l => LIST_EMPTY l (CHILDREN cur));
    _ ← (if negb e then mod_task cur (set_parent 0) else mret tt);
    _ ← free_fs (t_fs_ctx t); _ ← free_files (t_file_ctx t); _ ← sched_free_threads cur; g tt) : m unit) k = g tt k1) /\
    sch k1 = set_tsks (<[cur := if bool_decide (ch = []) then t else set_parent 0 t]> (tsks (sch k))) (sch k).
Proof.
  intros [Ht Ho Hx Hv Hp (o & q & v & Ef) Hch _ _ _ _ _ _ _ _ _]. pose proof (proj1 (at_ptr_Ret _ _ _) Ht) as [Hc Htl].
  set (t' := if bool_decide (ch = []) then t else set_parent 0 t).
  assert (E1 : exists k0, (if negb (bool_decide (ch = [])) then mod_task cur (set_parent 0) else mret tt) k = Ret (tt, k0) /\ vf k0 = vf k /\ fsx k0 = fsx k /\ sch k0 = set_tsks (<[cur := t']> (tsks (sch k))) (sch k)).
  { subst t'. destruct (bool_decide (ch = [])); cbn [negb].
    - exists k. split_and!; try done. unfold set_tsks. rewrite insert_id by done. by destruct (sch k).
    - rewrite (run_mod_task k cur (set_parent 0) t Ht). eexists. split; [reflexivity |]. done. }
  destruct E1 as (k0 & E1 & Hv0 & Hf0 & Hs0). destruct (run_free_fs k0 (t_fs_ctx t) o q v) as (k2 & E2 & Hs2); [by rewrite Hv0, Hf0 |].
  destruct (run_free_files k2 (t_file_ctx t)) as (k3 & E3 & Hs3). exists k3. split; [| by rewrite Hs3, Hs2].
  intros g. erewrite (st_step (links_of _)); [| apply run_links_of, LIST_EMPTY_ring; exact Hch]. rewrite (st_step _ _ _ _ _ E1), (st_step _ _ _ _ _ E2), (st_step _ _ _ _ _ E3).
  rewrite (st_step (sched_free_threads cur) _ k3 tt k3); [done |]. apply (run_free_threads k3 cur t').
  - rewrite Hs3, Hs2, Hs0. unfold get_tsk. by apply at_ptr_insert.
  - subst t'. by destruct (bool_decide (ch = [])).
Qed.

(** A task that exits becomes a zombie of its parent.  It leaves the
    children of the parent for its zombies; every task that waits for a
    child of the parent is made ready; no other task changes.  The children
    of the exiting task keep it as their parent, and it is the exiting task
    that loses its parent when it has children. *)
Theorem exit_wakes_parent k cur t x ch l1 l2 zs tks th m1 m2 : exiting k cur t x ch l1 l2 zs tks th m1 m2 ->
  exists k', exit_task cur k = Ret (tt, k') /\
    FOREACH (lnk (sch k')) (CHILDREN (t_parent t)) = Ret (l1 ++ l2) /\ FOREACH (lnk (sch k')) (ZOMBIES (t_parent t)) = Ret (TLIST cur :: zs) /\
    in_state (sch k') cur (threads t) T_ZOMBIE /\ (forall tk, tk ∈ tks -> in_state (sch k') tk (th tk) T_READY) /\ mts (sch k') = m2 /\
    (forall b, b <> cur -> tsks (sch k') !! b = tsks (sch k) !! b) /\
    exists t', get_tsk (sch k') cur = Ret t' /\ t_parent t' = if bool_decide (ch = []) then t_parent t else 0.
Proof.
  clear free_page boot devs call_lookup call_open after call_read call_write call_socket user_string binfmt_load.
  intros Hex. destruct (exit_begin _ _ _ _ _ _ _ _ _ _ _ _ Hex) as (k1 & E1 & Hs1). destruct Hex as [Ht Ho Hx Hv Hp _ Hch Hsib Hzom Hwait [Hap1 Hap2] Hlock Hbl Hnd (r & Hun & Hr) Hub].
  pose proof (proj1 (at_ptr_Ret _ _ _) Ht) as [Hc Htl]. set (t' := if bool_decide (ch = []) then t else set_parent 0 t) in *.
  assert (Ht' : threads t' = threads t /\ t_parent t' = if bool_decide (ch = []) then t_parent t else 0) by (subst t'; by destruct (bool_decide (ch = []))). destruct Ht' as [Hth' Hpar'].
  assert (Hin : in_state (sch k1) cur (threads t) (th_state x)).
  { exists t', x. rewrite Hs1. split; [by apply at_ptr_insert |]. by split. }
  destruct (zombie_task (sch k1) cur (threads t) (th_state x) r m1 Hin Hv) as (s2 & E2 & Hm & Em); [by rewrite Hs1 | done |].
  pose proof Hm as (Hl2 & Hw2 & Ht2 & Hth2 & _). rewrite Hs1 in Hl2, Hw2, Ht2.
  destruct (exit_links (lnk s2) (t_parent t) cur l1 l2 zs (WQH_LIST (WQH_CHILD (t_parent t))) (WQ_LIST <$> tks)) as (l3 & l4 & E3 & E4 & R1 & R2 & R3); try (by rewrite Hl2); try done.
  set (s3 := set_lnk l4 s2).
  destruct (wake_spec s3 me (WQH_CHILD (t_parent t)) th tks m2) as (s4 & E5 & Em4 & _ & _ & Hready & Ht4 & Hth4 & Hlk4); try done.
  { unfold WQH_CHILD. lia. }
  { unfold get_wlock in *. cbn [s3 set_lnk wq_locks]. by rewrite Hw2. }
  { intros tk Htk. destruct (Hbl tk Htk) as (Hne & Hne2 & q & y & Q1 & Q2 & Q3 & Q4). exists q, y. unfold get_tsk, get_thr, at_ptr in *. cbn [s3 set_lnk tsks thrs].
    rewrite Ht2. cbn [set_tsks tsks]. rewrite lookup_insert_ne by done. split; [done |]. split; [done |]. split; [| done].
    rewrite Hth2 by done. by rewrite Hs1. }
  { cbn [s3 set_lnk mts]. by rewrite Em. }
  exists (set_sch s4 (set_sch s3 (set_sch s2 k1))). split.
  { unfold exit_task. rewrite (st_step _ _ _ _ _ (run_get_task k cur t Ht)). rewrite (proj2 (Z.eqb_neq (t_parent t) 0)) by lia. rewrite (st_step (assert true) _ k tt k eq_refl).
    etrans; [apply (E1 (fun _ => _ ← upd_sch _; _ ← upd_lnk _; _ ← on_sch _; mret tt)) |].
    rewrite (st_step (upd_sch _) _ k1 tt (set_sch s2 k1)) by (unfold upd_sch; by rewrite E2).
    erewrite (st_step (upd_lnk _)); [| apply (run_upd_lnk _ _ l4); cbn [sch set_sch]; rewrite E3; rb; exact E4].
    erewrite (st_step (on_sch _)); [reflexivity |]. unfold on_sch. change (sch (set_sch (set_lnk l4 (sch (set_sch s2 k1))) (set_sch s2 k1))) with s3. by rewrite E5. }
  assert (Hring : forall v vs, (forall n, n ∈ v :: vs -> n ∉ WQH_LIST (WQH_CHILD (t_parent t)) :: (WQ_LIST <$> tks)) -> ring l4 v vs -> ring (lnk s4) v vs).
  { intros v vs Hv'. apply ring_frame. intros n Hn. unfold nx, pv. rewrite Hlk4; [done | by apply Hv']. }
  assert (Hts : tsks s4 = <[cur := t']> (tsks (sch k))) by (rewrite Ht4; cbn [s3 set_lnk tsks]; rewrite Ht2; done).
  assert (Hcth : threads t ∉ th <$> tks) by (intros (tk & Etk & Htk)%list_elem_of_fmap; by destruct (Hbl tk Htk) as (_ & Hne & _)).
  cbn [sch set_sch]. split_and!; [apply FOREACH_ring, Hring; [| done] | apply FOREACH_ring, Hring; [| done] | | done | done | |].
  - intros n Hn. apply Hap1. rewrite elem_of_cons, elem_of_app in Hn. rewrite elem_of_cons, elem_of_app, elem_of_cons. tauto.
  - intros n [-> | Hn]%elem_of_cons; [apply Hap2; by left |]. apply elem_of_cons in Hn as [-> | Hn]; [apply Hap1; rewrite elem_of_cons, elem_of_app, elem_of_cons; tauto |].
    apply Hap2. by right.
  - destruct Hm as (_ & _ & _ & _ & y & Q1 & Q2). exists t', (set_th_state T_ZOMBIE y). unfold get_tsk, get_thr, at_ptr in *. rewrite Hts, lookup_insert_eq.
    rewrite (proj2 (Z.eqb_neq _ _) Hc). split; [done |]. split; [done |]. split; [| done]. rewrite Hth4 by done. exact Q2.
  - intros b Hb. rewrite Hts. by apply lookup_insert_ne.
  - exists t'. split; [| done]. unfold get_tsk. rewrite Hts. by apply at_ptr_insert.
Qed.




(** ** Proofs: wait *)

(** A zombie of one thread, whose node is on no list. *)
Definition zombie (k : kern) (z : Z) (t : task) (x : thread) : Prop :=
  get_tsk (sch k) z = Ret t /\ nthreads t = 1 /\ get_thr (sch k) (threads t) = Ret x /\ th_state x = T_ZOMBIE /\
  THLIST (threads t) <> 0 /\ lnk (sch k) !! THLIST (threads t) = Some (mk_links (THLIST (threads t)) (THLIST (threads t))).

(** Directory, stack and thread of the zombies are given back in order. *)
Fixpoint frees (l : list (task * thread)) (mm : Mmu.Mmu.state P) (c : C) (mm' : Mmu.Mmu.state P) (c' : C) : Prop :=
  match l with
  | [] => mm' = mm /\ c' = c
  | (t, x) :: l => exists m1 p c1, Mmu.Mmu.mmu_native_destroy_dir free_page (t_dir t) mm = Ret m1 /\
      free_page (Mmu.Mmu.src m1) (mmu_v_to_p (kstack_top x)) = Ret p /\ es_free c (threads t) = Ret c1 /\ frees l (Mmu.Mmu.set_src p m1) c1 mm' c'
  end.

Lemma list_remove_self l a : a <> 0 -> l !! a = Some (mk_links a a) -> list_remove l a = Ret l.
Proof.
  intros Ha E. assert (Eg : get l a = Ret (mk_links a a)) by (by apply get_Ret).
  assert (Ep : set_prev l a a = Ret l) by (unfold set_prev; rewrite Eg; rb; cbn [next]; by rewrite insert_id).
  assert (En : set_next l a a = Ret l) by (unfold set_next; rewrite Eg; rb; cbn [prev]; by rewrite insert_id).
  unfold list_remove. rewrite Eg. rb. cbn [next prev]. rewrite (proj2 (Z.eqb_neq _ _) Ha). cbn [negb]. rewrite Ep. rb. rewrite Eg. rb.
  cbn [next prev]. by rewrite (proj2 (Z.eqb_neq _ _) Ha).
Qed.

Lemma run_task_destroy k z t x m1 p c1 : zombie k z t x -> Mmu.Mmu.mmu_native_destroy_dir free_page (t_dir t) (mem k) = Ret m1 ->
  free_page (Mmu.Mmu.src m1) (mmu_v_to_p (kstack_top x)) = Ret p -> es_free (thread_cache k) (threads t) = Ret c1 ->
  exists k1, sched_task_destroy free_page z k = Ret (tt, k1) /\ mem k1 = Mmu.Mmu.set_src p m1 /\ thread_cache k1 = c1 /\ task_cache k1 = task_cache k /\
    tsks (sch k1) = tsks (sch k) /\ mts (sch k1) = mts (sch k) /\ thrs (sch k1) = <[threads t := zero_thread]> (thrs (sch k)) /\
    lnk (sch k1) = <[THLIST (threads t) := mk_links 0 0]> (lnk (sch k)).
Proof.
  intros (Ht & Ho & Hx & Hv & Hz & Hl) E1 E2 E3. pose proof (proj1 (at_ptr_Ret _ _ _) Ht) as [Hz0 _]. pose proof (proj1 (at_ptr_Ret _ _ _) Hx) as [Hth0 _].
  unfold sched_task_destroy. rewrite (proj2 (Z.eqb_neq _ _) Hz0), (st_step _ _ _ _ _ (run_get_task k z t Ht)), Ho. rewrite (st_step (assert true) _ k tt k eq_refl).
  rewrite (st_step (on_mem _) _ k tt (set_mem m1 k)) by (unfold on_mem; by rewrite E1).
  unfold sched_thread_destroy. rewrite (proj2 (Z.eqb_neq _ _) Hth0).
  erewrite (st_step (upd_lnk _)); [| apply (run_upd_lnk _ _ (lnk (sch k))), list_remove_self; done].
  set (k2 := set_sch _ _). assert (Hx2 : get_thr (sch k2) (threads t) = Ret x) by exact Hx.
  rewrite (st_step _ _ _ _ _ (run_get_thread k2 _ x Hx2)). erewrite (st_step (clear_stack _)); [| reflexivity].
  set (k3 := set_frames _ k2). rewrite (st_step (page_free free_page _) _ k3 tt (set_mem (Mmu.Mmu.set_src p m1) k3)) by (unfold page_free, on_mem; change (mem k3) with m1; by rewrite E2).
  erewrite (st_step (put_thread _ _)); [| reflexivity]. erewrite (st_step (upd_lnk _)); [| apply run_upd_lnk; reflexivity].
  unfold free_thread. cbn [thread_cache set_sch set_mem k3 set_frames k2]. rewrite E3. rb. eexists. split; [reflexivity |]. done.
Qed.

(** [a] is the node before the first of [zs]. *)
Lemma reap_loop_frees (l : list (task * thread)) : forall k fuel a head (zs : list Z) mm' c', length zs = length l -> (length l < fuel)%nat ->
  npath (lnk (sch k)) a (TLIST <$> zs) head -> head ∉ TLIST <$> zs -> 0 ∉ TLIST <$> zs ->
  (forall i z t x, zs !! i = Some z -> l !! i = Some (t, x) -> zombie k z t x) -> NoDup ((fun y : task * thread => threads y.1) <$> l) ->
  (forall y, y ∈ l -> THLIST (threads y.1) ∉ a :: (TLIST <$> zs)) -> frees l (mem k) (thread_cache k) mm' c' ->
  exists k1, reap_loop fuel head (hd head (TLIST <$> zs)) k = Ret (tt, k1) /\ mem k1 = mm' /\ thread_cache k1 = c' /\ task_cache k1 = task_cache k /\
    tsks (sch k1) = tsks (sch k) /\ mts (sch k1) = mts (sch k) /\ (forall y, y ∈ l -> get_thr (sch k1) (threads y.1) = Ret zero_thread) /\
    (forall b, b ∉ (fun y : task * thread => threads y.1) <$> l -> thrs (sch k1) !! b = thrs (sch k) !! b) /\
    (forall n, n ∉ (fun y : task * thread => THLIST (threads y.1)) <$> l -> lnk (sch k1) !! n = lnk (sch k) !! n).
Proof.
  clear boot devs call_lookup call_open after call_read call_write call_socket user_string binfmt_load me.
  induction l as [| [t x] l IH]; intros k fuel a head zs mm' c' Hlen Hf Hpath Hh Hz0 Hz Hnd Hth Hfr; (destruct fuel as [| fuel]; [cbn in Hf; lia |]).
  { destruct zs; [| done]. cbn in Hfr. destruct Hfr as [-> ->]. exists k. cbn. rewrite Z.eqb_refl. split_and!; try done. intros y Hy. by apply elem_of_nil in Hy. }
  destruct zs as [| z zs]; [done |]. destruct Hfr as (m1 & p & c1 & E1 & E2 & E3 & Hfr). pose proof (Hz 0%nat z t x eq_refl eq_refl) as Hzt.
  destruct (run_task_destroy k z t x m1 p c1 Hzt E1 E2 E3) as (k1 & Ek & Em & Ec & Etc & Ets & Emt & Eth & El).
  rewrite fmap_cons, not_elem_of_cons in Hh, Hz0. destruct Hh as [Hne Hh], Hz0 as [Hz1 Hz0].
  cbn [fmap list_fmap hd reap_loop]. rewrite (proj2 (Z.eqb_neq (TLIST z) head)) by congruence. replace (task_of_list (TLIST z)) with z by (unfold task_of_list, TLIST; lia). cbv zeta.
  destruct Hzt as (Ht & Ho & Hx & Hv & Htz & Hl). rewrite (st_step _ _ _ _ _ (run_get_task k z t Ht)). pose proof (proj1 (at_ptr_Ret _ _ _) Hx) as [Hth0 _].
  rewrite (proj2 (Z.eqb_neq _ _) Hth0). rewrite (st_step (assert true) _ k tt k eq_refl), (st_step _ _ _ _ _ (run_get_thread k _ x Hx)), Hv. rewrite (st_step (assert true) _ k tt k eq_refl).
  rewrite (st_step _ _ _ _ _ Ek).
  pose proof (Hth (t, x) ltac:(by left)) as Hnt. cbn [fst] in Hnt. rewrite fmap_cons, !not_elem_of_cons in Hnt. destruct Hnt as (Hna & Hnz & Hnt).
  destruct Hpath as [_ Hpath].
  assert (Hlk : forall n, n <> THLIST (threads t) -> lnk (sch k1) !! n = lnk (sch k) !! n) by (intros n Hn; rewrite El; by apply lookup_insert_ne).
  assert (Hpath1 : npath (lnk (sch k1)) (TLIST z) (TLIST <$> zs) head).
  { eapply npath_frame; [| exact Hpath]. intros n Hn. unfold nx. rewrite Hlk; [done |]. intros ->. rewrite elem_of_cons in Hn. tauto. }
  destruct (get_nx (lnk (sch k1)) (TLIST z) (hd head (TLIST <$> zs))) as (n & En & Enx & _); [congruence | exact (npath_first _ _ _ _ Hpath1) |].
  rewrite (st_step _ _ _ _ _ (run_links_of k1 (fun l => get l (TLIST z)) n En)), Enx.
  rewrite fmap_cons, NoDup_cons in Hnd. cbn [fst] in Hnd. destruct Hnd as [Hnt2 Hnd].
  assert (Hother : forall y, y ∈ l -> threads y.1 <> threads t) by (intros y Hy E; apply Hnt2; rewrite <- E; by apply (list_elem_of_fmap_2 (fun y : task * thread => threads y.1))).
  destruct (IH k1 fuel (TLIST z) head zs mm' c') as (k2 & R1 & R2 & R3 & R4 & R5 & R6 & R7 & R8 & R9).
  - by injection Hlen.
  - cbn in Hf. lia.
  - done.
  - done.
  - done.
  - intros i z' t' x' Hi Hi'. pose proof (Hz (S i) z' t' x' Hi Hi') as (Q1 & Q2 & Q3 & Q4 & Q5 & Q6). apply list_elem_of_lookup_2 in Hi'. pose proof (Hother _ Hi') as Hne'. cbn [fst] in Hne'.
    unfold zombie, get_tsk, get_thr in *. rewrite Ets, Eth, at_ptr_insert_ne by congruence. rewrite Hlk by (unfold THLIST; lia). done.
  - done.
  - intros y Hy. pose proof (Hth y ltac:(by right)) as Hy'. rewrite fmap_cons, !not_elem_of_cons in Hy'. rewrite not_elem_of_cons. tauto.
  - by rewrite Em, Ec.
  - exists k2. split; [exact R1 |]. split_and!; [done | done | congruence | congruence | congruence | | |].
    + intros y [-> | Hy]%elem_of_cons; [| by apply R7]. cbn [fst]. unfold get_thr, at_ptr. rewrite (proj2 (Z.eqb_neq _ _) Hth0), R8, Eth, lookup_insert_eq by done. done.
    + intros b Hb. apply not_elem_of_cons in Hb. cbn [fst] in Hb. destruct Hb as [Hb Hb2]. rewrite R8, Eth by done. by rewrite lookup_insert_ne.
    + intros b Hb. apply not_elem_of_cons in Hb. cbn [fst] in Hb. destruct Hb as [Hb Hb2]. rewrite R9 by done. by apply Hlk.
Qed.

(** C21: A waiting task that runs again frees every zombie.  Their page
    directories, kernel stacks and threads go back exactly once, in the order
    of the list, and the list is empty afterwards; the task objects are
    never given back to their cache. *)
Theorem sys_wait_reaps k cur (zs : list Z) (l : list (task * thread)) mm' c' : ring (lnk (sch k)) (ZOMBIES cur) (TLIST <$> zs) -> length zs = length l ->
  (forall i z t x, zs !! i = Some z -> l !! i = Some (t, x) -> zombie k z t x) -> NoDup ((fun y : task * thread => threads y.1) <$> l) ->
  (forall y, y ∈ l -> THLIST (threads y.1) ∉ ZOMBIES cur :: (TLIST <$> zs)) -> frees l (mem k) (thread_cache k) mm' c' ->
  exists k', sys_wait_resume cur k = Ret (Done 0, k') /\ mem k' = mm' /\ thread_cache k' = c' /\ task_cache k' = task_cache k /\
    FOREACH (lnk (sch k')) (ZOMBIES cur) = Ret [] /\ tsks (sch k') = tsks (sch k) /\ mts (sch k') = mts (sch k) /\
    (forall y, y ∈ l -> get_thr (sch k') (threads y.1) = Ret zero_thread) /\
    (forall b, b ∉ (fun y : task * thread => threads y.1) <$> l -> thrs (sch k') !! b = thrs (sch k) !! b).
Proof.
  clear boot devs call_lookup call_open after call_read call_write call_socket user_string binfmt_load me.
  intros Hring Hlen Hz Hnd Hth Hfr. pose proof Hring as (Hd & Hr0 & Hc & _). pose proof (chain_npath _ _ _ _ Hc) as Hp.
  assert (Hc0 : ZOMBIES cur <> 0) by (intros E; apply Hr0; rewrite E; by left).
  destruct (get_nx _ _ _ Hc0 (npath_first _ _ _ _ Hp)) as (n & En & Enx & _).
  destruct (reap_loop_frees l k (S (size (lnk (sch k)))) (ZOMBIES cur) (ZOMBIES cur) zs mm' c') as (k1 & R1 & R2 & R3 & R4 & R5 & R6 & R7 & R8 & R9); try done.
  { rewrite <- Hlen, <- (length_fmap TLIST zs). apply NoDup_cons in Hd as [_ Hd].
    rewrite <- size_dom, <- (size_list_to_set (C:=gset Z) (TLIST <$> zs)) by done.
    assert (Hsub : list_to_set (C:=gset Z) (TLIST <$> zs) ⊆ dom (lnk (sch k))); [| apply subseteq_size in Hsub; lia].
    intros b Hb%elem_of_list_to_set. eapply npath_mapped; [exact Hp | by right]. }
  { by apply NoDup_cons in Hd as [Hd _]. }
  { rewrite not_elem_of_cons in Hr0. tauto. }
  assert (Hnc : ZOMBIES cur ∉ (fun y : task * thread => THLIST (threads y.1)) <$> l).
  { intros (y & Ey & Hy)%list_elem_of_fmap. apply (Hth y Hy). rewrite Ey. by left. }
  destruct (list_init_ring (lnk (sch k1)) (ZOMBIES cur) Hc0) as (l2 & El2 & Rl2 & _ & _).
  { rewrite R9 by done. eapply chain_mapped; [exact Hc | by left]. }
  exists (set_sch (set_lnk l2 (sch k1)) k1). split.
  { unfold sys_wait_resume. rewrite (st_step _ _ _ _ _ (run_links_of k (fun l => get l (ZOMBIES cur)) n En)), Enx.
    rewrite (st_step (fun k => reap_loop _ _ _ k) _ k tt k1 R1). by rewrite (st_step _ _ _ _ _ (run_upd_lnk k1 (fun l => list_init l (ZOMBIES cur)) l2 El2)). }
  cbn [mem thread_cache task_cache sch set_sch set_lnk lnk tsks mts thrs]. split_and!; try done. by apply FOREACH_ring.
Qed.


End syscall.

(** ** Samples *)

#[local] Existing Instances list_sched Mmu.Mmu.list_source PageAlloc.PageAlloc.page_alloc_source.

(** Task 1000 with its thread 1 calls fork: its registers are saved at
    0x5f50. *)
Definition call_frame : frame := set_rax 2 zero_frame.
Definition sample_kern : kern (Z * list Z) (list Z) unit unit Dentry.cache :=
  mk_kern
    (mk_sys (1000, [1000]) {[1000 := mk_task 0 1 1 1 50 60 1000 0 0]} {[1 := mk_thread T_RUNNING 0x5000 0x6000 0x5f50]}
      (<[CHILDREN 1000 := mk_links (CHILDREN 1000) (CHILDREN 1000)]> {[THLIST 1 := mk_links (THLIST 1) (THLIST 1)]}) ∅ true 0 0)
    (Mmu.Mmu.mk_state {[0x2000 := Mmu.Mmu.row 0]} 0 0 0x2000 [0x10000; 0x11000; 0x12000; 0x13000; 0x14000; 0x15000; 0x16000; 0x17000; 0x18000])
    Vfs.sample_vfs {[50 := Vfs.mk_fs_ctx 1 0 0]} {[60 := Vfs.mk_file_ctx 1 0 [] 0]} 70 {[0x5f50 := call_frame]} 7 0 Dentry.full_cache Dentry.full_cache.
Definition sample_tables : Mmu.Mmu.boot_tables := Mmu.Mmu.mk_boot 0x2000 0x2000 0x2000.
Definition sample_devs : Mmu.Mmu.devices := Mmu.Mmu.mk_devices 0xfee00000 0xfec00000 None.
Definition sample_dup : out (Z * Mmu.Mmu.state (list Z)) :=
  Mmu.Mmu.mmu_native_duplicate_dir sample_tables sample_devs (Mmu.Mmu.set_src [0x11000; 0x12000; 0x13000; 0x14000; 0x15000; 0x16000; 0x17000; 0x18000] (mem sample_kern)).
Definition sample_mm : Mmu.Mmu.state (list Z) := match sample_dup with Ret (_, s) => s | _ => mem sample_kern end.
#[local] Notation no_call := (fun _ _ _ _ _ => fail).
#[local] Notation sample_handler := (syscall_handler (fun p a => mret (a :: p)) sample_tables sample_devs Vfs.no_lookup (fun _ y _ _ => mret (Err ENOENT, y)) 0 no_call no_call (fun _ => fail) (fun _ => None) (fun _ => fail) 0).

Lemma sample_child : es_alloc Dentry.full_cache 1 = Ret (Ok (Dentry.sample_dir, true), Dentry.dir_cache).
Proof. vm_compute. reflexivity. Qed.

Lemma sample_forkable : forkable sample_tables sample_devs sample_kern 1000 (mk_task 0 1 1 1 50 60 1000 0 0) (mk_thread T_RUNNING 0x5000 0x6000 0x5f50)
  call_frame (Vfs.mk_fs_ctx 1 0 0) (Vfs.mk_file_ctx 1 0 [] 0) [] Dentry.sample_dir Dentry.sample_dir 0x10000 0xffffffff80011000 sample_mm.
Proof.
  split; try reflexivity.
  - split; [apply NoDup_singleton | split; [refine (bool_decide_eq_true_1 _ _); vm_compute; reflexivity | split; [split; [reflexivity | intros _; reflexivity] | by left]]].
  - split; [eexists; reflexivity | discriminate].
  - eexists _, _. apply sample_child.
  - eexists _, _. apply sample_child.
  - eexists. split; [reflexivity |]. vm_compute. reflexivity.
  - refine (bool_decide_eq_true_1 _ _). vm_compute. reflexivity.
  - intros n Hn. rewrite list_elem_of_singleton. intros ->. revert Hn. refine (bool_decide_eq_true_1 _ _). vm_compute. reflexivity.
  - refine (bool_decide_eq_true_1 _ _). vm_compute. reflexivity.
Qed.

Lemma syscall_fork_returns_twice_witness :
  exists k', sample_handler 0x5f50 sample_kern = Ret (Done IRQ_HANDLED, k') /\
    frames k' !! 0x5f50 = Some (set_rax 7 call_frame) /\ frames k' !! stack_frame 0x10000 = Some (set_rax 0 call_frame).
Proof.
  destruct (syscall_fork_returns_twice (fun p a => mret (a :: p)) sample_tables sample_devs Vfs.no_lookup (fun _ y _ _ => mret (Err ENOENT, y)) 0 no_call no_call (fun _ => fail) (fun _ => None) (fun _ => fail) 0
    sample_kern 0x5f50 call_frame 1000 _ _ _ _ _ _ _ _ _ _ _ 0 (1000, [1000; Dentry.sample_dir]) sample_forkable) as (k' & E & Ef & _).
  - reflexivity.
  - reflexivity.
  - reflexivity.
  - reflexivity.
  - reflexivity.
  - discriminate.
  - discriminate.
  - discriminate.
  - split; [discriminate | reflexivity].
  - exists k'. split; [exact E |]. rewrite Ef. split; [reflexivity |]. reflexivity.
Defined.

(** Task 1000 exits; its parent 2000 waits for it. *)
Definition sample_exit : kern (Z * list Z) (list Z) unit unit Dentry.cache :=
  mk_kern
    (mk_sys (1000, [1000]) (<[1000 := mk_task 2000 1 1 1 50 60 1000 0 0]> {[2000 := mk_task 0 1 2 2 50 60 2000 0 0]})
      (<[1 := mk_thread T_RUNNING 0x5000 0x6000 0x5f50]> {[2 := mk_thread T_BLOCKED 0x7000 0x8000 0x7f50]})
      (<[CHILDREN 1000 := mk_links (CHILDREN 1000) (CHILDREN 1000)]> (<[CHILDREN 2000 := mk_links (TLIST 1000) (TLIST 1000)]>
        (<[TLIST 1000 := mk_links (CHILDREN 2000) (CHILDREN 2000)]> (<[ZOMBIES 2000 := mk_links (ZOMBIES 2000) (ZOMBIES 2000)]>
          (<[WQH_LIST (WQH_CHILD 2000) := mk_links (WQ_LIST 2000) (WQ_LIST 2000)]> {[WQ_LIST 2000 := mk_links (WQH_LIST (WQH_CHILD 2000)) (WQH_LIST (WQH_CHILD 2000))]})))))
      {[WQH_CHILD 2000 := 0]} true 0 0)
    (mem sample_kern) Vfs.sample_vfs {[50 := Vfs.mk_fs_ctx 2 0 0]} {[60 := Vfs.mk_file_ctx 2 0 [] 0]} 70 ∅ 7 0 Dentry.full_cache Dentry.full_cache.

Lemma sample_pair_ring a x : a <> x -> 0 ∉ [a; x] -> forall l, l !! a = Some (mk_links x x) -> l !! x = Some (mk_links a a) -> ring l a [x].
Proof.
  intros Hne Hz l Ha Hx. split; [apply NoDup_cons; split; [rewrite list_elem_of_singleton; done | apply NoDup_singleton] |]. split; [done |].
  unfold chain, link, nx, pv. rewrite Ha, Hx. split; [| by left]. done.
Qed.
Lemma sample_self_ring a : a <> 0 -> forall l, l !! a = Some (mk_links a a) -> ring l a [].
Proof.
  intros Hz l Ha. split; [apply NoDup_singleton |]. split; [by rewrite list_elem_of_singleton |]. unfold chain, link, nx, pv. rewrite Ha. split; [done | by left].
Qed.

Lemma exit_wakes_parent_witness :
  exists k', exit_task 0 1000 sample_exit = Ret (tt, k') /\ FOREACH (lnk (sch k')) (ZOMBIES 2000) = Ret [TLIST 1000] /\
    in_state (sch k') 1000 1 T_ZOMBIE /\ in_state (sch k') 2000 2 T_READY.
Proof.
  destruct (exit_wakes_parent 0 sample_exit 1000 (mk_task 2000 1 1 1 50 60 1000 0 0) (mk_thread T_RUNNING 0x5000 0x6000 0x5f50) [] [] [] [] [2000] (fun _ => 2) (1000, []) (1000, [2000]))
    as (k' & E & _ & Ez & Es & Er & _).
  - split; try reflexivity.
    + discriminate.
    + eexists _, _, _. reflexivity.
    + apply sample_self_ring; [discriminate | reflexivity].
    + apply sample_pair_ring; [discriminate | by apply (bool_decide_unpack _) | reflexivity | reflexivity].
    + apply sample_self_ring; [discriminate | reflexivity].
    + apply sample_pair_ring; [discriminate | by apply (bool_decide_unpack _) | reflexivity | reflexivity].
    + split; intros n Hn; rewrite ?elem_of_cons, ?elem_of_nil in *; unfold CHILDREN, TLIST, ZOMBIES, WQH_LIST, WQH_CHILD, WQ_LIST in *; cbn in *; rewrite ?elem_of_cons, ?elem_of_nil in *; lia.
    + intros tk ->%list_elem_of_singleton. split; [discriminate |]. split; [discriminate |].
      exists (mk_task 0 1 2 2 50 60 2000 0 0), (mk_thread T_BLOCKED 0x7000 0x8000 0x7f50). by repeat split.
    + apply NoDup_singleton.
    + eexists. split; [reflexivity | done].
    + eexists 0, _. split; [reflexivity |]. split; [done | reflexivity].
  - exists k'. split; [exact E |]. split; [exact Ez |]. split; [exact Es |]. apply Er. by left.
Defined.

(** Task 2000 was woken up by the exit of task 1000. *)
Definition sample_zombie : kern (Z * list Z) (list Z) unit unit Dentry.cache :=
  mk_kern
    (mk_sys (2000, [2000]) (<[1000 := mk_task 2000 1 1 1 50 60 1000 0xffffffff80002000 0x2000]> {[2000 := mk_task 0 1 2 2 50 60 2000 0 0]})
      (<[1 := mk_thread T_ZOMBIE 0xffffffff80005000 0xffffffff80006000 0x5f50]> {[2 := mk_thread T_RUNNING 0x7000 0x8000 0x7f50]})
      (<[ZOMBIES 2000 := mk_links (TLIST 1000) (TLIST 1000)]> (<[TLIST 1000 := mk_links (ZOMBIES 2000) (ZOMBIES 2000)]> {[THLIST 1 := mk_links (THLIST 1) (THLIST 1)]}))
      ∅ true 0 0)
    (mem sample_kern) Vfs.sample_vfs ∅ ∅ 70 ∅ 7 0 Dentry.full_cache Dentry.full_cache.

Lemma sys_wait_reaps_witness : exists k', sys_wait_resume (fun p a => mret (a :: p)) 2000 sample_zombie = Ret (Done 0, k') /\
  take 2 (Mmu.Mmu.src (mem k')) = [0x5000; 0x2000] /\ FOREACH (lnk (sch k')) (ZOMBIES 2000) = Ret [].
Proof.
  set (t := mk_task 2000 1 1 1 50 60 1000 0xffffffff80002000 0x2000). set (x := mk_thread T_ZOMBIE 0xffffffff80005000 0xffffffff80006000 0x5f50).
  set (mm := Mmu.Mmu.set_src (0x5000 :: 0x2000 :: Mmu.Mmu.src (mem sample_kern)) (mem sample_kern)).
  destruct (sys_wait_reaps (fun p a => mret (a :: p)) sample_zombie 2000 [1000] [(t, x)] mm (match es_free Dentry.full_cache 1 with Ret c => c | _ => Dentry.full_cache end))
    as (k' & E & Em & _ & _ & Ez & _).
  - apply sample_pair_ring; [discriminate | by apply (bool_decide_unpack _) | reflexivity | reflexivity].
  - reflexivity.
  - intros [| i] z t' x' Hi Hl; [| done]. injection Hi as <-. injection Hl as <- <-. by repeat split.
  - apply NoDup_singleton.
  - intros y ->%list_elem_of_singleton. by apply (bool_decide_unpack _).
  - eexists (Mmu.Mmu.set_src (0x2000 :: Mmu.Mmu.src (mem sample_kern)) (mem sample_kern)), _, _. split; [vm_compute; reflexivity |]. split; [reflexivity |]. split; [vm_compute; reflexivity |].
    split; [reflexivity | vm_compute; reflexivity].
  - exists k'. split; [exact E |]. rewrite Em. split; [reflexivity | exact Ez].
Defined.

End Syscall.
