(* ===== verification/Irq.v ===== *)
(** * Interrupt dispatch (kernel/irq.c)

    The table of handlers and the function every interrupt enters.  [W] is
    the rest of the machine: a handler changes it, and may change the table
    too, which is read again in every round of the loop. *)

From S2P Require Import Prelude.

Module Irq.

Definition MAX_INT : Z := 256.
Definition MAX_HANDLERS : Z := 16.
Definition IRQ_HANDLED : Z := 0.
Definition VECNUM_SYSCALL : Z := 0x80.
Definition VECNUM_PAGE_FAULT : Z := 0x0e.
Definition VECNUM_GPF : Z := 0x0d.

Section irq.
Context {H W : Type} `{EqDecision H}.
(** A handler with its argument; [None] is a null pointer, an argument of 0
    a null context. *)
Record slot := mk_slot { handler : option H; ctx : Z }.
Record irq_handler := mk_handler { installed : Z; slots : list slot }.

Definition no_slot : slot := mk_slot None 0.
Definition no_handler : irq_handler := mk_handler 0 (replicate 16 no_slot).

Definition first_handler (h : H) : irq_handler := mk_handler 1 (mk_slot (Some h) 0 :: replicate 15 no_slot).
Definition irq_init (syscall page_fault gpf : H) : list irq_handler :=
  <[Z.to_nat VECNUM_GPF := first_handler gpf]> (<[Z.to_nat VECNUM_PAGE_FAULT := first_handler page_fault]>
    (<[Z.to_nat VECNUM_SYSCALL := first_handler syscall]> (replicate 256 no_handler))).

Definition irq_install_handler (t : list irq_handler) (num : Z) (h : option H) (c : Z) : out (list irq_handler) :=
  _ ← kassert ((0 <=? num) && (num <? MAX_INT) && bool_decide (is_Some h));
  e ← rd t num;
  _ ← kassert (installed e <? MAX_HANDLERS);
  s ← wr (slots e) (installed e) (mk_slot h c);
  wr t num (mk_handler (s32 (installed e + 1)) s).

(** The slots of the handler are emptied, and stay counted. *)
Definition clear_slots (h : option H) (n : Z) (s : list slot) : list slot :=
  imap (fun i x => if (Z.of_nat i <? n) && bool_decide (handler x = h) then mk_slot None (ctx x) else x) s.

Definition irq_uninstall_handler (t : list irq_handler) (num : Z) (h : option H) : out (list irq_handler) :=
  _ ← kassert ((0 <=? num) && (num <? MAX_INT));
  e ← rd t num;
  wr t num (mk_handler (installed e) (clear_slots h (installed e) (slots e))).

Variable table : W -> list irq_handler.
Variable call : H -> Z -> W -> out (Z * W).

(** [cpu] is the address of the saved registers. *)
Fixpoint dispatch (fuel : nat) (i num cpu : Z) (w : W) : out W :=
  match fuel with
  | O => Spin
  | S fuel =>
      e ← rd (table w) num;
      if i <? installed e then
        s ← rd (slots e) i;
        match handler s with
        | None => Fault
        | Some h =>
            '(ret, w) ← call h (if ctx s =? 0 then cpu else ctx s) w;
            if ret =? IRQ_HANDLED then mret w else dispatch fuel (i + 1) num cpu w
        end
      else mret w
  end.

(** A vector without handlers is a panic, whether the number is known or not. *)
Definition interrupt_handler (isr_num cpu : Z) (w : W) : out W :=
  if MAX_INT <? isr_num then Halt
  else e ← rd (table w) isr_num; if installed e =? 0 then Halt else dispatch 17 0 isr_num cpu w.

(** ** Proofs *)

(** The handlers of a vector one after the other, until one has handled the
    interrupt. *)
Fixpoint run_chain (l : list slot) (cpu : Z) (w : W) : out W :=
  match l with
  | [] => mret w
  | s :: l =>
      match handler s with
      | None => Fault
      | Some h => '(ret, w) ← call h (if ctx s =? 0 then cpu else ctx s) w; if ret =? IRQ_HANDLED then mret w else run_chain l cpu w
      end
  end.

Hypothesis call_table : forall h c w r w', call h c w = Ret (r, w') -> table w' = table w.

Definition wf_handler (e : irq_handler) : Prop := length (slots e) = 16%nat /\ 0 <= installed e <= 16.

Lemma dispatch_chain num cpu e : wf_handler e -> forall l i w fuel, rd (table w) num = Ret e -> drop (Z.to_nat i) (take (Z.to_nat (installed e)) (slots e)) = l ->
  0 <= i <= installed e -> (length l < fuel)%nat -> dispatch fuel i num cpu w = run_chain l cpu w.
Proof.
  intros [Hl He]. induction l as [| s l IH]; intros i w fuel Ht Hd Hi Hf; (destruct fuel as [| fuel]; [cbn in Hf; lia |]); cbn [dispatch run_chain]; rewrite Ht; rb.
  - assert (E : (length (drop (Z.to_nat i) (take (Z.to_nat (installed e)) (slots e))) = 0)%nat) by (by rewrite Hd).
    rewrite length_drop, length_take in E. by rewrite (ltb_false i) by lia.
  - assert (E : (length (drop (Z.to_nat i) (take (Z.to_nat (installed e)) (slots e))) = S (length l))%nat) by (by rewrite Hd).
    rewrite length_drop, length_take in E. rewrite (ltb_true i) by lia.
    assert (Hs : slots e !! Z.to_nat i = Some s).
    { assert (Hh : drop (Z.to_nat i) (take (Z.to_nat (installed e)) (slots e)) !! 0%nat = Some s) by (by rewrite Hd).
      rewrite lookup_drop, Nat.add_0_r, lookup_take_lt in Hh by lia. exact Hh. }
    assert (Hr : rd (slots e) i = Ret s) by (apply rd_Ret; split; [lia | exact Hs]). rewrite Hr. rb. destruct (handler s) as [h |]; [| done].
    destruct (call h _ w) as [[ret w'] | | |] eqn:Ec; [| done ..]. rb. rb. destruct (ret =? IRQ_HANDLED) eqn:Er; [reflexivity |].
    apply IH; [by rewrite (call_table _ _ _ _ _ Ec) | | lia | cbn in Hf; lia].
    replace (Z.to_nat (i + 1)) with (S (Z.to_nat i)) by lia. rewrite <- Nat.add_1_r, <- drop_drop, Hd. done.
Qed.

Lemma interrupt_chain num cpu w e : 0 <= num < MAX_INT -> rd (table w) num = Ret e -> wf_handler e -> 0 < installed e ->
  interrupt_handler num cpu w = run_chain (take (Z.to_nat (installed e)) (slots e)) cpu w.
Proof.
  intros Hn Ht He Hi. unfold interrupt_handler. rewrite ltb_false by (unfold MAX_INT in *; lia). rewrite Ht. rb. rewrite (proj2 (Z.eqb_neq _ _)) by lia.
  apply (dispatch_chain num cpu e He _ 0 w); [done | done | lia |]. destruct He as [Hl He]. rewrite length_take. lia.
Qed.

(** Uninstalling a handler empties its slots and keeps the others. *)
Definition clear_slot (h : option H) (x : slot) : slot := if bool_decide (handler x = h) then mk_slot None (ctx x) else x.

Lemma take_clear h n s : take (Z.to_nat n) (clear_slots h n s) = clear_slot h <$> take (Z.to_nat n) s.
Proof.
  apply list_eq. intros i. rewrite list_lookup_fmap. destruct (decide (i < Z.to_nat n)%nat) as [Hi | Hi].
  - rewrite !lookup_take_lt by done. unfold clear_slots. rewrite list_lookup_imap. destruct (s !! i) as [x |]; cbn; [| done].
    by rewrite (ltb_true (Z.of_nat i)) by lia.
  - by rewrite !lookup_take_ge by lia.
Qed.

Lemma clear_keeps h (l : list slot) : (forall x, x ∈ l -> handler x <> h) -> clear_slot h <$> l = l.
Proof.
  induction l as [| x l IH]; intros Hx; [done |]. cbn. unfold clear_slot at 1. rewrite bool_decide_false by (apply Hx; left).
  f_equal. apply IH. intros y Hy. apply Hx. by right.
Qed.

Lemma length_clear h n s : length (clear_slots h n s) = length s.
Proof. apply length_imap. Qed.

(** Handlers that leave the interrupt to the next. *)
Lemma run_chain_passes cpu w c (a b : list slot) : c <> IRQ_HANDLED ->
  (forall x, x ∈ a -> exists g, handler x = Some g /\ call g (if ctx x =? 0 then cpu else ctx x) w = Ret (c, w)) ->
  run_chain (a ++ b) cpu w = run_chain b cpu w.
Proof.
  intros Hc. induction a as [| x a IH]; intros Ha; [done |]. cbn [app run_chain].
  destruct (Ha x ltac:(left)) as (g & Hg & Hcall). rewrite Hg, Hcall. rb.
  rewrite (proj2 (Z.eqb_neq _ _)) by done. apply IH. intros y Hy. apply Ha. by right.
Qed.

(** Installing puts the handler behind those of its vector: the next
    interrupt calls the old ones in their order, each with its context or the
    saved registers, and the new one when none of them has handled it. *)
Theorem irq_install_appends (w w' : W) num cpu e h c : rd (table w) num = Ret e -> wf_handler e ->
  irq_install_handler (table w) num (Some h) c = Ret (table w') ->
  interrupt_handler num cpu w' = run_chain (take (Z.to_nat (installed e)) (slots e) ++ [mk_slot (Some h) c]) cpu w'.
Proof.
  intros Ht [Hl He] Hin. unfold irq_install_handler in Hin. apply bind_Ret in Hin as (? & Ha & Hin). apply kassert_Ret in Ha.
  rewrite Ht, ret_bind in Hin. apply bind_Ret in Hin as (? & Hb & Hin). apply kassert_Ret in Hb.
  apply bind_Ret in Hin as (sl & Hs & Hin). apply wr_Ret in Hs as [Hi ->]. apply rd_wr_eq in Hin.
  unfold MAX_HANDLERS in Hb. unfold s32 in Hin; rewrite swrap_small in Hin by lia.
  rewrite (interrupt_chain num cpu w' _ ltac:(lia) Hin); cbn [installed slots].
  - f_equal. rewrite Z2Nat.inj_add by lia. change (Z.to_nat 1) with 1%nat. rewrite Nat.add_1_r.
    erewrite take_S_r by (apply list_lookup_insert_eq; lia). by rewrite take_insert_ge by lia.
  - split; cbn; [by rewrite length_insert | lia].
  - lia.
Qed.

(** A handler that was uninstalled is called all the same.  When the
    handlers installed before it leave the interrupt to the next, the
    interrupt calls the null pointer in its place. *)
Theorem irq_uninstalled_called (w w' : W) num cpu e (a : list slot) s b h c : rd (table w) num = Ret e -> wf_handler e ->
  take (Z.to_nat (installed e)) (slots e) = a ++ s :: b -> handler s = Some h -> (forall x, x ∈ a -> handler x <> Some h) ->
  (forall x, x ∈ a -> exists g, handler x = Some g /\ call g (if ctx x =? 0 then cpu else ctx x) w' = Ret (c, w')) -> c <> IRQ_HANDLED ->
  irq_uninstall_handler (table w) num (Some h) = Ret (table w') -> interrupt_handler num cpu w' = Fault.
Proof.
  intros Ht [Hl He] Hs Hh Ha Hcall Hc Hun. unfold irq_uninstall_handler in Hun. apply bind_Ret in Hun as (? & Hk & Hun).
  apply kassert_Ret in Hk. rewrite Ht, ret_bind in Hun. apply rd_wr_eq in Hun.
  assert (Hpos : 0 < installed e).
  { assert (E := f_equal length Hs). rewrite length_take, length_app in E. cbn in E. lia. }
  rewrite (interrupt_chain num cpu w' _ ltac:(lia) Hun); cbn [installed slots]; [| split; cbn; [by rewrite length_clear | lia] | done].
  rewrite take_clear, Hs, fmap_app, clear_keeps by done. rewrite (run_chain_passes cpu w' c) by done.
  cbn. unfold clear_slot. by rewrite bool_decide_true by done.
Qed.
End irq.

(** A machine whose handlers are their results: 0 handles the interrupt. *)
Definition demo_call (h c : Z) (w : list (irq_handler (H := Z))) : out (Z * list (irq_handler (H := Z))) := Ret (h, w).
Definition demo_table : list (irq_handler (H := Z)) := <[33%nat := mk_handler 2 (mk_slot (Some 1) 0 :: mk_slot (Some 0) 7 :: replicate 14 no_slot)]> (irq_init 0 0 0).

Lemma irq_install_appends_witness : exists w', irq_install_handler demo_table 33 (Some 5) 9 = Ret w' /\ interrupt_handler id demo_call 33 1 w' = Ret w'.
Proof.
  eexists. split; [vm_compute; reflexivity |].
  etransitivity; [eapply (irq_install_appends id demo_call ltac:(intros ????? [= _ ->]; reflexivity) demo_table _ 33 1 _ 5 9) |].
  - vm_compute. reflexivity.
  - split; [vm_compute; reflexivity | cbn; lia].
  - vm_compute. reflexivity.
  - vm_compute. reflexivity.
Defined.

Lemma irq_uninstalled_called_witness : exists w', irq_uninstall_handler demo_table 33 (Some 0) = Ret w' /\ interrupt_handler id demo_call 33 1 w' = Fault.
Proof.
  eexists. split; [vm_compute; reflexivity |].
  eapply (irq_uninstalled_called id demo_call ltac:(intros ????? [= _ ->]; reflexivity) demo_table _ 33 1 _ [mk_slot (Some 1) 0] (mk_slot (Some 0) 7) [] 0 1).
  - vm_compute. reflexivity.
  - split; [vm_compute; reflexivity | cbn; lia].
  - reflexivity.
  - reflexivity.
  - intros x ->%list_elem_of_singleton. discriminate.
  - intros x ->%list_elem_of_singleton. exists 1. split; reflexivity.
  - discriminate.
  - vm_compute. reflexivity.
Defined.
End Irq.
