(* ===== verification/Ps2.v ===== *)
(** * The keyboard (drivers/console/ps2.c)

    The interrupt handler turns scan codes into characters and writes them to
    a pipe, which [/dev/kbd] reads.  The acknowledgement of an interrupt is
    counted; the bring-up of the controller is not modelled. *)

From S2P Require Import Prelude Bytes Dlist Locks Sched Pipe.
Import Bytes Dlist Locks Sched Pipe.

Module Ps2.

Definition IRQ_HANDLED : Z := 0.
Definition CONTROL : Z := 29.
Definition L_SHIFT : Z := 42.
Definition R_SHIFT : Z := 54.
Definition ALT : Z := 56.
Definition CAPSLOCK : Z := 58.
Definition F1 : Z := 59.
Definition F10 : Z := 68.
Definition UP : Z := 72.
Definition LEFT : Z := 75.
Definition RIGHT : Z := 77.
Definition DOWN : Z := 80.

(** The initialiser of [codes]; the other elements are 0. *)
Definition code_list : list (Z * Z) := [
  (2, 49); (3, 50); (4, 51); (5, 52); (6, 53); (7, 54); (8, 55); (9, 56); (10, 57); (11, 48);
  (12, 45); (13, 61); (14, 8); (15, 9); (16, 113); (17, 119); (18, 101); (19, 114); (20, 116); (21, 121);
  (22, 117); (23, 105); (24, 111); (25, 112); (26, 91); (27, 93); (28, 10); (29, CONTROL); (30, 97); (31, 115);
  (32, 100); (33, 102); (34, 103); (35, 104); (36, 106); (37, 107); (38, 108); (39, 59); (40, 39); (41, 96);
  (42, L_SHIFT); (43, 92); (44, 122); (45, 120); (46, 99); (47, 118); (48, 98); (49, 110); (50, 109); (51, 44);
  (52, 46); (53, 47); (54, R_SHIFT); (55, 42); (56, ALT); (57, 32); (58, CAPSLOCK); (59, F1); (60, 60); (61, 61);
  (62, 62); (63, 63); (64, 64); (65, 65); (66, 66); (67, 67); (68, F10); (72, UP); (75, LEFT); (77, RIGHT);
  (78, 43); (80, DOWN);
  (132, 33); (133, 34); (134, 35); (136, 37); (137, 38); (138, 47); (139, 40); (140, 41); (141, 61); (142, 95);
  (146, 81); (147, 87); (148, 69); (149, 82); (150, 84); (151, 89); (152, 85); (153, 73); (154, 79); (155, 80);
  (156, 60); (157, 62); (160, 65); (161, 83); (162, 68); (163, 70); (164, 71); (165, 72); (166, 74); (167, 75);
  (168, 76); (174, 90); (175, 88); (176, 67); (177, 86); (178, 66); (179, 78); (180, 77); (181, 59); (182, 58)].

Definition codes : list Z := foldl (fun t '(i, c) => <[Z.to_nat i := c]> t) (replicate 256 0) code_list.

(** The statics of the handler and the acknowledged interrupts. *)
Record kbd := mk_kbd { shift_down : bool; acks : Z }.
Definition set_shift (b : bool) (k : kbd) : kbd := mk_kbd b (acks k).
Definition lapic_ack_interrupt (k : kbd) : kbd := mk_kbd (shift_down k) (acks k + 1).

Definition is_shift (sc : Z) : bool := (sc =? R_SHIFT) || (sc =? L_SHIFT).

Section ps2.
Context {M : Type} `{SchedOps M}.

(** [sc] is the byte read from the port.  When the pipe is full the handler
    sleeps, in the task it interrupted, before it has acknowledged. *)
Definition __kbd_handler (s : sys M) (me : Z) (p : option pipe) (k : kbd) (sc : Z) : out (call * sys M * option pipe * kbd) :=
  if negb (Z.land sc 0x80 =? 0) then
    let sc := u8 (Z.land sc (Z.lnot 0x80)) in
    let k := if is_shift sc then set_shift false k else k in
    mret (Done IRQ_HANDLED [], s, p, lapic_ack_interrupt k)
  else if is_shift sc then mret (Done IRQ_HANDLED [], s, p, lapic_ack_interrupt (set_shift true k))
  else
    c ← rd codes (if shift_down k then sc + 130 else sc);
    '(r, s, p) ← pipe_write s me p (Some [c]);
    match r with
    | Wait ctl => mret (Wait ctl, s, p, k)
    | Done _ _ => mret (Done IRQ_HANDLED [], s, p, lapic_ack_interrupt k)
    end.

(** The handler when the task it sleeps in runs again. *)
Definition __kbd_resume (s : sys M) (me : Z) (p : pipe) (k : kbd) (c : Z) : out (call * sys M * pipe * kbd) :=
  '(r, s, p) ← write_resume s me p [c];
  match r with
  | Wait ctl => mret (Wait ctl, s, p, k)
  | Done _ _ => mret (Done IRQ_HANDLED [], s, p, lapic_ack_interrupt k)
  end.

(** [file]: the file is not null; its private data is the pipe. *)
Definition __read (s : sys M) (me : Z) (file : bool) (p : option pipe) (size : Z) (buf : bool) : out (call * sys M * option pipe) :=
  if negb file || negb buf || (size =? 0) then mret (Done (- EINVAL) [], s, p) else pipe_read s me p buf size.

(** ** Typing *)

(** The handler runs for each scan code. *)
Fixpoint kbd_run (s : sys M) (me : Z) (p : option pipe) (k : kbd) (l : list Z) : out (sys M * option pipe * kbd) :=
  match l with
  | [] => mret (s, p, k)
  | sc :: l =>
      '(r, s, p, k) ← __kbd_handler s me p k sc;
      match r with Done _ _ => kbd_run s me p k l | Wait _ => Spin end
  end.

End ps2.

(** The scan code of a character in one half of the table, if it has one. *)
Definition find_code (off c : Z) : option Z :=
  head (filter (fun sc => is_shift sc = false /\ codes !! Z.to_nat (sc + off) = Some c) (seqZ 0 126)).

(** What is pressed and let go for a character. *)
Definition keys (c : Z) : list Z :=
  match find_code 0 c, find_code 130 c with
  | Some sc, _ => [sc; sc + 128]
  | None, Some sc => [L_SHIFT; sc; sc + 128; L_SHIFT + 128]
  | None, None => []
  end.
Definition typeable (c : Z) : bool := negb (c =? 0) && bool_decide (keys c <> []).

(** ** What typing does *)

Section typing.
Context {M : Type} `{SchedOps M}.

(** Nobody waits for a key. *)
Definition quiet (s : sys M) (p : pipe) : Prop :=
  wq_readers p <> 0 /\ get_wlock s (wq_readers p) = Ret 0 /\ ring (lnk s) (WQH_LIST (wq_readers p)) [].

Lemma wakeup_quiet s me p : quiet s p -> exists s', wq_wakeup s me (wq_readers p) = Ret (0, s') /\ quiet s' p.
Proof.
  intros (Hz & Hl & Hr). destruct (wake_spec s me (wq_readers p) (fun _ => 0) [] (mts s)) as (s' & E & _ & Hr' & Hl' & _); try done.
  - intros tk Hin. by apply elem_of_nil in Hin.
  - constructor.
  - exists s'. split; [exact E |]. done.
Qed.

(** A key that is pressed while the pipe has room. *)
Lemma press_char s me p k sc c : pipe_ok p -> p_lock p = 0 -> quiet s p -> ptr p < psize p ->
  0 <= sc < 128 -> is_shift sc = false -> rd codes (if shift_down k then sc + 130 else sc) = Ret c ->
  exists s' p', __kbd_handler s me (Some p) k sc = Ret (Done IRQ_HANDLED [], s', Some p', lapic_ack_interrupt k) /\
    pipe_ok p' /\ p_lock p' = 0 /\ quiet s' p' /\ psize p' = psize p /\ unread p' = unread p ++ [c] /\ ptr p' = ptr p + 1.
Proof.
  intros Hok Hl Hq Hp Hsc Hns Hc. unfold __kbd_handler.
  assert (Hb : Z.land sc 128 = 0).
  { apply Z.bits_inj'. intros n Hn. rewrite Z.land_spec, Z.bits_0. change 128 with (2 ^ 7). rewrite Z.pow2_bits_eqb by lia.
    destruct (Z.eqb_spec 7 n) as [<- |]; [| by rewrite andb_false_r]. rewrite andb_true_r. apply Z.bits_above_log2; [lia |].
    destruct (Z.eqb_spec sc 0) as [-> |]; [done |]. apply Z.log2_lt_pow2; lia. }
  rewrite Hb. cbn [negb Z.eqb]. rewrite Hns, Hc. rb. unfold pipe_write, __write. change (zlen [c] =? 0) with false. cbn iota. rewrite Hl, spin_acquire_free. rb.
  destruct (wakeup_quiet s me p Hq) as (s' & Ew & Hq').
  destruct Hok as (Hm & Hpp & Hs). change (zlen [c]) with 1. cbn [psize ptr set_p_lock].
  assert (Hu64 : u64 (psize p - ptr p) = psize p - ptr p) by (apply wrap_small; unfold in_u;  lia). rewrite Hu64, (proj2 (Z.ltb_ge _ _)) by lia.
  destruct (write_now_fits s s' me 0 (set_p_lock 1 p) [c]) as (p' & E & Hok' & Hl' & Hu & Hsz & Hptr & Hrd); [by split | exact Ew | done | change (zlen [c]) with 1; cbn [ptr psize set_p_lock]; lia |].
  change (@zlen Z [c]) with 1 in E, Hptr. rewrite E. rb. exists s', p'. split; [done |]. split_and!; try done. unfold quiet. by rewrite Hrd.
Qed.

(** Letting a key go. *)
Lemma release_key s me p k sc : 0 <= sc < 128 -> is_shift sc = false ->
  __kbd_handler s me p k (sc + 128) = Ret (Done IRQ_HANDLED [], s, p, lapic_ack_interrupt k).
Proof.
  intros Hsc Hns. unfold __kbd_handler.
  assert (Hall : forallb (fun sc => negb (Z.land (sc + 128) 128 =? 0) && (u8 (Z.land (sc + 128) (Z.lnot 128)) =? sc)) (seqZ 0 128) = true) by (vm_compute; reflexivity).
  rewrite forallb_forall in Hall. specialize (Hall sc). rewrite <- list_elem_of_In, elem_of_seqZ in Hall. specialize (Hall ltac:(lia)).
  apply andb_true_iff in Hall as [H1 H2]. apply Z.eqb_eq in H2. rewrite H1, H2, Hns. done.
Qed.

(** Every key sequence of a character, in one of the two halves of the table. *)
Lemma find_code_Some off c sc : 0 <= off -> find_code off c = Some sc ->
  0 <= sc < 126 /\ is_shift sc = false /\ rd codes (sc + off) = Ret c.
Proof.
  intros Ho Hf. unfold find_code in Hf. assert (Hin : sc ∈ filter (fun sc => is_shift sc = false /\ codes !! Z.to_nat (sc + off) = Some c) (seqZ 0 126)).
  { destruct (filter _ _) as [| x l]; [done |]. cbn in Hf. injection Hf as ->. by left. }
  apply list_elem_of_filter in Hin as [[H1 H2] H3]. apply elem_of_seqZ in H3. split; [lia |]. split; [done |]. apply rd_Ret. split; [lia | done].
Qed.

(** The state of the keyboard between two characters. *)
Lemma type_char s me p k c : pipe_ok p -> p_lock p = 0 -> quiet s p -> ptr p < psize p -> shift_down k = false -> typeable c = true ->
  exists s' p' k', kbd_run s me (Some p) k (keys c) = Ret (s', Some p', k') /\ shift_down k' = false /\
    pipe_ok p' /\ p_lock p' = 0 /\ quiet s' p' /\ psize p' = psize p /\ unread p' = unread p ++ [c] /\ ptr p' = ptr p + 1.
Proof.
  intros Hok Hl Hq Hp Hk Ht. apply andb_true_iff in Ht as [_ Ht]. apply bool_decide_eq_true in Ht. unfold keys in *.
  destruct (find_code 0 c) as [sc |] eqn:E0; [| destruct (find_code 130 c) as [sc |] eqn:E1; [| done]].
  - destruct (find_code_Some 0 c sc ltac:(lia) E0) as (Hsc & Hns & Hr). rewrite Z.add_0_r in Hr.
    destruct (press_char s me p k sc c) as (s' & p' & E & Rest); try done; [lia | by rewrite Hk |].
    cbn [kbd_run]. rewrite E. rb. rewrite release_key by (lia || done). rb. eexists s', p', _. split; [reflexivity |]. split; [exact Hk | exact Rest].
  - destruct (find_code_Some 130 c sc ltac:(lia) E1) as (Hsc & Hns & Hr).
    destruct (press_char s me p (lapic_ack_interrupt (set_shift true k)) sc c) as (s' & p' & E & Rest); try done; [lia |].
    cbn [kbd_run]. change (__kbd_handler s me (Some p) k L_SHIFT) with (Ret (Done IRQ_HANDLED [], s, Some p, lapic_ack_interrupt (set_shift true k))). rb.
    rewrite E. rb. rewrite release_key by (lia || done). rb.
    eexists s', p', _. split; [reflexivity |]. split; [reflexivity | exact Rest].
Qed.

Lemma kbd_run_app s me p k l l' : kbd_run s me p k (l ++ l') = ('(s, p, k) ← kbd_run s me p k l; kbd_run s me p k l').
Proof.
  revert s p k. induction l as [| sc l IH]; intros s p k; [done |]. cbn [app kbd_run].
  destruct (__kbd_handler s me p k sc) as [[[[r s1] p1] k1] | | |]; [| done ..]. cbn. destruct r; [apply IH | done].
Qed.

(** Typing a text that fits puts it behind the unread characters. *)
Lemma type_text s me p k text : pipe_ok p -> p_lock p = 0 -> quiet s p -> ptr p + zlen text <= psize p -> shift_down k = false ->
  Forall (fun c => typeable c = true) text ->
  exists s' p' k', kbd_run s me (Some p) k (text ≫= keys) = Ret (s', Some p', k') /\ shift_down k' = false /\
    pipe_ok p' /\ p_lock p' = 0 /\ quiet s' p' /\ psize p' = psize p /\ unread p' = unread p ++ text /\ ptr p' = ptr p + zlen text.
Proof.
  revert s p k. induction text as [| c text IH]; intros s p k Hok Hl Hq Hfit Hk Ht.
  - exists s, p, k. cbn. rewrite app_nil_r, Z.add_0_r. done.
  - apply Forall_cons in Ht as [Hc Ht]. assert (Hz : zlen (c :: text) = 1 + zlen text) by (unfold zlen; cbn [length]; lia). pose proof (zlen_nonneg text) as Hnn.
    destruct (type_char s me p k c) as (s1 & p1 & k1 & E1 & Hk1 & Hok1 & Hl1 & Hq1 & Hs1 & Hu1 & Hp1); try done; [lia |].
    destruct (IH s1 p1 k1) as (s2 & p2 & k2 & E2 & Hk2 & Hok2 & Hl2 & Hq2 & Hs2 & Hu2 & Hp2); try done; [lia |].
    exists s2, p2, k2. change ((c :: text) ≫= keys) with (keys c ++ (text ≫= keys)). rewrite kbd_run_app, E1. rb. split; [exact E2 |].
    split_and!; try done; [by rewrite Hs2 | by rewrite Hu2, Hu1, <- app_assoc | lia].
Qed.
End typing.
End Ps2.
