(* ===== verification/Tty.v ===== *)
(** * The terminal (drivers/console/tty.c)

    Writing puts the characters on the screen; reading takes them from the
    keyboard's file one at a time, echoes them and edits the line in the
    caller's buffer.  A read that finds no character sleeps with the line as
    far as it is. *)

From S2P Require Import Prelude Bytes Dlist Locks Sched Pipe Ps2.
Import Bytes Dlist Locks Sched Pipe.

Module Tty.

Definition O_RDONLY : Z := 2.
Definition O_WRONLY : Z := 8.
Definition NL : Z := 10.
Definition BS : Z := 8.

(** What a read comes to: a result, or sleep in the middle of the loop. *)
Record line := mk_line { buf : list Z; pos : Z; screen : list Z }.
Inductive tty_call := Got (r : Z) | Sleep (c : control).

(** Returns the line and whether the loop is left.  The position is after
    the last character. *)
Definition tty_char (l : line) (c : Z) : out (bool * line) :=
  if c =? NL then mret (true, mk_line (buf l) (pos l) (screen l ++ [NL]))
  else if c =? BS then
    if negb (pos l =? 0) then
      b ← wr (buf l) (pos l - 1) 0; mret (false, mk_line b (pos l - 1) (screen l ++ [BS]))
    else mret (false, l)
  else b ← wr (buf l) (pos l) c; mret (false, mk_line b (pos l + 1) (screen l ++ [c])).

Section tty.
Context {M : Type} `{SchedOps M}.

(** [c] keeps its value when the file gives none. *)
Fixpoint tty_loop (fuel : nat) (s : sys M) (me : Z) (p : option pipe) (size c : Z) (l : line) : out (tty_call * line * sys M * option pipe) :=
  match fuel with
  | O => Spin
  | S fuel =>
      if negb (c =? NL) && (pos l <? size) then
        '(r, s, p) ← Ps2.__read s me true p 1 true;
        match r with
        | Wait ctl => mret (Sleep ctl, l, s, p)
        | Done _ data =>
            let c := hd c data in
            '(stop, l) ← tty_char l c;
            if negb stop then tty_loop fuel s me p size c l else mret (Got (pos l), l, s, p)
        end
      else mret (Got (pos l), l, s, p)
  end.

(** [kbd]: the keyboard's file is open. *)
Definition __tty_read (fuel : nat) (s : sys M) (me : Z) (p : option pipe) (file kbd : bool) (f_mode : Z) (b : option (list Z)) (size : Z) (scr : list Z) :
    out (tty_call * line * sys M * option pipe) :=
  match b with
  | None => mret (Got (- EINVAL), mk_line [] 0 scr, s, p)
  | Some b =>
      let l := mk_line b 0 scr in
      if negb file || negb kbd then mret (Got (- EINVAL), l, s, p)
      else if negb (Z.land f_mode O_WRONLY =? 0) then mret (Got (- ENOTSUP), l, s, p)
      else tty_loop fuel s me p size 0 l
  end.

(** A read that slept, when its task runs again. *)
Definition tty_resume (fuel : nat) (s : sys M) (me : Z) (p : pipe) (size : Z) (c : Z) (l : line) : out (tty_call * line * sys M * option pipe) :=
  '(r, s, p) ← read_resume s me p 1;
  match r with
  | Wait ctl => mret (Sleep ctl, l, s, Some p)
  | Done _ data =>
      let c := hd c data in
      '(stop, l) ← tty_char l c;
      if negb stop then tty_loop fuel s me (Some p) size c l else mret (Got (pos l), l, s, Some p)
  end.
End tty.

(** [lock] is the static lock of the function. *)
Definition __tty_write (lock : Z) (scr : list Z) (file : bool) (f_mode : Z) (b : option (list Z)) : out (Z * Z * list Z) :=
  match b with
  | None => mret (- EINVAL, lock, scr)
  | Some b =>
      if negb file then mret (- EINVAL, lock, scr)
      else if negb (Z.land f_mode O_RDONLY =? 0) then mret (- ENOTSUP, lock, scr)
      else lock ← spin_acquire lock; mret (zlen b, spin_release lock, scr ++ b)
  end.

(** ** The line a text makes *)

(** A backspace takes the last character off, if there is one. *)
Definition edit_char (l : list Z) (c : Z) : list Z := if c =? BS then take (length l - 1) l else l ++ [c].
Definition edit (text : list Z) : list Z := foldl edit_char [] text.

(** The line in the caller's buffer. *)
Definition holds (l : line) (t : list Z) : Prop := pos l = zlen t /\ take (length t) (buf l) = t.

Lemma tty_char_edit l t c : holds l t -> zlen t < zlen (buf l) -> c <> NL ->
  exists l', tty_char l c = Ret (false, l') /\ holds l' (edit_char t c) /\ length (buf l') = length (buf l).
Proof.
  intros [Hp Ht] Hlen Hc. unfold tty_char, edit_char, holds. rewrite (proj2 (Z.eqb_neq c NL)) by done. destruct (Z.eqb_spec c BS) as [_ | Hb].
  - destruct (Z.eqb_spec (pos l) 0) as [E0 | E0]; cbn [negb].
    + assert (t = []) as -> by (apply length_zero_iff_nil; unfold zlen in *; lia). exists l. split; [done |]. done.
    + rewrite wr_in by (unfold zlen in *; lia). rb. eexists. split; [done |]. cbn [buf pos]. rewrite length_insert. unfold zlen in *.
      rewrite length_take. split; [| done]. split; [lia |].
      rewrite take_insert_ge by lia. transitivity (take (length t - 1) (take (length t) (buf l))); [rewrite take_take; f_equal; lia | by rewrite Ht].
  - rewrite wr_in by (unfold zlen in *; lia). rb. eexists. split; [done |]. cbn [buf pos]. rewrite length_insert. unfold zlen in *.
    rewrite length_app. cbn [length]. split; [| done]. split; [lia |]. rewrite Nat.add_1_r. replace (Z.to_nat (pos l)) with (length t) by lia.
    erewrite take_S_r by (apply list_lookup_insert_eq; lia). rewrite take_insert_ge by lia. by rewrite Ht.
Qed.
Lemma length_edit t text : (length (foldl edit_char t text) <= length t + length text)%nat.
Proof.
  revert t. induction text as [| c text IH]; intros t; cbn; [lia |]. etransitivity; [apply IH |]. unfold edit_char.
  destruct (c =? BS); [rewrite length_take | rewrite length_app; cbn]; lia.
Qed.

(** ** Reading what was typed *)

Lemma unread_length p : pipe_ok p -> zlen (unread p) = ptr p.
Proof. intros (Hm & Hp & _). unfold unread, zlen in *. rewrite length_take. lia. Qed.

(** [n] newlines, at least two, are unread: what a partial read of a line
    leaves behind. *)
Definition stuck (p : pipe) : Prop := pipe_ok p /\ p_lock p = 0 /\ exists n, unread p = replicate (S (S n)) NL.

Section reading.
Context {M : Type} `{SchedOps M}.

(** One character of a pipe that has some. *)
Lemma read_char s me p c u : pipe_ok p -> p_lock p = 0 -> unread p = c :: u ->
  exists p', Ps2.__read s me true (Some p) 1 true = Ret (Done 1 [c], s, Some p') /\ pipe_ok p' /\ p_lock p' = 0 /\
    unread p' = match u with [] => [] | _ => u ++ drop (length u) (c :: u) end.
Proof.
  intros Hok Hl Hu. pose proof (unread_length p Hok) as Hp. rewrite Hu in Hp.
  destruct (pipe_read_data (set_p_lock 1 p) 1) as (p' & E & Hok' & Hl' & _ & _ & Hall & Hpart).
  { exact Hok. }
  { split; reflexivity. }
  { cbn [ptr set_p_lock]. unfold zlen in Hp. cbn in Hp. lia. }
  unfold Ps2.__read, pipe_read, __read, read_loop. cbn [negb orb]. change (1 =? 0) with false. cbn iota. rewrite Hl, spin_acquire_free. rb.
  cbn [ptr set_p_lock] in *. rewrite (proj2 (Z.eqb_neq _ _)) by (unfold zlen in Hp; cbn in Hp; lia). rewrite E. rb. rb.
  assert (Hmin : Z.min 1 (ptr p) = 1) by (unfold zlen in Hp; cbn in Hp; lia). rewrite Hmin.
  change (unread (set_p_lock 1 p)) with (unread p) in *. rewrite Hu in *. exists p'. split; [done |]. split; [done |]. split; [done |].
  destruct u as [| d u]; [apply Hall; unfold zlen in Hp; cbn in Hp; lia |]. unfold zlen in Hp. cbn [length] in Hp.
  destruct (Hpart ltac:(lia)) as [Hu' _]. rewrite Hu'. f_equal. f_equal. cbn [length]. lia.
Qed.

(** The position stays where it is, so the last newline is unread again. *)
Lemma moved_NL c text k : drop (length (text ++ replicate (S k) NL)) (c :: text ++ replicate (S k) NL) = [NL].
Proof.
  rewrite length_app, length_replicate, Nat.add_succ_r. cbn [drop]. rewrite drop_app_ge by lia.
  replace (length text + k - length text)%nat with k by lia. rewrite drop_replicate. by replace (S k - k)%nat with 1%nat by lia.
Qed.

Lemma read_typed s me p text k : pipe_ok p -> p_lock p = 0 -> unread p = text ++ replicate (S k) NL ->
  exists p', Ps2.__read s me true (Some p) 1 true = Ret (Done 1 [hd NL text], s, Some p') /\ pipe_ok p' /\ p_lock p' = 0 /\
    unread p' = match text with [] => match k with O => [] | S k => replicate (S (S k)) NL end | _ :: text => text ++ replicate (S (S k)) NL end.
Proof.
  intros Hok Hl Hu. destruct text as [| c text].
  - destruct (read_char s me p NL (replicate k NL) Hok Hl Hu) as (p' & E & Hok' & Hl' & Hu'). exists p'. do 3 (split; [done |]). rewrite Hu'.
    destruct k as [| k]; [done |].
    change (replicate (S k) NL ++ drop (length (replicate (S k) NL)) (NL :: replicate (S k) NL) = replicate (S (S k)) NL).
    pose proof (moved_NL NL [] k) as Em. cbn [app] in Em. rewrite Em. symmetry. apply replicate_cons_app.
  - destruct (read_char s me p c (text ++ replicate (S k) NL) Hok Hl Hu) as (p' & E & Hok' & Hl' & Hu'). exists p'. do 3 (split; [done |]). rewrite Hu', moved_NL.
    change (replicate (S (S k)) NL) with (NL :: replicate (S k) NL). rewrite (replicate_cons_app (S k)), app_assoc. by destruct text.
Qed.

Lemma read_line s me size text : forall fuel p k c l t, pipe_ok p -> p_lock p = 0 -> unread p = text ++ replicate (S k) NL -> NL ∉ text -> c <> NL ->
  holds l t -> zlen t + zlen text < size <= zlen (buf l) -> (length text < fuel)%nat ->
  exists l' p', tty_loop fuel s me (Some p) size c l = Ret (Got (zlen (foldl edit_char t text)), l', s, Some p') /\ holds l' (foldl edit_char t text) /\
    pipe_ok p' /\ p_lock p' = 0 /\ unread p' = match text with [] => match k with O => [] | S k => replicate (S (S k)) NL end | _ => replicate (length text + S k) NL end.
Proof.
  induction text as [| d text IH]; intros fuel p k c l t Hok Hlk Hu Hnl Hc Hl Hsz Hf; (destruct fuel as [| fuel]; [cbn in Hf; lia |]);
    destruct (read_typed s me p _ k Hok Hlk Hu) as (p1 & E1 & Hok1 & Hl1 & Hu1); cbn [tty_loop];
    rewrite (proj2 (Z.eqb_neq c NL)), ltb_true by (done || (destruct Hl; unfold zlen in *; cbn [length] in *; lia)); cbn [negb andb]; rewrite E1; rb; cbn [hd].
  - destruct Hl as [Hp Ht]. eexists _, p1. split; [unfold tty_char; rewrite Z.eqb_refl; rb; cbn [negb pos]; by rewrite Hp |]. split; [split; done |]. done.
  - rewrite not_elem_of_cons in Hnl. destruct Hnl as [Hd Hnl]. assert (Hz : zlen (d :: text) = 1 + zlen text) by (unfold zlen; cbn [length]; lia).
    pose proof (zlen_nonneg text) as Hnn. destruct (tty_char_edit l t d Hl ltac:(lia) ltac:(done)) as (l1 & Ec & Hh & Hb). rewrite Ec. rb. cbn [negb].
    destruct (IH fuel p1 (S k) d l1 (edit_char t d)) as (l' & p' & E & Hh' & Hok' & Hl' & Hu'); try done.
    { unfold zlen in *. rewrite Hb. pose proof (length_edit t [d]) as He. cbn in He. lia. }
    { cbn in Hf. lia. }
    exists l', p'. split; [exact E |]. split; [exact Hh' |]. do 2 (split; [done |]). rewrite Hu'. cbn [length]. destruct text; [done |]. f_equal. cbn [length]. lia.
Qed.

(** C10: What is typed at the keyboard and ended with Enter, while nobody
    reads, is what the terminal reads, without the characters that were taken
    back.  But unless the line is empty, the pipe is stuck afterwards: every
    later read, by any task, returns an empty line at once, as long as nothing
    else is typed. *)
Theorem typed_line_read (s : sys M) (me : Z) (p : pipe) (k : Ps2.kbd) (text : list Z) (b scr : list Z) (size mode : Z) (fuel : nat) :
  pipe_ok p -> p_lock p = 0 -> Ps2.quiet s p -> unread p = [] -> Ps2.shift_down k = false ->
  Forall (fun c => Ps2.typeable c = true) text -> NL ∉ text -> zlen text < psize p -> zlen text < size <= zlen b -> Z.land mode O_WRONLY = 0 -> (length text < fuel)%nat ->
  exists s1 p1 k1 l p2, Ps2.kbd_run s me (Some p) k ((text ++ [NL]) ≫= Ps2.keys) = Ret (s1, Some p1, k1) /\
    __tty_read fuel s1 me (Some p1) true true mode (Some b) size scr = Ret (Got (zlen (edit text)), l, s1, Some p2) /\
    take (length (edit text)) (buf l) = edit text /\
    (text = [] -> unread p2 = []) /\ (text <> [] -> stuck p2) /\
    forall q, stuck q -> forall s me b size scr, 0 < size -> exists l' q', __tty_read fuel s me (Some q) true true mode (Some b) size scr = Ret (Got 0, l', s, Some q') /\ stuck q'.
Proof.
  intros Hok Hl Hq Hu Hk Ht Hnl Hroom Hsz Hmode Hf. pose proof (unread_length p Hok) as Hp. rewrite Hu in Hp. change (zlen []) with 0 in Hp.
  assert (Hzl : zlen (text ++ [NL]) = zlen text + 1) by (unfold zlen; rewrite length_app; cbn; lia).
  destruct (Ps2.type_text s me p k (text ++ [NL])) as (s1 & p1 & k1 & E1 & _ & Hok1 & Hl1 & _ & _ & Hu1 & _); try done; [lia | |].
  { apply Forall_app. split; [done |]. apply Forall_singleton. vm_compute. reflexivity. }
  rewrite Hu in Hu1. cbn in Hu1.
  destruct (read_line s1 me size text fuel p1 0 0 (mk_line b 0 scr) []) as (l & p2 & E2 & Hh & Hok2 & Hl2 & Hu2); try done.
  exists s1, p1, k1, l, p2. split; [exact E1 |]. split; [unfold __tty_read; cbn [negb orb]; rewrite Hmode; change (negb (0 =? 0)) with false; exact E2 |]. split; [apply Hh |].
  split; [intros -> ; done |]. split.
  - intros Hne. split; [done |]. split; [done |]. destruct text as [| c text]; [done |]. exists (length text). rewrite Hu2. f_equal. cbn [length]. lia.
  - intros q (Hokq & Hlq & n & Hn) s' me' b' size' scr' Hs'. destruct fuel as [| fuel]; [lia |].
    destruct (read_typed s' me' q [] (S n) Hokq Hlq Hn) as (q' & E & Hokq' & Hlq' & Huq').
    unfold __tty_read. cbn [negb orb]. rewrite Hmode. change (negb (0 =? 0)) with false. cbn [tty_loop pos]. change (negb (0 =? NL)) with true. rewrite ltb_true by done. cbn [andb]. rewrite E. rb. cbn [hd].
    unfold tty_char. rewrite Z.eqb_refl. rb. cbn [negb pos]. eexists _, q'. split; [reflexivity |]. split; [done |]. split; [done |]. by exists n.
Qed.

End reading.

#[local] Existing Instance Sched.list_sched.

(** A new pipe of 64 bytes, whose queue of readers is empty. *)
Definition sample_pipe : pipe := mk_pipe 0 0 (replicate 64 0) 64 0 0 1 1112 9100.
Definition sample_sys : sys (Z * list Z) := put_wlock Sched.sample_sys 1112 0.

(** "ax", a backspace and "B". *)
Lemma typed_line_read_witness : exists s1 p1 k1 l p2,
  Ps2.kbd_run sample_sys 0 (Some sample_pipe) (Ps2.mk_kbd false 0) (([97; 120; 8; 66] ++ [NL]) ≫= Ps2.keys) = Ret (s1, Some p1, k1) /\
  __tty_read 5 s1 0 (Some p1) true true 4 (Some (replicate 16 0)) 16 [] = Ret (Got 2, l, s1, Some p2) /\ take 2 (buf l) = [97; 66] /\ stuck p2.
Proof.
  destruct (typed_line_read sample_sys 0 sample_pipe (Ps2.mk_kbd false 0) [97; 120; 8; 66] (replicate 16 0) [] 16 4 5) as (s1 & p1 & k1 & l & p2 & E1 & E2 & E3 & _ & E4 & _).
  - split; [reflexivity |]. split; [split; discriminate | reflexivity].
  - reflexivity.
  - split; [discriminate |]. split; [reflexivity |]. split; [refine (bool_decide_eq_true_1 _ _); vm_compute; reflexivity |].
    split; [refine (bool_decide_eq_true_1 _ _); vm_compute; reflexivity |].
    split; [split; [reflexivity | intros _; reflexivity] | by left].
  - reflexivity.
  - reflexivity.
  - repeat constructor; vm_compute; reflexivity.
  - refine (bool_decide_eq_true_1 _ _). vm_compute. reflexivity.
  - reflexivity.
  - split; [reflexivity | discriminate].
  - reflexivity.
  - cbn; lia.
  - exists s1, p1, k1, l, p2. split; [exact E1 |]. split; [exact E2 |]. split; [exact E3 |]. apply E4. discriminate.
Defined.
End Tty.
