(* ===== verification/Devfs.v ===== *)
(** * Character devices and their file system (fs/char.c, fs/devfs.c,
      fs/super.c)

    A driver makes a device with [cdev_alloc] and gives it a name under
    [/dev] with [devfs_register_cdev]: an inode with the operations of the
    driver and a dentry in the directory of the file system, which a path
    lookup finds in its table of children. *)

From S2P Require Import Prelude Bitmap Hashmap Dlist Memory Dentry File Vfs.
Import Dlist Memory Dentry File Vfs.

Module Devfs.

Definition DEV_MINOR (dev : Z) : Z := Z.land dev 0xfffff.
Definition MAKE_DEV (major minor : Z) : Z := u32 (Z.lor (Z.shiftl (Z.land major 0xfff) 20) (Z.land minor 0xfffff)).

Record cdev := mk_cdev { c_name : option str; c_dev : Z; c_ops : Z }.
Record superblock := mk_sb { s_root : Z; s_dev : Z; s_blocksize : Z; s_flags : Z; s_count : Z; s_dirty : Z; s_magic : Z; s_ops : Z; s_bdev : Z; s_private : Z }.
Definition zero_sb : superblock := mk_sb 0 0 0 0 0 0 0 0 0 0.

(** [offsetof] the lists of a device, an inode and a superblock. *)
Definition CLIST (dev : Z) : Z := dev + 24.
Definition ILIST (ino : Z) : Z := ino + 80.
Definition S_INO (sb : Z) : Z := sb + 72.
Definition S_INO_DIRTY (sb : Z) : Z := sb + 88.
Definition S_INSTANCES (sb : Z) : Z := sb + 128.

(** "dev", "char", "/dev" and "/dev/". *)
Definition DEV : str := [100; 101; 118].
Definition CHAR : str := [99; 104; 97; 114].
Definition SLASH_DEV : str := SLASH :: DEV.
Definition SLASH_DEV_SLASH : str := SLASH_DEV ++ [SLASH].

Section devfs.
Context {F G C : Type} `{EntrySource C}.
(** The operations of the file system as function pointers, and the heads of
    the two lists of devices. *)
Variables op_lookup op_mkdir : F.
Variables chr_devs blk_devs : Z.

Record dstate := mk_ds {
  vf : vfs F G C;
  cdevs : gmap Z cdev;
  cdev_cache : option C;
  bm_devnums : option Bitmap.bitmap;
  i_cdev : gmap Z Z;
  i_sb : gmap Z Z;
  supers : gmap Z superblock;
  sb_caches : option (C * C);
  next_minor : Z
}.

Definition dcore (s : dstate) : fs F C := fscore (vf s).
Definition set_vf (v : vfs F G C) (s : dstate) : dstate := mk_ds v (cdevs s) (cdev_cache s) (bm_devnums s) (i_cdev s) (i_sb s) (supers s) (sb_caches s) (next_minor s).
Definition set_dcore (c : fs F C) (s : dstate) : dstate := set_vf (set_fscore c (vf s)) s.
Definition set_cdevs (m : gmap Z cdev) (c : option C) (b : option Bitmap.bitmap) (s : dstate) : dstate := mk_ds (vf s) m c b (i_cdev s) (i_sb s) (supers s) (sb_caches s) (next_minor s).
Definition set_i_cdev (a d : Z) (s : dstate) : dstate := mk_ds (vf s) (cdevs s) (cdev_cache s) (bm_devnums s) (<[a := d]> (i_cdev s)) (i_sb s) (supers s) (sb_caches s) (next_minor s).
Definition set_i_sb (a sb : Z) (s : dstate) : dstate := mk_ds (vf s) (cdevs s) (cdev_cache s) (bm_devnums s) (i_cdev s) (<[a := sb]> (i_sb s)) (supers s) (sb_caches s) (next_minor s).
Definition set_supers (m : gmap Z superblock) (c : option (C * C)) (s : dstate) : dstate := mk_ds (vf s) (cdevs s) (cdev_cache s) (bm_devnums s) (i_cdev s) (i_sb s) m c (next_minor s).
Definition put_sb (a : Z) (b : superblock) (s : dstate) : dstate := set_supers (<[a := b]> (supers s)) (sb_caches s) s.

(** An object that is new in memory has list fields too. *)
Definition link_node (a : Z) (m : links) : links := match m !! a with Some _ => m | None => <[a := mk_links 0 0]> m end.
Definition set_dlnk (m : links) (s : dstate) : dstate := set_dcore (set_lnk m (dcore s)) s.

(** ** Operations of the file system *)

Definition devfs_mkdir (s : fs F C) (dir dntr mode : Z) : out (Z * fs F C) :=
  if (dir =? 0) || (dntr =? 0) then mret (- EINVAL, s)
  else
    d ← get_dent s dir; e ← get_dent s dntr;
    if negb (has (d_flags d) T_IFDIR) || negb (has (d_flags e) T_IFDIR) then mret (- EINVAL, s)
    else
      g ← hm_get s (d_children d) (Some (d_name e));
      if negb (g =? 0) then mret (- EEXIST, s)
      else
        '(r, s) ← hm_insert s (d_children d) (Some (d_name e)) dntr;
        if r <? 0 then mret (r, s)
        else lk ← list_append (lnk s) (DLIST dir) (DLIST dntr); mret (0, set_lnk lk s).

Definition devfs_rmdir (s : fs F C) (dir dntr : Z) : out (Z * fs F C) :=
  if (dir =? 0) || (dntr =? 0) then mret (- EINVAL, s)
  else d ← get_dent s dntr; if 1 <? d_count d then mret (- EBUSY, s) else dentry_dealloc s dntr.

Definition devfs_mknod (dir dntr mode rdev : Z) : Z := if (dir =? 0) || (dntr =? 0) then - EINVAL else - ENOSYS.

(** Null, with the error number as it was. *)
Definition devfs_inode_lookup (errno : Z) (s : fs F C) (parent : Z) (name : str) : out (res Z * fs F C) := mret (Err errno, s).

Definition devfs_inode_alloc (s : dstate) (sb : Z) : out (res Z * dstate) :=
  if sb =? 0 then mret (Err EINVAL, s)
  else
    '(r, c) ← inode_generic_alloc (dcore s) 0;
    let s := set_dcore c s in
    match r with
    | Err e => mret (Err e, s)
    | Ok a =>
        i ← at_ptr (inos (dcore s)) a;
        let i := mk_inode 0 0 (i_ino i) 0 (i_count i) (i_flags i) (i_mask i) (i_private i) (i_iops i) (i_fops i) in
        let c := dcore s in
        let c := set_inode_stores (<[a := i]> (inos c)) (<[i_iops i := mk_iops (Some op_lookup) (Some op_mkdir)]> (iops c))
                   (<[i_fops i := no_fops]> (fops c)) (inode_cache c) (inode_ops_cache c) (file_ops_cache c) c in
        lk ← list_append (link_node (ILIST a) (lnk c)) (S_INO sb) (ILIST a);
        mret (Ok a, set_i_sb a sb (set_dcore (set_lnk lk c) s))
    end.

Definition devfs_inode_destroy (ino : Z) : Z := - ENOSYS.
Definition devfs_inode_read (ino : Z) : Z := - ENOSYS.

(** The inode of the root joins a list that is made only afterwards. *)
Definition devfs_fill_super (s : dstate) (sb : Z) : out (Z * dstate) :=
  if sb =? 0 then mret (- EINVAL, s)
  else
    x ← at_ptr (supers s) sb;
    '(r, c) ← dentry_alloc_orphan (dcore s) (Some DEV) T_IFDIR;
    let root := match r with Ok d => d | Err _ => 0 end in
    let s := put_sb sb (mk_sb root (s_dev x) 0 (s_flags x) 1 0 0 (s_ops x) (s_bdev x) 0) (set_dcore c s) in
    '(r, s) ← devfs_inode_alloc s sb;
    c ← mod_dent (dcore s) root (set_d_inode (match r with Ok i => i | Err _ => 0 end));
    lk ← list_init (lnk c) (S_INO sb);
    lk ← list_init lk (S_INO_DIRTY sb);
    lk ← list_init lk (S_INSTANCES sb);
    lk ← list_init lk chr_devs;
    lk ← list_init lk blk_devs;
    mret (0, set_dcore (set_lnk lk c) s).

(** ** super.c *)

(** The caches are made when the first superblock is; [caches] is what
    [mmu_cache_create] gives. *)
Definition init_sb_caches (s : dstate) (caches : option (C * C)) : out dstate :=
  match sb_caches s, caches with
  | Some _, _ => mret s
  | None, Some c => mret (set_supers (supers s) (Some c) s)
  | None, None => Halt
  end.

Definition alloc_generic_sb (s : dstate) (caches : option (C * C)) : out (res Z * dstate) :=
  s ← init_sb_caches s caches;
  match sb_caches s with
  | None => Fault
  | Some (sc, oc) =>
      '(r, sc) ← es_alloc sc 1;
      match r with
      | Err e => mret (Err e, set_supers (supers s) (Some (sc, oc)) s)
      | Ok (a, z) =>
          '(r, oc) ← es_alloc oc 1;
          let x := if (z : bool) then zero_sb else default zero_sb (supers s !! a) in
          let ops := match r with Ok (o, _) => o | Err _ => 0 end in
          let x := mk_sb (s_root x) (s_dev x) (s_blocksize x) (s_flags x) (s_count x) (s_dirty x) (s_magic x) ops (s_bdev x) (s_private x) in
          let s := put_sb a x (set_supers (supers s) (Some (sc, oc)) s) in
          let m := lnk (dcore s) in
          let s := set_dlnk (link_node (S_INO a) (link_node (S_INO_DIRTY a) (link_node (S_INSTANCES a) m))) s in
          match r with Err e => mret (Err e, s) | Ok _ => mret (Ok a, s) end
      end
  end.

Definition devfs_alloc_minor (s : dstate) (major : Z) : Z * dstate :=
  (next_minor s, mk_ds (vf s) (cdevs s) (cdev_cache s) (bm_devnums s) (i_cdev s) (i_sb s) (supers s) (sb_caches s) (s32 (next_minor s + 1))).

Definition super_get_sb_single (s : dstate) (caches : option (C * C)) (flags : Z) (fill_super : dstate -> Z -> out (Z * dstate)) : out (Z * dstate) :=
  '(r, s) ← alloc_generic_sb s caches;
  match r with
  | Err _ => mret (0, s)
  | Ok sb =>
      '(e, s) ← fill_super s sb;
      if e <? 0 then mret (0, s)
      else
        x ← at_ptr (supers s) sb;
        let '(minor, s) := devfs_alloc_minor s 0 in
        mret (sb, put_sb sb (mk_sb (s_root x) (MAKE_DEV 0 minor) (s_blocksize x) (u32 flags) (s_count x) (s_dirty x) (s_magic x) (s_ops x) 0 (s_private x)) s)
  end.

(** The other three kinds give the null pointer; a null type sets EINVAL. *)
Definition super_get_sb_none (type : Z) : res Z := if type =? 0 then Err EINVAL else Err 0.

Definition devfs_get_sb (s : dstate) (caches : option (C * C)) (flags : Z) : out (Z * dstate) :=
  super_get_sb_single s caches flags devfs_fill_super.

Definition devfs_kill_sb (s : dstate) (sb : Z) : out Z :=
  if sb =? 0 then mret (- EINVAL)
  else x ← at_ptr (supers s) sb; if 1 <? s_count x then mret (- EBUSY) else mret 0.

(** ** Devices *)

(** [current] and [junk] are as in [vfs_path_lookup]; [tail] is what the
    memory holds behind the path, which [kstrcat_s] does not end. *)
Definition dlookup (call_lookup : F -> fs F C -> Z -> str -> out (res Z * fs F C)) (s : dstate) (path : str) (flags : Z) (current : option (option Z)) (junk : Z) : out (path_t * dstate) :=
  '(p, v) ← vfs_path_lookup call_lookup (vf s) (Some path) flags current junk; mret (p, set_vf v s).
Definition drelease (s : dstate) (p : path_t) : out dstate := '(_, v) ← vfs_path_release (vf s) (Some p); mret (set_vf v s).

Section calls.
Variable call_lookup : F -> fs F C -> Z -> str -> out (res Z * fs F C).
Variable current : option (option Z).

(** The device and its name in the directory [p]. *)
Definition register_in (s : dstate) (dev : Z) (name : str) (p : Z) : out (Z * dstate) :=
  d ← get_dent (dcore s) p;
  _ ← at_ptr (inos (dcore s)) (d_inode d);
  '(r, s) ← devfs_inode_alloc s (default 0 (i_sb s !! d_inode d));
  match r with
  | Err e => mret (- e, s)
  | Ok ino =>
      '(r, c) ← dentry_alloc_ino (dcore s) p (Some name) ino T_IFCHR;
      let s := set_dcore c s in
      match r with
      | Err e => let _ := devfs_inode_destroy ino in mret (- e, s)
      | Ok _ =>
          x ← at_ptr (cdevs s) dev;
          c ← mod_ino (dcore s) ino (fun i => mk_inode (i_uid i) (i_gid i) (i_ino i) (i_size i) (i_count i) T_IFCHR (i_mask i) (i_private i) (i_iops i) (c_ops x));
          lk ← list_append (lnk c) chr_devs (CLIST dev);
          mret (0, set_i_cdev ino dev (set_dcore (set_lnk lk c) s))
      end
  end.

Definition devfs_register_cdev (s : dstate) (dev : Z) (name tail : str) (junk : Z) : out (Z * dstate) :=
  '(p, s) ← dlookup call_lookup s (SLASH_DEV_SLASH ++ name ++ tail) (Z.lor LOOKUP_PARENT LOOKUP_CREATE) current junk;
  '(ret, s) ← (if has (p_status p) LOOKUP_STAT_EEXISTS then mret (- EEXIST, s) else register_in s dev name (p_dentry p));
  s ← drelease s p; mret (ret, s).

Definition devfs_unregister_cdev (dev : Z) : Z := 0.
Definition devfs_register_bdev (dev name : Z) : Z := 0.
Definition devfs_unregister_bdev (dev : Z) : Z := 0.

(** [cache] is what [mmu_cache_create] gives, [bm] what [bm_alloc_bitmap]
    gives. *)
Definition cdev_init (call_mkdir : F -> fs F C -> Z -> Z -> Z -> out (Z * fs F C)) (s : dstate) (cache : option C) (bm : option Bitmap.bitmap) (junk : Z) : out (Z * dstate) :=
  match cache, bm with
  | None, _ => mret (- ENOMEM, set_cdevs (cdevs s) None (bm_devnums s) s)
  | Some c, None => mret (- ENOMEM, set_cdevs (cdevs s) (Some c) None s)
  | Some c, Some b =>
      '(p, s) ← dlookup call_lookup (set_cdevs (cdevs s) (Some c) (Some b) s) SLASH_DEV LOOKUP_OPEN current junk;
      '(ret, s) ← (if p_status p =? LOOKUP_STAT_ENOENT then mret (- ENOENT, s)
        else
          '(r, c) ← dentry_alloc_orphan (dcore s) (Some CHAR) T_IFDIR;
          let s := set_dcore c s in
          match r with
          | Err e => mret (- e, s)
          | Ok dntr =>
              d ← get_dent c (p_dentry p);
              if d_inode d =? 0 then mret (- EINVAL, s)
              else
                i ← at_ptr (inos c) (d_inode d);
                o ← at_ptr (iops c) (i_iops i);
                match mkdir o with
                | None => mret (- ENOSYS, s)
                | Some f => '(ret, c) ← call_mkdir f c (p_dentry p) dntr 0; mret (ret, set_dcore c s)
                end
          end);
      s ← drelease s p; mret (ret, s)
  end.

(** The number is found, and never marked as taken. *)
Definition cdev_alloc_devnum (s : dstate) : out Z :=
  match bm_devnums s with None => Fault | Some b => Bitmap.bm_find_first_unset b 0 (u32 (Bitmap.len b - 1)) end.

(** [ops]: the table of operations, 0 a null pointer. *)
Definition cdev_alloc (s : dstate) (name : option str) (ops major : Z) : out (res Z * dstate) :=
  match name with
  | None => mret (Err EINVAL, s)
  | Some nm =>
      if ops =? 0 then mret (Err EINVAL, s)
      else
        minor ← cdev_alloc_devnum s;
        if minor <? 0 then mret (Err 0, s)
        else
          match cdev_cache s, bm_devnums s with
          | Some c, Some b =>
              '(r, c) ← es_alloc c 0;
              match r with
              | Err e => '(_, b) ← Bitmap.bm_unset_bit b minor; mret (Err e, set_cdevs (cdevs s) (Some c) (Some b) s)
              | Ok (a, _) =>
                  let s := set_cdevs (<[a := mk_cdev (Some nm) (MAKE_DEV major minor) ops]> (cdevs s)) (Some c) (Some b) s in
                  lk ← list_init (link_node (CLIST a) (lnk (dcore s))) (CLIST a);
                  mret (Ok a, set_dlnk lk s)
              end
          | _, _ => Fault
          end
  end.

Definition cdev_dealloc (s : dstate) (dev : Z) : out dstate :=
  if dev =? 0 then mret s
  else
    let _ := devfs_unregister_cdev dev in
    x ← at_ptr (cdevs s) dev;
    match cdev_cache s, bm_devnums s with
    | Some c, Some b =>
        '(_, b) ← Bitmap.bm_unset_bit b (DEV_MINOR (c_dev x));
        c ← es_free c dev;
        mret (set_cdevs (cdevs s) (Some c) (Some b) s)
    | _, _ => Fault
    end.

(** ** A registered device is found *)

Lemma scan_no_slash nm : SLASH ∉ nm -> scan_child nm = (nm, None).
Proof.
  induction nm as [| c nm IH]; intros Hn; [done |]. rewrite not_elem_of_cons in Hn. cbn [scan_child].
  rewrite (proj2 (Z.eqb_neq c SLASH)) by (intros ->; tauto). by rewrite IH by tauto.
Qed.

Lemma extract_no_slash nm : SLASH ∉ nm -> nm <> [] -> vfs_extract_child nm = (Some nm, None).
Proof. intros Hn Hne. unfold vfs_extract_child. rewrite scan_no_slash by done. by destruct nm. Qed.

(** Looking for the directory of a name that has no slash. *)
Lemma lookup_parent s R nm p junk : get_dent (dcore s) R = Ret p -> R <> 0 -> SLASH ∉ nm -> nm <> [] ->
  vfs_find_bootstrap (vf s) (DEV ++ SLASH :: nm) = Ret (R, Some nm) ->
  dlookup call_lookup s (SLASH_DEV_SLASH ++ nm ++ []) (Z.lor LOOKUP_PARENT LOOKUP_CREATE) current junk =
    Ret (mk_path R 3 LOOKUP_STAT_ENOENT, set_dcore (put_dent (dcore s) R (set_d_count (s32 (d_count p + 1)) p)) s).
Proof.
  intros Hp HR Hn Hne Hb. unfold dlookup, vfs_path_lookup. cbn [SLASH_DEV_SLASH SLASH_DEV app]. rewrite app_nil_r. change (SLASH =? SLASH) with true. cbn iota.
  change (vfs_find_bootstrap (vf s) _) with (vfs_find_bootstrap (vf s) (DEV ++ SLASH :: nm)). rewrite Hb. rb.
  rewrite (proj2 (Z.eqb_neq R 0)) by done. rb. unfold lookup_from. rewrite (proj2 (Z.eqb_neq R 0)) by done.
  cbn [walk_fuel vfs_walk_path]. rewrite (proj2 (Z.eqb_neq R 0)), extract_no_slash by done. change (has (Z.lor LOOKUP_PARENT LOOKUP_CREATE) LOOKUP_PARENT) with true. cbn iota. rb.
  unfold mod_dent. unfold dcore in Hp. rewrite Hp. rb. rb. done.
Qed.

(** Looking a name up that the directory has. *)
Lemma lookup_open (v : vfs F G C) R nm p a d junk : get_dent (fscore v) R = Ret p -> R <> 0 -> SLASH ∉ nm -> nm <> [] ->
  hm_get (fscore v) (d_children p) (Some nm) = Ret a -> a <> 0 -> get_dent (fscore v) a = Ret d ->
  lookup_from call_lookup v R (Some nm) LOOKUP_OPEN junk =
    Ret (mk_path a LOOKUP_OPEN LOOKUP_STAT_SUCCESS, set_fscore (put_dent (fscore v) a (set_d_count (s32 (d_count d + 1)) d)) v).
Proof.
  intros Hp HR Hn Hne Hg Ha Hd. unfold lookup_from. rewrite (proj2 (Z.eqb_neq R 0)) by done.
  cbn [walk_fuel vfs_walk_path]. rewrite (proj2 (Z.eqb_neq R 0)), extract_no_slash by done. change (has LOOKUP_OPEN LOOKUP_PARENT) with false. cbn iota.
  unfold find_child. rewrite Hp. rb. rewrite Hg. rb. rewrite (proj2 (Z.eqb_neq a 0)) by done. cbn [negb]. rb.
  unfold mod_dent. rewrite Hd. rb. rb. done.
Qed.

(** A new inode leaves the dentries as they are. *)
Lemma inode_alloc_inv s sb r s' : devfs_inode_alloc s sb = Ret (r, s') ->
  dents (dcore s') = dents (dcore s) /\ maps (dcore s') = maps (dcore s) /\ dentry_cache (dcore s') = dentry_cache (dcore s) /\ cdevs s' = cdevs s /\
  match r with Err e => 0 < e | Ok a => a <> 0 end.
Proof.
  intros E. unfold devfs_inode_alloc in E. destruct (sb =? 0); [injection E as <- <-; done |].
  apply bind_Ret in E as ([r1 c] & E1 & E).
  assert (Hc : dents c = dents (dcore s) /\ maps c = maps (dcore s) /\ dentry_cache c = dentry_cache (dcore s) /\ match r1 with Err e => 0 < e | Ok _ => True end).
  { unfold inode_generic_alloc in E1. destruct (es_alloc (inode_cache _) 1) as [[[[a z] | e] ic] | | |]; [| | done ..]; rewrite ret_bind in E1; [| injection E1 as <- <-; done].
    destruct (es_alloc (file_ops_cache _) 1) as [[[[fo fz] | e] fc] | | |]; [| | done ..]; rewrite ret_bind in E1.
    - destruct (es_alloc (inode_ops_cache _) 1) as [[[[io iz] | e] oc] | | |]; [| | done ..]; rewrite ret_bind in E1; [by injection E1 as <- <- |].
      apply bind_Ret in E1 as (ic' & _ & E1). by injection E1 as <- <-.
    - apply bind_Ret in E1 as (oc & _ & E1). apply bind_Ret in E1 as (ic' & _ & E1). by injection E1 as <- <-. }
  destruct Hc as (Hd & Hm & Hdc & He). destruct r1 as [a | e]; [| injection E as <- <-; done].
  apply bind_Ret in E as (i & Ei & E). apply at_ptr_Ret in Ei as [Ha _]. apply bind_Ret in E as (lk & _ & E). injection E as <- <-. done.
Qed.

(** What registering needs: the name is free in the directory of the file
    system, a table that only insertions have touched. *)
Record name_free (c : fs F C) (R : Z) (p : dentry) (h : Hashmap.hashmap) (nm : str) (k : Z) (held : list Z) : Prop := {
  nf_dir : get_dent c R = Ret p;
  nf_held : es_held (dentry_cache c) held /\ R ∈ held;
  nf_children : children_ok c p h;
  nf_hash : Hashmap.hm_hash h (Some (nm ++ [0])) = Ret k /\ k <> UINT32_MAX;
  nf_new : hm_get c (d_children p) (Some nm) = Ret 0
}.

Lemma name_free_frame c c' R p h nm k held q : name_free c R p h nm k held -> get_dent c' R = Ret q -> d_children q = d_children p ->
  maps c' = maps c -> dentry_cache c' = dentry_cache c -> name_free c' R q h nm k held.
Proof.
  intros [Hd [Hh Hin] (H1 & H2 & H3) Hk Hn] Hq Hc Hm Hdc. split; [done | by rewrite Hdc | | done |].
  - unfold children_ok. by rewrite Hc, Hm.
  - rewrite Hc. unfold hm_get in *. by rewrite Hm.
Qed.

(** The inode [ino] of dentry [a] is that of device [dev] with operations
    [ops]. *)
Definition device_at (s : dstate) (a dev ops : Z) : Prop :=
  exists d i, get_dent (dcore s) a = Ret d /\ d_flags d = T_IFCHR /\ at_ptr (inos (dcore s)) (d_inode d) = Ret i /\
    i_flags i = T_IFCHR /\ i_fops i = ops /\ i_cdev s !! d_inode d = Some dev.

(** A dentry with an inode, in a directory where its name is free. *)
Lemma alloc_ino_inv c R p h nm k held ino r c' : name_free c R p h nm k held -> dentry_alloc_ino c R (Some nm) ino T_IFCHR = Ret (r, c') ->
  ino <> 0 ->
  match r with
  | Err e => 0 < e
  | Ok a => a <> 0 /\ a <> R /\ get_dent c' R = Ret (set_d_count (s32 (d_count p + 1)) p) /\ hm_get c' (d_children p) (Some nm) = Ret a /\
      exists d, get_dent c' a = Ret d /\ d_flags d = T_IFCHR /\ d_inode d = ino
  end.
Proof.
  intros [Hp [Hheld Hin] (Hc0 & Hmap & Hio & Hlen) [Hh Hk] Hnew] E Hino. pose proof (proj1 (at_ptr_Ret _ _ _) Hp) as [HR _].
  unfold dentry_alloc_ino, dentry_alloc in E. rewrite (proj2 (Z.eqb_neq ino 0)), (proj2 (Z.eqb_neq R 0)), Hp, ret_bind, Hnew, ret_bind in E by done.
  change (negb (0 =? 0)) with false in E. cbn iota in E. apply bind_Ret in E as ([r1 c1] & E1 & E).
  apply bind_Ret in E1 as ([r2 c2] & E2 & E1). pose proof (alloc_empty_inv c R p (Some nm) _ r2 c2 held Hp Hheld Hin E2) as Hres.
  destruct r2 as [a | e].
  2:{ injection E1 as <- <-. unfold attach_ino in E. rewrite ret_bind in E. apply bind_Ret in E as (c3 & _ & E). injection E as <- <-. done. }
  destruct Hres as (Hna & Ha0 & _ & _ & (d & Hd & _) & HpR & _ & h0 & v & h' & Hmap' & Hins & Hmaps & Hv).
  assert (HaR : a <> R) by (intros ->; done). rewrite Hmap in Hmap'. injection Hmap' as <-.
  apply bind_Ret in E1 as (c3 & E3 & E1). apply mod_dent_Ret in E3 as (d1 & Hd1 & ->). rewrite Hd in Hd1. injection Hd1 as <-.
  change (has T_IFCHR T_IFDIR) with false in E1. injection E1 as <- <-.
  unfold attach_ino in E. apply bind_Ret in E as (c4 & E4 & E). apply mod_dent_Ret in E4 as (d2 & Hd2 & ->).
  rewrite get_dent_put_eq in Hd2 by done. injection Hd2 as <-. apply bind_Ret in E as (c5 & E5 & E). injection E as <- <-.
  unfold mod_ino in E5. apply bind_Ret in E5 as (i & _ & E5). injection E5 as <-.
  split; [done |]. split; [done |]. split; [| split].
  - transitivity (get_dent c2 R); [| done]. unfold get_dent, at_ptr. cbn. by rewrite !lookup_insert_ne by done.
  - cbn [key_of fmap option_fmap option_map] in Hins. unfold fresh_item in Hins.
    destruct (Hashmap.insert_get h (Hashmap.mk_item 0 0 false) (Some (nm ++ [0])) k a Hio Hh Hk Ha0 Hlen) as [[E _] | (h1 & E & _ & _ & _ & (w & Ew & Eg) & _)].
    + exfalso. rewrite E in Hins. injection Hins as <- _. done.
    + rewrite E in Hins. injection Hins as _ <-. unfold hm_get. rewrite (proj2 (Z.eqb_neq _ _) Hc0).
      change (maps (set_inos _ _)) with (maps c2). rewrite Hmaps, at_ptr_insert by done. rb. change (Hashmap.hm_get (Some h1) (Some (nm ++ [0])) = Ret a). rewrite Eg.
      rewrite (hm_get_map _ _ _ h Hc0 Hmap) in Hnew. cbn [key_of fmap option_fmap option_map] in Hnew. rewrite Ew in Hnew. injection Hnew as ->. done.
  - eexists. split; [unfold get_dent; cbn; by apply at_ptr_insert |]. done.
Qed.

(** The device is in the directory, which counts one more reference. *)
Definition registered (s : dstate) (R : Z) (p : dentry) (nm : str) (a dev ops : Z) : Prop :=
  a <> 0 /\ a <> R /\ get_dent (dcore s) R = Ret p /\ hm_get (dcore s) (d_children p) (Some nm) = Ret a /\ device_at s a dev ops.

Lemma register_in_inv s dev x nm R p h k held r s' : name_free (dcore s) R p h nm k held -> cdevs s !! dev = Some x ->
  register_in s dev nm R = Ret (r, s') -> r < 0 \/ r = 0 /\ exists a, registered s' R (set_d_count (s32 (d_count p + 1)) p) nm a dev (c_ops x).
Proof.
  intros Hf Hx E. pose proof (nf_dir _ _ _ _ _ _ _ Hf) as Hp. unfold register_in in E. rewrite Hp, ret_bind in E.
  apply bind_Ret in E as (i0 & _ & E). apply bind_Ret in E as ([r1 s1] & E1 & E).
  destruct (inode_alloc_inv _ _ _ _ E1) as (Hd & Hm & Hdc & Hcd & Hr1).
  destruct r1 as [ino | e]; [| injection E as <- <-; left; lia].
  apply bind_Ret in E as ([r2 c] & E2 & E). apply (alloc_ino_inv _ R p h nm k held) in E2; [| | done].
  2:{ eapply name_free_frame; try done. unfold get_dent. by rewrite Hd. }
  destruct r2 as [a | e]; [| injection E as <- <-; left; lia].
  destruct E2 as (Ha & HaR & HR & Hg & d & Hda & Hfl & Hino).
  apply bind_Ret in E as (y & Hy & E). change (cdevs (set_dcore c s1)) with (cdevs s1) in Hy. rewrite Hcd in Hy. apply at_ptr_Ret in Hy as [_ Hy]. rewrite Hx in Hy. injection Hy as <-.
  apply bind_Ret in E as (c2 & E3 & E). apply bind_Ret in E as (lk & _ & E). injection E as <- <-.
  unfold mod_ino in E3. apply bind_Ret in E3 as (i & Hi & E3). injection E3 as <-. change (inos (dcore (set_dcore c s1))) with (inos c) in Hi.
  right. split; [done |]. exists a. split; [done |]. split; [done |]. split; [exact HR |]. split; [exact Hg |].
  eexists d, _. split; [exact Hda |]. split; [done |]. rewrite Hino. split; [cbn; by apply at_ptr_insert |]. split; [done |]. split; [done |].
  cbn. apply lookup_insert_eq.
Qed.

(** C9: Registering a device whose name is free under [/dev] gives an error,
    or puts an inode with the operations of the driver there: a lookup of the
    name from the directory finds it, opening what it found calls the [open]
    of the driver, and the directory counts one reference more. *)
Theorem devfs_registered_opens (call_open : F -> fsys F C -> Z -> Z -> out (res Z * fsys F C)) (s s' : dstate) (dev : Z) (x : cdev) (o : file_ops F) (op : F)
    (nm : str) (junk R : Z) (p : dentry) (h : Hashmap.hashmap) (k : Z) (held : list Z) (r mode : Z) :
  vfs_find_bootstrap (vf s) (DEV ++ SLASH :: nm) = Ret (R, Some nm) -> SLASH ∉ nm -> nm <> [] ->
  name_free (dcore s) R p h nm k held -> 1 <= d_count p < 2 ^ 31 - 2 -> cdevs s !! dev = Some x ->
  devfs_register_cdev s dev nm [] junk = Ret (r, s') ->
  r < 0 \/ r = 0 /\ exists a v,
    lookup_from call_lookup (vf s') R (Some nm) LOOKUP_OPEN junk = Ret (mk_path a LOOKUP_OPEN LOOKUP_STAT_SUCCESS, v) /\
    device_at s' a dev (c_ops x) /\
    get_dent (dcore s') R = Ret (set_d_count (d_count p + 1) p) /\
    (at_ptr (fops (fscore v)) (c_ops x) = Ret o -> open o = Some op -> file_open call_open (sys v) a mode = call_open op (sys v) a mode).
Proof.
  intros Hb Hn Hne Hf Hc Hx E. pose proof (nf_dir _ _ _ _ _ _ _ Hf) as Hp. pose proof (proj1 (at_ptr_Ret _ _ _) Hp) as [HR _].
  unfold devfs_register_cdev in E. rewrite (lookup_parent s R nm p junk Hp HR Hn Hne Hb), ret_bind in E.
  cbn [p_status p_dentry] in E. change (has LOOKUP_STAT_ENOENT LOOKUP_STAT_EEXISTS) with false in E. cbn iota in E.
  apply bind_Ret in E as ([ret s2] & E2 & E). set (p1 := set_d_count (s32 (d_count p + 1)) p) in *.
  set (s1 := set_dcore (put_dent (dcore s) R p1) s) in *.
  assert (Hf1 : name_free (dcore s1) R p1 h nm k held).
  { eapply name_free_frame; try done. apply get_dent_put_eq. done. }
  apply bind_Ret in E as (s3 & E3 & E). injection E as <- <-.
  destruct (register_in_inv s1 dev x nm R p1 h k held ret s2 Hf1 Hx E2) as [Hr | [-> (a & Ha & HaR & HpR & Hg & Hdev)]]; [by left |].
  right. split; [done |]. unfold drelease, vfs_path_release in E3. cbn [p_dentry] in E3. rewrite (proj2 (Z.eqb_neq R 0)) in E3 by done.
  change (fscore (vf s2)) with (dcore s2) in E3. rewrite HpR, ret_bind in E3. cbn [d_count set_d_count p1] in E3.
  assert (Hcount : s32 (s32 (s32 (d_count p + 1) + 1) - 1) = d_count p + 1) by (unfold s32; rewrite (swrap_small 32 (d_count p + 1)), (swrap_small 32 (d_count p + 1 + 1)), swrap_small by lia; lia).
  rewrite Hcount, (proj2 (Z.eqb_neq _ 1)), ret_bind in E3 by lia. rewrite ret_bind in E3. injection E3 as <-.
  destruct Hdev as (d & i & Hd & Hfl & Hi & Hif & Hio & Hcd).
  set (p2 := set_d_count (d_count p + 1) (set_d_count (s32 (s32 (d_count p + 1) + 1)) p1)).
  set (s3 := set_vf _ s2). assert (HR3 : get_dent (dcore s3) R = Ret p2) by (by apply get_dent_put_eq).
  assert (Hd3 : get_dent (dcore s3) a = Ret d) by (transitivity (get_dent (dcore s2) a); [by apply get_dent_put_ne | exact Hd]).
  exists a. eexists. split; [apply (lookup_open (vf s3) R nm p2 a d junk HR3 HR Hn Hne); [exact Hg | done | exact Hd3] |].
  split; [by exists d, i |]. split; [exact HR3 |]. intros Ho Hop. unfold file_open. rewrite (proj2 (Z.eqb_neq a 0)) by done.
  unfold set_fscore. cbn [sys set_sys core set_core]. rewrite get_dent_put_eq by done. rb. cbn [d_inode set_d_count].
  pose proof (proj1 (at_ptr_Ret _ _ _) Hi) as [Hz _]. rewrite (proj2 (Z.eqb_neq _ 0)) by done.
  change (inos (put_dent (fscore (vf s3)) a _)) with (inos (dcore s2)). rewrite Hi. rb. rewrite Hio.
  pose proof (proj1 (at_ptr_Ret _ _ _) Ho) as [Hoz _]. rewrite (proj2 (Z.eqb_neq _ 0)) by done.
  change (fops (put_dent (fscore (vf s3)) a _)) with (fops (dcore s2)). change (at_ptr (fops (dcore s2)) (c_ops x) = Ret o) in Ho. rewrite Ho. rb. by rewrite Hop.
Qed.
End calls.
End devfs.
#[global] Arguments dstate : clear implicits.

#[local] Existing Instance PageAlloc.PageAlloc.page_alloc_source.

(** [/dev] is a mount point at the root of a file system with an empty
    directory; the driver of device 5000 has its operations at 6000. *)
Definition self (a : Z) : list_head := mk_links a a.
Definition sample_core : fs unit cache :=
  mk_fs (<[sample_dir := mk_dentry T_IFDIR 0 2000 9 3 0 DEV]> (<[300 := mk_dentry T_IFDIR 0 0 0 1 0 DEV]> ∅))
    (<[2000 := mk_inode 0 0 0 0 1 T_IFDIR 0 0 2100 2200]> ∅) (<[2100 := mk_iops (Some tt) (Some tt)]> ∅) (<[6000 := mk_fops None None (Some tt) None None]> ∅)
    (<[9 := new_map]> ∅) 10 dir_cache full_cache full_cache full_cache
    (<[DLIST sample_dir := self (DLIST sample_dir)]> (<[DLIST (sample_dir + 32) := mk_links 0 0]>
      (<[10 := mk_links 140 140]> (<[140 := mk_links 10 10]> (<[S_INO 3000 := self (S_INO 3000)]> (<[4000 := self 4000]> (<[CLIST 5000 := mk_links 0 0]> ∅))))))).
Definition sample_devfs : dstate unit unit cache :=
  mk_ds (mk_vfs (mk_fsys sample_core ∅ full_cache full_cache) (<[100 := mk_mount 3000 300 sample_dir None None]> ∅) ∅ ∅ 0 10 0 100 200)
    (<[5000 := mk_cdev (Some [107; 98; 100]) 0 6000]> ∅) None None ∅ (<[2000 := 3000]> ∅) ∅ None 1.

Lemma devfs_registered_opens_witness : exists s' a v,
  devfs_register_cdev tt tt 4000 (fun _ => devfs_inode_lookup 0) None sample_devfs 5000 [107; 98; 100] [] 0 = Ret (0, s') /\
  lookup_from (fun _ => devfs_inode_lookup 0) (vf s') sample_dir (Some [107; 98; 100]) LOOKUP_OPEN 0 = Ret (mk_path a LOOKUP_OPEN LOOKUP_STAT_SUCCESS, v) /\
  device_at s' a 5000 6000.
Proof.
  destruct (devfs_register_cdev tt tt 4000 (fun _ => devfs_inode_lookup 0) None sample_devfs 5000 [107; 98; 100] [] 0) as [[r s'] | | |] eqn:E; try (vm_compute in E; discriminate E).
  destruct (devfs_registered_opens tt tt 4000 (fun _ => devfs_inode_lookup 0) None (fun _ s _ _ => mret (Ok 1, s)) sample_devfs s' 5000 (mk_cdev (Some [107; 98; 100]) 0 6000)
    (mk_fops None None (Some tt) None None) tt [107; 98; 100] 0 sample_dir (mk_dentry T_IFDIR 0 2000 9 3 0 DEV) new_map 193496854 [sample_dir] r 4) as [Hr | (-> & a & v & El & Hd & _)].
  - vm_compute. reflexivity.
  - refine (bool_decide_eq_true_1 _ _). vm_compute. reflexivity.
  - discriminate.
  - split.
    + reflexivity.
    + split; [exact dir_cache_held | apply list_elem_of_singleton; reflexivity].
    + split; [discriminate |]. split; [reflexivity |]. split; [exact new_map_ok | discriminate].
    + split; [vm_compute; reflexivity | discriminate].
    + vm_compute. reflexivity.
  - split; [discriminate | reflexivity].
  - reflexivity.
  - exact E.
  - exfalso. vm_compute in E. injection E as E1 _. rewrite <- E1 in Hr. discriminate Hr.
  - exists s', a, v. split; [reflexivity |]. split; [exact El | exact Hd].
Defined.
End Devfs.
