(* ===== verification/Console.v ===== *)
(** * Making and opening the console (drivers/console)

    The keyboard and the terminal as character devices: their drivers make a
    device, give it a name under [/dev], and open files on it.  What the
    files do is in Ps2 and Tty. *)

From S2P Require Import Prelude Bitmap Hashmap Dlist Memory Dentry File Vfs Pipe Irq Devfs.
Import Dlist Memory Dentry File Vfs Devfs.

Module Console.

Definition O_EXEC : Z := 1.
Definition O_RDONLY : Z := 2.
Definition O_WRONLY : Z := 8.
Definition O_CREAT : Z := 32.
Definition O_TRUNC : Z := 64.
Definition VECNUM_KEYBOARD : Z := 0x21.

(** "kbd", "/dev/kbd" and "tty1". *)
Definition KBD : str := [107; 98; 100].
Definition DEV_KBD : str := SLASH_DEV_SLASH ++ KBD.
Definition TTY1 : str := [116; 116; 121; 49].

Section console.
Context {F G C : Type} `{EntrySource C}.
Variables chr_devs : Z.
Variables op_lookup op_mkdir : F.
Variable call_lookup : F -> fs F C -> Z -> str -> out (res Z * fs F C).
Variable current : option (option Z).

(** A new file of the inode of [dntr]. *)
Definition open_device (s : fsys F C) (dntr mode private : Z) : out (res Z * fsys F C) :=
  '(r, s) ← file_generic_alloc s;
  match r with
  | Err e => mret (Err e, s)
  | Ok a =>
      f ← get_file s a;
      d ← get_dent (core s) dntr;
      i ← at_ptr (inos (core s)) (d_inode d);
      let s := put_file s a (mk_file (f_dentry f) private (f_count f) (f_pos f) mode (i_fops i)) in
      c ← mod_ino (core s) (d_inode d) (fun i => set_i_count (s32 (i_count i + 1)) i);
      mret (Ok a, set_core c s)
  end.

(** ** ps2.c *)

Definition kbd_open (ps2_pipe : Z) (s : fsys F C) (dntr mode : Z) : out (res Z * fsys F C) :=
  if negb (mode =? O_RDONLY) then mret (Err EINVAL, s) else open_device s dntr mode ps2_pipe.

Definition kbd_close (s : fsys F C) (a : Z) : out (Z * fsys F C) := file_generic_dealloc s a.

(** [pipe] and [ops] are what [pipe_create] and [kmalloc] give, 0 when they
    fail; [put_ops] fills the table in.  The result also has the pipe, opened
    for writing, and the table of interrupt handlers; on an error [errno] is
    given back, whatever it is. *)
Definition ps2_init {H W : Type} (put_ops : Z -> dstate F G C -> dstate F G C) (s : dstate F G C) (ps2_pipe ops : Z) (p : Pipe.pipe) (t : list (Irq.irq_handler (H := H)))
    (kbd_handler : H) (tail : str) (errno junk : Z) : out (Z * dstate F G C * Pipe.pipe * list (Irq.irq_handler (H := H))) :=
  if ps2_pipe =? 0 then mret (- errno, s, p, t)
  else if ops =? 0 then mret (- errno, s, p, t)
  else
    '(r, s) ← cdev_alloc (put_ops ops s) (Some KBD) ops 0;
    match r with
    | Err e => mret (- errno, s, p, t)
    | Ok dev =>
        '(ret, s) ← devfs_register_cdev op_lookup op_mkdir chr_devs call_lookup current s dev KBD tail junk;
        if ret <? 0 then s ← cdev_dealloc s dev; mret (- errno, s, p, t)
        else
          '(ret, _, q) ← Pipe.pipe_open (Some p) true 0 O_WRONLY;
          let p := default p q in
          if ret <? 0 then s ← cdev_dealloc s dev; mret (- errno, s, p, t)
          else
            t ← Irq.irq_install_handler t VECNUM_KEYBOARD (Some kbd_handler) 0;
            mret (0, s, p, t)
    end.

(** ** tty.c *)

Variable call_open : F -> fsys F C -> Z -> Z -> out (res Z * fsys F C).

Definition set_vsys (y : fsys F C) (s : dstate F G C) : dstate F G C := set_vf (Vfs.set_sys y (vf s)) s.

(** When the keyboard cannot be opened the new file is not given back. *)
Definition __tty_open (s : dstate F G C) (dntr mode junk : Z) : out (res Z * dstate F G C) :=
  if dntr =? 0 then mret (Err EINVAL, s)
  else if negb (Z.land mode (Z.lor O_EXEC (Z.lor O_CREAT O_TRUNC)) =? 0) then mret (Err ENOTSUP, s)
  else
    '(r, y) ← open_device (sys (vf s)) dntr mode 0;
    let s := set_vsys y s in
    match r with
    | Err e => mret (Err e, s)
    | Ok a =>
        '(p, s) ← dlookup call_lookup s DEV_KBD LOOKUP_OPEN current junk;
        if negb (p_status p =? LOOKUP_STAT_SUCCESS) then mret (Err ENOENT, s)
        else
          '(r, y) ← file_open call_open (sys (vf s)) (p_dentry p) O_RDONLY;
          f ← get_file y a;
          let kbd := match r with Ok k => k | Err _ => 0 end in
          let s := set_vsys (put_file y a (mk_file (f_dentry f) kbd (f_count f) (f_pos f) (f_mode f) (f_ops f))) s in
          match r with
          | Err e => s ← drelease s p; mret (Err e, s)
          | Ok _ => mret (Ok a, s)
          end
    end.

Definition __tty_close (s : fsys F C) (a : Z) : out (Z * fsys F C) := file_generic_dealloc s a.

Record tty := mk_tty { tty_dev : Z; tty_name : str }.

(** [obj] and [ops]: what [kmalloc] gives. *)
Definition tty_init (put_ops : Z -> dstate F G C -> dstate F G C) (s : dstate F G C) (obj ops : Z) (tail : str) (junk : Z) : out (option tty * dstate F G C) :=
  if (obj =? 0) || (ops =? 0) then mret (None, s)
  else
    '(r, s) ← cdev_alloc (put_ops ops s) (Some TTY1) ops 0;
    match r with
    | Err _ => mret (None, s)
    | Ok dev =>
        '(ret, s) ← devfs_register_cdev op_lookup op_mkdir chr_devs call_lookup current s dev TTY1 tail junk;
        if ret <? 0 then s ← cdev_dealloc s dev; mret (None, s) else mret (Some (mk_tty dev TTY1), s)
    end.
End console.
End Console.
