(* ===== verification/Binfmt.v ===== *)
(** * Loading programs (fs/binfmt.c, fs/binfmt_elf.c)

    The list of loaders, and the loader of ELF files.  The file is read into
    one page; the segment goes into pages that are mapped into the directory
    of the caller.  Page tables are those of Mmu; the bytes of the data pages
    are kept by physical address, apart from the tables. *)

From S2P Require Import Prelude Bytes Common Locks Memory Dlist Mmu.
Import Bytes Common Memory Dlist Mmu.

Module Binfmt.

Definition EI_CLASS : Z := 4.
Definition ELFCLASS32 : Z := 1.
Definition ELFCLASS64 : Z := 2.
Definition ELFMAG : list Z := [0x7f; 69; 76; 70].
Definition ET_EXEC : Z := 2.
Definition EM_386 : Z := 3.
Definition EM_X86_64 : Z := 62.
Definition PT_LOAD : Z := 1.
Definition PF_W : Z := 2.
Definition USER_STACK_START : Z := 0xc0000000.

(** ** The list of loaders *)

Section loaders.
Context {W F : Type}.
(** [loader f w]: what loader [f] makes of the rest of the machine, and
    whether it returned true. *)
Variable run : F -> W -> out (bool * W).

(** [offsetof(binfmt_t, list)]. *)
Definition BLIST (b : Z) : Z := b + 8.
Definition container_of_binfmt (iter : Z) : Z := iter - 8.

(** [loaders]: the address of the list head. *)
Definition binfmt_init (m : links) (loaders : Z) : out links := list_init m loaders.

(** [b]: what [kmalloc] gives. *)
Definition binfmt_add_loader (m : links) (t : gmap Z (option F)) (loaders b : Z) (loader : option F) : out (links * gmap Z (option F)) :=
  if b =? 0 then Fault
  else m ← list_init m (BLIST b); m ← list_append m loaders (BLIST b); mret (m, <[b := loader]> t).

Fixpoint load_loop (fuel : nat) (m : links) (t : gmap Z (option F)) (head iter : Z) (w : W) : out (bool * W) :=
  match fuel with
  | O => Spin
  | S fuel =>
      if iter =? head then mret (false, w)
      else
        l ← at_ptr t (container_of_binfmt iter);
        n ← get m iter;
        match l with
        | None => load_loop fuel m t head (next n) w
        | Some f => '(ok, w) ← run f w; if negb ok then load_loop fuel m t head (next n) w else Halt
        end
  end.

(** A loader that returns true stops the CPU. *)
Definition binfmt_load (m : links) (t : gmap Z (option F)) (loaders : Z) (w : W) : out (bool * W) :=
  n ← get m loaders; load_loop (S (size m)) m t loaders (next n) w.

(** The loaders one after the other. *)
Fixpoint try_all (l : list (option F)) (w : W) : out (bool * W) :=
  match l with
  | [] => mret (false, w)
  | None :: l => try_all l w
  | Some f :: l => '(ok, w) ← run f w; if negb ok then try_all l w else Halt
  end.

Lemma load_loop_ring m t head bs fs : forall fuel a w, head <> 0 -> head ∉ (BLIST <$> bs) -> 0 ∉ (BLIST <$> bs) -> chain m a (BLIST <$> bs) head ->
  Forall2 (fun b f => at_ptr t b = Ret f) bs fs -> (length bs < fuel)%nat ->
  load_loop fuel m t head (hd head (BLIST <$> bs)) w = try_all fs w.
Proof.
  revert fs. induction bs as [| b bs IH]; intros fs fuel a w Hh Hin H0 Hc Hf Hlen; (destruct fuel as [| fuel]; [cbn in Hlen; lia |]).
  - apply Forall2_nil_inv_l in Hf as ->. cbn. by rewrite Z.eqb_refl.
  - apply Forall2_cons_inv_l in Hf as (f & fs' & Hb & Hf & ->). cbn [fmap list_fmap hd load_loop]. rewrite fmap_cons, not_elem_of_cons in Hin, H0.
    rewrite (proj2 (Z.eqb_neq _ _)) by (intros E; by apply (proj1 Hin)). unfold container_of_binfmt. replace (BLIST b - 8) with b by (unfold BLIST; lia). rewrite Hb. rb.
    destruct Hc as [_ Hc]. destruct (get_nx m (BLIST b) _ ltac:(intros E; by apply (proj1 H0)) (proj1 (first_link _ _ _ _ Hc))) as (n & Eg & En & _). rewrite Eg. rb. rewrite En.
    cbn in Hlen. assert (Hnext : forall w, load_loop fuel m t head (hd head (BLIST <$> bs)) w = try_all fs' w) by (intros w'; apply (IH fs' fuel (BLIST b) w'); tauto || lia).
    cbn [try_all]. destruct f as [f |]; [| apply Hnext]. destruct (run f w) as [[ok w'] | | |]; [| done ..]. rb. destruct ok; [done | apply Hnext].
Qed.

(** Loading a program asks the loaders in turn, the one added last
    first, and ends; the first that takes the program does not return. *)
Theorem binfmt_load_order (m : links) (t : gmap Z (option F)) (loaders b : Z) (f : option F) (bs : list Z) (fs : list (option F)) (w : W) :
  ring m loaders (BLIST <$> bs) -> Forall2 (fun b f => at_ptr t b = Ret f) bs fs -> b <> 0 -> BLIST b <> 0 -> b ∉ bs -> BLIST b <> loaders -> is_Some (m !! BLIST b) ->
  binfmt_load m t loaders w = try_all fs w /\
  exists m' t', binfmt_add_loader m t loaders b f = Ret (m', t') /\ forall w, binfmt_load m' t' loaders w = try_all (f :: fs) w.
Proof.
  assert (Hload : forall m t bs fs w, ring m loaders (BLIST <$> bs) -> Forall2 (fun b f => at_ptr t b = Ret f) bs fs -> binfmt_load m t loaders w = try_all fs w).
  { clear. intros m t bs fs w (Hd & H0 & Hc & _) Hf. unfold binfmt_load. rewrite not_elem_of_cons in H0. apply NoDup_cons in Hd as [Hin Hd].
    destruct (get_nx m loaders _ ltac:(naive_solver) (proj1 (first_link _ _ _ _ Hc))) as (n & Eg & En & _). rewrite Eg. rb. rewrite En.
    apply (load_loop_ring m t loaders bs fs _ loaders); try done; [naive_solver | tauto |].
    rewrite <- (length_fmap BLIST), <- size_dom, <- (size_list_to_set (C:=gset Z) (BLIST <$> bs)) by done.
    assert (Hsub : list_to_set (C:=gset Z) (BLIST <$> bs) ⊆ dom m); [| apply subseteq_size in Hsub; lia].
    intros k Hk%elem_of_list_to_set. eapply npath_mapped; [by apply chain_npath |]. by right. }
  intros Hr Hf Hb Hz Hnb Hne Hm. split; [by apply (Hload m t bs) |].
  unfold binfmt_add_loader. rewrite (proj2 (Z.eqb_neq b 0)) by done.
  destruct (list_init_ring m (BLIST b) Hz Hm) as (m1 & -> & _ & Hfr & Hd1). rb.
  assert (Hnin : BLIST b ∉ loaders :: (BLIST <$> bs)).
  { rewrite elem_of_cons, list_elem_of_fmap. intros [E | (c & E & Hc)]; [done |]. apply Hnb. replace b with c by (unfold BLIST in E; lia). done. }
  assert (Hr1 : ring m1 loaders (BLIST <$> bs)) by (apply (ring_frame m); [| done]; intros k Hk; apply Hfr; by intros ->).
  destruct (list_append_dlist m1 loaders (BLIST b) loaders _ Hr1 Hz Hnin) as (m2 & -> & Hr2 & _ & _); [by apply (dom_mapped m) |]. rb.
  eexists _, _. split; [done |]. intros w'. apply (Hload m2 _ (b :: bs)); [exact Hr2 |]. constructor; [by apply at_ptr_insert |].
  clear -Hf Hnb. induction Hf as [| c g bs fs Hc Hf IH]; constructor; rewrite not_elem_of_cons in Hnb.
  - rewrite at_ptr_insert_ne; [done | tauto].
  - apply IH. tauto.
Qed.
End loaders.

(** ** The loader of ELF files *)

(** The members the loader reads, by their offsets in the two formats. *)
Record ehdr := mk_ehdr { e_type : Z; e_machine : Z; e_entry : Z; e_phoff : Z; e_phentsize : Z }.
Record phdr := mk_phdr { p_type : Z; p_flags : Z; p_offset : Z; p_vaddr : Z; p_filesz : Z }.

Definition Elf32_Ehdr (m : list Z) : out ehdr :=
  t ← rd_le m 16 2; c ← rd_le m 18 2; e ← rd_le m 24 4; o ← rd_le m 28 4; n ← rd_le m 42 2; mret (mk_ehdr t c e o n).
Definition Elf64_Ehdr (m : list Z) : out ehdr :=
  t ← rd_le m 16 2; c ← rd_le m 18 2; e ← rd_le m 24 8; o ← rd_le m 32 8; n ← rd_le m 54 2; mret (mk_ehdr t c e o n).
Definition Elf32_Phdr (m : list Z) (p : Z) : out phdr :=
  t ← rd_le m p 4; f ← rd_le m (p + 24) 4; o ← rd_le m (p + 4) 4; v ← rd_le m (p + 8) 4; n ← rd_le m (p + 16) 4; mret (mk_phdr t f o v n).
Definition Elf64_Phdr (m : list Z) (p : Z) : out phdr :=
  t ← rd_le m p 4; f ← rd_le m (p + 4) 4; o ← rd_le m (p + 8) 8; v ← rd_le m (p + 16) 8; n ← rd_le m (p + 32) 8; mret (mk_phdr t f o v n).

(** The loader enters the program and does not come back, or refuses. *)
Inductive loaded := Refused | Entered (eip esp : Z).

Section elf.
Context {P : Type} `{PageSource P}.

(** [data]: the bytes of the pages that are not tables. *)
Record machine := mk_machine { mm : state P; data : gmap Z Z }.

Definition mmu_page_alloc (s : machine) : out (Z * machine) :=
  '(a, p) ← src_alloc (src (mm s)) 0; mret (a, mk_machine (set_src p (mm s)) (data s)).
Definition map_page (s : machine) (page v flags : Z) : out machine :=
  '(_, t) ← mmu_map_page (mm s) page v flags; mret (mk_machine t (data s)).

(** [kmemcpy] to a virtual address; one that is not mapped is a fault. *)
Fixpoint copy_user (s : machine) (v : Z) (l : list Z) : out machine :=
  match l with
  | [] => mret s
  | b :: l =>
      match translate (mm s) (cr3 (mm s)) v with
      | Some a => copy_user (mk_machine (mm s) (<[a := b]> (data s))) (u64 (v + 1)) l
      | None => Fault
      end
  end.

(** [p_flags] as in the header; [MM_READONLY] is 0. *)
Definition segment_flags (p_flags : Z) : Z :=
  let mm_flags := Z.lor MM_PRESENT MM_USER in if Z.land p_flags PF_W =? 0 then Z.lor mm_flags MM_READONLY else mm_flags.

(** The loop of the loaders: [nleft] does not change, and every page is
    filled with the same bytes of the file, at the same address. *)
Fixpoint load_pages (fuel : nat) (s : machine) (image : list Z) (fptr entry v_start nleft nwritten flags : Z) : out machine :=
  match fuel with
  | O => Spin
  | S fuel =>
      if nwritten <? nleft then
        '(page, s) ← mmu_page_alloc s;
        s ← map_page s page v_start flags;
        let read_size := Z.min PAGE_SIZE nleft in
        l ← rd_bytes image fptr read_size;
        s ← copy_user s entry l;
        load_pages fuel s image fptr entry (u64 (v_start + read_size)) nleft (u64 (nwritten + read_size)) flags
      else mret s
  end.

(** What the two loaders have in common: the segment, when the first program
    header has one, and the stack. *)
Definition load_segment (s : machine) (image : list Z) (h : ehdr) (p : phdr) : out machine :=
  if p_type p =? PT_LOAD then
    load_pages (S (Z.to_nat (p_filesz p))) s image (u64 (e_phoff h + p_offset p + e_phentsize h)) (e_entry h) (ROUND_DOWN (p_vaddr p) PAGE_SIZE)
      (p_filesz p) 0 (segment_flags (p_flags p))
  else mret s.
Definition load_stack (s : machine) : out machine :=
  '(page, s) ← mmu_page_alloc s; map_page s page (USER_STACK_START - PAGE_SIZE) (Z.lor MM_PRESENT (Z.lor MM_READWRITE MM_USER)).

Definition __check_common_elf_header (image : list Z) (h : ehdr) : out bool :=
  magic ← rd_bytes image 0 4; mret (bool_decide (magic = ELFMAG) && (e_type h =? ET_EXEC)).

Definition __loader_32 (s : machine) (image : list Z) : out (loaded * machine) :=
  h ← Elf32_Ehdr image;
  ok ← __check_common_elf_header image h;
  if negb ok then mret (Refused, s)
  else if negb (e_machine h =? EM_386) then mret (Refused, s)
  else
    p ← Elf32_Phdr image (e_phoff h);
    s ← load_segment s image h p;
    s ← load_stack s;
    mret (Entered (e_entry h) (USER_STACK_START - 4), s).

Definition __loader_64 (s : machine) (image : list Z) : out (loaded * machine) :=
  h ← Elf64_Ehdr image;
  ok ← __check_common_elf_header image h;
  if negb ok then mret (Refused, s)
  else if negb (e_machine h =? EM_X86_64) then mret (Refused, s)
  else
    p ← Elf64_Phdr image (e_phoff h);
    s ← load_segment s image h p;
    s ← load_stack s;
    mret (Entered (e_entry h) (USER_STACK_START - 8), s).

(** [content] is what reading the file gives, [None] an error; [junk] what
    the page holds.  The file goes into one page, whatever its size. *)
Definition binfmt_elf_loader (s : machine) (content : option (list Z)) (junk : list Z) : out (loaded * machine) :=
  '(page, s) ← mmu_page_alloc s;
  match content with
  | None => mret (Refused, s)
  | Some l =>
      image ← (if page =? INVALID_ADDRESS then Fault else wr_bytes (take (Z.to_nat PAGE_SIZE) junk) 0 l);
      c ← rd image EI_CLASS;
      if c =? ELFCLASS32 then __loader_32 s image else if c =? ELFCLASS64 then __loader_64 s image else mret (Refused, s)
  end.

(** ** Proofs *)

Lemma copy_user_spec l : forall s v A, 0 <= v -> v + zlen l <= 2 ^ 64 -> (forall j, 0 <= j < zlen l -> translate (mm s) (cr3 (mm s)) (v + j) = Some (A + j)) ->
  exists d, copy_user s v l = Ret (mk_machine (mm s) d) /\ (forall j b, l !! j = Some b -> d !! (A + Z.of_nat j) = Some b) /\
    forall a, (a < A \/ A + zlen l <= a) -> d !! a = data s !! a.
Proof.
  induction l as [| b l IH]; intros s v A Hv Hl Ht; cbn [copy_user].
  - exists (data s). destruct s. done.
  - assert (Hz : zlen (b :: l) = 1 + zlen l) by (unfold zlen; cbn [length]; lia). pose proof (zlen_nonneg l) as Hn.
    pose proof (Ht 0 ltac:(lia)) as H0. rewrite (Z.add_0_r v), (Z.add_0_r A) in H0. rewrite H0. cbn iota beta.
    destruct l as [| c l].
    + eexists. split; [done |]. cbn [data]. split.
      * intros [| j] x Hx; [injection Hx as <-; rewrite Z.add_0_r; apply lookup_insert_eq | done].
      * intros a Ha. apply lookup_insert_ne. unfold zlen in Ha. cbn in Ha. lia.
    + assert (Hu : u64 (v + 1) = v + 1) by (apply wrap_small; unfold in_u, zlen in *; cbn [length] in *; lia). rewrite Hu.
      destruct (IH (mk_machine (mm s) (<[A := b]> (data s))) (v + 1) (A + 1)) as (d & E & Hd & Hf); [lia | lia | |].
      { intros j Hj. cbn [mm]. replace (v + 1 + j) with (v + (1 + j)) by lia. rewrite Ht by lia. f_equal. lia. }
      exists d. split; [exact E |]. split.
      * intros [| j] x Hx; [injection Hx as <-; change (Z.of_nat 0) with 0; rewrite (Z.add_0_r A), Hf by lia; apply lookup_insert_eq |].
        replace (A + Z.of_nat (S j)) with (A + 1 + Z.of_nat j) by lia. by apply Hd.
      * intros a Ha. rewrite Hf by lia. cbn [data]. apply lookup_insert_ne. lia.
Qed.

(** A directory that pages can be mapped into, with [n] frames left. *)
Record mappable (s : machine) (root : Z) (n : nat) : Prop := {
  mp_dir : wf_dir (mm s) root;
  mp_lock : mlock (mm s) = 0;
  mp_cr3 : cr3 (mm s) = root;
  mp_frames : gives n (src (mm s))
}.

Lemma page_alloc_spec s root n : mappable s root (S n) -> exists a s', mmu_page_alloc s = Ret (a, s') /\ framed a /\ mappable s' root n /\
  data s' = data s /\ frames (mm s') = frames (mm s).
Proof.
  intros [W L C (a & q & E & Ha & G)]. unfold mmu_page_alloc. rewrite E. rb. eexists a, _. split; [done |]. split; [done |].
  destruct (take_page_dir _ _ _ _ W E) as [W' _]. done.
Qed.

(** Mapping a new page at an aligned address. *)
Lemma map_page_new s root n p v flags : mappable s root (3 + n) -> framed p -> 0 <= v -> v mod PAGE_SIZE = 0 -> flags_ok flags -> large_page (mm s) root v = None ->
  exists s', map_page s p v flags = Ret s' /\ mappable s' root n /\ data s' = data s /\
    (forall o, 0 <= o < PAGE_SIZE -> translate (mm s') root (v + o) = Some (p + o)) /\
    (forall w, vpage w <> vpage v -> translate (mm s') root w = translate (mm s) root w) /\
    (forall w, large_page (mm s') root w = large_page (mm s) root w).
Proof.
  intros [W L C G] [Hp Hpa] Hv Hva Hf Hl. unfold map_page, mmu_map_page, mmu_native_map_page. rewrite C.
  destruct (map_page_spec (mm s) root v p flags n W L Hl ltac:(lia) Hpa Hv Hva Hf G) as (t & -> & W' & L' & C' & _ & T & O & LP & G').
  rb. rb. eexists. split; [done |]. split; [split; cbn [mm]; (done || congruence) |]. done.
Qed.

Lemma vpage_user w : 0 <= w < 2 ^ 48 -> vpage w = w / PAGE_SIZE.
Proof. intros Hw. unfold vpage. by rewrite Z.mod_small by lia. Qed.

(** A segment that fits in one page is loaded in one round. *)
Lemma load_segment_one s root n image h p off : mappable s root (4 + n) -> p_type p = PT_LOAD -> off = e_phoff h + p_offset p + e_phentsize h ->
  let v := ROUND_DOWN (p_vaddr p) PAGE_SIZE in
  0 <= p_vaddr p < 2 ^ 47 -> 0 < p_filesz p -> v <= e_entry h -> e_entry h + p_filesz p <= v + PAGE_SIZE ->
  0 <= off -> off + p_filesz p <= zlen image -> zlen image <= PAGE_SIZE -> large_page (mm s) root v = None ->
  exists s', load_segment s image h p = Ret s' /\ mappable s' root n /\
    (forall j, 0 <= j < p_filesz p -> exists a, translate (mm s') root (e_entry h + j) = Some a /\ data s' !! a = image !! Z.to_nat (off + j)) /\
    (forall w, vpage w <> vpage v -> translate (mm s') root w = translate (mm s) root w) /\
    (forall w, large_page (mm s') root w = large_page (mm s) root w).
Proof.
  intros Hm Ht Hoff v Hv Hn Hve Hev Ho Hoi Hi Hl. unfold load_segment. rewrite Ht. change (PT_LOAD =? PT_LOAD) with true. cbn iota. fold v.
  assert (Hvv : v = p_vaddr p - p_vaddr p mod PAGE_SIZE) by (apply ROUND_DOWN_page; lia). pose proof (Z.mod_pos_bound (p_vaddr p) PAGE_SIZE ltac:(done)) as Hmod.
  assert (Hv0 : 0 <= v /\ v mod PAGE_SIZE = 0 /\ v < 2 ^ 47).
  { rewrite Hvv. split; [pose proof (Z.mod_le (p_vaddr p) PAGE_SIZE); lia |]. split; [by rewrite Zminus_mod_idemp_r, Z.sub_diag | lia]. }
  destruct Hv0 as (Hv0 & Hva & Hv47). assert (HP : PAGE_SIZE = 4096) by done.
  cbn [load_pages]. rewrite (ltb_true 0) by done.
  destruct (page_alloc_spec s root (3 + n) Hm) as (a & s1 & -> & Ha & Hm1 & Hd1 & Hf1). rb.
  assert (Hsame : forall w, translate (mm s1) root w = translate (mm s) root w /\ large_page (mm s1) root w = large_page (mm s) root w).
  { intros w. unfold translate, small_page, large_page. rewrite !(walk_frames (mm s) (mm s1)) by done. unfold entry. by rewrite Hf1. }
  destruct (map_page_new s1 root n a v (segment_flags (p_flags p)) Hm1 Ha Hv0 Hva) as (s2 & -> & Hm2 & Hd2 & T2 & O2 & L2).
  { unfold segment_flags. destruct (_ =? 0); (split; [split; [discriminate | reflexivity] | reflexivity]). }
  { by rewrite (proj2 (Hsame v)). }
  rb. rewrite Z.min_r by lia. rewrite <- Hoff. assert (Hu : u64 off = off) by (apply wrap_small; unfold in_u; lia). rewrite Hu, rd_bytes_in by lia. rb.
  set (l := take _ (drop _ image)). assert (Hll : zlen l = p_filesz p) by (unfold l, zlen in *; rewrite length_take, length_drop; lia).
  destruct (copy_user_spec l s2 (e_entry h) (a + (e_entry h - v))) as (d & Ec & Hd & _); [lia | lia | |].
  { intros j Hj. rewrite (mp_cr3 _ _ _ Hm2). replace (e_entry h + j) with (v + (e_entry h - v + j)) by lia. rewrite T2 by lia. f_equal. lia. }
  rewrite Ec. rb. replace (Z.to_nat (p_filesz p)) with (S (Z.to_nat (p_filesz p - 1))) by lia. cbn [load_pages].
  assert (Hw : u64 (0 + p_filesz p) = p_filesz p) by (apply wrap_small; unfold in_u; lia). rewrite Hw, (ltb_false (p_filesz p)) by lia.
  eexists. split; [done |]. split; [by destruct Hm2 |]. cbn [mm data]. split; [| split].
  - intros j Hj. exists (a + (e_entry h - v) + j). split.
    + replace (e_entry h + j) with (v + (e_entry h - v + j)) by lia. rewrite T2 by lia. f_equal. lia.
    + assert (Hin : (Z.to_nat j < length l)%nat) by (unfold zlen in Hll; lia). destruct (lookup_lt_is_Some_2 l _ Hin) as [b Hb].
      pose proof (Hd _ _ Hb) as Hdb. rewrite Z2Nat.id in Hdb by lia. rewrite Hdb. unfold l in Hb. rewrite lookup_take_lt, lookup_drop in Hb by lia.
      rewrite <- Hb. f_equal. lia.
  - intros w Hne. rewrite O2 by done. apply Hsame.
  - intros w. rewrite L2. apply Hsame.
Qed.

End elf.

(** ** Samples *)

Definition sample_loaders : links := <[10 := mk_links 208 208]> (<[208 := mk_links 10 10]> {[108 := mk_links 0 0]}).

(** A loader that says no, and one that says yes to everything but 0. *)
Lemma binfmt_load_order_witness : exists m' t',
  binfmt_add_loader sample_loaders {[200 := Some false]} 10 100 (Some true) = Ret (m', t') /\
  binfmt_load (fun f w => Ret (f && negb (w =? 0), w)) m' t' 10 0 = Ret (false, 0) /\ binfmt_load (fun f w => Ret (f && negb (w =? 0), w)) m' t' 10 1 = Halt.
Proof.
  destruct (binfmt_load_order (fun f w => Ret (f && negb (w =? 0), w)) sample_loaders {[200 := Some false]} 10 100 (Some true) [200] [Some false] 0) as (_ & m' & t' & E & Hl).
  - split; [refine (bool_decide_eq_true_1 _ _); vm_compute; reflexivity |]. split; [refine (bool_decide_eq_true_1 _ _); vm_compute; reflexivity |].
    split; [| by left]. split; (split; [vm_compute; reflexivity | intros _; vm_compute; reflexivity]).
  - constructor; [reflexivity | constructor].
  - discriminate.
  - discriminate.
  - refine (bool_decide_eq_true_1 _ _). vm_compute. reflexivity.
  - discriminate.
  - eexists. reflexivity.
  - exists m', t'. split; [exact E |]. split; [rewrite (Hl 0); reflexivity | rewrite (Hl 1); reflexivity].
Defined.

#[local] Existing Instance Mmu.list_source.

Definition sample_machine : machine (P := list Z) :=
  mk_machine (set_src [0x10000; 0x11000; 0x12000; 0x13000; 0x14000; 0x15000; 0x16000; 0x17000; 0x18000] (sample_dir 0)) ∅.

(** A header, one program header and four bytes of code behind them, linked
    at 0x400000. *)
Definition sample_file : list Z :=
  ELFMAG ++ [2] ++ replicate 11 0 ++ le_bytes 2 ET_EXEC ++ le_bytes 2 EM_X86_64 ++ le_bytes 4 1 ++ le_bytes 8 0x400078 ++ le_bytes 8 64 ++ replicate 14 0 ++ le_bytes 2 56 ++ replicate 8 0 ++
  le_bytes 4 PT_LOAD ++ le_bytes 4 5 ++ le_bytes 8 0 ++ le_bytes 8 0x400000 ++ replicate 8 0 ++ le_bytes 8 124 ++ replicate 16 0 ++ [0x90; 0x91; 0x92; 0x93].
Definition sample_image : list Z := sample_file ++ replicate 3972 0.

Lemma sample_mappable : mappable sample_machine 0x2000 9.
Proof.
  destruct (sample_wf 0) as [Ht Hi Hu _ _]. split; [| reflexivity | reflexivity |].
  - assert (Hw : forall l f, walk (mm sample_machine) f l = walk (sample_dir 0) f l) by (intros; by apply walk_frames).
    split; try (intros *; rewrite ?Hw; by eauto).
    + split; [by repeat constructor; lia |]. refine (bool_decide_eq_true_1 _ _). by vm_compute.
    + intros l f Hl. rewrite Hw. intros E Hf. apply (sample_walk 0 l f Hl) in E. revert Hf.
      rewrite !elem_of_cons, elem_of_nil in E. destruct E as [[= -> ->] | [[= -> ->] | [[= -> ->] | [[= -> ->] | []]]]]; refine (bool_decide_eq_true_1 _ _); by vm_compute.
  - repeat (eexists _, _; split; [reflexivity |]; split; [by split |]). exact I.
Qed.

End Binfmt.
