(* ===== verification/Device.v ===== *)
(** * Devices and drivers (drivers/device.c)

    The registry of the PCI drivers and of the devices found on the bus: two
    circular lists whose nodes are members of the objects. *)

From S2P Require Import Prelude Memory Dlist PageAlloc Slab Dentry.
Import Memory Dlist.

Module Device.

Section device.
Context {C W F : Type} `{EntrySource C}.

(** [init] and [destroy] are functions of the driver, called on the device
    and on [W], the rest of the machine. *)
Record driver_t := mk_driver { init : option F; destroy : option F; count : Z; vendor : Z; device_id : Z }.
Record device_t := mk_device { driver : Z; type : Z; ctx : Z }.

(** [offsetof] the list of a driver and of a device. *)
Definition DRLIST (d : Z) : Z := d + 32.
Definition DVLIST (d : Z) : Z := d + 32.
Definition driver_of (iter : Z) : Z := iter - 32.

Definition zero_driver : driver_t := mk_driver None None 0 0 0.
Definition zero_device : device_t := mk_device 0 0 0.

(** [drivers_pci] and [devices_pci] are the heads of the two lists. *)
Variables drivers_pci devices_pci : Z.
Variable call_init : F -> Z -> device_t -> W -> out W.

Record registry := mk_registry {
  drivers : gmap Z driver_t;
  devices : gmap Z device_t;
  rlnk : links;
  dev_cache : C;
  driver_cache : C;
  world : W
}.
Definition set_rlnk (m : links) (s : registry) : registry := mk_registry (drivers s) (devices s) m (dev_cache s) (driver_cache s) (world s).
Definition set_devices (d : gmap Z device_t) (s : registry) : registry := mk_registry (drivers s) d (rlnk s) (dev_cache s) (driver_cache s) (world s).
Definition set_world (w : W) (s : registry) : registry := mk_registry (drivers s) (devices s) (rlnk s) (dev_cache s) (driver_cache s) w.

(** A recycled object has been a list node before. *)
Definition link_node (a : Z) (m : links) : links := match m !! a with Some _ => m | None => <[a := mk_links 0 0]> m end.

(** The lists are made; [probe] stands for the two drivers that are started. *)
Definition dev_init (probe : registry -> out registry) (s : registry) : out (Z * registry) :=
  m ← list_init (rlnk s) drivers_pci;
  m ← list_init m devices_pci;
  s ← probe (set_rlnk m s); mret (0, s).

Definition dev_alloc_device (s : registry) : out (res Z * registry) :=
  '(r, c) ← es_alloc (dev_cache s) 1;
  match r with
  | Err _ => mret (Err ENOMEM, mk_registry (drivers s) (devices s) (rlnk s) c (driver_cache s) (world s))
  | Ok (a, z) =>
      let d := if (z : bool) then zero_device else default zero_device (devices s !! a) in
      m ← list_init (link_node (DVLIST a) (rlnk s)) (DVLIST a);
      mret (Ok a, mk_registry (drivers s) (<[a := d]> (devices s)) m c (driver_cache s) (world s))
  end.

Definition dev_alloc_driver (s : registry) : out (res Z * registry) :=
  '(r, c) ← es_alloc (driver_cache s) 1;
  match r with
  | Err _ => mret (Err ENOMEM, mk_registry (drivers s) (devices s) (rlnk s) (dev_cache s) c (world s))
  | Ok (a, z) =>
      let d := if (z : bool) then zero_driver else default zero_driver (drivers s !! a) in
      m ← list_init (link_node (DRLIST a) (rlnk s)) (DRLIST a);
      mret (Ok a, mk_registry (<[a := d]> (drivers s)) (devices s) m (dev_cache s) c (world s))
  end.

Definition dev_register_device (s : registry) (d : Z) : out (Z * registry) :=
  if d =? 0 then mret (- EINVAL, s)
  else
    x ← at_ptr (devices s) d;
    s ← (if driver x =? 0 then mret s
         else y ← at_ptr (drivers s) (driver x);
              match init y with None => mret s | Some f => w ← call_init f d x (world s); mret (set_world w s) end);
    m ← list_append (rlnk s) devices_pci (DVLIST d); mret (0, set_rlnk m s).

Definition dev_destroy_device (s : registry) (d : Z) : out (Z * registry) :=
  if d =? 0 then mret (- EINVAL, s)
  else
    m ← list_remove (rlnk s) (DVLIST d);
    c ← es_free (dev_cache s) d;
    mret (0, mk_registry (drivers s) (devices s) m c (driver_cache s) (world s)).

(** The test of the two loops over the drivers. *)
Definition driver_test (s : registry) (v dv iter : Z) : out bool :=
  _ ← kassert (negb (driver_of iter =? 0));
  y ← at_ptr (drivers s) (driver_of iter); mret ((vendor y =? v) && (device_id y =? dv)).

Definition dev_register_pci_driver (s : registry) (v dv d : Z) : out (Z * registry) :=
  if d =? 0 then mret (- EINVAL, s)
  else
    r ← FOREACH_find (rlnk s) (driver_test s v dv) drivers_pci;
    match r with
    | Some _ => mret (- EEXIST, s)
    | None => m ← list_append (rlnk s) drivers_pci (DRLIST d); mret (0, set_rlnk m s)
    end.

Definition dev_find_pci_driver (s : registry) (v dv : Z) : out (res Z) :=
  r ← FOREACH_find (rlnk s) (driver_test s v dv) drivers_pci;
  match r with Some iter => mret (Ok (driver_of iter)) | None => mret (Err ENOENT) end.

(** ** The registry is a list of drivers, one for each device *)

Definition serves (s : registry) (v dv d : Z) : Prop := exists y, at_ptr (drivers s) d = Ret y /\ vendor y = v /\ device_id y = dv.

(** The list holds [ds], which are drivers, and no two for one device. *)
Record registry_ok (s : registry) (ds : list Z) : Prop := {
  ro_ring : ring (rlnk s) drivers_pci (DRLIST <$> ds);
  ro_drivers : Forall (fun d => exists y, at_ptr (drivers s) d = Ret y) ds;
  ro_unique : forall v dv d d', d ∈ ds -> d' ∈ ds -> serves s v dv d -> serves s v dv d' -> d = d'
}.

Definition matches (s : registry) (v dv iter : Z) : bool :=
  match at_ptr (drivers s) (driver_of iter) with Ret y => (vendor y =? v) && (device_id y =? dv) | _ => false end.

Lemma driver_of_list d : driver_of (DRLIST d) = d.
Proof. unfold driver_of, DRLIST. lia. Qed.

Lemma find_driver s ds v dv : registry_ok s ds ->
  FOREACH_find (rlnk s) (driver_test s v dv) drivers_pci = Ret (List.find (matches s v dv) (DRLIST <$> ds)).
Proof.
  intros [Hr Hd _]. apply FOREACH_find_ring; [done |]. intros x Hx. apply list_elem_of_fmap in Hx as (d & -> & Hin).
  rewrite Forall_forall in Hd. destruct (Hd d Hin) as [y Hy]. unfold driver_test, matches. rewrite driver_of_list, Hy.
  pose proof (proj1 (at_ptr_Ret _ _ _) Hy) as [Hz _]. rewrite (proj2 (Z.eqb_neq d 0)) by done. done.
Qed.

Lemma matches_serves s v dv d : matches s v dv (DRLIST d) = true <-> serves s v dv d.
Proof.
  unfold matches, serves. rewrite driver_of_list. destruct (at_ptr (drivers s) d) as [y | | |]; [| naive_solver ..].
  rewrite andb_true_iff, !Z.eqb_eq. naive_solver.
Qed.

(** ** Nodes of a list *)

(** A node is made and put on a list; what is on other lists stays. *)
Lemma node_made m t : t <> 0 -> exists m', list_init (link_node t m) t = Ret m' /\ is_Some (m' !! t) /\
  forall w ys, t ∉ w :: ys -> ring m w ys -> ring m' w ys.
Proof.
  intros Ht. assert (Hl : is_Some (link_node t m !! t)).
  { unfold link_node. destruct (m !! t) as [n |] eqn:E; [by exists n | rewrite lookup_insert_eq; by eexists]. }
  destruct (list_init_ring _ t Ht Hl) as (m' & E & _ & Hk & Hd). exists m'. split; [done |]. split; [by apply (dom_mapped _ _ _ Hd) |].
  intros w ys Hn. apply ring_frame. intros k Hkin. assert (Hne : k <> t) by set_solver. destruct (Hk k Hne) as [-> ->].
  unfold nx, pv, link_node. destruct (m !! t); [done |]. by rewrite lookup_insert_ne.
Qed.

Lemma node_added m h xs t : ring m h xs -> t <> 0 -> t ∉ h :: xs -> is_Some (m !! t) ->
  exists m', list_append m h t = Ret m' /\ ring m' h (t :: xs) /\
    forall w ys, (forall k, k ∈ w :: ys -> k ∉ h :: t :: xs) -> ring m w ys -> ring m' w ys.
Proof.
  intros Hr Ht Hn Hm. destruct (list_append_dlist m h t h xs Hr Ht Hn Hm) as (m' & E & Hr' & Hk & _). exists m'. split; [done |]. split; [done |].
  intros w ys Hd. apply ring_frame. intros k Hkin. assert (Hh : hd h xs ∈ h :: xs) by (destruct xs; set_solver).
  pose proof (Hd k Hkin) as Hk2. unfold nx, pv. rewrite Hk; [done | set_solver ..].
Qed.

(** Finding a driver: the one that serves the device, or none does. *)
Lemma find_spec s ds v dv : registry_ok s ds ->
  match List.find (matches s v dv) (DRLIST <$> ds) with
  | Some iter => exists d, iter = DRLIST d /\ d ∈ ds /\ serves s v dv d
  | None => forall d, d ∈ ds -> ~ serves s v dv d
  end.
Proof.
  intros Hok. destruct (List.find _ _) as [iter |] eqn:E.
  - apply find_some in E as [Hin Hm]. apply list_elem_of_In, list_elem_of_fmap in Hin as (d & -> & Hd). exists d. by rewrite matches_serves in Hm.
  - intros d Hd Hs. pose proof (find_none _ _ E (DRLIST d)) as Hn. rewrite <- list_elem_of_In in Hn. rewrite (proj2 (matches_serves s v dv d) Hs) in Hn.
    discriminate Hn. by apply list_elem_of_fmap_2.
Qed.

(** C30: The registry keeps one driver for each device.  A new driver for a
    device that has none is put at the front and found for that device from
    then on, every other device keeps what it had, and the invariant stays; a
    second driver for a device is refused without any change. *)
Theorem dev_register_find (s : registry) (ds : list Z) (v dv d : Z) :
  registry_ok s ds -> serves s v dv d -> DRLIST d <> 0 -> DRLIST d ∉ drivers_pci :: (DRLIST <$> ds) -> is_Some (rlnk s !! DRLIST d) ->
  (exists d', dev_find_pci_driver s v dv = Ret (Ok d') /\ d' ∈ ds /\ serves s v dv d' /\ dev_register_pci_driver s v dv d = Ret (- EEXIST, s)) \/
  (dev_find_pci_driver s v dv = Ret (Err ENOENT) /\
   exists s', dev_register_pci_driver s v dv d = Ret (0, s') /\ registry_ok s' (d :: ds) /\ dev_find_pci_driver s' v dv = Ret (Ok d) /\
     forall v2 dv2, (v2, dv2) <> (v, dv) -> dev_find_pci_driver s' v2 dv2 = dev_find_pci_driver s v2 dv2).
Proof.
  intros Hok Hs Hz Hnin Hm. pose proof Hs as (y & Hy & Hyv & Hyd). pose proof (proj1 (at_ptr_Ret _ _ _) Hy) as [Hd0 _].
  pose proof (find_spec s ds v dv Hok) as Hf. unfold dev_find_pci_driver at 1 2, dev_register_pci_driver. rewrite (find_driver s ds v dv Hok).
  rewrite (proj2 (Z.eqb_neq d 0)) by done. destruct (List.find _ _) as [iter |].
  - destruct Hf as (d' & -> & Hd' & Hs'). left. exists d'. rewrite ret_bind, driver_of_list. done.
  - right. split; [done |]. rewrite ret_bind. pose proof (ro_ring _ _ Hok) as Hr.
    destruct (node_added (rlnk s) drivers_pci _ (DRLIST d) Hr Hz Hnin Hm) as (m & E & Hr' & _). rewrite E. rb.
    assert (Hok' : registry_ok (set_rlnk m s) (d :: ds)).
    { destruct Hok as [_ Hd Hu]. split; [exact Hr' | constructor; [by exists y | done] |].
      assert (Hnew : forall v2 dv2 c, c ∈ ds -> serves s v2 dv2 d -> serves s v2 dv2 c -> False).
      { intros v2 dv2 c Hc (y2 & Hy2 & <- & <-) Hsc. rewrite Hy in Hy2. injection Hy2 as <-. rewrite Hyv, Hyd in Hsc. by apply (Hf c Hc). }
      intros v2 dv2 a b Ha Hb Hsa Hsb. change (serves s v2 dv2 a) in Hsa. change (serves s v2 dv2 b) in Hsb.
      apply elem_of_cons in Ha as [-> | Ha]; apply elem_of_cons in Hb as [-> | Hb]; [done | | | by apply (Hu v2 dv2)]; exfalso; by eapply Hnew. }
    eexists. split; [done |]. split; [exact Hok' |]. split.
    + unfold dev_find_pci_driver. rewrite (find_driver _ _ v dv Hok'). rb. cbn [fmap list_fmap List.find].
      rewrite (proj2 (matches_serves _ v dv d)) by (exists y; done). by rewrite driver_of_list.
    + intros v2 dv2 Hne. unfold dev_find_pci_driver. rewrite (find_driver _ _ v2 dv2 Hok'), (find_driver _ _ v2 dv2 Hok). cbn [fmap list_fmap List.find].
      destruct (matches (set_rlnk m s) v2 dv2 (DRLIST d)) eqn:Em; [| done]. apply matches_serves in Em as (y2 & Hy2 & <- & <-).
      change (at_ptr (drivers s) d = Ret y2) in Hy2. rewrite Hy in Hy2. injection Hy2 as <-. by rewrite Hyv, Hyd in Hne.
Qed.
End device.
#[global] Arguments registry : clear implicits.

#[local] Existing Instance PageAlloc.PageAlloc.page_alloc_source.

(** One driver on the list, and one for another device. *)
Definition sample_registry : registry Dentry.cache unit unit :=
  mk_registry (<[200 := mk_driver None None 0 0x10ec 0x8139]> {[300 := mk_driver None None 0 0x8086 0x2922]}) ∅
    (<[10 := mk_links 232 232]> (<[232 := mk_links 10 10]> {[332 := mk_links 332 332]})) Dentry.full_cache Dentry.full_cache tt.

Lemma sample_registry_ok : registry_ok 10 sample_registry [200].
Proof.
  split.
  - split; [refine (bool_decide_eq_true_1 _ _); vm_compute; reflexivity |]. split; [refine (bool_decide_eq_true_1 _ _); vm_compute; reflexivity |].
    split; [| by left]. split; (split; [vm_compute; reflexivity | intros _; vm_compute; reflexivity]).
  - constructor; [| constructor]. eexists. reflexivity.
  - intros v dv d d' ->%list_elem_of_singleton ->%list_elem_of_singleton _ _. reflexivity.
Qed.

Lemma dev_register_find_witness : exists s', dev_register_pci_driver 10 sample_registry 0x8086 0x2922 300 = Ret (0, s') /\
  dev_find_pci_driver 10 s' 0x8086 0x2922 = Ret (Ok 300).
Proof.
  destruct (dev_register_find 10 sample_registry [200] 0x8086 0x2922 300) as [(d & E & _) | (_ & s' & E & _ & Ef & _)].
  - exact sample_registry_ok.
  - eexists. split; [reflexivity |]. split; reflexivity.
  - discriminate.
  - refine (bool_decide_eq_true_1 _ _). vm_compute. reflexivity.
  - eexists. reflexivity.
  - exfalso. vm_compute in E. discriminate E.
  - exists s'. split; [exact E | exact Ef].
Defined.
End Device.
