(* ===== verification/Pci.v ===== *)
(** * The PCI bus (drivers/bus/pci.c)

    Access to the configuration registers of the devices, probing the bus,
    and the table of interrupt routes.  The two ports are hardware: the class
    [PciPorts] states what the access mechanism promises. *)

From S2P Require Import Prelude Memory Dlist PageAlloc Slab Dentry Device.
Import Memory Dlist.

Module Pci.

Definition PCI_CONFIG_ADDR : Z := 0xcf8.
Definition PCI_CONFIG_DATA : Z := 0xcfc.
Definition PCI_ENABLE : Z := 0x80000000.
Definition PCI_NO_DEV : Z := 0xffff.
Definition PCI_MULTI_FUNC : Z := 0x80.
Definition PCI_MAX_ROUTES : Z := 128.
Definition PCI_MAX_LINKS : Z := 32.
Definition PCI_NO_ROUTE : Z := 0xff.
Definition PCI_OFF_VENDOR : Z := 0.
Definition PCI_OFF_DEVICE : Z := 2.
Definition PCI_OFF_CLASS : Z := 0xb.
Definition PCI_OFF_CLS : Z := 0xc.
Definition PCI_OFF_HEADER : Z := 0xe.
Definition PCI_OFF_BAR0 : Z := 0x10.
Definition PCI_OFF_BAR1 : Z := 0x14.
Definition PCI_OFF_BAR2 : Z := 0x18.
Definition PCI_OFF_BAR3 : Z := 0x1c.
Definition PCI_OFF_BAR4 : Z := 0x20.
Definition PCI_OFF_BAR5 : Z := 0x24.
Definition PCI_OFF_INT_LINE : Z := 0x3c.
Definition PCI_OFF_INT_PIN : Z := 0x3d.
Definition DT_PCI : Z := 0.

(** Writing an address to the one port selects a register of 32 bits, which
    the other port reads and writes.  [writable]: the device keeps all that
    is written to the register. *)
Class PciPorts (H : Type) := {
  outl : Z -> Z -> H -> H;
  inl : Z -> H -> Z * H;
  cfg : H -> Z -> Z;
  writable : Z -> Prop;
  cfg_range : forall h a, in_u 32 (cfg h a);
  select_law : forall h a b, cfg (outl PCI_CONFIG_ADDR a h) b = cfg h b;
  read_law : forall h a, fst (inl PCI_CONFIG_DATA (outl PCI_CONFIG_ADDR a h)) = cfg h a;
  read_keeps : forall h b, cfg (snd (inl PCI_CONFIG_DATA h)) b = cfg h b;
  write_law : forall h a v b, writable a -> in_u 32 v ->
    cfg (outl PCI_CONFIG_DATA v (outl PCI_CONFIG_ADDR a h)) b = if b =? a then v else cfg h b
}.

(** ** The registers *)

(** Arithmetic at a given place of a byte in its register. *)
Ltac by_offset :=
  repeat match goal with |- context [Z.land ?a ?b] => let v := eval vm_compute in (Z.land a b) in change (Z.land a b) with v end;
  repeat match goal with |- context [?a =? 0] => let v := eval vm_compute in (a =? 0) in change (a =? 0) with v end; cbn iota;
  unfold u8, u16, wrap; rewrite ?Z.shiftr_div_pow2 by lia;
  repeat match goal with |- context [2 ^ ?n] => let v := eval vm_compute in (2 ^ n) in change (2 ^ n) with v end;
  try (change 16777216 with (65536 * 256); rewrite <- Z.div_div by lia); Z.to_euclidean_division_equations; lia.

Section config.
Context {H : Type} `{PciPorts H}.

Definition config_addr (bus dev func offset : Z) : Z :=
  u32 (Z.lor (Z.lor (Z.lor (Z.lor PCI_ENABLE (Z.shiftl bus 16)) (Z.shiftl dev 11)) (Z.shiftl func 8)) (Z.land offset 0xfc)).

Definition __get_pci_field_u32 (h : H) (bus dev func offset : Z) : Z * H :=
  inl PCI_CONFIG_DATA (outl PCI_CONFIG_ADDR (config_addr bus dev func offset) h).

Definition __get_pci_field_u16 (h : H) (bus dev func offset : Z) : Z * H :=
  let '(value, h) := __get_pci_field_u32 h bus dev func (Z.land offset (Z.lnot 3)) in
  (u16 (Z.shiftr value (Z.land offset 2 * 8)), h).

Definition __get_pci_field_u8 (h : H) (bus dev func offset : Z) : Z * H :=
  let '(value, h) := __get_pci_field_u16 h bus dev func (Z.land offset (Z.lnot 1)) in
  (u8 (Z.shiftr value (Z.land offset 1 * 8)), h).

Definition __set_pci_field_u32 (h : H) (bus dev func offset val : Z) : H :=
  outl PCI_CONFIG_DATA val (outl PCI_CONFIG_ADDR (config_addr bus dev func offset) h).
Definition __set_pci_field_u16 (h : H) (bus dev func offset val : Z) : H := __set_pci_field_u32 h bus dev func offset val.
Definition __set_pci_field_u8 (h : H) (bus dev func offset val : Z) : H := __set_pci_field_u32 h bus dev func offset val.

Definition pci_read_u8 (h : H) (bus dev func reg : Z) : Z * H := __get_pci_field_u8 h bus dev func reg.
Definition pci_read_u16 (h : H) (bus dev func reg : Z) : Z * H := __get_pci_field_u16 h bus dev func reg.
Definition pci_read_u32 (h : H) (bus dev func reg : Z) : Z * H := __get_pci_field_u32 h bus dev func reg.
Definition pci_write_u8 (h : H) (bus dev func reg val : Z) : H := __set_pci_field_u8 h bus dev func reg val.
Definition pci_write_u16 (h : H) (bus dev func reg val : Z) : H := __set_pci_field_u16 h bus dev func reg val.
Definition pci_write_u32 (h : H) (bus dev func reg val : Z) : H := __set_pci_field_u32 h bus dev func reg val.
(** The byte of a configuration space at an offset. *)
Definition cfg_byte (h : H) (bus dev func o : Z) : Z :=
  u8 (Z.shiftr (cfg h (config_addr bus dev func o)) (8 * (o mod 4))).
End config.

(** ** The devices found *)

(** The members from [status] to [cls] (and the class's details) are never
    assigned: an entry of the cache keeps what was in it. *)
Record pci_dev_t := mk_pdev {
  bus : Z; dev : Z; func : Z; device : Z; vendor : Z; status : Z; command : Z;
  class : Z; subclass : Z; prog_if : Z; rev_id : Z; bist : Z; hdr_type : Z; lat_tmr : Z; cls : Z;
  bar0 : Z; bar1 : Z; bar2 : Z; bar3 : Z; bar4 : Z; bar5 : Z; int_pin : Z; int_line : Z
}.
Definition zero_pdev : pci_dev_t := mk_pdev 0 0 0 0 0 0 0 0 0 0 0 0 0 0 0 0 0 0 0 0 0 0 0.
Definition PLIST (p : Z) : Z := p + 56.
Definition pdev_of (iter : Z) : Z := iter - 56.

(** [None] is a null [name]. *)
Record pci_irq_route_t := mk_route { named : bool; r_bus : Z; r_dev : Z; r_pin : Z; r_irq : Z; r_name : option (list Z) }.
Record pci_link_t := mk_link { l_name : list Z; current : Z }.

(** What the drivers see of the machine. *)
Record machine (H : Type) := mk_machine { hw : H; pdevs : gmap Z pci_dev_t }.
Arguments mk_machine {H}.
Arguments hw {H}.
Arguments pdevs {H}.

Section pci.
Context {C H F : Type} `{EntrySource C} `{PciPorts H}.

Variables drivers_pci devices_pci pci_devs : Z.
Variable call_init : F -> Z -> Device.device_t -> machine H -> out (machine H).

(** [pci_info], and the registry of the devices. *)
Record pci := mk_pci {
  reg : Device.registry C (machine H) F;
  pci_cache : C;
  nroutes : Z;
  routes : list pci_irq_route_t;
  nlinks : Z;
  links : list pci_link_t
}.
Definition set_reg (r : Device.registry C (machine H) F) (s : pci) : pci := mk_pci r (pci_cache s) (nroutes s) (routes s) (nlinks s) (links s).
Definition set_cache (c : C) (s : pci) : pci := mk_pci (reg s) c (nroutes s) (routes s) (nlinks s) (links s).
Definition the_hw (s : pci) : H := hw (Device.world (reg s)).
Definition the_pdevs (s : pci) : gmap Z pci_dev_t := pdevs (Device.world (reg s)).
Definition set_machine (h : H) (p : gmap Z pci_dev_t) (s : pci) : pci := set_reg (Device.set_world (mk_machine h p) (reg s)) s.

(** ** Routes of the interrupts *)

Fixpoint named_loop (n : nat) (i : Z) (s : pci) (link : list Z) : out (res Z) :=
  match n with
  | O => mret (Err ENOENT)
  | S n => l ← rd (links s) i; if bool_decide (link = l_name l) then mret (Ok (u8 (current l))) else named_loop n (i + 1) s link
  end.

(** [Err] stands for [PCI_NO_ROUTE] with [errno] set.  [kstrcmp] of a null
    pointer faults once there is a link to compare with. *)
Definition __find_named_route (s : pci) (link : option (list Z)) : out (res Z) :=
  match link with
  | None => if nlinks s =? 0 then mret (Err ENOENT) else Fault
  | Some l => named_loop (Z.to_nat (nlinks s)) 0 s l
  end.

Fixpoint route_loop (n : nat) (i : Z) (s : pci) (b d pin : Z) : out (res Z) :=
  match n with
  | O => mret (Err ENOENT)
  | S n =>
      r ← rd (routes s) i;
      if (r_bus r =? b) && (r_dev r =? d) && (r_pin r =? pin) then
        if named r then __find_named_route s (r_name r) else mret (Ok (r_irq r))
      else route_loop n (i + 1) s b d pin
  end.
Definition pci_find_irq_route (s : pci) (b d pin : Z) : out (res Z) := route_loop (Z.to_nat (nroutes s)) 0 s (u8 b) (u8 d) (u8 pin).

(** The index of the element the pointer is to. *)
Definition pci_alloc_route (s : pci) : res Z * pci :=
  if PCI_MAX_ROUTES <=? nroutes s then (Err ENOMEM, s)
  else (Ok (nroutes s), mk_pci (reg s) (pci_cache s) (nroutes s + 1) (routes s) (nlinks s) (links s)).
Definition pci_alloc_link (s : pci) : res Z * pci :=
  if PCI_MAX_ROUTES <=? nlinks s then (Err ENOMEM, s)
  else (Ok (nlinks s), mk_pci (reg s) (pci_cache s) (nroutes s) (routes s) (nlinks s + 1) (links s)).

(** ** Probing *)

(** The device as it is read from its registers into an entry of the cache
    that held [g]; the other members stay. *)
Definition read_pdev (h : H) (b d f : Z) (g : pci_dev_t) : pci_dev_t * H :=
  let '(device, h) := __get_pci_field_u16 h b d f PCI_OFF_DEVICE in
  let '(vendor, h) := __get_pci_field_u16 h b d f PCI_OFF_VENDOR in
  let '(class, h) := __get_pci_field_u8 h b d f PCI_OFF_CLASS in
  let '(b0, h) := __get_pci_field_u32 h b d f PCI_OFF_BAR0 in
  let '(b1, h) := __get_pci_field_u32 h b d f PCI_OFF_BAR1 in
  let '(b2, h) := __get_pci_field_u32 h b d f PCI_OFF_BAR2 in
  let '(b3, h) := __get_pci_field_u32 h b d f PCI_OFF_BAR3 in
  let '(b4, h) := __get_pci_field_u32 h b d f PCI_OFF_BAR4 in
  let '(b5, h) := __get_pci_field_u32 h b d f PCI_OFF_BAR5 in
  let '(pin, h) := __get_pci_field_u8 h b d f PCI_OFF_INT_PIN in
  let '(line, h) := __get_pci_field_u8 h b d f PCI_OFF_INT_LINE in
  (mk_pdev (u16 b) (u16 d) (u16 f) device vendor (status g) (command g) class (subclass g) (prog_if g) (rev_id g) (bist g) (hdr_type g)
     (lat_tmr g) (cls g) b0 b1 b2 b3 b4 b5 pin line, h).

(** A cache that is empty gives a null pointer, which is written through. *)
Definition __probe_func (s : pci) (b d f : Z) : out pci :=
  '(r, c) ← es_alloc (pci_cache s) 0;
  match r with
  | Err _ => Fault
  | Ok (p, _) =>
      let '(x, h) := read_pdev (the_hw s) b d f (default zero_pdev (the_pdevs s !! p)) in
      let s := set_machine h (<[p := x]> (the_pdevs s)) (set_cache c s) in
      _ ← (if negb (int_pin x =? 0) then pci_find_irq_route s b d (int_pin x) else mret (Err 0));
      r ← Device.dev_find_pci_driver drivers_pci (reg s) (vendor x) (Pci.device x);
      let driver := match r with Ok dr => dr | Err _ => 0 end in
      '(r, g) ← Device.dev_alloc_device (reg s);
      match r with
      | Err _ => Fault
      | Ok dv =>
          let g := Device.set_devices (<[dv := Device.mk_device driver DT_PCI p]> (Device.devices g)) g in
          '(_, g) ← Device.dev_register_device devices_pci call_init g dv;
          m ← list_init (Device.link_node (PLIST p) (Device.rlnk g)) (PLIST p);
          m ← list_append m pci_devs (PLIST p);
          mret (set_reg (Device.set_rlnk m g) s)
      end
  end.

Fixpoint probe_funcs (n : nat) (s : pci) (b d f : Z) : out pci :=
  match n with O => mret s | S n => s ← __probe_func s b d f; probe_funcs n s b d (f + 1) end.

Definition __probe_dev (s : pci) (b d : Z) : out pci :=
  let '(v, h) := __get_pci_field_u16 (the_hw s) b d 0 PCI_OFF_VENDOR in
  let s := set_machine h (the_pdevs s) s in
  if v =? PCI_NO_DEV then mret s
  else
    s ← __probe_func s b d 0;
    let '(v, h) := __get_pci_field_u32 (the_hw s) b d 0 PCI_OFF_HEADER in
    let s := set_machine h (the_pdevs s) s in
    if negb (Z.land v PCI_MULTI_FUNC =? 0) then probe_funcs 7 s b d 1 else mret s.

Fixpoint probe_devs (n : nat) (s : pci) (b d : Z) : out pci :=
  match n with O => mret s | S n => s ← __probe_dev s b d; probe_devs n s b (d + 1) end.
Definition __probe_bus (s : pci) (b : Z) : out pci := probe_devs 32 s b 0.

(** The cache is made before; [acpi_init_pci] fills the tables. *)
Definition pci_init (acpi_init_pci : pci -> out pci) (s : pci) : out (Z * pci) :=
  m ← list_init (Device.rlnk (reg s)) pci_devs;
  s ← acpi_init_pci (mk_pci (Device.set_rlnk m (reg s)) (pci_cache s) 0 (routes s) 0 (links s));
  s ← __probe_bus s 0; mret (0, s).

Definition pdev_test (s : pci) (v dv iter : Z) : out bool :=
  x ← at_ptr (the_pdevs s) (pdev_of iter); mret ((vendor x =? v) && (Pci.device x =? dv)).

Definition pci_get_dev (s : pci) (v dv : Z) : out (res Z) :=
  r ← FOREACH_find (Device.rlnk (reg s)) (pdev_test s v dv) pci_devs;
  match r with Some iter => mret (Ok (pdev_of iter)) | None => mret (Err ENOENT) end.
End pci.
(** ** What the accesses read and write *)

Section access.
Context {H : Type} `{PciPorts H}.

Lemma land_mod4 o m : 0 <= m < 4 -> Z.land o m = Z.land (o mod 4) m.
Proof.
  intros Hm. change 4 with (2 ^ 2). rewrite <- Z.land_ones, <- Z.land_assoc by lia. f_equal.
  assert (m = 0 \/ m = 1 \/ m = 2 \/ m = 3) as [-> | [-> | [-> | ->]]] by lia; done.
Qed.

Lemma config_addr_aligned bus dev func o : config_addr bus dev func (Z.land o (Z.lnot 3)) = config_addr bus dev func o.
Proof. unfold config_addr. rewrite <- (Z.land_assoc o). done. Qed.

Lemma read_u32 h bus dev func o : fst (__get_pci_field_u32 h bus dev func o) = cfg h (config_addr bus dev func o).
Proof. apply read_law. Qed.

Lemma read_u16 h bus dev func o :
  fst (__get_pci_field_u16 h bus dev func o) = u16 (Z.shiftr (cfg h (config_addr bus dev func o)) (Z.land o 2 * 8)).
Proof.
  unfold __get_pci_field_u16. destruct (__get_pci_field_u32 _ _ _ _ _) as [v h'] eqn:E. cbn [fst].
  apply (f_equal fst) in E. rewrite read_u32, config_addr_aligned in E. cbn [fst] in E. by rewrite <- E.
Qed.

(** A read of a byte gives the byte of that offset. *)
Lemma read_u8 h bus dev func o : fst (__get_pci_field_u8 h bus dev func o) = cfg_byte h bus dev func o.
Proof.
  unfold __get_pci_field_u8, cfg_byte. destruct (__get_pci_field_u16 _ _ _ _ _) as [v h'] eqn:E. cbn [fst].
  apply (f_equal fst) in E. rewrite read_u16 in E. cbn [fst] in E.
  assert (Ha : config_addr bus dev func (Z.land o (Z.lnot 1)) = config_addr bus dev func o).
  { unfold config_addr. rewrite <- (Z.land_assoc o). done. }
  rewrite Ha, <- Z.land_assoc, (land_mod4 o (Z.land _ _)) in E by done. subst v. rewrite (land_mod4 o 1) by done.
  set (v := cfg _ _). clearbody v. pose proof (Z.mod_pos_bound o 4 eq_refl) as Hk. set (k := o mod 4) in *. clearbody k.
  assert (Hc : k = 0 \/ k = 1 \/ k = 2 \/ k = 3) by lia. clear - Hc. destruct Hc as [-> | [-> | [-> | ->]]]; by_offset.
Qed.

(** The registers of a function are told apart by the offset. *)
Lemma config_addr_low bus dev func o : Z.land (config_addr bus dev func o) 0xff = Z.land o 0xfc.
Proof.
  assert (Hs : forall x n, 8 <= n -> Z.land (Z.shiftl x n) 0xff = 0).
  { intros x n Hn. apply Z.bits_inj'. intros i Hi. rewrite Z.land_spec, Z.bits_0. destruct (Z.ltb_spec i 8).
    - rewrite Z.shiftl_spec_low by lia. done.
    - change 0xff with (Z.ones 8). rewrite (Z.ones_spec_high 8 i) by lia. apply andb_false_r. }
  unfold config_addr, u32, wrap. rewrite <- Z.land_ones, <- Z.land_assoc by lia. change (Z.land (Z.ones 32) 0xff) with 0xff.
  rewrite !Z.land_lor_distr_l, !Hs by lia. change (Z.land PCI_ENABLE 0xff) with 0. rewrite !Z.lor_0_l, <- Z.land_assoc. done.
Qed.

Lemma land_fc o : 0 <= o < 256 -> Z.land o 0xfc = 4 * (o / 4).
Proof.
  intros Ho. change 0xfc with (Z.land (Z.ones 8) (Z.lnot (Z.ones 2))). rewrite Z.land_assoc, Z.land_ones, Z.mod_small by lia.
  rewrite <- Z.ldiff_land, Z.ldiff_ones_r, Z.shiftr_div_pow2, Z.shiftl_mul_pow2 by lia. change (2 ^ 2) with 4. lia.
Qed.

Lemma config_addr_eq bus dev func o r : 0 <= o < 256 -> 0 <= r < 256 ->
  (config_addr bus dev func o =? config_addr bus dev func r) = (o / 4 =? r / 4).
Proof.
  intros Ho Hr. apply Bool.eq_iff_eq_true. rewrite !Z.eqb_eq. split.
  - intros E. apply (f_equal (fun a => Z.land a 0xff)) in E. rewrite !config_addr_low, !land_fc in E by done. lia.
  - intros E. unfold config_addr. rewrite !land_fc by done. by rewrite E.
Qed.

(** The test for more functions looks at the size of the cache lines: the
    access ignores the low bits of the offset. *)
Lemma multi_function_test h bus dev func :
  (Z.land (fst (__get_pci_field_u32 h bus dev func PCI_OFF_HEADER)) PCI_MULTI_FUNC =? 0) = negb (Z.testbit (cfg_byte h bus dev func PCI_OFF_CLS) 7).
Proof.
  rewrite read_u32. unfold cfg_byte. change (config_addr bus dev func PCI_OFF_HEADER) with (config_addr bus dev func PCI_OFF_CLS).
  set (v := cfg _ _). clearbody v. change (8 * (PCI_OFF_CLS mod 4)) with 0. rewrite Z.shiftr_0_r. unfold u8, wrap. rewrite Z.mod_pow2_bits_low by lia.
  change PCI_MULTI_FUNC with (2 ^ 7). by rewrite land_bit by lia.
Qed.

Lemma cfg_u32 h bus dev func o a : cfg (snd (__get_pci_field_u32 h bus dev func o)) a = cfg h a.
Proof. unfold __get_pci_field_u32. by rewrite read_keeps, select_law. Qed.
Lemma got_u32 h bus dev func o v h' : __get_pci_field_u32 h bus dev func o = (v, h') ->
  v = cfg h (config_addr bus dev func o) /\ (forall a, cfg h' a = cfg h a).
Proof. intros E. rewrite <- read_u32, E. split; [done |]. intros a. by rewrite <- (cfg_u32 h bus dev func o a), E. Qed.
Lemma got_u16 h bus dev func o v h' : __get_pci_field_u16 h bus dev func o = (v, h') ->
  v = u16 (Z.shiftr (cfg h (config_addr bus dev func o)) (Z.land o 2 * 8)) /\ (forall a, cfg h' a = cfg h a).
Proof.
  intros E. pose proof (read_u16 h bus dev func o) as Hv. rewrite E in Hv. split; [done |]. unfold __get_pci_field_u16 in E.
  destruct (__get_pci_field_u32 _ _ _ _ _) as [w k] eqn:E1. apply (f_equal snd) in E. cbn [snd] in E. subst k. exact (proj2 (got_u32 _ _ _ _ _ _ _ E1)).
Qed.
Lemma got_u8 h bus dev func o v h' : __get_pci_field_u8 h bus dev func o = (v, h') ->
  v = cfg_byte h bus dev func o /\ (forall a, cfg h' a = cfg h a).
Proof.
  intros E. pose proof (read_u8 h bus dev func o) as Hv. rewrite E in Hv. split; [done |]. unfold __get_pci_field_u8 in E.
  destruct (__get_pci_field_u16 _ _ _ _ _) as [w k] eqn:E1. apply (f_equal snd) in E. cbn [snd] in E. subst k. exact (proj2 (got_u16 _ _ _ _ _ _ _ E1)).
Qed.

(** The members of a device are the registers of its function. *)
Definition describes (h : H) (b d f : Z) (x : pci_dev_t) : Prop :=
  bus x = u16 b /\ dev x = u16 d /\ func x = u16 f /\
  vendor x = u16 (cfg h (config_addr b d f PCI_OFF_VENDOR)) /\ device x = u16 (Z.shiftr (cfg h (config_addr b d f PCI_OFF_VENDOR)) 16) /\
  class x = cfg_byte h b d f PCI_OFF_CLASS /\
  [bar0 x; bar1 x; bar2 x; bar3 x; bar4 x; bar5 x] =
    (fun o => cfg h (config_addr b d f o)) <$> [PCI_OFF_BAR0; PCI_OFF_BAR1; PCI_OFF_BAR2; PCI_OFF_BAR3; PCI_OFF_BAR4; PCI_OFF_BAR5] /\
  int_pin x = cfg_byte h b d f PCI_OFF_INT_PIN /\ int_line x = cfg_byte h b d f PCI_OFF_INT_LINE.

Ltac next_field :=
  match goal with
  | |- context [__get_pci_field_u32 ?h ?b ?d ?f ?o] =>
      destruct (__get_pci_field_u32 h b d f o) as [? ?] eqn:E; apply got_u32 in E as [-> ?Hk]
  | |- context [__get_pci_field_u16 ?h ?b ?d ?f ?o] =>
      destruct (__get_pci_field_u16 h b d f o) as [? ?] eqn:E; apply got_u16 in E as [-> ?Hk]
  | |- context [__get_pci_field_u8 ?h ?b ?d ?f ?o] =>
      destruct (__get_pci_field_u8 h b d f o) as [? ?] eqn:E; apply got_u8 in E as [-> ?Hk]
  end.

Lemma read_pdev_describes h b d f g : describes h b d f (fst (read_pdev h b d f g)) /\ forall a, cfg (snd (read_pdev h b d f g)) a = cfg h a.
Proof.
  unfold read_pdev. repeat (next_field; cbn beta iota). cbn [fst snd]. unfold describes, cfg_byte.
  cbn [bus dev func device vendor class bar0 bar1 bar2 bar3 bar4 bar5 int_pin int_line fmap list_fmap].
  repeat match goal with Hk : forall a, cfg ?h a = _ |- context [cfg ?h _] => rewrite Hk end.
  change (config_addr b d f PCI_OFF_DEVICE) with (config_addr b d f PCI_OFF_VENDOR). change (Z.land PCI_OFF_DEVICE 2 * 8) with 16.
  change (Z.land PCI_OFF_VENDOR 2 * 8) with 0. rewrite Z.shiftr_0_r. split; [repeat split |]. intros a.
  repeat match goal with Hk : forall a, cfg ?h a = _ |- context [cfg ?h _] => rewrite Hk end. done.
Qed.

(** C40: Writing a byte to a configuration register is not writing that byte:
    the four bytes of the register become the value and three zeros, so that
    the byte that was meant only gets it when its offset is a multiple of
    four.  The other registers of the device keep theirs. *)
Theorem pci_write_u8_whole_register (h : H) (bus dev func reg val o : Z) :
  writable (config_addr bus dev func reg) -> 0 <= reg < 256 -> in_u 8 val -> 0 <= o < 256 ->
  fst (pci_read_u8 (pci_write_u8 h bus dev func reg val) bus dev func o) =
    if o / 4 =? reg / 4 then (if o mod 4 =? 0 then val else 0) else fst (pci_read_u8 h bus dev func o).
Proof.
  intros Hw Hr Hv Ho. unfold pci_read_u8. rewrite !read_u8. unfold cfg_byte, pci_write_u8, __set_pci_field_u8, __set_pci_field_u32.
  rewrite write_law by (unfold in_u in *; lia || done). rewrite config_addr_eq by done. destruct (o / 4 =? reg / 4); [| done].
  unfold in_u in Hv. pose proof (Z.mod_pos_bound o 4 eq_refl). set (k := o mod 4) in *. clearbody k.
  assert (Hc : k = 0 \/ k = 1 \/ k = 2 \/ k = 3) by lia. clear - Hc Hv. destruct Hc as [-> | [-> | [-> | ->]]]; by_offset.
Qed.
End access.

(** ** The lists of the bus *)

Section bus.
Context {C H F : Type} `{EntrySource C} `{PciPorts H}.
Variables drivers_pci devices_pci pci_devs : Z.
Variable call_init : F -> Z -> Device.device_t -> machine H -> out (machine H).

Definition nodes (ps ds drs : list Z) : list Z :=
  (pci_devs :: (PLIST <$> ps)) ++ (devices_pci :: (Device.DVLIST <$> ds)) ++ (drivers_pci :: (Device.DRLIST <$> drs)).

(** The devices of the bus, the devices of the registry and the drivers are
    on lists of their own. *)
Record bus_ok (s : @pci C H F) (ps ds drs : list Z) : Prop := {
  bo_pci : ring (Device.rlnk (reg s)) pci_devs (PLIST <$> ps);
  bo_devices : ring (Device.rlnk (reg s)) devices_pci (Device.DVLIST <$> ds);
  bo_drivers : Device.registry_ok drivers_pci (reg s) drs;
  bo_pdevs : Forall (fun p => exists x, at_ptr (the_pdevs s) p = Ret x) ps;
  bo_nodes : NoDup (nodes ps ds drs)
}.

Lemma pdev_of_list p : pdev_of (PLIST p) = p.
Proof. unfold pdev_of, PLIST. lia. Qed.

Definition pmatches (s : @pci C H F) (v dv iter : Z) : bool :=
  match at_ptr (the_pdevs s) (pdev_of iter) with Ret x => (vendor x =? v) && (device x =? dv) | _ => false end.

Lemma find_pdev s ps ds drs v dv : bus_ok s ps ds drs ->
  pci_get_dev pci_devs s v dv = Ret (match List.find (pmatches s v dv) (PLIST <$> ps) with Some iter => Ok (pdev_of iter) | None => Err ENOENT end).
Proof.
  intros Hok. unfold pci_get_dev. rewrite (FOREACH_find_ring _ _ (pmatches s v dv) _ _ (bo_pci _ _ _ _ Hok)).
  - rb. by destruct (List.find _ _).
  - intros k Hk. apply list_elem_of_fmap in Hk as (p & -> & Hp). pose proof (bo_pdevs _ _ _ _ Hok) as Hf. rewrite Forall_forall in Hf.
    destruct (Hf p Hp) as [x Hx]. unfold pdev_test, pmatches. by rewrite pdev_of_list, Hx.
Qed.

Lemma find_irq_frame s r c b d pin : pci_find_irq_route (set_reg r (set_cache c s)) b d pin = pci_find_irq_route (s : @pci C H F) b d pin.
Proof.
  assert (Hn : forall n i l, named_loop n i (set_reg r (set_cache c s)) l = named_loop n i s l).
  { induction n as [| n IH]; intros i l; cbn [named_loop]; [done |]. change (links (set_reg r (set_cache c s))) with (links s).
    destruct (rd (links s) i); cbn; [destruct (bool_decide _); [done | apply IH] | done ..]. }
  assert (Hl : forall l, __find_named_route (set_reg r (set_cache c s)) l = __find_named_route s l) by (intros [l |]; [apply Hn | done]).
  unfold pci_find_irq_route. change (nroutes (set_reg r (set_cache c s))) with (nroutes s). generalize 0. generalize (Z.to_nat (nroutes s)).
  induction n as [| n IH]; intros i; cbn [route_loop]; [done |]. change (routes (set_reg r (set_cache c s))) with (routes s).
  destruct (rd (routes s) i) as [x | | |]; cbn; [| done ..]. destruct (_ && _); [| apply IH]. by destruct (named x).
Qed.

Lemma in_skip (k a b : Z) l : k ∈ a :: l -> k ∈ a :: b :: l.
Proof. intros [-> | Hin]%elem_of_cons; [left | by right; right]. Qed.

Lemma nodes_apart p dv ps ds drs : NoDup (nodes (p :: ps) (dv :: ds) drs) ->
  PLIST p ∉ pci_devs :: (PLIST <$> ps) /\ Device.DVLIST dv ∉ devices_pci :: (Device.DVLIST <$> ds) /\
  (forall k, k ∈ pci_devs :: PLIST p :: (PLIST <$> ps) ->
     k ∉ (devices_pci :: Device.DVLIST dv :: (Device.DVLIST <$> ds)) ++ (drivers_pci :: (Device.DRLIST <$> drs))) /\
  (forall k, k ∈ devices_pci :: Device.DVLIST dv :: (Device.DVLIST <$> ds) -> k ∉ drivers_pci :: (Device.DRLIST <$> drs)).
Proof.
  unfold nodes. change (PLIST <$> p :: ps) with (PLIST p :: (PLIST <$> ps)). change (Device.DVLIST <$> dv :: ds) with (Device.DVLIST dv :: (Device.DVLIST <$> ds)).
  intros (NA & DA & (NB & DB & _)%NoDup_app)%NoDup_app. split_and!; [| | done | done].
  - apply NoDup_cons in NA as [N1 N2]. apply NoDup_cons in N2 as [N2 _]. set_solver.
  - apply NoDup_cons in NB as [N1 N2]. apply NoDup_cons in N2 as [N2 _]. set_solver.
Qed.

(** What the driver lookup of a probe finds. *)
Definition driven (s : @pci C H F) (drs : list Z) (v dv dr : Z) : Prop :=
  dr <> 0 /\ dr ∈ drs /\ Device.serves (reg s) v dv dr \/ dr = 0 /\ forall d', d' ∈ drs -> ~ Device.serves (reg s) v dv d'.

Lemma probe_driver s drs v dv : Device.registry_ok drivers_pci (reg (s : @pci C H F)) drs ->
  exists r, Device.dev_find_pci_driver drivers_pci (reg s) v dv = Ret r /\ driven s drs v dv (match r with Ok d => d | Err _ => 0 end).
Proof.
  intros Hok. unfold Device.dev_find_pci_driver. rewrite (Device.find_driver _ _ _ v dv Hok). pose proof (Device.find_spec _ _ _ v dv Hok) as Hf.
  destruct (List.find _ _) as [iter |]; (eexists; split; [done |]).
  - destruct Hf as (d & -> & Hd & Hs). rewrite Device.driver_of_list. left. split; [| done]. destruct Hs as (y & Hy & _). by apply at_ptr_Ret in Hy as [? _].
  - by right.
Qed.

(** A device that is registered is on the list, after its driver ran. *)
Lemma register_device (g : Device.registry C (machine H) F) (m1 : Dlist.links) dv dr p ds :
  ring m1 devices_pci (Device.DVLIST <$> ds) -> Device.DVLIST dv <> 0 -> Device.DVLIST dv ∉ devices_pci :: (Device.DVLIST <$> ds) ->
  is_Some (m1 !! Device.DVLIST dv) -> dv <> 0 -> Device.rlnk g = m1 -> Device.devices g !! dv = Some (Device.mk_device dr DT_PCI p) ->
  (dr <> 0 -> exists y, at_ptr (Device.drivers g) dr = Ret y) ->
  (forall f x w, exists w', call_init f dv x w = Ret w' /\ pdevs w' = pdevs w) ->
  exists w' m2, Device.dev_register_device devices_pci call_init g dv = Ret (0, Device.set_rlnk m2 (Device.set_world w' g)) /\
    pdevs w' = pdevs (Device.world g) /\ ring m2 devices_pci (Device.DVLIST <$> (dv :: ds)) /\
    forall w ys, (forall k, k ∈ w :: ys -> k ∉ devices_pci :: Device.DVLIST dv :: (Device.DVLIST <$> ds)) -> ring m1 w ys -> ring m2 w ys.
Proof.
  intros Hr Hz Hn Hm Hdv Eg Ed Hdr Hinit. unfold Device.dev_register_device. rewrite (proj2 (Z.eqb_neq dv 0)) by done.
  rewrite (proj2 (at_ptr_Ret _ _ _) (conj Hdv Ed)). rb. cbn [Device.driver].
  assert (Hi : exists w', (if dr =? 0 then mret g else y ← at_ptr (Device.drivers g) dr;
      match Device.init y with None => mret g | Some f => w ← call_init f dv (Device.mk_device dr DT_PCI p) (Device.world g); mret (Device.set_world w g) end) =
      Ret (Device.set_world w' g) /\ pdevs w' = pdevs (Device.world g)).
  { assert (Hsame : Device.set_world (Device.world g) g = g) by by destruct g.
    destruct (Z.eqb_spec dr 0) as [_ | Hne]; [exists (Device.world g); by rewrite Hsame |]. destruct (Hdr Hne) as [y ->]. rb.
    destruct (Device.init y) as [f |]; [| exists (Device.world g); by rewrite Hsame].
    destruct (Hinit f (Device.mk_device dr DT_PCI p) (Device.world g)) as (w' & -> & Hw). exists w'. done. }
  destruct Hi as (w' & -> & Hw). rb. change (Device.rlnk (Device.set_world w' g)) with (Device.rlnk g). rewrite Eg.
  destruct (Device.node_added m1 devices_pci _ _ Hr Hz Hn Hm) as (m2 & -> & Hr2 & K2). rb. exists w', m2. done.
Qed.

Lemma pmatches_at s p x v dv : at_ptr (the_pdevs (s : @pci C H F)) p = Ret x -> pmatches s v dv (PLIST p) = (vendor x =? v) && (device x =? dv).
Proof. intros E. unfold pmatches. by rewrite pdev_of_list, E. Qed.

(** The device at the front is found for its own number, *)
Lemma front_found s ps ds drs p x qs : bus_ok s ps ds drs -> ps = p :: qs -> at_ptr (the_pdevs s) p = Ret x ->
  pci_get_dev pci_devs s (vendor x) (device x) = Ret (Ok p).
Proof.
  intros Hok -> Hx. rewrite (find_pdev s _ _ _ _ _ Hok). cbn [fmap list_fmap List.find]. rewrite (pmatches_at _ _ _ _ _ Hx), !Z.eqb_refl. cbn.
  by rewrite pdev_of_list.
Qed.

Lemma find_frame s s' p x ps v dv : p ∉ ps -> the_pdevs s' = <[p := x]> (the_pdevs s) ->
  List.find (pmatches s' v dv) (PLIST <$> ps) = List.find (pmatches s v dv) (PLIST <$> ps).
Proof.
  intros Hn Es. induction ps as [| q ps IH]; [done |]. apply not_elem_of_cons in Hn as [Hq Hn]. cbn [fmap list_fmap List.find].
  assert (Eq : pmatches s' v dv (PLIST q) = pmatches s v dv (PLIST q)) by (unfold pmatches; by rewrite pdev_of_list, Es, at_ptr_insert_ne).
  rewrite Eq. destruct (pmatches s v dv (PLIST q)); [done | by apply IH].
Qed.

(** and passed over for every other one. *)
Lemma front_passed s s' p x ps ds ds' drs v dv : bus_ok s ps ds drs -> bus_ok s' (p :: ps) ds' drs -> p <> 0 -> p ∉ ps ->
  the_pdevs s' = <[p := x]> (the_pdevs s) -> (v, dv) <> (vendor x, device x) -> pci_get_dev pci_devs s' v dv = pci_get_dev pci_devs s v dv.
Proof.
  intros Hok Hok' Hp Hn Es Hne. rewrite (find_pdev s' _ _ _ _ _ Hok'), (find_pdev s _ _ _ _ _ Hok). cbn [fmap list_fmap List.find].
  assert (Hx : at_ptr (the_pdevs s') p = Ret x) by (rewrite Es; by apply at_ptr_insert). rewrite (pmatches_at _ _ _ _ _ Hx).
  destruct (Z.eqb_spec (vendor x) v) as [E1 |]; destruct (Z.eqb_spec (device x) dv) as [E2 |]; cbn [andb]; try congruence.
  all: by rewrite (find_frame s s' p x ps v dv).
Qed.

(** The table of links is smaller than its test says: the link after the
    last one is handed out behind the table. *)
Lemma pci_alloc_link_overruns (s : @pci C H F) : zlen (links s) = PCI_MAX_LINKS -> nlinks s = PCI_MAX_LINKS ->
  fst (pci_alloc_link s) = Ok PCI_MAX_LINKS /\ rd (links s) PCI_MAX_LINKS = Fault.
Proof. intros Hl Hn. unfold pci_alloc_link. rewrite Hn. split; [done |]. apply rd_out. rewrite Hl. unfold PCI_MAX_LINKS. lia. Qed.

(** C29: A function that is probed is known from then on: the entry for it
    says what its registers say, it is the device that is found for its
    vendor and device number, every other number finds what it found before,
    and the registry has a device with the driver that serves it, or none.
    The lists stay as they should be. *)
Theorem pci_probed_function_found (s : @pci C H F) (b d f p dv : Z) (z1 z2 : bool) (c dc : C) (ps ds drs : list Z) :
  bus_ok s ps ds drs ->
  es_alloc (pci_cache s) 0 = Ret (Ok (p, z1), c) -> es_alloc (Device.dev_cache (reg s)) 1 = Ret (Ok (dv, z2), dc) ->
  p <> 0 -> dv <> 0 -> PLIST p <> 0 -> Device.DVLIST dv <> 0 -> NoDup (nodes (p :: ps) (dv :: ds) drs) -> p ∉ ps ->
  (forall pin, exists r, pci_find_irq_route s b d pin = Ret r) ->
  (forall g x w, exists w', call_init g dv x w = Ret w' /\ pdevs w' = pdevs w) ->
  exists s' x, __probe_func drivers_pci devices_pci pci_devs call_init s b d f = Ret s' /\ bus_ok s' (p :: ps) (dv :: ds) drs /\
    the_pdevs s' !! p = Some x /\ describes (the_hw s) b d f x /\
    pci_get_dev pci_devs s' (vendor x) (device x) = Ret (Ok p) /\
    (forall v2 dv2, (v2, dv2) <> (vendor x, device x) -> pci_get_dev pci_devs s' v2 dv2 = pci_get_dev pci_devs s v2 dv2) /\
    exists dr, Device.devices (reg s') !! dv = Some (Device.mk_device dr DT_PCI p) /\ driven s drs (vendor x) (device x) dr.
Proof.
  intros Hok Ea Ed Hp Hdv Hpl Hdl Hnd Hnp Hirq Hinit. unfold __probe_func. rewrite Ea. rb.
  destruct (read_pdev _ _ _ _ _) as [x h] eqn:Ex. pose proof (read_pdev_describes (the_hw s) b d f (default zero_pdev (the_pdevs s !! p))) as [Hx _].
  rewrite Ex in Hx. cbn [fst] in Hx. cbn beta iota zeta. set (s1 := set_machine _ _ _).
  assert (Hi : exists r, (if negb (int_pin x =? 0) then pci_find_irq_route s1 b d (int_pin x) else mret (Err 0)) = Ret r).
  { unfold s1, set_machine. rewrite find_irq_frame. destruct (negb _); [apply Hirq | by eexists]. }
  destruct Hi as [ri ->]. rb. pose proof Hok as [Hrp Hrv Hrd Hpd _].
  assert (Hrd1 : Device.registry_ok drivers_pci (reg s1) drs) by (destruct Hrd as [A B D]; split; [exact A | exact B | exact D]).
  destruct (probe_driver s1 drs (vendor x) (device x) Hrd1) as (r & -> & Hdr). rb. set (dr := match r with Ok d => d | Err _ => 0 end) in *.
  unfold Device.dev_alloc_device. change (Device.dev_cache (reg s1)) with (Device.dev_cache (reg s)). rewrite Ed. rb.
  change (Device.rlnk (reg s1)) with (Device.rlnk (reg s)).
  destruct (Device.node_made (Device.rlnk (reg s)) (Device.DVLIST dv) Hdl) as (m1 & -> & Hm1 & K1). rb. rb. cbn [Device.devices].
  rewrite insert_insert_eq. set (g := Device.set_devices _ _).
  destruct (nodes_apart p dv ps ds drs Hnd) as (Hna & Hnb & DA & DB). set (A := PLIST <$> ps) in *. set (B := Device.DVLIST <$> ds) in *.
  destruct (register_device g m1 dv dr p ds) as (w' & m2 & -> & Hw & Rv2 & K2); try done.
  { apply K1; [set_solver | done]. }
  { unfold g. cbn. by rewrite lookup_insert_eq. }
  { intros Hne. destruct Hdr as [(_ & Hin & y & Hy & _) | [? _]]; [by exists y | done]. }
  rb. cbn [Device.rlnk Device.set_rlnk].
  assert (Rp1 : ring m1 pci_devs A) by (apply K1; [| done]; intros Hin; apply (DA _ (in_skip _ _ (PLIST p) _ Hin)), elem_of_app; left; right; left).
  assert (Rd1 : ring m1 drivers_pci (Device.DRLIST <$> drs)) by (apply K1; [| exact (Device.ro_ring _ _ _ Hrd)]; apply DB; right; left).
  assert (Rp2 : ring m2 pci_devs A) by (apply K2; [| done]; intros k Hk Hin; apply (DA k (in_skip _ _ _ _ Hk)), elem_of_app; by left).
  assert (Rd2 : ring m2 drivers_pci (Device.DRLIST <$> drs)) by (apply K2; [| done]; intros k Hk Hin; by apply (DB k Hin)).
  destruct (Device.node_made m2 (PLIST p) Hpl) as (m3 & -> & Hm3 & K3). rb.
  assert (Rp3 : ring m3 pci_devs A) by (apply K3; done).
  destruct (Device.node_added m3 pci_devs A (PLIST p) Rp3 Hpl Hna Hm3) as (m4 & -> & Rp4 & K4). rb.
  set (s' := set_reg _ _). assert (Hok' : bus_ok s' (p :: ps) (dv :: ds) drs).
  { split.
    - exact Rp4.
    - apply K4; [intros k Hk Hin; apply (DA k Hin), elem_of_app; by left |]. apply K3; [| done]. intros Hin. apply (DA (PLIST p)); [right; left |].
      apply elem_of_app. by left.
    - destruct Hrd1 as [_ X Y]. split; [| exact X | exact Y]. apply K4; [intros k Hk Hin; apply (DA k Hin), elem_of_app; by right |].
      apply K3; [| done]. intros Hin. apply (DA (PLIST p)); [right; left |]. apply elem_of_app. by right.
    - change (the_pdevs s') with (pdevs w'). rewrite Hw. unfold g, s1. cbn. constructor; [exists x; by apply at_ptr_insert |].
      apply Forall_forall. intros q Hq. rewrite Forall_forall in Hpd. destruct (Hpd q Hq) as [y Hy]. exists y.
      rewrite at_ptr_insert_ne; [done | by intros ->].
    - done. }
  assert (Hpx : the_pdevs s' !! p = Some x) by (change (the_pdevs s') with (pdevs w'); rewrite Hw; apply lookup_insert_eq).
  assert (Hat : at_ptr (the_pdevs s') p = Ret x) by by apply at_ptr_Ret.
  exists s', x. split; [done |]. split; [done |]. split; [done |]. split; [done |].
  split; [by apply (front_found s' (p :: ps) (dv :: ds) drs p x ps) |]. split.
  - intros v2 dv2 Hne. by apply (front_passed s s' p x ps ds (dv :: ds) drs).
  - exists dr. split; [| done]. cbn. apply lookup_insert_eq.
Qed.
End bus.

(** ** A bus with a card *)

(** Ports of a machine whose registers all keep what is written. *)
Record ports := mk_ports { sel : Z; regs : gmap Z Z }.
#[export, refine] Instance sample_ports : PciPorts ports := {
  outl p v h := if p =? PCI_CONFIG_ADDR then mk_ports v (regs h) else if p =? PCI_CONFIG_DATA then mk_ports (sel h) (<[sel h := v]> (regs h)) else h;
  inl p h := (u32 (default 0xffffffff (regs h !! sel h)), h);
  cfg h a := u32 (default 0xffffffff (regs h !! a));
  writable _ := True
}.
Proof.
  - intros h a. apply wrap_range. lia.
  - done.
  - done.
  - done.
  - intros h a v b _ Hv. cbn. change (PCI_CONFIG_DATA =? PCI_CONFIG_ADDR) with false. rewrite !Z.eqb_refl. cbn.
    destruct (Z.eqb_spec b a) as [-> | Hne]; [rewrite lookup_insert_eq; by apply wrap_small | by rewrite lookup_insert_ne].
Defined.

Lemma pci_write_u8_whole_register_witness :
  let h := mk_ports 0 {[ 0x80001804 := 0x02900007 ]} in fst (pci_read_u8 (pci_write_u8 h 0 3 0 6 0x55) 0 3 0 4) = 0x55 /\
  fst (pci_read_u8 (pci_write_u8 h 0 3 0 6 0x55) 0 3 0 6) = 0.
Proof.
  cbn zeta. rewrite !(pci_write_u8_whole_register (mk_ports 0 {[ 0x80001804 := 0x02900007 ]}) 0 3 0 6 0x55); unfold in_u; first [lia | exact I | done].
Defined.

#[local] Existing Instance PageAlloc.PageAlloc.page_alloc_source.

(** A driver for the card in the third slot. *)
Definition sample_pci : @pci Dentry.cache ports unit :=
  mk_pci (Device.mk_registry {[200 := Device.mk_driver (Some tt) None 0 0x10ec 0x8139]} ∅
      (<[10 := mk_links 232 232]> (<[232 := mk_links 10 10]> (<[20 := mk_links 20 20]> {[30 := mk_links 30 30]})))
      Dentry.dir_cache Dentry.full_cache (mk_machine (mk_ports 0 {[ 0x80001800 := 0x813910ec ]}) ∅))
    Dentry.full_cache 0 [] 0 [].
Definition sample_pdev : Z := 0xffffffff82000000.

Lemma sample_bus_ok : bus_ok 10 20 30 sample_pci [] [] [200].
Proof.
  assert (R : forall a, a = 20 \/ a = 30 -> ring (Device.rlnk (reg sample_pci)) a []).
  { intros a Ha. split; [apply NoDup_singleton |]. destruct Ha as [-> | ->]; (split; [by rewrite list_elem_of_singleton |]);
      (split; [split; [vm_compute; reflexivity | intros _; vm_compute; reflexivity] | by left]). }
  split.
  - apply R. by right.
  - apply R. by left.
  - split.
    + split; [refine (bool_decide_eq_true_1 _ _); vm_compute; reflexivity |]. split; [refine (bool_decide_eq_true_1 _ _); vm_compute; reflexivity |].
      split; [| by left]. split; (split; [vm_compute; reflexivity | intros _; vm_compute; reflexivity]).
    + constructor; [| constructor]. eexists. reflexivity.
    + intros v dv d d' ->%list_elem_of_singleton ->%list_elem_of_singleton _ _. reflexivity.
  - constructor.
  - refine (bool_decide_eq_true_1 _ _). vm_compute. reflexivity.
Qed.

Lemma pci_probed_function_found_witness : exists s', __probe_func 10 20 30 (fun _ _ _ w => Ret w) sample_pci 0 3 0 = Ret s' /\
  pci_get_dev 30 s' 0x10ec 0x8139 = Ret (Ok sample_pdev).
Proof.
  destruct (pci_probed_function_found 10 20 30 (fun _ _ _ w => Ret w) sample_pci 0 3 0 sample_pdev (sample_pdev + 32) false true
    (match es_alloc Dentry.full_cache 0 with Ret (_, c) => c | _ => Dentry.full_cache end)
    (match es_alloc Dentry.dir_cache 1 with Ret (_, c) => c | _ => Dentry.dir_cache end) [] [] [200])
    as (s' & x & E & _ & _ & (_ & _ & _ & Ev & Ed & _) & Eg & _).
  - exact sample_bus_ok.
  - vm_compute. reflexivity.
  - vm_compute. reflexivity.
  - discriminate.
  - discriminate.
  - discriminate.
  - discriminate.
  - refine (bool_decide_eq_true_1 _ _). vm_compute. reflexivity.
  - by intros ?%elem_of_nil.
  - intros pin. eexists. reflexivity.
  - intros f x w. exists w. done.
  - exists s'. split; [exact E |]. rewrite Ev, Ed in Eg. exact Eg.
Defined.
End Pci.
