(* ===== verification/Kprint.v ===== *)
(** * Formatted output (kernel/kprint.c)

    The numbers, the interpreter of the formats and the calls that print.
    What is printed is the list of the characters given to the terminal; an
    argument is a word of 64 bits, and strings are in the memory of Util. *)

From stdpp Require Import strings.
From S2P Require Import Prelude Util Locks.
Import Util Locks.

Module Kprint.
#[local] Open Scope Z_scope.

Definition EMAX : Z := 13.
Definition MINUS : Z := 45.
Definition ZERO : Z := 48.
Definition SPACE : Z := 32.
Definition PERCENT : Z := 37.

Definition chars (s : string) : list Z := (fun c => Z.of_N (Ascii.N_of_ascii c)) <$> String.list_ascii_of_string s.

(** The last element of the table has no initialiser: a null pointer. *)
Definition errors : list (option (list Z)) :=
  (Some ∘ chars <$> ["Success"; "No space left on device"; "No such file or directory"; "Invalid value"; "File exists"; "Out of memory";
    "Device busy"; "Argument list too long"; "Illegal seek"; "Funcion not implemented"; "Not a directory"; "Operation not supported"]%string)
  ++ [None].

Definition kstrerror (error : Z) : out (option (list Z)) :=
  if (EMAX <=? error) || (error <=? 0) then rd errors 0 else rd errors error.

(** ** Numbers

    [do { c[i++] = digit; value = step(value); } while (value != 0)], which
    fills the array from the lowest digit on. *)
Fixpoint digits_loop (digit step : Z -> Z) (fuel : nat) (c : list Z) (i value : Z) : out (list Z * Z) :=
  match fuel with
  | O => Spin
  | S fuel =>
      c ← wr c i (digit value);
      if negb (step value =? 0) then digits_loop digit step fuel c (i + 1) (step value) else mret (c, i + 1)
  end.

Fixpoint pad_loop (fuel : nat) (c : list Z) (i width p : Z) : out (list Z * Z) :=
  match fuel with
  | O => Spin
  | S fuel =>
      if (i <? width) && negb (width =? 0) then c ← wr c i p; pad_loop fuel c (i + 1) width p else mret (c, i)
  end.

(** [while (--i >= 0) tty_putc(c[i])], [n] being [i]. *)
Fixpoint put_loop (n : nat) (c : list Z) : out (list Z) :=
  match n with O => mret [] | S n => x ← rd c (Z.of_nat n); l ← put_loop n c; mret (x :: l) end.

Definition dec_digit (value : Z) : Z := value mod 10 + ZERO.
Definition dec_step (value : Z) : Z := value / 10.
Definition sym : list Z := chars "0123456789abcdef".
Definition hex_digit (value : Z) : Z := nth (Z.to_nat (Z.land value 0xf)) sym 0.
Definition hex_step (value : Z) : Z := Z.shiftr value 4.

Definition print_integer (value width sign : Z) (zp : bool) : out (list Z) :=
  let c := replicate 64 0 in
  '(c, i) ← digits_loop dec_digit dec_step 65 c 0 value;
  let nlen := i in
  '(c, i) ← pad_loop 65 c i width (if zp then ZERO else SPACE);
  c ← (if sign =? -1 then wr c (if zp then i - 1 else nlen) MINUS else mret c);
  put_loop (Z.to_nat i) c.

(** The conversion [x] has its own array, which stays as it was left. *)
Definition print_hex (sc : list Z) (value width : Z) (zp : bool) : out (list Z * list Z) :=
  '(sc, i) ← digits_loop hex_digit hex_step 65 sc 0 value;
  '(sc, i) ← pad_loop 65 sc i width (if zp then ZERO else SPACE);
  l ← put_loop (Z.to_nat i) sc; mret (l, sc).

(** ** Formats

    A format is the list of its characters without the NUL, so that what
    would step over the NUL is a fault. *)
Fixpoint width_loop (fmt : list Z) (width : Z) : list Z * Z :=
  match fmt with
  | c :: rest => if (ZERO <=? c) && (c <=? 57) then width_loop rest (s32 (width * 10 + (c - ZERO))) else (fmt, width)
  | [] => (fmt, width)
  end.

Definition parse_spec (fmt : list Z) : bool * Z * list Z :=
  let '(zp, fmt) := match fmt with c :: rest => if c =? ZERO then (true, rest) else (false, fmt) | [] => (false, fmt) end in
  let '(fmt, width) := width_loop fmt 0 in (zp, width, fmt).

Definition va_arg (args : list Z) : out (Z * list Z) := match args with [] => Fault | a :: args => mret (a, args) end.

Fixpoint puts_loop (n : nat) (m : mem) (p : Z) : out (list Z) :=
  match n with O => mret [] | S n => c ← ld m p; l ← puts_loop n m (p + 1); mret (c :: l) end.
Definition tty_puts (m : mem) (p : Z) : out (list Z) := n ← kstrlen m p; puts_loop (Z.to_nat n) m p.

(** The number conversions: ['d'], ['u'] and ['x']; any other character takes
    no argument and prints nothing. *)
Definition convert (sc : list Z) (c : Z) (width : Z) (zp : bool) (args : list Z) : out (list Z * list Z * list Z) :=
  if c =? 100 then
    '(a, args) ← va_arg args; let tmp := s64 a in
    l ← print_integer (u64 (if tmp <? 0 then - tmp else tmp)) width (- (if tmp <? 0 then 1 else 0)) zp; mret (l, sc, args)
  else if c =? 117 then '(a, args) ← va_arg args; l ← print_integer a width 0 zp; mret (l, sc, args)
  else if c =? 120 then '(a, args) ← va_arg args; '(l, sc) ← print_hex sc a width zp; mret (l, sc, args)
  else mret ([], sc, args).

(** [width] and [zero_padding] are 0 and false at every turn of the loop. *)
Fixpoint va_kprint (fuel : nat) (m : mem) (sc fmt args : list Z) : out (list Z * list Z) :=
  match fuel with
  | O => Spin
  | S fuel =>
      match fmt with
      | [] => mret ([], sc)
      | c :: fmt =>
          if negb (c =? PERCENT) then '(l, sc) ← va_kprint fuel m sc fmt args; mret (c :: l, sc)
          else
            match fmt with
            | [] => Fault
            | c :: rest =>
                if c =? PERCENT then '(l, sc) ← va_kprint fuel m sc rest args; mret (PERCENT :: l, sc)
                else if c =? 99 then '(a, args) ← va_arg args; '(l, sc) ← va_kprint fuel m sc rest args; mret (u8 a :: l, sc)
                else if c =? 115 then
                  '(p, args) ← va_arg args; t ← tty_puts m p; '(l, sc) ← va_kprint fuel m sc rest args; mret (t ++ l, sc)
                else
                  let '(zp, width, rest) := parse_spec fmt in
                  match rest with
                  | [] => Fault
                  | c :: rest =>
                      '(t, sc, args) ← convert sc c width zp args;
                      '(l, sc) ← va_kprint fuel m sc rest args; mret (t ++ l, sc)
                  end
            end
      end
  end.

Definition run (m : mem) (sc fmt args : list Z) : out (list Z * list Z) := va_kprint (S (length fmt)) m sc fmt args.

Definition vkprint (m : mem) (sc fmt args : list Z) : out (list Z * list Z) :=
  '(l, sc) ← run m sc fmt args; mret (l ++ [10], sc).

(** [spin] is the static lock of the function. *)
Definition kprint (spin : Z) (m : mem) (sc fmt args : list Z) : out (list Z * list Z * Z) :=
  spin ← spin_acquire spin; '(l, sc) ← run m sc fmt args; mret (l, sc, spin_release spin).

(** ** What the formats mean *)

(** The digits of a number, the lowest first, and a number from its digits. *)
Fixpoint le_digits (n : nat) (b v : Z) : list Z :=
  match n with O => [] | S n => v mod b :: (if v / b =? 0 then [] else le_digits n b (v / b)) end.
Definition digits (b v : Z) : list Z := rev (le_digits 64 b v).
Definition of_digits (b : Z) (l : list Z) : Z := foldl (fun a d => a * b + d) 0 l.
Definition digit_char (d : Z) : Z := if d <? 10 then 48 + d else 87 + d.
Definition numeral (b v : Z) : list Z := digit_char <$> digits b v.

Definition padded (b v : Z) (w : nat) (zp : bool) : list Z :=
  replicate (w - length (numeral b v)) (if zp then ZERO else SPACE) ++ numeral b v.

(** A sign takes the place of the padding next to the digits, or of the
    first character when that is a zero; there is none without padding. *)
Definition signed (a : Z) (w : nat) (zp : bool) : list Z :=
  if 0 <=? a then padded 10 a w zp
  else if zp then MINUS :: tail (padded 10 (- a) w zp)
  else match (w - length (numeral 10 (- a)))%nat with
       | O => numeral 10 (- a)
       | S k => replicate k SPACE ++ MINUS :: numeral 10 (- a)
       end.

Inductive piece :=
| Lit (c : Z)
| Percent
| Chr (a : Z)
| Str (p : Z) (s : list Z)
| Dec (w : nat) (zp : bool) (a : Z)
| Uns (w : nat) (zp : bool) (a : Z)
| Hex (w : nat) (zp : bool) (a : Z).

Definition spec (w : nat) (zp : bool) (c : Z) : list Z :=
  PERCENT :: (if zp then [ZERO] else []) ++ (if (w =? 0)%nat then [] else numeral 10 (Z.of_nat w)) ++ [c].

Definition text (x : piece) : list Z :=
  match x with
  | Lit c => [c]
  | Percent => [PERCENT; PERCENT]
  | Chr _ => [PERCENT; 99]
  | Str _ _ => [PERCENT; 115]
  | Dec w zp _ => spec w zp 100
  | Uns w zp _ => spec w zp 117
  | Hex w zp _ => spec w zp 120
  end.
Definition words (x : piece) : list Z :=
  match x with Lit _ | Percent => [] | Chr a | Str a _ | Uns _ _ a | Hex _ _ a => [a] | Dec _ _ a => [u64 a] end.
Definition render (x : piece) : list Z :=
  match x with
  | Lit c => [c]
  | Percent => [PERCENT]
  | Chr a => [u8 a]
  | Str _ s => s
  | Dec w zp a => signed a w zp
  | Uns w zp a => padded 10 a w zp
  | Hex w zp a => padded 16 a w zp
  end.
Definition piece_ok (m : mem) (x : piece) : Prop :=
  match x with
  | Lit c => c <> PERCENT
  | Percent | Chr _ => True
  | Str p s => cstr m p s
  | Dec w _ a => (w <= 64)%nat /\ - 2 ^ 63 <= a < 2 ^ 63
  | Uns w _ a | Hex w _ a => (w <= 64)%nat /\ in_u 64 a
  end.

Example kprint_loses_sign : run ∅ (replicate 64 0) (chars "%d") [u64 (-5)] = Ret (chars "5", replicate 64 0).
Proof. vm_compute. reflexivity. Qed.
Example kprint_sign_over_digit : run ∅ (replicate 64 0) (chars "%02d") [u64 (-53)] = Ret (chars "-3", replicate 64 0).
Proof. vm_compute. reflexivity. Qed.
Example kprint_int : run ∅ (replicate 64 0) (chars "<%d>%04u") [u32 (-5); 7] = Ret (chars "<4294967291>0007", replicate 64 0).
Proof. vm_compute. reflexivity. Qed.

(** ** The loops *)

Lemma wr_end (pre : list Z) y g x : wr (pre ++ y :: g) (zlen pre) x = Ret ((pre ++ [x]) ++ g).
Proof.
  rewrite wr_in by (unfold zlen; rewrite length_app; cbn; lia). unfold zlen. rewrite Nat2Z.id.
  rewrite insert_app_r_alt by lia. rewrite Nat.sub_diag. cbn. by rewrite <- app_assoc.
Qed.

Lemma zlen_end (pre : list Z) x : zlen (pre ++ [x]) = zlen pre + 1.
Proof. unfold zlen. rewrite length_app. cbn. lia. Qed.

Lemma length_le_digits n b v : (length (le_digits n b v) <= n)%nat.
Proof. revert v. induction n as [| n IH]; intros v; cbn; [lia |]. destruct (v / b =? 0); cbn; [lia |]. specialize (IH (v / b)). lia. Qed.

(** The loop writes the digits behind what is there. *)
Lemma digits_loop_spec digit step b ch n : 1 < b ->
  (forall v, 0 <= v -> step v = v / b) -> (forall v, 0 <= v -> digit v = ch (v mod b)) ->
  forall fuel pre g v, 0 <= v < b ^ Z.of_nat (S n) -> (S n <= length g)%nat -> (S n <= fuel)%nat ->
  digits_loop digit step fuel (pre ++ g) (zlen pre) v =
    let ds := ch <$> le_digits (S n) b v in Ret ((pre ++ ds) ++ drop (length ds) g, zlen (pre ++ ds)).
Proof.
  intros Hb Hs Hd. induction n as [| n IH]; intros [| fuel] pre [| y g] v Hv Hg Hf; try (cbn in *; lia); cbn [digits_loop].
  - rewrite wr_end. rb. rewrite Hs, Hd by lia. change (b ^ Z.of_nat 1) with (b ^ 1) in Hv. rewrite Z.pow_1_r in Hv.
    cbn [le_digits]. rewrite Z.div_small, Z.eqb_refl by lia. cbn. by rewrite zlen_end.
  - rewrite wr_end. rb. rewrite Hs, Hd by lia. cbn [le_digits]. destruct (Z.eqb_spec (v / b) 0) as [E | E]; cbn [negb].
    + cbn. by rewrite zlen_end.
    + rewrite <- zlen_end with (x := ch (v mod b)). rewrite IH.
      * cbn [le_digits fmap list_fmap length drop]. rewrite <- !app_assoc. done.
      * split; [apply Z.div_pos; lia |]. apply Z.div_lt_upper_bound; [lia |]. rewrite <- Z.pow_succ_r by lia. replace (Z.of_nat (S (S n))) with (Z.succ (Z.of_nat (S n))) in Hv by lia. apply Hv.
      * cbn in Hg. lia.
      * lia.
Qed.

Lemma pad_loop_spec p w : forall fuel pre g, (Z.to_nat (w - zlen pre) <= length g)%nat -> (Z.to_nat (w - zlen pre) < fuel)%nat ->
  pad_loop fuel (pre ++ g) (zlen pre) w p =
    let k := Z.to_nat (w - zlen pre) in Ret ((pre ++ replicate k p) ++ drop k g, zlen (pre ++ replicate k p)).
Proof.
  induction fuel as [| fuel IH]; intros pre g Hg Hf; [lia |]. cbn [pad_loop]. pose proof (zlen_nonneg pre) as H0.
  destruct (Z.ltb_spec (zlen pre) w) as [Hlt | Hge].
  - rewrite (proj2 (Z.eqb_neq w 0)) by lia. cbn [andb negb]. set (k := Z.to_nat (w - zlen (pre ++ [p]))).
    assert (Ek : Z.to_nat (w - zlen pre) = S k) by (unfold k; rewrite zlen_end; lia). rewrite Ek in *.
    destruct g as [| y g]; [cbn in Hg; lia |]. rewrite wr_end. rb. rewrite <- zlen_end with (x := p).
    rewrite IH by (cbn in Hg; fold k; lia). fold k. cbn [replicate drop]. cbn zeta. by rewrite <- !app_assoc.
  - cbn [andb]. replace (Z.to_nat (w - zlen pre)) with 0%nat by lia. cbn. by rewrite app_nil_r.
Qed.

Lemma put_loop_spec n c : (n <= length c)%nat -> put_loop n c = Ret (rev (take n c)).
Proof.
  induction n as [| n IH]; intros Hn; cbn [put_loop]; [done |]. destruct (lookup_lt_is_Some_2 c n) as [x Hx]; [lia |].
  rewrite (proj2 (rd_Ret c (Z.of_nat n) x)) by (rewrite Nat2Z.id; split; [lia | done]). rb. rewrite IH by lia. rb.
  rewrite (take_S_r c n x Hx), rev_app_distr. done.
Qed.

Lemma put_written (a g : list Z) : put_loop (Z.to_nat (zlen a)) (a ++ g) = Ret (rev a).
Proof. unfold zlen. rewrite Nat2Z.id, put_loop_spec by (rewrite length_app; lia). by rewrite take_app_length. Qed.

(** ** Numbers on the screen *)

Definition low_chars (b v : Z) : list Z := digit_char <$> le_digits 64 b v.

Lemma rev_low_chars b v : rev (low_chars b v) = numeral b v.
Proof. unfold low_chars, numeral, digits. symmetry. apply map_rev. Qed.

Lemma length_low_chars b v : length (low_chars b v) = length (numeral b v).
Proof. by rewrite <- rev_low_chars, length_rev. Qed.

Lemma length_numeral b v : (1 <= length (numeral b v) <= 64)%nat.
Proof.
  rewrite <- length_low_chars. unfold low_chars. rewrite length_fmap. split; [| apply length_le_digits].
  change 64%nat with (S 63). cbn [le_digits length]. lia.
Qed.

Lemma le_digits_few n b v k : 1 < b -> 0 <= v < b ^ Z.of_nat (S k) -> (length (le_digits n b v) <= S k)%nat.
Proof.
  intros Hb. revert v k. induction n as [| n IH]; intros v k Hv; cbn [le_digits length]; [lia |].
  destruct (Z.eqb_spec (v / b) 0) as [E | E]; [cbn; lia |]. destruct k as [| k].
  - change (b ^ Z.of_nat 1) with (b ^ 1) in Hv. rewrite Z.pow_1_r in Hv. by rewrite Z.div_small in E by lia.
  - apply le_n_S, IH. split; [apply Z.div_pos; lia |]. apply Z.div_lt_upper_bound; [lia |]. rewrite <- Z.pow_succ_r by lia.
    replace (Z.of_nat (S (S k))) with (Z.succ (Z.of_nat (S k))) in Hv by lia. apply Hv.
Qed.

Lemma decimal_short v : in_u 64 v -> (length (numeral 10 v) <= 20)%nat.
Proof.
  unfold in_u. intros Hv. rewrite <- length_low_chars. unfold low_chars. rewrite length_fmap. apply (le_digits_few 64 10 v 19); [lia |].
  change (10 ^ Z.of_nat 20) with 100000000000000000000. lia.
Qed.

Lemma rev_replicate n (x : Z) : rev (replicate n x) = replicate n x.
Proof. induction n as [| n IH]; [done |]. rewrite replicate_S_end at 1. rewrite rev_app_distr. cbn. by rewrite IH. Qed.

(** The array after the digits and the padding. *)
Lemma filled digit step b c v w p : 1 < b -> (forall v, 0 <= v -> step v = v / b) -> (forall v, 0 <= v -> digit v = digit_char (v mod b)) ->
  in_u 64 v -> length c = 64%nat -> (w <= 64)%nat ->
  let ds := low_chars b v in let pad := replicate (w - length ds) p in
  exists c1 g, digits_loop digit step 65 c 0 v = Ret (c1, zlen ds) /\ pad_loop 65 c1 (zlen ds) (Z.of_nat w) p = Ret ((ds ++ pad) ++ g, zlen (ds ++ pad)) /\
    (length ds + length pad + length g = 64)%nat.
Proof.
  intros Hb Hs Hd Hv Hc Hw ds pad. assert (Hlen : (length ds <= 64)%nat) by (unfold ds; rewrite length_low_chars; apply length_numeral).
  assert (Hpow : 2 ^ 64 <= b ^ Z.of_nat 64) by (change (Z.of_nat 64) with 64; apply Z.pow_le_mono_l; lia).
  exists (ds ++ drop (length ds) c), (drop (length pad) (drop (length ds) c)). split.
  - apply (digits_loop_spec digit step b digit_char 63 Hb Hs Hd 65 [] c v); [unfold in_u in Hv |..]; cbn [length]; lia.
  - assert (Ek : Z.to_nat (Z.of_nat w - zlen ds) = length pad) by (unfold pad, zlen; rewrite length_replicate; lia).
    rewrite pad_loop_spec; rewrite ?Ek; [| rewrite ?length_drop; unfold pad; rewrite length_replicate; lia ..].
    cbn zeta. replace (replicate (length pad) p) with pad by (unfold pad; by rewrite length_replicate). split; [done |].
    rewrite !length_drop. unfold pad. rewrite length_replicate. lia.
Qed.

Lemma rev_padded b v w (zp : bool) : rev (low_chars b v ++ replicate (w - length (low_chars b v)) (if zp then ZERO else SPACE)) = padded b v w zp.
Proof. rewrite rev_app_distr, rev_low_chars, length_low_chars. unfold padded. f_equal. apply rev_replicate. Qed.

Lemma dec_digit_char v : 0 <= v -> dec_digit v = digit_char (v mod 10).
Proof. intros Hv. unfold dec_digit, digit_char, ZERO. rewrite ltb_true by (apply Z.mod_pos_bound; lia). lia. Qed.

Lemma hex_digit_char v : 0 <= v -> hex_digit v = digit_char (v mod 16).
Proof.
  intros Hv. unfold hex_digit. change 0xf with (Z.ones 4). rewrite Z.land_ones by lia. change (2 ^ 4) with 16.
  pose proof (Z.mod_pos_bound v 16 eq_refl) as Hk. set (k := v mod 16) in *. clearbody k.
  assert (Hin : k ∈ [0; 1; 2; 3; 4; 5; 6; 7; 8; 9; 10; 11; 12; 13; 14; 15]) by (rewrite !elem_of_cons; lia).
  repeat (apply elem_of_cons in Hin as [-> | Hin]; [vm_compute; reflexivity |]). by apply elem_of_nil in Hin.
Qed.

Lemma print_unsigned v w zp : in_u 64 v -> (w <= 64)%nat -> print_integer v (Z.of_nat w) 0 zp = Ret (padded 10 v w zp).
Proof.
  intros Hv Hw. destruct (filled dec_digit dec_step 10 (replicate 64 0) v w (if zp then ZERO else SPACE)) as (c1 & g & E1 & E2 & _);
    [lia | done | exact dec_digit_char | done | done | done |].
  unfold print_integer. rewrite E1. rb. rewrite E2. rb. change (0 =? -1) with false. cbn iota. rb. by rewrite put_written, rev_padded.
Qed.

Lemma print_hex_spec sc v w zp : in_u 64 v -> (w <= 64)%nat -> length sc = 64%nat ->
  exists sc', print_hex sc v (Z.of_nat w) zp = Ret (padded 16 v w zp, sc') /\ length sc' = 64%nat.
Proof.
  intros Hv Hw Hsc. destruct (filled hex_digit hex_step 16 sc v w (if zp then ZERO else SPACE)) as (c1 & g & E1 & E2 & Hg);
    [lia | | exact hex_digit_char | done | done | done |].
  { intros u Hu. unfold hex_step. by rewrite Z.shiftr_div_pow2. }
  unfold print_hex. rewrite E1. rb. rewrite E2. rb. rewrite put_written, rev_padded. rb. eexists. split; [done |]. rewrite !length_app. lia.
Qed.

Lemma print_negative v w zp : in_u 64 v -> 0 < v -> (w <= 64)%nat -> print_integer v (Z.of_nat w) (-1) zp = Ret (signed (- v) w zp).
Proof.
  intros Hv Hpos Hw. destruct (filled dec_digit dec_step 10 (replicate 64 0) v w (if zp then ZERO else SPACE)) as (c1 & g & E1 & E2 & Hg);
    [lia | done | exact dec_digit_char | done | done | done |].
  unfold print_integer. rewrite E1. rb. rewrite E2. rb. rewrite Z.eqb_refl. unfold signed. rewrite leb_false, Z.opp_involutive by lia.
  pose proof (decimal_short v Hv) as Hd. rewrite <- length_low_chars in Hd. destruct zp.
  - rewrite <- rev_padded. set (all := low_chars 10 v ++ _) in *. destruct (exists_last (l := all)) as (l & x & E).
    { unfold all. pose proof (length_numeral 10 v) as Hn. rewrite <- length_low_chars in Hn. destruct (low_chars 10 v); [cbn in Hn; lia | done]. }
    rewrite E. replace (zlen (l ++ [x]) - 1) with (zlen l) by (rewrite zlen_end; lia). rewrite <- app_assoc. cbn [app].
    rewrite wr_end. rb. rewrite zlen_end, <- zlen_end with (x := MINUS). by rewrite put_written, !rev_app_distr.
  - rewrite length_low_chars in *. destruct (w - length (numeral 10 v))%nat as [| k]; cbn [replicate] in *.
    + rewrite app_nil_r in *. destruct g as [| y g]; [cbn [length] in Hg; lia |]. rewrite wr_end. rb. rewrite <- app_assoc. by rewrite put_written, rev_low_chars.
    + rewrite <- app_assoc. cbn [app]. rewrite wr_end. rb. rewrite app_assoc.
      replace (zlen (low_chars 10 v ++ SPACE :: replicate k SPACE)) with (zlen ((low_chars 10 v ++ [MINUS]) ++ replicate k SPACE))
        by (unfold zlen; rewrite !length_app; cbn; lia).
      rewrite put_written, !rev_app_distr, rev_low_chars. cbn [rev app]. by rewrite rev_replicate.
Qed.

Lemma of_digits_digits b v : 1 < b -> in_u 64 v -> of_digits b (digits b v) = v.
Proof.
  intros Hb Hv. assert (G : forall n u, 0 <= u < b ^ Z.of_nat (S n) -> of_digits b (rev (le_digits (S n) b u)) = u).
  { induction n as [| n IH]; intros u Hu.
    - change (b ^ Z.of_nat 1) with (b ^ 1) in Hu. rewrite Z.pow_1_r in Hu. cbn [le_digits]. rewrite Z.div_small, Z.eqb_refl by lia. cbn.
      rewrite Z.mod_small; lia.
    - change (le_digits (S (S n)) b u) with (u mod b :: (if u / b =? 0 then [] else le_digits (S n) b (u / b))).
      cbn [rev]. unfold of_digits. rewrite foldl_app. cbn [foldl]. pose proof (Z.div_mod u b ltac:(lia)) as E.
      destruct (Z.eqb_spec (u / b) 0) as [E0 | E0]; [cbn; lia |]. change (of_digits b (rev (le_digits (S n) b (u / b))) * b + u mod b = u). rewrite IH; [lia |].
      split; [apply Z.div_pos; lia |]. apply Z.div_lt_upper_bound; [lia |]. rewrite <- Z.pow_succ_r by lia.
      replace (Z.of_nat (S (S n))) with (Z.succ (Z.of_nat (S n))) in Hu by lia. apply Hu. }
  apply (G 63%nat). change (Z.of_nat 64) with 64. unfold in_u in Hv. pose proof (Z.pow_le_mono_l 2 b 64). lia.
Qed.

(** ** The interpreter *)

Lemma puts_loop_cstr m s : forall p, cstr m p s -> puts_loop (length s) m p = Ret s.
Proof.
  induction s as [| c s IH]; intros p Hs; cbn [puts_loop length]; [done |]. apply cstr_cons in Hs as (Hc & _ & Hs).
  rewrite (ld_at _ _ _ Hc). rb. by rewrite (IH _ Hs).
Qed.

Lemma tty_puts_cstr m p s : cstr m p s -> tty_puts m p = Ret s.
Proof. intros Hs. unfold tty_puts. rewrite (kstrlen_cstr m p s Hs). rb. unfold zlen. rewrite Nat2Z.id. by apply puts_loop_cstr. Qed.

(** A conversion is read as it is written. *)
Lemma spec_shape w zp c : (w <= 64)%nat -> c = 100 \/ c = 117 \/ c = 120 ->
  exists h t, spec w zp c = PERCENT :: h :: t /\ (h =? PERCENT) = false /\ (h =? 99) = false /\ (h =? 115) = false /\
    forall rest, parse_spec (h :: t ++ rest) = (zp, Z.of_nat w, c :: rest).
Proof.
  intros Hw Hc. do 65 (destruct w as [| w]; [destruct Hc as [-> | [-> | ->]]; destruct zp; (do 2 eexists); repeat split; vm_compute; reflexivity |]).
  lia.
Qed.

Definition after (m : mem) (t : list Z) (fuel : nat) (sc fmt args : list Z) : out (list Z * list Z) :=
  '(l, sc) ← va_kprint fuel m sc fmt args; mret (t ++ l, sc).

Lemma step_spec m fuel sc fmt args w zp c t sc' a : (w <= 64)%nat -> c = 100 \/ c = 117 \/ c = 120 ->
  convert sc c (Z.of_nat w) zp (a :: args) = Ret (t, sc', args) ->
  va_kprint (S fuel) m sc (spec w zp c ++ fmt) (a :: args) = after m t fuel sc' fmt args.
Proof.
  intros Hw Hc E. destruct (spec_shape w zp c Hw Hc) as (h & t0 & -> & H1 & H2 & H3 & Hp).
  cbn [app va_kprint]. rewrite Z.eqb_refl. cbn [negb]. rewrite H1, H2, H3, Hp, E. rb. done.
Qed.

Lemma u64_s64 a : - 2 ^ 63 <= a < 2 ^ 63 -> s64 (u64 a) = a.
Proof.
  intros Ha. unfold s64, swrap, u64, wrap. rewrite Z.mod_mod by lia. change (2 ^ (64 - 1)) with (2 ^ 63).
  destruct (Z.ltb_spec (a mod 2 ^ 64) (2 ^ 63)); Z.to_euclidean_division_equations; lia.
Qed.

Lemma step_piece m x fuel sc fmt args : piece_ok m x -> length sc = 64%nat ->
  exists sc', length sc' = 64%nat /\ va_kprint (S fuel) m sc (text x ++ fmt) (words x ++ args) = after m (render x) fuel sc' fmt args.
Proof.
  intros Hx Hsc. destruct x as [c | | a | p s | w zp a | w zp a | w zp a]; cbn [text words render app].
  - exists sc. split; [done |]. cbn [va_kprint]. by rewrite (proj2 (Z.eqb_neq c PERCENT)).
  - exists sc. done.
  - exists sc. done.
  - exists sc. split; [done |]. cbn in Hx. change (va_kprint (S fuel) m sc (PERCENT :: 115 :: fmt) (p :: args)) with
      (t ← tty_puts m p; '(l, sc) ← va_kprint fuel m sc fmt args; mret (t ++ l, sc)). by rewrite (tty_puts_cstr _ _ _ Hx).
  - destruct Hx as [Hw Ha]. exists sc. split; [done |]. apply step_spec; [done | by left |]. unfold convert. change (100 =? 100) with true. cbn [va_arg]. rb.
    rewrite u64_s64 by done. unfold signed. destruct (Z.ltb_spec a 0) as [Hneg | Hpos].
    + unfold u64. rewrite wrap_small by (unfold in_u; lia). change (- (1)) with (-1). rewrite print_negative by (unfold in_u; lia).
      unfold signed. by rewrite Z.opp_involutive.
    + unfold u64. rewrite wrap_small by (unfold in_u; lia). change (- 0) with 0. rewrite print_unsigned by (unfold in_u; lia). by rewrite leb_true by lia.
  - destruct Hx as [Hw Ha]. exists sc. split; [done |]. apply step_spec; [done | by right; left |]. unfold convert. change (117 =? 100) with false.
    change (117 =? 117) with true. cbn [va_arg]. rb. by rewrite print_unsigned.
  - destruct Hx as [Hw Ha]. destruct (print_hex_spec sc a w zp Ha Hw Hsc) as (sc' & E & Hsc'). exists sc'. split; [done |].
    apply step_spec; [done | by right; right |]. unfold convert. change (120 =? 100) with false. change (120 =? 117) with false.
    change (120 =? 120) with true. cbn [va_arg]. rb. by rewrite E.
Qed.

Lemma text_nonempty x : (1 <= length (text x))%nat.
Proof. destruct x; cbn; lia. Qed.

Lemma run_pieces m ps : forall fuel sc, Forall (piece_ok m) ps -> length sc = 64%nat -> (length (concat (text <$> ps)) < fuel)%nat ->
  exists sc', va_kprint fuel m sc (concat (text <$> ps)) (concat (words <$> ps)) = Ret (concat (render <$> ps), sc') /\ length sc' = 64%nat.
Proof.
  induction ps as [| x ps IH]; intros [| fuel] sc Hok Hsc Hf; try lia; [by exists sc |].
  inversion_clear Hok as [| ? ? Hx Hps]. cbn [fmap list_fmap concat] in *. rewrite length_app in Hf. pose proof (text_nonempty x).
  destruct (step_piece m x fuel sc (concat (text <$> ps)) (concat (words <$> ps)) Hx Hsc) as (sc1 & Hsc1 & E).
  destruct (IH fuel sc1 Hps Hsc1 ltac:(unfold fmap in *; lia)) as (sc2 & E2 & Hsc2). exists sc2. split; [| done].
  unfold fmap in *. rewrite E. unfold after. by rewrite E2.
Qed.


End Kprint.
