(* ===== verification/Vga.v ===== *)
(** * The text screen (drivers/gfx/vga.c)

    The video memory, the cursor, and the characters that move it.  The
    memory is a map from the index of a word to the word; the code has no
    bound on the index. *)

From S2P Require Import Prelude Util Kprint.

Module Vga.

Definition VGA_COLOR_BLACK : Z := 0.
Definition VGA_COLOR_LIGHT_GREEN : Z := 10.
Definition VGA_WIDTH : Z := 80.
Definition VGA_HEIGHT : Z := 25.
Definition NL : Z := 10.
Definition BS : Z := 8.
Definition TAB : Z := 9.

Record vga := mk_vga { vga_buffer : gmap Z Z; term_color : Z; term_row : Z; term_col : Z }.
Definition set_buffer (b : gmap Z Z) (s : vga) : vga := mk_vga b (term_color s) (term_row s) (term_col s).
Definition set_cursor (row col : Z) (s : vga) : vga := mk_vga (vga_buffer s) (term_color s) (u64 row) (u64 col).
Definition word (s : vga) (i : Z) : Z := default 0 (vga_buffer s !! i).

(** [char] is signed. *)
Definition entry (c color : Z) : Z := u16 (Z.lor (s8 c) (Z.shiftl color 8)).
Definition tty_entry (s : vga) (c color x y : Z) : vga := set_buffer (<[u64 (y * VGA_WIDTH + x) := entry c color]> (vga_buffer s)) s.

Fixpoint init_col (n : nat) (x y : Z) (s : vga) : vga :=
  match n with O => s | S n => init_col n x (y + 1) (tty_entry s 0 (term_color s) x y) end.
Fixpoint init_cols (n : nat) (x : Z) (s : vga) : vga :=
  match n with O => s | S n => init_cols n (x + 1) (init_col (Z.to_nat VGA_HEIGHT) x 0 s) end.
Definition vga_init (s : vga) : vga :=
  init_cols (Z.to_nat VGA_WIDTH) 0 (mk_vga (vga_buffer s) (Z.lor VGA_COLOR_LIGHT_GREEN (Z.shiftl VGA_COLOR_BLACK 4)) 0 0).

Fixpoint put_tab (n : nat) (s : vga) : vga :=
  match n with O => s | S n => put_tab n (set_cursor (term_row s) (term_col s + 1) (tty_entry s 32 (term_color s) (term_col s) (term_row s))) end.

(** The rows from [row] on move up by one; [n] columns of the row are left. *)
Fixpoint move_row (n : nat) (row col : Z) (s : vga) : vga :=
  match n with
  | O => s
  | S n => move_row n row (col + 1) (set_buffer (<[VGA_WIDTH * row + col - VGA_WIDTH := word s (VGA_WIDTH * row + col)]> (vga_buffer s)) s)
  end.
Fixpoint move_rows (width n : nat) (row : Z) (s : vga) : vga :=
  match n with O => s | S n => move_rows width n (row + 1) (move_row width row 0 s) end.

Fixpoint clear_row (n : nat) (col : Z) (s : vga) : vga :=
  match n with
  | O => s
  | S n => clear_row n (col + 1) (set_buffer (<[VGA_WIDTH * term_row s + col := u16 (Z.shiftl (term_color s) 8)]> (vga_buffer s)) s)
  end.

Definition put_glyph (s : vga) (c : Z) : vga :=
  if c =? NL then set_cursor (term_row s + 1) 0 s
  else if c =? BS then set_cursor (term_row s) (term_col s - 1) (tty_entry s 0 (term_color s) (term_col s) (term_row s))
  else if c =? TAB then put_tab 4 s
  else set_cursor (term_row s) (term_col s + 1) (tty_entry s c (term_color s) (term_col s) (term_row s)).

Definition scroll (s : vga) (c : Z) : vga :=
  let s := move_rows (Z.to_nat VGA_WIDTH) (Z.to_nat (VGA_HEIGHT - 1)) 1 s in
  let s := set_cursor (VGA_HEIGHT - 1) (term_col s) s in
  if c =? NL then clear_row (Z.to_nat VGA_WIDTH) 0 s else s.

Definition vga_put_char (s : vga) (c : Z) : vga :=
  let s := put_glyph s c in
  let s := if VGA_WIDTH <=? term_col s then set_cursor (term_row s + 1) 0 s else s in
  if VGA_HEIGHT <=? term_row s then scroll s c else s.

Definition put_chars (s : vga) (l : list Z) : vga := foldl vga_put_char s l.

(** The string is in the memory of Util. *)
Definition vga_put_str (s : vga) (m : Util.mem) (p : Z) : out vga := l ← Kprint.tty_puts m p; mret (put_chars s l).

(** ** The screen as rows *)

Definition on_screen (s : vga) : Prop := 0 <= term_row s < VGA_HEIGHT /\ 0 <= term_col s < VGA_WIDTH.
Definition row_of (s : vga) (r : nat) : list Z := (fun c => word s (VGA_WIDTH * Z.of_nat r + Z.of_nat c)) <$> seq 0 80.
Definition screen (s : vga) : list (list Z) := row_of s <$> seq 0 25.

(** A text in a row: its characters, then what the row had. *)
Definition over (color : Z) (text row : list Z) : list Z := ((fun c => entry c color) <$> text) ++ drop (length text) row.
Definition blank (color : Z) : list Z := replicate 80 (u16 (Z.shiftl color 8)).

Definition plain (c : Z) : Prop := c <> NL /\ c <> BS /\ c <> TAB.

(** ** The loops *)

Lemma word_set b s i : word (set_buffer b s) i = default 0 (b !! i).
Proof. done. Qed.

Lemma word_insert j x s i : word (set_buffer (<[j := x]> (vga_buffer s)) s) i = if i =? j then x else word s i.
Proof. unfold word. cbn. destruct (Z.eqb_spec i j) as [-> | Hne]; [by rewrite lookup_insert_eq | by rewrite lookup_insert_ne]. Qed.

(** What an operation leaves alone. *)
Definition same_cursor (s s' : vga) : Prop := term_color s' = term_color s /\ term_row s' = term_row s /\ term_col s' = term_col s.

Lemma move_row_spec n row col s : 0 <= row -> 0 <= col ->
  same_cursor s (move_row n row col s) /\
  (forall i, VGA_WIDTH * row + col + Z.of_nat n <= VGA_WIDTH * row + VGA_WIDTH -> word (move_row n row col s) i =
    if (VGA_WIDTH * row + col - VGA_WIDTH <=? i) && (i <? VGA_WIDTH * row + col - VGA_WIDTH + Z.of_nat n) then word s (i + VGA_WIDTH) else word s i).
Proof.
  unfold VGA_WIDTH. revert col s. induction n as [| n IH]; intros col s Hr Hc; cbn [move_row].
  - split; [done |]. intros i _. destruct (Z.leb_spec (80 * row + col - 80) i), (Z.ltb_spec i (80 * row + col - 80 + Z.of_nat 0)); done || lia.
  - destruct (IH (col + 1) (set_buffer (<[VGA_WIDTH * row + col - VGA_WIDTH := word s (VGA_WIDTH * row + col)]> (vga_buffer s)) s)) as [Hk Hw]; [lia | lia |].
    split; [done |]. intros i Hn. rewrite Hw by lia. rewrite !word_insert. unfold VGA_WIDTH.
    destruct (Z.eqb_spec i (80 * row + col - 80)) as [-> | Hi]; zb; try lia; try done; f_equal; lia.
Qed.

Lemma move_row_whole width row s : Z.of_nat width = VGA_WIDTH -> 1 <= row ->
  same_cursor s (move_row width row 0 s) /\
  (forall i, word (move_row width row 0 s) i =
    if (VGA_WIDTH * (row - 1) <=? i) && (i <? VGA_WIDTH * row) then word s (i + VGA_WIDTH) else word s i).
Proof.
  intros Ew Hr. destruct (move_row_spec width row 0 s) as [Hk Hw]; [lia | lia |]. split; [exact Hk |]. intros i.
  rewrite Hw by (rewrite Ew; unfold VGA_WIDTH; lia). rewrite Ew. unfold VGA_WIDTH. zb; try lia; reflexivity.
Qed.

Lemma move_rows_spec width n row s : Z.of_nat width = VGA_WIDTH -> 1 <= row ->
  same_cursor s (move_rows width n row s) /\
  (forall i, word (move_rows width n row s) i =
    if (VGA_WIDTH * (row - 1) <=? i) && (i <? VGA_WIDTH * (row - 1) + VGA_WIDTH * Z.of_nat n) then word s (i + VGA_WIDTH) else word s i).
Proof.
  intros Ew. revert row s. induction n as [| n IH]; intros row s Hr; cbn [move_rows].
  - split; [done |]. intros i. unfold VGA_WIDTH. zb; done || lia.
  - destruct (move_row_whole width row s Ew Hr) as [(Kc & Kr & Kl) Hw1]. set (s1 := move_row _ row 0 s) in *. clearbody s1.
    destruct (IH (row + 1) s1) as [(Kc2 & Kr2 & Kl2) Hw2]; [lia |]. split; [split_and!; congruence |].
    intros i. rewrite Hw2, !Hw1. unfold VGA_WIDTH. zb; try lia; try done; f_equal; lia.
Qed.

Lemma clear_row_spec n col s :
  same_cursor s (clear_row n col s) /\
  (forall i, word (clear_row n col s) i =
    if (VGA_WIDTH * term_row s + col <=? i) && (i <? VGA_WIDTH * term_row s + col + Z.of_nat n) then u16 (Z.shiftl (term_color s) 8) else word s i).
Proof.
  revert col s. induction n as [| n IH]; intros col s; cbn [clear_row].
  - split; [done |]. intros i. unfold VGA_WIDTH. zb; done || lia.
  - destruct (IH (col + 1) (set_buffer (<[VGA_WIDTH * term_row s + col := u16 (Z.shiftl (term_color s) 8)]> (vga_buffer s)) s)) as [Hk Hw].
    split; [done |]. intros i. rewrite Hw, word_insert. cbn [term_row term_color set_buffer]. unfold VGA_WIDTH. zb; done || lia.
Qed.

(** ** Characters *)

Lemma u64_id z : 0 <= z < 2 ^ 64 -> u64 z = z.
Proof. apply wrap_small. Qed.

Lemma put_tab_cursor n s : 0 <= term_row s < VGA_HEIGHT -> 0 <= term_col s < 2 ^ 32 -> (n <= 4)%nat ->
  term_row (put_tab n s) = term_row s /\ term_col (put_tab n s) = term_col s + Z.of_nat n.
Proof.
  unfold VGA_HEIGHT. assert (G : forall k u, 0 <= term_row u < 25 -> 0 <= term_col u -> term_col u + Z.of_nat k < 2 ^ 33 ->
      term_row (put_tab k u) = term_row u /\ term_col (put_tab k u) = term_col u + Z.of_nat k).
  { induction k as [| k IH]; intros u Hr Hc Hs; cbn [put_tab]; [split; [done | lia] |].
    destruct (IH (set_cursor (term_row u) (term_col u + 1) (tty_entry u 32 (term_color u) (term_col u) (term_row u)))) as [E1 E2];
      cbn [term_row term_col set_cursor] in *; rewrite !u64_id in * by lia; lia. }
  intros Hr Hc Hn. apply G; lia.
Qed.

Lemma scroll_cursor s c : 0 <= term_col s < VGA_WIDTH -> on_screen (scroll s c).
Proof.
  unfold on_screen, scroll. intros Hc. destruct (move_rows_spec (Z.to_nat VGA_WIDTH) (Z.to_nat (VGA_HEIGHT - 1)) 1 s) as [(_ & _ & Kc) _]; [done | lia |].
  set (s1 := move_rows _ _ _ s) in *. clearbody s1. assert (Hs : term_row (set_cursor (VGA_HEIGHT - 1) (term_col s1) s1) = 24 /\
    term_col (set_cursor (VGA_HEIGHT - 1) (term_col s1) s1) = term_col s).
  { cbn. rewrite Kc. unfold VGA_WIDTH in Hc. split; [done |]. apply u64_id. lia. }
  destruct (c =? NL); [| unfold VGA_HEIGHT in *; lia].
  destruct (clear_row_spec (Z.to_nat VGA_WIDTH) 0 (set_cursor (VGA_HEIGHT - 1) (term_col s1) s1)) as [(_ & Kr2 & Kc2) _]. unfold VGA_HEIGHT in *. lia.
Qed.

(** Whatever is put, the cursor stays on the screen. *)
Lemma put_char_on_screen s c : on_screen s -> on_screen (vga_put_char s c).
Proof.
  intros [Hr Hc]. unfold vga_put_char.
  assert (Hg : 0 <= term_row (put_glyph s c) <= VGA_HEIGHT /\ 0 <= term_col (put_glyph s c) /\
    (VGA_WIDTH <= term_col (put_glyph s c) -> term_row (put_glyph s c) < VGA_HEIGHT)).
  { unfold put_glyph, VGA_HEIGHT, VGA_WIDTH in *. destruct (c =? NL); [| destruct (c =? BS); [| destruct (c =? TAB)]].
    - cbn. rewrite !u64_id by lia. lia.
    - cbn. rewrite (u64_id (term_row s)) by lia. pose proof (wrap_range 64 (term_col s - 1) ltac:(lia)) as Hw. unfold in_u, u64 in *. lia.
    - destruct (put_tab_cursor 4 s) as [-> ->]; unfold VGA_HEIGHT; lia.
    - cbn. rewrite !u64_id by lia. lia. }
  set (s1 := put_glyph s c) in *. clearbody s1. unfold VGA_HEIGHT, VGA_WIDTH in *. destruct (Z.leb_spec 80 (term_col s1)) as [Hge | Hlt].
  - destruct (Z.leb_spec 25 (term_row (set_cursor (term_row s1 + 1) 0 s1))) as [Hrow | Hrow]; [apply scroll_cursor; split; vm_compute; [discriminate | reflexivity] |].
    cbn in Hrow. unfold on_screen. cbn. rewrite u64_id in * by lia. unfold VGA_HEIGHT. change (u64 0) with 0. unfold VGA_WIDTH. lia.
  - destruct (Z.leb_spec 25 (term_row s1)); [apply scroll_cursor; unfold VGA_WIDTH; lia |]. unfold on_screen, VGA_HEIGHT, VGA_WIDTH. lia.
Qed.

Lemma put_plain s c : on_screen s -> plain c -> term_col s + 1 < VGA_WIDTH ->
  vga_put_char s c = set_cursor (term_row s) (term_col s + 1) (tty_entry s c (term_color s) (term_col s) (term_row s)).
Proof.
  unfold on_screen, VGA_HEIGHT, VGA_WIDTH. intros [Hr Hc] (H1 & H2 & H3) Hw. unfold vga_put_char, put_glyph.
  rewrite (proj2 (Z.eqb_neq c NL)), (proj2 (Z.eqb_neq c BS)), (proj2 (Z.eqb_neq c TAB)) by done. cbn [term_col term_row set_cursor].
  rewrite (u64_id (term_col s + 1)) by lia.
  rewrite (leb_false VGA_WIDTH) by (unfold VGA_WIDTH; lia). cbn [term_row set_cursor]. rewrite (u64_id (term_row s)) by lia.
  by rewrite (leb_false VGA_HEIGHT) by (unfold VGA_HEIGHT; lia).
Qed.

(** A text that fits in the row. *)
Lemma put_text text : forall s, on_screen s -> Forall plain text -> term_col s + zlen text < VGA_WIDTH ->
  let s' := put_chars s text in
  term_color s' = term_color s /\ term_row s' = term_row s /\ term_col s' = term_col s + zlen text /\
  forall i, word s' i = let k := i - (VGA_WIDTH * term_row s + term_col s) in
    if (0 <=? k) && (k <? zlen text) then entry (default 0 (text !! Z.to_nat k)) (term_color s) else word s i.
Proof.
  induction text as [| c text IH]; intros s Hs Ht Hw.
  - cbn. split_and!; [done | done | unfold zlen; cbn; lia |]. intros i. unfold zlen. cbn. zb; done || lia.
  - inversion_clear Ht as [| ? ? Hc Htext]. unfold put_chars. cbn [foldl]. unfold zlen in Hw. cbn [length] in Hw.
    rewrite (put_plain s c) by (done || lia). set (s1 := set_cursor _ _ _). destruct Hs as [Hr Hcol]. unfold VGA_WIDTH, VGA_HEIGHT in *.
    assert (E1 : term_row s1 = term_row s) by (cbn; apply u64_id; lia). assert (E2 : term_col s1 = term_col s + 1) by (cbn; apply u64_id; lia).
    destruct (IH s1) as (Kc & Kr & Kl & Hwd); [unfold on_screen, VGA_WIDTH, VGA_HEIGHT; lia | done | unfold zlen, VGA_WIDTH; lia |].
    fold (put_chars s1 text). cbn zeta. split_and!; [done | congruence | rewrite Kl, E2; unfold zlen; cbn; lia |]. intros i. rewrite Hwd. cbn zeta. rewrite E1, E2.
    change (word s1 i) with (word (tty_entry s c (term_color s) (term_col s) (term_row s)) i). unfold tty_entry. rewrite word_insert. unfold VGA_WIDTH.
    rewrite u64_id by lia. change (term_color s1) with (term_color s). unfold zlen. cbn [length]. set (k := i - (80 * term_row s + term_col s)).
    replace (i - (80 * term_row s + (term_col s + 1))) with (k - 1) by lia. destruct (Z.eqb_spec i (term_row s * 80 + term_col s)) as [Ei | Ei].
    + replace k with 0 by lia. cbn. zb; done || lia.
    + zb; try lia; try done. replace (Z.to_nat k) with (S (Z.to_nat (k - 1))) by lia. done.
Qed.

(** ** Rows *)

Lemma row_lookup s r j : row_of s r !! j = if (j <? 80)%nat then Some (word s (VGA_WIDTH * Z.of_nat r + Z.of_nat j)) else None.
Proof.
  unfold row_of. rewrite list_lookup_fmap. destruct (Nat.ltb_spec j 80) as [Hj | Hj].
  - by rewrite lookup_seq_lt.
  - by rewrite lookup_seq_ge.
Qed.

Lemma row_ext s s' r r' : (forall j, 0 <= j < VGA_WIDTH -> word s (VGA_WIDTH * Z.of_nat r + j) = word s' (VGA_WIDTH * Z.of_nat r' + j)) ->
  row_of s r = row_of s' r'.
Proof. intros E. apply list_eq. intros j. rewrite !row_lookup. destruct (Nat.ltb_spec j 80); [| done]. f_equal. apply E. unfold VGA_WIDTH. lia. Qed.

(** The row of the cursor with the text, and a blank row. *)
Lemma row_over s s' r text color : (length text <= 80)%nat ->
  (forall j, 0 <= j < VGA_WIDTH -> word s' (VGA_WIDTH * Z.of_nat r + j) =
     if j <? zlen text then entry (default 0 (text !! Z.to_nat j)) color else word s (VGA_WIDTH * Z.of_nat r + j)) ->
  row_of s' r = over color text (row_of s r).
Proof.
  intros Hlen E. apply list_eq. intros j. unfold over. destruct (Nat.ltb_spec j (length text)) as [Hj | Hj].
  - rewrite lookup_app_l by (by rewrite length_fmap). rewrite list_lookup_fmap, row_lookup, (proj2 (Nat.ltb_lt j 80)) by lia.
    rewrite E by (unfold VGA_WIDTH; lia). rewrite ltb_true by (unfold zlen; lia). rewrite Nat2Z.id.
    destruct (lookup_lt_is_Some_2 text j Hj) as [c ->]. done.
  - rewrite lookup_app_r by (by rewrite length_fmap). rewrite length_fmap, lookup_drop. replace (length text + (j - length text))%nat with j by lia.
    rewrite !row_lookup. destruct (Nat.ltb_spec j 80); [| done]. f_equal. rewrite E by (unfold VGA_WIDTH; lia).
    rewrite ltb_false by (unfold zlen; lia). done.
Qed.

Lemma row_blank s r color : (forall j, 0 <= j < VGA_WIDTH -> word s (VGA_WIDTH * Z.of_nat r + j) = u16 (Z.shiftl color 8)) -> row_of s r = blank color.
Proof.
  intros E. apply list_eq. intros j. rewrite row_lookup. unfold blank. destruct (Nat.ltb_spec j 80) as [Hj | Hj].
  - rewrite lookup_replicate_2 by done. rewrite E by (unfold VGA_WIDTH; lia). done.
  - symmetry. apply lookup_replicate_None. lia.
Qed.

Lemma screen_one s s' k x : (forall r, row_of s' r = if (r =? k)%nat then x else row_of s r) -> screen s' = <[k := x]> (screen s).
Proof.
  intros E. apply list_eq. intros r. unfold screen. rewrite list_lookup_fmap. destruct (Nat.ltb_spec r 25) as [Hr | Hr].
  - rewrite lookup_seq_lt by done. cbn [fmap option_fmap option_map]. rewrite Nat.add_0_l, E. destruct (Nat.eqb_spec r k) as [-> | Hne].
    + rewrite list_lookup_insert_eq; [done |]. by rewrite length_fmap, length_seq.
    + rewrite list_lookup_insert_ne by done. by rewrite list_lookup_fmap, lookup_seq_lt.
  - rewrite lookup_seq_ge by done. symmetry. apply lookup_ge_None. by rewrite length_insert, length_fmap, length_seq.
Qed.

Lemma screen_up s s' x : (forall r, (r < 24)%nat -> row_of s' r = row_of s (S r)) -> row_of s' 24 = x -> screen s' = tail (screen s) ++ [x].
Proof. intros E <-. unfold screen. cbn [seq fmap list_fmap tail app]. rewrite !E by lia. done. Qed.

(** A new line on a row that is not the last one, and on the last one. *)
Lemma newline_cases s : on_screen s ->
  vga_put_char s NL = if term_row s <? 24 then set_cursor (term_row s + 1) 0 s else scroll (set_cursor (term_row s + 1) 0 s) NL.
Proof.
  intros [Hr _]. unfold vga_put_char, put_glyph, VGA_HEIGHT in *. rewrite Z.eqb_refl. set (s0 := set_cursor _ _ s).
  assert (E1 : (VGA_WIDTH <=? term_col s0) = false) by done. assert (E2 : (25 <=? term_row s0) = negb (term_row s <? 24)).
  { cbn. rewrite u64_id by lia. zb; lia || (destruct (Z.ltb_spec (term_row s) 24); [apply leb_false | apply leb_true]; cbn; lia). }
  cbn zeta. rewrite E1, E2. by destruct (term_row s <? 24).
Qed.

Lemma scroll_spec width n s : Z.of_nat width = VGA_WIDTH -> Z.of_nat n = 24 ->
  let s1 := move_rows width n 1 s in let s' := clear_row width 0 (set_cursor 24 (term_col s1) s1) in
  term_row s' = 24 /\ term_col s' = u64 (term_col s) /\ term_color s' = term_color s /\
  forall i, word s' i = if (0 <=? i) && (i <? 1920) then word s (i + 80) else
    if (1920 <=? i) && (i <? 2000) then u16 (Z.shiftl (term_color s) 8) else word s i.
Proof.
  intros Ew En s1. destruct (move_rows_spec width n 1 s Ew) as [(Kc & Kr & Kl) Hw]; [lia |]. fold s1 in Kc, Kr, Kl, Hw. clearbody s1.
  destruct (clear_row_spec width 0 (set_cursor 24 (term_col s1) s1)) as [(Kc2 & Kr2 & Kl2) Hw2]. cbn zeta. set (s' := clear_row _ _ _) in *. clearbody s'.
  cbn in Kc2, Kr2, Kl2. split; [done |]. split; [by rewrite Kl2, Kl |]. split; [congruence |]. intros i. rewrite Hw2, Ew.
  change (word (set_cursor 24 (term_col s1) s1) i) with (word s1 i). rewrite Hw, En. cbn [term_row term_color set_cursor]. rewrite Kc. change (u64 24) with 24. unfold VGA_WIDTH.
  zb; done || lia.
Qed.

Lemma put_newline_last s : on_screen s -> term_row s = 24 -> let s' := vga_put_char s NL in
  term_row s' = 24 /\ term_col s' = 0 /\ term_color s' = term_color s /\
  forall i, word s' i = if (0 <=? i) && (i <? 1920) then word s (i + 80) else if (1920 <=? i) && (i <? 2000) then u16 (Z.shiftl (term_color s) 8) else word s i.
Proof.
  intros Hs H24. cbn zeta. rewrite newline_cases, H24 by done. change (24 <? 24) with false. cbn iota. unfold scroll. rewrite Z.eqb_refl.
  apply (scroll_spec (Z.to_nat VGA_WIDTH) (Z.to_nat (VGA_HEIGHT - 1)) (set_cursor (24 + 1) 0 s)); reflexivity.
Qed.


Definition sample_vga : vga := mk_vga ∅ 10 24 0.

End Vga.
