(* ===== verification/Vbe.v ===== *)
(** * The graphics screen (drivers/gfx/vbe.c)

    Characters drawn from a font of 8 by 16 pixels, on the linear frame
    buffer of the card or through its window of banks.  The card is hardware:
    the class [Card] states what its memory promises. *)

From S2P Require Import Prelude.

Module Vbe.

Definition DISPLAY_WIDTH : Z := 1024.
Definition DISPLAY_BITDEPTH : Z := 8.
Definition DISPLAY_FG_COLOR : Z := 0x22.
Definition DISPLAY_BG_COLOR : Z := 0xff.
Definition CURSOR_FG_COLOR : Z := 0xff.
Definition CURSOR_BG_COLOR : Z := 0x22.
Definition ROWS_PER_BANK : Z := 64.
Definition LAST_BANK : Z := 12.
Definition LINE_SIZE : Z := 16384.
Definition NL : Z := 10.
Definition BS : Z := 8.
Definition TAB : Z := 9.
Definition SPACE : Z := 32.

(** The bytes from [vga_mem] on; [set_bank] moves the window of a card
    without linear frame buffer. *)
Class Card (W : Type) := {
  get : W -> Z -> Z;
  put : Z -> Z -> W -> W;
  set_bank : Z -> W -> W;
  put_law : forall w i v j, get (put i v w) j = if j =? i then v else get w j
}.

Section vbe.
Context {W : Type} `{Card W}.

(** [ready]: [vga_mem] is set; [font] is [font_map], a page. *)
Record vbe := mk_vbe { lfb : bool; ready : bool; card : W; font : list Z; line0 : list Z; line1 : list Z; cur_x : Z; cur_y : Z; cur_bank : Z }.
Definition set_card (w : W) (s : vbe) : vbe := mk_vbe (lfb s) (ready s) w (font s) (line0 s) (line1 s) (cur_x s) (cur_y s) (cur_bank s).
Definition set_cur (x y : Z) (s : vbe) : vbe := mk_vbe (lfb s) (ready s) (card s) (font s) (line0 s) (line1 s) (u32 x) (u32 y) (cur_bank s).
Definition set_lines (a b : list Z) (s : vbe) : vbe := mk_vbe (lfb s) (ready s) (card s) (font s) a b (cur_x s) (cur_y s) (cur_bank s).
Definition on_card (f : W -> W) (s : vbe) : vbe := set_card (f (card s)) s.

Definition vbe_set_bank (num : Z) (s : vbe) : vbe :=
  mk_vbe (lfb s) (ready s) (set_bank (u16 num) (card s)) (font s) (line0 s) (line1 s) (cur_x s) (cur_y s) (u16 num).

(** ** Drawing *)

Definition vbe_putpixel (color y x : Z) (w : W) : W := put (u32 (y * DISPLAY_WIDTH + x - 1)) (u8 color) w.

Definition glyph (f : list Z) (c cy : Z) : Z := nth (Z.to_nat (u8 c * 16 + cy)) f 0.

(** [n] columns of the row are left, and [n] rows. *)
Fixpoint draw_row (n : nat) (row y x cx fg bg : Z) (w : W) : W :=
  match n with
  | O => w
  | S n => draw_row n row y x (cx + 1) fg bg
             (vbe_putpixel (if negb (Z.land row (2 ^ cx) =? 0) then fg else bg) y (u32 (x + 8 - cx)) w)
  end.
Fixpoint draw_rows (n : nat) (f : list Z) (c y x cy fg bg : Z) (w : W) : W :=
  match n with
  | O => w
  | S n => draw_rows n f c y x (cy + 1) fg bg (draw_row 8 (glyph f c cy) (u32 (y + cy)) x 0 fg bg w)
  end.
Definition vbe_putchar (f : list Z) (c y x fg bg : Z) (w : W) : W := draw_rows 16 f c y x 0 fg bg w.

Definition put_pixel (color y x : Z) (s : vbe) : vbe := on_card (vbe_putpixel color y x) s.

(** [kmemset] and [kmemcpy] on the memory of the card. *)
Fixpoint fill (n : nat) (off v : Z) (w : W) : W := match n with O => w | S n => fill n (off + 1) v (put off v w) end.
Fixpoint copy (n : nat) (dst src : Z) (w : W) : W :=
  match n with O => w | S n => copy n (dst + 1) (src + 1) (put dst (get w src) w) end.
Fixpoint store (l : list Z) (off : Z) (w : W) : W := match l with [] => w | b :: l => store l (off + 1) (put off b w) end.
Definition fetch (off : Z) (w : W) : list Z := (fun i => get w (off + Z.of_nat i)) <$> seq 0 (Z.to_nat LINE_SIZE).

Fixpoint clear_banks (n : nat) (bank : Z) (s : vbe) : vbe :=
  match n with O => s | S n => clear_banks n (bank + 1) (on_card (fill 65536 0 0xff) (vbe_set_bank bank s)) end.
Definition vbe_clear_screen (s : vbe) : vbe :=
  let s := if negb (lfb s) then on_card (fill (Z.to_nat (4096 * 4096)) 0 0xff) s
           else vbe_set_bank 0 (clear_banks (Z.to_nat LAST_BANK) 0 s) in
  set_cur 0 0 s.

(** ** Characters *)

Definition draw (c y x : Z) (s : vbe) : vbe := on_card (vbe_putchar (font s) c y x DISPLAY_FG_COLOR DISPLAY_BG_COLOR) s.

Fixpoint draw_tab (n : nat) (s : vbe) : vbe :=
  match n with O => s | S n => draw_tab n (set_cur (cur_x s + DISPLAY_BITDEPTH) (cur_y s) (draw SPACE (cur_y s) (cur_x s) s)) end.

Definition draw_char (c : Z) (s : vbe) : vbe :=
  if c =? NL then
    let s := draw SPACE (cur_y s) (cur_x s) s in
    let s := set_cur (cur_x s) (cur_y s + DISPLAY_BITDEPTH * 2) s in
    let s := if cur_bank s =? LAST_BANK then set_cur (cur_x s) (cur_y s + DISPLAY_BITDEPTH * 2 * 3) s else s in
    set_cur 0 (cur_y s) s
  else if c =? BS then
    let s := draw SPACE (cur_y s) (cur_x s) s in
    let s := draw 0 (cur_y s) (u32 (cur_x s - DISPLAY_BITDEPTH)) s in
    set_cur (cur_x s - DISPLAY_BITDEPTH) (cur_y s) s
  else if c =? TAB then draw_tab 4 s
  else set_cur (cur_x s + DISPLAY_BITDEPTH) (cur_y s) (draw c (cur_y s) (cur_x s) s).

(** All rows move up by one, [n] rows of [size] bytes. *)
Fixpoint shift_rows (size n : nat) (i : Z) (w : W) : W :=
  match n with O => w | S n => shift_rows size n (i + 1) (copy size (i * Z.of_nat size) ((i + 1) * Z.of_nat size) w) end.

Definition scroll_lfb (c : Z) (s : vbe) : vbe :=
  if 47 <? cur_y s / (DISPLAY_BITDEPTH * 2) then
    let s := on_card (shift_rows (Z.to_nat LINE_SIZE) 48 0) s in
    if c =? NL then set_cur (cur_x s) (DISPLAY_BITDEPTH * 2 * 47) s else s
  else s.

Fixpoint shift_bank (n : nat) (i : Z) (w : W) : W :=
  match n with
  | O => w
  | S n => shift_bank n (i + 1)
             (copy (Z.to_nat LINE_SIZE) (i * LINE_SIZE) ((i + 1) * LINE_SIZE) (fill (Z.to_nat LINE_SIZE) (i * LINE_SIZE) 0 w))
  end.

(** [bank] only counts: the bank is the one that is set. *)
Fixpoint shift_banks (n : nat) (s : vbe) : vbe :=
  match n with
  | O => s
  | S n =>
      let l0 := fetch 0 (card s) in
      let s := on_card (shift_bank 3 0) s in
      let s := if negb (cur_bank s =? LAST_BANK) then on_card (store (line1 s) (3 * LINE_SIZE)) s else s in
      let s := set_lines l0 l0 s in
      shift_banks n (vbe_set_bank (cur_bank s - 1) s)
  end.

Definition scroll_banks (s : vbe) : vbe :=
  if ROWS_PER_BANK <=? cur_y s then
    if cur_bank s <? LAST_BANK then vbe_set_bank (cur_bank s + 1) (set_cur 0 0 s)
    else vbe_set_bank LAST_BANK (set_cur 0 0 (shift_banks (S (Z.to_nat (cur_bank s))) s))
  else s.

Definition __put_char (c : Z) (cursor : bool) (s : vbe) : vbe :=
  if negb (ready s) then s
  else if cursor then on_card (vbe_putchar (font s) c (cur_y s) (cur_x s) CURSOR_FG_COLOR CURSOR_BG_COLOR) s
  else
    let s := draw_char c s in
    let s := if DISPLAY_WIDTH <=? cur_x s then set_cur 0 (cur_y s + DISPLAY_BITDEPTH * 2) s else s in
    let s := if lfb s then scroll_lfb c s else scroll_banks s in
    if c =? NL then on_card (fill (Z.to_nat LINE_SIZE) (u32 (cur_y s * DISPLAY_WIDTH)) 0) s else s.

Definition vbe_put_char (c : Z) (s : vbe) : vbe :=
  let s := __put_char c false s in if negb (c =? NL) then __put_char SPACE true s else s.

(** [l]: the characters of the string; the empty string is read in front of
    its start. *)
Definition vbe_put_str (l : list Z) (s : vbe) : out vbe :=
  let s := foldl (fun s c => __put_char c false s) s l in
  match last l with
  | None => Fault
  | Some c => mret (if negb (c =? NL) then __put_char SPACE true s else s)
  end.

(** ** What is shown *)

Definition plain (c : Z) : Prop := c <> NL /\ c <> BS /\ c <> TAB.

(** The pixels of a cell: the bit of the column, from the left. *)
Definition cell (f : list Z) (c fg bg cy cx : Z) : Z := if Z.testbit (glyph f c cy) (7 - cx) then fg else bg.
Definition pixel (s : vbe) (y x : Z) : Z := get (card s) (y * DISPLAY_WIDTH + x).

(** ** The loops *)

Lemma put_get w i v j : get (put i v w) j = if j =? i then v else get w j.
Proof. apply put_law. Qed.

Lemma draw_row_spec row y x fg bg : 0 <= y -> 0 <= x -> y * DISPLAY_WIDTH + x + 8 < 2 ^ 32 -> forall n cx w, 0 <= cx -> cx + Z.of_nat n <= 8 ->
  forall i, get (draw_row n row y x cx fg bg w) i =
    if (y * DISPLAY_WIDTH + x + 8 - cx - Z.of_nat n <=? i) && (i <? y * DISPLAY_WIDTH + x + 8 - cx)
    then u8 (if Z.testbit row (y * DISPLAY_WIDTH + x + 7 - i) then fg else bg) else get w i.
Proof.
  unfold DISPLAY_WIDTH. intros Hy Hx Hlt n. induction n as [| n IH]; intros cx w Hc Hn i; cbn [draw_row].
  - zb; done || lia.
  - rewrite IH by lia. unfold vbe_putpixel, DISPLAY_WIDTH, u32. rewrite (wrap_small 32 (x + 8 - cx)) by (unfold in_u; lia).
    rewrite (wrap_small 32) by (unfold in_u; lia). rewrite put_get.
    assert (Eb : negb (Z.land row (2 ^ cx) =? 0) = Z.testbit row cx).
    { by rewrite land_bit, negb_involutive by lia. }
    rewrite Eb. destruct (Z.eqb_spec i (y * 1024 + (x + 8 - cx) - 1)) as [-> | Hi].
    + rewrite (ltb_false (y * 1024 + (x + 8 - cx) - 1) (y * 1024 + x + 8 - (cx + 1))), andb_false_r by lia.
      rewrite leb_true, ltb_true by lia. cbn [andb]. by replace (y * 1024 + x + 7 - (y * 1024 + (x + 8 - cx) - 1)) with cx by lia.
    + zb; done || lia.
Qed.

(** A cell of the screen, by its row and column of pixels. *)
Lemma draw_rows_spec f c x fg bg : 0 <= x -> x + 8 <= DISPLAY_WIDTH -> forall n y cy w, 0 <= y -> 0 <= cy -> y + cy + Z.of_nat n < 2 ^ 20 ->
  forall Y X, 0 <= X < DISPLAY_WIDTH -> get (draw_rows n f c y x cy fg bg w) (Y * DISPLAY_WIDTH + X) =
    if (y + cy <=? Y) && (Y <? y + cy + Z.of_nat n) && (x <=? X) && (X <? x + 8)
    then u8 (cell f c fg bg (Y - y) (X - x)) else get w (Y * DISPLAY_WIDTH + X).
Proof.
  unfold DISPLAY_WIDTH. intros Hx Hw n. induction n as [| n IH]; intros y cy w Hy Hcy Hlt Y X HX; cbn [draw_rows].
  - zb; done || lia.
  - rewrite IH by lia. unfold u32. rewrite (wrap_small 32) by (unfold in_u; lia).
    rewrite (draw_row_spec (glyph f c cy) (y + cy) x fg bg) by (unfold DISPLAY_WIDTH; lia). unfold DISPLAY_WIDTH, cell.
    destruct (Z.eqb_spec Y (y + cy)) as [-> | HY].
    + replace (y + cy - y) with cy by lia. rewrite (leb_false (y + (cy + 1))) by lia. cbn [andb].
      rewrite (leb_true (y + cy)), (ltb_true (y + cy)) by lia. cbn [andb].
      replace ((y + cy) * 1024 + x + 7 - ((y + cy) * 1024 + X)) with (7 - (X - x)) by lia.
      destruct (Z.leb_spec x X), (Z.ltb_spec X (x + 8)); cbn [andb]; zb; done || lia.
    + assert (Hrow : ((y + cy) * 1024 + x + 8 - 0 - Z.of_nat 8 <=? Y * 1024 + X) && (Y * 1024 + X <? (y + cy) * 1024 + x + 8 - 0) = false) by
        (apply andb_false_iff; destruct (Z.ltb_spec Y (y + cy)); [left; apply leb_false; lia | right; apply ltb_false; lia]).
      rewrite Hrow. zb; done || lia.
Qed.

Lemma copy_spec n : forall dst src w, dst <= src -> forall i,
  get (copy n dst src w) i = if (dst <=? i) && (i <? dst + Z.of_nat n) then get w (i + (src - dst)) else get w i.
Proof.
  induction n as [| n IH]; intros dst src w Hle i; cbn [copy].
  - zb; done || lia.
  - rewrite IH by lia. rewrite !put_get. destruct (Z.eqb_spec i dst) as [-> | Hi].
    + rewrite (leb_false (dst + 1)) by lia. cbn [andb]. rewrite leb_true, ltb_true by lia. cbn [andb]. f_equal. lia.
    + replace (src + 1 - (dst + 1)) with (src - dst) by lia. destruct (Z.eqb_spec (i + (src - dst)) dst) as [E | _]; zb; done || lia.
Qed.

Lemma shift_rows_spec size n : (0 < size)%nat -> forall i w, 0 <= i -> forall j,
  get (shift_rows size n i w) j =
    if (i * Z.of_nat size <=? j) && (j <? (i + Z.of_nat n) * Z.of_nat size) then get w (j + Z.of_nat size) else get w j.
Proof.
  intros Hs. induction n as [| n IH]; intros i w Hi j; cbn [shift_rows].
  - zb; done || nia.
  - rewrite IH by lia. rewrite !copy_spec by nia. replace ((i + 1) * Z.of_nat size - i * Z.of_nat size) with (Z.of_nat size) by lia.
    set (z := Z.of_nat size) in *. assert (Hz : 0 < z) by lia. clearbody z. clear Hs.
    replace (i + Z.of_nat (S n)) with (i + 1 + Z.of_nat n) by lia.
    assert (E1 : (i + 1) * z = i * z + z) by lia. assert (E2 : (i + 1 + Z.of_nat n) * z = i * z + z + Z.of_nat n * z) by lia.
    assert (Hn : 0 <= Z.of_nat n * z) by nia. rewrite E1, E2. set (a := i * z) in *. set (b := Z.of_nat n * z) in *. clearbody a b. clear E1 E2 IH.
    zb; done || lia.
Qed.

(** ** Characters on the frame buffer *)

(** The screen with one more character. *)
Definition drawn (s : vbe) (c y x : Z) : Z :=
  if (cur_y s <=? y) && (y <? cur_y s + 16) && (cur_x s <=? x) && (x <? cur_x s + 8)
  then cell (font s) c DISPLAY_FG_COLOR DISPLAY_BG_COLOR (y - cur_y s) (x - cur_x s) else pixel s y x.

Lemma drawn_pixel s c y x : 0 <= cur_x s -> cur_x s + 8 <= DISPLAY_WIDTH -> 0 <= cur_y s < 784 -> 0 <= x < DISPLAY_WIDTH ->
  pixel (draw c (cur_y s) (cur_x s) s) y x = drawn s c y x.
Proof.
  intros Hx Hx2 Hy HX. unfold pixel, draw, on_card, vbe_putchar, drawn. cbn [card set_card].
  rewrite (draw_rows_spec (font s) c (cur_x s)) by lia. replace (cur_y s + 0) with (cur_y s) by lia. change (Z.of_nat 16) with 16.
  unfold cell, DISPLAY_FG_COLOR, DISPLAY_BG_COLOR. destruct (_ && _ && _ && _); [| done]. by destruct (Z.testbit _ _).
Qed.

(** Where the cursor goes. *)
Definition next_x (s : vbe) : Z := if cur_x s + 8 <? DISPLAY_WIDTH then cur_x s + 8 else 0.
Definition next_y (s : vbe) : Z := if cur_x s + 8 <? DISPLAY_WIDTH then cur_y s else cur_y s + 16.

Definition moved (s : vbe) (c : Z) : vbe := set_cur (next_x s) (next_y s) (draw c (cur_y s) (cur_x s) s).

Lemma put_moved s c : ready s = true -> lfb s = true -> plain c -> 0 <= cur_x s -> cur_x s + 8 <= DISPLAY_WIDTH -> 0 <= cur_y s < 784 ->
  __put_char c false s = if 768 <=? next_y s then on_card (shift_rows (Z.to_nat LINE_SIZE) 48 0) (moved s c) else moved s c.
Proof.
  intros Hr Hl (H1 & H2 & H3) Hx Hx2 Hy. unfold __put_char, draw_char. rewrite Hr.
  rewrite (proj2 (Z.eqb_neq c NL)), (proj2 (Z.eqb_neq c BS)), (proj2 (Z.eqb_neq c TAB)) by done. cbn [negb].
  set (s0 := draw c (cur_y s) (cur_x s) s).
  assert (E : (let s1 := set_cur (cur_x s + DISPLAY_BITDEPTH) (cur_y s) s0 in
      if DISPLAY_WIDTH <=? cur_x s1 then set_cur 0 (cur_y s1 + DISPLAY_BITDEPTH * 2) s1 else s1) = moved s c).
  { unfold moved, next_x, next_y, DISPLAY_WIDTH, DISPLAY_BITDEPTH in *. fold s0. cbn [cur_x cur_y set_cur]. unfold u32.
    rewrite !(wrap_small 32 (cur_x s + 8)) by (unfold in_u; lia). rewrite (wrap_small 32 (cur_y s)) by (unfold in_u; lia).
    destruct (Z.leb_spec 1024 (cur_x s + 8)).
    - rewrite ltb_false by lia. done.
    - by rewrite ltb_true by lia. }
  cbn zeta in E |- *. rewrite E. change (lfb (moved s c)) with (lfb s). rewrite Hl. unfold scroll_lfb. change (DISPLAY_BITDEPTH * 2) with 16.
  assert (Ey : cur_y (moved s c) = next_y s).
  { cbn. unfold u32, next_y. apply wrap_small. unfold in_u. destruct (_ <? _); lia. }
  rewrite Ey. assert (Eb : (47 <? next_y s / 16) = (768 <=? next_y s)).
  { destruct (Z.leb_spec 768 (next_y s)); [apply ltb_true | apply ltb_false]; Z.to_euclidean_division_equations; lia. }
  rewrite Eb. rewrite (proj2 (Z.eqb_neq c NL)) by done. done.
Qed.

(** A character is drawn in its cell and nowhere else, and the cursor goes
    to the next cell.  When the last row is full the cursor stays below it,
    so that every further character moves all rows up by one. *)
Theorem vbe_char_shown (s : vbe) (c : Z) :
  ready s = true -> lfb s = true -> plain c -> 0 <= cur_x s -> cur_x s + 8 <= DISPLAY_WIDTH -> 0 <= cur_y s < 784 ->
  let s' := __put_char c false s in
  cur_x s' = next_x s /\ cur_y s' = next_y s /\
  forall y x, 0 <= x < DISPLAY_WIDTH -> 0 <= y ->
    pixel s' y x = if (768 <=? next_y s) && (y <? 768) then drawn s c (y + 16) x else drawn s c y x.
Proof.
  intros Hr Hl Hc Hx Hx2 Hy s'. unfold s'. rewrite put_moved by done.
  assert (Ec : cur_x (moved s c) = next_x s /\ cur_y (moved s c) = next_y s).
  { unfold next_x, next_y, DISPLAY_WIDTH in *. split; cbn; unfold u32; apply wrap_small; unfold in_u, next_x, next_y, DISPLAY_WIDTH; destruct (_ <? _); lia. }
  destruct Ec as [Ex Ey]. split; [by destruct (768 <=? next_y s) |]. split; [by destruct (768 <=? next_y s) |]. intros y x HX HY.
  assert (Hp : forall y, pixel (moved s c) y x = drawn s c y x) by (intros y0; by apply (drawn_pixel s c y0 x)).
  destruct (768 <=? next_y s); [| apply Hp]. cbn [andb]. unfold pixel, on_card. cbn [card set_card].
  rewrite shift_rows_spec by (unfold LINE_SIZE; lia). unfold LINE_SIZE, DISPLAY_WIDTH in *. rewrite Z2Nat.id by lia. change (Z.of_nat 48) with 48.
  destruct (Z.ltb_spec y 768).
  - rewrite leb_true, ltb_true by lia. cbn [andb]. rewrite <- Hp. unfold pixel, DISPLAY_WIDTH. f_equal. lia.
  - rewrite (ltb_false (y * 1024 + x)), andb_false_r by lia. apply Hp.
Qed.
End vbe.
#[global] Arguments vbe : clear implicits.

#[local] Instance sample_card : Card (gmap Z Z) := {
  get w i := default 0 (w !! i); put i v w := <[i := v]> w; set_bank _ w := w;
  put_law w i v j := ltac:(destruct (Z.eqb_spec j i) as [-> | Hne]; [by rewrite lookup_insert_eq | by rewrite lookup_insert_ne])
}.

(** The last cell of the last row, and a font with full glyphs. *)
Definition sample_vbe : vbe (gmap Z Z) := mk_vbe true true ∅ (replicate 4096 0xff) [] [] 1016 752 0.

Lemma vbe_char_shown_witness : let s := __put_char 65 false sample_vbe in cur_x s = 0 /\ cur_y s = 768 /\ pixel s 736 1016 = DISPLAY_FG_COLOR.
Proof.
  destruct (vbe_char_shown sample_vbe 65) as (Ex & Ey & Hp).
  - reflexivity.
  - reflexivity.
  - repeat split; discriminate.
  - discriminate.
  - discriminate.
  - split; [discriminate | reflexivity].
  - split; [exact Ex |]. split; [exact Ey |]. rewrite (Hp 736 1016) by (unfold DISPLAY_WIDTH; lia). vm_compute. reflexivity.
Defined.
End Vbe.
