(* ===== verification/Acpi.v ===== *)
(** * Finding the processors (kernel/acpi/acpi.c, drivers/lapic.c, drivers/ioapic.c)

    The tables the firmware leaves in memory: the root descriptor is looked
    for, the table of the APICs is found through it, and its entries are
    registered.  The memory is the one of Util, by virtual address; the low
    addresses are mapped to themselves. *)

From S2P Require Import Prelude Bytes Common Memory Util.
Import Memory Util.

Module Acpi.

Definition MAX_CPU : Z := 64.
Definition MAX_IOAPIC : Z := 20.
Definition MA_LOCAL_APIC : Z := 0.
Definition MA_IO_APIC : Z := 1.
(** ["RSD PTR "] and ["APIC"]. *)
Definition needle : list Z := [82; 83; 68; 32; 80; 84; 82; 32].
Definition APIC : list Z := [65; 80; 73; 67].
Definition SIZEOF_RSPD : Z := 20.
(** Offsets: [rstd_addr] in the descriptor, [length] in a header, the
    entries behind the headers (33 bytes, aligned for what follows). *)
Definition RSTD_ADDR : Z := 16.
Definition LENGTH : Z := 4.
Definition ENTRY_ADDRESS : Z := 36.
Definition LOCAL_APIC_ADDR : Z := 36.
Definition APICS : Z := 44.

Record io_apic := mk_ioapic { id : Z; base : Z; intr_base : Z }.

(** What is known about the APICs; [lapics] are the pairs of the two ids. *)
Record apics := mk_apics { lapics : list (Z * Z); cpu_count : Z; num_apics : Z; ioapics : list io_apic; mapic : Z }.
Definition set_mapic (v : Z) (s : apics) : apics := mk_apics (lapics s) (cpu_count s) (num_apics s) (ioapics s) v.

(** ** The registries *)

Definition lapic_register_dev (s : apics) (cpu lapic : Z) : out apics :=
  _ ← kassert ((0 <=? cpu) && (cpu <? MAX_CPU));
  l ← wr (lapics s) cpu (cpu, lapic); mret (mk_apics l (u32 (cpu_count s + 1)) (num_apics s) (ioapics s) (mapic s)).

Definition lapic_get_cpu_count (s : apics) : Z := cpu_count s.
Definition lapic_get_lapic_id (s : apics) (cpu : Z) : out Z :=
  if cpu_count s <=? cpu then mret (- ENXIO) else x ← rd (lapics s) cpu; mret (snd x).

Definition ioapic_register_dev (s : apics) (i addr intr : Z) : out apics :=
  _ ← kassert (i <? MAX_IOAPIC);
  l ← wr (ioapics s) i (mk_ioapic i addr intr); mret (mk_apics (lapics s) (cpu_count s) (num_apics s + 1) l (mapic s)).

Definition ioapic_get_base (s : apics) : out Z := _ ← kassert (num_apics s =? 1); x ← rd (ioapics s) 0; mret (base x).

(** ** Reading the tables *)

Fixpoint ld_le (n : nat) (m : mem) (a : Z) : out Z :=
  match n with O => mret 0 | S n => b ← ld m a; r ← ld_le n m (a + 1); mret (b + 256 * r) end.

(** The comparisons with a text; [kstrncmp] with 3 compares four
    characters (see Util). *)
Fixpoint match_at (m : mem) (p : Z) (l : list Z) : out bool :=
  match l with [] => mret true | c :: l => b ← ld m p; if negb (b =? c) then mret false else match_at m (p + 1) l end.

Fixpoint find_loop (fuel : nat) (m : mem) (i end_ : Z) : out (option Z) :=
  match fuel with
  | O => Spin
  | S fuel =>
      if i <? end_ then
        b ← match_at m i needle; if b : bool then mret (Some i) else find_loop fuel m (i + 8) end_
      else mret None
  end.
Definition __find_rspd_start (m : mem) (start end_ : Z) : out (option Z) := find_loop (S (Z.to_nat (end_ - start))) m start end_.

Fixpoint sum_bytes (n : nat) (m : mem) (p : Z) : out Z :=
  match n with O => mret 0 | S n => b ← ld m p; r ← sum_bytes n m (p + 1); mret (b + r) end.
Definition __validate_rspd_description (m : mem) (desc : Z) : out bool :=
  _ ← kassert (negb (desc =? 0)); t ← sum_bytes (Z.to_nat SIZEOF_RSPD) m desc; mret (Z.land t 0xff =? 0).

(** The last table with the signature is taken. *)
Fixpoint entries_loop (n : nat) (i : Z) (m : mem) (table : Z) (s : apics) : out apics :=
  match n with
  | O => mret s
  | S n =>
      d ← ld_le 4 m (table + ENTRY_ADDRESS + 4 * i);
      b ← match_at m d APIC;
      entries_loop n (i + 1) m table (if b : bool then set_mapic (mmu_p_to_v d) s else s)
  end.

Definition register (m : mem) (ptr type : Z) (s : apics) : out apics :=
  if type =? MA_LOCAL_APIC then c ← ld m (ptr + 2); a ← ld m (ptr + 3); lapic_register_dev s c a
  else if type =? MA_IO_APIC then i ← ld m (ptr + 2); a ← ld_le 4 m (ptr + 4); g ← ld_le 4 m (ptr + 8); ioapic_register_dev s i a g
  else mret s.

(** Every entry has a byte at least, or the loop does not end. *)
Fixpoint walk (fuel : nat) (m : mem) (ptr end_ : Z) (s : apics) : out apics :=
  match fuel with
  | O => Spin
  | S fuel =>
      if ptr <? end_ then
        type ← ld m ptr; s ← register m ptr type s;
        len ← ld m (ptr + 1); walk fuel m (ptr + len) end_ s
      else mret s
  end.

(** [acpica]: what the vendored code returns. *)
Definition acpi_init (acpica : Z) (m : mem) (s : apics) : out (Z * apics) :=
  r ← __find_rspd_start m 0x80000 0x9ffff;
  r ← match r with Some a => mret (Some a) | None => __find_rspd_start m 0xe0000 0xfffff end;
  match r with
  | None => mret (- ENXIO, s)
  | Some desc =>
      ok ← __validate_rspd_description m desc;
      if negb ok then mret (- EINVAL, s)
      else
        table ← ld_le 4 m (desc + RSTD_ADDR);
        len ← ld_le 4 m (table + LENGTH);
        s ← entries_loop (Z.to_nat (u32 (len - 36) / 4)) 0 m table s;
        if mapic s =? 0 then mret (- EINVAL, s)
        else
          n ← ld_le 4 m (mapic s + LENGTH);
          s ← walk (S (Z.to_nat n)) m (mapic s + APICS) (mapic s + n) s; mret (acpica, s)
  end.

Definition acpi_get_local_apic_addr (m : mem) (s : apics) : out (res Z) :=
  if mapic s =? 0 then mret (Err ENXIO) else a ← ld_le 4 m (mapic s + LOCAL_APIC_ADDR); mret (Ok a).

(** ** The tables as the firmware writes them *)

Inductive entry := Lapic (cpu lapic flags : Z) | Ioapic (i addr intr : Z) | Other (type : Z) (l : list Z).
Definition encode (e : entry) : list Z :=
  match e with
  | Lapic cpu lapic flags => [0; 8; cpu; lapic] ++ Bytes.le_bytes 4 flags
  | Ioapic i addr intr => [1; 12; i; 0] ++ Bytes.le_bytes 4 addr ++ Bytes.le_bytes 4 intr
  | Other type l => [type; 2 + zlen l] ++ l
  end.
Definition entry_ok (e : entry) : Prop :=
  match e with
  | Lapic cpu lapic flags => 0 <= cpu < MAX_CPU
  | Ioapic i addr intr => 0 <= i < MAX_IOAPIC /\ in_u 32 addr /\ in_u 32 intr
  | Other type l => type <> 0 /\ type <> 1
  end.

(** What the code takes from an entry: nothing of its flags. *)
Definition add_entry (s : apics) (e : entry) : apics :=
  match e with
  | Lapic cpu lapic _ => mk_apics (<[Z.to_nat cpu := (cpu, lapic)]> (lapics s)) (u32 (cpu_count s + 1)) (num_apics s) (ioapics s) (mapic s)
  | Ioapic i addr intr => mk_apics (lapics s) (cpu_count s) (num_apics s + 1) (<[Z.to_nat i := mk_ioapic i addr intr]> (ioapics s)) (mapic s)
  | Other _ _ => s
  end.

(** The root descriptor is at [r]: nothing before it looks like it. *)
Definition not_here (m : mem) (a : Z) : Prop := exists l, bytes_at m a l /\ length l = 8%nat /\ l <> needle.
Definition found_at (m : mem) (start end_ r : Z) : Prop :=
  exists k, r = start + 8 * Z.of_nat k /\ r < end_ /\ bytes_at m r needle /\ forall j, (j < k)%nat -> not_here m (start + 8 * Z.of_nat j).
Definition absent (m : mem) (start end_ : Z) : Prop := forall j, start + 8 * Z.of_nat j < end_ -> not_here m (start + 8 * Z.of_nat j).

Record firmware (m : mem) (r table d : Z) (before after : list Z) (es : list entry) : Prop := {
  fw_root : found_at m 0x80000 0x9ffff r \/ absent m 0x80000 0x9ffff /\ found_at m 0xe0000 0xfffff r;
  fw_desc : exists l, bytes_at m r (l ++ Bytes.le_bytes 4 table) /\ length l = 16%nat /\ foldr Z.add 0 (l ++ Bytes.le_bytes 4 table) mod 256 = 0;
  fw_length : bytes_at m (table + LENGTH) (Bytes.le_bytes 4 (36 + 4 * zlen (before ++ d :: after)));
  fw_entries : bytes_at m (table + ENTRY_ADDRESS) (concat (Bytes.le_bytes 4 <$> (before ++ d :: after)));
  fw_addrs : in_u 32 table /\ Forall (in_u 32) (before ++ d :: after) /\ 36 + 4 * zlen (before ++ d :: after) < 2 ^ 32;
  fw_signed : forall a, a ∈ before ++ d :: after -> exists l, bytes_at m a l /\ length l = 4%nat /\ (a = d -> l = APIC) /\ (a ∈ after -> l <> APIC);
  fw_madt : bytes_at m (mmu_p_to_v d + LENGTH) (Bytes.le_bytes 4 (APICS + zlen (concat (encode <$> es))));
  fw_apics : bytes_at m (mmu_p_to_v d + APICS) (concat (encode <$> es));
  fw_ok : Forall entry_ok es /\ APICS + zlen (concat (encode <$> es)) < 2 ^ 32 /\ mmu_p_to_v d <> 0
}.

(** ** Reading *)

Lemma bytes_at_app m p l k : bytes_at m p (l ++ k) <-> bytes_at m p l /\ bytes_at m (p + zlen l) k.
Proof.
  revert p. induction l as [| b l IH]; intros p; cbn [app].
  - unfold zlen. cbn. rewrite Z.add_0_r. split; [intros H; split; [intros i c Hi; done | done] | tauto].
  - rewrite !bytes_at_cons, IH. unfold zlen. cbn [length]. replace (p + 1 + Z.of_nat (length l)) with (p + Z.of_nat (S (length l))) by lia. tauto.
Qed.

Lemma ld_le_val m : forall l a, bytes_at m a l -> ld_le (length l) m a = Ret (Bytes.le_val l).
Proof.
  induction l as [| b l IH]; intros a Ha; cbn [ld_le length]; [done |]. apply bytes_at_cons in Ha as [Hb Ha].
  rewrite (ld_at _ _ _ Hb). rb. by rewrite (IH _ Ha).
Qed.

Lemma ld_le_bytes m a v : bytes_at m a (Bytes.le_bytes 4 v) -> in_u 32 v -> ld_le 4 m a = Ret v.
Proof.
  intros Ha Hv. pose proof (ld_le_val m _ _ Ha) as E. rewrite Bytes.length_le_bytes, Bytes.le_val_bytes in E. rewrite E. f_equal.
  apply Z.mod_small. exact Hv.
Qed.

Lemma match_true m : forall l p, bytes_at m p l -> match_at m p l = Ret true.
Proof.
  induction l as [| c l IH]; intros p Hp; cbn [match_at]; [done |]. apply bytes_at_cons in Hp as [Hc Hp]. rewrite (ld_at _ _ _ Hc). rb.
  rewrite Z.eqb_refl. by apply IH.
Qed.

Lemma match_false m : forall l k p, bytes_at m p k -> length k = length l -> k <> l -> match_at m p l = Ret false.
Proof.
  induction l as [| c l IH]; intros [| b k] p Hp Hlen Hne; cbn in Hlen; try done; cbn [match_at]. apply bytes_at_cons in Hp as [Hb Hp].
  rewrite (ld_at _ _ _ Hb). rb. destruct (Z.eqb_spec b c) as [-> | Hbc]; cbn [negb]; [| done]. apply (IH k); [done | lia | congruence].
Qed.

Lemma sum_spec m : forall l p, bytes_at m p l -> sum_bytes (length l) m p = Ret (foldr Z.add 0 l).
Proof.
  induction l as [| b l IH]; intros p Hp; cbn [sum_bytes length foldr]; [done |]. apply bytes_at_cons in Hp as [Hb Hp].
  rewrite (ld_at _ _ _ Hb). rb. by rewrite (IH _ Hp).
Qed.

(** ** The search *)

Lemma find_found m end_ r k : forall fuel start, r = start + 8 * Z.of_nat k -> r < end_ -> bytes_at m r needle ->
  (forall j, (j < k)%nat -> not_here m (start + 8 * Z.of_nat j)) -> (k < fuel)%nat -> find_loop fuel m start end_ = Ret (Some r).
Proof.
  induction k as [| k IH]; intros [| fuel] start Er Hr Hb Hn Hf; try lia; cbn [find_loop]; rewrite ltb_true by lia.
  - replace start with r by lia. by rewrite (match_true m needle r Hb).
  - destruct (Hn 0%nat) as (l & Hl & Hlen & Hne); [lia |]. replace (start + 8 * Z.of_nat 0) with start in Hl by lia.
    rewrite (match_false m needle l start Hl Hlen Hne). rb. apply IH; [lia | done | done | | lia]. intros j Hj.
    replace (start + 8 + 8 * Z.of_nat j) with (start + 8 * Z.of_nat (S j)) by lia. apply Hn. lia.
Qed.

Lemma find_absent m end_ : forall fuel start, absent m start end_ -> (Z.to_nat (end_ - start) < fuel)%nat -> find_loop fuel m start end_ = Ret None.
Proof.
  induction fuel as [| fuel IH]; intros start Ha Hf; [lia |]. cbn [find_loop]. destruct (Z.ltb_spec start end_) as [Hlt | Hge]; [| done].
  destruct (Ha 0%nat) as (l & Hl & Hlen & Hne); [lia |]. replace (start + 8 * Z.of_nat 0) with start in Hl by lia.
  rewrite (match_false m needle l start Hl Hlen Hne). rb. apply IH; [| lia]. intros j Hj.
  replace (start + 8 + 8 * Z.of_nat j) with (start + 8 * Z.of_nat (S j)) in * by lia. by apply Ha.
Qed.

Lemma root_found m r : found_at m 0x80000 0x9ffff r \/ absent m 0x80000 0x9ffff /\ found_at m 0xe0000 0xfffff r ->
  (r' ← __find_rspd_start m 0x80000 0x9ffff; match r' with Some a => mret (Some a) | None => __find_rspd_start m 0xe0000 0xfffff end) = Ret (Some r) /\ r <> 0.
Proof.
  unfold __find_rspd_start. intros [(k & Er & Hr & Hb & Hn) | [Ha (k & Er & Hr & Hb & Hn)]].
  - rewrite (find_found m 0x9ffff r k _ _ Er Hr Hb Hn) by lia. split; [done | lia].
  - rewrite (find_absent m 0x9ffff _ _ Ha) by lia. rb. rewrite (find_found m 0xfffff r k _ _ Er Hr Hb Hn) by lia. split; [done | lia].
Qed.

(** ** The tables *)

Lemma table_app m table n k : forall i s,
  entries_loop (n + k) i m table s = (s ← entries_loop n i m table s; entries_loop k (i + Z.of_nat n) m table s).
Proof.
  induction n as [| n IH]; intros i s; cbn [entries_loop Nat.add].
  - rb. f_equal. lia.
  - destruct (ld_le 4 m _) as [d | | |]; rewrite ?ret_bind; cbn beta; [| done ..].
    destruct (match_at m d APIC) as [b | | |]; rewrite ?ret_bind; cbn beta; [| done ..]. rewrite IH.
    by replace (i + 1 + Z.of_nat n) with (i + Z.of_nat (S n)) by lia.
Qed.

(** One entry of the table, whatever its signature is. *)
Lemma entries_step m table a n i s l : bytes_at m (table + ENTRY_ADDRESS + 4 * i) (Bytes.le_bytes 4 a) -> in_u 32 a -> bytes_at m a l -> length l = 4%nat ->
  entries_loop (S n) i m table s = entries_loop n (i + 1) m table (if bool_decide (l = APIC) then set_mapic (mmu_p_to_v a) s else s).
Proof.
  intros Ha Hu Hl Hlen. cbn [entries_loop]. rewrite (ld_le_bytes _ _ _ Ha Hu). rb. case_bool_decide as E.
  - subst l. by rewrite (match_true m APIC a Hl).
  - by rewrite (match_false m APIC l a Hl Hlen E).
Qed.

Lemma entries_cons m p a ds : bytes_at m p (concat (Bytes.le_bytes 4 <$> (a :: ds))) ->
  bytes_at m p (Bytes.le_bytes 4 a) /\ bytes_at m (p + 4) (concat (Bytes.le_bytes 4 <$> ds)).
Proof. cbn [fmap list_fmap concat]. rewrite bytes_at_app, Bytes.zlen_le_bytes. done. Qed.

Lemma entries_any m table ds : forall i s, bytes_at m (table + ENTRY_ADDRESS + 4 * i) (concat (Bytes.le_bytes 4 <$> ds)) -> Forall (in_u 32) ds ->
  (forall a, a ∈ ds -> exists l, bytes_at m a l /\ length l = 4%nat) -> exists v, entries_loop (length ds) i m table s = Ret (set_mapic v s).
Proof.
  induction ds as [| a ds IH]; intros i s Hb Hu Hs; [exists (mapic s); by destruct s |]. apply entries_cons in Hb as [Ha Hb].
  inversion_clear Hu. destruct (Hs a) as (l & Hl & Hlen); [by left |]. cbn [length]. rewrite (entries_step m table a _ i s l) by done.
  replace (table + ENTRY_ADDRESS + 4 * i + 4) with (table + ENTRY_ADDRESS + 4 * (i + 1)) in Hb by lia.
  set (s1 := if bool_decide _ then _ else _). destruct (IH (i + 1) s1) as [v E]; [done | done | intros b Hbin; apply Hs; by right |].
  exists v. rewrite E. unfold s1. by destruct (bool_decide _).
Qed.

Lemma entries_none m table ds : forall i s, bytes_at m (table + ENTRY_ADDRESS + 4 * i) (concat (Bytes.le_bytes 4 <$> ds)) -> Forall (in_u 32) ds ->
  (forall a, a ∈ ds -> exists l, bytes_at m a l /\ length l = 4%nat /\ l <> APIC) -> entries_loop (length ds) i m table s = Ret s.
Proof.
  induction ds as [| a ds IH]; intros i s Hb Hu Hs; [done |]. apply entries_cons in Hb as [Ha Hb].
  inversion_clear Hu. destruct (Hs a) as (l & Hl & Hlen & Hne); [by left |]. cbn [length]. rewrite (entries_step m table a _ i s l) by done.
  rewrite bool_decide_false by done. replace (table + ENTRY_ADDRESS + 4 * i + 4) with (table + ENTRY_ADDRESS + 4 * (i + 1)) in Hb by lia.
  apply IH; [done | done |]. intros b Hbin. apply Hs. by right.
Qed.

Lemma fmap_bytes_app (a b : list Z) : concat (Bytes.le_bytes 4 <$> (a ++ b)) = concat (Bytes.le_bytes 4 <$> a) ++ concat (Bytes.le_bytes 4 <$> b).
Proof. by rewrite fmap_app, concat_app. Qed.

Lemma zlen_entries (ds : list Z) : zlen (concat (Bytes.le_bytes 4 <$> ds)) = 4 * zlen ds.
Proof. induction ds as [| a ds IH]; [done |]. rewrite fmap_cons. cbn [concat]. rewrite Bytes.zlen_app, Bytes.zlen_le_bytes, IH. unfold zlen. cbn [length]. lia. Qed.

Lemma table_found m r table d before after es s : firmware m r table d before after es ->
  entries_loop (length (before ++ d :: after)) 0 m table s = Ret (set_mapic (mmu_p_to_v d) s).
Proof.
  intros [_ _ _ He (_ & Hu & _) Hs _ _ _]. rewrite fmap_bytes_app, bytes_at_app, zlen_entries in He. destruct He as [Hb He].
  apply entries_cons in He as [Hd He]. apply Forall_app in Hu as [Hu1 Hu2]. inversion_clear Hu2 as [| ? ? Hu3 Hu4].
  rewrite length_app, table_app. destruct (entries_any m table before 0 s) as [v ->].
  { by rewrite Z.add_0_r. }
  { done. }
  { intros a Ha. destruct (Hs a) as (l & Hl & Hlen & _); [set_solver | by exists l]. }
  rb. destruct (Hs d) as (l & Hl & Hlen & Hsig & _); [set_solver |]. cbn [length]. rewrite (entries_step m table d _ _ _ l); [| | done ..].
  2: { replace (table + ENTRY_ADDRESS + 4 * (0 + Z.of_nat (length before))) with (table + ENTRY_ADDRESS + 4 * zlen before) by (unfold zlen; lia). exact Hd. }
  rewrite bool_decide_true by by apply Hsig. rewrite entries_none; [done | | done |].
  - replace (table + ENTRY_ADDRESS + 4 * (0 + Z.of_nat (length before) + 1)) with (table + ENTRY_ADDRESS + 4 * zlen before + 4) by (unfold zlen; lia). exact He.
  - intros a Ha. destruct (Hs a) as (l' & Hl' & Hlen' & _ & Hne); [set_solver |]. exists l'. split; [done |]. split; [done |]. by apply Hne.
Qed.

(** ** The walk over the entries *)

Definition sized (s : apics) : Prop := zlen (lapics s) = MAX_CPU /\ zlen (ioapics s) = MAX_IOAPIC.

Lemma byte_at m p (l : list Z) (k : nat) b : bytes_at m p l -> l !! k = Some b -> ld m (p + Z.of_nat k) = Ret b.
Proof. intros Hb Hk. by apply ld_at, Hb. Qed.

Lemma register_encoded m ptr e s : bytes_at m ptr (encode e) -> entry_ok e -> sized s ->
  exists type, ld m ptr = Ret type /\ register m ptr type s = Ret (add_entry s e) /\ ld m (ptr + 1) = Ret (zlen (encode e)) /\ sized (add_entry s e).
Proof.
  intros Hb Hok [Hl Hi]. pose proof (fun k b => byte_at m ptr _ k b Hb) as Hk. unfold sized, zlen in *. replace (ld m ptr) with (ld m (ptr + Z.of_nat 0)) by (f_equal; lia).
  destruct e as [cpu lapic flags | i addr intr | type l]; cbn [encode] in *; cbn [entry_ok add_entry lapics ioapics] in *.
  - exists 0. split; [exact (Hk 0%nat 0 eq_refl) |]. split; [| split; [exact (Hk 1%nat 8 eq_refl) | rewrite length_insert; lia]].
    unfold register. change (0 =? MA_LOCAL_APIC) with true. cbn iota.
    change (ptr + 2) with (ptr + Z.of_nat 2). rewrite (Hk 2%nat cpu eq_refl). rb. change (ptr + 3) with (ptr + Z.of_nat 3). rewrite (Hk 3%nat lapic eq_refl). rb.
    unfold lapic_register_dev, MAX_CPU in *. rewrite leb_true, ltb_true by lia. cbn [andb]. change (kassert true) with (Ret tt). rb.
    rewrite wr_in by (unfold zlen; lia). done.
  - destruct Hok as (Hrange & Ha & Hg). exists 1. split; [exact (Hk 0%nat 1 eq_refl) |].
    split; [| split; [exact (Hk 1%nat 12 eq_refl) | rewrite length_insert; lia]].
    apply bytes_at_app in Hb as [_ Hb]. apply bytes_at_app in Hb as [Hba Hbg]. rewrite Bytes.zlen_le_bytes in Hbg.
    unfold register. change (1 =? MA_LOCAL_APIC) with false. change (1 =? MA_IO_APIC) with true. cbn iota.
    change (ptr + 2) with (ptr + Z.of_nat 2). rewrite (Hk 2%nat i eq_refl). rb. rewrite (ld_le_bytes m (ptr + 4) addr Hba Ha). rb.
    replace (ptr + zlen [1; 12; i; 0] + Z.of_nat 4) with (ptr + 8) in Hbg by (unfold zlen; cbn; lia). rewrite (ld_le_bytes m (ptr + 8) intr Hbg Hg). rb.
    unfold ioapic_register_dev, MAX_IOAPIC in *. rewrite ltb_true by lia. change (kassert true) with (Ret tt). rb. rewrite wr_in by (unfold zlen; lia). done.
  - exists type. split; [exact (Hk 0%nat type eq_refl) |]. split; [| split; [| done]].
    + unfold register, MA_LOCAL_APIC, MA_IO_APIC. by rewrite (proj2 (Z.eqb_neq type 0)), (proj2 (Z.eqb_neq type 1)) by tauto.
    + change (ptr + 1) with (ptr + Z.of_nat 1). rewrite (Hk 1%nat (2 + zlen l) eq_refl). f_equal. unfold zlen. cbn. lia.
Qed.

Lemma encode_length e : 2 <= zlen (encode e).
Proof. destruct e; unfold zlen; cbn; lia. Qed.

Lemma walk_spec m es : forall fuel ptr s, bytes_at m ptr (concat (encode <$> es)) -> Forall entry_ok es -> sized s ->
  (length (concat (encode <$> es)) < fuel)%nat ->
  walk fuel m ptr (ptr + zlen (concat (encode <$> es))) s = Ret (foldl add_entry s es).
Proof.
  induction es as [| e es IH]; intros [| fuel] ptr s Hb Hok Hs Hf; try lia; cbn [walk].
  - rewrite ltb_false by (unfold zlen; cbn; lia). done.
  - rewrite fmap_cons in *. cbn [concat] in *. rewrite Bytes.zlen_app, length_app in *. apply bytes_at_app in Hb as [He Hb]. inversion_clear Hok.
    pose proof (encode_length e) as H2. pose proof (zlen_nonneg (concat (encode <$> es))).
    destruct (register_encoded m ptr e s He) as (type & E1 & E2 & E3 & Hs'); [done | done |]. rewrite ltb_true by lia. rewrite E1. rb. rewrite E2. rb. rewrite E3. rb.
    rewrite Z.add_assoc. cbn [foldl]. apply IH; [done | done | done | unfold zlen in *; lia].
Qed.

(** An entry that says it has no bytes: the loop stays there. *)
Lemma walk_zero_length m ptr end_ s type : ptr < end_ -> ld m ptr = Ret type -> type <> 0 -> type <> 1 -> ld m (ptr + 1) = Ret 0 ->
  forall fuel, walk fuel m ptr end_ s = Spin.
Proof.
  intros Hlt Ht H0 H1 Hl. induction fuel as [| fuel IH]; cbn [walk]; [done |]. rewrite ltb_true by done. rewrite Ht. rb.
  unfold register, MA_LOCAL_APIC, MA_IO_APIC. rewrite (proj2 (Z.eqb_neq type 0)), (proj2 (Z.eqb_neq type 1)) by done. rb. rewrite Hl. rb. by rewrite Z.add_0_r.
Qed.

(** C28: What the firmware has written is what is registered: the root
    descriptor is found in the one or the other area, the table of the APICs
    through it, and exactly the processors and I/O APICs of its entries are
    recorded, in order, whatever other entries there are.  The flags do not
    count: a processor that is disabled is one more. *)
Theorem acpi_init_registers (m : mem) (s : apics) (r table d acpica : Z) (before after : list Z) (es : list entry) :
  firmware m r table d before after es -> sized s ->
  acpi_init acpica m s = Ret (acpica, foldl add_entry (set_mapic (mmu_p_to_v d) s) es).
Proof.
  intros Hfw Hs. destruct (root_found m r (fw_root _ _ _ _ _ _ _ Hfw)) as [Er Hr]. unfold acpi_init.
  rewrite <- bind_assoc, Er. rb.
  destruct (fw_desc _ _ _ _ _ _ _ Hfw) as (l & Hl & Hlen & Hsum). destruct (fw_addrs _ _ _ _ _ _ _ Hfw) as (Hta & Hds & Hn).
  destruct (fw_ok _ _ _ _ _ _ _ Hfw) as (Hok & Hsize & Hd). pose proof (zlen_nonneg (before ++ d :: after)) as Hpos.
  assert (Hval : __validate_rspd_description m r = Ret true).
  { unfold __validate_rspd_description. rewrite (proj2 (Z.eqb_neq r 0)) by done. change (kassert (negb false)) with (Ret tt). rb.
    pose proof (sum_spec m _ _ Hl) as E. rewrite length_app, Bytes.length_le_bytes, Hlen in E. change (Z.to_nat SIZEOF_RSPD) with (16 + 4)%nat. rewrite E. rb.
    change 0xff with (Z.ones 8). rewrite Z.land_ones by lia. change (2 ^ 8) with 256. by rewrite Hsum, Z.eqb_refl. }
  rewrite Hval. rb. cbn [negb]. cbn iota. apply bytes_at_app in Hl as [_ Hrt]. unfold zlen in Hrt. rewrite Hlen in Hrt.
  rewrite (ld_le_bytes m (r + RSTD_ADDR) table Hrt Hta). rb. rewrite (ld_le_bytes _ _ _ (fw_length _ _ _ _ _ _ _ Hfw)) by (unfold in_u; lia). rb.
  replace (36 + 4 * zlen (before ++ d :: after) - 36) with (zlen (before ++ d :: after) * 4) by lia.
  unfold u32. rewrite wrap_small by (unfold in_u; lia). rewrite Z.div_mul by done.
  unfold zlen at 1. rewrite Nat2Z.id, (table_found m r table d before after es s Hfw). rb. cbn [mapic set_mapic]. rewrite (proj2 (Z.eqb_neq _ 0)) by done.
  rewrite (ld_le_bytes _ _ _ (fw_madt _ _ _ _ _ _ _ Hfw)) by (unfold in_u, APICS in *; pose proof (zlen_nonneg (concat (encode <$> es))); lia). rb.
  rewrite Z.add_assoc, (walk_spec m es); [done | exact (fw_apics _ _ _ _ _ _ _ Hfw) | done | exact Hs |]. unfold zlen, APICS. lia.
Qed.

(** ** A machine with one processor *)

Definition put (p : Z) (l : list Z) (m : mem) : mem := foldr (fun '(i, b) => <[p + Z.of_nat i := b]>) m (imap pair l).
Definition sample_rsdp : list Z := needle ++ [216; 0; 0; 0; 0; 0; 0; 0].
Definition sample_es : list entry := [Lapic 0 3 1; Other 2 [0; 9]; Ioapic 0 0xfec00000 0].
Definition sample_fw : mem :=
  put 0x80000 (sample_rsdp ++ Bytes.le_bytes 4 0x90000)
    (put 0x90004 (Bytes.le_bytes 4 40) (put 0x90024 (Bytes.le_bytes 4 0x91000) (put 0x91000 APIC
      (put 0xffffffff80091004 (Bytes.le_bytes 4 68) (put 0xffffffff8009102c (concat (encode <$> sample_es)) ∅))))).
Definition no_apics : apics := mk_apics (replicate 64 (0, 0)) 0 0 (replicate 20 (mk_ioapic 0 0 0)) 0.

Ltac in_memory := repeat (apply bytes_at_cons; split; [vm_compute; reflexivity |]); intros ? ? ?; discriminate.

Lemma sample_firmware : firmware sample_fw 0x80000 0x90000 0x91000 [] [] sample_es.
Proof.
  split.
  - left. exists 0%nat. split; [done |]. split; [done |]. split; [cbn; in_memory | lia].
  - exists sample_rsdp. split; [cbn; in_memory |]. split; reflexivity.
  - cbn; in_memory.
  - cbn; in_memory.
  - split; [done |]. split; [repeat constructor; unfold in_u; lia | done].
  - intros a Ha%list_elem_of_singleton. subst a. exists APIC. split; [cbn; in_memory |]. split; [done |]. split; [done |]. by intros ?%elem_of_nil.
  - cbn; in_memory.
  - cbn; in_memory.
  - split; [repeat constructor; cbn; unfold MAX_CPU, MAX_IOAPIC, in_u; lia | done].
Qed.

Lemma acpi_init_registers_witness : exists s, acpi_init 0 sample_fw no_apics = Ret (0, s) /\ lapic_get_cpu_count s = 1 /\
  lapic_get_lapic_id s 0 = Ret 3 /\ ioapic_get_base s = Ret 0xfec00000.
Proof.
  eexists. split; [apply (acpi_init_registers sample_fw no_apics 0x80000 0x90000 0x91000 0 [] [] sample_es); [exact sample_firmware | split; reflexivity] |].
  vm_compute. repeat split; reflexivity.
Defined.
End Acpi.
